(* ===== verification/_CoqProject ===== *)
-Q . S2P
Prelude.v
Bitmap.v
CMath.v
CString.v
Datetime.v
Links.v
DList.v
NList.v
MBlock.v
Sched.v
Threads.v
Segment.v
Fixq.v
Pktbuf.v
PktbufSpec.v
PktbufAccess.v
Checksum.v
Layout.v
Paging.v
PagingSpec.v
PagingRuns.v
IpAddr.v
Link.v
LinkSpec.v
Ip.v
IpSpec.v
Sock.v
Net.v
SockSpec.v
Disk.v
File.v
Fat16.v
Fat16Spec.v
Fs.v
FsSpec.v
Fat16Fs.v
Process.v
ProcessSpec.v
Console.v
ConsoleSpec.v
BlockQueue.v
Tty.v
TtySpec.v
Stdio.v
Malloc.v
MallocSpec.v
Ext2.v
Ext2Spec.v
Elf.v
Clock.v
Hlist.v
Socket.v
Spawn.v
SpawnSpec.v
SpawnLists.v
SpawnRuns.v
Ports.v
Gates.v
Pci.v
PciNames.v
Rtl8139.v
Rtl8139Spec.v
Rtl8139Runs.v
Execve.v
Syscall.v
MemMap.v
Userlib.v
Shell.v
Ping.v
ShellSpec.v
Exmsg.v
Ata.v
