(* ===== verification/Prelude.v ===== *)
(** * Verification of the clean_os kernel

    clean_os is a small 32-bit x86 kernel in C.  This library models its core
    as executable definitions translated from the source, and proves what makes
    each part correct.  Paths below are relative to src/.

    ** The program and the files that model it

    - Helpers.  [Bitmap] (common/lib/bitmap.c), [CMath] (common/tool/math.h,
      common/lib/hash.h), [CString] (common/lib/string.c, include/net_util.h),
      [Datetime] (common/tool/datetime.h), [Stdio] (common/lib/stdio.c),
      [BlockQueue] (common/lib/block_queue.c).
    - Lists.  [Links] is the heap of list nodes; [DList] models the kernel's
      list (common/lib/list.c), [NList] the network stack's
      (kernel/net/nlist.c), [Hlist] the lists of common/lib/hlist.h.  All are
      shown to refine sequences, and the components above use the sequences
      where the nodes do not matter.
    - Threads.  [Sched] models the ready and sleep queues and [schedule]
      (kernel/thread/thread.c), [Threads] the runs of the timer, [Segment] the
      semaphores (kernel/thread/schedule/segment.c).  [Process], over these and
      [Paging], models identifiers, task lookups, wait, exit, mmap (thread.c,
      kernel/thread/process.c) and completions (schedule/completion.c), with
      [ProcessSpec].  [Spawn] models the creation of processes and threads
      (execute, fork, clone, the way into user mode; common/lib/stack.c), with
      the memory of a forked child in [SpawnSpec], the lists of tasks in
      [SpawnLists] and a concrete machine in [SpawnRuns].  [Elf] models the two
      program loaders (common/elf/parse.c, kernel/thread/execve.c) and [Execve]
      the replacement of a program (execve.c) over [Fs], [Elf] and [Spawn].
    - Memory.  [Paging] models the page allocators, page tables and address
      spaces (kernel/memory/paging.c, common/cpu/mem_page.c); [PagingSpec]
      proves its operations, [PagingRuns] evaluates them.  [Malloc] models the
      heaps (glibc/memory/malloc/malloc.c), with [MallocSpec].  [MemMap] models
      the memory map of the BIOS and the size the kernel takes from it
      (common/interrupt/memory_info.c, kernel/memory/mem.c).
    - Hardware.  [Ports] is the interface to the ports of the machine
      (common/cpu/contrl.h).  Over it, [Gates] models segments, interrupt gates
      and the interrupt controllers (kernel/memory/segment.c, kernel/interrupt,
      kernel/time/pit.c), [Pci] and [PciNames] the PCI bus (kernel/device/pci)
      and [Rtl8139] the network card (kernel/net/driver/rtl8139.c), with
      [Rtl8139Spec] and a simulated card in [Rtl8139Runs].
    - Network.  [MBlock] (mblock.c), [Fixq] (fixq.c) with its interleavings,
      [Pktbuf], [PktbufSpec], [PktbufAccess] (pktbuf.c), [Checksum] (util.h),
      [Layout] (packed headers laid over packets), [IpAddr] and [Ip] (ip.c,
      with [IpSpec]), [Link] (netif.c, arp.c, ether.c, with [LinkSpec]), [Sock]
      (sock.c, udp.c, raw.c, icmp.c, with [SockSpec]), [Net] (the thread of
      exmsg.c that connects them), [Exmsg] (its messages and the calls into it
      with their interleavings) and [Socket] (the calls of socket.c and the
      interleavings of receivers), all of kernel/net.
    - Files.  [Disk] models the device table and the ATA driver
      (kernel/device/device.c, disk/disk.c) over a store of sectors, and [Ata]
      the driver at its ports, which refines it; [File] the table of open files
      (kernel/fs/file.c), [Fat16] the FAT16 file system (kernel/fs/fat16fs.c,
      with [Fat16Spec]), [Ext2] the ext2 file system (kernel/fs/ext2.c, with
      [Ext2Spec]), [Fs] the system calls, devfs and the descriptors of a
      task (kernel/fs/fs.c, devfs.c, thread.c, with [FsSpec]), [Fat16Fs] FAT16
      and the calls together.
    - Terminal and clock.  [Console] models the screen, [Tty] the line
      discipline and the keyboard (kernel/device/tty, with [ConsoleSpec] and
      [TtySpec]), [Clock] the real-time clock and the time stamps
      (kernel/device/rtc/cmos.c, kernel/time).
    - User programs.  [Syscall] models the system calls from the stubs of the
      user library (applib/syscall) to the table of the kernel
      (kernel/syscall/syscall_kernel.c); [Userlib] the library for input and
      output (glibc/io/std.c) over the interface [Kernel] of these calls;
      [Shell] and [Ping] the shell (app/shell), with [ShellSpec].

    ** How code becomes definitions

    A C function is a Rocq function of the state it reads and writes that
    answers an [option]: [None] is a fault, that is a NULL or wild pointer, an
    access outside an object, a division by zero or a variable used before it
    is set.  Error codes are values.  Integers are [Z]; the wrap-around of the
    C types is written out with [u8], [u16], [u32], [i32] and the like.  A
    pointer is the address of an object in a finite map, or an index where the
    code points into an array.  Loops recurse over a count, or over fuel when
    the source does not bound them: where fuel is computed in the definition, a
    comment says why it is enough; [is_pow], [strchrs], [free_cluster_chain]
    and [get_file_cluster_count] take it as an argument since the C loop need
    not end.  Structures that C overlays on bytes are read and written through
    [Packed] (in [Layout]) or at their offsets.

    Interfaces between components are classes or records of operations, as
    the source has tables of function pointers: [Packed] for headers in
    packets, [device_desc_t] for drivers, [fs_ops_t] for file systems, and
    [BlockDev] with its laws [BlockDevOk] between a file system and the device
    below it, which [disk_block_ok] discharges for the disk, [PageAlloc] with
    [PageAllocOk] between a heap and its pages, [UserMem] with [UserMemOk]
    between a loader and the memory it fills, [Readable] between the loader of
    a program and the file it reads, and [Kernel] with [Terminal] between user
    programs and the system.  [Ports] stands for the machine; [PicLaws],
    [PciLaws], [RxCard], [AtaLaws] and [E820] say what its interrupt controllers,
    its PCI bus, its network card, its disk controllers and its BIOS promise, and each has an instance that
    simulates such a device.  Threads of a process share one allocator:
    [Process] names it by the address of its bits.

    ** Parameters

    Code outside the source, hardware, and C's undefined values are arguments
    of the definitions that meet them: [xmit] (the transmit function behind an
    interface, which [Rtl8139Spec] instantiates with the driver), [at_null] (the bytes at address 0, where a NULL pointer is
    read), [icmp_out_result], [frag_alloc_result] and [udp_bind_local] (results
    of functions without a return statement or of uninitialised variables), the
    result of [copy_process_mem], the readings of the real-time clock, the
    junk of [fat16_open] and of [ping], the clock, the answer of a disk to IDENTIFY, and the
    sectors of the disks.

    ** What the theorems show

    - Refinement: lists, pools, the scheduler, the ARP table, the disk and the
      terminal implement sequences, a pool, a scheduling policy, a table in
      order of use, a sector store and a screen of text.
    - Invariants: no task is lost by [schedule]; the message queue is
      first-in first-out under every interleaving, and calls
      into the network thread take effect one at a time in that order; the device table has one
      entry per device; the reference counts of open files are the numbers of
      their descriptors; the FAT16 cache agrees with the disk ([fat_ok]); the
      blocks of a heap do not overlap; the lists of tasks stay in order when a
      process is forked.
    - Functional behaviour: semaphores, completions, identifiers and the end
      of a process, the memory of a forked child, program loading, packet
      buffers, page allocation and mapping, fragments of datagrams, Ethernet
      frames down to the slots of the card and packets up from its buffer,
      ports, PCI devices and their regions, the size of the memory, directories
      of ext2, lines read from a terminal, and a turn of the shell from the
      keys to the screen.
    - Well-formed tables: segments, interrupt gates and system calls lead where
      they should, with the privileges they should have.
    - Equivalence with reference definitions: checksums, the calendar, the two
      read loops of FAT16, formatted printing; the stubs of the user library
      and the kernel functions they are named after.
    - Round trips: packet and file contents, directory entries, sectors,
      dates, decimal numbers, page allocation.
    - Liveness and termination: a ready task runs after the slices before it;
      no wake-up of a receiver is lost; a call into the network thread
      returns; [strtok_r] reaches the end of its
      string; the handler of the network card ends whatever the card answers.
    - Where the code departs from what it means to do, a lemma evaluates the
      model on an input that shows it.

    ** Not modelled, and why

    Assembly and mode switches (boot, loader, kernel/start.S, the context
    switch, the entries of interrupts and system calls, whose effect appears as
    the words they pass on), control registers, the e1000 driver, which is
    unfinished and not compiled in, the programs app/init and app/net, which
    are a few calls in a loop, the functions that only write log lines, and the
    kernel's own tests.  kernel/fs/b_plus_tree.c and kernel/device/pci/device.c
    are empty. *)
From stdpp Require Export base tactics list list_numbers gmap.
From Stdlib Require Export ZArith Lia.

#[global] Open Scope Z_scope.

(** ** Machine integers
    A C integer of width w is a [Z] in the range of its type; every C
    operation that can leave the range is followed by one of these. *)

Definition u8 (x : Z) : Z := x mod 256.
Definition u16 (x : Z) : Z := x mod 65536.
Definition u32 (x : Z) : Z := x mod 4294967296.
Definition u64 (x : Z) : Z := x mod 18446744073709551616.
Definition i32 (x : Z) : Z := (x + 2147483648) mod 4294967296 - 2147483648.
Definition i64 (x : Z) : Z :=
  (x + 9223372036854775808) mod 18446744073709551616 - 9223372036854775808.

(** C truth values stored in integers. *)
Definition nz (x : Z) : bool := negb (x =? 0).
Definition b2z (b : bool) : Z := if b then 1 else 0.

(** ** Arithmetic automation *)

Ltac divmod := Z.to_euclidean_division_equations; nia.
Ltac zbool :=
  repeat match goal with
  | H : (_ && _)%bool = true |- _ => apply andb_true_iff in H as [? ?]
  | H : (_ || _)%bool = false |- _ => apply orb_false_iff in H as [? ?]
  | H : negb _ = true |- _ => apply negb_true_iff in H
  | H : negb _ = false |- _ => apply negb_false_iff in H
  | H : (_ =? _) = true |- _ => apply Z.eqb_eq in H
  | H : (_ =? _) = false |- _ => apply Z.eqb_neq in H
  | H : (_ <? _) = true |- _ => apply Z.ltb_lt in H
  | H : (_ <? _) = false |- _ => apply Z.ltb_ge in H
  | H : (_ <=? _) = true |- _ => apply Z.leb_le in H
  | H : (_ <=? _) = false |- _ => apply Z.leb_gt in H
  | H : (_ >? _) = _ |- _ => rewrite Z.gtb_ltb in H
  | H : (_ >=? _) = _ |- _ => rewrite Z.geb_leb in H
  end.
(** Case analysis on the outermost C condition of the goal. *)
Ltac cif :=
  match goal with
  | |- context [if ?b then _ else _] => destruct b eqn:?; zbool
  end.
Ltac cif_in H :=
  match type of H with
  | context [if ?b then _ else _] => destruct b eqn:?; zbool
  end.
(** Opens a monadic hypothesis [x ← m; k = Some r]. *)
Ltac mopen :=
  repeat match goal with
  | H : mbind _ _ = Some _ |- _ => apply bind_Some in H as (? & ? & H)
  | H : Some _ = Some _ |- _ => injection H as H; subst
  | H : None = Some _ |- _ => discriminate H
  end.

(** Reduces a bind whose first computation has been rewritten to [Some]. *)
Ltac mstep := cbn [mbind option_bind].

Create Rewrite HintDb cint.

Lemma u8_small x : 0 <= x < 256 -> u8 x = x.
Proof. apply Z.mod_small. Qed.
Lemma u16_small x : 0 <= x < 65536 -> u16 x = x.
Proof. apply Z.mod_small. Qed.
Lemma u32_small x : 0 <= x < 4294967296 -> u32 x = x.
Proof. apply Z.mod_small. Qed.
Lemma u64_small x : 0 <= x < 18446744073709551616 -> u64 x = x.
Proof. apply Z.mod_small. Qed.
Lemma i32_small x : -2147483648 <= x < 2147483648 -> i32 x = x.
Proof. intros H. unfold i32. rewrite Z.mod_small; lia. Qed.
Lemma u8_range x : 0 <= u8 x < 256.
Proof. by apply Z.mod_pos_bound. Qed.
Lemma u16_range x : 0 <= u16 x < 65536.
Proof. by apply Z.mod_pos_bound. Qed.
Lemma u32_range x : 0 <= u32 x < 4294967296.
Proof. by apply Z.mod_pos_bound. Qed.
#[export] Hint Rewrite u8_small u16_small u32_small u64_small i32_small
  using lia : cint.

(** ** Bounds from bits *)

Lemma lt_pow2_bits n x : 0 <= n -> 0 <= x ->
  (forall i, n <= i -> Z.testbit x i = false) -> x < 2 ^ n.
Proof. intros Hn Hx. by apply Z.bounded_iff_bits_nonneg. Qed.

Lemma bits_lt_pow2 n x i : 0 <= n -> 0 <= x < 2 ^ n -> n <= i ->
  Z.testbit x i = false.
Proof. intros Hn [Hx Hlt]. by apply Z.bounded_iff_bits_nonneg. Qed.

Lemma land_bound n x y : 0 <= n -> 0 <= x < 2 ^ n -> 0 <= Z.land x y < 2 ^ n.
Proof.
  intros Hn Hx. assert (0 <= Z.land x y) by (apply Z.land_nonneg; lia).
  split; [done|]. apply lt_pow2_bits; [done..|].
  intros i Hi. by rewrite Z.land_spec, (bits_lt_pow2 n).
Qed.

Lemma lor_bound n x y : 0 <= n -> 0 <= x < 2 ^ n -> 0 <= y < 2 ^ n ->
  0 <= Z.lor x y < 2 ^ n.
Proof.
  intros Hn Hx Hy. assert (0 <= Z.lor x y) by (apply Z.lor_nonneg; lia).
  split; [done|]. apply lt_pow2_bits; [done..|].
  intros i Hi. by rewrite Z.lor_spec, !(bits_lt_pow2 n).
Qed.

(** ** Arrays
    A C array (or the memory a pointer is valid for) is a list; an access out
    of its bounds has no defined result. *)

Section Arrays.
Context {A : Type}.

Definition zget (l : list A) (i : Z) : option A :=
  if i <? 0 then None else l !! Z.to_nat i.

Definition zset (l : list A) (i : Z) (v : A) : option (list A) :=
  if (0 <=? i) && (i <? Z.of_nat (length l)) then Some (<[Z.to_nat i := v]> l)
  else None.

Definition zlen (l : list A) : Z := Z.of_nat (length l).

Lemma zget_Some l i v : zget l i = Some v -> 0 <= i < zlen l.
Proof.
  unfold zget, zlen. cif; [done|]. intros Hl%lookup_lt_Some. lia.
Qed.
Lemma zget_is_Some l i : 0 <= i < zlen l -> exists v, zget l i = Some v.
Proof.
  unfold zget, zlen. intros Hi. cif; [lia|]. apply lookup_lt_is_Some_2. lia.
Qed.
Lemma zget_nat l (n : nat) : zget l (Z.of_nat n) = l !! n.
Proof. unfold zget. cif; [lia|]. by rewrite Nat2Z.id. Qed.
Lemma zset_is_Some l i v : 0 <= i < zlen l ->
  zset l i v = Some (<[Z.to_nat i := v]> l).
Proof.
  unfold zset, zlen. intros Hi. destruct (Z.leb_spec 0 i); [|lia].
  destruct (Z.ltb_spec i (Z.of_nat (length l))); [done|lia].
Qed.
Lemma zset_Some l i v l' : zset l i v = Some l' ->
  0 <= i < zlen l /\ l' = <[Z.to_nat i := v]> l.
Proof.
  unfold zset, zlen. cif; [|done]. intros [= <-]. split; [lia|done].
Qed.
Lemma zlen_zset l i v l' : zset l i v = Some l' -> zlen l' = zlen l.
Proof. intros [_ ->]%zset_Some. unfold zlen. by rewrite length_insert. Qed.
Lemma zget_zset l i v l' j : zset l i v = Some l' ->
  zget l' j = if j =? i then Some v else zget l j.
Proof.
  unfold zlen. intros [Hi ->]%zset_Some. unfold zlen in Hi. unfold zget.
  destruct (Z.ltb_spec j 0), (Z.eqb_spec j i); try done; try lia; subst.
  - apply list_lookup_insert_eq. lia.
  - apply list_lookup_insert_ne. lia.
Qed.
Lemma zlen_app (l k : list A) : zlen (l ++ k) = zlen l + zlen k.
Proof. unfold zlen. rewrite length_app. lia. Qed.
Lemma zlen_nonneg (l : list A) : 0 <= zlen l.
Proof. unfold zlen. lia. Qed.

End Arrays.

(** ** Filtering *)

Lemma filter_ext_in {A} (P Q : A -> Prop) `{!forall x, Decision (P x)}
    `{!forall x, Decision (Q x)} (l : list A) :
  (forall x, x ∈ l -> P x <-> Q x) -> filter P l = filter Q l.
Proof.
  induction l as [|x l IH]; intros Hl; [done|]. rewrite !filter_cons.
  rewrite IH by (intros y Hy; apply Hl; set_solver).
  specialize (Hl x (list_elem_of_here x l)).
  destruct (decide (P x)), (decide (Q x)); tauto.
Qed.

Lemma filter_all {A} (P : A -> Prop) `{!forall x, Decision (P x)} (l : list A) :
  (forall x, x ∈ l -> P x) -> filter P l = l.
Proof.
  induction l as [|x l IH]; intros Hl; [done|].
  rewrite filter_cons_True by (apply Hl; set_solver). rewrite IH; [done|].
  intros y Hy. apply Hl. set_solver.
Qed.

(** ** Loops
    [for_ n i body s] is [for (; n iterations left; i++) s = body(i, s)]. *)

Section Loops.
Context {S : Type}.

Fixpoint for_ (n : nat) (i : Z) (body : Z -> S -> option S) (s : S) : option S :=
  match n with
  | O => Some s
  | Datatypes.S n' => s' ← body i s; for_ n' (i + 1) body s'
  end.

(** Invariant rule: the body is total and keeps [I]. *)
Lemma for_inv (I : Z -> S -> Prop) body n i s :
  I i s ->
  (forall j s, i <= j < i + Z.of_nat n -> I j s ->
     exists s', body j s = Some s' /\ I (j + 1) s') ->
  exists s', for_ n i body s = Some s' /\ I (i + Z.of_nat n) s'.
Proof.
  revert i s. induction n as [|n IH]; intros i s HI Hb; simpl.
  - exists s. by replace (i + Z.of_nat 0) with i by lia.
  - destruct (Hb i s) as (s1 & -> & H1); [lia|done|]. simpl.
    destruct (IH (i + 1) s1) as (s2 & -> & H2); [done|..].
    + intros j s' Hj. apply Hb. lia.
    + exists s2. by replace (i + Z.of_nat (Datatypes.S n))
        with (i + 1 + Z.of_nat n) by lia.
Qed.

(** Partial-correctness rule. *)
Lemma for_inv_partial (I : Z -> S -> Prop) body n i s s' :
  I i s ->
  (forall j s s', i <= j < i + Z.of_nat n -> I j s -> body j s = Some s' ->
     I (j + 1) s') ->
  for_ n i body s = Some s' -> I (i + Z.of_nat n) s'.
Proof.
  revert i s. induction n as [|n IH]; intros i s HI Hb; simpl.
  - intros [= <-]. by replace (i + Z.of_nat 0) with i by lia.
  - intros (s1 & H1 & H)%bind_Some.
    replace (i + Z.of_nat (Datatypes.S n)) with (i + 1 + Z.of_nat n) by lia.
    eapply IH; [| |done].
    + eapply Hb; [|done..]. lia.
    + intros j t t' Hj. apply Hb. lia.
Qed.

(** A loop in two parts. *)
Lemma for_add body n k i s :
  for_ (n + k) i body s = (s' ← for_ n i body s; for_ k (i + Z.of_nat n) body s').
Proof.
  revert i s. induction n as [|n IH]; intros i s; cbn [for_ Nat.add].
  - mstep. by replace (i + Z.of_nat 0) with i by lia.
  - destruct (body i s) as [s1|]; [|done]. mstep. rewrite IH.
    by replace (i + 1 + Z.of_nat n) with (i + Z.of_nat (Datatypes.S n)) by lia.
Qed.

(** A loop whose body may leave the enclosing function with a value. *)
Fixpoint for_ret {R : Type} (n : nat) (i : Z) (body : Z -> S -> option (S * option R))
    (s : S) : option (S * option R) :=
  match n with
  | O => Some (s, None)
  | Datatypes.S n' =>
      '(s', r) ← body i s;
      match r with
      | Some _ => Some (s', r)
      | None => for_ret n' (i + 1) body s'
      end
  end.

(** Invariant rule for a loop that runs to its end. *)
Lemma for_ret_inv {R : Type} (I : Z -> S -> Prop)
    (body : Z -> S -> option (S * option R)) n i s :
  I i s ->
  (forall j s, i <= j < i + Z.of_nat n -> I j s ->
     exists s', body j s = Some (s', None) /\ I (j + 1) s') ->
  exists s', for_ret n i body s = Some (s', None) /\ I (i + Z.of_nat n) s'.
Proof.
  revert i s. induction n as [|n IH]; intros i s HI Hb; simpl.
  - exists s. by replace (i + Z.of_nat 0) with i by lia.
  - destruct (Hb i s) as (s1 & -> & H1); [lia|done|]. simpl.
    destruct (IH (i + 1) s1) as (s2 & -> & H2); [done|..].
    + intros j s' Hj. apply Hb. lia.
    + exists s2. by replace (i + Z.of_nat (Datatypes.S n))
        with (i + 1 + Z.of_nat n) by lia.
Qed.

End Loops.
