(* ===== verification/Bitmap.v ===== *)
(** * The bitmap of common/lib/bitmap.c

    A [bitmap_t] is a length in bytes and a pointer to the bytes.  The pointer
    is modelled by the list of bytes readable from it, which may be longer
    than [bytes_len]: reading past the list is an access the C code has no
    right to make, and gives [None].  [bit] is the abstract view: the truth
    value of the bit of an index. *)

From S2P Require Import Prelude.

Record bitmap_t := Bitmap { bytes_len : Z; bits : list Z }.

Definition BITMAP_MASK : Z := 1.

Definition bitmap_init (btm : bitmap_t) : option bitmap_t :=
  bits' ← for_ (Z.to_nat (bytes_len btm)) 0 (fun i l => zset l i 0) (bits btm);
  Some (Bitmap (bytes_len btm) bits').

Definition bitmap_scan_test (btm : bitmap_t) (bit_idx : Z) : option bool :=
  let byte_idx := bit_idx / 8 in
  let bit_odd := bit_idx mod 8 in
  v ← zget (bits btm) byte_idx;
  Some (nz (Z.land v (Z.shiftl BITMAP_MASK bit_odd))).

(** [while (bits[byte_idx] == 0xff && byte_idx < bytes_len) byte_idx++] *)
Fixpoint skip_full (fuel : nat) (btm : bitmap_t) (byte_idx : Z) : option Z :=
  match fuel with
  | O => None
  | S fuel' =>
      v ← zget (bits btm) byte_idx;
      if (v =? 255) && (byte_idx <? bytes_len btm)
      then skip_full fuel' btm (u32 (byte_idx + 1))
      else Some byte_idx
  end.

(** [while (bits[byte_idx] & (MASK << bit_idx)) bit_idx++] *)
Fixpoint first_zero (fuel : nat) (v : Z) (bit_idx : Z) : option Z :=
  match fuel with
  | O => None
  | S fuel' =>
      if nz (Z.land v (Z.shiftl BITMAP_MASK bit_idx))
      then first_zero fuel' v (bit_idx + 1)
      else Some bit_idx
  end.

(** [while (bit_left-- > 0)], one iteration per unit of [bit_left]. *)
Fixpoint scan_run (bit_left : nat) (btm : bitmap_t) (cnt next_bit find_cnt : Z)
    : option Z :=
  match bit_left with
  | O => Some (-1)
  | S bit_left' =>
      used ← bitmap_scan_test btm next_bit;
      let find_cnt' := if (used : bool) then 0 else u32 (find_cnt + 1) in
      if find_cnt' =? cnt then Some (i32 (u32 (next_bit - cnt + 1)))
      else scan_run bit_left' btm cnt (u32 (next_bit + 1)) find_cnt'
  end.

Definition bitmap_scan (btm : bitmap_t) (cnt : Z) : option Z :=
  byte_idx ← skip_full (S (Z.to_nat (bytes_len btm))) btm 0;
  if bytes_len btm <=? byte_idx then Some (-1)
  else
    v ← zget (bits btm) byte_idx;
    bit_idx ← first_zero 33 v 0;
    if cnt =? 1 then Some (i32 (u32 (byte_idx * 8 + bit_idx)))
    else
      let bit_left := u32 (bytes_len btm * 8 - (byte_idx * 8 + bit_idx)) in
      let next_bit := u32 (byte_idx * 8 + bit_idx + 1) in
      scan_run (Z.to_nat bit_left) btm cnt next_bit 1.

Definition bitmap_set (btm : bitmap_t) (bit_idx value : Z) : option bitmap_t :=
  let byte_idx := bit_idx / 8 in
  let bit_odd := bit_idx mod 8 in
  v ← zget (bits btm) byte_idx;
  let v' := if nz value then u8 (Z.lor v (Z.shiftl BITMAP_MASK bit_odd))
            else u8 (Z.land v (Z.lnot (Z.shiftl BITMAP_MASK bit_odd))) in
  bits' ← zset (bits btm) byte_idx v';
  Some (Bitmap (bytes_len btm) bits').

(** The visitor of [bitmap_foreach] is a state transformer over its [arg];
    [true] asks for the next bit, [false] stops the whole traversal. *)
Section Foreach.
Context {A : Type} (visitor : bitmap_t -> Z -> A -> option (A * bool)).

Fixpoint visit_bits (n : nat) (btm : bitmap_t) (idx_bit : Z) (arg : A)
    : option (A * bool) :=
  match n with
  | O => Some (arg, true)
  | S n' =>
      '(arg', more) ← visitor btm idx_bit arg;
      if (more : bool) then visit_bits n' btm (idx_bit + 1) arg'
      else Some (arg', false)
  end.

Fixpoint visit_bytes (n : nat) (btm : bitmap_t) (fast_value : Z) (idx_byte : Z)
    (arg : A) : option (A * bool) :=
  match n with
  | O => Some (arg, true)
  | S n' =>
      v ← zget (bits btm) idx_byte;
      let has_value := 0 <? v in
      let visit := (nz fast_value && has_value)
                   || (negb (nz fast_value) && negb has_value) in
      if visit then
        '(arg', more) ← visit_bits 8 btm (idx_byte * 8) arg;
        if (more : bool) then visit_bytes n' btm fast_value (idx_byte + 1) arg'
        else Some (arg', false)
      else visit_bytes n' btm fast_value (idx_byte + 1) arg
  end.

Definition bitmap_foreach (btm : bitmap_t) (fast_value : Z) (arg : A)
    : option A :=
  '(arg', _) ← visit_bytes (Z.to_nat (bytes_len btm)) btm fast_value 0 arg;
  Some arg'.

End Foreach.

(** ** The abstract view *)

(** The bit of an index, in the bytes the pointer can read. *)
Definition bit (btm : bitmap_t) (i : Z) : bool :=
  match zget (bits btm) (i / 8) with
  | Some v => Z.testbit v (i mod 8)
  | None => false
  end.

(** Well-formed: the bytes are bytes, at least [bytes_len] of them are
    readable, and the number of bits fits an [int]. *)
Record bitmap_wf (btm : bitmap_t) : Prop := {
  wf_bytes : Forall (fun v => 0 <= v < 256) (bits btm);
  wf_len : 0 <= bytes_len btm <= zlen (bits btm);
  wf_int : bytes_len btm < 2 ^ 27;
}.

(** One more byte than [bytes_len] is readable, as [bitmap_scan] needs. *)
Definition slack (btm : bitmap_t) : Prop := bytes_len btm < zlen (bits btm).

Lemma wf_byte btm i v : bitmap_wf btm -> zget (bits btm) i = Some v ->
  0 <= v < 256.
Proof.
  intros [H _ _] Hv. unfold zget in Hv. cif_in Hv; [done|].
  by eapply Forall_lookup_1 in H.
Qed.

Lemma nz_land_mask v k : 0 <= k ->
  nz (Z.land v (Z.shiftl BITMAP_MASK k)) = Z.testbit v k.
Proof.
  intros Hk. unfold nz, BITMAP_MASK. rewrite Z.shiftl_1_l.
  destruct (Z.testbit v k) eqn:E.
  - destruct (Z.eqb_spec (Z.land v (2 ^ k)) 0) as [E0|]; [|done].
    apply (f_equal (fun x => Z.testbit x k)) in E0.
    rewrite Z.land_spec, E, Z.pow2_bits_true, Z.bits_0 in E0 by lia. done.
  - replace (Z.land v (2 ^ k)) with 0; [done|].
    apply Z.bits_inj'. intros n Hn. rewrite Z.bits_0, Z.land_spec.
    destruct (Z.eqb_spec n k) as [->|Hne]; [by rewrite E|].
    by rewrite Z.pow2_bits_false, andb_false_r.
Qed.

Lemma scan_test_bit btm i b : bitmap_scan_test btm i = Some b -> b = bit btm i.
Proof.
  unfold bitmap_scan_test, bit. intros (v & -> & [= <-])%bind_Some.
  apply nz_land_mask. divmod.
Qed.

Lemma scan_test_total btm i : 0 <= i < 8 * zlen (bits btm) ->
  bitmap_scan_test btm i = Some (bit btm i).
Proof.
  intros Hi. unfold bitmap_scan_test, bit.
  destruct (zget_is_Some (bits btm) (i / 8)) as [v ->]; [divmod|]. simpl.
  rewrite nz_land_mask; [done|divmod].
Qed.

(** ** bitmap_set *)

Lemma mask_pow2 k : Z.shiftl BITMAP_MASK k = 2 ^ k.
Proof. apply Z.shiftl_1_l. Qed.

Lemma u8_lor v k : 0 <= v < 256 -> 0 <= k < 8 ->
  u8 (Z.lor v (Z.shiftl BITMAP_MASK k)) = Z.setbit v k.
Proof.
  intros Hv Hk. rewrite mask_pow2, Z.setbit_spec'.
  apply u8_small, (lor_bound 8); [done..|].
  split; [apply Z.pow_nonneg; lia|apply Z.pow_lt_mono_r; lia].
Qed.

Lemma u8_ldiff v k : 0 <= v < 256 -> 0 <= k ->
  u8 (Z.land v (Z.lnot (Z.shiftl BITMAP_MASK k))) = Z.clearbit v k.
Proof.
  intros Hv Hk. rewrite mask_pow2, Z.clearbit_spec', Z.ldiff_land.
  by apply u8_small, (land_bound 8).
Qed.

Lemma setbit_byte v k : 0 <= v < 256 -> 0 <= k < 8 -> 0 <= Z.setbit v k < 256.
Proof. intros Hv Hk. rewrite <- u8_lor by done. apply u8_range. Qed.

Lemma clearbit_byte v k : 0 <= v < 256 -> 0 <= k -> 0 <= Z.clearbit v k < 256.
Proof. intros Hv Hk. rewrite <- u8_ldiff by done. apply u8_range. Qed.

Lemma bitmap_set_inv btm i x btm' : bitmap_wf btm ->
  bitmap_set btm i x = Some btm' ->
  exists v, zget (bits btm) (i / 8) = Some v /\ bytes_len btm' = bytes_len btm /\
    zset (bits btm) (i / 8)
      (if nz x then Z.setbit v (i mod 8) else Z.clearbit v (i mod 8))
    = Some (bits btm').
Proof.
  intros Hwf. unfold bitmap_set. intros (v & Hv & (l & Hl & [= <-])%bind_Some)%bind_Some.
  exists v. split_and!; [done..|]. simpl. rewrite <- Hl. f_equal.
  pose proof (wf_byte _ _ _ Hwf Hv). pose proof (Z.mod_pos_bound i 8).
  destruct (nz x); symmetry; [apply u8_lor|apply u8_ldiff]; lia.
Qed.

Lemma bitmap_set_wf btm i x btm' : bitmap_wf btm ->
  bitmap_set btm i x = Some btm' ->
  bitmap_wf btm' /\ bytes_len btm' = bytes_len btm
  /\ zlen (bits btm') = zlen (bits btm).
Proof.
  intros Hwf Hs. destruct (bitmap_set_inv _ _ _ _ Hwf Hs) as (v & Hv & Hb & Hl).
  pose proof (wf_byte _ _ _ Hwf Hv). pose proof (zlen_zset _ _ _ _ Hl).
  pose proof (Z.mod_pos_bound i 8). destruct Hwf as [Hbs Hlen Hint].
  split; [|lia]. split; [|lia|lia].
  apply zset_Some in Hl as [_ ->]. apply Forall_insert; [done|].
  destruct (nz x); [apply setbit_byte|apply clearbit_byte]; lia.
Qed.

Lemma bit_set_gen btm i x btm' j : bitmap_wf btm ->
  bitmap_set btm i x = Some btm' ->
  bit btm' j = if j =? i then nz x else bit btm j.
Proof.
  intros Hwf Hs. destruct (bitmap_set_inv _ _ _ _ Hwf Hs) as (v & Hv & _ & Hl).
  unfold bit. rewrite (zget_zset _ _ _ _ (j / 8) Hl).
  pose proof (Z.mod_pos_bound i 8). pose proof (Z.mod_pos_bound j 8).
  destruct (Z.eqb_spec j i) as [->|Hji].
  - rewrite Z.eqb_refl.
    destruct (nz x); [apply Z.setbit_eq|apply Z.clearbit_eq]; lia.
  - destruct (Z.eqb_spec (j / 8) (i / 8)) as [E|]; [|done].
    rewrite E, Hv. assert (i mod 8 <> j mod 8) by divmod.
    destruct (nz x); [apply Z.setbit_neq|apply Z.clearbit_neq]; lia.
Qed.

Lemma bitmap_set_total btm i x : 0 <= i < 8 * zlen (bits btm) ->
  exists btm', bitmap_set btm i x = Some btm'.
Proof.
  intros Hi. unfold bitmap_set.
  destruct (zget_is_Some (bits btm) (i / 8)) as [v ->]; [divmod|]. simpl.
  rewrite zset_is_Some by divmod. simpl. eauto.
Qed.

(** ** bitmap_scan *)

Lemma byte_255 v i : v = 255 -> 0 <= i < 8 -> Z.testbit v i = true.
Proof. intros -> Hi. change 255 with (Z.ones 8). by apply Z.ones_spec_low. Qed.

Lemma byte_not_255 v : 0 <= v < 256 -> v <> 255 ->
  exists k, 0 <= k < 8 /\ Z.testbit v k = false /\
    forall i, 0 <= i < k -> Z.testbit v i = true.
Proof.
  intros Hv Hne.
  destruct (Z.testbit v 0) eqn:E0; [|exists 0; split_and!; [lia..|done|lia]].
  destruct (Z.testbit v 1) eqn:E1;
    [|exists 1; split_and!; [lia..|done|intros i Hi; by replace i with 0 by lia]].
  cut (exists k, 2 <= k < 8 /\ Z.testbit v k = false /\
    forall i, 2 <= i < k -> Z.testbit v i = true).
  { intros (k & Hk & Ek & Hi). exists k. split_and!; [lia..|done|].
    intros i Hi'. destruct (Z.eq_dec i 0) as [->|]; [done|].
    destruct (Z.eq_dec i 1) as [->|]; [done|]. apply Hi. lia. }
  assert (forall n : nat, (n <= 6)%nat ->
    (exists k, 2 <= k < 2 + Z.of_nat n /\ Z.testbit v k = false /\
      forall i, 2 <= i < k -> Z.testbit v i = true)
    \/ forall i, 2 <= i < 2 + Z.of_nat n -> Z.testbit v i = true) as Hind.
  { induction n as [|n IH]; intros Hn; [right; lia|].
    destruct IH as [(k & Hk & ? & ?)|Hall]; [lia| |].
    - left. exists k. split_and!; [lia..|done|done].
    - destruct (Z.testbit v (2 + Z.of_nat n)) eqn:E.
      + right. intros i Hi. destruct (Z.eq_dec i (2 + Z.of_nat n)) as [->|]; [done|].
        apply Hall. lia.
      + left. exists (2 + Z.of_nat n). split_and!; [lia..|done|done]. }
  destruct (Hind 6%nat) as [?|Hall]; [lia|done|].
  exfalso. apply Hne. change 255 with (Z.ones 8). apply Z.bits_inj'.
  intros i Hi. destruct (Z.lt_ge_cases i 8).
  - rewrite Z.ones_spec_low by lia. destruct (Z.eq_dec i 0) as [->|]; [done|].
    destruct (Z.eq_dec i 1) as [->|]; [done|]. apply Hall. lia.
  - rewrite Z.ones_spec_high by lia. apply (bits_lt_pow2 8); lia.
Qed.

Lemma first_zero_spec v k : 0 <= k -> Z.testbit v k = false ->
  (forall i, 0 <= i < k -> Z.testbit v i = true) ->
  forall fuel j, 0 <= j <= k -> k - j < Z.of_nat fuel ->
  first_zero fuel v j = Some k.
Proof.
  intros Hk Ek Hlow fuel. induction fuel as [|fuel IH]; intros j Hj Hf; [lia|].
  simpl. rewrite nz_land_mask by lia.
  destruct (Z.eq_dec j k) as [->|]; [by rewrite Ek|].
  rewrite Hlow by lia. apply IH; lia.
Qed.

(** The byte loop: it stops at the first byte that is not 0xff, or at
    [bytes_len]; reading [bits[bytes_len]] is what needs the slack byte. *)
Lemma skip_full_spec btm fuel j : bitmap_wf btm -> slack btm ->
  0 <= j <= bytes_len btm -> bytes_len btm - j < Z.of_nat fuel ->
  (forall i, 0 <= i < j -> zget (bits btm) i = Some 255) ->
  exists k, skip_full fuel btm j = Some k /\ j <= k <= bytes_len btm /\
    (forall i, 0 <= i < k -> zget (bits btm) i = Some 255) /\
    (k < bytes_len btm -> exists v, zget (bits btm) k = Some v /\ v <> 255).
Proof.
  intros Hwf Hsl. revert j. induction fuel as [|fuel IH]; intros j Hj Hf Hlow; [lia|].
  simpl. unfold slack in Hsl. pose proof (wf_int _ Hwf).
  destruct (zget_is_Some (bits btm) j) as [v Hv]; [lia|]. rewrite Hv. simpl.
  destruct (Z.eqb_spec v 255) as [->|Hv255], (Z.ltb_spec j (bytes_len btm)); simpl.
  - rewrite u32_small by lia.
    destruct (IH (j + 1)) as (k & Hk & ? & ? & ?); [lia..| |].
    { intros i Hi. destruct (Z.eq_dec i j) as [->|]; [done|]. apply Hlow. lia. }
    exists k. split_and!; [done|lia..|done|done].
  - exists j. split_and!; [done|lia..|done|lia].
  - exists j. split_and!; [done|lia..|done|]. eauto.
  - exists j. split_and!; [done|lia..|done|]. eauto.
Qed.

(** What the two leading loops establish: either every bit is used, or [b] is
    the first free bit. *)
Lemma scan_prefix btm : bitmap_wf btm -> slack btm ->
  exists k, skip_full (S (Z.to_nat (bytes_len btm))) btm 0 = Some k /\
  ((bytes_len btm <= k /\ forall i, 0 <= i < 8 * bytes_len btm -> bit btm i = true)
   \/ (0 <= k < bytes_len btm /\ exists v b, zget (bits btm) k = Some v /\
        first_zero 33 v 0 = Some b /\ 0 <= b < 8 /\
        bit btm (8 * k + b) = false /\
        forall i, 0 <= i < 8 * k + b -> bit btm i = true)).
Proof.
  intros Hwf Hsl. pose proof (wf_len _ Hwf).
  destruct (skip_full_spec btm (S (Z.to_nat (bytes_len btm))) 0)
    as (k & Hk & Hr & Hlow & Hstop); [done..|lia|lia|lia|].
  exists k. split; [done|].
  assert (forall i, 0 <= i < 8 * k -> bit btm i = true) as Hused.
  { intros i Hi. unfold bit. rewrite Hlow by divmod. apply byte_255; [done|divmod]. }
  destruct (Z.le_gt_cases (bytes_len btm) k); [left; split; [done|]|right; split; [lia|]].
  - intros i Hi. apply Hused. lia.
  - destruct Hstop as (v & Hv & Hne); [done|].
    pose proof (wf_byte _ _ _ Hwf Hv) as Hvb.
    destruct (byte_not_255 v Hvb Hne) as (b & Hb & Eb & Hbl).
    exists v, b. split_and!; [done| |lia..| |].
    + apply (first_zero_spec v b); try done; lia.
    + unfold bit. replace ((8 * k + b) / 8) with k by divmod.
      rewrite Hv. by replace ((8 * k + b) mod 8) with b by divmod.
    + intros i Hi. destruct (Z.lt_ge_cases i (8 * k)); [apply Hused; lia|].
      unfold bit. replace (i / 8) with k by divmod. rewrite Hv.
      apply Hbl. divmod.
Qed.

(** The search for a run of free bits. [s] is the start of the current run. *)
Lemma scan_run_spec btm cnt total : bitmap_wf btm -> slack btm ->
  total = 8 * bytes_len btm -> 1 < cnt < 2 ^ 31 ->
  forall n next find, 0 <= find < cnt -> 0 <= next - find ->
  next + Z.of_nat n = total + 1 -> 
  (forall i, next - find <= i < next -> bit btm i = false) ->
  (forall s, 0 <= s < next - find -> s + cnt <= total + 1 ->
     exists i, s <= i < s + cnt /\ bit btm i = true) ->
  exists r, scan_run n btm cnt next find = Some r /\
    ((r = -1 /\ forall s, 0 <= s -> s + cnt <= total + 1 ->
        exists i, s <= i < s + cnt /\ bit btm i = true)
     \/ (0 <= r /\ r + cnt <= total + 1 /\
         (forall i, r <= i < r + cnt -> bit btm i = false) /\
         forall s, 0 <= s < r -> exists i, s <= i < s + cnt /\ bit btm i = true)).
Proof.
  intros Hwf Hsl Ht Hc n. pose proof (wf_int _ Hwf). pose proof (wf_len _ Hwf).
  unfold slack in Hsl.
  induction n as [|n IH]; intros next find Hf Hs Hn Hrun Hno; simpl.
  - exists (-1). split; [done|]. left. split; [done|]. intros s Hs0 Hst.
    apply Hno; lia.
  - rewrite scan_test_total by lia. simpl.
    destruct (bit btm next) eqn:E.
    + destruct (Z.eqb_spec 0 cnt); [lia|]. rewrite u32_small by lia.
      apply IH; [lia..| |]; [intros i Hi; lia|].
      intros s Hs0 Hst. destruct (Z.lt_ge_cases s (next - find)); [apply Hno; lia|].
      exists next. split; [lia|done].
    + rewrite (u32_small (find + 1)) by lia.
      assert (forall i, next - find <= i < next + 1 -> bit btm i = false) as Hrun'.
      { intros i Hi. destruct (Z.eq_dec i next) as [->|]; [done|]. apply Hrun. lia. }
      destruct (Z.eqb_spec (find + 1) cnt) as [Ec|Hne].
      * exists (next - cnt + 1). rewrite u32_small by lia. rewrite i32_small by lia.
        split; [done|]. right. split_and!; [lia..| |].
        -- intros i Hi. apply Hrun'. lia.
        -- intros s Hs0. apply Hno; lia.
      * rewrite u32_small by lia. apply IH; [lia..| |].
        -- intros i Hi. apply Hrun'. lia.
        -- intros s Hs0 Hst. apply Hno; lia.
Qed.

(** For one page, [bitmap_scan] always returns, and returns the first free
    bit of the bitmap, or -1 exactly when every bit is used. *)
Lemma scan_one_ok (btm : bitmap_t) :
  bitmap_wf btm -> slack btm ->
  exists r, bitmap_scan btm 1 = Some r /\
    ((r = -1 /\ forall i, 0 <= i < 8 * bytes_len btm -> bit btm i = true)
     \/ (0 <= r < 8 * bytes_len btm /\ bit btm r = false /\
         forall i, 0 <= i < r -> bit btm i = true)).
Proof.
  intros Hwf Hsl. pose proof (wf_int _ Hwf).
  destruct (scan_prefix btm Hwf Hsl) as (k & Hk & [[Hend Hall]|Hin]);
    unfold bitmap_scan; rewrite Hk; mstep.
  - destruct (Z.leb_spec (bytes_len btm) k); [|lia]. exists (-1). auto.
  - destruct Hin as (Hkr & v & b & Hv & Hb & Hbr & Hfree & Hlow).
    destruct (Z.leb_spec (bytes_len btm) k); [lia|]. rewrite Hv. mstep.
    rewrite Hb. mstep. cbn [Z.eqb Pos.eqb]. rewrite u32_small, i32_small by lia.
    exists (8 * k + b). split; [f_equal; lia|]. right. split_and!; [lia..|done|done].
Qed.

(** For a run of [cnt > 1] pages, [bitmap_scan] always returns; a result
    that is not -1 starts the first run of [cnt] free bits, and -1 means that
    no such run exists.  The run may use one bit past the end of the bitmap:
    the bound is [8 * bytes_len + 1]. *)
Lemma scan_many_ok (btm : bitmap_t) (cnt : Z) :
  bitmap_wf btm -> slack btm -> 1 < cnt < 2 ^ 31 ->
  exists r, bitmap_scan btm cnt = Some r /\
    ((r = -1 /\ forall s, 0 <= s -> s + cnt <= 8 * bytes_len btm ->
        exists i, s <= i < s + cnt /\ bit btm i = true)
     \/ (0 <= r /\ r + cnt <= 8 * bytes_len btm + 1 /\
         (forall i, r <= i < r + cnt -> bit btm i = false) /\
         forall s, 0 <= s < r -> exists i, s <= i < s + cnt /\ bit btm i = true)).
Proof.
  intros Hwf Hsl Hc. pose proof (wf_int _ Hwf).
  destruct (scan_prefix btm Hwf Hsl) as (k & Hk & [[Hend Hall]|Hin]);
    unfold bitmap_scan; rewrite Hk; mstep.
  - destruct (Z.leb_spec (bytes_len btm) k); [|lia]. exists (-1).
    split; [done|]. left. split; [done|]. intros s Hs Hst. exists s.
    split; [lia|]. apply Hall. lia.
  - destruct Hin as (Hkr & v & b & Hv & Hb & Hbr & Hfree & Hlow).
    destruct (Z.leb_spec (bytes_len btm) k); [lia|]. rewrite Hv. mstep.
    rewrite Hb. mstep. destruct (Z.eqb_spec cnt 1); [lia|].
    rewrite !u32_small by lia.
    destruct (scan_run_spec btm cnt (8 * bytes_len btm) Hwf Hsl eq_refl Hc
      (Z.to_nat (bytes_len btm * 8 - (k * 8 + b))) (k * 8 + b + 1) 1)
      as (r & Hr & Hcase); [lia..| | |].
    + intros i Hi. replace i with (8 * k + b) by lia. done.
    + intros s Hs _. exists s. split; [lia|]. apply Hlow. lia.
    + exists r. split; [done|].
      destruct Hcase as [[-> Hnone]|Hrun]; [left|by right].
      split; [done|]. intros s Hs Hst. apply Hnone; lia.
Qed.

(** A bitmap of one byte with its last bit free, followed in memory by a zero
    byte, as the bitmaps of [init_paging] are. *)
Definition last_free : bitmap_t := Bitmap 1 [127; 0].

Lemma last_free_wf : bitmap_wf last_free /\ slack last_free.
Proof.
  split; [|done]. split; [|done..]. repeat constructor; lia.
Qed.

(** What an answer [r] of the scan says. *)
Definition scan_answer (btm : bitmap_t) (cnt r : Z) : Prop :=
  (r = -1 /\ forall s, 0 <= s -> s + cnt <= 8 * bytes_len btm ->
      exists i, s <= i < s + cnt /\ bit btm i = true)
  \/ (0 <= r /\ r + cnt <= 8 * bytes_len btm + (if cnt =? 1 then 0 else 1) /\
      (forall i, r <= i < r + cnt -> bit btm i = false) /\
      forall s, 0 <= s < r -> exists i, s <= i < s + cnt /\ bit btm i = true).

Lemma scan_any_ok (btm : bitmap_t) (cnt : Z) :
  bitmap_wf btm -> slack btm -> 1 <= cnt < 2 ^ 31 ->
  exists r, bitmap_scan btm cnt = Some r /\ scan_answer btm cnt r.
Proof.
  intros Hwf Hsl Hc. unfold scan_answer. destruct (Z.eqb_spec cnt 1) as [->|Hne].
  - destruct (scan_one_ok btm Hwf Hsl) as (r & -> & [[-> Hall]|(Hr & Hb & Hlow)]).
    + exists (-1). split; [done|]. left. split; [done|]. intros s H0 Hs.
      exists s. split; [lia|]. apply Hall. lia.
    + exists r. split; [done|]. right. split_and!; [lia..| |].
      * intros i Hi. by replace i with r by lia.
      * intros s Hs. exists s. split; [lia|auto].
  - apply scan_many_ok; [done..|lia].
Qed.

(** [bitmap_scan] always answers: it returns the start of the first run of
    [cnt] clear bits, or -1 when every run inside the bitmap has a set bit.  A
    run of one bit lies inside the bitmap; a longer run may end one bit past
    it. *)
Theorem bitmap_scan_correct (btm : bitmap_t) (cnt : Z) :
  bitmap_wf btm -> slack btm -> 1 <= cnt < 2 ^ 31 ->
  exists r, bitmap_scan btm cnt = Some r /\
    ((r = -1 /\ forall s, 0 <= s -> s + cnt <= 8 * bytes_len btm ->
        exists i, s <= i < s + cnt /\ bit btm i = true)
     \/ (0 <= r /\ r + cnt <= 8 * bytes_len btm + (if cnt =? 1 then 0 else 1) /\
         (forall i, r <= i < r + cnt -> bit btm i = false) /\
         forall s, 0 <= s < r -> exists i, s <= i < s + cnt /\ bit btm i = true)).
Proof. apply scan_any_ok. Qed.

Lemma bitmap_scan_correct_witness :
  exists r, bitmap_scan last_free 2 = Some r /\
    ((r = -1 /\ forall s, 0 <= s -> s + 2 <= 8 * 1 ->
        exists i, s <= i < s + 2 /\ bit last_free i = true)
     \/ (0 <= r /\ r + 2 <= 8 * 1 + 1 /\
         (forall i, r <= i < r + 2 -> bit last_free i = false) /\
         forall s, 0 <= s < r -> exists i, s <= i < s + 2 /\ bit last_free i = true)).
Proof.
  apply (bitmap_scan_correct last_free 2 (proj1 last_free_wf) (proj2 last_free_wf)).
  lia.
Defined.

(** The extra iteration is real: asked for two pages when only the last bit
    of the bitmap is free, [bitmap_scan] answers with a run whose second bit
    lies outside the bitmap. *)
Theorem bitmap_scan_overrun :
  bitmap_wf last_free /\ slack last_free /\
  bitmap_scan last_free 2 = Some 7 /\ 7 + 2 > 8 * bytes_len last_free.
Proof. split_and!; [apply last_free_wf..|vm_compute; reflexivity|done]. Qed.

(** Without a readable byte after the bitmap, a full bitmap makes the byte
    loop read [bits[bytes_len]]. *)
Theorem bitmap_scan_full_reads_past (n : nat) (cnt : Z) :
  bitmap_scan (Bitmap (Z.of_nat n) (replicate n 255)) cnt = None.
Proof.
  unfold bitmap_scan. cbn [bytes_len].
  cut (forall fuel j, 0 <= j <= Z.of_nat n ->
    skip_full fuel (Bitmap (Z.of_nat n) (replicate n 255)) j = None).
  { intros H. rewrite H; [done|lia]. }
  induction fuel as [|fuel IH]; intros j Hj; [done|].
  cbn [skip_full bits bytes_len]. unfold zget. destruct (Z.ltb_spec j 0); [lia|].
  destruct (decide (j = Z.of_nat n)) as [->|Hne].
  - rewrite (proj1 (lookup_replicate_None _ _ _)) by lia. done.
  - rewrite lookup_replicate_2 by lia. mstep.
    destruct (Z.ltb_spec j (Z.of_nat n)); [|lia]. cbn [andb Z.eqb Pos.eqb].
    destruct (Z.lt_ge_cases (j + 1) 4294967296).
    + rewrite u32_small by lia. apply IH. lia.
    + apply IH. pose proof (u32_range (j + 1)). lia.
Qed.

(** ** bitmap_init and bitmap_foreach *)

Lemma bitmap_init_spec btm : bitmap_wf btm ->
  exists btm', bitmap_init btm = Some btm' /\ bytes_len btm' = bytes_len btm /\
    zlen (bits btm') = zlen (bits btm) /\ bitmap_wf btm' /\
    (forall i, 0 <= i < 8 * bytes_len btm -> bit btm' i = false) /\
    (forall i, 8 * bytes_len btm <= i -> bit btm' i = bit btm i).
Proof.
  intros Hwf. pose proof (wf_len _ Hwf) as Hl. unfold bitmap_init.
  destruct (for_inv (fun j (l : list Z) => zlen l = zlen (bits btm) /\
      Forall (fun v => 0 <= v < 256) l /\
      forall i, zget l i = if (0 <=? i) && (i <? j) then Some 0 else zget (bits btm) i)
    (fun i l => zset l i 0) (Z.to_nat (bytes_len btm)) 0 (bits btm))
    as (l & -> & Hll & Hbs & Hg).
  - split_and!; [done|apply Hwf|]. intros i.
    destruct (Z.leb_spec 0 i), (Z.ltb_spec i 0); try done; lia.
  - intros j l Hj (Hll & Hbs & Hg). rewrite zset_is_Some by lia.
    eexists. split; [done|]. split_and!.
    + unfold zlen in *. by rewrite length_insert.
    + apply Forall_insert; [done|lia].
    + intros i. assert (zset l j 0 = Some (<[Z.to_nat j:=0]> l)) as Hs
        by (apply zset_is_Some; lia).
      rewrite (zget_zset _ _ _ _ i Hs), Hg.
      destruct (Z.eqb_spec i j), (Z.leb_spec 0 i), (Z.ltb_spec i j),
        (Z.ltb_spec i (j + 1)); try done; lia.
  - mstep. eexists. split; [done|]. cbn [bytes_len bits].
    rewrite Z.add_0_l, Z2Nat.id in Hg by lia.
    split_and!; [done|done| |..].
    + split; cbn [bytes_len bits]; [done|lia|apply Hwf].
    + intros i Hi. unfold bit. cbn [bits]. rewrite Hg.
      destruct (Z.leb_spec 0 (i / 8)); [|divmod].
      destruct (Z.ltb_spec (i / 8) (bytes_len btm)); [|divmod]. apply Z.testbit_0_l.
    + intros i Hi. unfold bit. cbn [bits]. rewrite Hg.
      destruct (Z.ltb_spec (i / 8) (bytes_len btm)); [divmod|].
      by rewrite andb_false_r.
Qed.

(** Number of set bits among the [n] bits from [i]. *)
Fixpoint popcount (btm : bitmap_t) (n : nat) (i : Z) : Z :=
  match n with
  | O => 0
  | S n' => b2z (bit btm i) + popcount btm n' (i + 1)
  end.

Lemma popcount_add btm n m i :
  popcount btm (n + m) i = popcount btm n i + popcount btm m (i + Z.of_nat n).
Proof.
  revert i. induction n as [|n IH]; intros i; cbn [popcount Nat.add].
  - by rewrite Z.add_0_r, Z.add_0_l.
  - rewrite IH. replace (i + 1 + Z.of_nat n) with (i + Z.of_nat (S n)) by lia. lia.
Qed.

Lemma popcount_range btm n i : 0 <= popcount btm n i <= Z.of_nat n.
Proof.
  revert i. induction n as [|n IH]; intros i; cbn [popcount]; [lia|].
  specialize (IH (i + 1)). destruct (bit btm i); cbn [b2z]; lia.
Qed.

Lemma popcount_zero_byte btm k : zget (bits btm) k = Some 0 ->
  popcount btm 8 (8 * k) = 0.
Proof.
  intros Hk. assert (forall i, 0 <= i < 8 -> bit btm (8 * k + i) = false) as Hb.
  { intros i Hi. unfold bit. replace ((8 * k + i) / 8) with k by divmod.
    rewrite Hk. apply Z.testbit_0_l. }
  cbn [popcount].
  replace (8 * k) with (8 * k + 0) at 1 by lia.
  rewrite <- !Z.add_assoc, !Hb by lia. done.
Qed.

(** Turning one clear bit on adds one to the count. *)
Lemma popcount_flip btm btm' i n j :
  (forall x, bit btm' x = if x =? i then true else bit btm x) -> bit btm i = false ->
  popcount btm' n j = popcount btm n j
    + b2z ((j <=? i) && (i <? j + Z.of_nat n)).
Proof.
  intros Hs Hb. revert j. induction n as [|n IH]; intros j; cbn [popcount].
  - destruct (Z.leb_spec j i), (Z.ltb_spec i (j + Z.of_nat 0)); simpl; lia.
  - rewrite IH, (Hs j). destruct (Z.eqb_spec j i) as [->|Hne].
    + rewrite Hb.
      destruct (Z.leb_spec (i + 1) i), (Z.leb_spec i i),
        (Z.ltb_spec i (i + Z.of_nat (S n))); simpl; lia.
    + destruct (Z.leb_spec (j + 1) i), (Z.leb_spec j i),
        (Z.ltb_spec i (j + 1 + Z.of_nat n)), (Z.ltb_spec i (j + Z.of_nat (S n)));
        simpl; lia.
Qed.

Lemma popcount_all btm n i :
  (forall j, i <= j < i + Z.of_nat n -> bit btm j = true) ->
  popcount btm n i = Z.of_nat n.
Proof.
  revert i. induction n as [|n IH]; intros i Hb; cbn [popcount]; [done|].
  rewrite Hb, IH by (intros; try apply Hb; lia). cbn [b2z]. lia.
Qed.
