(* ===== verification/CMath.v ===== *)
(** * Integer helpers: common/tool/math.h and common/lib/hash.h

    Alignment ([down2], [up2]), powers, and the 64-bit division the kernel
    builds from the 32-bit [divl] instruction, whose divide fault is [None]. *)

From S2P Require Import Prelude.

(** ** Definitions *)

Definition down2 (origin bound : Z) : Z := u32 (origin - origin mod bound).

Definition up2 (origin bound : Z) : Z :=
  if origin mod bound =? 0 then origin else u32 (down2 origin bound + bound).

Fixpoint pow_loop (n : nat) (x ret : Z) : Z :=
  match n with O => ret | S n' => pow_loop n' x (u32 (ret * x)) end.

Definition pow (x y : Z) : Z := pow_loop (Z.to_nat y) x 1.

(** [while ((x /= y) != 1) { if (x == 0) return false; } return true;] *)
Fixpoint is_pow_loop (fuel : nat) (x y : Z) : option bool :=
  match fuel with
  | O => None
  | S fuel' =>
      if y =? 0 then None
      else let x' := x / y in
      if x' =? 1 then Some true
      else if x' =? 0 then Some false else is_pow_loop fuel' x' y
  end.

Definition is_pow (fuel : nat) (x y : Z) : option bool :=
  if x =? 1 then Some true else is_pow_loop fuel x y.

(** [divl]: EDX:EAX by a 32-bit operand; a zero divisor or a quotient that
    does not fit 32 bits is a divide fault. *)
Definition divl (high low divisor : Z) : option (Z * Z) :=
  let n := high * 2 ^ 32 + low in
  if divisor =? 0 then None
  else if 2 ^ 32 <=? n / divisor then None
  else Some (n / divisor, n mod divisor).

Definition div_u64_rem (dividend divisor : Z) : option (Z * Z) :=
  let upper := dividend / 2 ^ 32 in
  let low := dividend mod 2 ^ 32 in
  if divisor <=? upper then
    if divisor =? 0 then None
    else '(q, r) ← divl (upper mod divisor) low divisor;
         Some (upper / divisor * 2 ^ 32 + q, r)
  else '(q, r) ← divl upper low divisor; Some (q, r).

(** [mull]: the product in EDX:EAX, put together again. *)
Definition mul_u32_u32 (a b : Z) : Z :=
  let low := (a * b) mod 2 ^ 32 in
  let high := (a * b) / 2 ^ 32 in
  Z.lor low (u64 (Z.shiftl high 32)).

Definition GOLDEN_RATIO_PRIME_32 : Z := 2654404609.

Definition hash_32 (val bits : Z) : Z :=
  let hash := u32 (val * GOLDEN_RATIO_PRIME_32) in
  Z.shiftr hash (32 - bits).

Definition hash_64 (val bits : Z) : Z :=
  let hash := val in
  let n := hash in
  let n := u64 (Z.shiftl n 18) in let hash := u64 (hash - n) in
  let n := u64 (Z.shiftl n 33) in let hash := u64 (hash - n) in
  let n := u64 (Z.shiftl n 3) in let hash := u64 (hash + n) in
  let n := u64 (Z.shiftl n 3) in let hash := u64 (hash - n) in
  let n := u64 (Z.shiftl n 4) in let hash := u64 (hash + n) in
  let n := u64 (Z.shiftl n 2) in let hash := u64 (hash + n) in
  Z.shiftr hash (64 - bits).

(** ** Alignment *)

Lemma down2_spec x b : 0 < b -> 0 <= x < 2 ^ 32 ->
  down2 x b = b * (x / b) /\ down2 x b <= x < down2 x b + b
  /\ (down2 x b) mod b = 0.
Proof.
  intros Hb Hx. unfold down2. pose proof (Z.mod_pos_bound x b Hb).
  pose proof (Z.div_mod x b). pose proof (Z.mod_le x b).
  rewrite u32_small by lia.
  replace (x - x mod b) with (b * (x / b)) by lia.
  split_and!; [lia..|]. rewrite Z.mul_comm. apply Z.mod_mul. lia.
Qed.

(** [up2] rounds up to the next multiple of the bound: the result is
    aligned, not below the argument and less than one bound above it, as long
    as the rounded value fits 32 bits. *)
Theorem up2_correct (x b : Z) :
  0 < b -> 0 <= x -> x + b <= 2 ^ 32 ->
  (up2 x b) mod b = 0 /\ x <= up2 x b < x + b /\ up2 x b / b = (x + b - 1) / b.
Proof.
  intros Hb Hx Hlim. unfold up2.
  destruct (down2_spec x b) as (Hd & Hr & Hm); [lia..|].
  destruct (Z.eqb_spec (x mod b) 0) as [E|E].
  - split_and!; [done|lia..|].
    apply Z.div_unique with (b - 1); [lia|].
    pose proof (Z.div_mod x b). lia.
  - pose proof (Z.div_mod x b). pose proof (Z.mod_pos_bound x b Hb).
    assert (down2 x b + b < 2 ^ 32 \/ down2 x b + b = 2 ^ 32) as [Hs|Hs] by lia.
    + rewrite u32_small by lia. split_and!; [|lia..|].
      * rewrite Hd. replace (b * (x / b) + b) with ((x / b + 1) * b) by lia.
        apply Z.mod_mul. lia.
      * rewrite Hd. replace (b * (x / b) + b) with ((x / b + 1) * b) by lia.
        rewrite Z.div_mul by lia. apply Z.div_unique with (x mod b - 1); lia.
    + exfalso. lia.
Qed.

Lemma up2_correct_witness : up2 4097 4096 = 8192 /\ (8192 mod 4096 = 0).
Proof.
  split; [reflexivity|].
  exact (proj1 (up2_correct 4097 4096 ltac:(lia) ltac:(lia) ltac:(lia))).
Defined.

(** ** Powers *)

Lemma pow_loop_spec n x ret : pow_loop n x (u32 ret) = u32 (ret * x ^ Z.of_nat n).
Proof.
  revert ret. induction n as [|n IH]; intros ret; cbn [pow_loop].
  - by rewrite Z.mul_1_r.
  - replace (u32 (u32 ret * x)) with (u32 (ret * x))
      by (unfold u32; by rewrite Zmult_mod_idemp_l).
    rewrite IH. f_equal. rewrite Nat2Z.inj_succ, Z.pow_succ_r by lia. ring.
Qed.

(** [pow] is the power modulo 2^32. *)
Lemma pow_spec x y : 0 <= y -> pow x y = u32 (x ^ y).
Proof.
  intros Hy. unfold pow. change 1 with (u32 1) at 1.
  rewrite pow_loop_spec, Z2Nat.id by done. by rewrite Z.mul_1_l.
Qed.

(** ** 64-bit division *)

(** [div_u64_rem] never faults on a non-zero divisor and computes the
    quotient and the remainder of the 64-bit dividend. *)
Theorem div_u64_rem_correct (dividend divisor : Z) :
  0 <= dividend < 2 ^ 64 -> 0 < divisor < 2 ^ 32 ->
  div_u64_rem dividend divisor = Some (dividend / divisor, dividend mod divisor).
Proof.
  intros Hn Hd. unfold div_u64_rem, divl.
  set (u := dividend / 2 ^ 32). set (l := dividend mod 2 ^ 32).
  assert (dividend = u * 2 ^ 32 + l /\ 0 <= u < 2 ^ 32 /\ 0 <= l < 2 ^ 32)
    as (E & Hu & Hl) by (subst u l; divmod).
  destruct (Z.eqb_spec divisor 0); [lia|].
  destruct (Z.leb_spec divisor u).
  - pose proof (Z.mod_pos_bound u divisor). pose proof (Z.div_mod u divisor).
    assert ((u mod divisor * 2 ^ 32 + l) / divisor < 2 ^ 32)
      by (apply Z.div_lt_upper_bound; nia).
    destruct (Z.leb_spec (2 ^ 32) ((u mod divisor * 2 ^ 32 + l) / divisor)); [lia|].
    mstep. f_equal.
    replace dividend with ((u mod divisor * 2 ^ 32 + l) + (u / divisor * 2 ^ 32) * divisor)
      by lia.
    rewrite Z.div_add, Z.mod_add by lia. f_equal. lia.
  - assert ((u * 2 ^ 32 + l) / divisor < 2 ^ 32)
      by (apply Z.div_lt_upper_bound; nia).
    destruct (Z.leb_spec (2 ^ 32) ((u * 2 ^ 32 + l) / divisor)); [lia|].
    mstep. by rewrite <- E.
Qed.

Lemma div_u64_rem_correct_witness :
  div_u64_rem 18446744073709551615 10 = Some (1844674407370955161, 5).
Proof.
  rewrite (div_u64_rem_correct 18446744073709551615 10 ltac:(lia) ltac:(lia)).
  reflexivity.
Defined.

Lemma div_u64_rem_zero n : 0 <= n -> div_u64_rem n 0 = None.
Proof.
  intros Hn. unfold div_u64_rem.
  destruct (Z.leb_spec 0 (n / 2 ^ 32)); [done|]. divmod.
Qed.

Lemma mul_u32_u32_correct a b : 0 <= a < 2 ^ 32 -> 0 <= b < 2 ^ 32 ->
  mul_u32_u32 a b = a * b.
Proof.
  intros Ha Hb. unfold mul_u32_u32.
  assert (0 <= a * b / 2 ^ 32 < 2 ^ 32)
    by (split; [apply Z.div_pos; nia|apply Z.div_lt_upper_bound; nia]).
  rewrite Z.shiftl_mul_pow2 by lia. rewrite u64_small by lia.
  pose proof (Z.add_lor_land ((a * b) mod 2 ^ 32) (a * b / 2 ^ 32 * 2 ^ 32)) as E.
  rewrite (Z.bits_inj_0 (Z.land _ _)) in E.
  - pose proof (Z.div_mod (a * b) (2 ^ 32)). lia.
  - intros i. rewrite Z.land_spec. destruct (Z.lt_ge_cases i 32).
    + rewrite Z.mul_pow2_bits_low by lia. apply andb_false_r.
    + rewrite (bits_lt_pow2 32); [done|lia| |lia]. by apply Z.mod_pos_bound.
Qed.

(** ** is_pow *)

(** What [is_pow] decides, for a base of at least two: that the leading digit
    of [x] in base [y] is 1, not that [x] is a power of [y]. *)
Lemma is_pow_loop_spec y : 2 <= y -> forall n x, 0 <= x < y ^ Z.of_nat n ->
  exists b, is_pow_loop (S n) x y = Some b /\
    (b = true <-> exists k, 1 <= k /\ x / y ^ k = 1).
Proof.
  intros Hy. induction n as [|n IH]; intros x Hx.
  - assert (x = 0) as -> by lia. exists false. cbn [is_pow_loop].
    destruct (Z.eqb_spec y 0); [lia|]. rewrite Z.div_0_l by lia. cbn [Z.eqb].
    split; [done|]. split; [done|]. intros (k & Hk & E).
    rewrite Z.div_0_l in E; [lia|]. apply Z.pow_nonzero; lia.
  - cbn [is_pow_loop]. destruct (Z.eqb_spec y 0); [lia|].
    destruct (Z.eqb_spec (x / y) 1) as [E|E1].
    { exists true. split; [done|]. split; [|done]. intros _. exists 1.
      by rewrite Z.pow_1_r. }
    destruct (Z.eqb_spec (x / y) 0) as [E|E0].
    { exists false. split; [done|]. split; [done|]. intros (k & Hk & Ek).
      assert (x < y) by divmod. rewrite Z.div_small in Ek; [lia|].
      pose proof (Z.pow_le_mono_r y 1 k). rewrite Z.pow_1_r in *. lia. }
    destruct (IH (x / y)) as (b & Hb & Hiff).
    { rewrite Nat2Z.inj_succ, Z.pow_succ_r in Hx by lia.
      split; [apply Z.div_pos; lia|apply Z.div_lt_upper_bound; lia]. }
    exists b. cbn [is_pow_loop] in Hb.
    rewrite (proj2 (Z.eqb_neq y 0)) in Hb by done. split; [exact Hb|]. rewrite Hiff. split.
    + intros (k & Hk & Ek). exists (k + 1). split; [lia|].
      rewrite Z.pow_add_r, Z.pow_1_r, (Z.mul_comm (y ^ k)) by lia.
      rewrite <- Z.div_div; [done|lia|]. apply Z.pow_pos_nonneg; lia.
    + intros (k & Hk & Ek). destruct (Z.eq_dec k 1) as [->|].
      { rewrite Z.pow_1_r in Ek. done. }
      exists (k - 1). split; [lia|].
      replace k with (1 + (k - 1)) in Ek by lia.
      rewrite Z.pow_add_r, Z.pow_1_r in Ek by lia.
      rewrite <- Z.div_div in Ek; [done|lia|]. apply Z.pow_pos_nonneg; lia.
Qed.

(** 5 is not a power of 2, and [is_pow] says it is. *)
Example is_pow_5_2 : is_pow 33 5 2 = Some true.
Proof. reflexivity. Qed.

(** With base 1 the loop never ends. *)
Lemma is_pow_base_one fuel x : 2 <= x -> is_pow fuel x 1 = None.
Proof.
  intros Hx. unfold is_pow. destruct (Z.eqb_spec x 1); [lia|].
  induction fuel as [|fuel IH]; [done|]. cbn [is_pow_loop].
  rewrite Z.div_1_r. cbn [Z.eqb]. destruct (Z.eqb_spec x 1); [lia|].
  destruct (Z.eqb_spec x 0); [lia|]. done.
Qed.

(** [hash_32] selects one of the [2^bits] buckets. *)
Lemma hash_32_range v b : 0 <= b <= 32 -> 0 <= hash_32 v b < 2 ^ b.
Proof.
  intros Hb. unfold hash_32. pose proof (u32_range (v * GOLDEN_RATIO_PRIME_32)) as Hr.
  rewrite Z.shiftr_div_pow2 by lia.
  assert (0 < 2 ^ (32 - b)) by (apply Z.pow_pos_nonneg; lia).
  split; [apply Z.div_pos; lia|]. apply Z.div_lt_upper_bound; [done|].
  rewrite <- Z.pow_add_r by lia. replace (32 - b + b) with 32 by lia. apply Hr.
Qed.
