(* ===== verification/CString.v ===== *)
(** * C strings: common/lib/string.c, include/net_util.h

    Memory is the list of the bytes of an object, a pointer into it an index;
    an access outside has no result.  Functions that only read take the bytes
    from the pointer to the end of its object.  A NULL pointer is [None].
    The theorems: decimal printing and scanning are inverse, [strtok_r] cuts a
    string into its words, and where string.c departs from the C library. *)

From S2P Require Import Prelude CMath.
From S2P Require Import Prelude.

Notation mem := (list Z).

(** ** Reading *)

(** [while ( *p++ );] *)
Fixpoint strlen (str : mem) : option Z :=
  match str with
  | [] => None
  | c :: str' => if c =? 0 then Some 0 else n ← strlen str'; Some (n + 1)
  end.

Fixpoint memcmp_loop (size : nat) (a b : mem) : option Z :=
  match size with
  | O => Some 0
  | S size' =>
      match a, b with
      | x :: a', y :: b' =>
          if negb (x =? y) then Some (if y <? x then 1 else -1) else memcmp_loop size' a' b'
      | _, _ => None
      end
  end.
Definition memcmp (a b : mem) (size : Z) : option Z := memcmp_loop (Z.to_nat size) a b.

(** The result of [memcmp] becomes a [size_t]. *)
Definition strcmp (a b : mem) : option Z :=
  la ← strlen a; lb ← strlen b;
  r ← memcmp a b (if la <? lb then la else lb);
  Some (u32 r).

Fixpoint trim_strlen (str : mem) : option Z :=
  match str with
  | [] => None
  | c :: str' =>
      if negb (c =? 32) && negb (c =? 0) then n ← trim_strlen str'; Some (n + 1) else Some 0
  end.

(** The index of the character found. *)
Fixpoint strchr (str : mem) (ch : Z) : option (option Z) :=
  match str with
  | [] => None
  | c :: str' =>
      if c =? 0 then Some None
      else if c =? ch then Some (Some 0)
      else r ← strchr str' ch;
        match r with None => Some None | Some i => Some (Some (i + 1)) end
  end.

Fixpoint strrchr_loop (str : mem) (ch i : Z) (last : option Z) : option (option Z) :=
  match str with
  | [] => None
  | c :: str' =>
      if c =? 0 then Some last
      else strrchr_loop str' ch (i + 1) (if c =? ch then Some i else last)
  end.
Definition strrchr (str : mem) (ch : Z) : option (option Z) := strrchr_loop str ch 0 None.

(** [p] is not advanced. *)
Fixpoint strchrs_loop (fuel : nat) (p : mem) (ch ch_cnt : Z) : option Z :=
  match fuel with
  | O => None
  | S fuel' =>
      c ← head p;
      if negb (c =? 0) then strchrs_loop fuel' p ch (if c =? ch then u32 (ch_cnt + 1) else ch_cnt)
      else Some ch_cnt
  end.
Definition strchrs (fuel : nat) (str : mem) (ch : Z) : option Z := strchrs_loop fuel str ch 0.

Fixpoint strspn (s accept : mem) : option Z :=
  match s with
  | [] => None
  | c :: s' =>
      if c =? 0 then Some 0
      else r ← strchr accept c;
      match r with None => Some 0 | Some _ => n ← strspn s' accept; Some (n + 1) end
  end.

Fixpoint strcspn (s reject : mem) : option Z :=
  match s with
  | [] => None
  | c :: s' =>
      if c =? 0 then Some 0
      else r ← strchr reject c;
      match r with Some _ => Some 0 | None => n ← strcspn s' reject; Some (n + 1) end
  end.

(** ** Writing *)

Definition memset (m : mem) (dst c len : Z) : option mem :=
  for_ (Z.to_nat len) 0 (fun i m => zset m (dst + i) c) m.

Definition memcpy (m : mem) (dst src size : Z) : option mem :=
  for_ (Z.to_nat size) 0 (fun i m => v ← zget m (src + i); zset m (dst + i) v) m.

(** The bytes at a pointer. *)
Definition at_ptr (m : mem) (p : Z) : mem := if p <? 0 then [] else drop (Z.to_nat p) m.

Fixpoint strcat_loop (fuel : nat) (m : mem) (str src : Z) : option mem :=
  match fuel with
  | O => None
  | S fuel' =>
      c ← zget m src;
      m ← zset m str c;
      if c =? 0 then Some m else strcat_loop fuel' m (str + 1) (src + 1)
  end.

(** The copy writes inside [m], so it takes at most that many steps. *)
Definition strcat (m : mem) (dst src : Z) : option mem :=
  n ← strlen (at_ptr m dst);
  strcat_loop (S (length m)) m (dst + n) src.

Definition strcpy (m : mem) (dst src : Z) : option mem :=
  n ← strlen (at_ptr m src); memcpy m dst src n.

(** Loops bounded by [strlen(str)], which is computed anew each time. *)
Fixpoint replace_loop (fuel : nat) (m : mem) (str new old i : Z) : option (mem * Z) :=
  match fuel with
  | O => None
  | S fuel' =>
      n ← strlen (at_ptr m str);
      if i <? n then
        c ← zget m (str + i);
        if c =? old then m ← zset m (str + i) new; Some (m, 1)
        else replace_loop fuel' m str new old (i + 1)
      else Some (m, 0)
  end.
Definition replace (m : mem) (str new old : Z) : option (mem * Z) :=
  replace_loop (S (length m)) m str new old 0.

Fixpoint replace_all_loop (fuel : nat) (m : mem) (str new old i count : Z) : option (mem * Z) :=
  match fuel with
  | O => None
  | S fuel' =>
      n ← strlen (at_ptr m str);
      if i <? n then
        c ← zget m (str + i);
        if c =? old then
          m ← zset m (str + i) new; replace_all_loop fuel' m str new old (i + 1) (count + 1)
        else replace_all_loop fuel' m str new old (i + 1) count
      else Some (m, count)
  end.
Definition replace_all (m : mem) (str new old : Z) : option (mem * Z) :=
  replace_all_loop (S (length m)) m str new old 0 0.

Definition trim (m : mem) (str : Z) : option (mem * Z) := replace_all m str 0 32.

Fixpoint trim_left_loop (fuel : nat) (m : mem) (str i : Z) : option mem :=
  match fuel with
  | O => None
  | S fuel' =>
      n ← strlen (at_ptr m str);
      if i <? n then
        c ← zget m (str + i);
        if c =? 32 then m ← zset m (str + i) 0; trim_left_loop fuel' m str (i + 1) else Some m
      else Some m
  end.
Definition trim_left (m : mem) (str : Z) : option (mem * Z) :=
  m ← trim_left_loop (S (length m)) m str 0; Some (m, 0).

Fixpoint trim_right_loop (fuel : nat) (m : mem) (str i : Z) : option mem :=
  match fuel with
  | O => None
  | S fuel' =>
      if 0 <=? i then
        c ← zget m (str + i);
        if c =? 32 then m ← zset m (str + i) 0; trim_right_loop fuel' m str (i - 1) else Some m
      else Some m
  end.
Definition trim_right (m : mem) (str : Z) : option (mem * Z) :=
  n ← strlen (at_ptr m str);
  m ← trim_right_loop (S (Z.to_nat n)) m str (n - 1); Some (m, 0).

Definition strreverse (str : mem) (size : Z) : option mem :=
  for_ (Z.to_nat (size / 2)) 0 (fun i s =>
    tmp ← zget s i;
    v ← zget s (size - 1 - i);
    s ← zset s i v;
    zset s (size - 1 - i) tmp) str.

(** ** Numbers *)

(** From the last digit to the first; [None] inside is the error return. *)
Fixpoint str2num_loop (k : nat) (str : mem) (i j ret : Z) : option (option Z) :=
  match k with
  | O => Some (Some ret)
  | S k' =>
      ch ← zget str i;
      if (ch <? 48) || (57 <? ch) then Some None
      else str2num_loop k' str (i - 1) (j + 1) (i32 (ret + u32 ((ch - 48) * pow 10 j)))
  end.

(** The return value and what is stored through [num]. *)
Definition str2num (str : mem) : option (Z * option Z) :=
  size ← strlen str;
  if size <? 1 then Some (-1, None)
  else
    c ← zget str 0;
    let '(signe, str, size) := if c =? 45 then (-1, tail str, size - 1) else (1, str, size) in
    r ← str2num_loop (Z.to_nat size) str (size - 1) 0 0;
    match r with
    | None => Some (-1, None)
    | Some ret => Some (0, Some (i32 (signe * ret)))
    end.

(** At most ten digits: [number] is an [int]. *)
Fixpoint num2str_loop (fuel : nat) (number : Z) (buf : mem) (i : Z) : option (mem * Z) :=
  match fuel with
  | O => None
  | S fuel' =>
      if 0 <? number then
        buf ← zset buf i (number mod 10 + 48);
        num2str_loop fuel' (number / 10) buf (i + 1)
      else Some (buf, i)
  end.

Definition num2str (num : Z) (m : mem) (str : Z) : option mem :=
  '(m, str, number) ← (if num <? 0 then m ← zset m str 45; Some (m, str + 1, i32 (num * -1))
                       else Some (m, str, num));
  '(buf, i) ← num2str_loop 11 number (replicate 64 0) 0;
  buf ← strreverse buf i;
  for_ (Z.to_nat i) 0 (fun k m => v ← zget buf k; zset m (str + k) v) m.

(** ** Tokens *)

(** Memory, [*save_ptr] and the token. *)
Definition strtok_r (m : mem) (str : option Z) (delim : mem) (save_ptr : Z)
    : option (mem * Z * option Z) :=
  let str := default save_ptr str in
  c ← zget m str;
  if c =? 0 then Some (m, str, None)
  else
    n ← strspn (at_ptr m str) delim;
    let str := str + n in
    c ← zget m str;
    if c =? 0 then Some (m, str, None)
    else
      n ← strcspn (at_ptr m str) delim;
      let end_ := str + n in
      c ← zget m end_;
      if c =? 0 then Some (m, end_, Some str)
      else m ← zset m end_ 0; Some (m, end_ + 1, Some str).

(** ** Dotted addresses (include/net_util.h) *)

(** [a_addr] starts with the four bytes of an uninitialised local variable. *)
Fixpoint str2ip_loop (fuel : nat) (m : mem) (save_ptr : Z) (token : option Z) (idx : Z) (a : list Z)
    : option (list Z) :=
  match fuel, token with
  | S fuel', Some token =>
      if idx <? 4 then
        '(_, num) ← str2num (at_ptr m token);
        num ← num;
        a ← zset a idx (u8 num);
        '(m, save_ptr, token) ← strtok_r m None [46; 0] save_ptr;
        str2ip_loop fuel' m save_ptr token (idx + 1) a
      else Some a
  | S _, None => Some a
  | O, _ => None
  end.

(** [str] is an array of 15 characters; [ip_str] its bytes up to the NUL.
    [save] is the value of the global [save_ptr]. *)
Definition str2ip (ip_str : mem) (a : list Z) (save : Z) : option (list Z) :=
  n ← strlen ip_str;
  m ← for_ (Z.to_nat n) 0 (fun i m => v ← zget ip_str i; zset m i v) (replicate 15 0);
  '(m, save, token) ← strtok_r m (Some 0) [46; 0] save;
  str2ip_loop 5 m save token 0 a.

(** ** Strings in memory *)

Lemma strlen_zget (l : mem) : forall n, 0 <= n ->
  (forall i, 0 <= i < n -> exists c, zget l i = Some c /\ c <> 0) -> zget l n = Some 0 ->
  strlen l = Some n.
Proof.
  induction l as [|c l IH]; intros n Hn Hc H0.
  - apply zget_Some in H0. unfold zlen in H0. cbn in H0. lia.
  - assert (forall i, 0 <= i -> zget (c :: l) (i + 1) = zget l i) as Hs.
    { intros i Hi. unfold zget. destruct (Z.ltb_spec (i + 1) 0), (Z.ltb_spec i 0); try lia.
      by rewrite Z2Nat.inj_add, Nat.add_comm by lia. }
    cbn [strlen]. destruct (decide (n = 0)) as [->|Hn'].
    + unfold zget in H0. cbn in H0. injection H0 as ->. done.
    + destruct (Hc 0) as (c0 & H & Hne); [lia|]. unfold zget in H. cbn in H. injection H as ->.
      destruct (Z.eqb_spec c0 0); [done|].
      rewrite (IH (n - 1)); [mstep; f_equal; lia|lia| |].
      * intros i Hi. rewrite <- Hs by lia. apply Hc. lia.
      * rewrite <- Hs by lia. by replace (n - 1 + 1) with n by lia.
Qed.

Lemma zget_at_ptr (m : mem) p i : 0 <= p -> 0 <= i -> zget (at_ptr m p) i = zget m (p + i).
Proof.
  intros Hp Hi. unfold at_ptr, zget. destruct (Z.ltb_spec p 0), (Z.ltb_spec i 0), (Z.ltb_spec (p + i) 0);
    try lia. by rewrite lookup_drop, Z2Nat.inj_add.
Qed.

(** ** Numbers *)

Definition dig (n k : Z) : Z := n / 10 ^ k mod 10.

Lemma dig_step n k : 0 <= k -> n mod 10 ^ (k + 1) = n mod 10 ^ k + dig n k * 10 ^ k.
Proof.
  intros Hk. unfold dig. rewrite Z.pow_add_r by lia. change (10 ^ 1) with 10.
  rewrite Z.rem_mul_r by lia. lia.
Qed.

Lemma dig_range n k : 0 <= dig n k < 10.
Proof. by apply Z.mod_pos_bound. Qed.

Lemma num2str_loop_ok n fuel : forall i buf, 0 <= n -> 0 <= i -> n < 10 ^ (i + Z.of_nat fuel) ->
  i + Z.of_nat fuel <= 64 -> zlen buf = 64 ->
  (forall k, 0 <= k < i -> zget buf k = Some (dig n k + 48)) -> (0 < i -> 10 ^ (i - 1) <= n) ->
  exists buf' L, num2str_loop (S fuel) (n / 10 ^ i) buf i = Some (buf', L) /\
    i <= L <= i + Z.of_nat fuel /\ n < 10 ^ L /\ (0 < L -> 10 ^ (L - 1) <= n) /\ zlen buf' = 64 /\
    forall k, 0 <= k < L -> zget buf' k = Some (dig n k + 48).
Proof.
  assert (forall i, 0 <= i -> 0 < 10 ^ i) as Hp by (intros; apply Z.pow_pos_nonneg; lia).
  assert (forall i, 0 <= i -> 0 <= n -> ~ 0 < n / 10 ^ i -> n < 10 ^ i) as Hq.
  { intros i Hi Hn H. specialize (Hp i Hi). pose proof (Z.div_pos n (10 ^ i) Hn Hp).
    assert (n / 10 ^ i = 0) as Hz by lia. apply Z.div_small_iff in Hz; lia. }
  induction fuel as [|fuel IH]; intros i buf Hn Hi Hb Hr Hl Hk Hlow.
  - exists buf, i. cbn [num2str_loop]. destruct (Z.ltb_spec 0 (n / 10 ^ i)) as [H|H].
    + rewrite Z.div_small in H by (replace (i + Z.of_nat 0) with i in Hb by lia; lia). lia.
    + split_and!; try done; try lia. apply Hq; lia.
  - cbn [num2str_loop]. destruct (Z.ltb_spec 0 (n / 10 ^ i)) as [H|H].
    + rewrite zset_is_Some by lia. mstep.
      replace (n / 10 ^ i / 10) with (n / 10 ^ (i + 1)).
      2:{ rewrite Z.pow_add_r, Z.div_div by (try apply Hp; lia). done. }
      set (buf1 := <[Z.to_nat i := _]> buf).
      assert (zset buf i (n / 10 ^ i mod 10 + 48) = Some buf1) as Hs by (by rewrite zset_is_Some by lia).
      destruct (IH (i + 1) buf1) as (buf' & L & E & HL & Hrest); try lia.
      * replace (i + 1 + Z.of_nat fuel) with (i + Z.of_nat (S fuel)) by lia. done.
      * by rewrite (zlen_zset _ _ _ _ Hs).
      * intros k Hkk. rewrite (zget_zset _ _ _ _ _ Hs). destruct (Z.eqb_spec k i) as [->|]; [done|].
        apply Hk. lia.
      * intros _. replace (i + 1 - 1) with i by lia. destruct (Z.le_gt_cases (10 ^ i) n) as [|Hlt]; [done|].
        rewrite Z.div_small in H; lia.
      * exists buf', L. split; [exact E|]. split; [lia|]. exact Hrest.
    + exists buf, i. split_and!; try done; try lia. apply Hq; lia.
Qed.

Lemma strreverse_ok (s : mem) size : 0 <= size <= zlen s ->
  exists s', strreverse s size = Some s' /\ zlen s' = zlen s /\
    forall k, 0 <= k < size -> zget s' k = zget s (size - 1 - k).
Proof.
  intros Hs. unfold strreverse.
  destruct (for_inv (fun j t => zlen t = zlen s /\ forall k, 0 <= k < size ->
      zget t k = if (k <? j) || (size - 1 - j <? k) then zget s (size - 1 - k) else zget s k)
      (fun i s => tmp ← zget s i; v ← zget s (size - 1 - i); s ← zset s i v;
         zset s (size - 1 - i) tmp) (Z.to_nat (size / 2)) 0 s) as (s' & E & Hl & Hk).
  - split; [done|]. intros k Hk. destruct (Z.ltb_spec k 0), (Z.ltb_spec (size - 1 - 0) k); try lia. done.
  - intros j t Hj [Hl Hk]. rewrite Z2Nat.id in Hj by divmod.
    assert (j < size - 1 - j) by divmod.
    destruct (zget_is_Some t j) as [a Ha]; [lia|]. destruct (zget_is_Some t (size - 1 - j)) as [b Hb]; [lia|].
    rewrite Ha. mstep. rewrite Hb. mstep.
    destruct (zset t j b) as [t1|] eqn:E1; [|by rewrite zset_is_Some in E1 by lia].
    mstep. pose proof (zlen_zset _ _ _ _ E1) as L1.
    destruct (zset t1 (size - 1 - j) a) as [t2|] eqn:E2; [|by rewrite zset_is_Some in E2 by lia].
    exists t2. split; [done|]. split; [by rewrite (zlen_zset _ _ _ _ E2), L1|].
    intros k Hkk. rewrite (zget_zset _ _ _ _ _ E2), (zget_zset _ _ _ _ _ E1).
    rewrite Hk in Ha, Hb by lia. specialize (Hk k Hkk).
    destruct (Z.ltb_spec j j), (Z.ltb_spec (size - 1 - j) j), (Z.ltb_spec (size - 1 - j) (size - 1 - j)),
      (Z.ltb_spec (size - 1 - j) j); try lia. cbn [orb] in Ha, Hb.
    destruct (Z.eqb_spec k (size - 1 - j)), (Z.eqb_spec k j); try lia; subst.
    + rewrite <- Ha. destruct (Z.ltb_spec (size - 1 - j) (j + 1)),
        (Z.ltb_spec (size - 1 - (j + 1)) (size - 1 - j)); try lia. cbn [orb]. f_equal. lia.
    + rewrite <- Hb. destruct (Z.ltb_spec j (j + 1)); [|lia]. done.
    + rewrite Hk. destruct (Z.ltb_spec k j), (Z.ltb_spec k (j + 1)), (Z.ltb_spec (size - 1 - j) k),
        (Z.ltb_spec (size - 1 - (j + 1)) k); try lia; done.
  - exists s'. split; [exact E|]. split; [done|]. intros k Hkk. rewrite Hk by done.
    rewrite Z2Nat.id by divmod. rewrite Z.add_0_l.
    destruct (Z.ltb_spec k (size / 2)), (Z.ltb_spec (size - 1 - size / 2) k); try done. cbn.
    f_equal. divmod.
Qed.

(** Copying from another object. *)
Lemma copy_in_ok (src m : mem) p n : 0 <= n <= zlen src -> 0 <= p -> p + n <= zlen m ->
  exists m', for_ (Z.to_nat n) 0 (fun k m => v ← zget src k; zset m (p + k) v) m = Some m' /\
    zlen m' = zlen m /\
    forall k, zget m' k = if (p <=? k) && (k <? p + n) then zget src (k - p) else zget m k.
Proof.
  intros Hn Hp Hm.
  destruct (for_inv (fun j t => zlen t = zlen m /\
      forall k, zget t k = if (p <=? k) && (k <? p + j) then zget src (k - p) else zget m k)
      (fun k m => v ← zget src k; zset m (p + k) v) (Z.to_nat n) 0 m) as (m' & E & Hl & Hk).
  - split; [done|]. intros k. destruct (Z.leb_spec p k), (Z.ltb_spec k (p + 0)); try lia; done.
  - intros j t Hj [Hl Hk]. destruct (zget_is_Some src j) as [v Hv]; [lia|]. rewrite Hv. mstep.
    destruct (zset t (p + j) v) as [t1|] eqn:E; [|by rewrite zset_is_Some in E by lia].
    exists t1. split; [done|]. split; [by rewrite (zlen_zset _ _ _ _ E)|].
    intros k. rewrite (zget_zset _ _ _ _ _ E), Hk.
    destruct (Z.eqb_spec k (p + j)) as [->|].
    + destruct (Z.leb_spec p (p + j)), (Z.ltb_spec (p + j) (p + (j + 1))); try lia. cbn.
      rewrite <- Hv. f_equal. lia.
    + destruct (Z.leb_spec p k), (Z.ltb_spec k (p + j)), (Z.ltb_spec k (p + (j + 1))); try lia; done.
  - exists m'. split; [exact E|]. split; [done|]. intros k. rewrite Hk.
    by replace (p + (0 + Z.of_nat (Z.to_nat n))) with (p + n) by lia.
Qed.

Lemma str2num_loop_ok n str L k : forall j, 0 <= j -> Z.of_nat k + j = L -> 0 <= n < 2147483648 ->
  n < 10 ^ L -> L <= 10 ->
  (forall i, 0 <= i < L -> zget str i = Some (dig n (L - 1 - i) + 48)) ->
  str2num_loop k str (L - 1 - j) j (n mod 10 ^ j) = Some (Some n).
Proof.
  induction k as [|k IH]; intros j Hj HL Hn Hb HL10 Hs; cbn [str2num_loop].
  - replace j with L by lia. by rewrite Z.mod_small by lia.
  - rewrite Hs by lia. mstep. pose proof (dig_range n (L - 1 - (L - 1 - j))) as Hd.
    replace (L - 1 - (L - 1 - j)) with j in * by lia.
    destruct (Z.ltb_spec (dig n j + 48) 48), (Z.ltb_spec 57 (dig n j + 48)); try lia. cbn [orb].
    assert (0 < 10 ^ j <= 10 ^ 9) as Hpow.
    { split; [apply Z.pow_pos_nonneg; lia|apply Z.pow_le_mono_r; lia]. }
    pose proof (dig_step n j Hj) as Hst.
    assert (0 < 10 ^ (j + 1)) as Hp1 by (apply Z.pow_pos_nonneg; lia).
    pose proof (Z.mod_le n (10 ^ (j + 1)) ltac:(lia) Hp1) as Hle.
    pose proof (Z.mod_pos_bound n (10 ^ j) ltac:(lia)) as Hm.
    rewrite pow_spec by lia. rewrite (u32_small (10 ^ j)) by lia.
    replace (dig n j + 48 - 48) with (dig n j) by lia.
    rewrite (u32_small (dig n j * 10 ^ j)) by lia. rewrite i32_small by lia.
    rewrite <- Hst. replace (L - 1 - j - 1) with (L - 1 - (j + 1)) by lia. apply IH; lia || done.
Qed.

(** Scanning the digits of [n] at [p], after an optional minus sign. *)
Lemma str2num_digits n (m : mem) p L (neg : bool) : 0 < n < 2147483648 -> 0 <= p -> 0 < L <= 10 ->
  n < 10 ^ L -> (neg = true -> zget m p = Some 45) ->
  (forall i, 0 <= i < L -> zget m (p + b2z neg + i) = Some (dig n (L - 1 - i) + 48)) ->
  zget m (p + b2z neg + L) = Some 0 ->
  str2num (at_ptr m p) = Some (0, Some (if neg then - n else n)).
Proof.
  intros Hn Hp HL Hb Hneg Hs H0. unfold str2num.
  assert (strlen (at_ptr m p) = Some (b2z neg + L)) as ->.
  { apply strlen_zget; [destruct neg; cbn; lia| |].
    - intros i Hi. rewrite zget_at_ptr by lia. destruct neg; cbn in *.
      + destruct (decide (i = 0)) as [->|]; [exists 45; split; [|done]; rewrite Z.add_0_r; by apply Hneg|].
        exists (dig n (L - i) + 48). pose proof (dig_range n (L - i)). split; [|lia].
        specialize (Hs (i - 1) ltac:(lia)). replace (p + 1 + (i - 1)) with (p + i) in Hs by lia.
        rewrite Hs. do 3 f_equal. lia.
      + exists (dig n (L - 1 - i) + 48). pose proof (dig_range n (L - 1 - i)). split; [|lia].
        rewrite <- Hs by lia. f_equal. lia.
    - rewrite zget_at_ptr by (destruct neg; cbn; lia). by rewrite Z.add_assoc. }
  mstep. destruct (Z.ltb_spec (b2z neg + L) 1); [destruct neg; cbn in *; lia|].
  assert (forall l i, 0 <= i -> zget (tail l : mem) i = zget l (i + 1)) as Htl.
  { intros l i Hi. unfold zget. destruct (Z.ltb_spec i 0), (Z.ltb_spec (i + 1) 0); try lia.
    destruct l; [done|]. cbn [tail]. by rewrite Z2Nat.inj_add, Nat.add_comm by lia. }
  rewrite zget_at_ptr, Z.add_0_r by lia. destruct neg; cbn [b2z] in *.
  - rewrite (Hneg eq_refl). mstep. cbn [Z.eqb Pos.eqb].
    pose proof (str2num_loop_ok n (tail (at_ptr m p)) L (Z.to_nat L) 0) as Hloop.
    rewrite Z.mod_1_r, Z.sub_0_r in Hloop. replace (1 + L - 1) with L by lia.
    rewrite Hloop; [mstep; rewrite i32_small by lia; do 3 f_equal; lia|lia..|].
    intros i Hi. rewrite Htl, zget_at_ptr by lia. rewrite <- Hs by lia. f_equal. lia.
  - specialize (Hs 0 ltac:(lia)) as Hs0. rewrite !Z.add_0_r in Hs0. rewrite Hs0. mstep.
    pose proof (dig_range n (L - 1 - 0)). destruct (Z.eqb_spec (dig n (L - 1 - 0) + 48) 45); [lia|].
    pose proof (str2num_loop_ok n (at_ptr m p) L (Z.to_nat L) 0) as Hloop.
    rewrite Z.mod_1_r, Z.sub_0_r in Hloop. rewrite Z.add_0_l.
    rewrite Hloop; [mstep; rewrite i32_small by lia; do 3 f_equal; lia|lia..|].
    intros i Hi. rewrite zget_at_ptr by lia. rewrite <- Hs by lia. f_equal. lia.
Qed.

(** A number printed by [num2str] into cleared memory is read back by
    [str2num], for every [int] but 0 and the least one. *)
Theorem str2num_num2str n (m : mem) p : 0 < Z.abs n < 2147483648 -> 0 <= p ->
  (forall i, p <= i < p + 12 -> zget m i = Some 0) ->
  exists m', num2str n m p = Some m' /\ str2num (at_ptr m' p) = Some (0, Some n).
Proof.
  intros Hn Hp Hm. set (neg := n <? 0). set (a := Z.abs n) in *.
  assert (p + 12 <= zlen m) as Hlm.
  { destruct (Z.le_gt_cases (p + 12) (zlen m)); [done|].
    specialize (Hm (p + 11) ltac:(lia)). apply zget_Some in Hm. lia. }
  unfold num2str.
  assert (exists m1, (if n <? 0 then m1 ← zset m p 45; Some (m1, p + 1, i32 (n * -1)) else Some (m, p, n))
     = Some (m1, p + b2z neg, a) /\ zlen m1 = zlen m /\ (neg = true -> zget m1 p = Some 45) /\
     forall i, p + b2z neg <= i < p + 12 -> zget m1 i = Some 0) as (m1 & -> & Hl1 & Hneg & H1).
  { subst neg a. destruct (Z.ltb_spec n 0); cbn [b2z].
    - destruct (zset m p 45) as [m1|] eqn:E; [|by rewrite zset_is_Some in E by lia]. mstep.
      exists m1. split; [rewrite i32_small by lia; do 2 f_equal; lia|].
      split; [by apply zlen_zset in E|]. split.
      + intros _. rewrite (zget_zset _ _ _ _ _ E). by rewrite Z.eqb_refl.
      + intros i Hi. rewrite (zget_zset _ _ _ _ _ E). destruct (Z.eqb_spec i p); [lia|]. apply Hm. lia.
    - exists m. rewrite Z.add_0_r. replace (Z.abs n) with n by lia. split_and!; try done; lia || apply Hm. }
  mstep. pose proof (num2str_loop_ok a 10 0 (replicate 64 0)) as Hloop.
  rewrite Z.div_1_r in Hloop.
  destruct Hloop as (buf & L & -> & HL & Hup & Hlow & Hlb & Hd); try lia; try done.
  mstep. assert (0 < L) as HL0 by (destruct (decide (L = 0)) as [->|]; cbn in *; lia).
  destruct (strreverse_ok buf L) as (rb & -> & Hlr & Hr); [lia|]. mstep.
  assert (b2z neg <= 1) by (by destruct neg). assert (0 <= b2z neg) by (by destruct neg).
  destruct (copy_in_ok rb m1 (p + b2z neg) L) as (m2 & -> & Hl2 & H2); [lia..|].
  exists m2. split; [done|].
  replace n with (if neg then - a else a) at 1 by (subst neg a; destruct (Z.ltb_spec n 0); lia).
  apply (str2num_digits a m2 p L neg); try lia.
  - intros Hnn. rewrite H2. rewrite Hnn. cbn [b2z].
    destruct (Z.leb_spec (p + 1) p); [lia|]. cbn [andb]. by apply Hneg.
  - intros i Hi. rewrite H2. destruct (Z.leb_spec (p + b2z neg) (p + b2z neg + i)),
      (Z.ltb_spec (p + b2z neg + i) (p + b2z neg + L)); try lia. cbn [andb].
    rewrite Hr by lia. rewrite Hd by lia. do 3 f_equal. lia.
  - rewrite H2. destruct (Z.ltb_spec (p + b2z neg + L) (p + b2z neg + L)); [lia|].
    rewrite andb_false_r. apply H1. lia.
Qed.

Lemma str2num_num2str_witness :
  exists m', num2str (-2147483647) (replicate 14 0) 2 = Some m' /\
    str2num (at_ptr m' 2) = Some (0, Some (-2147483647)).
Proof.
  apply (str2num_num2str (-2147483647) (replicate 14 0) 2); [lia..|]. intros i Hi. unfold zget.
  destruct (Z.ltb_spec i 0); [lia|]. apply lookup_replicate_2. lia.
Defined.

(** 0 prints as nothing, and the least [int] as a sign only. *)
Lemma num2str_zero m p : num2str 0 m p = Some m.
Proof. done. Qed.

Lemma num2str_int_min : num2str (-2147483648) (replicate 12 0) 0 = Some (45 :: replicate 11 0).
Proof. vm_compute. reflexivity. Qed.

(** ** Words *)

Section Words.
Context (d : list Z).
Hypothesis d_chars : 0 ∉ d.

(** The maximal non-empty pieces without delimiters; [cur] is the piece being
    read. *)
Fixpoint words (s cur : list Z) : list (list Z) :=
  match s with
  | [] => if bool_decide (cur = []) then [] else [cur]
  | c :: s' =>
      if bool_decide (c ∈ d) then
        (if bool_decide (cur = []) then words s' [] else cur :: words s' [])
      else words s' (cur ++ [c])
  end.

(** The string at the start of some bytes. *)
Fixpoint cstring (l : mem) : option (list Z) :=
  match l with
  | [] => None
  | c :: l' => if c =? 0 then Some [] else s ← cstring l'; Some (c :: s)
  end.

Lemma cstring_app w r : 0 ∉ w -> cstring (w ++ 0 :: r) = Some w.
Proof.
  induction w as [|c w IH]; intros Hw; cbn; [done|]. apply not_elem_of_cons in Hw as [Hc Hw].
  destruct (Z.eqb_spec c 0); [congruence|]. by rewrite IH.
Qed.

Lemma strchr_ok l c : 0 ∉ l -> c <> 0 ->
  exists r, strchr (l ++ [0]) c = Some r /\ (r <> None <-> c ∈ l).
Proof.
  induction l as [|x l IH]; intros Hl Hc; cbn.
  - exists None. split; [done|]. split; [done|by intros ?%not_elem_of_nil].
  - apply not_elem_of_cons in Hl as [Hx Hl]. destruct (Z.eqb_spec x 0); [congruence|].
    destruct (Z.eqb_spec x c) as [->|].
    + exists (Some 0). split; [done|]. split; [set_solver|done].
    + destruct IH as (r & -> & Hr); [done..|]. mstep. exists (match r with Some i => Some (i + 1) | _ => None end).
      split; [by destruct r|]. rewrite elem_of_cons, <- Hr.
      destruct r; split; try done; try (intros [|]; done || congruence). by right.
Qed.

Lemma words_skip pre s : Forall (fun c => c ∈ d) pre -> words (pre ++ s) [] = words s [].
Proof.
  induction 1 as [|c pre Hc _ IH]; [done|]. cbn. by rewrite bool_decide_true.
Qed.

Lemma words_read tok s cur : Forall (fun c => c ∉ d) tok -> words (tok ++ s) cur = words s (cur ++ tok).
Proof.
  intros H. revert cur. induction H as [|c tok Hc _ IH]; intros cur; cbn; [by rewrite app_nil_r|].
  rewrite bool_decide_false by done. by rewrite IH, <- app_assoc.
Qed.

(** Both scans stop at the first character of the other kind. *)
Lemma strspn_ok s r : 0 ∉ s -> exists pre rest, s = pre ++ rest /\
  strspn (s ++ 0 :: r) (d ++ [0]) = Some (zlen pre) /\ Forall (fun c => c ∈ d) pre /\
  (forall c t, rest = c :: t -> c ∉ d).
Proof.
  induction s as [|c s IH]; intros Hs; cbn.
  - exists [], []. by split_and!.
  - apply not_elem_of_cons in Hs as [Hc Hs]. destruct (Z.eqb_spec c 0); [congruence|].
    destruct (strchr_ok d c) as (q & -> & Hq); [done..|]. mstep. destruct q as [i|].
    + destruct IH as (pre & rest & -> & E & Hpre & Hrest); [done|]. exists (c :: pre), rest.
      rewrite E. split_and!; try done.
      * mstep. unfold zlen. cbn. f_equal. lia.
      * constructor; [by apply Hq|done].
    + exists [], (c :: s). split_and!; try done. intros ? ? [= -> ->] Hin.
      by apply Hq in Hin.
Qed.

Lemma strcspn_ok s r : 0 ∉ s -> exists tok rest, s = tok ++ rest /\
  strcspn (s ++ 0 :: r) (d ++ [0]) = Some (zlen tok) /\ Forall (fun c => c ∉ d) tok /\
  (forall c t, rest = c :: t -> c ∈ d).
Proof.
  induction s as [|c s IH]; intros Hs; cbn.
  - exists [], []. by split_and!.
  - apply not_elem_of_cons in Hs as [Hc Hs]. destruct (Z.eqb_spec c 0); [congruence|].
    destruct (strchr_ok d c) as (q & -> & Hq); [done..|]. mstep. destruct q as [i|].
    + exists [], (c :: s). split_and!; try done. intros ? ? [= -> ->]. by apply Hq.
    + destruct IH as (tok & rest & -> & E & Htok & Hrest); [done|]. exists (c :: tok), rest.
      rewrite E. split_and!; try done.
      * mstep. unfold zlen. cbn. f_equal. lia.
      * constructor; [|done]. intros Hin. by apply Hq in Hin.
Qed.

Lemma at_ptr_app (a b : mem) : at_ptr (a ++ b) (zlen a) = b.
Proof.
  unfold at_ptr, zlen. destruct (Z.ltb_spec (Z.of_nat (length a)) 0); [lia|].
  by rewrite Nat2Z.id, drop_app_length.
Qed.

Lemma zget_app_at (a b : mem) : zget (a ++ b) (zlen a) = head b.
Proof.
  unfold zlen. rewrite zget_nat. rewrite lookup_app_r by done. rewrite Nat.sub_diag. by destruct b.
Qed.

Lemma zset_app_at (a b : mem) c v : zset (a ++ c :: b) (zlen a) v = Some (a ++ v :: b).
Proof.
  rewrite zset_is_Some by (rewrite zlen_app; unfold zlen; cbn; lia).
  unfold zlen. rewrite Nat2Z.id. by rewrite insert_app_r_alt, Nat.sub_diag by lia.
Qed.

(** One call on the string [s] at [zlen before]: it finds the first word,
    ends it with a NUL and goes on behind it. *)
Lemma strtok_r_ok before s after str save : 0 ∉ s -> default save str = zlen before ->
  (words s [] = [] /\ exists save', strtok_r (before ++ s ++ 0 :: after) str (d ++ [0]) save
     = Some (before ++ s ++ 0 :: after, save', None)) \/
  exists skipped w mid s', words s [] = w :: words s' [] /\ 0 ∉ w /\ 0 ∉ s' /\
    (length s' < length s)%nat /\ (mid = [0] \/ mid = [] /\ s' = []) /\
    length s = length (skipped ++ w ++ mid ++ s') /\
    strtok_r (before ++ s ++ 0 :: after) str (d ++ [0]) save
    = Some (before ++ skipped ++ w ++ mid ++ s' ++ 0 :: after,
            zlen (before ++ skipped ++ w ++ mid), Some (zlen (before ++ skipped))).
Proof.
  intros Hs Hp. unfold strtok_r. rewrite Hp. rewrite zget_app_at.
  destruct s as [|c s1]; [left; split; [done|]; by eexists|]. cbn [app head]. mstep.
  pose proof Hs as [Hc _]%not_elem_of_cons. destruct (Z.eqb_spec c 0); [congruence|].
  rewrite (at_ptr_app before (c :: s1 ++ 0 :: after)).
  change (c :: s1 ++ 0 :: after) with ((c :: s1) ++ 0 :: after).
  destruct (strspn_ok (c :: s1) after Hs) as (pre & rest & Es & -> & Hpre & Hrest). mstep.
  rewrite Es in *. clear c s1 Es Hc n. rewrite <- zlen_app.
  assert (forall x, before ++ (pre ++ rest) ++ x = (before ++ pre) ++ rest ++ x) as Ha
    by (intros; by rewrite <- !app_assoc).
  rewrite Ha, zget_app_at.
  destruct rest as [|c s1].
  { left. rewrite words_skip by done. split; [done|]. by eexists. }
  cbn [app head]. mstep. apply not_elem_of_app in Hs as [Hspre Hs].
  pose proof Hs as [Hc _]%not_elem_of_cons. destruct (Z.eqb_spec c 0); [congruence|].
  rewrite (at_ptr_app (before ++ pre) (c :: s1 ++ 0 :: after)).
  change (c :: s1 ++ 0 :: after) with ((c :: s1) ++ 0 :: after).
  destruct (strcspn_ok (c :: s1) after Hs) as (tok & rest & Es & -> & Htok & Hrest'). mstep.
  assert (tok <> []) as Hne.
  { intros ->. cbn in Es. apply (Hrest c s1); [done|]. by apply (Hrest' c s1). }
  rewrite Es in *. rewrite <- zlen_app. apply not_elem_of_app in Hs as [Hstok Hs'].
  rewrite words_skip, words_read by done. cbn [app].
  assert (length tok <> 0)%nat as Hlt by (by destruct tok).
  assert ((before ++ pre) ++ (tok ++ rest) ++ 0 :: after
    = ((before ++ pre) ++ tok) ++ rest ++ 0 :: after) as -> by (by rewrite <- !app_assoc).
  rewrite zget_app_at. right. destruct rest as [|c' s'].
  - cbn [app head]. mstep. exists pre, tok, [], []. split_and!; try done.
    + cbn. by rewrite bool_decide_false.
    + rewrite length_app. cbn. rewrite length_app. cbn. lia.
    + by right.
    + by rewrite !app_nil_r, <- !app_assoc.
  - cbn [app head]. mstep. pose proof Hs' as [Hc' Hs'']%not_elem_of_cons.
    destruct (Z.eqb_spec c' 0); [congruence|]. rewrite zset_app_at. mstep.
    exists pre, tok, [0], s'. split_and!; try done.
    + cbn. rewrite bool_decide_true by (by eapply Hrest'). by rewrite bool_decide_false.
    + rewrite !length_app. cbn. lia.
    + by left.
    + rewrite !length_app. cbn. done.
    + do 3 f_equal; [by rewrite <- !app_assoc|]. rewrite !zlen_app. unfold zlen. cbn. lia.
Qed.

(** The loop of the callers: first with the string, then with NULL, until
    NULL comes back. *)
Fixpoint strtok_all (fuel : nat) (m : mem) (str : option Z) (save : Z) : option (mem * list Z) :=
  match fuel with
  | O => None
  | S fuel' =>
      '(m, save, tok) ← strtok_r m str (d ++ [0]) save;
      match tok with
      | None => Some (m, [])
      | Some t => '(m, ts) ← strtok_all fuel' m None save; Some (m, t :: ts)
      end
  end.

(** Calling [strtok_r] until it returns NULL terminates, and the pointers it
    returned are, in the memory it leaves, the words of the string in order. *)
Theorem strtok_words s : forall fuel before after str save, 0 ∉ s ->
  default save str = zlen before -> (length s < fuel)%nat ->
  exists t ts, strtok_all fuel (before ++ s ++ 0 :: after) str save
    = Some (before ++ t ++ 0 :: after, ts) /\ length t = length s /\
    mapM (fun p => cstring (at_ptr (before ++ t ++ 0 :: after) p)) ts = Some (words s []).
Proof.
  remember (length s) as n eqn:Hn. revert s Hn.
  induction (lt_wf n) as [n _ IH]. intros s -> fuel before after str save Hs Hp Hf.
  destruct fuel as [|fuel]; [lia|]. cbn [strtok_all].
  destruct (strtok_r_ok before s after str save Hs Hp)
    as [(Hw & sv & ->)|(sk & w & mid & s' & Hw & H0 & Hs' & Hlt & Hmid & Hlen & ->)]; mstep.
  - exists s, []. split_and!; [done..|]. by rewrite Hw.
  - destruct (IH (length s') Hlt s' eq_refl fuel (before ++ sk ++ w ++ mid) after None
      (zlen (before ++ sk ++ w ++ mid))) as (t & ts & E & Ht & HM); [done|done|lia|].
    assert (forall x, before ++ sk ++ w ++ mid ++ x ++ 0 :: after
      = (before ++ sk ++ w ++ mid) ++ x ++ 0 :: after) as Ha by (intros; by rewrite <- !app_assoc).
    rewrite (Ha s'), E. mstep. exists (sk ++ w ++ mid ++ t), (zlen (before ++ sk) :: ts).
    assert ((before ++ sk ++ w ++ mid) ++ t ++ 0 :: after
      = before ++ (sk ++ w ++ mid ++ t) ++ 0 :: after) as Hb by (by rewrite <- !app_assoc).
    rewrite Hb in HM |- *. split; [done|]. split.
    { rewrite Hlen, !length_app. lia. }
    rewrite Hw. cbn [mapM].
    assert (exists r, before ++ (sk ++ w ++ mid ++ t) ++ 0 :: after
      = (before ++ sk) ++ w ++ 0 :: r) as [r Hr].
    { destruct Hmid as [->|[-> ->]].
      - exists (t ++ 0 :: after). by rewrite <- !app_assoc.
      - destruct t; [|done]. exists after. by rewrite <- !app_assoc. }
    rewrite Hr in HM |- *. rewrite at_ptr_app, cstring_app by done. mstep. by rewrite HM.
Qed.

End Words.

(** The words of ["..ab.c."], read from its middle of memory. *)
Lemma strtok_words_witness :
  exists t ts, strtok_all [46] 8 ([7] ++ [46; 46; 97; 98; 46; 99; 46] ++ 0 :: [5]) (Some 1) 0
    = Some ([7] ++ t ++ 0 :: [5], ts) /\ length t = 7%nat /\
    mapM (fun p => cstring (at_ptr ([7] ++ t ++ 0 :: [5]) p)) ts = Some [[97; 98]; [99]].
Proof.
  apply (strtok_words [46] ltac:(set_solver) [46; 46; 97; 98; 46; 99; 46] 8 [7] [5] (Some 1) 0);
    [set_solver|done|cbn; lia].
Defined.

(** ** Comparison *)

Lemma strlen_app s r : 0 ∉ s -> strlen (s ++ 0 :: r) = Some (zlen s).
Proof.
  induction s as [|c s IH]; intros Hs; cbn; [done|]. apply not_elem_of_cons in Hs as [Hc Hs].
  destruct (Z.eqb_spec c 0); [congruence|]. rewrite IH by done. mstep. unfold zlen. cbn. f_equal. lia.
Qed.

Lemma memcmp_loop_ok n : forall a b : mem, (n <= length a)%nat -> (n <= length b)%nat ->
  exists r, memcmp_loop n a b = Some r /\ -1 <= r <= 1 /\ (r = 0 <-> take n a = take n b).
Proof.
  induction n as [|n IH]; intros a b Ha Hb; cbn [memcmp_loop].
  - exists 0. split; [done|]. split; [lia|done].
  - destruct a as [|x a], b as [|y b]; cbn in *; try lia. destruct (Z.eqb_spec x y) as [->|Hne]; cbn.
    + destruct (IH a b) as (r & -> & Hr & H0); [lia..|]. exists r. split_and!; [done|lia..|].
      rewrite H0. split; congruence.
    + exists (if y <? x then 1 else -1). split; [done|]. destruct (Z.ltb_spec y x); (split; [lia|]);
        (split; [lia|intros [= ? ?]; lia]).
Qed.

Lemma prefix_take (a b : list Z) : (length a <= length b)%nat ->
  (a = take (length a) b <-> a `prefix_of` b \/ b `prefix_of` a).
Proof.
  intros Hl. split.
  - intros E. left. exists (drop (length a) b). rewrite E at 1. by rewrite take_drop.
  - intros [[k ->]|[k ->]]; [by rewrite take_app_length|].
    rewrite length_app in Hl. destruct k; cbn in Hl; [|lia]. rewrite app_nil_r. by rewrite take_ge by lia.
Qed.

(** Comparing as many characters as the shorter string has. *)
Lemma memcmp_shorter (a b ra rb : mem) : 0 ∉ a -> 0 ∉ b ->
  exists r, memcmp (a ++ 0 :: ra) (b ++ 0 :: rb) (if zlen a <? zlen b then zlen a else zlen b) = Some r /\
    -1 <= r <= 1 /\ (r = 0 <-> a `prefix_of` b \/ b `prefix_of` a).
Proof.
  intros Ha Hb. unfold memcmp. set (n := Z.to_nat _). assert (n = length a `min` length b)%nat as Hn.
  { unfold n, zlen. destruct (Z.ltb_spec (Z.of_nat (length a)) (Z.of_nat (length b))); lia. }
  destruct (memcmp_loop_ok n (a ++ 0 :: ra) (b ++ 0 :: rb)) as (r & -> & Hr & H0);
    [rewrite length_app; lia..|]. exists r. split; [done|]. split; [done|].
  rewrite H0, !take_app_le by lia. destruct (Nat.le_ge_cases (length a) (length b)) as [Hl|Hl].
  - rewrite Hn, Nat.min_l by lia. rewrite (take_ge a) by lia. by apply prefix_take.
  - rewrite Hn, Nat.min_r by lia. rewrite (take_ge b) by lia. rewrite (Logic.or_comm (a `prefix_of` b)).
    rewrite <- prefix_take by done. split; congruence.
Qed.

(** [strcmp] answers 0 exactly when one string is a prefix of the other, not
    only for equal strings. *)
Theorem strcmp_prefix (a b ra rb : mem) : 0 ∉ a -> 0 ∉ b ->
  exists r, strcmp (a ++ 0 :: ra) (b ++ 0 :: rb) = Some r /\
    (r = 0 <-> a `prefix_of` b \/ b `prefix_of` a).
Proof.
  intros Ha Hb. unfold strcmp. rewrite !strlen_app by done. mstep.
  destruct (memcmp_shorter a b ra rb Ha Hb) as (r & -> & Hr & H0). mstep. exists (u32 r). split; [done|].
  assert (u32 r = 0 <-> r = 0) as ->; [|done]. unfold u32. split; [|by intros ->].
  destruct (decide (r = -1)) as [->|]; [done|rewrite Z.mod_small; lia].
Qed.

Lemma strcmp_prefix_witness : exists r, strcmp [97; 0] [97; 98; 0] = Some r /\ (r = 0 <-> True).
Proof.
  destruct (strcmp_prefix [97] [97; 98] [] []) as (r & Hr & H0); [set_solver..|].
  exists r. split; [exact Hr|]. rewrite H0. split; [done|]. intros _. left. by exists [98].
Defined.

(** ** Other departures from the C library *)

(** [strchrs] does not advance: on a non-empty string it never returns. *)
Lemma strchrs_diverges fuel c s ch : c <> 0 -> strchrs fuel (c :: s) ch = None.
Proof.
  intros Hc. unfold strchrs. generalize 0 as cnt. induction fuel as [|fuel IH]; intros cnt; [done|].
  cbn. destruct (Z.eqb_spec c 0); [done|]. apply IH.
Qed.

(** [strcpy] leaves out the NUL. *)
Lemma strcpy_no_nul : strcpy [97; 0; 98; 98] 2 0 = Some [97; 0; 97; 98].
Proof. done. Qed.

(** [trim] cuts the string at its first blank, and [trim_left] empties it. *)
Lemma trim_cuts : trim [97; 32; 98; 32; 0] 0 = Some ([97; 0; 98; 32; 0], 1).
Proof. done. Qed.

Lemma trim_left_empties : trim_left [32; 97; 0] 0 = Some ([0; 97; 0], 0).
Proof. done. Qed.

(** The longest dotted address fills the buffer of [str2ip], which is then
    scanned past its end. *)
Lemma str2ip_overrun : str2ip ([50; 53; 53; 46; 50; 53; 53; 46; 50; 53; 53; 46; 50; 53; 53; 0]) [0; 0; 0; 0] 0 = None.
Proof. by vm_compute. Qed.

Lemma str2ip_example : str2ip ([49; 48; 46; 51; 46; 50; 48; 56; 46; 49; 48; 48; 0]) [0; 0; 0; 0] 0
  = Some [10; 3; 208; 100].
Proof. by vm_compute. Qed.
