(* ===== verification/Datetime.v ===== *)
(** * Calendar arithmetic: common/tool/datetime.h

    [mktime64] (date to seconds) and [mkdatetime] (seconds to date) at their C
    widths, and a reference calendar ([days_to]) they are compared with. *)

From S2P Require Import Prelude CMath.

Record datetime_t := Datetime {
  year : Z; month : Z; day : Z; hour : Z; minute : Z; second : Z }.

Record timespec_t := Timespec { tv_sec : Z; tv_nsec : Z }.

Definition mktime64 (year0 mon0 day hour min sec : Z) : Z :=
  let mon := u32 (mon0 - 2) in
  let '(mon, year) :=
    if i32 mon <=? 0 then (u32 (mon + 12), u32 (year0 - 1)) else (mon, year0) in
  let days := u32 (year / 4 - year / 100 + year / 400 + u32 (367 * mon) / 12 + day) in
  i64 (i64 (i64 ((days + u32 (year * 365) - 719499) * 24 + hour) * 60 + min) * 60 + sec).

Definition days : list Z := [31; 28; 31; 30; 31; 30; 31; 31; 30; 31; 30; 31].

(** The loop that consumes whole years: [time] is in hours. *)
Fixpoint years_loop (fuel : nat) (year time : Z) : option (Z * Z) :=
  match fuel with
  | O => None
  | S fuel' =>
      let hours_per_year := 365 * 24 in
      let hours_per_year :=
        if Z.land year 3 =? 0 then hours_per_year + 24 else hours_per_year in
      if time <? hours_per_year then Some (year, time)
      else years_loop fuel' (year + 1) (time - hours_per_year)
  end.

(** [for (month = 0; days[month] < time; month++) time -= days[month];] *)
Fixpoint months_loop (fuel : nat) (month time : Z) : option (Z * Z) :=
  match fuel with
  | O => None
  | S fuel' =>
      d ← zget days month;
      if d <? time then months_loop fuel' (month + 1) (time - d)
      else Some (month, time)
  end.

Definition mkdatetime (time : Z) : option datetime_t :=
  '(time, second) ← div_u64_rem (u64 time) 60;
  '(time, minute) ← div_u64_rem time 60;
  '(year4, remainder) ← div_u64_rem time (1461 * 24);
  let year := i32 (1970 + i32 year4 * 4) in
  '(year, time) ← years_loop 5 year remainder;
  '(time, hour) ← div_u64_rem (u64 time) 24;
  let time := time + 1 in
  if Z.land year 3 =? 0 then
    if 60 <? time then
      '(month, time) ← months_loop 13 0 (time - 1);
      Some (Datetime year month time hour minute second)
    else if time =? 60 then Some (Datetime year 1 29 hour minute second)
    else
      '(month, time) ← months_loop 13 0 time;
      Some (Datetime year month time hour minute second)
  else
    '(month, time) ← months_loop 13 0 time;
    Some (Datetime year month time hour minute second).

Definition timespec2ms (t : timespec_t) : option Z :=
  let ret := u64 (tv_sec t * 1000) in
  '(q, _) ← div_u64_rem (u64 (tv_nsec t)) 1000000;
  Some (u64 (ret + q)).

(** ** The reference calendar *)

Definition leap (y : Z) : bool :=
  (y mod 4 =? 0) && (negb (y mod 100 =? 0) || (y mod 400 =? 0)).

Definition month_len (y m : Z) : Z :=
  if m =? 2 then (if leap y then 29 else 28)
  else if (m =? 4) || (m =? 6) || (m =? 9) || (m =? 11) then 30 else 31.

(** Days of the months before [m]. *)
Definition days_before_month (y m : Z) : Z :=
  foldr Z.add 0 (map (month_len y) (seqZ 1 (m - 1))).

(** Days from 1 January 1970 to 1 January of [1970 + n]. *)
Fixpoint days_before_year (n : nat) : Z :=
  match n with
  | O => 0
  | S n' => days_before_year n' + (if leap (1970 + Z.of_nat n') then 366 else 365)
  end.

Definition days_to (y m d : Z) : Z :=
  days_before_year (Z.to_nat (y - 1970)) + days_before_month y m + (d - 1).

Definition seconds_to (y m d h mi s : Z) : Z :=
  ((days_to y m d * 24 + h) * 60 + mi) * 60 + s.

Definition valid_date (y m d : Z) : bool :=
  (1 <=? m) && (m <=? 12) && (1 <=? d) && (d <=? month_len y m).

(** ** mktime64 *)

Lemma leap_count n : days_before_year n =
  let y := 1969 + Z.of_nat n in
  365 * Z.of_nat n + (y / 4 - y / 100 + y / 400) - 477.
Proof.
  induction n as [|n IH]; [done|]. cbn [days_before_year]. rewrite IH.
  replace (1969 + Z.of_nat (S n)) with (1970 + Z.of_nat n) by lia.
  set (y := 1970 + Z.of_nat n). replace (1969 + Z.of_nat n) with (y - 1) by lia.
  unfold leap.
  destruct (Z.eqb_spec (y mod 4) 0), (Z.eqb_spec (y mod 100) 0),
    (Z.eqb_spec (y mod 400) 0); cbn [negb andb orb]; divmod.
Qed.

(** Days before each month of a common year. *)
Definition month_start : list Z :=
  [0; 31; 59; 90; 120; 151; 181; 212; 243; 273; 304; 334].

Lemma days_before_month_table y m : 1 <= m <= 12 ->
  exists t, zget month_start (m - 1) = Some t /\
    days_before_month y m = t + b2z (leap y && (2 <? m)).
Proof.
  intros Hm.
  assert (m = 1 \/ m = 2 \/ m = 3 \/ m = 4 \/ m = 5 \/ m = 6 \/ m = 7 \/ m = 8
    \/ m = 9 \/ m = 10 \/ m = 11 \/ m = 12) as Hcases by lia.
  unfold days_before_month, month_len.
  destruct_or! Hcases; subst m; eexists; (split; [reflexivity|]);
    destruct (leap y); reflexivity.
Qed.

Lemma i64_small x : -9223372036854775808 <= x < 9223372036854775808 -> i64 x = x.
Proof. intros H. unfold i64. rewrite Z.mod_small; lia. Qed.

(** The day count of [mktime64], before its scaling to seconds. *)
Lemma mktime64_days y m d : 1970 <= y < 2 ^ 20 -> 1 <= m <= 12 -> 1 <= d <= 31 ->
  let '(mon, yr) := if i32 (u32 (m - 2)) <=? 0
    then (u32 (u32 (m - 2) + 12), u32 (y - 1)) else (u32 (m - 2), y) in
  u32 (yr / 4 - yr / 100 + yr / 400 + u32 (367 * mon) / 12 + d)
    + u32 (yr * 365) - 719499 = days_to y m d.
Proof.
  intros Hy Hm Hd. unfold days_to. rewrite leap_count, Z2Nat.id by lia. cbv zeta.
  replace (1969 + (y - 1970)) with (y - 1) by lia.
  destruct (days_before_month_table y m Hm) as (t & Ht & ->).
  assert (y mod 4 = 0 -> y / 4 = (y - 1) / 4 + 1) by divmod.
  assert (y mod 4 <> 0 -> y / 4 = (y - 1) / 4) by divmod.
  assert (y mod 100 = 0 -> y / 100 = (y - 1) / 100 + 1) by divmod.
  assert (y mod 100 <> 0 -> y / 100 = (y - 1) / 100) by divmod.
  assert (y mod 400 = 0 -> y / 400 = (y - 1) / 400 + 1 /\ y mod 100 = 0) by divmod.
  assert (y mod 400 <> 0 -> y / 400 = (y - 1) / 400) by divmod.
  assert (y mod 100 = 0 -> y mod 4 = 0) by divmod.
  assert (0 <= (y - 1) / 400 <= (y - 1) / 100) by divmod.
  assert ((y - 1) / 100 <= (y - 1) / 4 <= y) by divmod.
  assert (m = 1 \/ m = 2 \/ m = 3 \/ m = 4 \/ m = 5 \/ m = 6 \/ m = 7 \/ m = 8
    \/ m = 9 \/ m = 10 \/ m = 11 \/ m = 12) as Hcases by lia.
  unfold leap.
  destruct_or! Hcases; subst m; vm_compute in Ht; injection Ht as <-;
  match goal with |- context [if ?b then _ else _] =>
    let v := eval vm_compute in b in change b with v end;
  cbv iota;
  repeat match goal with
  | |- context [u32 (u32 (?a - 2) + 12)] =>
      let v := eval vm_compute in (u32 (u32 (a - 2) + 12)) in
      change (u32 (u32 (a - 2) + 12)) with v
  | |- context [u32 (?a - 2)] =>
      let v := eval vm_compute in (u32 (a - 2)) in change (u32 (a - 2)) with v
  | |- context [u32 (367 * ?a) / 12] =>
      let v := eval vm_compute in (u32 (367 * a) / 12) in
      change (u32 (367 * a) / 12) with v
  end;
  rewrite ?(u32_small (y - 1)) by lia; rewrite !u32_small by lia;
  destruct (Z.eqb_spec (y mod 4) 0), (Z.eqb_spec (y mod 100) 0),
    (Z.eqb_spec (y mod 400) 0); cbn [negb andb orb b2z Z.ltb Z.compare Pos.compare Pos.compare_cont];
  lia.
Qed.

Lemma days_to_range y m d : 1970 <= y < 2 ^ 20 -> 1 <= m <= 12 -> 1 <= d <= 31 ->
  0 <= days_to y m d < 2 ^ 30.
Proof.
  intros Hy Hm Hd. unfold days_to. rewrite leap_count, Z2Nat.id by lia. cbv zeta.
  destruct (days_before_month_table y m Hm) as (t & Ht & ->).
  assert (0 <= t <= 334) as Htb.
  { unfold zget in Ht. cif_in Ht; [done|]. apply list_elem_of_lookup_2 in Ht.
    unfold month_start in Ht. repeat (apply elem_of_cons in Ht as [->|Ht]; [lia|]).
    by apply not_elem_of_nil in Ht. }
  assert (0 <= b2z (leap y && (2 <? m)) <= 1) by (destruct (_ && _); simpl; lia).
  set (w := 1969 + (y - 1970)).
  assert (492 <= w / 4 /\ 0 <= w / 400 <= w / 100) by (subst w; divmod).
  assert (w / 100 - w / 400 <= w / 4 - 477 /\ w / 4 <= w) by (subst w; divmod).
  lia.
Qed.

Lemma mktime64_seconds (y m d h mi s : Z) :
  1970 <= y < 2 ^ 20 -> 1 <= m <= 12 -> 1 <= d <= 31 ->
  0 <= h < 24 -> 0 <= mi < 60 -> 0 <= s < 60 ->
  mktime64 y m d h mi s = seconds_to y m d h mi s.
Proof.
  intros Hy Hm Hd Hh Hmi Hs. unfold mktime64, seconds_to.
  pose proof (mktime64_days y m d Hy Hm Hd) as E.
  pose proof (days_to_range y m d Hy Hm Hd).
  destruct (if i32 (u32 (m - 2)) <=? 0 then _ else _) as [mon yr].
  rewrite E. rewrite (i64_small (_ * 24 + h)) by lia.
  rewrite (i64_small (_ * 60 + mi)) by lia. apply i64_small. lia.
Qed.

(** C11: [mktime64] is the number of seconds from 1 January 1970 in the Gregorian
    calendar, for every date from 1970 on that its 32-bit intermediate values
    can hold. *)
Theorem mktime64_correct (y m d h mi s : Z) :
  1970 <= y < 2 ^ 20 -> 1 <= m <= 12 -> 1 <= d <= 31 ->
  0 <= h < 24 -> 0 <= mi < 60 -> 0 <= s < 60 ->
  mktime64 y m d h mi s = seconds_to y m d h mi s.
Proof. apply mktime64_seconds. Qed.

Lemma mktime64_correct_witness : mktime64 2024 2 29 12 30 15 = 1709209815.
Proof.
  rewrite (mktime64_correct 2024 2 29 12 30 15 ltac:(lia) ltac:(lia) ltac:(lia)
    ltac:(lia) ltac:(lia) ltac:(lia)).
  reflexivity.
Defined.

(** ** mkdatetime *)

(** [mkdatetime] at the granularity of days. *)
Fixpoint years_of_day (fuel : nat) (year D : Z) : option (Z * Z) :=
  match fuel with
  | O => None
  | S fuel' =>
      let len := if Z.land year 3 =? 0 then 366 else 365 in
      if D <? len then Some (year, D) else years_of_day fuel' (year + 1) (D - len)
  end.

Definition date_of_day (D : Z) : option (Z * Z * Z) :=
  '(year, D') ← years_of_day 5 (i32 (1970 + i32 (D / 1461) * 4)) (D mod 1461);
  let time := D' + 1 in
  if Z.land year 3 =? 0 then
    if 60 <? time then '(m, d) ← months_loop 13 0 (time - 1); Some (year, m, d)
    else if time =? 60 then Some (year, 1, 29)
    else '(m, d) ← months_loop 13 0 time; Some (year, m, d)
  else '(m, d) ← months_loop 13 0 time; Some (year, m, d).

Lemma years_loop_day fuel y D h : 0 <= h < 24 ->
  years_loop fuel y (24 * D + h) =
  '(y', D') ← years_of_day fuel y D; Some (y', 24 * D' + h).
Proof.
  intros Hh. revert y D. induction fuel as [|fuel IH]; intros y D; [done|].
  cbn [years_loop years_of_day].
  destruct (Z.land y 3 =? 0).
  - destruct (Z.ltb_spec (24 * D + h) (365 * 24 + 24)), (Z.ltb_spec D 366); try lia; [done|].
    rewrite <- IH. f_equal. lia.
  - destruct (Z.ltb_spec (24 * D + h) (365 * 24)), (Z.ltb_spec D 365); try lia; [done|].
    rewrite <- IH. f_equal. lia.
Qed.

Lemma years_of_day_nonneg fuel y D y' D' : 0 <= D ->
  years_of_day fuel y D = Some (y', D') -> 0 <= D' <= D.
Proof.
  revert y D. induction fuel as [|fuel IH]; intros y D HD; [done|].
  cbn [years_of_day]. destruct (Z.land y 3 =? 0).
  - destruct (Z.ltb_spec D 366); [intros [= <- <-]; lia|]. intros ?%IH; lia.
  - destruct (Z.ltb_spec D 365); [intros [= <- <-]; lia|]. intros ?%IH; lia.
Qed.

(** A step of long division by a constant, as [div_u64_rem] does it. *)
Lemma div_rem_step a b c : 0 <= a -> 0 <= b < c -> c < 2 ^ 32 ->
  a * c + b < 2 ^ 64 -> div_u64_rem (a * c + b) c = Some (a, b).
Proof.
  intros Ha Hb Hc Hlt. rewrite div_u64_rem_correct by nia. f_equal. f_equal.
  - rewrite Z.div_add_l by lia. rewrite Z.div_small; lia.
  - rewrite Z.add_comm, Z.mod_add by lia. by apply Z.mod_small.
Qed.

Lemma mkdatetime_day D h mi s : 0 <= D < 2 ^ 30 -> 0 <= h < 24 ->
  0 <= mi < 60 -> 0 <= s < 60 ->
  mkdatetime (((D * 24 + h) * 60 + mi) * 60 + s) =
  '(y, m, d) ← date_of_day D; Some (Datetime y m d h mi s).
Proof.
  intros HD Hh Hmi Hs. unfold mkdatetime, date_of_day.
  rewrite u64_small by lia.
  rewrite (div_rem_step ((D * 24 + h) * 60 + mi)) by lia. mstep.
  rewrite (div_rem_step (D * 24 + h)) by lia. mstep.
  replace (D * 24 + h) with (D / 1461 * (1461 * 24) + (24 * (D mod 1461) + h)) by divmod.
  rewrite div_rem_step by divmod. mstep.
  rewrite years_loop_day by done.
  destruct (years_of_day _ _ _) as [[y D']|] eqn:E; [mstep|done].
  apply years_of_day_nonneg in E; [|divmod].
  assert (D mod 1461 < 1461) by divmod.
  rewrite u64_small by lia. replace (24 * D' + h) with (D' * 24 + h) by lia.
  rewrite div_rem_step by lia. mstep.
  destruct (Z.land y 3 =? 0); [destruct (60 <? D' + 1); [|destruct (D' + 1 =? 60); [done|]]|];
    by destruct (months_loop _ _ _) as [[? ?]|].
Qed.

Definition day_check (y m d : Z) : bool :=
  (0 <=? days_to y m d) && (days_to y m d <? 1461) &&
  match date_of_day (days_to y m d) with
  | Some (y', m', d') => (y' =? y) && (m' =? m - 1) && (d' =? d)
  | None => false
  end.

Definition forall3 (P : Z -> Z -> Z -> bool) (ys ms ds : list Z) : bool :=
  forallb (fun y => forallb (fun m => forallb (P y m) ds) ms) ys.

Lemma forall3_spec P ys ms ds : forall3 P ys ms ds = true ->
  forall y m d, y ∈ ys -> m ∈ ms -> d ∈ ds -> P y m d = true.
Proof.
  unfold forall3. intros H y m d Hy%list_elem_of_In Hm%list_elem_of_In Hd%list_elem_of_In.
  rewrite forallb_forall in H. specialize (H y Hy).
  rewrite forallb_forall in H. specialize (H m Hm).
  rewrite forallb_forall in H. exact (H d Hd).
Qed.

Definition checked (y m d : Z) : bool := implb (valid_date y m d) (day_check y m d).

(** One four-year cycle, by evaluation. *)
Lemma calendar_checked :
  forall3 checked (seqZ 1970 4) (seqZ 1 12) (seqZ 1 31) = true.
Proof. vm_compute. reflexivity. Qed.

Lemma valid_date_range y m d : valid_date y m d = true ->
  1 <= m <= 12 /\ 1 <= d <= 31.
Proof.
  intros Hv. assert (month_len y m <= 31) by (unfold month_len; repeat cif; lia).
  unfold valid_date in Hv. zbool. lia.
Qed.

Lemma leap_mod4 y : 1970 <= y < 2100 -> leap y = (y mod 4 =? 0).
Proof.
  intros Hy. unfold leap. destruct (Z.eqb_spec (y mod 4) 0); [|done].
  destruct (Z.eqb_spec (y mod 100) 0), (Z.eqb_spec (y mod 400) 0); try done.
  exfalso. divmod.
Qed.

Lemma month_len_leap y y' m : leap y = leap y' -> month_len y m = month_len y' m.
Proof. intros E. unfold month_len. by rewrite E. Qed.

Lemma days_to_cycle c y m d : 0 <= c -> 1970 <= y < 1974 -> y + 4 * c < 2100 ->
  1 <= m <= 12 ->
  days_to (y + 4 * c) m d = 1461 * c + days_to y m d /\
  leap (y + 4 * c) = leap y.
Proof.
  intros Hc Hy Hy' Hm.
  assert (leap (y + 4 * c) = leap y) as El.
  { rewrite !leap_mod4 by lia. by replace ((y + 4 * c) mod 4) with (y mod 4) by divmod. }
  split; [|done]. unfold days_to. rewrite !leap_count, !Z2Nat.id by lia. cbv zeta.
  destruct (days_before_month_table y m Hm) as (t & Ht & ->).
  destruct (days_before_month_table (y + 4 * c) m Hm) as (t' & Ht' & ->).
  rewrite Ht in Ht'. injection Ht' as <-. rewrite El.
  set (w := 1969 + (y - 1970)). replace (1969 + (y + 4 * c - 1970)) with (w + 4 * c) by lia.
  assert (- (w / 100) + w / 400 = -15) by (subst w; divmod).
  assert (- ((w + 4 * c) / 100) + (w + 4 * c) / 400 = -15) by (subst w; divmod).
  assert ((w + 4 * c) / 4 = w / 4 + c) by divmod. lia.
Qed.

Lemma years_of_day_cycle fuel y c D :
  years_of_day fuel (y + 4 * c) D =
  '(y', D') ← years_of_day fuel y D; Some (y' + 4 * c, D').
Proof.
  revert y D. induction fuel as [|fuel IH]; intros y D; [done|].
  cbn [years_of_day].
  replace (Z.land (y + 4 * c) 3) with (Z.land y 3).
  2: { change 3 with (Z.ones 2). rewrite !Z.land_ones by lia. divmod. }
  destruct (Z.land y 3 =? 0); case_match; try done;
    replace (y + 4 * c + 1) with (y + 1 + 4 * c) by lia; apply IH.
Qed.

Lemma date_of_day_cycle c r : 0 <= c < 2 ^ 20 -> 0 <= r < 1461 ->
  date_of_day (1461 * c + r) =
  '(y, m, d) ← date_of_day r; Some (y + 4 * c, m, d).
Proof.
  intros Hc Hr. unfold date_of_day.
  replace ((1461 * c + r) / 1461) with c by divmod.
  replace ((1461 * c + r) mod 1461) with r by divmod.
  rewrite (Z.div_small r), (Z.mod_small r) by lia.
  rewrite (i32_small c), (i32_small (1970 + c * 4)) by lia.
  change (i32 (1970 + i32 0 * 4)) with 1970.
  replace (1970 + c * 4) with (1970 + 4 * c) by lia. rewrite years_of_day_cycle.
  destruct (years_of_day 5 1970 r) as [[y D']|]; [|done]. mstep.
  replace (Z.land (y + 4 * c) 3) with (Z.land y 3).
  2: { change 3 with (Z.ones 2). rewrite !Z.land_ones by lia. divmod. }
  destruct (Z.land y 3 =? 0); [destruct (60 <? D' + 1); [|destruct (D' + 1 =? 60); [done|]]|];
    by destruct (months_loop _ _ _) as [[? ?]|].
Qed.

Lemma days_to_cycle_range y m d : 1970 <= y < 1974 -> valid_date y m d = true ->
  0 <= days_to y m d < 1461 /\ date_of_day (days_to y m d) = Some (y, m - 1, d).
Proof.
  intros Hy Hv. destruct (valid_date_range y m d Hv) as [Hm Hd].
  assert (checked y m d = true) as H.
  { apply (forall3_spec _ _ _ _ calendar_checked); apply elem_of_seqZ; lia. }
  unfold checked in H. rewrite Hv in H. cbn [implb] in H. unfold day_check in H. zbool.
  destruct (date_of_day _) as [[[y' m'] d']|]; [|done]. zbool. subst. split; [lia|done].
Qed.

Lemma day_check_ok y m d : 1970 <= y < 2100 -> valid_date y m d = true ->
  date_of_day (days_to y m d) = Some (y, m - 1, d).
Proof.
  intros Hy Hv. destruct (valid_date_range y m d Hv) as [Hm Hd].
  set (c := (y - 1970) / 4). set (y0 := 1970 + (y - 1970) mod 4).
  assert (y = y0 + 4 * c /\ 0 <= c < 33 /\ 1970 <= y0 < 1974) as (Ey & Hc & Hy0)
    by (subst c y0; divmod).
  destruct (days_to_cycle c y0 m d) as [E El]; [lia..|]. rewrite Ey, E.
  assert (valid_date y0 m d = true) as Hv0.
  { rewrite <- Hv. unfold valid_date. rewrite Ey. by rewrite (month_len_leap (y0 + 4 * c) y0). }
  destruct (days_to_cycle_range y0 m d Hy0 Hv0) as [Hr Hd0].
  rewrite date_of_day_cycle by lia. by rewrite Hd0.
Qed.

(** Converting a date to seconds with [mktime64] and back with [mkdatetime]
    gives the date again (with the month counted from 0), for every valid date
    and time of the years 1970 to 2099; no division of the conversion faults. *)
Theorem mkdatetime_mktime64 (y m d h mi s : Z) :
  1970 <= y < 2100 -> valid_date y m d = true ->
  0 <= h < 24 -> 0 <= mi < 60 -> 0 <= s < 60 ->
  mkdatetime (mktime64 y m d h mi s) = Some (Datetime y (m - 1) d h mi s).
Proof.
  intros Hy Hv Hh Hmi Hs.
  assert (1 <= m <= 12 /\ 1 <= d <= 31) as [Hm Hd].
    by (by apply valid_date_range in Hv).
  pose proof (days_to_range y m d ltac:(lia) Hm Hd).
  rewrite mktime64_correct by lia. unfold seconds_to.
  rewrite mkdatetime_day by done. by rewrite (day_check_ok y m d Hy Hv).
Qed.

Lemma mkdatetime_mktime64_witness :
  mkdatetime (mktime64 2024 2 29 23 59 58) = Some (Datetime 2024 1 29 23 59 58).
Proof.
  exact (mkdatetime_mktime64 2024 2 29 23 59 58 ltac:(lia) eq_refl ltac:(lia)
    ltac:(lia) ltac:(lia)).
Defined.

(** The four-year cycle ignores the century rule: in 2100, which is not a leap
    year, 1 March is converted to 29 February. *)
Example mkdatetime_2100 :
  mkdatetime (mktime64 2100 3 1 0 0 0) = Some (Datetime 2100 1 29 0 0 0).
Proof. vm_compute. reflexivity. Qed.
