(* ===== verification/Links.v ===== *)
(** * Doubly linked chains in a heap of nodes

    Shared by the sentinel lists of common/lib/list.c and the NULL-terminated
    lists of kernel/net/nlist.c.  Both node structs hold a predecessor and a
    successor pointer; a pointer is its address, 0 is NULL, and dereferencing
    an address with no node has no result. *)

From S2P Require Import Prelude.

Record node := Node { n_pre : Z; n_next : Z }.

Notation heap := (gmap Z node).

Definition NULL : Z := 0.

(** [p->next], [p->pre], [p->next = v], [p->pre = v]. *)
Definition nxt (h : heap) (p : Z) : option Z := n_next <$> h !! p.
Definition prv (h : heap) (p : Z) : option Z := n_pre <$> h !! p.
Definition set_next (h : heap) (p v : Z) : option heap :=
  n ← h !! p; Some (<[p := Node (n_pre n) v]> h).
Definition set_pre (h : heap) (p v : Z) : option heap :=
  n ← h !! p; Some (<[p := Node v (n_next n)]> h).

Lemma set_next_total h p v : is_Some (nxt h p) -> is_Some (set_next h p v).
Proof.
  unfold nxt, set_next. intros [x Hx]. destruct (h !! p); simpl in *; [eauto|done].
Qed.
Lemma set_pre_total h p v : is_Some (nxt h p) -> is_Some (set_pre h p v).
Proof.
  unfold nxt, set_pre. intros [x Hx]. destruct (h !! p); simpl in *; [eauto|done].
Qed.

Lemma set_next_spec h p v h' : set_next h p v = Some h' ->
  (forall q, nxt h' q = if q =? p then Some v else nxt h q) /\
  (forall q, prv h' q = prv h q).
Proof.
  unfold set_next. intros (n & Hn & [= <-])%bind_Some. unfold nxt, prv.
  split; intros q; rewrite lookup_insert; destruct (Z.eqb_spec q p), (decide (p = q));
    subst; try congruence; try done. by rewrite Hn.
Qed.
Lemma set_pre_spec h p v h' : set_pre h p v = Some h' ->
  (forall q, prv h' q = if q =? p then Some v else prv h q) /\
  (forall q, nxt h' q = nxt h q).
Proof.
  unfold set_pre. intros (n & Hn & [= <-])%bind_Some. unfold nxt, prv.
  split; intros q; rewrite lookup_insert; destruct (Z.eqb_spec q p), (decide (p = q));
    subst; try congruence; try done. by rewrite Hn.
Qed.

Lemma nxt_prv_Some h p : is_Some (nxt h p) <-> is_Some (prv h p).
Proof. unfold nxt, prv. by rewrite !fmap_is_Some. Qed.

(** Addresses whose node is the same in both heaps. *)
Definition same_at (h h' : heap) (p : Z) : Prop :=
  nxt h' p = nxt h p /\ prv h' p = prv h p.

Lemma same_at_lookup h h' p : same_at h h' p <-> h' !! p = h !! p.
Proof.
  unfold same_at, nxt, prv. split; [|intros ->; done].
  destruct (h !! p) as [[? ?]|], (h' !! p) as [[? ?]|]; simpl; naive_solver.
Qed.

(** Executes one store of the goal: the new heap [h'] is characterised by the
    two lookup equations [Hn] and [Hp]. *)
Ltac store_with tot spec h' Hn Hp :=
  match goal with
  | |- context [mbind _ ?e] =>
      let E := fresh "E" in
      destruct e as [h'|] eqn:E;
      [apply spec in E as [Hn Hp]; mstep
      |exfalso; apply eq_None_not_Some in E; apply E, tot]
  end.
Tactic Notation "store_next" ident(h') ident(Hn) ident(Hp) :=
  store_with set_next_total set_next_spec h' Hn Hp.
Tactic Notation "store_pre" ident(h') ident(Hn) ident(Hp) :=
  store_with set_pre_total set_pre_spec h' Hn Hp.

(** ** Chains *)

(** [q] follows [p]; a NULL end has no node to constrain. *)
Definition link (h : heap) (p q : Z) : Prop :=
  (p <> NULL -> nxt h p = Some q) /\ (q <> NULL -> prv h q = Some p).

Fixpoint chain (h : heap) (ps : list Z) : Prop :=
  match ps with
  | p :: ((q :: _) as t) => link h p q /\ chain h t
  | _ => True
  end.

(** The nodes of a chain are distinct (NULL may occur at both ends). *)
Definition apart (ps : list Z) : Prop := NoDup (filter (fun x => x <> NULL) ps).

Lemma chain_app h xs a ys :
  chain h (xs ++ a :: ys) <-> chain h (xs ++ [a]) /\ chain h (a :: ys).
Proof.
  induction xs as [|x xs IH]; [simpl; tauto|].
  destruct xs as [|y xs]; simpl in *; [tauto|]. rewrite IH. tauto.
Qed.

Lemma chain_frame h h' ps : chain h ps ->
  (forall x, x ∈ removelast ps -> x <> NULL -> nxt h' x = nxt h x) ->
  (forall x, x ∈ tail ps -> x <> NULL -> prv h' x = prv h x) ->
  chain h' ps.
Proof.
  induction ps as [|p ps IH]; [done|]. destruct ps as [|q ps]; [done|].
  intros [[H1 H2] Hc] Hn Hp. split.
  - split; intros Hx.
    + rewrite Hn; [by apply H1| |done]. simpl. apply elem_of_cons. by left.
    + rewrite Hp; [by apply H2| |done]. simpl. apply elem_of_cons. by left.
  - apply IH; [done|..].
    + intros x Hx. apply Hn. simpl in *. apply elem_of_cons. by right.
    + intros x Hx. apply Hp. simpl in *. destruct ps; [by apply not_elem_of_nil in Hx|].
      apply elem_of_cons. by right.
Qed.

Lemma chain_same h h' ps : chain h ps ->
  (forall x, x ∈ ps -> x <> NULL -> same_at h h' x) -> chain h' ps.
Proof.
  intros Hc Hs. apply (chain_frame h); [done|..]; intros x Hx H0.
  - apply Hs; [|done]. clear -Hx. induction ps as [|p [|q ps] IH]; simpl in *.
    + done.
    + by apply not_elem_of_nil in Hx.
    + apply elem_of_cons in Hx as [->|Hx]; apply elem_of_cons; auto.
  - apply Hs; [|done]. destruct ps; [done|]. apply elem_of_cons. by right.
Qed.

Lemma apart_not_in xs a ys : apart (xs ++ a :: ys) -> a <> NULL ->
  a ∉ xs /\ a ∉ ys.
Proof.
  unfold apart. intros H Ha. rewrite filter_app, filter_cons_True in H by done.
  apply NoDup_app in H as (_ & H1 & H2). apply NoDup_cons in H2 as [H2 _].
  split; intros Hin.
  - apply (H1 a); [by apply list_elem_of_filter|apply elem_of_cons; by left].
  - apply H2. by apply list_elem_of_filter.
Qed.

Lemma apart_insert xs ys n : apart (xs ++ ys) -> n <> NULL -> n ∉ xs ++ ys ->
  apart (xs ++ n :: ys).
Proof.
  unfold apart. intros H Hn Hin. rewrite filter_app, filter_cons_True by done.
  rewrite <- Permutation_middle, <- filter_app. apply NoDup_cons. split; [|done].
  rewrite list_elem_of_filter. tauto.
Qed.

Lemma apart_delete xs ys n : apart (xs ++ n :: ys) -> apart (xs ++ ys).
Proof.
  unfold apart. intros H. rewrite filter_app, filter_cons in H. rewrite filter_app.
  destruct (decide (n <> NULL)); [|done].
  rewrite <- Permutation_middle in H. by apply NoDup_cons in H as [_ H].
Qed.

(** Inserting [n] between [a] and [b]. *)
Lemma chain_insert h h' pre a b suf n :
  chain h (pre ++ a :: b :: suf) -> apart (pre ++ a :: b :: suf) ->
  n <> NULL -> n ∉ pre ++ a :: b :: suf ->
  (forall x, x <> NULL ->
    nxt h' x = if x =? a then Some n else if x =? n then Some b else nxt h x) ->
  (forall x, x <> NULL ->
    prv h' x = if x =? b then Some n else if x =? n then Some a else prv h x) ->
  chain h' (pre ++ a :: n :: b :: suf).
Proof.
  intros Hc Ha Hn Hin Hnx Hpx.
  apply not_elem_of_app in Hin as [Hin1 Hin2].
  apply not_elem_of_cons in Hin2 as [Hna Hin2].
  apply not_elem_of_cons in Hin2 as [Hnb Hin2].
  apply chain_app in Hc as [Hc1 [[Hab1 Hab2] Hc2]].
  apply chain_app. split; [|split; [|split]].
  - apply (chain_frame h); [done|..].
    + rewrite removelast_last. intros x Hx H0. rewrite Hnx by done.
      destruct (Z.eqb_spec x a) as [->|_].
      { by apply apart_not_in in Ha as [? _]. }
      destruct (Z.eqb_spec x n) as [->|_]; done.
    + intros x Hx H0. rewrite Hpx by done.
      assert (x ∈ pre ++ [a]) as Hx'.
      { destruct (pre ++ [a]); [done|]. apply elem_of_cons. by right. }
      destruct (Z.eqb_spec x b) as [->|_].
      { replace (pre ++ a :: b :: suf) with ((pre ++ [a]) ++ b :: suf) in Ha
          by by rewrite <- app_assoc.
        by apply apart_not_in in Ha as [? _]. }
      destruct (Z.eqb_spec x n) as [->|_]; [|done].
      exfalso. apply elem_of_app in Hx' as [?|Hx']; [done|].
      by apply list_elem_of_singleton in Hx'.
  - split; intros H0.
    + rewrite Hnx by done. by rewrite Z.eqb_refl.
    + rewrite Hpx by done. destruct (Z.eqb_spec n b); [done|]. by rewrite Z.eqb_refl.
  - split; intros H0.
    + rewrite Hnx by done. destruct (Z.eqb_spec n a); [done|]. by rewrite Z.eqb_refl.
    + rewrite Hpx by done. by rewrite Z.eqb_refl.
  - replace (pre ++ a :: b :: suf) with ((pre ++ [a]) ++ b :: suf) in Ha
      by by rewrite <- app_assoc.
    apply (chain_frame h); [done|..].
    + intros x Hx H0. rewrite Hnx by done.
      assert (x ∈ b :: suf) as Hx'.
      { clear -Hx. revert b Hx. induction suf as [|y suf IH]; intros b Hx; simpl in Hx.
        - by apply not_elem_of_nil in Hx.
        - apply elem_of_cons in Hx as [->|Hx]; apply elem_of_cons; [by left|].
          right. by apply IH. }
      destruct (Z.eqb_spec x a) as [->|_].
      { rewrite <- app_assoc in Ha. by apply apart_not_in in Ha as [_ ?]. }
      destruct (Z.eqb_spec x n) as [->|_]; [|done].
      apply elem_of_cons in Hx' as [?|?]; done.
    + simpl. intros x Hx H0. rewrite Hpx by done.
      destruct (Z.eqb_spec x b) as [->|_].
      { by apply apart_not_in in Ha as [_ ?]. }
      destruct (Z.eqb_spec x n) as [->|_]; done.
Qed.

Lemma elem_of_removelast {A} (x : A) (l : list A) : x ∈ removelast l -> x ∈ l.
Proof.
  induction l as [|a [|b l] IH]; simpl; [done|by intros ?%not_elem_of_nil|].
  intros [->|Hx]%elem_of_cons; apply elem_of_cons; auto.
Qed.

Lemma elem_of_tail {A} (x : A) (l : list A) : x ∈ tail l -> x ∈ l.
Proof. destruct l; [done|]. intros Hx. apply elem_of_cons. by right. Qed.

(** Unlinking [n] from between [a] and [b]; what is stored in [n]'s own node
    does not matter. *)
Lemma chain_delete h h' pre a b suf n :
  chain h (pre ++ a :: n :: b :: suf) -> apart (pre ++ a :: n :: b :: suf) ->
  n <> NULL ->
  (forall x, x <> NULL -> x <> n -> nxt h' x = if x =? a then Some b else nxt h x) ->
  (forall x, x <> NULL -> x <> n -> prv h' x = if x =? b then Some a else prv h x) ->
  chain h' (pre ++ a :: b :: suf).
Proof.
  intros Hc Ha Hn Hnx Hpx.
  apply chain_app in Hc as [Hc1 [[Han1 Han2] [[Hnb1 Hnb2] Hc2]]].
  assert (apart ((pre ++ [a]) ++ n :: b :: suf)) as Ha1 by by rewrite <- app_assoc.
  assert (apart ((pre ++ a :: [n]) ++ b :: suf)) as Ha2 by by rewrite <- app_assoc.
  destruct (apart_not_in _ _ _ Ha1 Hn) as [Hn1 Hn2].
  assert (a <> n) as Hane.
  { intros ->. apply Hn1, elem_of_app. right. by apply list_elem_of_singleton. }
  assert (b <> n) as Hbne.
  { intros ->. apply Hn2, elem_of_cons. by left. }
  apply chain_app. split; [|split].
  - apply (chain_frame h); [done|..].
    + rewrite removelast_last. intros x Hx H0. rewrite Hnx; [|done|].
      * destruct (Z.eqb_spec x a) as [->|_]; [|done].
        by apply apart_not_in in Ha as [? _].
      * intros ->. apply Hn1, elem_of_app. by left.
    + intros x Hx%elem_of_tail H0. rewrite Hpx; [|done|by intros ->].
      destruct (Z.eqb_spec x b) as [->|_]; [|done].
      apply apart_not_in in Ha2 as [Hb _]; [|done]. exfalso. apply Hb.
      apply elem_of_app in Hx as [?|?%list_elem_of_singleton]; apply elem_of_app; [by left|].
      right. apply elem_of_cons. by left.
  - split; intros H0.
    + rewrite Hnx by done. by rewrite Z.eqb_refl.
    + rewrite Hpx by done. by rewrite Z.eqb_refl.
  - apply (chain_frame h); [done|..].
    + intros x Hx%elem_of_removelast H0. rewrite Hnx; [|done|by intros ->].
      destruct (Z.eqb_spec x a) as [->|_]; [|done].
      apply apart_not_in in Ha as [_ Hb]; [|done]. exfalso. apply Hb.
      apply elem_of_cons. by right.
    + simpl. intros x Hx H0. rewrite Hpx; [|done|].
      * destruct (Z.eqb_spec x b) as [->|_]; [|done].
        by apply apart_not_in in Ha2 as [_ ?].
      * intros ->. apply Hn2, elem_of_cons. by right.
Qed.
