(* ===== verification/DList.v ===== *)
(** * The kernel's linked list: common/lib/list.c

    A [list] embeds two sentinel nodes, [head] and [tail], and a counter.  The
    record [list_t] holds the addresses [&l->head] and [&l->tail] and the
    counter; the nodes themselves live in the heap, so every operation takes
    and returns the heap.  [dlist] relates a list to the sequence of the nodes
    it holds, and each operation is shown to be the corresponding operation on
    that sequence. *)

From S2P Require Import Prelude Links.

Record list_t := List { head : Z; tail : Z; size : Z }.

Definition with_size (l : list_t) (n : Z) : list_t := List (head l) (tail l) (i32 n).

(** ** Operations *)

Definition init_list (h : heap) (l : list_t) : option (heap * list_t) :=
  h ← set_pre h (head l) NULL;
  h ← set_next h (head l) (tail l);
  h ← set_pre h (tail l) (head l);
  h ← set_next h (tail l) NULL;
  Some (h, with_size l 0).

Definition pushl (h : heap) (l : list_t) (node : Z) : option (heap * list_t) :=
  h ← set_pre h node (head l);
  first ← nxt h (head l);
  h ← set_next h node first;
  first ← nxt h (head l);
  h ← set_pre h first node;
  h ← set_next h (head l) node;
  Some (h, with_size l (size l + 1)).

Definition popl (h : heap) (l : list_t) : option (Z * heap * list_t) :=
  if size l <=? 0 then Some (NULL, h, l)
  else
    node ← nxt h (head l);
    n ← nxt h node;
    h ← set_next h (head l) n;
    n ← nxt h node;
    h ← set_pre h n (head l);
    h ← set_pre h node NULL;
    h ← set_next h node NULL;
    Some (node, h, with_size l (size l - 1)).

Definition pushr (h : heap) (l : list_t) (node : Z) : option (heap * list_t) :=
  last ← prv h (tail l);
  h ← set_pre h node last;
  h ← set_next h node (tail l);
  last ← prv h (tail l);
  h ← set_next h last node;
  h ← set_pre h (tail l) node;
  Some (h, with_size l (size l + 1)).

Definition popr (h : heap) (l : list_t) : option (Z * heap * list_t) :=
  if size l <=? 0 then Some (NULL, h, l)
  else
    node ← prv h (tail l);
    p ← prv h node;
    h ← set_pre h (tail l) p;
    p ← prv h node;
    h ← set_next h p (tail l);
    h ← set_pre h node NULL;
    h ← set_next h node NULL;
    Some (node, h, with_size l (size l - 1)).

(** [for (i = 0; i < n; i++) p = p->next] *)
Fixpoint walk (h : heap) (n : nat) (p : Z) : option Z :=
  match n with
  | O => Some p
  | S n' => q ← nxt h p; walk h n' q
  end.

Definition at_ (h : heap) (l : list_t) (index : Z) : option Z :=
  if (index <? 0) || (size l <=? index) then Some NULL
  else p ← nxt h (head l); walk h (Z.to_nat index) p.

Definition add (h : heap) (l : list_t) (index node : Z)
    : option (Z * heap * list_t) :=
  if index <=? 0 then
    '(h, l) ← pushl h l node; Some (0, h, l)
  else if size l <=? index then
    '(h, l) ← pushr h l node; Some (size l - 1, h, l)
  else
    p ← nxt h (head l);
    p ← walk h (Z.to_nat index) p;
    h ← set_next h node p;
    pre ← prv h p;
    h ← set_pre h node pre;
    pre ← prv h p;
    h ← set_next h pre node;
    h ← set_pre h p node;
    Some (index, h, with_size l (size l + 1)).

Definition remove_at (h : heap) (l : list_t) (index : Z)
    : option (Z * heap * list_t) :=
  p ← at_ h l index;
  if p =? NULL then Some (NULL, h, l)
  else
    pre ← prv h p;
    n ← nxt h p;
    h ← set_next h pre n;
    n ← nxt h p;
    pre ← prv h p;
    h ← set_pre h n pre;
    h ← set_pre h p NULL;
    h ← set_next h p NULL;
    Some (p, h, with_size l (size l - 1)).

(** [for (p = head.next; p != &tail && p != NULL; p = p->next)], comparing each
    [p] with [node] and counting. *)
Fixpoint index_loop (fuel : nat) (h : heap) (l : list_t) (node p idx : Z)
    : option Z :=
  match fuel with
  | O => None
  | S fuel' =>
      if (p =? tail l) || (p =? NULL) then Some (-1)
      else if p =? node then Some (idx + 1)
      else q ← nxt h p; index_loop fuel' h l node q (idx + 1)
  end.

(** No list is longer than the heap has nodes. *)
Definition index (h : heap) (l : list_t) (node : Z) : option Z :=
  p ← nxt h (head l); index_loop (S (base.size h)) h l node p (-1).

Definition remove (h : heap) (l : list_t) (node : Z) : option (heap * list_t) :=
  idx ← index h l node;
  let l := if 0 <=? idx then with_size l (size l - 1) else l in
  pre ← prv h node;
  n ← nxt h node;
  if negb (pre =? NULL) && negb (n =? NULL) then
    h ← set_next h pre n;
    h ← set_pre h n pre;
    Some (h, l)
  else Some (h, l).

(** The visitor of [foreach] and [list_find] is a state transformer over its
    [arg]; [false] stops the traversal. *)
Section Visit.
Context {A : Type} (visitor : Z -> A -> A * bool).

Fixpoint visit_loop (fuel : nat) (h : heap) (l : list_t) (p : Z) (arg : A)
    : option (Z * A) :=
  match fuel with
  | O => None
  | S fuel' =>
      if (p =? tail l) || (p =? NULL) then Some (NULL, arg)
      else let '(arg, more) := visitor p arg in
      if (more : bool) then q ← nxt h p; visit_loop fuel' h l q arg
      else Some (p, arg)
  end.

Definition foreach (h : heap) (l : list_t) (arg : A) : option A :=
  p ← nxt h (head l); '(_, arg) ← visit_loop (S (base.size h)) h l p arg; Some arg.

Definition list_find (h : heap) (l : list_t) (arg : A) : option Z :=
  p ← nxt h (head l); '(p, _) ← visit_loop (S (base.size h)) h l p arg; Some p.

End Visit.

(** ** The abstraction *)

Record dlist (h : heap) (l : list_t) (xs : list Z) : Prop := {
  dl_chain : chain h (head l :: xs ++ [tail l]);
  dl_nodup : NoDup (head l :: xs ++ [tail l]);
  dl_nonnull : NULL ∉ head l :: xs ++ [tail l];
  dl_head : prv h (head l) = Some NULL;
  dl_tail : nxt h (tail l) = Some NULL;
  dl_size : size l = zlen xs;
  dl_int : zlen xs < 2 ^ 31;
}.

(** The addresses a list owns. *)
Definition footprint (l : list_t) (xs : list Z) : list Z := head l :: xs ++ [tail l].

(** The node of the new element is allocated and is not in the list. *)
Definition fresh_node (h : heap) (l : list_t) (xs : list Z) (node : Z) : Prop :=
  node ∉ footprint l xs /\ node <> NULL /\ is_Some (nxt h node).

Lemma nodup_apart ps : NoDup ps -> apart ps.
Proof. intros H. by apply NoDup_filter. Qed.

Lemma chain_nonnull h ps p : chain h ps -> NULL ∉ ps -> p ∈ ps ->
  (2 <= length ps)%nat -> is_Some (nxt h p).
Proof.
  intros Hc Hn Hp Hlen. apply list_elem_of_split in Hp as (l1 & l2 & ->).
  assert (p <> NULL) as Hp0.
  { intros ->. apply Hn, elem_of_app. right. apply elem_of_cons. by left. }
  apply chain_app in Hc as [Hc1 Hc2]. destruct l2 as [|q l2].
  - destruct l1 as [|a l1 _] using rev_ind; [simpl in Hlen; lia|].
    rewrite <- app_assoc in Hc1. apply chain_app in Hc1 as [_ [[_ H] _]].
    apply nxt_prv_Some. rewrite H by done. eauto.
  - destruct Hc2 as [[H _] _]. rewrite H by done. eauto.
Qed.

Section Repr.
Context (h : heap) (l : list_t) (xs : list Z) (D : dlist h l xs).

Lemma dlist_node p : p ∈ footprint l xs -> p <> NULL /\ is_Some (nxt h p).
Proof.
  intros Hp. split.
  - intros ->. by apply (dl_nonnull _ _ _ D).
  - apply (chain_nonnull h (footprint l xs)); [apply D..|done|].
    unfold footprint. rewrite length_cons, length_app. simpl. lia.
Qed.

Lemma dlist_head_node : head l <> NULL /\ is_Some (nxt h (head l)).
Proof. apply dlist_node, elem_of_cons. by left. Qed.

Lemma dlist_tail_node : tail l <> NULL /\ is_Some (nxt h (tail l)).
Proof.
  apply dlist_node, elem_of_cons. right. apply elem_of_app. right.
  by apply list_elem_of_singleton.
Qed.

(** The links around any split point of the footprint. *)
Lemma dlist_split pre a b suf : footprint l xs = pre ++ a :: b :: suf ->
  nxt h a = Some b /\ prv h b = Some a /\ a <> b /\ a <> NULL /\ b <> NULL.
Proof.
  intros E. pose proof (dl_chain _ _ _ D) as Hc. pose proof (dl_nodup _ _ _ D) as Hd.
  fold (footprint l xs) in Hc, Hd. rewrite E in Hc, Hd.
  apply chain_app in Hc as [_ [[H1 H2] _]].
  assert (a <> NULL /\ b <> NULL) as [Ha Hb].
  { split; apply dlist_node; rewrite E; apply elem_of_app; right; set_solver. }
  apply NoDup_app in Hd as (_ & _ & [Hab _]%NoDup_cons).
  split_and!; [by apply H1|by apply H2|set_solver|done|done].
Qed.

End Repr.

(** Rebuilding the abstraction after an insertion between [a] and [b]. *)
Lemma dlist_insert h h' l xs ys pre a b suf n : dlist h l xs ->
  footprint l xs = pre ++ a :: b :: suf -> footprint l ys = pre ++ a :: n :: b :: suf ->
  fresh_node h l xs n -> zlen ys = zlen xs + 1 -> zlen ys < 2 ^ 31 ->
  (forall x, nxt h' x = if x =? a then Some n else if x =? n then Some b else nxt h x) ->
  (forall x, prv h' x = if x =? b then Some n else if x =? n then Some a else prv h x) ->
  dlist h' (with_size l (size l + 1)) ys
  /\ forall x, x ∉ n :: footprint l xs -> same_at h h' x.
Proof.
  intros D E E' (Hf & Hn0 & _) Hlen Hint Hnx Hpx.
  destruct (dlist_split h l xs D _ _ _ _ E) as (Hab1 & Hab2 & Hab & Ha0 & Hb0).
  pose proof (dl_nodup _ _ _ D) as Hd. fold (footprint l xs) in Hd.
  rewrite E in Hf, Hd.
  assert (NoDup (pre ++ a :: n :: b :: suf)) as Hd'.
  { replace (pre ++ a :: n :: b :: suf) with ((pre ++ [a]) ++ n :: b :: suf)
      by by rewrite <- app_assoc.
    rewrite <- Permutation_middle. apply NoDup_cons. rewrite <- app_assoc. done. }
  assert (b <> head l) as Hbh.
  { intros ->. pose proof (dl_head _ _ _ D). congruence. }
  assert (a <> tail l) as Hat.
  { intros ->. pose proof (dl_tail _ _ _ D). congruence. }
  assert (n <> head l /\ n <> tail l) as [Hnh Hnt].
  { rewrite <- E in Hf. unfold footprint in Hf. split; intros ->; apply Hf; set_solver. }
  split.
  - split; cbn [head tail size with_size]; fold (footprint l ys).
    + rewrite E'. apply (chain_insert h).
      * rewrite <- E. apply D.
      * by apply nodup_apart.
      * done.
      * done.
      * intros x _. apply Hnx.
      * intros x _. apply Hpx.
    + by rewrite E'.
    + rewrite E'. pose proof (dl_nonnull _ _ _ D) as H0. fold (footprint l xs) in H0.
      rewrite E in H0. set_solver.
    + rewrite Hpx. destruct (Z.eqb_spec (head l) b), (Z.eqb_spec (head l) n); try congruence.
      apply D.
    + rewrite Hnx. destruct (Z.eqb_spec (tail l) a), (Z.eqb_spec (tail l) n); try congruence.
      apply D.
    + rewrite (dl_size _ _ _ D), i32_small; [lia|]. pose proof (zlen_nonneg xs). lia.
    + done.
  - intros x Hx. rewrite E in Hx. unfold same_at. rewrite Hnx, Hpx.
    destruct (Z.eqb_spec x a), (Z.eqb_spec x b), (Z.eqb_spec x n); subst;
      try done; exfalso; apply Hx; set_solver.
Qed.

(** Rebuilding it after unlinking [n]. *)
Lemma dlist_delete h h' l xs ys pre a b suf n : dlist h l xs ->
  footprint l xs = pre ++ a :: n :: b :: suf -> footprint l ys = pre ++ a :: b :: suf ->
  zlen xs = zlen ys + 1 ->
  (forall x, x <> n -> nxt h' x = if x =? a then Some b else nxt h x) ->
  (forall x, x <> n -> prv h' x = if x =? b then Some a else prv h x) ->
  dlist h' (with_size l (size l - 1)) ys
  /\ forall x, x ∉ footprint l xs -> same_at h h' x.
Proof.
  intros D E E' Hlen Hnx Hpx.
  destruct (dlist_split h l xs D _ _ _ _ E) as (Hab1 & Hab2 & Hab & Ha0 & Hn0).
  assert (footprint l xs = (pre ++ [a]) ++ n :: b :: suf) as E1
    by (by rewrite <- app_assoc).
  destruct (dlist_split h l xs D _ _ _ _ E1) as (Hnb1 & Hnb2 & Hnb & _ & Hb0).
  pose proof (dl_nodup _ _ _ D) as Hd. fold (footprint l xs) in Hd. rewrite E in Hd.
  assert (n <> head l) as Hnh.
  { intros ->. pose proof (dl_head _ _ _ D). congruence. }
  assert (n <> tail l) as Hnt.
  { intros ->. pose proof (dl_tail _ _ _ D). congruence. }
  assert (b <> head l) as Hbh.
  { intros ->. pose proof (dl_head _ _ _ D). congruence. }
  assert (a <> tail l) as Hat.
  { intros ->. pose proof (dl_tail _ _ _ D). congruence. }
  split.
  - split; cbn [head tail size with_size]; fold (footprint l ys).
    + rewrite E'. apply (chain_delete h _ _ _ _ _ n).
      * rewrite <- E. apply D.
      * by apply nodup_apart.
      * done.
      * intros x _. apply Hnx.
      * intros x _. apply Hpx.
    + rewrite E'. apply NoDup_app in Hd as (H1 & H2 & H3).
      apply NoDup_cons in H3 as [H3 H4]. apply NoDup_cons in H4 as [H4 H5].
      apply NoDup_app. split_and!; [done|set_solver|].
      apply NoDup_cons. split; [set_solver|done].
    + rewrite E'. pose proof (dl_nonnull _ _ _ D) as H0. fold (footprint l xs) in H0.
      rewrite E in H0. set_solver.
    + rewrite Hpx by done. destruct (Z.eqb_spec (head l) b); [congruence|]. apply D.
    + rewrite Hnx by done. destruct (Z.eqb_spec (tail l) a); [congruence|]. apply D.
    + pose proof (dl_int _ _ _ D).
      rewrite (dl_size _ _ _ D), i32_small; [lia|]. pose proof (zlen_nonneg ys). lia.
    + pose proof (dl_int _ _ _ D). lia.
  - intros x Hx. rewrite E in Hx. unfold same_at.
    assert (x <> n /\ x <> a /\ x <> b) as (? & ? & ?) by set_solver.
    rewrite Hnx, Hpx by done.
    destruct (Z.eqb_spec x a), (Z.eqb_spec x b); try congruence; done.
Qed.

(** ** Each operation is an operation on the sequence *)

(** What every operation keeps: the sentinels, and the nodes outside. *)
Definition keeps (h h' : heap) (l l' : list_t) (owned : list Z) : Prop :=
  head l' = head l /\ tail l' = tail l /\ forall x, x ∉ owned -> same_at h h' x.

(** Evaluates the address comparisons that are settled by the hypotheses. *)
Ltac addr_cases :=
  repeat match goal with
  | |- context [?x =? ?y] => destruct (Z.eqb_spec x y); subst; try congruence
  end; try done.

(** Discharges "the node is allocated" after some stores. *)
Ltac alloc_solve :=
  repeat match goal with
  | H : forall q, nxt ?h q = _ |- context [nxt ?h _] => rewrite H
  end;
  repeat match goal with
  | |- context [if ?b then _ else _] => destruct b
  end; eauto.

Lemma footprint_cons l x xs : footprint l (x :: xs) = head l :: x :: xs ++ [tail l].
Proof. done. Qed.

(** The first node of the list, or the tail sentinel. *)
Lemma first_split l xs : exists b suf,
  footprint l xs = [] ++ head l :: b :: suf /\
  (forall n, footprint l (n :: xs) = [] ++ head l :: n :: b :: suf).
Proof.
  destruct xs as [|x xs]; [exists (tail l), []|exists x, (xs ++ [tail l])]; done.
Qed.

Lemma last_split l xs : exists pre a,
  footprint l xs = pre ++ a :: tail l :: [] /\
  (forall n, footprint l (xs ++ [n]) = pre ++ a :: n :: tail l :: []).
Proof.
  destruct xs as [|x xs _] using rev_ind; [exists [], (head l); done|].
  exists (head l :: xs), x. unfold footprint. split; [|intros n];
    by rewrite <- !app_assoc.
Qed.

Lemma pushl_ok h l xs n : dlist h l xs -> fresh_node h l xs n ->
  zlen xs + 1 < 2 ^ 31 ->
  exists h' l', pushl h l n = Some (h', l') /\ dlist h' l' (n :: xs)
    /\ keeps h h' l l' (n :: footprint l xs).
Proof.
  intros D F Hlen. destruct (first_split l xs) as (b & suf & E & E').
  destruct (dlist_split h l xs D _ _ _ _ E) as (Hab1 & Hab2 & Hab & Ha0 & Hb0).
  destruct (dlist_head_node h l xs D) as [_ Hhd].
  destruct F as (Hf & Hn0 & Hna). assert (b ∈ footprint l xs) as Hbin by (rewrite E; set_solver).
  assert (n <> head l /\ n <> b) as [Hnh Hnb].
  { split; [|congruence]. intros ->. apply Hf. unfold footprint. set_solver. }
  unfold pushl. store_pre h1 P1 N1; [|done].
  rewrite N1, Hab1. mstep. store_next h2 N2 P2; [|by rewrite N1].
  rewrite N2, N1, Hab1. destruct (Z.eqb_spec (head l) n); [congruence|]. mstep.
  store_pre h3 P3 N3; [|alloc_solve; by apply (dlist_node h l xs D)].
  store_next h4 N4 P4; [|alloc_solve]. do 2 eexists. split; [done|].
  destruct (dlist_insert h h4 l xs (n :: xs) [] (head l) b suf n D E (E' n))
    as [D' K]; [done|unfold zlen; simpl; lia|unfold zlen in *; simpl; lia|..].
  - intros x. rewrite N4, N3, N2, N1. addr_cases.
  - intros x. rewrite P4, P3, P2, P1. addr_cases.
  - split; [done|]. by split_and!.
Qed.

Lemma pushr_ok h l xs n : dlist h l xs -> fresh_node h l xs n ->
  zlen xs + 1 < 2 ^ 31 ->
  exists h' l', pushr h l n = Some (h', l') /\ dlist h' l' (xs ++ [n])
    /\ keeps h h' l l' (n :: footprint l xs).
Proof.
  intros D F Hlen. destruct (last_split l xs) as (pre & a & E & E').
  destruct (dlist_split h l xs D _ _ _ _ E) as (Hab1 & Hab2 & Hab & Ha0 & Hb0).
  destruct (dlist_tail_node h l xs D) as [_ Htl].
  destruct F as (Hf & Hn0 & Hna). assert (a ∈ footprint l xs) as Hain by (rewrite E; set_solver).
  assert (n <> tail l /\ n <> a) as [Hnh Hnb].
  { split; [|congruence]. intros ->. apply Hf. unfold footprint. set_solver. }
  unfold pushr. rewrite Hab2. mstep. store_pre h1 P1 N1; [|done].
  store_next h2 N2 P2; [|by rewrite N1].
  rewrite P2, P1, Hab2. destruct (Z.eqb_spec (tail l) n); [congruence|]. mstep.
  store_next h3 N3 P3; [|alloc_solve; by apply (dlist_node h l xs D)].
  store_pre h4 P4 N4; [|alloc_solve]. do 2 eexists. split; [done|].
  destruct (dlist_insert h h4 l xs (xs ++ [n]) pre a (tail l) [] n D E (E' n))
    as [D' K]; [done|rewrite zlen_app; unfold zlen; simpl; lia
    |rewrite zlen_app; unfold zlen in *; simpl; lia|..].
  - intros x. rewrite N4, N3, N2, N1. addr_cases.
  - intros x. rewrite P4, P3, P2, P1. addr_cases.
  - split; [done|]. by split_and!.
Qed.

Lemma popl_ok h l xs : dlist h l xs ->
  match xs with
  | [] => popl h l = Some (NULL, h, l)
  | x :: xs' => exists h' l', popl h l = Some (x, h', l') /\ dlist h' l' xs'
      /\ keeps h h' l l' (footprint l xs) /\ nxt h' x = Some NULL /\ prv h' x = Some NULL
  end.
Proof.
  intros D. unfold popl. rewrite (dl_size _ _ _ D).
  destruct xs as [|x xs]; [done|].
  destruct (Z.leb_spec (zlen (x :: xs)) 0) as [Hle|_]; [unfold zlen in Hle; simpl in Hle; lia|].
  destruct (first_split l xs) as (b & suf & E' & Ex). specialize (Ex x).
  assert (footprint l (x :: xs) = [head l] ++ x :: b :: suf) as E2 by done.
  destruct (dlist_split _ _ _ D _ _ _ _ Ex) as (H1 & H2 & H3 & Hh0 & Hx0).
  destruct (dlist_split _ _ _ D _ _ _ _ E2) as (H4 & H5 & H6 & _ & Hb0).
  assert (is_Some (nxt h b)) as Hbs.
  { apply (dlist_node _ _ _ D). rewrite E2. set_solver. }
  pose proof (dl_nodup _ _ _ D) as Hd. fold (footprint l (x :: xs)) in Hd. rewrite Ex in Hd.
  assert (head l <> b) by (apply NoDup_cons in Hd; set_solver).
  rewrite H1. mstep. rewrite H4. mstep.
  store_next h1 N1 P1; [|eauto]. rewrite N1, H4. destruct (Z.eqb_spec x (head l)); [congruence|].
  mstep. store_pre h2 P2 N2; [|alloc_solve]. store_pre h3 P3 N3; [|alloc_solve].
  store_next h4 N4 P4; [|alloc_solve]. do 2 eexists. split; [done|].
  destruct (dlist_delete h h4 l (x :: xs) xs [] (head l) b suf x D Ex E') as [D' K].
  - unfold zlen. simpl. lia.
  - intros y Hy. rewrite N4, N3, N2, N1. addr_cases.
  - intros y Hy. rewrite P4, P3, P2, P1. addr_cases.
  - rewrite (dl_size _ _ _ D) in D'. split; [done|]. split; [by split_and!|].
    rewrite N4, P4, P3, Z.eqb_refl. done.
Qed.

Lemma popr_ok h l xs x : dlist h l (xs ++ [x]) ->
  exists h' l', popr h l = Some (x, h', l') /\ dlist h' l' xs
    /\ keeps h h' l l' (footprint l (xs ++ [x])) /\
    nxt h' x = Some NULL /\ prv h' x = Some NULL.
Proof.
  intros D. unfold popr. rewrite (dl_size _ _ _ D).
  destruct (Z.leb_spec (zlen (xs ++ [x])) 0) as [Hle|_].
  { rewrite zlen_app in Hle. unfold zlen in Hle. simpl in Hle. lia. }
  destruct (last_split l xs) as (pre & a & E' & Ex). specialize (Ex x).
  assert (footprint l (xs ++ [x]) = (pre ++ [a]) ++ x :: tail l :: []) as E2
    by (rewrite Ex; by rewrite <- app_assoc).
  destruct (dlist_split _ _ _ D _ _ _ _ Ex) as (H1 & H2 & H3 & Ha0 & Hx0).
  destruct (dlist_split _ _ _ D _ _ _ _ E2) as (H4 & H5 & H6 & _ & Ht0).
  assert (is_Some (nxt h a)) as Has by eauto.
  pose proof (dl_nodup _ _ _ D) as Hd. fold (footprint l (xs ++ [x])) in Hd. rewrite Ex in Hd.
  assert (a <> tail l).
  { apply NoDup_app in Hd as (_ & _ & Hd). apply NoDup_cons in Hd. set_solver. }
  rewrite H5. mstep. rewrite H2. mstep.
  store_pre h1 P1 N1; [|apply (dlist_tail_node _ _ _ D)].
  rewrite P1, H2. destruct (Z.eqb_spec x (tail l)); [congruence|].
  mstep. store_next h2 N2 P2; [|alloc_solve]. store_pre h3 P3 N3; [|alloc_solve].
  store_next h4 N4 P4; [|alloc_solve]. do 2 eexists. split; [done|].
  destruct (dlist_delete h h4 l (xs ++ [x]) xs pre a (tail l) [] x D Ex E') as [D' K].
  - rewrite zlen_app. unfold zlen. simpl. lia.
  - intros y Hy. rewrite N4, N3, N2, N1. addr_cases.
  - intros y Hy. rewrite P4, P3, P2, P1. addr_cases.
  - rewrite (dl_size _ _ _ D) in D'. split; [done|]. split; [by split_and!|].
    rewrite N4, P4, P3, Z.eqb_refl. done.
Qed.

(** ** Positions *)

Lemma walk_chain h p ps n x : chain h (p :: ps) -> NULL ∉ p :: ps ->
  (p :: ps) !! n = Some x -> walk h n p = Some x.
Proof.
  revert p ps. induction n as [|n IH]; intros p ps Hc Hn Hl; [done|].
  destruct ps as [|q ps]; [done|]. destruct Hc as [[H1 _] Hc]. simpl.
  rewrite H1 by set_solver. mstep. apply (IH q ps); [done|set_solver|done].
Qed.

Lemma walk_ok h l xs i x : dlist h l xs -> (xs ++ [tail l]) !! i = Some x ->
  exists p, nxt h (head l) = Some p /\ walk h i p = Some x.
Proof.
  intros D Hi. destruct (first_split l xs) as (b & suf & E & _).
  destruct (dlist_split h l xs D _ _ _ _ E) as (H1 & _). exists b. split; [done|].
  unfold footprint in E. simpl in E. injection E as E.
  pose proof (dl_chain _ _ _ D) as Hc. pose proof (dl_nonnull _ _ _ D) as Hn.
  rewrite E in Hc, Hn, Hi. apply (walk_chain h b suf); [apply Hc|set_solver|done].
Qed.

Lemma at_ok h l xs i : dlist h l xs ->
  at_ h l i = Some (match zget xs i with Some x => x | None => NULL end).
Proof.
  intros D. unfold at_. rewrite (dl_size _ _ _ D).
  destruct (zget xs i) as [x|] eqn:Hx.
  - pose proof (zget_Some _ _ _ Hx) as Hr.
    destruct (Z.ltb_spec i 0), (Z.leb_spec (zlen xs) i); try lia. simpl.
    unfold zget in Hx. destruct (Z.ltb_spec i 0); [lia|].
    destruct (walk_ok h l xs (Z.to_nat i) x D) as (p & -> & Hw); [|done].
    by apply lookup_app_l_Some.
  - destruct (Z.ltb_spec i 0); [done|]. unfold zget in Hx.
    destruct (Z.ltb_spec i 0); [lia|]. apply lookup_ge_None in Hx.
    destruct (Z.leb_spec (zlen xs) i); [done|]. unfold zlen in *. lia.
Qed.

(** A split of the sequence at a member, as a split of the footprint. *)
Lemma member_split l xs1 x xs2 : exists pre a b suf,
  footprint l (xs1 ++ x :: xs2) = pre ++ a :: x :: b :: suf /\
  footprint l (xs1 ++ xs2) = pre ++ a :: b :: suf /\
  (forall n, footprint l (xs1 ++ n :: x :: xs2) = pre ++ a :: n :: x :: b :: suf).
Proof.
  destruct (last_split l xs1) as (pre & a & E1 & E2).
  assert (exists b suf, xs2 ++ [tail l] = b :: suf) as (b & suf & E3).
  { destruct xs2; simpl; eauto. }
  assert (head l :: xs1 = pre ++ [a]) as E4.
  { unfold footprint in E1.
    replace (pre ++ [a; tail l]) with ((pre ++ [a]) ++ [tail l]) in E1
      by by rewrite <- app_assoc.
    rewrite app_comm_cons in E1. by apply app_inj_tail in E1 as [? _]. }
  exists pre, a, b, suf. unfold footprint. split_and!; [| |intros n];
    rewrite <- app_assoc; simpl; rewrite app_comm_cons, E4, <- app_assoc; simpl;
    by rewrite E3.
Qed.

Lemma add_mid_ok h l xs1 x xs2 n : dlist h l (xs1 ++ x :: xs2) ->
  fresh_node h l (xs1 ++ x :: xs2) n -> 0 < zlen xs1 ->
  zlen (xs1 ++ x :: xs2) + 1 < 2 ^ 31 ->
  exists h' l', add h l (zlen xs1) n = Some (zlen xs1, h', l')
    /\ dlist h' l' (xs1 ++ n :: x :: xs2)
    /\ keeps h h' l l' (n :: footprint l (xs1 ++ x :: xs2)).
Proof.
  intros D F Hpos Hlen. destruct (member_split l xs1 x xs2) as (pre & a & b & suf & E & _ & E').
  destruct (dlist_split _ _ _ D _ _ _ _ E) as (H1 & H2 & H3 & Ha0 & Hx0).
  destruct F as (Hf & Hn0 & Hna). rewrite E in Hf.
  assert (n <> a /\ n <> x) as [Hnea Hnex] by set_solver.
  unfold add. rewrite (dl_size _ _ _ D).
  destruct (Z.leb_spec (zlen xs1) 0); [lia|].
  destruct (Z.leb_spec (zlen (xs1 ++ x :: xs2)) (zlen xs1)) as [Hc|_].
  { rewrite zlen_app in Hc. unfold zlen in Hc. simpl in Hc. lia. }
  destruct (walk_ok h l _ (Z.to_nat (zlen xs1)) x D) as (p & -> & Hw).
  { apply lookup_app_l_Some. unfold zlen. rewrite Nat2Z.id.
    rewrite lookup_app_r by lia. by rewrite Nat.sub_diag. }
  mstep. rewrite Hw. mstep. store_next h1 N1 P1; [|done].
  rewrite P1, H2. mstep. store_pre h2 P2 N2; [|alloc_solve].
  rewrite P2, P1, H2. destruct (Z.eqb_spec x n); [congruence|]. mstep.
  store_next h3 N3 P3; [|alloc_solve].
  store_pre h4 P4 N4; [|alloc_solve; apply (dlist_node _ _ _ D); rewrite E; set_solver].
  do 2 eexists. split; [done|].
  destruct (dlist_insert h h4 l (xs1 ++ x :: xs2) (xs1 ++ n :: x :: xs2)
    pre a x (b :: suf) n D E (E' n)) as [D' K].
  - split_and!; [by rewrite E|done|done].
  - rewrite !zlen_app. unfold zlen. simpl. lia.
  - rewrite !zlen_app in *. unfold zlen in *. simpl in *. lia.
  - intros y. rewrite N4, N3, N2, N1. addr_cases.
  - intros y. rewrite P4, P3, P2, P1. addr_cases.
  - rewrite (dl_size _ _ _ D) in D'. split; [done|]. by split_and!.
Qed.

Lemma remove_at_ok h l xs1 x xs2 : dlist h l (xs1 ++ x :: xs2) ->
  exists h' l', remove_at h l (zlen xs1) = Some (x, h', l')
    /\ dlist h' l' (xs1 ++ xs2) /\ keeps h h' l l' (footprint l (xs1 ++ x :: xs2)).
Proof.
  intros D. destruct (member_split l xs1 x xs2) as (pre & a & b & suf & E & E' & _).
  destruct (dlist_split _ _ _ D _ _ _ _ E) as (H1 & H2 & H3 & Ha0 & Hx0).
  assert (footprint l (xs1 ++ x :: xs2) = (pre ++ [a]) ++ x :: b :: suf) as E2
    by (rewrite E; by rewrite <- app_assoc).
  destruct (dlist_split _ _ _ D _ _ _ _ E2) as (H4 & H5 & H6 & _ & Hb0).
  pose proof (dl_nodup _ _ _ D) as Hd. fold (footprint l (xs1 ++ x :: xs2)) in Hd.
  rewrite E in Hd. assert (a <> b).
  { apply NoDup_app in Hd as (_ & _ & Hd). apply NoDup_cons in Hd. set_solver. }
  assert (is_Some (nxt h b)) as Hbs by (apply (dlist_node _ _ _ D); rewrite E; set_solver).
  unfold remove_at. rewrite (at_ok _ _ _ _ D). mstep.
  replace (zget (xs1 ++ x :: xs2) (zlen xs1)) with (Some x).
  2: { unfold zlen. rewrite zget_nat, lookup_app_r by lia. by rewrite Nat.sub_diag. }
  destruct (Z.eqb_spec x NULL); [done|]. rewrite H2. mstep. rewrite H4. mstep.
  store_next h1 N1 P1; [|eauto]. rewrite N1, H4. destruct (Z.eqb_spec x a); [congruence|].
  mstep. rewrite P1, H2. mstep. store_pre h2 P2 N2; [|alloc_solve].
  store_pre h3 P3 N3; [|alloc_solve]. store_next h4 N4 P4; [|alloc_solve].
  do 2 eexists. split; [done|].
  destruct (dlist_delete h h4 l (xs1 ++ x :: xs2) (xs1 ++ xs2) pre a b suf x D E E') as [D' K].
  - rewrite !zlen_app. unfold zlen. simpl. lia.
  - intros y Hy. rewrite N4, N3, N2, N1. addr_cases.
  - intros y Hy. rewrite P4, P3, P2, P1. addr_cases.
  - rewrite (dl_size _ _ _ D) in *. split; [done|]. by split_and!.
Qed.

(** ** Search *)

Lemma footprint_bound h l xs : dlist h l xs ->
  (length (footprint l xs) <= base.size h)%nat.
Proof.
  intros D. pose proof (dl_nodup _ _ _ D) as Hd. fold (footprint l xs) in Hd.
  rewrite <- (size_list_to_set (C := gset Z) _ Hd), <- size_dom.
  apply subseteq_size. intros p Hp%elem_of_list_to_set.
  apply (dlist_node h l xs D) in Hp as [_ Hp]. apply elem_of_dom.
  unfold nxt in Hp. by rewrite fmap_is_Some in Hp.
Qed.

(** Position of [node] in the sequence, counted from [idx]. *)
Fixpoint pos (node : Z) (ys : list Z) (idx : Z) : Z :=
  match ys with
  | [] => -1
  | y :: ys' => if y =? node then idx + 1 else pos node ys' (idx + 1)
  end.

Lemma index_loop_ok h l node ys : chain h (ys ++ [tail l]) -> NULL ∉ ys ->
  tail l ∉ ys -> forall fuel idx p, (length ys < fuel)%nat ->
  (ys ++ [tail l]) !! 0%nat = Some p ->
  index_loop fuel h l node p idx = Some (pos node ys idx).
Proof.
  induction ys as [|y ys IH]; intros Hc Hn Ht fuel idx p Hf Hp;
    (destruct fuel as [|fuel]; [simpl in Hf; lia|]); simpl in Hp; injection Hp as <-.
  - simpl. by rewrite Z.eqb_refl.
  - cbn [index_loop pos]. destruct (Z.eqb_spec y (tail l)); [set_solver|].
    destruct (Z.eqb_spec y NULL); [set_solver|]. simpl.
    destruct (Z.eqb_spec y node); [done|].
    assert (exists q t, ys ++ [tail l] = q :: t) as (q & t & E)
      by (destruct ys; simpl; eauto).
    cbn [app] in Hc. rewrite E in Hc, IH. destruct Hc as [[H1 _] Hc].
    rewrite H1 by done. mstep.
    apply IH; [done|set_solver|set_solver|simpl in Hf; lia|done].
Qed.

Lemma index_ok h l xs node : dlist h l xs ->
  index h l node = Some (pos node xs (-1)).
Proof.
  intros D. unfold index. pose proof (footprint_bound h l xs D) as Hb.
  destruct (first_split l xs) as (b & suf & E & _).
  destruct (dlist_split h l xs D _ _ _ _ E) as (H1 & _). rewrite H1. mstep.
  pose proof (dl_chain _ _ _ D) as Hc. pose proof (dl_nonnull _ _ _ D) as Hn.
  pose proof (dl_nodup _ _ _ D) as Hd. unfold footprint in *.
  apply index_loop_ok.
  - revert Hc. generalize (xs ++ [tail l]). intros [|q t]; [done|]. by intros [_ ?].
  - set_solver.
  - apply NoDup_cons in Hd as [_ Hd]. apply NoDup_app in Hd. set_solver.
  - rewrite length_cons, length_app in Hb. lia.
  - simpl in E. injection E as E. by rewrite E.
Qed.

Lemma pos_in node xs1 xs2 idx : node ∉ xs1 ->
  pos node (xs1 ++ node :: xs2) idx = idx + 1 + zlen xs1.
Proof.
  revert idx. induction xs1 as [|y xs1 IH]; intros idx Hn; cbn [app pos].
  - rewrite Z.eqb_refl. unfold zlen. simpl. lia.
  - destruct (Z.eqb_spec y node); [set_solver|]. rewrite IH by set_solver.
    unfold zlen. simpl. lia.
Qed.

Lemma pos_not_in node xs idx : node ∉ xs -> pos node xs idx = -1.
Proof.
  revert idx. induction xs as [|y xs IH]; intros idx Hn; [done|]. cbn [pos].
  destruct (Z.eqb_spec y node); [set_solver|]. apply IH. set_solver.
Qed.

(** Removing a member unlinks it, but leaves its own pointers as they were. *)
Lemma remove_in_ok h l xs1 x xs2 : dlist h l (xs1 ++ x :: xs2) ->
  exists h' l', remove h l x = Some (h', l') /\ dlist h' l' (xs1 ++ xs2)
    /\ keeps h h' l l' (footprint l (xs1 ++ x :: xs2)) /\ same_at h h' x.
Proof.
  intros D. destruct (member_split l xs1 x xs2) as (pre & a & b & suf & E & E' & _).
  destruct (dlist_split _ _ _ D _ _ _ _ E) as (H1 & H2 & H3 & Ha0 & Hx0).
  assert (footprint l (xs1 ++ x :: xs2) = (pre ++ [a]) ++ x :: b :: suf) as E2
    by (rewrite E; by rewrite <- app_assoc).
  destruct (dlist_split _ _ _ D _ _ _ _ E2) as (H4 & H5 & H6 & _ & Hb0).
  assert (is_Some (nxt h b)) as Hbs by (apply (dlist_node _ _ _ D); rewrite E; set_solver).
  assert (x ∉ xs1) as Hx1.
  { pose proof (dl_nodup _ _ _ D) as Hd. rewrite <- app_assoc in Hd. simpl in Hd.
    apply NoDup_cons in Hd as [_ Hd]. apply NoDup_app in Hd as (_ & Hd & _).
    intros Hin. apply (Hd x Hin). set_solver. }
  unfold remove. rewrite (index_ok _ _ _ _ D), pos_in by done. mstep.
  pose proof (zlen_nonneg xs1). destruct (Z.leb_spec 0 (-1 + 1 + zlen xs1)); [|lia].
  rewrite H2. mstep. rewrite H4. mstep.
  destruct (Z.eqb_spec a NULL), (Z.eqb_spec b NULL); try congruence. cbn [negb andb].
  store_next h1 N1 P1; [|eauto]. store_pre h2 P2 N2; [|alloc_solve].
  do 2 eexists. split; [done|].
  destruct (dlist_delete h h2 l (xs1 ++ x :: xs2) (xs1 ++ xs2) pre a b suf x D E E') as [D' K].
  - rewrite !zlen_app. unfold zlen. simpl. lia.
  - intros y Hy. rewrite N2, N1. addr_cases.
  - intros y Hy. rewrite P2, P1. addr_cases.
  - split; [done|]. split; [by split_and!|]. unfold same_at. rewrite N2, N1, P2, P1.
    destruct (Z.eqb_spec x a), (Z.eqb_spec x b); try congruence; done.
Qed.

(** Removing a node that was popped (its pointers are NULL) changes nothing. *)
Lemma remove_out_ok h l xs n : dlist h l xs -> n ∉ xs ->
  prv h n = Some NULL -> is_Some (nxt h n) -> remove h l n = Some (h, l).
Proof.
  intros D Hn Hp [q Hq]. unfold remove. rewrite (index_ok _ _ _ _ D), pos_not_in by done.
  mstep. rewrite Hp. mstep. rewrite Hq. mstep. done.
Qed.

Lemma init_list_ok h l : head l <> tail l -> head l <> NULL -> tail l <> NULL ->
  is_Some (nxt h (head l)) -> is_Some (nxt h (tail l)) ->
  exists h' l', init_list h l = Some (h', l') /\ dlist h' l' []
    /\ keeps h h' l l' (footprint l []).
Proof.
  intros Hne Hh Ht Ah At. unfold init_list.
  store_pre h1 P1 N1; [|done]. store_next h2 N2 P2; [|alloc_solve].
  store_pre h3 P3 N3; [|alloc_solve]. store_next h4 N4 P4; [|alloc_solve].
  do 2 eexists. split; [done|]. split.
  - split; cbn [head tail size with_size app]; try done.
    + split; [|done]. split; intros _.
      * rewrite N4, N3, N2. addr_cases.
      * rewrite P4, P3. addr_cases.
    + apply NoDup_cons. split; [set_solver|apply NoDup_singleton].
    + set_solver.
    + rewrite P4, P3, P2, P1. addr_cases.
    + rewrite N4. addr_cases.
  - split_and!; [done..|]. intros x Hx. unfold footprint in Hx.
    assert (x <> head l /\ x <> tail l) as [? ?] by set_solver.
    unfold same_at. rewrite N4, N3, N2, N1, P4, P3, P2, P1.
    destruct (Z.eqb_spec x (head l)), (Z.eqb_spec x (tail l)); done.
Qed.

(** ** Visiting *)

Section VisitSpec.
Context {A : Type} (visitor : Z -> A -> A * bool).

Fixpoint visit_seq (ys : list Z) (arg : A) : Z * A :=
  match ys with
  | [] => (NULL, arg)
  | y :: ys' => let '(arg, more) := visitor y arg in
      if (more : bool) then visit_seq ys' arg else (y, arg)
  end.

Lemma visit_loop_ok h l ys : chain h (ys ++ [tail l]) -> NULL ∉ ys ->
  tail l ∉ ys -> forall fuel arg p, (length ys < fuel)%nat ->
  (ys ++ [tail l]) !! 0%nat = Some p ->
  visit_loop visitor fuel h l p arg = Some (visit_seq ys arg).
Proof.
  induction ys as [|y ys IH]; intros Hc Hn Ht fuel arg p Hf Hp;
    (destruct fuel as [|fuel]; [simpl in Hf; lia|]); simpl in Hp; injection Hp as <-.
  - simpl. by rewrite Z.eqb_refl.
  - cbn [visit_loop visit_seq]. destruct (Z.eqb_spec y (tail l)); [set_solver|].
    destruct (Z.eqb_spec y NULL); [set_solver|]. cbn [orb].
    destruct (visitor y arg) as [arg' []]; [|done].
    assert (exists q t, ys ++ [tail l] = q :: t) as (q & t & E)
      by (destruct ys; simpl; eauto).
    cbn [app] in Hc. rewrite E in Hc, IH. destruct Hc as [[H1 _] Hc].
    rewrite H1 by done. mstep.
    apply IH; [done|set_solver|set_solver|simpl in Hf; lia|done].
Qed.

Lemma visit_ok h l xs arg : dlist h l xs ->
  exists p, nxt h (head l) = Some p /\
    visit_loop visitor (S (base.size h)) h l p arg = Some (visit_seq xs arg).
Proof.
  intros D. pose proof (footprint_bound h l xs D) as Hb.
  destruct (first_split l xs) as (b & suf & E & _).
  destruct (dlist_split h l xs D _ _ _ _ E) as (H1 & _). exists b. split; [done|].
  pose proof (dl_chain _ _ _ D) as Hc. pose proof (dl_nonnull _ _ _ D) as Hn.
  pose proof (dl_nodup _ _ _ D) as Hd. unfold footprint in *.
  apply visit_loop_ok.
  - revert Hc. generalize (xs ++ [tail l]). intros [|q t]; [done|]. by intros [_ ?].
  - set_solver.
  - apply NoDup_cons in Hd as [_ Hd]. apply NoDup_app in Hd. set_solver.
  - rewrite length_cons, length_app in Hb. lia.
  - simpl in E. injection E as E. by rewrite E.
Qed.

Lemma foreach_ok h l xs arg : dlist h l xs ->
  foreach visitor h l arg = Some (visit_seq xs arg).2.
Proof.
  intros D. unfold foreach. destruct (visit_ok h l xs arg D) as (p & -> & Hv). mstep.
  rewrite Hv. mstep. by destruct (visit_seq xs arg).
Qed.

Lemma list_find_ok h l xs arg : dlist h l xs ->
  list_find visitor h l arg = Some (visit_seq xs arg).1.
Proof.
  intros D. unfold list_find. destruct (visit_ok h l xs arg D) as (p & -> & Hv). mstep.
  rewrite Hv. mstep. by destruct (visit_seq xs arg).
Qed.

End VisitSpec.

(** ** Refinement: the list operations against sequences *)

Inductive list_op :=
  | PushL (n : Z) | PushR (n : Z) | PopL | PopR
  | Add (i n : Z) | RemoveAt (i : Z) | Remove (n : Z).

Definition run_op (h : heap) (l : list_t) (op : list_op) : option (Z * heap * list_t) :=
  match op with
  | PushL n => '(h, l) ← pushl h l n; Some (NULL, h, l)
  | PushR n => '(h, l) ← pushr h l n; Some (NULL, h, l)
  | PopL => popl h l
  | PopR => popr h l
  | Add i n => add h l i n
  | RemoveAt i => remove_at h l i
  | Remove n => '(h, l) ← remove h l n; Some (NULL, h, l)
  end.

Definition insert_at (xs : list Z) (i : nat) (n : Z) : list Z :=
  take i xs ++ n :: drop i xs.
Definition delete_at (xs : list Z) (i : nat) : list Z :=
  take i xs ++ drop (S i) xs.

(** What the operation means for the sequence: its result and the new one. *)
Definition seq_op (xs : list Z) (op : list_op) : Z * list Z :=
  match op with
  | PushL n => (NULL, n :: xs)
  | PushR n => (NULL, xs ++ [n])
  | PopL => match xs with [] => (NULL, []) | x :: xs' => (x, xs') end
  | PopR => match last xs with
            | None => (NULL, []) | Some x => (x, removelast xs) end
  | Add i n =>
      let k := Z.to_nat (Z.min (Z.max i 0) (zlen xs)) in
      (Z.of_nat k, insert_at xs k n)
  | RemoveAt i => match zget xs i with
      | Some x => (x, delete_at xs (Z.to_nat i))
      | None => (NULL, xs) end
  | Remove n => (NULL, filter (fun x => x <> n) xs)
  end.

(** The node an operation inserts is fresh; a node it removes is a member. *)
Definition op_ok (h : heap) (l : list_t) (xs : list Z) (op : list_op) : Prop :=
  match op with
  | PushL n | PushR n | Add _ n => fresh_node h l xs n /\ zlen xs + 1 < 2 ^ 31
  | Remove n => n ∈ xs
  | _ => True
  end.

Definition op_nodes (op : list_op) : list Z :=
  match op with PushL n | PushR n | Add _ n => [n] | _ => [] end.

Lemma keeps_weaken h h' l l' o o' : keeps h h' l l' o -> (forall x, x ∈ o -> x ∈ o') ->
  keeps h h' l l' o'.
Proof. intros (? & ? & H) Ho. split_and!; [done..|]. intros x Hx. apply H. auto. Qed.

Lemma keeps_refl h l o : keeps h h l l o.
Proof. by split_and!. Qed.

Lemma filter_ne_id (xs : list Z) x : x ∉ xs -> filter (fun y => y <> x) xs = xs.
Proof.
  induction xs as [|y xs IH]; intros Hx; [done|].
  rewrite filter_cons_True by set_solver. by rewrite IH by set_solver.
Qed.

Lemma filter_ne_split (xs1 xs2 : list Z) x : NoDup (xs1 ++ x :: xs2) ->
  filter (fun y => y <> x) (xs1 ++ x :: xs2) = xs1 ++ xs2.
Proof.
  intros Hd. apply NoDup_app in Hd as (_ & H1 & [H2 _]%NoDup_cons).
  rewrite filter_app, filter_cons_False by naive_solver.
  rewrite !filter_ne_id; [done..|]. intros Hin. apply (H1 x Hin). set_solver.
Qed.

Lemma dlist_nodup h l xs : dlist h l xs -> NoDup xs.
Proof.
  intros D. pose proof (dl_nodup _ _ _ D) as Hd.
  apply NoDup_cons in Hd as [_ Hd]. by apply NoDup_app in Hd as [? _].
Qed.

Lemma delete_at_split (xs : list Z) i x : xs !! i = Some x ->
  xs = take i xs ++ x :: drop (S i) xs.
Proof. intros H. by rewrite take_drop_middle. Qed.

Lemma add_ok h l xs i n : dlist h l xs -> op_ok h l xs (Add i n) ->
  exists h' l', add h l i n = Some ((seq_op xs (Add i n)).1, h', l')
    /\ dlist h' l' (seq_op xs (Add i n)).2 /\ keeps h h' l l' (n :: footprint l xs).
Proof.
  intros D [F Hlen]. cbn [seq_op fst snd]. unfold insert_at. pose proof (zlen_nonneg xs).
  destruct (Z.le_gt_cases i 0) as [Hi|Hi]; [|destruct (Z.le_gt_cases (zlen xs) i) as [Hj|Hj]].
  - destruct (pushl_ok h l xs n D F Hlen) as (h' & l' & Hp & D' & K).
    replace (Z.min (Z.max i 0) (zlen xs)) with 0 by lia. exists h', l'.
    unfold add. destruct (Z.leb_spec i 0); [|lia]. rewrite Hp. mstep.
    split_and!; done.
  - destruct (pushr_ok h l xs n D F Hlen) as (h' & l' & Hp & D' & K).
    replace (Z.min (Z.max i 0) (zlen xs)) with (zlen xs) by lia.
    exists h', l'. unfold add. rewrite (dl_size _ _ _ D).
    destruct (Z.leb_spec i 0); [lia|]. destruct (Z.leb_spec (zlen xs) i); [|lia].
    rewrite Hp. mstep. rewrite (dl_size _ _ _ D'), zlen_app.
    split; [|split; [|done]].
    + f_equal. f_equal. f_equal. unfold zlen. simpl. lia.
    + unfold zlen. rewrite Nat2Z.id, take_ge, drop_ge by lia. done.
  - replace (Z.min (Z.max i 0) (zlen xs)) with i by lia.
    destruct (lookup_lt_is_Some_2 xs (Z.to_nat i)) as [x Hx]; [unfold zlen in *; lia|].
    pose proof (delete_at_split _ _ _ Hx) as E.
    assert (zlen (take (Z.to_nat i) xs) = i) as El.
    { unfold zlen in *. rewrite length_take. lia. }
    destruct (add_mid_ok h l (take (Z.to_nat i) xs) x (drop (S (Z.to_nat i)) xs) n)
      as (h' & l' & Hp & D' & K); [by rewrite <- E..|lia|by rewrite <- E|].
    rewrite El in Hp. rewrite <- E in K. exists h', l'. rewrite Z2Nat.id by lia.
    split_and!; [done| |done]. by rewrite (drop_S _ _ _ Hx).
Qed.

(** C7: Every operation of the kernel list (push, pop, insert at an index,
    remove at an index, remove a member) runs without touching an invalid
    pointer, returns what the operation on the sequence of its nodes returns,
    leaves a well-formed list that represents the new sequence, and changes no
    node outside the list. *)
Theorem list_refines_sequence (h : heap) (l : list_t) (xs : list Z) (op : list_op) :
  dlist h l xs -> op_ok h l xs op ->
  exists h' l', run_op h l op = Some ((seq_op xs op).1, h', l')
    /\ dlist h' l' (seq_op xs op).2
    /\ keeps h h' l l' (op_nodes op ++ footprint l xs).
Proof.
  intros D Hok. destruct op as [n|n| | |i n|i|n]; cbn [run_op seq_op op_nodes app].
  - destruct Hok as [F Hlen]. destruct (pushl_ok h l xs n D F Hlen) as (h' & l' & -> & D' & K).
    mstep. eauto.
  - destruct Hok as [F Hlen]. destruct (pushr_ok h l xs n D F Hlen) as (h' & l' & -> & D' & K).
    mstep. eauto.
  - pose proof (popl_ok h l xs D) as H. destruct xs as [|x xs].
    + exists h, l. split_and!; [done..|apply keeps_refl].
    + destruct H as (h' & l' & -> & D' & K & _). eauto.
  - destruct xs as [|x xs _] using rev_ind.
    + exists h, l. unfold popr. rewrite (dl_size _ _ _ D).
      split_and!; [done..|apply keeps_refl].
    + rewrite last_snoc, removelast_last.
      destruct (popr_ok h l xs x D) as (h' & l' & -> & D' & K & _). eauto.
  - apply add_ok; [done|]. exact Hok.
  - destruct (zget xs i) as [x|] eqn:Hx.
    + pose proof (zget_Some _ _ _ Hx) as Hr. unfold zget in Hx.
      destruct (Z.ltb_spec i 0); [lia|]. pose proof (delete_at_split _ _ _ Hx) as E.
      destruct (remove_at_ok h l (take (Z.to_nat i) xs) x (drop (S (Z.to_nat i)) xs))
        as (h' & l' & Hp & D' & K); [by rewrite <- E|]. rewrite <- E in K.
      replace (zlen (take (Z.to_nat i) xs)) with i in Hp
        by (unfold zlen in *; rewrite length_take; lia).
      exists h', l'. by split_and!.
    + exists h, l. unfold remove_at. rewrite (at_ok _ _ _ _ D), Hx. mstep.
      split_and!; [done..|apply keeps_refl].
  - apply list_elem_of_split in Hok as (xs1 & xs2 & ->).
    destruct (remove_in_ok h l xs1 n xs2 D) as (h' & l' & -> & D' & K & _). mstep.
    exists h', l'. cbn [fst snd]. rewrite filter_ne_split by by eapply dlist_nodup.
    by split_and!.
Qed.

(** A list does not see stores outside its footprint. *)
Lemma dlist_frame h h' l xs : dlist h l xs ->
  (forall x, x ∈ footprint l xs -> same_at h h' x) -> dlist h' l xs.
Proof.
  intros D Hs. split; try apply D.
  - apply (chain_same h); [apply D|]. intros x Hx _. by apply Hs.
  - destruct (Hs (head l)) as [_ ->]; [set_solver|apply D].
  - destruct (Hs (tail l)) as [-> _]; [set_solver|apply D].
Qed.

(** An empty list with sentinels at 100 and 108, and a free node at 4096. *)
Definition heap0 : heap :=
  <[100 := Node NULL 108]> (<[108 := Node 100 NULL]> (<[4096 := Node NULL NULL]> ∅)).
Definition list0 : list_t := List 100 108 0.

Lemma list0_empty : dlist heap0 list0 [].
Proof.
  split; cbn [head tail size list0 app]; try reflexivity.
  - split; [|done]. split; intros _; reflexivity.
  - apply NoDup_cons. split; [set_solver|apply NoDup_singleton].
  - set_solver.
Qed.

Lemma list_refines_sequence_witness :
  exists h' l', run_op heap0 list0 (PushR 4096) = Some (NULL, h', l')
    /\ dlist h' l' [4096]
    /\ keeps heap0 h' list0 l' ([4096] ++ footprint list0 []).
Proof.
  apply (list_refines_sequence heap0 list0 [] (PushR 4096) list0_empty).
  split; [|reflexivity]. split_and!; [unfold footprint; simpl; set_solver|done|].
  exists NULL. reflexivity.
Defined.
