(* ===== verification/NList.v ===== *)
(** * The network stack's list: kernel/net/nlist.h and nlist.c

    A NULL-terminated doubly linked list with a descriptor holding the first
    and last node and a counter.  [nlist] relates it to the sequence of its
    nodes; [NListSpec] is the promise the rest of the network stack relies on,
    and [nlist_spec] discharges it. *)

From S2P Require Import Links Prelude.

Record nlist_t := NList { first : Z; last : Z; count : Z }.

(** ** Operations *)

Definition nlist_node_init (h : heap) (node : Z) : option heap :=
  h ← set_next h node NULL; set_pre h node NULL.

Definition nlist_node_next (h : heap) (node : Z) : option Z := nxt h node.
Definition nlist_node_pre (h : heap) (node : Z) : option Z := prv h node.
Definition nlist_node_set_next (h : heap) (pre next : Z) : option heap :=
  set_next h pre next.

Definition nlist_init : nlist_t := NList NULL NULL 0.

Definition nlist_is_empty (l : nlist_t) : bool := count l =? 0.
Definition nlist_count (l : nlist_t) : Z := count l.
Definition nlist_first (l : nlist_t) : Z := first l.
Definition nlist_last (l : nlist_t) : Z := last l.

Definition nlist_insert_first (h : heap) (l : nlist_t) (node : Z)
    : option (heap * nlist_t) :=
  h ← set_next h node (first l);
  h ← set_pre h node NULL;
  if nlist_is_empty l then Some (h, NList node node (i32 (count l + 1)))
  else
    h ← set_pre h (first l) node;
    Some (h, NList node (last l) (i32 (count l + 1))).

Definition nlist_remove (h : heap) (l : nlist_t) (remove_node : Z)
    : option (heap * nlist_t) :=
  n ← nxt h remove_node;
  let first' := if remove_node =? first l then n else first l in
  p ← prv h remove_node;
  let last' := if remove_node =? last l then p else last l in
  h ← (if nz p then set_next h p n else Some h);
  n ← nxt h remove_node;
  p ← prv h remove_node;
  h ← (if nz n then set_pre h n p else Some h);
  h ← set_next h remove_node NULL;
  h ← set_pre h remove_node NULL;
  Some (h, NList first' last' (i32 (count l - 1))).

Definition nlist_remove_first (h : heap) (l : nlist_t) : option (Z * heap * nlist_t) :=
  let f := nlist_first l in
  if nz f then '(h, l) ← nlist_remove h l f; Some (f, h, l) else Some (f, h, l).

Definition nlist_remove_last (h : heap) (l : nlist_t) : option (Z * heap * nlist_t) :=
  let f := nlist_last l in
  if nz f then '(h, l) ← nlist_remove h l f; Some (f, h, l) else Some (f, h, l).

Definition nlist_insert_last (h : heap) (l : nlist_t) (node : Z)
    : option (heap * nlist_t) :=
  h ← set_pre h node (last l);
  h ← set_next h node NULL;
  if nlist_is_empty l then Some (h, NList node node (i32 (count l + 1)))
  else
    h ← set_next h (last l) node;
    Some (h, NList (first l) node (i32 (count l + 1))).

Definition nlist_insert_after (h : heap) (l : nlist_t) (pre node : Z)
    : option (heap * nlist_t) :=
  if nlist_is_empty l then nlist_insert_first h l node
  else
    n ← nxt h pre;
    h ← set_next h node n;
    h ← set_pre h node pre;
    n ← nxt h pre;
    h ← (if nz n then set_pre h n node else Some h);
    h ← set_next h pre node;
    let last' := if last l =? pre then node else last l in
    Some (h, NList (first l) last' (i32 (count l + 1))).

(** [nlist_for_each]: the nodes in order; the list has at most as many nodes as
    the heap. *)
Fixpoint walk_all (fuel : nat) (h : heap) (p : Z) : option (list Z) :=
  match fuel with
  | O => None
  | S fuel' =>
      if p =? NULL then Some []
      else q ← nxt h p; rest ← walk_all fuel' h q; Some (p :: rest)
  end.

Definition nlist_for_each (h : heap) (l : nlist_t) : option (list Z) :=
  walk_all (S (size h)) h (first l).

(** ** The abstraction *)

Record nlist (h : heap) (l : nlist_t) (xs : list Z) : Prop := {
  nl_chain : chain h (NULL :: xs ++ [NULL]);
  nl_nodup : NoDup xs;
  nl_nonnull : NULL ∉ xs;
  nl_first : first l = default NULL (head xs);
  nl_last : last l = default NULL (list.last xs);
  nl_count : count l = zlen xs;
  nl_int : zlen xs < 2 ^ 31;
}.

(** A node outside the list, allocated, that an insertion may link in. *)
Definition free_node (h : heap) (xs : list Z) (n : Z) : Prop :=
  n ∉ xs /\ n <> NULL /\ is_Some (nxt h n).

Lemma nz_true p : p <> NULL -> nz p = true.
Proof. unfold nz, NULL. by destruct (Z.eqb_spec p 0). Qed.
Lemma nz_NULL : nz NULL = false.
Proof. done. Qed.

Lemma filter_nonnull (xs : list Z) : NULL ∉ xs -> filter (fun x => x <> NULL) xs = xs.
Proof.
  induction xs as [|x xs IH]; intros Hn; [done|].
  rewrite filter_cons_True by set_solver. by rewrite IH by set_solver.
Qed.

Lemma apart_ends (xs : list Z) : NoDup xs -> NULL ∉ xs -> apart (NULL :: xs ++ [NULL]).
Proof.
  intros Hd Hn. unfold apart. rewrite filter_cons_False by naive_solver.
  rewrite filter_app, filter_nonnull by done.
  rewrite filter_cons_False, filter_nil by naive_solver. by rewrite app_nil_r.
Qed.

Lemma nlist_nil h : nlist h nlist_init [].
Proof.
  split; [simpl; by repeat split|apply NoDup_nil_2|apply not_elem_of_nil|done..].
Qed.

Section Repr.
Context (h : heap) (l : nlist_t) (xs : list Z) (D : nlist h l xs).

Lemma nlist_node p : p ∈ xs -> p <> NULL /\ is_Some (nxt h p).
Proof.
  intros Hp. assert (p <> NULL) as H0 by (intros ->; by apply (nl_nonnull _ _ _ D)).
  split; [done|]. apply list_elem_of_split in Hp as (l1 & l2 & ->).
  pose proof (nl_chain _ _ _ D) as Hc.
  replace (NULL :: (l1 ++ p :: l2) ++ [NULL]) with ((NULL :: l1) ++ p :: l2 ++ [NULL])
    in Hc by by rewrite <- app_assoc.
  apply chain_app in Hc as [_ Hc].
  assert (exists q t, l2 ++ [NULL] = q :: t) as (q & t & E) by (destruct l2; simpl; eauto).
  rewrite E in Hc. destruct Hc as [[H _] _]. rewrite H by done. eauto.
Qed.

(** The links around a split point of the sequence. *)
Lemma nlist_split pre a b suf : NULL :: xs ++ [NULL] = pre ++ a :: b :: suf ->
  (a <> NULL -> nxt h a = Some b) /\ (b <> NULL -> prv h b = Some a).
Proof.
  intros E. pose proof (nl_chain _ _ _ D) as Hc. rewrite E in Hc.
  by apply chain_app in Hc as [_ [? _]].
Qed.

Lemma nlist_empty_iff : nlist_is_empty l = true <-> xs = [].
Proof.
  unfold nlist_is_empty. rewrite (nl_count _ _ _ D). unfold zlen.
  rewrite Z.eqb_eq. destruct xs; simpl; split; (done || lia).
Qed.

End Repr.

Lemma nlist_insert h h' l' xs1 xs2 l n : nlist h l (xs1 ++ xs2) ->
  free_node h (xs1 ++ xs2) n -> zlen (xs1 ++ xs2) + 1 < 2 ^ 31 ->
  first l' = default NULL (head (xs1 ++ n :: xs2)) ->
  last l' = default NULL (list.last (xs1 ++ n :: xs2)) ->
  count l' = i32 (count l + 1) ->
  let a := default NULL (list.last xs1) in let b := default NULL (head xs2) in
  (forall x, x <> NULL ->
    nxt h' x = if x =? a then Some n else if x =? n then Some b else nxt h x) ->
  (forall x, x <> NULL ->
    prv h' x = if x =? b then Some n else if x =? n then Some a else prv h x) ->
  nlist h' l' (xs1 ++ n :: xs2)
  /\ forall x, x <> NULL -> x ∉ n :: xs1 ++ xs2 -> same_at h h' x.
Proof.
  intros D (Hf & Hn0 & Ha) Hlen E1 E2 E3 a b Hnx Hpx.
  assert (exists pre, NULL :: xs1 = pre ++ [a]) as [pre Epre].
  { unfold a. destruct xs1 as [|x xs1' _] using rev_ind; [exists []; done|].
    rewrite last_snoc. by exists (NULL :: xs1'). }
  assert (exists suf, xs2 ++ [NULL] = b :: suf) as [suf Esuf].
  { unfold b. destruct xs2; simpl; eauto. }
  assert (NULL :: (xs1 ++ xs2) ++ [NULL] = pre ++ a :: b :: suf) as E.
  { rewrite <- app_assoc, app_comm_cons, Epre, <- app_assoc. simpl. by rewrite Esuf. }
  assert (NULL :: (xs1 ++ n :: xs2) ++ [NULL] = pre ++ a :: n :: b :: suf) as E'.
  { rewrite <- app_assoc, app_comm_cons, Epre, <- app_assoc. simpl. by rewrite Esuf. }
  assert (NoDup (xs1 ++ n :: xs2)) as Hd.
  { rewrite <- Permutation_middle. apply NoDup_cons. split; [done|apply D]. }
  split.
  - split; try done.
    + rewrite E'. apply (chain_insert h); try done.
      * rewrite <- E. apply D.
      * rewrite <- E. apply apart_ends; apply D.
      * rewrite <- E. pose proof (nl_nonnull _ _ _ D). set_solver.
    + pose proof (nl_nonnull _ _ _ D). set_solver.
    + rewrite E3, (nl_count _ _ _ D), i32_small;
        [|pose proof (zlen_nonneg (xs1 ++ xs2)); lia].
      rewrite !zlen_app. unfold zlen. simpl. lia.
    + rewrite !zlen_app in *. unfold zlen in *. simpl. lia.
  - intros x Hx0 Hx. unfold same_at. rewrite Hnx, Hpx by done.
    assert (a ∈ NULL :: xs1) by (rewrite Epre; set_solver).
    assert (b ∈ xs2 ++ [NULL]) by (rewrite Esuf; set_solver).
    destruct (Z.eqb_spec x a), (Z.eqb_spec x b), (Z.eqb_spec x n); subst; try done;
      exfalso; set_solver.
Qed.

Lemma nlist_delete h h' l' xs1 xs2 l n : nlist h l (xs1 ++ n :: xs2) ->
  first l' = default NULL (head (xs1 ++ xs2)) ->
  last l' = default NULL (list.last (xs1 ++ xs2)) ->
  count l' = i32 (count l - 1) ->
  let a := default NULL (list.last xs1) in let b := default NULL (head xs2) in
  (forall x, x <> NULL -> x <> n -> nxt h' x = if x =? a then Some b else nxt h x) ->
  (forall x, x <> NULL -> x <> n -> prv h' x = if x =? b then Some a else prv h x) ->
  nlist h' l' (xs1 ++ xs2)
  /\ forall x, x <> NULL -> x ∉ xs1 ++ n :: xs2 -> same_at h h' x.
Proof.
  intros D E1 E2 E3 a b Hnx Hpx.
  assert (exists pre, NULL :: xs1 = pre ++ [a]) as [pre Epre].
  { unfold a. destruct xs1 as [|x xs1' _] using rev_ind; [exists []; done|].
    rewrite last_snoc. by exists (NULL :: xs1'). }
  assert (exists suf, xs2 ++ [NULL] = b :: suf) as [suf Esuf].
  { unfold b. destruct xs2; simpl; eauto. }
  assert (NULL :: (xs1 ++ xs2) ++ [NULL] = pre ++ a :: b :: suf) as E.
  { rewrite <- app_assoc, app_comm_cons, Epre, <- app_assoc. simpl. by rewrite Esuf. }
  assert (NULL :: (xs1 ++ n :: xs2) ++ [NULL] = pre ++ a :: n :: b :: suf) as E'.
  { rewrite <- app_assoc, app_comm_cons, Epre, <- app_assoc. simpl. by rewrite Esuf. }
  assert (n <> NULL) as Hn0 by (apply (nlist_node _ _ _ D); set_solver).
  pose proof (nl_nodup _ _ _ D) as Hd. pose proof (nl_nonnull _ _ _ D) as H0.
  pose proof (nl_int _ _ _ D) as Hint. rewrite zlen_app in Hint.
  split.
  - split; try done.
    + rewrite E. apply (chain_delete h _ _ _ _ _ n); try done.
      * rewrite <- E'. apply D.
      * rewrite <- E'. by apply apart_ends.
    + rewrite <- Permutation_middle in Hd. by apply NoDup_cons in Hd as [_ ?].
    + set_solver.
    + rewrite E3, (nl_count _ _ _ D), !zlen_app, i32_small; unfold zlen in *; simpl in *; lia.
    + rewrite !zlen_app. unfold zlen in *. simpl in *. lia.
  - intros x Hx0 Hx. unfold same_at.
    assert (a ∈ NULL :: xs1) by (rewrite Epre; set_solver).
    assert (b ∈ xs2 ++ [NULL]) by (rewrite Esuf; set_solver).
    rewrite Hnx, Hpx by set_solver.
    destruct (Z.eqb_spec x a), (Z.eqb_spec x b); subst; try done; exfalso; set_solver.
Qed.

(** ** Each operation is an operation on the sequence *)

(** Nodes outside [owned] are as they were. *)
Definition outside (h h' : heap) (owned : list Z) : Prop :=
  forall x, x <> NULL -> x ∉ owned -> same_at h h' x.

Ltac naddr_cases :=
  repeat match goal with
  | |- context [?x =? ?y] => destruct (Z.eqb_spec x y); subst; try congruence
  end; try done.

Ltac nalloc_solve :=
  repeat match goal with
  | H : forall q, nxt ?h q = _ |- context [nxt ?h _] => rewrite H
  end;
  repeat match goal with
  | |- context [if ?b then _ else _] => destruct b
  end; eauto.

Lemma insert_first_ok h l xs n : nlist h l xs -> free_node h xs n ->
  zlen xs + 1 < 2 ^ 31 ->
  exists h' l', nlist_insert_first h l n = Some (h', l') /\ nlist h' l' (n :: xs)
    /\ outside h h' (n :: xs).
Proof.
  intros D F Hlen. pose proof F as (Hf & Hn0 & Ha). unfold nlist_insert_first.
  store_next h1 N1 P1; [|done]. store_pre h2 P2 N2; [|nalloc_solve].
  destruct xs as [|b xs].
  - rewrite (proj2 (nlist_empty_iff _ _ _ D)) by done. do 2 eexists. split; [done|].
    apply (nlist_insert h _ _ [] [] l n D F Hlen); try done; intros x Hx;
      rewrite ?N2, ?N1, ?P2, ?P1; cbn [default id head list.last];
      rewrite ?(nl_first _ _ _ D); naddr_cases.
  - destruct (nlist_is_empty l) eqn:Ee; [by apply (nlist_empty_iff _ _ _ D) in Ee|].
    pose proof (nl_first _ _ _ D) as Ef. simpl in Ef. rewrite Ef in *.
    destruct (nlist_node _ _ _ D b) as [Hb0 Hbs]; [set_solver|].
    assert (n <> b) by set_solver.
    store_pre h3 P3 N3; [|nalloc_solve]. do 2 eexists. split; [done|].
    apply (nlist_insert h _ _ [] (b :: xs) l n D F Hlen); try done.
    + cbn [last]. rewrite (nl_last _ _ _ D). by destruct xs.
    + intros x Hx. rewrite N3, N2, N1. cbn [default id head list.last]. naddr_cases.
    + intros x Hx. rewrite P3, P2, P1. cbn [default id head list.last]. naddr_cases.
Qed.

Lemma insert_last_ok h l xs n : nlist h l xs -> free_node h xs n ->
  zlen xs + 1 < 2 ^ 31 ->
  exists h' l', nlist_insert_last h l n = Some (h', l') /\ nlist h' l' (xs ++ [n])
    /\ outside h h' (n :: xs).
Proof.
  intros D F Hlen. pose proof F as (Hf & Hn0 & Ha). unfold nlist_insert_last.
  store_pre h1 P1 N1; [|done]. store_next h2 N2 P2; [|nalloc_solve].
  destruct xs as [|a xs _] using rev_ind.
  - rewrite (proj2 (nlist_empty_iff _ _ _ D)) by done. do 2 eexists. split; [done|].
    apply (nlist_insert h _ _ [] [] l n D F Hlen); try done; intros x Hx;
      rewrite ?N2, ?N1, ?P2, ?P1; cbn [default id head list.last];
      rewrite ?(nl_last _ _ _ D); naddr_cases.
  - destruct (nlist_is_empty l) eqn:Ee.
    { apply (nlist_empty_iff _ _ _ D) in Ee. by destruct xs. }
    pose proof (nl_last _ _ _ D) as Ef. rewrite last_snoc in Ef. simpl in Ef. rewrite Ef in *.
    destruct (nlist_node _ _ _ D a) as [Ha0 Has]; [set_solver|].
    assert (n <> a) by set_solver.
    store_next h3 N3 P3; [|nalloc_solve]. do 2 eexists. split; [done|].
    rewrite <- (app_nil_r (xs ++ [a])) in D, F, Hlen.
    destruct (nlist_insert h h3 (NList (first l) n (i32 (count l + 1))) (xs ++ [a]) [] l n
      D F Hlen) as [D' K].
    + cbn [first]. rewrite (nl_first _ _ _ D), app_nil_r. by destruct xs.
    + cbn [last]. by rewrite last_snoc.
    + done.
    + intros x Hx. rewrite last_snoc, N3, N2, N1. cbn [default id head]. naddr_cases.
    + intros x Hx. rewrite last_snoc, P3, P2, P1. cbn [default id head]. naddr_cases.
    + rewrite app_nil_r in K. by split.
Qed.

(** A guarded store, [if (p) p->next = v], writes [p] unless it is NULL. *)
Lemma set_next_opt h a b : (a <> NULL -> is_Some (nxt h a)) ->
  exists h1, (if nz a then set_next h a b else Some h) = Some h1 /\
    (forall q, q <> NULL -> nxt h1 q = if q =? a then Some b else nxt h q) /\
    (forall q, prv h1 q = prv h q) /\ (forall q, is_Some (nxt h q) -> is_Some (nxt h1 q)).
Proof.
  intros Has. destruct (decide (a = NULL)) as [->|Ha0].
  - exists h. split_and!; [done| |done|done]. intros q Hq. by destruct (Z.eqb_spec q NULL).
  - rewrite nz_true by done. destruct (set_next_total h a b) as [h1 E1]; [auto|].
    exists h1. destruct (set_next_spec _ _ _ _ E1) as [N P].
    split_and!; [done|done|done|]. intros q Hq. rewrite N. by destruct (q =? a).
Qed.

Lemma set_pre_opt h a b : (b <> NULL -> is_Some (nxt h b)) ->
  exists h1, (if nz b then set_pre h b a else Some h) = Some h1 /\
    (forall q, q <> NULL -> prv h1 q = if q =? b then Some a else prv h q) /\
    (forall q, nxt h1 q = nxt h q).
Proof.
  intros Hbs. destruct (decide (b = NULL)) as [->|Hb0].
  - exists h. split_and!; [done| |done]. intros q Hq. by destruct (Z.eqb_spec q NULL).
  - rewrite nz_true by done. destruct (set_pre_total h b a) as [h1 E1]; [auto|].
    exists h1. destruct (set_pre_spec _ _ _ _ E1) as [P N]. by split_and!.
Qed.

Lemma insert_after_ok h l xs1 p xs2 n : nlist h l (xs1 ++ p :: xs2) ->
  free_node h (xs1 ++ p :: xs2) n -> zlen (xs1 ++ p :: xs2) + 1 < 2 ^ 31 ->
  exists h' l', nlist_insert_after h l p n = Some (h', l')
    /\ nlist h' l' (xs1 ++ p :: n :: xs2) /\ outside h h' (n :: xs1 ++ p :: xs2).
Proof.
  intros D F Hlen. pose proof F as (Hf & Hn0 & Ha). unfold nlist_insert_after.
  destruct (nlist_is_empty l) eqn:Ee.
  { apply (nlist_empty_iff _ _ _ D) in Ee. by destruct xs1. }
  destruct (nlist_node _ _ _ D p) as [Hp0 Hps]; [set_solver|].
  assert (n <> p) as Hnp by set_solver.
  set (b := default NULL (head xs2)).
  assert (nxt h p = Some b) as Hpb.
  { destruct (nlist_split _ _ _ D (NULL :: xs1) p b (match xs2 with [] => [] | _ :: t => t ++ [NULL] end))
      as [H _]; [|by apply H].
    unfold b. destruct xs2; simpl; by rewrite <- app_assoc. }
  assert (n <> b) as Hnb.
  { unfold b. destruct xs2; simpl; [done|set_solver]. }
  assert (p <> b) as Hpb'.
  { unfold b. pose proof (nl_nodup _ _ _ D) as Hd. apply NoDup_app in Hd as (_ & _ & Hd).
    apply NoDup_cons in Hd. destruct xs2; simpl; [done|set_solver]. }
  rewrite Hpb. mstep. store_next h1 N1 P1; [|done]. store_pre h2 P2 N2; [|nalloc_solve].
  rewrite N2, N1, Hpb. destruct (Z.eqb_spec p n); [congruence|]. mstep.
  replace (xs1 ++ p :: xs2) with ((xs1 ++ [p]) ++ xs2) in D, F, Hlen
    by by rewrite <- app_assoc.
  replace (xs1 ++ p :: n :: xs2) with ((xs1 ++ [p]) ++ n :: xs2) by by rewrite <- app_assoc.
  replace (xs1 ++ p :: xs2) with ((xs1 ++ [p]) ++ xs2) by by rewrite <- app_assoc.
  assert (forall h', (forall x, x <> NULL -> nxt h' x =
      if x =? p then Some n else if x =? n then Some b else nxt h x) ->
    (forall x, x <> NULL -> prv h' x =
      if x =? b then Some n else if x =? n then Some p else prv h x) ->
    let l' := NList (first l) (if last l =? p then n else last l) (i32 (count l + 1)) in
    nlist h' l' ((xs1 ++ [p]) ++ n :: xs2) /\ outside h h' (n :: (xs1 ++ [p]) ++ xs2)) as Hfin.
  { intros h' Hn Hp. apply (nlist_insert h _ _ (xs1 ++ [p]) xs2 l n D F Hlen); try done.
    - cbn [first]. rewrite (nl_first _ _ _ D). by destruct xs1.
    - cbn [last]. rewrite (nl_last _ _ _ D).
      destruct xs2 as [|y xs2 _] using rev_ind.
      + rewrite !app_nil_r, !last_snoc. simpl. by rewrite Z.eqb_refl.
      + rewrite app_comm_cons, !app_assoc, !last_snoc. simpl.
        destruct (Z.eqb_spec y p) as [->|]; [|done].
        exfalso. pose proof (nl_nodup _ _ _ D) as Hd. apply NoDup_app in Hd as (_ & Hd & _).
        apply (Hd p); set_solver.
    - intros x Hx. rewrite last_snoc. by apply Hn.
    - intros x Hx. rewrite last_snoc. by apply Hp. }
  destruct (set_pre_opt h2 n b) as (h3 & -> & P3 & N3).
  { intros Hb0. nalloc_solve. apply (nlist_node _ _ _ D). unfold b in *. destruct xs2; [done|set_solver]. }
  mstep. store_next h4 N4 P4; [|nalloc_solve].
  do 2 eexists. split; [done|]. apply Hfin; intros x Hx.
  - rewrite N4, N3, N2, N1. naddr_cases.
  - rewrite P4, P3, P2, P1 by done. naddr_cases.
Qed.

(** The neighbours of a node in the middle of the list. *)
Section Middle.
Context (h : heap) (l : nlist_t) (xs1 : list Z) (n : Z) (xs2 : list Z).
Context (D : nlist h l (xs1 ++ n :: xs2)).
Let a := default NULL (list.last xs1).
Let b := default NULL (head xs2).

Lemma mid_links : prv h n = Some a /\ nxt h n = Some b.
Proof.
  assert (exists pre, NULL :: xs1 = pre ++ [a]) as [pre Epre].
  { unfold a. destruct xs1 as [|x xs1' _] using rev_ind; [exists []; done|].
    rewrite last_snoc. by exists (NULL :: xs1'). }
  assert (exists suf, xs2 ++ [NULL] = b :: suf) as [suf Esuf].
  { unfold b. destruct xs2; simpl; eauto. }
  assert (NULL :: (xs1 ++ n :: xs2) ++ [NULL] = pre ++ a :: n :: b :: suf) as E.
  { rewrite <- app_assoc, app_comm_cons, Epre, <- app_assoc. simpl. by rewrite Esuf. }
  destruct (nlist_node _ _ _ D n) as [Hn0 _]; [set_solver|]. split.
  - by apply (nlist_split _ _ _ D pre a n (b :: suf)).
  - apply (nlist_split _ _ _ D (pre ++ [a]) n b suf); [|done]. by rewrite E, <- app_assoc.
Qed.

Lemma mid_fresh : n ∉ xs1 /\ n ∉ xs2.
Proof.
  pose proof (nl_nodup _ _ _ D) as Hd. rewrite <- Permutation_middle in Hd.
  apply NoDup_cons in Hd. set_solver.
Qed.

Lemma mid_before : a = NULL \/ a ∈ xs1.
Proof.
  unfold a. destruct (list.last xs1) as [y|] eqn:E; [right; by apply last_Some_elem_of|by left].
Qed.

Lemma mid_after : b = NULL \/ b ∈ xs2.
Proof. unfold b. destruct xs2; [by left|right; by apply elem_of_cons; left]. Qed.

Lemma mid_distinct : n <> a /\ n <> b /\ (a = NULL \/ a <> b).
Proof.
  destruct (nlist_node _ _ _ D n) as [Hn0 _]; [set_solver|]. destruct mid_fresh as [Hn1 Hn2].
  destruct mid_before as [Ea|Ha], mid_after as [Eb|Hb]; (split_and!; [congruence|congruence|]);
    try by left.
  - right. intros E. rewrite E in Ha. rewrite Eb in Ha. apply (nl_nonnull _ _ _ D). set_solver.
  - right. intros E. rewrite E in Ha. pose proof (nl_nodup _ _ _ D) as Hd.
    apply NoDup_app in Hd as (_ & Hd & _). apply (Hd b Ha). by apply elem_of_cons; right.
Qed.

Lemma mid_alloc : (a <> NULL -> is_Some (nxt h a)) /\ (b <> NULL -> is_Some (nxt h b)).
Proof.
  split; intros H0; apply (nlist_node _ _ _ D).
  - destruct mid_before; [done|]. apply elem_of_app. by left.
  - destruct mid_after; [done|]. apply elem_of_app. right. by apply elem_of_cons; right.
Qed.

(** A heap whose links go around [n], with the descriptor [nlist_remove] leaves,
    holds the list without it. *)
Lemma mid_unlinked h' c :
  (forall x, x <> NULL -> x <> n -> nxt h' x = if x =? a then Some b else nxt h x) ->
  (forall x, x <> NULL -> x <> n -> prv h' x = if x =? b then Some a else prv h x) ->
  c = i32 (count l - 1) ->
  nlist h' (NList (if n =? first l then b else first l) (if n =? last l then a else last l) c)
    (xs1 ++ xs2) /\ outside h h' (xs1 ++ n :: xs2).
Proof.
  intros Hn Hp ->. destruct mid_fresh as [Hn1 Hn2].
  apply (nlist_delete h _ _ xs1 xs2 l n D); try done.
  - cbn [first]. rewrite (nl_first _ _ _ D). destruct xs1 as [|y xs1']; simpl.
    + by rewrite Z.eqb_refl.
    + destruct (Z.eqb_spec n y) as [->|]; [|done]. exfalso. apply Hn1, elem_of_cons. by left.
  - cbn [last]. rewrite (nl_last _ _ _ D). unfold a. destruct xs2 as [|y xs2' _] using rev_ind.
    + rewrite app_nil_r, last_snoc. simpl. by rewrite Z.eqb_refl.
    + rewrite app_comm_cons, !app_assoc, !last_snoc. simpl.
      destruct (Z.eqb_spec n y) as [->|]; [|done].
      exfalso. apply Hn2, elem_of_app. right. by apply list_elem_of_singleton.
Qed.
End Middle.

Lemma remove_ok h l xs1 n xs2 : nlist h l (xs1 ++ n :: xs2) ->
  exists h' l', nlist_remove h l n = Some (h', l') /\ nlist h' l' (xs1 ++ xs2)
    /\ outside h h' (xs1 ++ n :: xs2)
    /\ nxt h' n = Some NULL /\ prv h' n = Some NULL.
Proof.
  intros D. destruct (nlist_node _ _ _ D n) as [Hn0 Hns]; [set_solver|].
  destruct (mid_links _ _ _ _ _ D) as [Hna Hnb]. destruct (mid_alloc _ _ _ _ _ D) as [Has Hbs].
  destruct (mid_distinct _ _ _ _ _ D) as (Hna' & Hnb' & Hab).
  pose proof (mid_unlinked _ _ _ _ _ D) as Hfin.
  set (a := default NULL (list.last xs1)) in *. set (b := default NULL (head xs2)) in *.
  unfold nlist_remove. rewrite Hnb. mstep. rewrite Hna. mstep.
  destruct (set_next_opt h a b Has) as (h1 & -> & N1 & P1 & A1).
  mstep. rewrite N1, Hnb by done. destruct (Z.eqb_spec n a); [congruence|]. mstep.
  rewrite P1, Hna. mstep.
  destruct (set_pre_opt h1 a b) as (h2 & -> & P2 & N2); [auto|].
  mstep. store_next h3 N3 P3; [|rewrite N2; by apply A1]. store_pre h4 P4 N4; [|nalloc_solve].
  do 2 eexists. split; [done|].
  destruct (Hfin h4 (i32 (count l - 1))) as [D' K]; [| |done|].
  - intros x Hx Hxn. rewrite N4, N3, N2, N1 by done. naddr_cases.
  - intros x Hx Hxn. rewrite P4, P3, P2, P1 by done. naddr_cases.
  - split_and!; [done|done| |].
    + rewrite N4, N3. by rewrite Z.eqb_refl.
    + rewrite P4. by rewrite Z.eqb_refl.
Qed.

(** A list does not see stores to other nodes. *)
Lemma nlist_frame h h' l xs : nlist h l xs ->
  (forall x, x ∈ xs -> same_at h h' x) -> nlist h' l xs.
Proof.
  intros D Hs. split; try apply D. apply (chain_same h); [apply D|].
  intros x Hx Hx0. apply Hs. set_solver.
Qed.

Lemma node_init_ok h p : is_Some (nxt h p) ->
  exists h', nlist_node_init h p = Some h' /\ is_Some (nxt h' p)
    /\ forall x, x <> p -> same_at h h' x.
Proof.
  intros Hp. unfold nlist_node_init. store_next h1 N1 P1; [|done].
  destruct (set_pre_total h1 p NULL) as [h2 E2]; [nalloc_solve|].
  exists h2. apply set_pre_spec in E2 as E2'. destruct E2' as [P2 N2].
  split_and!; [done|rewrite N2, N1, Z.eqb_refl; eauto|].
  intros x Hx. unfold same_at. rewrite N2, N1, P2, P1. naddr_cases.
Qed.

Lemma remove_first_ok h l xs : nlist h l xs ->
  match xs with
  | [] => nlist_remove_first h l = Some (NULL, h, l)
  | x :: xs' => exists h' l', nlist_remove_first h l = Some (x, h', l')
      /\ nlist h' l' xs' /\ outside h h' xs /\ is_Some (nxt h' x)
  end.
Proof.
  intros D. unfold nlist_remove_first, nlist_first. rewrite (nl_first _ _ _ D).
  destruct xs as [|x xs]; [done|]. simpl.
  rewrite nz_true by (apply (nlist_node _ _ _ D); set_solver).
  destruct (remove_ok h l [] x xs D) as (h' & l' & -> & D' & K & Hn & _).
  simpl. eauto 8.
Qed.

Lemma remove_last_ok h l xs : nlist h l xs ->
  match list.last xs with
  | None => nlist_remove_last h l = Some (NULL, h, l)
  | Some x => exists xs' h' l', xs = xs' ++ [x]
      /\ nlist_remove_last h l = Some (x, h', l')
      /\ nlist h' l' xs' /\ outside h h' xs /\ is_Some (nxt h' x)
  end.
Proof.
  intros D. unfold nlist_remove_last, nlist_last. rewrite (nl_last _ _ _ D).
  destruct xs as [|x xs _] using rev_ind; [done|]. rewrite last_snoc. simpl.
  rewrite nz_true by (apply (nlist_node _ _ _ D); set_solver).
  destruct (remove_ok h l xs x [] D) as (h' & l' & -> & D' & K & Hn & _).
  rewrite app_nil_r in D'. exists xs, h', l'. simpl. eauto 8.
Qed.

Lemma walk_all_ok h xs p fuel : chain h (p :: xs ++ [NULL]) -> NULL ∉ xs ->
  (length xs < fuel)%nat -> walk_all fuel h (default NULL (head xs)) = Some xs.
Proof.
  revert p fuel. induction xs as [|x xs IH]; intros p [|fuel] Hc Hn Hf; try (simpl in Hf; lia);
    [done|].
  simpl. destruct (Z.eqb_spec x NULL); [set_solver|].
  change (link h p x /\ chain h (x :: xs ++ [NULL])) in Hc. destruct Hc as [_ Hc].
  assert (nxt h x = Some (default NULL (head xs))) as ->.
  { destruct xs; destruct Hc as [[H _] _]; by apply H. }
  mstep. rewrite (IH x); [done|done|set_solver|simpl in Hf; lia].
Qed.

Lemma nlist_size h l xs : nlist h l xs -> (length xs <= size h)%nat.
Proof.
  intros D. rewrite <- (size_list_to_set (C := gset Z) xs), <- (size_dom (D := gset Z)) by apply D.
  apply subseteq_size. intros x Hx%elem_of_list_to_set.
  destruct (nlist_node _ _ _ D x Hx) as [_ [y Hy]]. unfold nxt in Hy.
  apply elem_of_dom. destruct (h !! x); [eauto|done].
Qed.

Lemma for_each_ok h l xs : nlist h l xs -> nlist_for_each h l = Some xs.
Proof.
  intros D. unfold nlist_for_each. rewrite (nl_first _ _ _ D).
  apply (walk_all_ok _ _ NULL); [apply D|apply D|]. pose proof (nlist_size _ _ _ D). lia.
Qed.

(** ** The interface the rest of the stack relies on *)

Class NListSpec : Prop := {
  spec_init h : nlist h nlist_init [];
  spec_node_init h p : is_Some (nxt h p) ->
    exists h', nlist_node_init h p = Some h' /\ is_Some (nxt h' p)
      /\ forall x, x <> p -> same_at h h' x;
  spec_frame h h' l xs : nlist h l xs ->
    (forall x, x ∈ xs -> same_at h h' x) -> nlist h' l xs;
  spec_node h l xs x : nlist h l xs -> x ∈ xs -> x <> NULL /\ is_Some (nxt h x);
  spec_count h l xs : nlist h l xs -> nlist_count l = zlen xs;
  spec_insert_last h l xs n : nlist h l xs -> free_node h xs n -> zlen xs + 1 < 2 ^ 31 ->
    exists h' l', nlist_insert_last h l n = Some (h', l') /\ nlist h' l' (xs ++ [n])
      /\ outside h h' (n :: xs);
  spec_remove_first h l xs : nlist h l xs ->
    match xs with
    | [] => nlist_remove_first h l = Some (NULL, h, l)
    | x :: xs' => exists h' l', nlist_remove_first h l = Some (x, h', l')
        /\ nlist h' l' xs' /\ outside h h' xs /\ is_Some (nxt h' x)
    end;
}.

#[export] Instance nlist_spec : NListSpec.
Proof.
  split.
  - apply nlist_nil.
  - apply node_init_ok.
  - apply nlist_frame.
  - intros h l xs x D. by apply (nlist_node _ l xs).
  - intros h l xs D. apply D.
  - apply insert_last_ok.
  - apply remove_first_ok.
Qed.

(** ** One step of the list is one step of the sequence *)

Inductive nop :=
  | NInsertFirst (n : Z) | NInsertLast (n : Z) | NInsertAfter (p n : Z)
  | NRemove (n : Z) | NRemoveFirst | NRemoveLast.

Definition run_nop (op : nop) (h : heap) (l : nlist_t) : option (Z * heap * nlist_t) :=
  match op with
  | NInsertFirst n => '(h, l) ← nlist_insert_first h l n; Some (NULL, h, l)
  | NInsertLast n => '(h, l) ← nlist_insert_last h l n; Some (NULL, h, l)
  | NInsertAfter p n => '(h, l) ← nlist_insert_after h l p n; Some (NULL, h, l)
  | NRemove n => '(h, l) ← nlist_remove h l n; Some (n, h, l)
  | NRemoveFirst => nlist_remove_first h l
  | NRemoveLast => nlist_remove_last h l
  end.

(** The sequence the operation leaves and the node it returns. *)
Definition seq_nop (op : nop) (xs : list Z) : option (Z * list Z) :=
  match op with
  | NInsertFirst n => Some (NULL, n :: xs)
  | NInsertLast n => Some (NULL, xs ++ [n])
  | NInsertAfter p n =>
      match list_find (eq p) xs with
      | Some (i, _) => Some (NULL, take (S i) xs ++ n :: drop (S i) xs)
      | None => None
      end
  | NRemove n =>
      match list_find (eq n) xs with
      | Some (i, _) => Some (n, delete i xs)
      | None => None
      end
  | NRemoveFirst => Some (default NULL (head xs), tail xs)
  | NRemoveLast => Some (default NULL (list.last xs), removelast xs)
  end.

(** What the caller owes: an inserted node is allocated and in no list, and
    the counter does not overflow. *)
Definition nop_legal (op : nop) (h : heap) (xs : list Z) : Prop :=
  match op with
  | NInsertFirst n | NInsertLast n | NInsertAfter _ n =>
      free_node h xs n /\ zlen xs + 1 < 2 ^ 31
  | _ => True
  end.

Definition nop_nodes (op : nop) : list Z :=
  match op with NInsertFirst n | NInsertLast n | NInsertAfter _ n => [n] | _ => [] end.

Lemma find_eq_split (p : Z) xs i y : list_find (eq p) xs = Some (i, y) ->
  xs = take i xs ++ p :: drop (S i) xs /\ length (take i xs) = i.
Proof.
  intros (Hl & <- & _)%list_find_Some. split.
  - by rewrite take_drop_middle.
  - rewrite length_take. apply lookup_lt_Some in Hl. lia.
Qed.

Lemma run_nop_after h l xs p n r xs' : nlist h l xs -> nop_legal (NInsertAfter p n) h xs ->
  seq_nop (NInsertAfter p n) xs = Some (r, xs') ->
  exists h' l', run_nop (NInsertAfter p n) h l = Some (r, h', l') /\ nlist h' l' xs'
    /\ outside h h' (n :: xs).
Proof.
  intros D [F Hlen]. cbn [seq_nop run_nop]. destruct (list_find _ xs) as [[i y]|] eqn:Ef; [|done].
  intros [= <- <-]. apply find_eq_split in Ef as [Es El].
  set (xs1 := take i xs) in *. set (xs2 := drop (S i) xs) in *.
  assert (take (S i) xs = xs1 ++ [p]) as ->.
  { rewrite Es, cons_middle, app_assoc. apply take_app_length'. rewrite length_app, El. simpl. lia. }
  rewrite Es in D, F, Hlen. rewrite Es.
  destruct (insert_after_ok h l xs1 p xs2 n D F Hlen) as (h' & l' & -> & D' & K).
  mstep. exists h', l'. split_and!; [done| |done]. by rewrite <- app_assoc.
Qed.

Lemma run_nop_remove h l xs n r xs' : nlist h l xs ->
  seq_nop (NRemove n) xs = Some (r, xs') ->
  exists h' l', run_nop (NRemove n) h l = Some (r, h', l') /\ nlist h' l' xs'
    /\ outside h h' xs.
Proof.
  intros D. cbn [seq_nop run_nop]. destruct (list_find _ xs) as [[i y]|] eqn:Ef; [|done].
  intros [= <- <-]. apply find_eq_split in Ef as [Es El].
  rewrite delete_take_drop.
  set (xs1 := take i xs) in *. set (xs2 := drop (S i) xs) in *.
  rewrite Es in D. rewrite Es.
  destruct (remove_ok h l xs1 n xs2 D) as (h' & l' & -> & D' & K & _). mstep. eauto.
Qed.

(** C8: every list operation of the network stack, applied to a well formed
    list, succeeds and acts as the corresponding operation on the sequence of
    nodes: it returns the same node, the pointers, the first/last fields and
    the counter again describe the resulting sequence, and no node outside the
    list and the inserted one is written. *)
Theorem nlist_simulates_sequence op h l xs r xs' :
  nlist h l xs -> nop_legal op h xs -> seq_nop op xs = Some (r, xs') ->
  exists h' l', run_nop op h l = Some (r, h', l') /\ nlist h' l' xs'
    /\ outside h h' (nop_nodes op ++ xs).
Proof.
  intros D L. destruct op as [n|n|p n|n| |].
  - intros [= <- <-]. destruct L as [F Hlen]. simpl.
    destruct (insert_first_ok h l xs n D F Hlen) as (h' & l' & -> & ?). mstep. eauto.
  - intros [= <- <-]. destruct L as [F Hlen]. simpl.
    destruct (insert_last_ok h l xs n D F Hlen) as (h' & l' & -> & ?). mstep. eauto.
  - by apply run_nop_after.
  - by apply run_nop_remove.
  - intros [= <- <-]. pose proof (remove_first_ok h l xs D) as H. simpl.
    destruct xs as [|x xs]; [|naive_solver]. rewrite H. by exists h, l.
  - intros [= <- <-]. pose proof (remove_last_ok h l xs D) as H. simpl.
    destruct (list.last xs) as [x|] eqn:El.
    + destruct H as (xs1 & h' & l' & -> & -> & ? & ? & ?). rewrite removelast_last. simpl. eauto.
    + apply last_None in El as ->. rewrite H. by exists h, l.
Qed.

(** A list of two nodes, 16 and 32, beside a third node. *)
Definition nheap2 : heap :=
  <[16 := Node NULL 32]> (<[32 := Node 16 NULL]> (<[48 := Node NULL NULL]> ∅)).
Definition nlist2 : nlist_t := NList 16 32 2.

Lemma nlist2_ok : nlist nheap2 nlist2 [16; 32].
Proof.
  split; try done.
  - apply (bool_decide_unpack _); vm_compute; exact I.
  - apply (bool_decide_unpack _); vm_compute; exact I.
Qed.

Lemma nlist_simulates_sequence_witness :
  exists h' l', run_nop (NInsertAfter 16 48) nheap2 nlist2 = Some (NULL, h', l')
    /\ nlist h' l' [16; 48; 32] /\ outside nheap2 h' [48; 16; 32].
Proof.
  apply (nlist_simulates_sequence (NInsertAfter 16 48) nheap2 nlist2 [16; 32] NULL [16; 48; 32]
    nlist2_ok); [|reflexivity].
  split; [|reflexivity]. split_and!; [apply (bool_decide_unpack _); vm_compute; exact I|done|]. exists NULL. reflexivity.
Defined.
