(* ===== verification/MBlock.v ===== *)
(** * Fixed-size block pools: kernel/net/mblock.c

    A pool threads its free blocks on an [nlist].  The proofs use only the
    list's interface [NListSpec].  The specification is a pool of block
    addresses split into free blocks (in the order they will be handed out)
    and blocks in use. *)

From S2P Require Import Links NList Prelude.

Record mblock_t := MBlock { start : Z; free_list : nlist_t }.

(** [mblock_init]: blocks of [blk_size] bytes from [mem] on; a block that is
    free starts with its list node.  The field [start] is left as it was. *)
Definition mblock_init_step (blk_size mem i : Z) (s : heap * nlist_t)
    : option (heap * nlist_t) :=
  let '(h, l) := s in
  let block := mem + i * blk_size in
  h ← nlist_node_init h block;
  nlist_insert_last h l block.

Definition mblock_init (h : heap) (mblock : mblock_t) (mem blk_size cnt : Z)
    : option (heap * mblock_t) :=
  '(h, l) ← for_ (Z.to_nat cnt) 0 (mblock_init_step blk_size mem) (h, nlist_init);
  Some (h, MBlock (start mblock) l).

Definition mblock_alloc (h : heap) (mblock : mblock_t) (ms : Z)
    : option (Z * heap * mblock_t) :=
  if (ms <? 0) && (nlist_count (free_list mblock) =? 0) then Some (NULL, h, mblock)
  else
    '(block, h, l) ← nlist_remove_first h (free_list mblock);
    Some (block, h, MBlock (start mblock) l).

Definition mblock_free_cnt (mblock : mblock_t) : Z := nlist_count (free_list mblock).

Definition mblock_free (h : heap) (mblock : mblock_t) (block : Z)
    : option (heap * mblock_t) :=
  '(h, l) ← nlist_insert_last h (free_list mblock) block;
  Some (h, MBlock (start mblock) l).

(** ** The pool *)

Definition block_addrs (mem blk_size : Z) (cnt : nat) : list Z :=
  (fun i => mem + i * blk_size) <$> seqZ 0 (Z.of_nat cnt).

(** [pool h mb free used all]: the blocks [all] are split into [free] and
    [used], each once. *)
Record pool (h : heap) (mb : mblock_t) (free used all : list Z) : Prop := {
  pool_list : nlist h (free_list mb) free;
  pool_split : free ++ used ≡ₚ all;
  pool_nodup : NoDup all;
  pool_nonnull : NULL ∉ all;
  pool_int : zlen all < 2 ^ 31;
  pool_alloc : forall x, x ∈ all -> is_Some (nxt h x);
}.

Section Client.
Context {NL : NListSpec}.

Lemma block_addrs_snoc mem blk_size n :
  block_addrs mem blk_size (S n) = block_addrs mem blk_size n ++ [mem + Z.of_nat n * blk_size].
Proof.
  unfold block_addrs. rewrite Nat2Z.inj_succ, <- Z.add_1_r, seqZ_app, fmap_app by lia. done.
Qed.

Lemma elem_of_block_addrs mem blk_size n x :
  x ∈ block_addrs mem blk_size n <-> exists i, x = mem + i * blk_size /\ 0 <= i < Z.of_nat n.
Proof. unfold block_addrs. rewrite list_elem_of_fmap. setoid_rewrite elem_of_seqZ. naive_solver lia. Qed.

Lemma same_alloc h h' x : same_at h h' x -> is_Some (nxt h x) -> is_Some (nxt h' x).
Proof. intros [-> _]. done. Qed.

Lemma init_step_ok h l mem blk_size i n : 0 < mem -> 0 < blk_size -> 0 <= i -> n < 2 ^ 31 ->
  i < n ->
  nlist h l (block_addrs mem blk_size (Z.to_nat i)) ->
  is_Some (nxt h (mem + i * blk_size)) ->
  exists h' l', mblock_init_step blk_size mem i (h, l) = Some (h', l') /\
    nlist h' l' (block_addrs mem blk_size (Z.to_nat (i + 1))) /\
    forall x, x <> NULL -> is_Some (nxt h x) -> is_Some (nxt h' x).
Proof.
  intros Hm Hb Hi Hn Hin D Ha. unfold mblock_init_step. set (b := mem + i * blk_size) in *.
  destruct (spec_node_init h b Ha) as (h1 & -> & Hb1 & K1). mstep.
  assert (b ∉ block_addrs mem blk_size (Z.to_nat i)) as Hnin.
  { rewrite elem_of_block_addrs. unfold b. intros (j & E & Hj). nia. }
  assert (nlist h1 l (block_addrs mem blk_size (Z.to_nat i))) as D1.
  { apply (spec_frame h); [done|]. intros x Hx. apply K1. by intros ->. }
  assert (zlen (block_addrs mem blk_size (Z.to_nat i)) = i) as Hlen.
  { unfold zlen, block_addrs. rewrite length_fmap, length_seqZ. lia. }
  destruct (spec_insert_last h1 l (block_addrs mem blk_size (Z.to_nat i)) b)
    as (h2 & l2 & -> & D2 & K2); [done|by split_and!; [|unfold b, NULL; nia|]|lia|].
  exists h2, l2. split_and!; [done| |].
  - replace (Z.to_nat (i + 1)) with (S (Z.to_nat i)) by lia.
    rewrite block_addrs_snoc, Z2Nat.id by lia. done.
  - intros x Hx0 Hx. assert (is_Some (nxt h1 x)) as Hx1.
    { destruct (decide (x = b)) as [->|]; [done|]. by apply (same_alloc h h1); [apply K1|]. }
    destruct (decide (x ∈ b :: block_addrs mem blk_size (Z.to_nat i))) as [Hin'|];
      [|by apply (same_alloc h1 h2); [apply K2|]].
    apply (spec_node h2 l2 _ x D2). set_solver.
Qed.

Lemma block_addrs_nodup mem blk_size n : 0 < blk_size -> NoDup (block_addrs mem blk_size n).
Proof.
  intros Hb. apply NoDup_fmap_2; [|apply NoDup_seqZ].
  intros i j E. by apply (Z.mul_reg_r _ _ blk_size); lia.
Qed.

Lemma block_addrs_nonnull mem blk_size n : 0 < mem -> 0 < blk_size ->
  NULL ∉ block_addrs mem blk_size n.
Proof. rewrite elem_of_block_addrs. intros Hm Hb (i & E & Hi). unfold NULL in E. nia. Qed.

Lemma mblock_init_ok h mb mem blk_size cnt : 0 < mem -> 0 < blk_size -> 0 <= cnt < 2 ^ 31 ->
  (forall i, 0 <= i < cnt -> is_Some (nxt h (mem + i * blk_size))) ->
  exists h' mb', mblock_init h mb mem blk_size cnt = Some (h', mb') /\
    pool h' mb' (block_addrs mem blk_size (Z.to_nat cnt)) []
      (block_addrs mem blk_size (Z.to_nat cnt)).
Proof.
  intros Hm Hb Hc Ha. unfold mblock_init.
  destruct (for_inv (fun i s => nlist s.1 s.2 (block_addrs mem blk_size (Z.to_nat i)) /\
      forall j, 0 <= j < cnt -> is_Some (nxt s.1 (mem + j * blk_size)))
    (mblock_init_step blk_size mem) (Z.to_nat cnt) 0 (h, nlist_init))
    as ([h' l'] & E & D & Ha').
  - split; [apply spec_init|done].
  - intros i [h1 l1] Hi [D1 Ha1]. simpl in *.
    destruct (init_step_ok h1 l1 mem blk_size i cnt) as (h2 & l2 & E2 & D2 & K2);
      try lia; [done|apply Ha1; lia|].
    exists (h2, l2). split_and!; [done|done|]. intros j Hj. apply K2; [unfold NULL; nia|auto].
  - change (0 + Z.of_nat (Z.to_nat cnt)) with (Z.of_nat (Z.to_nat cnt)) in D.
    rewrite Z2Nat.id in D by lia. simpl in D, Ha'. rewrite E. mstep.
    do 2 eexists. split; [done|]. split; [done|by rewrite app_nil_r|by apply block_addrs_nodup
      |by apply block_addrs_nonnull| |].
    + unfold zlen, block_addrs. rewrite length_fmap, length_seqZ. lia.
    + intros x (i & -> & Hi)%elem_of_block_addrs. apply Ha'. lia.
Qed.

(** Blocks a list operation may have written are still nodes of the heap. *)
Lemma pool_alloc_keep h h' (xs ys all : list Z) : NULL ∉ all ->
  (forall x, x ∈ all -> is_Some (nxt h x)) -> outside h h' xs ->
  (forall x, x ∈ xs -> x ∈ ys \/ is_Some (nxt h' x)) ->
  (forall x, x ∈ ys -> is_Some (nxt h' x)) ->
  forall x, x ∈ all -> is_Some (nxt h' x).
Proof.
  intros H0 Ha K Hxs Hys x Hx. destruct (decide (x ∈ xs)) as [Hin|Hin].
  - destruct (Hxs x Hin); auto.
  - apply (same_alloc h); [|auto]. apply K; [by intros ->|done].
Qed.

Lemma mblock_alloc_ok h mb ms free used all : pool h mb free used all ->
  exists h' mb', mblock_alloc h mb ms = Some (default NULL (head free), h', mb') /\
    pool h' mb' (tail free) (match free with [] => used | x :: _ => x :: used end) all.
Proof.
  intros P. pose proof (pool_list _ _ _ _ _ P) as D. unfold mblock_alloc.
  rewrite (spec_count _ _ _ D). pose proof (spec_remove_first _ _ _ D) as R.
  destruct free as [|x free]; simpl in *.
  - rewrite R, andb_true_r. mstep. destruct (ms <? 0); [by exists h, mb|].
    exists h. eexists. split; [done|]. by destruct mb.
  - rewrite andb_false_r.
    destruct R as (h' & l' & -> & D' & K & Hx). mstep. do 2 eexists. split; [done|].
    split; try apply P; [done| |].
    + rewrite <- (pool_split _ _ _ _ _ P). simpl. by rewrite Permutation_middle.
    + apply (pool_alloc_keep h h' (x :: free) free); [apply P|apply P|done| |].
      * intros y [->|]%elem_of_cons; auto.
      * intros y Hy. by apply (spec_node _ _ _ y D').
Qed.

Lemma mblock_free_ok h mb b free u1 u2 all : pool h mb free (u1 ++ b :: u2) all ->
  exists h' mb', mblock_free h mb b = Some (h', mb') /\
    pool h' mb' (free ++ [b]) (u1 ++ u2) all.
Proof.
  intros P. pose proof (pool_list _ _ _ _ _ P) as D. unfold mblock_free.
  assert (b :: free ++ u1 ++ u2 ≡ₚ all) as Hp.
  { rewrite <- (pool_split _ _ _ _ _ P). by rewrite !app_assoc, Permutation_middle. }
  assert (b ∈ all) as Hb by (rewrite <- Hp; set_solver).
  assert (b ∉ free) as Hnf.
  { pose proof (pool_nodup _ _ _ _ _ P) as Hd. rewrite <- Hp in Hd.
    apply NoDup_cons in Hd. set_solver. }
  destruct (spec_insert_last h (free_list mb) free b) as (h' & l' & -> & D' & K).
  - done.
  - split_and!; [done| |by apply P]. intros ->. by apply (pool_nonnull _ _ _ _ _ P).
  - pose proof (pool_int _ _ _ _ _ P) as Hi. unfold zlen in *. rewrite <- Hp in Hi.
    simpl in Hi. rewrite length_app in Hi. lia.
  - mstep. do 2 eexists. split; [done|]. split; try apply P; [done| |].
    + rewrite <- Hp, <- app_assoc. symmetry. apply Permutation_middle.
    + apply (pool_alloc_keep h h' (b :: free) (free ++ [b])); [apply P|apply P|done|set_solver|].
      intros y Hy. by apply (spec_node _ _ _ y D').
Qed.

(** ** Runs *)

Inductive mop := MAlloc (ms : Z) | MFree (block : Z).

Definition run_mop (op : mop) (h : heap) (mb : mblock_t) : option (Z * heap * mblock_t) :=
  match op with
  | MAlloc ms => mblock_alloc h mb ms
  | MFree b => '(h, mb) ← mblock_free h mb b; Some (NULL, h, mb)
  end.

Fixpoint run_mops (ops : list mop) (h : heap) (mb : mblock_t)
    : option (list Z * heap * mblock_t) :=
  match ops with
  | [] => Some ([], h, mb)
  | op :: ops' =>
      '(r, h, mb) ← run_mop op h mb;
      '(rs, h, mb) ← run_mops ops' h mb;
      Some (r :: rs, h, mb)
  end.

(** The specification: free blocks are handed out in the order they were
    freed; only a block in use may be freed. *)
Definition spec_mop (op : mop) (s : list Z * list Z) : option (Z * (list Z * list Z)) :=
  let '(free, used) := s in
  match op with
  | MAlloc _ =>
      match free with
      | [] => Some (NULL, ([], used))
      | x :: free' => Some (x, (free', x :: used))
      end
  | MFree b =>
      '(i, _) ← list_find (eq b) used;
      Some (NULL, (free ++ [b], delete i used))
  end.

Fixpoint spec_mops (ops : list mop) (s : list Z * list Z) : option (list Z * (list Z * list Z)) :=
  match ops with
  | [] => Some ([], s)
  | op :: ops' =>
      '(r, s) ← spec_mop op s;
      '(rs, s) ← spec_mops ops' s;
      Some (r :: rs, s)
  end.

Lemma run_mop_ok op h mb free used all r free' used' : pool h mb free used all ->
  spec_mop op (free, used) = Some (r, (free', used')) ->
  exists h' mb', run_mop op h mb = Some (r, h', mb') /\ pool h' mb' free' used' all.
Proof.
  intros P. destruct op as [ms|b]; simpl.
  - destruct (mblock_alloc_ok h mb ms free used all P) as (h' & mb' & -> & P').
    destruct free; intros [= <- <- <-]; eauto.
  - intros ([i y] & (E1 & E2)%find_eq_split & [= <- <- <-])%bind_Some.
    rewrite E1 in P. destruct (mblock_free_ok _ _ _ _ _ _ _ P) as (h' & mb' & -> & P').
    mstep. rewrite delete_take_drop. eauto.
Qed.

Lemma run_mops_ok ops h mb free used all rs free' used' : pool h mb free used all ->
  spec_mops ops (free, used) = Some (rs, (free', used')) ->
  exists h' mb', run_mops ops h mb = Some (rs, h', mb') /\ pool h' mb' free' used' all.
Proof.
  revert h mb free used rs. induction ops as [|op ops IH]; intros h mb free used rs P; simpl.
  - intros [= <- <- <-]. eauto.
  - intros ([r [f1 u1]] & E1 & ([rs' s] & E2 & [= <- ->])%bind_Some)%bind_Some.
    destruct (run_mop_ok _ _ _ _ _ _ _ _ _ P E1) as (h1 & mb1 & -> & P1). mstep.
    destruct (IH _ _ _ _ _ P1 E2) as (h2 & mb2 & -> & P2). mstep. eauto.
Qed.

(** A block pool made by [mblock_init] over [cnt] blocks of [blk_size]
    bytes behaves, under any sequence of allocations and frees of blocks in
    use, as a first-in-first-out pool: each call returns what the
    specification returns (NULL exactly when no block is free), and at the end
    the free and the used blocks are together exactly the blocks of the
    region, none twice, with [mblock_free_cnt] the number of free ones. *)
Theorem mblock_refines_pool h mb mem blk_size cnt ops rs free used :
  0 < mem -> 0 < blk_size -> 0 <= cnt < 2 ^ 31 ->
  (forall i, 0 <= i < cnt -> is_Some (nxt h (mem + i * blk_size))) ->
  spec_mops ops (block_addrs mem blk_size (Z.to_nat cnt), []) = Some (rs, (free, used)) ->
  exists h1 mb1 h2 mb2,
    mblock_init h mb mem blk_size cnt = Some (h1, mb1) /\
    run_mops ops h1 mb1 = Some (rs, h2, mb2) /\
    nlist h2 (free_list mb2) free /\
    mblock_free_cnt mb2 = zlen free /\
    NoDup (free ++ used) /\
    free ++ used ≡ₚ block_addrs mem blk_size (Z.to_nat cnt).
Proof.
  intros Hm Hb Hc Ha Hs.
  destruct (mblock_init_ok h mb mem blk_size cnt Hm Hb Hc Ha) as (h1 & mb1 & E1 & P1).
  destruct (run_mops_ok _ _ _ _ _ _ _ _ _ P1 Hs) as (h2 & mb2 & E2 & P2).
  exists h1, mb1, h2, mb2. split_and!; [done|done|apply P2| | |apply P2].
  - apply spec_count with h2, P2.
  - rewrite (pool_split _ _ _ _ _ P2). apply P2.
Qed.

End Client.

(** Two blocks of 16 bytes from address 4096. *)
Definition pool_heap : heap :=
  <[4096 := Node NULL NULL]> (<[4112 := Node NULL NULL]> ∅).

Lemma mblock_refines_pool_witness :
  exists h1 mb1 h2 mb2,
    mblock_init pool_heap (MBlock 0 nlist_init) 4096 16 2 = Some (h1, mb1) /\
    run_mops [MAlloc 0; MAlloc (-1); MAlloc (-1); MFree 4096] h1 mb1
      = Some ([4096; 4112; NULL; NULL], h2, mb2) /\
    nlist h2 (free_list mb2) [4096] /\
    mblock_free_cnt mb2 = zlen [4096] /\
    NoDup ([4096] ++ [4112]) /\
    [4096] ++ [4112] ≡ₚ block_addrs 4096 16 (Z.to_nat 2).
Proof.
  apply (mblock_refines_pool pool_heap (MBlock 0 nlist_init) 4096 16 2
    [MAlloc 0; MAlloc (-1); MAlloc (-1); MFree 4096] [4096; 4112; NULL; NULL] [4096] [4112]);
    try lia; [|reflexivity].
  intros i Hi. assert (i = 0 \/ i = 1) as [-> | ->] by lia; exists NULL; reflexivity.
Defined.
