(* ===== verification/Sched.v ===== *)
(** * Threads and the scheduler: kernel/thread/thread.c

    Tasks live in page-aligned pages and carry three list nodes
    ([general_tag], [waiter_tag], [all_tag]); the scheduler keeps the lists
    [ready_tasks] and [sleep_tasks] through [general_tag].  The operations are
    the code's, on the node heap of [Links]; [sched_rep] relates the heap to
    the sequences of ready and of sleeping tasks, and [schedule_refines] shows
    that [schedule] acts as [spec_schedule], the scheduling policy on
    sequences. *)

From S2P Require Import Links DList Prelude.

Inductive task_status :=
  | TASK_UNKNOWN | TASK_RUNNING | TASK_READY | TASK_BLOCKED | TASK_SLEEP
  | TASK_WAITING | TASK_HANGING | TASK_DIED.

#[export] Instance task_status_eq_dec : EqDecision task_status.
Proof. solve_decision. Defined.

(** The fields of [task_struct] the scheduler and the task tables use. *)
Record task_struct := Task {
  pid : Z; parent_pid : Z; status : task_status;
  priority : Z; ticks : Z; elapset_ticks : Z; sleep_ticks : Z;
  page_dir : Z; file_table : list Z;
}.

Definition set_status (t : task_struct) (st : task_status) : task_struct :=
  Task (pid t) (parent_pid t) st (priority t) (ticks t) (elapset_ticks t)
    (sleep_ticks t) (page_dir t) (file_table t).
Definition set_ticks (t : task_struct) (n : Z) : task_struct :=
  Task (pid t) (parent_pid t) (status t) (priority t) n (elapset_ticks t)
    (sleep_ticks t) (page_dir t) (file_table t).
Definition set_elapset (t : task_struct) (n : Z) : task_struct :=
  Task (pid t) (parent_pid t) (status t) (priority t) (ticks t) n
    (sleep_ticks t) (page_dir t) (file_table t).
Definition set_sleep (t : task_struct) (n : Z) : task_struct :=
  Task (pid t) (parent_pid t) (status t) (priority t) (ticks t) (elapset_ticks t)
    n (page_dir t) (file_table t).
Definition set_files (t : task_struct) (fs : list Z) : task_struct :=
  Task (pid t) (parent_pid t) (status t) (priority t) (ticks t) (elapset_ticks t)
    (sleep_ticks t) (page_dir t) fs.

(** Offsets of the list nodes in [task_struct]; [tag2entry]. *)
Definition general_tag (t : Z) : Z := t + 36.
Definition waiter_tag (t : Z) : Z := t + 44.
Definition all_tag (t : Z) : Z := t + 52.
Definition general_entry (node : Z) : Z := u32 (node - 36).
Definition waiter_entry (node : Z) : Z := u32 (node - 44).
Definition all_entry (node : Z) : Z := u32 (node - 52).

(** The scheduler's state: the node heap, the three global lists, the task
    structures by address, and the task whose stack is in use
    ([cur_thread()]). *)
Record kstate := KState {
  mem : heap; ready_tasks : list_t; sleep_tasks : list_t; all_tasks : list_t;
  tasks : gmap Z task_struct; cur : Z;
}.

Definition with_tasks (s : kstate) (ts : gmap Z task_struct) : kstate :=
  KState (mem s) (ready_tasks s) (sleep_tasks s) (all_tasks s) ts (cur s).
Definition with_ready (s : kstate) (h : heap) (l : list_t) : kstate :=
  KState h l (sleep_tasks s) (all_tasks s) (tasks s) (cur s).
Definition with_sleep (s : kstate) (h : heap) (l : list_t) : kstate :=
  KState h (ready_tasks s) l (all_tasks s) (tasks s) (cur s).
Definition with_all (s : kstate) (h : heap) (l : list_t) : kstate :=
  KState h (ready_tasks s) (sleep_tasks s) l (tasks s) (cur s).
Definition with_cur (s : kstate) (t : Z) : kstate :=
  KState (mem s) (ready_tasks s) (sleep_tasks s) (all_tasks s) (tasks s) t.

(** [task->f = ...] for a task at address [t]. *)
Definition upd_task (ts : gmap Z task_struct) (t : Z) (f : task_struct -> task_struct)
    : option (gmap Z task_struct) :=
  x ← ts !! t; Some (<[t := f x]> ts).

(** ** [schedule] *)

(** The first loop: every sleeping task loses a tick; the nodes whose ticks
    are used up are collected in [wake_up_list[10]]. *)
Fixpoint scan_sleep (fuel : nat) (h : heap) (tail_ : Z) (ts : gmap Z task_struct)
    (node : Z) (wake : list Z) : option (gmap Z task_struct * list Z) :=
  match fuel with
  | O => None
  | S fuel' =>
      if (node =? NULL) || (node =? tail_) then Some (ts, wake)
      else
        task ← ts !! general_entry node;
        let left := u32 (sleep_ticks task - 1) in
        let ts := <[general_entry node := set_sleep task left]> ts in
        wake ← (if left <=? 0 then
                  if zlen wake <? 10 then Some (wake ++ [node]) else None
                else Some wake);
        n ← nxt h node;
        scan_sleep fuel' h tail_ ts n wake
  end.

(** The second loop: the collected nodes move to the front of the ready list. *)
Fixpoint wake_all (s : kstate) (wake : list Z) : option kstate :=
  match wake with
  | [] => Some s
  | node :: wake' =>
      '(h, l) ← DList.remove (mem s) (sleep_tasks s) node;
      let s := with_sleep s h l in
      '(h, l) ← pushl (mem s) (ready_tasks s) node;
      let s := with_ready s h l in
      ts ← upd_task (tasks s) (general_entry node) (fun t => set_status t TASK_READY);
      wake_all (with_tasks s ts) wake'
  end.

(** From [task_struct *cur = cur_thread()] on.  [switch_to] makes [next] the
    current task. *)
Definition dispatch (s : kstate) : option kstate :=
  c ← tasks s !! cur s;
  if bool_decide (status c = TASK_RUNNING) && (0 <? ticks c) then
    Some (with_tasks s (<[cur s := set_ticks (set_elapset c (u32 (elapset_ticks c + 1)))
                                     (u32 (ticks c - 1))]> (tasks s)))
  else
    '(next_tag, h, l) ← popl (mem s) (ready_tasks s);
    let s := with_ready s h l in
    if next_tag =? NULL then Some s
    else
      let next := general_entry next_tag in
      if next =? NULL then Some s
      else
        ts ← upd_task (tasks s) next (fun t => set_ticks t (priority t));
        let s := with_tasks s ts in
        if cur s =? next then Some s
        else
          c ← tasks s !! cur s;
          let c := if bool_decide (status c = TASK_RUNNING) then set_status c TASK_READY else c in
          let s := with_tasks s (<[cur s := c]> (tasks s)) in
          s ← (if bool_decide (status c = TASK_READY) then
                 '(h, l) ← pushr (mem s) (ready_tasks s) (general_tag (cur s));
                 Some (with_ready s h l)
               else Some s);
          ts ← upd_task (tasks s) next (fun t => set_status t TASK_RUNNING);
          Some (with_cur (with_tasks s ts) next).

Definition schedule (s : kstate) : option kstate :=
  node ← nxt (mem s) (DList.head (sleep_tasks s));
  '(ts, wake) ← scan_sleep (S (base.size (mem s))) (mem s) (DList.tail (sleep_tasks s))
                  (tasks s) node [];
  s ← wake_all (with_tasks s ts) wake;
  dispatch s.

(** ** Status changes *)

Definition _set_thread_status (s : kstate) (task : Z) (st : task_status)
    (need_schedule first : bool) : option kstate :=
  t ← tasks s !! task;
  s ← (if negb (bool_decide (status t = TASK_READY)) && negb (bool_decide (status t = TASK_RUNNING))
          && bool_decide (st = TASK_READY) then
         '(h, l) ← (if first then pushl (mem s) (ready_tasks s) (general_tag task)
                    else pushr (mem s) (ready_tasks s) (general_tag task));
         Some (with_ready s h l)
       else Some s);
  s ← (if negb (bool_decide (st = TASK_READY)) then
         '(h, l) ← DList.remove (mem s) (ready_tasks s) (general_tag task);
         Some (with_ready s h l)
       else Some s);
  s ← (if bool_decide (st = TASK_SLEEP) then
         '(h, l) ← pushr (mem s) (sleep_tasks s) (general_tag task);
         Some (with_sleep s h l)
       else Some s);
  ts ← upd_task (tasks s) task (fun t => set_status t st);
  let s := with_tasks s ts in
  if need_schedule then schedule s else Some s.

Definition set_thread_status (s : kstate) (task : Z) (st : task_status)
    (need_schedule : bool) : option kstate :=
  _set_thread_status s task st need_schedule false.

Definition set_cur_thread_status (s : kstate) (st : task_status) (need_schedule : bool)
    : option kstate :=
  if cur s =? NULL then Some s else set_thread_status s (cur s) st need_schedule.

Definition thread_yield (s : kstate) : option kstate :=
  set_cur_thread_status s TASK_READY true.

Definition HZ : Z := 100.

Definition thread_sleep (s : kstate) (ms_n : Z) : option kstate :=
  ts ← upd_task (tasks s) (cur s) (fun t => set_sleep t (u32 (HZ * ms_n) / 1000));
  set_cur_thread_status (with_tasks s ts) TASK_SLEEP true.

Definition thread_block (s : kstate) (task : Z) (st : task_status) : option kstate :=
  set_thread_status s task st true.

Definition thread_ready (s : kstate) (task : Z) (need_schedule now : bool) : option kstate :=
  _set_thread_status s task TASK_READY need_schedule now.

(** ** The lists of the scheduler *)

Definition sentinels (rl sl : list_t) : list Z :=
  [DList.head rl; DList.tail rl; DList.head sl; DList.tail sl].

(** [lists_rep h rl sl D rq sq]: of the tasks [D], those in [rq] are on the
    ready list and those in [sq] on the sleep list, in this order; the node of
    any other task is unlinked. *)
Record lists_rep (h : heap) (rl sl : list_t) (D : gset Z) (rq sq : list Z) : Prop := {
  lr_ready : dlist h rl (general_tag <$> rq);
  lr_sleep : dlist h sl (general_tag <$> sq);
  lr_nodup : NoDup (rq ++ sq);
  lr_known : forall t, t ∈ rq ++ sq -> t ∈ D;
  lr_apart : NoDup (sentinels rl sl);
  lr_tags : forall t, t ∈ D -> general_tag t ∉ sentinels rl sl;
  lr_addr : forall t, t ∈ D -> 0 < t < 2 ^ 32 - 64;
  lr_idle : forall t, t ∈ D -> t ∉ rq ++ sq ->
    prv h (general_tag t) = Some NULL;
  lr_count : Z.of_nat (base.size D) < 2 ^ 31 - 1;
}.

(** Nodes that are neither sentinels nor the [general_tag] of a task keep
    their links; the sentinels stay where they are. *)
Definition sched_frame (D : gset Z) (rl sl : list_t) (h h' : heap) (rl' sl' : list_t) : Prop :=
  DList.head rl' = DList.head rl /\ DList.tail rl' = DList.tail rl /\
  DList.head sl' = DList.head sl /\ DList.tail sl' = DList.tail sl /\
  forall x, x ∉ sentinels rl sl -> (forall t, t ∈ D -> x <> general_tag t) -> same_at h h' x.

Lemma general_tag_inj a b : general_tag a = general_tag b -> a = b.
Proof. unfold general_tag. lia. Qed.

Lemma elem_of_tags t (ts : list Z) : general_tag t ∈ general_tag <$> ts <-> t ∈ ts.
Proof.
  rewrite list_elem_of_fmap. split; [|eauto].
  intros (u & ->%general_tag_inj & ?). done.
Qed.

Lemma general_entry_tag t : 0 < t < 2 ^ 32 - 64 -> general_entry (general_tag t) = t.
Proof.
  intros Ht. unfold general_entry, general_tag.
  replace (t + 36 - 36) with t by lia. apply u32_small. lia.
Qed.

Lemma sched_frame_refl D rl sl h : sched_frame D rl sl h h rl sl.
Proof. by split_and!. Qed.

Lemma sched_frame_trans D rl sl h rl1 sl1 h1 rl2 sl2 h2 :
  sched_frame D rl sl h h1 rl1 sl1 -> sched_frame D rl1 sl1 h1 h2 rl2 sl2 ->
  sched_frame D rl sl h h2 rl2 sl2.
Proof.
  intros (A1 & A2 & A3 & A4 & A) (B1 & B2 & B3 & B4 & B).
  split_and!; try congruence. intros x Hx Ht.
  destruct (A x Hx Ht) as [E1 E2]. unfold sentinels in *.
  destruct (B x) as [E3 E4]; [by rewrite A1, A2, A3, A4|done|]. split; congruence.
Qed.

Section Lists.
Context (h : heap) (rl sl : list_t) (D : gset Z) (rq sq : list Z).
Context (L : lists_rep h rl sl D rq sq).

Lemma lr_len : zlen rq + zlen sq < 2 ^ 31 - 1.
Proof.
  pose proof (lr_count _ _ _ _ _ _ L). rewrite <- zlen_app. unfold zlen.
  rewrite <- (size_list_to_set (C := gset Z)) by apply L.
  enough (base.size (list_to_set (rq ++ sq) : gset Z) <= base.size D)%nat by lia.
  apply subseteq_size. intros t Ht%elem_of_list_to_set. by apply L.
Qed.

Lemma zlen_tags (ts : list Z) : zlen (general_tag <$> ts) = zlen ts.
Proof. unfold zlen. by rewrite length_fmap. Qed.

(** The two footprints do not meet. *)
Lemma lr_disjoint x :
  x ∈ footprint rl (general_tag <$> rq) -> x ∈ footprint sl (general_tag <$> sq) -> False.
Proof.
  unfold footprint. pose proof (lr_apart _ _ _ _ _ _ L) as Ha. unfold sentinels in Ha.
  pose proof (lr_tags _ _ _ _ _ _ L) as Ht. unfold sentinels in Ht.
  pose proof (lr_nodup _ _ _ _ _ _ L) as Hd. pose proof (lr_known _ _ _ _ _ _ L) as Hk.
  apply NoDup_app in Hd as (_ & Hd & _).
  rewrite !NoDup_cons in Ha. destruct Ha as (N1 & N2 & N3 & _ & _).
  setoid_rewrite elem_of_app in Hk.
  rewrite !elem_of_cons, !elem_of_app, !list_elem_of_singleton, !list_elem_of_fmap.
  intros [->|[(t & -> & Ht1)| ->]] [E|[(u & E & Hu)|E]];
    try (rewrite E in *; set_solver);
    try (apply general_tag_inj in E as ->; by destruct (Hd u));
    try (eapply (Ht t); [by auto|rewrite E; set_solver]);
    try (eapply (Ht u); [by auto|rewrite <- E; set_solver]).
Qed.

Lemma lr_fresh t : t ∈ D -> t ∉ rq ++ sq ->
  fresh_node h rl (general_tag <$> rq) (general_tag t) /\
  fresh_node h sl (general_tag <$> sq) (general_tag t).
Proof.
  intros Ht Hn. rewrite elem_of_app in Hn.
  pose proof (lr_tags _ _ _ _ _ _ L t Ht) as Hs. unfold sentinels in Hs.
  assert (general_tag t <> NULL).
  { pose proof (lr_addr _ _ _ _ _ _ L t Ht). unfold general_tag, NULL. lia. }
  assert (is_Some (nxt h (general_tag t))).
  { apply nxt_prv_Some. rewrite (lr_idle _ _ _ _ _ _ L); [eauto|done|]. by rewrite elem_of_app. }
  unfold fresh_node, footprint.
  rewrite !elem_of_cons, !elem_of_app, !list_elem_of_singleton, !elem_of_tags. set_solver.
Qed.

(** Stores outside the sleep (ready) list leave it alone. *)
Lemma lr_keep_sleep h' rl' x : fresh_node h sl (general_tag <$> sq) x ->
  keeps h h' rl rl' (x :: footprint rl (general_tag <$> rq)) ->
  dlist h' sl (general_tag <$> sq).
Proof.
  intros (F & _) (_ & _ & K). apply (dlist_frame h); [apply L|].
  intros y Hy. apply K. rewrite elem_of_cons. intros [->|Hy']; [done|].
  by apply (lr_disjoint y).
Qed.

Lemma lr_keep_ready h' sl' x : fresh_node h rl (general_tag <$> rq) x ->
  keeps h h' sl sl' (x :: footprint sl (general_tag <$> sq)) ->
  dlist h' rl (general_tag <$> rq).
Proof.
  intros (F & _) (_ & _ & K). apply (dlist_frame h); [apply L|].
  intros y Hy. apply K. rewrite elem_of_cons. intros [->|Hy']; [done|].
  by apply (lr_disjoint y).
Qed.

(** An unlinked task's node is outside both lists. *)
Lemma lr_idle_out t : t ∈ D -> t ∉ rq ++ sq ->
  general_tag t ∉ footprint rl (general_tag <$> rq) /\
  general_tag t ∉ footprint sl (general_tag <$> sq).
Proof. intros Ht Hn. by destruct (lr_fresh t Ht Hn) as [[? _] [? _]]. Qed.

Lemma lr_owned_ready x : x ∈ footprint rl (general_tag <$> rq) ->
  x ∈ sentinels rl sl \/ exists t, t ∈ D /\ x = general_tag t.
Proof.
  unfold footprint, sentinels.
  rewrite elem_of_cons, elem_of_app, list_elem_of_singleton, list_elem_of_fmap.
  intros [->|[(t & -> & Ht)| ->]]; [left; set_solver| |left; set_solver].
  right. exists t. split; [|done]. apply L. set_solver.
Qed.

Lemma lr_owned_sleep x : x ∈ footprint sl (general_tag <$> sq) ->
  x ∈ sentinels rl sl \/ exists t, t ∈ D /\ x = general_tag t.
Proof.
  unfold footprint, sentinels.
  rewrite elem_of_cons, elem_of_app, list_elem_of_singleton, list_elem_of_fmap.
  intros [->|[(t & -> & Ht)| ->]]; [left; set_solver| |left; set_solver].
  right. exists t. split; [|done]. apply L. set_solver.
Qed.

Lemma frame_of_ready h' rl' xs : keeps h h' rl rl' xs ->
  (forall x, x ∈ xs -> x ∈ footprint rl (general_tag <$> rq) \/ exists t, t ∈ D /\ x = general_tag t) ->
  sched_frame D rl sl h h' rl' sl.
Proof.
  intros (K1 & K2 & K) Hxs. split_and!; [done..|]. intros x Hx Ht. apply K. intros Hin.
  destruct (Hxs x Hin) as [Hf|(t & H1 & ->)]; [|by apply (Ht t)].
  destruct (lr_owned_ready x Hf) as [?|(t & H1 & ->)]; [done|by apply (Ht t)].
Qed.

Lemma frame_of_sleep h' sl' xs : keeps h h' sl sl' xs ->
  (forall x, x ∈ xs -> x ∈ footprint sl (general_tag <$> sq) \/ exists t, t ∈ D /\ x = general_tag t) ->
  sched_frame D rl sl h h' rl sl'.
Proof.
  intros (K1 & K2 & K) Hxs. split_and!; [done..|]. intros x Hx Ht. apply K. intros Hin.
  destruct (Hxs x Hin) as [Hf|(t & H1 & ->)]; [|by apply (Ht t)].
  destruct (lr_owned_sleep x Hf) as [?|(t & H1 & ->)]; [done|by apply (Ht t)].
Qed.

(** The list part of the invariant after [t] was linked into or unlinked from
    the ready list. *)
Lemma lr_relink h' rl' sl' rq' sq' : sched_frame D rl sl h h' rl' sl' ->
  dlist h' rl' (general_tag <$> rq') -> dlist h' sl' (general_tag <$> sq') ->
  NoDup (rq' ++ sq') -> (forall t, t ∈ rq' ++ sq' -> t ∈ D) ->
  (forall t, t ∈ D -> t ∉ rq' ++ sq' -> prv h' (general_tag t) = Some NULL) ->
  lists_rep h' rl' sl' D rq' sq'.
Proof.
  intros (E1 & E2 & E3 & E4 & _) HR HS Hd Hk Hi.
  assert (sentinels rl' sl' = sentinels rl sl) as E by (unfold sentinels; congruence).
  split; try done; rewrite ?E; apply L.
Qed.

Lemma push_ready_nodup t : t ∉ rq ++ sq ->
  NoDup ((t :: rq) ++ sq) /\ NoDup ((rq ++ [t]) ++ sq).
Proof.
  intros Hn. pose proof (lr_nodup _ _ _ _ _ _ L) as Hd.
  assert (NoDup (t :: rq ++ sq)) as H by by apply NoDup_cons.
  split; [done|]. rewrite <- app_assoc. simpl. by rewrite <- Permutation_middle.
Qed.

Lemma pushl_ready_ok t : t ∈ D -> t ∉ rq ++ sq ->
  exists h' rl', pushl h rl (general_tag t) = Some (h', rl') /\
    lists_rep h' rl' sl D (t :: rq) sq /\ sched_frame D rl sl h h' rl' sl.
Proof.
  intros Ht Hn. destruct (lr_fresh t Ht Hn) as [FR FS]. pose proof lr_len as Hlen.
  pose proof (zlen_nonneg sq).
  destruct (pushl_ok h rl (general_tag <$> rq) (general_tag t)) as (h' & rl' & E & D' & K);
    [apply L|done|rewrite zlen_tags; lia|].
  assert (sched_frame D rl sl h h' rl' sl) as Fr.
  { apply (frame_of_ready _ _ _ K). intros x [->|]%elem_of_cons; eauto. }
  exists h', rl'. split_and!; [done| |done]. apply lr_relink; [done|done| |by apply push_ready_nodup| |].
  - by apply (lr_keep_sleep _ _ _ FS K).
  - intros u. simpl. rewrite elem_of_cons. intros [->|Hu]; [done|by apply L].
  - intros u Hu Hun. destruct K as (_ & _ & K).
    destruct (K (general_tag u)) as [_ ->]; [|apply L; set_solver].
    rewrite elem_of_cons. intros [->%general_tag_inj|Hin]; [set_solver|].
    apply lr_idle_out in Hin; [done|done|set_solver].
Qed.

Lemma pushr_ready_ok t : t ∈ D -> t ∉ rq ++ sq ->
  exists h' rl', pushr h rl (general_tag t) = Some (h', rl') /\
    lists_rep h' rl' sl D (rq ++ [t]) sq /\ sched_frame D rl sl h h' rl' sl.
Proof.
  intros Ht Hn. destruct (lr_fresh t Ht Hn) as [FR FS]. pose proof lr_len as Hlen.
  pose proof (zlen_nonneg sq).
  destruct (pushr_ok h rl (general_tag <$> rq) (general_tag t)) as (h' & rl' & E & D' & K);
    [apply L|done|rewrite zlen_tags; lia|].
  assert (sched_frame D rl sl h h' rl' sl) as Fr.
  { apply (frame_of_ready _ _ _ K). intros x [->|]%elem_of_cons; eauto. }
  exists h', rl'. split_and!; [done| |done]. apply lr_relink; [done| | |by apply push_ready_nodup| |].
  - by rewrite fmap_app.
  - by apply (lr_keep_sleep _ _ _ FS K).
  - intros u. rewrite !elem_of_app, list_elem_of_singleton. pose proof (lr_known _ _ _ _ _ _ L u).
    rewrite elem_of_app in *. naive_solver.
  - intros u Hu Hun. destruct K as (_ & _ & K).
    destruct (K (general_tag u)) as [_ ->]; [|apply L; set_solver].
    rewrite elem_of_cons. intros [->%general_tag_inj|Hin]; [set_solver|].
    apply lr_idle_out in Hin; [done|done|set_solver].
Qed.

Lemma pushr_sleep_ok t : t ∈ D -> t ∉ rq ++ sq ->
  exists h' sl', pushr h sl (general_tag t) = Some (h', sl') /\
    lists_rep h' rl sl' D rq (sq ++ [t]) /\ sched_frame D rl sl h h' rl sl'.
Proof.
  intros Ht Hn. destruct (lr_fresh t Ht Hn) as [FR FS]. pose proof lr_len as Hlen.
  pose proof (zlen_nonneg rq).
  destruct (pushr_ok h sl (general_tag <$> sq) (general_tag t)) as (h' & sl' & E & D' & K);
    [apply L|done|rewrite zlen_tags; lia|].
  assert (sched_frame D rl sl h h' rl sl') as Fr.
  { apply (frame_of_sleep _ _ _ K). intros x [->|]%elem_of_cons; eauto. }
  exists h', sl'. split_and!; [done| |done]. apply lr_relink; [done| | | | |].
  - by apply (lr_keep_ready _ _ _ FR K).
  - by rewrite fmap_app.
  - rewrite app_assoc, <- Permutation_cons_append. apply NoDup_cons. split; [done|apply L].
  - intros u. rewrite !elem_of_app, list_elem_of_singleton. pose proof (lr_known _ _ _ _ _ _ L u).
    rewrite elem_of_app in *. naive_solver.
  - intros u Hu Hun. destruct K as (_ & _ & K).
    destruct (K (general_tag u)) as [_ ->]; [|apply L; set_solver].
    rewrite elem_of_cons. intros [->%general_tag_inj|Hin]; [set_solver|].
    apply lr_idle_out in Hin; [done|done|set_solver].
Qed.

(** [remove] of a task that is on no list does nothing. *)
Lemma remove_idle_ok t : t ∈ D -> t ∉ rq ++ sq ->
  DList.remove h rl (general_tag t) = Some (h, rl).
Proof.
  intros Ht Hn. destruct (lr_fresh t Ht Hn) as [(F & _ & Ha) _].
  apply (remove_out_ok h rl (general_tag <$> rq)); [apply L| |by apply L|done].
  unfold footprint in F. set_solver.
Qed.

End Lists.

Lemma popl_ready_ok h rl sl D t rq sq : lists_rep h rl sl D (t :: rq) sq ->
  exists h' rl', popl h rl = Some (general_tag t, h', rl') /\
    lists_rep h' rl' sl D rq sq /\ sched_frame D rl sl h h' rl' sl.
Proof.
  intros L. pose proof (popl_ok h rl _ (lr_ready _ _ _ _ _ _ L)) as P. simpl in P.
  destruct P as (h' & rl' & E & D' & K & _ & Hp).
  assert (sched_frame D rl sl h h' rl' sl) as Fr.
  { apply (frame_of_ready _ _ _ _ _ _ L _ _ _ K). intros x Hx. by left. }
  pose proof (lr_nodup _ _ _ _ _ _ L) as Hd. simpl in Hd. apply NoDup_cons in Hd as [Hd1 Hd2].
  exists h', rl'. split_and!; [done| |done].
  apply (lr_relink _ _ _ _ _ _ L); [done|done| |done| |].
  - destruct K as (_ & _ & K). apply (dlist_frame h); [apply L|]. intros x Hx. apply K.
    intros Hin. by apply (lr_disjoint _ _ _ _ _ _ L x).
  - intros u Hu. apply L. set_solver.
  - intros u Hu Hun. destruct (decide (u = t)) as [->|Hne]; [done|].
    destruct K as (_ & _ & K). destruct (K (general_tag u)) as [_ ->]; [|apply L; set_solver].
    intros Hin. apply (lr_idle_out _ _ _ _ _ _ L) in Hin; [done|done|set_solver].
Qed.

Lemma popl_empty_ok h rl sl D sq : lists_rep h rl sl D [] sq -> popl h rl = Some (NULL, h, rl).
Proof. intros L. apply (popl_ok h rl _ (lr_ready _ _ _ _ _ _ L)). Qed.

(** One iteration of the wake-up loop. *)
Lemma wake_one_ok h rl sl D rq s1 t s2 : lists_rep h rl sl D rq (s1 ++ t :: s2) ->
  exists h1 sl' h2 rl', DList.remove h sl (general_tag t) = Some (h1, sl') /\
    pushl h1 rl (general_tag t) = Some (h2, rl') /\
    lists_rep h2 rl' sl' D (t :: rq) (s1 ++ s2) /\ sched_frame D rl sl h h2 rl' sl'.
Proof.
  intros L. pose proof (lr_sleep _ _ _ _ _ _ L) as DS. rewrite fmap_app, fmap_cons in DS.
  destruct (remove_in_ok h sl _ _ _ DS) as (h1 & sl' & E1 & D1 & (A1 & A2 & K1) & N1 & N2).
  rewrite <- fmap_app in D1.
  assert (footprint sl ((general_tag <$> s1) ++ general_tag t :: (general_tag <$> s2))
    = footprint sl (general_tag <$> s1 ++ t :: s2)) as EF by by rewrite fmap_app.
  rewrite EF in K1.
  pose proof (lr_nodup _ _ _ _ _ _ L) as Hd. rewrite app_assoc, <- Permutation_middle in Hd.
  rewrite <- app_assoc in Hd. apply NoDup_cons in Hd as [Hd1 Hd2].
  assert (t ∈ D) as Ht by (apply L; set_solver).
  assert (dlist h1 rl (general_tag <$> rq)) as R1.
  { apply (dlist_frame h); [apply L|]. intros x Hx. apply K1. intros Hin.
    by apply (lr_disjoint _ _ _ _ _ _ L x). }
  pose proof (lr_len _ _ _ _ _ _ L) as Hlen. pose proof (zlen_nonneg (s1 ++ t :: s2)).
  pose proof (lr_tags _ _ _ _ _ _ L t Ht) as Hts. unfold sentinels in Hts.
  destruct (pushl_ok h1 rl (general_tag <$> rq) (general_tag t)) as (h2 & rl' & E2 & D2 & (B1 & B2 & K2)).
  { done. }
  { split_and!.
    - unfold footprint. rewrite elem_of_cons, elem_of_app, elem_of_tags, list_elem_of_singleton.
      set_solver.
    - pose proof (lr_addr _ _ _ _ _ _ L t Ht). unfold general_tag, NULL. lia.
    - rewrite N1. destruct (dlist_node _ _ _ DS (general_tag t)) as [_ ?]; [|done].
      unfold footprint. set_solver. }
  { rewrite zlen_tags; lia. }
  exists h1, sl', h2, rl'. split; [done|]. split; [done|].
  assert (forall x, x ∉ footprint sl (general_tag <$> s1 ++ t :: s2) ->
    x ∉ footprint rl (general_tag <$> rq) -> same_at h h2 x) as K.
  { intros x Hx1 Hx2. destruct (K1 x Hx1) as [P1 P2]. destruct (K2 x) as [P3 P4].
    - rewrite elem_of_cons. intros [->|?]; [|done]. apply Hx1. unfold footprint.
      rewrite elem_of_cons, elem_of_app, elem_of_tags. set_solver.
    - split; congruence. }
  assert (sched_frame D rl sl h h2 rl' sl') as Fr.
  { split_and!; [done..|]. intros x Hx Hxt. apply K; intros Hin.
    - apply (lr_owned_sleep _ _ _ _ _ _ L) in Hin as [?|(u & ? & ->)]; [done|by apply (Hxt u)].
    - apply (lr_owned_ready _ _ _ _ _ _ L) in Hin as [?|(u & ? & ->)]; [done|by apply (Hxt u)]. }
  split; [|done]. apply (lr_relink _ _ _ _ _ _ L); [done|done| | | |].
  - apply (dlist_frame h1); [done|]. intros x Hx. apply K2.
    assert (x ∈ footprint sl (general_tag <$> s1 ++ t :: s2)) as Hx'.
    { unfold footprint in *. rewrite A1, A2 in Hx. rewrite fmap_app in *. set_solver. }
    rewrite elem_of_cons. intros [->|Hin]; [|by apply (lr_disjoint _ _ _ _ _ _ L x)].
    unfold footprint in Hx.
    rewrite A1, A2, elem_of_cons, elem_of_app, elem_of_tags, list_elem_of_singleton in Hx.
    set_solver.
  - simpl. by apply NoDup_cons.
  - intros u Hu. apply L. set_solver.
  - intros u Hu Hun. destruct (K (general_tag u)) as [_ ->].
    + intros Hin. apply (lr_idle_out _ _ _ _ _ _ L) in Hin; [done|done|set_solver].
    + intros Hin. apply (lr_idle_out _ _ _ _ _ _ L) in Hin; [done|done|set_solver].
    + apply L; set_solver.
Qed.

(** ** The policy on sequences *)

Record sched := Sched {
  s_cur : Z; s_ready : list Z; s_sleep : list Z; s_tasks : gmap Z task_struct }.

Definition tick (ts : gmap Z task_struct) (t : Z) : gmap Z task_struct :=
  alter (fun x => set_sleep x (u32 (sleep_ticks x - 1))) t ts.
Definition spec_tick (ts : gmap Z task_struct) (sq : list Z) : gmap Z task_struct :=
  foldl tick ts sq.
Definition expired (ts : gmap Z task_struct) (t : Z) : bool :=
  match ts !! t with Some x => sleep_ticks x <=? 0 | None => false end.
Definition wake (ts : gmap Z task_struct) (t : Z) : gmap Z task_struct :=
  alter (fun x => set_status x TASK_READY) t ts.
Definition spec_wake (ts : gmap Z task_struct) (ws : list Z) : gmap Z task_struct :=
  foldl wake ts ws.

(** The sleeping tasks a call of [schedule] wakes. *)
Definition woken (ts : gmap Z task_struct) (sq : list Z) : list Z :=
  filter (fun t => expired (spec_tick ts sq) t = true) sq.

Definition runs_on (st : task_status) : bool :=
  bool_decide (st = TASK_RUNNING) || bool_decide (st = TASK_READY).

Definition spec_dispatch (s : sched) : option sched :=
  c ← s_tasks s !! s_cur s;
  if bool_decide (status c = TASK_RUNNING) && (0 <? ticks c) then
    Some (Sched (s_cur s) (s_ready s) (s_sleep s)
      (<[s_cur s := set_ticks (set_elapset c (u32 (elapset_ticks c + 1))) (u32 (ticks c - 1))]>
        (s_tasks s)))
  else
    match s_ready s with
    | [] => Some s
    | next :: rq =>
        let ts := alter (fun t => set_ticks t (priority t)) next (s_tasks s) in
        if s_cur s =? next then Some (Sched (s_cur s) rq (s_sleep s) ts)
        else
          Some (Sched next
            (if runs_on (status c) then rq ++ [s_cur s] else rq) (s_sleep s)
            (alter (fun t => set_status t TASK_RUNNING) next
              (if runs_on (status c) then wake ts (s_cur s) else ts)))
    end.

Definition spec_schedule (s : sched) : option sched :=
  let ts := spec_tick (s_tasks s) (s_sleep s) in
  let ws := woken (s_tasks s) (s_sleep s) in
  spec_dispatch (Sched (s_cur s) (reverse ws ++ s_ready s)
    (filter (fun t => expired ts t <> true) (s_sleep s)) (spec_wake ts ws)).

(** ** [schedule] implements the policy *)

Lemma insert_alter {A} (f : A -> A) (m : gmap Z A) k x :
  m !! k = Some x -> <[k := f x]> m = alter f k m.
Proof.
  intros Hx. apply map_eq. intros j. rewrite lookup_insert, lookup_alter.
  destruct (decide (k = j)) as [->|]; [by rewrite Hx|done].
Qed.

Lemma upd_task_ok ts t f : t ∈ dom ts -> upd_task ts t f = Some (alter f t ts).
Proof.
  intros [x Hx]%elem_of_dom. unfold upd_task. rewrite Hx. mstep. by rewrite insert_alter.
Qed.

Lemma spec_tick_other ts sq t : t ∉ sq -> spec_tick ts sq !! t = ts !! t.
Proof.
  revert ts. induction sq as [|u sq IH]; intros ts Hn; [done|]. cbn.
  change (foldl tick (tick ts u) sq) with (spec_tick (tick ts u) sq).
  rewrite IH by set_solver. unfold tick. apply lookup_alter_ne. set_solver.
Qed.

Lemma dom_spec_tick ts sq : dom (spec_tick ts sq) = dom ts.
Proof.
  revert ts. induction sq as [|u sq IH]; intros ts; [done|]. cbn.
  change (foldl tick (tick ts u) sq) with (spec_tick (tick ts u) sq).
  rewrite IH. apply dom_alter_L.
Qed.

Lemma dom_spec_wake ts ws : dom (spec_wake ts ws) = dom ts.
Proof.
  revert ts. induction ws as [|u ws IH]; intros ts; [done|]. cbn.
  change (foldl wake (wake ts u) ws) with (spec_wake (wake ts u) ws).
  rewrite IH. apply dom_alter_L.
Qed.

Lemma chain_first h p ys q : chain h (p :: ys) -> ys !! 0%nat = Some q -> p <> NULL ->
  nxt h p = Some q /\ chain h ys.
Proof. destruct ys; [done|]. intros [[H _] Hc] [= <-] Hp. auto. Qed.

Lemma scan_sleep_ok h tl sq : chain h ((general_tag <$> sq) ++ [tl]) ->
  tl ∉ general_tag <$> sq -> NoDup sq -> forall fuel ts p wk,
  (forall t, t ∈ sq -> t ∈ dom ts /\ 0 < t < 2 ^ 32 - 64) ->
  (length sq < fuel)%nat -> ((general_tag <$> sq) ++ [tl]) !! 0%nat = Some p ->
  zlen wk + zlen (woken ts sq) <= 10 ->
  scan_sleep fuel h tl ts p wk =
    Some (spec_tick ts sq, wk ++ (general_tag <$> woken ts sq)).
Proof.
  induction sq as [|t sq IH]; intros Hc Htl Hd fuel ts p wk Hk Hf Hp Hw;
    destruct fuel as [|fuel]; try (simpl in Hf; lia).
  - injection Hp as <-. cbn. rewrite Z.eqb_refl, orb_true_r, app_nil_r. done.
  - injection Hp as <-. destruct (Hk t) as [[x Hx]%elem_of_dom Ht]; [set_solver|].
    apply NoDup_cons in Hd as [Hd1 Hd2].
    assert (general_tag t <> tl) as Hne by set_solver.
    cbn [scan_sleep]. rewrite general_entry_tag by done.
    destruct (Z.eqb_spec (general_tag t) NULL) as [E|_]; [unfold general_tag, NULL in E; lia|].
    destruct (Z.eqb_spec (general_tag t) tl); [done|]. cbn [orb]. rewrite Hx. mstep.
    set (f := fun x => set_sleep x (u32 (sleep_ticks x - 1))).
    change (set_sleep x (u32 (sleep_ticks x - 1))) with (f x).
    rewrite (insert_alter f) by done. change (alter f t ts) with (tick ts t).
    assert (expired (spec_tick (tick ts t) sq) t = (u32 (sleep_ticks x - 1) <=? 0)) as Ee.
    { unfold expired. rewrite spec_tick_other by done. unfold tick.
      by rewrite lookup_alter_eq, Hx. }
    assert (woken ts (t :: sq) = (if u32 (sleep_ticks x - 1) <=? 0 then [t] else [])
      ++ woken (tick ts t) sq) as Ew.
    { unfold woken. change (spec_tick ts (t :: sq)) with (spec_tick (tick ts t) sq).
      rewrite filter_cons, <- Ee. by destruct (expired _ t). }
    rewrite fmap_cons in Hc. cbn [app] in Hc.
    destruct (((general_tag <$> sq) ++ [tl]) !! 0%nat) as [q|] eqn:Eq.
    2: { apply lookup_ge_None in Eq. rewrite length_app in Eq. simpl in Eq. lia. }
    destruct (chain_first _ _ _ _ Hc Eq) as [Hn Hc']; [unfold general_tag, NULL; lia|].
    assert (forall v, v ∈ sq -> v ∈ dom (tick ts t) /\ 0 < v < 2 ^ 32 - 64) as Hk'.
    { intros v Hv. destruct (Hk v); [set_solver|]. unfold tick. by rewrite dom_alter_L. }
    assert (tl ∉ general_tag <$> sq) as Htl' by set_solver.
    rewrite Ew in *. rewrite zlen_app in Hw. simpl in Hf. rewrite Hn.
    change (spec_tick ts (t :: sq)) with (spec_tick (tick ts t) sq).
    pose proof (zlen_nonneg (woken (tick ts t) sq)).
    destruct (u32 (sleep_ticks x - 1) <=? 0).
    + change (zlen [t]) with 1 in Hw. destruct (Z.ltb_spec (zlen wk) 10); [|lia]. mstep.
      rewrite (IH Hc' Htl' Hd2 fuel _ q); [by rewrite <- app_assoc|done|lia|done|].
      rewrite zlen_app. change (zlen [general_tag t]) with 1. lia.
    + mstep. by rewrite (IH Hc' Htl' Hd2 fuel _ q) by (done || lia).
Qed.

Definition krep (s : kstate) (rq sq : list Z) : Prop :=
  lists_rep (mem s) (ready_tasks s) (sleep_tasks s) (dom (tasks s)) rq sq.

(** What a scheduler step leaves alone. *)
Definition kframe (s s' : kstate) : Prop :=
  all_tasks s' = all_tasks s /\ dom (tasks s') = dom (tasks s) /\
  sched_frame (dom (tasks s)) (ready_tasks s) (sleep_tasks s) (mem s) (mem s')
    (ready_tasks s') (sleep_tasks s').

Lemma kframe_trans s1 s2 s3 : kframe s1 s2 -> kframe s2 s3 -> kframe s1 s3.
Proof.
  intros (A1 & A2 & A3) (B1 & B2 & B3). split_and!; try congruence.
  eapply sched_frame_trans; [done|]. by rewrite A2 in B3.
Qed.

Lemma kframe_tasks s ts : dom ts = dom (tasks s) -> kframe s (with_tasks s ts).
Proof. intros E. split_and!; [done..|apply sched_frame_refl]. Qed.

Lemma wake_all_ok ws : forall s rq sq, krep s rq sq -> NoDup ws ->
  (forall t, t ∈ ws -> t ∈ sq) ->
  exists s', wake_all s (general_tag <$> ws) = Some s' /\
    krep s' (reverse ws ++ rq) (filter (fun t => t ∉ ws) sq) /\
    tasks s' = spec_wake (tasks s) ws /\ cur s' = cur s /\ kframe s s'.
Proof.
  induction ws as [|t ws IH]; intros s rq sq L Hd Hin.
  - exists s. rewrite filter_all by (intros; apply not_elem_of_nil).
    by split_and!.
  - destruct (list_elem_of_split sq t) as (s1 & s2 & ->); [apply Hin; set_solver|].
    apply NoDup_cons in Hd as [Hd1 Hd2].
    destruct (wake_one_ok _ _ _ _ _ _ _ _ L) as (h1 & sl' & h2 & rl' & E1 & E2 & L' & Fr).
    assert (t ∈ dom (tasks s)) as Ht by (apply L; set_solver).
    rewrite fmap_cons. cbn [wake_all]. rewrite E1. mstep. cbn [mem with_sleep ready_tasks].
    rewrite E2. mstep. cbn [tasks with_ready].
    rewrite general_entry_tag by by apply (lr_addr _ _ _ _ _ _ L).
    rewrite upd_task_ok by done. mstep.
    change (alter _ t (tasks s)) with (wake (tasks s) t).
    set (s0 := with_tasks _ _).
    assert (dom (tasks s0) = dom (tasks s)) as E0 by apply dom_alter_L.
    pose proof (lr_nodup _ _ _ _ _ _ L) as Hds. apply NoDup_app in Hds as (_ & _ & Hds).
    destruct (IH s0 (t :: rq) (s1 ++ s2)) as (s' & E & L2 & Et & Ec & Fr2).
    + unfold krep. by rewrite E0.
    + done.
    + intros u Hu. assert (u ∈ s1 ++ t :: s2) as Hs by (apply Hin; set_solver). set_solver.
    + exists s'. split_and!; [done| |by rewrite Et|done|].
      * rewrite reverse_cons, <- app_assoc. unfold krep in *.
        replace (filter (fun u => u ∉ t :: ws) (s1 ++ t :: s2))
          with (filter (fun u => u ∉ ws) (s1 ++ s2)); [done|].
        rewrite !filter_app, filter_cons_False by set_solver.
        rewrite <- Permutation_middle in Hds. apply NoDup_cons in Hds as [Hds _].
        f_equal; apply filter_ext_in; intros u Hu; rewrite not_elem_of_cons; set_solver.
      * apply kframe_trans with s0; [|done]. by split_and!.
Qed.

(** The current task is never on the ready list; it is on the sleep list only
    between going to sleep and the switch, and then it is the last there. *)
Record sched_rep (s : kstate) (rq sq : list Z) : Prop := {
  sr_lists : krep s rq sq;
  sr_cur : cur s ∈ dom (tasks s);
  sr_cur_ready : cur s ∉ rq;
  sr_cur_sleep : cur s ∈ sq -> list.last sq = Some (cur s) /\
    status <$> tasks s !! cur s = Some TASK_SLEEP;
}.

(** How the outgoing task is put aside. *)
Definition requeued (c : task_struct) : task_struct :=
  if bool_decide (status c = TASK_RUNNING) then set_status c TASK_READY else c.

Lemma requeued_ready c : bool_decide (status (requeued c) = TASK_READY) = runs_on (status c).
Proof. unfold requeued, runs_on. destruct (status c) eqn:Es; simpl; by rewrite ?Es. Qed.

Lemma requeued_tasks ts k c : ts !! k = Some c ->
  <[k := requeued c]> ts = if runs_on (status c) then wake ts k else ts.
Proof.
  intros Hc. unfold requeued, runs_on, wake.
  destruct (bool_decide_reflect (status c = TASK_RUNNING)); simpl.
  - by apply (insert_alter (fun x => set_status x TASK_READY)).
  - destruct (bool_decide_reflect (status c = TASK_READY)) as [Es|]; [|by apply insert_id].
    rewrite <- (insert_alter _ _ _ c) by done. f_equal. destruct c; simpl in *; by subst.
Qed.

Lemma sched_rep_intro s rq sq D : dom (tasks s) = D ->
  lists_rep (mem s) (ready_tasks s) (sleep_tasks s) D rq sq -> cur s ∈ D ->
  cur s ∉ rq -> cur s ∉ sq -> sched_rep s rq sq.
Proof. intros <- L Hc Hr Hs. split; [done..|]. intros ?. done. Qed.

(** The case in which the current task keeps the processor. *)
Lemma dispatch_stays s rq sq c : krep s rq sq -> tasks s !! cur s = Some c ->
  status c = TASK_RUNNING -> cur s ∉ rq -> cur s ∉ sq ->
  let s' := with_tasks s (<[cur s := set_ticks (set_elapset c (u32 (elapset_ticks c + 1)))
                                       (u32 (ticks c - 1))]> (tasks s)) in
  sched_rep s' rq sq /\ kframe s s'.
Proof.
  intros L Ec Hr H1 H2 s'. assert (cur s ∈ dom (tasks s)) as Hc by (apply elem_of_dom; eauto).
  assert (dom (tasks s') = dom (tasks s)) as Ed by (cbn; rewrite dom_insert_L; set_solver).
  split; [|by apply kframe_tasks]. by apply (sched_rep_intro _ _ _ _ Ed).
Qed.

(** The case in which another task gets the processor. *)
Lemma dispatch_switch s rq sq c next : krep s rq sq -> tasks s !! cur s = Some c ->
  next ∈ dom (tasks s) -> next ∉ rq ++ sq -> cur s ∉ rq -> cur s <> next ->
  (cur s ∈ sq -> status c = TASK_SLEEP) ->
  exists s', (s1 ← (if runs_on (status c) then
                 '(h, l) ← pushr (mem s) (ready_tasks s) (general_tag (cur s));
                 Some (with_ready (with_tasks s (if runs_on (status c) then wake (tasks s) (cur s)
                                                 else tasks s)) h l)
               else Some (with_tasks s (if runs_on (status c) then wake (tasks s) (cur s)
                                        else tasks s)));
          ts ← upd_task (tasks s1) next (fun t => set_status t TASK_RUNNING);
          Some (with_cur (with_tasks s1 ts) next)) = Some s' /\
    sched_rep s' (if runs_on (status c) then rq ++ [cur s] else rq) sq /\ kframe s s' /\
    cur s' = next /\
    tasks s' = alter (fun t => set_status t TASK_RUNNING) next
                 (if runs_on (status c) then wake (tasks s) (cur s) else tasks s).
Proof.
  intros L Ec Hn Hnq Hcr Hne Hcs.
  assert (cur s ∈ dom (tasks s)) as Hc by (apply elem_of_dom; eauto).
  destruct (runs_on (status c)) eqn:Ero.
  - destruct (pushr_ready_ok _ _ _ _ _ _ L (cur s) Hc) as (h2 & rl2 & -> & L2 & Fr2).
    { rewrite elem_of_app. intros [?|Hs%Hcs]; [done|]. by rewrite Hs in Ero. }
    mstep. cbn [tasks with_ready with_tasks].
    assert (dom (wake (tasks s) (cur s)) = dom (tasks s)) as E1 by apply dom_alter_L.
    rewrite upd_task_ok by by rewrite E1. mstep. eexists. split; [done|].
    assert (dom (alter (fun t => set_status t TASK_RUNNING) next (wake (tasks s) (cur s)))
      = dom (tasks s)) as E2 by by rewrite dom_alter_L.
    split; [|split; [split; [done|split; [done|exact Fr2]]|done]].
    eapply sched_rep_intro; [exact E2|exact L2|done|cbn; set_solver|cbn; set_solver].
  - mstep. cbn [tasks with_tasks]. rewrite upd_task_ok by done. mstep.
    eexists. split; [done|].
    assert (dom (alter (fun t => set_status t TASK_RUNNING) next (tasks s)) = dom (tasks s)) as E2
      by apply dom_alter_L.
    split; [|split; [split; [done|split; [done|apply sched_frame_refl]]|done]].
    eapply sched_rep_intro; [exact E2|exact L|done|cbn; set_solver|cbn; set_solver].
Qed.

Lemma dispatch_ok s rq sq : krep s rq sq -> cur s ∈ dom (tasks s) ->
  (cur s ∈ rq -> list.head rq = Some (cur s) /\ status <$> tasks s !! cur s = Some TASK_READY) ->
  (cur s ∈ sq -> list.last sq = Some (cur s) /\ status <$> tasks s !! cur s = Some TASK_SLEEP) ->
  exists s' rq' sq', dispatch s = Some s' /\
    spec_dispatch (Sched (cur s) rq sq (tasks s)) = Some (Sched (cur s') rq' sq' (tasks s')) /\
    sched_rep s' rq' sq' /\ kframe s s'.
Proof.
  intros L Hc Hcr Hcs. pose proof Hc as [c Ec]%elem_of_dom.
  unfold dispatch, spec_dispatch. cbn [s_cur s_tasks s_ready s_sleep]. rewrite Ec in *. mstep.
  destruct (bool_decide (status c = TASK_RUNNING) && (0 <? ticks c)) eqn:Eb.
  - apply andb_true_iff in Eb as [Eb%bool_decide_eq_true _].
    destruct (dispatch_stays s rq sq c) as [R Fr]; try done;
      [intros [_ [= H]]%Hcr; congruence|intros [_ [= H]]%Hcs; congruence|].
    by eexists _, rq, sq.
  - clear Eb. destruct rq as [|next rq].
    { rewrite (popl_empty_ok _ _ _ _ _ L). mstep. cbn. exists s, [], sq. destruct s; cbn in *.
      split; [done|]. split; [done|]. split; [|by split_and!].
      split; cbn; [done|done|apply not_elem_of_nil|by rewrite Ec]. }
    destruct (popl_ready_ok _ _ _ _ _ _ _ L) as (h & rl & -> & L' & Fr). mstep.
    assert (next ∈ dom (tasks s)) as Hn by (apply L; set_solver).
    pose proof (lr_addr _ _ _ _ _ _ L next Hn) as Ha.
    rewrite general_entry_tag by done. cbn [tasks with_ready].
    destruct (Z.eqb_spec (general_tag next) NULL) as [E|_]; [unfold general_tag, NULL in E; lia|].
    destruct (Z.eqb_spec next NULL) as [E|_]; [unfold NULL in E; lia|].
    rewrite upd_task_ok by done. mstep. cbn [cur with_tasks with_ready tasks].
    set (ts := alter _ next (tasks s)).
    assert (dom ts = dom (tasks s)) as Ed by apply dom_alter_L.
    pose proof (lr_nodup _ _ _ _ _ _ L) as Hd. simpl in Hd. apply NoDup_cons in Hd as [Hd _].
    set (s1 := with_tasks (with_ready s h rl) ts). assert (kframe s s1) as Fr1 by by split_and!.
    assert (krep s1 rq sq) as L1 by (unfold krep; cbn; by rewrite Ed).
    destruct (Z.eqb_spec (cur s) next) as [E|Hne].
    + subst next. eexists s1, rq, sq. split; [done|]. split; [done|]. split; [|done].
      apply (sched_rep_intro _ _ _ (dom (tasks s))); cbn; [done|done|done|set_solver|set_solver].
    + assert (ts !! cur s = Some c) as Ec' by (unfold ts; by rewrite lookup_alter_ne).
      rewrite Ec'. mstep. change (if bool_decide (status c = TASK_RUNNING) then _ else c)
        with (requeued c). rewrite requeued_ready, (requeued_tasks _ _ _ Ec').
      destruct (dispatch_switch s1 rq sq c next) as (s' & E & R & Fr2 & E1 & E2); cbn; try done.
      * by rewrite Ed.
      * intros Hin. destruct Hcr as [[= ->] _]; [set_solver|done].
      * intros [_ [= H]]%Hcs. done.
      * eexists s', _, sq. rewrite E1, E2. split; [exact E|]. split; [done|].
        split; [done|]. by apply kframe_trans with s1.
Qed.

Lemma woken_last ts sq t : list.last sq = Some t -> NoDup sq -> t ∈ woken ts sq ->
  list.last (woken ts sq) = Some t.
Proof.
  intros Hl Hd Ht. apply last_Some in Hl as [l' ->]. unfold woken in *.
  apply list_elem_of_filter in Ht as [He _]. rewrite filter_app, filter_cons_True by done.
  by rewrite filter_nil, last_snoc.
Qed.

Lemma spec_wake_in ts ws t : t ∈ ws -> NoDup ws ->
  spec_wake ts ws !! t = (fun x => set_status x TASK_READY) <$> ts !! t.
Proof.
  revert ts. induction ws as [|u ws IH]; intros ts Ht Hd; [by apply not_elem_of_nil in Ht|].
  apply NoDup_cons in Hd as [Hu Hd]. cbn. change (foldl wake (wake ts u) ws) with (spec_wake (wake ts u) ws).
  apply elem_of_cons in Ht as [->|Ht].
  - clear IH. revert ts. enough (forall ts, spec_wake ts ws !! u = ts !! u) as E.
    { intros ts. rewrite E. apply lookup_alter_eq. }
    clear Hd. induction ws as [|v ws IH]; intros ts; [done|]. cbn.
    change (foldl wake (wake ts v) ws) with (spec_wake (wake ts v) ws).
    rewrite IH by set_solver. apply lookup_alter_ne. set_solver.
  - rewrite IH by done. unfold wake. rewrite lookup_alter_ne; [done|]. set_solver.
Qed.

Lemma spec_wake_out ts ws t : t ∉ ws -> spec_wake ts ws !! t = ts !! t.
Proof.
  revert ts. induction ws as [|v ws IH]; intros ts Ht; [done|]. cbn.
  change (foldl wake (wake ts v) ws) with (spec_wake (wake ts v) ws).
  rewrite IH by set_solver. apply lookup_alter_ne. set_solver.
Qed.

Lemma spec_tick_status ts sq t : status <$> spec_tick ts sq !! t = status <$> ts !! t.
Proof.
  revert ts. induction sq as [|u sq IH]; intros ts; [done|]. cbn.
  change (foldl tick (tick ts u) sq) with (spec_tick (tick ts u) sq). rewrite IH.
  unfold tick. rewrite lookup_alter. case_decide as E; [|done]. subst u. by destruct (ts !! t).
Qed.

(** The state [dispatch] starts from. *)
Lemma wake_phase_ok s rq sq : sched_rep s rq sq -> zlen (woken (tasks s) sq) <= 10 ->
  let ts := spec_tick (tasks s) sq in let ws := woken (tasks s) sq in
  exists s1, (node ← nxt (mem s) (DList.head (sleep_tasks s));
    '(ts, wake) ← scan_sleep (S (base.size (mem s))) (mem s) (DList.tail (sleep_tasks s))
                    (tasks s) node [];
    wake_all (with_tasks s ts) wake) = Some s1 /\
    krep s1 (reverse ws ++ rq) (filter (fun t => expired ts t <> true) sq) /\
    tasks s1 = spec_wake ts ws /\ cur s1 = cur s /\ kframe s s1.
Proof.
  intros [L Hc _ _] Hw ts ws. pose proof (lr_sleep _ _ _ _ _ _ L) as DS.
  pose proof (lr_nodup _ _ _ _ _ _ L) as Hd. apply NoDup_app in Hd as (_ & _ & Hd).
  destruct (walk_ok _ _ _ 0%nat (default NULL (((general_tag <$> sq) ++ [DList.tail (sleep_tasks s)]) !! 0%nat)) DS)
    as (p & Hp & [= Hp']); [by destruct sq|].
  rewrite Hp. mstep. pose proof (dl_chain _ _ _ DS) as Hch.
  rewrite (scan_sleep_ok _ _ sq); try done; cycle 1.
  - destruct sq; apply Hch.
  - pose proof (dl_nodup _ _ _ DS) as Hn. apply NoDup_cons in Hn as [_ Hn].
    apply NoDup_app in Hn as (_ & Hn & _). intros Hin. apply (Hn _ Hin). set_solver.
  - intros t Ht. assert (t ∈ dom (tasks s)) by (apply L; set_solver).
    split; [done|by apply (lr_addr _ _ _ _ _ _ L)].
  - pose proof (footprint_bound _ _ _ DS) as Hb. unfold footprint in Hb. simpl in Hb.
    rewrite length_app, length_fmap in Hb. lia.
  - rewrite Hp'. by destruct sq.
  - mstep. fold ts ws. cbn [app].
    assert (dom ts = dom (tasks s)) as Ed by apply dom_spec_tick.
    destruct (wake_all_ok ws (with_tasks s ts) rq sq) as (s1 & E & L1 & Et & Ec & Fr).
    + unfold krep. cbn. by rewrite Ed.
    + by apply NoDup_filter.
    + intros t Ht. by apply list_elem_of_filter in Ht as [_ ?].
    + exists s1. split; [done|]. split; [|split; [done|split; [done|]]].
      * replace (filter (fun t => expired ts t <> true) sq) with (filter (fun t => t ∉ ws) sq); [done|].
        apply filter_ext_in. intros t Ht. unfold ws, woken. rewrite list_elem_of_filter. tauto.
      * apply kframe_trans with (with_tasks s ts); [|done]. by apply kframe_tasks.
Qed.

Lemma schedule_ok s rq sq :
  sched_rep s rq sq -> zlen (woken (tasks s) sq) <= 10 ->
  exists s' rq' sq', schedule s = Some s' /\
    spec_schedule (Sched (cur s) rq sq (tasks s)) = Some (Sched (cur s') rq' sq' (tasks s')) /\
    sched_rep s' rq' sq' /\ kframe s s'.
Proof.
  intros R Hw. destruct (wake_phase_ok s rq sq R Hw) as (s1 & E & L1 & Et & Ec & Fr).
  destruct R as [L Hc Hcr Hcs].
  pose proof (lr_nodup _ _ _ _ _ _ L) as Hd. apply NoDup_app in Hd as (_ & _ & Hd).
  assert (NoDup (woken (tasks s) sq)) as Hdw by by apply NoDup_filter.
  destruct (dispatch_ok s1 (reverse (woken (tasks s) sq) ++ rq)
    (filter (fun t => expired (spec_tick (tasks s) sq) t <> true) sq)) as (s' & rq' & sq' & E' & Es & R' & Fr').
  - done.
  - rewrite Ec. destruct Fr as (_ & -> & _). done.
  - rewrite Ec. intros [Hin|?]%elem_of_app; [|done]. rewrite elem_of_reverse in Hin.
    assert (cur s ∈ sq) as Hin' by (by apply list_elem_of_filter in Hin as [_ ?]).
    destruct (Hcs Hin') as [Hl _]. rewrite Et, spec_wake_in by done.
    apply woken_last in Hin; [|done..]. apply last_Some in Hin as [l' ->].
    rewrite reverse_snoc. split; [done|].
    destruct (elem_of_dom (spec_tick (tasks s) sq) (cur s)) as [[x Hx] _];
      [by rewrite dom_spec_tick|]. by rewrite Hx.
  - rewrite Ec. intros [Hne Hin]%list_elem_of_filter. destruct (Hcs Hin) as [Hl Hst]. split.
    + apply last_Some in Hl as [l' ->]. rewrite filter_app, filter_cons_True by done.
      by rewrite filter_nil, last_snoc.
    + rewrite Et, spec_wake_out by (unfold woken; rewrite list_elem_of_filter; tauto).
      by rewrite spec_tick_status.
  - exists s', rq', sq'. rewrite Ec, Et in Es. split_and!; [|exact Es|done|by eapply kframe_trans].
    unfold schedule. apply bind_Some in E as (node & -> & E). mstep.
    apply bind_Some in E as ([ts wk] & -> & E). mstep. by rewrite E.
Qed.

(** C1: [schedule] refines the scheduling policy: when the heap represents a
    ready queue and a sleep queue and at most ten sleepers expire at once, it
    runs without touching an invalid pointer or overrunning [wake_up_list],
    the new current task, queues and task table are those of [spec_schedule]
    (expired sleepers move to the front of the ready queue, the current task
    keeps the processor while it is running and has ticks left, otherwise the
    head of the ready queue runs with a full time slice and the old task, if
    still runnable, goes to the back), the representation invariant holds
    again, and only the nodes of these two lists are written. *)
Theorem schedule_refines s rq sq :
  sched_rep s rq sq -> zlen (woken (tasks s) sq) <= 10 ->
  exists s' rq' sq', schedule s = Some s' /\
    spec_schedule (Sched (cur s) rq sq (tasks s)) = Some (Sched (cur s') rq' sq' (tasks s')) /\
    sched_rep s' rq' sq' /\ kframe s s'.
Proof. apply schedule_ok. Qed.

(** ** No runnable task is lost *)

(** The status of each task says where it is. *)
Record status_ok (s : sched) : Prop := {
  so_ready : forall t x, t ∈ s_ready s -> s_tasks s !! t = Some x -> status x = TASK_READY;
  so_sleep : forall t x, t ∈ s_sleep s -> s_tasks s !! t = Some x -> status x = TASK_SLEEP;
  so_other : forall t x, s_tasks s !! t = Some x ->
    status x = TASK_READY \/ status x = TASK_RUNNING \/ status x = TASK_SLEEP ->
    t = s_cur s \/ t ∈ s_ready s \/ t ∈ s_sleep s;
  so_nodup : NoDup (s_ready s ++ s_sleep s);
  so_cur : s_cur s ∈ s_ready s -> head (s_ready s) = Some (s_cur s);
  so_asleep : forall x, s_tasks s !! s_cur s = Some x -> status x = TASK_SLEEP ->
    s_cur s ∈ s_sleep s;
}.

Lemma spec_tick_Some ts sq t x : spec_tick ts sq !! t = Some x ->
  exists y, ts !! t = Some y /\ status x = status y.
Proof.
  intros Hx. pose proof (spec_tick_status ts sq t) as E. rewrite Hx in E.
  destruct (ts !! t) as [y|]; simpl in E; [|done]. injection E as E. eauto.
Qed.

Lemma wake_phase_status s : status_ok s -> s_cur s ∉ s_ready s ->
  (s_cur s ∈ s_sleep s -> list.last (s_sleep s) = Some (s_cur s)) ->
  let ts := spec_tick (s_tasks s) (s_sleep s) in
  let ws := woken (s_tasks s) (s_sleep s) in
  status_ok (Sched (s_cur s) (reverse ws ++ s_ready s)
    (filter (fun t => expired ts t <> true) (s_sleep s)) (spec_wake ts ws)).
Proof.
  intros S Hc Hl ts ws. pose proof (so_nodup _ S) as Hd.
  apply NoDup_app in Hd as (Hd1 & Hd2 & Hd3).
  assert (NoDup ws) as Hw by by apply NoDup_filter.
  assert (forall t, t ∈ ws -> t ∈ s_sleep s) as Hws
    by (intros t Ht; by apply list_elem_of_filter in Ht as [_ ?]).
  split; cbn [s_cur s_ready s_sleep s_tasks].
  - intros t x. rewrite elem_of_app, elem_of_reverse. intros [Ht|Ht] Hx.
    + rewrite spec_wake_in in Hx by done. destruct (ts !! t); simpl in Hx; [|done].
      by injection Hx as <-.
    + rewrite spec_wake_out in Hx by (intros ?%Hws; by apply (Hd2 t)).
      apply spec_tick_Some in Hx as (y & Hy & ->). by apply (so_ready _ S t).
  - intros t x [Hne Ht]%list_elem_of_filter Hx.
    rewrite spec_wake_out in Hx by (unfold ws, woken; rewrite list_elem_of_filter; tauto).
    apply spec_tick_Some in Hx as (y & Hy & ->). by apply (so_sleep _ S t).
  - intros t x Hx Hst. rewrite elem_of_app, elem_of_reverse.
    destruct (decide (t ∈ ws)) as [|Hn]; [tauto|]. rewrite spec_wake_out in Hx by done.
    apply spec_tick_Some in Hx as (y & Hy & E). rewrite E in Hst.
    destruct (so_other _ S t y Hy Hst) as [?|[?|Hs]]; [tauto..|].
    right; right. apply list_elem_of_filter. split; [|done].
    intros He. apply Hn. unfold ws, woken. by apply list_elem_of_filter.
  - apply NoDup_app. split_and!.
    + apply NoDup_app. split_and!; [by rewrite reverse_Permutation| |done].
      intros t Ht Hr. rewrite elem_of_reverse in Ht. by apply (Hd2 t); [|apply Hws].
    + intros t Ht [Hne Hs]%list_elem_of_filter.
      rewrite elem_of_app, elem_of_reverse in Ht. destruct Ht as [Ht|Ht]; [|by apply (Hd2 t)].
      by apply list_elem_of_filter in Ht as [? _].
    + by apply NoDup_filter.
  - rewrite elem_of_app, elem_of_reverse. intros [Hin|?]; [|done].
    pose proof (woken_last _ _ _ (Hl (Hws _ Hin)) Hd3 Hin) as E.
    apply last_Some in E as [l' E]. unfold ws. rewrite E, reverse_snoc. done.
  - intros x Hx Hst. destruct (decide (s_cur s ∈ ws)) as [Hin|Hin].
    { rewrite spec_wake_in in Hx by done. destruct (ts !! s_cur s); simpl in Hx; [|done].
      by injection Hx as <-. }
    rewrite spec_wake_out in Hx by done. apply spec_tick_Some in Hx as (y & Hy & E).
    rewrite E in Hst. apply list_elem_of_filter. pose proof (so_asleep _ S y Hy Hst) as Hin'.
    split; [|done]. intros He. apply Hin. unfold ws, woken. by apply list_elem_of_filter.
Qed.

(** Changing fields other than the status keeps [status_ok]. *)
Lemma status_ok_tasks c rq sq ts ts' : status_ok (Sched c rq sq ts) ->
  (forall t x, ts' !! t = Some x -> exists y, ts !! t = Some y /\ status x = status y) ->
  status_ok (Sched c rq sq ts').
Proof.
  intros S Hs. split; cbn.
  - intros t x Ht Hx. destruct (Hs t x Hx) as (y & Hy & ->). by apply (so_ready _ S t).
  - intros t x Ht Hx. destruct (Hs t x Hx) as (y & Hy & ->). by apply (so_sleep _ S t).
  - intros t x Hx. destruct (Hs t x Hx) as (y & Hy & ->). by apply (so_other _ S t y).
  - apply S.
  - apply S.
  - intros x Hx. destruct (Hs _ x Hx) as (y & Hy & ->). by apply (so_asleep _ S y).
Qed.

Lemma alter_status (f : task_struct -> task_struct) k (ts : gmap Z task_struct) t x :
  (forall y, status (f y) = status y) -> alter f k ts !! t = Some x ->
  exists y, ts !! t = Some y /\ status x = status y.
Proof.
  intros Hf. rewrite lookup_alter. case_decide as E; [|eauto].
  subst. destruct (ts !! t); simpl; intros [= <-]. eauto.
Qed.

Lemma switch_status next rq sq ts cur_ c : status_ok (Sched cur_ (next :: rq) sq ts) ->
  ts !! cur_ = Some c -> cur_ <> next -> (cur_ ∈ sq -> status c = TASK_SLEEP) ->
  status_ok (Sched next (if runs_on (status c) then rq ++ [cur_] else rq) sq
    (alter (fun t => set_status t TASK_RUNNING) next
      (if runs_on (status c) then wake ts cur_ else ts))) /\
  next ∉ (if runs_on (status c) then rq ++ [cur_] else rq).
Proof.
  intros S Hc Hne Hcs. pose proof (so_nodup _ S) as Hd. cbn in Hd.
  apply NoDup_cons in Hd as [Hn Hd].
  assert (cur_ ∉ rq) as Hcr.
  { intros Hin. pose proof (so_cur _ S) as E. cbn in E.
    assert (Some next = Some cur_) as [= ->] by (apply E; set_solver). done. }
  set (ts2 := if runs_on (status c) then wake ts cur_ else ts).
  set (ts3 := alter _ next ts2).
  assert (forall t, t <> next -> t <> cur_ -> ts3 !! t = ts !! t) as Hother.
  { intros t H1 H2. unfold ts3. rewrite lookup_alter_ne by done. unfold ts2.
    destruct (runs_on _); [apply lookup_alter_ne|]; done. }
  assert (ts3 !! cur_ = Some (if runs_on (status c) then set_status c TASK_READY else c)) as Hcur.
  { unfold ts3. rewrite lookup_alter_ne by done. unfold ts2, wake.
    destruct (runs_on _); [by rewrite lookup_alter_eq, Hc|done]. }
  assert (forall x, ts3 !! next = Some x -> status x = TASK_RUNNING) as Hnext.
  { intros x. unfold ts3. rewrite lookup_alter_eq. by destruct (ts2 !! next); intros [= <-]. }
  split; [|destruct (runs_on _); set_solver].
  assert (forall t x, t ∈ rq -> ts3 !! t = Some x -> status x = TASK_READY) as Hrq.
  { intros t x Ht. rewrite Hother by set_solver. apply (so_ready _ S). cbn. set_solver. }
  split; cbn.
  - intros t x. destruct (runs_on (status c)) eqn:Er; [|apply Hrq].
    rewrite elem_of_app, list_elem_of_singleton. intros [Ht| ->]; [by apply Hrq|].
    rewrite Hcur. by intros [= <-].
  - intros t x Ht. destruct (decide (t = cur_)) as [->|].
    + rewrite Hcur, (Hcs Ht). simpl. intros [= <-]. auto.
    + rewrite Hother by set_solver. by apply (so_sleep _ S).
  - intros t x. destruct (decide (t = next)) as [->|]; [auto|].
    destruct (decide (t = cur_)) as [->|].
    + rewrite Hcur. intros [= <-] Hst. right. destruct (runs_on (status c)) eqn:Er; [set_solver|].
      destruct Hst as [E|[E|E]]; [by rewrite E in Er..|].
      right. by apply (so_asleep _ S c).
    + rewrite Hother by done. intros Hx Hst.
      pose proof (so_other _ S t x Hx Hst) as H. cbn in H. destruct (runs_on _); set_solver.
  - destruct (runs_on (status c)) eqn:Er; [|done].
    rewrite <- app_assoc. simpl. rewrite <- Permutation_middle. apply NoDup_cons. split; [|done].
    rewrite elem_of_app. intros [?|Hs]; [done|]. by rewrite (Hcs Hs) in Er.
  - destruct (runs_on _); set_solver.
  - intros x Hx Hst. rewrite (Hnext x Hx) in Hst. done.
Qed.

Lemma spec_dispatch_status s s' : status_ok s -> spec_dispatch s = Some s' ->
  (forall c, s_cur s ∈ s_sleep s -> s_tasks s !! s_cur s = Some c -> status c = TASK_SLEEP) ->
  status_ok s' /\ s_cur s' ∉ s_ready s'.
Proof.
  intros S E Hcs. destruct s as [cu rq sq ts]. unfold spec_dispatch in E. cbn in E, Hcs.
  apply bind_Some in E as (c & Hc & E).
  destruct (bool_decide (status c = TASK_RUNNING) && (0 <? ticks c)) eqn:Eb.
  - injection E as <-. apply andb_true_iff in Eb as [Eb%bool_decide_eq_true _]. cbn. split.
    + apply (status_ok_tasks _ _ _ ts); [done|]. intros t x. rewrite lookup_insert.
      case_decide as Ht; [|eauto]. subst. intros [= <-]. eauto.
    + intros Hin. pose proof (so_ready _ S cu c Hin Hc). congruence.
  - destruct rq as [|next rq]; [injection E as <-; split; [done|apply not_elem_of_nil]|].
    set (ts1 := alter (fun t => set_ticks t (priority t)) next ts) in E.
    assert (status_ok (Sched cu (next :: rq) sq ts1)) as S1.
    { apply (status_ok_tasks _ _ _ ts); [done|]. intros t x. by apply alter_status. }
    destruct (Z.eqb_spec cu next) as [->|Hne]; injection E as <-; cbn.
    + pose proof (so_nodup _ S1) as Hd. cbn in Hd. apply NoDup_cons in Hd as [Hn Hd].
      split; [|set_solver]. split; cbn; [| | |done|set_solver|].
      * intros t x Ht. apply (so_ready _ S1). cbn. set_solver.
      * apply (so_sleep _ S1).
      * intros t x Hx Hst. pose proof (so_other _ S1 t x Hx Hst) as H. cbn in H. set_solver.
      * apply (so_asleep _ S1).
    + apply switch_status; [done| |done|by intros; apply Hcs].
      unfold ts1. by rewrite lookup_alter_ne.
Qed.

(** C2: no runnable task is lost and none is queued twice: after [schedule]
    every task that is ready, running or asleep is the current one or is on
    the queue its status names, queued tasks have that status, and the queues
    hold no task twice. *)
Theorem schedule_keeps_tasks s rq sq :
  sched_rep s rq sq -> zlen (woken (tasks s) sq) <= 10 ->
  status_ok (Sched (cur s) rq sq (tasks s)) ->
  exists s' rq' sq', schedule s = Some s' /\ sched_rep s' rq' sq' /\
    status_ok (Sched (cur s') rq' sq' (tasks s')).
Proof.
  intros R Hw S. destruct (schedule_ok s rq sq R Hw) as (s' & rq' & sq' & E & Es & R' & _).
  exists s', rq', sq'. split_and!; [done|done|].
  pose proof (wake_phase_status _ S (sr_cur_ready _ _ _ R)) as S1. cbn in S1.
  apply (spec_dispatch_status _ _ (S1 (fun H => proj1 (sr_cur_sleep _ _ _ R H))) Es).
  cbn. intros c [Hne Hin]%list_elem_of_filter Hc.
  rewrite spec_wake_out in Hc by (unfold woken; rewrite list_elem_of_filter; tauto).
  apply spec_tick_Some in Hc as (y & Hy & ->). by apply (so_sleep _ S (cur s)).
Qed.

(** A concrete system: task 4096 is current, 8192 and 12288 are ready, none is
    asleep. *)
Definition task0 (st : task_status) (prio : Z) : task_struct :=
  Task 0 0 st prio prio 0 0 0 [].
Definition tasks0 : gmap Z task_struct :=
  <[4096 := task0 TASK_RUNNING 2]> (<[8192 := task0 TASK_READY 3]>
  (<[12288 := task0 TASK_READY 1]> ∅)).
Definition mem0 : heap :=
  <[100 := Node NULL 8228]> (<[8228 := Node 100 12324]> (<[12324 := Node 8228 108]>
  (<[108 := Node 12324 NULL]> (<[120 := Node NULL 128]> (<[128 := Node 120 NULL]>
  (<[4132 := Node NULL NULL]> ∅)))))).
Definition kstate0 : kstate :=
  KState mem0 (List 100 108 2) (List 120 128 0) (List 140 148 0) tasks0 4096.

Lemma dom_tasks0 : dom tasks0 = {[4096; 8192; 12288]}.
Proof. unfold tasks0. rewrite !dom_insert_L. set_solver. Qed.

Lemma krep0 : krep kstate0 [8192; 12288] [].
Proof.
  unfold krep. cbn [tasks kstate0]. rewrite dom_tasks0. split.
  - split; try reflexivity; [repeat split; intros; reflexivity|
      apply (bool_decide_unpack _); vm_compute; exact I..].
  - split; try reflexivity; [repeat split; intros; reflexivity|
      apply (bool_decide_unpack _); vm_compute; exact I..].
  - apply (bool_decide_unpack _); vm_compute; exact I.
  - set_solver.
  - apply (bool_decide_unpack _); vm_compute; exact I.
  - intros t Ht. assert (t = 4096 \/ t = 8192 \/ t = 12288) as [->|[->| ->]] by set_solver;
      apply (bool_decide_unpack _); vm_compute; exact I.
  - intros t Ht. assert (t = 4096 \/ t = 8192 \/ t = 12288) as H by set_solver. lia.
  - intros t Ht Hn. assert (t = 4096) as -> by set_solver. reflexivity.
  - vm_compute. reflexivity.
Qed.

Lemma sched_rep0 : sched_rep kstate0 [8192; 12288] [].
Proof.
  split; [apply krep0| | |by intros ?%not_elem_of_nil].
  - cbn [cur tasks kstate0]. rewrite dom_tasks0. set_solver.
  - apply (bool_decide_unpack _); vm_compute; exact I.
Qed.

Lemma status_ok0 : status_ok (Sched 4096 [8192; 12288] [] tasks0).
Proof.
  split; cbn [s_cur s_ready s_sleep s_tasks].
  - intros t x Ht. assert (t = 8192 \/ t = 12288) as [->| ->] by set_solver;
      vm_compute; by intros [= <-].
  - by intros t x ?%not_elem_of_nil.
  - intros t x Hx _. assert (t ∈ dom tasks0) as Ht by (apply elem_of_dom; eauto).
    rewrite dom_tasks0 in Ht. set_solver.
  - apply (bool_decide_unpack _); vm_compute; exact I.
  - intros H. exfalso. revert H. apply (bool_decide_unpack _); vm_compute; exact I.
  - vm_compute. by intros x [= <-].
Qed.

Lemma schedule_refines_witness :
  exists s' rq' sq', schedule kstate0 = Some s' /\
    spec_schedule (Sched (cur kstate0) [8192; 12288] [] (tasks kstate0))
      = Some (Sched (cur s') rq' sq' (tasks s')) /\
    sched_rep s' rq' sq' /\ kframe kstate0 s'.
Proof. apply (schedule_refines kstate0 _ _ sched_rep0). vm_compute. discriminate. Defined.

Lemma schedule_keeps_tasks_witness :
  exists s' rq' sq', schedule kstate0 = Some s' /\ sched_rep s' rq' sq' /\
    status_ok (Sched (cur s') rq' sq' (tasks s')).
Proof.
  apply (schedule_keeps_tasks kstate0 _ _ sched_rep0); [vm_compute; discriminate|].
  exact status_ok0.
Defined.

(** ** Sleeping for less than a tick *)

(** A sleep of less than one timer period does not end at the next tick:
    [thread_sleep] rounds it down to zero ticks, and the first decrement, in
    the [schedule] it calls, wraps the unsigned counter to [2^32 - 1]. *)
Theorem thread_sleep_short_wraps :
  (forall ms_n, 0 <= ms_n < 10 ->
    thread_sleep kstate0 ms_n = thread_sleep kstate0 0) /\
  exists s', thread_sleep kstate0 0 = Some s' /\ cur s' = 8192 /\
    (fun x => (status x, sleep_ticks x)) <$> tasks s' !! 4096
      = Some (TASK_SLEEP, 4294967295).
Proof.
  split.
  - intros ms_n Hms. unfold thread_sleep.
    replace (u32 (HZ * ms_n) / 1000) with (u32 (HZ * 0) / 1000); [done|].
    unfold HZ. rewrite !u32_small by lia. by rewrite (Z.div_small (100 * ms_n)) by lia.
  - eexists. split; [vm_compute; reflexivity|]. by split.
Qed.
