(* ===== verification/Threads.v ===== *)
(** * Status changes and time slices: kernel/thread/thread.c

    What the status operations of [Sched] do to the scheduler's queues, and the
    order in which ready tasks get the processor. *)

From S2P Require Import Links DList Sched Prelude.

(** ** The current task gives up the processor *)

Lemma krep_tasks s rq sq ts : krep s rq sq -> dom ts = dom (tasks s) ->
  krep (with_tasks s ts) rq sq.
Proof. unfold krep. cbn. by intros L ->. Qed.

(** Blocking the current task, before the call of [schedule]. *)
Lemma block_cur_ok s rq sq st : sched_rep s rq sq -> cur s ∉ sq ->
  st <> TASK_READY -> st <> TASK_SLEEP ->
  let s' := with_tasks s (alter (fun t => set_status t st) (cur s) (tasks s)) in
  set_thread_status s (cur s) st false = Some s' /\ sched_rep s' rq sq /\
  set_thread_status s (cur s) st true = schedule s'.
Proof.
  intros [L Hc Hcr _] Hcs H1 H2 s'. unfold set_thread_status, _set_thread_status.
  pose proof Hc as [c Ec]%elem_of_dom. rewrite Ec. mstep.
  rewrite (bool_decide_eq_false_2 (st = TASK_READY)) by done.
  rewrite (bool_decide_eq_false_2 (st = TASK_SLEEP)) by done.
  rewrite andb_false_r. cbn [negb]. mstep.
  rewrite (remove_idle_ok _ _ _ _ _ _ L) by set_solver. mstep. cbn [tasks with_ready].
  rewrite upd_task_ok by done. mstep. change (with_ready s (mem s) (ready_tasks s)) with
    (KState (mem s) (ready_tasks s) (sleep_tasks s) (all_tasks s) (tasks s) (cur s)).
  cbn [with_tasks mem ready_tasks sleep_tasks all_tasks cur tasks].
  split_and!; [done| |done].
  apply (sched_rep_intro _ _ _ (dom (tasks s))); cbn; [apply dom_alter_L|done..].
Qed.

(** Readying a task that waits. *)
Lemma ready_ok s rq sq t x first : sched_rep s rq sq -> tasks s !! t = Some x ->
  t ∉ rq ++ sq -> t <> cur s -> status x <> TASK_READY -> status x <> TASK_RUNNING ->
  exists s', thread_ready s t false first = Some s' /\
    sched_rep s' (if first then t :: rq else rq ++ [t]) sq /\
    cur s' = cur s /\ tasks s' = wake (tasks s) t /\ kframe s s'.
Proof.
  intros [L Hc Hcr Hcs] Hx Hn Hne H1 H2. unfold thread_ready, _set_thread_status.
  assert (t ∈ dom (tasks s)) as Ht by (apply elem_of_dom; eauto).
  rewrite Hx. mstep. rewrite (bool_decide_eq_false_2 (status x = TASK_READY)) by done.
  rewrite (bool_decide_eq_false_2 (status x = TASK_RUNNING)) by done.
  change (bool_decide (TASK_READY = TASK_READY)) with true.
  change (bool_decide (TASK_READY = TASK_SLEEP)) with false. cbn [negb andb].
  assert (dom (alter (fun x => set_status x TASK_READY) t (tasks s)) = dom (tasks s)) as Ed
    by apply dom_alter_L.
  assert (exists h l, (if first then pushl (mem s) (ready_tasks s) (general_tag t)
      else pushr (mem s) (ready_tasks s) (general_tag t)) = Some (h, l) /\
    lists_rep h l (sleep_tasks s) (dom (tasks s)) (if first then t :: rq else rq ++ [t]) sq /\
    sched_frame (dom (tasks s)) (ready_tasks s) (sleep_tasks s) (mem s) h l (sleep_tasks s))
    as (h & l & -> & L' & Fr).
  { destruct first; [by apply pushl_ready_ok|by apply pushr_ready_ok]. }
  mstep. cbn [tasks with_ready]. rewrite upd_task_ok by done. mstep.
  eexists. split; [done|]. split; [|split; [done|split; [done|split; [done|split; [done|exact Fr]]]]].
  split; cbn.
  - unfold krep. cbn. by rewrite Ed.
  - by rewrite Ed.
  - destruct first; set_solver.
  - intros [Hl Hst]%Hcs. split; [done|]. unfold wake. by rewrite lookup_alter_ne.
Qed.

(** ** Time slices *)

(** [n] timer ticks, each a call of [schedule]. *)
Fixpoint ticks_ (n : nat) (s : kstate) : option kstate :=
  match n with O => Some s | S n' => s ← schedule s; ticks_ n' s end.

Lemma ticks_add m n s : ticks_ (m + n) s = (s' ← ticks_ m s; ticks_ n s').
Proof.
  revert s. induction m as [|m IH]; intros s; simpl; [done|].
  destruct (schedule s); simpl; [apply IH|done].
Qed.

(** A task that runs with [k] ticks left. *)
Definition running (s : kstate) (k : Z) : Prop :=
  exists c, tasks s !! cur s = Some c /\ status c = TASK_RUNNING /\ ticks c = k.

(** A tick inside the time slice. *)
Lemma tick_in_slice s rq k : sched_rep s rq [] -> running s k -> 0 < k < 2 ^ 32 ->
  exists s', schedule s = Some s' /\ sched_rep s' rq [] /\ running s' (k - 1) /\
    cur s' = cur s /\ forall t, t <> cur s -> tasks s' !! t = tasks s !! t.
Proof.
  intros R (c & Hc & Hst & Ht) Hk.
  destruct (schedule_ok s rq [] R) as (s' & rq' & sq' & E & Es & R' & _); [done|].
  unfold spec_schedule, spec_dispatch in Es. cbn in Es. rewrite Hc in Es. cbn in Es.
  rewrite bool_decide_eq_true_2 in Es by done. rewrite Ht in Es.
  destruct (Z.ltb_spec 0 k); [|lia]. simpl in Es. injection Es as E1 E2 E3 E4.
  exists s'. subst rq' sq'. split_and!; [done|done| |by symmetry|].
  - exists (set_ticks (set_elapset c (u32 (elapset_ticks c + 1))) (u32 (k - 1))).
    rewrite <- E1, <- E4, lookup_insert_eq. split_and!; [done..|]. apply u32_small. lia.
  - intros t Hne. rewrite <- E4. by apply lookup_insert_ne.
Qed.

(** The tick that ends it. *)
Lemma tick_switch s next rq x : sched_rep s (next :: rq) [] -> running s 0 ->
  tasks s !! next = Some x ->
  exists s', schedule s = Some s' /\ sched_rep s' (rq ++ [cur s]) [] /\ cur s' = next /\
    running s' (priority x) /\
    forall t, t <> cur s -> t <> next -> tasks s' !! t = tasks s !! t.
Proof.
  intros R (c & Hc & Hst & Ht) Hx.
  destruct (schedule_ok s (next :: rq) [] R) as (s' & rq' & sq' & E & Es & R' & _); [done|].
  assert (cur s <> next) as Hne by (pose proof (sr_cur_ready _ _ _ R); set_solver).
  unfold spec_schedule, spec_dispatch in Es. cbn in Es. rewrite Hc in Es. cbn in Es.
  rewrite Ht, andb_false_r in Es. destruct (Z.eqb_spec (cur s) next); [done|].
  rewrite Hst in Es. cbn [runs_on] in Es.
  injection Es as E1 E2 E3 E4. subst rq' sq'. exists s'. split_and!; [done|done|done| |].
  - unfold running. rewrite <- E1, <- E4, lookup_alter_eq. unfold wake.
    rewrite lookup_alter_ne, lookup_alter_eq, Hx by done. eexists. by split_and!.
  - intros t H1 H2. rewrite <- E4. unfold wake. by rewrite !lookup_alter_ne by done.
Qed.

Lemma slice_ok k : forall s next rq x, sched_rep s (next :: rq) [] -> running s (Z.of_nat k) ->
  Z.of_nat k < 2 ^ 32 -> tasks s !! next = Some x ->
  exists s', ticks_ (S k) s = Some s' /\ sched_rep s' (rq ++ [cur s]) [] /\ cur s' = next /\
    running s' (priority x) /\
    forall t, t <> cur s -> t <> next -> tasks s' !! t = tasks s !! t.
Proof.
  induction k as [|k IH]; intros s next rq x R Hr Hk Hx.
  - destruct (tick_switch s next rq x R Hr Hx) as (s' & E & H). exists s'.
    split; [|done]. cbn. by rewrite E.
  - assert (cur s <> next) as Hne by (pose proof (sr_cur_ready _ _ _ R); set_solver).
    destruct (tick_in_slice s (next :: rq) _ R Hr) as (s1 & E & R1 & Hr1 & Ec & Ho); [lia|].
    replace (Z.of_nat (S k) - 1) with (Z.of_nat k) in Hr1 by lia.
    destruct (IH s1 next rq x R1 Hr1) as (s' & E' & R' & Hc & Hr' & Ho'); [lia|by rewrite Ho|].
    exists s'. rewrite Ec in *. split_and!; [|done..|].
    + change (ticks_ (S (S k)) s) with (s ← schedule s; ticks_ (S k) s). by rewrite E.
    + intros t H1 H2. rewrite Ho' by done. by apply Ho.
Qed.

(** How many ticks the tasks of a queue take together: a task with priority
    [p] runs for [p] ticks and gives up the processor at the next one. *)
Definition slice (ts : gmap Z task_struct) (t : Z) : nat :=
  match ts !! t with Some x => S (Z.to_nat (priority x)) | None => O end.

Fixpoint slices (ts : gmap Z task_struct) (q : list Z) : nat :=
  match q with [] => O | t :: q' => (slice ts t + slices ts q')%nat end.

Lemma slices_ext ts ts' q : (forall t, t ∈ q -> ts' !! t = ts !! t) -> slices ts' q = slices ts q.
Proof.
  induction q as [|t q IH]; intros H; simpl; [done|]. unfold slice. rewrite H by set_solver.
  rewrite IH; [done|]. intros u Hu. apply H. set_solver.
Qed.

Definition priorities_ok (ts : gmap Z task_struct) : Prop :=
  forall t x, ts !! t = Some x -> 0 <= priority x < 2 ^ 32.

Lemma round_robin_ok pre : forall s t post k x, sched_rep s (pre ++ t :: post) [] ->
  running s (Z.of_nat k) -> Z.of_nat k < 2 ^ 32 ->
  (forall u, u ∈ pre -> exists y, tasks s !! u = Some y /\ 0 <= priority y < 2 ^ 32) ->
  tasks s !! t = Some x ->
  exists s', ticks_ (S k + slices (tasks s) pre) s = Some s' /\ cur s' = t /\
    running s' (priority x) /\ sched_rep s' (post ++ cur s :: pre) [].
Proof.
  induction pre as [|u pre IH]; intros s t post k x R Hr Hk Hp Hx.
  - rewrite Nat.add_0_r. destruct (slice_ok k s t post x R Hr Hk Hx) as (s' & E & R' & Hc & Hr' & _).
    eauto.
  - destruct (Hp u) as (y & Hy & Hyp); [set_solver|].
    pose proof (lr_nodup _ _ _ _ _ _ (sr_lists _ _ _ R)) as Hd. rewrite app_nil_r in Hd.
    simpl in Hd. apply NoDup_cons in Hd as [Hd _].
    pose proof (sr_cur_ready _ _ _ R) as Hc.
    destruct (slice_ok k s u (pre ++ t :: post) y R Hr Hk Hy) as (s1 & E1 & R1 & Hc1 & Hr1 & Ho).
    rewrite <- app_assoc in R1. cbn [app] in R1.
    assert (forall v, v ∈ pre ++ t :: post -> tasks s1 !! v = tasks s !! v) as Hv.
    { intros v Hv. apply Ho; set_solver. }
    destruct (IH s1 t (post ++ [cur s]) (Z.to_nat (priority y)) x R1) as (s' & E' & Hc' & Hr' & R').
    + by rewrite Z2Nat.id by lia.
    + lia.
    + intros v Hvp. rewrite Hv by set_solver. apply Hp. set_solver.
    + rewrite Hv by set_solver. done.
    + exists s'. split_and!; [|done|done|].
      * rewrite (slices_ext (tasks s)) in E' by (intros; apply Hv; set_solver).
        cbn [slices]. unfold slice. rewrite Hy.
        rewrite ticks_add, E1. cbn [mbind option_bind].
        by rewrite <- E'.
      * by rewrite Hc1, <- app_assoc in R'.
Qed.


