(* ===== verification/Segment.v ===== *)
(** * Semaphores: kernel/thread/schedule/segment.c

    A [segment_t] is a counting semaphore: a count and the list of the tasks
    blocked on it, linked through their [waiter_tag].  [seg_rep] relates it to
    the sequence of waiting tasks; the theorems give each operation's effect
    on the count, on the waiters and on the scheduler's queues. *)

From S2P Require Import Links DList Sched Threads Prelude.

Record segment_t := Segment { count : Z; waiters : list_t }.

Definition with_mem (s : kstate) (h : heap) : kstate := with_ready s h (ready_tasks s).

Definition init_segment (h : heap) (seg : segment_t) (n : Z) : option (heap * segment_t) :=
  '(h, l) ← init_list h (waiters seg);
  Some (h, Segment n l).

(** A [pid_t *] argument: NULL, or the value it points to.  The call returns
    the value left there. *)
Definition segment_wait (s : kstate) (seg : segment_t) (p : option Z)
    : option (kstate * segment_t * option Z) :=
  c ← tasks s !! cur s;
  let p := (fun _ => pid c) <$> p in
  if 0 <? count seg then Some (s, Segment (u32 (count seg - 1)) (waiters seg), p)
  else
    '(h, l) ← pushr (mem s) (waiters seg) (waiter_tag (cur s));
    s ← set_thread_status (with_mem s h) (cur s) TASK_BLOCKED true;
    Some (s, Segment (count seg) l, p).

(** [find_by_pid_visitor]: the flag is lowered if a node is not a task's. *)
Definition find_by_pid_visitor (ts : gmap Z task_struct) (p : Z) (node : Z)
    (arg : bool * Z) : (bool * Z) * bool :=
  match ts !! waiter_entry node with
  | Some t => if pid t =? p then ((arg.1, node), false) else (arg, true)
  | None => ((false, arg.2), false)
  end.

Definition find_waiter (s : kstate) (seg : segment_t) (p : Z) : option Z :=
  '(ok, found) ← foreach (find_by_pid_visitor (tasks s) p) (mem s) (waiters seg) (true, NULL);
  if (ok : bool) then Some found else None.

(** The result's last component is the value stored through [pid] when that is
    NULL: the code writes [*pid] whenever it wakes a task. *)
Definition segment_wakeup (s : kstate) (seg : segment_t) (p : option Z)
    : option (kstate * segment_t * option Z * option Z) :=
  '(tag, h, l) ←
    (match p with
     | Some v =>
         if nz v then tag ← find_waiter s seg v; Some (tag, mem s, waiters seg)
         else popl (mem s) (waiters seg)
     | None => popl (mem s) (waiters seg)
     end);
  if nz tag then
    let task := waiter_entry tag in
    t ← tasks s !! task;
    s ← thread_ready (with_mem s h) task false true;
    Some (s, Segment (count seg) l, (fun _ => pid t) <$> p,
          match p with None => Some (pid t) | Some _ => None end)
  else Some (with_mem s h, Segment (u32 (count seg + 1)) l, p, None).

Definition segment_count (seg : segment_t) : Z := count seg.

(** ** The abstraction *)

(** Where things are: tasks are page-aligned, and the sentinels of the three
    lists and the nodes of the tasks are all different. *)
Record seg_places (D : gset Z) (sent : list Z) (wh wt : Z) : Prop := {
  sp_align : forall t, t ∈ D -> t mod 4096 = 0;
  sp_tags : forall t, t ∈ D -> waiter_tag t ∉ sent;
  sp_head : wh ∉ sent /\ forall t, t ∈ D -> wh <> general_tag t /\ wh <> waiter_tag t;
  sp_tail : wt ∉ sent /\ forall t, t ∈ D -> wt <> general_tag t /\ wt <> waiter_tag t;
}.

Record seg_rep (s : kstate) (rq sq : list Z) (seg : segment_t) (ws : list Z) : Prop := {
  sg_sched : sched_rep s rq sq;
  sg_list : dlist (mem s) (waiters seg) (waiter_tag <$> ws);
  sg_waiting : forall t, t ∈ ws -> t ∉ rq ++ sq /\ t <> cur s /\
    status <$> tasks s !! t = Some TASK_BLOCKED;
  sg_alloc : forall t, t ∈ dom (tasks s) -> is_Some (nxt (mem s) (waiter_tag t));
  sg_places : seg_places (dom (tasks s)) (sentinels (ready_tasks s) (sleep_tasks s))
    (DList.head (waiters seg)) (DList.tail (waiters seg));
  sg_count : 0 <= count seg < 2 ^ 32;
  sg_idle : 0 < count seg -> ws = [];
}.

Lemma waiter_tag_inj a b : waiter_tag a = waiter_tag b -> a = b.
Proof. unfold waiter_tag. lia. Qed.

Lemma elem_of_waiter_tags t (ts : list Z) : waiter_tag t ∈ waiter_tag <$> ts <-> t ∈ ts.
Proof.
  rewrite list_elem_of_fmap. split; [|eauto]. intros (u & ->%waiter_tag_inj & ?). done.
Qed.

Lemma waiter_entry_tag t : 0 < t < 2 ^ 32 - 64 -> waiter_entry (waiter_tag t) = t.
Proof.
  intros Ht. unfold waiter_entry, waiter_tag.
  replace (t + 44 - 44) with t by lia. apply u32_small. lia.
Qed.

Lemma waiter_not_general t u : t mod 4096 = 0 -> u mod 4096 = 0 -> waiter_tag t <> general_tag u.
Proof. unfold waiter_tag, general_tag. intros H1 H2 E. divmod. Qed.

(** The scheduler's lists do not see stores to other nodes. *)
Lemma lists_rep_frame h h' rl sl D rq sq : lists_rep h rl sl D rq sq ->
  (forall x, x ∈ sentinels rl sl -> same_at h h' x) ->
  (forall t, t ∈ D -> same_at h h' (general_tag t)) ->
  lists_rep h' rl sl D rq sq.
Proof.
  intros L Hs Ht. split; try apply L.
  - apply (dlist_frame h); [apply L|]. intros x Hx.
    apply (lr_owned_ready _ _ _ _ _ _ L) in Hx as [?|(t & ? & ->)]; auto.
  - apply (dlist_frame h); [apply L|]. intros x Hx.
    apply (lr_owned_sleep _ _ _ _ _ _ L) in Hx as [?|(t & ? & ->)]; auto.
  - intros t Hd Hn. destruct (Ht t Hd) as [_ ->]. by apply L.
Qed.

(** A node the scheduler does not own. *)
Definition foreign (s : kstate) (x : Z) : Prop :=
  x ∉ sentinels (ready_tasks s) (sleep_tasks s) /\
  forall t, t ∈ dom (tasks s) -> x <> general_tag t.

(** Stores to other nodes keep the scheduler's state. *)
Lemma sched_rep_mem s rq sq h (xs : list Z) : sched_rep s rq sq -> (forall x, x ∉ xs -> same_at (mem s) h x) ->
  (forall x, x ∈ xs -> foreign s x) -> sched_rep (with_mem s h) rq sq.
Proof.
  intros [L Hc Hcr Hcs] K Hxs. split; [|done..].
  apply (lists_rep_frame (mem s)); [done| |].
  - intros x Hx. apply K. intros Hin. by apply (Hxs x Hin).
  - intros t Ht. apply K. intros Hin. by destruct (Hxs _ Hin) as [_ H]; apply (H t).
Qed.

Section Rep.
Context (s : kstate) (rq sq : list Z) (seg : segment_t) (ws : list Z).
Context (G : seg_rep s rq sq seg ws).

Lemma sg_known t : t ∈ ws -> t ∈ dom (tasks s).
Proof.
  intros Ht. destruct (sg_waiting _ _ _ _ _ G t Ht) as (_ & _ & H). apply elem_of_dom.
  destruct (tasks s !! t); [eauto|done].
Qed.

Lemma foreign_tag t : t ∈ dom (tasks s) -> foreign s (waiter_tag t).
Proof.
  intros Ht. pose proof (sg_places _ _ _ _ _ G) as P. split; [by apply P|].
  intros u Hu. apply waiter_not_general; by apply P.
Qed.

(** The nodes of the waiter list are no nodes of the scheduler. *)
Lemma sg_foreign x : x ∈ footprint (waiters seg) (waiter_tag <$> ws) -> foreign s x.
Proof.
  unfold footprint. rewrite elem_of_cons, elem_of_app, list_elem_of_singleton, list_elem_of_fmap.
  pose proof (sg_places _ _ _ _ _ G) as P.
  intros [->|[(t & -> & Ht%sg_known)| ->]]; [|by apply foreign_tag|].
  - destruct (sp_head _ _ _ _ P) as [H1 H2]. split; [done|]. intros t Ht. by apply H2.
  - destruct (sp_tail _ _ _ _ P) as [H1 H2]. split; [done|]. intros t Ht. by apply H2.
Qed.

Lemma waiter_fresh t : t ∈ dom (tasks s) -> t ∉ ws ->
  fresh_node (mem s) (waiters seg) (waiter_tag <$> ws) (waiter_tag t).
Proof.
  intros Ht Hn. split_and!.
  - unfold footprint. rewrite elem_of_cons, elem_of_app, list_elem_of_singleton, elem_of_waiter_tags.
    pose proof (sg_places _ _ _ _ _ G) as P. intros [E|[?|E]]; [|done|].
    + destruct (sp_head _ _ _ _ P) as [_ H]. by destruct (H t Ht).
    + destruct (sp_tail _ _ _ _ P) as [_ H]. by destruct (H t Ht).
  - pose proof (lr_addr _ _ _ _ _ _ (sr_lists _ _ _ (sg_sched _ _ _ _ _ G)) t Ht).
    unfold waiter_tag, NULL. lia.
  - by apply (sg_alloc _ _ _ _ _ G).
Qed.

End Rep.

(** ** The scheduler passes a blocked task by *)

Lemma spec_schedule_blocked cu rq sq ts c : ts !! cu = Some c ->
  runs_on (status c) = false -> cu ∉ sq -> rq <> [] -> cu ∉ rq -> NoDup sq ->
  exists next rq' sq' ts', spec_schedule (Sched cu rq sq ts) = Some (Sched next rq' sq' ts') /\
    (forall t, t ∈ next :: rq' ++ sq' -> t ∈ rq ++ sq) /\
    (forall t, t ∉ rq ++ sq -> ts' !! t = ts !! t).
Proof.
  intros Hc Hst Hsq Hrq Hcr Hd. unfold spec_schedule, spec_dispatch. cbn [s_cur s_ready s_sleep s_tasks].
  assert (forall t, t ∈ woken ts sq -> t ∈ sq) as Hw
    by (intros t Ht; by apply list_elem_of_filter in Ht as [_ ?]).
  assert (forall t, t ∉ sq -> spec_wake (spec_tick ts sq) (woken ts sq) !! t = ts !! t) as Hk.
  { intros t Ht. rewrite spec_wake_out, spec_tick_other by auto. done. }
  rewrite Hk, Hc by done. mstep.
  rewrite bool_decide_eq_false_2 by (intros E; by rewrite E in Hst). cbn [andb].
  assert (forall t, t ∈ reverse (woken ts sq) ++ rq -> t ∈ rq ++ sq) as Hq.
  { intros t. rewrite !elem_of_app, elem_of_reverse. intros [?%Hw|?]; auto. }
  destruct (reverse (woken ts sq) ++ rq) as [|next rq'] eqn:Eq.
  { apply app_eq_nil in Eq as [_ ?]. done. }
  assert (cu <> next) as Hne.
  { intros ->. assert (next ∈ rq ++ sq) by (apply Hq; set_solver). set_solver. }
  destruct (Z.eqb_spec cu next); [done|]. rewrite Hst.
  do 4 eexists. split; [done|]. split.
  - intros t. rewrite elem_of_cons, elem_of_app, list_elem_of_filter.
    intros [->|[?|[_ ?]]]; [apply Hq; set_solver..|]. set_solver.
  - intros t Ht. assert (next ∈ rq ++ sq) by (apply Hq; set_solver).
    rewrite !lookup_alter_ne by set_solver. apply Hk. set_solver.
Qed.

(** Steps of the scheduler keep every foreign node. *)
Lemma kframe_foreign s s' x : kframe s s' -> foreign s x -> same_at (mem s) (mem s') x.
Proof. intros (_ & _ & (_ & _ & _ & _ & K)) [H1 H2]. by apply K. Qed.

Lemma kframe_sentinels s s' : kframe s s' ->
  sentinels (ready_tasks s') (sleep_tasks s') = sentinels (ready_tasks s) (sleep_tasks s).
Proof. intros (_ & _ & (E1 & E2 & E3 & E4 & _)). unfold sentinels. congruence. Qed.

(** Rebuilds [seg_rep] after the waiter list became [l] on heap [h] and the
    scheduler took a step from there. *)
Lemma seg_rep_step s rq sq seg ws h l n s' rq' sq' ws' :
  seg_rep s rq sq seg ws -> dlist h l (waiter_tag <$> ws') ->
  keeps (mem s) h (waiters seg) l (waiter_tag n :: footprint (waiters seg) (waiter_tag <$> ws)) ->
  n ∈ dom (tasks s) -> (forall t, t ∈ ws' -> t = n \/ t ∈ ws) -> is_Some (nxt h (waiter_tag n)) ->
  (forall t, t ∈ ws -> is_Some (nxt h (waiter_tag t))) ->
  kframe (with_mem s h) s' -> sched_rep s' rq' sq' ->
  (forall t, t ∈ ws' -> t ∉ rq' ++ sq' /\ t <> cur s' /\
    status <$> tasks s' !! t = Some TASK_BLOCKED) ->
  (0 < count seg -> ws' = []) ->
  seg_rep s' rq' sq' (Segment (count seg) l) ws'.
Proof.
  intros G Dl (E1 & E2 & K) Hn Hws An Aw F R W I. pose proof (kframe_sentinels _ _ F) as Es.
  pose proof F as (_ & Ed & _). cbn in Es, Ed.
  split; cbn; [done| |done| | |apply G|done].
  - apply (dlist_frame h); [done|]. intros x Hx. apply (kframe_foreign _ _ _ F).
    assert (x = waiter_tag n \/ x ∈ footprint (waiters seg) (waiter_tag <$> ws)) as [->|Hx'].
    { unfold footprint in *. rewrite E1, E2 in Hx. set_solver. }
    + by apply (foreign_tag _ _ _ _ _ G).
    + by apply (sg_foreign _ _ _ _ _ G).
  - intros t Ht. rewrite Ed in Ht. destruct (kframe_foreign _ _ (waiter_tag t) F) as [-> _];
      [by apply (foreign_tag _ _ _ _ _ G)|]. cbn [mem with_mem with_ready].
    destruct (decide (t = n)) as [->|Hne]; [done|]. destruct (decide (t ∈ ws)) as [|Hnw]; [auto|].
    destruct (K (waiter_tag t)) as [-> _]; [|by apply G].
    rewrite elem_of_cons. intros [->%waiter_tag_inj|Hin]; [done|].
    by destruct (waiter_fresh _ _ _ _ _ G t Ht Hnw) as [? _].
  - rewrite Es, Ed, E1, E2. apply G.
Qed.

Lemma spec_tick_ext ts ts' sq t : ts' !! t = ts !! t ->
  spec_tick ts' sq !! t = spec_tick ts sq !! t.
Proof.
  revert ts ts'. induction sq as [|u sq IH]; intros ts ts' E; [done|].
  change (spec_tick (tick ts' u) sq !! t = spec_tick (tick ts u) sq !! t). apply IH.
  unfold tick. rewrite !lookup_alter. case_decide; subst; by rewrite E.
Qed.

Lemma woken_ext ts ts' sq : (forall t, t ∈ sq -> ts' !! t = ts !! t) ->
  woken ts' sq = woken ts sq.
Proof.
  intros E. unfold woken. apply filter_ext_in. intros t Ht. unfold expired.
  by rewrite (spec_tick_ext ts ts') by auto.
Qed.

(** Blocking on the semaphore. *)
Lemma segment_block_ok s rq sq seg ws p c :
  seg_rep s rq sq seg ws -> count seg = 0 -> tasks s !! cur s = Some c ->
  runs_on (status c) = true -> cur s ∉ sq -> rq <> [] -> zlen (woken (tasks s) sq) <= 10 ->
  zlen ws + 1 < 2 ^ 31 ->
  exists s' rq' sq' l, segment_wait s seg p = Some (s', Segment 0 l, (fun _ => pid c) <$> p) /\
    seg_rep s' rq' sq' (Segment 0 l) (ws ++ [cur s]) /\ cur s' ∈ rq ++ sq.
Proof.
  intros G H0 Hc Hst Hsq Hrq Hw Hlen. pose proof (sg_sched _ _ _ _ _ G) as R.
  pose proof (sr_cur _ _ _ R) as Hd.
  assert (cur s ∉ ws) as Hnw.
  { intros Hin. destruct (sg_waiting _ _ _ _ _ G _ Hin) as (_ & ? & _). done. }
  unfold segment_wait. rewrite Hc. mstep. rewrite H0.
  destruct (pushr_ok (mem s) (waiters seg) (waiter_tag <$> ws) (waiter_tag (cur s)))
    as (h & l & -> & Dl & K); [apply G|by apply (waiter_fresh _ _ _ _ _ G)| |].
  { unfold zlen in *. by rewrite length_fmap. }
  mstep. change [waiter_tag (cur s)] with (waiter_tag <$> [cur s]) in Dl. rewrite <- fmap_app in Dl.
  assert (sched_rep (with_mem s h) rq sq) as R1.
  { apply (sched_rep_mem _ _ _ _ (waiter_tag (cur s) :: footprint (waiters seg) (waiter_tag <$> ws)));
      [done|apply K|]. intros x [->|Hx]%elem_of_cons;
      [by apply (foreign_tag _ _ _ _ _ G)|by apply (sg_foreign _ _ _ _ _ G)]. }
  destruct (block_cur_ok (with_mem s h) rq sq TASK_BLOCKED R1) as (_ & R2 & E2); [done..|].
  cbn [cur with_mem with_ready] in E2. cbn in R2. rewrite E2. set (s2 := with_tasks _ _) in *.
  assert (forall t, t <> cur s -> tasks s2 !! t = tasks s !! t) as Ho
    by (intros t Ht; by apply lookup_alter_ne).
  assert (tasks s2 !! cur s = Some (set_status c TASK_BLOCKED)) as Hc2
    by (cbn; by rewrite lookup_alter_eq, Hc).
  destruct (schedule_ok s2 rq sq R2) as (s' & rq' & sq' & E' & Es & R' & F').
  { rewrite (woken_ext (tasks s)); [done|]. intros t Ht. apply Ho. set_solver. }
  pose proof (lr_nodup _ _ _ _ _ _ (sr_lists _ _ _ R)) as Hnd.
  destruct (spec_schedule_blocked (cur s) rq sq (tasks s2) _ Hc2 eq_refl Hsq Hrq (sr_cur_ready _ _ _ R))
    as (nx & rq2 & sq2 & ts2 & Es' & Hin & Hout); [by apply NoDup_app in Hnd as (_ & _ & ?)|].
  change (cur s2) with (cur s) in Es. rewrite Es' in Es. injection Es as -> -> -> ->. rewrite E'. mstep.
  exists s', rq', sq', l. split; [done|].
  assert (cur s ∉ rq ++ sq) as Hcq by (pose proof (sr_cur_ready _ _ _ R); set_solver).
  split; [|apply Hin; set_solver].
  rewrite <- H0. eapply (seg_rep_step s rq sq seg ws h l (cur s)); try done.
  - set_solver.
  - by apply (dlist_node _ _ _ Dl), elem_of_cons; right; rewrite elem_of_app, elem_of_waiter_tags; set_solver.
  - intros t Ht. by apply (dlist_node _ _ _ Dl), elem_of_cons; right; rewrite elem_of_app, elem_of_waiter_tags; set_solver.
  - apply kframe_trans with s2; [apply kframe_tasks, dom_alter_L|done].
  - intros t Ht. assert (t ∉ rq ++ sq) as Htq.
    { apply elem_of_app in Ht as [Ht| ->%list_elem_of_singleton]; [|done].
      by apply (sg_waiting _ _ _ _ _ G). }
    split; [|split].
    + intros Hx. apply Htq, Hin. set_solver.
    + intros ->. apply Htq, Hin. set_solver.
    + rewrite Hout by done. apply elem_of_app in Ht as [Ht| ->%list_elem_of_singleton].
      * destruct (sg_waiting _ _ _ _ _ G t Ht) as (_ & ? & Hst'). by rewrite Ho.
      * by rewrite Hc2.
  - lia.
Qed.

(** Waking the first waiter. *)
Lemma segment_wakeup_ok s rq sq seg t ws p x : seg_rep s rq sq seg (t :: ws) ->
  (forall v, p = Some v -> v = 0) -> tasks s !! t = Some x ->
  exists s' l, segment_wakeup s seg p = Some (s', Segment (count seg) l, (fun _ => pid x) <$> p,
      match p with None => Some (pid x) | Some _ => None end) /\
    seg_rep s' (t :: rq) sq (Segment (count seg) l) ws /\ cur s' = cur s /\
    tasks s' = wake (tasks s) t.
Proof.
  intros G Hp Hx. pose proof (sg_sched _ _ _ _ _ G) as R.
  destruct (sg_waiting _ _ _ _ _ G t) as (Htq & Htc & Hst); [set_solver|].
  rewrite Hx in Hst. injection Hst as Hst.
  assert (t ∈ dom (tasks s)) as Hd by (apply elem_of_dom; eauto).
  pose proof (lr_addr _ _ _ _ _ _ (sr_lists _ _ _ R) t Hd) as Ha.
  pose proof (popl_ok (mem s) (waiters seg) _ (sg_list _ _ _ _ _ G)) as P. simpl in P.
  destruct P as (h & l & E & Dl & K & Hn & _).
  unfold segment_wakeup. replace (match p with Some v => _ | None => _ end)
    with (popl (mem s) (waiters seg)) by (destruct p as [v|]; [by rewrite (Hp v)|done]).
  rewrite E. mstep. unfold nz.
  destruct (Z.eqb_spec (waiter_tag t) 0) as [E0|_]; [unfold waiter_tag in E0; lia|]. cbn [negb].
  rewrite waiter_entry_tag, Hx by done. mstep.
  assert (sched_rep (with_mem s h) rq sq) as R1.
  { apply (sched_rep_mem _ _ _ _ (footprint (waiters seg) (waiter_tag <$> t :: ws)));
      [done|apply K|apply (sg_foreign _ _ _ _ _ G)]. }
  destruct (ready_ok (with_mem s h) rq sq t x true R1) as (s' & E' & R' & Ec & Et & F);
    try done; [by rewrite Hst..|].
  rewrite E'. mstep. exists s', l. split; [done|]. split; [|done].
  pose proof (sg_list _ _ _ _ _ G) as DG. apply dlist_nodup in DG. rewrite fmap_cons in DG.
  apply NoDup_cons in DG as [DG _]. rewrite elem_of_waiter_tags in DG.
  eapply (seg_rep_step s rq sq seg (t :: ws) h l t); try done.
  - by eapply keeps_weaken; [exact K|]; intros y Hy; apply elem_of_cons; right.
  - set_solver.
  - intros u [->|Hu]%elem_of_cons; [by rewrite Hn|].
    apply (dlist_node _ _ _ Dl), elem_of_cons. right.
    apply elem_of_app. left. by apply elem_of_waiter_tags.
  - intros u Hu. destruct (sg_waiting _ _ _ _ _ G u) as (H1 & H2 & H3); [set_solver|].
    assert (u <> t) as Hut by (intros ->; done).
    split; [set_solver|]. rewrite Ec, Et. split; [done|]. unfold wake. by rewrite lookup_alter_ne.
  - intros Hpos. by apply (sg_idle _ _ _ _ _ G) in Hpos.
Qed.

(** C4: [segment_wait] takes a unit when there is one, changing nothing else;
    with none left it appends the current task to the waiters, blocks it and
    switches to a task of the ready or sleep queue, and the new state is again
    well formed with the longer waiter list. *)
Theorem segment_wait_spec s rq sq seg ws p c :
  seg_rep s rq sq seg ws -> tasks s !! cur s = Some c -> runs_on (status c) = true ->
  cur s ∉ sq -> rq <> [] -> zlen (woken (tasks s) sq) <= 10 -> zlen ws + 1 < 2 ^ 31 ->
  if 0 <? count seg then
    let seg' := Segment (count seg - 1) (waiters seg) in
    segment_wait s seg p = Some (s, seg', (fun _ => pid c) <$> p) /\ seg_rep s rq sq seg' ws
  else
    exists s' rq' sq' l, segment_wait s seg p = Some (s', Segment 0 l, (fun _ => pid c) <$> p) /\
      seg_rep s' rq' sq' (Segment 0 l) (ws ++ [cur s]) /\ cur s' ∈ rq ++ sq.
Proof.
  intros G Hc Hst Hsq Hrq Hw Hlen. pose proof (sg_count _ _ _ _ _ G).
  destruct (Z.ltb_spec 0 (count seg)).
  - unfold segment_wait. rewrite Hc. mstep. destruct (Z.ltb_spec 0 (count seg)); [|lia].
    rewrite u32_small by lia. split; [done|]. pose proof (sg_idle _ _ _ _ _ G).
    split; cbn; try apply G; [lia|auto].
  - apply (segment_block_ok s rq sq seg ws p c); try done. lia.
Qed.

(** [segment_wakeup] with no task named hands a unit on: with waiters, the
    one that has waited longest leaves the list and becomes the first ready
    task, the count staying zero; without, the count goes up by one.  Either
    way no other task changes. *)
Theorem segment_wakeup_spec s rq sq seg ws p :
  seg_rep s rq sq seg ws -> (forall v, p = Some v -> v = 0) -> count seg + 1 < 2 ^ 32 ->
  match ws with
  | [] => let seg' := Segment (count seg + 1) (waiters seg) in
      segment_wakeup s seg p = Some (s, seg', p, None) /\ seg_rep s rq sq seg' []
  | t :: ws' => exists s' l p' q, segment_wakeup s seg p = Some (s', Segment (count seg) l, p', q) /\
      seg_rep s' (t :: rq) sq (Segment (count seg) l) ws' /\ cur s' = cur s /\
      tasks s' = wake (tasks s) t
  end.
Proof.
  intros G Hp Hcnt. pose proof (sg_count _ _ _ _ _ G). destruct ws as [|t ws].
  - unfold segment_wakeup. replace (match p with Some v => _ | None => _ end)
      with (popl (mem s) (waiters seg)) by (destruct p as [v|]; [by rewrite (Hp v)|done]).
    rewrite (popl_ok _ _ _ (sg_list _ _ _ _ _ G)). mstep. rewrite u32_small by lia.
    split; [by destruct s|]. split; cbn; try apply G; [lia|done].
  - destruct (sg_waiting _ _ _ _ _ G t) as (_ & _ & Hst); [set_solver|].
    destruct (tasks s !! t) as [x|] eqn:Hx; [|done].
    destruct (segment_wakeup_ok s rq sq seg t ws p x G Hp Hx) as (s' & l & E & H').
    eauto 8.
Qed.

(** The system of [kstate0] with a semaphore at 160. *)
Definition seg_mem0 : heap :=
  <[160 := Node NULL 168]> (<[168 := Node 160 NULL]> (<[4140 := Node NULL NULL]>
  (<[8236 := Node NULL NULL]> (<[12332 := Node NULL NULL]> mem0)))).
Definition seg_state0 : kstate := with_mem kstate0 seg_mem0.
Definition seg0 : segment_t := Segment 0 (List 160 168 0).

Lemma seg_rep0 : seg_rep seg_state0 [8192; 12288] [] seg0 [].
Proof.
  assert (forall t, t ∈ dom tasks0 -> t = 4096 \/ t = 8192 \/ t = 12288) as H
    by (rewrite dom_tasks0; set_solver).
  split.
  - destruct sched_rep0 as [L H1 H2 H3]. split; [|done..].
    apply (lists_rep_frame mem0); [done| |].
    + intros x Hx. unfold sentinels in Hx. cbn in Hx.
      assert (x = 100 \/ x = 108 \/ x = 120 \/ x = 128) as [->|[->|[->| ->]]] by set_solver; done.
    + intros t [->|[->| ->]]%H; done.
  - split; try reflexivity; [repeat split; intros; reflexivity|
      apply (bool_decide_unpack _); vm_compute; exact I..].
  - by intros t ?%not_elem_of_nil.
  - intros t [->|[->| ->]]%H; exists NULL; reflexivity.
  - split; [| |split..].
    + intros t [->|[->| ->]]%H; reflexivity.
    + intros t [->|[->| ->]]%H; apply (bool_decide_unpack _); vm_compute; exact I.
    + apply (bool_decide_unpack _); vm_compute; exact I.
    + intros t [->|[->| ->]]%H; done.
    + apply (bool_decide_unpack _); vm_compute; exact I.
    + intros t [->|[->| ->]]%H; done.
  - by cbn.
  - done.
Qed.

Lemma segment_wait_spec_witness :
  exists s' rq' sq' l, segment_wait seg_state0 seg0 None = Some (s', Segment 0 l, None) /\
    seg_rep s' rq' sq' (Segment 0 l) ([] ++ [4096]) /\ cur s' ∈ [8192; 12288] ++ [].
Proof.
  apply (segment_wait_spec seg_state0 [8192; 12288] [] seg0 [] None (task0 TASK_RUNNING 2) seg_rep0);
    try reflexivity; try done. apply not_elem_of_nil.
Defined.

Lemma segment_wakeup_spec_witness :
  segment_wakeup seg_state0 seg0 None
    = Some (seg_state0, Segment 1 (List 160 168 0), None, None) /\
  seg_rep seg_state0 [8192; 12288] [] (Segment 1 (List 160 168 0)) [].
Proof.
  apply (segment_wakeup_spec seg_state0 [8192; 12288] [] seg0 [] None seg_rep0); done.
Defined.

(** Waking a task by its pid does not take it off the waiter list: after
    the current task (with pid 7) has blocked and has been woken by pid, it is
    ready but still linked, and the next wake-up spends itself on it, leaving
    the count at zero. *)
Theorem segment_wakeup_by_pid_keeps_waiter :
  let s0 := with_tasks seg_state0 (<[4096 := Task 7 0 TASK_RUNNING 2 2 0 0 0 []]> tasks0) in
  exists s1 s2 s3 seg1 seg2 seg3,
    segment_wait s0 seg0 None = Some (s1, seg1, None) /\
    segment_wakeup s1 seg1 (Some 7) = Some (s2, seg2, Some 7, None) /\
    status <$> tasks s2 !! 4096 = Some TASK_READY /\ DList.size (waiters seg2) = 1 /\
    segment_wakeup s2 seg2 (Some 0) = Some (s3, seg3, Some 7, None) /\ count seg3 = 0.
Proof.
  cbv zeta. do 6 eexists. split; [vm_compute; reflexivity|].
  split; [vm_compute; reflexivity|]. split; [reflexivity|]. split; [reflexivity|].
  split; [vm_compute; reflexivity|]. reflexivity.
Qed.
