(* ===== verification/Fixq.v ===== *)
(** * Fixed-length message queues: kernel/net/fixq.c

    A ring buffer of [size] messages guarded by two semaphores.  A call of
    [fixq_send] or [fixq_recv] can be suspended in [segment_wait], so each is
    two steps: up to the return of [segment_wait], and the rest.  [fstep] is
    the step relation of a queue used by any number of threads, interleaved
    between these steps; each step itself runs without a switch.  A semaphore
    is its count and its waiters in order, as [Segment.segment_wait_spec] and
    [Segment.segment_wakeup_spec] describe it.  The theorems: in every
    reachable state the messages taken and those in the buffer are the
    messages sent, in order, and no step overwrites or reads a slot it should
    not. *)

From S2P Require Import Prelude.

Definition thread := Z.
Definition msg := Z.

(** The data of [fixq_t]; the semaphores' counts are [send_sem] and
    [receive_sem]. *)
Record fixq_t := FixQ {
  size : Z; buf : list msg; in_ : Z; out : Z; cnt : Z;
  send_sem : Z; receive_sem : Z;
}.

Definition fixq_init (b : list msg) (n : Z) : fixq_t := FixQ n b 0 0 0 n 0.
Definition fixq_count (q : fixq_t) : Z := cnt q.

(** ** [fixq_send] *)

Inductive start_result := Refused | Blocked | Entered (q : fixq_t).

Definition fixq_send_start (q : fixq_t) (tmo : Z) : start_result :=
  if (size q <=? cnt q) && (tmo <? 0) then Refused
  else if 0 <? send_sem q then
    Entered (FixQ (size q) (buf q) (in_ q) (out q) (cnt q) (u32 (send_sem q - 1)) (receive_sem q))
  else Blocked.

(** [q->buf[q->in++] = msg; ...; q->cnt++] *)
Definition fixq_put (q : fixq_t) (m : msg) : option fixq_t :=
  b ← zset (buf q) (in_ q) m;
  let i := i32 (in_ q + 1) in
  Some (FixQ (size q) b (if size q <=? i then 0 else i) (out q) (i32 (cnt q + 1))
          (send_sem q) (receive_sem q)).

(** ** [fixq_recv] *)

Definition fixq_recv_start (q : fixq_t) (tmo : Z) : start_result :=
  if (cnt q =? 0) && (tmo <? 0) then Refused
  else if 0 <? receive_sem q then
    Entered (FixQ (size q) (buf q) (in_ q) (out q) (cnt q) (send_sem q) (u32 (receive_sem q - 1)))
  else Blocked.

(** [msg = q->buf[q->out++]; ...; q->cnt--] *)
Definition fixq_take (q : fixq_t) : option (msg * fixq_t) :=
  m ← zget (buf q) (out q);
  let i := i32 (out q + 1) in
  Some (m, FixQ (size q) (buf q) (in_ q) (if size q <=? i then 0 else i) (i32 (cnt q - 1))
             (send_sem q) (receive_sem q)).

Definition sem_up_receive (q : fixq_t) : fixq_t :=
  FixQ (size q) (buf q) (in_ q) (out q) (cnt q) (send_sem q) (u32 (receive_sem q + 1)).
Definition sem_up_send (q : fixq_t) : fixq_t :=
  FixQ (size q) (buf q) (in_ q) (out q) (cnt q) (u32 (send_sem q + 1)) (receive_sem q).

(** ** The queue and its threads *)

(** Senders and receivers blocked in [segment_wait], in the order they came;
    those past it; and the history of messages sent and received. *)
Record fstate := FState {
  q : fixq_t;
  s_wait : list (thread * msg); s_go : list (thread * msg);
  r_wait : list thread; r_go : list thread;
  sent : list msg; got : list msg;
}.

(** The second half of a send: store, then wake a receiver or count up. *)
Definition send_finish (s : fstate) (m : msg) (rest : list (thread * msg)) : option fstate :=
  q' ← fixq_put (q s) m;
  match r_wait s with
  | r :: rs => Some (FState q' (s_wait s) rest rs (r :: r_go s) (sent s ++ [m]) (got s))
  | [] => Some (FState (sem_up_receive q') (s_wait s) rest [] (r_go s) (sent s ++ [m]) (got s))
  end.

Definition recv_finish (s : fstate) (rest : list thread) : option fstate :=
  '(m, q') ← fixq_take (q s);
  match s_wait s with
  | w :: ws => Some (FState q' ws (w :: s_go s) (r_wait s) rest (sent s) (got s ++ [m]))
  | [] => Some (FState (sem_up_send q') [] (s_go s) (r_wait s) rest (sent s) (got s ++ [m]))
  end.

Inductive fstep : fstate -> fstate -> Prop :=
  | send_refused s tmo : fixq_send_start (q s) tmo = Refused -> fstep s s
  | send_blocked s t m tmo : fixq_send_start (q s) tmo = Blocked ->
      fstep s (FState (q s) (s_wait s ++ [(t, m)]) (s_go s) (r_wait s) (r_go s) (sent s) (got s))
  | send_entered s t m tmo q' : fixq_send_start (q s) tmo = Entered q' ->
      fstep s (FState q' (s_wait s) ((t, m) :: s_go s) (r_wait s) (r_go s) (sent s) (got s))
  | send_done s g1 t m g2 s' : s_go s = g1 ++ (t, m) :: g2 ->
      send_finish s m (g1 ++ g2) = Some s' -> fstep s s'
  | recv_refused s tmo : fixq_recv_start (q s) tmo = Refused -> fstep s s
  | recv_blocked s t tmo : fixq_recv_start (q s) tmo = Blocked ->
      fstep s (FState (q s) (s_wait s) (s_go s) (r_wait s ++ [t]) (r_go s) (sent s) (got s))
  | recv_entered s t tmo q' : fixq_recv_start (q s) tmo = Entered q' ->
      fstep s (FState q' (s_wait s) (s_go s) (r_wait s) (t :: r_go s) (sent s) (got s))
  | recv_done s g1 t g2 s' : r_go s = g1 ++ t :: g2 ->
      recv_finish s (g1 ++ g2) = Some s' -> fstep s s'.

Definition fixq_start (b : list msg) (n : Z) : fstate := FState (fixq_init b n) [] [] [] [] [] [].

Definition freach (b : list msg) (n : Z) : fstate -> Prop := rtc fstep (fixq_start b n).

(** ** The invariant *)

(** The [k]-th message of the buffer, counted from [out]. *)
Definition slot (c : fixq_t) (k : Z) : option msg := zget (buf c) ((out c + k) mod size c).

Record finv (n : Z) (s : fstate) : Prop := {
  fi_size : size (q s) = n;
  fi_buf : zlen (buf (q s)) = n;
  fi_out : 0 <= out (q s) < n;
  fi_in : in_ (q s) = (out (q s) + cnt (q s)) mod n;
  fi_room : send_sem (q s) + zlen (s_go s) + cnt (q s) = n;
  fi_items : receive_sem (q s) + zlen (r_go s) = cnt (q s);
  fi_sems : 0 <= send_sem (q s) /\ 0 <= receive_sem (q s);
  fi_swait : 0 < send_sem (q s) -> s_wait s = [];
  fi_rwait : 0 < receive_sem (q s) -> r_wait s = [];
  fi_count : zlen (sent s) = zlen (got s) + cnt (q s);
  fi_fifo : forall k, 0 <= k < cnt (q s) -> slot (q s) k = zget (sent s) (zlen (got s) + k);
  fi_got : got s = take (length (got s)) (sent s);
}.

Lemma mod_succ a n : 0 < n -> 0 <= a < n ->
  (if n <=? a + 1 then 0 else a + 1) = (a + 1) mod n.
Proof.
  intros Hn Ha. destruct (Z.leb_spec n (a + 1)).
  - replace (a + 1) with n by lia. by rewrite Z_mod_same_full.
  - by rewrite Z.mod_small by lia.
Qed.

Lemma mod_inj a b n : 0 < n -> 0 <= b - a < n -> a mod n = b mod n -> a = b.
Proof.
  intros Hn Hab E. assert ((b - a) mod n = 0) as H0
    by by rewrite Zminus_mod, E, Z.sub_diag, Zmod_0_l.
  rewrite Z.mod_small in H0 by lia. lia.
Qed.

Lemma zget_app_last {A} (l : list A) x i : zget (l ++ [x]) i
  = if i =? zlen l then Some x else zget l i.
Proof.
  unfold zget, zlen. destruct (Z.ltb_spec i 0), (Z.eqb_spec i (Z.of_nat (length l))); try done; try lia.
  - subst. by rewrite Nat2Z.id, lookup_app_r, Nat.sub_diag by lia.
  - destruct (decide (Z.to_nat i < length l)%nat).
    + by rewrite lookup_app_l.
    + rewrite !lookup_ge_None_2; [done|lia|rewrite length_app; simpl; lia].
Qed.

Section Invariant.
Context (n : Z) (Hn : 0 < n < 2 ^ 31 - 1).

(** A sender past the semaphore finds a free slot. *)
Lemma fixq_put_ok s m : finv n s -> 0 < zlen (s_go s) ->
  exists q', fixq_put (q s) m = Some q' /\ size q' = n /\ zlen (buf q') = n /\
    out q' = out (q s) /\ cnt q' = cnt (q s) + 1 /\ in_ q' = (out q' + cnt q') mod n /\
    send_sem q' = send_sem (q s) /\ receive_sem q' = receive_sem (q s) /\
    forall k, 0 <= k < cnt q' -> slot q' k = if k =? cnt (q s) then Some m else slot (q s) k.
Proof.
  intros I Hg. destruct I. unfold fixq_put. pose proof (zlen_nonneg (r_go s)).
  assert (0 <= in_ (q s) < n) as Hin by (rewrite fi_in0; apply Z.mod_pos_bound; lia).
  destruct (zset (buf (q s)) (in_ (q s)) m) as [b|] eqn:Eb.
  2: { rewrite zset_is_Some in Eb by lia. done. }
  mstep. eexists. split; [done|]. cbn. rewrite !i32_small by lia.
  rewrite (zlen_zset _ _ _ _ Eb), fi_size0, mod_succ by lia.
  split_and!; try done.
  - rewrite fi_in0, Z.add_mod_idemp_l by lia. f_equal. lia.
  - intros k Hk. unfold slot. cbn. rewrite (zget_zset _ _ _ _ _ Eb), fi_in0, fi_size0.
    destruct (Z.eqb_spec k (cnt (q s))) as [->|Hne]; [by rewrite Z.eqb_refl|].
    destruct (Z.eqb_spec ((out (q s) + k) mod n) ((out (q s) + cnt (q s)) mod n)) as [E|]; [|done].
    apply mod_inj in E; lia.
Qed.

(** A receiver past the semaphore finds a message. *)
Lemma fixq_take_ok s : finv n s -> 0 < zlen (r_go s) ->
  exists m q', fixq_take (q s) = Some (m, q') /\ slot (q s) 0 = Some m /\ size q' = n /\
    zlen (buf q') = n /\ 0 <= out q' < n /\ cnt q' = cnt (q s) - 1 /\
    in_ q' = (out q' + cnt q') mod n /\
    send_sem q' = send_sem (q s) /\ receive_sem q' = receive_sem (q s) /\
    forall k, slot q' k = slot (q s) (k + 1).
Proof.
  intros I Hg. destruct I. unfold fixq_take. pose proof (zlen_nonneg (s_go s)).
  destruct (zget_is_Some (buf (q s)) (out (q s))) as [m Em]; [lia|]. rewrite Em. mstep.
  do 2 eexists. split; [done|]. cbn. rewrite !i32_small by lia. rewrite fi_size0, mod_succ by lia.
  split_and!; try done.
  - unfold slot. rewrite Z.add_0_r, fi_size0, Z.mod_small by lia. done.
  - apply Z.mod_pos_bound. lia.
  - apply Z.mod_pos_bound. lia.
  - rewrite Z.add_mod_idemp_l, fi_in0 by lia. f_equal. lia.
  - intros k. unfold slot. cbn. rewrite fi_size0, Z.add_mod_idemp_l by lia. do 2 f_equal. lia.
Qed.

Lemma finv_start b : zlen b = n -> finv n (fixq_start b n).
Proof.
  intros Hb. split; cbn [fixq_start fixq_init q size buf in_ out cnt send_sem receive_sem
    s_go r_go s_wait r_wait sent got]; change (zlen []) with 0; try lia; done.
Qed.

Lemma send_finish_ok s g1 t m g2 : finv n s -> s_go s = g1 ++ (t, m) :: g2 ->
  exists s', send_finish s m (g1 ++ g2) = Some s' /\ finv n s'.
Proof.
  intros I Hg. assert (zlen (s_go s) = zlen (g1 ++ g2) + 1) as Hlen.
  { rewrite Hg, !zlen_app. unfold zlen. simpl. lia. }
  destruct (fixq_put_ok s m I) as (q' & E & Hsz & Hb & Ho & Hc & Hi & Hs & Hr & Hf);
    [pose proof (zlen_nonneg (g1 ++ g2)); lia|].
  unfold send_finish. rewrite E. mstep. destruct I.
  assert (zlen [m] = 1) as H1 by done. pose proof (zlen_nonneg (r_go s)).
  pose proof (zlen_nonneg (g1 ++ g2)).
  assert (forall k, 0 <= k < cnt q' -> slot q' k = zget (sent s ++ [m]) (zlen (got s) + k)) as Hff.
  { intros k Hk. rewrite Hf, zget_app_last by done.
    destruct (Z.eqb_spec k (cnt (q s))), (Z.eqb_spec (zlen (got s) + k) (zlen (sent s)));
      try done; try lia. apply fi_fifo0. lia. }
  assert (got s = take (length (got s)) (sent s ++ [m])) as Hgot.
  { rewrite take_app_le; [done|]. unfold zlen in *. lia. }
  assert (zlen (sent s ++ [m]) = zlen (got s) + cnt q') by (rewrite zlen_app; lia).
  destruct (r_wait s) as [|r rs] eqn:Er; eexists; (split; [done|]).
  - split; cbn; try done; rewrite ?u32_small; try lia.
    all: rewrite ?Hs; auto; lia.
  - assert (receive_sem (q s) = 0) by (destruct (Z.eq_dec (receive_sem (q s)) 0); [done|];
      discriminate fi_rwait0; lia).
    assert (zlen (r :: r_go s) = zlen (r_go s) + 1) by (unfold zlen; simpl; lia).
    split; cbn; try done; rewrite ?Hs, ?Hr; auto; lia.
Qed.

Lemma recv_finish_ok s g1 t g2 : finv n s -> r_go s = g1 ++ t :: g2 ->
  exists s', recv_finish s (g1 ++ g2) = Some s' /\ finv n s'.
Proof.
  intros I Hg. assert (zlen (r_go s) = zlen (g1 ++ g2) + 1) as Hlen.
  { rewrite Hg, !zlen_app. unfold zlen. simpl. lia. }
  pose proof (zlen_nonneg (g1 ++ g2)).
  destruct (fixq_take_ok s I) as (m & q' & E & Hm & Hsz & Hb & Ho & Hc & Hi & Hs & Hr & Hf); [lia|].
  unfold recv_finish. rewrite E. mstep. destruct I. pose proof (zlen_nonneg (s_go s)).
  assert (zget (sent s) (zlen (got s)) = Some m) as Hget.
  { rewrite <- Hm, fi_fifo0 by lia. f_equal. lia. }
  assert (zlen [m] = 1) as H1 by done.
  assert (forall k, 0 <= k < cnt q' -> slot q' k = zget (sent s) (zlen (got s ++ [m]) + k)) as Hff.
  { intros k Hk. rewrite Hf, fi_fifo0, zlen_app by lia. f_equal. lia. }
  assert (got s ++ [m] = take (length (got s ++ [m])) (sent s)) as Hgot.
  { rewrite length_app. simpl. rewrite Nat.add_1_r. unfold zlen in Hget. rewrite zget_nat in Hget.
    by rewrite (take_S_r _ _ _ Hget), <- fi_got0. }
  assert (zlen (sent s) = zlen (got s ++ [m]) + cnt q') by (rewrite zlen_app; lia).
  destruct (s_wait s) as [|w ws] eqn:Er; eexists; (split; [done|]).
  - split; cbn; try done; rewrite ?u32_small; try lia.
    all: rewrite ?Hr; auto; lia.
  - assert (send_sem (q s) = 0) by (destruct (Z.eq_dec (send_sem (q s)) 0); [done|];
      discriminate fi_swait0; lia).
    assert (zlen (w :: s_go s) = zlen (s_go s) + 1) by (unfold zlen; simpl; lia).
    split; cbn; try done; rewrite ?Hs, ?Hr; auto; lia.
Qed.

Lemma fstep_inv s s' : finv n s -> fstep s s' -> finv n s'.
Proof.
  intros I Hstep. destruct Hstep as [s tmo E|s t m tmo E|s t m tmo q' E|s g1 t m g2 s' Hg E
    |s tmo E|s t tmo E|s t tmo q' E|s g1 t g2 s' Hg E]; try done.
  - unfold fixq_send_start in E. cif_in E; [done|]. cif_in E; [done|].
    destruct I; split; cbn; try done. lia.
  - unfold fixq_send_start in E. cif_in E; [done|]. cif_in E; [|done].
    injection E as <-. destruct I. pose proof (zlen_nonneg (s_go s)). pose proof (zlen_nonneg (r_go s)).
    split; cbn; try done; rewrite ?u32_small by lia; try lia.
    + change (zlen ((t, m) :: s_go s)) with (Z.of_nat (S (length (s_go s)))). unfold zlen in *. lia.
    + intros. apply fi_swait0. lia.
  - destruct (send_finish_ok s g1 t m g2 I Hg) as (s1 & E1 & I1). by rewrite E in E1; injection E1 as ->.
  - unfold fixq_recv_start in E. cif_in E; [done|]. cif_in E; [done|].
    destruct I; split; cbn; try done. lia.
  - unfold fixq_recv_start in E. cif_in E; [done|]. cif_in E; [|done].
    injection E as <-. destruct I. pose proof (zlen_nonneg (s_go s)). pose proof (zlen_nonneg (r_go s)).
    split; cbn; try done; rewrite ?u32_small by lia; try lia.
    + change (zlen (t :: r_go s)) with (Z.of_nat (S (length (r_go s)))). unfold zlen in *. lia.
    + intros. apply fi_rwait0. lia.
  - destruct (recv_finish_ok s g1 t g2 I Hg) as (s1 & E1 & I1). by rewrite E in E1; injection E1 as ->.
Qed.

Lemma freach_inv b s : zlen b = n -> freach b n s -> finv n s.
Proof.
  intros Hb Hr. pose proof (finv_start b Hb) as I. unfold freach in Hr.
  induction Hr as [|s1 s2 s3 H12 _ IH]; [done|]. eauto using fstep_inv.
Qed.

End Invariant.

(** ** Theorems *)



(** A queue of length two after one message was sent and another is about to
    be stored. *)
Definition fixq_mid : fstate :=
  FState (FixQ 2 [7; 0] 1 0 1 0 1) [] [(2, 8)] [] [] [7] [].

Lemma fixq_mid_reached : freach [0; 0] 2 fixq_mid.
Proof.
  apply (rtc_l _ _ (FState (FixQ 2 [0; 0] 0 0 0 1 0) [] [(1, 7)] [] [] [] []));
    [exact (send_entered (fixq_start [0; 0] 2) 1 7 0 _ eq_refl)|].
  apply (rtc_l _ _ (FState (FixQ 2 [7; 0] 1 0 1 1 1) [] [] [] [] [7] []));
    [by apply (send_done _ [] 1 7 [])|].
  apply rtc_once.
  exact (send_entered (FState (FixQ 2 [7; 0] 1 0 1 1 1) [] [] [] [] [7] []) 2 8 0 _ eq_refl).
Qed.


