(* ===== verification/Pktbuf.v ===== *)
(** * Packet buffers: kernel/net/pktbuf.c, kernel/net/pktbuf.h

    A packet is a list of 64-byte blocks; each block holds a window
    ([data], [bsize]) of its payload, so that headers can be added and removed
    without copying.  Block lists and the block pool are the sequences that
    [NList.nlist_simulates_sequence] and [MBlock.mblock_refines_pool] show the
    linked lists and the pool to implement: a packet's blocks are a list of
    block addresses, the pool is the list of free block addresses in the order
    they will be handed out.  [data] and [blk_offset] are offsets into the
    payload of their block.  The sizes are [int]s; they are bounded by the pool
    (64 bytes times the number of blocks) and cannot overflow.

    This file holds the operations; [PktbufSpec] and [PktbufAccess] prove them
    correct against the byte string a packet stands for. *)

From S2P Require Import Prelude.

Definition NULL : Z := 0.
Definition PKTBUF_BLK_SIZE : Z := 64.

Inductive net_err_t :=
  | NET_ERR_NEED_WAIT | NET_ERR_OK | NET_ERR_PARAM | NET_ERR_EXIST | NET_ERR_STATE
  | NET_ERR_NONE | NET_ERR_SIZE | NET_ERR_FULL | NET_ERR_MEM | NET_ERR_IO
  | NET_ERR_NOT_SUPPORT | NET_ERR_NOT_MATCH | NET_ERR_CHECKSUM | NET_ERR_UNREACH
  | NET_ERR_BINDED | NET_ERR_CLOSE | NET_ERR_EOF | NET_ERR_CONNECTED.

(** [err < 0]: all but the first two. *)
Definition is_err (e : net_err_t) : bool :=
  match e with NET_ERR_NEED_WAIT | NET_ERR_OK => false | _ => true end.

Record pktblk_t := Blk { bsize : Z; data : Z; payload : list Z }.

Record pktbuf_t := Buf {
  self : Z;                 (* address of the structure *)
  total_size : Z; blk_list : list Z; ref : Z;
  pos : Z; curr_blk : Z; blk_offset : Z;
}.

#[export] Instance pktbuf_eq_dec : EqDecision pktbuf_t.
Proof. solve_decision. Defined.

(** Block memory, the two pools' free lists. *)
Record pmem := PMem { blks : gmap Z pktblk_t; free : list Z; free_bufs : list Z }.

Definition set_blk (m : pmem) (b : Z) (x : pktblk_t) : pmem :=
  PMem (<[b := x]> (blks m)) (free m) (free_bufs m).

Definition with_total (buf : pktbuf_t) (n : Z) : pktbuf_t :=
  Buf (self buf) n (blk_list buf) (ref buf) (pos buf) (curr_blk buf) (blk_offset buf).
Definition with_blks (buf : pktbuf_t) (n : Z) (l : list Z) : pktbuf_t :=
  Buf (self buf) n l (ref buf) (pos buf) (curr_blk buf) (blk_offset buf).
Definition with_ref (buf : pktbuf_t) (r : Z) : pktbuf_t :=
  Buf (self buf) (total_size buf) (blk_list buf) r (pos buf) (curr_blk buf) (blk_offset buf).
Definition with_cursor (buf : pktbuf_t) (p b off : Z) : pktbuf_t :=
  Buf (self buf) (total_size buf) (blk_list buf) (ref buf) p b off.

(** ** Bytes *)

(** The [n] bytes of [l] from [off] on; writing bytes over [l] at [off]. *)
Definition sub (l : list Z) (off n : Z) : list Z :=
  take (Z.to_nat n) (drop (Z.to_nat off) l).
Definition splice (l : list Z) (off : Z) (bs : list Z) : list Z :=
  take (Z.to_nat off) l ++ bs ++ drop (Z.to_nat off + length bs) l.
Definition mem_read (l : list Z) (off n : Z) : option (list Z) :=
  if (0 <=? off) && (0 <=? n) && (off + n <=? zlen l) then Some (sub l off n) else None.
Definition mem_write (l : list Z) (off : Z) (bs : list Z) : option (list Z) :=
  if (0 <=? off) && (off + zlen bs <=? zlen l) then Some (splice l off bs) else None.

(** ** Helpers of pktbuf.h and pktbuf.c *)

Fixpoint blk_after (l : list Z) (b : Z) : Z :=
  match l with
  | x :: ((y :: _) as t) => if x =? b then y else blk_after t b
  | _ => NULL
  end.

Definition pktbuf_blk_next (buf : pktbuf_t) (b : Z) : Z := blk_after (blk_list buf) b.
Definition pktbuf_first_blk (buf : pktbuf_t) : Z := default NULL (head (blk_list buf)).
Definition pktbuf_last_blk (buf : pktbuf_t) : Z := default NULL (last (blk_list buf)).
Definition pktbuf_total (buf : pktbuf_t) : Z := total_size buf.

Definition total_blk_remain (buf : pktbuf_t) : Z := total_size buf - pos buf.

Definition curr_blk_remain (m : pmem) (buf : pktbuf_t) : option Z :=
  if curr_blk buf =? NULL then Some 0
  else x ← blks m !! curr_blk buf; Some (data x + bsize x - blk_offset buf).

Definition curr_blk_tail_free (x : pktblk_t) : Z := PKTBUF_BLK_SIZE - data x - bsize x.

Definition pktbuf_reset_acc (m : pmem) (buf : pktbuf_t) : option pktbuf_t :=
  let b := pktbuf_first_blk buf in
  if b =? NULL then Some (with_cursor buf 0 NULL 0)
  else x ← blks m !! b; Some (with_cursor buf 0 b (data x)).

(** ** Blocks and the pool *)

Definition pktblock_free (m : pmem) (b : Z) : pmem :=
  PMem (blks m) (free m ++ [b]) (free_bufs m).

Definition pktblock_free_list (m : pmem) (bs : list Z) : pmem :=
  PMem (blks m) (free m ++ bs) (free_bufs m).

(** The new block's [data] is NULL until the caller sets it. *)
Definition pktblock_alloc (m : pmem) : option (Z * pmem) :=
  match free m with
  | [] => Some (NULL, m)
  | b :: free' =>
      x ← blks m !! b;
      Some (b, PMem (<[b := Blk 0 0 (payload x)]> (blks m)) free' (free_bufs m))
  end.

(** [pktblock_alloc_list]: the chain allocated so far is [chain], the result
    NULL is the empty chain. *)
Fixpoint alloc_loop (fuel : nat) (m : pmem) (size : Z) (add_front : bool) (chain : list Z)
    : option (list Z * pmem) :=
  match fuel with
  | O => None
  | S fuel' =>
      if size =? 0 then Some (chain, m)
      else
        '(b, m) ← pktblock_alloc m;
        if b =? NULL then Some ([], pktblock_free_list m chain)
        else
          let curr_size := if PKTBUF_BLK_SIZE <? size then PKTBUF_BLK_SIZE else size in
          x ← blks m !! b;
          let m := set_blk m b (Blk curr_size
            (if add_front then PKTBUF_BLK_SIZE - curr_size else 0) (payload x)) in
          alloc_loop fuel' m (size - curr_size) add_front
            (if add_front then b :: chain else chain ++ [b])
  end.

Definition pktblock_alloc_list (m : pmem) (size : Z) (add_front : bool)
    : option (list Z * pmem) :=
  alloc_loop (S (S (Z.to_nat size))) m size add_front [].

Fixpoint sum_sizes (m : pmem) (bs : list Z) : option Z :=
  match bs with
  | [] => Some 0
  | b :: bs' => x ← blks m !! b; n ← sum_sizes m bs'; Some (bsize x + n)
  end.

Definition pktbuf_insert_blk_list (m : pmem) (buf : pktbuf_t) (chain : list Z)
    (add_last : bool) : option pktbuf_t :=
  n ← sum_sizes m chain;
  Some (with_blks buf (total_size buf + n)
    (if add_last then blk_list buf ++ chain else chain ++ blk_list buf)).

(** ** Allocation and release *)

Definition pktbuf_inc_ref (buf : pktbuf_t) : pktbuf_t := with_ref buf (ref buf + 1).

(** The result is NULL ([None]) when either pool is exhausted. *)
Definition pktbuf_alloc (m : pmem) (size : Z) : option (option pktbuf_t * pmem) :=
  match free_bufs m with
  | [] => Some (None, m)
  | a :: free_bufs' =>
      let m := PMem (blks m) (free m) free_bufs' in
      let buf := Buf a 0 [] 1 0 NULL 0 in
      if nz size then
        '(chain, m) ← pktblock_alloc_list m size false;
        match chain with
        | [] => Some (None, PMem (blks m) (free m) (free_bufs m ++ [a]))
        | _ =>
            buf ← pktbuf_insert_blk_list m buf chain true;
            buf ← pktbuf_reset_acc m buf;
            Some (Some buf, m)
        end
      else
        buf ← pktbuf_reset_acc m buf;
        Some (Some buf, m)
  end.

Definition pktbuf_free (m : pmem) (buf : pktbuf_t) : pktbuf_t * pmem :=
  let buf := with_ref buf (ref buf - 1) in
  if ref buf =? 0 then
    let m := pktblock_free_list m (blk_list buf) in
    (buf, PMem (blks m) (free m) (free_bufs m ++ [self buf]))
  else (buf, m).

(** ** Headers *)

Definition pktbuf_add_header (m : pmem) (buf : pktbuf_t) (size : Z) (cont : bool)
    : option (net_err_t * pktbuf_t * pmem) :=
  b ← head (blk_list buf);
  x ← blks m !! b;
  let resv_size := data x in
  if size <=? resv_size then
    Some (NET_ERR_OK, with_total buf (total_size buf + size),
          set_blk m b (Blk (bsize x + size) (data x - size) (payload x)))
  else if cont then
    if PKTBUF_BLK_SIZE <? size then Some (NET_ERR_NONE, buf, m)
    else
      '(chain, m) ← pktblock_alloc_list m size true;
      match chain with
      | [] => Some (NET_ERR_NONE, buf, m)
      | _ => buf ← pktbuf_insert_blk_list m buf chain false; Some (NET_ERR_OK, buf, m)
      end
  else
    let m := set_blk m b (Blk (bsize x + resv_size) 0 (payload x)) in
    let buf := with_total buf (total_size buf + resv_size) in
    '(chain, m) ← pktblock_alloc_list m (size - resv_size) true;
    match chain with
    | [] => Some (NET_ERR_NONE, buf, m)
    | _ => buf ← pktbuf_insert_blk_list m buf chain false; Some (NET_ERR_OK, buf, m)
    end.

(** The loop of [pktbuf_remove_header]: one iteration per removed block. *)
Fixpoint remove_header_loop (m : pmem) (bs : list Z) (total size : Z)
    : option (list Z * Z * pmem) :=
  if size =? 0 then Some (bs, total, m)
  else
    match bs with
    | [] => None
    | b :: rest =>
        x ← blks m !! b;
        if size <? bsize x then
          Some (bs, total - size, set_blk m b (Blk (bsize x - size) (data x + size) (payload x)))
        else
          remove_header_loop (pktblock_free m b) rest (total - bsize x) (size - bsize x)
    end.

Definition pktbuf_remove_header (m : pmem) (buf : pktbuf_t) (size : Z)
    : option (net_err_t * pktbuf_t * pmem) :=
  '(bs, total, m) ← remove_header_loop m (blk_list buf) (total_size buf) size;
  Some (NET_ERR_OK, with_blks buf total bs, m).

(** ** Resizing *)

(** The last block to keep and the blocks before and after it. *)
Fixpoint find_tail (m : pmem) (before bs : list Z) (total to_size : Z)
    : option (option (list Z * Z * list Z)) :=
  match bs with
  | [] => Some None
  | b :: rest =>
      x ← blks m !! b;
      let total := total + bsize x in
      if to_size <=? total then Some (Some (before, b, rest))
      else find_tail m (before ++ [b]) rest total to_size
  end.

Definition pktbuf_resize (m : pmem) (buf : pktbuf_t) (to_size : Z)
    : option (net_err_t * pktbuf_t * pmem) :=
  if to_size =? total_size buf then Some (NET_ERR_OK, buf, m)
  else if total_size buf =? 0 then
    '(chain, m) ← pktblock_alloc_list m to_size false;
    match chain with
    | [] => Some (NET_ERR_MEM, buf, m)
    | _ => buf ← pktbuf_insert_blk_list m buf chain true; Some (NET_ERR_OK, buf, m)
    end
  else if total_size buf <? to_size then
    b ← last (blk_list buf);
    x ← blks m !! b;
    let inc_size := to_size - total_size buf in
    let remain_size := curr_blk_tail_free x in
    if inc_size <=? remain_size then
      Some (NET_ERR_OK, with_total buf (total_size buf + inc_size),
            set_blk m b (Blk (bsize x + inc_size) (data x) (payload x)))
    else
      '(chain, m) ← pktblock_alloc_list m (inc_size - remain_size) false;
      match chain with
      | [] => Some (NET_ERR_NONE, buf, m)
      | _ =>
          x ← blks m !! b;
          let m := set_blk m b (Blk (bsize x + remain_size) (data x) (payload x)) in
          buf ← pktbuf_insert_blk_list m (with_total buf (total_size buf + remain_size)) chain true;
          Some (NET_ERR_OK, buf, m)
      end
  else
    r ← find_tail m [] (blk_list buf) 0 to_size;
    match r with
    | None => Some (NET_ERR_SIZE, buf, m)
    | Some (before, b, after) =>
        removed ← sum_sizes m after;
        let m := pktblock_free_list m after in
        x ← blks m !! b;
        let m := set_blk m b
          (Blk (bsize x - (total_size buf - removed - to_size)) (data x) (payload x)) in
        Some (NET_ERR_OK, with_blks buf to_size (before ++ [b]), m)
    end.

(** ** Joining *)

Fixpoint join_loop (m : pmem) (dest : pktbuf_t) (bs : list Z) : option pktbuf_t :=
  match bs with
  | [] => Some dest
  | b :: rest => dest ← pktbuf_insert_blk_list m dest [b] true; join_loop m dest rest
  end.

Definition pktbuf_join (m : pmem) (dest src : pktbuf_t)
    : option (net_err_t * pktbuf_t * pktbuf_t * pmem) :=
  dest ← join_loop m dest (blk_list src);
  let '(src, m) := pktbuf_free m (with_blks src (total_size src) []) in
  Some (NET_ERR_OK, dest, src, m).

(** ** Making the first bytes contiguous *)

(** [*dest++ = first_blk->data[i]], [dest] starting at the payload. *)
Definition move_front (off n : Z) (pl : list Z) : option (list Z) :=
  for_ (Z.to_nat n) 0 (fun i pl => v ← zget pl (off + i); zset pl i v) pl.

(** The blocks after the first give their bytes to it; [first] is the first
    block's address, its data ends at offset [dest] of its payload. *)
Fixpoint set_cont_loop (m : pmem) (first dest remain_size : Z) (bs : list Z)
    : option (list Z * pmem) :=
  match bs with
  | [] => Some ([], m)
  | b :: rest =>
      if remain_size =? 0 then Some (bs, m)
      else
        x ← blks m !! b;
        f ← blks m !! first;
        let curr_size := if remain_size <? bsize x then remain_size else bsize x in
        bytes ← mem_read (payload x) (data x) curr_size;
        pl ← mem_write (payload f) dest bytes;
        let m := set_blk m first (Blk (bsize f + curr_size) (data f) pl) in
        let x := Blk (bsize x - curr_size) (data x + curr_size) (payload x) in
        let m := set_blk m b x in
        if bsize x =? 0 then
          set_cont_loop (pktblock_free m b) first (dest + curr_size) (remain_size - curr_size) rest
        else (* bytes are left, so [curr_size] was [remain_size]: the loop ends *)
          Some (bs, m)
  end.

Definition pktbuf_set_cont (m : pmem) (buf : pktbuf_t) (size : Z)
    : option (net_err_t * pktbuf_t * pmem) :=
  if total_size buf <? size then Some (NET_ERR_SIZE, buf, m)
  else if PKTBUF_BLK_SIZE <? size then Some (NET_ERR_SIZE, buf, m)
  else
    match blk_list buf with
    | [] => None
    | first :: rest =>
        x ← blks m !! first;
        if size <=? bsize x then Some (NET_ERR_OK, buf, m)
        else
          pl ← move_front (data x) (bsize x) (payload x);
          let m := set_blk m first (Blk (bsize x) 0 pl) in
          '(rest, m) ← set_cont_loop m first (bsize x) (size - bsize x) rest;
          Some (NET_ERR_OK, with_blks buf (total_size buf) (first :: rest), m)
    end.

(** ** Reading and writing *)

Definition move_forward (m : pmem) (buf : pktbuf_t) (size : Z) : option pktbuf_t :=
  x ← blks m !! curr_blk buf;
  let off := blk_offset buf + size in
  if data x + bsize x <=? off then
    let b := pktbuf_blk_next buf (curr_blk buf) in
    if b =? NULL then Some (with_cursor buf (pos buf + size) NULL 0)
    else y ← blks m !! b; Some (with_cursor buf (pos buf + size) b (data y))
  else Some (with_cursor buf (pos buf + size) (curr_blk buf) off).

(** The loop the access functions share: in each iteration the part of the
    current block that is still wanted is handed to [act] (its payload, the
    offset and the number of bytes), then the position moves on.  [act] may
    change these bytes and an accumulator. *)
Section Loop.
Context {A : Type} (act : list Z -> Z -> Z -> A -> option (list Z * A)).

Fixpoint blk_loop (fuel : nat) (m : pmem) (buf : pktbuf_t) (size : Z) (a : A)
    : option (pmem * pktbuf_t * A) :=
  match fuel with
  | O => None
  | S fuel' =>
      if size <=? 0 then Some (m, buf, a)
      else
        blk_size ← curr_blk_remain m buf;
        let n := if blk_size <? size then blk_size else size in
        x ← blks m !! curr_blk buf;
        '(pl, a) ← act (payload x) (blk_offset buf) n a;
        let m := set_blk m (curr_blk buf) (Blk (bsize x) (data x) pl) in
        buf ← move_forward m buf n;
        blk_loop fuel' m buf (size - n) a
  end.

End Loop.

(** One iteration per byte or per block at most. *)
Definition loop_fuel (buf : pktbuf_t) (size : Z) : nat :=
  S (Z.to_nat size + length (blk_list buf)).

(** [memcpy(buf->blk_offset, src, n); src += n] *)
Definition act_write (pl : list Z) (off n : Z) (src : list Z) : option (list Z * list Z) :=
  bytes ← mem_read src 0 n;
  pl ← mem_write pl off bytes;
  Some (pl, drop (Z.to_nat n) src).

Definition pktbuf_write (m : pmem) (buf : pktbuf_t) (src : list Z) (size : Z)
    : option (net_err_t * pktbuf_t * pmem) :=
  if size =? 0 then Some (NET_ERR_PARAM, buf, m)
  else if total_blk_remain buf <? size then Some (NET_ERR_SIZE, buf, m)
  else
    '(m, buf, _) ← blk_loop act_write (loop_fuel buf size) m buf size src;
    Some (NET_ERR_OK, buf, m).

(** [memcpy(dest, buf->blk_offset, n); dest += n]; the bytes read so far. *)
Definition act_read (pl : list Z) (off n : Z) (dest : list Z) : option (list Z * list Z) :=
  bytes ← mem_read pl off n;
  Some (pl, dest ++ bytes).

Definition pktbuf_read (m : pmem) (buf : pktbuf_t) (size : Z)
    : option (net_err_t * pktbuf_t * list Z) :=
  if size =? 0 then Some (NET_ERR_OK, buf, [])
  else if total_blk_remain buf <? size then Some (NET_ERR_SIZE, buf, [])
  else
    '(_, buf, dest) ← blk_loop act_read (loop_fuel buf size) m buf size [];
    Some (NET_ERR_OK, buf, dest).

Definition act_skip (pl : list Z) (off n : Z) (u : unit) : option (list Z * unit) := Some (pl, u).

Definition pktbuf_seek (m : pmem) (buf : pktbuf_t) (offset : Z)
    : option (net_err_t * pktbuf_t) :=
  if pos buf =? offset then Some (NET_ERR_OK, buf)
  else if (offset <? 0) || (total_size buf <=? offset) then Some (NET_ERR_SIZE, buf)
  else
    '(buf, move_bytes) ←
      (if offset <? pos buf then
         b ← head (blk_list buf); x ← blks m !! b;
         Some (with_cursor buf 0 b (data x), offset)
       else Some (buf, offset - pos buf));
    '(_, buf, _) ← blk_loop act_skip (loop_fuel buf move_bytes) m buf move_bytes tt;
    Some (NET_ERR_OK, buf).

Definition act_fill (v : Z) (pl : list Z) (off n : Z) (u : unit) : option (list Z * unit) :=
  pl ← mem_write pl off (replicate (Z.to_nat n) v);
  Some (pl, u).

Definition pktbuf_fill (m : pmem) (buf : pktbuf_t) (v size : Z)
    : option (net_err_t * pktbuf_t * pmem) :=
  if size =? 0 then Some (NET_ERR_PARAM, buf, m)
  else if total_blk_remain buf <? size then Some (NET_ERR_SIZE, buf, m)
  else
    '(m, buf, _) ← blk_loop (act_fill v) (loop_fuel buf size) m buf size tt;
    Some (NET_ERR_OK, buf, m).

(** The two packets share no block. *)
Fixpoint copy_loop (fuel : nat) (m : pmem) (dest src : pktbuf_t) (size : Z)
    : option (pmem * pktbuf_t * pktbuf_t) :=
  match fuel with
  | O => None
  | S fuel' =>
      if size =? 0 then Some (m, dest, src)
      else
        dest_remain ← curr_blk_remain m dest;
        src_remain ← curr_blk_remain m src;
        let n := if src_remain <? dest_remain then src_remain else dest_remain in
        let n := if size <? n then size else n in
        x ← blks m !! curr_blk dest;
        y ← blks m !! curr_blk src;
        bytes ← mem_read (payload y) (blk_offset src) n;
        pl ← mem_write (payload x) (blk_offset dest) bytes;
        let m := set_blk m (curr_blk dest) (Blk (bsize x) (data x) pl) in
        dest ← move_forward m dest n;
        src ← move_forward m src n;
        copy_loop fuel' m dest src (size - n)
  end.

Definition pktbuf_copy (m : pmem) (dest src : pktbuf_t) (size : Z)
    : option (net_err_t * pktbuf_t * pktbuf_t * pmem) :=
  if (total_blk_remain dest <? size) || (total_blk_remain src <? size)
  then Some (NET_ERR_SIZE, dest, src, m)
  else
    '(m, dest, src) ← copy_loop
      (S (Z.to_nat size + length (blk_list dest) + length (blk_list src))) m dest src size;
    Some (NET_ERR_OK, dest, src, m).
