(* ===== verification/PktbufSpec.v ===== *)
(** * Packet buffers stand for byte strings

    [contents m bs] is the byte string the blocks [bs] hold, [pm_wf m used]
    the invariant of block memory when the blocks [used] belong to packets.
    Each structural operation (allocation, headers, resizing, joining,
    making the front contiguous) is shown to act on the byte string as its
    name says, on every branch, and to keep the invariant and all other
    packets' blocks. *)

From S2P Require Import Prelude Pktbuf.

Definition blk_bytes (x : pktblk_t) : list Z := sub (payload x) (data x) (bsize x).
Definition bytes_at (m : pmem) (b : Z) : list Z :=
  match blks m !! b with Some x => blk_bytes x | None => [] end.
Definition contents (m : pmem) (bs : list Z) : list Z := concat (bytes_at m <$> bs).

Arguments contents : simpl never.

Record blk_wf (x : pktblk_t) : Prop := {
  bw_len : zlen (payload x) = PKTBUF_BLK_SIZE;
  bw_data : 0 <= data x;
  bw_size : 0 <= bsize x;
  bw_end : data x + bsize x <= PKTBUF_BLK_SIZE;
}.

Record pm_wf (m : pmem) (used : list Z) : Prop := {
  pm_blk : forall b, b ∈ used ++ free m -> exists x, blks m !! b = Some x /\ blk_wf x;
  pm_nodup : NoDup (used ++ free m);
  pm_null : NULL ∉ used ++ free m;
}.

(** A packet whose blocks are among the used ones; [others] are the blocks of
    all other packets. *)
Record buf_wf (m : pmem) (buf : pktbuf_t) (others : list Z) : Prop := {
  bf_mem : pm_wf m (blk_list buf ++ others);
  bf_total : total_size buf = zlen (contents m (blk_list buf));
}.

(** Blocks that an operation leaves as they are. *)
Definition same_blks (m m' : pmem) (bs : list Z) : Prop :=
  forall b, b ∈ bs -> blks m' !! b = blks m !! b.

(** ** Byte strings *)

Lemma length_sub l off n : 0 <= off -> 0 <= n -> off + n <= zlen l ->
  length (sub l off n) = Z.to_nat n.
Proof. unfold sub, zlen. intros. rewrite length_take, length_drop. lia. Qed.

Lemma zlen_sub l off n : 0 <= off -> 0 <= n -> off + n <= zlen l -> zlen (sub l off n) = n.
Proof. intros. unfold zlen. rewrite length_sub by done. lia. Qed.

Lemma sub_app l off n k : 0 <= off -> 0 <= n -> 0 <= k ->
  sub l off n ++ sub l (off + n) k = sub l off (n + k).
Proof.
  intros. unfold sub. rewrite (Z2Nat.inj_add n k), (Z2Nat.inj_add off n) by lia.
  rewrite <- drop_drop. apply take_take_drop.
Qed.

Lemma sub_all l : sub l 0 (zlen l) = l.
Proof. unfold sub, zlen. rewrite Nat2Z.id. simpl. by apply take_ge. Qed.

Lemma drop_sub l off n k : 0 <= k <= n -> 0 <= off ->
  drop (Z.to_nat k) (sub l off n) = sub l (off + k) (n - k).
Proof.
  intros. unfold sub. replace (Z.to_nat (off + k)) with (Z.to_nat off + Z.to_nat k)%nat by lia.
  rewrite <- drop_drop, (take_drop_commute _ (Z.to_nat (n - k))). do 2 f_equal. lia.
Qed.

Lemma take_sub l off n k : 0 <= k <= n -> take (Z.to_nat k) (sub l off n) = sub l off k.
Proof. intros. unfold sub. rewrite take_take. f_equal. lia. Qed.

Lemma zlen_splice l off bs : 0 <= off -> off + zlen bs <= zlen l -> zlen (splice l off bs) = zlen l.
Proof.
  unfold splice, zlen. intros. rewrite !length_app, length_take, length_drop. lia.
Qed.

Lemma sub_app_mid (a b : list Z) o n : 0 <= o <= zlen a -> zlen a <= o + n ->
  sub (a ++ b) o n = drop (Z.to_nat o) a ++ sub b 0 (o + n - zlen a).
Proof.
  unfold sub, zlen. intros. rewrite drop_app_le by lia. rewrite take_app_ge
    by (rewrite length_drop; lia). rewrite length_drop. simpl. do 2 f_equal. lia.
Qed.

(** Reading a window of a string some bytes of which were overwritten. *)
Lemma sub_splice l off bs o n : 0 <= o <= off -> off + zlen bs <= o + n -> o + n <= zlen l ->
  sub (splice l off bs) o n
  = sub l o (off - o) ++ bs ++ sub l (off + zlen bs) (o + n - (off + zlen bs)).
Proof.
  intros Ho Hn Hl. pose proof (zlen_nonneg bs). unfold splice.
  assert (zlen (take (Z.to_nat off) l) = off) as E by (unfold zlen in *; rewrite length_take; lia).
  rewrite sub_app_mid by lia. rewrite E. f_equal.
  - unfold sub. rewrite take_drop_commute. do 2 f_equal. lia.
  - rewrite sub_app_mid by lia. simpl. f_equal. unfold sub. simpl.
    rewrite drop_0. f_equal; [lia|]. f_equal. unfold zlen. lia.
Qed.

Lemma splice_middle (a b c bs : list Z) : length bs = length b ->
  splice (a ++ b ++ c) (zlen a) bs = a ++ bs ++ c.
Proof.
  intros E. unfold splice, zlen. rewrite Nat2Z.id, take_app_length. do 2 f_equal.
  rewrite app_assoc. apply drop_app_length'. by rewrite length_app, E.
Qed.

(** ** Contents *)

Lemma contents_app m bs cs : contents m (bs ++ cs) = contents m bs ++ contents m cs.
Proof. unfold contents. by rewrite fmap_app, concat_app. Qed.

Lemma contents_cons m b bs : contents m (b :: bs) = bytes_at m b ++ contents m bs.
Proof. done. Qed.

Lemma contents_one m b : contents m [b] = bytes_at m b.
Proof. apply app_nil_r. Qed.

Lemma contents_ext m m' bs : same_blks m m' bs -> contents m' bs = contents m bs.
Proof.
  intros H. unfold contents. f_equal. apply list_fmap_ext. intros i b Hb.
  unfold bytes_at. rewrite H; [done|]. by eapply list_elem_of_lookup_2.
Qed.

Lemma bytes_at_set m b x : bytes_at (set_blk m b x) b = blk_bytes x.
Proof. unfold bytes_at. cbn. by rewrite lookup_insert_eq. Qed.

Lemma same_set_blk m b x bs : b ∉ bs -> same_blks m (set_blk m b x) bs.
Proof. intros Hb c Hc. cbn. apply lookup_insert_ne. by intros ->. Qed.

Lemma contents_set m b x bs : b ∉ bs -> contents (set_blk m b x) bs = contents m bs.
Proof. intros Hb. by apply contents_ext, same_set_blk. Qed.

Lemma same_blks_trans m1 m2 m3 bs : same_blks m1 m2 bs -> same_blks m2 m3 bs -> same_blks m1 m3 bs.
Proof. intros H1 H2 b Hb. rewrite H2, H1; done. Qed.

Lemma same_blks_sub m m' bs cs : same_blks m m' bs -> (forall b, b ∈ cs -> b ∈ bs) -> same_blks m m' cs.
Proof. intros H Hs b Hb. apply H. auto. Qed.

Lemma zlen_bytes x : blk_wf x -> zlen (blk_bytes x) = bsize x.
Proof. intros [H1 H2 H3 H4]. unfold blk_bytes. apply zlen_sub; lia. Qed.

Lemma sum_sizes_ok m bs : (forall b, b ∈ bs -> exists x, blks m !! b = Some x /\ blk_wf x) ->
  sum_sizes m bs = Some (zlen (contents m bs)).
Proof.
  induction bs as [|b bs IH]; intros H; [done|]. simpl.
  destruct (H b) as (x & Hx & W); [set_solver|]. rewrite Hx. mstep.
  rewrite IH by (intros c Hc; apply H; set_solver). mstep.
  rewrite contents_cons, zlen_app. unfold bytes_at. rewrite Hx, zlen_bytes by done. done.
Qed.

(** ** The invariant of block memory *)

Lemma pm_wf_perm m us vs : us ≡ₚ vs -> pm_wf m us -> pm_wf m vs.
Proof.
  intros P [H1 H2 H3]. split.
  - intros b. rewrite <- P. apply H1.
  - by rewrite <- P.
  - by rewrite <- P.
Qed.

Lemma pm_lookup m used b : pm_wf m used -> b ∈ used -> exists x, blks m !! b = Some x /\ blk_wf x.
Proof. intros W Hb. apply (pm_blk _ _ W). set_solver. Qed.

Lemma pm_set m used b x : pm_wf m used -> blk_wf x -> pm_wf (set_blk m b x) used.
Proof.
  intros [H1 H2 H3] Wx. split; [|done..]. intros c Hc. cbn. rewrite lookup_insert.
  case_decide; [eauto|]. by apply H1.
Qed.

Lemma pm_free_list m used bs : pm_wf m (bs ++ used) -> pm_wf (pktblock_free_list m bs) used.
Proof.
  intros [H1 H2 H3]. assert (used ++ free m ++ bs ≡ₚ (bs ++ used) ++ free m) as P
    by (rewrite app_assoc, (Permutation_app_comm _ bs), app_assoc; done).
  split; cbn; [intros b; rewrite P; apply H1|by rewrite P..].
Qed.

Lemma pktblock_free_singleton m b : pktblock_free m b = pktblock_free_list m [b].
Proof. done. Qed.

Lemma contents_free_list m bs cs : contents (pktblock_free_list m bs) cs = contents m cs.
Proof. done. Qed.

Lemma pktblock_alloc_ok m used : pm_wf m used ->
  match free m with
  | [] => pktblock_alloc m = Some (NULL, m)
  | b :: free' => exists x m', blks m !! b = Some x /\ zlen (payload x) = PKTBUF_BLK_SIZE /\
      pktblock_alloc m = Some (b, m') /\ blks m' !! b = Some (Blk 0 0 (payload x)) /\
      free m' = free' /\ free_bufs m' = free_bufs m /\ pm_wf m' (b :: used) /\
      b <> NULL /\ b ∉ used /\ same_blks m m' used
  end.
Proof.
  intros W. unfold pktblock_alloc. destruct (free m) as [|b fr] eqn:Ef; [done|].
  destruct (pm_blk _ _ W b) as (x & Hx & Wx); [rewrite Ef; set_solver|].
  pose proof (pm_nodup _ _ W) as Hd. pose proof (pm_null _ _ W) as H0. rewrite Ef in *.
  assert (b ∉ used) as Hu by (apply NoDup_app in Hd as (_ & Hd & _); intros Hin; apply (Hd b Hin); set_solver).
  exists x. rewrite Hx. mstep. eexists. split; [done|]. split; [apply Wx|]. split; [done|].
  cbn. rewrite lookup_insert_eq. split_and!; try done.
  - split; cbn.
    + intros c Hc. rewrite lookup_insert. case_decide.
      * eexists. split; [done|]. split; cbn; [apply Wx|unfold PKTBUF_BLK_SIZE; lia..].
      * apply (pm_blk _ _ W). rewrite Ef. set_solver.
    + by rewrite <- Permutation_middle in Hd.
    + set_solver.
  - intros ->. set_solver.
  - intros c Hc. cbn. apply lookup_insert_ne. by intros ->.
Qed.

(** Blocks needed for [size] bytes. *)
Definition blks_for (size : Z) : Z := (size + 63) / 64.

Lemma blks_for_step size : 64 < size -> blks_for size = blks_for (size - 64) + 1.
Proof. unfold blks_for. intros. divmod. Qed.
Lemma blks_for_one size : 0 < size <= 64 -> blks_for size = 1.
Proof. unfold blks_for. intros. divmod. Qed.

Definition new_blk (size : Z) (front : bool) (pl : list Z) : pktblk_t :=
  let n := if PKTBUF_BLK_SIZE <? size then PKTBUF_BLK_SIZE else size in
  Blk n (if front then PKTBUF_BLK_SIZE - n else 0) pl.

Lemma new_blk_wf size front pl : 0 < size -> zlen pl = PKTBUF_BLK_SIZE -> blk_wf (new_blk size front pl).
Proof.
  intros Hs Hl. unfold new_blk, PKTBUF_BLK_SIZE in *.
  split; cbn; destruct (Z.ltb_spec 64 size), front; unfold PKTBUF_BLK_SIZE; lia.
Qed.

(** What the allocation loop does when there are enough free blocks, and when
    there are not: in the second case every block is back in the pool. *)
Lemma alloc_loop_ok fuel : forall m size front chain used,
  pm_wf m (chain ++ used) -> 0 <= size -> (Z.to_nat size < fuel)%nat ->
  exists chain' m', alloc_loop fuel m size front chain = Some (chain', m') /\
    same_blks m m' used /\ free_bufs m' = free_bufs m /\
    if blks_for size <=? zlen (free m) then
      (exists new, chain' = (if front then new ++ chain else chain ++ new) /\
        zlen (contents m' new) = size /\ (0 < size -> new <> [])) /\
      pm_wf m' (chain' ++ used) /\ same_blks m m' chain
    else chain' = [] /\ pm_wf m' used /\ free m' ≡ₚ chain ++ free m.
Proof.
  induction fuel as [|fuel IH]; intros m size front chain used W Hs Hf; [lia|].
  cbn [alloc_loop]. pose proof (zlen_nonneg (free m)) as Hz.
  destruct (Z.eqb_spec size 0) as [->|Hne].
  { exists chain, m. change (blks_for 0) with 0. destruct (Z.leb_spec 0 (zlen (free m))); [|lia].
    split_and!; try done. exists []. rewrite app_nil_r. by destruct front. }
  assert (0 < blks_for size) as Hb by (unfold blks_for; divmod).
  pose proof (pktblock_alloc_ok m (chain ++ used) W) as A. destruct (free m) as [|b fr] eqn:Ef.
  { rewrite A. mstep. change (NULL =? NULL) with true. cbv iota.
    exists [], (pktblock_free_list m chain).
    change (zlen (@nil Z)) with 0. destruct (Z.leb_spec (blks_for size) 0); [lia|].
    split_and!; try done; [by apply pm_free_list|]. cbn. rewrite Ef. by rewrite app_nil_r. }
  destruct A as (x & m1 & Hx & Hp & -> & Hx1 & Hf1 & Hfb & W1 & Hb0 & Hbn & S1). mstep.
  destruct (Z.eqb_spec b NULL) as [|_]; [done|]. rewrite Hx1. mstep.
  set (n := if PKTBUF_BLK_SIZE <? size then PKTBUF_BLK_SIZE else size).
  change (Blk n (if front then PKTBUF_BLK_SIZE - n else 0) (payload (Blk 0 0 (payload x))))
    with (new_blk size front (payload x)).
  set (m2 := set_blk m1 b (new_blk size front (payload x))).
  assert (0 < n /\ n <= size /\ blks_for size = blks_for (size - n) + 1) as (Hn1 & Hn2 & Hn3).
  { unfold n, PKTBUF_BLK_SIZE. destruct (Z.ltb_spec 64 size).
    - split; [lia|]. split; [lia|]. by apply blks_for_step.
    - rewrite Z.sub_diag. change (blks_for 0) with 0. rewrite blks_for_one; lia. }
  assert (blk_wf (new_blk size front (payload x))) as Wb by (apply new_blk_wf; [lia|done]).
  assert (pm_wf m2 (b :: chain ++ used)) as W2 by by apply pm_set.
  set (c2 := if front then b :: chain else chain ++ [b]).
  assert (pm_wf m2 (c2 ++ used)) as W2'.
  { unfold c2. destruct front; [done|]. eapply pm_wf_perm; [|exact W2].
    rewrite <- app_assoc. simpl. by rewrite <- Permutation_middle. }
  assert (same_blks m m2 (chain ++ used)) as S2.
  { apply (same_blks_trans _ m1); [done|]. by apply same_set_blk. }
  assert (same_blks m m2 used /\ same_blks m m2 chain) as [S2u S2c]
    by (split; eapply same_blks_sub; try exact S2; set_solver).
  destruct (IH m2 (size - n) front c2 used W2') as (c' & m' & -> & Su & Hfb' & R); [lia|lia|].
  exists c', m'. split; [done|]. split; [by eapply same_blks_trans|]. split; [by rewrite Hfb', <- Hfb|].
  change (free m2) with (free m1) in R. rewrite Hf1 in R.
  change (zlen (b :: fr)) with (Z.of_nat (S (length fr))). rewrite Nat2Z.inj_succ.
  change (Z.of_nat (length fr)) with (zlen fr).
  destruct (Z.leb_spec (blks_for size) (Z.succ (zlen fr))), (Z.leb_spec (blks_for (size - n)) (zlen fr));
    try lia.
  - destruct R as ((new & -> & Hlen & _) & W' & Sc).
    assert (blks m' !! b = blks m2 !! b) as Sb by (apply Sc; unfold c2; destruct front; set_solver).
    assert (bytes_at m' b = blk_bytes (new_blk size front (payload x))) as Eb.
    { unfold bytes_at. rewrite Sb. cbn. by rewrite lookup_insert_eq. }
    assert (zlen (bytes_at m' b) = n) as Hbl by (by rewrite Eb, zlen_bytes).
    split; [|split; [done|]].
    + exists (if front then new ++ [b] else b :: new). unfold c2. destruct front.
      * split_and!; [by rewrite <- app_assoc| |intros _; by destruct new].
        rewrite contents_app, zlen_app, contents_one. lia.
      * split_and!; [by rewrite <- app_assoc| |done].
        rewrite contents_cons, zlen_app. lia.
    + eapply same_blks_trans; [exact S2c|]. eapply same_blks_sub; [exact Sc|].
      unfold c2. destruct front; set_solver.
  - destruct R as (-> & W' & Pf). split_and!; [done|done|]. rewrite Pf. unfold c2. destruct front.
    + simpl. by rewrite Permutation_middle.
    + by rewrite <- app_assoc.
Qed.

Lemma alloc_list_ok m size front used : pm_wf m used -> 0 < size ->
  exists chain m', pktblock_alloc_list m size front = Some (chain, m') /\
    same_blks m m' used /\ free_bufs m' = free_bufs m /\
    if blks_for size <=? zlen (free m) then
      chain <> [] /\ zlen (contents m' chain) = size /\ pm_wf m' (chain ++ used)
    else chain = [] /\ pm_wf m' used /\ free m' ≡ₚ free m.
Proof.
  intros W Hs. destruct (alloc_loop_ok (S (S (Z.to_nat size))) m size front [] used)
    as (c & m' & E & S & Hfb & R); [done|lia|lia|].
  exists c, m'. split; [done|]. split; [done|]. split; [done|].
  destruct (blks_for size <=? zlen (free m)); [|done].
  destruct R as ((new & -> & Hl & Hn) & W' & _).
  assert ((if front then new ++ [] else [] ++ new) = new) as E1 by (destruct front; [apply app_nil_r|done]).
  rewrite E1 in *. auto.
Qed.

(** ** Allocation and release *)

Lemma insert_blk_list_ok m buf chain add_last : (forall b, b ∈ chain -> exists x, blks m !! b = Some x /\ blk_wf x) ->
  pktbuf_insert_blk_list m buf chain add_last
  = Some (with_blks buf (total_size buf + zlen (contents m chain))
      (if add_last then blk_list buf ++ chain else chain ++ blk_list buf)).
Proof. intros H. unfold pktbuf_insert_blk_list. by rewrite sum_sizes_ok. Qed.

Lemma reset_acc_ok m buf used : pm_wf m used -> (forall b, b ∈ blk_list buf -> b ∈ used) ->
  exists b off, pktbuf_reset_acc m buf = Some (with_cursor buf 0 b off) /\
    match blk_list buf with
    | [] => b = NULL /\ off = 0
    | b' :: _ => b = b' /\ exists x, blks m !! b = Some x /\ off = data x
    end.
Proof.
  intros W H. unfold pktbuf_reset_acc, pktbuf_first_blk. destruct (blk_list buf) as [|b bs]; simpl.
  - by exists NULL, 0.
  - destruct (pm_lookup _ _ b W) as (x & Hx & _); [apply H; set_solver|].
    destruct (Z.eqb_spec b NULL) as [->|].
    + exfalso. apply (pm_null _ _ W). assert (NULL ∈ used) by (apply H; set_solver). set_solver.
    + rewrite Hx. exists b, (data x). split; [done|]. split; [done|]. by exists x.
Qed.

(** [pktbuf_alloc] hands out a packet of exactly [size] bytes with one
    reference and the position at its start, made of free blocks only, or it
    returns NULL, which happens exactly when the packet pool is empty or fewer
    than ceil(size/64) blocks are free; in that case no block and no packet is
    lost.  Blocks in use are untouched either way. *)
Theorem pktbuf_alloc_spec m used size : pm_wf m used -> 0 <= size ->
  exists r m', pktbuf_alloc m size = Some (r, m') /\ same_blks m m' used /\
    match free_bufs m with
    | [] => r = None /\ m' = m
    | a :: bufs =>
        if blks_for size <=? zlen (free m) then
          exists buf, r = Some buf /\ self buf = a /\ ref buf = 1 /\ pos buf = 0 /\
            total_size buf = size /\ buf_wf m' buf used /\ free_bufs m' = bufs
        else r = None /\ pm_wf m' used /\ free m' ≡ₚ free m /\ free_bufs m' = bufs ++ [a]
    end.
Proof.
  intros W Hs. unfold pktbuf_alloc. destruct (free_bufs m) as [|a bufs] eqn:Eb.
  { by exists None, m. }
  set (m0 := PMem (blks m) (free m) bufs). assert (pm_wf m0 used) as W0 by by destruct W.
  unfold nz. destruct (Z.eqb_spec size 0) as [->|Hne]; cbn [negb].
  { change (blks_for 0) with 0. pose proof (zlen_nonneg (free m)).
    destruct (Z.leb_spec 0 (zlen (free m))); [|lia].
    unfold pktbuf_reset_acc. cbn. eexists _, m0. split; [done|]. split; [done|].
    eexists. do 5 (split; [done|]). split; [|done]. by split. }
  destruct (alloc_list_ok m0 size false used W0) as (chain & m' & -> & S & Hfb & R); [lia|]. mstep.
  change (free m0) with (free m) in R. destruct (blks_for size <=? zlen (free m)).
  - destruct R as (Hc & Hl & W'). destruct chain as [|b chain]; [done|].
    rewrite insert_blk_list_ok by (intros c Hin; apply (pm_lookup _ _ _ W'); set_solver). mstep.
    set (buf := with_blks _ _ _).
    destruct (reset_acc_ok m' buf _ W') as (b' & off & -> & _); [cbn; set_solver|]. mstep.
    eexists _, m'. split; [done|]. split; [done|]. eexists. cbn [self ref pos with_cursor].
    assert (total_size buf = size) as Et by (change (0 + zlen (contents m' (b :: chain)) = size); lia).
    do 4 (split; [done|]). split; [exact Et|]. split; [|done]. split; [done|].
    change (total_size buf = zlen (contents m' (b :: chain))). lia.
  - destruct R as (-> & W' & Pf). do 2 eexists. split; [done|]. split; [done|].
    split; [done|]. split; [by destruct W'|]. split; [done|]. cbn. by rewrite Hfb.
Qed.

(** [pktbuf_free] drops a reference; with the last one gone, every block
    of the packet and the packet itself are back in their pools and the blocks
    of other packets are untouched. *)
Theorem pktbuf_free_spec m buf others : buf_wf m buf others -> 0 < ref buf ->
  let '(buf', m') := pktbuf_free m buf in
  ref buf' = ref buf - 1 /\ same_blks m m' others /\
  if ref buf =? 1 then
    pm_wf m' others /\ free m' = free m ++ blk_list buf /\ free_bufs m' = free_bufs m ++ [self buf]
  else m' = m.
Proof.
  intros [W _] Hr. unfold pktbuf_free. cbn [ref with_ref blk_list self].
  destruct (Z.eqb_spec (ref buf - 1) 0), (Z.eqb_spec (ref buf) 1); try lia; [|done].
  split_and!; try done. destruct (pm_free_list _ _ _ W) as [H1 H2 H3]. by split.
Qed.

(** ** Headers *)

(** A packet split at its first block. *)
Lemma buf_first m buf others b rest : buf_wf m buf others -> blk_list buf = b :: rest ->
  exists x, blks m !! b = Some x /\ blk_wf x /\ b ∉ rest /\ b ∉ others /\ b ∉ free m /\
    contents m (blk_list buf) = blk_bytes x ++ contents m rest.
Proof.
  intros [W _] E. rewrite E in *. destruct (pm_lookup _ _ b W) as (x & Hx & Wx); [set_solver|].
  pose proof (pm_nodup _ _ W) as Hd. simpl in Hd. apply NoDup_cons in Hd as [Hd _].
  exists x. split_and!; try done; [set_solver..|].
  rewrite contents_cons. unfold bytes_at. by rewrite Hx.
Qed.

(** Growing a block's window to the front. *)
Lemma blk_bytes_front x n : blk_wf x -> 0 <= n <= data x ->
  let x' := Blk (bsize x + n) (data x - n) (payload x) in
  blk_wf x' /\ blk_bytes x' = sub (payload x) (data x - n) n ++ blk_bytes x.
Proof.
  intros [H1 H2 H3 H4] Hn x'. split; [split; cbn; lia|]. unfold blk_bytes. cbn.
  replace (data x) with (data x - n + n) at 3 by lia. rewrite sub_app by lia. f_equal. lia.
Qed.

(** The chain a header is put into goes in front of the packet. *)
Lemma add_header_chain m buf others size : buf_wf m buf others -> 0 < size ->
  blk_list buf <> [] ->
  exists e buf' m', ('(chain, m) ← pktblock_alloc_list m size true;
      match chain with
      | [] => Some (NET_ERR_NONE, buf, m)
      | _ => buf ← pktbuf_insert_blk_list m buf chain false; Some (NET_ERR_OK, buf, m)
      end) = Some (e, buf', m') /\ same_blks m m' others /\ buf_wf m' buf' others /\
    if blks_for size <=? zlen (free m) then
      e = NET_ERR_OK /\ exists hdr, zlen hdr = size /\
        contents m' (blk_list buf') = hdr ++ contents m (blk_list buf)
    else e = NET_ERR_NONE /\ contents m' (blk_list buf') = contents m (blk_list buf).
Proof.
  intros [W T] Hs Hne. destruct (alloc_list_ok m size true _ W Hs) as (chain & m' & -> & S & _ & R).
  mstep. assert (same_blks m m' (blk_list buf) /\ same_blks m m' others) as [Sb So]
    by (split; eapply same_blks_sub; try exact S; set_solver).
  destruct (blks_for size <=? zlen (free m)).
  - destruct R as (Hc & Hl & W'). destruct chain as [|b chain]; [done|].
    rewrite insert_blk_list_ok by (intros c Hin; apply (pm_lookup _ _ _ W'); set_solver). mstep.
    do 3 eexists. split; [done|]. split; [done|].
    assert (contents m' ((b :: chain) ++ blk_list buf) =
      contents m' (b :: chain) ++ contents m (blk_list buf)) as Ec
      by by rewrite contents_app, (contents_ext m m' (blk_list buf)).
    cbn [blk_list with_blks]. split; [|split; [done|eauto]]. split.
    + cbn [blk_list with_blks]. by rewrite <- app_assoc.
    + cbn [blk_list with_blks total_size]. rewrite Ec, zlen_app. lia.
  - destruct R as (-> & W' & Pf). do 3 eexists. split; [done|]. split; [done|].
    assert (contents m' (blk_list buf) = contents m (blk_list buf)) as Ec by by apply contents_ext.
    split; [|done]. split; [done|]. by rewrite Ec.
Qed.

Lemma buf_wf_first m buf others b rest x x' n : buf_wf m buf others -> blk_list buf = b :: rest ->
  blks m !! b = Some x -> blk_wf x' -> zlen (blk_bytes x') = zlen (blk_bytes x) + n ->
  let m' := set_blk m b x' in let buf' := with_total buf (total_size buf + n) in
  buf_wf m' buf' others /\ contents m' (blk_list buf') = blk_bytes x' ++ contents m rest /\
  same_blks m m' others.
Proof.
  intros B E Hx Wx' Hl m' buf'. destruct (buf_first _ _ _ _ _ B E) as (y & Hy & _ & H1 & H2 & H3 & Ec).
  rewrite Hx in Hy. injection Hy as <-. destruct B as [W T].
  assert (contents m' (blk_list buf') = blk_bytes x' ++ contents m rest) as Ec'.
  { unfold m', buf'. cbn [blk_list with_total]. rewrite E, contents_cons, contents_set by done.
    by rewrite bytes_at_set. }
  split_and!; [|done|by apply same_set_blk]. split.
  - by apply pm_set.
  - rewrite Ec'. cbn. rewrite T, Ec, !zlen_app. lia.
Qed.

(** [pktbuf_add_header] puts [size] bytes in front of a packet's bytes,
    contiguous if asked to (then [size] must not exceed a block), and reports
    success exactly when the reserved space of the first block or the free
    blocks suffice.  When a non-contiguous header cannot be allocated, the
    reserved bytes of the first block have nevertheless become part of the
    packet. *)
Theorem pktbuf_add_header_spec m buf others size cont b rest x :
  buf_wf m buf others -> blk_list buf = b :: rest -> blks m !! b = Some x -> 0 <= size ->
  exists e buf' m', pktbuf_add_header m buf size cont = Some (e, buf', m') /\
    buf_wf m' buf' others /\ same_blks m m' others /\
    let need := if size <=? data x then 0 else if cont then blks_for size else blks_for (size - data x) in
    if (size <=? data x) || ((negb cont || (size <=? PKTBUF_BLK_SIZE)) && (need <=? zlen (free m))) then
      e = NET_ERR_OK /\ exists hdr, zlen hdr = size /\
        contents m' (blk_list buf') = hdr ++ contents m (blk_list buf)
    else e = NET_ERR_NONE /\ exists hdr, zlen hdr = (if cont then 0 else data x) /\
        contents m' (blk_list buf') = hdr ++ contents m (blk_list buf).
Proof.
  intros B E Hx Hs. destruct (buf_first _ _ _ _ _ B E) as (y & Hy & Wx & _ & _ & _ & Ec).
  rewrite Hx in Hy. injection Hy as <-. pose proof (bw_data _ Wx) as Hd. pose proof Wx as [Hp _ _ _].
  unfold pktbuf_add_header. rewrite E. cbn [head]. mstep. rewrite Hx. mstep. rewrite <- E. cbv zeta.
  destruct (Z.leb_spec size (data x)) as [Hle|Hgt]; cbn [orb].
  - destruct (blk_bytes_front x size Wx) as [Wx' Eb]; [lia|].
    destruct (buf_wf_first m buf others b rest x _ size B E Hx Wx') as (B' & Ec' & So).
    { rewrite Eb, zlen_app, zlen_sub; destruct Wx; lia. }
    do 3 eexists. split; [done|]. split; [done|]. split; [done|]. split; [done|].
    exists (sub (payload x) (data x - size) size). split; [apply zlen_sub; destruct Wx; lia|].
    rewrite Ec', Eb, Ec. by rewrite <- app_assoc.
  - assert (blk_list buf <> []) as Hne by by rewrite E.
    destruct cont; cbn [negb orb].
    + destruct (Z.ltb_spec PKTBUF_BLK_SIZE size), (Z.leb_spec size PKTBUF_BLK_SIZE); try lia.
      { do 3 eexists. split; [done|]. do 2 (split; [done|]). cbn [andb]. split; [done|]. by exists []. }
      destruct (add_header_chain m buf others size B) as (e & buf' & m' & -> & So & B' & R); [lia|done|].
      exists e, buf', m'. do 3 (split; [done|]). cbn [andb].
      destruct (_ <=? zlen (free m)); [done|]. destruct R as [-> ->]. split; [done|]. by exists [].
    + destruct (blk_bytes_front x (data x) Wx) as [Wx' Eb]; [lia|]. rewrite Z.sub_diag in *.
      destruct (buf_wf_first m buf others b rest x _ (data x) B E Hx Wx') as (B1 & Ec1 & So1).
      { rewrite Eb, zlen_app, zlen_sub; destruct Wx; lia. }
      destruct (add_header_chain _ _ others (size - data x) B1) as (e & buf' & m' & Ea & So & B' & R);
        [lia|done|].
      change (free (set_blk m b _)) with (free m) in R. rewrite Ea.
      exists e, buf', m'. split; [done|]. split; [done|].
      split; [by eapply same_blks_trans|]. cbn [andb]. rewrite Ec1, Eb in R.
      assert (zlen (sub (payload x) 0 (data x)) = data x) as Hsub by (apply zlen_sub; destruct Wx; lia).
      destruct (_ <=? zlen (free m)).
      * destruct R as [-> (hdr & Hh & R)]. split; [done|].
        exists (hdr ++ sub (payload x) 0 (data x)). rewrite zlen_app, Hsub. split; [lia|].
        rewrite R, Ec. by rewrite <- !app_assoc.
      * destruct R as [-> R]. split; [done|]. exists (sub (payload x) 0 (data x)).
        split; [done|]. by rewrite R, Ec, <- app_assoc.
Qed.

Lemma remove_header_loop_ok bs : forall m others total size,
  pm_wf m (bs ++ others) -> 0 <= size <= zlen (contents m bs) ->
  exists bs' m', remove_header_loop m bs total size = Some (bs', total - size, m') /\
    pm_wf m' (bs' ++ others) /\ same_blks m m' others /\
    contents m' bs' = drop (Z.to_nat size) (contents m bs).
Proof.
  induction bs as [|b bs IH]; intros m others total size W Hs; cbn [remove_header_loop].
  - change (zlen (contents m [])) with 0 in Hs. assert (size = 0) as -> by lia.
    exists [], m. split_and!; try done. by rewrite Z.sub_0_r.
  - destruct (Z.eqb_spec size 0) as [->|Hne].
    { exists (b :: bs), m. split_and!; try done. by rewrite Z.sub_0_r. }
    destruct (pm_lookup _ _ b W) as (x & Hx & Wx); [set_solver|]. rewrite Hx. mstep.
    pose proof (zlen_bytes x Wx) as Hl.
    assert (contents m (b :: bs) = blk_bytes x ++ contents m bs) as Ec
      by (rewrite contents_cons; unfold bytes_at; by rewrite Hx).
    pose proof (pm_nodup _ _ W) as Hd. simpl in Hd. apply NoDup_cons in Hd as [Hd _].
    destruct (Z.ltb_spec size (bsize x)).
    + do 2 eexists. split; [done|]. split; [apply pm_set; [done|split; cbn; destruct Wx; lia]|].
      split; [apply same_set_blk; set_solver|].
      rewrite contents_cons, bytes_at_set, contents_set, Ec by set_solver.
      rewrite drop_app_le by (unfold zlen in Hl; lia). f_equal. unfold blk_bytes. cbn.
      symmetry. apply drop_sub; destruct Wx; lia.
    + rewrite Ec, zlen_app in Hs.
      destruct (IH (pktblock_free m b) others (total - bsize x) (size - bsize x))
        as (bs' & m' & -> & W' & So & Ec').
      * rewrite pktblock_free_singleton. by apply pm_free_list.
      * change (contents (pktblock_free m b) bs) with (contents m bs).
        pose proof (bw_size _ Wx). lia.
      * exists bs', m'. split; [do 3 f_equal; lia|]. split; [done|]. split; [done|].
        rewrite Ec', Ec. change (contents (pktblock_free m b) bs) with (contents m bs).
        rewrite drop_app_ge by (unfold zlen in Hl; lia). f_equal. unfold zlen in Hl. lia.
Qed.

(** [pktbuf_remove_header] drops the first [size] bytes of a packet that
    has that many, returning emptied blocks to the pool. *)
Theorem pktbuf_remove_header_spec m buf others size :
  buf_wf m buf others -> 0 <= size <= total_size buf ->
  exists buf' m', pktbuf_remove_header m buf size = Some (NET_ERR_OK, buf', m') /\
    buf_wf m' buf' others /\ same_blks m m' others /\
    contents m' (blk_list buf') = drop (Z.to_nat size) (contents m (blk_list buf)).
Proof.
  intros [W T] Hs. rewrite T in Hs. unfold pktbuf_remove_header.
  destruct (remove_header_loop_ok (blk_list buf) m others (total_size buf) size W Hs)
    as (bs' & m' & -> & W' & So & Ec). mstep.
  do 2 eexists. split; [done|]. split; [|done]. split; [done|].
  cbn. rewrite Ec, T. unfold zlen in *. rewrite length_drop. lia.
Qed.

(** ** Resizing *)

Lemma blk_bytes_tail x n : blk_wf x -> 0 <= n <= curr_blk_tail_free x ->
  let x' := Blk (bsize x + n) (data x) (payload x) in
  blk_wf x' /\ blk_bytes x' = blk_bytes x ++ sub (payload x) (data x + bsize x) n.
Proof.
  intros [H1 H2 H3 H4] Hn x'. unfold curr_blk_tail_free in Hn. split; [split; cbn; lia|].
  unfold blk_bytes. cbn. by rewrite sub_app by lia.
Qed.

(** Changing the window of the last block of a list. *)
Lemma contents_set_last m bs b x x' : b ∉ bs -> blks m !! b = Some x ->
  contents m (bs ++ [b]) = contents m bs ++ blk_bytes x /\
  contents (set_blk m b x') (bs ++ [b]) = contents m bs ++ blk_bytes x'.
Proof.
  intros Hb Hx. rewrite !contents_app, contents_set, !contents_one, bytes_at_set by done.
  unfold bytes_at. by rewrite Hx.
Qed.

Lemma find_tail_ok m to_size bs : forall before total,
  (forall b, b ∈ bs -> exists x, blks m !! b = Some x /\ blk_wf x) ->
  total = zlen (contents m before) -> total <= to_size ->
  to_size < zlen (contents m (before ++ bs)) ->
  exists before' b after, find_tail m before bs total to_size = Some (Some (before', b, after)) /\
    before ++ bs = before' ++ b :: after /\ zlen (contents m before') <= to_size /\
    to_size <= zlen (contents m (before' ++ [b])).
Proof.
  induction bs as [|b bs IH]; intros before total Hb Ht Hle Hlt; cbn [find_tail].
  { rewrite app_nil_r in Hlt. lia. }
  destruct (Hb b) as (x & Hx & Wx); [set_solver|]. rewrite Hx. mstep.
  assert (zlen (contents m (before ++ [b])) = total + bsize x) as El.
  { rewrite contents_app, zlen_app, <- Ht, contents_one. unfold bytes_at.
    by rewrite Hx, zlen_bytes. }
  destruct (Z.leb_spec to_size (total + bsize x)).
  - exists before, b, bs. split_and!; [done|done|lia|lia].
  - destruct (IH (before ++ [b]) (total + bsize x)) as (b' & c & a & -> & E & H1 & H2).
    + intros c Hc. apply Hb. set_solver.
    + done.
    + lia.
    + by rewrite <- app_assoc.
    + exists b', c, a. split_and!; try done. by rewrite <- E, <- app_assoc.
Qed.

(** The growing branches. *)
Lemma resize_append m buf others size e0 : buf_wf m buf others -> 0 < size ->
  exists e buf' m', ('(chain, m) ← pktblock_alloc_list m size false;
      match chain with
      | [] => Some (e0, buf, m)
      | _ => buf ← pktbuf_insert_blk_list m buf chain true; Some (NET_ERR_OK, buf, m)
      end) = Some (e, buf', m') /\ buf_wf m' buf' others /\ same_blks m m' others /\
    if blks_for size <=? zlen (free m) then
      e = NET_ERR_OK /\ exists new, zlen new = size /\
        contents m' (blk_list buf') = contents m (blk_list buf) ++ new
    else e = e0 /\ contents m' (blk_list buf') = contents m (blk_list buf).
Proof.
  intros [W T] Hs. destruct (alloc_list_ok m size false _ W Hs) as (chain & m' & -> & S & _ & R).
  mstep. assert (same_blks m m' (blk_list buf) /\ same_blks m m' others) as [Sb So]
    by (split; eapply same_blks_sub; try exact S; set_solver).
  assert (contents m' (blk_list buf) = contents m (blk_list buf)) as Ec0 by by apply contents_ext.
  destruct (blks_for size <=? zlen (free m)).
  - destruct R as (Hc & Hl & W'). destruct chain as [|b chain]; [done|].
    rewrite insert_blk_list_ok by (intros c Hin; apply (pm_lookup _ _ _ W'); set_solver). mstep.
    do 3 eexists. split; [done|]. cbn [blk_list with_blks].
    split; [|split; [done|split; [done|]]].
    + split; cbn [blk_list with_blks total_size].
      * eapply pm_wf_perm; [|exact W']. rewrite <- app_assoc.
        rewrite !app_assoc. by rewrite (Permutation_app_comm (b :: chain)).
      * rewrite contents_app, zlen_app, Ec0. lia.
    + exists (contents m' (b :: chain)). by rewrite contents_app, Ec0.
  - destruct R as (-> & W' & Pf). do 3 eexists. split; [done|]. split; [|done].
    split; [done|]. by rewrite Ec0.
Qed.

(** A packet split at its last block. *)
Lemma buf_last m buf others bs b : buf_wf m buf others -> blk_list buf = bs ++ [b] ->
  exists x, blks m !! b = Some x /\ blk_wf x /\ b ∉ bs /\ b ∉ others /\
    contents m (blk_list buf) = contents m bs ++ blk_bytes x.
Proof.
  intros [W _] E. rewrite E in *. destruct (pm_lookup _ _ b W) as (x & Hx & Wx); [set_solver|].
  pose proof (pm_nodup _ _ W) as Hd. rewrite <- !app_assoc in Hd. simpl in Hd.
  rewrite <- Permutation_middle in Hd. apply NoDup_cons in Hd as [Hd _].
  exists x. split_and!; try done; [set_solver..|].
  rewrite contents_app, contents_one. unfold bytes_at. by rewrite Hx.
Qed.

Lemma resize_in_tail m buf others bs b x n : buf_wf m buf others -> blk_list buf = bs ++ [b] ->
  blks m !! b = Some x -> 0 <= n <= curr_blk_tail_free x ->
  let m' := set_blk m b (Blk (bsize x + n) (data x) (payload x)) in
  let buf' := with_total buf (total_size buf + n) in
  buf_wf m' buf' others /\ same_blks m m' others /\
  exists new, zlen new = n /\ contents m' (blk_list buf') = contents m (blk_list buf) ++ new.
Proof.
  intros B E Hx Hn m' buf'. destruct (buf_last _ _ _ _ _ B E) as (y & Hy & Wx & H1 & H2 & Ec).
  rewrite Hx in Hy. injection Hy as <-. destruct (blk_bytes_tail x n Wx Hn) as [Wx' Eb].
  destruct B as [W T]. unfold curr_blk_tail_free in Hn.
  assert (zlen (sub (payload x) (data x + bsize x) n) = n) as Hl
    by (apply zlen_sub; destruct Wx; lia).
  assert (contents m' (blk_list buf') = contents m (blk_list buf)
    ++ sub (payload x) (data x + bsize x) n) as Ec'.
  { unfold buf', m'. cbn [blk_list with_total]. rewrite E at 1.
    destruct (contents_set_last m bs b x (Blk (bsize x + n) (data x) (payload x)) H1 Hx) as [_ ->].
    by rewrite Eb, app_assoc, Ec. }
  split; [|split; [by apply same_set_blk|eauto]].
  split; [by apply pm_set|]. rewrite Ec', zlen_app. cbn. lia.
Qed.

Lemma resize_grow m buf others bs b x n : buf_wf m buf others -> blk_list buf = bs ++ [b] ->
  blks m !! b = Some x -> 0 <= curr_blk_tail_free x < n ->
  let r := curr_blk_tail_free x in
  exists e buf' m', ('(chain, m) ← pktblock_alloc_list m (n - r) false;
      match chain with
      | [] => Some (NET_ERR_NONE, buf, m)
      | _ =>
          x ← blks m !! b;
          let m := set_blk m b (Blk (bsize x + r) (data x) (payload x)) in
          buf ← pktbuf_insert_blk_list m (with_total buf (total_size buf + r)) chain true;
          Some (NET_ERR_OK, buf, m)
      end) = Some (e, buf', m') /\ buf_wf m' buf' others /\ same_blks m m' others /\
    if blks_for (n - r) <=? zlen (free m) then
      e = NET_ERR_OK /\ exists new, zlen new = n /\
        contents m' (blk_list buf') = contents m (blk_list buf) ++ new
    else e = NET_ERR_NONE /\ contents m' (blk_list buf') = contents m (blk_list buf).
Proof.
  intros B E Hx Hn r. destruct B as [W T].
  destruct (alloc_list_ok m (n - r) false _ W) as (chain & m1 & -> & S & _ & R); [unfold r; lia|]. mstep.
  assert (same_blks m m1 (blk_list buf) /\ same_blks m m1 others) as [Sb So]
    by (split; eapply same_blks_sub; try exact S; set_solver).
  assert (contents m1 (blk_list buf) = contents m (blk_list buf)) as Ec0 by by apply contents_ext.
  assert (b ∈ blk_list buf) as Hb by (rewrite E; set_solver).
  destruct (blks_for (n - r) <=? zlen (free m)).
  2: { destruct R as (-> & W' & _). do 3 eexists. split; [done|]. split; [|done].
       split; [done|]. by rewrite Ec0. }
  destruct R as (Hc & Hl & W1). destruct chain as [|c chain]; [done|]. set (ch := c :: chain) in *.
  assert (pm_wf m1 (blk_list buf ++ ch ++ others)) as W1'.
  { eapply pm_wf_perm; [|exact W1]. rewrite !app_assoc. by rewrite (Permutation_app_comm ch). }
  rewrite (Sb b Hb), Hx. mstep.
  assert (buf_wf m1 buf (ch ++ others)) as B1 by (split; [done|by rewrite Ec0]).
  destruct (resize_in_tail m1 buf (ch ++ others) bs b x r B1 E) as (B2 & S2 & new & Hnl & Ec2);
    [by rewrite Sb|unfold r; lia|].
  set (m2 := set_blk m1 b _) in *. set (buf2 := with_total buf _) in *. destruct B2 as [W2 T2].
  rewrite insert_blk_list_ok by (intros d Hd; apply (pm_lookup _ _ _ W2); unfold ch in *; set_solver). mstep.
  assert (contents m2 ch = contents m1 ch) as Ech
    by (apply contents_ext; eapply same_blks_sub; [exact S2|]; set_solver).
  do 3 eexists. split; [done|]. cbn [blk_list with_blks]. split; [|split; [|split; [done|]]].
  - split; cbn [blk_list with_blks total_size].
    + by rewrite <- app_assoc.
    + rewrite contents_app, zlen_app. lia.
  - eapply same_blks_trans; [exact So|]. eapply same_blks_sub; [exact S2|]. set_solver.
  - exists (new ++ contents m1 ch). rewrite zlen_app, Hnl, Hl. split; [lia|].
    rewrite contents_app, Ech. change (blk_list buf2) with (blk_list buf) in *.
    by rewrite Ec2, Ec0, <- app_assoc.
Qed.

Lemma resize_shrink m buf others to_size : buf_wf m buf others -> 0 <= to_size < total_size buf ->
  exists buf' m', (r ← find_tail m [] (blk_list buf) 0 to_size;
    match r with
    | None => Some (NET_ERR_SIZE, buf, m)
    | Some (before, b, after) =>
        removed ← sum_sizes m after;
        let m := pktblock_free_list m after in
        x ← blks m !! b;
        let m := set_blk m b
          (Blk (bsize x - (total_size buf - removed - to_size)) (data x) (payload x)) in
        Some (NET_ERR_OK, with_blks buf to_size (before ++ [b]), m)
    end) = Some (NET_ERR_OK, buf', m') /\ buf_wf m' buf' others /\ same_blks m m' others /\
    contents m' (blk_list buf') = take (Z.to_nat to_size) (contents m (blk_list buf)).
Proof.
  intros [W T] Hs. destruct (find_tail_ok m to_size (blk_list buf) [] 0) as (bf & b & af & -> & E & H1 & H2).
  { intros b Hb. apply (pm_lookup _ _ _ W). set_solver. }
  { done. } { lia. } { cbn [app]. lia. }
  cbn [app] in E. mstep. rewrite E in *.
  destruct (pm_lookup _ _ b W) as (x & Hx & Wx); [set_solver|].
  rewrite sum_sizes_ok by (intros c Hc; apply (pm_lookup _ _ _ W); set_solver). mstep.
  cbn [blks pktblock_free_list]. rewrite Hx. mstep.
  rewrite contents_app, contents_cons in T. unfold bytes_at in T. rewrite Hx in T.
  rewrite contents_app, contents_one, zlen_app in H2. unfold bytes_at in H2. rewrite Hx in H2.
  rewrite !zlen_app in T. pose proof (zlen_bytes x Wx) as Hl.
  set (k := to_size - zlen (contents m bf)).
  replace (bsize x - (total_size buf - zlen (contents m af) - to_size)) with k by (unfold k; lia).
  set (x' := Blk k (data x) (payload x)). set (m1 := pktblock_free_list m af).
  assert (0 <= k <= bsize x) as Hk by (unfold k; lia).
  assert (blk_wf x') as Wx' by (split; cbn; destruct Wx; lia).
  pose proof (pm_nodup _ _ W) as Hd. rewrite <- !app_assoc in Hd. simpl in Hd.
  rewrite <- Permutation_middle in Hd. apply NoDup_cons in Hd as [Hd _].
  assert (pm_wf m1 ((bf ++ [b]) ++ others)) as W1.
  { apply pm_free_list. eapply pm_wf_perm; [|exact W].
    rewrite <- !app_assoc. simpl. rewrite <- !Permutation_middle. f_equiv.
    rewrite !app_assoc. f_equiv. apply Permutation_app_comm. }
  destruct (contents_set_last m1 bf b x x') as [_ Ec]; [set_solver|done|].
  change (contents m1 bf) with (contents m bf) in Ec.
  assert (blk_bytes x' = take (Z.to_nat k) (blk_bytes x)) as Eb.
  { unfold blk_bytes. cbn. symmetry. apply take_sub. lia. }
  do 2 eexists. split; [done|]. cbn [blk_list with_blks]. split; [|split].
  - split; cbn [blk_list with_blks total_size]; [by apply pm_set|].
    rewrite Ec, zlen_app, zlen_bytes by done. cbn. unfold k. lia.
  - apply (same_set_blk m1). set_solver.
  - rewrite Ec, contents_app, contents_cons. unfold bytes_at. rewrite Hx, Eb.
    rewrite take_app_ge by (unfold zlen in *; lia). f_equal.
    rewrite take_app_le by (unfold k, zlen in *; lia). f_equal. unfold k, zlen in *. lia.
Qed.

(** [pktbuf_resize] cuts a packet to its first [to_size] bytes or extends
    it at the end to [to_size] bytes, using the free space of the last block
    first; extending fails exactly when the pool has too few blocks, and then
    the packet's bytes are unchanged. *)
Theorem pktbuf_resize_spec m buf others to_size :
  buf_wf m buf others -> 0 <= to_size ->
  exists e buf' m', pktbuf_resize m buf to_size = Some (e, buf', m') /\
    buf_wf m' buf' others /\ same_blks m m' others /\
    if to_size <=? total_size buf then
      e = NET_ERR_OK /\
      contents m' (blk_list buf') = take (Z.to_nat to_size) (contents m (blk_list buf))
    else
      let tail_free := match last (blk_list buf) with
        | Some b => match blks m !! b with Some x => curr_blk_tail_free x | None => 0 end
        | None => 0 end in
      let room := if total_size buf =? 0 then 0 else tail_free in
      if blks_for (to_size - total_size buf - room) <=? zlen (free m) then
        e = NET_ERR_OK /\ exists new, zlen new = to_size - total_size buf /\
          contents m' (blk_list buf') = contents m (blk_list buf) ++ new
      else (e = NET_ERR_MEM \/ e = NET_ERR_NONE) /\
          contents m' (blk_list buf') = contents m (blk_list buf).
Proof.
  intros B Hs. pose proof B as [W T]. pose proof (zlen_nonneg (contents m (blk_list buf))) as Hz.
  unfold pktbuf_resize. destruct (Z.eqb_spec to_size (total_size buf)) as [->|Hne].
  { exists NET_ERR_OK, buf, m. split; [done|]. split; [done|]. split; [done|].
    rewrite Z.leb_refl. split; [done|]. rewrite take_ge; [done|]. unfold zlen in *. lia. }
  destruct (Z.eqb_spec (total_size buf) 0) as [H0|H0].
  { destruct (Z.leb_spec to_size (total_size buf)); [lia|].
    destruct (resize_append m buf others to_size NET_ERR_MEM B) as (e & b' & m' & -> & B' & So & R); [lia|].
    exists e, b', m'. split; [done|]. split; [done|]. split; [done|]. cbv zeta.
    rewrite H0, !Z.sub_0_r. destruct (_ <=? zlen (free m)); [done|].
    destruct R as [-> R]. split; [by left|done]. }
  destruct (Z.ltb_spec (total_size buf) to_size), (Z.leb_spec to_size (total_size buf)); try lia.
  - destruct (last (blk_list buf)) as [b|] eqn:El.
    2: { apply last_None in El. rewrite El in T. by change (zlen (contents m [])) with 0 in T. }
    apply last_Some in El as [bs El]. destruct (buf_last _ _ _ _ _ B El) as (x & Hx & Wx & _).
    mstep. rewrite Hx. mstep. cbv zeta.
    assert (0 <= curr_blk_tail_free x) as Hr by (unfold curr_blk_tail_free; destruct Wx; lia).
    destruct (Z.leb_spec (to_size - total_size buf) (curr_blk_tail_free x)).
    + destruct (resize_in_tail m buf others bs b x (to_size - total_size buf) B El Hx) as (B' & So & R); [lia|].
      do 3 eexists. split; [done|]. split; [done|]. split; [done|].
      assert (blks_for (to_size - total_size buf - curr_blk_tail_free x) <= 0) by (unfold blks_for; divmod).
      pose proof (zlen_nonneg (free m)).
      destruct (Z.leb_spec (blks_for (to_size - total_size buf - curr_blk_tail_free x)) (zlen (free m)));
        [done|lia].
    + destruct (resize_grow m buf others bs b x (to_size - total_size buf) B El Hx)
        as (e & b' & m' & E & B' & So & R); [lia|].
      exists e, b', m'. split; [exact E|]. split; [done|]. split; [done|].
      destruct (_ <=? zlen (free m)); [done|]. destruct R as [-> R]. split; [by right|done].
  - destruct (resize_shrink m buf others to_size B) as (b' & m' & E & B' & So & R); [lia|].
    exists NET_ERR_OK, b', m'. split; [exact E|]. by split_and!.
Qed.

(** ** Joining *)

Lemma join_loop_ok m bs : forall dest,
  (forall b, b ∈ bs -> exists x, blks m !! b = Some x /\ blk_wf x) ->
  join_loop m dest bs
  = Some (with_blks dest (total_size dest + zlen (contents m bs)) (blk_list dest ++ bs)).
Proof.
  induction bs as [|b bs IH]; intros dest H; cbn [join_loop].
  - change (zlen (contents m [])) with 0. rewrite Z.add_0_r, app_nil_r. by destruct dest.
  - rewrite insert_blk_list_ok by (intros c Hc; apply H; set_solver). mstep.
    rewrite IH by (intros c Hc; apply H; set_solver). cbn [blk_list with_blks total_size].
    rewrite <- app_assoc, contents_one, (contents_cons m b bs), zlen_app. cbn [app].
    unfold with_blks. cbn. do 2 f_equal. lia.
Qed.

(** [pktbuf_join] appends the bytes of [src] to those of [dest] by moving
    its blocks, without copying, and gives up [src]: if it had one reference,
    its structure is back in the pool and no block is freed with it. *)
Theorem pktbuf_join_spec m dest src others :
  buf_wf m dest (blk_list src ++ others) ->
  exists dest' src' m', pktbuf_join m dest src = Some (NET_ERR_OK, dest', src', m') /\
    buf_wf m' dest' others /\ same_blks m m' (blk_list dest' ++ others) /\
    contents m' (blk_list dest') = contents m (blk_list dest) ++ contents m (blk_list src) /\
    blk_list src' = [] /\ free m' = free m /\
    free_bufs m' = free_bufs m ++ (if ref src =? 1 then [self src] else []).
Proof.
  intros [W T]. unfold pktbuf_join.
  rewrite join_loop_ok by (intros b Hb; apply (pm_lookup _ _ _ W); set_solver). mstep.
  unfold pktbuf_free. cbn [ref with_ref with_blks blk_list self].
  assert (forall fb, buf_wf (PMem (blks m) (free m) fb)
    (with_blks dest (total_size dest + zlen (contents m (blk_list src))) (blk_list dest ++ blk_list src)) others) as B.
  { intros fb. split; cbn [blk_list with_blks total_size].
    - rewrite <- app_assoc. by destruct W.
    - change (contents (PMem (blks m) (free m) fb)) with (contents m).
      rewrite contents_app, zlen_app. lia. }
  destruct (Z.eqb_spec (ref src - 1) 0), (Z.eqb_spec (ref src) 1); try lia.
  - cbn [pktblock_free_list blks free free_bufs]. rewrite app_nil_r.
    do 3 eexists. split; [done|]. split; [apply B|]. split; [done|]. split; [|done].
    exact (contents_app m _ _).
  - do 3 eexists. split; [done|]. destruct m as [bl fr fb]. split; [apply B|].
    split; [done|]. split; [apply contents_app|]. split; [done|]. split; [done|].
    cbn. by rewrite app_nil_r.
Qed.

(** ** Making the front contiguous *)

Lemma sub_ext (l l' : list Z) o o' n : 0 <= n -> 0 <= o -> 0 <= o' ->
  o + n <= zlen l -> o' + n <= zlen l' ->
  (forall k, 0 <= k < n -> zget l (o + k) = zget l' (o' + k)) -> sub l o n = sub l' o' n.
Proof.
  intros Hn Ho Ho' Hl Hl' H. unfold sub, zlen in *. apply list_eq. intros i.
  destruct (decide (i < Z.to_nat n)%nat) as [Hi|Hi].
  - rewrite !lookup_take_lt, !lookup_drop by done. specialize (H (Z.of_nat i)).
    unfold zget in H. destruct (Z.ltb_spec (o + Z.of_nat i) 0), (Z.ltb_spec (o' + Z.of_nat i) 0); try lia.
    rewrite !Z2Nat.inj_add, !Nat2Z.id in H by lia. apply H. lia.
  - rewrite !lookup_ge_None_2; [done|rewrite length_take; lia..].
Qed.

(** The byte-by-byte move towards the front, overlapping or not. *)
Lemma move_front_ok off n pl : 0 <= off -> 0 <= n -> off + n <= zlen pl ->
  exists pl', move_front off n pl = Some pl' /\ zlen pl' = zlen pl /\ sub pl' 0 n = sub pl off n.
Proof.
  intros Ho Hn Hl. unfold move_front.
  destruct (for_inv (fun i l => zlen l = zlen pl /\ forall j, 0 <= j ->
      zget l j = if j <? i then zget pl (off + j) else zget pl j)
    (fun i l => v ← zget l (off + i); zset l i v) (Z.to_nat n) 0 pl) as (pl' & E & Hlen & Hg).
  - split; [done|]. intros j Hj. destruct (Z.ltb_spec j 0); [lia|done].
  - intros i l Hi [Hll Hget]. destruct (zget_is_Some pl (off + i)) as [v Hv]; [lia|].
    rewrite Hget by lia. destruct (Z.ltb_spec (off + i) i); [lia|]. rewrite Hv. mstep.
    rewrite zset_is_Some by lia. eexists. split; [done|].
    assert (zset l i v = Some (<[Z.to_nat i:=v]> l)) as Ez by (apply zset_is_Some; lia).
    split; [by rewrite (zlen_zset _ _ _ _ Ez)|]. intros j Hj.
    rewrite (zget_zset _ _ _ _ _ Ez), Hget by done.
    destruct (Z.eqb_spec j i) as [E1|E1], (Z.ltb_spec j (i + 1)), (Z.ltb_spec j i); try lia; try done.
    by rewrite E1.
  - exists pl'. split; [done|]. split; [done|]. apply sub_ext; try lia. intros k Hk. rewrite Hg by lia.
    destruct (Z.ltb_spec (0 + k) (0 + Z.of_nat (Z.to_nat n))); [|lia]. f_equal.
Qed.

(** Appending bytes behind the window of a block. *)
Lemma blk_append x bytes : blk_wf x -> data x + bsize x + zlen bytes <= PKTBUF_BLK_SIZE ->
  exists pl, mem_write (payload x) (data x + bsize x) bytes = Some pl /\
    let x' := Blk (bsize x + zlen bytes) (data x) pl in
    blk_wf x' /\ blk_bytes x' = blk_bytes x ++ bytes.
Proof.
  intros W Hb. pose proof W as [H1 H2 H3 H4]. pose proof (zlen_nonneg bytes). unfold mem_write.
  destruct (Z.leb_spec 0 (data x + bsize x)); [|lia].
  destruct (Z.leb_spec (data x + bsize x + zlen bytes) (zlen (payload x))); [|lia]. cbn [andb].
  eexists. split; [done|]. split.
  - split; cbn; try lia. rewrite zlen_splice; lia.
  - unfold blk_bytes. cbn. rewrite sub_splice by lia.
    replace (data x + bsize x - data x) with (bsize x) by lia.
    replace (data x + (bsize x + zlen bytes) - (data x + bsize x + zlen bytes)) with 0 by lia.
    by rewrite app_nil_r.
Qed.

(** One round of [set_cont_loop]: the first [n] bytes of block [b] move behind
    the bytes of [first], and the bytes of the two together stay. *)
Lemma cont_move m first b bs others f x n : pm_wf m (first :: (b :: bs) ++ others) ->
  blks m !! first = Some f -> blks m !! b = Some x -> data f = 0 ->
  0 <= n <= bsize x -> bsize f + n <= PKTBUF_BLK_SIZE ->
  exists pl, mem_read (payload x) (data x) n = Some (sub (payload x) (data x) n) /\
    mem_write (payload f) (bsize f) (sub (payload x) (data x) n) = Some pl /\
    let m2 := set_blk (set_blk m first (Blk (bsize f + n) (data f) pl)) b
      (Blk (bsize x - n) (data x + n) (payload x)) in
    pm_wf m2 (first :: (b :: bs) ++ others) /\
    blks m2 !! first = Some (Blk (bsize f + n) (data f) pl) /\
    same_blks m m2 (bs ++ others) /\
    contents m2 (first :: b :: bs) = contents m (first :: b :: bs).
Proof.
  intros W Hf Hx Hd Hn Hfit.
  destruct (pm_lookup _ _ b W) as (? & ? & Wx); [set_solver|].
  destruct (pm_lookup _ _ first W) as (? & ? & Wf); [set_solver|]. simplify_eq.
  pose proof (pm_nodup _ _ W) as Hnd. simpl in Hnd. apply NoDup_cons in Hnd as [Hn1 Hnd].
  apply NoDup_cons in Hnd as [Hn2 _]. assert (first <> b) as Hfb by set_solver.
  unfold mem_read. pose proof Wx as [P1 P2 P3 P4].
  destruct (Z.leb_spec 0 (data x)); [|lia]. destruct (Z.leb_spec 0 n); [|lia].
  destruct (Z.leb_spec (data x + n) (zlen (payload x))); [|lia]. cbn [andb].
  assert (zlen (sub (payload x) (data x) n) = n) as Hl by (apply zlen_sub; lia).
  destruct (blk_append f (sub (payload x) (data x) n) Wf) as (pl & Ew & Wf' & Eb); [lia|].
  rewrite Hl in Wf', Eb. rewrite Hd, Z.add_0_l in Ew. exists pl. split; [done|]. split; [done|].
  set (f' := Blk (bsize f + n) (data f) pl) in *.
  set (x' := Blk (bsize x - n) (data x + n) (payload x)) in *.
  set (m2 := set_blk (set_blk m first f') b x').
  assert (blk_wf x') as Wx' by (split; cbn; lia).
  assert (blks m2 !! first = Some f') as Hf2 by (cbn; by rewrite lookup_insert_ne, lookup_insert_eq).
  assert (same_blks m m2 (bs ++ others)) as S2.
  { apply (same_blks_trans _ (set_blk m first f')); apply same_set_blk; set_solver. }
  split; [apply pm_set; [by apply pm_set|done]|]. split_and!; [done|done|].
  rewrite !contents_cons, (contents_ext m m2 bs) by (eapply same_blks_sub; [exact S2|]; set_solver).
  unfold bytes_at. rewrite Hf2, Hf, Hx. cbn. rewrite lookup_insert_eq, !app_assoc, Eb. f_equal.
  rewrite <- app_assoc. f_equal. unfold blk_bytes. cbn. rewrite sub_app by lia. f_equal. lia.
Qed.

Lemma set_cont_loop_ok first others bs : forall m dest remain f,
  pm_wf m (first :: bs ++ others) -> blks m !! first = Some f -> data f = 0 -> bsize f = dest ->
  0 <= remain -> dest + remain <= PKTBUF_BLK_SIZE -> remain <= zlen (contents m bs) ->
  exists bs' m' f', set_cont_loop m first dest remain bs = Some (bs', m') /\
    pm_wf m' (first :: bs' ++ others) /\ same_blks m m' others /\
    blks m' !! first = Some f' /\ data f' = 0 /\ bsize f' = dest + remain /\
    contents m' (first :: bs') = contents m (first :: bs).
Proof.
  induction bs as [|b bs IH]; intros m dest remain f W Hf Hd Hsz Hr Hfit Hle; cbn [set_cont_loop].
  { change (zlen (contents m [])) with 0 in Hle. exists [], m, f. split_and!; try done. lia. }
  destruct (Z.eqb_spec remain 0) as [->|Hne].
  { exists (b :: bs), m, f. split_and!; try done. lia. }
  destruct (pm_lookup _ _ b W) as (x & Hx & Wx); [set_solver|]. rewrite Hx. mstep. rewrite Hf. mstep.
  set (n := if remain <? bsize x then remain else bsize x).
  assert (0 <= n <= bsize x /\ n <= remain) as [Hn Hn'] by
    (unfold n; pose proof (bw_size _ Wx); destruct (Z.ltb_spec remain (bsize x)); lia).
  destruct (cont_move m first b bs others f x n W Hf Hx Hd Hn) as (pl & -> & Ew & W2 & Hf2 & S2 & Ec2); [lia|].
  mstep. rewrite Hsz in Ew. rewrite Ew. mstep.
  set (f' := Blk (bsize f + n) (data f) pl) in *. set (m2 := set_blk (set_blk m first f') b _) in *.
  assert (same_blks m m2 bs /\ same_blks m m2 others) as [Sb So2]
    by (split; eapply same_blks_sub; try exact S2; set_solver).
  assert (zlen (contents m (b :: bs)) = bsize x + zlen (contents m bs)) as Ecx
    by (rewrite contents_cons, zlen_app; unfold bytes_at; by rewrite Hx, zlen_bytes).
  cbn [bsize]. destruct (Z.eqb_spec (bsize x - n) 0) as [E0|E0].
  - set (m3 := pktblock_free m2 b).
    assert (contents m3 bs = contents m bs) as Ec3 by by apply contents_ext.
    destruct (IH m3 (dest + n) (remain - n) f') as (bs' & m' & f'' & E & W' & So & Hf'' & Hd'' & Hs'' & Ec');
      try done; try (cbn; lia); [|rewrite Ec3; lia|].
    { unfold m3. rewrite pktblock_free_singleton. apply pm_free_list.
      eapply pm_wf_perm; [|exact W2]. simpl. apply Permutation_swap. }
    exists bs', m', f''. split_and!; try done; [by eapply same_blks_trans|lia|].
    rewrite Ec', <- Ec2. change (contents m3) with (contents m2). rewrite !contents_cons. f_equal.
    unfold bytes_at at 1. cbn. rewrite lookup_insert_eq. unfold blk_bytes. cbn. by rewrite E0.
  - assert (n = remain) as En by (unfold n in *; destruct (Z.ltb_spec remain (bsize x)); lia).
    exists (b :: bs), m2, f'. split_and!; try done. cbn. lia.
Qed.

(** [pktbuf_set_cont] leaves the packet's bytes as they are and makes the
    first [size] of them lie in one block; it refuses exactly the sizes beyond
    the packet or beyond a block. *)
Theorem pktbuf_set_cont_spec m buf others size first rest :
  buf_wf m buf others -> blk_list buf = first :: rest -> 0 <= size ->
  exists e buf' m', pktbuf_set_cont m buf size = Some (e, buf', m') /\
    buf_wf m' buf' others /\ same_blks m m' others /\
    contents m' (blk_list buf') = contents m (blk_list buf) /\
    if (size <=? total_size buf) && (size <=? PKTBUF_BLK_SIZE) then
      e = NET_ERR_OK /\ exists rest' x, blk_list buf' = first :: rest' /\
        blks m' !! first = Some x /\ size <= bsize x
    else e = NET_ERR_SIZE.
Proof.
  intros B E Hs. destruct (buf_first _ _ _ _ _ B E) as (x & Hx & Wx & Hn1 & Hn2 & _ & Ec).
  unfold pktbuf_set_cont.
  destruct (Z.ltb_spec (total_size buf) size), (Z.leb_spec size (total_size buf)); try lia; cbn [andb].
  { by exists NET_ERR_SIZE, buf, m. }
  destruct (Z.ltb_spec PKTBUF_BLK_SIZE size), (Z.leb_spec size PKTBUF_BLK_SIZE); try lia.
  { by exists NET_ERR_SIZE, buf, m. }
  rewrite E, Hx. mstep. destruct (Z.leb_spec size (bsize x)).
  { exists NET_ERR_OK, buf, m. rewrite E. split_and!; try done. by exists rest, x. }
  destruct (move_front_ok (data x) (bsize x) (payload x)) as (pl & -> & Hl & Esub);
    [destruct Wx; lia..|]. mstep. set (f := Blk (bsize x) 0 pl).
  assert (blk_wf f) as Wf by (split; cbn; destruct Wx; lia).
  assert (blk_bytes f = blk_bytes x) as Ebf by (exact Esub).
  pose proof B as [W T]. rewrite E in W.
  assert (contents (set_blk m first f) (first :: rest) = contents m (blk_list buf)) as Ec1
    by by rewrite contents_cons, bytes_at_set, contents_set, Ebf, Ec by done.
  destruct (set_cont_loop_ok first others rest (set_blk m first f) (bsize x) (size - bsize x) f)
    as (rest' & m' & f' & -> & W' & So & Hf' & _ & Hs' & Ec').
  - by apply pm_set.
  - cbn. apply lookup_insert_eq.
  - done.
  - done.
  - lia.
  - lia.
  - rewrite contents_set by done. rewrite T, Ec, zlen_app, zlen_bytes in * by done. lia.
  - mstep. do 3 eexists. split; [done|]. cbn [blk_list with_blks].
    rewrite Ec1 in Ec'. split; [|split; [|split; [by rewrite Ec', E|split; [done|]]]].
    + split; [done|]. cbn [blk_list with_blks total_size]. by rewrite Ec'.
    + eapply same_blks_trans; [|exact So]. by apply same_set_blk.
    + exists rest', f'. split_and!; [done|done|lia].
Qed.

(** ** A concrete memory: packet [pb0] in blocks 1 and 2, packet [pb1] in block
    3, blocks 4 and 5 free. *)

Definition pl0 : list Z := seqZ 0 64.
Definition pm0 : pmem :=
  PMem (<[1 := Blk 20 10 pl0]> (<[2 := Blk 10 0 pl0]> (<[3 := Blk 5 40 pl0]>
       (<[4 := Blk 0 0 pl0]> (<[5 := Blk 0 0 pl0]> ∅))))) [4; 5] [4096].
Definition pb0 : pktbuf_t := Buf 8192 30 [1; 2] 1 0 1 10.
Definition pb1 : pktbuf_t := Buf 8256 5 [3] 1 0 3 40.

Lemma pm0_wf : pm_wf pm0 [1; 2; 3].
Proof.
  split.
  - intros b Hb. cbn in Hb.
    assert (b = 1 \/ b = 2 \/ b = 3 \/ b = 4 \/ b = 5) as [->|[->|[->|[->| ->]]]] by set_solver;
      (eexists; split; [reflexivity|]; split; vm_compute; done || discriminate).
  - apply (bool_decide_unpack _); vm_compute; exact I.
  - apply (bool_decide_unpack _); vm_compute; exact I.
Qed.

Lemma pb0_wf : buf_wf pm0 pb0 [3].
Proof. split; [apply pm0_wf|reflexivity]. Qed.

Lemma pb1_wf : buf_wf pm0 pb1 [1; 2].
Proof.
  split; [|reflexivity]. eapply pm_wf_perm; [|apply pm0_wf].
  cbn. by rewrite (Permutation_app_comm [1; 2] [3]).
Qed.

Lemma pktbuf_alloc_spec_witness :
  exists r m', pktbuf_alloc pm0 100 = Some (r, m') /\ same_blks pm0 m' [1; 2; 3] /\
    exists buf, r = Some buf /\ self buf = 4096 /\ ref buf = 1 /\ pos buf = 0 /\
      total_size buf = 100 /\ buf_wf m' buf [1; 2; 3] /\ free_bufs m' = [].
Proof. apply (pktbuf_alloc_spec pm0 [1; 2; 3] 100 pm0_wf). lia. Defined.

Lemma pktbuf_free_spec_witness :
  let '(buf', m') := pktbuf_free pm0 pb0 in
  ref buf' = 0 /\ same_blks pm0 m' [3] /\
  pm_wf m' [3] /\ free m' = [4; 5] ++ [1; 2] /\ free_bufs m' = [4096] ++ [8192].
Proof. apply (pktbuf_free_spec pm0 pb0 [3] pb0_wf). reflexivity. Defined.

Lemma pktbuf_add_header_spec_witness :
  exists e buf' m', pktbuf_add_header pm0 pb1 50 false = Some (e, buf', m') /\
    buf_wf m' buf' [1; 2] /\ same_blks pm0 m' [1; 2] /\
    e = NET_ERR_OK /\ exists hdr, zlen hdr = 50 /\
      contents m' (blk_list buf') = hdr ++ contents pm0 [3].
Proof.
  apply (pktbuf_add_header_spec pm0 pb1 [1; 2] 50 false 3 [] (Blk 5 40 pl0) pb1_wf eq_refl eq_refl).
  lia.
Defined.

Lemma pktbuf_remove_header_spec_witness :
  exists buf' m', pktbuf_remove_header pm0 pb0 22 = Some (NET_ERR_OK, buf', m') /\
    buf_wf m' buf' [3] /\ same_blks pm0 m' [3] /\
    contents m' (blk_list buf') = drop (Z.to_nat 22) (contents pm0 [1; 2]).
Proof. apply (pktbuf_remove_header_spec pm0 pb0 [3] 22 pb0_wf). cbn. lia. Defined.

Lemma pktbuf_resize_spec_witness :
  exists e buf' m', pktbuf_resize pm0 pb0 100 = Some (e, buf', m') /\
    buf_wf m' buf' [3] /\ same_blks pm0 m' [3] /\
    e = NET_ERR_OK /\ exists new, zlen new = 70 /\
      contents m' (blk_list buf') = contents pm0 [1; 2] ++ new.
Proof. apply (pktbuf_resize_spec pm0 pb0 [3] 100 pb0_wf). lia. Defined.

Lemma pktbuf_join_spec_witness :
  exists dest' src' m', pktbuf_join pm0 pb0 pb1 = Some (NET_ERR_OK, dest', src', m') /\
    buf_wf m' dest' [] /\ same_blks pm0 m' (blk_list dest' ++ []) /\
    contents m' (blk_list dest') = contents pm0 [1; 2] ++ contents pm0 [3] /\
    blk_list src' = [] /\ free m' = [4; 5] /\ free_bufs m' = [4096] ++ [8256].
Proof. apply (pktbuf_join_spec pm0 pb0 pb1 [] pb0_wf). Defined.

Lemma pktbuf_set_cont_spec_witness :
  exists e buf' m', pktbuf_set_cont pm0 pb0 25 = Some (e, buf', m') /\
    buf_wf m' buf' [3] /\ same_blks pm0 m' [3] /\
    contents m' (blk_list buf') = contents pm0 [1; 2] /\
    e = NET_ERR_OK /\ exists rest' x, blk_list buf' = 1 :: rest' /\
      blks m' !! 1 = Some x /\ 25 <= bsize x.
Proof. apply (pktbuf_set_cont_spec pm0 pb0 [3] 25 1 [2] pb0_wf eq_refl). lia. Defined.
