(* ===== verification/PktbufAccess.v ===== *)
(** * Reading and writing packets

    The access functions of pktbuf.c walk the blocks of a packet from its
    current position.  [cursor] says that the position's fields agree;
    [blk_loop_ok] is the one proof about the walk: the bytes from the position
    on are handed to the loop's action chunk by chunk, and what the action
    leaves replaces them.  Each access function is an instance. *)

From S2P Require Import Prelude Pktbuf PktbufSpec.

(** ** More on byte strings *)

Lemma sub_splice_after l off bs o n : 0 <= off -> off + zlen bs <= o -> off + zlen bs <= zlen l ->
  sub (splice l off bs) o n = sub l o n.
Proof.
  unfold splice, sub, zlen. intros. f_equal.
  rewrite drop_app_ge by (rewrite length_take; lia).
  rewrite drop_app_ge by (rewrite length_take; lia).
  rewrite drop_drop, length_take. f_equal. lia.
Qed.

Lemma sub_splice_before l off bs o n : 0 <= o -> 0 <= n -> o + n <= off -> off <= zlen l ->
  sub (splice l off bs) o n = sub l o n.
Proof.
  unfold splice, sub, zlen. intros. rewrite !take_drop_commute. f_equal.
  rewrite take_app_le by (rewrite length_take; lia). rewrite take_take. f_equal. lia.
Qed.

Lemma splice_splice l off a b : 0 <= off -> off + zlen a + zlen b <= zlen l ->
  splice (splice l off a) (off + zlen a) b = splice l off (a ++ b).
Proof.
  intros Ho Hl. set (p := take (Z.to_nat off) l). set (q := take (length a) (drop (Z.to_nat off) l)).
  set (r := take (length b) (drop (length a) (drop (Z.to_nat off) l))).
  set (t := drop (length b) (drop (length a) (drop (Z.to_nat off) l))).
  assert (l = p ++ q ++ r ++ t) as E by (unfold p, q, r, t; by rewrite !take_drop).
  unfold zlen in *. assert (zlen p = off) as Ep by (unfold p, zlen; rewrite length_take; lia).
  assert (length a = length q) as Eq by (unfold q; rewrite length_take, length_drop; lia).
  assert (length b = length r) as Er by (unfold r; rewrite length_take, !length_drop; lia).
  rewrite E, <- Ep, (splice_middle p q), (app_assoc p a) by done.
  replace (zlen p + Z.of_nat (length a)) with (zlen (p ++ a)) by (by rewrite zlen_app).
  rewrite splice_middle by done. rewrite (app_assoc q r), splice_middle by (by rewrite !length_app, Eq, Er).
  by rewrite <- !app_assoc.
Qed.

Lemma splice_nil l off : 0 <= off <= zlen l -> splice l off [] = l.
Proof. unfold splice. intros. simpl. rewrite Nat.add_0_r. apply take_drop. Qed.

Lemma splice_all l bs : length bs = length l -> splice l 0 bs = bs.
Proof. intros E. unfold splice. simpl. rewrite E, drop_all. apply app_nil_r. Qed.

(** ** The position *)

Definition cursor (m : pmem) (buf : pktbuf_t) : Prop :=
  (curr_blk buf = NULL /\ pos buf = zlen (contents m (blk_list buf))) \/
  exists pre b post x k, blk_list buf = pre ++ b :: post /\ curr_blk buf = b /\
    blks m !! b = Some x /\ blk_offset buf = data x + k /\
    pos buf = zlen (contents m pre) + k /\ 0 <= k <= bsize x /\ (k < bsize x \/ k = 0).

(** How many blocks are left from the current one on. *)
Definition blks_left (buf : pktbuf_t) (n : nat) : Prop :=
  curr_blk buf = NULL \/
  exists pre post, blk_list buf = pre ++ curr_blk buf :: post /\ (length post < n)%nat.

Lemma blk_after_ok pre b post : NoDup (pre ++ b :: post) ->
  blk_after (pre ++ b :: post) b = default NULL (head post).
Proof.
  induction pre as [|a pre IH]; intros Hd.
  - simpl. destruct post; [done|]. by rewrite Z.eqb_refl.
  - simpl in Hd. apply NoDup_cons in Hd as [Hn Hd]. rewrite <- IH by done.
    assert (a <> b) by set_solver. simpl. destruct (pre ++ b :: post) eqn:E; [done|].
    destruct (Z.eqb_spec a b); done.
Qed.

(** A block's data and the packet's, split at the position. *)
Lemma contents_split m pre b post x k : blks m !! b = Some x -> blk_wf x -> 0 <= k <= bsize x ->
  contents m (pre ++ b :: post) =
    (contents m pre ++ sub (payload x) (data x) k) ++
    sub (payload x) (data x + k) (bsize x - k) ++ contents m post.
Proof.
  intros Hx [H1 H2 H3 H4] Hk. rewrite contents_app, contents_cons. unfold bytes_at, blk_bytes.
  rewrite Hx, <- !app_assoc. f_equal. rewrite app_assoc, sub_app by lia. do 3 f_equal. lia.
Qed.

(** [move_forward] inside a packet. *)
Lemma move_forward_ok m buf others pre b post x k n :
  pm_wf m (blk_list buf ++ others) -> blk_list buf = pre ++ b :: post -> curr_blk buf = b ->
  blks m !! b = Some x -> blk_offset buf = data x + k -> pos buf = zlen (contents m pre) + k ->
  0 <= k -> 0 <= n <= bsize x - k ->
  exists buf', move_forward m buf n = Some buf' /\ pos buf' = pos buf + n /\
    blk_list buf' = blk_list buf /\ total_size buf' = total_size buf /\
    self buf' = self buf /\ ref buf' = ref buf /\ cursor m buf' /\
    (blks_left buf' (S (length post)) /\ (n = bsize x - k -> blks_left buf' (length post))).
Proof.
  intros W E Hc Hx Ho Hp Hk Hn. unfold move_forward. rewrite Hc, Hx. mstep. rewrite Ho.
  assert (zlen (contents m (pre ++ [b])) = zlen (contents m pre) + bsize x) as El.
  { rewrite contents_app, contents_one, zlen_app. unfold bytes_at. rewrite Hx, zlen_bytes; [done|].
    destruct (pm_lookup _ _ b W) as (y & Hy & Wy); [rewrite E; set_solver|]. congruence. }
  destruct (Z.leb_spec (data x + bsize x) (data x + k + n)).
  - assert (n = bsize x - k) as En by lia. unfold pktbuf_blk_next. rewrite E.
    pose proof (pm_nodup _ _ W) as Hd. apply NoDup_app in Hd as (Hd & _).
    apply NoDup_app in Hd as (Hd & _). rewrite E in Hd. rewrite blk_after_ok by done.
    destruct post as [|c post]; cbn [head default id].
    + change (NULL =? NULL) with true. cbv iota. eexists. split; [done|].
      cbn [pos blk_list total_size self ref with_cursor]. split_and!; try done.
      * left. cbn. split; [done|]. rewrite E, El, Hp. lia.
      * by left.
      * intros _. by left.
    + destruct (pm_lookup _ _ c W) as (y & Hy & Wy); [rewrite E; set_solver|].
      destruct (Z.eqb_spec c NULL) as [->|].
      { exfalso. apply (pm_null _ _ W). rewrite E. set_solver. }
      rewrite Hy. mstep. eexists. split; [done|].
      cbn [pos blk_list total_size self ref with_cursor]. split_and!; try done.
      * right. exists (pre ++ [b]), c, post, y, 0. cbn. rewrite <- app_assoc, El, Hp.
        split_and!; try done; try (destruct Wy; lia).
      * right. exists (pre ++ [b]), post. cbn. rewrite <- app_assoc. split; [done|lia].
      * intros _. right. exists (pre ++ [b]), post. cbn. rewrite <- app_assoc. split; [done|lia].
  - eexists. split; [done|]. cbn [pos blk_list total_size self ref with_cursor]. split_and!; try done.
    + right. exists pre, b, post, x, (k + n). cbn. rewrite ?Hc. split_and!; try done; lia.
    + right. exists pre, post. cbn. rewrite ?Hc. split; [done|lia].
    + lia.
Qed.

Lemma nodup_split (pre post pre' post' : list Z) b : pre ++ b :: post = pre' ++ b :: post' ->
  NoDup (pre ++ b :: post) -> pre = pre' /\ post = post'.
Proof.
  revert pre'. induction pre as [|a pre IH]; intros [|a' pre'] E Hd; simpl in *.
  - injection E as ->. done.
  - injection E as -> ->. apply NoDup_cons in Hd as [Hn _]. set_solver.
  - injection E as -> <-. apply NoDup_cons in Hd as [Hn _]. set_solver.
  - injection E as -> E. apply NoDup_cons in Hd as [_ Hd]. by destruct (IH pre' E Hd) as [-> ->].
Qed.

Lemma sub_middle (a b c : list Z) : sub (a ++ b ++ c) (zlen a) (zlen b) = b.
Proof. unfold sub, zlen. by rewrite !Nat2Z.id, drop_app_length, take_app_length. Qed.

(** ** One chunk *)

(** The current position, taken apart. *)
Record at_pos (m : pmem) (buf : pktbuf_t) (pre : list Z) (b : Z) (post : list Z)
    (x : pktblk_t) (k : Z) : Prop := {
  ap_list : blk_list buf = pre ++ b :: post;
  ap_curr : curr_blk buf = b;
  ap_blk : blks m !! b = Some x;
  ap_off : blk_offset buf = data x + k;
  ap_pos : pos buf = zlen (contents m pre) + k;
  ap_range : 0 <= k <= bsize x;
}.

Lemma cursor_at m buf others : buf_wf m buf others -> cursor m buf -> pos buf < total_size buf ->
  exists pre b post x k, at_pos m buf pre b post x k /\ blk_wf x /\ b <> NULL /\
    b ∉ pre /\ b ∉ post /\ b ∉ others /\ (k < bsize x \/ k = 0).
Proof.
  intros [W T] [[_ Hp]|(pre & b & post & x & k & E & Hc & Hx & Ho & Hp & Hk & Hk')] Hlt; [lia|].
  destruct (pm_lookup _ _ b W) as (y & Hy & Wx); [rewrite E; set_solver|].
  rewrite Hx in Hy. injection Hy as <-.
  pose proof (pm_nodup _ _ W) as Hd. rewrite E, <- !app_assoc in Hd. simpl in Hd.
  rewrite <- Permutation_middle in Hd. apply NoDup_cons in Hd as [Hd _].
  exists pre, b, post, x, k. split_and!; try done; try set_solver.
  intros ->. apply (pm_null _ _ W). rewrite E. set_solver.
Qed.

(** Replacing [n] bytes of the current block at the position by [o]. *)
Lemma chunk_ok m buf others pre b post x k n o : buf_wf m buf others ->
  at_pos m buf pre b post x k -> blk_wf x -> b ∉ pre -> b ∉ post -> zlen o = n ->
  0 <= n <= bsize x - k ->
  let x' := Blk (bsize x) (data x) (splice (payload x) (data x + k) o) in
  let m1 := set_blk m b x' in
  contents m1 (blk_list buf) = splice (contents m (blk_list buf)) (pos buf) o /\
  sub (contents m (blk_list buf)) (pos buf) n = sub (payload x) (data x + k) n /\
  buf_wf m1 buf others /\ at_pos m1 buf pre b post x' k.
Proof.
  intros [W T] [E Hc Hx Ho Hp Hk] Wx Hn1 Hn2 Hzo Hn x' m1. pose proof Wx as [P1 P2 P3 P4].
  assert (blk_wf x') as Wx' by (split; cbn; rewrite ?zlen_splice; lia).
  set (c := sub (payload x) (data x + k) n).
  set (rest := sub (payload x) (data x + k + n) (bsize x - k - n) ++ contents m post).
  set (front := contents m pre ++ sub (payload x) (data x) k).
  assert (contents m (blk_list buf) = front ++ c ++ rest) as Ec.
  { rewrite E, (contents_split m pre b post x k Hx Wx Hk). unfold front, c, rest.
    rewrite (app_assoc (sub (payload x) (data x + k) n)), sub_app by lia. do 3 f_equal. lia. }
  assert (zlen front = pos buf) as Hfr by (unfold front; rewrite zlen_app, zlen_sub; lia).
  assert (zlen c = n) as Hlc by (apply zlen_sub; lia).
  assert (contents m1 (blk_list buf) = front ++ o ++ rest) as Ec1.
  { rewrite E. assert (blks m1 !! b = Some x') as Hx1 by apply lookup_insert_eq.
    rewrite (contents_split m1 pre b post x' k Hx1 Wx') by (cbn; lia). unfold m1.
    rewrite !contents_set by done. cbn [x' payload data bsize]. unfold front, rest.
    rewrite sub_splice_before by lia. rewrite sub_splice by lia.
    rewrite Z.sub_diag, Hzo. change (sub (payload x) (data x + k) 0) with (@nil Z).
    replace (data x + k + (bsize x - k) - (data x + k + n)) with (bsize x - k - n) by lia.
    by rewrite <- !app_assoc. }
  assert (contents m1 (blk_list buf) = splice (contents m (blk_list buf)) (pos buf) o) as Esp.
  { rewrite Ec1, Ec, <- Hfr. symmetry. apply splice_middle. unfold zlen in *. lia. }
  split; [done|]. split; [|split].
  - rewrite Ec, <- Hfr, <- Hlc at 1. apply sub_middle.
  - split; [by apply pm_set|]. rewrite Ec1, T, Ec, !zlen_app. lia.
  - split; try done; [apply lookup_insert_eq|]. unfold m1. by rewrite contents_set.
Qed.

(** ** The loop *)

Definition no_empty (m : pmem) (bs : list Z) : Prop :=
  forall b x, b ∈ bs -> blks m !! b = Some x -> 0 < bsize x.

Section LoopOk.
Context {A : Type} (act : list Z -> Z -> Z -> A -> option (list Z * A)).
Context (step : list Z -> A -> list Z * A) (Inv : Z -> A -> Prop).
Context (zero_ok : Prop) (Q : Z -> Prop).

(** On a chunk of the block, whose bytes satisfy [Q], the action is [step];
    [zero_ok] says that this includes the empty chunk. *)
Definition act_ok : Prop := forall pl off n rem a,
  zlen pl = PKTBUF_BLK_SIZE -> 0 <= off -> 0 <= n <= rem -> off + n <= PKTBUF_BLK_SIZE -> Inv rem a ->
  (0 < n \/ zero_ok) -> Forall Q (sub pl off n) ->
  act pl off n a = Some (splice pl off (step (sub pl off n) a).1, (step (sub pl off n) a).2) /\
  length (step (sub pl off n) a).1 = Z.to_nat n /\ Inv (rem - n) (step (sub pl off n) a).2.

(** [step] over consecutive chunks. *)
Fixpoint steps (cs : list (list Z)) (a : A) : list Z * A :=
  match cs with
  | [] => ([], a)
  | c :: cs' => let '(o, a1) := step c a in let '(os, a2) := steps cs' a1 in (o ++ os, a2)
  end.

Lemma blk_loop_ok (Hact : act_ok) fuel : forall m buf others size a left,
  buf_wf m buf others -> cursor m buf -> blks_left buf left ->
  0 <= size <= total_blk_remain buf -> Inv size a -> (Z.to_nat size + left < fuel)%nat ->
  (zero_ok \/ no_empty m (blk_list buf)) ->
  Forall Q (sub (contents m (blk_list buf)) (pos buf) size) ->
  exists m' buf' cs, blk_loop act fuel m buf size a = Some (m', buf', (steps cs a).2) /\
    concat cs = sub (contents m (blk_list buf)) (pos buf) size /\
    contents m' (blk_list buf) = splice (contents m (blk_list buf)) (pos buf) (steps cs a).1 /\
    zlen (steps cs a).1 = size /\
    buf_wf m' buf' others /\ cursor m' buf' /\ same_blks m m' others /\
    pos buf' = pos buf + size /\ blk_list buf' = blk_list buf /\ total_size buf' = total_size buf /\
    self buf' = self buf /\ ref buf' = ref buf /\ free m' = free m /\ free_bufs m' = free_bufs m.
Proof.
  induction fuel as [|fuel IH]; intros m buf others size a left B C L Hs I Hf Z0 HQ; [lia|].
  cbn [blk_loop]. destruct (Z.leb_spec size 0) as [H0|H0].
  { assert (size = 0) as -> by lia. exists m, buf, []. cbn [steps fst snd concat].
    pose proof B as [_ T]. unfold total_blk_remain in Hs.
    assert (0 <= pos buf) as Hp0.
    { destruct C as [[_ ->]|(pre & b & post & x & k & _ & _ & _ & _ & -> & Hk & _)];
        [apply zlen_nonneg|pose proof (zlen_nonneg (contents m pre)); lia]. }
    rewrite splice_nil by lia. split_and!; try done. lia. }
  unfold total_blk_remain in Hs. pose proof B as [W T].
  destruct (cursor_at m buf others B C) as (pre & b & post & x & k & P & Wx & Hb0 & Hn1 & Hn2 & Hn3 & Hkk);
    [lia|]. pose proof P as [E Hc Hx Ho Hp Hk]. pose proof Wx as [P1 P2 P3 P4].
  unfold curr_blk_remain. rewrite Hc. destruct (Z.eqb_spec b NULL); [done|]. rewrite Hx. mstep.
  rewrite Ho. replace (data x + bsize x - (data x + k)) with (bsize x - k) by lia.
  set (n0 := if bsize x - k <? size then bsize x - k else size).
  assert (0 <= n0 <= size /\ n0 <= bsize x - k) as [Hn Hn']
    by (unfold n0; destruct (Z.ltb_spec (bsize x - k) size); lia).
  assert (zlen (sub (payload x) (data x + k) n0) = n0) as Hzs by (apply zlen_sub; lia).
  destruct (chunk_ok m buf others pre b post x k n0 _ B P Wx Hn1 Hn2 Hzs) as (_ & Ecn & _); [lia|].
  pose proof (zlen_nonneg (contents m pre)).
  assert (sub (contents m (blk_list buf)) (pos buf) size =
    sub (contents m (blk_list buf)) (pos buf) n0 ++
    sub (contents m (blk_list buf)) (pos buf + n0) (size - n0)) as Esub
    by (rewrite sub_app by lia; f_equal; lia).
  rewrite Esub, Forall_app in HQ. destruct HQ as [HQ1 HQ2]. rewrite Ecn in HQ1.
  destruct (Hact (payload x) (data x + k) n0 size a) as (-> & Hlo & I'); [done|lia|lia|lia|done| |done|].
  { destruct Z0 as [|Z0]; [by right|]. left. assert (0 < bsize x) by (apply (Z0 b); [rewrite E; set_solver|done]).
    unfold n0. destruct (Z.ltb_spec (bsize x - k) size); lia. }
  mstep.
  set (c := sub (payload x) (data x + k) n0) in *.
  destruct (step c a) as [o a1] eqn:Es. cbn [fst snd] in *.
  assert (zlen o = n0) as Hzo by (unfold zlen; lia).
  destruct (chunk_ok m buf others pre b post x k n0 o B P Wx Hn1 Hn2 Hzo) as (Esp & _ & B0 & P'); [lia|].
  set (x' := Blk _ _ _) in *. set (m1 := set_blk m b x') in *. destruct P' as [_ _ Hx1 Ho1 Hp1' Hk1].
  destruct (move_forward_ok m1 buf others pre b post x' k n0) as
    (buf1 & -> & Hp1 & Eb1 & Et1 & Es1 & Er1 & C1 & L1 & L1'); try done; [apply B0|lia|cbn; lia|].
  mstep. cbn [x' bsize] in L1'.
  assert (buf_wf m1 buf1 others) as B1
    by (split; [rewrite Eb1; apply B0|rewrite Eb1, Et1; apply B0]).
  set (left1 := if n0 =? bsize x - k then length post else S (length post)).
  assert (length post < left)%nat as Hleft.
  { destruct L as [L|(pre' & post' & E' & Hlt)]; [congruence|].
    rewrite Hc, E in E'. apply nodup_split in E' as [_ ->]; [done|]. pose proof (pm_nodup _ _ W) as Hd2.
    apply NoDup_app in Hd2 as (Hd2 & _). apply NoDup_app in Hd2 as (Hd2 & _). by rewrite E in Hd2. }
  destruct (IH m1 buf1 others (size - n0) a1 left1 B1 C1)
    as (m' & buf' & cs & E2 & Ecs & Ec2 & Hl2 & B2 & C2 & S2 & Hp2 & Eb2 & Et2 & Es2 & Er2 & Ef2 & Efb2).
  - unfold left1. destruct (Z.eqb_spec n0 (bsize x - k)); [by apply L1'|done].
  - unfold total_blk_remain. lia.
  - done.
  - unfold left1. destruct (Z.eqb_spec n0 (bsize x - k)) as [En|En]; [lia|].
    assert (n0 = size) by (unfold n0 in *; destruct (Z.ltb_spec (bsize x - k) size); lia). lia.
  - rewrite Eb1. destruct Z0 as [|Z0]; [by left|right]. intros b0 x0 Hb0'. cbn. rewrite lookup_insert.
    case_decide as Eq; [|by apply Z0]. intros [= <-]. cbn. subst b0. by apply (Z0 b).
  - rewrite Eb1, Hp1, Esp, sub_splice_after by lia. done.
  - exists m', buf', (c :: cs). cbn [steps]. rewrite Es.
    destruct (steps cs a1) as [os a2] eqn:Est. cbn [fst snd] in *.
    rewrite Eb1, Hp1, Esp in *.
    split; [exact E2|]. split; [|split; [|split]].
    + cbn [concat]. rewrite Ecs, sub_splice_after by lia. fold c in Ecn. rewrite <- Ecn, sub_app by lia. f_equal. lia.
    + rewrite Ec2. rewrite <- Hzo at 1. apply splice_splice; lia.
    + rewrite zlen_app. lia.
    + split_and!; try done; try congruence; try lia.
      eapply same_blks_trans; [|exact S2]. by apply same_set_blk.
Qed.

End LoopOk.

Lemma cursor_left m buf : cursor m buf -> blks_left buf (length (blk_list buf)).
Proof.
  intros [[H _]|(pre & b & post & x & k & E & <- & _)]; [by left|].
  right. exists pre, post. split; [done|]. rewrite E, length_app. simpl. lia.
Qed.

Lemma cursor_pos m buf : cursor m buf -> 0 <= pos buf.
Proof.
  intros [[_ ->]|(pre & b & post & x & k & _ & _ & _ & _ & -> & Hk & _)];
    [apply zlen_nonneg|pose proof (zlen_nonneg (contents m pre)); lia].
Qed.

(** [buf] after an access: the same packet at another position. *)
Record moved (m m' : pmem) (buf buf' : pktbuf_t) (others : list Z) (p : Z) : Prop := {
  mv_wf : buf_wf m' buf' others;
  mv_cursor : cursor m' buf';
  mv_others : same_blks m m' others;
  mv_pos : pos buf' = p;
  mv_blks : blk_list buf' = blk_list buf;
  mv_total : total_size buf' = total_size buf;
  mv_ref : self buf' = self buf /\ ref buf' = ref buf;
  mv_free : free m' = free m /\ free_bufs m' = free_bufs m;
}.

(** The loop with the fuel the access functions give it. *)
Lemma access_ok {A} act (step : list Z -> A -> list Z * A) Inv zero_ok Q m buf others size a :
  act_ok act step Inv zero_ok Q -> buf_wf m buf others -> cursor m buf ->
  0 <= size <= total_blk_remain buf -> Inv size a ->
  (zero_ok \/ no_empty m (blk_list buf)) ->
  Forall Q (sub (contents m (blk_list buf)) (pos buf) size) ->
  exists m' buf' cs, blk_loop act (loop_fuel buf size) m buf size a = Some (m', buf', (steps step cs a).2) /\
    concat cs = sub (contents m (blk_list buf)) (pos buf) size /\
    contents m' (blk_list buf) = splice (contents m (blk_list buf)) (pos buf) (steps step cs a).1 /\
    zlen (steps step cs a).1 = size /\ moved m m' buf buf' others (pos buf + size).
Proof.
  intros Ha B C Hs I HZ HQ.
  destruct (blk_loop_ok act step Inv zero_ok Q Ha (loop_fuel buf size) m buf others size a
    (length (blk_list buf)) B C (cursor_left _ _ C) Hs I) as (m' & buf' & cs & E & E1 & E2 & E3 & H);
    [unfold loop_fuel; lia|done|done|].
  destruct H as (H1 & H2 & H3 & H4 & H5 & H6 & H7 & H8 & H9 & H10).
  exists m', buf', cs. by split_and!.
Qed.

(** The case of an action that takes any chunk. *)
Lemma access_any {A} act (step : list Z -> A -> list Z * A) Inv m buf others size a :
  act_ok act step Inv True (fun _ => True) -> buf_wf m buf others -> cursor m buf ->
  0 <= size <= total_blk_remain buf -> Inv size a ->
  exists m' buf' cs, blk_loop act (loop_fuel buf size) m buf size a = Some (m', buf', (steps step cs a).2) /\
    concat cs = sub (contents m (blk_list buf)) (pos buf) size /\
    contents m' (blk_list buf) = splice (contents m (blk_list buf)) (pos buf) (steps step cs a).1 /\
    zlen (steps step cs a).1 = size /\ moved m m' buf buf' others (pos buf + size).
Proof.
  intros Ha B C Hs I. apply (access_ok act step Inv True (fun _ => True)); try done; [by left|].
  by apply Forall_true.
Qed.

Lemma pl_in_range pl off n : zlen pl = PKTBUF_BLK_SIZE -> 0 <= off -> 0 <= n ->
  off + n <= PKTBUF_BLK_SIZE -> mem_read pl off n = Some (sub pl off n).
Proof.
  intros Hl Ho Hn He. unfold mem_read. destruct (Z.leb_spec 0 off); [|lia].
  destruct (Z.leb_spec 0 n); [|lia]. destruct (Z.leb_spec (off + n) (zlen pl)); [done|lia].
Qed.

Lemma mem_write_in_range pl off bs : zlen pl = PKTBUF_BLK_SIZE -> 0 <= off ->
  off + zlen bs <= PKTBUF_BLK_SIZE -> mem_write pl off bs = Some (splice pl off bs).
Proof.
  intros Hl Ho He. unfold mem_write. destruct (Z.leb_spec 0 off); [|lia].
  destruct (Z.leb_spec (off + zlen bs) (zlen pl)); [done|lia].
Qed.

(** Writing back what was read changes nothing. *)
Lemma splice_same l off n : 0 <= off -> 0 <= n -> off + n <= zlen l -> splice l off (sub l off n) = l.
Proof.
  intros. unfold splice. rewrite length_sub by lia. unfold sub.
  rewrite <- drop_drop, take_drop. apply take_drop.
Qed.

(** ** Writing *)

Definition step_write (c src : list Z) : list Z * list Z := (take (length c) src, drop (length c) src).

Lemma act_write_ok : act_ok act_write step_write (fun rem src => rem <= zlen src) True (fun _ => True).
Proof.
  intros pl off n rem src Hl Ho Hn He Hi _ _. unfold act_write, step_write.
  rewrite (length_sub pl off n) by lia. cbn [fst snd].
  assert (zlen (take (Z.to_nat n) src) = n) as Ht by (unfold zlen in *; rewrite length_take; lia).
  unfold mem_read. destruct (Z.leb_spec 0 0); [|lia]. destruct (Z.leb_spec 0 n); [|lia].
  destruct (Z.leb_spec (0 + n) (zlen src)); [|lia]. cbn [andb]. mstep.
  change (sub src 0 n) with (take (Z.to_nat n) src).
  rewrite mem_write_in_range by lia. mstep. split_and!; [done|unfold zlen in Ht; lia|].
  unfold zlen in *. rewrite length_drop. lia.
Qed.

Lemma steps_write cs src : steps step_write cs src
  = (take (length (concat cs)) src, drop (length (concat cs)) src).
Proof.
  revert src. induction cs as [|c cs IH]; intros src; [done|]. cbn [steps step_write concat].
  rewrite IH, length_app, drop_drop. f_equal. apply take_take_drop.
Qed.

Lemma pktbuf_write_ok m buf others src size : buf_wf m buf others -> cursor m buf ->
  0 < size <= total_blk_remain buf -> size <= zlen src ->
  exists buf' m', pktbuf_write m buf src size = Some (NET_ERR_OK, buf', m') /\
    moved m m' buf buf' others (pos buf + size) /\
    contents m' (blk_list buf')
      = splice (contents m (blk_list buf)) (pos buf) (take (Z.to_nat size) src).
Proof.
  intros B C Hs Hl. pose proof (cursor_pos _ _ C). pose proof (bf_total _ _ _ B).
  unfold total_blk_remain in Hs.
  destruct (access_any act_write step_write _ m buf others size src act_write_ok B C)
    as (m' & buf' & cs & E & E1 & E2 & E3 & M); [unfold total_blk_remain; lia|done|].
  unfold pktbuf_write. destruct (Z.eqb_spec size 0); [lia|].
  unfold total_blk_remain. destruct (Z.ltb_spec (total_size buf - pos buf) size); [lia|].
  rewrite E. mstep. exists buf', m'. split; [done|]. split; [done|].
  rewrite (mv_blks _ _ _ _ _ _ M), E2, steps_write. cbn [fst]. do 2 f_equal.
  rewrite E1. apply length_sub; lia.
Qed.

(** ** Reading *)

Definition step_read (c dest : list Z) : list Z * list Z := (c, dest ++ c).

Lemma act_read_ok : act_ok act_read step_read (fun _ _ => True) True (fun _ => True).
Proof.
  intros pl off n rem dest Hl Ho Hn He _ _ _. unfold act_read, step_read. cbn [fst snd].
  rewrite pl_in_range by lia. mstep. rewrite splice_same by lia.
  split_and!; [done|apply length_sub; lia|done].
Qed.

Lemma steps_read cs dest : steps step_read cs dest = (concat cs, dest ++ concat cs).
Proof.
  revert dest. induction cs as [|c cs IH]; intros dest; cbn [steps step_read concat].
  - by rewrite app_nil_r.
  - by rewrite IH, <- app_assoc.
Qed.

(** ** Filling *)

Definition step_fill (v : Z) (c : list Z) (u : unit) : list Z * unit := (replicate (length c) v, u).

Lemma act_fill_ok v : act_ok (act_fill v) (step_fill v) (fun _ _ => True) True (fun _ => True).
Proof.
  intros pl off n rem u Hl Ho Hn He _ _ _. unfold act_fill, step_fill. cbn [fst snd].
  rewrite length_sub by lia. rewrite mem_write_in_range; [|done|done|unfold zlen; rewrite length_replicate; lia].
  mstep. by rewrite length_replicate.
Qed.

Lemma steps_fill v cs u : (steps (step_fill v) cs u).1 = replicate (length (concat cs)) v.
Proof.
  revert u. induction cs as [|c cs IH]; intros u; [done|]. cbn [steps step_fill concat].
  specialize (IH u). destruct (steps (step_fill v) cs u) as [os a]. cbn [fst] in *.
  by rewrite IH, length_app, replicate_add.
Qed.

(** [pktbuf_fill] sets the [size] bytes from the current position on to
    [v], leaves all others as they are and moves the position behind them; it
    refuses to fill nothing and to fill past the end. *)
Theorem pktbuf_fill_spec m buf others v size : buf_wf m buf others -> cursor m buf -> 0 <= size ->
  exists e buf' m', pktbuf_fill m buf v size = Some (e, buf', m') /\
    if size =? 0 then e = NET_ERR_PARAM /\ buf' = buf /\ m' = m
    else if total_blk_remain buf <? size then e = NET_ERR_SIZE /\ buf' = buf /\ m' = m
    else e = NET_ERR_OK /\ moved m m' buf buf' others (pos buf + size) /\
      contents m' (blk_list buf')
        = splice (contents m (blk_list buf)) (pos buf) (replicate (Z.to_nat size) v).
Proof.
  intros B C Hs. pose proof (cursor_pos _ _ C). pose proof (bf_total _ _ _ B). unfold pktbuf_fill.
  destruct (Z.eqb_spec size 0); [by exists NET_ERR_PARAM, buf, m|].
  destruct (Z.ltb_spec (total_blk_remain buf) size) as [|Hle]; [by exists NET_ERR_SIZE, buf, m|].
  unfold total_blk_remain in Hle.
  destruct (access_any (act_fill v) (step_fill v) _ m buf others size tt (act_fill_ok v) B C)
    as (m' & buf' & cs & -> & E1 & E2 & E3 & M); [unfold total_blk_remain; lia|done|].
  mstep. exists NET_ERR_OK, buf', m'. split; [done|]. split; [done|]. split; [done|].
  rewrite (mv_blks _ _ _ _ _ _ M), E2, steps_fill. do 2 f_equal. rewrite E1. apply length_sub; lia.
Qed.

(** ** Seeking *)

Definition step_skip (c : list Z) (u : unit) : list Z * unit := (c, u).

Lemma act_skip_ok : act_ok act_skip step_skip (fun _ _ => True) True (fun _ => True).
Proof.
  intros pl off n rem u Hl Ho Hn He _ _ _. unfold act_skip, step_skip. cbn [fst snd].
  rewrite splice_same by lia. split_and!; [done|apply length_sub; lia|done].
Qed.

Lemma steps_skip cs u : (steps step_skip cs u).1 = concat cs.
Proof.
  revert u. induction cs as [|c cs IH]; intros u; [done|]. cbn [steps step_skip concat].
  specialize (IH u). destruct (steps step_skip cs u). cbn [fst] in *. by rewrite IH.
Qed.

(** Going back to the start. *)
Lemma cursor_start m buf others b rest x : buf_wf m buf others -> blk_list buf = b :: rest ->
  blks m !! b = Some x -> cursor m (with_cursor buf 0 b (data x)) /\
  buf_wf m (with_cursor buf 0 b (data x)) others.
Proof.
  intros B E Hx. pose proof B as [W T]. split; [|by split].
  right. exists [], b, rest, x, 0. cbn. change (zlen (contents m [])) with 0.
  destruct (buf_first _ _ _ _ _ B E) as (y & Hy & Wy & _). rewrite Hx in Hy. injection Hy as <-.
  split_and!; try done; try (destruct Wy; lia).
Qed.

(** An action that only looks leaves memory as it is. *)
Lemma blk_loop_pure {A} (act : list Z -> Z -> Z -> A -> option (list Z * A)) fuel :
  (forall pl off n a pl' a', act pl off n a = Some (pl', a') -> pl' = pl) ->
  forall m buf size a m' buf' a', blk_loop act fuel m buf size a = Some (m', buf', a') -> m' = m.
Proof.
  intros Hp. induction fuel as [|fuel IH]; intros m buf size a m' buf' a' E; [done|].
  cbn [blk_loop] in E. cif_in E; [by injection E as <- <- <-|].
  apply bind_Some in E as (n & _ & E). apply bind_Some in E as (x & Hx & E).
  apply bind_Some in E as ([pl a1] & Ha & E). apply Hp in Ha as ->.
  assert (set_blk m (curr_blk buf) (Blk (bsize x) (data x) (payload x)) = m) as Em.
  { unfold set_blk. rewrite insert_id by (rewrite Hx; by destruct x). by destruct m. }
  rewrite Em in E. apply bind_Some in E as (buf1 & _ & E). by apply IH in E.
Qed.

Lemma act_read_pure pl off n a pl' a' : act_read pl off n a = Some (pl', a') -> pl' = pl.
Proof. unfold act_read. intros (bs & _ & [= <- _])%bind_Some. done. Qed.

Lemma pktbuf_read_moved m buf others size : buf_wf m buf others -> cursor m buf ->
  0 < size <= total_blk_remain buf ->
  exists buf', pktbuf_read m buf size
      = Some (NET_ERR_OK, buf', sub (contents m (blk_list buf)) (pos buf) size) /\
    moved m m buf buf' others (pos buf + size).
Proof.
  intros B C Hs. pose proof (cursor_pos _ _ C). pose proof (bf_total _ _ _ B).
  unfold total_blk_remain in Hs.
  destruct (access_any act_read step_read _ m buf others size [] act_read_ok B C)
    as (m' & buf' & cs & E & E1 & E2 & E3 & M); [unfold total_blk_remain; lia|done|].
  pose proof (blk_loop_pure _ _ act_read_pure _ _ _ _ _ _ _ E) as ->.
  unfold pktbuf_read. destruct (Z.eqb_spec size 0); [lia|].
  unfold total_blk_remain. destruct (Z.ltb_spec (total_size buf - pos buf) size); [lia|].
  rewrite steps_read in *. cbn [fst snd app] in *. rewrite E. mstep. rewrite E1. by exists buf'.
Qed.

Lemma seek_walk_ok m buf others n : buf_wf m buf others -> cursor m buf ->
  0 <= n <= total_blk_remain buf ->
  exists buf', blk_loop act_skip (loop_fuel buf n) m buf n tt = Some (m, buf', tt) /\
    moved m m buf buf' others (pos buf + n).
Proof.
  intros B C Hn. destruct (access_any act_skip step_skip _ m buf others n tt act_skip_ok B C)
    as (m' & buf' & cs & E & _ & _ & _ & M); [done|done|].
  destruct (steps step_skip cs tt).2.
  pose proof (blk_loop_pure act_skip _ ltac:(by intros ? ? ? ? ? ? [= <- _]) _ _ _ _ _ _ _ E) as ->.
  eauto.
Qed.

Lemma pktbuf_seek_ok m buf others offset : buf_wf m buf others -> cursor m buf ->
  0 <= offset < total_size buf ->
  exists buf', pktbuf_seek m buf offset = Some (NET_ERR_OK, buf') /\
    moved m m buf buf' others offset.
Proof.
  intros B C Ho. pose proof (cursor_pos _ _ C) as Hp. pose proof B as [W T]. unfold pktbuf_seek.
  destruct (Z.eqb_spec (pos buf) offset) as [E|Hne].
  { exists buf. split; [done|]. by split. }
  destruct (Z.ltb_spec offset 0); [lia|]. destruct (Z.leb_spec (total_size buf) offset); [lia|].
  cbn [orb]. destruct (Z.ltb_spec offset (pos buf)).
  - destruct (blk_list buf) as [|b rest] eqn:El.
    { change (zlen (contents m [])) with 0 in T. lia. }
    rewrite <- El in *. destruct (buf_first _ _ _ _ _ B El) as (x & Hx & _).
    rewrite El. cbn [head]. mstep. rewrite Hx. mstep.
    destruct (cursor_start m buf others b rest x B El Hx) as [C1 B1].
    destruct (seek_walk_ok m _ others offset B1 C1) as (buf' & E & M); [unfold total_blk_remain; cbn; lia|].
    rewrite E. mstep. exists buf'. split; [done|]. cbn in M.
    destruct M as [M1 M2 M3 M4 M5 M6 M7 M8]. by split.
  - mstep. destruct (seek_walk_ok m buf others (offset - pos buf) B C) as (buf' & E & M);
      [unfold total_blk_remain; lia|].
    rewrite E. mstep. exists buf'. split; [done|].
    destruct M as [M1 M2 M3 M4 M5 M6 M7 M8]. split; try done. lia.
Qed.

(** ** Theorems *)

(** [pktbuf_write] on a packet whose position is consistent: a write of
    [size] bytes that fit behind the position replaces exactly the bytes at
    the position by the first [size] bytes of the source, across any number of
    blocks, moves the position behind them and touches no other packet; a
    write of nothing and one that does not fit are refused and change
    nothing. *)
Theorem pktbuf_write_spec m buf others src size : buf_wf m buf others -> cursor m buf ->
  0 <= size <= zlen src ->
  exists e buf' m', pktbuf_write m buf src size = Some (e, buf', m') /\
    if size =? 0 then e = NET_ERR_PARAM /\ buf' = buf /\ m' = m
    else if total_blk_remain buf <? size then e = NET_ERR_SIZE /\ buf' = buf /\ m' = m
    else e = NET_ERR_OK /\ moved m m' buf buf' others (pos buf + size) /\
      contents m' (blk_list buf')
        = splice (contents m (blk_list buf)) (pos buf) (take (Z.to_nat size) src).
Proof.
  intros B C Hs. destruct (Z.eqb_spec size 0) as [->|H0]; [by exists NET_ERR_PARAM, buf, m|].
  destruct (Z.ltb_spec (total_blk_remain buf) size) as [Hlt|Hle].
  - exists NET_ERR_SIZE, buf, m. unfold pktbuf_write. destruct (Z.eqb_spec size 0); [done|].
    by destruct (Z.ltb_spec (total_blk_remain buf) size); [|lia].
  - destruct (pktbuf_write_ok m buf others src size B C) as (buf' & m' & H); [lia|lia|].
    exists NET_ERR_OK, buf', m'. split; [apply H|]. split; [done|apply H].
Qed.

(** C9: what was written is what is read: after writing [src] at a position,
    seeking back to that position and reading as many bytes returns [src]. *)
Theorem pktbuf_write_read m buf others src : buf_wf m buf others -> cursor m buf ->
  0 < zlen src <= total_blk_remain buf ->
  exists buf1 buf2 buf3 m1,
    pktbuf_write m buf src (zlen src) = Some (NET_ERR_OK, buf1, m1) /\
    pktbuf_seek m1 buf1 (pos buf) = Some (NET_ERR_OK, buf2) /\
    pktbuf_read m1 buf2 (zlen src) = Some (NET_ERR_OK, buf3, src) /\
    moved m m1 buf buf3 others (pos buf + zlen src).
Proof.
  intros B C Hs. pose proof (cursor_pos _ _ C) as Hp. pose proof B as [W T].
  unfold total_blk_remain in Hs.
  destruct (pktbuf_write_ok m buf others src (zlen src) B C) as (buf1 & m1 & E1 & M1 & Ec);
    [done|done|].
  destruct M1 as [B1 C1 S1 P1 L1 T1 R1 F1].
  destruct (pktbuf_seek_ok m1 buf1 others (pos buf) B1 C1) as (buf2 & E2 & M2); [lia|].
  destruct M2 as [B2 C2 S2 P2 L2 T2 R2 F2].
  destruct (pktbuf_read_moved m1 buf2 others (zlen src) B2 C2) as (buf3 & E3 & M3);
    [unfold total_blk_remain; lia|].
  destruct M3 as [B3 C3 S3 P3 L3 T3 R3 F3].
  exists buf1, buf2, buf3, m1. split; [done|]. split; [done|]. split.
  - rewrite E3. do 2 f_equal. rewrite L2, Ec, P2.
    unfold zlen. rewrite Nat2Z.id, take_ge by lia. change (Z.of_nat (length src)) with (zlen src).
    rewrite sub_splice by lia. rewrite Z.sub_diag.
    replace (pos buf + zlen src - (pos buf + zlen src)) with 0 by lia.
    by rewrite app_nil_r.
  - split; try done; try congruence; [naive_solver congruence..].
Qed.

(** [pktbuf_seek] makes any offset inside the packet the position, in
    whichever direction, and refuses any other offset. *)
Theorem pktbuf_seek_spec m buf others offset : buf_wf m buf others -> cursor m buf ->
  exists e buf', pktbuf_seek m buf offset = Some (e, buf') /\
    if (0 <=? offset) && (offset <? total_size buf) || (offset =? pos buf)
    then e = NET_ERR_OK /\ moved m m buf buf' others offset
    else e = NET_ERR_SIZE /\ buf' = buf.
Proof.
  intros B C. destruct (Z.eqb_spec offset (pos buf)) as [->|Hne].
  { exists NET_ERR_OK, buf. unfold pktbuf_seek. rewrite Z.eqb_refl, orb_true_r.
    split; [done|]. split; [done|]. by split. }
  rewrite orb_false_r. destruct (Z.leb_spec 0 offset), (Z.ltb_spec offset (total_size buf)); cbn [andb].
  { destruct (pktbuf_seek_ok m buf others offset B C) as (buf' & H'); [lia|].
    exists NET_ERR_OK, buf'. split; [apply H'|]. split; [done|apply H']. }
  all: exists NET_ERR_SIZE, buf; unfold pktbuf_seek; destruct (Z.eqb_spec (pos buf) offset); [congruence|].
  all: destruct (Z.ltb_spec offset 0), (Z.leb_spec (total_size buf) offset); try lia; done.
Qed.

(** ** Copying between packets *)

(** Another packet's position does not see a change of a block it does not
    have. *)
Lemma cursor_ext m m' buf : same_blks m m' (blk_list buf) -> cursor m buf -> cursor m' buf.
Proof.
  intros S [[H1 H2]|(pre & b & post & x & k & E & Hc & Hx & Ho & Hp & Hk)].
  - left. split; [done|]. by rewrite (contents_ext m m').
  - right. exists pre, b, post, x, k. rewrite (contents_ext m m' pre)
      by (eapply same_blks_sub; [exact S|]; rewrite E; set_solver).
    split; [done|]. split; [done|]. split; [|done]. rewrite S; [done|]. rewrite E. set_solver.
Qed.

Lemma buf_wf_swap m dest src others b x : buf_wf m src (blk_list dest ++ others) ->
  b ∉ blk_list src -> blk_wf x -> buf_wf (set_blk m b x) src (blk_list dest ++ others).
Proof. intros [W T] Hb Wx. split; [by apply pm_set|]. by rewrite contents_set. Qed.

Lemma blks_left_next buf left pre b post : blks_left buf left -> blk_list buf = pre ++ b :: post ->
  curr_blk buf = b -> b <> NULL -> NoDup (blk_list buf) -> (length post < left)%nat.
Proof.
  intros [L|(pre' & post' & E' & Hlt)] E Hc Hb Hd; [congruence|].
  rewrite Hc, E in E'. apply nodup_split in E' as [_ ->]; [done|]. by rewrite E in Hd.
Qed.

Lemma buf_nodup m buf others : buf_wf m buf others -> NoDup (blk_list buf).
Proof.
  intros [W _]. pose proof (pm_nodup _ _ W) as Hd. apply NoDup_app in Hd as (Hd & _).
  by apply NoDup_app in Hd as (Hd & _).
Qed.

(** What [move_forward] does, for the loop's measure. *)
Lemma move_next m buf others pre b post x k n left : buf_wf m buf others ->
  at_pos m buf pre b post x k -> b <> NULL -> 0 <= n <= bsize x - k -> blks_left buf left ->
  exists buf', move_forward m buf n = Some buf' /\ cursor m buf' /\ buf_wf m buf' others /\
    pos buf' = pos buf + n /\ blk_list buf' = blk_list buf /\ total_size buf' = total_size buf /\
    self buf' = self buf /\ ref buf' = ref buf /\
    exists left', blks_left buf' left' /\ (left' <= left)%nat /\ (n = bsize x - k -> (left' < left)%nat).
Proof.
  intros B P Hb Hn L. pose proof P as [E Hc Hx Ho Hp Hk].
  destruct (move_forward_ok m buf others pre b post x k n) as
    (buf1 & E1 & Hp1 & Eb1 & Et1 & Es1 & Er1 & C1 & L1 & L1'); try done; [apply B|lia|].
  pose proof (blks_left_next _ _ _ _ _ L E Hc Hb (buf_nodup _ _ _ B)) as Hl.
  exists buf1. split_and!; try done; [rewrite ?Eb1; split; rewrite ?Eb1, ?Et1; apply B|].
  destruct (Z.eq_dec n (bsize x - k)) as [En|En].
  - exists (length post). split; [by apply L1'|]. lia.
  - exists (S (length post)). split; [done|]. lia.
Qed.

Lemma copy_loop_ok fuel : forall m dest src others size ld ls,
  buf_wf m dest (blk_list src ++ others) -> buf_wf m src (blk_list dest ++ others) ->
  cursor m dest -> cursor m src -> blks_left dest ld -> blks_left src ls ->
  0 <= size -> size <= total_blk_remain dest -> size <= total_blk_remain src ->
  (Z.to_nat size + ld + ls < fuel)%nat ->
  exists m' dest' src', copy_loop fuel m dest src size = Some (m', dest', src') /\
    contents m' (blk_list dest) = splice (contents m (blk_list dest)) (pos dest)
      (sub (contents m (blk_list src)) (pos src) size) /\
    moved m m' dest dest' (blk_list src ++ others) (pos dest + size) /\
    pos src' = pos src + size /\ blk_list src' = blk_list src /\ total_size src' = total_size src /\
    cursor m' src' /\ buf_wf m' src' (blk_list dest ++ others).
Proof.
  induction fuel as [|fuel IH]; intros m dest src others size ld ls Bd Bs Cd Cs Ld Ls H0 Hd Hs Hf; [lia|].
  pose proof (bf_total _ _ _ Bd) as Td. pose proof (bf_total _ _ _ Bs) as Ts.
  pose proof (cursor_pos _ _ Cd) as Pd. pose proof (cursor_pos _ _ Cs) as Ps.
  unfold total_blk_remain in Hd, Hs. cbn [copy_loop]. destruct (Z.eqb_spec size 0) as [->|Hne].
  { exists m, dest, src. change (sub _ _ 0) with (@nil Z). rewrite splice_nil by lia.
    split; [done|]. split; [done|]. split; [split; try done; lia|]. split_and!; try done; lia. }
  destruct (cursor_at m dest _ Bd Cd) as (pre & b & post & x & k & P & Wx & Hb0 & Hn1 & Hn2 & Hn3 & _); [lia|].
  destruct (cursor_at m src _ Bs Cs) as (pre' & b' & post' & y & k' & P' & Wy & Hb0' & Hm1 & Hm2 & Hn3' & _); [lia|].
  pose proof P as [E Hc Hx Ho Hp Hk]. pose proof P' as [E' Hc' Hy Ho' Hp' Hk'].
  unfold curr_blk_remain. rewrite Hc, Hc'.
  destruct (Z.eqb_spec b NULL) as [|_]; [done|]. destruct (Z.eqb_spec b' NULL) as [|_]; [done|].
  rewrite Hx, Hy. mstep. rewrite Ho, Ho'.
  replace (data x + bsize x - (data x + k)) with (bsize x - k) by lia.
  replace (data y + bsize y - (data y + k')) with (bsize y - k') by lia.
  set (n1 := if bsize y - k' <? bsize x - k then bsize y - k' else bsize x - k).
  set (n := if size <? n1 then size else n1).
  assert (0 <= n <= size /\ n <= bsize x - k /\ n <= bsize y - k' /\
    (n = size \/ n = bsize x - k \/ n = bsize y - k')) as (Hn & Hnx & Hny & Hcase).
  { unfold n, n1. destruct (Z.ltb_spec (bsize y - k') (bsize x - k));
      [destruct (Z.ltb_spec size (bsize y - k'))|destruct (Z.ltb_spec size (bsize x - k))]; lia. }
  pose proof Wx as [X1 X2 X3 X4]. pose proof Wy as [Y1 Y2 Y3 Y4].
  rewrite pl_in_range by lia. mstep. set (o := sub (payload y) (data y + k') n).
  assert (zlen o = n) as Hzo by (apply zlen_sub; lia).
  rewrite mem_write_in_range by lia. mstep.
  assert (b ∉ blk_list src) as Hbs by set_solver.
  destruct (chunk_ok m src _ pre' b' post' y k' n o Bs P' Wy Hm1 Hm2 Hzo) as (_ & Eo & _); [lia|].
  destruct (chunk_ok m dest _ pre b post x k n o Bd P Wx Hn1 Hn2 Hzo) as (Esp & _ & B1 & P1); [lia|].
  set (x' := Blk _ _ _) in *. set (m1 := set_blk m b x') in *.
  assert (blk_wf x') as Wx' by (split; cbn; rewrite ?zlen_splice; lia).
  pose proof (buf_wf_swap m dest src others b x' Bs Hbs Wx') as Bs1. fold m1 in Bs1.
  assert (same_blks m m1 (blk_list src)) as Ss by by apply same_set_blk.
  assert (at_pos m1 src pre' b' post' y k') as P1'.
  { split; try done; [rewrite Ss; [done|rewrite E'; set_solver]|].
    rewrite (contents_ext m m1); [done|]. eapply same_blks_sub; [exact Ss|]. rewrite E'. set_solver. }
  destruct (move_next m1 dest _ pre b post x' k n ld B1 P1 Hb0) as
    (d1 & -> & Cd1 & Bd1 & Pd1 & Eld & Etd & Esd & Erd & ld1 & Ld1 & Hld & Hld'); [cbn; lia|done|]. mstep.
  destruct (move_next m1 src _ pre' b' post' y k' n ls Bs1 P1' Hb0') as
    (s1 & -> & Cs1 & Bs1' & Ps1 & Els & Ets & Ess & Ers & ls1 & Ls1 & Hls & Hls'); [lia|done|]. mstep.
  cbn [x' bsize] in Hld'. rewrite <- Els in Bd1. rewrite <- Eld in Bs1'.
  destruct (IH m1 d1 s1 others (size - n) ld1 ls1 Bd1 Bs1' Cd1 Cs1 Ld1 Ls1)
    as (m' & d' & s' & Ec & Hcont & M & Q1 & Q2 & Q3 & Q4 & Q5);
    [lia|unfold total_blk_remain; lia|unfold total_blk_remain; lia| |].
  { destruct Hcase as [Hq|[Hq|Hq]]; [lia|specialize (Hld' Hq); lia|specialize (Hls' Hq); lia]. }
  rewrite Ec. exists m', d', s'. split; [done|].
  rewrite Eld, Els, Pd1, Ps1, (contents_ext m m1 (blk_list src) Ss), Esp in *.
  split; [|split; [|split; [lia|split; [congruence|split; [lia|split; [done|done]]]]]].
  - rewrite Hcont. rewrite <- Hzo at 1. rewrite splice_splice.
    + f_equal. fold o in Eo. rewrite <- Eo, sub_app by lia. f_equal. lia.
    + lia.
    + rewrite zlen_sub; lia.
  - destruct M as [M1 M2 M3 M4 M5 M6 M7 M8]. split; try done; try lia; try congruence.
    eapply same_blks_trans; [|exact M3]. by apply same_set_blk.
Qed.

(** [pktbuf_copy] copies exactly [size] bytes from the source's position
    to the destination's, across the block boundaries of both, moves both
    positions behind them and changes no other byte; when either packet has
    fewer bytes left, it refuses and changes nothing. *)
Theorem pktbuf_copy_spec m dest src others size :
  buf_wf m dest (blk_list src ++ others) -> buf_wf m src (blk_list dest ++ others) ->
  cursor m dest -> cursor m src -> 0 <= size ->
  exists e dest' src' m', pktbuf_copy m dest src size = Some (e, dest', src', m') /\
    if (total_blk_remain dest <? size) || (total_blk_remain src <? size)
    then e = NET_ERR_SIZE /\ dest' = dest /\ src' = src /\ m' = m
    else e = NET_ERR_OK /\
      contents m' (blk_list dest') = splice (contents m (blk_list dest)) (pos dest)
        (sub (contents m (blk_list src)) (pos src) size) /\
      contents m' (blk_list src') = contents m (blk_list src) /\
      moved m m' dest dest' (blk_list src ++ others) (pos dest + size) /\
      cursor m' src' /\ pos src' = pos src + size.
Proof.
  intros Bd Bs Cd Cs H0. unfold pktbuf_copy.
  destruct (Z.ltb_spec (total_blk_remain dest) size) as [|Hd]; [by exists NET_ERR_SIZE, dest, src, m|].
  destruct (Z.ltb_spec (total_blk_remain src) size) as [|Hs]; [by exists NET_ERR_SIZE, dest, src, m|].
  cbn [orb].
  destruct (copy_loop_ok (S (Z.to_nat size + length (blk_list dest) + length (blk_list src)))
    m dest src others size _ _ Bd Bs Cd Cs (cursor_left _ _ Cd) (cursor_left _ _ Cs) H0 Hd Hs)
    as (m' & d' & s' & -> & Ec & M & P & L & T & C & B); [lia|]. mstep.
  exists NET_ERR_OK, d', s', m'. split; [done|]. split; [done|].
  rewrite (mv_blks _ _ _ _ _ _ M), L. split; [done|]. split; [|done].
  apply contents_ext. eapply same_blks_sub; [apply M|]. set_solver.
Qed.

(** ** The concrete packets of [PktbufSpec] *)

Lemma pb0_cursor : cursor pm0 pb0.
Proof.
  right. exists [], 1, [2], (Blk 20 10 pl0), 0. split_and!; try reflexivity; try done. by left.
Qed.

Lemma pb1_cursor : cursor pm0 pb1.
Proof.
  right. exists [], 3, [], (Blk 5 40 pl0), 0. split_and!; try reflexivity; try done. by left.
Qed.

Lemma pktbuf_fill_spec_witness :
  exists e buf' m', pktbuf_fill pm0 pb0 7 25 = Some (e, buf', m') /\
    e = NET_ERR_OK /\ moved pm0 m' pb0 buf' [3] 25 /\
    contents m' (blk_list buf') = splice (contents pm0 [1; 2]) 0 (replicate (Z.to_nat 25) 7).
Proof. apply (pktbuf_fill_spec pm0 pb0 [3] 7 25 pb0_wf pb0_cursor). lia. Defined.

Lemma pktbuf_write_spec_witness :
  exists e buf' m', pktbuf_write pm0 pb0 pl0 25 = Some (e, buf', m') /\
    e = NET_ERR_OK /\ moved pm0 m' pb0 buf' [3] 25 /\
    contents m' (blk_list buf') = splice (contents pm0 [1; 2]) 0 (take (Z.to_nat 25) pl0).
Proof. apply (pktbuf_write_spec pm0 pb0 [3] pl0 25 pb0_wf pb0_cursor). vm_compute. by split. Defined.

Lemma pktbuf_write_read_witness :
  exists buf1 buf2 buf3 m1,
    pktbuf_write pm0 pb0 (seqZ 100 25) 25 = Some (NET_ERR_OK, buf1, m1) /\
    pktbuf_seek m1 buf1 0 = Some (NET_ERR_OK, buf2) /\
    pktbuf_read m1 buf2 25 = Some (NET_ERR_OK, buf3, seqZ 100 25) /\
    moved pm0 m1 pb0 buf3 [3] 25.
Proof. apply (pktbuf_write_read pm0 pb0 [3] (seqZ 100 25) pb0_wf pb0_cursor). vm_compute. by split. Defined.

Lemma pktbuf_seek_spec_witness :
  exists e buf', pktbuf_seek pm0 pb0 22 = Some (e, buf') /\
    e = NET_ERR_OK /\ moved pm0 pm0 pb0 buf' [3] 22.
Proof. apply (pktbuf_seek_spec pm0 pb0 [3] 22 pb0_wf pb0_cursor). Defined.

Lemma pktbuf_copy_spec_witness :
  exists e dest' src' m', pktbuf_copy pm0 pb0 pb1 5 = Some (e, dest', src', m') /\
    e = NET_ERR_OK /\
    contents m' (blk_list dest') = splice (contents pm0 [1; 2]) 0 (sub (contents pm0 [3]) 0 5) /\
    contents m' (blk_list src') = contents pm0 [3] /\
    moved pm0 m' pb0 dest' ([3] ++ []) 5 /\ cursor m' src' /\ pos src' = 5.
Proof.
  apply (pktbuf_copy_spec pm0 pb0 pb1 [] 5 pb0_wf pb1_wf pb0_cursor pb1_cursor). lia.
Defined.
