(* ===== verification/Checksum.v ===== *)
(** * The Internet checksum: [checksum16], [pktbuf_checksum16]
    (kernel/net/pktbuf.c, kernel/net/util.h), [checksum_peso] (util.h)

    The reference is the sum of the 16-bit little-endian words of the byte
    string, folded to 16 bits with end-around carry ([fold_ref]).  The packet
    checksum, computed block by block with a fold after each block and with
    blocks of odd length, is shown to be the checksum of the whole string. *)

From S2P Require Import Prelude Pktbuf PktbufSpec PktbufAccess.

(** ** The code *)

(** [while (len > 1) { checksum += *curr_buf++; len -= 2; }], then the odd
    byte. *)
Fixpoint sum_words (fuel : nat) (mem : list Z) (len checksum : Z) : option Z :=
  match fuel with
  | O => None
  | S fuel' =>
      if 1 <? len then
        lo ← zget mem 0; hi ← zget mem 1;
        sum_words fuel' (drop 2 mem) (u16 (len - 2)) (u32 (checksum + (lo + 256 * hi)))
      else if 0 <? len then b ← zget mem 0; Some (u32 (checksum + b))
      else Some checksum
  end.

(** [while ((high = checksum >> 16) != 0) checksum = high + (checksum & 0xffff)] *)
Fixpoint fold_loop (fuel : nat) (checksum : Z) : option Z :=
  match fuel with
  | O => None
  | S fuel' =>
      let high := u16 (Z.shiftr checksum 16) in
      if nz high then fold_loop fuel' (u32 (high + Z.land checksum 65535))
      else Some checksum
  end.

Definition checksum16 (offset : Z) (buf : list Z) (len pre_sum : Z) (complement : bool)
    : option Z :=
  '(checksum, buf, len) ←
    (if nz (Z.land offset 1) then
       b ← zget buf 0; Some (u32 (pre_sum + Z.shiftl b 8), drop 1 buf, u16 (len - 1))
     else Some (pre_sum, buf, len));
  checksum ← sum_words (S (Z.to_nat len)) buf len checksum;
  checksum ← fold_loop 4 checksum;
  Some (if complement then u16 (Z.lnot checksum) else u16 checksum).

(** One block of [pktbuf_checksum16]: the sum and the offset so far. *)
Definition act_sum (pl : list Z) (off n : Z) (a : Z * Z) : option (list Z * (Z * Z)) :=
  let '(sum, offset) := a in
  s ← checksum16 offset (drop (Z.to_nat off) pl) (u16 n) sum false;
  Some (pl, (s, u32 (offset + n))).

Definition pktbuf_checksum16 (m : pmem) (buf : pktbuf_t) (size pre_sum : Z) (complement : bool)
    : option (Z * pktbuf_t) :=
  if total_blk_remain buf <? size then Some (0, buf)
  else
    '(_, buf, (sum, _)) ← blk_loop act_sum (loop_fuel buf size) m buf size (pre_sum, 0);
    Some (if complement then u16 (Z.lnot sum) else u16 sum, buf).

Definition swap_u16 (v : Z) : Z :=
  u16 (Z.lor (Z.shiftl (Z.land v 255) 8) (Z.land (Z.shiftr v 8) 255)).

Definition checksum_peso (m : pmem) (buf : pktbuf_t) (src_ip dest_ip : list Z) (protocol : Z)
    : option (Z * pktbuf_t) :=
  let len := swap_u16 (u16 (total_size buf)) in
  sum ← checksum16 0 src_ip 4 0 false;
  sum ← checksum16 4 dest_ip 4 sum false;
  sum ← checksum16 8 [0; protocol] 2 sum false;
  sum ← checksum16 10 [u8 len; u8 (Z.shiftr len 8)] 2 sum false;
  buf ← pktbuf_reset_acc m buf;
  pktbuf_checksum16 m buf (total_size buf) sum true.

(** ** The reference *)

Fixpoint word_sum (bs : list Z) : Z :=
  match bs with
  | lo :: hi :: r => lo + 256 * hi + word_sum r
  | [b] => b
  | [] => 0
  end.

(** The same, the string starting at an odd offset. *)
Definition word_sum_at (odd : bool) (bs : list Z) : Z :=
  if odd then match bs with b :: r => 256 * b + word_sum r | [] => 0 end else word_sum bs.

(** Folding with end-around carry: the representative modulo 65535 that is
    zero only for zero. *)
Definition fold_ref (s : Z) : Z := if s =? 0 then 0 else (s - 1) mod 65535 + 1.

Definition is_byte (b : Z) : Prop := 0 <= b < 256.

Lemma word_sum_at_cons p b bs :
  word_sum_at p (b :: bs) = (if p then 256 else 1) * b + word_sum_at (negb p) bs.
Proof. destruct p; [done|]. destruct bs; cbn [word_sum_at word_sum negb]; lia. Qed.

Lemma word_sum_at_app p xs ys :
  word_sum_at p (xs ++ ys) = word_sum_at p xs + word_sum_at (xorb p (Z.odd (zlen xs))) ys.
Proof.
  revert p. induction xs as [|x xs IH]; intros p.
  - change (Z.odd (zlen [])) with false. rewrite xorb_false_r. by destruct p.
  - cbn [app]. rewrite !word_sum_at_cons, IH.
    replace (zlen (x :: xs)) with (Z.succ (zlen xs)) by (unfold zlen; simpl; lia).
    rewrite Z.odd_succ, <- Z.negb_odd. destruct p, (Z.odd (zlen xs)); cbn [xorb negb]; lia.
Qed.

Lemma word_sum_at_bound p bs : Forall is_byte bs -> 0 <= word_sum_at p bs <= 65280 * zlen bs.
Proof.
  intros HB. revert p. induction HB as [|b bs Hb HB IH]; intros p.
  - destruct p; cbn; change (zlen []) with 0; lia.
  - rewrite word_sum_at_cons. specialize (IH (negb p)). unfold is_byte in Hb.
    replace (zlen (b :: bs)) with (zlen bs + 1) by (unfold zlen; simpl; lia).
    destruct p; lia.
Qed.

(** ** Folding *)

Lemma fold_ref_add s t : 0 <= s -> 0 <= t -> fold_ref (fold_ref s + t) = fold_ref (s + t).
Proof.
  intros Hs Ht. unfold fold_ref. destruct (Z.eqb_spec s 0) as [->|Hne]; [done|].
  pose proof (Z.mod_pos_bound (s - 1) 65535 ltac:(lia)).
  destruct (Z.eqb_spec ((s - 1) mod 65535 + 1 + t) 0); [lia|].
  destruct (Z.eqb_spec (s + t) 0); [lia|].
  replace ((s - 1) mod 65535 + 1 + t - 1) with ((s - 1) mod 65535 + t) by lia.
  rewrite Zplus_mod_idemp_l. do 2 f_equal. lia.
Qed.

Lemma fold_ref_range s : 0 <= s -> 0 <= fold_ref s <= 65535.
Proof. intros Hs. unfold fold_ref. destruct (s =? 0); [lia|]. divmod. Qed.

Lemma fold_ref_small s : 0 <= s <= 65535 -> fold_ref s = s.
Proof.
  intros Hs. unfold fold_ref. destruct (Z.eqb_spec s 0); [lia|].
  rewrite Z.mod_small by lia. lia.
Qed.

(** One end-around carry. *)
Lemma fold_ref_carry s : 0 <= s -> fold_ref (s / 65536 + s mod 65536) = fold_ref s.
Proof.
  intros Hs. unfold fold_ref.
  pose proof (Z_div_mod_eq_full s 65536). pose proof (Z.mod_pos_bound s 65536 ltac:(lia)).
  assert (0 <= s / 65536) by (apply Z.div_pos; lia).
  destruct (Z.eqb_spec s 0), (Z.eqb_spec (s / 65536 + s mod 65536) 0); try lia.
  f_equal. rewrite <- (Z_mod_plus_full (s / 65536 + s mod 65536 - 1) (s / 65536) 65535).
  f_equal. lia.
Qed.

Lemma fold_loop_ok s : 0 <= s < 2 ^ 32 -> fold_loop 4 s = Some (fold_ref s).
Proof.
  assert (forall n s, 0 <= s < 2 ^ 32 -> fold_loop (S n) s =
    if s <? 65536 then Some s else fold_loop n (s / 65536 + s mod 65536)) as Hstep.
  { intros n t Ht. cbn [fold_loop]. rewrite Z.shiftr_div_pow2 by lia. change (2 ^ 16) with 65536.
    change 65535 with (Z.ones 16). rewrite Z.land_ones by lia. change (2 ^ 16) with 65536.
    rewrite u16_small by divmod. unfold nz.
    destruct (Z.ltb_spec t 65536).
    - by rewrite Z.div_small by lia.
    - destruct (Z.eqb_spec (t / 65536) 0); [divmod|]. cbn [negb]. rewrite u32_small by divmod. done. }
  intros Hs. rewrite Hstep by done. destruct (Z.ltb_spec s 65536); [by rewrite fold_ref_small by lia|].
  rewrite <- fold_ref_carry by lia. set (s1 := s / 65536 + s mod 65536).
  assert (0 <= s1 <= 131070) as H1 by (unfold s1; divmod). rewrite Hstep by lia.
  destruct (Z.ltb_spec s1 65536); [by rewrite fold_ref_small by lia|].
  rewrite <- fold_ref_carry by lia. set (s2 := s1 / 65536 + s1 mod 65536).
  assert (0 <= s2 < 65536) as H2 by (unfold s2; divmod). rewrite Hstep by lia.
  destruct (Z.ltb_spec s2 65536); [|lia]. by rewrite fold_ref_small by lia.
Qed.

(** ** One block *)

Lemma zget_cons0 (b : Z) bs : zget (b :: bs) 0 = Some b.
Proof. done. Qed.
Lemma zget_cons1 (a b : Z) bs : zget (a :: b :: bs) 1 = Some b.
Proof. done. Qed.

Lemma sum_words_ok fuel : forall mem len s, Forall is_byte (take (Z.to_nat len) mem) ->
  0 <= len <= zlen mem -> len < 65536 -> 0 <= s -> s + 65536 * len < 2 ^ 32 -> (Z.to_nat len < fuel)%nat ->
  sum_words fuel mem len s = Some (s + word_sum (take (Z.to_nat len) mem)).
Proof.
  induction fuel as [|fuel IH]; intros mem len s HB Hl Hl' Hs Hb Hf; [lia|]. cbn [sum_words].
  destruct (Z.ltb_spec 1 len).
  - destruct mem as [|a [|b mem]]; [change (zlen []) with 0 in Hl; lia|change (zlen [a]) with 1 in Hl; lia|].
    rewrite zget_cons0. mstep. rewrite zget_cons1. mstep. cbn [drop]. rewrite drop_0.
    replace (Z.to_nat len) with (S (S (Z.to_nat (len - 2)))) in * by lia. cbn [take] in *.
    apply Forall_cons in HB as [Ha HB]. apply Forall_cons in HB as [Hb' HB]. unfold is_byte in *.
    assert (zlen (a :: b :: mem) = zlen mem + 2) as El by (unfold zlen; simpl; lia).
    rewrite u16_small, u32_small by lia. rewrite IH by (try done; lia). cbn [word_sum]. f_equal. lia.
  - destruct (Z.ltb_spec 0 len).
    + assert (len = 1) as -> by lia. destruct mem as [|a mem]; [change (zlen []) with 0 in Hl; lia|].
      rewrite zget_cons0. mstep. change (Z.to_nat 1) with 1%nat in *. cbn [take word_sum] in *.
      apply Forall_cons in HB as [Ha HB]. unfold is_byte in Ha. by rewrite take_0, u32_small by lia.
    + assert (len = 0) as -> by lia. change (Z.to_nat 0) with 0%nat. rewrite take_0. cbn. f_equal. lia.
Qed.

Lemma land1_odd o : nz (Z.land o 1) = Z.odd o.
Proof.
  unfold nz. change 1 with (Z.ones 1) at 1. rewrite Z.land_ones by lia. rewrite Zmod_odd.
  by destruct (Z.odd o).
Qed.

Lemma checksum16_ok offset buf len pre : Forall is_byte (take (Z.to_nat len) buf) ->
  0 <= len <= zlen buf -> len < 32768 -> 0 <= pre < 2 ^ 31 -> (0 < len \/ Z.odd offset = false) ->
  checksum16 offset buf len pre false
  = Some (fold_ref (pre + word_sum_at (Z.odd offset) (take (Z.to_nat len) buf))).
Proof.
  intros HB Hl Hl' Hp H0. unfold checksum16. rewrite land1_odd.
  pose proof (word_sum_at_bound (Z.odd offset) _ HB) as Hw.
  assert (zlen (take (Z.to_nat len) buf) = len) as Hzl by (unfold zlen in *; rewrite length_take; lia).
  rewrite Hzl in Hw. destruct (Z.odd offset) eqn:Eo.
  - destruct H0 as [H0|]; [|done]. destruct buf as [|b buf]; [change (zlen []) with 0 in Hl; lia|].
    rewrite zget_cons0. mstep. cbn [drop]. rewrite drop_0, Z.shiftl_mul_pow2 by lia. change (2 ^ 8) with 256.
    replace (Z.to_nat len) with (S (Z.to_nat (len - 1))) in * by lia. cbn [take word_sum_at] in *.
    apply Forall_cons in HB as [Hb HB]. unfold is_byte in Hb.
    assert (zlen (b :: buf) = zlen buf + 1) as El by (unfold zlen; simpl; lia).
    rewrite u16_small, u32_small by lia. rewrite sum_words_ok by (try done; lia). mstep.
    rewrite fold_loop_ok by lia. mstep. rewrite u16_small by (pose proof (fold_ref_range (pre + b * 256 + word_sum (take (Z.to_nat (len - 1)) buf)) ltac:(lia)); lia).
    do 2 f_equal. lia.
  - mstep. rewrite sum_words_ok by (try done; lia). mstep. cbn [word_sum_at] in *.
    rewrite fold_loop_ok by lia. mstep. rewrite u16_small; [done|].
    pose proof (fold_ref_range (pre + word_sum (take (Z.to_nat len) buf)) ltac:(lia)). lia.
Qed.

(** ** The packet *)

Definition step_sum (c : list Z) (a : Z * Z) : list Z * (Z * Z) :=
  (c, (fold_ref (a.1 + word_sum_at (Z.odd a.2) c), u32 (a.2 + zlen c))).

Lemma odd_u32 x : Z.odd (u32 x) = Z.odd x.
Proof.
  unfold u32. rewrite <- !Z.bit0_odd. change 4294967296 with (2 ^ 32).
  by rewrite Z.mod_pow2_bits_low by lia.
Qed.

Lemma act_sum_ok : act_ok act_sum step_sum (fun _ a => 0 <= a.1 < 2 ^ 31) False is_byte.
Proof.
  intros pl off n rem [sum offset] Hl Ho Hn He Hi [Hpos|[]] HQ. unfold act_sum, step_sum.
  cbn [fst snd] in *. unfold PKTBUF_BLK_SIZE in *. rewrite u16_small by lia.
  rewrite checksum16_ok; [|done| |lia|done|by left].
  2: { unfold zlen in *. rewrite length_drop. lia. }
  mstep. fold (sub pl off n). rewrite zlen_sub, splice_same by lia.
  split; [done|]. split; [apply length_sub; lia|].
  pose proof (word_sum_at_bound (Z.odd offset) _ HQ).
  pose proof (fold_ref_range (sum + word_sum_at (Z.odd offset) (sub pl off n)) ltac:(lia)). lia.
Qed.

Lemma act_sum_pure pl off n a pl' a' : act_sum pl off n a = Some (pl', a') -> pl' = pl.
Proof. unfold act_sum. destruct a. intros (s & _ & [= <- _])%bind_Some. done. Qed.

Lemma u16_lnot x : 0 <= x <= 65535 -> u16 (Z.lnot x) = 65535 - x.
Proof. intros Hx. unfold u16, Z.lnot. divmod. Qed.

Lemma steps_sum cs : forall s o, cs <> [] -> 0 <= s -> Forall is_byte (concat cs) ->
  (steps step_sum cs (s, o)).2.1 = fold_ref (s + word_sum_at (Z.odd o) (concat cs)).
Proof.
  induction cs as [|c cs IH]; intros s o Hne Hs HB; [done|]. cbn [concat] in *.
  apply Forall_app in HB as [HB1 HB2]. cbn [steps]. unfold step_sum at 1. cbn [fst snd].
  pose proof (word_sum_at_bound (Z.odd o) c HB1). rewrite word_sum_at_app.
  destruct cs as [|c' cs].
  - cbn. destruct (xorb _ _); cbn; f_equal; lia.
  - specialize (IH (fold_ref (s + word_sum_at (Z.odd o) c)) (u32 (o + zlen c))).
    destruct (steps step_sum (c' :: cs) _) as [os a2]. cbn [fst snd] in *. rewrite IH; try done.
    + rewrite odd_u32, Z.odd_add.
      pose proof (word_sum_at_bound (xorb (Z.odd o) (Z.odd (zlen c))) _ HB2).
      rewrite fold_ref_add by lia. f_equal. lia.
    + by apply fold_ref_range; lia.
Qed.

(** C10: the packet checksum is the checksum of its bytes: for a packet
    without empty blocks whose next [size] bytes are bytes, and a running sum
    below 2^31, [pktbuf_checksum16] returns the 16-bit one's complement sum of
    these bytes, as if they lay in one piece, wherever the block boundaries
    fall; with [complement] it returns its complement. *)
Theorem pktbuf_checksum16_spec m buf others size pre_sum complement :
  buf_wf m buf others -> cursor m buf -> no_empty m (blk_list buf) ->
  0 < size <= total_blk_remain buf -> 0 <= pre_sum < 2 ^ 31 ->
  Forall is_byte (sub (contents m (blk_list buf)) (pos buf) size) ->
  exists buf', pktbuf_checksum16 m buf size pre_sum complement =
    Some (let c := fold_ref (pre_sum + word_sum (sub (contents m (blk_list buf)) (pos buf) size)) in
          if complement then 65535 - c else c, buf') /\
    moved m m buf buf' others (pos buf + size).
Proof.
  intros B C HZ Hs Hpre HB. unfold total_blk_remain in Hs.
  destruct (access_ok act_sum step_sum _ _ _ m buf others size (pre_sum, 0) act_sum_ok B C)
    as (m' & buf' & cs & E & E1 & E2 & E3 & M); [unfold total_blk_remain; lia|done|by right|done|].
  pose proof (blk_loop_pure _ _ act_sum_pure _ _ _ _ _ _ _ E) as ->.
  unfold pktbuf_checksum16, total_blk_remain. destruct (Z.ltb_spec (total_size buf - pos buf) size); [lia|].
  rewrite E. mstep. rewrite <- E1 in *. exists buf'. split; [|done].
  assert (cs <> []) as Hne.
  { intros ->. cbn in E3. change (zlen []) with 0 in E3. lia. }
  pose proof (steps_sum cs pre_sum 0 Hne ltac:(lia) HB) as Esum.
  destruct (steps step_sum cs (pre_sum, 0)).2 as [sum off]. cbn [fst snd] in *.
  rewrite Esum. pose proof (word_sum_at_bound false _ HB). cbn [word_sum_at Z.odd] in *.
  pose proof (fold_ref_range (pre_sum + word_sum (concat cs)) ltac:(lia)).
  do 2 f_equal. destruct complement; [by apply u16_lnot|by apply u16_small; lia].
Qed.

(** ** Sending and checking *)

Lemma fold_ref_complement x : 0 <= x -> fold_ref (x + (65535 - fold_ref x)) = 65535.
Proof.
  intros Hx. unfold fold_ref. destruct (Z.eqb_spec x 0) as [->|Hne]; [done|].
  pose proof (Z.mod_pos_bound (x - 1) 65535 ltac:(lia)).
  pose proof (Z_div_mod_eq_full (x - 1) 65535).
  assert (0 <= (x - 1) / 65535) by (apply Z.div_pos; lia).
  destruct (Z.eqb_spec (x + (65535 - ((x - 1) mod 65535 + 1))) 0); [lia|].
  replace (x + (65535 - ((x - 1) mod 65535 + 1)) - 1)
    with (65534 + (x - 1) / 65535 * 65535) by lia.
  by rewrite Z_mod_plus_full.
Qed.

Lemma word_sum_field a lo hi b : Z.odd (zlen a) = false ->
  word_sum (a ++ [lo; hi] ++ b) = word_sum (a ++ [0; 0] ++ b) + (lo + 256 * hi).
Proof.
  intros Ha. change word_sum with (word_sum_at false).
  rewrite !word_sum_at_app, Ha. cbn [xorb word_sum_at word_sum].
  change (Z.odd (zlen [lo; hi])) with false. change (Z.odd (zlen [0; 0])) with false.
  cbn [xorb]. lia.
Qed.

(** A packet checked after it was sealed passes: storing the complemented
    checksum of a byte string with a zeroed 16-bit field at an even offset
    into that field makes [checksum16] of the whole return zero. *)
Theorem checksum16_seal_check a b n : Forall is_byte (a ++ b) -> Z.odd (zlen a) = false ->
  n = zlen a + 2 + zlen b -> n < 32768 ->
  exists ck, checksum16 0 (a ++ [0; 0] ++ b) n 0 true = Some ck /\ 0 <= ck < 65536 /\
    checksum16 0 (a ++ [u8 ck; u8 (Z.shiftr ck 8)] ++ b) n 0 true = Some 0.
Proof.
  intros HB Ha Hn Hlt. apply Forall_app in HB as [HA HB'].
  pose proof (zlen_nonneg a). pose proof (zlen_nonneg b).
  assert (forall lo hi, is_byte lo -> is_byte hi ->
    checksum16 0 (a ++ [lo; hi] ++ b) n 0 true
    = Some (65535 - fold_ref (word_sum (a ++ [lo; hi] ++ b)))) as Hck.
  { intros lo hi Hlo Hhi. set (l := a ++ [lo; hi] ++ b).
    assert (zlen l = n) as El by (unfold l; rewrite !zlen_app; change (zlen [lo; hi]) with 2; lia).
    assert (take (Z.to_nat n) l = l) as Et by (apply take_ge; unfold zlen in El; lia).
    assert (Forall is_byte l) as HL by (unfold l; rewrite !Forall_app; split_and!; auto).
    pose proof (checksum16_ok 0 l n 0) as E. rewrite Et in E. specialize (E HL ltac:(lia) Hlt ltac:(lia) (or_intror eq_refl)).
    revert E. unfold checksum16. change (nz (Z.land 0 1)) with false. mstep.
    intros (s & E1 & (t & E2 & [= E3])%bind_Some)%bind_Some. rewrite E1. mstep. rewrite E2. mstep.
    pose proof (word_sum_at_bound false l HL). cbn [word_sum_at] in *.
    rewrite sum_words_ok, Et in E1 by (rewrite ?Et; done || lia). injection E1 as <-.
    rewrite fold_loop_ok in E2 by lia. injection E2 as <-. rewrite Z.add_0_l.
    f_equal. apply u16_lnot, fold_ref_range. lia. }
  set (x := word_sum (a ++ [0; 0] ++ b)).
  assert (0 <= x) as Hx.
  { unfold x. pose proof (word_sum_at_bound false (a ++ [0; 0] ++ b)) as Hw. cbn [word_sum_at] in Hw.
    apply Hw. rewrite !Forall_app. split_and!; [done|repeat constructor; unfold is_byte; lia|done]. }
  pose proof (fold_ref_range x Hx). exists (65535 - fold_ref x).
  split; [apply Hck; unfold is_byte; lia|]. split; [lia|].
  set (ck := 65535 - fold_ref x) in *.
  assert (u8 ck + 256 * u8 (Z.shiftr ck 8) = ck) as Esplit.
  { unfold u8. rewrite Z.shiftr_div_pow2 by lia. change (2 ^ 8) with 256. divmod. }
  rewrite Hck by apply u8_range. rewrite word_sum_field, Esplit by done. fold x.
  unfold ck. by rewrite fold_ref_complement.
Qed.

Lemma pktbuf_checksum16_spec_witness :
  exists buf', pktbuf_checksum16 pm0 pb0 25 0 true =
    Some (let c := fold_ref (0 + word_sum (sub (contents pm0 [1; 2]) 0 25)) in 65535 - c, buf') /\
    moved pm0 pm0 pb0 buf' [3] 25.
Proof.
  apply (pktbuf_checksum16_spec pm0 pb0 [3] 25 0 true pb0_wf pb0_cursor).
  - intros b x Hb. assert (b = 1 \/ b = 2) as [->| ->] by (cbn in Hb; set_solver);
      vm_compute; by intros [= <-].
  - vm_compute. by split.
  - lia.
  - unfold is_byte. apply (bool_decide_unpack _). vm_compute. exact I.
Defined.

Lemma checksum16_seal_check_witness :
  exists ck, checksum16 0 ([69; 0; 0; 84] ++ [0; 0] ++ [64; 1; 7]) 9 0 true = Some ck /\
    0 <= ck < 65536 /\
    checksum16 0 ([69; 0; 0; 84] ++ [u8 ck; u8 (Z.shiftr ck 8)] ++ [64; 1; 7]) 9 0 true = Some 0.
Proof.
  apply (checksum16_seal_check [69; 0; 0; 84] [64; 1; 7] 9); try reflexivity.
  repeat constructor; unfold is_byte; lia.
Defined.
