(* ===== verification/Layout.v ===== *)
(** * Packed structures in packets

    The protocol headers are packed C structures laid over the bytes of a
    packet's first block.  [Packed] is the interface such a structure gives:
    its size, its bytes on a little-endian machine, and the round trip.  The
    accessors [pkt_load_at] and [pkt_store_at] are the casts of
    [pktbuf_data(buf)] (kernel/net/pktbuf.h) the protocols use; the lemmas
    say what a store does to the bytes of a packet. *)

From S2P Require Import Prelude Pktbuf PktbufSpec.
From S2P Require Import Prelude.

(** Little-endian fields. *)
Definition le16 (v : Z) : list Z := [u8 v; u8 (Z.shiftr v 8)].
Definition of_le16 (b0 b1 : Z) : Z := b0 + 256 * b1.

Lemma of_le16_le16 v : 0 <= v < 65536 -> of_le16 (u8 v) (u8 (Z.shiftr v 8)) = v.
Proof.
  intros Hv. unfold of_le16, u8. rewrite Z.shiftr_div_pow2 by lia.
  change (2 ^ 8) with 256. divmod.
Qed.

(** A byte string of the given length. *)
Definition bytes_ok (n : Z) (l : list Z) : Prop :=
  zlen l = n /\ Forall (fun b => 0 <= b < 256) l.

Lemma bytes4 (l : list Z) : zlen l = 4 -> exists a b c d, l = [a; b; c; d].
Proof.
  unfold zlen. destruct l as [|a [|b [|c [|d [|e l]]]]]; cbn; intros; try lia. by exists a, b, c, d.
Qed.

Lemma bytes6 (l : list Z) : zlen l = 6 -> exists a b c d e f, l = [a; b; c; d; e; f].
Proof.
  unfold zlen. destruct l as [|a [|b [|c [|d [|e [|f [|g l]]]]]]]; cbn; intros; try lia.
  by exists a, b, c, d, e, f.
Qed.

Class Packed (A : Type) := {
  psize : Z;
  to_bytes : A -> list Z;
  of_bytes : list Z -> option A;
  packed_ok : A -> Prop;
  to_bytes_len : forall x, packed_ok x -> zlen (to_bytes x) = psize;
  of_to_bytes : forall x, packed_ok x -> of_bytes (to_bytes x) = Some x;
}.
#[global] Arguments psize A {_}.

(** [(A * )(pktbuf_data(buf) + off)], read and written as a whole. *)
Definition pkt_load_at (A : Type) `{Packed A} (m : pmem) (buf : pktbuf_t) (off : Z) : option A :=
  b ← head (blk_list buf);
  x ← blks m !! b;
  bytes ← mem_read (payload x) (data x + off) (psize A);
  of_bytes bytes.

Definition pkt_store_at {A : Type} `{Packed A} (m : pmem) (buf : pktbuf_t) (off : Z) (v : A)
    : option pmem :=
  b ← head (blk_list buf);
  x ← blks m !! b;
  pl ← mem_write (payload x) (data x + off) (to_bytes v);
  Some (set_blk m b (Blk (bsize x) (data x) pl)).

(** Some bytes of a structure. *)
Definition pkt_read (m : pmem) (buf : pktbuf_t) (off n : Z) : option (list Z) :=
  b ← head (blk_list buf);
  x ← blks m !! b;
  mem_read (payload x) (data x + off) n.

Definition pkt_write (m : pmem) (buf : pktbuf_t) (off : Z) (bytes : list Z) : option pmem :=
  b ← head (blk_list buf);
  x ← blks m !! b;
  pl ← mem_write (payload x) (data x + off) bytes;
  Some (set_blk m b (Blk (bsize x) (data x) pl)).

Section Store.
Context {A : Type} `{Packed A}.

Lemma pkt_load_ext (m m' : pmem) (buf : pktbuf_t) off : same_blks m m' (blk_list buf) ->
  pkt_load_at A m' buf off = pkt_load_at A m buf off.
Proof.
  intros Hs. unfold pkt_load_at. destruct (blk_list buf) as [|x l]; [done|].
  cbn [head hd_error mbind option_bind]. rewrite Hs; [done|set_solver].
Qed.

(** A store inside the first block overwrites these bytes of the packet and
    nothing else. *)
Lemma pkt_store_ok (m : pmem) (buf : pktbuf_t) others off (v : A) b rest x :
  buf_wf m buf others -> blk_list buf = b :: rest -> blks m !! b = Some x -> packed_ok v ->
  0 <= off -> off + psize A <= bsize x ->
  exists m', pkt_store_at m buf off v = Some m' /\ buf_wf m' buf others /\
    same_blks m m' (rest ++ others) /\ free m' = free m /\ free_bufs m' = free_bufs m /\
    (exists x', blks m' !! b = Some x' /\ data x' = data x /\ bsize x' = bsize x) /\
    contents m' (blk_list buf)
    = take (Z.to_nat off) (contents m (blk_list buf)) ++ to_bytes v
      ++ drop (Z.to_nat (off + psize A)) (contents m (blk_list buf)).
Proof.
  intros B E Hx Hv Ho Hfit. pose proof (to_bytes_len v Hv) as Hlen.
  assert (0 <= psize A) as Hps by (rewrite <- Hlen; apply zlen_nonneg).
  destruct (buf_first _ _ _ _ _ B E) as (y & Hy & Wx & Hr & Hoth & _ & Hc).
  rewrite Hx in Hy. injection Hy as <-. pose proof Wx as [W1 W2 W3 W4].
  unfold pkt_store_at. rewrite E. cbn [head hd_error mbind option_bind]. rewrite Hx. mstep.
  unfold mem_write. rewrite Hlen, W1.
  destruct (Z.leb_spec 0 (data x + off)); [|lia].
  destruct (Z.leb_spec (data x + off + psize A) PKTBUF_BLK_SIZE); [|lia]. cbn [andb]. mstep.
  set (x' := Blk (bsize x) (data x) (splice (payload x) (data x + off) (to_bytes v))).
  assert (blk_bytes x' = take (Z.to_nat off) (blk_bytes x) ++ to_bytes v
    ++ drop (Z.to_nat (off + psize A)) (blk_bytes x)) as Hb.
  { unfold blk_bytes, x'. cbn [payload data bsize]. rewrite sub_splice by lia.
    rewrite take_sub, drop_sub by lia. rewrite Hlen. f_equal; [f_equal; lia|].
    do 2 f_equal; lia. }
  assert (blk_wf x') as Wx'.
  { split; cbn; try lia. rewrite zlen_splice; lia. }
  assert (zlen (blk_bytes x') = zlen (blk_bytes x) + 0) as Hl by (rewrite !zlen_bytes by done; cbn; lia).
  destruct (buf_wf_first _ _ _ _ _ _ x' 0 B E Hx Wx' Hl) as (B' & Hc' & Hs').
  exists (set_blk m b x'). split; [done|].
  replace (with_total buf (total_size buf + 0)) with buf in *
    by (destruct buf; unfold with_total; cbn; f_equal; lia).
  split; [done|]. split; [|split; [done|split; [done|split]]].
  - intros c Hin. apply elem_of_app in Hin as [Hin|Hin]; [|by apply Hs'].
    cbn. apply lookup_insert_ne. by intros ->.
  - exists x'. cbn. by rewrite lookup_insert_eq.
  - rewrite <- E, Hc', Hc, Hb. pose proof (zlen_bytes x Wx) as Hbl. unfold zlen in Hbl.
    rewrite take_app_le, drop_app_le by lia. by rewrite <- !app_assoc.
Qed.

(** A load inside the first block decodes the bytes of the packet. *)
Lemma pkt_load_ok (m : pmem) (buf : pktbuf_t) others off b rest x :
  buf_wf m buf others -> blk_list buf = b :: rest -> blks m !! b = Some x ->
  0 <= off -> 0 <= psize A -> off + psize A <= bsize x ->
  pkt_load_at A m buf off = of_bytes (sub (contents m (blk_list buf)) off (psize A)).
Proof.
  intros B E Hx Ho Hps Hfit. destruct (buf_first _ _ _ _ _ B E) as (y & Hy & Wx & _ & _ & _ & Hc).
  rewrite Hx in Hy. injection Hy as <-. pose proof Wx as [W1 W2 W3 W4].
  unfold pkt_load_at. rewrite E. cbn [head hd_error mbind option_bind]. rewrite Hx. mstep.
  unfold mem_read. rewrite W1.
  destruct (Z.leb_spec 0 (data x + off)), (Z.leb_spec 0 (psize A)),
    (Z.leb_spec (data x + off + psize A) PKTBUF_BLK_SIZE); try lia. cbn [andb]. mstep.
  f_equal. rewrite <- E, Hc. pose proof (zlen_bytes x Wx) as Hl. unfold zlen in Hl.
  unfold sub at 2. rewrite drop_app_le by lia. rewrite take_app_le by (rewrite length_drop; lia).
  unfold blk_bytes. rewrite drop_sub by lia. by rewrite take_sub by lia.
Qed.

End Store.
