(* ===== verification/Paging.v ===== *)
(** * Physical and virtual memory: kernel/memory/paging.c, common/cpu/mem_page.c

    Definitions.  The state [mm] holds the three global allocators, the
    [vir_addr_alloc]s of the tasks (by the address of their bits, which tasks
    that are threads of one process share), the
    words of memory (by byte address; the kernel reads and writes page
    directories and tables at their physical address), the global scratch
    array [paddrs] that [malloc_mem] shares with the allocations nested in it,
    and CR3.  Pointers to an allocator are the references [phy_ref] and
    [vir_ref].  [None] is an access outside memory or a division by zero. *)

From S2P Require Import Prelude Bitmap CMath.
From S2P Require Import Prelude.

Definition KB (x : Z) : Z := 1024 * x.
Definition MB (x : Z) : Z := 1024 * KB x.
Definition GB (x : Z) : Z := 1024 * MB x.
Definition MEM_PAGE_SIZE : Z := KB 4.
Definition MALLOC_MAX_PAGE : Z := 1024.
Definition PDE_CNT : Z := 1024.
Definition PTE_CNT : Z := 1024.
Definition PTE_P : Z := Z.shiftl 1 0.
Definition PTE_W : Z := Z.shiftl 1 1.
Definition PTE_U : Z := Z.shiftl 1 2.
Definition PTE_S : Z := Z.shiftl 0 2.
Definition PDE_P : Z := Z.shiftl 1 0.
Definition PDE_W : Z := Z.shiftl 1 1.
Definition PDE_U : Z := Z.shiftl 1 2.
Definition PDE_PS : Z := Z.shiftl 1 7.
Definition MEM_EXT_START : Z := MB 3.
Definition EBDA_START : Z := 524288.
Definition KERNEL_MEM_SIZE_RATE : Z := 4.
(** [(uint32_t)-1] *)
Definition ERR : Z := 4294967295.

(** ** common/cpu/mmu.h *)

Definition pde_index (addr : Z) : Z := Z.shiftr addr 22.
Definition pte_index (addr : Z) : Z := Z.land (Z.shiftr addr 12) 1023.
(** The bit-fields [present] and [phy_pt_addr] / [phy_page_addr] of an entry. *)
Definition present (v : Z) : bool := Z.testbit v 0.
Definition phy_page_addr (v : Z) : Z := Z.shiftr v 12.
Definition pe_phy_addr (phy_page_value : Z) : Z := u32 (Z.shiftl phy_page_value 12).
Definition phy_addr (page_base vaddr : Z) : Z := u32 (page_base + Z.land 1023 vaddr).

(** ** State *)

Record addr_alloc_t := AddrAlloc {
  start : Z; page_size : Z; bits_addr : Z; bitmap : bitmap_t }.

Inductive phy_ref := KernelPhy | UserPhy.
Inductive vir_ref := KernelVir | TaskVir (bits : Z).
#[export] Instance phy_ref_eq_dec : EqDecision phy_ref.
Proof. solve_decision. Defined.
#[export] Instance vir_ref_eq_dec : EqDecision vir_ref.
Proof. solve_decision. Defined.

Record mm := MM {
  kernel_phy_addr_alloc : addr_alloc_t;
  kernel_vir_addr_alloc : addr_alloc_t;
  user_phy_addr_alloc : addr_alloc_t;
  task_vir : gmap Z addr_alloc_t;
  words : gmap Z Z;
  paddrs : list Z;
  kernel_all_memory : Z;
  user_all_memory : Z;
  kernel_page_dir : Z;
  page_position : Z;
  cr3 : Z }.

Definition with_kphy (s : mm) a := MM a (kernel_vir_addr_alloc s) (user_phy_addr_alloc s)
  (task_vir s) (words s) (paddrs s) (kernel_all_memory s) (user_all_memory s)
  (kernel_page_dir s) (page_position s) (cr3 s).
Definition with_kvir (s : mm) a := MM (kernel_phy_addr_alloc s) a (user_phy_addr_alloc s)
  (task_vir s) (words s) (paddrs s) (kernel_all_memory s) (user_all_memory s)
  (kernel_page_dir s) (page_position s) (cr3 s).
Definition with_uphy (s : mm) a := MM (kernel_phy_addr_alloc s) (kernel_vir_addr_alloc s) a
  (task_vir s) (words s) (paddrs s) (kernel_all_memory s) (user_all_memory s)
  (kernel_page_dir s) (page_position s) (cr3 s).
Definition with_tvir (s : mm) t := MM (kernel_phy_addr_alloc s) (kernel_vir_addr_alloc s)
  (user_phy_addr_alloc s) t (words s) (paddrs s) (kernel_all_memory s) (user_all_memory s)
  (kernel_page_dir s) (page_position s) (cr3 s).
Definition with_words (s : mm) w := MM (kernel_phy_addr_alloc s) (kernel_vir_addr_alloc s)
  (user_phy_addr_alloc s) (task_vir s) w (paddrs s) (kernel_all_memory s) (user_all_memory s)
  (kernel_page_dir s) (page_position s) (cr3 s).
Definition with_paddrs (s : mm) p := MM (kernel_phy_addr_alloc s) (kernel_vir_addr_alloc s)
  (user_phy_addr_alloc s) (task_vir s) (words s) p (kernel_all_memory s) (user_all_memory s)
  (kernel_page_dir s) (page_position s) (cr3 s).
Definition with_sizes (s : mm) k u := MM (kernel_phy_addr_alloc s) (kernel_vir_addr_alloc s)
  (user_phy_addr_alloc s) (task_vir s) (words s) (paddrs s) k u
  (kernel_page_dir s) (page_position s) (cr3 s).
Definition with_position (s : mm) p := MM (kernel_phy_addr_alloc s) (kernel_vir_addr_alloc s)
  (user_phy_addr_alloc s) (task_vir s) (words s) (paddrs s) (kernel_all_memory s)
  (user_all_memory s) (kernel_page_dir s) p (cr3 s).
Definition set_page_dir (s : mm) (page_dir : Z) := MM (kernel_phy_addr_alloc s)
  (kernel_vir_addr_alloc s) (user_phy_addr_alloc s) (task_vir s) (words s) (paddrs s)
  (kernel_all_memory s) (user_all_memory s) (kernel_page_dir s) (page_position s) page_dir.
Definition read_page_dir (s : mm) : Z := cr3 s.
Definition current_page_dir (s : mm) : Z := read_page_dir s.

Definition phy_get (s : mm) (r : phy_ref) : addr_alloc_t :=
  match r with KernelPhy => kernel_phy_addr_alloc s | UserPhy => user_phy_addr_alloc s end.
Definition phy_put (s : mm) (r : phy_ref) (a : addr_alloc_t) : mm :=
  match r with KernelPhy => with_kphy s a | UserPhy => with_uphy s a end.
Definition vir_get (s : mm) (r : vir_ref) : option addr_alloc_t :=
  match r with KernelVir => Some (kernel_vir_addr_alloc s) | TaskVir t => task_vir s !! t end.
Definition vir_put (s : mm) (r : vir_ref) (a : addr_alloc_t) : mm :=
  match r with KernelVir => with_kvir s a | TaskVir t => with_tvir s (<[t := a]> (task_vir s)) end.

(** ** Memory words *)

Definition store (w : gmap Z Z) (a v : Z) : option (gmap Z Z) :=
  match w !! a with Some _ => Some (<[a := v]> w) | None => None end.

(** [memset((void * )addr, 0, MEM_PAGE_SIZE)], word by word. *)
Definition clear_page (w : gmap Z Z) (addr : Z) : option (gmap Z Z) :=
  for_ 1024 0 (fun i w => store w (addr + 4 * i) 0) w.

Definition store_word (s : mm) (a v : Z) : option mm :=
  w ← store (words s) a v; Some (with_words s w).

(** The byte at [a], little-endian. *)
Definition load_byte (w : gmap Z Z) (a : Z) : option Z :=
  v ← w !! (a - a mod 4); Some (u8 (Z.shiftr v (8 * (a mod 4)))).

Fixpoint load_bytes (w : gmap Z Z) (a : Z) (n : nat) : option (list Z) :=
  match n with
  | O => Some []
  | S n' => b ← load_byte w a; l ← load_bytes w (a + 1) n'; Some (b :: l)
  end.

(** ** Address allocators *)

(** [readable] is the memory [bits] points to. *)
Definition init_addr_alloc (bits_at : Z) (readable : list Z) (start size page_size : Z)
    : option addr_alloc_t :=
  if page_size =? 0 then None
  else
    let bit_size := size / page_size in
    b ← bitmap_init (Bitmap (u32 (bit_size + 7) / 8) readable);
    Some (AddrAlloc start page_size bits_at b).

Definition get_phy_addr_alloc (s : mm) (paddr : Z) : phy_ref :=
  if paddr <? start (user_phy_addr_alloc s) then KernelPhy else UserPhy.

Definition alloc_mem_use (a : addr_alloc_t) (addr page_count use : Z) : option addr_alloc_t :=
  if page_size a =? 0 then None
  else
    let bit_idx := i32 (u32 (addr - start a) / page_size a) in
    b ← for_ (Z.to_nat page_count) 0 (fun i b => bitmap_set b (u32 (bit_idx + i)) use) (bitmap a);
    Some (AddrAlloc (start a) (page_size a) (bits_addr a) b).

Definition free_phy_mem (s : mm) (paddr page_count : Z) : option (mm * Z) :=
  let r := get_phy_addr_alloc s paddr in
  a ← alloc_mem_use (phy_get s r) paddr page_count 0;
  Some (phy_put s r a, 0).

Definition free_vir_mem (s : mm) (r : vir_ref) (vaddr page_count : Z) : option (mm * Z) :=
  a ← vir_get s r;
  a ← alloc_mem_use a vaddr page_count 0;
  Some (vir_put s r a, 0).

Definition alloc_phy_mem (s : mm) (r : phy_ref) (page_count : Z) : option (mm * Z) :=
  let a := phy_get s r in
  bit_idx ← bitmap_scan (bitmap a) (u32 page_count);
  if bit_idx <? 0 then Some (s, ERR)
  else
    let addr := u32 (start a + bit_idx * page_size a) in
    a ← alloc_mem_use a addr page_count 1;
    Some (phy_put s r a, addr).

Definition alloc_vir_mem (s : mm) (r : vir_ref) (page_count : Z) : option (mm * Z) :=
  a ← vir_get s r;
  bit_idx ← bitmap_scan (bitmap a) (u32 page_count);
  if bit_idx <? 0 then Some (s, ERR)
  else
    let addr := u32 (start a + bit_idx * page_size a) in
    a ← alloc_mem_use a addr page_count 1;
    Some (vir_put s r a, addr).

(** [for (j = 0; j < i; j++) free_phy_mem(paddrs[j], 1)] *)
Definition free_paddrs (s : mm) (i : Z) : option mm :=
  for_ (Z.to_nat i) 0 (fun j s => p ← zget (paddrs s) j; '(s, _) ← free_phy_mem s p 1; Some s) s.

(** One iteration of the loops that allocate page by page into [paddrs]; [undo]
    is the clean-up of the loop. *)
Definition alloc_page_step (r : phy_ref) (undo : Z -> mm -> option mm) (i : Z) (s : mm)
    : option (mm * option Z) :=
  '(s, paddr) ← alloc_phy_mem s r 1;
  if paddr <? 0 then s ← undo i s; Some (s, Some (-1))
  else ps ← zset (paddrs s) i paddr; Some (with_paddrs s ps, None).

Definition alloc_phy_mem_page (s : mm) (r : phy_ref) (page_count : Z) : option (mm * Z) :=
  if MALLOC_MAX_PAGE <? page_count then Some (s, -1)
  else
    '(s, ret) ← for_ret (Z.to_nat page_count) 0
                  (alloc_page_step r (fun i s => free_paddrs s i)) s;
    Some (s, default 0 ret).

(** The physical allocator that serves a virtual one: the kernel's when the
    two bitmaps share their bits. *)
Definition phy_for (s : mm) (a : addr_alloc_t) : phy_ref :=
  if bits_addr a =? bits_addr (kernel_vir_addr_alloc s) then KernelPhy else UserPhy.

(** Returns the error code and [*vaddr]; the physical pages are in [paddrs]. *)
Definition alloc_mem_page (s : mm) (v : vir_ref) (page_count : Z) : option (mm * Z * Z) :=
  a ← vir_get s v;
  let r := phy_for s a in
  '(s, vaddr_start) ← alloc_vir_mem s v page_count;
  if vaddr_start <? 0 then Some (s, -1, 0)
  else
    '(s, ret) ← for_ret (Z.to_nat page_count) 0
      (alloc_page_step r (fun i s =>
         '(s, _) ← free_vir_mem s v vaddr_start page_count; free_paddrs s i)) s;
    Some (s, default 0 ret, vaddr_start).

(** [malloc_mem(kernel_page_dir, &kernel_vir_addr_alloc, page_count)]: the
    kernel's memory needs no mapping. *)
Definition alloc_kernel_mem (s : mm) (page_count : Z) : option (mm * Z) :=
  if MALLOC_MAX_PAGE <? page_count then Some (s, ERR)
  else
    '(s, err, vaddr) ← alloc_mem_page s KernelVir page_count;
    if nz err then Some (s, ERR) else Some (s, vaddr).

(** ** Page tables *)

Definition get_pde (page_dir vaddr : Z) : Z :=
  if page_dir =? 0 then 0 else u32 (page_dir + 4 * pde_index vaddr).

Definition get_pte (s : mm) (page_dir vaddr : Z) : option Z :=
  let pde := get_pde page_dir vaddr in
  if pde =? 0 then Some 0
  else
    e ← words s !! pde;
    if negb (present e) then Some 0
    else
      let pte := pe_phy_addr (phy_page_addr e) in
      if pte =? 0 then Some 0 else Some (u32 (pte + 4 * pte_index vaddr)).

(** The physical address and [*have]. *)
Definition vaddr2paddr (s : mm) (page_dir vaddr : Z) : option (Z * bool) :=
  pte ← get_pte s page_dir vaddr;
  if pte =? 0 then Some (ERR, false)
  else
    e ← words s !! pte;
    if negb (present e) then Some (ERR, false)
    else Some (phy_addr (pe_phy_addr (phy_page_addr e)) vaddr, true).

Definition find_pte_alloc (s : mm) (page_dir vaddr : Z) (alloc : bool) : option (mm * Z) :=
  let pde := u32 (page_dir + 4 * pde_index vaddr) in
  e ← words s !! pde;
  if present e then
    Some (s, u32 (pe_phy_addr (phy_page_addr e) + 4 * pte_index vaddr))
  else if negb alloc then Some (s, 0)
  else
    '(s, addr) ← alloc_kernel_mem s 1;
    if addr <? 0 then Some (s, 0)
    else
      s ← store_word s pde (Z.lor (Z.lor (Z.lor addr PDE_P) PDE_W) PDE_U);
      w ← clear_page (words s) addr;
      Some (with_words s w, u32 (addr + 4 * pte_index vaddr)).

(** One iteration of [create_mem_map]. *)
Definition map_page (page_dir perm : Z) (_ : Z) (st : mm * Z * Z)
    : option (mm * Z * Z * option Z) :=
  let '(s, vaddr, paddr) := st in
  '(s, pte) ← find_pte_alloc s page_dir vaddr true;
  if pte =? 0 then Some (s, vaddr, paddr, Some (-1))
  else
    e ← words s !! pte;
    if present e then Some (s, vaddr, paddr, Some (-1))
    else
      s ← store_word s pte (Z.lor (Z.lor paddr perm) PTE_P);
      Some (s, u32 (vaddr + MEM_PAGE_SIZE), u32 (paddr + MEM_PAGE_SIZE), None).

Definition create_mem_map (s : mm) (page_dir vaddr paddr page_count perm : Z)
    : option (mm * Z) :=
  '(s, _, _, ret) ← for_ret (Z.to_nat page_count) 0 (map_page page_dir perm) (s, vaddr, paddr);
  Some (s, default 0 ret).

(** No value is returned when the 4 MB entries are written: the result is then
    [None] inside [Some]. *)
Definition create_big_mem_map (s : mm) (page_dir vaddr size paddr perm : Z)
    : option (mm * option Z) :=
  let offset_n4m := vaddr mod MB 4 in
  '(s, err) ← (if 0 <? offset_n4m
               then create_mem_map s page_dir vaddr paddr ((MB 4 - offset_n4m) / MEM_PAGE_SIZE) perm
               else Some (s, 0));
  if nz err then Some (s, Some err)
  else
    let handle_size := if 0 <? offset_n4m then MB 4 - offset_n4m else 0 in
    let vaddr := u32 (vaddr + handle_size) in
    let paddr := u32 (paddr + handle_size) in
    let size := u32 (size - handle_size) in
    '(s, _, _) ← for_ (Z.to_nat (up2 size (MB 4) / MB 4)) 0 (fun _ '(s, vaddr, paddr) =>
      s ← store_word s (u32 (page_dir + 4 * pde_index vaddr))
            (Z.lor (Z.lor (Z.lor paddr PDE_P) PDE_PS) perm);
      Some (s, u32 (vaddr + MB 4), u32 (paddr + MB 4))) (s, vaddr, paddr);
    Some (s, None).

(** ** Set-up *)

(** The linker's symbols. *)
Record symbols := Symbols {
  mem_free_start : Z; kernel_base : Z; s_text : Z; e_text : Z; s_data : Z }.

Record mem_map := MemMap { vstart : Z; vend : Z; pstart : Z; perm : Z }.

(** The part of the bytes at [mem_free] an allocator can read: its bitmap and
    the byte after it. *)
Definition carve (free : list Z) (off len : Z) : list Z :=
  take (S (Z.to_nat len)) (drop (Z.to_nat off) free).

Definition map_region (s : mm) (kernel_vstart kernel_vend : Z) (kmap : mem_map) : option mm :=
  if (kernel_vstart <=? vstart kmap) && (vend kmap <=? kernel_vend) then
    '(s, _) ← create_big_mem_map s (kernel_page_dir s) (vstart kmap)
                (u32 (vend kmap - vstart kmap + 1)) (pstart kmap) (perm kmap);
    Some s
  else
    let vs := down2 (vstart kmap) MEM_PAGE_SIZE in
    let ve := up2 (vend kmap) MEM_PAGE_SIZE in
    let p_count := i32 (u32 (ve - vs) / MEM_PAGE_SIZE) in
    if 0 <? p_count then
      '(s, _) ← create_mem_map s (kernel_page_dir s) vs (pstart kmap) p_count (perm kmap);
      Some s
    else Some s.

Fixpoint map_regions (s : mm) (kernel_vstart kernel_vend : Z) (kernel_map : list mem_map)
    : option mm :=
  match kernel_map with
  | [] => Some s
  | kmap :: rest => s ← map_region s kernel_vstart kernel_vend kmap;
                    map_regions s kernel_vstart kernel_vend rest
  end.

(** [mem_free] holds the bytes from [mem_free_start] on. *)
Definition init_paging (s : mm) (l : symbols) (mem_free : list Z) (all_mem : Z) : option mm :=
  let k := all_mem / KERNEL_MEM_SIZE_RATE in
  let k := if GB 1 <? k then GB 1 else k in
  let u := all_mem - k in
  let s := with_sizes s k u in
  let mem_up1m_free := down2 (u32 (k - MEM_EXT_START)) MEM_PAGE_SIZE in
  let len1 := u32 (mem_up1m_free / MEM_PAGE_SIZE + 7) / 8 in
  kp ← init_addr_alloc (mem_free_start l) (carve mem_free 0 len1)
         MEM_EXT_START mem_up1m_free MEM_PAGE_SIZE;
  kv ← init_addr_alloc (u32 (mem_free_start l + bytes_len (bitmap kp)))
         (carve mem_free (bytes_len (bitmap kp)) len1)
         MEM_EXT_START mem_up1m_free MEM_PAGE_SIZE;
  let off := bytes_len (bitmap kp) + bytes_len (bitmap kv) in
  up ← init_addr_alloc (u32 (mem_free_start l + off))
         (carve mem_free off (u32 (u32 u / MEM_PAGE_SIZE + 7) / 8))
         (u32 k) (u32 u) MEM_PAGE_SIZE;
  let s := with_uphy (with_kvir (with_kphy s kp) kv) up in
  let kernel_vstart := MEM_EXT_START in
  let kernel_vend := u32 (k - 1) in
  w ← clear_page (words s) (kernel_page_dir s);
  s ← map_regions (with_words s w) kernel_vstart kernel_vend
    [ MemMap (kernel_base l) (s_text l) 0 (Z.lor PTE_U PTE_W);
      MemMap (s_text l) (e_text l) (s_text l) (Z.lor PTE_S PTE_W);
      MemMap (s_data l) (EBDA_START - 1) (s_data l) (Z.lor PTE_S PTE_W);
      MemMap EBDA_START (kernel_vstart - 1) EBDA_START (Z.lor PTE_S PTE_W);
      MemMap kernel_vstart kernel_vend MEM_EXT_START (Z.lor PTE_S PTE_W) ];
  Some (set_page_dir s (kernel_page_dir s)).

(** ** Address spaces *)

Definition create_uvm (s : mm) : option (mm * Z) :=
  '(s, addr) ← alloc_kernel_mem s 1;
  if addr <? 0 then Some (s, 0)
  else
    w ← clear_page (words s) addr;
    let s := with_words s w in
    let top := pde_index (kernel_all_memory s) - 1 in
    s ← for_ (Z.to_nat (top + 1)) 0 (fun k s =>
      let i := top - k in
      e ← words s !! (kernel_page_dir s + 4 * i);
      if present e then store_word s (addr + 4 * i) e else Some s) s;
    Some (s, addr).

(** [pde += i] and [pte += i] move the pointers they advance: both loops
    carry the pointer. *)
Definition destroy_uvm (s : mm) (page_dir : Z) : option mm :=
  let user_pde_start := pde_index (kernel_all_memory s) in
  '(s, _) ← for_ (Z.to_nat (PDE_CNT - user_pde_start)) user_pde_start (fun i '(s, pde) =>
    let pde := u32 (pde + 4 * i) in
    e ← words s !! pde;
    if negb (present e) then Some (s, pde)
    else
      let pte := pe_phy_addr (phy_page_addr e) in
      if pte =? 0 then Some (s, pde)
      else
        '(s, _) ← for_ (Z.to_nat PTE_CNT) 0 (fun j '(s, pte) =>
          let pte := u32 (pte + 4 * j) in
          p ← words s !! pte;
          if negb (present p) then Some (s, pte)
          else '(s, _) ← free_phy_mem s (pe_phy_addr (phy_page_addr p)) 1; Some (s, pte))
          (s, pte);
        e ← words s !! pde;
        '(s, _) ← free_phy_mem s (pe_phy_addr (phy_page_addr e)) 1;
        Some (s, pde)) (s, page_dir);
  '(s, _) ← free_phy_mem s page_dir 1;
  Some s.

Definition alloc_vm_for_page_dir (s : mm) (page_dir vstart size perm : Z) : option (mm * Z) :=
  let page_count := up2 size MEM_PAGE_SIZE / MEM_PAGE_SIZE in
  let r := if page_dir =? kernel_page_dir s then KernelPhy else UserPhy in
  '(s, _, ret) ← for_ret (Z.to_nat page_count) 0 (fun _ '(s, vstart) =>
    '(s, paddr) ← alloc_phy_mem s r 1;
    if paddr =? 0 then Some (s, vstart, Some (-1))
    else
      '(s, err) ← create_mem_map s page_dir vstart paddr 1 perm;
      if nz err then '(s, _) ← free_phy_mem s paddr 1; Some (s, vstart, Some err)
      else Some (s, u32 (vstart + MEM_PAGE_SIZE), None)) (s, vstart);
  Some (s, default 0 ret).

Definition free_vm_for_page_dir (s : mm) (page_dir vstart size : Z) : option (mm * Z) :=
  let page_count := up2 size MEM_PAGE_SIZE / MEM_PAGE_SIZE in
  '(s, _, ret) ← for_ret (Z.to_nat page_count) 0 (fun _ '(s, vstart) =>
    '(paddr, have) ← vaddr2paddr s page_dir vstart;
    if negb have then Some (s, vstart, Some (-1))
    else
      '(s, err) ← free_phy_mem s paddr 1;
      if negb (nz err) then Some (s, vstart, Some err)
      else
        pte ← get_pte s page_dir vstart;
        e ← (if pte =? 0 then Some 0 else words s !! pte);
        if (pte =? 0) || negb (present e) then Some (s, vstart, None)
        else
          s ← store_word s pte 0;
          Some (s, u32 (vstart + MEM_PAGE_SIZE), None)) (s, vstart);
  Some (s, default 0 ret).

(** ** common/cpu/mem_page.c: entries of a directory *)

Definition mock_alloc_phy_mem (s : mm) (page_count : Z) : mm * Z :=
  let p := u32 (page_position s + MEM_PAGE_SIZE) in (with_position s p, p).

Definition find_pte (s : mm) (page_dir vaddr : Z) (alloc : bool) : option (mm * Z) :=
  let pde := u32 (page_dir + 4 * pde_index vaddr) in
  e ← words s !! pde;
  if present e then
    Some (s, u32 (pe_phy_addr (phy_page_addr e) + 4 * pte_index vaddr))
  else if negb alloc then Some (s, 0)
  else
    let '(s, addr) := mock_alloc_phy_mem s 1 in
    if addr =? 0 then Some (s, 0)
    else
      s ← store_word s pde (Z.lor (Z.lor (Z.lor addr PTE_P) PTE_W) PTE_U);
      w ← clear_page (words s) addr;
      Some (with_words s w, u32 (addr + 4 * pte_index vaddr)).

Definition mem_create_map (s : mm) (page_dir vaddr paddr count perm : Z) : option (mm * Z) :=
  '(s, _, _, ret) ← for_ret (Z.to_nat count) 0 (fun _ '(s, vaddr, paddr) =>
    '(s, pte) ← find_pte s page_dir vaddr true;
    if pte =? 0 then Some (s, vaddr, paddr, Some (-1))
    else
      e ← words s !! pte;
      if present e then Some (s, vaddr, paddr, Some (-1))
      else
        s ← store_word s pte (Z.lor (Z.lor paddr perm) PTE_P);
        Some (s, u32 (vaddr + MEM_PAGE_SIZE), u32 (paddr + MEM_PAGE_SIZE), None))
    (s, vaddr, paddr);
  Some (s, default 0 ret).

(** The error code and [*paddr], when it is stored and [paddr] is not NULL. *)
Definition get_phy_addr (s : mm) (vaddr : Z) (alloc : bool) : option (mm * Z * option Z) :=
  let page_dir := cr3 s in
  '(s, pte) ← find_pte s page_dir vaddr true;
  if pte =? 0 then Some (s, -1, None)
  else
    e ← words s !! pte;
    if negb (present e) && negb alloc then Some (s, -1, None)
    else
      let '(s, addr) := if present e then (s, 0) else mock_alloc_phy_mem s 1 in
      if negb (present e) && (addr =? 0) then Some (s, -1, None)
      else
        '(s, _) ← (if present e then Some (s, 0)
                   else mem_create_map s page_dir vaddr addr 1 (Z.lor PTE_W PTE_U));
        e ← words s !! pte;
        Some (s, 0, Some (pe_phy_addr (phy_page_addr e))).

(** ** Mapping *)

(** [unmap_mem] has no return statement. *)
Definition unmap_mem (s : mm) (page_dir vaddr page_count : Z) : option mm :=
  '(s, _) ← for_ (Z.to_nat page_count) 0 (fun _ '(s, vaddr) =>
    '(s, pte) ← find_pte s page_dir vaddr false;
    if pte =? 0 then Some (s, u32 (vaddr + MEM_PAGE_SIZE))
    else
      e ← words s !! pte;
      s ← store_word s pte (Z.clearbit e 0);
      Some (s, u32 (vaddr + MEM_PAGE_SIZE))) (s, down2 vaddr MEM_PAGE_SIZE);
  Some s.

Definition map_mem (s : mm) (page_dir vaddr paddr page_count : Z) (override : bool)
    : option (mm * Z) :=
  let vaddr := down2 vaddr MEM_PAGE_SIZE in
  let ret_vaddr := vaddr in
  let paddr := down2 paddr MEM_PAGE_SIZE in
  '(s, _, _, ret) ← for_ret (Z.to_nat page_count) 0 (fun _ '(s, vaddr, paddr) =>
    '(_, have) ← vaddr2paddr s page_dir vaddr;
    if have && negb override then Some (s, vaddr, paddr, Some ERR)
    else
      let permit := Z.lor PTE_W (if page_dir =? kernel_page_dir s then PTE_S else PTE_U) in
      '(s, err) ← create_mem_map s page_dir vaddr paddr 1 permit;
      if nz err then Some (s, vaddr, paddr, Some ERR)
      else Some (s, u32 (vaddr + MEM_PAGE_SIZE), u32 (paddr + MEM_PAGE_SIZE), None))
    (s, vaddr, paddr);
  Some (s, default ret_vaddr ret).

(** One iteration of [map_mem_page]; the page is read from [paddrs] then. *)
Definition map_paddr_step (page_dir ret_vaddr : Z) (override : bool) (i : Z) (st : mm * Z)
    : option (mm * Z * option Z) :=
  let '(s, vaddr) := st in
  p ← zget (paddrs s) i;
  '(s, addr) ← map_mem s page_dir vaddr p 1 override;
  if addr <? 0 then
    s ← for_ (Z.to_nat i) 0 (fun j s =>
          unmap_mem s page_dir (u32 (ret_vaddr + j * MEM_PAGE_SIZE)) 1) s;
    Some (s, vaddr, Some ERR)
  else Some (s, u32 (vaddr + MEM_PAGE_SIZE), None).

Definition map_mem_page (s : mm) (page_dir vaddr page_count : Z) (override : bool)
    : option (mm * Z) :=
  if MALLOC_MAX_PAGE <? page_count then Some (s, ERR)
  else
    let vaddr := down2 vaddr MEM_PAGE_SIZE in
    let ret_vaddr := vaddr in
    '(s, _, ret) ← for_ret (Z.to_nat page_count) 0
                     (map_paddr_step page_dir ret_vaddr override) (s, vaddr);
    Some (s, default ret_vaddr ret).

Definition malloc_mem (s : mm) (page_dir : Z) (v : vir_ref) (page_count : Z)
    : option (mm * Z) :=
  if MALLOC_MAX_PAGE <? page_count then Some (s, ERR)
  else
    '(s, err, vaddr) ← alloc_mem_page s v page_count;
    if nz err then Some (s, ERR)
    else if bool_decide (v <> KernelVir) then map_mem_page s page_dir vaddr page_count true
    else Some (s, vaddr).

Definition malloc_mem_vaddr (s : mm) (page_dir : Z) (v : vir_ref) (vaddr page_count : Z)
    : option (mm * Z) :=
  let vaddr := down2 vaddr MEM_PAGE_SIZE in
  a ← vir_get s v;
  let r := phy_for s a in
  '(_, ret) ← for_ret (Z.to_nat page_count) 0 (fun i _ =>
    pte ← get_pte s page_dir (u32 (vaddr + i * MEM_PAGE_SIZE));
    if pte =? 0 then Some (tt, None)
    else e ← words s !! pte; Some (tt, if present e then Some ERR else None)) tt;
  match ret with
  | Some e => Some (s, e)
  | None =>
      if MALLOC_MAX_PAGE <? page_count then Some (s, ERR)
      else
        '(s, err) ← alloc_phy_mem_page s r page_count;
        if nz err then Some (s, ERR)
        else
          a ← vir_get s v;
          a ← alloc_mem_use a vaddr page_count 1;
          map_mem_page (vir_put s v a) page_dir vaddr page_count true
  end.

Definition unalloc_mem (s : mm) (page_dir : Z) (v : vir_ref) (vaddr page_count : Z)
    : option (mm * Z) :=
  '(paddr, have) ← vaddr2paddr s page_dir vaddr;
  if negb have then Some (s, -1)
  else
    '(s, err) ← free_phy_mem s paddr page_count;
    if negb (nz err) then free_vir_mem s v vaddr page_count else Some (s, err).

(** The result is [None] when it is the value [unmap_mem] does not return. *)
Definition unmalloc_mem (s : mm) (page_dir : Z) (v : vir_ref) (vaddr page_count : Z)
    : option (mm * option Z) :=
  '(s, err) ← unalloc_mem s page_dir v vaddr page_count;
  if nz err then Some (s, Some err)
  else if negb (page_dir =? kernel_page_dir s) then
    s ← unmap_mem s page_dir vaddr page_count; Some (s, None)
  else Some (s, Some err).

Definition unalloc_kernel_mem (s : mm) (vaddr page_count : Z) : option (mm * option Z) :=
  unmalloc_mem s (kernel_page_dir s) KernelVir vaddr page_count.

(** The bits of a task's allocator lie in kernel pages of their own, whose
    address is the result. *)
Definition init_user_vir_addr_alloc (s : mm) : option (mm * Z) :=
  let bytes_len := u32 ((user_all_memory s / MEM_PAGE_SIZE + 7) / 8) in
  let bitmap_pg_cnt := up2 bytes_len MEM_PAGE_SIZE / MEM_PAGE_SIZE in
  '(s, bits) ← alloc_kernel_mem s bitmap_pg_cnt;
  readable ← load_bytes (words s) bits (Z.to_nat (bitmap_pg_cnt * MEM_PAGE_SIZE));
  a ← init_addr_alloc bits readable (u32 (kernel_all_memory s)) (u32 (user_all_memory s))
        MEM_PAGE_SIZE;
  Some (vir_put s (TaskVir bits) a, bits).

Definition count_mem_used_visitor (btm : bitmap_t) (idx_bit count : Z) : option (Z * bool) :=
  b ← bitmap_scan_test btm idx_bit;
  Some (if (b : bool) then u32 (count + 1) else count, true).

Definition count_mem_used (a : addr_alloc_t) : option Z :=
  bitmap_foreach count_mem_used_visitor (bitmap a) 1 0.

Definition map_mem_direct (s : mm) (vaddr paddr size : Z) : option mm :=
  let page_count := down2 size MEM_PAGE_SIZE / MEM_PAGE_SIZE in
  let r := get_phy_addr_alloc s paddr in
  a ← alloc_mem_use (phy_get s r) paddr page_count 1;
  let s := phy_put s r a in
  a ← alloc_mem_use (kernel_vir_addr_alloc s) vaddr page_count 1;
  let s := with_kvir s a in
  '(s, _) ← map_mem s (current_page_dir s) vaddr paddr page_count true;
  Some s.
