(* ===== verification/PagingSpec.v ===== *)
(** * What memory management promises

    [pte_at] is the abstract view of an address space: a page-table entry per
    virtual page, 0 where no table exists.  The lemmas show that the
    allocators hand out only free pages, that mapping changes exactly the
    entries asked for and leaves every other directory alone, and that
    [malloc_mem] backs the virtual pages it returns by distinct free physical
    pages. *)

From S2P Require Import Prelude Bitmap CMath Paging.
From S2P Require Import Prelude.

(** ** Allocators *)

Record alloc_wf (a : addr_alloc_t) : Prop := {
  aw_bitmap : bitmap_wf (bitmap a);
  aw_slack : slack (bitmap a);
  aw_page : page_size a = 4096;
  aw_start : 0 < start a;
  aw_align : start a mod 4096 = 0;
  aw_end : start a + 4096 * (8 * bytes_len (bitmap a) + 1) < 2 ^ 32;
}.

Definition npages (a : addr_alloc_t) : Z := 8 * bytes_len (bitmap a).
Definition page_addr (a : addr_alloc_t) (k : Z) : Z := start a + 4096 * k.
Definition taken (a : addr_alloc_t) (k : Z) : bool := bit (bitmap a) k.
(** The number of free pages. *)
Definition avail (a : addr_alloc_t) : Z :=
  npages a - popcount (bitmap a) (Z.to_nat (npages a)) 0.

(** The same region, other bits. *)
Definition same_alloc (a a' : addr_alloc_t) : Prop :=
  start a' = start a /\ page_size a' = page_size a /\ bits_addr a' = bits_addr a /\
  bytes_len (bitmap a') = bytes_len (bitmap a).

#[export] Instance same_alloc_preorder : PreOrder same_alloc.
Proof.
  split; [done|]. intros a b c (?&?&?&?) (?&?&?&?). unfold same_alloc.
  split_and!; congruence.
Qed.

Lemma same_alloc_npages a a' : same_alloc a a' -> npages a' = npages a.
Proof. unfold npages. by intros (_ & _ & _ & ->). Qed.
Lemma same_alloc_addr a a' k : same_alloc a a' -> page_addr a' k = page_addr a k.
Proof. unfold page_addr. by intros (-> & _). Qed.

Lemma mem_use_ok a k n use : alloc_wf a -> 0 <= k -> 0 <= n -> k + n <= npages a + 1 ->
  exists a', alloc_mem_use a (page_addr a k) n use = Some a' /\ alloc_wf a' /\
    same_alloc a a' /\
    forall j, taken a' j = if (k <=? j) && (j <? k + n) then nz use else taken a j.
Proof.
  intros [Hwf Hsl Hpg Hst Hal Hend] Hk Hn Hlim. unfold npages in Hlim.
  unfold alloc_mem_use, page_addr. rewrite Hpg. cbn [Z.eqb].
  pose proof (wf_int _ Hwf). rewrite (u32_small (_ - _)) by lia.
  replace ((start a + 4096 * k - start a) / 4096) with k by divmod.
  rewrite i32_small by lia.
  destruct (for_inv (fun i b => bitmap_wf b /\ bytes_len b = bytes_len (bitmap a) /\
      zlen (bits b) = zlen (bits (bitmap a)) /\
      forall j, bit b j = if (k <=? j) && (j <? k + i) then nz use else taken a j)
    (fun i b => bitmap_set b (u32 (k + i)) use) (Z.to_nat n) 0 (bitmap a))
    as (b & -> & Hb & Hlen & Hz & Hbit).
  - split_and!; [done..|]. intros j.
    destruct (Z.leb_spec k j), (Z.ltb_spec j (k + 0)); try done; lia.
  - intros i b Hi (Hb & Hlen & Hz & Hbit). rewrite u32_small by lia.
    destruct (bitmap_set_total b (k + i) use) as [b' Hb'].
    { unfold slack in Hsl. lia. }
    exists b'. split; [done|]. destruct (bitmap_set_wf _ _ _ _ Hb Hb') as (? & ? & ?).
    split_and!; [done|congruence..|]. intros j.
    rewrite (bit_set_gen _ _ _ _ j Hb Hb'), Hbit.
    destruct (Z.eqb_spec j (k + i)), (Z.leb_spec k j), (Z.ltb_spec j (k + i)),
      (Z.ltb_spec j (k + (i + 1))); try done; lia.
  - mstep. eexists. split; [done|]. rewrite Z.add_0_l, Z2Nat.id in Hbit by lia.
    split_and!; [|unfold same_alloc; cbn; split_and!; [done..|congruence]|exact Hbit].
    split; cbn [bitmap page_size start]; [done| |done..|rewrite Hlen; lia].
    unfold slack. rewrite Hlen, Hz. exact Hsl.
Qed.

(** A scan and the marking of what it found. *)
Lemma scan_use_ok a n : alloc_wf a -> 1 <= n < 2 ^ 31 ->
  exists r, bitmap_scan (bitmap a) n = Some r /\
    ((r = -1 /\ forall s, 0 <= s -> s + n <= npages a ->
        exists i, s <= i < s + n /\ taken a i = true)
     \/ (0 <= r /\ r + n <= npages a + (if n =? 1 then 0 else 1) /\
         (forall i, r <= i < r + n -> taken a i = false) /\
         u32 (start a + r * page_size a) = page_addr a r /\
         exists a', alloc_mem_use a (page_addr a r) n 1 = Some a' /\ alloc_wf a' /\
           same_alloc a a' /\
           forall j, taken a' j = if (r <=? j) && (j <? r + n) then true else taken a j)).
Proof.
  intros Ha Hn. pose proof Ha as [Hwf Hsl Hpg Hst Hal Hend].
  destruct (scan_any_ok (bitmap a) n Hwf Hsl Hn) as (r & -> & [[-> Hall]|(H0 & Hr & Hc & _)]).
  - exists (-1). split; [done|]. left. done.
  - exists r. split; [done|]. right. unfold npages.
    assert (r + n <= 8 * bytes_len (bitmap a) + 1) by (cif_in Hr; lia).
    split_and!; [done..| |].
    + unfold page_addr. rewrite Hpg, u32_small by lia. lia.
    + destruct (mem_use_ok a r n 1) as (a' & -> & ? & ? & ?); [done|unfold npages; lia..|].
      exists a'. done.
Qed.

Lemma avail_take a a' r : same_alloc a a' -> 0 <= r < npages a -> taken a r = false ->
  (forall j, taken a' j = if (r <=? j) && (j <? r + 1) then true else taken a j) ->
  avail a' = avail a - 1.
Proof.
  intros Hs Hr Hf Hb. unfold avail. rewrite (same_alloc_npages _ _ Hs).
  rewrite (popcount_flip (bitmap a) (bitmap a') r); [|intros x; fold (taken a' x) (taken a x); rewrite Hb|exact Hf].
  - destruct (Z.leb_spec 0 r), (Z.ltb_spec r (0 + Z.of_nat (Z.to_nat (npages a))));
      simpl; lia.
  - destruct (Z.eqb_spec x r), (Z.leb_spec r x), (Z.ltb_spec x (r + 1)); try done; lia.
Qed.

(** With a free page left the scan for one page succeeds. *)
Lemma avail_scan a : alloc_wf a -> 0 < avail a ->
  exists r a', bitmap_scan (bitmap a) 1 = Some r /\ 0 <= r < npages a /\
    taken a r = false /\ u32 (start a + r * page_size a) = page_addr a r /\
    alloc_mem_use a (page_addr a r) 1 1 = Some a' /\ alloc_wf a' /\ same_alloc a a' /\
    avail a' = avail a - 1 /\
    forall j, taken a' j = if j =? r then true else taken a j.
Proof.
  intros Ha Hav. destruct (scan_use_ok a 1 Ha) as (r & Hs & Hres); [lia|].
  destruct Hres as [[-> Hall]|(H0 & Hr & Hc & Hu & a' & Huse & Hwf & Hsame & Hb)].
  - exfalso. unfold avail in Hav. pose proof (wf_len _ (aw_bitmap _ Ha)).
    rewrite popcount_all in Hav; [unfold npages in Hav; lia|].
    intros j Hj. unfold npages in Hj. destruct (Hall j) as (i & Hi & Ht);
      [lia|unfold npages; lia|]. by replace j with i by lia.
  - exists r, a'. cbn in Hr. assert (taken a r = false) by (apply Hc; lia).
    split_and!; [done|lia..|done|done|done|done|done|eapply avail_take; eauto; lia|].
    intros j. rewrite Hb.
    destruct (Z.eqb_spec j r), (Z.leb_spec r j), (Z.ltb_spec j (r + 1)); try done; lia.
Qed.

(** ** Entries and indices *)

Lemma pde_index_div va : pde_index va = va / 4194304.
Proof. unfold pde_index. by rewrite Z.shiftr_div_pow2. Qed.
Lemma pte_index_div va : pte_index va = (va / 4096) mod 1024.
Proof.
  unfold pte_index. rewrite Z.shiftr_div_pow2 by lia.
  change 1023 with (Z.ones 10). by rewrite Z.land_ones.
Qed.
Lemma pde_index_range va : 0 <= va < 2 ^ 32 -> 0 <= pde_index va < 1024.
Proof. rewrite pde_index_div. intros. divmod. Qed.
Lemma pte_index_range va : 0 <= pte_index va < 1024.
Proof. rewrite pte_index_div. by apply Z.mod_pos_bound. Qed.
(** The two indices identify the page. *)
Lemma indices_page va va' : 0 <= va < 2 ^ 32 -> 0 <= va' < 2 ^ 32 ->
  pde_index va = pde_index va' -> pte_index va = pte_index va' ->
  va / 4096 = va' / 4096.
Proof. rewrite !pde_index_div, !pte_index_div. intros. divmod. Qed.
Lemma page_indices va va' : va / 4096 = va' / 4096 ->
  pde_index va = pde_index va' /\ pte_index va = pte_index va'.
Proof.
  rewrite !pde_index_div, !pte_index_div. intros E. rewrite E. split; [|done].
  change 4194304 with (4096 * 1024). by rewrite <- !Z.div_div, E by lia.
Qed.

Lemma pe_base v : 0 <= v < 2 ^ 32 -> pe_phy_addr (phy_page_addr v) = 4096 * (v / 4096).
Proof.
  intros Hv. unfold pe_phy_addr, phy_page_addr.
  rewrite Z.shiftl_mul_pow2, Z.shiftr_div_pow2 by lia.
  change (2 ^ 12) with 4096. rewrite u32_small; [lia|]. divmod.
Qed.

(** An entry built from an aligned address and flag bits. *)
Lemma lor_low_div x y : 0 <= x -> 0 <= y < 4096 -> Z.lor x y / 4096 = x / 4096.
Proof.
  intros Hx Hy. change 4096 with (2 ^ 12). rewrite <- !Z.shiftr_div_pow2 by lia.
  rewrite Z.shiftr_lor, (Z.shiftr_div_pow2 y), (Z.div_small y) by lia.
  apply Z.lor_0_r.
Qed.

Definition entry (paddr perm : Z) : Z := Z.lor (Z.lor paddr perm) PTE_P.

Lemma entry_ok paddr perm : 0 <= paddr < 2 ^ 32 -> 0 <= perm < 4096 ->
  0 <= entry paddr perm < 2 ^ 32 /\ present (entry paddr perm) = true /\
  entry paddr perm / 4096 = paddr / 4096.
Proof.
  intros Hp Hq. unfold entry, PTE_P, present. change (Z.shiftl 1 0) with 1.
  assert (0 <= Z.lor paddr perm < 2 ^ 32) by (apply lor_bound; lia).
  split; [|split].
  - apply lor_bound; lia.
  - rewrite Z.lor_spec. apply orb_true_r.
  - rewrite !lor_low_div; lia.
Qed.

(** ** Memory *)

Definition page_of (a : Z) : Z := a - a mod 4096.

Definition page_ok (w : gmap Z Z) (p : Z) : Prop :=
  forall i, 0 <= i < 1024 -> exists v, w !! (p + 4 * i) = Some v /\ 0 <= v < 2 ^ 32.

Lemma page_of_word p i : p mod 4096 = 0 -> 0 <= i < 1024 -> page_of (p + 4 * i) = p.
Proof. intros. unfold page_of. divmod. Qed.

Lemma word_inj p q i j : p mod 4096 = 0 -> q mod 4096 = 0 -> 0 <= i < 1024 ->
  0 <= j < 1024 -> p + 4 * i = q + 4 * j -> p = q /\ i = j.
Proof.
  intros Hp Hq Hi Hj E. pose proof (page_of_word p i Hp Hi) as H1.
  rewrite E, page_of_word in H1 by done. lia.
Qed.

Lemma page_ok_store w p a v : page_ok w p -> 0 <= v < 2 ^ 32 -> page_ok (<[a := v]> w) p.
Proof.
  intros Hp Hv i Hi. destruct (decide (a = p + 4 * i)) as [->|Hne].
  - exists v. by rewrite lookup_insert_eq.
  - rewrite lookup_insert_ne by done. by apply Hp.
Qed.

Lemma clear_page_ok w p : p mod 4096 = 0 -> page_ok w p ->
  exists w', clear_page w p = Some w' /\
    (forall i, 0 <= i < 1024 -> w' !! (p + 4 * i) = Some 0) /\
    (forall a, page_of a <> p -> w' !! a = w !! a) /\
    (forall q, page_ok w q -> page_ok w' q).
Proof.
  intros Hal Hp. unfold clear_page.
  destruct (for_inv (fun j (w' : gmap Z Z) =>
      (forall i, 0 <= i < j -> w' !! (p + 4 * i) = Some 0) /\
      (forall a, page_of a <> p -> w' !! a = w !! a) /\
      forall q, page_ok w q -> page_ok w' q)
    (fun i w => store w (p + 4 * i) 0) 1024 0 w) as (w' & -> & H1 & H2 & H3).
  - split_and!; [lia|done|done].
  - intros j w1 Hj (H1 & H2 & H3). unfold store.
    destruct (H3 p Hp j) as (v & -> & _); [lia|]. eexists. split; [done|]. split_and!.
    + intros i Hi. destruct (decide (i = j)) as [->|Hne]; [by rewrite lookup_insert_eq|].
      rewrite lookup_insert_ne by lia. apply H1. lia.
    + intros a Ha. rewrite lookup_insert_ne; [by apply H2|].
      intros <-. apply Ha, page_of_word; [done|lia].
    + intros q Hq. apply page_ok_store; [auto|lia].
  - exists w'. done.
Qed.

(** ** Address spaces *)

(** The kernel page [k] is free. *)
Definition kfree (s : mm) (p : Z) : Prop :=
  exists k, 0 <= k < npages (kernel_vir_addr_alloc s) /\
    p = page_addr (kernel_vir_addr_alloc s) k /\ taken (kernel_vir_addr_alloc s) k = false.

Record mm_ok (s : mm) : Prop := {
  ok_kphy : alloc_wf (kernel_phy_addr_alloc s);
  ok_kvir : alloc_wf (kernel_vir_addr_alloc s);
  ok_uphy : alloc_wf (user_phy_addr_alloc s);
  ok_paddrs : length (paddrs s) = 1024%nat;
  ok_free : forall p, kfree s p -> page_ok (words s) p;
}.

(** The page table of entry [i] of a directory. *)
Definition tbl (s : mm) (pd i : Z) : option Z :=
  e ← words s !! (pd + 4 * i);
  if present e then Some (pe_phy_addr (phy_page_addr e)) else None.

(** A directory whose entries from [lo] on point to tables of its own. *)
Record pd_wf (s : mm) (lo pd : Z) : Prop := {
  pw_lo : 0 <= lo;
  pw_align : pd mod 4096 = 0;
  pw_pos : 0 < pd < 2 ^ 32;
  pw_page : page_ok (words s) pd;
  pw_used : ~ kfree s pd;
  pw_tbl : forall i t, lo <= i < 1024 -> tbl s pd i = Some t ->
    0 < t < 2 ^ 32 /\ t <> pd /\ page_ok (words s) t /\ ~ kfree s t;
  pw_inj : forall i j t, lo <= i < 1024 -> lo <= j < 1024 ->
    tbl s pd i = Some t -> tbl s pd j = Some t -> i = j;
}.

(** The entry of a virtual address. *)
Definition pte_at (s : mm) (pd va : Z) : Z :=
  match tbl s pd (pde_index va) with
  | Some t => default 0 (words s !! (t + 4 * pte_index va))
  | None => 0
  end.

(** The words a directory owns. *)
Definition owns (s : mm) (lo pd a : Z) : Prop :=
  page_of a = pd \/ exists i, lo <= i < 1024 /\ tbl s pd i = Some (page_of a).

Lemma tbl_aligned s pd i t : tbl s pd i = Some t -> t mod 4096 = 0.
Proof.
  unfold tbl. intros (e & _ & H)%bind_Some. cif_in H; [|done]. injection H as <-.
  unfold pe_phy_addr, u32. rewrite Z.shiftl_mul_pow2 by lia. divmod.
Qed.

Lemma kfree_aligned s p : mm_ok s -> kfree s p -> p mod 4096 = 0 /\ 0 < p < 2 ^ 32.
Proof.
  intros Hok (k & Hk & -> & _). destruct (ok_kvir _ Hok) as [_ _ _ ? ? ?].
  unfold page_addr, npages in *. split; [divmod|lia].
Qed.

(** How the state may change while a directory [pd] gets mappings: new tables
    come from free kernel pages, nothing else is written. *)
Record grows (s s' : mm) : Prop := {
  gr_uphy : user_phy_addr_alloc s' = user_phy_addr_alloc s;
  gr_task : task_vir s' = task_vir s;
  gr_mem : kernel_all_memory s' = kernel_all_memory s /\ user_all_memory s' = user_all_memory s;
  gr_kpd : kernel_page_dir s' = kernel_page_dir s /\ cr3 s' = cr3 s;
  gr_same : same_alloc (kernel_vir_addr_alloc s) (kernel_vir_addr_alloc s');
  gr_taken : forall k, taken (kernel_vir_addr_alloc s) k = true ->
    taken (kernel_vir_addr_alloc s') k = true;
  gr_paddrs : forall j, (0 < j)%nat -> paddrs s' !! j = paddrs s !! j;
}.

#[export] Instance grows_preorder : PreOrder grows.
Proof.
  split; [intros s; split; try done; reflexivity|].
  intros s1 s2 s3 [?? [] [] ? ? Hp] [?? [] [] ? ? Hq].
  split; try congruence; try (split; congruence); [etrans; eauto|auto|].
  intros j Hj. rewrite Hq, Hp; done.
Qed.

Lemma kfree_anti s s' p : grows s s' -> kfree s' p -> kfree s p.
Proof.
  intros Hg (k & Hk & -> & Ht). pose proof (gr_same _ _ Hg) as Hs.
  rewrite (same_alloc_npages _ _ Hs) in Hk. rewrite (same_alloc_addr _ _ k Hs).
  exists k. split_and!; [lia..|done|].
  destruct (taken (kernel_vir_addr_alloc s) k) eqn:E; [|done].
  apply (gr_taken _ _ Hg) in E. congruence.
Qed.

(** ** Kernel pages *)

Lemma phy_put_get s r : phy_put s r (phy_get s r) = s.
Proof. by destruct s, r. Qed.

Lemma alloc_phy_any s r : alloc_wf (phy_get s r) ->
  exists a' p, alloc_phy_mem s r 1 = Some (phy_put s r a', p) /\ 0 <= p /\ alloc_wf a'.
Proof.
  intros Ha. unfold alloc_phy_mem. change (u32 1) with 1.
  destruct (scan_use_ok _ 1 Ha) as (k & -> & Hres); [lia|]. mstep.
  destruct Hres as [[-> _]|(H0 & _ & _ & -> & a' & -> & ? & _)].
  - exists (phy_get s r), ERR. rewrite phy_put_get. cbn. done.
  - destruct (Z.ltb_spec k 0); [lia|]. mstep. exists a', (page_addr (phy_get s r) k).
    split_and!; [done| |done]. destruct Ha. unfold page_addr. lia.
Qed.

Lemma alloc_kernel_ok s : mm_ok s -> 0 < avail (kernel_vir_addr_alloc s) ->
  exists s' k, alloc_kernel_mem s 1 = Some (s', page_addr (kernel_vir_addr_alloc s) k) /\
    0 <= k < npages (kernel_vir_addr_alloc s) /\ taken (kernel_vir_addr_alloc s) k = false /\
    (forall j, taken (kernel_vir_addr_alloc s') j
               = if j =? k then true else taken (kernel_vir_addr_alloc s) j) /\
    avail (kernel_vir_addr_alloc s') = avail (kernel_vir_addr_alloc s) - 1 /\
    words s' = words s /\ grows s s' /\ mm_ok s'.
Proof.
  intros Hok Hav. unfold alloc_kernel_mem, alloc_mem_page, alloc_vir_mem.
  cbn [vir_get mbind option_bind Z.ltb Z.compare MALLOC_MAX_PAGE].
  change (MALLOC_MAX_PAGE <? 1) with false. cbn iota. change (u32 1) with 1.
  destruct (avail_scan _ (ok_kvir _ Hok) Hav)
    as (k & a' & -> & Hk & Hf & Hu & Huse & Hwf & Hsame & Havl & Hb). mstep.
  destruct (Z.ltb_spec k 0); [lia|]. rewrite Hu, Huse. mstep. cbn [vir_put].
  unfold phy_for. rewrite Z.eqb_refl.
  pose proof (aw_start _ (ok_kvir _ Hok)).
  destruct (Z.ltb_spec (page_addr (kernel_vir_addr_alloc s) k) 0);
    [unfold page_addr in *; lia|].
  change (Z.to_nat 1) with 1%nat. cbn [for_ret]. unfold alloc_page_step.
  destruct (alloc_phy_any (with_kvir s a') KernelPhy (ok_kphy _ Hok))
    as (b' & p & -> & Hp & Hb'). mstep. destruct (Z.ltb_spec p 0); [lia|].
  cbn [phy_put with_kvir with_kphy paddrs kernel_vir_addr_alloc].
  rewrite zset_is_Some by (unfold zlen; rewrite (ok_paddrs _ Hok); lia). mstep.
  cbn [default nz Z.eqb negb].
  eexists _, k. split; [done|]. cbn.
  assert (grows s (with_paddrs (with_kphy (with_kvir s a') b')
    (<[Z.to_nat 0 := p]> (paddrs s)))) as Hg.
  { split; cbn; try done.
    - intros j Hj. rewrite Hb. by destruct (j =? k).
    - intros j Hj. rewrite list_lookup_insert_ne; [done|]. lia. }
  split_and!; [lia..|done|done|done|done|exact Hg|].
  split; cbn; [done|done|apply Hok|by rewrite length_insert, (ok_paddrs _ Hok)|].
  intros q Hq. apply (kfree_anti _ _ _ Hg), (ok_free _ Hok) in Hq. done.
Qed.

(** A page taken in the meantime is not free. *)
Lemma not_kfree s s' k : grows s s' -> taken (kernel_vir_addr_alloc s') k = true ->
  ~ kfree s' (page_addr (kernel_vir_addr_alloc s) k).
Proof.
  intros Hg Ht (k' & _ & E & Hf). rewrite (same_alloc_addr _ _ _ (gr_same _ _ Hg)) in E.
  unfold page_addr in E. replace k' with k in Hf by lia. congruence.
Qed.

(** ** Entries of a directory *)

Lemma tbl_inv s pd i t : tbl s pd i = Some t ->
  exists e, words s !! (pd + 4 * i) = Some e /\ present e = true /\
    pe_phy_addr (phy_page_addr e) = t.
Proof.
  unfold tbl. intros (e & He & H)%bind_Some. cif_in H; [|done]. injection H as <-. eauto.
Qed.

Lemma pd_slot pd va : 0 < pd < 2 ^ 32 -> pd mod 4096 = 0 -> 0 <= va < 2 ^ 32 ->
  u32 (pd + 4 * pde_index va) = pd + 4 * pde_index va.
Proof.
  intros Hp Ha Hv. pose proof (pde_index_range va Hv). rewrite u32_small; [done|].
  revert Ha. divmod.
Qed.

Lemma pt_slot t va : 0 < t < 2 ^ 32 -> t mod 4096 = 0 ->
  u32 (t + 4 * pte_index va) = t + 4 * pte_index va.
Proof.
  intros Hp Ha. pose proof (pte_index_range va). rewrite u32_small; [done|].
  revert Ha. divmod.
Qed.

(** What holds after a step that works on the directory [pd]. *)
Record steps (lo pd : Z) (s s' : mm) : Prop := {
  st_grows : grows s s';
  st_ok : mm_ok s';
  st_wf : pd_wf s' lo pd;
  st_frame : forall a, ~ owns s lo pd a -> ~ kfree s (page_of a) ->
    words s' !! a = words s !! a;
  st_owns : forall a, owns s' lo pd a -> owns s lo pd a \/ kfree s (page_of a);
}.

Lemma steps_refl lo pd s : mm_ok s -> pd_wf s lo pd -> steps lo pd s s.
Proof. intros. split; [reflexivity|done..|auto]. Qed.

Lemma steps_trans lo pd s1 s2 s3 : steps lo pd s1 s2 -> steps lo pd s2 s3 ->
  steps lo pd s1 s3.
Proof.
  intros [G1 K1 W1 F1 O1] [G2 K2 W2 F2 O2]. split; [by etrans|done|done|..].
  - intros a Ho Hf. rewrite F2, F1; [done..|contradict Ho|contradict Hf].
    + destruct (O1 _ Ho); [done|by destruct Hf].
    + by eapply kfree_anti.
  - intros a Ho. destruct (O2 _ Ho) as [H|H]; [auto|].
    right. by eapply kfree_anti.
Qed.

Lemma find_pte_present s lo pd va t : pd_wf s lo pd -> 0 <= va < 2 ^ 32 ->
  lo <= pde_index va -> tbl s pd (pde_index va) = Some t ->
  find_pte_alloc s pd va true = Some (s, t + 4 * pte_index va).
Proof.
  intros Hw Hva Hlo Ht. pose proof (pde_index_range va Hva).
  unfold find_pte_alloc. rewrite (pd_slot pd va (pw_pos _ _ _ Hw) (pw_align _ _ _ Hw) Hva).
  destruct (tbl_inv _ _ _ _ Ht) as (e & -> & He & Hpe). mstep. rewrite He, Hpe.
  rewrite pt_slot; [done|by eapply pw_tbl; eauto; lia|by eapply tbl_aligned].
Qed.

Lemma pde_entry_ok q : q mod 4096 = 0 -> 0 < q < 2 ^ 32 ->
  let e := Z.lor (Z.lor (Z.lor q PDE_P) PDE_W) PDE_U in
  0 <= e < 2 ^ 32 /\ present e = true /\ pe_phy_addr (phy_page_addr e) = q.
Proof.
  intros Hqa Hqp e. change e with (Z.lor (Z.lor (Z.lor q 1) 2) 4).
  rewrite <- Z.lor_assoc, <- (Z.lor_assoc q). change (Z.lor 1 (Z.lor 2 4)) with 7.
  assert (0 <= Z.lor q 7 < 2 ^ 32) by (apply lor_bound; lia).
  split; [done|split].
  - unfold present. rewrite Z.lor_spec. apply orb_true_r.
  - rewrite pe_base, lor_low_div by lia. revert Hqa. divmod.
Qed.

(** The free kernel page [q] becomes the table of entry [i]: it is cleared,
    and the directory changes only in that entry. *)
Section NewTable.
Context (s s' : mm) (lo pd i q : Z).
Hypothesis (Hok : mm_ok s) (Hw : pd_wf s lo pd) (Hi : lo <= i < 1024).
Hypothesis (Hnone : tbl s pd i = None) (Hq : kfree s q).
Hypothesis (Hg : grows s s') (Hok' : mm_ok s') (Hwords : words s' = words s)
  (Hq' : ~ kfree s' q).
Let e : Z := Z.lor (Z.lor (Z.lor q PDE_P) PDE_W) PDE_U.

Lemma new_table_words : exists w,
  clear_page (<[pd + 4 * i := e]> (words s)) q = Some w /\
  (forall j, 0 <= j < 1024 -> tbl (with_words s' w) pd j
     = if decide (j = i) then Some q else tbl s pd j) /\
  (forall j, 0 <= j < 1024 -> w !! (q + 4 * j) = Some 0) /\
  (forall a, page_of a <> q -> a <> pd + 4 * i -> w !! a = words s !! a) /\
  forall t, page_ok (words s) t -> page_ok w t.
Proof.
  destruct (kfree_aligned s q Hok Hq) as [Hqa Hqp].
  destruct (pde_entry_ok q Hqa Hqp) as (He & Hep & Hpe). fold e in He, Hep, Hpe.
  assert (Hlo := pw_lo _ _ _ Hw). assert (Hpa := pw_align _ _ _ Hw).
  assert (pd <> q) by (intros ->; by apply (pw_used _ _ _ Hw)).
  destruct (clear_page_ok (<[pd + 4 * i := e]> (words s)) q Hqa) as (w & Hc & Hz & Hfr & Hpg).
  { apply page_ok_store; [|done]. by apply Hok. }
  exists w. split_and!; [done| |done|..].
  - intros j Hj. unfold tbl. cbn [words with_words].
    rewrite Hfr by (rewrite page_of_word; done). case_decide as E.
    + rewrite E, lookup_insert_eq. mstep. by rewrite Hep, Hpe.
    + rewrite lookup_insert_ne; [done|lia].
  - intros a Ha Hne. rewrite Hfr by done. by rewrite lookup_insert_ne.
  - intros t Ht. by apply Hpg, page_ok_store.
Qed.

Lemma new_table_wf w :
  (forall j, 0 <= j < 1024 -> tbl (with_words s' w) pd j
     = if decide (j = i) then Some q else tbl s pd j) ->
  (forall t, page_ok (words s) t -> page_ok w t) ->
  pd_wf (with_words s' w) lo pd.
Proof.
  intros Htbl Hpok. assert (Hlo := pw_lo _ _ _ Hw).
  destruct (kfree_aligned s q Hok Hq) as [Hqa Hqp].
  split; [done|apply Hw|apply Hw|apply Hpok, Hw| |..].
  - intros Hf. apply (pw_used _ _ _ Hw). by apply (kfree_anti _ _ _ Hg).
  - intros j t Hj. rewrite Htbl by lia. case_decide.
    + intros [= <-]. assert (q <> pd) by (intros ->; by apply (pw_used _ _ _ Hw)).
      split_and!; [lia..|done|apply Hpok, Hok, Hq|exact Hq'].
    + intros Ht. destruct (pw_tbl _ _ _ Hw j t Hj Ht) as (? & ? & ? & Hn).
      split_and!; [lia..|done|auto|]. intros Hf. by apply Hn, (kfree_anti _ _ _ Hg).
  - intros j1 j2 t Hj1 Hj2. rewrite !Htbl by lia.
    assert (forall j, lo <= j < 1024 -> tbl s pd j = Some q -> False) as Hno.
    { intros j Hj Ht. by destruct (pw_tbl _ _ _ Hw j q Hj Ht) as (_ & _ & _ & []). }
    case_decide; case_decide; intros E1 E2; simplify_eq; [done|exfalso; eauto..|].
    by eapply pw_inj.
Qed.

Lemma new_table_ok : exists w,
  clear_page (<[pd + 4 * i := e]> (words s)) q = Some w /\
  steps lo pd s (with_words s' w) /\ tbl (with_words s' w) pd i = Some q /\
  forall va, 0 <= va < 2 ^ 32 -> lo <= pde_index va ->
    pte_at (with_words s' w) pd va = pte_at s pd va.
Proof.
  destruct new_table_words as (w & Hc & Htbl & Hz & Hfr & Hpok).
  assert (Hlo := pw_lo _ _ _ Hw). assert (Hpa := pw_align _ _ _ Hw).
  exists w. split; [done|]. split; [split|split].
  - destruct Hg. split; done.
  - destruct Hok'. split; try done. cbn. intros p Hp. apply Hpok, (ok_free _ Hok).
    by apply (kfree_anti _ _ _ Hg).
  - by apply new_table_wf.
  - intros a Ho Hf. cbn [words with_words]. apply Hfr.
    + intros E. apply Hf. by rewrite E.
    + intros ->. apply Ho. left. apply page_of_word; [done|lia].
  - intros a [Ha|(j & Hj & Ht)]; [by left; left|]. rewrite Htbl in Ht by lia.
    case_decide; [injection Ht as <-; by right|]. left. right. eauto.
  - rewrite Htbl by lia. by rewrite decide_True.
  - intros va Hva Hge. pose proof (pde_index_range va Hva). unfold pte_at.
    rewrite Htbl by lia. pose proof (pte_index_range va). case_decide as E.
    + rewrite E, Hnone. cbn [words with_words]. by rewrite Hz by lia.
    + destruct (tbl s pd (pde_index va)) as [t|] eqn:Et; [|done].
      destruct (pw_tbl _ _ _ Hw (pde_index va) t) as (_ & Htp & _ & Hnf); [lia|done|].
      pose proof (tbl_aligned _ _ _ _ Et) as Hta. cbn [words with_words]. rewrite Hfr; [done|..].
      * rewrite page_of_word by done. by intros ->.
      * intros E'. apply word_inj in E'; [by destruct E'|done..|lia].
Qed.

End NewTable.

Lemma kavail_steps s lo pd va : mm_ok s -> pd_wf s lo pd -> 0 <= va < 2 ^ 32 ->
  lo <= pde_index va -> 0 < avail (kernel_vir_addr_alloc s) ->
  exists s' t, find_pte_alloc s pd va true = Some (s', t + 4 * pte_index va) /\
    steps lo pd s s' /\ tbl s' pd (pde_index va) = Some t /\
    avail (kernel_vir_addr_alloc s) - 1 <= avail (kernel_vir_addr_alloc s') /\
    forall va', 0 <= va' < 2 ^ 32 -> lo <= pde_index va' -> pte_at s' pd va' = pte_at s pd va'.
Proof.
  intros Hok Hw Hva Hlo Hav. pose proof (pde_index_range va Hva).
  destruct (tbl s pd (pde_index va)) as [t|] eqn:Et.
  { exists s, t. split_and!; [by eapply find_pte_present|by apply steps_refl|done|lia|done]. }
  destruct (alloc_kernel_ok s Hok Hav)
    as (s' & k & Hal & Hk & Hf & Ht & Havl & Hwd & Hg & Hok').
  set (q := page_addr (kernel_vir_addr_alloc s) k) in *.
  assert (kfree s q) as Hq by (exists k; done).
  destruct (kfree_aligned s q Hok Hq) as [Hqa Hqp].
  assert (~ kfree s' q) as Hq' by (apply not_kfree; [done|by rewrite Ht, Z.eqb_refl]).
  destruct (new_table_ok s s' lo pd (pde_index va) q) as (w & Hc & Hst & Htb & Hpt);
    [first [done|lia]..|].
  exists (with_words s' w), q. split_and!; [|done|done|cbn; lia|done].
  unfold find_pte_alloc. rewrite (pd_slot pd va (pw_pos _ _ _ Hw) (pw_align _ _ _ Hw) Hva).
  destruct (pw_page _ _ _ Hw (pde_index va)) as (e & He & _); [lia|].
  unfold tbl in Et. rewrite He in Et |- *. cbn [mbind option_bind] in Et |- *.
  destruct (present e); [done|]. cbn [negb]. rewrite Hal. mstep.
  destruct (Z.ltb_spec q 0); [lia|]. unfold store_word, store. rewrite Hwd, He. mstep.
  cbn [words with_words]. rewrite Hc. mstep. by rewrite pt_slot.
Qed.

(** Writing the entry of [va] in its table. *)
Lemma set_pte_ok s lo pd va t v : mm_ok s -> pd_wf s lo pd -> 0 <= va < 2 ^ 32 ->
  lo <= pde_index va -> tbl s pd (pde_index va) = Some t -> 0 <= v < 2 ^ 32 ->
  exists s', store_word s (t + 4 * pte_index va) v = Some s' /\ steps lo pd s s' /\
    kernel_vir_addr_alloc s' = kernel_vir_addr_alloc s /\ paddrs s' = paddrs s /\
    forall va', 0 <= va' < 2 ^ 32 -> lo <= pde_index va' ->
      pte_at s' pd va' = if va' / 4096 =? va / 4096 then v else pte_at s pd va'.
Proof.
  intros Hok Hw Hva Hlo Ht Hv. pose proof (pde_index_range va Hva).
  pose proof (pte_index_range va). pose proof (tbl_aligned _ _ _ _ Ht) as Hta.
  pose proof (pw_align _ _ _ Hw) as Hpa. pose proof (pw_lo _ _ _ Hw).
  destruct (pw_tbl _ _ _ Hw (pde_index va) t) as (Htr & Htp & Htpg & Htf); [lia|done|].
  unfold store_word, store. destruct (Htpg (pte_index va)) as (v0 & Hv0 & _); [lia|].
  rewrite Hv0. mstep. set (w := <[t + 4 * pte_index va := v]> (words s)).
  exists (with_words s w). split; [done|].
  assert (forall j, 0 <= j < 1024 -> tbl (with_words s w) pd j = tbl s pd j) as Htb.
  { intros j Hj. unfold tbl, w. cbn [words with_words].
    rewrite lookup_insert_ne; [done|]. intros E. apply word_inj in E; [|done..|lia|lia].
    by destruct E. }
  split_and!; [|done|done|].
  - split.
    + split; done.
    + destruct Hok. split; try done. intros p Hp. apply page_ok_store; [by apply ok_free0|done].
    + destruct Hw. split; try done; [by apply page_ok_store|..].
      * intros j t' Hj. rewrite Htb by lia. intros Ht'.
        destruct (pw_tbl0 j t' Hj Ht') as (? & ? & ? & ?).
        split_and!; [lia..|done|by apply page_ok_store|done].
      * intros j1 j2 t' Hj1 Hj2. rewrite !Htb by lia. by apply pw_inj0.
    + intros a Ho Hf. unfold w. cbn [words with_words]. rewrite lookup_insert_ne; [done|].
      intros <-. apply Ho. right. exists (pde_index va).
      rewrite page_of_word by done. split; [lia|done].
    + intros a [Ha|(j & Hj & Ht')]; left; [by left|]. right. exists j. by rewrite <- Htb by lia.
  - intros va' Hva' Hlo'. unfold pte_at. pose proof (pde_index_range va' Hva').
    rewrite Htb by done. destruct (Z.eqb_spec (va' / 4096) (va / 4096)) as [E|E].
    + apply page_indices in E as [-> ->]. rewrite Ht. unfold w. cbn [words with_words].
      by rewrite lookup_insert_eq.
    + destruct (tbl s pd (pde_index va')) as [t'|] eqn:Et'; [|done].
      unfold w. cbn [words with_words]. rewrite lookup_insert_ne; [done|]. intros E'.
      apply word_inj in E' as [-> Ei]; [|done|by eapply tbl_aligned|done|apply pte_index_range].
      apply E, indices_page; [done..| |done]. eapply (pw_inj _ _ _ Hw); [lia..|done|done].
Qed.

(** The entry [find_pte_alloc] returns. *)
Lemma pte_word s lo pd va t : pd_wf s lo pd -> 0 <= va < 2 ^ 32 -> lo <= pde_index va ->
  tbl s pd (pde_index va) = Some t ->
  words s !! (t + 4 * pte_index va) = Some (pte_at s pd va) /\
  t + 4 * pte_index va <> 0.
Proof.
  intros Hw Hva Hlo Ht. pose proof (pde_index_range va Hva). pose proof (pte_index_range va).
  destruct (pw_tbl _ _ _ Hw (pde_index va) t) as (? & _ & Hp & _); [lia|done|].
  destruct (Hp (pte_index va)) as (v & Hv & _); [done|].
  split; [|lia]. unfold pte_at. by rewrite Ht, Hv.
Qed.

(** ** create_mem_map *)

(** [j] is the number of pages from [va] on that are not mapped yet, up to
    [n]. *)
Definition unmapped (s : mm) (pd va : Z) (j n : Z) : Prop :=
  0 <= j <= n /\ (forall i, 0 <= i < j -> present (pte_at s pd (va + 4096 * i)) = false) /\
  (j < n -> present (pte_at s pd (va + 4096 * j)) = true).

(** The entries after [j] pages were mapped. *)
Definition mapped_at (s : mm) (pd va pa perm j va' : Z) : Z :=
  if (va <=? va') && (va' <? va + 4096 * j)
  then entry (pa + 4096 * ((va' - va) / 4096)) perm else pte_at s pd va'.

Lemma create_step s lo pd va pa perm i : mm_ok s -> pd_wf s lo pd ->
  0 <= va < 2 ^ 32 -> lo <= pde_index va -> 0 < avail (kernel_vir_addr_alloc s) ->
  0 <= pa < 2 ^ 32 -> 0 <= perm < 4096 ->
  exists s', steps lo pd s s' /\
    avail (kernel_vir_addr_alloc s) - 1 <= avail (kernel_vir_addr_alloc s') /\
    if present (pte_at s pd va) then
      map_page pd perm i (s, va, pa) = Some (s', va, pa, Some (-1)) /\
      forall va', 0 <= va' < 2 ^ 32 -> lo <= pde_index va' ->
        pte_at s' pd va' = pte_at s pd va'
    else
      map_page pd perm i (s, va, pa) = Some (s', u32 (va + 4096), u32 (pa + 4096), None) /\
      forall va', 0 <= va' < 2 ^ 32 -> lo <= pde_index va' ->
        pte_at s' pd va' = if va' / 4096 =? va / 4096 then entry pa perm else pte_at s pd va'.
Proof.
  intros Hok Hw Hva Hlo Hav Hpa Hperm. unfold map_page.
  destruct (kavail_steps s lo pd va) as (s' & t & -> & Hst & Ht & Hav' & Hpt); [done..|].
  destruct (pte_word s' lo pd va t) as [Hwd Hnz]; [apply Hst|done..|].
  rewrite Hpt in Hwd by done. mstep.
  destruct (Z.eqb_spec (t + 4 * pte_index va) 0); [done|]. rewrite Hwd. mstep.
  destruct (present (pte_at s pd va)); [by exists s'|].
  destruct (set_pte_ok s' lo pd va t (entry pa perm)) as (s'' & Hs & Hst' & Hk & _ & Hp');
    [apply Hst|apply Hst|done..|by apply entry_ok|].
  fold (entry pa perm). rewrite Hs. mstep.
  exists s''. split_and!; [by eapply steps_trans|rewrite Hk; lia|done|].
  intros va' Hva' Hlo'. by rewrite Hp', Hpt by done.
Qed.

Lemma pde_index_mono va va' : va <= va' -> pde_index va <= pde_index va'.
Proof. rewrite !pde_index_div. intros. apply Z.div_le_mono; lia. Qed.

Lemma unmapped_next s s' pd va j n (v : Z) : 0 <= va -> va mod 4096 = 0 ->
  va + 4096 * (n + 1) < 2 ^ 32 ->
  (forall va', va <= va' < 2 ^ 32 ->
     pte_at s' pd va' = if va' / 4096 =? va / 4096 then v else pte_at s pd va') ->
  unmapped s pd va (j + 1) (n + 1) -> 0 <= j -> unmapped s' pd (va + 4096) j n.
Proof.
  intros H0 Ha Hlim Hpt (Hj & Hno & Hyes) Hj0.
  assert (forall i, 0 <= i <= n ->
    pte_at s' pd (va + 4096 + 4096 * i) = pte_at s pd (va + 4096 * (i + 1))) as E.
  { intros i Hi. rewrite Hpt by lia. replace (va + 4096 + 4096 * i) with (va + 4096 * (i + 1)) by lia.
    destruct (Z.eqb_spec ((va + 4096 * (i + 1)) / 4096) (va / 4096)) as [E|]; [|done].
    exfalso. revert E Ha. divmod. }
  split_and!; [lia..| |].
  - intros i Hi. rewrite E by lia. apply Hno. lia.
  - intros Hlt. rewrite E by lia. apply Hyes. lia.
Qed.

Lemma mapped_at_next s s' pd va pa perm j va' : 0 <= va -> va mod 4096 = 0 -> 0 <= j ->
  pte_at s' pd va' = (if va' / 4096 =? va / 4096 then entry pa perm else pte_at s pd va') ->
  mapped_at s' pd (va + 4096) (pa + 4096) perm j va' = mapped_at s pd va pa perm (j + 1) va'.
Proof.
  intros H0 Ha Hj Hpt. unfold mapped_at. rewrite Hpt.
  destruct (Z.eqb_spec (va' / 4096) (va / 4096)) as [E|E],
    (Z.leb_spec (va + 4096) va'), (Z.ltb_spec va' (va + 4096 + 4096 * j)),
    (Z.leb_spec va va'), (Z.ltb_spec va' (va + 4096 * (j + 1))); cbn [andb]; try lia;
    try done; try (exfalso; revert E Ha; divmod).
  - f_equal. replace ((va' - va) / 4096) with 0; [lia|]. revert E Ha. divmod.
  - f_equal. replace (va' - va) with ((va' - (va + 4096)) + 1 * 4096) by lia.
    rewrite Z.div_add by lia. lia.
Qed.

Lemma map_pages_ok lo pd perm : 0 <= perm < 4096 ->
  forall n i s va pa j, mm_ok s -> pd_wf s lo pd ->
  0 <= va -> va mod 4096 = 0 -> lo <= pde_index va -> va + 4096 * Z.of_nat n < 2 ^ 32 ->
  0 <= pa -> pa + 4096 * Z.of_nat n < 2 ^ 32 ->
  Z.of_nat n <= avail (kernel_vir_addr_alloc s) ->
  unmapped s pd va j (Z.of_nat n) ->
  exists s' va1 pa1, for_ret n i (map_page pd perm) (s, va, pa)
      = Some (s', va1, pa1, if j =? Z.of_nat n then None else Some (-1)) /\
    steps lo pd s s' /\
    avail (kernel_vir_addr_alloc s) - Z.of_nat n <= avail (kernel_vir_addr_alloc s') /\
    forall va', 0 <= va' < 2 ^ 32 -> lo <= pde_index va' ->
      pte_at s' pd va' = mapped_at s pd va pa perm j va'.
Proof.
  intros Hperm. induction n as [|n IH]; intros i s va pa j Hok Hw H0 Ha Hlo Hlim Hpa Hplim Hav Hun;
    cbn [for_ret].
  - destruct Hun as (Hj & _). replace j with 0 by lia. exists s, va, pa.
    split_and!; [done|by apply steps_refl|lia|]. intros va' _ _. unfold mapped_at.
    destruct (Z.leb_spec va va'), (Z.ltb_spec va' (va + 4096 * 0)); cbn; try done; lia.
  - destruct (create_step s lo pd va pa perm i) as (s1 & Hst1 & Hav1 & Hstep); [done|done|lia..|].
    destruct (present (pte_at s pd va)) eqn:Ep; destruct Hstep as [-> Hpt1]; mstep.
    + assert (j = 0) as ->.
      { destruct Hun as (Hj & Hno & _). destruct (decide (j = 0)) as [|]; [done|].
        specialize (Hno 0). rewrite Z.mul_0_r, Z.add_0_r, Ep in Hno. discriminate Hno. lia. }
      exists s1, va, pa. destruct (Z.eqb_spec 0 (Z.of_nat (S n))); [lia|].
      split_and!; [done..|lia|]. intros va' Hva' Hlo'. rewrite Hpt1 by done. unfold mapped_at.
      destruct (Z.leb_spec va va'), (Z.ltb_spec va' (va + 4096 * 0)); cbn; try done; lia.
    + assert (0 < j) as Hj.
      { destruct Hun as (Hj & _ & Hyes). destruct (decide (j = 0)) as [->|]; [|lia].
        rewrite Z.mul_0_r, Z.add_0_r, Ep in Hyes. discriminate Hyes. lia. }
      rewrite !u32_small by lia.
      destruct (IH (i + 1) s1 (va + 4096) (pa + 4096) (j - 1))
        as (s3 & va3 & pa3 & -> & Hst3 & Hav3 & Hpt3); [apply Hst1|apply Hst1|lia| | |lia..| |].
      * revert Ha. divmod.
      * pose proof (pde_index_mono va (va + 4096)). lia.
      * eapply (unmapped_next s s1 pd va (j - 1)); [lia|done|lia| | |lia].
        -- intros va' Hva'. apply Hpt1; [lia|]. pose proof (pde_index_mono va va'). lia.
        -- by rewrite Z.sub_add; rewrite Nat2Z.inj_succ in Hun.
      * exists s3, va3, pa3. split_and!; [|by eapply steps_trans|lia|].
        -- destruct (Z.eqb_spec (j - 1) (Z.of_nat n)), (Z.eqb_spec j (Z.of_nat (S n))); try done; lia.
        -- intros va' Hva' Hlo'. rewrite Hpt3 by done.
           rewrite (mapped_at_next s s1) by (try lia; auto). by rewrite Z.sub_add.
Qed.

(** ** Other directories *)

(** Two directories share no page. *)
Definition apart (s : mm) (lo pd pd2 : Z) : Prop :=
  forall a, owns s lo pd2 a -> ~ owns s lo pd a.

Lemma owned_unchanged s s' lo pd pd2 a : steps lo pd s s' -> pd_wf s lo pd2 ->
  apart s lo pd pd2 -> owns s lo pd2 a -> words s' !! a = words s !! a.
Proof.
  intros Hst Hw Hap Ho. apply (st_frame _ _ _ _ Hst); [by apply Hap|].
  destruct Ho as [->|(i & Hi & Ht)]; [apply Hw|]. by eapply pw_tbl.
Qed.

(** An address space whose words are unchanged is unchanged. *)
Lemma untouched s s' lo pd2 : grows s s' -> pd_wf s lo pd2 ->
  (forall a, owns s lo pd2 a -> words s' !! a = words s !! a) ->
  pd_wf s' lo pd2 /\ (forall a, owns s' lo pd2 a -> owns s lo pd2 a) /\
  forall va, 0 <= va < 2 ^ 32 -> lo <= pde_index va -> pte_at s' pd2 va = pte_at s pd2 va.
Proof.
  intros Hg Hw Hsame. assert (Hlo := pw_lo _ _ _ Hw). assert (Hpa := pw_align _ _ _ Hw).
  assert (forall j, 0 <= j < 1024 -> tbl s' pd2 j = tbl s pd2 j) as Htb.
  { intros j Hj. unfold tbl. rewrite Hsame; [done|]. left. by apply page_of_word. }
  assert (forall i t j, lo <= i < 1024 -> tbl s pd2 i = Some t -> 0 <= j < 1024 ->
    words s' !! (t + 4 * j) = words s !! (t + 4 * j)) as Hword.
  { intros i t j Hi Ht Hj. apply Hsame. right. exists i.
    rewrite page_of_word by (try done; by eapply tbl_aligned). done. }
  assert (forall p, ~ kfree s p -> ~ kfree s' p) as Hkf.
  { intros p Hp Hp'. apply Hp. by eapply kfree_anti. }
  split_and!.
  - split; [done|done|apply Hw| |apply Hkf, Hw|..].
    + intros i Hi. rewrite Hsame by (left; by apply page_of_word). by apply Hw.
    + intros i t Hi. rewrite Htb by lia. intros Ht.
      destruct (pw_tbl _ _ _ Hw i t Hi Ht) as (? & ? & Hp & ?).
      split_and!; [lia..|done| |auto]. intros j Hj. rewrite (Hword i) by done. by apply Hp.
    + intros i j t Hi Hj. rewrite !Htb by lia. by apply Hw.
  - intros a [|(i & Hi & Ht)]; [by left|]. right. exists i. by rewrite <- Htb by lia.
  - intros va Hva Hge. pose proof (pde_index_range va Hva). unfold pte_at.
    rewrite Htb by lia. destruct (tbl s pd2 (pde_index va)) as [t|] eqn:Et; [|done].
    rewrite (Hword (pde_index va)); [done|lia|done|apply pte_index_range].
Qed.

Lemma isolated s s' lo pd pd2 : steps lo pd s s' -> pd_wf s lo pd2 -> apart s lo pd pd2 ->
  pd_wf s' lo pd2 /\
  forall va, 0 <= va < 2 ^ 32 -> lo <= pde_index va -> pte_at s' pd2 va = pte_at s pd2 va.
Proof.
  intros Hst Hw Hap. destruct (untouched s s' lo pd2) as (? & _ & ?); [apply Hst|done| |done].
  intros a. by eapply owned_unchanged.
Qed.

Lemma apart_steps s s' lo pd pd2 : steps lo pd s s' -> pd_wf s lo pd2 -> apart s lo pd pd2 ->
  apart s' lo pd pd2.
Proof.
  intros Hst Hw Hap a Ho2 Ho. assert (Hlo := pw_lo _ _ _ Hw). assert (owns s lo pd2 a) as Ho2'.
  { destruct Ho2 as [|(i & Hi & Ht)]; [by left|]. right. exists i. split; [done|].
    unfold tbl in Ht |- *. erewrite <- owned_unchanged; [exact Ht|done..|].
    left. apply page_of_word; [apply Hw|lia]. }
  destruct (st_owns _ _ _ _ Hst a Ho) as [H|H]; [by eapply Hap|].
  destruct Ho2' as [E|(i & Hi & Ht)]; [rewrite E in H; by apply Hw in H|].
  by destruct (pw_tbl _ _ _ Hw i _ Hi Ht) as (_ & _ & _ & []).
Qed.

(** [create_mem_map] on an address space.  Of the [page_count] pages asked
    for, the first [j] are not mapped.  The call maps exactly these, page by
    page, to consecutive physical pages with the permission asked for, and
    returns 0 if they are all, -1 otherwise; every other entry of the address
    space is unchanged, and so is every other address space.  New page tables
    are taken from free kernel pages only. *)
Theorem create_mem_map_spec (s : mm) (lo pd va pa n perm j : Z) :
  mm_ok s -> pd_wf s lo pd -> 0 <= n -> 0 <= va -> va mod 4096 = 0 -> lo <= pde_index va ->
  va + 4096 * n < 2 ^ 32 -> 0 <= pa -> pa + 4096 * n < 2 ^ 32 -> 0 <= perm < 4096 ->
  n <= avail (kernel_vir_addr_alloc s) -> unmapped s pd va j n ->
  exists s', create_mem_map s pd va pa n perm = Some (s', if j =? n then 0 else -1) /\
    mm_ok s' /\ pd_wf s' lo pd /\
    (forall va', 0 <= va' < 2 ^ 32 -> lo <= pde_index va' ->
       pte_at s' pd va' = mapped_at s pd va pa perm j va') /\
    (forall pd2, pd_wf s lo pd2 -> apart s lo pd pd2 ->
       pd_wf s' lo pd2 /\ apart s' lo pd pd2 /\
       forall va', 0 <= va' < 2 ^ 32 -> lo <= pde_index va' ->
         pte_at s' pd2 va' = pte_at s pd2 va') /\
    forall a, ~ owns s lo pd a -> ~ kfree s (page_of a) -> words s' !! a = words s !! a.
Proof.
  intros Hok Hw Hn H0 Ha Hlo Hlim Hpa Hplim Hperm Hav Hun. unfold create_mem_map.
  destruct (map_pages_ok lo pd perm Hperm (Z.to_nat n) 0 s va pa j)
    as (s' & va1 & pa1 & -> & Hst & _ & Hpt); rewrite ?Z2Nat.id by lia; try done.
  mstep. exists s'. split_and!; [by destruct (j =? n)|apply Hst..|done| |apply Hst].
  intros pd2 Hw2 Hap. destruct (isolated _ _ _ _ _ Hst Hw2 Hap).
  split_and!; [done|by eapply apart_steps|done].
Qed.

(** ** Translation *)

Lemma pte_range s lo pd va : pd_wf s lo pd -> 0 <= va < 2 ^ 32 -> lo <= pde_index va ->
  0 <= pte_at s pd va < 2 ^ 32.
Proof.
  intros Hw Hva Hlo. pose proof (pde_index_range va Hva). unfold pte_at.
  destruct (tbl s pd (pde_index va)) as [t|] eqn:Et; [|lia].
  destruct (pw_tbl _ _ _ Hw (pde_index va) t) as (_ & _ & Hp & _); [lia|done|].
  by destruct (Hp (pte_index va) (pte_index_range va)) as (v & -> & ?).
Qed.

(** The page of the translation is that of the entry. *)
Lemma vaddr2paddr_ok s lo pd va : pd_wf s lo pd -> 0 <= va < 2 ^ 32 -> lo <= pde_index va ->
  vaddr2paddr s pd va
  = Some (if present (pte_at s pd va)
          then (u32 (4096 * (pte_at s pd va / 4096) + Z.land 1023 va), true) else (ERR, false)).
Proof.
  intros Hw Hva Hlo. pose proof (pde_index_range va Hva). pose proof (pw_pos _ _ _ Hw).
  pose proof (pte_range _ _ _ _ Hw Hva Hlo) as Hr.
  unfold vaddr2paddr, get_pte, get_pde. destruct (Z.eqb_spec pd 0); [lia|].
  rewrite (pd_slot pd va (pw_pos _ _ _ Hw) (pw_align _ _ _ Hw) Hva).
  destruct (Z.eqb_spec (pd + 4 * pde_index va) 0); [lia|].
  destruct (pw_page _ _ _ Hw (pde_index va)) as (e & He & _); [lia|]. rewrite He. mstep.
  destruct (present e) eqn:Ep; cbn [negb].
  - assert (tbl s pd (pde_index va) = Some (pe_phy_addr (phy_page_addr e))) as Ht
      by (unfold tbl; by rewrite He; mstep; rewrite Ep).
    set (t := pe_phy_addr (phy_page_addr e)) in *.
    destruct (pw_tbl _ _ _ Hw (pde_index va) t) as (? & _); [lia|done|].
    destruct (pte_word _ _ _ _ _ Hw Hva Hlo Ht) as [Hwd Hnz].
    destruct (Z.eqb_spec t 0); [lia|].
    rewrite pt_slot by (try done; by eapply tbl_aligned).
    mstep. destruct (Z.eqb_spec (t + 4 * pte_index va) 0); [done|].
    rewrite Hwd. mstep. destruct (present (pte_at s pd va)); [|done].
    cbn [negb]. unfold phy_addr. by rewrite pe_base by done.
  - mstep. cbn [Z.eqb]. unfold pte_at, tbl. rewrite He. mstep. by rewrite Ep.
Qed.

(** The translation of an address in a page mapped by [create_mem_map] keeps
    only the low ten bits of the offset: the addresses [va + 1024 i] of a page
    all translate to its first byte. *)
Theorem vaddr2paddr_offset (s : mm) (lo pd va pa perm : Z) :
  pd_wf s lo pd -> 0 <= va < 2 ^ 32 -> lo <= pde_index va -> 0 <= pa < 2 ^ 32 ->
  pa mod 4096 = 0 -> 0 <= perm < 4096 -> pte_at s pd va = entry pa perm ->
  vaddr2paddr s pd va = Some (pa + va mod 1024, true).
Proof.
  intros Hw Hva Hlo Hpa Hal Hperm Hpt. rewrite (vaddr2paddr_ok s lo) by done.
  rewrite Hpt. destruct (entry_ok pa perm Hpa Hperm) as (_ & -> & ->).
  change 1023 with (Z.ones 10). rewrite Z.land_comm, Z.land_ones by lia.
  change (2 ^ 10) with 1024. do 2 f_equal. rewrite u32_small; [|revert Hal; divmod].
  revert Hal. divmod.
Qed.

(** ** Physical pages *)

Lemma alloc_step_ok r undo i s : alloc_wf (phy_get s r) -> length (paddrs s) = 1024%nat ->
  0 <= i < 1024 -> 0 < avail (phy_get s r) ->
  exists a1 k, alloc_page_step r undo i s
      = Some (with_paddrs (phy_put s r a1)
                (<[Z.to_nat i := page_addr (phy_get s r) k]> (paddrs s)), None) /\
    0 <= k < npages (phy_get s r) /\ taken (phy_get s r) k = false /\ alloc_wf a1 /\
    same_alloc (phy_get s r) a1 /\ avail a1 = avail (phy_get s r) - 1 /\
    forall j, taken a1 j = if j =? k then true else taken (phy_get s r) j.
Proof.
  intros Ha Hlen Hi Hav. unfold alloc_page_step, alloc_phy_mem. change (u32 1) with 1.
  destruct (avail_scan _ Ha Hav) as (k & a1 & -> & Hk & Hf & Hu & Huse & Hwf & Hsame & Hav1 & Hb).
  mstep. destruct (Z.ltb_spec k 0); [lia|]. rewrite Hu, Huse. mstep.
  pose proof (aw_start _ Ha). destruct (Z.ltb_spec (page_addr (phy_get s r) k) 0);
    [unfold page_addr in *; lia|].
  replace (paddrs (phy_put s r a1)) with (paddrs s) by (by destruct r).
  rewrite zset_is_Some by (unfold zlen; lia). mstep. exists a1, k. done.
Qed.

Lemma alloc_pages_ok r undo n : forall i s, alloc_wf (phy_get s r) ->
  length (paddrs s) = 1024%nat -> 0 <= i -> i + Z.of_nat n <= 1024 ->
  Z.of_nat n <= avail (phy_get s r) ->
  exists a' ps ks, for_ret n i (alloc_page_step r undo) s
      = Some (with_paddrs (phy_put s r a') ps, None) /\
    alloc_wf a' /\ same_alloc (phy_get s r) a' /\ length ps = 1024%nat /\
    length ks = n /\ NoDup ks /\
    (forall k, k ∈ ks -> 0 <= k < npages (phy_get s r) /\ taken (phy_get s r) k = false) /\
    (forall j, taken a' j = bool_decide (j ∈ ks) || taken (phy_get s r) j) /\
    (forall j k, ks !! j = Some k ->
       ps !! (Z.to_nat i + j)%nat = Some (page_addr (phy_get s r) k)) /\
    (forall j, (j < Z.to_nat i)%nat -> ps !! j = paddrs s !! j).
Proof.
  induction n as [|n IH]; intros i s Ha Hlen Hi Hlim Hav; cbn [for_ret].
  - exists (phy_get s r), (paddrs s), []. rewrite phy_put_get.
    split_and!; try done; [by destruct s|constructor|set_solver].
  - destruct (alloc_step_ok r undo i s) as (a1 & k & -> & Hk & Hf & Hwf & Hsame & Hav1 & Hb);
      [done|done|lia..|]. mstep.
    set (s1 := with_paddrs (phy_put s r a1) _).
    assert (phy_get s1 r = a1) as Hg by (by destruct r).
    destruct (IH (i + 1) s1) as (a' & ps & ks & -> & Hwf' & Hsame' & Hps & Hks & Hnd & Hfree & Htk & Hat & Hlow);
      rewrite ?Hg in *; [done|cbn; by rewrite length_insert|lia..|].
    assert (k ∉ ks) as Hnk.
    { intros Hin. destruct (Hfree k Hin) as [_ Hc]. rewrite Hb, Z.eqb_refl in Hc. done. }
    exists a', ps, (k :: ks). split_and!.
    + by destruct r.
    + done.
    + by etrans.
    + done.
    + cbn. lia.
    + by constructor.
    + intros k' [->|Hin]%elem_of_cons; [done|]. destruct (Hfree k' Hin) as [Hr Hc].
      rewrite (same_alloc_npages _ _ Hsame) in Hr. rewrite Hb in Hc.
      by destruct (k' =? k).
    + intros j. rewrite Htk, Hb. destruct (Z.eqb_spec j k) as [->|Hne].
      * rewrite orb_true_r. symmetry. by rewrite bool_decide_eq_true_2 by set_solver.
      * f_equal. apply bool_decide_ext. set_solver.
    + intros [|j] k' Hj; cbn in Hj.
      * injection Hj as <-. rewrite Nat.add_0_r, Hlow by lia. cbn.
        rewrite list_lookup_insert_eq by lia. done.
      * replace (Z.to_nat i + S j)%nat with (Z.to_nat (i + 1) + j)%nat by lia.
        rewrite (Hat j k' Hj). by rewrite (same_alloc_addr _ _ _ Hsame).
    + intros j Hj. rewrite Hlow by lia. cbn. rewrite list_lookup_insert_ne by lia.
      by destruct r.
Qed.

(** ** Mapping pages that are not contiguous *)

Definition USER_PERM : Z := Z.lor PTE_W PTE_U.

Lemma down2_aligned x : 0 <= x < 2 ^ 32 -> x mod 4096 = 0 -> down2 x MEM_PAGE_SIZE = x.
Proof.
  intros Hx Ha. unfold down2. change MEM_PAGE_SIZE with 4096. rewrite Ha, Z.sub_0_r.
  by apply u32_small.
Qed.

(** One page of a user directory. *)
Lemma map_mem_one s lo pd va pa : mm_ok s -> pd_wf s lo pd -> pd <> kernel_page_dir s ->
  0 <= va -> va mod 4096 = 0 -> lo <= pde_index va -> va + 4096 < 2 ^ 32 ->
  0 <= pa -> pa mod 4096 = 0 -> pa + 4096 < 2 ^ 32 ->
  0 < avail (kernel_vir_addr_alloc s) -> present (pte_at s pd va) = false ->
  exists s', map_mem s pd va pa 1 true = Some (s', va) /\ steps lo pd s s' /\
    avail (kernel_vir_addr_alloc s) - 1 <= avail (kernel_vir_addr_alloc s') /\
    forall va', 0 <= va' < 2 ^ 32 -> lo <= pde_index va' ->
      pte_at s' pd va' = if va' / 4096 =? va / 4096 then entry pa USER_PERM else pte_at s pd va'.
Proof.
  intros Hok Hw Hk H0 Ha Hlo Hlim Hp0 Hpa Hplim Hav Hnp. unfold map_mem.
  rewrite !down2_aligned by (try done; lia). change (Z.to_nat 1) with 1%nat. cbn [for_ret].
  rewrite (vaddr2paddr_ok s lo) by (try done; lia). rewrite Hnp. mstep.
  destruct (Z.eqb_spec pd (kernel_page_dir s)); [done|]. fold USER_PERM.
  unfold create_mem_map. change (Z.to_nat 1) with 1%nat. cbn [for_ret].
  destruct (create_step s lo pd va pa USER_PERM 0) as (s' & Hst & Hav' & Hstep);
    [done..|lia|done|lia|lia|done|].
  rewrite Hnp in Hstep. destruct Hstep as [-> Hpt]. mstep. cbn [default nz Z.eqb negb].
  change MEM_PAGE_SIZE with 4096. exists s'. done.
Qed.

Section MapPaddrs.
Context (lo pd ret : Z).

Lemma map_paddrs_ok n : forall i s va (ps : nat -> Z),
  mm_ok s -> pd_wf s lo pd -> pd <> kernel_page_dir s ->
  0 <= i -> 0 <= va -> va mod 4096 = 0 -> lo <= pde_index va ->
  va + 4096 * Z.of_nat n < 2 ^ 32 ->
  (forall q, (q < n)%nat -> 0 <= ps q /\ ps q mod 4096 = 0 /\ ps q + 4096 < 2 ^ 32) ->
  (forall q, (q < n)%nat -> paddrs s !! (Z.to_nat i + q)%nat = Some (ps q)) ->
  Z.of_nat n <= avail (kernel_vir_addr_alloc s) ->
  (forall q, 0 <= q < Z.of_nat n -> present (pte_at s pd (va + 4096 * q)) = false) ->
  exists s' va1, for_ret n i (map_paddr_step pd ret true) (s, va) = Some (s', va1, None) /\
    steps lo pd s s' /\
    forall va', 0 <= va' < 2 ^ 32 -> lo <= pde_index va' ->
      pte_at s' pd va' = if (va <=? va') && (va' <? va + 4096 * Z.of_nat n)
        then entry (ps (Z.to_nat ((va' - va) / 4096))) USER_PERM else pte_at s pd va'.
Proof.
  induction n as [|n IH]; intros i s va ps Hok Hw Hk Hi H0 Ha Hlo Hlim Hps Hat Hav Hun;
    cbn [for_ret].
  - exists s, va. split_and!; [done|by apply steps_refl|]. intros va' _ _.
    destruct (Z.leb_spec va va'), (Z.ltb_spec va' (va + 4096 * Z.of_nat 0)); cbn; try done; lia.
  - destruct (Hps 0%nat) as (Hp0 & Hpa & Hpl); [lia|].
    assert (present (pte_at s pd va) = false) as Hnp.
    { rewrite <- (Z.add_0_r va), <- (Z.mul_0_r 4096). apply Hun. lia. }
    destruct (map_mem_one s lo pd va (ps 0%nat)) as (s1 & Hm & Hst1 & Hav1 & Hpt1);
      [done|done|done|done|done|done|lia|done|done|done|lia|done|].
    assert (map_paddr_step pd ret true i (s, va) = Some (s1, va + 4096, None)) as ->.
    { unfold map_paddr_step. rewrite <- (Z2Nat.id i), zget_nat by lia.
      rewrite <- (Nat.add_0_r (Z.to_nat i)), Hat by lia. mstep. rewrite Hm. mstep.
      destruct (Z.ltb_spec va 0); [lia|]. change MEM_PAGE_SIZE with 4096.
      by rewrite u32_small by lia. }
    mstep. pose proof (pde_index_mono va (va + 4096)).
    destruct (IH (i + 1) s1 (va + 4096) (fun q => ps (S q))) as (s2 & va2 & -> & Hst2 & Hpt2).
    + apply Hst1.
    + apply Hst1.
    + destruct (gr_kpd _ _ (st_grows _ _ _ _ Hst1)) as [-> _]. done.
    + lia.
    + lia.
    + revert Ha. divmod.
    + lia.
    + lia.
    + intros q Hq. apply Hps. lia.
    + intros q Hq. rewrite (gr_paddrs _ _ (st_grows _ _ _ _ Hst1)) by lia.
      replace (Z.to_nat (i + 1) + q)%nat with (Z.to_nat i + S q)%nat by lia. apply Hat. lia.
    + lia.
    + intros q Hq. rewrite Hpt1 by (pose proof (pde_index_mono va (va + 4096 + 4096 * q)); lia).
      destruct (Z.eqb_spec ((va + 4096 + 4096 * q) / 4096) (va / 4096)) as [E|E].
      { exfalso. revert E Ha. divmod. }
      replace (va + 4096 + 4096 * q) with (va + 4096 * (q + 1)) by lia. apply Hun. lia.
    + exists s2, va2. split_and!; [done|by eapply steps_trans|]. intros va' Hva' Hlo'.
      rewrite Hpt2, Hpt1 by done.
      destruct (Z.eqb_spec (va' / 4096) (va / 4096)) as [E|E],
        (Z.leb_spec (va + 4096) va'), (Z.ltb_spec va' (va + 4096 + 4096 * Z.of_nat n)),
        (Z.leb_spec va va'), (Z.ltb_spec va' (va + 4096 * Z.of_nat (S n)));
        cbn [andb]; try lia; try done; try (exfalso; revert E Ha; divmod).
      * do 2 f_equal. replace ((va' - va) / 4096) with 0; [done|]. revert E Ha. divmod.
      * do 2 f_equal. replace (va' - va) with ((va' - (va + 4096)) + 1 * 4096) by lia.
        rewrite Z.div_add by lia.
        assert (0 <= (va' - (va + 4096)) / 4096) by (apply Z.div_pos; lia). lia.
Qed.

End MapPaddrs.

(** ** malloc_mem for a task *)

(** The virtual allocator of a task agrees with its directory: a page it
    regards as free is not mapped. *)
Record task_ok (s : mm) (lo t pd : Z) (a : addr_alloc_t) : Prop := {
  to_get : task_vir s !! t = Some a;
  to_wf : alloc_wf a;
  to_bits : bits_addr a <> bits_addr (kernel_vir_addr_alloc s);
  to_lo : lo <= pde_index (start a);
  to_pd : pd <> kernel_page_dir s;
  to_free : forall k, 0 <= k <= npages a -> taken a k = false ->
    present (pte_at s pd (page_addr a k)) = false;
}.

(** [n] free consecutive pages exist. *)
Definition has_run (a : addr_alloc_t) (n : Z) : Prop :=
  exists k, 0 <= k /\ k + n <= npages a /\ forall i, k <= i < k + n -> taken a i = false.

(** The state after a task's allocator, the user pages and the scratch array
    were updated. *)
Definition updated (s : mm) (t : Z) (a u : addr_alloc_t) (ps : list Z) : mm :=
  with_paddrs (with_uphy (with_tvir s (<[t := a]> (task_vir s))) u) ps.

Lemma updated_mm_ok s t a u ps : mm_ok s -> alloc_wf u -> length ps = 1024%nat ->
  mm_ok (updated s t a u ps).
Proof. intros [] Hu Hl. by split. Qed.

Lemma updated_pd_wf s t a u ps lo pd : pd_wf s lo pd -> pd_wf (updated s t a u ps) lo pd.
Proof. intros []. by split. Qed.

(** A run of virtual pages [r], ..., [r + n - 1] and the physical pages [ks]
    taken for it. *)
Record taken_run (s : mm) (a a' u u' : addr_alloc_t) (n r : Z) (ks : list Z) : Prop := {
  tr_r : 0 <= r /\ r + n <= npages a + (if n =? 1 then 0 else 1);
  tr_vfree : forall i, r <= i < r + n -> taken a i = false;
  tr_vtaken : forall j, taken a' j = if (r <=? j) && (j <? r + n) then true else taken a j;
  tr_vwf : alloc_wf a' /\ same_alloc a a';
  tr_len : Z.of_nat (length ks) = n;
  tr_nodup : NoDup ks;
  tr_pfree : forall k, k ∈ ks -> 0 <= k < npages u /\ taken u k = false;
  tr_ptaken : forall j, taken u' j = bool_decide (j ∈ ks) || taken u j;
  tr_pwf : alloc_wf u' /\ same_alloc u u';
}.

Lemma alloc_mem_page_ok s lo t pd a n : mm_ok s -> task_ok s lo t pd a ->
  1 <= n <= 1024 -> n <= avail (user_phy_addr_alloc s) -> has_run a n ->
  exists a' u' ps r ks,
    alloc_mem_page s (TaskVir t) n = Some (updated s t a' u' ps, 0, page_addr a r) /\
    taken_run s a a' (user_phy_addr_alloc s) u' n r ks /\ length ps = 1024%nat /\
    forall q k, ks !! q = Some k -> ps !! q = Some (page_addr (user_phy_addr_alloc s) k).
Proof.
  intros Hok Ht Hn Hav (k0 & Hk0 & Hk1 & Hrun). pose proof (to_wf _ _ _ _ _ Ht) as Ha.
  unfold alloc_mem_page, alloc_vir_mem. cbn [vir_get]. rewrite (to_get _ _ _ _ _ Ht). mstep.
  unfold phy_for. destruct (Z.eqb_spec (bits_addr a) (bits_addr (kernel_vir_addr_alloc s)));
    [by destruct (to_bits _ _ _ _ _ Ht)|].
  rewrite (u32_small n) by lia.
  destruct (scan_use_ok a n Ha) as (r & -> & Hres); [lia|]. mstep.
  destruct Hres as [[-> Hall]|(H0 & Hr & Hc & Hu & a' & Huse & Hwf & Hsame & Hb)].
  { exfalso. destruct (Hall k0 Hk0 Hk1) as (i & Hi & Hti). rewrite Hrun in Hti by lia. done. }
  destruct (Z.ltb_spec r 0); [lia|]. rewrite Hu, Huse. mstep. cbn [vir_put].
  pose proof (aw_start _ Ha). destruct (Z.ltb_spec (page_addr a r) 0);
    [unfold page_addr in *; lia|].
  match goal with |- context [alloc_page_step UserPhy ?f] => set (undo := f) end.
  destruct (alloc_pages_ok UserPhy undo (Z.to_nat n) 0 (with_tvir s (<[t := a']> (task_vir s))))
    as (u' & ps & ks & -> & Hu' & Husame & Hpl & Hks & Hnd & Hfree & Htk & Hat & _);
    [apply Hok|apply Hok|lia|lia|cbn; lia|].
  mstep. cbn [default]. exists a', u', ps, r, ks. split_and!; [done| |done|].
  - split; [|done|done|done|lia|done|done|done|done].
    done.
  - intros q k Hq. exact (Hat q k Hq).
Qed.

(** The mapping of the pages a run took. *)
Lemma map_run_ok s lo t pd a a' u' ps n r ks : mm_ok s -> pd_wf s lo pd ->
  task_ok s lo t pd a -> 1 <= n <= 1024 -> n <= avail (kernel_vir_addr_alloc s) ->
  taken_run s a a' (user_phy_addr_alloc s) u' n r ks -> length ps = 1024%nat ->
  (forall q k, ks !! q = Some k -> ps !! q = Some (page_addr (user_phy_addr_alloc s) k)) ->
  exists s', map_mem_page (updated s t a' u' ps) pd (page_addr a r) n true
             = Some (s', page_addr a r) /\
    steps lo pd (updated s t a' u' ps) s' /\
    forall va, 0 <= va < 2 ^ 32 -> lo <= pde_index va ->
       pte_at s' pd va
       = if (page_addr a r <=? va) && (va <? page_addr a r + 4096 * n)
         then entry (page_addr u' (default 0 (ks !! Z.to_nat ((va - page_addr a r) / 4096)))) USER_PERM
         else pte_at s pd va.
Proof.
  intros Hok Hw Ht Hn Hkv Htr Hpl Hat. pose proof (to_wf _ _ _ _ _ Ht) as [? ? Hpg Hst Hal Hend].
  destruct (tr_r _ _ _ _ _ _ _ _ Htr) as [Hr0 Hr1]. destruct (tr_pwf _ _ _ _ _ _ _ _ Htr) as [Hu' Hus].
  assert (r + n <= 8 * bytes_len (bitmap a) + 1) by (unfold npages in Hr1; cif_in Hr1; lia).
  pose proof (tr_len _ _ _ _ _ _ _ _ Htr) as Hlen.
  pose proof (to_lo _ _ _ _ _ Ht). pose proof (pde_index_mono (start a) (page_addr a r)) as Hidx.
  assert (0 <= page_addr a r /\ page_addr a r mod 4096 = 0 /\ page_addr a r + 4096 * n < 2 ^ 32
    /\ start a <= page_addr a r) as (Hv0 & Hva & Hvl & Hvs).
  { unfold page_addr. split_and!; [lia|revert Hal; divmod|lia|lia]. }
  specialize (Hidx Hvs).
  destruct (map_paddrs_ok lo pd (page_addr a r) (Z.to_nat n) 0 (updated s t a' u' ps) (page_addr a r)
    (fun q => page_addr u' (default 0 (ks !! q)))) as (s2 & va2 & Hmap & Hst2 & Hpt);
    [by apply updated_mm_ok|by apply updated_pd_wf|apply Ht|done|done|done|lia|lia|..].
  - intros q Hq. destruct (lookup_lt_is_Some_2 ks q) as [k Hk]; [lia|].
    rewrite Hk. change (default 0 (Some k)) with k. destruct Hu' as [_ _ _ ? ? ?].
    destruct (tr_pfree _ _ _ _ _ _ _ _ Htr k) as [Hk' _]; [by eapply list_elem_of_lookup_2|].
    rewrite <- (same_alloc_npages _ _ Hus) in Hk'.
    unfold page_addr, npages in *. split_and!; [lia|divmod|lia].
  - intros q Hq. destruct (lookup_lt_is_Some_2 ks q) as [k Hk]; [lia|].
    rewrite Hk. change (default 0 (Some k)) with k. rewrite (same_alloc_addr _ _ _ Hus). exact (Hat q k Hk).
  - cbn. lia.
  - intros q Hq. replace (page_addr a r + 4096 * q) with (page_addr a (r + q)) by (unfold page_addr; lia).
    apply (to_free _ _ _ _ _ Ht); [unfold npages; lia|].
    apply (tr_vfree _ _ _ _ _ _ _ _ Htr). lia.
  - exists s2. rewrite Z2Nat.id in Hpt by lia. split_and!; [|done|done].
    unfold map_mem_page. change MALLOC_MAX_PAGE with 1024. destruct (Z.ltb_spec 1024 n); [lia|].
    rewrite down2_aligned by (try done; lia). rewrite Hmap. done.
Qed.

(** A task stays consistent when a run of its pages is taken and mapped. *)
Lemma task_ok_run s s' lo t pd a a' u u' ps n r ks :
  task_ok s lo t pd a -> taken_run s a a' u u' n r ks ->
  steps lo pd (updated s t a' u' ps) s' ->
  (forall va, 0 <= va < 2 ^ 32 -> lo <= pde_index va ->
     pte_at s' pd va
     = if (page_addr a r <=? va) && (va <? page_addr a r + 4096 * n)
       then entry (page_addr u' (default 0 (ks !! Z.to_nat ((va - page_addr a r) / 4096)))) USER_PERM
       else pte_at s pd va) ->
  task_ok s' lo t pd a'.
Proof.
  intros Ht Htr Hst Hpt. pose proof (st_grows _ _ _ _ Hst) as Hg.
  destruct (tr_vwf _ _ _ _ _ _ _ _ Htr) as [Ha' Hsa].
  pose proof Hsa as (Hs1 & Hs2 & Hs3 & Hs4).
  pose proof (to_wf _ _ _ _ _ Ht) as [? ? Hpg Hst0 Hal Hend].
  split.
  - rewrite (gr_task _ _ Hg). cbn. apply lookup_insert_eq.
  - done.
  - rewrite Hs3. destruct (gr_same _ _ Hg) as (_ & _ & -> & _). apply Ht.
  - rewrite Hs1. apply Ht.
  - destruct (gr_kpd _ _ Hg) as [-> _]. apply Ht.
  - intros k Hk. rewrite (tr_vtaken _ _ _ _ _ _ _ _ Htr).
    rewrite (same_alloc_npages _ _ Hsa) in Hk. rewrite (same_alloc_addr _ _ _ Hsa).
    pose proof (to_lo _ _ _ _ _ Ht). pose proof (pde_index_mono (start a) (page_addr a k)).
    unfold npages, page_addr in *.
    rewrite Hpt by (unfold page_addr; lia).
    destruct (Z.leb_spec r k), (Z.ltb_spec k (r + n)), (Z.leb_spec (start a + 4096 * r) (start a + 4096 * k)),
      (Z.ltb_spec (start a + 4096 * k) (start a + 4096 * r + 4096 * n)); cbn [andb];
      try done; try lia; intros Hf; apply (to_free _ _ _ _ _ Ht); unfold npages; try done; lia.
Qed.

(** What [malloc_mem] of [n] pages did: the run [r] and the physical pages [ks]
    were taken, page [i] of the run is mapped to page [ks !! i], and no other
    entry of this or of another address space changed. *)
Record malloc_post (s : mm) (lo t pd : Z) (a : addr_alloc_t) (n : Z)
    (s' : mm) (a' : addr_alloc_t) (r : Z) (ks : list Z) : Prop := {
  mp_run : taken_run s a a' (user_phy_addr_alloc s) (user_phy_addr_alloc s') n r ks;
  mp_task : task_vir s' = <[t := a']> (task_vir s);
  mp_ok : mm_ok s';
  mp_wf : pd_wf s' lo pd;
  mp_task_ok : task_ok s' lo t pd a';
  mp_pte : forall va, 0 <= va < 2 ^ 32 -> lo <= pde_index va ->
    pte_at s' pd va
    = if (page_addr a r <=? va) && (va <? page_addr a r + 4096 * n)
      then entry (page_addr (user_phy_addr_alloc s')
                    (default 0 (ks !! Z.to_nat ((va - page_addr a r) / 4096)))) USER_PERM
      else pte_at s pd va;
  mp_others : forall pd2, pd_wf s lo pd2 -> apart s lo pd pd2 ->
    pd_wf s' lo pd2 /\ forall va, 0 <= va < 2 ^ 32 -> lo <= pde_index va ->
      pte_at s' pd2 va = pte_at s pd2 va;
}.

Lemma malloc_ok s lo t pd a n :
  mm_ok s -> pd_wf s lo pd -> task_ok s lo t pd a -> 1 <= n <= 1024 ->
  n <= avail (user_phy_addr_alloc s) -> n <= avail (kernel_vir_addr_alloc s) -> has_run a n ->
  exists s' a' r ks, malloc_mem s pd (TaskVir t) n = Some (s', page_addr a r) /\
    malloc_post s lo t pd a n s' a' r ks.
Proof.
  intros Hok Hw Ht Hn Hup Hkv Hrun.
  destruct (alloc_mem_page_ok s lo t pd a n) as (a' & u' & ps & r & ks & Halloc & Htr & Hpl & Hat);
    [done..|].
  destruct (map_run_ok s lo t pd a a' u' ps n r ks) as (s2 & Hmap & Hst & Hpt); [done..|].
  pose proof (st_grows _ _ _ _ Hst) as Hg. pose proof (gr_uphy _ _ Hg) as Hu.
  cbn [updated with_paddrs with_uphy user_phy_addr_alloc] in Hu.
  exists s2, a', r, ks. split.
  - unfold malloc_mem. change MALLOC_MAX_PAGE with 1024. destruct (Z.ltb_spec 1024 n); [lia|].
    rewrite Halloc. mstep. cbn [nz Z.eqb negb]. by rewrite bool_decide_eq_true_2, Hmap by done.
  - split; rewrite ?Hu; [done|by rewrite (gr_task _ _ Hg)|apply Hst|apply Hst|by eapply task_ok_run|done|].
    intros pd2 Hw2 Hap.
    by apply (isolated (updated s t a' u' ps) s2 lo pd pd2 Hst); [apply updated_pd_wf|].
Qed.

(** C37: [malloc_mem] for a task.  With [n] consecutive free virtual pages,
    [n] free physical pages and enough kernel pages for the page tables, it
    returns the address of [n] virtual pages that were free, marks exactly
    these as used, and maps page [i] to the physical page [ks !! i]; the
    physical pages are distinct, were free and are marked used, and no other
    entry of this or of any other address space changes.  The allocations of
    page tables nested in the mapping loop overwrite the shared array
    [paddrs], without effect on the result. *)
Theorem malloc_mem_spec (s : mm) (lo t pd : Z) (a : addr_alloc_t) (n : Z) :
  mm_ok s -> pd_wf s lo pd -> task_ok s lo t pd a -> 1 <= n <= 1024 ->
  n <= avail (user_phy_addr_alloc s) -> n <= avail (kernel_vir_addr_alloc s) -> has_run a n ->
  exists s' a' r ks, malloc_mem s pd (TaskVir t) n = Some (s', page_addr a r) /\
    malloc_post s lo t pd a n s' a' r ks.
Proof. apply malloc_ok. Qed.

(** ** unmalloc_mem of one page *)

Lemma clearbit_range e : 0 <= e < 2 ^ 32 -> 0 <= Z.clearbit e 0 < 2 ^ 32.
Proof.
  intros He. rewrite Z.clearbit_spec', Z.ldiff_land. by apply land_bound.
Qed.

Lemma unmap_one s lo pd va : mm_ok s -> pd_wf s lo pd -> 0 <= va < 2 ^ 32 - 4096 ->
  va mod 4096 = 0 -> lo <= pde_index va -> present (pte_at s pd va) = true ->
  exists s', unmap_mem s pd va 1 = Some s' /\ steps lo pd s s' /\
    kernel_vir_addr_alloc s' = kernel_vir_addr_alloc s /\
    forall va', 0 <= va' < 2 ^ 32 -> lo <= pde_index va' ->
      pte_at s' pd va' = if va' / 4096 =? va / 4096 then Z.clearbit (pte_at s pd va) 0
                         else pte_at s pd va'.
Proof.
  intros Hok Hw Hva Ha Hlo Hp. assert (0 <= va < 2 ^ 32) as Hva' by lia.
  assert (exists t, tbl s pd (pde_index va) = Some t) as [t Ht].
  { unfold pte_at in Hp. destruct (tbl s pd (pde_index va)); [eauto|done]. }
  pose proof (find_pte_present s lo pd va t Hw Hva' Hlo Ht) as Hf.
  destruct (pte_word _ _ _ _ _ Hw Hva' Hlo Ht) as [Hwd Hnz].
  destruct (set_pte_ok s lo pd va t (Z.clearbit (pte_at s pd va) 0))
    as (s' & Hs & Hst & Hk & _ & Hpt); [done..|by apply clearbit_range, (pte_range s lo)|].
  exists s'. split_and!; [|done|done|done].
  unfold unmap_mem. rewrite down2_aligned by done. change (Z.to_nat 1) with 1%nat. cbn [for_].
  assert (find_pte s pd va false = Some (s, t + 4 * pte_index va)) as ->.
  { revert Hf. unfold find_pte_alloc, find_pte.
    rewrite (pd_slot pd va (pw_pos _ _ _ Hw) (pw_align _ _ _ Hw) Hva').
    destruct (tbl_inv _ _ _ _ Ht) as (e & -> & He & _). mstep. by rewrite He. }
  mstep. destruct (Z.eqb_spec (t + 4 * pte_index va) 0); [done|].
  rewrite Hwd. mstep. rewrite Hs. done.
Qed.

Lemma unmalloc_ok s lo t pd a k kp : mm_ok s -> pd_wf s lo pd -> task_ok s lo t pd a ->
  0 <= k < npages a -> 0 <= kp < npages (user_phy_addr_alloc s) ->
  pte_at s pd (page_addr a k) = entry (page_addr (user_phy_addr_alloc s) kp) USER_PERM ->
  exists s' a', unmalloc_mem s pd (TaskVir t) (page_addr a k) 1 = Some (s', None) /\
    task_vir s' !! t = Some a' /\
    (forall j, taken a' j = if j =? k then false else taken a j) /\
    (forall j, taken (user_phy_addr_alloc s') j
               = if j =? kp then false else taken (user_phy_addr_alloc s) j) /\
    (forall va, 0 <= va < 2 ^ 32 -> lo <= pde_index va ->
       present (pte_at s' pd va)
       = if va / 4096 =? page_addr a k / 4096 then false else present (pte_at s pd va)).
Proof.
  intros Hok Hw Ht Hk Hkp Hpt. set (u := user_phy_addr_alloc s) in *.
  pose proof (to_wf _ _ _ _ _ Ht) as Ha. pose proof Ha as [_ _ _ Hs0 Hal Hend].
  pose proof (ok_uphy _ Hok) as Hu. pose proof Hu as [_ _ _ Hu0 Hua Hue]. fold u in Hu0, Hua, Hue, Hu.
  pose proof (to_lo _ _ _ _ _ Ht). pose proof (pde_index_mono (start a) (page_addr a k)).
  assert (0 <= page_addr u kp < 2 ^ 32 /\ page_addr u kp mod 4096 = 0) as [Hpr Hpa].
  { unfold page_addr, npages in *. split; [lia|divmod]. }
  assert (0 <= page_addr a k < 2 ^ 32 - 4096 /\ page_addr a k mod 4096 = 0) as [Hvr Hva].
  { unfold page_addr, npages in *. split; [lia|divmod]. }
  assert (start a <= page_addr a k) as Hge by (unfold page_addr; lia).
  destruct (entry_ok (page_addr u kp) USER_PERM) as (Her & Hep & Hed); [done|done|].
  unfold unmalloc_mem, unalloc_mem. rewrite (vaddr2paddr_ok s lo) by (try done; lia).
  rewrite Hpt, Hep, Hed. mstep. cbn [negb].
  replace (u32 _) with (page_addr u kp).
  2: { change 1023 with (Z.ones 10). rewrite Z.land_comm, Z.land_ones by lia.
       replace (page_addr a k mod 2 ^ 10) with 0 by (change (2 ^ 10) with 1024; revert Hva; divmod).
       rewrite u32_small; revert Hpa; divmod. }
  unfold free_phy_mem, get_phy_addr_alloc. fold u.
  destruct (Z.ltb_spec (page_addr u kp) (start u)); [unfold page_addr in *; lia|].
  cbn [phy_get phy_put]. fold u.
  destruct (mem_use_ok u kp 1 0) as (u' & -> & Hu' & Hus & Hub); [done|lia..|]. mstep.
  cbn [nz Z.eqb negb]. unfold free_vir_mem. cbn [vir_get with_uphy task_vir].
  rewrite (to_get _ _ _ _ _ Ht). mstep.
  destruct (mem_use_ok a k 1 0) as (a' & -> & Ha' & Has & Hab); [done|lia..|]. mstep.
  cbn [vir_put nz Z.eqb negb with_uphy with_tvir kernel_page_dir task_vir].
  destruct (Z.eqb_spec pd (kernel_page_dir s)); [by destruct (to_pd _ _ _ _ _ Ht)|]. cbn [negb].
  set (s1 := with_tvir (with_uphy s u') _).
  assert (mm_ok s1) as Hok1 by (destruct Hok; by split).
  assert (pd_wf s1 lo pd) as Hw1 by (destruct Hw; by split).
  assert (pte_at s1 pd (page_addr a k) = entry (page_addr u kp) USER_PERM) as Hpt1 by exact Hpt.
  destruct (unmap_one s1 lo pd (page_addr a k)) as (s2 & -> & Hst & _ & Hpt2);
    [done|done|lia|done|lia|by rewrite Hpt1|]. mstep.
  exists s2, a'. split; [done|]. pose proof (st_grows _ _ _ _ Hst) as Hg. split_and!.
  - rewrite (gr_task _ _ Hg). cbn. apply lookup_insert_eq.
  - intros j. rewrite Hab. destruct (Z.eqb_spec j k), (Z.leb_spec k j), (Z.ltb_spec j (k + 1));
      try done; lia.
  - intros j. rewrite (gr_uphy _ _ Hg). cbn. rewrite Hub.
    destruct (Z.eqb_spec j kp), (Z.leb_spec kp j), (Z.ltb_spec j (kp + 1)); try done; lia.
  - intros va Hva0 Hlo0. rewrite Hpt2 by done.
    destruct (va / 4096 =? page_addr a k / 4096); [|done].
    unfold present. apply Z.clearbit_eq.
Qed.

(** What a task allocates it can give back: [unmalloc_mem] of a page
    returned by [malloc_mem] frees exactly the virtual and the physical page
    that were taken and removes the mapping. *)
Theorem malloc_unmalloc (s : mm) (lo t pd : Z) (a : addr_alloc_t) :
  mm_ok s -> pd_wf s lo pd -> task_ok s lo t pd a ->
  1 <= avail (user_phy_addr_alloc s) -> 1 <= avail (kernel_vir_addr_alloc s) -> has_run a 1 ->
  exists s1 va s2 a2, malloc_mem s pd (TaskVir t) 1 = Some (s1, va) /\
    unmalloc_mem s1 pd (TaskVir t) va 1 = Some (s2, None) /\
    task_vir s2 !! t = Some a2 /\ (forall j, taken a2 j = taken a j) /\
    (forall j, taken (user_phy_addr_alloc s2) j = taken (user_phy_addr_alloc s) j) /\
    forall va', 0 <= va' < 2 ^ 32 -> lo <= pde_index va' ->
      present (pte_at s2 pd va') = present (pte_at s pd va').
Proof.
  intros Hok Hw Ht Hup Hkv Hrun.
  destruct (malloc_ok s lo t pd a 1) as (s1 & a1 & r & ks & Hm & [Htr Htv Hok1 Hw1 Ht1 Hpt1 _]);
    [done..|lia|done|done|done|].
  destruct Htr as [Hr Hvf Hvt [Ha1 Hsa] Hlen Hnd Hpf Hpt [Hu1 Hus]]. cbn in Hr.
  destruct ks as [|kp [|]]; cbn in Hlen; try lia.
  destruct (Hpf kp) as [Hkp Hkpf]; [set_solver|].
  pose proof (to_wf _ _ _ _ _ Ht) as [_ _ _ Hs0 Hal Hend].
  assert (0 <= page_addr a r < 2 ^ 32 /\ lo <= pde_index (page_addr a r) /\
    page_addr a r mod 4096 = 0) as (Hvr & Hvl & Hva).
  { unfold npages in Hr. pose proof (to_lo _ _ _ _ _ Ht).
    pose proof (pde_index_mono (start a) (page_addr a r)).
    unfold page_addr in *. split_and!; [lia|lia|lia|revert Hal; divmod]. }
  destruct (unmalloc_ok s1 lo t pd a1 r kp) as (s2 & a2 & Hum & Hg2 & Hv2 & Hp2 & Hpr2);
    [done..|rewrite (same_alloc_npages _ _ Hsa); lia|by rewrite (same_alloc_npages _ _ Hus)| |].
  { rewrite (same_alloc_addr _ _ _ Hsa), Hpt1 by done.
    destruct (Z.leb_spec (page_addr a r) (page_addr a r)),
      (Z.ltb_spec (page_addr a r) (page_addr a r + 4096 * 1)); try lia.
    cbn [andb]. by rewrite Z.sub_diag. }
  rewrite (same_alloc_addr _ _ _ Hsa) in Hum, Hpr2.
  exists s1, (page_addr a r), s2, a2. split_and!; [done|done|done| | |].
  - intros j. rewrite Hv2, Hvt. destruct (Z.eqb_spec j r) as [->|].
    + symmetry. apply Hvf. lia.
    + destruct (Z.leb_spec r j), (Z.ltb_spec j (r + 1)); try done; lia.
  - intros j. rewrite Hp2, Hpt. destruct (Z.eqb_spec j kp) as [->|]; [done|].
    rewrite bool_decide_eq_false_2; [done|]. set_solver.
  - intros va' Hva' Hlo'. rewrite Hpr2, Hpt1 by done.
    destruct (Z.eqb_spec (va' / 4096) (page_addr a r / 4096)) as [E|E],
      (Z.leb_spec (page_addr a r) va'), (Z.ltb_spec va' (page_addr a r + 4096 * 1));
      cbn [andb]; try done; try (exfalso; revert E Hva; divmod).
    apply page_indices in E as [E1 E2]. unfold pte_at. rewrite E1, E2.
    fold (pte_at s pd (page_addr a r)). symmetry.
    apply (to_free _ _ _ _ _ Ht); [lia|]. apply Hvf. lia.
Qed.

(** ** New address spaces *)

(** The value [create_uvm] copies from entry [i] of the kernel's directory. *)
Definition shared_entry (s : mm) (i : Z) : Z :=
  match words s !! (kernel_page_dir s + 4 * i) with
  | Some e => if present e then e else 0
  | None => 0
  end.

Lemma copy_entries_ok s q top : q mod 4096 = 0 -> kernel_page_dir s mod 4096 = 0 ->
  q <> kernel_page_dir s -> page_ok (words s) (kernel_page_dir s) ->
  -1 <= top < 1024 -> (forall i, 0 <= i < 1024 -> words s !! (q + 4 * i) = Some 0) ->
  exists w, for_ (Z.to_nat (top + 1)) 0 (fun k s =>
      let i := top - k in
      e ← words s !! (kernel_page_dir s + 4 * i);
      if present e then store_word s (q + 4 * i) e else Some s) s = Some (with_words s w) /\
    (forall a, page_of a <> q -> w !! a = words s !! a) /\
    (forall i, 0 <= i < 1024 ->
       w !! (q + 4 * i) = Some (if i <=? top then shared_entry s i else 0)).
Proof.
  intros Hq Hk Hne Hkp Htop Hz.
  match goal with |- context [for_ _ _ ?f _] => set (body := f) end.
  destruct (for_inv (fun j s1 => exists w, s1 = with_words s w /\
      (forall a, page_of a <> q -> w !! a = words s !! a) /\
      forall i, 0 <= i < 1024 ->
        w !! (q + 4 * i) = Some (if (top - j <? i) && (i <=? top) then shared_entry s i else 0))
    body (Z.to_nat (top + 1)) 0 s) as (s1 & -> & w & -> & H1 & H2).
  - exists (words s). split_and!; [by destruct s|done|]. intros i Hi. rewrite Hz by done.
    destruct (Z.ltb_spec (top - 0) i), (Z.leb_spec i top); try done; lia.
  - intros j s1 Hj (w & -> & H1 & H2). unfold body. cbn [words with_words kernel_page_dir].
    destruct (Hkp (top - j)) as (e & He & _); [lia|].
    rewrite H1, He by (rewrite page_of_word; [done|done|lia]). mstep.
    assert (shared_entry s (top - j) = if present e then e else 0) as Hsh
      by (unfold shared_entry; by rewrite He).
    destruct (present e) eqn:Ep.
    + unfold store_word, store. cbn [words with_words]. rewrite H2 by lia. mstep.
      eexists. split; [done|]. eexists. split_and!; [done|..].
      * intros a Ha. rewrite lookup_insert_ne; [by apply H1|].
        intros <-. apply Ha, page_of_word; [done|lia].
      * intros i Hi. destruct (decide (i = top - j)) as [->|Hni].
        -- rewrite lookup_insert_eq, Hsh. destruct (Z.ltb_spec (top - (j + 1)) (top - j)),
             (Z.leb_spec (top - j) top); try done; lia.
        -- rewrite lookup_insert_ne, H2 by lia.
           destruct (Z.ltb_spec (top - j) i), (Z.ltb_spec (top - (j + 1)) i); try done; lia.
    + eexists. split; [done|]. exists w. split_and!; [done|done|]. intros i Hi. rewrite H2 by done.
      destruct (decide (i = top - j)) as [->|Hni].
      * rewrite Hsh. by destruct ((top - j <? top - j) && _), ((top - (j + 1) <? top - j) && _).
      * destruct (Z.ltb_spec (top - j) i), (Z.ltb_spec (top - (j + 1)) i); try done; lia.
  - exists w. split_and!; [done|done|]. intros i Hi. rewrite H2 by done.
    destruct (Z.ltb_spec (top - (0 + Z.of_nat (Z.to_nat (top + 1)))) i), (Z.leb_spec i top); try done; lia.
Qed.

(** A free kernel page that becomes a directory without tables. *)
Lemma new_dir_ok s s1 lo q w : mm_ok s -> mm_ok s1 -> grows s s1 -> 0 <= lo ->
  kfree s q -> ~ kfree s1 q ->
  (forall a, page_of a <> q -> w !! a = words s !! a) -> page_ok w q ->
  (forall i, lo <= i < 1024 -> w !! (q + 4 * i) = Some 0) ->
  let s' := with_words s1 w in
  mm_ok s' /\ pd_wf s' lo q /\
  (forall va, 0 <= va < 2 ^ 32 -> lo <= pde_index va -> pte_at s' q va = 0) /\
  forall pd2, pd_wf s lo pd2 -> pd_wf s' lo pd2 /\ apart s' lo q pd2 /\ apart s' lo pd2 q /\
    forall va, 0 <= va < 2 ^ 32 -> lo <= pde_index va -> pte_at s' pd2 va = pte_at s pd2 va.
Proof.
  intros Hok Hok1 Hg Hlo Hq Hq1 Hfr Hpq Hz s'.
  destruct (kfree_aligned s q Hok Hq) as [Hqa Hqp].
  assert (forall i, lo <= i < 1024 -> tbl s' q i = None) as Htb.
  { intros i Hi. unfold tbl, s'. cbn [words with_words]. by rewrite Hz by done. }
  assert (grows s s') as Hg' by (destruct Hg; by split).
  assert (forall p, page_ok (words s) p -> p mod 4096 = 0 -> p <> q -> page_ok w p) as Hpok.
  { intros p Hp Hpa Hne i Hi. rewrite Hfr by (by rewrite page_of_word). by apply Hp. }
  split; [|split; [|split]].
  - destruct Hok1. split; try done. intros p Hp. cbn.
    destruct (decide (p = q)) as [->|Hne]; [done|].
    apply (kfree_anti s s' p Hg') in Hp. apply Hpok; [by apply Hok|by eapply kfree_aligned|done].
  - split; [done|done|done|done|exact Hq1|intros i t Hi; by rewrite Htb|intros i j t Hi Hj; by rewrite Htb].
  - intros va Hva Hge. pose proof (pde_index_range va Hva). unfold pte_at. by rewrite Htb by lia.
  - intros pd2 Hw2. assert (forall a, owns s lo pd2 a -> page_of a <> q) as Hno.
    { intros a [->|(i & Hi & Ht)] E; [subst; by apply (pw_used _ _ _ Hw2)|].
      rewrite E in Ht. by destruct (pw_tbl _ _ _ Hw2 i q Hi Ht) as (_ & _ & _ & []). }
    assert (forall a, owns s' lo q a -> page_of a = q) as Hown.
    { intros a [|(i & Hi & Ht)]; [done|]. by rewrite Htb in Ht. }
    destruct (untouched s s' lo pd2 Hg' Hw2) as (Hw' & Hsub & Hpt); [by intros a Ha; apply Hfr, Hno|].
    split_and!; [done| | |done].
    + intros a H2 H1. by apply (Hno a); [apply Hsub|apply Hown].
    + intros a H1 H2. by apply (Hno a); [apply Hsub|apply Hown].
Qed.

(** [create_uvm] returns a directory of its own in a kernel page that was
    free: it shares the present entries of the kernel, maps nothing from the
    user's part on, and owns no page of an existing address space; the
    existing ones are unchanged. *)
Lemma create_uvm_ok (s : mm) :
  mm_ok s -> 0 < avail (kernel_vir_addr_alloc s) -> 0 <= kernel_all_memory s < 2 ^ 32 ->
  kernel_page_dir s mod 4096 = 0 -> page_ok (words s) (kernel_page_dir s) ->
  ~ kfree s (kernel_page_dir s) ->
  let lo := pde_index (kernel_all_memory s) in
  exists s' pd, create_uvm s = Some (s', pd) /\ kfree s pd /\ grows s s' /\
    avail (kernel_vir_addr_alloc s') = avail (kernel_vir_addr_alloc s) - 1 /\ mm_ok s' /\ pd_wf s' lo pd /\
    (forall va, 0 <= va < 2 ^ 32 -> lo <= pde_index va -> pte_at s' pd va = 0) /\
    (forall i, 0 <= i < lo -> words s' !! (pd + 4 * i) = Some (shared_entry s i)) /\
    forall pd2, pd_wf s lo pd2 -> pd_wf s' lo pd2 /\ apart s' lo pd pd2 /\ apart s' lo pd2 pd /\
      forall va, 0 <= va < 2 ^ 32 -> lo <= pde_index va -> pte_at s' pd2 va = pte_at s pd2 va.
Proof.
  intros Hok Hav Hm Hka Hkp Hkf lo. pose proof (pde_index_range _ Hm) as Hlo. fold lo in Hlo.
  destruct (alloc_kernel_ok s Hok Hav)
    as (s1 & k & Hal & Hk & Hf & Ht & Hav1 & Hwd & Hg & Hok1).
  set (q := page_addr (kernel_vir_addr_alloc s) k) in *.
  assert (kfree s q) as Hq by (exists k; done).
  destruct (kfree_aligned s q Hok Hq) as [Hqa Hqp].
  assert (q <> kernel_page_dir s) as Hqk by (intros E; by rewrite <- E in Hkf).
  destruct (clear_page_ok (words s) q Hqa) as (w & Hc & Hz & Hfr & Hpg); [by apply Hok|].
  destruct (gr_kpd _ _ Hg) as [Hkd _]. destruct (gr_mem _ _ Hg) as [Hkm _].
  destruct (copy_entries_ok (with_words s1 w) q (lo - 1)) as (w' & Hcopy & Hfr' & Hent);
    [done|cbn; by rewrite Hkd|cbn; by rewrite Hkd|cbn; rewrite Hkd; auto|lia|exact Hz|].
  change (kernel_page_dir (with_words s1 w)) with (kernel_page_dir s1) in Hcopy.
  assert (forall i, 0 <= i < lo -> shared_entry (with_words s1 w) i = shared_entry s i) as Hsh.
  { intros i Hi. unfold shared_entry. cbn [words with_words kernel_page_dir].
    rewrite Hkd, Hfr; [done|]. rewrite page_of_word; [done|done|lia]. }
  assert (forall a, page_of a <> q -> w' !! a = words s !! a) as Hframe.
  { intros a Ha. rewrite Hfr' by done. cbn. by apply Hfr. }
  assert (~ kfree s1 q) as Hq1 by (apply not_kfree; [done|by rewrite Ht, Z.eqb_refl]).
  assert (page_ok w' q) as Hpq.
  { intros i Hi. rewrite Hent by done. eexists. split; [done|].
    destruct (Z.leb_spec i (lo - 1)); [|lia]. rewrite Hsh by lia. unfold shared_entry.
    destruct (Hkp i Hi) as (e & -> & He). destruct (present e); lia. }
  destruct (new_dir_ok s s1 lo q w') as (H1 & H2 & H3 & H4); [done|done|done|lia|done..| |].
  { intros i Hi. rewrite Hent by lia. destruct (Z.leb_spec i (lo - 1)); [lia|done]. }
  exists (with_words s1 w'), q. split_and!; [|done|destruct Hg; by split|done|done|done|done| |done].
  - unfold create_uvm. rewrite Hal. mstep. destruct (Z.ltb_spec q 0); [lia|].
    rewrite Hwd, Hc. mstep. cbn [kernel_all_memory with_words]. rewrite Hkm. fold lo.
    cbn [with_words] in Hcopy |- *. rewrite Hcopy. done.
  - intros i Hi. cbn. rewrite Hent by lia. destruct (Z.leb_spec i (lo - 1)); [|lia].
    by rewrite Hsh.
Qed.

Theorem create_uvm_spec (s : mm) :
  mm_ok s -> 0 < avail (kernel_vir_addr_alloc s) -> 0 <= kernel_all_memory s < 2 ^ 32 ->
  kernel_page_dir s mod 4096 = 0 -> page_ok (words s) (kernel_page_dir s) ->
  ~ kfree s (kernel_page_dir s) ->
  let lo := pde_index (kernel_all_memory s) in
  exists s' pd, create_uvm s = Some (s', pd) /\ kfree s pd /\ mm_ok s' /\ pd_wf s' lo pd /\
    (forall va, 0 <= va < 2 ^ 32 -> lo <= pde_index va -> pte_at s' pd va = 0) /\
    (forall i, 0 <= i < lo -> words s' !! (pd + 4 * i) = Some (shared_entry s i)) /\
    forall pd2, pd_wf s lo pd2 -> pd_wf s' lo pd2 /\ apart s' lo pd pd2 /\ apart s' lo pd2 pd /\
      forall va, 0 <= va < 2 ^ 32 -> lo <= pde_index va -> pte_at s' pd2 va = pte_at s pd2 va.
Proof.
  intros H1 H2 H3 H4 H5 H6. destruct (create_uvm_ok s H1 H2 H3 H4 H5 H6) as (s' & pd & E & Hk & _ & _ & Hr).
  exists s', pd. split; [exact E|split; [exact Hk|exact Hr]].
Qed.

(** ** Counting used pages *)

Lemma count_bits_ok b n i c : 0 <= i -> i + Z.of_nat n <= 8 * zlen (bits b) ->
  0 <= c -> c + Z.of_nat n < 2 ^ 32 ->
  visit_bits count_mem_used_visitor n b i c = Some (c + popcount b n i, true).
Proof.
  revert i c. induction n as [|n IH]; intros i c Hi Hlim Hc Hcl; cbn [visit_bits popcount].
  - by rewrite Z.add_0_r.
  - assert (count_mem_used_visitor b i c = Some (c + b2z (bit b i), true)) as ->.
    { unfold count_mem_used_visitor. rewrite scan_test_total by lia. mstep.
      destruct (bit b i); cbn [b2z]; [by rewrite u32_small by lia|by rewrite Z.add_0_r]. }
    mstep. rewrite IH by (destruct (bit b i); cbn [b2z]; lia). do 2 f_equal. lia.
Qed.

Lemma count_bytes_ok b n k c : bitmap_wf b -> 0 <= k -> k + Z.of_nat n <= zlen (bits b) ->
  0 <= c -> c + 8 * Z.of_nat n < 2 ^ 32 ->
  visit_bytes count_mem_used_visitor n b 1 k c
  = Some (c + popcount b (8 * n) (8 * k), true).
Proof.
  intros Hwf. revert k c. induction n as [|n IH]; intros k c Hk Hlim Hc Hcl; cbn [visit_bytes].
  - by rewrite Z.add_0_r.
  - destruct (zget_is_Some (bits b) k) as [v Hv]; [lia|]. rewrite Hv. mstep.
    pose proof (wf_byte _ _ _ Hwf Hv) as Hvr.
    replace (8 * S n)%nat with (8 + 8 * n)%nat by lia. rewrite popcount_add.
    replace (8 * k + Z.of_nat 8) with (8 * (k + 1)) by lia.
    pose proof (popcount_range b 8 (8 * k)).
    change (nz 1) with true. cbn [andb negb orb]. rewrite orb_false_r.
    destruct (Z.ltb_spec 0 v).
    + rewrite (Z.mul_comm k 8), count_bits_ok by lia. mstep. rewrite IH by lia.
      do 2 f_equal. lia.
    + rewrite popcount_zero_byte by (replace v with 0 in Hv by lia; done).
      rewrite IH by lia. do 2 f_equal.
Qed.

(** [count_mem_used], which skips whole bytes of free pages, returns the
    number of used pages. *)
Theorem count_mem_used_spec (a : addr_alloc_t) : alloc_wf a ->
  count_mem_used a = Some (npages a - avail a).
Proof.
  intros Ha. pose proof (aw_bitmap _ Ha) as Hwf. pose proof (wf_len _ Hwf).
  pose proof (wf_int _ Hwf). unfold count_mem_used, bitmap_foreach.
  rewrite count_bytes_ok by (try done; lia). mstep. f_equal.
  unfold avail, npages. replace (Z.to_nat (8 * bytes_len (bitmap a)))
    with (8 * Z.to_nat (bytes_len (bitmap a)))%nat by lia. change (8 * 0) with 0. lia.
Qed.
