(* ===== verification/PagingRuns.v ===== *)
(** * Memory management on a concrete machine

    A machine with three pages of kernel memory, eight user pages and one task: the
    instances of the theorems of PagingSpec, and the runs in which the code
    does something else than its comments say. *)

From S2P Require Import Prelude Bitmap CMath Paging PagingSpec.
From S2P Require Import Prelude.

(** [n] zero words from [b] on. *)
Definition zero_words (b n : Z) : gmap Z Z :=
  list_to_map ((fun i => (b + 4 * i, 0)) <$> seqZ 0 n).

Lemma zero_words_get b n i : 0 <= i < n -> zero_words b n !! (b + 4 * i) = Some 0.
Proof.
  intros Hi. unfold zero_words. apply elem_of_list_to_map_1.
  - rewrite <- list_fmap_compose. apply NoDup_fmap_2_strong; [|apply NoDup_seqZ].
    intros x y _ _ E. cbn in E. lia.
  - apply list_elem_of_fmap. exists i. split; [done|]. apply elem_of_seqZ. lia.
Qed.

#[global] Opaque zero_words.

Definition K0 : Z := 3145728.
Definition U0 : Z := 16777216.
(** Kernel page 0 holds the directory of the task, pages 1 and 2 are free. *)
Definition karea (bits_at used : Z) : addr_alloc_t := AddrAlloc K0 4096 bits_at (Bitmap 1 [used; 0]).
Definition uarea (bits_at used : Z) : addr_alloc_t := AddrAlloc U0 4096 bits_at (Bitmap 1 [used; 0]).
Definition TASK : Z := 1.

Definition machine_at (kpd uused : Z) : mm :=
  MM (karea 100 249) (karea 200 249) (uarea 300 uused) {[TASK := uarea 400 0]}
     (zero_words K0 3072) (replicate 1024 0) U0 U0 kpd 0 0.
Definition machine : Z -> mm := machine_at (MB 2).

Lemma area_wf st at_ used : 0 <= used < 256 -> 0 < st < 2 ^ 31 -> st mod 4096 = 0 ->
  alloc_wf (AddrAlloc st 4096 at_ (Bitmap 1 [used; 0])).
Proof.
  intros Hu Hst Ha. split; cbn; try done; try lia.
  split; cbn; [|done|done]. repeat constructor; lia.
Qed.

Lemma machine_kfree kpd uused p : kfree (machine_at kpd uused) p -> exists k, 1 <= k < 3 /\ p = K0 + 4096 * k.
Proof.
  intros (k & Hk & -> & Ht). change (npages (kernel_vir_addr_alloc (machine_at kpd uused))) with 8 in Hk.
  exists k. split; [|done].
  assert (k = 0 \/ k = 1 \/ k = 2 \/ k = 3 \/ k = 4 \/ k = 5 \/ k = 6 \/ k = 7) as Hc by lia.
  change (taken (karea 200 249) k = false) in Ht.
  repeat destruct Hc as [Hc|Hc]; subst k; (discriminate Ht || lia).
Qed.

Lemma machine_page kpd uused k : 0 <= k < 3 -> page_ok (words (machine_at kpd uused)) (K0 + 4096 * k).
Proof.
  intros Hk i Hi. exists 0. split; [|lia]. cbn [words machine_at].
  replace (K0 + 4096 * k + 4 * i) with (K0 + 4 * (1024 * k + i)) by lia.
  apply zero_words_get. lia.
Qed.

Lemma machine_ok kpd uused : 0 <= uused < 256 -> mm_ok (machine_at kpd uused).
Proof.
  intros Hu. split; [by apply area_wf..|done|].
  intros p (k & Hk & ->)%machine_kfree. apply machine_page. lia.
Qed.

Lemma machine_tbl uused i : 0 <= i < 1024 -> tbl (machine uused) K0 i = None.
Proof. intros Hi. unfold tbl. cbn [words machine machine_at]. by rewrite zero_words_get by lia. Qed.

Lemma machine_pte uused va : 0 <= va < 2 ^ 32 -> pte_at (machine uused) K0 va = 0.
Proof. intros Hva. unfold pte_at. rewrite machine_tbl; [done|by apply pde_index_range]. Qed.

Lemma machine_wf uused : pd_wf (machine uused) 4 K0.
Proof.
  split.
  - lia.
  - reflexivity.
  - unfold K0. lia.
  - intros i Hi. destruct (machine_page (MB 2) uused 0 ltac:(lia) i Hi) as (v & Hv & ?).
    rewrite Z.mul_0_r, Z.add_0_r in Hv. eauto.
  - intros (k & Hk & E)%machine_kfree. lia.
  - intros i t Hi Ht. rewrite machine_tbl in Ht by lia. discriminate Ht.
  - intros i j t Hi Hj Ht. rewrite machine_tbl in Ht by lia. discriminate Ht.
Qed.

Lemma machine_task uused : task_ok (machine uused) 4 TASK K0 (uarea 400 0).
Proof.
  split; [done|by apply area_wf|done|done|done|].
  intros k Hk _. unfold npages in Hk. cbn in Hk. rewrite machine_pte; [done|].
  unfold page_addr, uarea, U0. cbn. lia.
Qed.

Lemma machine_run n : 1 <= n <= 8 -> has_run (uarea 400 0) n.
Proof.
  intros Hn. exists 0. unfold npages. cbn. split_and!; [lia..|]. intros i Hi.
  unfold taken, bit, uarea. cbn [bitmap bits].
  replace (i / 8) with 0 by divmod. apply Z.testbit_0_l.
Qed.

(** ** Witnesses *)

Lemma create_mem_map_spec_witness :
  exists s', create_mem_map (machine 0) K0 U0 (U0 + 8192) 2 6 = Some (s', 0) /\
    pte_at s' K0 (U0 + 4096) = entry (U0 + 12288) 6.
Proof.
  destruct (create_mem_map_spec (machine 0) 4 K0 U0 (U0 + 8192) 2 6 2)
    as (s' & Hs & _ & _ & Hpt & _).
  - apply machine_ok. lia.
  - apply machine_wf.
  - lia.
  - done.
  - done.
  - done.
  - done.
  - done.
  - done.
  - lia.
  - change (2 <= avail (karea 200 249)). vm_compute. discriminate.
  - split; [lia|]. split; [|lia]. intros i Hi. rewrite machine_pte; [done|]. unfold U0. lia.
  - exists s'. split; [exact Hs|].
    rewrite Hpt; [reflexivity|unfold U0; lia|vm_compute; discriminate].
Defined.

Lemma vaddr2paddr_offset_witness : exists s',
  pte_at s' K0 U0 = entry (U0 + 8192) 6 /\
  vaddr2paddr s' K0 (U0 + 1025) = Some (U0 + 8193, true).
Proof.
  destruct (map_pages_ok 4 K0 6 ltac:(lia) 1 0 (machine 0) U0 (U0 + 8192) 1)
    as (s' & _ & _ & _ & Hst & _ & Hpt); [apply machine_ok; lia|apply machine_wf|unfold U0; (lia || reflexivity || (vm_compute; discriminate))..| | |].
  - change (1 <= avail (karea 200 249)). vm_compute. discriminate.
  - split; [lia|]. split; [|lia]. intros i Hi. rewrite machine_pte; [done|]. unfold U0. lia.
  - assert (forall i, 0 <= i < 4096 -> pte_at s' K0 (U0 + i) = entry (U0 + 8192) 6) as Hpt'.
    { intros i Hi. rewrite Hpt.
      - unfold mapped_at.
        destruct (Z.leb_spec U0 (U0 + i)), (Z.ltb_spec (U0 + i) (U0 + 4096 * 1)); try lia.
        replace ((U0 + i - U0) / 4096) with 0 by divmod. reflexivity.
      - unfold U0. lia.
      - etrans; [|apply (pde_index_mono U0); lia]. vm_compute. discriminate. }
    exists s'. split; [rewrite <- (Hpt' 0) by lia; reflexivity|].
    apply (vaddr2paddr_offset s' 4 K0 (U0 + 1025) (U0 + 8192) 6).
    + apply Hst.
    + unfold U0. lia.
    + vm_compute. discriminate.
    + unfold U0. lia.
    + reflexivity.
    + lia.
    + apply Hpt'. lia.
Defined.

Lemma malloc_mem_spec_witness : exists s' a' r ks,
  malloc_mem (machine 2) K0 (TaskVir TASK) 2 = Some (s', page_addr (uarea 400 0) r) /\
  malloc_post (machine 2) 4 TASK K0 (uarea 400 0) 2 s' a' r ks.
Proof.
  apply (malloc_mem_spec (machine 2) 4 TASK K0 (uarea 400 0) 2);
    [apply machine_ok; lia|apply machine_wf|apply machine_task|lia| | |apply machine_run; lia].
  - change (2 <= avail (uarea 300 2)). vm_compute. discriminate.
  - change (2 <= avail (karea 200 249)). vm_compute. discriminate.
Defined.

Lemma malloc_unmalloc_witness : exists s1 va s2 a2,
  malloc_mem (machine 2) K0 (TaskVir TASK) 1 = Some (s1, va) /\
  unmalloc_mem s1 K0 (TaskVir TASK) va 1 = Some (s2, None) /\
  task_vir s2 !! TASK = Some a2 /\ (forall j, taken a2 j = taken (uarea 400 0) j) /\
  (forall j, taken (user_phy_addr_alloc s2) j = taken (user_phy_addr_alloc (machine 2)) j) /\
  forall va', 0 <= va' < 2 ^ 32 -> 4 <= pde_index va' ->
    present (pte_at s2 K0 va') = present (pte_at (machine 2) K0 va').
Proof.
  apply (malloc_unmalloc (machine 2) 4 TASK K0 (uarea 400 0));
    [apply machine_ok; lia|apply machine_wf|apply machine_task| | |apply machine_run; lia].
  - change (1 <= avail (uarea 300 2)). vm_compute. discriminate.
  - change (1 <= avail (karea 200 249)). vm_compute. discriminate.
Defined.

Lemma count_mem_used_spec_witness : count_mem_used (uarea 300 5) = Some 2.
Proof.
  rewrite (count_mem_used_spec (uarea 300 5)); [vm_compute; reflexivity|].
  apply area_wf; done.
Defined.

Lemma create_uvm_spec_witness : exists s' pd,
  create_uvm (machine_at K0 0) = Some (s', pd) /\ pd_wf s' 4 pd /\
  forall va, 0 <= va < 2 ^ 32 -> 4 <= pde_index va -> pte_at s' pd va = 0.
Proof.
  destruct (create_uvm_spec (machine_at K0 0)) as (s' & pd & Hc & _ & _ & Hw & Hpt & _).
  - apply machine_ok. lia.
  - change (0 < avail (karea 200 249)). vm_compute. reflexivity.
  - cbn. unfold U0. lia.
  - reflexivity.
  - cbn [machine_at kernel_page_dir]. rewrite <- (Z.add_0_r K0), <- (Z.mul_0_r 4096).
    apply machine_page. lia.
  - intros (k & Hk & E)%machine_kfree. cbn in E. lia.
  - exists s', pd. split; [exact Hc|]. split; [exact Hw|exact Hpt].
Defined.

(** ** Runs *)


(** [map_mem_page] does not notice that a page could not be mapped
    ([addr < 0] is never true of an unsigned address): asked to map a page that
    is mapped already, it returns the address as if it had succeeded and the
    old mapping stays. *)
Theorem map_mem_page_ignores_failure :
  ('(s1, _) ← create_mem_map (machine 0) K0 U0 (U0 + 8192) 1 6;
   '(s2, va) ← map_mem_page s1 K0 U0 1 true;
   '(p, have) ← vaddr2paddr s2 K0 U0;
   Some (va, p, have)) = Some (U0, U0 + 8192, true).
Proof. vm_compute. reflexivity. Qed.

(** Without a free physical page [malloc_mem] still returns an address: the
    page is mapped to the last page of the address space, [(uint32_t)-1]
    rounded down. *)
Theorem malloc_without_memory :
  ('(s1, va) ← malloc_mem (machine 255) K0 (TaskVir TASK) 1;
   '(p, have) ← vaddr2paddr s1 K0 va;
   Some (va, p, have)) = Some (U0, 4294963200, true).
Proof. vm_compute. reflexivity. Qed.

(** Memory of the kernel above 4 MB is mapped by 4 MB entries, which
    [vaddr2paddr] takes for page tables: [unalloc_kernel_mem] looks for the
    page-table entry of the address in the memory of the 4 MB page itself.
    Where that word has its lowest bit clear, the call fails and frees
    nothing. *)
Theorem unalloc_kernel_mem_big_page (s : mm) (va e w n : Z) :
  kernel_page_dir s <> 0 -> get_pde (kernel_page_dir s) va <> 0 ->
  words s !! get_pde (kernel_page_dir s) va = Some e -> present e = true ->
  Z.testbit e 7 = true -> pe_phy_addr (phy_page_addr e) <> 0 ->
  words s !! u32 (pe_phy_addr (phy_page_addr e) + 4 * pte_index va) = Some w ->
  present w = false ->
  unalloc_kernel_mem s va n = Some (s, Some (-1)).
Proof.
  intros Hk Hpde He Hp _ Hb Hw Hnp.
  unfold unalloc_kernel_mem, unmalloc_mem, unalloc_mem, vaddr2paddr, get_pte.
  destruct (Z.eqb_spec (get_pde (kernel_page_dir s) va) 0); [done|]. rewrite He. mstep.
  rewrite Hp. cbn [negb]. destruct (Z.eqb_spec (pe_phy_addr (phy_page_addr e)) 0); [done|].
  mstep. destruct (u32 _ =? 0); [done|]. rewrite Hw. mstep. by rewrite Hnp.
Qed.

Definition big_machine : mm :=
  with_words (machine 0) (<[MB 4 := 0]> (<[MB 2 + 4 := Z.lor (MB 4) 131]> ∅)).

Lemma unalloc_kernel_mem_big_page_witness :
  unalloc_kernel_mem big_machine (MB 4) 1 = Some (big_machine, Some (-1)).
Proof.
  apply (unalloc_kernel_mem_big_page big_machine (MB 4) (Z.lor (MB 4) 131) 0 1);
    vm_compute; done.
Defined.

(** [free_vm_for_page_dir] returns as soon as one page was freed: its entry
    stays present, and the other pages stay allocated. *)
Theorem free_vm_stops_after_one :
  ('(s1, _) ← alloc_vm_for_page_dir (machine 0) K0 U0 8192 6;
   '(s2, err) ← free_vm_for_page_dir s1 K0 U0 8192;
   '(_, have) ← vaddr2paddr s2 K0 U0;
   let u := taken (user_phy_addr_alloc s2) in Some (err, have, u 0, u 1))
  = Some (0, true, false, true).
Proof. vm_compute. reflexivity. Qed.
