(* ===== verification/IpAddr.v ===== *)
(** * IPv4 addresses and the IPv4 header: kernel/net/ip.c, kernel/net/ip.h

    An address is its [q_addr]; a header is the bytes at the start of a
    packet's first block, read and written through [pkt_hdr] and [set_hdr] with
    the layout of the packed structure on a little-endian machine. *)

From S2P Require Import Prelude Pktbuf PktbufSpec Layout Checksum.
From S2P Require Import Prelude.

Definition IPV4_ADDR_BROADCAST : Z := 4294967295.
Definition NET_VERSION_IPV4 : Z := 4.
Definition NET_PROTOCOL_ICMPv4 : Z := 1.
Definition NET_PROTOCOL_UDP : Z := 17.
Definition IPV4_HDR_SIZE : Z := 20.

(** ** Addresses *)

(** [a_addr], the bytes of the union, and back. *)
Definition a_addr (q : Z) : list Z :=
  [u8 q; u8 (Z.shiftr q 8); u8 (Z.shiftr q 16); u8 (Z.shiftr q 24)].
Definition q_addr (a : list Z) : Z :=
  match a with
  | [b0; b1; b2; b3] => b0 + 256 * b1 + 65536 * b2 + 16777216 * b3
  | _ => 0
  end.

Definition ip_addr_to_buf (ip : Z) (ip_buf : list Z) : option (list Z) :=
  for_ 4 0 (fun i b => v ← zget (a_addr ip) i; zset b i v) ip_buf.
Definition ip_addr_from_buf (ip_buf : list Z) : option Z :=
  a ← for_ 4 0 (fun i a => v ← zget ip_buf i; zset a i v) [0; 0; 0; 0];
  Some (q_addr a).

(** The characters before the terminating NUL; [p] is the index of the byte
    [p] points to.  Only four bytes belong to the array. *)
Fixpoint from_str_loop (a : list Z) (p sub_addr : Z) (str : list Z)
    : option (net_err_t * list Z) :=
  match str with
  | [] => a ← zset a p sub_addr; Some (NET_ERR_OK, a)
  | c :: str' =>
      if (48 <=? c) && (c <=? 57) then
        from_str_loop a p (u8 (sub_addr * 10 + c - 48)) str'
      else if c =? 46 then a ← zset a p sub_addr; from_str_loop a (p + 1) 0 str'
      else Some (NET_ERR_PARAM, a)
  end.

Definition ipaddr_from_str (str : option (list Z)) : option (net_err_t * option Z) :=
  match str with
  | None => Some (NET_ERR_PARAM, None)
  | Some str => '(e, a) ← from_str_loop [0; 0; 0; 0] 0 0 str; Some (e, Some (q_addr a))
  end.

Definition ipaddr_get_any : Z := 0.
Definition ipaddr_get_host (ipaddr netmask : Z) : Z := Z.land ipaddr (u32 (Z.lnot netmask)).
Definition ipaddr_get_net (ipaddr netmask : Z) : Z := Z.land ipaddr netmask.
Definition ipaddr_is_direct_broadcast (ipaddr netmask : Z) : bool :=
  ipaddr_get_host ipaddr netmask =? Z.land IPV4_ADDR_BROADCAST (u32 (Z.lnot netmask)).
Definition ipaddr_is_match (dest src netmask : Z) : bool :=
  if dest =? IPV4_ADDR_BROADCAST then true
  else if ipaddr_is_direct_broadcast dest netmask
          && (ipaddr_get_net dest netmask =? ipaddr_get_net src netmask) then true
  else dest =? src.

(** Address, mask and gateway of an interface or a route. *)
Record ip_desc_t := IpDesc { ip_addr : Z; net_mask : Z; gateway : Z }.

(** ** The header *)

Record ipv4_hdr_t := Hdr {
  shdr_all : Z; total_len : Z; id : Z; frag_all : Z; ttl : Z; protocol : Z;
  hdr_checksum : Z; src_ip : list Z; dest_ip : list Z }.

(** The bit-fields of [shdr_all] and [frag_all]. *)
Definition shdr (h : ipv4_hdr_t) : Z := Z.land (shdr_all h) 15.
Definition version (h : ipv4_hdr_t) : Z := Z.land (Z.shiftr (shdr_all h) 4) 15.
Definition offset (h : ipv4_hdr_t) : Z := Z.land (frag_all h) 8191.
Definition more (h : ipv4_hdr_t) : bool := Z.testbit (frag_all h) 13.

Definition hdr_bytes (h : ipv4_hdr_t) : list Z :=
  le16 (shdr_all h) ++ le16 (total_len h) ++ le16 (id h) ++ le16 (frag_all h)
  ++ [ttl h; protocol h] ++ le16 (hdr_checksum h) ++ src_ip h ++ dest_ip h.

Definition hdr_of_bytes (b : list Z) : option ipv4_hdr_t :=
  match b with
  | [s0; s1; l0; l1; i0; i1; f0; f1; t; p; c0; c1; a0; a1; a2; a3; d0; d1; d2; d3] =>
      Some (Hdr (of_le16 s0 s1) (of_le16 l0 l1) (of_le16 i0 i1) (of_le16 f0 f1) t p
              (of_le16 c0 c1) [a0; a1; a2; a3] [d0; d1; d2; d3])
  | _ => None
  end.

(** The fields fit their widths. *)
Definition hdr_ok (h : ipv4_hdr_t) : Prop :=
  0 <= shdr_all h < 65536 /\ 0 <= total_len h < 65536 /\ 0 <= id h < 65536 /\
  0 <= frag_all h < 65536 /\ 0 <= ttl h < 256 /\ 0 <= protocol h < 256 /\
  0 <= hdr_checksum h < 65536 /\ bytes_ok 4 (src_ip h) /\ bytes_ok 4 (dest_ip h).

Lemma hdr_bytes_len h : hdr_ok h -> zlen (hdr_bytes h) = IPV4_HDR_SIZE.
Proof.
  intros (_ & _ & _ & _ & _ & _ & _ & [H1 _] & [H2 _]).
  unfold hdr_bytes, zlen in *. rewrite !length_app. cbn [length le16]. unfold IPV4_HDR_SIZE. lia.
Qed.

Lemma hdr_of_to_bytes h : hdr_ok h -> hdr_of_bytes (hdr_bytes h) = Some h.
Proof.
  intros (H1 & H2 & H3 & H4 & H5 & H6 & H7 & [Hs _] & [Hd _]). destruct h as [sh tl i f t p c s d].
  cbn in *. apply bytes4 in Hs as (a0 & a1 & a2 & a3 & ->).
  apply bytes4 in Hd as (b0 & b1 & b2 & b3 & ->).
  unfold hdr_bytes, le16. cbn. by rewrite !of_le16_le16.
Qed.

#[export] Instance hdr_packed : Packed ipv4_hdr_t := {|
  psize := IPV4_HDR_SIZE; to_bytes := hdr_bytes; of_bytes := hdr_of_bytes;
  packed_ok := hdr_ok; to_bytes_len := hdr_bytes_len; of_to_bytes := hdr_of_to_bytes |}.

Definition ipv4_hdr_size (h : ipv4_hdr_t) : Z := shdr h * 4.

Definition iphdr_htons (h : ipv4_hdr_t) : ipv4_hdr_t :=
  Hdr (shdr_all h) (swap_u16 (total_len h)) (swap_u16 (id h)) (swap_u16 (frag_all h))
      (ttl h) (protocol h) (hdr_checksum h) (src_ip h) (dest_ip h).

(** [(ipv4_pkt_t * )pktbuf_data(buf)] and its header. *)
Definition pkt_hdr (m : pmem) (buf : pktbuf_t) : option ipv4_hdr_t := pkt_load_at ipv4_hdr_t m buf 0.
Definition set_hdr (m : pmem) (buf : pktbuf_t) (h : ipv4_hdr_t) : option pmem :=
  pkt_store_at m buf 0 h.

Definition get_data_size (h : ipv4_hdr_t) : Z := total_len h - ipv4_hdr_size h.
Definition get_frag_start (h : ipv4_hdr_t) : Z := u16 (offset h * 8).
Definition get_frag_end (h : ipv4_hdr_t) : Z := u16 (get_frag_start h + get_data_size h).
