(* ===== verification/Link.v ===== *)
(** * Interfaces, ARP and Ethernet output: kernel/net/netif.c, arp.c, ether.c, exmsg.c

    An interface is named by its address in [netif_pool], an entry of the ARP
    cache by its address in [cache_tbl].  The queues of an interface and the
    message queue of the network thread are bounded sequences: they are
    [fixq_t] queues ([Fixq]) used with [tmo < 0], which refuse instead of
    waiting.  A packet is passed to a function and back with its error code,
    since the function changes it in place.  The driver behind [ops->xmit] is
    an argument: it takes packets from the interface's output queue and may
    release them. *)

From S2P Require Import Prelude Pktbuf PktbufSpec Layout Checksum IpAddr CString.
From S2P Require Import Prelude.

Definition ETH_HWA_SIZE : Z := 6.
Definition IPV4_ADDR_SIZE : Z := 4.
Definition ETH_DATA_MIN : Z := 46.
Definition ETH_MTU : Z := 1500.
Definition ETHER_HDR_SIZE : Z := 14.
Definition NET_PROTOCOL_ARP : Z := 2054.
Definition NET_PROTOCOL_IPv4 : Z := 2048.
Definition ARP_HW_ETHER : Z := 1.
Definition ARP_REQUEST : Z := 1.
Definition ARP_REPLY : Z := 2.
Definition ARP_CACHE_MAX : Z := 50.
Definition NETIF_INQ_SIZE : Z := 50.
Definition NETIF_OUTQ_SIZE : Z := 50.
Definition EXMSG_MSG_CNT : Z := 10.

#[export] Instance net_err_eq_dec : EqDecision net_err_t.
Proof. solve_decision. Defined.

(** ** Headers *)

Record ether_hdr_t := EtherHdr { dest : list Z; src : list Z; eprotocol : Z }.

Definition ether_bytes (h : ether_hdr_t) : list Z := dest h ++ src h ++ le16 (eprotocol h).
Definition ether_of_bytes (b : list Z) : option ether_hdr_t :=
  match b with
  | [d0; d1; d2; d3; d4; d5; s0; s1; s2; s3; s4; s5; p0; p1] =>
      Some (EtherHdr [d0; d1; d2; d3; d4; d5] [s0; s1; s2; s3; s4; s5] (of_le16 p0 p1))
  | _ => None
  end.
Definition ether_ok (h : ether_hdr_t) : Prop :=
  bytes_ok 6 (dest h) /\ bytes_ok 6 (src h) /\ 0 <= eprotocol h < 65536.

Lemma ether_bytes_len h : ether_ok h -> zlen (ether_bytes h) = ETHER_HDR_SIZE.
Proof. intros ([H1 _] & [H2 _] & _). unfold ether_bytes. rewrite !zlen_app, H1, H2. done. Qed.

Lemma ether_of_to_bytes h : ether_ok h -> ether_of_bytes (ether_bytes h) = Some h.
Proof.
  intros ([H1 _] & [H2 _] & H3). destruct h as [d s p]. cbn in *.
  apply bytes6 in H1 as (d0 & d1 & d2 & d3 & d4 & d5 & ->).
  apply bytes6 in H2 as (s0 & s1 & s2 & s3 & s4 & s5 & ->).
  unfold ether_bytes, le16. cbn. by rewrite of_le16_le16.
Qed.

#[export] Instance ether_packed : Packed ether_hdr_t := {|
  psize := ETHER_HDR_SIZE; to_bytes := ether_bytes; of_bytes := ether_of_bytes;
  packed_ok := ether_ok; to_bytes_len := ether_bytes_len; of_to_bytes := ether_of_to_bytes |}.

Record arp_pkt_t := ArpPkt {
  htype : Z; ptype : Z; hlen : Z; plen : Z; opcode : Z;
  send_haddr : list Z; send_paddr : list Z; target_haddr : list Z; target_paddr : list Z }.
Definition ARP_PKT_SIZE : Z := 28.

Definition arp_bytes (a : arp_pkt_t) : list Z :=
  le16 (htype a) ++ le16 (ptype a) ++ [hlen a; plen a] ++ le16 (opcode a)
  ++ send_haddr a ++ send_paddr a ++ target_haddr a ++ target_paddr a.
Definition arp_of_bytes (b : list Z) : option arp_pkt_t :=
  match b with
  | [h0; h1; p0; p1; hl; pl; o0; o1; s0; s1; s2; s3; s4; s5; i0; i1; i2; i3;
     t0; t1; t2; t3; t4; t5; j0; j1; j2; j3] =>
      Some (ArpPkt (of_le16 h0 h1) (of_le16 p0 p1) hl pl (of_le16 o0 o1)
              [s0; s1; s2; s3; s4; s5] [i0; i1; i2; i3] [t0; t1; t2; t3; t4; t5] [j0; j1; j2; j3])
  | _ => None
  end.
Definition arp_ok (a : arp_pkt_t) : Prop :=
  0 <= htype a < 65536 /\ 0 <= ptype a < 65536 /\ 0 <= hlen a < 256 /\ 0 <= plen a < 256 /\
  0 <= opcode a < 65536 /\ bytes_ok 6 (send_haddr a) /\ bytes_ok 4 (send_paddr a) /\
  bytes_ok 6 (target_haddr a) /\ bytes_ok 4 (target_paddr a).

Lemma arp_bytes_len a : arp_ok a -> zlen (arp_bytes a) = ARP_PKT_SIZE.
Proof.
  intros (_ & _ & _ & _ & _ & [H1 _] & [H2 _] & [H3 _] & [H4 _]).
  unfold arp_bytes. rewrite !zlen_app, H1, H2, H3, H4. done.
Qed.

Lemma arp_of_to_bytes a : arp_ok a -> arp_of_bytes (arp_bytes a) = Some a.
Proof.
  intros (? & ? & ? & ? & ? & [H1 _] & [H2 _] & [H3 _] & [H4 _]). destruct a as [? ? ? ? ? sh sp th tp].
  cbn in *. apply bytes6 in H1 as (s0 & s1 & s2 & s3 & s4 & s5 & ->).
  apply bytes4 in H2 as (i0 & i1 & i2 & i3 & ->). apply bytes6 in H3 as (t0 & t1 & t2 & t3 & t4 & t5 & ->).
  apply bytes4 in H4 as (j0 & j1 & j2 & j3 & ->). unfold arp_bytes, le16. cbn. by rewrite !of_le16_le16.
Qed.

#[export] Instance arp_packed : Packed arp_pkt_t := {|
  psize := ARP_PKT_SIZE; to_bytes := arp_bytes; of_bytes := arp_of_bytes;
  packed_ok := arp_ok; to_bytes_len := arp_bytes_len; of_to_bytes := arp_of_to_bytes |}.

(** ** State *)

Inductive netif_state := NETIF_CLOSED | NETIF_OPENED | NETIF_ACTIVE.
Definition NETIF_TYPE_NONE : Z := 0.
Definition NETIF_TYPE_ETHER : Z := 1.
Definition NETIF_TYPE_LOOP : Z := 2.
Definition NETIF_TYPE_SIZE : Z := 3.

(** [link_layer] is the address of the layer's operations, or NULL. *)
Record netif_t := Netif {
  name : list Z; mac : list Z; ip_desc : ip_desc_t; state : netif_state; type : Z; mtu : Z;
  link_layer : Z; in_q : list pktbuf_t; out_q : list pktbuf_t }.

(** [enum { NET_ARP_FREE = 0x1234, ... }]; a fresh entry holds 0. *)
Definition NET_ARP_FREE : Z := 4660.
Definition NET_ARP_RESOLVED : Z := 4661.
Definition NET_ARP_WAITING : Z := 4662.

Record arp_entry_t := ArpEntry {
  paddr : list Z; haddr : list Z; astate : Z; atmo : Z; rety : Z; anetif : Z;
  abufs : list pktbuf_t }.

(** A message is named by its address in [msg_buffer]; a function message
    holds the address of its [func_msg_t]. *)
Inductive exmsg_t := NET_EXMSG_NETIF_IN (netif : Z) | NET_EXMSG_FUN (func : Z).

Record link_state := Link {
  lpm : pmem;
  netifs : gmap Z netif_t; netif_list : list Z; netif_default : Z; link_layers : list Z;
  msg_queue : list (Z * exmsg_t); msg_block : list Z;
  arps : gmap Z arp_entry_t; cache_list : list Z; cache_mblock : list Z }.

Definition set_lpm (s : link_state) m :=
  Link m (netifs s) (netif_list s) (netif_default s) (link_layers s) (msg_queue s) (msg_block s)
    (arps s) (cache_list s) (cache_mblock s).
Definition set_netif (s : link_state) n x :=
  Link (lpm s) (<[n := x]> (netifs s)) (netif_list s) (netif_default s) (link_layers s)
    (msg_queue s) (msg_block s) (arps s) (cache_list s) (cache_mblock s).
Definition set_netif_list (s : link_state) l d :=
  Link (lpm s) (netifs s) l d (link_layers s) (msg_queue s) (msg_block s) (arps s) (cache_list s)
    (cache_mblock s).
Definition set_layers (s : link_state) l :=
  Link (lpm s) (netifs s) (netif_list s) (netif_default s) l (msg_queue s) (msg_block s) (arps s)
    (cache_list s) (cache_mblock s).
Definition set_msgs (s : link_state) q b :=
  Link (lpm s) (netifs s) (netif_list s) (netif_default s) (link_layers s) q b (arps s)
    (cache_list s) (cache_mblock s).
Definition set_entry (s : link_state) e x :=
  Link (lpm s) (netifs s) (netif_list s) (netif_default s) (link_layers s) (msg_queue s)
    (msg_block s) (<[e := x]> (arps s)) (cache_list s) (cache_mblock s).
Definition set_cache (s : link_state) l p :=
  Link (lpm s) (netifs s) (netif_list s) (netif_default s) (link_layers s) (msg_queue s)
    (msg_block s) (arps s) l p.

Definition with_in_q (x : netif_t) q :=
  Netif (name x) (mac x) (ip_desc x) (state x) (type x) (mtu x) (link_layer x) q (out_q x).
Definition with_out_q (x : netif_t) q :=
  Netif (name x) (mac x) (ip_desc x) (state x) (type x) (mtu x) (link_layer x) (in_q x) q.
Definition with_state (x : netif_t) st :=
  Netif (name x) (mac x) (ip_desc x) st (type x) (mtu x) (link_layer x) (in_q x) (out_q x).
Definition with_layer (x : netif_t) l :=
  Netif (name x) (mac x) (ip_desc x) (state x) (type x) (mtu x) l (in_q x) (out_q x).
Definition with_desc (x : netif_t) d :=
  Netif (name x) (mac x) d (state x) (type x) (mtu x) (link_layer x) (in_q x) (out_q x).
Definition with_abufs (x : arp_entry_t) l :=
  ArpEntry (paddr x) (haddr x) (astate x) (atmo x) (rety x) (anetif x) l.

(** ** Queues *)

(** [fixq_send] and [fixq_recv] with [tmo < 0]. *)
Definition queue_send {A} (size : Z) (q : list A) (x : A) : net_err_t * list A :=
  if size <=? zlen q then (NET_ERR_FULL, q) else (NET_ERR_OK, q ++ [x]).
Definition queue_recv {A} (q : list A) : option A * list A :=
  match q with [] => (None, []) | x :: q' => (Some x, q') end.

Definition exmsg_netif_in (s : link_state) (netif : Z) : net_err_t * link_state :=
  match msg_block s with
  | [] => (NET_ERR_MEM, s)
  | msg :: pool =>
      let '(e, q) := queue_send EXMSG_MSG_CNT (msg_queue s) (msg, NET_EXMSG_NETIF_IN netif) in
      if is_err e then (e, set_msgs s q (pool ++ [msg])) else (NET_ERR_OK, set_msgs s q pool)
  end.

Definition netif_put_in (s : link_state) (n : Z) (buf : pktbuf_t)
    : option (net_err_t * link_state) :=
  x ← netifs s !! n;
  let '(e, q) := queue_send NETIF_INQ_SIZE (in_q x) buf in
  if is_err e then Some (NET_ERR_FULL, s)
  else
    let s := set_netif s n (with_in_q x q) in
    Some (NET_ERR_OK, if zlen q =? 1 then snd (exmsg_netif_in s n) else s).

Definition netif_put_out (s : link_state) (n : Z) (buf : pktbuf_t)
    : option (net_err_t * link_state) :=
  x ← netifs s !! n;
  let '(e, q) := queue_send NETIF_OUTQ_SIZE (out_q x) buf in
  if is_err e then Some (e, s) else Some (NET_ERR_OK, set_netif s n (with_out_q x q)).

Definition netif_get_in (s : link_state) (n : Z) : option (option pktbuf_t * link_state) :=
  x ← netifs s !! n;
  let '(b, q) := queue_recv (in_q x) in
  let s := set_netif s n (with_in_q x q) in
  match b with
  | Some buf => buf ← pktbuf_reset_acc (lpm s) buf; Some (Some buf, s)
  | None => Some (None, s)
  end.

Definition netif_get_out (s : link_state) (n : Z) : option (option pktbuf_t * link_state) :=
  x ← netifs s !! n;
  let '(b, q) := queue_recv (out_q x) in
  let s := set_netif s n (with_out_q x q) in
  match b with
  | Some buf => buf ← pktbuf_reset_acc (lpm s) buf; Some (Some buf, s)
  | None => Some (None, s)
  end.

(** ** Layers and interfaces *)

(** Without a result where the function ends without a return statement. *)
Definition netif_register_layer (s : link_state) (t layer : Z)
    : option (option net_err_t * link_state) :=
  if (t <? 0) || (NETIF_TYPE_SIZE <=? t) then Some (Some NET_ERR_PARAM, s)
  else
    cur ← zget (link_layers s) t;
    if nz cur then Some (Some NET_ERR_EXIST, s)
    else l ← zset (link_layers s) t layer; Some (None, set_layers s l).

Definition netif_get_layer (s : link_state) (t : Z) : option Z :=
  if (t <? 0) || (NETIF_TYPE_SIZE <=? t) then Some NULL else zget (link_layers s) t.

Definition init_netif (s : link_state) : link_state := set_netif_list s [] (netif_default s).

(** The first closed interface of [netif_pool]. *)
Fixpoint find_closed (s : link_state) (pool : list Z) : option (option Z) :=
  match pool with
  | [] => Some None
  | n :: pool' =>
      x ← netifs s !! n;
      match state x with NETIF_CLOSED => Some (Some n) | _ => find_closed s pool' end
  end.

(** [strcpy(netif->name, dev_name)]. *)
Definition copy_name (nm dev_name : list Z) : option (list Z) :=
  n ← strlen dev_name;
  for_ (Z.to_nat n) 0 (fun i nm => v ← zget dev_name i; zset nm i v) nm.

Section Open.
(** The driver's [open] and [close]. *)
Context (ops_open : netif_t -> net_err_t * netif_t).
Context (ops_close : netif_t -> netif_t).

(** The interface opened, or nothing where the function ends without a return
    statement; the local variable [netif] has no value when the pool is full. *)
Definition netif_open (s : link_state) (netif_pool : list Z) (dev_name : list Z)
    : option (option Z * link_state) :=
  r ← find_closed s netif_pool;
  n ← r;
  x ← netifs s !! n;
  nm ← copy_name (name x) dev_name;
  let x := Netif nm (mac x) (IpDesc 0 0 0) (state x) NETIF_TYPE_NONE (mtu x) (link_layer x) [] [] in
  let '(e, x) := ops_open x in
  let close x := Some (None, set_netif s n (with_state (ops_close x) NETIF_CLOSED)) in
  if negb (bool_decide (e = NET_ERR_OK)) then close x
  else
    let x := with_state x NETIF_OPENED in
    if type x =? NETIF_TYPE_NONE then close x
    else
      l ← netif_get_layer s (type x);
      let x := with_layer x l in
      if (l =? NULL) && negb (type x =? NETIF_TYPE_LOOP) then close x
      else
        let s := set_netif s n x in
        Some (Some n, set_netif_list s (netif_list s ++ [n]) (netif_default s)).

End Open.

(** ** Ethernet output *)

Section Output.
(** [ops->xmit]: what the driver does to the interface and the packets. *)
Context (xmit : netif_t -> pmem -> option (net_err_t * netif_t * pmem)).
(** The six bytes at address 0, which [arp_resolve] reads through NULL. *)
Context (at_null : list Z).

(** Padding to the least size of a frame. *)
Definition ether_pad (m : pmem) (buf : pktbuf_t) : option (net_err_t * pktbuf_t * pmem) :=
  let size := pktbuf_total buf in
  if size <? ETH_DATA_MIN then
    '(e, buf, m) ← pktbuf_resize m buf ETH_DATA_MIN;
    if is_err e then Some (e, buf, m)
    else
      buf ← pktbuf_reset_acc m buf;
      '(_, buf) ← pktbuf_seek m buf size;
      '(_, buf, m) ← pktbuf_fill m buf 0 (ETH_DATA_MIN - size);
      Some (NET_ERR_OK, buf, m)
  else Some (NET_ERR_OK, buf, m).

Definition ether_raw_out (s : link_state) (n protocol : Z) (dest : list Z) (buf : pktbuf_t)
    : option (net_err_t * pktbuf_t * link_state) :=
  '(e, buf, m) ← ether_pad (lpm s) buf;
  if is_err e then Some (e, buf, set_lpm s m)
  else
    '(e, buf, m) ← pktbuf_add_header m buf ETHER_HDR_SIZE true;
    if is_err e then Some (NET_ERR_SIZE, buf, set_lpm s m)
    else
      x ← netifs s !! n;
      m ← pkt_store_at m buf 0 (EtherHdr dest (mac x) (swap_u16 protocol));
      let s := set_lpm s m in
      c ← memcmp (mac x) dest ETH_HWA_SIZE;
      if c =? 0 then '(e, s) ← netif_put_in s n buf; Some (e, buf, s)
      else
        '(e, s) ← netif_put_out s n buf;
        if is_err e then Some (e, buf, s)
        else
          x ← netifs s !! n;
          '(e, x, m) ← xmit x (lpm s);
          Some (e, buf, set_netif (set_lpm s m) n x).

Definition empty_hwaddr : list Z := [0; 0; 0; 0; 0; 0].
(** Where requests are sent, in place of the broadcast address. *)
Definition real_mac : list Z := [22; 13; 106; 43; 236; 118].

Definition arp_make_request (s : link_state) (n pro_addr : Z) : option (net_err_t * link_state) :=
  '(b, m) ← pktbuf_alloc (lpm s) ARP_PKT_SIZE;
  match b with
  | None => Some (NET_ERR_NONE, set_lpm s m)
  | Some buf =>
      '(_, buf, m) ← pktbuf_set_cont m buf ARP_PKT_SIZE;
      x ← netifs s !! n;
      sp ← ip_addr_to_buf (ip_addr (ip_desc x)) [0; 0; 0; 0];
      tp ← ip_addr_to_buf pro_addr [0; 0; 0; 0];
      m ← pkt_store_at m buf 0
            (ArpPkt (swap_u16 ARP_HW_ETHER) (swap_u16 NET_PROTOCOL_IPv4) 6 4 (swap_u16 ARP_REQUEST)
               (mac x) sp empty_hwaddr tp);
      '(e, buf, s) ← ether_raw_out (set_lpm s m) n NET_PROTOCOL_ARP real_mac buf;
      if is_err e then Some (e, set_lpm s (snd (pktbuf_free (lpm s) buf))) else Some (e, s)
  end.

(** ** The ARP cache *)

Definition init_arp (s : link_state) (cache_tbl : list Z) : link_state := set_cache s [] cache_tbl.

Fixpoint cache_loop (arps : gmap Z arp_entry_t) (ip : list Z) (l : list Z) : option Z :=
  match l with
  | [] => Some NULL
  | e :: l' =>
      x ← arps !! e;
      c ← memcmp ip (paddr x) IPV4_ADDR_SIZE;
      if c =? 0 then Some e else cache_loop arps ip l'
  end.

(** The entry found moves to the front of the list. *)
Definition cache_find (s : link_state) (ip : list Z) : option (link_state * Z) :=
  e ← cache_loop (arps s) ip (cache_list s);
  if e =? NULL then Some (s, NULL)
  else Some (set_cache s (e :: filter (fun f => f <> e) (cache_list s)) (cache_mblock s), e).

Fixpoint free_all (m : pmem) (l : list pktbuf_t) : pmem :=
  match l with
  | [] => m
  | b :: rest => free_all (snd (pktbuf_free m b)) rest
  end.

Definition cache_clear_all (s : link_state) (e : Z) : option link_state :=
  x ← arps s !! e;
  Some (set_entry (set_lpm s (free_all (lpm s) (abufs x))) e (with_abufs x [])).

(** [memset(entry, 0, sizeof(arp_entry_t))]. *)
Definition empty_entry : arp_entry_t := ArpEntry [0; 0; 0; 0] empty_hwaddr 0 0 0 NULL [].

Definition cache_alloc (s : link_state) (force : bool) : option (link_state * Z) :=
  '(s, e) ← match cache_mblock s with
            | e :: pool => Some (set_cache s (cache_list s) pool, e)
            | [] =>
                if force then
                  match last (cache_list s) with
                  | None => Some (s, NULL)
                  | Some e =>
                      s ← cache_clear_all (set_cache s (removelast (cache_list s)) []) e;
                      Some (s, e)
                  end
                else Some (s, NULL)
            end;
  if e =? NULL then Some (s, NULL) else Some (set_entry s e empty_entry, e).

Definition cache_entry_set (s : link_state) (e : Z) (hw_addr : option (list Z)) (ip : list Z)
    (n st : Z) : option link_state :=
  x ← arps s !! e;
  h ← mem_read (default at_null hw_addr) 0 ETH_HWA_SIZE;
  p ← mem_read ip 0 IPV4_ADDR_SIZE;
  Some (set_entry s e (ArpEntry p h st (if st =? NET_ARP_RESOLVED then 1200 else 3) 5 n (abufs x))).

(** The size compared with is that of a pointer. *)
Definition arp_pkt_check (p : arp_pkt_t) (size : Z) : net_err_t :=
  if u32 size <? 4 then NET_ERR_SIZE
  else if negb (swap_u16 (htype p) =? ARP_HW_ETHER) || negb (hlen p =? ETH_HWA_SIZE)
          || negb (swap_u16 (ptype p) =? NET_PROTOCOL_IPv4) || negb (plen p =? IPV4_ADDR_SIZE)
  then NET_ERR_NOT_SUPPORT
  else if negb (swap_u16 (opcode p) =? ARP_REQUEST) && negb (swap_u16 (opcode p) =? ARP_REPLY)
  then NET_ERR_NOT_SUPPORT
  else NET_ERR_OK.

(** The loop takes the packets off the entry one by one. *)
Fixpoint send_all_loop (fuel : nat) (s : link_state) (e : Z) : option (net_err_t * link_state) :=
  match fuel with
  | O => None
  | S fuel' =>
      x ← arps s !! e;
      match abufs x with
      | [] => Some (NET_ERR_OK, s)
      | buf :: rest =>
          let s := set_entry s e (with_abufs x rest) in
          '(err, buf, s) ← ether_raw_out s (anetif x) NET_PROTOCOL_IPv4 (haddr x) buf;
          if is_err err then Some (err, set_lpm s (snd (pktbuf_free (lpm s) buf)))
          else send_all_loop fuel' s e
      end
  end.
Definition cache_send_all (s : link_state) (e : Z) : option (net_err_t * link_state) :=
  x ← arps s !! e; send_all_loop (S (length (abufs x))) s e.

Definition cache_insert (s : link_state) (n : Z) (ip hw_addr : list Z) (force : bool)
    : option (net_err_t * link_state) :=
  '(s, e) ← cache_find s ip;
  if e =? NULL then
    '(s, e) ← cache_alloc s force;
    if e =? NULL then Some (NET_ERR_NONE, s)
    else
      s ← cache_entry_set s e (Some hw_addr) ip n NET_ARP_RESOLVED;
      Some (NET_ERR_OK, set_cache s (e :: cache_list s) (cache_mblock s))
  else
    s ← cache_entry_set s e (Some hw_addr) ip n NET_ARP_RESOLVED;
    let s := if negb (default NULL (head (cache_list s)) =? e)
             then set_cache s (e :: filter (fun f => f <> e) (cache_list s)) (cache_mblock s)
             else s in
    '(err, s) ← cache_send_all s e;
    if is_err err then Some (err, s) else Some (NET_ERR_OK, s).

(** ** ARP packets *)

(** [dest] of the reply is a field of the packet, which stays where it is
    while the frame header is put before it. *)
Definition arp_make_reply (s : link_state) (n : Z) (buf : pktbuf_t)
    : option (net_err_t * pktbuf_t * link_state) :=
  p ← pkt_load_at arp_pkt_t (lpm s) buf 0;
  x ← netifs s !! n;
  sp ← ip_addr_to_buf (ip_addr (ip_desc x)) (send_paddr p);
  m ← pkt_store_at (lpm s) buf 0
        (ArpPkt (htype p) (ptype p) (hlen p) (plen p) (swap_u16 ARP_REPLY)
           (mac x) sp (send_haddr p) (send_paddr p));
  ether_raw_out (set_lpm s m) n NET_PROTOCOL_ARP (send_haddr p) buf.

Definition arp_in (s : link_state) (n : Z) (buf : pktbuf_t)
    : option (net_err_t * pktbuf_t * link_state) :=
  '(e, buf, m) ← pktbuf_set_cont (lpm s) buf ARP_PKT_SIZE;
  let s := set_lpm s m in
  if is_err e then Some (e, buf, s)
  else
    p ← pkt_load_at arp_pkt_t (lpm s) buf 0;
    let e := arp_pkt_check p (total_size buf) in
    if negb (bool_decide (e = NET_ERR_OK)) then Some (e, buf, s)
    else
      x ← netifs s !! n;
      target_ip ← ip_addr_from_buf (target_paddr p);
      if target_ip =? ip_addr (ip_desc x) then
        '(_, s) ← cache_insert s n (send_paddr p) (send_haddr p) true;
        if swap_u16 (opcode p) =? ARP_REQUEST then arp_make_reply s n buf else Some (e, buf, s)
      else
        '(_, s) ← cache_insert s n (send_paddr p) (send_haddr p) false;
        let '(buf, m) := pktbuf_free (lpm s) buf in
        Some (NET_ERR_OK, buf, set_lpm s m).

(** Without a result where the function ends without a return statement; its
    caller does not look at the result. *)
Definition arp_update_from_ipbuf (s : link_state) (n : Z) (buf : pktbuf_t)
    : option (option net_err_t * pktbuf_t * link_state) :=
  '(e, buf, m) ← pktbuf_set_cont (lpm s) buf (IPV4_HDR_SIZE + ETHER_HDR_SIZE);
  let s := set_lpm s m in
  if is_err e then Some (Some e, buf, s)
  else
    eth_hdr ← pkt_load_at ether_hdr_t m buf 0;
    ip_hdr ← pkt_load_at ipv4_hdr_t m buf ETHER_HDR_SIZE;
    if negb (version ip_hdr =? NET_VERSION_IPV4) then Some (Some NET_ERR_NOT_SUPPORT, buf, s)
    else
      let size := swap_u16 (total_len ip_hdr) in
      if (size <? IPV4_HDR_SIZE) || (total_size buf <? size) then Some (Some NET_ERR_SIZE, buf, s)
      else
        x ← netifs s !! n;
        dest_ip ← ip_addr_from_buf (dest_ip ip_hdr);
        if ipaddr_is_match (ip_addr (ip_desc x)) dest_ip (net_mask (ip_desc x)) then
          '(_, s) ← cache_insert s n (src_ip ip_hdr) (src eth_hdr) false; Some (None, buf, s)
        else Some (None, buf, s).

Definition arp_find (s : link_state) (ip : Z) : option (link_state * option (list Z)) :=
  '(s, e) ← cache_find s (a_addr ip);
  if e =? NULL then Some (s, None) else x ← arps s !! e; Some (s, Some (haddr x)).

Definition arp_resolve (s : link_state) (n addr : Z) (buf : pktbuf_t)
    : option (net_err_t * pktbuf_t * link_state) :=
  '(s, e) ← cache_find s (a_addr addr);
  if negb (e =? NULL) then
    x ← arps s !! e;
    if astate x =? NET_ARP_RESOLVED then ether_raw_out s n NET_PROTOCOL_IPv4 (haddr x) buf
    else if ARP_CACHE_MAX <? zlen (abufs x) then Some (NET_ERR_FULL, buf, s)
    else Some (NET_ERR_OK, buf, set_entry s e (with_abufs x (buf :: abufs x)))
  else
    '(s, e) ← cache_alloc s true;
    if e =? NULL then Some (NET_ERR_MEM, buf, s)
    else
      s ← cache_entry_set s e None (a_addr addr) n NET_ARP_WAITING;
      x ← arps s !! e;
      let s := set_entry s e (with_abufs x (buf :: abufs x)) in
      let s := set_cache s (cache_list s ++ [e]) (cache_mblock s) in
      '(err, s) ← arp_make_request s n addr;
      Some (err, buf, s).

(** ** Output *)

Definition ether_open (s : link_state) (n : Z) : option (net_err_t * link_state) :=
  x ← netifs s !! n; arp_make_request s n (ip_addr (ip_desc x)).

Definition pkt_buf_check (total_size : Z) : net_err_t :=
  if ETHER_HDR_SIZE + ETH_MTU <? u32 total_size then NET_ERR_SIZE
  else if u32 total_size <? ETHER_HDR_SIZE then NET_ERR_SIZE
  else NET_ERR_OK.

Definition ether_out (s : link_state) (n ip : Z) (buf : pktbuf_t)
    : option (net_err_t * pktbuf_t * link_state) :=
  x ← netifs s !! n;
  if ip_addr (ip_desc x) =? ip then
    '(_, buf, s) ← ether_raw_out s n NET_PROTOCOL_IPv4 (mac x) buf; Some (NET_ERR_OK, buf, s)
  else
    '(s, h) ← arp_find s ip;
    match h with
    | None => arp_resolve s n ip buf
    | Some h_addr => ether_raw_out s n NET_PROTOCOL_IPv4 h_addr buf
    end.

(** Ethernet is the only layer that is registered. *)
Definition netif_out (s : link_state) (n ip : Z) (buf : pktbuf_t)
    : option (net_err_t * pktbuf_t * link_state) :=
  x ← netifs s !! n;
  if negb (link_layer x =? NULL) then
    '(e, buf, s) ← ether_out s n ip buf;
    Some (if is_err e then e else NET_ERR_OK, buf, s)
  else
    '(e, s) ← netif_put_out s n buf;
    if is_err e then Some (e, buf, s)
    else
      x ← netifs s !! n;
      '(e, x, m) ← xmit x (lpm s);
      Some (e, buf, set_netif (set_lpm s m) n x).

End Output.

(** The layer's address in [init_ether]. *)
Definition init_ether (s : link_state) (link_layer : Z) : option (option net_err_t * link_state) :=
  '(e, s) ← netif_register_layer s NETIF_TYPE_ETHER link_layer;
  match e with
  | Some e => Some (Some (if is_err e then e else NET_ERR_OK), s)
  | None => Some (None, s)
  end.
