(* ===== verification/LinkSpec.v ===== *)
(** * Frames and the ARP cache: theorems

    [ether_raw_out] sends exactly the frame of the bytes it is given, and the
    ARP cache is a bounded map from addresses to hardware addresses that drops
    the entry not used for the longest time. *)

From S2P Require Import Prelude Pktbuf PktbufSpec PktbufAccess Layout Checksum IpAddr CString Link.
From S2P Require Import Prelude.

(** ** Free blocks *)

Lemma blks_for_nonneg size : 0 <= size -> 0 <= blks_for size.
Proof. unfold blks_for. intros. divmod. Qed.

(** An allocation takes at most the blocks the size needs. *)
Lemma alloc_loop_free fuel : forall m size front chain chain' m',
  0 <= size -> alloc_loop fuel m size front chain = Some (chain', m') ->
  zlen (free m) - blks_for size <= zlen (free m').
Proof.
  induction fuel as [|fuel IH]; intros m size front chain chain' m' Hs E; [done|].
  cbn [alloc_loop] in E. destruct (Z.eqb_spec size 0) as [->|Hne].
  { injection E as <- <-. change (blks_for 0) with 0. lia. }
  unfold pktblock_alloc in E. destruct (free m) as [|b fr] eqn:Ef.
  { mstep. cbn in E. injection E as <- <-. cbn. pose proof (blks_for_nonneg size Hs).
    rewrite zlen_app. pose proof (zlen_nonneg chain). rewrite Ef. lia. }
  destruct (blks m !! b) as [x|] eqn:Hx; [|done]. cbn [mbind option_bind] in E.
  destruct (Z.eqb_spec b NULL).
  { injection E as <- <-. cbn. rewrite zlen_app. pose proof (zlen_nonneg chain).
    change (zlen (b :: fr)) with (Z.of_nat (S (length fr))). unfold zlen, blks_for in *. divmod. }
  cbn [blks mbind option_bind] in E. rewrite lookup_insert_eq in E. cbn [mbind option_bind] in E.
  apply IH in E.
  - cbn [free set_blk] in E. change (zlen (b :: fr)) with (Z.of_nat (S (length fr))).
    unfold zlen, blks_for, PKTBUF_BLK_SIZE in *. destruct (Z.ltb_spec 64 size); divmod.
  - unfold PKTBUF_BLK_SIZE. destruct (Z.ltb_spec 64 size); lia.
Qed.

Lemma blks_for_mono a b : a <= b -> blks_for a <= blks_for b.
Proof. unfold blks_for. intros. divmod. Qed.

Lemma resize_free m buf others to_size e buf' m' : buf_wf m buf others ->
  0 < total_size buf < to_size -> pktbuf_resize m buf to_size = Some (e, buf', m') ->
  zlen (free m) - blks_for (to_size - total_size buf) <= zlen (free m').
Proof.
  intros B Ht. unfold pktbuf_resize.
  destruct (Z.eqb_spec to_size (total_size buf)), (Z.eqb_spec (total_size buf) 0),
    (Z.ltb_spec (total_size buf) to_size); try lia.
  destruct (last (blk_list buf)) as [b|] eqn:El; [|done]. mstep.
  destruct (blks m !! b) as [x|] eqn:Hx; [|done]. mstep. cbv zeta.
  pose proof (blks_for_nonneg (to_size - total_size buf) ltac:(lia)).
  destruct (Z.leb_spec (to_size - total_size buf) (curr_blk_tail_free x)).
  { intros [= <- <- <-]. cbn. lia. }
  assert (0 <= curr_blk_tail_free x) as Hr.
  { destruct B as [W _]. destruct (pm_lookup _ _ b W) as (y & Hy & Wy).
    { apply elem_of_app. left. by apply last_Some_elem_of. }
    rewrite Hx in Hy. injection Hy as <-. unfold curr_blk_tail_free. destruct Wy. lia. }
  intros (p & Ea & E)%bind_Some. destruct p as [chain m1]. cbn in E.
  unfold pktblock_alloc_list in Ea. apply alloc_loop_free in Ea; [|lia].
  pose proof (blks_for_mono (to_size - total_size buf - curr_blk_tail_free x)
    (to_size - total_size buf) ltac:(lia)).
  destruct chain as [|c chain]; [injection E as <- <- <-; lia|].
  apply bind_Some in E as (x1 & _ & E). apply bind_Some in E as (b1 & _ & E). injection E as <- <- <-.
  cbn. lia.
Qed.

(** A header added contiguously lies in the first block. *)
Lemma add_header_first m buf others size buf' m' : buf_wf m buf others -> 0 < size ->
  pktbuf_add_header m buf size true = Some (NET_ERR_OK, buf', m') ->
  exists b rest x, blk_list buf' = b :: rest /\ blks m' !! b = Some x /\ size <= bsize x.
Proof.
  intros B Hs. unfold pktbuf_add_header. destruct (blk_list buf) as [|b rest] eqn:El; [done|].
  cbn [head hd_error]. mstep. destruct (buf_first _ _ _ _ _ B El) as (x & Hx & Wx & _). rewrite Hx. mstep.
  cbv zeta. destruct (Z.leb_spec size (data x)).
  { intros [= <- <-]. exists b, rest, (Blk (bsize x + size) (data x - size) (payload x)). cbn.
    rewrite lookup_insert_eq. split_and!; try done. destruct Wx. lia. }
  destruct (Z.ltb_spec PKTBUF_BLK_SIZE size) as [|Hle]; [done|].
  intros ([chain m1] & Ea & E)%bind_Some. cbn in E.
  unfold pktblock_alloc_list in Ea. cbn [alloc_loop] in Ea.
  destruct (Z.eqb_spec size 0); [lia|]. unfold pktblock_alloc in Ea.
  destruct (free m) as [|c fr]; [cbn in Ea; injection Ea as <- <-; done|].
  destruct (blks m !! c) as [y|]; [|done]. cbn [mbind option_bind] in Ea.
  destruct (Z.eqb_spec c NULL); [injection Ea as <- <-; done|].
  cbn [blks mbind option_bind] in Ea. rewrite lookup_insert_eq in Ea. cbn [mbind option_bind] in Ea.
  destruct (Z.ltb_spec PKTBUF_BLK_SIZE size); [lia|]. rewrite Z.sub_diag in Ea. cbn in Ea.
  injection Ea as <- <-. unfold pktbuf_insert_blk_list in E.
  apply bind_Some in E as (b1 & Eb & E). apply bind_Some in Eb as (n1 & _ & Eb). injection Eb as <-.
  injection E as <- <-. exists c, (blk_list buf). eexists. cbn. rewrite lookup_insert_eq.
  split; [done|]. split; [done|]. cbn. lia.
Qed.

(** ** Frames *)

(** Padding with zeros to the least frame size. *)
Definition padded (c : list Z) : list Z := c ++ replicate (Z.to_nat (ETH_DATA_MIN - zlen c)) 0.

Lemma ether_pad_ok m buf others : buf_wf m buf others -> 0 < total_size buf -> 1 <= zlen (free m) ->
  exists buf' m', ether_pad m buf = Some (NET_ERR_OK, buf', m') /\ buf_wf m' buf' others /\
    same_blks m m' others /\ zlen (free m) - 1 <= zlen (free m') /\
    contents m' (blk_list buf') = padded (contents m (blk_list buf)).
Proof.
  intros B Ht Hf. pose proof (bf_total _ _ _ B) as T. unfold ether_pad, pktbuf_total, padded.
  rewrite <- T. destruct (Z.ltb_spec (total_size buf) ETH_DATA_MIN) as [Hlt|Hge].
  2: { exists buf, m. replace (Z.to_nat _) with O by lia. rewrite app_nil_r.
       split_and!; try done; lia. }
  destruct (pktbuf_resize_spec m buf others ETH_DATA_MIN B) as (e & b1 & m1 & E & B1 & S1 & R);
    [unfold ETH_DATA_MIN; lia|].
  pose proof (resize_free m buf others ETH_DATA_MIN e b1 m1 B ltac:(lia) E) as Hfr.
  pose proof (blks_for_mono (ETH_DATA_MIN - total_size buf) 46 ltac:(unfold ETH_DATA_MIN; lia)) as Hb46.
  change (blks_for 46) with 1 in Hb46. rewrite E. mstep.
  destruct (Z.leb_spec ETH_DATA_MIN (total_size buf)); [lia|]. cbv zeta in R.
  set (room := if total_size buf =? 0 then 0 else _) in R.
  assert (0 <= room) as Hroom.
  { unfold room. destruct (total_size buf =? 0); [lia|].
    destruct (last (blk_list buf)) as [b|] eqn:El; [|lia].
    destruct (pm_lookup _ _ b (bf_mem _ _ _ B)) as (y & Hy & Wy).
    { apply elem_of_app. left. by apply last_Some_elem_of. }
    rewrite Hy. unfold curr_blk_tail_free. destruct Wy. lia. }
  pose proof (blks_for_mono (ETH_DATA_MIN - total_size buf - room) 46 ltac:(unfold ETH_DATA_MIN; lia)) as Hb.
  change (blks_for 46) with 1 in Hb.
  destruct (Z.leb_spec (blks_for (ETH_DATA_MIN - total_size buf - room)) (zlen (free m))); [|lia].
  destruct R as (-> & new & Hn & Hc). cbn [is_err].
  pose proof (bf_total _ _ _ B1) as T1. rewrite Hc, zlen_app, Hn, <- T in T1.
  destruct (blk_list b1) as [|b rest] eqn:El.
  { exfalso. apply (f_equal zlen) in Hc. rewrite zlen_app, <- T, Hn in Hc.
    change (zlen (contents m1 [])) with 0 in Hc. unfold ETH_DATA_MIN in *. lia. }
  destruct (reset_acc_ok m1 b1 _ (bf_mem _ _ _ B1)) as (b' & off & Er & Hm); [set_solver|].
  rewrite El in Hm. destruct Hm as (-> & x & Hx & ->). rewrite Er. mstep.
  destruct (cursor_start m1 b1 others b rest x B1 El Hx) as [C1 B1'].
  destruct (pktbuf_seek_ok m1 (with_cursor b1 0 b (data x)) others (total_size buf) B1' C1)
    as (b2 & -> & M2); [cbn; lia|]. mstep. destruct M2.
  destruct (pktbuf_fill_spec m1 b2 others 0 (ETH_DATA_MIN - total_size buf) mv_wf mv_cursor) as
    (e3 & b3 & m3 & -> & R3); [lia|]. mstep.
  destruct (Z.eqb_spec (ETH_DATA_MIN - total_size buf) 0); [lia|].
  destruct (Z.ltb_spec (total_blk_remain b2) (ETH_DATA_MIN - total_size buf)) as [Hlt2|_].
  { unfold total_blk_remain in Hlt2. rewrite mv_total, mv_pos in Hlt2. cbn in Hlt2. lia. }
  destruct R3 as (-> & M3 & Hc3). destruct M3 as [W3 _ S3 _ L3 _ _ [F3 _]].
  exists b3, m3. split; [done|]. split; [done|]. split; [by eapply same_blks_trans|].
  split; [rewrite F3; lia|].
  rewrite Hc3, mv_pos, mv_blks. cbn [blk_list with_cursor]. rewrite El, Hc. unfold splice.
  rewrite T. unfold zlen at 1. rewrite Nat2Z.id, take_app_length. f_equal.
  rewrite drop_ge; [by rewrite app_nil_r|].
  rewrite length_app, length_replicate. unfold zlen in *. lia.
Qed.

Lemma swap_u16_arith v : 0 <= v < 65536 -> swap_u16 v = v mod 256 * 256 + v / 256.
Proof.
  intros Hv. unfold swap_u16.
  assert (Z.land v 255 = v mod 256) as -> by (change 255 with (Z.ones 8); by rewrite Z.land_ones).
  assert (Z.land (Z.shiftr v 8) 255 = v / 256) as ->.
  { change 255 with (Z.ones 8). rewrite Z.land_ones, Z.shiftr_div_pow2 by lia.
    change (2 ^ 8) with 256. rewrite Z.mod_small; divmod. }
  rewrite Z.shiftl_mul_pow2 by lia. change (2 ^ 8) with 256.
  pose proof (Z.mod_pos_bound v 256 ltac:(lia)). assert (0 <= v / 256 < 256) by divmod.
  assert (Z.land (v mod 256 * 256) (v / 256) = 0) as Hl.
  { apply Z.bits_inj'. intros i Hi. rewrite Z.land_spec, Z.bits_0.
    destruct (Z.lt_ge_cases i 8).
    - change 256 with (2 ^ 8) at 2. by rewrite Z.mul_pow2_bits_low.
    - rewrite (bits_lt_pow2 8 (v / 256)) by (try done; lia). apply andb_false_r. }
  pose proof (Z.add_lor_land (v mod 256 * 256) (v / 256)) as Hs. rewrite Hl in Hs.
  replace (Z.lor (v mod 256 * 256) (v / 256)) with (v mod 256 * 256 + v / 256) by lia.
  by rewrite u16_small by lia.
Qed.

(** The bytes of a field in network order. *)
Lemma le16_swap v : 0 <= v < 65536 -> le16 (swap_u16 v) = [v / 256; v mod 256].
Proof.
  intros Hv. rewrite swap_u16_arith by done. unfold le16, u8. rewrite Z.shiftr_div_pow2 by lia.
  change (2 ^ 8) with 256. f_equal; [divmod|]. f_equal. divmod.
Qed.

(** An Ethernet frame. *)
Definition frame (dest mac : list Z) (protocol : Z) (payload : list Z) : list Z :=
  dest ++ mac ++ [protocol / 256; protocol mod 256] ++ padded payload.

Lemma memcmp_eq (a b : list Z) n : zlen a = n -> zlen b = n ->
  exists r, memcmp a b n = Some r /\ (r = 0 <-> a = b).
Proof.
  intros Ha Hb. unfold memcmp. destruct (memcmp_loop_ok (Z.to_nat n) a b) as (r & Hr & _ & H0);
    [unfold zlen in *; lia..|]. exists r. split; [done|]. rewrite H0.
  by rewrite !take_ge by (unfold zlen in *; lia).
Qed.

(** [ether_raw_out] puts one packet, whose bytes are the frame with the padded
    payload, into the interface's input queue when the frame is for the
    interface itself, and else into the output queue before it calls the
    driver.  No packet but this one changes. *)
Lemma ether_raw_out_ok (xmit : netif_t -> pmem -> option (net_err_t * netif_t * pmem))
    s n x protocol dst buf others :
  buf_wf (lpm s) buf others -> 0 < total_size buf -> 2 <= zlen (free (lpm s)) ->
  netifs s !! n = Some x -> bytes_ok 6 (mac x) -> bytes_ok 6 dst -> 0 <= protocol < 65536 ->
  exists buf' m', buf_wf m' buf' others /\ same_blks (lpm s) m' others /\
    contents m' (blk_list buf')
      = frame dst (mac x) protocol (contents (lpm s) (blk_list buf)) /\
    ether_raw_out xmit s n protocol dst buf =
      if bool_decide (mac x = dst) then
        '(e, s') ← netif_put_in (set_lpm s m') n buf'; Some (e, buf', s')
      else if NETIF_OUTQ_SIZE <=? zlen (out_q x) then Some (NET_ERR_FULL, buf', set_lpm s m')
      else
        '(e, x', m'') ← xmit (with_out_q x (out_q x ++ [buf'])) m';
        Some (e, buf', set_netif (set_lpm (set_netif (set_lpm s m') n
                (with_out_q x (out_q x ++ [buf']))) m'') n x').
Proof.
  intros B Ht Hf Hx Hmac Hdst Hp. unfold ether_raw_out.
  destruct (ether_pad_ok (lpm s) buf others B Ht) as (b1 & m1 & -> & B1 & S1 & F1 & C1); [lia|]. mstep.
  cbn [is_err].
  assert (blk_list b1 <> []) as Hne.
  { intros E. rewrite E in C1. apply (f_equal zlen) in C1. unfold padded in C1.
    rewrite zlen_app, <- (bf_total _ _ _ B) in C1. change (zlen (contents m1 [])) with 0 in C1.
    pose proof (zlen_nonneg (replicate (Z.to_nat (ETH_DATA_MIN - total_size buf)) 0)). lia. }
  destruct (blk_list b1) as [|b rest] eqn:El; [done|].
  destruct (buf_first _ _ _ _ _ B1 El) as (y & Hy & Wy & _).
  destruct (pktbuf_add_header_spec m1 b1 others ETHER_HDR_SIZE true b rest y B1 El Hy)
    as (e & b2 & m2 & E2 & B2 & S2 & R); [done|]. cbv zeta in R. rewrite E2. mstep.
  change (negb true) with false in R. change (ETHER_HDR_SIZE <=? PKTBUF_BLK_SIZE) with true in R.
  change (blks_for ETHER_HDR_SIZE) with 1 in R. cbn [orb andb] in R.
  assert (e = NET_ERR_OK /\ exists hdr, zlen hdr = ETHER_HDR_SIZE /\
    contents m2 (blk_list b2) = hdr ++ contents m1 (blk_list b1)) as (-> & hdr & Hh & C2).
  { destruct (ETHER_HDR_SIZE <=? data y); [done|]. destruct (Z.leb_spec 1 (zlen (free m1))); [done|lia]. }
  clear R. cbn [is_err]. rewrite Hx. mstep.
  destruct (add_header_first m1 b1 others ETHER_HDR_SIZE b2 m2 B1) as (c & rest2 & z & El2 & Hz & Hzs);
    [done|done|].
  set (h := EtherHdr dst (mac x) (swap_u16 protocol)).
  assert (ether_ok h) as Hok.
  { split_and!; cbn; try done; rewrite swap_u16_arith by lia; divmod. }
  destruct (@pkt_store_ok ether_hdr_t ether_packed m2 b2 others 0 h c rest2 z B2 El2 Hz Hok) as
    (m3 & -> & B3 & S3 & _ & _ & _ & C3); [done|exact Hzs|]. mstep.
  destruct (memcmp_eq (mac x) dst ETH_HWA_SIZE) as (r & -> & Hr); [apply Hmac|apply Hdst|]. mstep.
  exists b2, m3. split; [done|]. split.
  { eapply same_blks_trans; [exact S1|]. eapply same_blks_trans; [exact S2|].
    eapply same_blks_sub; [exact S3|]. set_solver. }
  split.
  { rewrite C3, C2. cbn [Z.to_nat take app].
    change (0 + psize ether_hdr_t) with ETHER_HDR_SIZE. unfold zlen in Hh.
    rewrite <- Hh, Nat2Z.id, drop_app_length, El, C1. cbn [to_bytes ether_packed].
    unfold frame, ether_bytes, h. cbn [dest src eprotocol]. rewrite le16_swap by done.
    by rewrite <- !app_assoc. }
  destruct (Z.eqb_spec r 0) as [->|Hrn].
  { rewrite bool_decide_true by (by apply Hr). done. }
  rewrite bool_decide_false by (by intros H; apply Hrn, Hr).
  unfold netif_put_out, queue_send. cbn [netifs set_lpm]. rewrite Hx. mstep.
  destruct (NETIF_OUTQ_SIZE <=? zlen (out_q x)); [done|]. cbn [is_err]. mstep. cbn [is_err].
  cbn [netifs set_netif]. rewrite lookup_insert_eq. mstep. done.
Qed.

(** ** The ARP cache *)

(** The cache as the sequence of its addresses and hardware addresses, the
    one used last first. *)
Definition ent (s : link_state) (e : Z) : arp_entry_t := default empty_entry (arps s !! e).
Definition row (s : link_state) (e : Z) : list Z * list Z := (paddr (ent s e), haddr (ent s e)).
Definition table (s : link_state) : list (list Z * list Z) := row s <$> cache_list s.

Record cache_inv (s : link_state) : Prop := {
  ci_nodup : NoDup (cache_list s ++ cache_mblock s);
  ci_null : NULL ∉ cache_list s ++ cache_mblock s;
  ci_ent : forall e, e ∈ cache_list s -> exists x, arps s !! e = Some x /\ zlen (paddr x) = 4;
  ci_keys : NoDup (table s).*1;
}.

(** The contract: a table of rows in the order of their last use. *)
Definition drop_row (ip : list Z) (t : list (list Z * list Z)) := filter (fun r => r.1 <> ip) t.
Definition find_row (ip : list Z) (t : list (list Z * list Z)) : option (list Z) :=
  head (filter (fun r => r.1 = ip) t).*2.
Definition lru_find (ip : list Z) (t : list (list Z * list Z)) :=
  match find_row ip t with None => t | Some h => (ip, h) :: drop_row ip t end.
Definition lru_insert (full : bool) (ip hw : list Z) (t : list (list Z * list Z)) :=
  if bool_decide (ip ∈ t.*1) then (ip, hw) :: drop_row ip t
  else (ip, hw) :: (if full then removelast t else t).

Lemma fmap_filter {A B} (f : A -> B) (P : A -> Prop) (Q : B -> Prop)
    `{!forall x, Decision (P x)} `{!forall x, Decision (Q x)} (l : list A) :
  (forall x, x ∈ l -> P x <-> Q (f x)) -> f <$> filter P l = filter Q (f <$> l).
Proof.
  induction l as [|x l IH]; intros Hpq; [done|]. rewrite fmap_cons, !filter_cons.
  rewrite <- IH by (intros y Hy; apply Hpq; set_solver). specialize (Hpq x (list_elem_of_here x l)).
  destruct (decide (P x)), (decide (Q (f x))); tauto || done.
Qed.

Lemma NoDup_filter_cons (l : list Z) e : NoDup l -> e ∈ l -> l ≡ₚ e :: filter (fun f => f <> e) l.
Proof.
  intros Hd He. apply NoDup_Permutation; [done| |].
  - constructor; [rewrite list_elem_of_filter; tauto|by apply NoDup_filter].
  - intros x. rewrite elem_of_cons, list_elem_of_filter. destruct (decide (x = e)); [naive_solver|tauto].
Qed.

(** Rows and entries name each other. *)
Lemma row_key s e f : cache_inv s -> e ∈ cache_list s -> f ∈ cache_list s ->
  (row s e).1 = (row s f).1 -> e = f.
Proof.
  intros I He Hf E. pose proof (ci_keys _ I) as Hd. unfold table in Hd. rewrite <- list_fmap_compose in Hd.
  apply list_elem_of_lookup in He as [i Hi], Hf as [j Hj].
  assert (i = j) as ->; [|congruence].
  eapply (NoDup_lookup _ i j ((row s e).1)); [exact Hd|..]; rewrite list_lookup_fmap.
  - by rewrite Hi.
  - rewrite Hj. cbn. by f_equal.
Qed.

(** A list that moves [e] to the front, and then perhaps sets its entry. *)
Lemma cache_front_ok s e x : cache_inv s -> e ∈ cache_list s ->
  paddr x = (row s e).1 -> zlen (paddr x) = 4 ->
  let s' := set_entry (set_cache s (e :: filter (fun f => f <> e) (cache_list s)) (cache_mblock s)) e x in
  cache_inv s' /\ table s' = (paddr x, haddr x) :: drop_row (paddr x) (table s).
Proof.
  intros I He Hp Hz s'. pose proof (ci_nodup _ I) as Hd. apply NoDup_app in Hd as (Hd & Hx & Hm).
  pose proof (NoDup_filter_cons _ e Hd He) as HP.
  assert (table s' = (paddr x, haddr x) :: drop_row (paddr x) (table s)) as Ht.
  { unfold table, s'. cbn [cache_list set_entry set_cache]. rewrite fmap_cons.
    assert (row s' e = (paddr x, haddr x)) as E
      by (unfold row, ent, s'; cbn; by rewrite lookup_insert_eq).
    fold s'. rewrite E. f_equal. unfold drop_row.
    rewrite (list_fmap_ext _ (row s) (filter (fun f => f <> e) (cache_list s))).
    2:{ intros i f Hf. apply list_elem_of_lookup_2, list_elem_of_filter in Hf as [Hf _].
        unfold row, ent, s'. cbn. by rewrite lookup_insert_ne. }
    apply fmap_filter. intros f Hf. split.
    - intros Hne E'. apply Hne. symmetry. apply (row_key s); [done..|]. congruence.
    - intros Hne ->. by apply Hne. }
  split; [|done]. split.
  - cbn [cache_list cache_mblock set_entry set_cache s']. rewrite <- HP. apply (ci_nodup _ I).
  - cbn [cache_list cache_mblock set_entry set_cache s']. rewrite <- HP. apply (ci_null _ I).
  - intros f Hf. cbn in Hf |- *. rewrite <- HP in Hf. rewrite lookup_insert. case_decide; [by exists x|].
    by apply (ci_ent _ I).
  - rewrite Ht. cbn [fmap list_fmap]. constructor.
    + intros (r & Er & [Hr _]%list_elem_of_filter)%list_elem_of_fmap. by apply Hr.
    + unfold drop_row. eapply sublist_NoDup; [apply (ci_keys _ I)|]. apply fmap_sublist, sublist_filter.
Qed.

Lemma cache_loop_ok (a : gmap Z arp_entry_t) ip l : zlen ip = 4 ->
  (forall e, e ∈ l -> exists x, a !! e = Some x /\ zlen (paddr x) = 4) ->
  (cache_loop a ip l = Some NULL /\ forall e x, e ∈ l -> a !! e = Some x -> paddr x <> ip) \/
  exists e x, cache_loop a ip l = Some e /\ e ∈ l /\ a !! e = Some x /\ paddr x = ip.
Proof.
  intros Hz. induction l as [|e l IH]; intros Hl; cbn [cache_loop].
  - left. split; [done|]. by intros ? ? ?%not_elem_of_nil.
  - destruct (Hl e) as (x & Hx & Hp); [set_solver|]. rewrite Hx. mstep.
    destruct (memcmp_eq ip (paddr x) IPV4_ADDR_SIZE Hz Hp) as (r & -> & Hr). mstep.
    destruct (Z.eqb_spec r 0) as [->|Hne].
    { right. exists e, x. split_and!; [done|set_solver|done|]. symmetry. by apply Hr. }
    destruct IH as [[-> Hn]|(f & y & -> & Hf & Hy & Hip)]; [intros; apply Hl; set_solver| |].
    + left. split; [done|]. intros f y [->|Hf]%elem_of_cons Hy; [|by eapply Hn].
      rewrite Hx in Hy. injection Hy as <-. intros Hip. apply Hne, Hr. done.
    + right. exists f, y. split_and!; [done|set_solver|done..].
Qed.

Lemma ent_Some s e x : arps s !! e = Some x -> ent s e = x.
Proof. intros H. unfold ent. by rewrite H. Qed.

Lemma in_keys s ip : ip ∈ (table s).*1 <-> exists e, e ∈ cache_list s /\ paddr (ent s e) = ip.
Proof.
  unfold table. rewrite <- list_fmap_compose. split.
  - intros (e & -> & He)%list_elem_of_fmap. by exists e.
  - intros (e & He & <-). apply list_elem_of_fmap. by exists e.
Qed.

(** The row of an address is that of its entry. *)
Lemma find_row_ok s e : cache_inv s -> e ∈ cache_list s ->
  find_row (paddr (ent s e)) (table s) = Some (haddr (ent s e)).
Proof.
  intros I He. unfold find_row, table.
  rewrite <- (fmap_filter (row s) (fun f => f = e) (fun r => r.1 = paddr (ent s e))).
  2:{ intros f Hf. split; [by intros ->|]. intros E. by apply (row_key s). }
  pose proof (ci_nodup _ I) as Hd. apply NoDup_app in Hd as (Hd & _).
  assert (filter (fun f => f = e) (cache_list s) = [e]) as ->; [|done].
  clear I. induction (cache_list s) as [|f l IH]; [by apply not_elem_of_nil in He|].
  apply NoDup_cons in Hd as [Hf Hd]. rewrite filter_cons. destruct (decide (f = e)) as [->|].
  - f_equal. clear IH He Hd. induction l as [|g l IH]; [done|]. rewrite filter_cons_False by set_solver.
    apply IH. set_solver.
  - apply IH; [set_solver|done].
Qed.

Lemma find_row_None s ip : ip ∉ (table s).*1 -> find_row ip (table s) = None.
Proof.
  intros H. unfold find_row. induction (table s) as [|r t IH]; [done|].
  rewrite fmap_cons, not_elem_of_cons in H. destruct H as [Hr H].
  rewrite filter_cons_False by congruence. by apply IH.
Qed.

Lemma set_entry_id s e x : arps s !! e = Some x -> set_entry s e x = s.
Proof. intros H. destruct s. unfold set_entry. cbn in *. f_equal. by apply insert_id. Qed.

Lemma cache_find_ok s ip : cache_inv s -> zlen ip = 4 ->
  (cache_find s ip = Some (s, NULL) /\ ip ∉ (table s).*1) \/
  exists e x s', cache_find s ip = Some (s', e) /\ e <> NULL /\ e ∈ cache_list s /\
    arps s !! e = Some x /\ paddr x = ip /\
    s' = set_cache s (e :: filter (fun f => f <> e) (cache_list s)) (cache_mblock s).
Proof.
  intros I Hz. unfold cache_find.
  destruct (cache_loop_ok (arps s) ip (cache_list s) Hz (ci_ent _ I))
    as [[-> Hn]|(e & x & -> & He & Hx & Hp)]; mstep.
  - left. split; [done|]. rewrite in_keys. intros (e & He & Hp).
    destruct (ci_ent _ I e He) as (x & Hx & _). rewrite (ent_Some _ _ _ Hx) in Hp. by apply (Hn e x).
  - right. assert (e <> NULL) as H0 by (intros ->; apply (ci_null _ I); set_solver).
    destruct (Z.eqb_spec e NULL); [done|]. exists e, x. eauto 10.
Qed.

(** A lookup returns the hardware address of the table's row and makes the
    row the one used last; the invariant is kept. *)
Theorem arp_find_refines s ip : cache_inv s ->
  exists s', arp_find s ip = Some (s', find_row (a_addr ip) (table s)) /\ cache_inv s' /\
    table s' = lru_find (a_addr ip) (table s).
Proof.
  intros I. unfold arp_find, lru_find.
  destruct (cache_find_ok s (a_addr ip) I) as [[-> Hn]|(e & x & s' & -> & H0 & He & Hx & Hp & ->)];
    [done|..]; mstep.
  - exists s. rewrite (find_row_None _ _ Hn). done.
  - destruct (Z.eqb_spec e NULL); [done|]. cbn [arps set_cache]. rewrite Hx. mstep.
    destruct (cache_front_ok s e x I He) as [I' Ht].
    { unfold row. by rewrite (ent_Some _ _ _ Hx). } { by rewrite Hp. }
    rewrite set_entry_id in I', Ht by done. eexists. split; [|split; [exact I'|]].
    + do 2 f_equal. rewrite <- Hp, <- (ent_Some _ _ _ Hx). symmetry. by apply find_row_ok.
    + rewrite Ht, Hp. rewrite <- Hp, <- (ent_Some _ _ _ Hx), find_row_ok by done. done.
Qed.

(** States with the same rows. *)
Record same_rows (s s' : link_state) : Prop := {
  sr_list : cache_list s' = cache_list s;
  sr_pool : cache_mblock s' = cache_mblock s;
  sr_ent : forall e x, arps s !! e = Some x ->
    exists x', arps s' !! e = Some x' /\ paddr x' = paddr x /\ haddr x' = haddr x;
}.

#[global] Instance same_rows_preorder : PreOrder same_rows.
Proof.
  split; [intros s; split; eauto|].
  intros s1 s2 s3 [L1 P1 E1] [L2 P2 E2]. split; [congruence..|]. intros e x Hx.
  destruct (E1 _ _ Hx) as (y & Hy & ? & ?), (E2 _ _ Hy) as (z & Hz & ? & ?). exists z. split; [done|]. split; congruence.
Qed.

Lemma same_rows_eq s s' : arps s' = arps s -> cache_list s' = cache_list s ->
  cache_mblock s' = cache_mblock s -> same_rows s s'.
Proof. intros E L P. split; [done..|]. rewrite E. eauto. Qed.

Lemma same_rows_inv s s' : same_rows s s' -> cache_inv s -> cache_inv s' /\ table s' = table s.
Proof.
  intros [L P E] I. assert (table s' = table s) as Ht.
  { unfold table. rewrite L. apply list_fmap_ext. intros i e He. apply list_elem_of_lookup_2 in He.
    destruct (ci_ent _ I e He) as (x & Hx & _). destruct (E _ _ Hx) as (x' & Hx' & Hp & Hh).
    unfold row. rewrite (ent_Some _ _ _ Hx), (ent_Some _ _ _ Hx'). by f_equal. }
  split; [|done]. destruct I as [I1 I2 I3 I4]. split; rewrite ?L, ?P, ?Ht; try done.
  intros e He. destruct (I3 e He) as (x & Hx & Hz). destruct (E _ _ Hx) as (x' & Hx' & Hp & _).
  exists x'. split; [done|]. by rewrite Hp.
Qed.

Section Insert.
Context (xmit : netif_t -> pmem -> option (net_err_t * netif_t * pmem)).
Context (at_null : list Z).

Lemma netif_put_in_rows s n buf e s' : netif_put_in s n buf = Some (e, s') -> same_rows s s'.
Proof.
  unfold netif_put_in. intros (x & Hx & E)%bind_Some. unfold queue_send in E.
  destruct (NETIF_INQ_SIZE <=? zlen (in_q x)); cbn [is_err] in E; [by injection E as <- <-|].
  injection E as <- <-. destruct (_ =? 1); [|by apply same_rows_eq].
  unfold exmsg_netif_in. cbn [msg_block set_netif]. destruct (msg_block s) as [|m p]; [by apply same_rows_eq|].
  unfold queue_send. by destruct (EXMSG_MSG_CNT <=? _); apply same_rows_eq.
Qed.

Lemma netif_put_out_rows s n buf e s' : netif_put_out s n buf = Some (e, s') -> same_rows s s'.
Proof.
  unfold netif_put_out. intros (x & Hx & E)%bind_Some. unfold queue_send in E.
  destruct (NETIF_OUTQ_SIZE <=? zlen (out_q x)); cbn [is_err] in E; injection E as <- <-;
    by apply same_rows_eq.
Qed.

Lemma ether_raw_out_rows s n p d buf e buf' s' :
  ether_raw_out xmit s n p d buf = Some (e, buf', s') -> same_rows s s'.
Proof.
  unfold ether_raw_out. intros ([[e1 b1] m1] & _ & E)%bind_Some. cbn in E.
  destruct (is_err e1); [injection E as <- <- <-; by apply same_rows_eq|].
  apply bind_Some in E as ([[e2 b2] m2] & _ & E). cbn in E.
  destruct (is_err e2); [injection E as <- <- <-; by apply same_rows_eq|].
  apply bind_Some in E as (x & _ & E). apply bind_Some in E as (m3 & _ & E).
  apply bind_Some in E as (c & _ & E). trans (set_lpm s m3); [by apply same_rows_eq|].
  destruct (c =? 0).
  - apply bind_Some in E as ([e3 s3] & E3 & E). injection E as <- <- <-. by eapply netif_put_in_rows.
  - apply bind_Some in E as ([e3 s3] & E3 & E). cbn in E. apply netif_put_out_rows in E3.
    destruct (is_err e3); [injection E as <- <- <-; done|].
    apply bind_Some in E as (x' & _ & E). apply bind_Some in E as ([[e4 x4] m4] & _ & E).
    injection E as <- <- <-. etrans; [exact E3|]. by apply same_rows_eq.
Qed.

Lemma send_all_rows fuel : forall s e err s',
  send_all_loop xmit fuel s e = Some (err, s') -> same_rows s s'.
Proof.
  induction fuel as [|fuel IH]; intros s e err s' E; [done|]. cbn [send_all_loop] in E.
  apply bind_Some in E as (x & Hx & E). destruct (abufs x) as [|b rest]; [by injection E as <- <-|].
  apply bind_Some in E as ([[e1 b1] s1] & E1 & E). apply ether_raw_out_rows in E1. cbn in E.
  assert (same_rows s (set_entry s e (with_abufs x rest))) as H0.
  { split; [done..|]. intros f y Hy. cbn. rewrite lookup_insert. case_decide as Hd; [|eauto].
    subst f. rewrite Hx in Hy. injection Hy as <-. by exists (with_abufs x rest). }
  etrans; [exact H0|]. etrans; [exact E1|].
  destruct (is_err e1); [injection E as <- <-; by apply same_rows_eq|]. by eapply IH.
Qed.

(** A new entry at the front, for an address that has no row. *)
Lemma fresh_front_ok s s' e x l' p' : cache_inv s -> zlen (paddr x) = 4 ->
  paddr x ∉ (table s).*1 -> l' `sublist_of` cache_list s ->
  e :: l' ++ p' ≡ₚ cache_list s ++ cache_mblock s ->
  (forall f, f ∈ l' -> arps s' !! f = arps s !! f) -> arps s' !! e = Some x ->
  cache_list s' = e :: l' -> cache_mblock s' = p' ->
  cache_inv s' /\ table s' = (paddr x, haddr x) :: (row s <$> l').
Proof.
  intros I Hz Hn Hsub HP Hf He Hl Hp.
  assert (table s' = (paddr x, haddr x) :: (row s <$> l')) as Ht.
  { unfold table. rewrite Hl, fmap_cons. f_equal.
    - unfold row. by rewrite (ent_Some _ _ _ He).
    - apply list_fmap_ext. intros i f Hfi. apply list_elem_of_lookup_2 in Hfi.
      unfold row, ent. by rewrite (Hf f Hfi). }
  assert ((row s <$> l').*1 `sublist_of` (table s).*1) as Hs
    by (unfold table; by apply fmap_sublist, fmap_sublist).
  split; [|done]. split.
  - rewrite Hl, Hp. change ((e :: l') ++ p') with (e :: l' ++ p'). rewrite HP. apply (ci_nodup _ I).
  - rewrite Hl, Hp. change ((e :: l') ++ p') with (e :: l' ++ p'). rewrite HP. apply (ci_null _ I).
  - rewrite Hl. intros f [->|Hin]%elem_of_cons; [by exists x|]. rewrite Hf by done.
    apply (ci_ent _ I). by eapply elem_of_sublist.
  - rewrite Ht. cbn [fmap list_fmap fst]. constructor; [|eapply sublist_NoDup; [apply (ci_keys _ I)|done]].
    intros Hin. apply Hn. by eapply elem_of_sublist.
Qed.

Lemma mem_read_all (l : list Z) n : zlen l = n -> mem_read l 0 n = Some l.
Proof.
  intros <-. unfold mem_read. pose proof (zlen_nonneg l).
  destruct (Z.leb_spec 0 (zlen l)), (Z.leb_spec (0 + zlen l) (zlen l)); try lia. cbn.
  by rewrite sub_all.
Qed.

Lemma entry_set_ok s e x hw ip n st : arps s !! e = Some x -> zlen hw = 6 -> zlen ip = 4 ->
  cache_entry_set at_null s e (Some hw) ip n st
  = Some (set_entry s e (ArpEntry ip hw st (if st =? NET_ARP_RESOLVED then 1200 else 3) 5 n (abufs x))).
Proof.
  intros Hx Hw Hi. unfold cache_entry_set. rewrite Hx. mstep.
  change (default at_null (Some hw)) with hw. by rewrite !mem_read_all.
Qed.

(** The allocation of an entry: from the pool, or the one used least
    recently. *)
Lemma cache_alloc_ok s force : cache_inv s -> cache_list s ++ cache_mblock s <> [] ->
  if bool_decide (cache_mblock s = []) && negb force then cache_alloc s force = Some (s, NULL)
  else exists e s1 l', cache_alloc s force = Some (s1, e) /\ e <> NULL /\
    l' = (if bool_decide (cache_mblock s = []) then removelast (cache_list s) else cache_list s) /\
    cache_list s1 = l' /\ e :: l' ++ cache_mblock s1 ≡ₚ cache_list s ++ cache_mblock s /\
    arps s1 !! e = Some empty_entry /\ forall f, f <> e -> arps s1 !! f = arps s !! f.
Proof.
  intros I Hne. unfold cache_alloc. pose proof (ci_null _ I) as H0.
  destruct (cache_mblock s) as [|e pool] eqn:Ep.
  - rewrite bool_decide_true by done. rewrite app_nil_r in *. destruct force; cbn [andb negb]; [|done].
    destruct (cache_list s) as [|a l] eqn:El using rev_ind; [done|]. clear IHl.
    rewrite last_snoc. unfold cache_clear_all. cbn [arps set_cache].
    destruct (ci_ent _ I a) as (x & Hx & _); [rewrite El; set_solver|]. rewrite Hx. mstep.
    destruct (Z.eqb_spec a NULL) as [->|Ha]; [set_solver|].
    rewrite removelast_last. do 3 eexists. split; [done|]. split_and!; try done.
    + cbn. rewrite app_nil_r. by rewrite Permutation_app_comm.
    + cbn. by rewrite lookup_insert_eq.
    + intros f Hf. cbn. by rewrite !lookup_insert_ne.
  - rewrite bool_decide_false by done. cbn [andb]. mstep.
    destruct (Z.eqb_spec e NULL) as [->|He]; [set_solver|].
    do 3 eexists. split; [done|]. split_and!; try done.
    + cbn. by rewrite Permutation_middle.
    + cbn. by rewrite lookup_insert_eq.
    + intros f Hf. cbn. by rewrite lookup_insert_ne.
Qed.

Lemma fmap_removelast {A B} (f : A -> B) (l : list A) : f <$> removelast l = removelast (f <$> l).
Proof.
  induction l as [|x [|y l] IH]; [done..|]. change (removelast (x :: y :: l)) with (x :: removelast (y :: l)).
  rewrite fmap_cons, IH. done.
Qed.

Lemma removelast_sublist {A} (l : list A) : removelast l `sublist_of` l.
Proof.
  destruct l as [|a l _] using rev_ind; [done|]. rewrite removelast_last. by apply sublist_inserts_r.
Qed.

(** C40: [cache_insert] implements the contract: the address gets the hardware
    address and becomes the row used last; when the table is full the row not
    used for the longest time makes room, unless the caller does not force
    it.  It returns, and reports success, whenever no packets wait for the
    address. *)
Theorem cache_insert_refines s n ip hw force : cache_inv s -> zlen ip = 4 -> zlen hw = 6 ->
  cache_list s ++ cache_mblock s <> [] ->
  let full := bool_decide (cache_mblock s = []) in
  if negb (bool_decide (ip ∈ (table s).*1)) && full && negb force then
    cache_insert xmit at_null s n ip hw force = Some (NET_ERR_NONE, s)
  else
    (forall err s', cache_insert xmit at_null s n ip hw force = Some (err, s') ->
       cache_inv s' /\ table s' = lru_insert full ip hw (table s)) /\
    ((forall e x, e ∈ cache_list s -> arps s !! e = Some x -> paddr x = ip -> abufs x = []) ->
       exists s', cache_insert xmit at_null s n ip hw force = Some (NET_ERR_OK, s')).
Proof.
  intros I Hi Hw Hne full. unfold cache_insert, lru_insert.
  destruct (cache_find_ok s ip I Hi) as [[-> Hn]|(e & x & s1 & -> & H0 & He & Hx & Hp & ->)].
  - rewrite bool_decide_false by done. mstep. change (NULL =? NULL) with true. cbn [negb andb].
    pose proof (cache_alloc_ok s force I Hne) as Ha. fold full in Ha.
    destruct (full && negb force) eqn:Ef; [rewrite Ha; done|].
    destruct Ha as (e & s1 & l' & -> & H0 & Hl' & Hl & HP & He & Hfr). mstep.
    destruct (Z.eqb_spec e NULL); [done|]. rewrite (entry_set_ok s1 e _ hw ip n _ He Hw Hi). mstep.
    split; [|intros _; by eexists]. intros err s' [= <- <-].
    match goal with |- cache_inv ?t /\ _ => set (s2 := t) end.
    assert (NoDup (e :: l' ++ cache_mblock s1)) as Hnd by (rewrite HP; apply (ci_nodup _ I)).
    apply NoDup_cons in Hnd as [Hel _].
    assert (paddr (ArpEntry ip hw NET_ARP_RESOLVED 1200 5 n []) = ip) as Epa by done.
    destruct (fresh_front_ok s s2 e (ArpEntry ip hw NET_ARP_RESOLVED 1200 5 n []) l' (cache_mblock s1))
      as [I2 T2]; try done.
    + rewrite Hl'. destruct full; [apply removelast_sublist|done].
    + intros f Hf. cbn. rewrite lookup_insert_ne by set_solver. apply Hfr. set_solver.
    + cbn. by rewrite lookup_insert_eq.
    + cbn. by rewrite Hl.
    + split; [done|]. rewrite T2. cbn [paddr haddr]. f_equal. rewrite Hl'.
      destruct full; [apply fmap_removelast|done].
  - assert (ip ∈ (table s).*1) as Hin.
    { apply in_keys. exists e. by rewrite (ent_Some _ _ _ Hx). }
    rewrite bool_decide_true by done. cbn [negb andb]. mstep. destruct (Z.eqb_spec e NULL); [done|].
    rewrite (entry_set_ok _ e x hw ip n) by done. mstep.
    cbn [head hd_error cache_list set_entry set_cache default from_option id]. rewrite Z.eqb_refl. cbn [negb].
    match goal with |- context [cache_send_all xmit ?t e] => set (s2 := t) end.
    destruct (cache_front_ok s e (ArpEntry ip hw NET_ARP_RESOLVED 1200 5 n (abufs x)) I He) as [I2 T2];
      [cbn; unfold row; by rewrite (ent_Some _ _ _ Hx)|done|].
    fold s2 in I2, T2. cbn [paddr haddr] in T2.
    assert (arps s2 !! e = Some (ArpEntry ip hw NET_ARP_RESOLVED 1200 5 n (abufs x))) as Hx2
      by (cbn; by rewrite lookup_insert_eq).
    split.
    + intros err s' (r & E1 & E)%bind_Some. destruct r as [e1 s3]. cbn in E. unfold cache_send_all in E1.
      rewrite Hx2 in E1. cbn [mbind option_bind] in E1. apply send_all_rows in E1.
      destruct (same_rows_inv _ _ E1 I2) as [I3 T3].
      assert (s' = s3) as -> by (destruct (is_err e1); by injection E). by rewrite T3.
    + intros Hw0. unfold cache_send_all. rewrite Hx2. mstep. cbn [abufs].
      rewrite (Hw0 e x He Hx Hp). cbn [length send_all_loop]. rewrite Hx2. mstep. cbn [abufs].
      rewrite (Hw0 e x He Hx Hp). mstep. cbn [is_err]. eauto.
Qed.

End Insert.

(** ** A small network *)

(** One interface, a packet of three bytes in block 1, and free blocks. *)
Definition net_blk (n : Z) : pktblk_t := Blk n 0 (replicate 64 7).
Definition net_mem : pmem :=
  PMem (<[1 := net_blk 3]> (<[2 := net_blk 0]> (<[3 := net_blk 0]> (<[4 := net_blk 0]> ∅)))) [2; 3; 4] [200; 300].
Definition net_buf : pktbuf_t := Buf 100 3 [1] 1 0 1 0.
Definition net_if : netif_t :=
  Netif (replicate 10 0) [2; 2; 2; 2; 2; 2] (IpDesc (q_addr [10; 0; 0; 1]) 0 0) NETIF_ACTIVE
    NETIF_TYPE_ETHER 1500 900 [] [].
Definition net0 : link_state :=
  Link net_mem (<[50 := net_if]> ∅) [50] 0 [0; 900; 0] [] [70; 71] ∅ [] [60; 61].
Definition xmit0 (x : netif_t) (m : pmem) : option (net_err_t * netif_t * pmem) := Some (NET_ERR_OK, x, m).

Lemma net_buf_wf : buf_wf net_mem net_buf [].
Proof.
  split; [|reflexivity]. split.
  - intros b Hb. cbn in Hb. assert (b = 1 \/ b = 2 \/ b = 3 \/ b = 4) as [->|[->|[->| ->]]] by set_solver;
      (eexists; split; [reflexivity|]; split; vm_compute; done || discriminate).
  - apply (bool_decide_unpack _); vm_compute; exact I.
  - apply (bool_decide_unpack _); vm_compute; exact I.
Qed.

Lemma ether_raw_out_run : exists buf' m' s',
  contents m' (blk_list buf') = [9; 9; 9; 9; 9; 9; 2; 2; 2; 2; 2; 2; 8; 0; 7; 7; 7] ++ replicate 43 0 /\
  ether_raw_out xmit0 net0 50 NET_PROTOCOL_IPv4 [9; 9; 9; 9; 9; 9] net_buf = Some (NET_ERR_OK, buf', s').
Proof.
  destruct (ether_raw_out_ok xmit0 net0 50 net_if NET_PROTOCOL_IPv4 [9; 9; 9; 9; 9; 9] net_buf [])
    as (buf' & m' & _ & _ & Hc & E).
  - exact net_buf_wf.
  - done.
  - vm_compute. discriminate.
  - reflexivity.
  - split; [done|]. repeat constructor; cbn; lia.
  - split; [done|]. repeat constructor; cbn; lia.
  - unfold NET_PROTOCOL_IPv4. lia.
  - exists buf', m'. eexists. split; [rewrite Hc; reflexivity|]. rewrite E. reflexivity.
Defined.

Definition arp_of (ip hw : list Z) : arp_entry_t := ArpEntry ip hw NET_ARP_RESOLVED 1200 5 50 [].
(** A full cache of two entries. *)
Definition net1 : link_state :=
  Link net_mem (<[50 := net_if]> ∅) [50] 0 [0; 900; 0] [] [70; 71]
    (<[60 := arp_of [10; 0; 0; 2] (replicate 6 2)]> (<[61 := arp_of [10; 0; 0; 3] (replicate 6 3)]> ∅))
    [60; 61] [].

Lemma net1_inv : cache_inv net1.
Proof.
  split.
  - apply (bool_decide_unpack _); vm_compute; exact I.
  - apply (bool_decide_unpack _); vm_compute; exact I.
  - intros e He. cbn in He. assert (e = 60 \/ e = 61) as [->| ->] by set_solver; by eexists.
  - apply (bool_decide_unpack _); vm_compute; exact I.
Qed.

Lemma arp_find_refines_witness : exists s',
  arp_find net1 (q_addr [10; 0; 0; 3]) = Some (s', Some (replicate 6 3)) /\
  table s' = [([10; 0; 0; 3], replicate 6 3); ([10; 0; 0; 2], replicate 6 2)].
Proof.
  destruct (arp_find_refines net1 (q_addr [10; 0; 0; 3]) net1_inv) as (s' & E & _ & Ht).
  exists s'. split; [exact E|]. rewrite Ht. reflexivity.
Defined.

Lemma cache_insert_refines_witness : exists s',
  cache_insert xmit0 [] net1 50 [10; 0; 0; 4] (replicate 6 4) true = Some (NET_ERR_OK, s') /\
  table s' = [([10; 0; 0; 4], replicate 6 4); ([10; 0; 0; 2], replicate 6 2)].
Proof.
  destruct (cache_insert_refines xmit0 [] net1 50 [10; 0; 0; 4] (replicate 6 4) true net1_inv) as [H1 H2];
    [done..|].
  destruct H2 as (s' & E).
  - intros e x He Hx _. cbn in He. assert (e = 60 \/ e = 61) as [->| ->] by set_solver;
      by injection Hx as <-.
  - exists s'. split; [exact E|]. destruct (H1 _ _ E) as [_ Ht]. rewrite Ht. reflexivity.
Defined.

(** ** Departures from the protocol *)

(** While an address waits for its ARP reply, the next packet for it is sent
    at once, to the six bytes the kernel finds at address 0. *)
Lemma arp_find_waiting : exists s1 s2,
  arp_resolve xmit0 [1; 1; 1; 1; 1; 1] net0 50 (q_addr [10; 0; 0; 9]) net_buf
    = Some (NET_ERR_OK, net_buf, s1) /\
  arp_find s1 (q_addr [10; 0; 0; 9]) = Some (s2, Some [1; 1; 1; 1; 1; 1]).
Proof. eexists. eexists. split; vm_compute; reflexivity. Qed.
