(* ===== verification/Ip.v ===== *)
(** * IPv4: kernel/net/ip.c, kernel/net/ip.h

    Routes, fragmentation and reassembly, input and output, over the link
    layer of [Link].  Routes and waiting fragments are sequences, as in
    [Pktbuf].  What lies above IP (icmp_in, udp_in) is an argument. *)

From S2P Require Import Prelude Pktbuf PktbufSpec Layout Checksum IpAddr Link.
From S2P Require Import Prelude.

Definition IP_FRAGS_MAX_NR : Z := 10.
Definition IP_FRAG_SCAN_PERIOD : Z := 1.
Definition IP_FRAG_TMO : Z := 5.
Definition NET_IP_DEF_TTL : Z := 64.

(** ** State *)

Inductive rt_type := NET_RT_LOCAL_NET | NET_RT_NETIF | NET_RT_OTHER.

Record ip_route_entry_t := Route {
  desc : ip_desc_t; next_hop : Z; netif : Z; rtype : rt_type }.

Record ipv4_frag_t := Frag { fip : Z; fid : Z; tmo : Z; buf_list : list pktbuf_t }.

(** The waiting datagrams are named by the address of their [ipv4_frag_t];
    [frag_mblock] is the pool of these. *)
Record ip_state := IpState {
  lnk : link_state; rt_list : list ip_route_entry_t;
  frags : gmap Z ipv4_frag_t; frag_list : list Z; frag_mblock : list Z;
  packet_id : Z }.

(** The packet memory. *)
Definition pm (s : ip_state) : pmem := lpm (lnk s).

Definition with_lnk (s : ip_state) l :=
  IpState l (rt_list s) (frags s) (frag_list s) (frag_mblock s) (packet_id s).
Definition with_pm (s : ip_state) m := with_lnk s (set_lpm (lnk s) m).
Definition with_routes (s : ip_state) r :=
  IpState (lnk s) r (frags s) (frag_list s) (frag_mblock s) (packet_id s).
Definition with_frag (s : ip_state) (f : Z) (x : ipv4_frag_t) :=
  IpState (lnk s) (rt_list s) (<[f := x]> (frags s)) (frag_list s) (frag_mblock s) (packet_id s).
Definition with_frag_list (s : ip_state) l :=
  IpState (lnk s) (rt_list s) (frags s) l (frag_mblock s) (packet_id s).
Definition with_pool (s : ip_state) p :=
  IpState (lnk s) (rt_list s) (frags s) (frag_list s) p (packet_id s).
Definition with_id (s : ip_state) i :=
  IpState (lnk s) (rt_list s) (frags s) (frag_list s) (frag_mblock s) i.
Definition with_bufs (x : ipv4_frag_t) (l : list pktbuf_t) := Frag (fip x) (fid x) (tmo x) l.

Definition init_ip (l : link_state) (frag_array : list Z) : ip_state :=
  IpState l [] ∅ [] frag_array 0.

(** ** Routes *)

(** [next_hop] is the address of an [ip_addr_t]; it is dereferenced before it
    is compared with NULL, so the middle case does not occur. *)
Definition route_add (s : ip_state) (d : ip_desc_t) (hop n : Z) : option ip_state :=
  x ← netifs (lnk s) !! n;
  let type := if hop =? ip_addr (ip_desc x) then NET_RT_NETIF else NET_RT_OTHER in
  Some (with_routes s (rt_list s ++ [Route d hop n type])).

Definition route_remove (s : ip_state) (d : ip_desc_t) : ip_state := s.

Fixpoint route_loop (rt_list : list ip_route_entry_t) (ip : Z) (e : option ip_route_entry_t)
    : option ip_route_entry_t :=
  match rt_list with
  | [] => e
  | entry :: rest =>
      let net := ipaddr_get_net ip (net_mask (desc entry)) in
      if negb (net =? ip_addr (desc entry)) then route_loop rest ip e
      else route_loop rest ip (match e with None => Some entry | Some _ => e end)
  end.

Definition route_find (s : ip_state) (ip : Z) : option ip_route_entry_t :=
  route_loop (rt_list s) ip None.

(** ** Reassembly *)

(** The datagram of a source address moves to the front of the list.  [id] is
    not looked at. *)
Fixpoint find_loop (fs : gmap Z ipv4_frag_t) (l : list Z) (ip : Z) : option Z :=
  match l with
  | [] => Some NULL
  | f :: rest => x ← fs !! f; if ip =? fip x then Some f else find_loop fs rest ip
  end.

Definition frag_find (s : ip_state) (ip id : Z) : option (ip_state * Z) :=
  f ← find_loop (frags s) (frag_list s) ip;
  if f =? NULL then Some (s, NULL)
  else Some (with_frag_list s (f :: filter (fun g => g <> f) (frag_list s)), f).

Fixpoint free_bufs_of (m : pmem) (l : list pktbuf_t) : pmem :=
  match l with
  | [] => m
  | b :: rest => free_bufs_of (snd (pktbuf_free m b)) rest
  end.

Definition frag_free_buf_list (s : ip_state) (f : Z) : option ip_state :=
  x ← frags s !! f;
  Some (with_frag (with_pm s (free_bufs_of (pm s) (buf_list x))) f (with_bufs x [])).

(** The local variable [frag] at the end of the function, which has no return
    statement. *)
Definition frag_alloc (s : ip_state) : option (ip_state * Z) :=
  match frag_mblock s with
  | f :: pool => Some (with_pool s pool, f)
  | [] =>
      match last (frag_list s) with
      | None => Some (s, NULL)
      | Some f =>
          s ← frag_free_buf_list (with_frag_list s (removelast (frag_list s))) f;
          Some (s, f)
      end
  end.

Definition frag_add (s : ip_state) (f ip id : Z) : ip_state :=
  with_frag_list (with_frag s f (Frag ip id (IP_FRAG_TMO / IP_FRAG_SCAN_PERIOD) []))
    (f :: frag_list s).

Definition frag_free (s : ip_state) (f : Z) : option ip_state :=
  s ← frag_free_buf_list s f;
  let s := with_frag_list s (filter (fun g => g <> f) (frag_list s)) in
  Some (with_pool s (frag_mblock s ++ [f])).

(** The loop over [buf_list]; the first list is what lies before [node]. *)
Fixpoint insert_loop (m : pmem) (pkt : ipv4_hdr_t) (buf : pktbuf_t) (before l : list pktbuf_t)
    : option (net_err_t * list pktbuf_t) :=
  match l with
  | [] => Some (NET_ERR_OK, before ++ [buf])
  | cur_buf :: rest =>
      cur_pkt ← pkt_hdr m cur_buf;
      let cur_start := get_frag_start cur_pkt in
      if get_frag_start pkt =? cur_start then Some (NET_ERR_EXIST, before ++ l)
      else if get_frag_end pkt <=? cur_start then Some (NET_ERR_OK, before ++ buf :: l)
      else insert_loop m pkt buf (before ++ [cur_buf]) rest
  end.

Definition frag_insert (s : ip_state) (f : Z) (buf : pktbuf_t) (pkt : ipv4_hdr_t)
    : option (net_err_t * ip_state) :=
  x ← frags s !! f;
  if IP_FRAGS_MAX_NR <=? zlen (buf_list x) then
    s ← frag_free s f; Some (NET_ERR_FULL, s)
  else
    '(e, l) ← insert_loop (pm s) pkt buf [] (buf_list x);
    Some (e, with_frag s f (with_bufs x l)).

Fixpoint arrived_loop (m : pmem) (off : Z) (pkt : option ipv4_hdr_t) (l : list pktbuf_t)
    : option bool :=
  match l with
  | [] => Some (match pkt with Some h => negb (more h) | None => false end)
  | buf :: rest =>
      h ← pkt_hdr m buf;
      if negb (get_frag_start h =? off) then Some false
      else arrived_loop m (i32 (off + get_data_size h)) (Some h) rest
  end.

Definition frag_all_arrived (s : ip_state) (f : Z) : option bool :=
  x ← frags s !! f;
  arrived_loop (pm s) 0 None (buf_list x).

(** The packets after the first lose their header and are joined to it.  The
    third result tells that a step failed. *)
Fixpoint join_bufs (m : pmem) (target : pktbuf_t) (l : list pktbuf_t)
    : option (pmem * pktbuf_t * list pktbuf_t * bool) :=
  match l with
  | [] => Some (m, target, [], true)
  | cur :: rest =>
      h ← pkt_hdr m cur;
      '(e, cur, m) ← pktbuf_remove_header m cur (ipv4_hdr_size h);
      if is_err e then Some (snd (pktbuf_free m cur), target, rest, false)
      else
        '(e, target, cur, m) ← pktbuf_join m target cur;
        if is_err e then Some (snd (pktbuf_free m cur), target, rest, false)
        else join_bufs m target rest
  end.

Definition frag_join (s : ip_state) (f : Z) : option (ip_state * option pktbuf_t) :=
  x ← frags s !! f;
  match buf_list x with
  | [] => s ← frag_free s f; Some (s, None)
  | first :: rest =>
      '(m, target, todo, ok) ← join_bufs (pm s) first rest;
      let s := with_frag (with_pm s m) f (with_bufs x todo) in
      if (ok : bool) then s ← frag_free s f; Some (s, Some target)
      else
        let s := with_pm s (snd (pktbuf_free (pm s) target)) in
        s ← frag_free s f; Some (s, None)
  end.

(** ** Output *)

Section Output.
(** The driver and the bytes at address 0, see [Link]. *)
Context (xmit : netif_t -> pmem -> option (net_err_t * netif_t * pmem)).
Context (at_null : list Z).

(** [netif_out] on the whole state. *)
Definition link_out (s : ip_state) (n ip : Z) (buf : pktbuf_t)
    : option (net_err_t * pktbuf_t * ip_state) :=
  '(e, buf, l) ← netif_out xmit at_null (lnk s) n ip buf; Some (e, buf, with_lnk s l).

(** The header both output functions write, before the checksum. *)
Definition out_hdr (n : netif_t) (prot total packet_id frag dest src : Z) : option ipv4_hdr_t :=
  s ← ip_addr_to_buf (if src =? 0 then ip_addr (ip_desc n) else src) [0; 0; 0; 0];
  d ← ip_addr_to_buf dest [0; 0; 0; 0];
  Some (Hdr (Z.lor (Z.shiftl NET_VERSION_IPV4 4) (IPV4_HDR_SIZE / 4)) (u16 total) packet_id frag
            NET_IP_DEF_TTL prot 0 s d).

Definition with_checksum (h : ipv4_hdr_t) (c : Z) : ipv4_hdr_t :=
  Hdr (shdr_all h) (total_len h) (id h) (frag_all h) (ttl h) (protocol h) c (src_ip h) (dest_ip h).

(** The size of the next fragment's data: [curr_size] is compared as an
    unsigned number. *)
Definition frag_size (total mtu : Z) : Z :=
  let room := u32 (mtu - IPV4_HDR_SIZE) in
  let curr_size := if room <? total then i32 room else total in
  if curr_size <? total then Z.land curr_size (Z.lnot 7) else curr_size.

Fixpoint frag_out_loop (fuel : nat) (s : ip_state) (prot dest src : Z) (buf : pktbuf_t)
    (next n : Z) (off total : Z) : option (net_err_t * ip_state * pktbuf_t) :=
  match fuel with
  | O => None
  | S fuel' =>
      if total =? 0 then Some (NET_ERR_OK, s, buf)
      else
        x ← netifs (lnk s) !! n;
        let curr_size := frag_size total (mtu x) in
        '(dest_buf, m) ← pktbuf_alloc (pm s) (curr_size + IPV4_HDR_SIZE);
        match dest_buf with
        | None => Some (NET_ERR_MEM, with_pm s m, buf)
        | Some dest_buf =>
            h ← out_hdr x prot (total_size dest_buf) (packet_id s)
                  (Z.lor (Z.land (Z.shiftr off 3) 8191) (Z.shiftl (b2z (curr_size <? total)) 13))
                  dest src;
            m ← set_hdr m dest_buf h;
            '(_, dest_buf) ← pktbuf_seek m dest_buf IPV4_HDR_SIZE;
            '(e, dest_buf, buf, m) ← pktbuf_copy m dest_buf buf curr_size;
            if is_err e then Some (e, with_pm s (snd (pktbuf_free m dest_buf)), buf)
            else
              '(_, buf, m) ← pktbuf_remove_header m buf curr_size;
              buf ← pktbuf_reset_acc m buf;
              let h := iphdr_htons h in
              m ← set_hdr m dest_buf h;
              '(_, dest_buf) ← pktbuf_seek m dest_buf 0;
              '(c, dest_buf) ← pktbuf_checksum16 m dest_buf (ipv4_hdr_size h) 0 true;
              m ← set_hdr m dest_buf (with_checksum h c);
              '(e, dest_buf, s) ← link_out (with_pm s m) n next dest_buf;
              if is_err e then Some (e, with_pm s (snd (pktbuf_free (pm s) dest_buf)), buf)
              else frag_out_loop fuel' s prot dest src buf next n (off + curr_size)
                     (total - curr_size)
        end
  end.

Definition ipv4_frag_out (s : ip_state) (prot dest src : Z) (buf : pktbuf_t) (next n : Z)
    : option (net_err_t * pktbuf_t * ip_state) :=
  buf ← pktbuf_reset_acc (pm s) buf;
  '(e, s, buf) ← frag_out_loop (S (Z.to_nat (total_size buf))) s prot dest src buf next n 0
                   (total_size buf);
  if is_err e then Some (e, buf, s)
  else
    let '(buf, m) := pktbuf_free (pm s) buf in
    Some (NET_ERR_OK, buf, with_id (with_pm s m) (u16 (packet_id s + 1))).

(** [src] is 0 for a NULL pointer too: both choose the interface's address. *)
Definition ipv4_out (s : ip_state) (prot dest src : Z) (buf : pktbuf_t)
    : option (net_err_t * pktbuf_t * ip_state) :=
  match route_find s dest with
  | None => Some (NET_ERR_UNREACH, buf, s)
  | Some rt =>
      let n := netif rt in
      let hop := if next_hop rt =? 0 then dest else next_hop rt in
      x ← netifs (lnk s) !! n;
      if nz (mtu x) && (u32 (mtu x) <? u32 (total_size buf + IPV4_HDR_SIZE)) then
        '(e, buf, s) ← ipv4_frag_out s prot dest src buf hop n;
        if is_err e then Some (e, buf, s) else Some (NET_ERR_OK, buf, s)
      else
        '(e, buf, m) ← pktbuf_add_header (pm s) buf IPV4_HDR_SIZE true;
        let s := with_pm s m in
        if is_err e then Some (e, buf, s)
        else
          h ← out_hdr x prot (total_size buf) (packet_id s) 0 dest src;
          let s := with_id s (u16 (packet_id s + 1)) in
          let h := iphdr_htons h in
          m ← set_hdr (pm s) buf h;
          buf ← pktbuf_reset_acc m buf;
          '(c, buf) ← pktbuf_checksum16 m buf (ipv4_hdr_size h) 0 true;
          m ← set_hdr m buf (with_checksum h c);
          link_out (with_pm s m) n hop buf
  end.

End Output.

(** ** Input *)

Section Input.
(** The protocols above IP with their state, which they may change as they may
    change everything below. *)
Context {U : Type}.
Context (icmp_in : U -> ip_state -> Z -> Z -> pktbuf_t -> option (net_err_t * pktbuf_t * U * ip_state)).
Context (udp_in : U -> ip_state -> pktbuf_t -> Z -> Z -> option (net_err_t * pktbuf_t * U * ip_state)).
(** The result of [frag_alloc], which falls off its end with [frag] as the
    value it computed last. *)
Context (frag_alloc_result : Z -> Z).

Definition ipv4_normal_in (u : U) (s : ip_state) (n src dest : Z) (buf : pktbuf_t)
    : option (net_err_t * pktbuf_t * U * ip_state) :=
  h ← pkt_hdr (pm s) buf;
  if protocol h =? NET_PROTOCOL_ICMPv4 then
    x ← netifs (lnk s) !! n; icmp_in u s src (ip_addr (ip_desc x)) buf
  else if protocol h =? NET_PROTOCOL_UDP then udp_in u s buf src dest
  else Some (NET_ERR_NOT_SUPPORT, buf, u, s).

(** When the joined packet is refused, [buf] has been released with it: its
    reference count is 0. *)
Definition ipv4_frag_in (u : U) (s : ip_state) (n src dest : Z) (buf : pktbuf_t)
    : option (net_err_t * pktbuf_t * U * ip_state) :=
  cur ← pkt_hdr (pm s) buf;
  '(s, f) ← frag_find s src (id cur);
  '(s, f) ← (if f =? NULL then
               '(s, f) ← frag_alloc s;
               let f := frag_alloc_result f in
               Some (frag_add s f src (id cur), f)
             else Some (s, f));
  '(e, s) ← frag_insert s f buf cur;
  if is_err e then Some (e, buf, u, s)
  else
    done ← frag_all_arrived s f;
    if (done : bool) then
      '(s, all) ← frag_join s f;
      match all with
      | None => Some (NET_ERR_OK, buf, u, s)
      | Some all =>
          '(e, all, u, s) ← ipv4_normal_in u s n src dest all;
          if is_err e then
            Some (e, with_ref buf 0, u, with_pm s (snd (pktbuf_free (pm s) all)))
          else Some (NET_ERR_OK, buf, u, s)
      end
    else Some (NET_ERR_OK, buf, u, s).

Definition ipv4_in (u : U) (s : ip_state) (n : Z) (buf : pktbuf_t)
    : option (net_err_t * pktbuf_t * U * ip_state) :=
  '(e, buf, m) ← pktbuf_set_cont (pm s) buf IPV4_HDR_SIZE;
  let s := with_pm s m in
  if is_err e then Some (e, buf, u, s)
  else
    h ← pkt_hdr (pm s) buf;
    let h := iphdr_htons h in
    m ← set_hdr (pm s) buf h;
    '(e, buf, m) ← pktbuf_resize m buf (total_len h);
    let s := with_pm s m in
    if is_err e then Some (e, buf, u, s)
    else
      dest_ip ← ip_addr_from_buf (dest_ip h);
      src_ip ← ip_addr_from_buf (src_ip h);
      x ← netifs (lnk s) !! n;
      if negb (ipaddr_is_match dest_ip (ip_addr (ip_desc x)) (net_mask (ip_desc x))) then
        let '(buf, m) := pktbuf_free (pm s) buf in
        Some (NET_ERR_NOT_MATCH, buf, u, with_pm s m)
      else if more h || nz (offset h) then ipv4_frag_in u s n src_ip dest_ip buf
      else ipv4_normal_in u s n src_ip dest_ip buf.

End Input.
