(* ===== verification/IpSpec.v ===== *)
(** * IPv4 reassembly and addresses

    [datagram m off fs] says that the packets [fs] are the fragments of one
    datagram from byte [off] on.  Fragments may arrive in any order:
    [frag_insert] sorts them, [frag_all_arrived] answers yes exactly when the
    last missing one came, and [frag_join] then returns the datagram. *)

From stdpp Require Import sorting.
From S2P Require Import Prelude Pktbuf PktbufSpec Layout Checksum IpAddr Link Ip.
From S2P Require Import Prelude.

(** ** Fragments *)

Section Order.
Context (m : pmem).

(** First byte, byte after the last, and whether more fragments follow. *)
Definition span (b : pktbuf_t) : option (Z * Z * bool) :=
  h ← pkt_hdr m b;
  Some (get_frag_start h, get_frag_start h + get_data_size h, more h).

Definition before (x y : pktbuf_t) : Prop :=
  exists sx ex mx sy ey my, span x = Some (sx, ex, mx) /\ span y = Some (sy, ey, my) /\
    0 <= sx < ex /\ sy < ey < 65536 /\ ex <= sy.

Fixpoint datagram (off : Z) (fs : list pktbuf_t) : Prop :=
  match fs with
  | [] => False
  | [b] => exists e, span b = Some (off, e, false) /\ off < e < 65536
  | b :: rest => exists e, span b = Some (off, e, true) /\ off < e /\ datagram e rest
  end.

Lemma before_trans x y z : before x y -> before y z -> before x z.
Proof.
  intros (sx & ex & mx & sy & ey & my & Hx & Hy & ? & ? & ?)
    (sy' & ey' & my' & sz & ez & mz & Hy' & Hz & ? & ? & ?).
  rewrite Hy in Hy'. injection Hy' as <- <- <-.
  exists sx, ex, mx, sz, ez, mz. split_and!; try done; lia.
Qed.

Lemma before_asym x y : before x y -> before y x -> False.
Proof.
  intros (sx & ex & mx & sy & ey & my & Hx & Hy & ? & ? & ?)
    (sy' & ey' & my' & sx' & ex' & mx' & Hy' & Hx' & ? & ? & ?).
  rewrite Hy in Hy'. rewrite Hx in Hx'. simplify_eq. lia.
Qed.

#[global] Instance before_transitive : Transitive before.
Proof. intros x y z. apply before_trans. Qed.
#[global] Instance before_antisymm : AntiSymm (=) before.
Proof. intros x y Hx Hy. by destruct (before_asym x y). Qed.

Lemma datagram_head off b fs : datagram off (b :: fs) ->
  exists e, off < e /\ span b = Some (off, e, negb (bool_decide (fs = []))) /\
    (if bool_decide (fs = []) then e < 65536 else datagram e fs).
Proof.
  destruct fs as [|c fs]; cbn [datagram].
  - intros (e & Hs & He). exists e. split_and!; [lia|done|cbn; lia].
  - intros (e & Hs & He & Hd). exists e. done.
Qed.

Lemma datagram_bound off fs : datagram off fs -> off < 65536.
Proof.
  revert off. induction fs as [|b fs IH]; intros off Hd; [done|].
  destruct (datagram_head _ _ _ Hd) as (e & He & _ & Hrest).
  case_bool_decide; [lia|]. apply IH in Hrest. lia.
Qed.

Lemma datagram_spans fs : forall off b, 0 <= off -> datagram off fs -> b ∈ fs ->
  exists s e mo, span b = Some (s, e, mo) /\ off <= s < e /\ e < 65536.
Proof.
  induction fs as [|c fs IH]; intros off b H0 Hd Hb; [done|].
  destruct (datagram_head _ _ _ Hd) as (e & He & Hs & Hrest).
  apply elem_of_cons in Hb as [->|Hb].
  - exists off, e, (negb (bool_decide (fs = []))). split_and!; [done|lia..|].
    case_bool_decide; [lia|]. by apply datagram_bound in Hrest.
  - case_bool_decide as Hn; [subst; by apply not_elem_of_nil in Hb|].
    destruct (IH e b ltac:(lia) Hrest Hb) as (s1 & e1 & mo1 & H1 & H2 & H3).
    exists s1, e1, mo1. split_and!; try done; lia.
Qed.

Lemma datagram_sorted fs : forall off, 0 <= off -> datagram off fs -> StronglySorted before fs.
Proof.
  induction fs as [|b fs IH]; intros off H0 Hd; constructor.
  - destruct (datagram_head _ _ _ Hd) as (e & He & _ & Hrest).
    case_bool_decide; [subst; constructor|]. apply (IH e); [lia|done].
  - destruct (datagram_head _ _ _ Hd) as (e & He & Hs & Hrest). apply Forall_forall. intros c Hc.
    case_bool_decide; [subst; by apply not_elem_of_nil in Hc|].
    destruct (datagram_spans fs e c) as (s1 & e1 & mo1 & H1 & ? & ?); [lia|done|done|].
    eexists off, e, _, s1, e1, mo1. split_and!; [exact Hs|done|lia..].
Qed.

(** ** Insertion *)

Lemma insert_loop_ok h b l : forall pre,
  pkt_hdr m b = Some h -> 0 <= get_frag_start h < get_frag_start h + get_data_size h ->
  get_frag_start h + get_data_size h < 65536 ->
  StronglySorted before l -> (forall x, x ∈ l -> before b x \/ before x b) ->
  exists l', insert_loop m h b pre l = Some (NET_ERR_OK, pre ++ l') /\
    StronglySorted before l' /\ l' ≡ₚ b :: l.
Proof.
  induction l as [|c l IH]; intros pre Hh Hs He Hl Hc; cbn [insert_loop].
  - exists [b]. split_and!; [done|repeat constructor|done].
  - assert (span b = Some (get_frag_start h, get_frag_start h + get_data_size h, more h)) as Hsb
      by (unfold span; by rewrite Hh).
    assert (exists hc, pkt_hdr m c = Some hc) as [hc Hhc].
    { destruct (Hc c) as [Hb|Hb]; [set_solver|..];
        destruct Hb as (? & ? & ? & ? & ? & ? & H1 & H2 & _);
        unfold span in H1, H2; destruct (pkt_hdr m c); eauto; discriminate. }
    rewrite Hhc. mstep.
    assert (span c = Some (get_frag_start hc, get_frag_start hc + get_data_size hc, more hc)) as Hsc
      by (unfold span; by rewrite Hhc).
    unfold get_frag_end. rewrite (u16_small (_ + _)) by lia.
    inversion Hl as [|? ? Hl' Hcl]; subst.
    destruct (Hc c) as [Hb|Hb]; [set_solver|..];
      pose proof Hb as (s1 & e1 & m1 & s2 & e2 & m2 & H1 & H2 & ? & ? & ?);
      rewrite Hsb, Hsc in *; simplify_eq.
    + destruct (Z.eqb_spec (get_frag_start h) (get_frag_start hc)); [lia|].
      destruct (Z.leb_spec (get_frag_start h + get_data_size h) (get_frag_start hc)); [|lia].
      exists (b :: c :: l). split_and!; [done| |done]. constructor; [done|].
      constructor; [done|]. eapply Forall_impl; [exact Hcl|]. intros x Hx. by etrans.
    + destruct (Z.eqb_spec (get_frag_start h) (get_frag_start hc)); [lia|].
      destruct (Z.leb_spec (get_frag_start h + get_data_size h) (get_frag_start hc)); [lia|].
      destruct (IH (pre ++ [c])) as (l' & -> & Hsl & Hp); [done..|intros x Hx; apply Hc; set_solver|].
      exists (c :: l'). rewrite <- app_assoc. split_and!; [done| |].
      * constructor; [done|]. rewrite Hp. constructor; [done|exact Hcl].
      * rewrite Hp. by rewrite Permutation_swap.
Qed.

(** ** Completion *)

(** A sorted part [l] of the fragments [fs] is complete when nothing is
    missing. *)
Lemma arrived_loop_ok fs : forall off p l r,
  0 <= off -> datagram off fs -> StronglySorted before l -> l ++ r ≡ₚ fs ->
  match p with Some h => more h = true | None => True end ->
  arrived_loop m off p l = Some (bool_decide (r = [])).
Proof.
  induction fs as [|b fs IH]; intros off p l r H0 Hd Hl Hp Hm; [done|].
  destruct (datagram_head _ _ _ Hd) as (e & He & Hsp & Hrest).
  pose proof (datagram_sorted _ _ H0 Hd) as Hsorted.
  inversion Hsorted as [|? ? Hfs Hbfs]; subst.
  destruct l as [|x l]; cbn [arrived_loop].
  { rewrite bool_decide_eq_false_2; [by destruct p as [h|]; [rewrite Hm|]|].
    intros ->. apply Permutation_nil_cons in Hp. done. }
  inversion Hl as [|? ? Hl' Hxl]; subst.
  destruct (datagram_spans _ _ x H0 Hd) as (sx & ex & mx & Hsx & Hx1 & Hx2);
    [rewrite <- Hp; set_solver|].
  unfold span in Hsx. destruct (pkt_hdr m x) as [hx|] eqn:Hhx; [|discriminate].
  cbn [mbind option_bind] in Hsx |- *. injection Hsx as E1 E2 E3.
  destruct (decide (x = b)) as [->|Hne].
  - unfold span in Hsp. rewrite Hhx in Hsp. cbn [mbind option_bind] in Hsp. injection Hsp as F1 F2 F3.
    rewrite F1, Z.eqb_refl. cbn [negb]. rewrite <- F1 at 1. rewrite F2.
    rewrite i32_small by lia. cbn [app] in Hp. apply Permutation_cons_inv in Hp.
    case_bool_decide as Hn.
    + subst fs. apply Permutation_nil_r, app_eq_nil in Hp as [-> ->]. cbn [arrived_loop].
      by rewrite F3.
    + apply IH; [lia|done|done|done|by rewrite F3].
  - assert (before b x) as Hbx.
    { assert (x ∈ b :: fs) as Hin by (rewrite <- Hp; set_solver).
      apply elem_of_cons in Hin as [|Hin]; [done|]. rewrite Forall_forall in Hbfs. by apply Hbfs. }
    destruct Hbx as (s1 & e1 & m1 & s2 & e2 & m2 & G1 & G2 & ? & ? & ?).
    rewrite Hsp in G1. injection G1 as <- <- _. unfold span in G2. rewrite Hhx in G2.
    cbn [mbind option_bind] in G2. injection G2 as <- _ _.
    destruct (Z.eqb_spec (get_frag_start hx) off); [lia|]. cbn [negb].
    rewrite bool_decide_eq_false_2; [done|]. intros ->. rewrite app_nil_r in Hp.
    assert (b ∈ l) as Hbl.
    { assert (b ∈ x :: l) as Hin by (rewrite Hp; set_solver). set_solver. }
    rewrite Forall_forall in Hxl. specialize (Hxl b Hbl).
    apply (before_asym x b Hxl). exists off, e, (negb (bool_decide (fs = []))).
    eexists (get_frag_start hx), _, _. unfold span at 2. rewrite Hhx.
    split_and!; [done|done|lia..].
Qed.

End Order.

(** ** Fragments in any order *)

(** The fragments [bs] arrive one after another for the datagram [f]. *)
Fixpoint insert_all (s : ip_state) (f : Z) (bs : list pktbuf_t) : option ip_state :=
  match bs with
  | [] => Some s
  | b :: rest =>
      h ← pkt_hdr (pm s) b;
      '(e, s) ← frag_insert s f b h;
      if is_err e then None else insert_all s f rest
  end.

Lemma comparable m fs off a b : 0 <= off -> datagram m off fs -> NoDup fs ->
  a ∈ fs -> b ∈ fs -> a <> b -> before m a b \/ before m b a.
Proof.
  intros H0 Hd Hn Ha Hb Hab. pose proof (datagram_sorted m fs off H0 Hd) as Hs.
  clear Hd Hn. induction Hs as [|c fs Hs IH Hc]; [set_solver|].
  rewrite Forall_forall in Hc. apply elem_of_cons in Ha as [->|Ha], Hb as [->|Hb]; auto; congruence.
Qed.

Lemma datagram_nodup m fs off : 0 <= off -> datagram m off fs -> NoDup fs.
Proof.
  intros H0 Hd. pose proof (datagram_sorted m fs off H0 Hd) as Hs. clear Hd.
  induction Hs as [|c fs Hs IH Hc]; constructor; [|done]. intros Hin.
  rewrite Forall_forall in Hc. specialize (Hc c Hin). by apply (before_asym m c c).
Qed.

Lemma insert_all_ok fs bs : forall s f x r,
  datagram (pm s) 0 fs -> frags s !! f = Some x -> StronglySorted (before (pm s)) (buf_list x) ->
  buf_list x ++ bs ++ r ≡ₚ fs -> zlen fs <= IP_FRAGS_MAX_NR ->
  exists s' x', insert_all s f bs = Some s' /\ pm s' = pm s /\ frags s' !! f = Some x' /\
    StronglySorted (before (pm s)) (buf_list x') /\ buf_list x' ≡ₚ buf_list x ++ bs.
Proof.
  induction bs as [|b bs IH]; intros s f x r Hd Hx Hs Hp Hn; cbn [insert_all].
  - exists s, x. rewrite app_nil_r. done.
  - assert (0 <= 0) as H0 by lia. pose proof (datagram_nodup _ _ _ H0 Hd) as Hnd.
    assert (b ∈ fs) as Hb by (rewrite <- Hp; set_solver).
    destruct (datagram_spans (pm s) fs 0 b H0 Hd Hb) as (sb & eb & mb & Hsb & Hr & He).
    unfold span in Hsb. destruct (pkt_hdr (pm s) b) as [h|] eqn:Hh; [|discriminate].
    cbn [mbind option_bind] in Hsb |- *. injection Hsb as E1 E2 _.
    unfold frag_insert. rewrite Hx. mstep.
    assert (zlen (buf_list x) < IP_FRAGS_MAX_NR) as Hlt.
    { apply Permutation_length in Hp. rewrite !length_app in Hp. cbn in Hp. unfold zlen in *. lia. }
    destruct (Z.leb_spec IP_FRAGS_MAX_NR (zlen (buf_list x))); [lia|].
    destruct (insert_loop_ok (pm s) h b (buf_list x) []) as (l & -> & Hl & Hlp);
      [done|lia|lia|done| |].
    { intros y Hy. rewrite <- Hp in Hnd. apply NoDup_app in Hnd as (_ & Hdis & _).
      apply (comparable (pm s) fs 0); [done|done|by eapply datagram_nodup|done|
        rewrite <- Hp; set_solver|]. intros <-. apply (Hdis b Hy). set_solver. }
    mstep. cbn [is_err app].
    destruct (IH (with_frag s f (with_bufs x l)) f (with_bufs x l) r) as (s' & x' & -> & Hpm & Hx' & Hs' & Hp');
      [done|cbn; apply lookup_insert_eq|done| |done|].
    { cbn [with_bufs buf_list]. rewrite Hlp, <- Hp. cbn.
      by rewrite (Permutation_middle (buf_list x) (bs ++ r) b). }
    exists s', x'. split_and!; [done..|]. rewrite Hp'. cbn [with_bufs buf_list]. rewrite Hlp.
    by rewrite <- Permutation_middle.
Qed.

(** C39: the fragments [fs] of a datagram (at most ten) may arrive in any order:
    none is refused, [frag_all_arrived] is true exactly when no fragment is
    missing, and then the list of the datagram holds them in the order of their
    offsets. *)
Theorem frag_any_order (s : ip_state) (f : Z) (x : ipv4_frag_t) (fs arrived missing : list pktbuf_t) :
  frags s !! f = Some x -> buf_list x = [] -> datagram (pm s) 0 fs ->
  zlen fs <= IP_FRAGS_MAX_NR -> arrived ++ missing ≡ₚ fs ->
  exists s' x', insert_all s f arrived = Some s' /\ pm s' = pm s /\ frags s' !! f = Some x' /\
    frag_all_arrived s' f = Some (bool_decide (missing = [])) /\
    (missing = [] -> buf_list x' = fs).
Proof.
  intros Hx Hnil Hd Hn Hp. assert (0 <= 0) as H0 by lia.
  destruct (insert_all_ok fs arrived s f x missing) as (s' & x' & Hi & Hpm & Hx' & Hs' & Hp');
    [done|done|rewrite Hnil; constructor|by rewrite Hnil|done|].
  rewrite Hnil in Hp'. cbn [app] in Hp'.
  exists s', x'. split_and!; [done|done|done| |].
  - unfold frag_all_arrived. rewrite Hx', Hpm. mstep.
    apply (arrived_loop_ok (pm s) fs); [done|done|done|by rewrite Hp'|done].
  - intros ->. rewrite app_nil_r in Hp.
    apply (StronglySorted_unique (before (pm s))); [done|by eapply datagram_sorted|].
    by rewrite Hp'.
Qed.

(** ** Joining *)

Lemma pkt_hdr_ext m m' b : same_blks m m' (blk_list b) -> pkt_hdr m' b = pkt_hdr m b.
Proof. apply pkt_load_ext. Qed.

Lemma pktbuf_free_blks m b : blks (snd (pktbuf_free m b)) = blks m.
Proof. unfold pktbuf_free. by destruct (ref (with_ref b (ref b - 1)) =? 0). Qed.

(** The blocks of some packets. *)
Definition all_blks (l : list pktbuf_t) : list Z := concat (blk_list <$> l).

(** Packets of one reference, with a header inside. *)
Definition joinable (m : pmem) (b : pktbuf_t) : Prop :=
  total_size b = zlen (contents m (blk_list b)) /\
  exists h, pkt_hdr m b = Some h /\ 0 <= ipv4_hdr_size h <= total_size b.

Lemma joinable_ext m m' b : same_blks m m' (blk_list b) -> joinable m b -> joinable m' b.
Proof.
  intros H (Ht & h & Hh & Hs). split; [by rewrite (contents_ext m m')|].
  exists h. by rewrite (pkt_hdr_ext m m').
Qed.

(** The data of a fragment. *)
Definition frag_data (m : pmem) (b : pktbuf_t) : list Z :=
  match pkt_hdr m b with
  | Some h => drop (Z.to_nat (ipv4_hdr_size h)) (contents m (blk_list b))
  | None => []
  end.

Lemma frag_data_ext m m' b : same_blks m m' (blk_list b) -> frag_data m' b = frag_data m b.
Proof. intros H. unfold frag_data. by rewrite (pkt_hdr_ext m m'), (contents_ext m m'). Qed.

Lemma join_bufs_ok l : forall m target others,
  pm_wf m (blk_list target ++ all_blks l ++ others) ->
  total_size target = zlen (contents m (blk_list target)) -> Forall (joinable m) l ->
  exists m' target', join_bufs m target l = Some (m', target', [], true) /\
    buf_wf m' target' others /\ same_blks m m' others /\ self target' = self target /\
    contents m' (blk_list target') = contents m (blk_list target) ++ concat (frag_data m <$> l).
Proof.
  induction l as [|b l IH]; intros m target others Hw Ht Hj; cbn [join_bufs].
  - exists m, target. rewrite app_nil_r. split_and!; try done.
  - apply Forall_cons in Hj as [(Hbt & h & Hh & Hsz) Hj].
    change (all_blks (b :: l)) with (blk_list b ++ all_blks l) in Hw.
    rewrite Hh. mstep. unfold pktbuf_remove_header.
    destruct (remove_header_loop_ok (blk_list b) m (blk_list target ++ all_blks l ++ others)
      (total_size b) (ipv4_hdr_size h)) as (bs & m1 & -> & Hw1 & Hsame & Hc).
    { eapply pm_wf_perm; [|exact Hw]. rewrite <- (app_assoc (blk_list b)).
      apply Permutation_app_swap_app. }
    { rewrite <- Hbt. lia. }
    mstep. cbn [is_err]. unfold pktbuf_join. cbn [blk_list with_blks].
    rewrite join_loop_ok by (intros c Hcin; apply (pm_lookup _ _ _ Hw1); set_solver). mstep.
    match goal with |- context [pktbuf_free m1 ?x] => set (src := x) end.
    pose proof (pktbuf_free_blks m1 src) as Hfb.
    assert (free (snd (pktbuf_free m1 src)) = free m1) as Hff.
    { unfold pktbuf_free. destruct (ref (with_ref src (ref src - 1)) =? 0); [|done].
      cbn. apply app_nil_r. }
    destruct (pktbuf_free m1 src) as [src' m2]. cbn [snd] in Hfb, Hff. mstep. cbn [is_err].
    assert (forall us, pm_wf m1 us -> pm_wf m2 us) as Hpm.
    { intros us [P1 P2 P3]. split; rewrite ?Hfb, ?Hff; done. }
    assert (forall bs, contents m2 bs = contents m1 bs) as Hcm.
    { intros us. apply contents_ext. intros c _. by rewrite Hfb. }
    assert (same_blks m m2 (blk_list target ++ all_blks l ++ others)) as Hs2.
    { intros c Hcin. rewrite Hfb. by apply Hsame. }
    set (t1 := with_blks target (total_size target + zlen (contents m1 bs)) (blk_list target ++ bs)).
    assert (contents m1 (blk_list target) = contents m (blk_list target)) as Htc.
    { apply contents_ext. eapply same_blks_sub; [exact Hsame|set_solver]. }
    assert (forall c, c ∈ l -> same_blks m m2 (blk_list c)) as Hsl.
    { intros c Hcl. eapply same_blks_sub; [exact Hs2|]. intros y Hy.
      apply elem_of_app. right. apply elem_of_app. left. unfold all_blks.
      apply list_elem_of_In, in_concat. exists (blk_list c). rewrite <- !list_elem_of_In.
      split; [by apply list_elem_of_fmap_2|done]. }
    destruct (IH m2 t1 others) as (m3 & t3 & -> & Hb3 & Hs3 & Hself & Hc3).
    + cbn. apply Hpm. eapply pm_wf_perm; [|exact Hw1].
      rewrite !app_assoc. do 2 apply Permutation_app_tail. apply Permutation_app_comm.
    + cbn. rewrite Hcm, contents_app, zlen_app, Htc, Ht. lia.
    + apply Forall_forall. intros c Hcl. rewrite Forall_forall in Hj.
      eapply joinable_ext; [by apply Hsl|auto].
    + exists m3, t3. split_and!; try done.
      * eapply same_blks_trans; [|exact Hs3]. eapply same_blks_sub; [exact Hs2|set_solver].
      * rewrite Hc3. cbn [t1 blk_list with_blks]. rewrite Hcm, contents_app, Htc, Hc.
        cbn [fmap list_fmap concat]. unfold frag_data at 2. rewrite Hh. rewrite <- app_assoc.
        do 2 f_equal. f_equal. apply list_fmap_ext. intros i c Hi.
        apply frag_data_ext, Hsl. by eapply list_elem_of_lookup_2.
Qed.

Lemma frag_free_empty s f x : frags s !! f = Some x -> buf_list x = [] ->
  exists s', frag_free s f = Some s' /\ pm s' = pm s /\
    frag_list s' = filter (fun g => g <> f) (frag_list s) /\
    frag_mblock s' = frag_mblock s ++ [f] /\ packet_id s' = packet_id s /\ rt_list s' = rt_list s.
Proof.
  intros Hx Hn. unfold frag_free, frag_free_buf_list. rewrite Hx. mstep. rewrite Hn.
  eexists. split; [done|]. by destruct s.
Qed.

(** [frag_join] returns the first packet, followed by the data of the others
    in the order of the list: every header but the first is dropped, no block
    is copied or lost, the blocks of other packets are untouched, and the
    control block goes back to its pool. *)
Theorem frag_join_spec (s : ip_state) (f : Z) (x : ipv4_frag_t) (first : pktbuf_t)
    (rest : list pktbuf_t) (others : list Z) :
  frags s !! f = Some x -> buf_list x = first :: rest ->
  pm_wf (pm s) (blk_list first ++ all_blks rest ++ others) ->
  total_size first = zlen (contents (pm s) (blk_list first)) ->
  Forall (joinable (pm s)) rest ->
  exists s' target, frag_join s f = Some (s', Some target) /\ self target = self first /\
    buf_wf (pm s') target others /\ same_blks (pm s) (pm s') others /\
    contents (pm s') (blk_list target)
      = contents (pm s) (blk_list first) ++ concat (frag_data (pm s) <$> rest) /\
    frag_list s' = filter (fun g => g <> f) (frag_list s) /\ frag_mblock s' = frag_mblock s ++ [f].
Proof.
  intros Hx Hl Hw Ht Hj. unfold frag_join. rewrite Hx. mstep. rewrite Hl.
  destruct (join_bufs_ok rest (pm s) first others Hw Ht Hj)
    as (m' & target & -> & Hb & Hs & Hself & Hc). mstep.
  destruct (frag_free_empty (with_frag (with_pm s m') f (with_bufs x [])) f (with_bufs x []))
    as (s' & -> & Hpm & Hfl & Hmb & _); [cbn; apply lookup_insert_eq|done|].
  mstep. exists s', target. rewrite Hpm. split_and!; done.
Qed.

(** ** A concrete datagram *)

(** Three fragments of eight bytes each, one block per packet. *)
Definition frag_hdr (off : Z) (mo : bool) : ipv4_hdr_t :=
  Hdr 69 28 7 (Z.lor off (Z.shiftl (b2z mo) 13)) 64 17 0 [10; 0; 0; 1] [10; 0; 0; 2].
Definition frag_payload (off : Z) (mo : bool) (data : list Z) : list Z :=
  hdr_bytes (frag_hdr off mo) ++ data ++ replicate 36 0.
Definition ex_mem : pmem :=
  PMem (<[1 := Blk 28 0 (frag_payload 0 true (seqZ 0 8))]>
       (<[2 := Blk 28 0 (frag_payload 1 true (seqZ 8 8))]>
       (<[3 := Blk 28 0 (frag_payload 2 false (seqZ 16 8))]> ∅))) [] [].
Definition ex_frag (a b : Z) : pktbuf_t := Buf a 28 [b] 1 0 b 0.
Definition ex_frags : list pktbuf_t := [ex_frag 100 1; ex_frag 200 2; ex_frag 300 3].
Definition ex_state (l : list pktbuf_t) : ip_state :=
  IpState (Link ex_mem ∅ [] 0 [0; 0; 0] [] [] ∅ [] []) [] (<[500 := Frag 1 7 5 l]> ∅) [500] [] 0.

Lemma ex_datagram : datagram ex_mem 0 ex_frags.
Proof.
  exists 8. split; [reflexivity|]. split; [lia|]. exists 16. split; [reflexivity|].
  split; [lia|]. exists 24. split; [reflexivity|lia].
Qed.

Lemma ex_wf : pm_wf ex_mem [1; 2; 3].
Proof.
  split.
  - intros b Hb. cbn in Hb. assert (b = 1 \/ b = 2 \/ b = 3) as [->|[->| ->]] by set_solver;
      (eexists; split; [reflexivity|]; split; vm_compute; done || discriminate).
  - apply (bool_decide_unpack _); vm_compute; exact I.
  - apply (bool_decide_unpack _); vm_compute; exact I.
Qed.

Lemma frag_any_order_witness : exists s' x',
  insert_all (ex_state []) 500 [ex_frag 300 3; ex_frag 100 1; ex_frag 200 2] = Some s' /\
  frags s' !! 500 = Some x' /\ frag_all_arrived s' 500 = Some true /\ buf_list x' = ex_frags.
Proof.
  destruct (frag_any_order (ex_state []) 500 (Frag 1 7 5 []) ex_frags
    [ex_frag 300 3; ex_frag 100 1; ex_frag 200 2] []) as (s' & x' & H1 & _ & H2 & H3 & H4).
  - reflexivity.
  - reflexivity.
  - exact ex_datagram.
  - vm_compute. discriminate.
  - apply (bool_decide_unpack _). vm_compute. exact I.
  - exists s', x'. split; [exact H1|]. split; [exact H2|]. split; [exact H3|]. by apply H4.
Defined.

Lemma frag_join_spec_witness : exists s' target,
  frag_join (ex_state ex_frags) 500 = Some (s', Some target) /\
  contents (pm s') (blk_list target) = hdr_bytes (frag_hdr 0 true) ++ seqZ 0 24.
Proof.
  destruct (frag_join_spec (ex_state ex_frags) 500 (Frag 1 7 5 ex_frags) (ex_frag 100 1)
    [ex_frag 200 2; ex_frag 300 3] []) as (s' & target & H1 & _ & _ & _ & H2 & _).
  - reflexivity.
  - reflexivity.
  - exact ex_wf.
  - reflexivity.
  - repeat constructor; try reflexivity; (eexists; split; [reflexivity|vm_compute; split; discriminate]).
  - exists s', target. split; [exact H1|]. rewrite H2. reflexivity.
Defined.
