(* ===== verification/Sock.v ===== *)
(** * Sockets: kernel/net/sock.c, udp.c, raw.c, icmp.c

    A socket is named by its address in [udp_tbl] or [raw_tbl]; its operations
    are chosen by [ops].  The state of this layer stands beside that of IP,
    which its functions also change.  A semaphore a receiver sleeps on is the
    number of units it holds ([Segment]).  User memory is passed and returned
    as bytes. *)

From S2P Require Import Prelude Pktbuf PktbufSpec Layout Checksum IpAddr Link Ip.
From S2P Require Import Prelude.

Definition UDP_MAX_RECV : Z := 50.
Definition RAW_MAX_RECV : Z := 50.
Definition SOCKET_MAX_NR : Z := 100.
Definition AF_INET : Z := 0.
Definition SOCK_RAW : Z := 1.
Definition SOCK_DGRAM : Z := 2.
Definition IPPROTO_UDP : Z := 17.
Definition PORT_DYN_START : Z := 1024.
Definition PORT_DYN_END : Z := 65535.
Definition UDP_HDR_SIZE : Z := 8.
Definition UDP_FROM_SIZE : Z := 28.
Definition ICMP_HDR_SIZE : Z := 4.
Definition ICMP_ECHO_REPLY : Z := 0.
Definition ICMP_ECHO_REQUEST : Z := 8.

(** ** State *)

Inductive sock_ops_t := udp_ops | raw_ops.

(** [recv_wait]: number of waiting requests, error code, semaphore. *)
Record sock_wait_t := SockWait { waiting : Z; werr : net_err_t; sem : Z }.

(** [send_wait] and [conn_wait] are NULL in every socket. *)
Record sock_t := Sock {
  local_ip : Z; local_port : Z; remote_ip : Z; remote_port : Z; ops : sock_ops_t;
  family : Z; sprotocol : Z; serr : net_err_t; recv_tmo : Z; send_tmo : Z;
  recv_wait : sock_wait_t; recv_list : list pktbuf_t }.

(** [sock] is the address of the socket's [sock_t], or NULL. *)
Inductive socket_status := SOCKET_STATE_FREE | SOCKET_STATE_USED.
Record socket_t := Socket { sstate : socket_status; sock : Z }.

Record sock_state := SockState {
  socks : gmap Z sock_t; socket_tbl : list socket_t;
  udp_list : list Z; udp_mblock : list Z; raw_list : list Z; raw_mblock : list Z }.

Record sock_addr_in_t := SockAddr { sin_family : Z; sin_port : Z; in_addr : list Z }.

Definition set_sock (u : sock_state) (k : Z) (x : sock_t) :=
  SockState (<[k := x]> (socks u)) (socket_tbl u) (udp_list u) (udp_mblock u) (raw_list u) (raw_mblock u).
Definition set_udp (u : sock_state) l p :=
  SockState (socks u) (socket_tbl u) l p (raw_list u) (raw_mblock u).
Definition set_raw (u : sock_state) l p :=
  SockState (socks u) (socket_tbl u) (udp_list u) (udp_mblock u) l p.
Definition set_tbl (u : sock_state) t :=
  SockState (socks u) t (udp_list u) (udp_mblock u) (raw_list u) (raw_mblock u).

Definition with_recv (x : sock_t) w l :=
  Sock (local_ip x) (local_port x) (remote_ip x) (remote_port x) (ops x) (family x) (sprotocol x)
    (serr x) (recv_tmo x) (send_tmo x) w l.
Definition with_local (x : sock_t) ip port :=
  Sock ip port (remote_ip x) (remote_port x) (ops x) (family x) (sprotocol x) (serr x)
    (recv_tmo x) (send_tmo x) (recv_wait x) (recv_list x).
Definition with_remote (x : sock_t) ip port :=
  Sock (local_ip x) (local_port x) ip port (ops x) (family x) (sprotocol x) (serr x)
    (recv_tmo x) (send_tmo x) (recv_wait x) (recv_list x).
Definition with_err (x : sock_t) e :=
  Sock (local_ip x) (local_port x) (remote_ip x) (remote_port x) (ops x) (family x) (sprotocol x) e
    (recv_tmo x) (send_tmo x) (recv_wait x) (recv_list x).

(** ** sock.c *)

Definition init_socket (u : sock_state) : sock_state :=
  set_tbl u (replicate (Z.to_nat SOCKET_MAX_NR) (Socket SOCKET_STATE_FREE NULL)).
Definition init_udp (u : sock_state) (udp_tbl : list Z) : sock_state := set_udp u [] udp_tbl.
Definition init_raw (u : sock_state) (raw_tbl : list Z) : sock_state := set_raw u [] raw_tbl.

(** The index of a used entry, whose address stands for the pointer. *)
Definition get_socket (u : sock_state) (idx : Z) : option (option socket_t) :=
  if (idx <? 0) || (SOCKET_MAX_NR <=? idx) then Some None
  else
    s ← zget (socket_tbl u) idx;
    if sock s =? NULL then Some None else Some (Some s).

(** [sock_init] of a block, with [recv_wait] and [recv_list] as the creating
    functions set them afterwards. *)
Definition sock_init (family protocol : Z) (o : sock_ops_t) : sock_t :=
  Sock 0 0 0 0 o family protocol NET_ERR_OK 0 0 (SockWait 0 NET_ERR_OK 0) [].

Definition sock_bind (u : sock_state) (s : ip_state) (k : Z) (addr : sock_addr_in_t)
    : option (net_err_t * sock_state) :=
  x ← socks u !! k;
  ip ← ip_addr_from_buf (in_addr addr);
  let bind := Some (NET_ERR_OK, set_sock u k (with_local x ip (sin_port addr))) in
  if nz (q_addr (in_addr addr)) then
    match route_find s ip with
    | None => Some (NET_ERR_PARAM, u)
    | Some entry =>
        n ← netifs (lnk s) !! netif entry;
        if negb (ip_addr (ip_desc n) =? ip) then Some (NET_ERR_PARAM, u) else bind
    end
  else bind.

Definition sock_connect (u : sock_state) (k : Z) (addr : sock_addr_in_t)
    : option (net_err_t * sock_state) :=
  x ← socks u !! k;
  ip ← ip_addr_from_buf (in_addr addr);
  Some (NET_ERR_OK, set_sock u k (with_remote x ip (sin_port addr))).

Definition sock_wait_leave (w : sock_wait_t) (err : net_err_t) : sock_wait_t :=
  if 0 <? waiting w then SockWait (waiting w - 1) err (u32 (sem w + 1)) else w.

Definition sock_wait_add (w : sock_wait_t) : sock_wait_t :=
  SockWait (i32 (waiting w + 1)) (werr w) (sem w).

(** [sock_wakeup(sock, SOCK_WAIT_READ, err)], the only way it is called. *)
Definition sock_wakeup_read (u : sock_state) (k : Z) (err : net_err_t) : option sock_state :=
  x ← socks u !! k;
  Some (set_sock u k (with_err (with_recv x (sock_wait_leave (recv_wait x) err) (recv_list x)) err)).

Fixpoint alloc_socket_loop (t : list socket_t) (i : Z) : option (Z * list socket_t) :=
  match t with
  | [] => None
  | s :: t' =>
      match sstate s with
      | SOCKET_STATE_FREE => Some (i, Socket SOCKET_STATE_USED (sock s) :: t')
      | _ => '(j, t') ← alloc_socket_loop t' (i + 1); Some (j, s :: t')
      end
  end.
(** The index of the entry taken; nothing when all are used. *)
Definition socket_alloc (u : sock_state) : option (Z * sock_state) :=
  '(i, t) ← alloc_socket_loop (socket_tbl u) 0; Some (i, set_tbl u t).

Definition socket_free (u : sock_state) (i : Z) : option sock_state :=
  t ← zset (socket_tbl u) i (Socket SOCKET_STATE_FREE NULL); Some (set_tbl u t).

(** ** Receiving: the sockets a packet is for *)

Fixpoint udp_find_loop (socks : gmap Z sock_t) (l : list Z) (src_ip src_port dest_ip dest_port : Z)
    : option (option Z) :=
  match l with
  | [] => Some None
  | k :: l' =>
      x ← socks !! k;
      if nz (local_ip x) && negb (local_ip x =? dest_ip) then
        udp_find_loop socks l' src_ip src_port dest_ip dest_port
      else if nz dest_port && negb (local_port x =? dest_port) then
        udp_find_loop socks l' src_ip src_port dest_ip dest_port
      else if nz (remote_ip x) && negb (remote_ip x =? src_ip) then
        udp_find_loop socks l' src_ip src_port dest_ip dest_port
      else if nz (remote_port x) && negb (remote_port x =? src_port) then
        udp_find_loop socks l' src_ip src_port dest_ip dest_port
      else Some (Some k)
  end.
Definition udp_find (u : sock_state) (src_ip src_port dest_ip dest_port : Z) : option (option Z) :=
  udp_find_loop (socks u) (udp_list u) src_ip src_port dest_ip dest_port.

Fixpoint raw_find_loop (socks : gmap Z sock_t) (l : list Z) (src dest protocol : Z)
    : option (option Z) :=
  match l with
  | [] => Some None
  | k :: l' =>
      x ← socks !! k;
      if negb (sprotocol x =? protocol) then raw_find_loop socks l' src dest protocol
      else if nz (local_ip x) && negb (local_ip x =? dest) then raw_find_loop socks l' src dest protocol
      else if nz (remote_ip x) && negb (remote_ip x =? src) then raw_find_loop socks l' src dest protocol
      else Some (Some k)
  end.
Definition raw_find (u : sock_state) (src dest protocol : Z) : option (option Z) :=
  raw_find_loop (socks u) (raw_list u) src dest protocol.

(** The end of [udp_in] and of [raw_in]: queue the packet or drop it. *)
Definition deliver (u : sock_state) (s : ip_state) (k max : Z) (buf : pktbuf_t)
    : option (net_err_t * pktbuf_t * sock_state * ip_state) :=
  x ← socks u !! k;
  if zlen (recv_list x) <? max then
    u ← sock_wakeup_read (set_sock u k (with_recv x (recv_wait x) (recv_list x ++ [buf]))) k NET_ERR_OK;
    Some (NET_ERR_OK, buf, u, s)
  else
    let '(buf, m) := pktbuf_free (pm s) buf in Some (NET_ERR_OK, buf, u, with_pm s m).

Definition raw_in (u : sock_state) (s : ip_state) (buf : pktbuf_t)
    : option (net_err_t * pktbuf_t * sock_state * ip_state) :=
  h ← pkt_hdr (pm s) buf;
  src ← ip_addr_from_buf (src_ip h);
  dest ← ip_addr_from_buf (dest_ip h);
  r ← raw_find u src dest (protocol h);
  match r with
  | None => Some (NET_ERR_UNREACH, buf, u, s)
  | Some k => deliver u s k RAW_MAX_RECV buf
  end.

(** The UDP header. *)
Record udp_hdr_t := UdpHdr { src_port : Z; dest_port : Z; ulen : Z; check_sum : Z }.
Definition udp_bytes (h : udp_hdr_t) : list Z :=
  le16 (src_port h) ++ le16 (dest_port h) ++ le16 (ulen h) ++ le16 (check_sum h).
Definition udp_of_bytes (b : list Z) : option udp_hdr_t :=
  match b with
  | [s0; s1; d0; d1; l0; l1; c0; c1] =>
      Some (UdpHdr (of_le16 s0 s1) (of_le16 d0 d1) (of_le16 l0 l1) (of_le16 c0 c1))
  | _ => None
  end.
Definition udp_ok (h : udp_hdr_t) : Prop :=
  0 <= src_port h < 65536 /\ 0 <= dest_port h < 65536 /\ 0 <= ulen h < 65536 /\
  0 <= check_sum h < 65536.

Lemma udp_bytes_len h : udp_ok h -> zlen (udp_bytes h) = UDP_HDR_SIZE.
Proof. done. Qed.

Lemma udp_of_to_bytes h : udp_ok h -> udp_of_bytes (udp_bytes h) = Some h.
Proof. intros (? & ? & ? & ?). destruct h. cbn in *. by rewrite !of_le16_le16. Qed.

#[export] Instance udp_packed : Packed udp_hdr_t := {|
  psize := UDP_HDR_SIZE; to_bytes := udp_bytes; of_bytes := udp_of_bytes;
  packed_ok := udp_ok; to_bytes_len := udp_bytes_len; of_to_bytes := udp_of_to_bytes |}.

(** [udp_from_t] before the data: [from.q_addr] at byte 4, [port] at byte 24. *)
Definition set_from (m : pmem) (buf : pktbuf_t) (ip port : Z) : option pmem :=
  m ← pkt_write m buf 24 (le16 port); pkt_write m buf 4 (a_addr ip).
Definition get_from (m : pmem) (buf : pktbuf_t) : option (Z * Z) :=
  p ← pkt_read m buf 24 2;
  a ← pkt_read m buf 4 4;
  match p with [p0; p1] => Some (q_addr a, of_le16 p0 p1) | _ => None end.

Definition udp_in (u : sock_state) (s : ip_state) (buf : pktbuf_t) (src dest : Z)
    : option (net_err_t * pktbuf_t * sock_state * ip_state) :=
  ip_hdr ← pkt_hdr (pm s) buf;
  let iphdr_size := ipv4_hdr_size ip_hdr in
  '(e, buf, m) ← pktbuf_set_cont (pm s) buf (UDP_HDR_SIZE + iphdr_size);
  let s := with_pm s m in
  if is_err e then Some (e, buf, u, s)
  else
    h ← pkt_load_at udp_hdr_t m buf iphdr_size;
    let local_port := swap_u16 (dest_port h) in
    let remote_port := swap_u16 (src_port h) in
    r ← udp_find u src remote_port dest local_port;
    match r with
    | None => Some (NET_ERR_UNREACH, buf, u, s)
    | Some k =>
        '(_, buf, m) ← pktbuf_remove_header m buf iphdr_size;
        h ← pkt_load_at udp_hdr_t m buf 0;
        '(bad, buf) ← (if nz (check_sum h) then
                         buf ← pktbuf_reset_acc m buf;
                         '(c, buf) ← checksum_peso m buf (a_addr dest) (a_addr src) NET_PROTOCOL_UDP;
                         Some (nz c, buf)
                       else Some (false, buf));
        if (bad : bool) then Some (NET_ERR_CHECKSUM, buf, u, with_pm s m)
        else
          m ← pkt_store_at m buf 0 (UdpHdr (swap_u16 (src_port h)) (swap_u16 (dest_port h))
                                      (swap_u16 (ulen h)) (check_sum h));
          '(_, buf, m) ← pktbuf_remove_header m buf (UDP_HDR_SIZE - UDP_FROM_SIZE);
          m ← set_from m buf src remote_port;
          deliver u (with_pm s m) k UDP_MAX_RECV buf
    end.

(** ** Sending *)

Section Sending.
(** See [Link]. *)
Context (xmit : netif_t -> pmem -> option (net_err_t * netif_t * pmem)).
Context (at_null : list Z).
(** What the caller of [icmp_out], which has no return statement, finds as its
    result when [ipv4_out] returned the argument. *)
Context (icmp_out_result : net_err_t -> net_err_t).
(** The value of the uninitialised variable [udp] of [udp_bind]. *)
Context (udp_bind_local : Z).

Definition icmp_out (s : ip_state) (src dest : Z) (buf : pktbuf_t)
    : option (net_err_t * pktbuf_t * ip_state) :=
  '(_, buf) ← pktbuf_seek (pm s) buf 0;
  '(c, buf) ← pktbuf_checksum16 (pm s) buf (total_size buf) 0 true;
  m ← pkt_write (pm s) buf 2 (le16 c);
  '(e, buf, s) ← ipv4_out xmit at_null (with_pm s m) NET_PROTOCOL_ICMPv4 dest src buf;
  Some (icmp_out_result e, buf, s).

Definition icmp_echo_reply (s : ip_state) (src dest : Z) (buf : pktbuf_t)
    : option (net_err_t * pktbuf_t * ip_state) :=
  m ← pkt_write (pm s) buf 0 [ICMP_ECHO_REPLY];
  m ← pkt_write m buf 2 [0; 0];
  icmp_out (with_pm s m) dest src buf.

Definition icmp_pkt_check (m : pmem) (size : Z) (buf : pktbuf_t) : option (net_err_t * pktbuf_t) :=
  if u32 size <=? ICMP_HDR_SIZE then Some (NET_ERR_SIZE, buf)
  else
    '(checksum, buf) ← pktbuf_checksum16 m buf size 0 true;
    Some (if negb (checksum =? 0) then NET_ERR_CHECKSUM else NET_ERR_OK, buf).

Definition icmp_in (u : sock_state) (s : ip_state) (src dest : Z) (buf : pktbuf_t)
    : option (net_err_t * pktbuf_t * sock_state * ip_state) :=
  h ← pkt_hdr (pm s) buf;
  let hdr_size := ipv4_hdr_size h in
  '(e, buf, m) ← pktbuf_set_cont (pm s) buf (ICMP_HDR_SIZE + hdr_size);
  let s := with_pm s m in
  if is_err e then Some (e, buf, u, s)
  else
    buf ← pktbuf_reset_acc m buf;
    '(_, buf) ← pktbuf_seek m buf hdr_size;
    '(e, buf) ← icmp_pkt_check m (total_size buf - hdr_size) buf;
    if is_err e then Some (e, buf, u, s)
    else
      t ← pkt_read m buf hdr_size 1;
      if bool_decide (t = [ICMP_ECHO_REQUEST]) then
        '(e, buf, m) ← pktbuf_remove_header m buf hdr_size;
        let s := with_pm s m in
        if is_err e then Some (e, buf, u, s)
        else '(e, buf, s) ← icmp_echo_reply s src dest buf; Some (e, buf, u, s)
      else raw_in u s buf.

(** A NULL source address and one that is 0 both select the address of the
    interface towards [dest]. *)
Definition udp_out (s : ip_state) (dest dport src sport : Z) (buf : pktbuf_t)
    : option (net_err_t * pktbuf_t * ip_state) :=
  r ← (if src =? 0 then
         match route_find s dest with
         | None => Some None
         | Some entry => n ← netifs (lnk s) !! netif entry; Some (Some (ip_addr (ip_desc n)))
         end
       else Some (Some src));
  match r with
  | None => Some (NET_ERR_UNREACH, buf, s)
  | Some src =>
      '(e, buf, m) ← pktbuf_add_header (pm s) buf UDP_HDR_SIZE true;
      let s := with_pm s m in
      if is_err e then Some (NET_ERR_SIZE, buf, s)
      else
        old ← pkt_load_at udp_hdr_t m buf 0;
        let h c := UdpHdr (swap_u16 sport) (swap_u16 dport) (swap_u16 (u16 (total_size buf))) c in
        m ← pkt_store_at m buf 0 (h (check_sum old));
        '(c, buf) ← checksum_peso m buf (a_addr src) (a_addr dest) NET_PROTOCOL_UDP;
        m ← pkt_store_at m buf 0 (h c);
        '(e, buf, s) ← ipv4_out xmit at_null (with_pm s m) NET_PROTOCOL_UDP dest src buf;
        if is_err e then Some (e, buf, s) else Some (NET_ERR_OK, buf, s)
  end.

Fixpoint is_port_used (socks : gmap Z sock_t) (l : list Z) (port : Z) : option bool :=
  match l with
  | [] => Some false
  | k :: l' => x ← socks !! k; if local_port x =? port then Some true else is_port_used socks l' port
  end.

Definition alloc_port (u : sock_state) (k : Z) : option (net_err_t * sock_state) :=
  '(u, r) ← for_ret (Z.to_nat (PORT_DYN_END - PORT_DYN_START)) PORT_DYN_START (fun i u =>
       used ← is_port_used (socks u) (udp_list u) i;
       if (used : bool) then Some (u, None)
       else x ← socks u !! k; Some (set_sock u k (with_local x (local_ip x) i), Some NET_ERR_OK)) u;
  Some (default NET_ERR_NONE r, u).

(** The result and the number of bytes stored through [ret_len].  The test for
    a failed allocation looks at the caller's buffer. *)
Definition udp_send_to (u : sock_state) (s : ip_state) (k : Z) (data : list Z) (dest : sock_addr_in_t)
    : option (net_err_t * Z * sock_state * ip_state) :=
  x ← socks u !! k;
  dest_ip ← ip_addr_from_buf (in_addr dest);
  let dest_port := swap_u16 (sin_port dest) in
  if nz dest_ip && (negb (dest_ip =? remote_ip x) || negb (dest_port =? remote_port x)) then
    Some (NET_ERR_CONNECTED, 0, u, s)
  else
    '(e, u) ← (if nz (local_port x) then
                 '(e, u) ← alloc_port u k;
                 x ← socks u !! k; Some (e, set_sock u k (with_err x e))
               else Some (NET_ERR_OK, u));
    if is_err e then Some (NET_ERR_NONE, 0, u, s)
    else
      x ← socks u !! k;
      '(b, m) ← pktbuf_alloc (pm s) (zlen data);
      buf ← b;
      '(e, buf, m) ← pktbuf_write m buf data (zlen data);
      let s := with_pm s m in
      if is_err e then Some (e, 0, u, with_pm s (snd (pktbuf_free m buf)))
      else
        '(e, buf, s) ← udp_out s dest_ip dest_port (local_ip x) (local_port x) buf;
        if is_err e then Some (e, 0, u, with_pm s (snd (pktbuf_free (pm s) buf)))
        else Some (NET_ERR_OK, zlen data, u, s).

Definition raw_send_to (u : sock_state) (s : ip_state) (k : Z) (data : list Z) (dest : sock_addr_in_t)
    : option (net_err_t * Z * sock_state * ip_state) :=
  x ← socks u !! k;
  if nz (remote_ip x) && negb (remote_ip x =? q_addr (in_addr dest)) then
    Some (NET_ERR_CONNECTED, 0, u, s)
  else
    '(b, m) ← pktbuf_alloc (pm s) (zlen data);
    buf ← b;
    '(_, buf, m) ← pktbuf_write m buf data (zlen data);
    '(e, buf, s) ← ipv4_out xmit at_null (with_pm s m) (u8 (sprotocol x)) (q_addr (in_addr dest))
                     (local_ip x) buf;
    if is_err e then Some (e, 0, u, with_pm s (snd (pktbuf_free (pm s) buf)))
    else Some (NET_ERR_OK, zlen data, u, s).

(** ** Receiving: taking a packet *)

(** Error, bytes for the caller's buffer, source address and length. *)
Definition udp_receive_from (u : sock_state) (s : ip_state) (k len : Z)
    : option (net_err_t * list Z * option sock_addr_in_t * Z * sock_state * ip_state) :=
  x ← socks u !! k;
  match recv_list x with
  | [] => Some (NET_ERR_NEED_WAIT, [], None, 0, u, s)
  | buf :: rest =>
      let u := set_sock u k (with_recv x (recv_wait x) rest) in
      '(ip, port) ← get_from (pm s) buf;
      let src := SockAddr AF_INET (swap_u16 port) (a_addr ip) in
      '(_, buf, m) ← pktbuf_remove_header (pm s) buf UDP_FROM_SIZE;
      let size := if len <? total_size buf then len else total_size buf in
      buf ← pktbuf_reset_acc m buf;
      '(e, buf, bytes) ← pktbuf_read m buf size;
      let s := with_pm s (snd (pktbuf_free m buf)) in
      if is_err e then Some (e, [], Some src, 0, u, s)
      else Some (NET_ERR_OK, bytes, Some src, size, u, s)
  end.

(** A failing read would release the caller's buffer as a packet; it does not
    fail, since no more is read than the packet has. *)
Definition raw_receive_from (u : sock_state) (s : ip_state) (k len : Z)
    : option (net_err_t * list Z * option sock_addr_in_t * Z * sock_state * ip_state) :=
  x ← socks u !! k;
  match recv_list x with
  | [] => Some (NET_ERR_NEED_WAIT, [], None, 0, u, s)
  | buf :: rest =>
      let u := set_sock u k (with_recv x (recv_wait x) rest) in
      h ← pkt_hdr (pm s) buf;
      let src := SockAddr AF_INET 0 (src_ip h) in
      let size := if len <? total_size buf then len else total_size buf in
      buf ← pktbuf_reset_acc (pm s) buf;
      '(e, buf, bytes) ← pktbuf_read (pm s) buf size;
      if is_err e then None
      else Some (NET_ERR_OK, bytes, Some src, size, u, with_pm s (snd (pktbuf_free (pm s) buf)))
  end.

(** ** Creating and closing *)

Definition udp_create (u : sock_state) (fam prot : Z) : option (Z * sock_state) :=
  match udp_mblock u with
  | [] => None
  | k :: pool =>
      Some (k, set_sock (set_udp u (udp_list u ++ [k]) pool) k (sock_init fam prot udp_ops))
  end.

Definition raw_create (u : sock_state) (fam prot : Z) : option (Z * sock_state) :=
  match raw_mblock u with
  | [] => None
  | k :: pool =>
      Some (k, set_sock (set_raw u (raw_list u ++ [k]) pool) k (sock_init fam prot raw_ops))
  end.

Definition udp_close (u : sock_state) (s : ip_state) (k : Z) : option (net_err_t * sock_state * ip_state) :=
  x ← socks u !! k;
  let u := set_udp u (filter (fun j => j <> k) (udp_list u)) (udp_mblock u ++ [k]) in
  Some (NET_ERR_OK, set_sock u k (with_recv x (recv_wait x) []),
        with_pm s (free_all (pm s) (recv_list x))).

Definition raw_close (u : sock_state) (s : ip_state) (k : Z) : option (net_err_t * sock_state * ip_state) :=
  x ← socks u !! k;
  let u := set_raw u (filter (fun j => j <> k) (raw_list u)) (raw_mblock u ++ [k]) in
  Some (NET_ERR_OK, set_sock u k (with_recv x (recv_wait x) []),
        with_pm s (free_all (pm s) (recv_list x))).

(** The variable [udp] is read before it is set. *)
Fixpoint udp_bind_loop (socks : gmap Z sock_t) (l : list Z) (k ip port udp : Z) : option Z :=
  match l with
  | [] => Some udp
  | j :: l' =>
      if j =? k then udp_bind_loop socks l' k ip port udp
      else
        x ← socks !! udp;
        if (local_ip x =? ip) && (local_port x =? port) then Some j
        else udp_bind_loop socks l' k ip port udp
  end.
Definition udp_bind (u : sock_state) (s : ip_state) (k : Z) (addr : sock_addr_in_t)
    : option (net_err_t * sock_state) :=
  x ← socks u !! k;
  if nz (local_ip x) then Some (NET_ERR_BINDED, u)
  else
    ip ← ip_addr_from_buf (in_addr addr);
    udp ← udp_bind_loop (socks u) (udp_list u) k ip (swap_u16 (sin_port addr)) udp_bind_local;
    if negb (udp =? NULL) then Some (NET_ERR_BINDED, u) else sock_bind u s k addr.

(** ** The operations of a socket *)

Definition ops_send_to (u : sock_state) (s : ip_state) (k : Z) data dest :=
  x ← socks u !! k;
  match ops x with udp_ops => udp_send_to u s k data dest | raw_ops => raw_send_to u s k data dest end.
Definition ops_receive_from (u : sock_state) (s : ip_state) (k len : Z) :=
  x ← socks u !! k;
  match ops x with udp_ops => udp_receive_from u s k len | raw_ops => raw_receive_from u s k len end.

(** [udp_send] and [udp_receive] call these too. *)
Definition sock_send (u : sock_state) (s : ip_state) (k : Z) (data : list Z)
    : option (net_err_t * Z * sock_state * ip_state) :=
  x ← socks u !! k;
  if remote_ip x =? 0 then Some (NET_ERR_UNREACH, 0, u, s)
  else
    a ← ip_addr_to_buf (remote_ip x) [0; 0; 0; 0];
    ops_send_to u s k data (SockAddr (u8 (family x)) (swap_u16 (remote_port x)) a).
Definition sock_receive := ops_receive_from.

(** ** Requests *)

(** [sock_tbl] has entries for [SOCK_RAW] and [SOCK_DGRAM]; entry 0 has no
    function. *)
Definition handle_sock_create (u : sock_state) (fam typ prot : Z)
    : option (net_err_t * Z * sock_state) :=
  match socket_alloc u with
  | None => Some (NET_ERR_MEM, -1, u)
  | Some (i, u) =>
      if (typ <? 0) || (3 <=? typ) then u ← socket_free u i; Some (NET_ERR_PARAM, -1, u)
      else
        r ← (if typ =? SOCK_RAW then Some (raw_create u fam prot)
             else if typ =? SOCK_DGRAM then
               Some (udp_create u fam (if prot =? 0 then IPPROTO_UDP else prot))
             else None);
        match r with
        | None => u ← socket_free u i; Some (NET_ERR_MEM, -1, u)
        | Some (k, u) =>
            t ← zset (socket_tbl u) i (Socket SOCKET_STATE_USED k);
            Some (NET_ERR_OK, i, set_tbl u t)
        end
  end.

(** The entry of [socket_tbl] stays in use. *)
Definition handle_sock_close (u : sock_state) (s : ip_state) (fd : Z)
    : option (net_err_t * sock_state * ip_state) :=
  r ← get_socket u fd;
  match r with
  | None => Some (NET_ERR_PARAM, u, s)
  | Some so =>
      x ← socks u !! sock so;
      match ops x with udp_ops => udp_close u s (sock so) | raw_ops => raw_close u s (sock so) end
  end.

Definition handle_sock_bind (u : sock_state) (s : ip_state) (fd : Z) (addr : sock_addr_in_t)
    : option (net_err_t * sock_state) :=
  r ← get_socket u fd;
  match r with
  | None => Some (NET_ERR_PARAM, u)
  | Some so =>
      x ← socks u !! sock so;
      match ops x with
      | udp_ops => udp_bind u s (sock so) addr
      | raw_ops => sock_bind u s (sock so) addr
      end
  end.

Definition handle_sock_connect (u : sock_state) (fd : Z) (addr : sock_addr_in_t)
    : option (net_err_t * sock_state) :=
  r ← get_socket u fd;
  match r with
  | None => Some (NET_ERR_PARAM, u)
  | Some so => sock_connect u (sock so) addr
  end.

(** Sending never asks to wait, and [send_wait] is NULL. *)
Definition handle_sock_send (u : sock_state) (s : ip_state) (fd : Z) (data : list Z)
    : option (net_err_t * Z * sock_state * ip_state) :=
  r ← get_socket u fd;
  match r with
  | None => Some (NET_ERR_PARAM, 0, u, s)
  | Some so =>
      x ← socks u !! sock so;
      sock_send (set_sock u (sock so) (with_err x NET_ERR_OK)) s (sock so) data
  end.

Definition handle_sock_receive (u : sock_state) (s : ip_state) (fd len : Z)
    : option (net_err_t * list Z * option sock_addr_in_t * Z * sock_state * ip_state) :=
  r ← get_socket u fd;
  match r with
  | None => Some (NET_ERR_PARAM, [], None, 0, u, s)
  | Some so =>
      '(e, bytes, src, n, u, s) ← sock_receive u s (sock so) len;
      match e with
      | NET_ERR_NEED_WAIT =>
          x ← socks u !! sock so;
          Some (e, bytes, src, n,
                set_sock u (sock so) (with_recv x (sock_wait_add (recv_wait x)) (recv_list x)), s)
      | _ => Some (e, bytes, src, n, u, s)
      end
  end.

End Sending.
