(* ===== verification/Net.v ===== *)
(** * The network stack put together: kernel/net/ether.c, exmsg.c, net.c, netif.c

    Input from an interface's queue up to the sockets, and the activation of
    an interface.  [do_netif_in] is what the network thread does for a message
    of a driver. *)

From S2P Require Import Prelude Pktbuf PktbufSpec Layout Checksum IpAddr Link Ip Sock.
From S2P Require Import Prelude.

Section Stack.
(** See [Link], [Ip] and [Sock]. *)
Context (xmit : netif_t -> pmem -> option (net_err_t * netif_t * pmem)).
Context (at_null : list Z).
Context (icmp_out_result : net_err_t -> net_err_t).
Context (frag_alloc_result : Z -> Z).

(** ** Input *)

Definition ip_in := ipv4_in (icmp_in xmit at_null icmp_out_result) udp_in frag_alloc_result.

(** A frame of any other protocol is neither used nor released. *)
Definition ether_in (u : sock_state) (s : ip_state) (n : Z) (buf : pktbuf_t)
    : option (net_err_t * pktbuf_t * sock_state * ip_state) :=
  '(_, buf, m) ← pktbuf_set_cont (pm s) buf ETHER_HDR_SIZE;
  let s := with_pm s m in
  let e := pkt_buf_check (total_size buf) in
  if is_err e then Some (e, buf, u, s)
  else
    pkt ← pkt_load_at ether_hdr_t m buf 0;
    let prot := swap_u16 (eprotocol pkt) in
    if prot =? NET_PROTOCOL_ARP then
      '(e, buf, m) ← pktbuf_remove_header m buf ETHER_HDR_SIZE;
      let s := with_pm s m in
      if is_err e then Some (e, buf, u, s)
      else '(e, buf, l) ← arp_in xmit at_null (lnk s) n buf; Some (e, buf, u, with_lnk s l)
    else if prot =? NET_PROTOCOL_IPv4 then
      '(_, buf, l) ← arp_update_from_ipbuf xmit at_null (lnk s) n buf;
      let s := with_lnk s l in
      '(e, buf, m) ← pktbuf_remove_header (pm s) buf ETHER_HDR_SIZE;
      let s := with_pm s m in
      if is_err e then Some (NET_ERR_SIZE, buf, u, s)
      else
        '(e, buf, u, s) ← ip_in u s n buf;
        if is_err e then Some (e, buf, u, s) else Some (NET_ERR_OK, buf, u, s)
    else Some (NET_ERR_OK, buf, u, s).

(** One packet of the input queue. *)
Definition netif_in_one (u : sock_state) (s : ip_state) (n : Z) (buf : pktbuf_t)
    : option (sock_state * ip_state) :=
  x ← netifs (lnk s) !! n;
  '(e, buf, u, s) ← (if negb (link_layer x =? NULL) then ether_in u s n buf else ip_in u s n buf);
  Some (u, if is_err e then with_pm s (snd (pktbuf_free (pm s) buf)) else s).

(** The loop ends when the queue is empty; a packet for the interface itself
    goes back into the queue, so the number of rounds has no bound in general. *)
Fixpoint do_netif_in (fuel : nat) (u : sock_state) (s : ip_state) (n : Z)
    : option (sock_state * ip_state) :=
  match fuel with
  | O => None
  | S fuel' =>
      '(b, l) ← netif_get_in (lnk s) n;
      let s := with_lnk s l in
      match b with
      | None => Some (u, s)
      | Some buf => '(u, s) ← netif_in_one u s n buf; do_netif_in fuel' u s n
      end
  end.

(** One round of the network thread: a message of a driver.  A function
    message runs its function [func] on behalf of another thread. *)
Definition net_work_step (func : Z -> sock_state -> ip_state -> option (sock_state * ip_state))
    (fuel : nat) (u : sock_state) (s : ip_state) : option (sock_state * ip_state) :=
  match msg_queue (lnk s) with
  | [] => Some (u, s)
  | (msg, t) :: q =>
      let s := with_lnk s (set_msgs (lnk s) q (msg_block (lnk s))) in
      '(u, s) ← match t with
                | NET_EXMSG_NETIF_IN n => do_netif_in fuel u s n
                | NET_EXMSG_FUN f => func f u s
                end;
      Some (u, with_lnk s (set_msgs (lnk s) (msg_queue (lnk s)) (msg_block (lnk s) ++ [msg])))
  end.

(** ** Interfaces *)

Definition netif_set_addr (s : ip_state) (n : Z) (ip netmask gateway : option Z) : option ip_state :=
  x ← netifs (lnk s) !! n;
  let d := IpDesc (default ipaddr_get_any ip) (default ipaddr_get_any netmask)
             (default ipaddr_get_any gateway) in
  Some (with_lnk s (set_netif (lnk s) n (with_desc x d))).

(** [desc.gateway] is not set: [any_gateway] is what it holds. *)
Definition netif_set_default (s : ip_state) (n any_gateway : Z) : option ip_state :=
  x ← netifs (lnk s) !! n;
  let desc := IpDesc ipaddr_get_any ipaddr_get_any any_gateway in
  s ← (if negb (gateway (ip_desc x) =? 0) then
         let s := if negb (netif_default (lnk s) =? NULL) then route_remove s desc else s in
         route_add s desc (gateway (ip_desc x)) n
       else Some s);
  Some (with_lnk s (set_netif_list (lnk s) (netif_list (lnk s)) n)).

(** The second route is for the same network: [ip] is set to the broadcast
    address after [desc] was filled. *)
Definition netif_set_active (s : ip_state) (n : Z) : option (net_err_t * ip_state) :=
  x ← netifs (lnk s) !! n;
  match state x with
  | NETIF_OPENED =>
      '(e, s) ← (if negb (link_layer x =? NULL) then
                   '(e, l) ← ether_open xmit (lnk s) n; Some (e, with_lnk s l)
                 else Some (NET_ERR_OK, s));
      if is_err e then Some (e, s)
      else
        x ← netifs (lnk s) !! n;
        let d := ip_desc x in
        let desc := IpDesc (Z.land (ip_addr d) (net_mask d)) (net_mask d) (gateway d) in
        s ← route_add s desc ipaddr_get_any n;
        s ← route_add s desc ipaddr_get_any n;
        let s := if (netif_default (lnk s) =? NULL) && negb (type x =? NETIF_TYPE_LOOP)
                 then with_lnk s (set_netif_list (lnk s) (netif_list (lnk s)) n) else s in
        x ← netifs (lnk s) !! n;
        Some (NET_ERR_OK, with_lnk s (set_netif (lnk s) n (with_state x NETIF_ACTIVE)))
  | _ => Some (NET_ERR_STATE, s)
  end.

End Stack.
