(* ===== verification/SockSpec.v ===== *)
(** * Sockets: theorems

    Which socket a datagram is for, dynamic ports, and what closing a socket
    leaves behind; then runs of the whole stack on concrete frames. *)

From S2P Require Import Prelude Pktbuf PktbufSpec Layout Checksum IpAddr Link Ip Sock Net.
From S2P Require Import Prelude.

(** ** Finding a socket *)

(** The datagram fits the socket: each field of the socket that is set agrees;
    a datagram for port 0 fits any port. *)
Definition udp_match (x : sock_t) (src_ip src_port dest_ip dest_port : Z) : Prop :=
  (local_ip x = 0 \/ local_ip x = dest_ip) /\ (dest_port = 0 \/ local_port x = dest_port) /\
  (remote_ip x = 0 \/ remote_ip x = src_ip) /\ (remote_port x = 0 \/ remote_port x = src_port).

Lemma nz_ne_spec a b : nz a && negb (b =? a) = false <-> a = 0 \/ b = a.
Proof. unfold nz. destruct (Z.eqb_spec a 0), (Z.eqb_spec b a); cbn; intuition congruence. Qed.
Lemma nz_ne_spec' a b : nz a && negb (a =? b) = false <-> a = 0 \/ a = b.
Proof. unfold nz. destruct (Z.eqb_spec a 0), (Z.eqb_spec a b); cbn; intuition congruence. Qed.

Lemma udp_find_loop_ok (m : gmap Z sock_t) l a b c d :
  (forall k, k ∈ l -> is_Some (m !! k)) ->
  exists r, udp_find_loop m l a b c d = Some r /\
  match r with
  | None => forall k x, k ∈ l -> m !! k = Some x -> ~ udp_match x a b c d
  | Some k => exists pre post x, l = pre ++ k :: post /\ m !! k = Some x /\ udp_match x a b c d /\
      forall j y, j ∈ pre -> m !! j = Some y -> ~ udp_match y a b c d
  end.
Proof.
  induction l as [|k l IH]; intros Hl; cbn [udp_find_loop].
  { exists None. split; [done|]. by intros ? ? ?%not_elem_of_nil. }
  destruct (Hl k) as [x Hx]; [set_solver|]. rewrite Hx. mstep.
  destruct IH as (r & E & Hr); [intros j Hj; apply Hl; set_solver|]. rewrite !E.
  assert (~ udp_match x a b c d -> exists r0, Some r = Some r0 /\
    match r0 with
    | None => forall j y, j ∈ k :: l -> m !! j = Some y -> ~ udp_match y a b c d
    | Some j => exists pre post y, k :: l = pre ++ j :: post /\ m !! j = Some y /\ udp_match y a b c d /\
        forall i z, i ∈ pre -> m !! i = Some z -> ~ udp_match z a b c d
    end) as Hskip.
  { intros Hn. exists r. split; [done|]. destruct r as [j|].
    - destruct Hr as (pre & post & y & -> & Hy & Hm & Hpre). exists (k :: pre), post, y.
      split_and!; try done. intros i z [->|Hi]%elem_of_cons Hz; [congruence|by eapply Hpre].
    - intros j y [->|Hj]%elem_of_cons Hy; [congruence|by eapply Hr]. }
  destruct (nz (local_ip x) && negb (local_ip x =? c)) eqn:E1.
  { apply Hskip. intros (H & _). apply nz_ne_spec' in H. congruence. }
  destruct (nz d && negb (local_port x =? d)) eqn:E2.
  { apply Hskip. intros (_ & H & _). apply nz_ne_spec in H. congruence. }
  destruct (nz (remote_ip x) && negb (remote_ip x =? a)) eqn:E3.
  { apply Hskip. intros (_ & _ & H & _). apply nz_ne_spec' in H. congruence. }
  destruct (nz (remote_port x) && negb (remote_port x =? b)) eqn:E4.
  { apply Hskip. intros (_ & _ & _ & H). apply nz_ne_spec' in H. congruence. }
  exists (Some k). split; [done|]. exists [], l, x. split_and!; try done.
  - split_and!; by (apply nz_ne_spec' || apply nz_ne_spec).
  - by intros ? ? ?%not_elem_of_nil.
Qed.

(** ** Dynamic ports *)

Lemma is_port_used_ok (m : gmap Z sock_t) l p : (forall k, k ∈ l -> is_Some (m !! k)) ->
  exists r, is_port_used m l p = Some r /\
    (r = true <-> exists k x, k ∈ l /\ m !! k = Some x /\ local_port x = p).
Proof.
  induction l as [|k l IH]; intros Hl; cbn [is_port_used].
  { exists false. split; [done|]. split; [done|]. intros (? & ? & ?%not_elem_of_nil & _). done. }
  destruct (Hl k) as [x Hx]; [set_solver|]. rewrite Hx. mstep.
  destruct (Z.eqb_spec (local_port x) p) as [Hp|Hp].
  { exists true. split; [done|]. split; [|done]. intros _. exists k, x. set_solver. }
  destruct IH as (r & -> & Hr); [intros j Hj; apply Hl; set_solver|]. exists r. split; [done|].
  rewrite Hr. split.
  - intros (j & y & Hj & Hy & Hpy). exists j, y. set_solver.
  - intros (j & y & [->|Hj]%elem_of_cons & Hy & Hpy); [congruence|eauto].
Qed.

(** A port some UDP socket has. *)
Definition port_used (u : sock_state) (p : Z) : Prop :=
  exists k x, k ∈ udp_list u /\ socks u !! k = Some x /\ local_port x = p.

(** A loop that stops at the first index for which [P] fails. *)
Lemma for_ret_first {S R : Type} (P : Z -> Prop) (f : Z -> S * R)
    (body : Z -> S -> option (S * option R)) s n : forall i,
  (forall j, i <= j < i + Z.of_nat n ->
     (P j /\ body j s = Some (s, None)) \/ (~ P j /\ body j s = Some ((f j).1, Some (f j).2))) ->
  (for_ret n i body s = Some (s, None) /\ forall j, i <= j < i + Z.of_nat n -> P j) \/
  exists j, i <= j < i + Z.of_nat n /\ ~ P j /\ (forall k, i <= k < j -> P k) /\
    for_ret n i body s = Some ((f j).1, Some (f j).2).
Proof.
  induction n as [|n IH]; intros i Hb; cbn [for_ret].
  { left. split; [done|]. lia. }
  destruct (Hb i ltac:(lia)) as [[HP ->]|[HP ->]]; mstep.
  - destruct (IH (i + 1)) as [[-> Ha]|(j & Hj & HnP & Hk & ->)].
    + intros j Hj. apply Hb. lia.
    + left. split; [done|]. intros j Hj. destruct (decide (j = i)) as [->|]; [done|]. apply Ha. lia.
    + right. exists j. split_and!; try done; try lia. intros k Hkk.
      destruct (decide (k = i)) as [->|]; [done|]. apply Hk. lia.
  - right. exists i. split_and!; try done; lia.
Qed.

(** [alloc_port] gives the socket the least port from 1024 on that no UDP
    socket has; it fails, changing nothing, exactly when the ports up to 65534
    are all in use. *)
Theorem alloc_port_spec u k x : (forall j, j ∈ udp_list u -> is_Some (socks u !! j)) ->
  socks u !! k = Some x ->
  (exists p, PORT_DYN_START <= p < PORT_DYN_END /\ ~ port_used u p /\
     (forall q, PORT_DYN_START <= q < p -> port_used u q) /\
     alloc_port u k = Some (NET_ERR_OK, set_sock u k (with_local x (local_ip x) p))) \/
  (alloc_port u k = Some (NET_ERR_NONE, u) /\
     forall q, PORT_DYN_START <= q < PORT_DYN_END -> port_used u q).
Proof.
  intros Hl Hx. unfold alloc_port.
  match goal with |- context [for_ret ?n ?i ?b u] => set (body := b) end.
  destruct (for_ret_first (port_used u) (fun j => (set_sock u k (with_local x (local_ip x) j), NET_ERR_OK))
    body u (Z.to_nat (PORT_DYN_END - PORT_DYN_START)) PORT_DYN_START) as [[-> Ha]|(p & Hp & HnP & Hq & ->)].
  - intros j _. destruct (is_port_used_ok (socks u) (udp_list u) j Hl) as (r & E & Hr).
    unfold body. rewrite E. mstep. destruct r.
    + left. split; [|done]. by apply Hr.
    + right. rewrite Hx. split; [|done]. intros H. apply Hr in H. done.
  - right. split; [done|]. intros q Hq. apply Ha. done.
  - left. exists p. split_and!; try done; apply Hp.
Qed.

(** [udp_find] answers with the first socket of the list the datagram fits,
    and with nothing only when it fits none. *)
Theorem udp_find_spec u src_ip src_port dest_ip dest_port :
  (forall k, k ∈ udp_list u -> is_Some (socks u !! k)) ->
  exists r, udp_find u src_ip src_port dest_ip dest_port = Some r /\
  match r with
  | None => forall k x, k ∈ udp_list u -> socks u !! k = Some x ->
      ~ udp_match x src_ip src_port dest_ip dest_port
  | Some k => exists pre post x, udp_list u = pre ++ k :: post /\ socks u !! k = Some x /\
      udp_match x src_ip src_port dest_ip dest_port /\
      forall j y, j ∈ pre -> socks u !! j = Some y -> ~ udp_match y src_ip src_port dest_ip dest_port
  end.
Proof. apply udp_find_loop_ok. Qed.

(** ** Closing *)

(** Closing a socket does not give its entry of [socket_tbl] back: it stays in
    use and keeps pointing to the released socket. *)
Lemma close_keeps_entry u s fd e u' s' :
  handle_sock_close u s fd = Some (e, u', s') -> socket_tbl u' = socket_tbl u.
Proof.
  unfold handle_sock_close. intros (r & _ & E)%bind_Some. destruct r as [so|]; [|by injection E as <- <- <-].
  apply bind_Some in E as (x & _ & E). destruct (ops x); apply bind_Some in E as (y & _ & E);
    by injection E as <- <- <-.
Qed.

(** ** Two sockets *)

Definition sock_on (ip port rip rport : Z) : sock_t :=
  with_remote (with_local (sock_init 0 17 udp_ops) ip port) rip rport.
Definition socks2 : sock_state :=
  SockState (<[10 := sock_on 0 1024 7 9]> (<[11 := sock_on 0 1024 0 0]> ∅))
    [Socket SOCKET_STATE_USED 10; Socket SOCKET_STATE_USED 11] [10; 11] [] [] [].

Lemma socks2_known k : k ∈ udp_list socks2 -> is_Some (socks socks2 !! k).
Proof.
  intros Hk. cbn in Hk. assert (k = 10 \/ k = 11) as [->| ->] by set_solver; by eexists.
Qed.

Lemma udp_find_spec_witness :
  exists r, udp_find socks2 8 9 5 1024 = Some r /\ r = Some 11.
Proof.
  destruct (udp_find_spec socks2 8 9 5 1024 socks2_known) as (r & E & _). exists r. split; [exact E|].
  assert (udp_find socks2 8 9 5 1024 = Some (Some 11)) as E2 by reflexivity. congruence.
Defined.

Lemma alloc_port_spec_witness : exists p, ~ port_used socks2 p /\
  alloc_port socks2 10 = Some (NET_ERR_OK, set_sock socks2 10 (with_local (sock_on 0 1024 7 9) 0 p)) /\ p = 1025.
Proof.
  destruct (alloc_port_spec socks2 10 (sock_on 0 1024 7 9) socks2_known eq_refl)
    as [(p & Hp & Hn & Hq & E)|[_ H]].
  - exists p. split; [exact Hn|]. split; [exact E|].
    destruct (decide (p = 1025)) as [|Hne]; [done|]. exfalso.
    destruct (decide (p = 1024)) as [->|].
    + apply Hn. exists 10, (sock_on 0 1024 7 9). split; [cbn; set_solver|done].
    + destruct (Hq 1025) as (k & x & Hk & Hx & Hl); [unfold PORT_DYN_START in *; lia|].
      cbn in Hk. assert (k = 10 \/ k = 11) as [->| ->] by set_solver; injection Hx as <-; done.
  - exfalso. destruct (H 1025) as (k & x & Hk & Hx & Hl); [done|].
    cbn in Hk. assert (k = 10 \/ k = 11) as [->| ->] by set_solver; injection Hx as <-; done.
Defined.

(** ** Runs of the stack *)

(** Twelve free blocks, one interface with address 10.0.0.1. *)
Definition run_mem : pmem :=
  PMem (list_to_map ((fun b => (b, Blk 0 0 (replicate 64 0))) <$> seqZ 1 12)) (seqZ 1 12) (seqZ 100 6).
Definition run_if : netif_t :=
  Netif (replicate 10 0) [2; 2; 2; 2; 2; 2] (IpDesc 0 0 0) NETIF_OPENED NETIF_TYPE_ETHER 1500 900 [] [].
Definition run_xmit (x : netif_t) (m : pmem) : option (net_err_t * netif_t * pmem) :=
  Some (NET_ERR_OK, x, m).
Definition run0 : option ip_state :=
  let s := init_ip (Link run_mem (<[50 := run_if]> ∅) [50] 0 [0; 900; 0] [] [70; 71] ∅ [] [60; 61])
             [80; 81] in
  s ← netif_set_addr s 50 (Some (q_addr [10; 0; 0; 1])) (Some (q_addr [255; 255; 255; 0])) None;
  '(_, s) ← netif_set_active run_xmit s 50;
  Some s.

(** A frame arrives and the network thread handles the driver's message. *)
Definition run_frame (frame : list Z) : option ip_state :=
  s ← run0;
  '(b, m) ← pktbuf_alloc (pm s) (zlen frame);
  b ← b;
  '(_, b, m) ← pktbuf_write m b frame (zlen frame);
  '(_, l) ← netif_put_in (set_lpm (lnk s) m) 50 b;
  '(_, s) ← net_work_step run_xmit [] (fun e => e) (fun f => f) (fun _ u s => Some (u, s)) 5 socks2
              (with_lnk s l);
  Some s.

(** The frames in the output queue; free blocks and packets. *)
Definition sent (s : ip_state) : option (list (list Z)) :=
  x ← netifs (lnk s) !! 50;
  Some ((fun b => contents (pm s) (blk_list b)) <$> out_q x).
Definition n_free (s : ip_state) : Z * Z := (zlen (free (pm s)), zlen (free_bufs (pm s))).

Definition echo (type c : Z) : list Z := [type; 0] ++ le16 c ++ [0; 1; 0; 1; 97; 98; 99; 100].
Definition ping_frame : list Z :=
  [2; 2; 2; 2; 2; 2] ++ [9; 9; 9; 9; 9; 9] ++ [8; 0]
  ++ [69; 0; 0; 32; 0; 0; 0; 0; 64; 1; 0; 0; 10; 0; 0; 2; 10; 0; 0; 1] ++ echo 8 14131.
Definition pong_frame : list Z :=
  [9; 9; 9; 9; 9; 9] ++ [2; 2; 2; 2; 2; 2] ++ [8; 0]
  ++ [69; 0; 0; 32; 0; 0; 0; 0; 64; 1; 102; 219; 10; 0; 0; 1; 10; 0; 0; 2] ++ echo 0 14139
  ++ replicate 14 0.

(** An echo request is answered through every layer: the sender's hardware
    address is learned from the frame, the reply has valid checksums and is
    padded to a frame. *)
Lemma ping_answered : exists s, run_frame ping_frame = Some s /\
  (l ← sent s; last l) = Some pong_frame /\
  checksum16 0 (echo 0 14139) 12 0 true = Some 0.
Proof. eexists. split; [vm_compute; reflexivity|]. split; vm_compute; reflexivity. Qed.

(** ARP replies for this host are neither queued nor released: each takes a
    packet and its block out of the pools for good. *)
Definition arp_reply_frame : list Z :=
  [2; 2; 2; 2; 2; 2] ++ [9; 9; 9; 9; 9; 9] ++ [8; 6]
  ++ [0; 1; 8; 0; 6; 4; 0; 2; 9; 9; 9; 9; 9; 9; 10; 0; 0; 2; 2; 2; 2; 2; 2; 2; 10; 0; 0; 1].
Lemma arp_reply_leaks : exists s s', run0 = Some s /\ run_frame arp_reply_frame = Some s' /\
  n_free s = (10, 5) /\ n_free s' = (9, 4) /\ sent s' = sent s /\
  (in_q <$> netifs (lnk s') !! 50) = Some [].
Proof. eexists. eexists. split; [vm_compute; reflexivity|]. split; [vm_compute; reflexivity|]. split_and!; vm_compute; reflexivity. Qed.
