(* ===== verification/Disk.v ===== *)
(** * Devices and the disk: kernel/device/device.c, kernel/device/disk/disk.c

    The table of open devices dispatches to drivers through a record of
    operations, as [device_desc_t] does with function pointers.  The ATA
    driver is one such record, over disks that store sectors of 512 bytes.
    The controller is seen through what the driver exchanges with it: the
    writes to its command ports, from which [lba_start] and [lba_count] read
    the two-deep registers of 48-bit addressing, and the sector store, where a
    missing sector is one the controller reports an error for. *)

From S2P Require Import Prelude Pktbuf PktbufSpec PktbufAccess Links Layout.
From S2P Require Import Prelude.

(** ** The device table *)

Definition DEVICES_SIZE : Z := 128.

(** [desc] is an index of [device_desc_table], or nothing for NULL; [data] is
    the driver's pointer. *)
Record device_t := Device
  { desc : option Z; minor : Z; dev_arg : Z; open_count : Z; dev_data : option (Z * Z) }.
Definition free_device : device_t := Device None 0 0 0 None.

(** A driver over the world [W]: its operations answer a result, and the
    device, buffer or world they change.  [None] is a fault. *)
Record device_desc_t (W : Type) := Desc
  { d_major : Z;
    d_open : W -> device_t -> option (Z * device_t);
    d_write : W -> device_t -> Z -> list Z -> Z -> option (Z * W);
    d_read : W -> device_t -> Z -> list Z -> Z -> option (Z * list Z * W);
    d_control : W -> device_t -> Z -> Z -> Z -> option (Z * W);
    d_close : W -> device_t -> option W }.
Arguments Desc {W} _ _ _ _ _ _.
Arguments d_major {W} _.
Arguments d_open {W} _ _ _.
Arguments d_write {W} _ _ _ _ _ _.
Arguments d_read {W} _ _ _ _ _ _.
Arguments d_control {W} _ _ _ _ _ _.
Arguments d_close {W} _ _ _.

Section Devices.
Context {W : Type}.
Context (device_desc_table : list (device_desc_t W)).

Definition desc_of (dev : device_t) : option (device_desc_t W) :=
  i ← desc dev; zget device_desc_table i.

(** The loop over the devices: the entry that is open already, or else the
    last free one. *)
Fixpoint open_scan (t : list device_t) (i major mnr : Z) (free_dev : option Z)
    : option (option Z * option Z) :=
  match t with
  | [] => Some (None, free_dev)
  | dev :: t' =>
      if open_count dev =? 0 then open_scan t' (i + 1) major mnr (Some i)
      else
        d ← desc_of dev;
        if (d_major d =? major) && (minor dev =? mnr) then Some (Some i, free_dev)
        else open_scan t' (i + 1) major mnr free_dev
  end.

Fixpoint find_desc (t : list (device_desc_t W)) (i major : Z) : option (Z * device_desc_t W) :=
  match t with
  | [] => None
  | d :: t' => if d_major d =? major then Some (i, d) else find_desc t' (i + 1) major
  end.

Definition device_open (w : W) (devices : list device_t) (major mnr arg : Z)
    : option (Z * list device_t) :=
  '(found, free_dev) ← open_scan devices 0 major mnr None;
  match found with
  | Some i =>
      dev ← zget devices i;
      t ← zset devices i (Device (desc dev) (minor dev) (dev_arg dev)
                            (i32 (open_count dev + 1)) (dev_data dev));
      Some (i, t)
  | None =>
      match find_desc device_desc_table 0 major, free_dev with
      | Some (k, d), Some i =>
          dev ← zget devices i;
          '(err, dev) ← d_open d w (Device (Some k) mnr arg (open_count dev) (dev_data dev));
          if err =? 0 then
            t ← zset devices i (Device (desc dev) (minor dev) (dev_arg dev) 1 (dev_data dev));
            Some (i, t)
          else t ← zset devices i dev; Some (-1, t)
      | _, _ => Some (-1, devices)
      end
  end.

Definition validate_device (devices : list device_t) (dev_id : Z) : option bool :=
  if (dev_id <? 0) || (DEVICES_SIZE <=? dev_id) then Some false
  else dev ← zget devices dev_id; Some (match desc dev with None => false | Some _ => true end).

Definition device_write (w : W) (devices : list device_t) (dev_id addr : Z) (buf : list Z) (size : Z)
    : option (Z * W) :=
  ok ← validate_device devices dev_id;
  if (ok : bool) then
    dev ← zget devices dev_id; d ← desc_of dev; d_write d w dev addr buf size
  else Some (-1, w).

Definition device_read (w : W) (devices : list device_t) (dev_id addr : Z) (buf : list Z) (size : Z)
    : option (Z * list Z * W) :=
  ok ← validate_device devices dev_id;
  if (ok : bool) then
    dev ← zget devices dev_id; d ← desc_of dev; d_read d w dev addr buf size
  else Some (-1, buf, w).

Definition device_control (w : W) (devices : list device_t) (dev_id cmd arg0 arg1 : Z)
    : option (Z * W) :=
  ok ← validate_device devices dev_id;
  if (ok : bool) then
    dev ← zget devices dev_id; d ← desc_of dev; d_control d w dev cmd arg0 arg1
  else Some (-1, w).

Definition device_close (w : W) (devices : list device_t) (dev_id : Z)
    : option (list device_t * W) :=
  ok ← validate_device devices dev_id;
  if (ok : bool) then
    dev ← zget devices dev_id;
    let n := i32 (open_count dev - 1) in
    let dev := Device (desc dev) (minor dev) (dev_arg dev) n (dev_data dev) in
    if n =? 0 then
      d ← desc_of dev;
      w ← d_close d w dev;
      t ← zset devices dev_id free_device; Some (t, w)
    else t ← zset devices dev_id dev; Some (t, w)
  else Some (devices, w).

End Devices.

(** ** ATA commands *)

Definition PORT_SECTOR_COUNT : Z := 2.
Definition PORT_SECTOR_LOW : Z := 3.
Definition PORT_SECTOR_MIDDLE : Z := 4.
Definition PORT_SECTOR_HIGH : Z := 5.
Definition PORT_DRIVE : Z := 6.
Definition PORT_STATUS_COMMAND : Z := 7.

Definition COMMAND_READ : Z := 36.
Definition COMMAND_WRITE : Z := 52.

(** The writes to the ports, relative to the port base. *)
Definition ata_cmd (drive sector_start sector_count cmd : Z) : list (Z * Z) :=
  [ (PORT_DRIVE, u8 (Z.lor (Z.lor (Z.shiftl drive 4) 224) (Z.land (Z.shiftr sector_start 24) 15)));
    (PORT_SECTOR_COUNT, u8 (Z.shiftr sector_count 8));
    (PORT_SECTOR_LOW, u8 (Z.shiftr sector_start 24));
    (PORT_SECTOR_MIDDLE, 0);
    (PORT_SECTOR_HIGH, 0);
    (PORT_SECTOR_COUNT, u8 sector_count);
    (PORT_SECTOR_LOW, u8 sector_start);
    (PORT_SECTOR_MIDDLE, u8 (Z.shiftr sector_start 8));
    (PORT_SECTOR_HIGH, u8 (Z.shiftr sector_start 16));
    (PORT_STATUS_COMMAND, cmd) ].

(** The command block registers keep the last two bytes written to a port: in
    48-bit addressing the newer byte is the low half and the older the high
    half. *)
Definition port_writes (ws : list (Z * Z)) (p : Z) : list Z :=
  rev (snd <$> filter (fun w => w.1 = p) ws).
Definition hob (ws : list (Z * Z)) (p : Z) : Z := default 0 (port_writes ws p !! 1%nat).
Definition cur (ws : list (Z * Z)) (p : Z) : Z := default 0 (port_writes ws p !! 0%nat).

Definition lba_start (ws : list (Z * Z)) : Z :=
  cur ws PORT_SECTOR_LOW + 2 ^ 8 * cur ws PORT_SECTOR_MIDDLE + 2 ^ 16 * cur ws PORT_SECTOR_HIGH +
  2 ^ 24 * hob ws PORT_SECTOR_LOW + 2 ^ 32 * hob ws PORT_SECTOR_MIDDLE +
  2 ^ 40 * hob ws PORT_SECTOR_HIGH.

(** A count of zero asks for 65536 sectors. *)
Definition lba_count (ws : list (Z * Z)) : Z :=
  let n := cur ws PORT_SECTOR_COUNT + 2 ^ 8 * hob ws PORT_SECTOR_COUNT in
  if n =? 0 then 65536 else n.

(** ** Disks *)

Definition SECTOR_SIZE : Z := 512.
Definition PART_COUNT : Z := 4.
Definition DISK_COUNT : Z := 3.
Definition PART_UNVALID : Z := 0.

Notation store := (gmap Z (list Z)).

(** [part_disk] is the index of the disk a partition lies on. *)
Record part_info_t := Part
  { part_type : Z; part_sector_start : Z; part_sector_count : Z; part_disk : option Z }.
Definition no_part : part_info_t := Part 0 0 0 None.

(** A disk with its sectors and what it answers to IDENTIFY; [None] when its
    status register reads 0. *)
Record disk_t := Disk
  { drive : Z; sector_size : Z; disk_sector_count : Z; parts : list part_info_t;
    identify : option (list Z); sectors : store }.

Definition set_sectors (d : disk_t) (s : store) : disk_t :=
  Disk (drive d) (sector_size d) (disk_sector_count d) (parts d) (identify d) s.

(** The four bytes at [off], little endian. *)
Definition le32_at (l : list Z) (off : Z) : option Z :=
  b0 ← zget l off; b1 ← zget l (off + 1); b2 ← zget l (off + 2); b3 ← zget l (off + 3);
  Some (of_le16 b0 b1 + 65536 * of_le16 b2 b3).

Definition part_item_off (i : Z) : Z := 446 + 16 * i.

(** Partition [i + 1] from entry [i] of the boot record. *)
Definition detect_part (disk_idx : Z) (mbr : list Z) (i : Z) (ps : list part_info_t)
    : option (list part_info_t) :=
  ty ← zget mbr (part_item_off i + 4);
  relative_sector ← le32_at mbr (part_item_off i + 8);
  sector_total ← le32_at mbr (part_item_off i + 12);
  zset ps (i + 1)
    (if ty =? PART_UNVALID then no_part
     else Part ty (i32 relative_sector) (i32 sector_total) (Some disk_idx)).

Definition detect_parts (disk_idx : Z) (d : disk_t) : option (Z * disk_t) :=
  match sectors d !! lba_start (ata_cmd (drive d) 0 1 COMMAND_READ) with
  | None => Some (1, d)
  | Some mbr =>
      ps ← for_ (Z.to_nat PART_COUNT) 0 (detect_part disk_idx mbr) (parts d);
      Some (0, Disk (drive d) (sector_size d) (disk_sector_count d) ps (identify d) (sectors d))
  end.

(** [buf + 100] counts words: byte 200 of the answer. *)
Definition detect_disk (disk_idx : Z) (d : disk_t) : option (Z * disk_t) :=
  match identify d with
  | None => Some (-1, d)
  | Some buf =>
      n ← le32_at buf 200;
      part0 ← zget (parts d) 0;
      ps ← zset (parts d) 0 (Part (part_type part0) 0 (i32 n) (Some disk_idx));
      '(_, d) ← detect_parts disk_idx (Disk (drive d) SECTOR_SIZE (i32 n) ps (identify d) (sectors d));
      Some (0, d)
  end.

(** A pointer to a partition is the disk's and the partition's index. *)
Definition disk_open (disks : list disk_t) (dev : device_t) : option (Z * device_t) :=
  let disk_idx := Z.shiftr (minor dev) 4 in
  let part_idx := Z.land (minor dev) 15 in
  if (DISK_COUNT <=? disk_idx) || (PART_COUNT <=? part_idx) then Some (-1, dev)
  else
    d ← zget disks disk_idx;
    if sector_size d =? 0 then Some (-2, dev)
    else
      part ← zget (parts d) part_idx;
      if part_sector_count part =? 0 then Some (-3, dev)
      else Some (0, Device (desc dev) (minor dev) (dev_arg dev) (open_count dev)
                      (Some (disk_idx, part_idx))).

(** ** Transfers *)

(** [off] is where [buf] points; after sector [i] it moves on by [i + 1] times
    the sector size.  [left] is the number of sectors the controller was asked
    for: past it the wait for its interrupt does not end.  The result is the
    value of [err] at an early return. *)
Fixpoint read_loop (n : nat) (s : store) (ssize left lba i off : Z) (buf : list Z)
    : option (option Z * list Z) :=
  match n with
  | O => Some (None, buf)
  | S n' =>
      if left <=? 0 then None
      else
        match s !! lba with
        | None => Some (Some 1, buf)
        | Some data =>
            buf ← mem_write buf off (take (Z.to_nat ssize) data);
            if ssize =? 0 then Some (Some 0, buf) else
            read_loop n' s ssize (left - 1) (lba + 1) (i + 1) (off + ssize * (i + 1)) buf
        end
  end.

Fixpoint write_loop (n : nat) (s : store) (ssize left lba i off : Z) (buf : list Z)
    : option (option Z * store) :=
  match n with
  | O => Some (None, s)
  | S n' =>
      if left <=? 0 then None
      else
        data ← mem_read buf off ssize;
        if ssize =? 0 then Some (Some 0, s) else
        match s !! lba with
        | None => Some (Some 1, s)
        | Some _ =>
            write_loop n' (<[lba := data]> s) ssize (left - 1) (lba + 1) (i + 1)
              (off + ssize * (i + 1)) buf
        end
  end.

(** The partition behind the device's pointer, and its disk. *)
Definition part_of (disks : list disk_t) (dev : device_t) : option (option part_info_t) :=
  match dev_data dev with
  | None => Some None
  | Some (di, pi) => d ← zget disks di; p ← zget (parts d) pi; Some (Some p)
  end.

Definition disk_write (disks : list disk_t) (dev : device_t) (addr : Z) (buf : list Z) (size : Z)
    : option (Z * list disk_t) :=
  part ← part_of disks dev;
  match part with
  | None => Some (-1, disks)
  | Some part =>
      match part_disk part with
      | None => Some (-2, disks)
      | Some di =>
          d ← zget disks di;
          let ws := ata_cmd (drive d) (u32 (addr + part_sector_start part)) size COMMAND_WRITE in
          '(err, s) ← write_loop (Z.to_nat size) (sectors d) (sector_size d) (lba_count ws)
                        (lba_start ws) 0 0 buf;
          disks ← zset disks di (set_sectors d s);
          Some (default size err, disks)
      end
  end.

Definition disk_read (disks : list disk_t) (dev : device_t) (addr : Z) (buf : list Z) (size : Z)
    : option (Z * list Z * list disk_t) :=
  part ← part_of disks dev;
  match part with
  | None => Some (-1, buf, disks)
  | Some part =>
      match part_disk part with
      | None => Some (-2, buf, disks)
      | Some di =>
          d ← zget disks di;
          let ws := ata_cmd (drive d) (u32 (addr + part_sector_start part)) size COMMAND_READ in
          '(err, buf) ← read_loop (Z.to_nat size) (sectors d) (sector_size d) (lba_count ws)
                          (lba_start ws) 0 0 buf;
          Some (default size err, buf, disks)
      end
  end.

Definition DEV_TTY : Z := 1.
Definition DEV_DISK : Z := 2.

Definition dev_disk_desc : device_desc_t (list disk_t) :=
  Desc DEV_DISK disk_open disk_write disk_read
    (fun w _ _ _ _ => Some (0, w)) (fun w _ => Some w).

(** ** The command encodes the sector and the count *)

Lemma u8_shift x k : 0 <= k -> u8 (Z.shiftr x k) = x / 2 ^ k mod 256.
Proof. intros. unfold u8. by rewrite Z.shiftr_div_pow2. Qed.

Lemma ata_cmd_start drv start n cmd : 0 <= start < 2 ^ 32 ->
  lba_start (ata_cmd drv start n cmd) = start.
Proof.
  intros. change (lba_start (ata_cmd drv start n cmd)) with
    (u8 start + 2 ^ 8 * u8 (Z.shiftr start 8) + 2 ^ 16 * u8 (Z.shiftr start 16) +
     2 ^ 24 * u8 (Z.shiftr start 24) + 2 ^ 32 * 0 + 2 ^ 40 * 0).
  rewrite !u8_shift by lia. unfold u8.
  change (2 ^ 8) with 256. change (2 ^ 16) with 65536. change (2 ^ 24) with 16777216.
  change (2 ^ 32) with 4294967296 in *. divmod.
Qed.

Lemma ata_cmd_count drv start n cmd : 0 < n <= 65536 ->
  lba_count (ata_cmd drv start n cmd) = n.
Proof.
  intros. change (lba_count (ata_cmd drv start n cmd)) with
    (let m := u8 n + 2 ^ 8 * u8 (Z.shiftr n 8) in if m =? 0 then 65536 else m).
  rewrite u8_shift by lia. unfold u8. change (2 ^ 8) with 256. cbn zeta.
  destruct (decide (n = 65536)) as [->|]; [done|].
  destruct (Z.eqb_spec (n mod 256 + 256 * (n / 256 mod 256)) 0); divmod.
Qed.

(** ** Where a transfer puts its sectors *)

(** The sectors [buf] has moved on by before sector [k]. *)
Definition tri (k : Z) : Z := k * (k + 1) / 2.

Lemma tri_0 : tri 0 = 0.
Proof. done. Qed.

Lemma tri_succ k : tri (k + 1) = tri k + (k + 1).
Proof.
  unfold tri. replace ((k + 1) * (k + 1 + 1)) with (k * (k + 1) + (k + 1) * 2) by lia.
  by rewrite Z.div_add.
Qed.

Lemma tri_mono j (k : nat) : 0 <= j -> tri j + Z.of_nat k <= tri (j + Z.of_nat k).
Proof.
  intros. induction k as [|k IH]; [change (Z.of_nat 0) with 0; rewrite !Z.add_0_r; lia|].
  rewrite Nat2Z.inj_succ. replace (j + Z.succ (Z.of_nat k)) with (j + Z.of_nat k + 1) by lia.
  rewrite tri_succ. lia.
Qed.

Lemma tri_lt j k : 0 <= j < k -> tri j + 1 <= tri k.
Proof.
  intros. pose proof (tri_mono j (Z.to_nat (k - j))) as Hm.
  rewrite Z2Nat.id in Hm by lia. replace (j + (k - j)) with k in Hm by lia. lia.
Qed.

Lemma tri_nonneg k : 0 <= k -> 0 <= tri k.
Proof. intros. destruct (decide (k = 0)) as [->|]; [done|]. pose proof (tri_lt 0 k). rewrite tri_0 in *. lia. Qed.

Lemma sub_splice_same l off bs : 0 <= off -> off + zlen bs <= zlen l ->
  sub (splice l off bs) off (zlen bs) = bs.
Proof.
  intros. rewrite sub_splice by lia. rewrite !Z.sub_diag. unfold sub. simpl.
  apply app_nil_r.
Qed.

(** The sectors [lba .. lba + n - 1] are on the disk, each of the sector
    size. *)
Definition has_sectors (s : store) (ss lba n : Z) : Prop :=
  forall k, 0 <= k < n -> exists data, s !! (lba + k) = Some data /\ zlen data = ss.

Lemma has_sectors_tail s ss lba n : has_sectors s ss lba (n + 1) -> has_sectors s ss (lba + 1) n.
Proof. intros H k Hk. destruct (H (k + 1)) as (d & Hd & Hz); [lia|]. exists d. split; [|done]. rewrite <- Hd. f_equal. lia. Qed.

Lemma read_loop_ok n s ss left lba i buf :
  has_sectors s ss lba (Z.of_nat n) -> Z.of_nat n <= left -> 0 < ss -> 0 <= i ->
  (n <> 0%nat -> ss * tri (i + Z.of_nat n - 1) + ss <= zlen buf) ->
  exists buf', read_loop n s ss left lba i (ss * tri i) buf = Some (None, buf') /\
    zlen buf' = zlen buf /\
    (forall k, 0 <= k < Z.of_nat n -> s !! (lba + k) = Some (sub buf' (ss * tri (i + k)) ss)) /\
    (forall o m, 0 <= o -> 0 <= m -> o + m <= zlen buf ->
       (forall k, 0 <= k < Z.of_nat n -> o + m <= ss * tri (i + k) \/ ss * tri (i + k) + ss <= o) ->
       sub buf' o m = sub buf o m).
Proof.
  revert left lba i buf. induction n as [|n IH]; intros left lba i buf Hs Hl Hss Hi Hfit.
  { exists buf. split; [done|]. split; [done|]. split; [lia|done]. }
  rewrite Nat2Z.inj_succ in *. unfold Z.succ in *.
  destruct (Hs 0) as (data & Hd & Hz); [lia|]. rewrite Z.add_0_r in Hd.
  pose proof (tri_nonneg i Hi). specialize (Hfit ltac:(lia)).
  assert (ss * tri i + ss <= zlen buf).
  { destruct n as [|n']; [by replace (i + (Z.of_nat 0 + 1) - 1) with i in Hfit by lia|].
    pose proof (tri_lt i (i + (Z.of_nat (S n') + 1) - 1)). nia. }
  assert (Htk : take (Z.to_nat ss) data = data).
  { apply take_ge. unfold zlen in Hz. lia. }
  cbn [read_loop]. destruct (Z.leb_spec left 0); [lia|]. rewrite Hd, Htk.
  unfold mem_write. rewrite Hz.
  destruct (Z.leb_spec 0 (ss * tri i)); [|nia].
  destruct (Z.leb_spec (ss * tri i + ss) (zlen buf)); [|lia]. cbn [andb]. mstep.
  destruct (Z.eqb_spec ss 0); [lia|].
  replace (ss * tri i + ss * (i + 1)) with (ss * tri (i + 1)) by (rewrite tri_succ; lia).
  assert (Hzs : zlen (splice buf (ss * tri i) data) = zlen buf) by (apply zlen_splice; lia).
  destruct (IH (left - 1) (lba + 1) (i + 1) (splice buf (ss * tri i) data)) as (buf' & HR & Hl' & Hin & Hout).
  - by apply has_sectors_tail.
  - lia.
  - done.
  - lia.
  - intros _. rewrite Hzs. replace (i + 1 + Z.of_nat n - 1) with (i + (Z.of_nat n + 1) - 1) by lia. done.
  - exists buf'. split; [done|]. split; [lia|]. split.
    + intros k Hk. destruct (decide (k = 0)) as [->|].
      * rewrite !Z.add_0_r, Hd. f_equal. rewrite Hout; [|lia..|].
        -- rewrite <- (sub_splice_same buf (ss * tri i) data) at 1 by lia. by rewrite Hz.
        -- intros k Hk'. left. pose proof (tri_lt i (i + 1 + k)). nia.
      * specialize (Hin (k - 1)). replace (lba + 1 + (k - 1)) with (lba + k) in Hin by lia.
        replace (i + 1 + (k - 1)) with (i + k) in Hin by lia. apply Hin. lia.
    + intros o m Ho Hm Hom Hdis. rewrite Hout; [|lia..|].
      * destruct (Hdis 0); [lia|..]; rewrite Z.add_0_r in *.
        -- apply sub_splice_before; lia.
        -- apply sub_splice_after; lia.
      * intros k Hk. specialize (Hdis (k + 1)). replace (i + (k + 1)) with (i + 1 + k) in Hdis by lia.
        apply Hdis. lia.
Qed.

Lemma write_loop_ok n s ss left lba i buf :
  has_sectors s ss lba (Z.of_nat n) -> Z.of_nat n <= left -> 0 < ss -> 0 <= i ->
  (n <> 0%nat -> ss * tri (i + Z.of_nat n - 1) + ss <= zlen buf) ->
  exists s', write_loop n s ss left lba i (ss * tri i) buf = Some (None, s') /\
    (forall k, 0 <= k < Z.of_nat n -> s' !! (lba + k) = Some (sub buf (ss * tri (i + k)) ss)) /\
    (forall a, a < lba \/ lba + Z.of_nat n <= a -> s' !! a = s !! a).
Proof.
  revert s left lba i. induction n as [|n IH]; intros s left lba i Hs Hl Hss Hi Hfit.
  { exists s. split; [done|]. split; [lia|done]. }
  rewrite Nat2Z.inj_succ in *. unfold Z.succ in *.
  destruct (Hs 0) as (data & Hd & Hz); [lia|]. rewrite Z.add_0_r in Hd.
  pose proof (tri_nonneg i Hi). specialize (Hfit ltac:(lia)).
  assert (ss * tri i + ss <= zlen buf).
  { destruct n as [|n']; [by replace (i + (Z.of_nat 0 + 1) - 1) with i in Hfit by lia|].
    pose proof (tri_lt i (i + (Z.of_nat (S n') + 1) - 1)). nia. }
  cbn [write_loop]. destruct (Z.leb_spec left 0); [lia|].
  unfold mem_read. destruct (Z.leb_spec 0 (ss * tri i)); [|nia].
  destruct (Z.leb_spec 0 ss); [|lia].
  destruct (Z.leb_spec (ss * tri i + ss) (zlen buf)); [|lia]. cbn [andb]. mstep.
  destruct (Z.eqb_spec ss 0); [lia|]. rewrite Hd.
  replace (ss * tri i + ss * (i + 1)) with (ss * tri (i + 1)) by (rewrite tri_succ; lia).
  destruct (IH (<[lba:=sub buf (ss * tri i) ss]> s) (left - 1) (lba + 1) (i + 1))
    as (s' & HW & Hin & Hout).
  - intros k Hk. destruct (has_sectors_tail s ss lba (Z.of_nat n) Hs k Hk) as (x & Hx & Hxz).
    exists x. by rewrite lookup_insert_ne by lia.
  - lia.
  - done.
  - lia.
  - intros _. by replace (i + 1 + Z.of_nat n - 1) with (i + (Z.of_nat n + 1) - 1) by lia.
  - exists s'. split; [done|]. split.
    + intros k Hk. destruct (decide (k = 0)) as [->|].
      * rewrite !Z.add_0_r, Hout, lookup_insert_eq by lia. done.
      * specialize (Hin (k - 1)). replace (lba + 1 + (k - 1)) with (lba + k) in Hin by lia.
        replace (i + 1 + (k - 1)) with (i + k) in Hin by lia. apply Hin. lia.
    + intros a Ha. rewrite Hout by lia. by rewrite lookup_insert_ne by lia.
Qed.

(** ** Transfers through an open device *)

(** Device [dev] is open on a partition of disk [di], and its sectors
    [addr .. addr + n - 1] lie on the disk. *)
Record disk_ready (disks : list disk_t) (dev : device_t) (addr n : Z)
    (part : part_info_t) (di : Z) (d : disk_t) : Prop := {
  ready_part : part_of disks dev = Some (Some part);
  ready_disk : part_disk part = Some di;
  ready_get : zget disks di = Some d;
  ready_size : 0 < sector_size d;
  ready_addr : 0 <= addr + part_sector_start part < 2 ^ 32;
  ready_count : 0 < n <= 65536;
  ready_sectors : has_sectors (sectors d) (sector_size d) (addr + part_sector_start part) n;
}.

(** The buffer reaches to the end of the last sector. *)
Definition buf_fits (ss n : Z) (buf : list Z) : Prop := ss * tri (n - 1) + ss <= zlen buf.

Lemma disk_read_ok disks dev addr buf n part di d :
  disk_ready disks dev addr n part di d -> buf_fits (sector_size d) n buf ->
  exists buf', disk_read disks dev addr buf n = Some (n, buf', disks) /\
    zlen buf' = zlen buf /\
    (forall k, 0 <= k < n ->
       sectors d !! (addr + part_sector_start part + k)
       = Some (sub buf' (sector_size d * tri k) (sector_size d))) /\
    (forall o m, 0 <= o -> 0 <= m -> o + m <= zlen buf ->
       (forall k, 0 <= k < n -> o + m <= sector_size d * tri k \/
                                sector_size d * tri k + sector_size d <= o) ->
       sub buf' o m = sub buf o m).
Proof.
  intros [Hp Hd Hg Hs Ha Hc Hsec] Hfit.
  assert (Z.of_nat (Z.to_nat n) = n) as Hn by lia.
  destruct (read_loop_ok (Z.to_nat n) (sectors d) (sector_size d) n
              (addr + part_sector_start part) 0 buf) as (buf' & HR & Hz & Hin & Hout);
    rewrite ?Hn; [done|lia|done|done|intros _; by replace (0 + n - 1) with (n - 1) by lia|].
  exists buf'. rewrite Hn in Hin, Hout.
  unfold disk_read. rewrite Hp. mstep. rewrite Hd, Hg. mstep.
  change (2 ^ 32) with 4294967296 in Ha.
  rewrite u32_small, ata_cmd_count, ata_cmd_start by (try done; lia).
  rewrite tri_0, Z.mul_0_r in HR. rewrite HR. mstep. auto.
Qed.

Lemma disk_write_ok disks dev addr buf n part di d :
  disk_ready disks dev addr n part di d -> buf_fits (sector_size d) n buf ->
  exists s' disks', disk_write disks dev addr buf n = Some (n, disks') /\
    zset disks di (set_sectors d s') = Some disks' /\
    (forall k, 0 <= k < n ->
       s' !! (addr + part_sector_start part + k)
       = Some (sub buf (sector_size d * tri k) (sector_size d))) /\
    (forall a, a < addr + part_sector_start part \/ addr + part_sector_start part + n <= a ->
       s' !! a = sectors d !! a).
Proof.
  intros [Hp Hd Hg Hs Ha Hc Hsec] Hfit.
  assert (Z.of_nat (Z.to_nat n) = n) as Hn by lia.
  destruct (write_loop_ok (Z.to_nat n) (sectors d) (sector_size d) n
              (addr + part_sector_start part) 0 buf) as (s' & HR & Hin & Hout);
    rewrite ?Hn; [done|lia|done|done|intros _; by replace (0 + n - 1) with (n - 1) by lia|].
  rewrite Hn in Hin, Hout.
  pose proof (zset_is_Some disks di (set_sectors d s') (zget_Some _ _ _ Hg)) as Hset.
  eexists s', _. unfold disk_write. rewrite Hp. mstep. rewrite Hd, Hg. mstep.
  change (2 ^ 32) with 4294967296 in Ha.
  rewrite u32_small, ata_cmd_count, ata_cmd_start by (try done; lia).
  rewrite tri_0, Z.mul_0_r in HR. rewrite HR. mstep. rewrite Hset. mstep. auto.
Qed.

(** After a write the device still leads to the same partition. *)
Lemma part_of_set disks disks' dev di d s part :
  part_of disks dev = Some part -> zget disks di = Some d ->
  zset disks di (set_sectors d s) = Some disks' -> part_of disks' dev = Some part.
Proof.
  unfold part_of. intros Hp Hg Hs. destruct (dev_data dev) as [[dj pj]|]; [|done].
  rewrite (zget_zset _ _ _ _ _ Hs). destruct (Z.eqb_spec dj di) as [->|]; [|done].
  by rewrite Hg in Hp.
Qed.

(** What is written to a run of sectors through a device is what is read
    back from it: both transfers walk the buffer the same way, so every sector
    a read stores holds the bytes the write took from the same place. *)
Theorem disk_write_read disks dev addr buf buf2 n part di d :
  disk_ready disks dev addr n part di d ->
  buf_fits (sector_size d) n buf -> buf_fits (sector_size d) n buf2 ->
  exists disks' buf', disk_write disks dev addr buf n = Some (n, disks') /\
    disk_read disks' dev addr buf2 n = Some (n, buf', disks') /\
    zlen buf' = zlen buf2 /\
    forall k, 0 <= k < n ->
      sub buf' (sector_size d * tri k) (sector_size d) = sub buf (sector_size d * tri k) (sector_size d).
Proof.
  intros Hr Hf Hf2. destruct (disk_write_ok _ _ _ _ _ _ _ _ Hr Hf) as (s' & disks' & HW & Hset & Hin & _).
  destruct Hr as [Hp Hd Hg Hs Ha Hc Hsec].
  assert (disk_ready disks' dev addr n part di (set_sectors d s')) as Hr'.
  { split; cbn [sectors sector_size set_sectors]; try done.
    - by eapply part_of_set.
    - by rewrite (zget_zset _ _ _ _ _ Hset), Z.eqb_refl.
    - intros k Hk. eexists. split; [by apply Hin|]. pose proof (tri_nonneg k).
      apply zlen_sub; [nia|lia|]. unfold buf_fits in Hf.
      destruct (decide (k = n - 1)) as [->|]; [done|]. pose proof (tri_lt k (n - 1)). nia. }
  destruct (disk_read_ok _ _ _ buf2 _ _ _ _ Hr' Hf2) as (buf' & HR & Hz & Hin' & _).
  cbn [sectors sector_size set_sectors] in Hin'.
  exists disks', buf'. split; [done|]. split; [done|]. split; [done|].
  intros k Hk. specialize (Hin k Hk). specialize (Hin' k Hk). congruence.
Qed.

(** A disk of eight sectors, the byte [k] filling sector [k], with one
    partition from sector 2 on. *)
Definition demo_sector (k : Z) : list Z := replicate 512 k.
Definition demo_store : store :=
  list_to_map ((fun k => (k, demo_sector k)) <$> [0; 1; 2; 3; 4; 5; 6; 7]).
Definition demo_disk : disk_t :=
  Disk 0 512 8 [Part 0 0 8 (Some 0); Part 6 2 6 (Some 0); no_part; no_part; no_part] None demo_store.
Definition demo_dev : device_t := Device (Some 0) 1 0 1 (Some (0, 1)).

Lemma demo_ready n : 0 < n <= 3 ->
  disk_ready [demo_disk] demo_dev 1 n (Part 6 2 6 (Some 0)) 0 demo_disk.
Proof.
  intros Hn. split; try done; try lia. intros k Hk.
  assert (k = 0 \/ k = 1 \/ k = 2) as [->|[->| ->]] by lia; by eexists.
Qed.

Lemma disk_write_read_witness : exists disks' buf',
  disk_write [demo_disk] demo_dev 1 (replicate 2048 9) 3 = Some (3, disks') /\
  disk_read disks' demo_dev 1 (replicate 2048 0) 3 = Some (3, buf', disks') /\
  zlen buf' = 2048 /\
  forall k, 0 <= k < 3 -> sub buf' (512 * tri k) 512 = sub (replicate 2048 9) (512 * tri k) 512.
Proof.
  apply (disk_write_read [demo_disk] demo_dev 1 (replicate 2048 9) (replicate 2048 0) 3
           (Part 6 2 6 (Some 0)) 0 demo_disk).
  - by apply demo_ready.
  - by vm_compute.
  - by vm_compute.
Defined.

(** Up to two sectors, a read fills the buffer with the sectors one after the
    other and leaves the rest of it alone. *)
Lemma disk_read_contiguous disks dev addr buf n part di d :
  disk_ready disks dev addr n part di d -> n <= 2 -> sector_size d * n <= zlen buf ->
  exists data, disk_read disks dev addr buf n = Some (n, splice buf 0 data, disks) /\
    zlen data = sector_size d * n /\
    forall k, 0 <= k < n -> sectors d !! (addr + part_sector_start part + k)
      = Some (sub data (sector_size d * k) (sector_size d)).
Proof.
  intros Hr Hn Hz. pose proof Hr as [_ _ _ Hs _ Hc _]. set (ss := sector_size d) in *.
  assert (forall k, 0 <= k < n -> tri k = k) as Ht.
  { intros k Hk. assert (k = 0 \/ k = 1) as [->| ->] by lia; done. }
  destruct (disk_read_ok _ _ _ buf _ _ _ _ Hr) as (buf' & HR & Hl & Hin & Hout).
  { unfold buf_fits. rewrite Ht by lia. nia. }
  exists (sub buf' 0 (ss * n)).
  assert (zlen (sub buf' 0 (ss * n)) = ss * n) as Hlen by (apply zlen_sub; nia).
  split; [|split; [done|]].
  - rewrite HR. do 3 f_equal.
    change (splice buf 0 (sub buf' 0 (ss * n))) with
      (take (Z.to_nat (ss * n)) buf' ++ drop (length (sub buf' 0 (ss * n))) buf).
    rewrite <- (take_drop (Z.to_nat (ss * n)) buf') at 1. f_equal.
    unfold zlen in *. replace (length (sub buf' 0 (ss * n))) with (Z.to_nat (ss * n)) by lia.
    specialize (Hout (ss * n) (zlen buf - ss * n)). unfold sub, zlen in Hout.
    rewrite !take_ge in Hout by (rewrite length_drop; lia). apply Hout; [nia|lia|lia|].
    intros k Hk. right. rewrite Ht by lia. fold ss. nia.
  - intros k Hk. rewrite Hin by done. f_equal. rewrite Ht by done. fold ss.
    unfold sub. rewrite drop_0, !take_drop_commute, take_take.
    do 2 f_equal. nia.
Qed.

(** The third sector of a longer read is stored one sector too far: the loop
    steps the buffer by [i] sectors and not by one. *)
Lemma disk_read_gap : exists buf',
  disk_read [demo_disk] demo_dev 1 (replicate 2048 0) 3 = Some (3, buf', [demo_disk]) /\
  buf' = demo_sector 3 ++ demo_sector 4 ++ demo_sector 0 ++ demo_sector 5.
Proof. eexists. split; by vm_compute. Qed.

(** A sector the controller cannot read ends the transfer with 1, a positive
    number like the count of a partial read. *)
Lemma disk_read_error : exists buf',
  disk_read [demo_disk] demo_dev 5 (replicate 2048 0) 2 = Some (1, buf', [demo_disk]).
Proof. eexists. by vm_compute. Qed.

(** ** The device table's invariant *)

Lemma zget_cons_tail {A} (x y : A) l k : zget l k = Some y -> zget (x :: l) (k + 1) = Some y.
Proof.
  intros Hk. pose proof (zget_Some _ _ _ Hk). unfold zget in *.
  destruct (Z.ltb_spec k 0); [lia|]. destruct (Z.ltb_spec (k + 1) 0); [lia|].
  by replace (Z.to_nat (k + 1)) with (S (Z.to_nat k)) by lia.
Qed.

Lemma zget_cons_inv {A} (x y : A) l k :
  zget (x :: l) k = Some y -> k = 0 /\ y = x \/ zget l (k - 1) = Some y.
Proof.
  intros Hk. pose proof (zget_Some _ _ _ Hk). unfold zget in *.
  destruct (Z.ltb_spec k 0); [lia|]. destruct (decide (k = 0)) as [->|]; [left; by inversion Hk|right].
  destruct (Z.ltb_spec (k - 1) 0); [lia|].
  by replace (Z.to_nat k) with (S (Z.to_nat (k - 1))) in Hk by lia.
Qed.

Lemma zget_nil {A} k : @zget A [] k = None.
Proof. unfold zget. by destruct (k <? 0). Qed.

Lemma zget_Forall {A} (P : A -> Prop) l i x : Forall P l -> zget l i = Some x -> P x.
Proof.
  unfold zget. intros Hl Hi. cif_in Hi; [done|]. by eapply Forall_lookup_1.
Qed.

Section DeviceTable.
Context {W : Type}.
Context (table : list (device_desc_t W)).

(** The major and minor number an open entry stands for. *)
Definition dev_key (dev : device_t) : option (Z * Z) :=
  if open_count dev =? 0 then None
  else d ← desc_of table dev; Some (d_major d, minor dev).

Lemma dev_key_Some dev major mnr : dev_key dev = Some (major, mnr) ->
  open_count dev <> 0 /\ minor dev = mnr /\ exists d, desc_of table dev = Some d /\ d_major d = major.
Proof.
  unfold dev_key. cif; [done|]. intros (d & Hd & [= <- <-])%bind_Some. eauto.
Qed.

Lemma dev_key_ext x y : desc x = desc y -> minor x = minor y -> open_count x <> 0 ->
  open_count y <> 0 -> dev_key x = dev_key y.
Proof.
  intros Ed Em Hx Hy. unfold dev_key, desc_of. rewrite Ed, Em.
  destruct (Z.eqb_spec (open_count x) 0), (Z.eqb_spec (open_count y) 0); done.
Qed.

(** The entries that are open have a driver, no two of them are the same
    device, and the counts are not negative. *)
Record devices_ok (t : list device_t) : Prop := {
  devs_len : zlen t = DEVICES_SIZE;
  devs_count : forall i dev, zget t i = Some dev -> 0 <= open_count dev <= 2147483647;
  devs_desc : forall i dev, zget t i = Some dev -> open_count dev <> 0 -> is_Some (dev_key dev);
  devs_inj : forall i j x y key, zget t i = Some x -> zget t j = Some y ->
    dev_key x = Some key -> dev_key y = Some key -> i = j;
}.

(** What the loop over the devices answers. *)
Definition scan_post (t : list device_t) (i major mnr : Z) (fr found fr' : option Z) : Prop :=
  match found with
  | Some r => exists dev, zget t (r - i) = Some dev /\ dev_key dev = Some (major, mnr)
  | None =>
      (forall k dev, zget t k = Some dev -> dev_key dev <> Some (major, mnr)) /\
      match fr' with
      | Some r => fr = Some r \/ exists dev, zget t (r - i) = Some dev /\ open_count dev = 0
      | None => fr = None /\ forall k dev, zget t k = Some dev -> open_count dev <> 0
      end
  end.

Lemma scan_post_cons dev t i major mnr fr fr1 found fr' :
  (open_count dev = 0 /\ fr1 = Some i) \/ (open_count dev <> 0 /\ fr1 = fr) ->
  dev_key dev <> Some (major, mnr) ->
  scan_post t (i + 1) major mnr fr1 found fr' -> scan_post (dev :: t) i major mnr fr found fr'.
Proof.
  intros Hfr Hk. assert (forall r x, zget t (r - (i + 1)) = Some x -> zget (dev :: t) (r - i) = Some x) as Hc.
  { intros r x Hx%(zget_cons_tail dev). by replace (r - (i + 1) + 1) with (r - i) in Hx by lia. }
  destruct found as [r|]; cbn [scan_post].
  - intros (x & Hx & Hkx). eauto.
  - intros [Hn Hf]. split.
    + intros k x [[-> ->]|Hx]%zget_cons_inv; [done|by eapply Hn].
    + destruct fr' as [r|].
      * destruct Hf as [->|(x & Hx & Hz)]; [|right; eauto].
        destruct Hfr as [[Hz [= ->]]|[_ <-]]; [|by left]. right. exists dev. by rewrite Z.sub_diag.
      * destruct Hf as [-> Hall]. destruct Hfr as [[_ ?]|[Hz <-]]; [done|]. split; [done|].
        intros k x [[-> ->]|Hx]%zget_cons_inv; [done|by eapply Hall].
Qed.

Lemma open_scan_ok t i major mnr fr :
  (forall k dev, zget t k = Some dev -> open_count dev <> 0 -> is_Some (dev_key dev)) ->
  exists found fr', open_scan table t i major mnr fr = Some (found, fr') /\
    scan_post t i major mnr fr found fr'.
Proof.
  revert i fr. induction t as [|dev t IH]; intros i fr Hd.
  { exists None, fr. split; [done|]. split; [|destruct fr; [by left|split; [done|]]];
      intros k x; by rewrite zget_nil. }
  assert (forall k x, zget t k = Some x -> open_count x <> 0 -> is_Some (dev_key x)) as Hd'
    by (intros k x Hk; by eapply Hd, zget_cons_tail).
  cbn [open_scan]. destruct (Z.eqb_spec (open_count dev) 0) as [E0|E0].
  - destruct (IH (i + 1) (Some i) Hd') as (found & fr' & HS & Hres). exists found, fr'. split; [done|].
    eapply scan_post_cons; [|unfold dev_key; by rewrite E0|done]. by left.
  - destruct (Hd 0 dev eq_refl E0) as [[mj mn] Hk].
    pose proof (dev_key_Some _ _ _ Hk) as (_ & Emn & d & Hdd & Emj).
    rewrite Hdd. mstep. subst mj mn. cif.
    + exists (Some i), fr. split; [done|]. exists dev. rewrite Z.sub_diag. split; [done|]. congruence.
    + destruct (IH (i + 1) fr Hd') as (found & fr' & HS & Hres). exists found, fr'. split; [done|].
      eapply scan_post_cons; [by right| |done]. rewrite Hk. intros [= E1 E2].
      by rewrite E1, E2, !Z.eqb_refl in Heqb.
Qed.

Lemma devices_ok_set t i new t' : devices_ok t -> zset t i new = Some t' ->
  0 <= open_count new <= 2147483647 ->
  (open_count new <> 0 -> is_Some (dev_key new)) ->
  (forall key j y, dev_key new = Some key -> j <> i -> zget t j = Some y -> dev_key y <> Some key) ->
  devices_ok t'.
Proof.
  intros [Hl Hc Hd Hi] Hs Hn Hk Hfresh. split.
  - by rewrite (zlen_zset _ _ _ _ Hs).
  - intros j x. rewrite (zget_zset _ _ _ _ _ Hs). cif; [by intros [= <-]|apply Hc].
  - intros j x. rewrite (zget_zset _ _ _ _ _ Hs). cif; [by intros [= <-]|apply Hd].
  - intros j k x y key. rewrite !(zget_zset _ _ _ _ _ Hs).
    destruct (Z.eqb_spec j i), (Z.eqb_spec k i); intros Hx Hy Kx Ky; simplify_eq; try done.
    + exfalso. by eapply Hfresh.
    + exfalso. by eapply Hfresh.
    + by eapply Hi.
Qed.

Lemma find_desc_Some tb i major k d : find_desc tb i major = Some (k, d) ->
  zget tb (k - i) = Some d /\ @d_major W d = major.
Proof.
  revert i. induction tb as [|e tb IH]; intros i; [done|]. cbn [find_desc]. cif.
  - intros [= <- <-]. by rewrite Z.sub_diag.
  - intros [Hk%(zget_cons_tail e) Hm]%IH. by replace (k - (i + 1) + 1) with (k - i) in Hk by lia.
Qed.

(** What the table relies on of a driver: [open] of minor number [mnr]
    returns, and leaves the entry's driver, minor number and count alone. *)
Definition open_frames (w : W) (mnr : Z) (d : device_desc_t W) : Prop :=
  forall dev, minor dev = mnr -> exists err dev', d_open d w dev = Some (err, dev') /\
    desc dev' = desc dev /\ minor dev' = minor dev /\ open_count dev' = open_count dev.

(** The entry [r] now counts one more use of device [(major, mnr)]: either it
    was open for that device already, or it was free and the device not open. *)
Definition opened (t t' : list device_t) (r major mnr : Z) : Prop :=
  exists dev dev', zget t r = Some dev /\ zget t' r = Some dev' /\
    dev_key dev' = Some (major, mnr) /\ open_count dev' = open_count dev + 1 /\
    (forall j, j <> r -> zget t' j = zget t j) /\
    (dev_key dev = Some (major, mnr) \/
     open_count dev = 0 /\ forall k x, zget t k = Some x -> dev_key x <> Some (major, mnr)).

Lemma open_again w t major mnr arg r fr dev : devices_ok t ->
  open_scan table t 0 major mnr None = Some (Some r, fr) ->
  zget t r = Some dev -> dev_key dev = Some (major, mnr) -> open_count dev < 2147483647 ->
  exists t', device_open table w t major mnr arg = Some (r, t') /\ devices_ok t' /\
    opened t t' r major mnr.
Proof.
  intros Hok HS Hg Hk Hc. pose proof (devs_count _ Hok _ _ Hg) as Hc0.
  pose proof (dev_key_Some _ _ _ Hk) as (Hnz & _).
  set (dev' := Device (desc dev) (minor dev) (dev_arg dev) (open_count dev + 1) (dev_data dev)).
  assert (dev_key dev' = Some (major, mnr)) as Hk'.
  { rewrite <- Hk. apply dev_key_ext; cbn; try done; lia. }
  pose proof (zset_is_Some t r dev' (zget_Some _ _ _ Hg)) as Hset.
  eexists. unfold device_open. rewrite HS. mstep. rewrite Hg. mstep.
  rewrite i32_small by lia. fold dev'. rewrite Hset. mstep. split; [done|]. split.
  - eapply devices_ok_set; [done|done|cbn; lia|by rewrite Hk'|].
    rewrite Hk'. intros key j y [= <-] Hj Hy Ky. apply Hj. by eapply (devs_inj _ Hok).
  - exists dev, dev'. rewrite (zget_zset _ _ _ _ _ Hset), Z.eqb_refl. split_and!; try done.
    + intros j Hj. rewrite (zget_zset _ _ _ _ _ Hset). by destruct (Z.eqb_spec j r).
    + by left.
Qed.

Lemma open_fresh w t major mnr arg k d i dev :
  Forall (open_frames w mnr) table -> devices_ok t ->
  open_scan table t 0 major mnr None = Some (None, Some i) ->
  (forall k dev, zget t k = Some dev -> dev_key dev <> Some (major, mnr)) ->
  find_desc table 0 major = Some (k, d) -> zget t i = Some dev -> open_count dev = 0 ->
  exists r t', device_open table w t major mnr arg = Some (r, t') /\ devices_ok t' /\
    (r = -1 \/ opened t t' r major mnr) /\
    (forall j x, zget t j = Some x -> open_count x <> 0 -> zget t' j = Some x).
Proof.
  intros Hopen Hok HS Hn Hf Hg Hz. apply find_desc_Some in Hf as Hd. rewrite Z.sub_0_r in Hd.
  destruct Hd as [Hd Hm].
  destruct (zget_Forall _ _ _ _ Hopen Hd (Device (Some k) mnr arg (open_count dev) (dev_data dev)) eq_refl)
    as (err & dev' & HO & Edesc & Eminor & Ecount). cbn in Edesc, Eminor, Ecount.
  assert (forall new t', zset t i new = Some t' ->
    forall j x, zget t j = Some x -> open_count x <> 0 -> zget t' j = Some x) as Hkeep.
  { intros new t' Hset j x Hx Hxz. rewrite (zget_zset _ _ _ _ _ Hset).
    destruct (Z.eqb_spec j i) as [->|]; [|done]. congruence. }
  unfold device_open. rewrite HS. mstep. rewrite Hf, Hg. mstep. rewrite HO. mstep.
  destruct (Z.eqb_spec err 0).
  - set (new := Device (desc dev') (minor dev') (dev_arg dev') 1 (dev_data dev')).
    assert (dev_key new = Some (major, mnr)) as Hk.
    { unfold dev_key, new, desc_of. cbn. rewrite Edesc, Eminor. cbn. rewrite Hd. cbn. by rewrite Hm. }
    pose proof (zset_is_Some t i new (zget_Some _ _ _ Hg)) as Hset. rewrite Hset. mstep.
    eexists _, _. split; [done|]. split; [|split; [right|by eapply Hkeep]].
    + eapply devices_ok_set; [done|done|done|by rewrite Hk|].
      rewrite Hk. intros key j y [= <-] _ Hy. by eapply Hn.
    + exists dev, new. rewrite (zget_zset _ _ _ _ _ Hset), Z.eqb_refl. rewrite Hz. split_and!; try done.
      * intros j Hj. rewrite (zget_zset _ _ _ _ _ Hset). by destruct (Z.eqb_spec j i).
      * by right.
  - pose proof (zset_is_Some t i dev' (zget_Some _ _ _ Hg)) as Hset. rewrite Hset. mstep.
    eexists _, _. split; [done|]. split; [|split; [by left|by eapply Hkeep]].
    eapply devices_ok_set; [done|done|lia|congruence|].
    unfold dev_key. rewrite Ecount, Hz. done.
Qed.

(** [device_open] keeps the device table well formed: at most one open
    entry per device.  It answers the entry that now counts one more use of
    the device, or -1, and disturbs no open entry but the one it answers. *)
Theorem device_open_ok w t major mnr arg :
  Forall (open_frames w mnr) table -> devices_ok t ->
  (forall i dev, zget t i = Some dev -> open_count dev < 2147483647) ->
  exists r t', device_open table w t major mnr arg = Some (r, t') /\ devices_ok t' /\
    (r = -1 \/ opened t t' r major mnr) /\
    (forall j x, j <> r -> zget t j = Some x -> open_count x <> 0 -> zget t' j = Some x).
Proof.
  intros Hopen Hok Hmax.
  destruct (open_scan_ok t 0 major mnr None (devs_desc _ Hok)) as (found & fr & HS & Hpost).
  destruct found as [r|]; cbn [scan_post] in Hpost.
  - destruct Hpost as (dev & Hg & Hk). rewrite Z.sub_0_r in Hg.
    destruct (open_again w t major mnr arg r fr dev) as (t' & HO & Hok' & Hop); eauto.
    exists r, t'. split_and!; eauto. intros j x Hj Hx _.
    destruct Hop as (? & ? & _ & _ & _ & _ & Hsame & _). by rewrite Hsame.
  - destruct Hpost as [Hn Hfr].
    destruct (find_desc table 0 major) as [[k d]|] eqn:Hf; [destruct fr as [i|]|].
    + destruct Hfr as [?|(dev & Hg & Hz)]; [done|]. rewrite Z.sub_0_r in Hg.
      destruct (open_fresh w t major mnr arg k d i dev) as (r & t' & ? & ? & ? & ?); eauto 10.
    + exists (-1), t. unfold device_open. rewrite HS. mstep. rewrite Hf. eauto.
    + exists (-1), t. unfold device_open. rewrite HS. mstep. rewrite Hf. eauto.
Qed.

(** Closing an open device counts one use less, and frees the entry with the
    last one. *)
Theorem device_close_ok w t r dev : devices_ok t -> zget t r = Some dev -> open_count dev <> 0 ->
  (forall d dev, is_Some (d_close (W := W) d w dev)) ->
  exists t' w', device_close table w t r = Some (t', w') /\ devices_ok t' /\
    (forall j, j <> r -> zget t' j = zget t j) /\
    zget t' r = Some (if open_count dev =? 1 then free_device
      else Device (desc dev) (minor dev) (dev_arg dev) (open_count dev - 1) (dev_data dev)).
Proof.
  intros Hok Hg Hz Hcl. pose proof (devs_count _ Hok _ _ Hg) as Hc.
  destruct (devs_desc _ Hok _ _ Hg Hz) as [[mj mn] Hk].
  pose proof (dev_key_Some _ _ _ Hk) as (_ & _ & d & Hd & _).
  pose proof Hd as (i & Hi & _)%bind_Some. pose proof (zget_Some _ _ _ Hg) as Hr.
  rewrite (devs_len _ Hok) in Hr. unfold device_close, validate_device.
  destruct (Z.ltb_spec r 0); [lia|]. destruct (Z.leb_spec DEVICES_SIZE r); [lia|]. cbn [orb].
  rewrite Hg. mstep. rewrite Hi. mstep. rewrite i32_small by lia.
  set (dev' := Device (Some i) (minor dev) (dev_arg dev) (open_count dev - 1) (dev_data dev)).
  replace (open_count dev =? 1) with (open_count dev - 1 =? 0)
    by (destruct (Z.eqb_spec (open_count dev - 1) 0), (Z.eqb_spec (open_count dev) 1); lia).
  destruct (Z.eqb_spec (open_count dev - 1) 0).
  - assert (desc_of table dev' = Some d) as ->. { unfold desc_of in *. by rewrite Hi in Hd. } mstep.
    destruct (Hcl d dev') as [w' ->]. mstep.
    pose proof (zset_is_Some t r free_device (zget_Some _ _ _ Hg)) as Hset. rewrite Hset. mstep.
    eexists _, _. split; [done|]. split; [|split].
    + by eapply devices_ok_set.
    + intros j Hj. rewrite (zget_zset _ _ _ _ _ Hset). by destruct (Z.eqb_spec j r).
    + by rewrite (zget_zset _ _ _ _ _ Hset), Z.eqb_refl.
  - pose proof (zset_is_Some t r dev' (zget_Some _ _ _ Hg)) as Hset. rewrite Hset. mstep.
    assert (dev_key dev' = Some (mj, mn)) as Hk'.
    { rewrite <- Hk. apply dev_key_ext; cbn; [by rewrite Hi|done|lia|done]. }
    eexists _, _. split; [done|]. split; [|split].
    + eapply devices_ok_set; [done|done|cbn; lia|by rewrite Hk'|].
      rewrite Hk'. intros key j y [= <-] Hj Hy Ky. apply Hj. by eapply (devs_inj _ Hok).
    + intros j Hj. rewrite (zget_zset _ _ _ _ _ Hset). by destruct (Z.eqb_spec j r).
    + by rewrite (zget_zset _ _ _ _ _ Hset), Z.eqb_refl.
Qed.

End DeviceTable.

(** Disks as [init_disk] sets them up. *)
Definition disks_ok (disks : list disk_t) : Prop :=
  zlen disks = DISK_COUNT /\ Forall (fun d => zlen (parts d) = PART_COUNT + 1) disks.

Lemma disk_open_frames disks mnr : disks_ok disks -> 0 <= mnr -> open_frames disks mnr dev_disk_desc.
Proof.
  intros [Hl Hp] Hm dev <-. cbn [d_open dev_disk_desc]. unfold disk_open. cif; [by eexists _, _|].
  unfold DISK_COUNT, PART_COUNT in *.
  destruct (zget_is_Some disks (Z.shiftr (minor dev) 4)) as (d & Hd).
  { split; [by apply Z.shiftr_nonneg|lia]. }
  rewrite Hd. mstep. cif; [by eexists _, _|]. pose proof (zget_Forall _ _ _ _ Hp Hd) as Hp'. cbn in Hp'.
  destruct (zget_is_Some (parts d) (Z.land (minor dev) 15)) as (q & Hq).
  { assert (0 <= Z.land (minor dev) 15) by (apply Z.land_nonneg; lia). lia. }
  rewrite Hq. mstep. cif; by eexists _, _.
Qed.

Definition demo_disks : list disk_t := [demo_disk; demo_disk; demo_disk].
Definition demo_devices : list device_t := replicate 128 free_device.

Lemma device_open_ok_witness : exists r t',
  device_open [dev_disk_desc] demo_disks demo_devices DEV_DISK 17 0 = Some (r, t') /\
  devices_ok [dev_disk_desc] t' /\
  (r = -1 \/ opened [dev_disk_desc] demo_devices t' r DEV_DISK 17) /\
  (forall j x, j <> r -> zget demo_devices j = Some x -> open_count x <> 0 -> zget t' j = Some x).
Proof.
  assert (forall i dev, zget demo_devices i = Some dev -> dev = free_device) as Hfree.
  { intros i dev. unfold zget, demo_devices. cif; [done|]. intros [-> _]%lookup_replicate. done. }
  apply (device_open_ok [dev_disk_desc] demo_disks demo_devices DEV_DISK 17 0).
  - repeat constructor. apply disk_open_frames; [|done]. split; [done|]. repeat constructor.
  - split; [done|..].
    + by intros i dev ->%Hfree.
    + by intros i dev ->%Hfree.
    + by intros i j x y key ->%Hfree.
  - by intros i dev ->%Hfree.
Defined.

(** A failed open leaves the driver in a free entry; the entry passes for a
    valid device, and closing it leaves it neither free nor in use. *)
Lemma failed_open_close :
  ( '(r, t1) ← device_open [dev_disk_desc] demo_disks demo_devices DEV_DISK 19 0;
    ok ← validate_device t1 127;
    '(t2, _) ← device_close [dev_disk_desc] demo_disks t1 127;
    dev ← zget t2 127;
    Some (r, ok, open_count dev) ) = Some (-1, true, -1).
Proof. by vm_compute. Qed.
