(* ===== verification/File.v ===== *)
(** * The table of open files: kernel/fs/file.c, kernel/fs/file.h

    The file table is shared by all processes; a descriptor is a pointer into
    it, here an index.  An entry with no references is free. *)

From S2P Require Import Prelude.

Definition FILE_NAME_SIZE : Z := 64.
Definition FILE_TABLE_SIZE : Z := 2048.

Definition FILE_UNKNOWN : Z := 0.
Definition FILE_TTY : Z := 1.
Definition FILE_FILE : Z := 2.
Definition FILE_DIR : Z := 3.

(** [desc] is an index of the table of file systems, or nothing for NULL. *)
Record file_t := File
  { f_desc : option Z; f_dev_id : Z; f_name : list Z; f_type : Z; f_mode : Z; f_ref : Z;
    f_file_idx : Z; f_size : Z; f_pos : Z; f_block_start : Z; f_block_cur : Z;
    f_node_sector_idx : Z }.

Definition zero_file : file_t :=
  File None 0 (replicate (Z.to_nat FILE_NAME_SIZE) 0) 0 0 0 0 0 0 0 0 0.

Definition set_ref (f : file_t) (v : Z) : file_t :=
  File (f_desc f) (f_dev_id f) (f_name f) (f_type f) (f_mode f) v (f_file_idx f) (f_size f)
    (f_pos f) (f_block_start f) (f_block_cur f) (f_node_sector_idx f).
Definition set_fsize (f : file_t) (v : Z) : file_t :=
  File (f_desc f) (f_dev_id f) (f_name f) (f_type f) (f_mode f) (f_ref f) (f_file_idx f) v
    (f_pos f) (f_block_start f) (f_block_cur f) (f_node_sector_idx f).
Definition set_pos (f : file_t) (v : Z) : file_t :=
  File (f_desc f) (f_dev_id f) (f_name f) (f_type f) (f_mode f) (f_ref f) (f_file_idx f) (f_size f)
    v (f_block_start f) (f_block_cur f) (f_node_sector_idx f).
Definition set_block_start (f : file_t) (v : Z) : file_t :=
  File (f_desc f) (f_dev_id f) (f_name f) (f_type f) (f_mode f) (f_ref f) (f_file_idx f) (f_size f)
    (f_pos f) v (f_block_cur f) (f_node_sector_idx f).
Definition set_block_cur (f : file_t) (v : Z) : file_t :=
  File (f_desc f) (f_dev_id f) (f_name f) (f_type f) (f_mode f) (f_ref f) (f_file_idx f) (f_size f)
    (f_pos f) (f_block_start f) v (f_node_sector_idx f).
Definition set_node (f : file_t) (v : Z) : file_t :=
  File (f_desc f) (f_dev_id f) (f_name f) (f_type f) (f_mode f) (f_ref f) (f_file_idx f) (f_size f)
    (f_pos f) (f_block_start f) (f_block_cur f) v.
(** What [sys_open] and the drivers fill in. *)
Definition set_open (f : file_t) (dsc : option Z) (mode : Z) : file_t :=
  File dsc (f_dev_id f) (f_name f) (f_type f) mode (f_ref f) (f_file_idx f) (f_size f)
    (f_pos f) (f_block_start f) (f_block_cur f) (f_node_sector_idx f).
Definition set_dev (f : file_t) (dev_id ty : Z) : file_t :=
  File (f_desc f) dev_id (f_name f) ty (f_mode f) (f_ref f) (f_file_idx f) (f_size f)
    0 (f_block_start f) (f_block_cur f) (f_node_sector_idx f).

(** ** Operations *)

Definition init_file_table : list file_t := replicate (Z.to_nat FILE_TABLE_SIZE) zero_file.

Fixpoint alloc_scan (t : list file_t) (i : Z) : option Z :=
  match t with
  | [] => None
  | f :: t' => if f_ref f =? 0 then Some i else alloc_scan t' (i + 1)
  end.

(** The first free entry, with one reference; [None] as the pointer is NULL. *)
Definition alloc_file (t : list file_t) : option (option Z * list file_t) :=
  match alloc_scan t 0 with
  | None => Some (None, t)
  | Some i => f ← zget t i; t ← zset t i (set_ref f 1); Some (Some i, t)
  end.

Definition ref_file (t : list file_t) (i : Z) : option (list file_t) :=
  f ← zget t i; zset t i (set_ref f (i32 (f_ref f + 1))).

Definition free_file (t : list file_t) (i : Z) : option (list file_t) :=
  f ← zget t i; zset t i (set_ref f (i32 (f_ref f - 1))).

(** [/a/b/c -> b/c]: the offset of the result from [path]. *)
Fixpoint skip_name (p : list Z) (n : Z) : option Z :=
  match p with
  | [] => None
  | c :: p' => if negb (c =? 47) && negb (c =? 0) then skip_name p' (n + 1)
               else Some (if negb (c =? 0) then n + 1 else n)
  end.
Definition path_next_child (path : list Z) : option Z :=
  match path with
  | [] => None
  | c :: path' => if c =? 47 then skip_name path' 1 else skip_name path 0
  end.
