(* ===== verification/Fat16.v ===== *)
(** * The FAT16 file system: kernel/fs/fat16fs.c

    A mounted file system is its BPB, in which a one-entry cache of sectors
    lives, over a block device ([BlockDev]: what [device_read] and
    [device_write] answer for the file system's device).  Operations are in a
    state and fault monad [M]; a fault is an access outside an object or a
    division by zero.  A pointer to a directory entry is its offset in the
    cache, so that it reads what the cache holds at the time.  Bytes of stack
    memory the code reads before writing them are arguments ([junk]).  Loops
    that need not end take fuel.  [desc->data] is set by the mount and never
    NULL here. *)

From S2P Require Import Prelude CMath CString Datetime Pktbuf Layout File.
From S2P Require Import Prelude.

(** ** The block device below *)

(** Result, buffer and device; result and device. *)
Class BlockDev (W : Type) := {
  dev_read : W -> Z -> list Z -> Z -> option (Z * list Z * W);
  dev_write : W -> Z -> list Z -> Z -> option (Z * W);
}.

(** ** Data *)

Definition INVALID_CLUSTER : Z := 65528.
Definition FREE_CLUSTER : Z := 0.
Definition CLUSTER_START : Z := 2.
Definition is_valid_cluster (c : Z) : bool := (CLUSTER_START <=? c) && (c <? INVALID_CLUSTER).

(** The fields of the BPB the code uses, and the cache: [cache_buf] are the
    bytes from its address to the end of the page. *)
Record bpb_t := Bpb
  { bytes_per_sector : Z; sectors_per_cluster : Z; reserved_sector_count : Z; fat_count : Z;
    root_entry_count : Z; sectors_per_fat : Z; file_system : list Z;
    cache_sector_start : Z; cache_sector_size : Z; cache_buf : list Z }.

Definition set_cache (b : bpb_t) (start size : Z) (buf : list Z) : bpb_t :=
  Bpb (bytes_per_sector b) (sectors_per_cluster b) (reserved_sector_count b) (fat_count b)
    (root_entry_count b) (sectors_per_fat b) (file_system b) start size buf.
Definition set_cache_buf (b : bpb_t) (buf : list Z) : bpb_t :=
  set_cache b (cache_sector_start b) (cache_sector_size b) buf.

Definition DIR_ENTRY_SIZE : Z := 32.

(** Division, and the remainder, fault on zero. *)
Definition cdiv (a b : Z) : option Z := if b =? 0 then None else Some (a / b).
Definition cmod (a b : Z) : option Z := if b =? 0 then None else Some (a mod b).

(** Products of [int] operands and of [size_t] ones. *)
Definition fat16_bytes_per_cluster (b : bpb_t) : Z := bytes_per_sector b * sectors_per_cluster b.
Definition fat16_tabl1_sector_idx (b : bpb_t) : Z := reserved_sector_count b.
Definition fat16_root_sector_idx (b : bpb_t) : Z :=
  fat16_tabl1_sector_idx b + fat_count b * sectors_per_fat b.
Definition fat16_data_sector_idx (b : bpb_t) : option Z :=
  n ← cdiv (root_entry_count b * DIR_ENTRY_SIZE) (bytes_per_sector b);
  Some (u32 (fat16_root_sector_idx b + n)).

Definition DIR_ENTRY_ATTR_HIDDEN : Z := 2.
Definition DIR_ENTRY_ATTR_VOLUME_ID : Z := 8.
Definition DIR_ENTRY_ATTR_DIR : Z := 16.
Definition DIR_ENTRY_ATTR_ARCHIVE : Z := 32.
Definition DIR_ENTRY_ATTR_LFN : Z := 15.
Definition DIR_END : Z := 0.
Definition DIR_FREE : Z := 229.

(** Fields of a directory entry, given its 32 bytes. *)
Definition le16_at (l : list Z) (off : Z) : option Z :=
  b0 ← zget l off; b1 ← zget l (off + 1); Some (of_le16 b0 b1).
Definition le32_of (l : list Z) (off : Z) : option Z :=
  lo ← le16_at l off; hi ← le16_at l (off + 2); Some (lo + 65536 * hi).
Definition le32 (v : Z) : list Z := le16 v ++ le16 (Z.shiftr v 16).

Definition e_attr (e : list Z) : option Z := zget e 11.
Definition e_create_time (e : list Z) : option Z := le16_at e 14.
Definition e_create_date (e : list Z) : option Z := le16_at e 16.
Definition e_cluster_high (e : list Z) : option Z := le16_at e 20.
Definition e_write_time (e : list Z) : option Z := le16_at e 22.
Definition e_write_date (e : list Z) : option Z := le16_at e 24.
Definition e_cluster_low (e : list Z) : option Z := le16_at e 26.
Definition e_file_size (e : list Z) : option Z := le32_of e 28.

(** The bit fields of [file_time] and [file_date], lowest bits first. *)
Definition file_time (hour minu second : Z) : Z :=
  hour mod 32 + 32 * (minu mod 64) + 2048 * (second mod 32).
Definition file_date (year month day : Z) : Z :=
  year mod 128 + 128 * (month mod 16) + 2048 * (day mod 32).

Definition YEAR_OFFSET : Z := 1900.
Definition datetime2timespec (date time : Z) : Z :=
  mktime64 (date mod 128 + YEAR_OFFSET) (date / 128 mod 16) (date / 2048)
    (time mod 32) (time / 32 mod 64) (time / 2048).

(** [cluster_high] has 16 bits: shifted by 16 it is 0. *)
Definition entry_cluster (e : list Z) : option Z :=
  hi ← e_cluster_high e; lo ← e_cluster_low e; Some (Z.lor (Z.shiftr hi 16) lo).

Definition get_sector_start (b : bpb_t) (e : list Z) : option Z :=
  c ← entry_cluster e;
  d ← fat16_data_sector_idx b;
  Some (u32 (d + (c - CLUSTER_START) * sectors_per_cluster b)).

(** ** Names *)

Definition SFN_LEN : Z := 11.

(** [i] and [j] both step on, also past a dot. *)
Fixpoint to_sfn_loop (n : nat) (buf path : mem) (i j : Z) : option mem :=
  match n with
  | O => Some buf
  | S n' =>
      c ← zget path i;
      if c =? 46 then to_sfn_loop n' buf path (i + 1) (7 + 1)
      else
        let c := if (97 <=? c) && (c <=? 122) then c - 97 + 65 else c in
        buf ← zset buf j c;
        to_sfn_loop n' buf path (i + 1) (j + 1)
  end.
Definition to_sfn (buf path : mem) : option mem :=
  buf ← memset buf 0 32 SFN_LEN;
  n ← strlen path;
  to_sfn_loop (Z.to_nat n) buf path 0 0.

Definition from_sfn (dst sfn : mem) : option mem :=
  n8 ← mem_read sfn 0 8;
  dst ← mem_write dst 0 n8;
  str_len ← trim_strlen (at_ptr sfn 8);
  if 0 <? str_len then
    str_len ← trim_strlen dst;
    dst ← zset dst str_len 46;
    str_len ← trim_strlen dst;
    ext ← mem_read sfn 8 3;
    mem_write dst str_len ext
  else Some dst.

Definition match_sfn (entry_name path : mem) : option bool :=
  sfn ← to_sfn (replicate (Z.to_nat SFN_LEN) 0) path;
  r ← memcmp entry_name sfn SFN_LEN;
  Some (r =? 0).

(** A [char] is signed: [lfn[j] == 0xff] compares a number below 128. *)
Definition schar (b : Z) : Z := if b <? 128 then b else b - 256.

Fixpoint from_lfn_loop (fuel : nat) (dst lfn : mem) (i j size : Z) : option mem :=
  match fuel with
  | O => None
  | S fuel' =>
      if j <? size then
        c ← zget lfn j;
        if schar c =? 255 then Some dst
        else
          dst ← zset dst i c;
          c2 ← zget lfn (j + 1);
          if nz c2 then dst ← zset dst (i + 1) c2; from_lfn_loop fuel' dst lfn (i + 2) (j + 2) size
          else from_lfn_loop fuel' dst lfn (i + 1) (j + 2) size
      else Some dst
  end.
(** [j] moves on by two in each turn. *)
Definition from_lfn (dst lfn : mem) (size : Z) : option mem :=
  from_lfn_loop (S (Z.to_nat size)) dst lfn 0 0 size.

Definition match_lfn (name path : mem) (size : Z) : option bool :=
  buf ← from_lfn (replicate 128 0) name size;
  n ← strlen path;
  r ← memcmp buf path (if 128 <? n then 128 else n);
  Some (r =? 0).

(** ** Checksums *)

Fixpoint lfn_checksum_loop (n : nat) (sum : Z) (p : list Z) : option Z :=
  match n with
  | O => Some sum
  | S n' =>
      match p with
      | [] => None
      | c :: p' => lfn_checksum_loop n' (u8 (Z.shiftl (Z.land sum 1) 7 + Z.shiftr sum 1 + c)) p'
      end
  end.
Definition lfn_checksum (pFCBName : list Z) : option Z := lfn_checksum_loop 11 0 pFCBName.

Definition get_check_sum (short_name : list Z) : option Z :=
  for_ 11 0 (fun i check_sum =>
    c ← zget short_name i;
    Some (u8 (Z.shiftl (Z.land check_sum 1) 7 + Z.shiftr check_sum 1 + schar c))) 0.

(** 1: should, 0: continue, -1: break. *)
Definition should_handle_dir_entry (e : list Z) : option Z :=
  c ← zget e 0; attr ← e_attr e;
  Some (if c =? DIR_END then -1
        else if c =? DIR_FREE then 0
        else if (attr =? DIR_ENTRY_ATTR_LFN) || (attr =? DIR_ENTRY_ATTR_ARCHIVE)
                || (attr =? DIR_ENTRY_ATTR_DIR) then 1
        else if nz (Z.land attr DIR_ENTRY_ATTR_HIDDEN) || nz (Z.land attr DIR_ENTRY_ATTR_VOLUME_ID)
        then 0
        else 0).

Definition ascii2unicode (ascii : mem) (size : Z) : option (list Z) :=
  for_ (Z.to_nat size) 0 (fun i u => c ← zget ascii i; Some (u ++ [c; 0])) [].

(** ** The monad *)

Record fat (W : Type) := Fat { dev : W; bpb : bpb_t }.
Arguments Fat {W} _ _.
Arguments dev {W} _.
Arguments bpb {W} _.

Definition M (W A : Type) : Type := fat W -> option (A * fat W).
#[global] Instance M_ret W : MRet (M W) := fun A a s => Some (a, s).
#[global] Instance M_bind W : MBind (M W) := fun A B f m s => '(a, s) ← m s; f a s.

Definition fault_if_none {W A} (o : option A) : M W A := fun s => a ← o; Some (a, s).
Definition get_bpb {W} : M W bpb_t := fun s => Some (bpb s, s).
Definition put_cache {W} (buf : list Z) : M W unit :=
  fun s => Some (tt, Fat (dev s) (set_cache_buf (bpb s) buf)).
Notation "! o" := (fault_if_none o) (at level 20, right associativity).

(** Running the monad's operations. *)
Lemma run_bind {W A B} (m : M W A) (f : A -> M W B) s :
  (m ≫= f : M W B) s = (m s ≫= fun '(a, s') => f a s').
Proof. done. Qed.
Lemma run_ret {W A} (a : A) (s : fat W) : (mret a : M W A) s = Some (a, s).
Proof. done. Qed.
Lemma run_get {W} (s : fat W) : get_bpb s = Some (bpb s, s).
Proof. done. Qed.
Lemma run_put {W} buf (s : fat W) : put_cache buf s = Some (tt, Fat (dev s) (set_cache_buf (bpb s) buf)).
Proof. done. Qed.
Lemma run_fault {W A} (o : option A) (s : fat W) : (! o) s = (a ← o; Some (a, s)).
Proof. done. Qed.
Ltac mrun :=
  repeat (first [rewrite run_bind | rewrite run_ret | rewrite run_get | rewrite run_put
                | rewrite run_fault]; mstep).

Section Fat16.
Context {W : Type} `{BlockDev W}.
Notation M := (M W).

(** ** The cache *)

Definition buf_read (sector_start size : Z) : M Z := fun s =>
  let b := bpb s in
  if (cache_sector_start b =? sector_start) && (cache_sector_size b =? size) then Some (0, s)
  else
    '(r, buf, w) ← dev_read (dev s) sector_start (cache_buf b) size;
    if 0 <? r then Some (0, Fat w (set_cache b sector_start size buf))
    else Some (-1, Fat w (set_cache_buf b buf)).

Definition buf_write (sector_start size : Z) : M Z := fun s =>
  '(r, w) ← dev_write (dev s) sector_start (cache_buf (bpb s)) size;
  Some (if 0 <? r then 0 else -1, Fat w (bpb s)).

(** ** Directory entries *)

(** The entry's 32 bytes in the cache. *)
Definition load_entry (p : Z) : M (list Z) :=
  b ← get_bpb; ! mem_read (cache_buf b) p DIR_ENTRY_SIZE.

Definition read_dir_entry (sector_start idx : Z) : M (option Z) :=
  b ← get_bpb;
  if (idx <? 0) || (root_entry_count b <=? idx) then mret None
  else
    let offset := u32 (DIR_ENTRY_SIZE * idx) in
    k ← ! cdiv offset (bytes_per_sector b);
    err ← buf_read (u32 (sector_start + k)) 1;
    if nz err then mret None
    else o ← ! cmod offset (bytes_per_sector b); mret (Some o).

Definition write_dir_entry (entry : list Z) (sector_root idx : Z) : M Z :=
  b ← get_bpb;
  if (idx <? 0) || (root_entry_count b <=? idx) then mret (-1)
  else
    let offset := u32 (DIR_ENTRY_SIZE * idx) in
    k ← ! cdiv offset (bytes_per_sector b);
    let sector_start := u32 (k + sector_root) in
    err ← buf_read sector_start 1;
    if nz err then mret err
    else
      sector_offset ← ! cmod offset (bytes_per_sector b);
      b ← get_bpb;
      buf ← ! mem_write (cache_buf b) sector_offset entry;
      put_cache buf;;
      buf_write sector_start 1.

(** ** The allocation table *)

(** [buf_write]'s result is ignored. *)
Fixpoint write_fats (n : nat) (i sector_start : Z) : M unit :=
  match n with
  | O => mret tt
  | S n' =>
      b ← get_bpb;
      _ ← buf_write (u32 (sector_start + i * sectors_per_fat b)) 1;
      write_fats n' (i + 1) sector_start
  end.

Definition set_cluster (cur next : Z) : M Z :=
  if negb (is_valid_cluster cur) then mret (-1)
  else
    b ← get_bpb;
    let offset := cur * 2 in
    sector_idx ← ! cdiv offset (bytes_per_sector b);
    if sectors_per_fat b <=? sector_idx then mret (-2)
    else
      let sector_start := fat16_tabl1_sector_idx b + sector_idx in
      err ← buf_read sector_start 1;
      if nz err then mret err
      else
        sector_offset ← ! cmod offset (bytes_per_sector b);
        b ← get_bpb;
        buf ← ! mem_write (cache_buf b) sector_offset (le16 next);
        put_cache buf;;
        write_fats (Z.to_nat (fat_count b)) 0 sector_start;;
        mret 0.

(** The cast binds closer than the addition: the offset is added to the
    first entry of the sector. *)
Definition get_next_cluster (cur : Z) : M Z :=
  b ← get_bpb;
  let offset := cur * 2 in
  sector_offset ← ! cmod offset (bytes_per_sector b);
  sector_idx ← ! cdiv offset (bytes_per_sector b);
  if sectors_per_fat b <? sector_idx then mret INVALID_CLUSTER
  else
    err ← buf_read (reserved_sector_count b + sector_idx) 1;
    if nz err then mret INVALID_CLUSTER
    else
      b ← get_bpb;
      v ← ! le16_at (cache_buf b) 0;
      mret (u16 (v + sector_offset)).

Fixpoint free_cluster_chain (fuel : nat) (cluster : Z) : M unit :=
  match fuel with
  | O => fun _ => None
  | S fuel' =>
      if is_valid_cluster cluster then
        next ← get_next_cluster cluster;
        _ ← set_cluster cluster next;
        free_cluster_chain fuel' next
      else mret tt
  end.

(** [cur < cluster_total_count, count > 0] is its second operand. *)
Fixpoint malloc_loop (fuel : nat) (n : nat) (start pre cur : Z) : M (option (Z * Z)) :=
  match n with
  | O => mret (Some (start, pre))
  | S n' =>
      let start := if negb (is_valid_cluster start) then cur else start in
      err ← (if is_valid_cluster pre then set_cluster pre cur else mret 0);
      if nz err then free_cluster_chain fuel start;; mret None
      else malloc_loop fuel n' start cur (u16 (cur + 1))
  end.

Definition malloc_free_cluster (fuel : nat) (count : Z) : M Z :=
  r ← malloc_loop fuel (Z.to_nat count) INVALID_CLUSTER INVALID_CLUSTER CLUSTER_START;
  match r with
  | None => mret INVALID_CLUSTER
  | Some (start, pre) =>
      err ← (if 0 <=? count then set_cluster pre INVALID_CLUSTER else mret (-1));
      if err =? 0 then mret start
      else free_cluster_chain fuel start;; mret INVALID_CLUSTER
  end.

(** ** Looking entries up *)

Fixpoint count_entries (n : nat) (node_sector_idx i count : Z) : M Z :=
  match n with
  | O => mret count
  | S n' =>
      e ← read_dir_entry node_sector_idx i;
      match e with
      | None => mret count
      | Some p =>
          bytes ← load_entry p;
          attr ← ! e_attr bytes;
          if attr =? 0 then mret count else count_entries n' node_sector_idx (i + 1) (count + 1)
      end
  end.
Definition get_dir_entry_count (node_sector_idx : Z) : M Z := count_entries 256 node_sector_idx 0 0.

(** The entries of a long name from [i] on: its characters in [lfn_buf], and
    the index where the loop stopped.  [check_sums], which nothing reads, is
    left out. *)
Fixpoint lfn_loop (n : nat) (sector_start i : Z) (lfn_buf : list Z) : M (Z * list Z) :=
  match n with
  | O => mret (i, lfn_buf)
  | S n' =>
      e ← read_dir_entry sector_start i;
      match e with
      | None => mret (i, lfn_buf)
      | Some p =>
          bytes ← load_entry p;
          attr ← ! e_attr bytes;
          if negb (attr =? DIR_ENTRY_ATTR_LFN) then mret (i, lfn_buf)
          else
            ord ← ! zget bytes 0;
            let order := Z.land ord 31 - 1 in
            n0 ← ! mem_read bytes 1 10;
            n5 ← ! mem_read bytes 14 12;
            n11 ← ! mem_read bytes 28 4;
            lfn_buf ← ! mem_write lfn_buf (26 * order) n0;
            lfn_buf ← ! mem_write lfn_buf (26 * order + 10) n5;
            lfn_buf ← ! mem_write lfn_buf (26 * order + 22) n11;
            if order =? 0 then mret (i, lfn_buf)
            else lfn_loop n' sector_start (i + 1) lfn_buf
      end
  end.

(** The entry, the index, [handled] and the name.  A path is a C string, or
    nothing for NULL. *)
Record found := Found { fd_entry : option Z; fd_idx : Z; fd_handled : bool; fd_name : mem }.

Definition handle_lfn_entry (sector_start idx : Z) (path : option mem) (handled : bool) (real_name : mem)
    : M found :=
  b ← get_bpb;
  '(i, lfn_buf) ← lfn_loop (Z.to_nat (root_entry_count b - idx)) sector_start idx (replicate 234 0);
  let idx := i + 1 in
  real_name ← ! from_lfn real_name lfn_buf 234;
  same ← match path with
         | None => mret true
         | Some path =>
             n1 ← ! strlen real_name; n2 ← ! strlen path;
             r ← ! memcmp real_name path (Z.max n1 n2);
             mret (r =? 0)
         end;
  if (same : bool) then
    e ← read_dir_entry sector_start idx;
    match e with
    | None => mret (Found None idx handled real_name)
    | Some p => mret (Found (Some p) idx true real_name)
    end
  else mret (Found None idx false real_name).

Definition handle_dir_entry (sector_start idx : Z) (path : option mem) (handled : bool) (real_name : mem)
    : M found :=
  e ← read_dir_entry sector_start idx;
  match e with
  | None => mret (Found None idx handled real_name)
  | Some p =>
      bytes ← load_entry p;
      sh ← ! should_handle_dir_entry bytes;
      if sh <? 0 then mret (Found None idx true real_name)
      else if sh =? 0 then mret (Found None idx false real_name)
      else
        attr ← ! e_attr bytes;
        ord ← ! zget bytes 0;
        if (attr =? DIR_ENTRY_ATTR_LFN) && nz (Z.land ord 64) then
          handle_lfn_entry sector_start idx path handled real_name
        else
          b ← get_bpb;
          real_name ← ! from_sfn real_name (at_ptr (cache_buf b) p);
          match path with
          | None => mret (Found (Some p) idx true real_name)
          | Some path =>
              same ← ! match_sfn bytes path;
              mret (if (same : bool) then Found (Some p) idx true real_name
                    else Found None idx false real_name)
          end
  end.

(** ** Opening *)

(** A clock reading: [get_rtc_time]. *)
Record rtc_time := RtcTime { t_sec : Z; t_min : Z; t_hour : Z; t_day : Z; t_mon : Z; t_year : Z }.

(** [junk] are the 32 bytes of the caller's local variable. *)
Definition init_dir_entry (junk name : mem) (attr : Z) (t : rtc_time) : option (list Z) :=
  e ← to_sfn junk name;
  let ftime := file_time (t_hour t) (t_min t) (t_sec t) in
  let date := file_date (t_year t) (t_mon t) (t_day t) in
  mem_write e 11 ([attr; 0; 0] ++ le16 ftime ++ le16 date ++ le16 date ++
                  le16 (Z.shiftr INVALID_CLUSTER 16) ++ le16 ftime ++ le16 date ++
                  le16 INVALID_CLUSTER ++ le32 0).

(** [entry] are the bytes of the entry at the call. *)
Definition read_file_info (file : file_t) (entry : list Z) (file_idx : Z) (path : mem) : M file_t :=
  attr ← ! e_attr entry;
  sz ← ! e_file_size entry;
  c ← ! entry_cluster entry;
  n ← ! strlen path;
  p ← ! mem_read path 0 n;
  name ← ! mem_write (f_name file) 0 p;
  let ty := if nz (Z.land attr DIR_ENTRY_ATTR_DIR) then FILE_DIR else FILE_FILE in
  let file := File (f_desc file) (f_dev_id file) name ty (f_mode file) (f_ref file)
                file_idx sz 0 c c (f_node_sector_idx file) in
  if ty =? FILE_DIR then
    n ← get_dir_entry_count (f_node_sector_idx file); mret (set_fsize file n)
  else mret file.

Fixpoint create_lfn_loop (n : nat) (node_sector_idx : Z) (name : mem) (count check_sum junk_idx : Z)
    : M Z :=
  match n with
  | O => mret junk_idx
  | S i =>
      let z := Z.of_nat i in
      let order := z + 1 in
      let order := if z =? count - 1 then Z.lor order 64 else order in
      n0 ← ! ascii2unicode (at_ptr name (z * 13)) 5;
      n5 ← ! ascii2unicode (at_ptr name (z * 13 + 5)) 6;
      n11 ← ! ascii2unicode (at_ptr name (z * 13 + 11)) 2;
      _ ← write_dir_entry ([order] ++ n0 ++ [DIR_ENTRY_ATTR_LFN; 0; check_sum] ++ n5 ++ [0; 0] ++ n11)
            node_sector_idx junk_idx;
      create_lfn_loop i node_sector_idx name count check_sum (junk_idx + 1)
  end.

(** The error, the entry's bytes and [*file_idx].  [name] is the memory from
    the name on: the last entry copies what follows its end. *)
Definition create_lfn (file : file_t) (entry : list Z) (name : mem) (file_idx : Z) : M (Z * list Z * Z) :=
  n ← ! strlen name;
  let lfn_entry_count := up2 n 13 / 13 in
  if 9 <? lfn_entry_count then mret (-1, entry, file_idx)
  else
    entry ← ! zset entry 6 126;
    entry ← ! zset entry 7 (u8 (lfn_entry_count + 48));
    check_sum ← ! get_check_sum entry;
    file_idx ← create_lfn_loop (Z.to_nat lfn_entry_count) (f_node_sector_idx file) name
                 lfn_entry_count check_sum file_idx;
    mret (0, entry, file_idx).

(** The search of one directory: [for (int i = 0; i < 256; i++)], where
    [handle_dir_entry] also moves [i]. *)
Fixpoint dir_scan (n : nat) (sector_start i : Z) (name : mem) (handled : bool) (real_name : mem)
    (item : option Z) (file_idx : Z) : M (option Z * Z * mem) :=
  match n with
  | O => mret (item, file_idx, real_name)
  | S n' =>
      if i <? 256 then
        r ← handle_dir_entry sector_start i (Some name) handled real_name;
        if fd_handled r then mret (fd_entry r, fd_idx r, fd_name r)
        else dir_scan n' sector_start (fd_idx r + 1) name (fd_handled r) (fd_name r)
               (fd_entry r) file_idx
      else mret (item, file_idx, real_name)
  end.

(** What the walk along the path ends with: the bytes of the item, [file_idx],
    [sector_start] and the path as [strtok_r] leaves it. *)
Record walked := Walked { w_item : option (list Z); w_idx : Z; w_sector : Z; w_path : mem }.

(** For the current directory the entry is the local variable [junk] with
    two fields set; the name is stored through [item], at address 0 in the
    first turn. *)
Definition dot_entry (b : bpb_t) (junk : list Z) : option (list Z) :=
  e ← zset junk 11 DIR_ENTRY_ATTR_DIR;
  mem_write e 28 (le32 (root_entry_count b)).

Fixpoint walk (fuel : nat) (path : mem) (name : option Z) (save sector_start : Z) (real_name : mem)
    (file_idx : Z) (item : option Z) (junk : list Z) : M walked :=
  match fuel with
  | O => fun _ => None
  | S fuel' =>
      b ← get_bpb;
      dot ← match name with None => mret true | Some nm => c ← ! zget path nm; mret (c =? 46) end;
      if (dot : bool) then
        e ← ! dot_entry b junk;
        match item with
        | None => mret (Walked (Some e) 0 sector_start path)
        | Some p =>
            buf ← ! mem_write (cache_buf b) p [46];
            put_cache buf;;
            mret (Walked (Some e) 0 sector_start path)
        end
      else
        nm ← ! name;
        '(item, file_idx, real_name) ←
          dir_scan 256 sector_start 0 (at_ptr path nm) false real_name item file_idx;
        match item with
        | None => mret (Walked None file_idx sector_start path)
        | Some p =>
            '(path, save, name) ← ! strtok_r path None [47; 0] save;
            e ← load_entry p;
            b ← get_bpb;
            sector_start ← ! get_sector_start b e;
            match name with
            | None => mret (Walked (Some e) file_idx sector_start path)
            | Some _ => walk fuel' path name save sector_start real_name file_idx (Some p) junk
            end
        end
  end.

Definition O_CREAT : Z := 1.
Definition O_RDONLY : Z := 2.
Definition O_APPEND : Z := 16.
Definition O_TRUNC : Z := 32.

(** Memory the stack holds when [fat16_open] is called: the local entries,
    the real name and the initial value of [file_idx]. *)
Record open_junk := OpenJunk { j_entry : list Z; j_name : mem; j_idx : Z }.

(** Each turn of the walk consumes a word of the path.  [path] is the memory
    from the path's first byte on, as [strtok_r] leaves it. *)
Definition fat16_open (fuel : nat) (junk : open_junk) (now : rtc_time) (path : mem) (file : file_t)
    : M (Z * file_t) :=
  b ← get_bpb;
  '(path, save, name) ← ! strtok_r path (Some 0) [47; 0] 0;
  w ← walk (S (length path)) path name save (fat16_root_sector_idx b) (j_name junk) (j_idx junk)
        None (j_entry junk);
  let file := set_node file (w_sector w) in
  match w_item w with
  | Some e =>
      file ← read_file_info file e (w_idx w) (w_path w);
      if nz (Z.land (f_mode file) O_TRUNC) then
        free_cluster_chain fuel (u16 (f_block_start file));;
        mret (0, set_fsize (set_block_cur (set_block_start file INVALID_CLUSTER) INVALID_CLUSTER) 0)
      else mret (0, file)
  | None =>
      if nz (Z.land (f_mode file) O_CREAT) && (0 <=? w_idx w) then
        entry ← ! init_dir_entry (j_entry junk) (w_path w) 0 now;
        n ← ! strlen (w_path w);
        '(err, entry, idx) ← (if 11 <? n then create_lfn file entry (w_path w) (w_idx w)
                             else mret (0, entry, w_idx w));
        if nz err then mret (err, file)
        else
          err ← write_dir_entry entry (w_sector w) idx;
          if nz err then mret (err, file)
          else file ← read_file_info file entry idx (w_path w); mret (0, file)
      else mret (-1, file)
  end.

(** ** Reading and writing *)

Inductive fat16_file_operate_t := fat16_file_operate_read | fat16_file_operate_write.

(** The first data sector of the file's current cluster. *)
Definition cluster_sector (b : bpb_t) (cluster : Z) : option Z :=
  d ← fat16_data_sector_idx b;
  Some (u32 (d + (cluster - CLUSTER_START) * sectors_per_cluster b)).

(** The loop: [done] bytes of [buf] are through, [size] are left. *)
Fixpoint operate_loop (fuel : nat) (op : fat16_file_operate_t) (file : file_t) (buf : list Z)
    (done_ size : Z) : M (Z * file_t * list Z) :=
  match fuel with
  | O => fun _ => None
  | S fuel' =>
      if 0 <? size then
        b ← get_bpb;
        let bpc := fat16_bytes_per_cluster b in
        cluster_offset ← ! cmod (f_pos file) bpc;
        sector_start ← ! cluster_sector b (f_block_cur file);
        err ← buf_read sector_start (sectors_per_cluster b);
        if nz err then mret (done_, file, buf)
        else
          b ← get_bpb;
          let step := if bpc <? u32 (size + cluster_offset) then bpc - cluster_offset else size in
          '(err, buf) ←
            match op with
            | fat16_file_operate_read =>
                bytes ← ! mem_read (cache_buf b) cluster_offset step;
                buf ← ! mem_write buf done_ bytes;
                mret (0, buf)
            | fat16_file_operate_write =>
                bytes ← ! mem_read buf done_ step;
                cache ← ! mem_write (cache_buf b) cluster_offset bytes;
                put_cache cache;;
                err ← buf_write sector_start (sectors_per_cluster b);
                mret (err, buf)
            end;
          if nz err then mret (done_, file, buf)
          else
            let file := set_pos file (u32 (f_pos file + step)) in
            cur ← (if bpc <=? step + cluster_offset then get_next_cluster (u16 (f_block_cur file))
                   else mret (f_block_cur file));
            operate_loop fuel' op (set_block_cur file cur) buf (done_ + step) (size - step)
      else mret (done_, file, buf)
  end.

(** Each turn moves at least one byte. *)
Definition fat16_file_operate (file : file_t) (buf : list Z) (size : Z) (op : fat16_file_operate_t)
    : M (Z * file_t * list Z) :=
  let size :=
    match op with
    | fat16_file_operate_read =>
        if f_size file <? u32 (f_pos file + size) then u32 (f_size file - f_pos file) else size
    | fat16_file_operate_write => size
    end in
  operate_loop (S (Z.to_nat size)) op file buf 0 size.

Fixpoint read_file_loop (fuel : nat) (file : file_t) (buf : list Z) (done_ size : Z)
    : M (Z * file_t * list Z) :=
  match fuel with
  | O => fun _ => None
  | S fuel' =>
      if 0 <? size then
        b ← get_bpb;
        let bpc := fat16_bytes_per_cluster b in
        cluster_offset ← ! cmod (f_pos file) bpc;
        sector_start ← ! cluster_sector b (f_block_cur file);
        err ← buf_read sector_start (sectors_per_cluster b);
        if nz err then mret (done_, file, buf)
        else
          b ← get_bpb;
          let step := if bpc <? u32 (size + cluster_offset) then bpc - cluster_offset else size in
          bytes ← ! mem_read (cache_buf b) cluster_offset step;
          buf ← ! mem_write buf done_ bytes;
          let file := set_pos file (u32 (f_pos file + step)) in
          cur ← (if bpc <=? step + cluster_offset then get_next_cluster (u16 (f_block_cur file))
                 else mret (f_block_cur file));
          read_file_loop fuel' (set_block_cur file cur) buf (done_ + step) (size - step)
      else mret (done_, file, buf)
  end.

(** The bytes read, the file and the buffer. *)
Definition fat16_read (file : file_t) (buf : list Z) (size : Z) : M (Z * file_t * list Z) :=
  let size := if f_size file <? u32 (f_pos file + size) then u32 (f_size file - f_pos file) else size in
  read_file_loop (S (Z.to_nat size)) file buf 0 size.

Definition expand_file (fuel : nat) (file : file_t) (size : Z) : M (Z * file_t) :=
  b ← get_bpb;
  let bpc := fat16_bytes_per_cluster b in
  rest ← (if f_size file =? 0 then mret 0 else ! cmod (f_size file) bpc);
  need ← (if rest =? 0 then n ← ! cdiv (up2 size bpc) bpc; mret (Some n)
          else
            let file_free := bpc - rest in
            if size <=? file_free then mret None
            else n ← ! cdiv (up2 (size - file_free) bpc) bpc; mret (Some n));
  match need with
  | None => mret (0, file)
  | Some cluster_count =>
      start ← malloc_free_cluster fuel (i32 cluster_count);
      if negb (is_valid_cluster start) then mret (-2, file)
      else if negb (is_valid_cluster (f_block_start file)) then
        mret (0, set_block_cur (set_block_start file start) start)
      else
        _ ← set_cluster (u16 (f_block_cur file)) start;
        mret (0, file)
  end.

Definition fat16_write (fuel : nat) (file : file_t) (buf : list Z) (size : Z) : M (Z * file_t) :=
  if nz (Z.land (f_mode file) O_RDONLY) then mret (-1, file)
  else
    let file := if nz (Z.land (f_mode file) O_APPEND) then set_pos file (f_size file) else file in
    '(err, file) ← (if f_size file <? u32 (f_pos file + size) then expand_file fuel file size
                    else mret (0, file));
    if nz err then mret (-1, file)
    else
      let file := set_fsize file (f_pos file) in
      '(total, file, _) ← fat16_file_operate file buf size fat16_file_operate_write;
      mret (total, if 0 <? total then set_fsize file (u32 (f_size file + total)) else file).

(** ** Closing, seeking, status, listing *)

(** The fields are changed through the pointer into the cache. *)
Definition fat16_close (file : file_t) (now : rtc_time) : M unit :=
  if nz (Z.land (f_mode file) O_RDONLY) then mret tt
  else
    e ← read_dir_entry (f_node_sector_idx file) (f_file_idx file);
    match e with
    | None => mret tt
    | Some p =>
        let ftime := file_time (t_hour now) (t_min now) (t_sec now) in
        let date := file_date (t_year now - YEAR_OFFSET) (t_mon now) (t_day now) in
        b ← get_bpb;
        buf ← ! mem_write (cache_buf b) (p + 18)
                  (le16 date ++ le16 (Z.shiftr (f_block_start file) 16) ++ le16 ftime ++ le16 date ++
                   le16 (f_block_start file) ++ le32 (f_size file));
        put_cache buf;;
        entry ← load_entry p;
        _ ← write_dir_entry entry (f_node_sector_idx file) (f_file_idx file);
        mret tt
    end.

Definition SEEK_SET : Z := 0.
Definition SEEK_CUR : Z := 1.
Definition SEEK_END : Z := 2.
Definition EBADF : Z := -2.
Definition EINVAL : Z := -3.
Definition EOVERFLOW : Z := -4.

(** [SEEK_END] falls through into the default case. *)
Definition fat16_seek (file : file_t) (offset whence : Z) : Z * file_t :=
  if whence =? SEEK_SET then
    let offset := Z.max offset 0 in
    (i32 (u32 offset - f_pos file), set_pos file (u32 offset))
  else if whence =? SEEK_CUR then
    let pos := u32 (f_pos file + offset) in
    if Z.shiftl 1 4 <=? pos then (EOVERFLOW, file)
    else (i32 (pos - f_pos file), set_pos file pos)
  else if whence =? SEEK_END then (EINVAL, set_pos file (u32 (f_size file + offset)))
  else (EINVAL, file).

Fixpoint cluster_count_loop (fuel : nat) (cur n : Z) : M Z :=
  match fuel with
  | O => fun _ => None
  | S fuel' =>
      if cur =? INVALID_CLUSTER then mret n
      else next ← get_next_cluster cur; cluster_count_loop fuel' next (i32 (n + 1))
  end.
Definition get_file_cluster_count (fuel : nat) (file : file_t) : M Z :=
  cluster_count_loop fuel (u16 (f_block_start file)) 0.

Record stat_t := Stat
  { st_size : Z; st_block_size : Z; st_block_count : Z;
    st_times : option (timespec_t * Z) (** created; seconds of the update *) }.

Definition fat16_stat (fuel : nat) (file : file_t) : M stat_t :=
  b ← get_bpb;
  n ← get_file_cluster_count fuel file;
  let st := Stat (f_size file) (bytes_per_sector b) (u32 (fat16_bytes_per_cluster b * n)) in
  e ← read_dir_entry (f_node_sector_idx file) (f_file_idx file);
  match e with
  | None => mret (st None)
  | Some p =>
      bytes ← load_entry p;
      cd ← ! e_create_date bytes; ct ← ! e_create_time bytes; ms ← ! zget bytes 13;
      wd ← ! e_write_date bytes; wt ← ! e_write_time bytes;
      mret (st (Some (Timespec (datetime2timespec cd ct) (ms * 1000 * 1000),
                      datetime2timespec wd wt)))
  end.

Record dirent_t := Dirent
  { de_offset : Z; de_name : mem; de_type : Z; de_size : Z; de_child_count : Z }.

(** [entry] is set before it is read: the loop runs at least once. *)
Fixpoint readdir_loop (fuel : nat) (file : file_t) (real_name : mem) (entry : option Z)
    : M (file_t * mem * option Z) :=
  match fuel with
  | O => fun _ => None
  | S fuel' =>
      if f_pos file <? f_size file then
        r ← handle_dir_entry (f_node_sector_idx file) (i32 (f_pos file)) None false real_name;
        let file := set_pos file (u32 (fd_idx r + 1)) in
        if fd_handled r then mret (file, fd_name r, fd_entry r)
        else readdir_loop fuel' file (fd_name r) (fd_entry r)
      else mret (file, real_name, entry)
  end.

(** The error, the file and the directory entry filled in.  [pos] grows in
    each turn. *)
Definition fat16_readdir (file : file_t) : M (Z * file_t * option dirent_t) :=
  if negb (f_type file =? FILE_DIR) then mret (-1, file, None)
  else if f_size file <=? f_pos file then mret (-1, file, None)
  else
    '(file, real_name, entry) ← readdir_loop (S (Z.to_nat (f_size file))) file (replicate 128 0) None;
    match entry with
    | None => mret (-1, file, None)
    | Some p =>
        n ← ! strlen real_name;
        nm ← ! mem_read real_name 0 n;
        name ← ! mem_write (replicate 64 0) 0 nm;
        '(name, _) ← ! trim name 0;
        bytes ← load_entry p;
        b ← get_bpb;
        entry_sector_start ← ! get_sector_start b bytes;
        sz ← ! e_file_size bytes;
        attr ← ! e_attr bytes;
        let offset := i32 (f_pos file - 1) in
        if nz (Z.land attr DIR_ENTRY_ATTR_DIR) then
          n ← get_dir_entry_count entry_sector_start;
          mret (0, file, Some (Dirent offset name FILE_DIR sz n))
        else mret (0, file, Some (Dirent offset name FILE_FILE sz 1))
    end.

(** ** Mounting *)

Definition validate_bpb (b : bpb_t) : option bool :=
  if negb (fat_count b =? 2) then Some false
  else r ← memcmp (file_system b) [70; 65; 84; 49; 54] 5; Some (r =? 0).

(** The BPB over the page the boot sector was read into.  The cache's tags
    lie over the boot sector's bytes 62 to 69, the cache begins at byte 86. *)
Definition bpb_of_page (page : list Z) : option bpb_t :=
  bps ← le16_at page 11; spc ← zget page 13; res ← le16_at page 14; fats ← zget page 16;
  roots ← le16_at page 17; spf ← le16_at page 22;
  sys ← mem_read page 54 8;
  cs ← le32_of page 62; cz ← le32_of page 66;
  Some (Bpb bps spc res fats roots spf sys cs cz (at_ptr page 86)).

(** After the device is open and a page allocated. *)
Definition fat16_mount (w : W) (page : list Z) : option (Z * W * option bpb_t) :=
  '(r, page, w) ← dev_read w 0 page 1;
  if r <? 1 then Some (-1, w, None)
  else
    b ← bpb_of_page page;
    ok ← validate_bpb b;
    Some (if (ok : bool) then (0, w, Some b) else (-1, w, None)).

End Fat16.
