(* ===== verification/Fat16Spec.v ===== *)
(** * FAT16: what its operations promise

    [BlockDevOk] is what the file system relies on of the device below it, for
    transfers of one or two sectors; the disk driver discharges it
    ([disk_block_ok]).  Over it: the cache of one transfer stays coherent with
    the device, directory entries and file contents read back as written, and
    where the code departs from the format. *)

From S2P Require Import Prelude CMath CString Datetime Pktbuf PktbufSpec PktbufAccess Layout Disk File Fat16.
From S2P Require Import Prelude.

(** ** The device's promise *)

(** [sector w a] is the content of sector [a], if the device has it. *)
Class BlockDevOk (W : Type) `{BlockDev W} (ss : Z) (sector : W -> Z -> option (list Z)) : Prop := {
  ss_pos : 0 < ss;
  sector_len : forall w a l, sector w a = Some l -> zlen l = ss;
  dev_read_ok : forall w a buf n, 0 < n <= 2 ->
    (forall k, 0 <= k < n -> is_Some (sector w (a + k))) -> ss * n <= zlen buf ->
    exists data, dev_read w a buf n = Some (n, splice buf 0 data, w) /\ zlen data = ss * n /\
      forall k, 0 <= k < n -> sector w (a + k) = Some (sub data (ss * k) ss);
  dev_write_ok : forall w a buf n, 0 < n <= 2 ->
    (forall k, 0 <= k < n -> is_Some (sector w (a + k))) -> ss * n <= zlen buf ->
    exists w', dev_write w a buf n = Some (n, w') /\
      (forall k, 0 <= k < n -> sector w' (a + k) = Some (sub buf (ss * k) ss)) /\
      (forall a', a' < a \/ a + n <= a' -> sector w' a' = sector w a');
}.

(** ** The disk keeps it *)

Section DiskBlock.
Context (devices : list device_t) (dev_id : Z).

(** [device_read] and [device_write] on the file system's device. *)
#[export] Instance disk_block : BlockDev (list disk_t) := {
  dev_read w := device_read [dev_disk_desc] w devices dev_id;
  dev_write w := device_write [dev_disk_desc] w devices dev_id;
}.
End DiskBlock.

(** The device is open on partition [pi] of disk [di]. *)
Record disk_mounted (devices : list device_t) (dev_id di pi : Z) (dev : device_t) : Prop := {
  mnt_id : 0 <= dev_id < DEVICES_SIZE;
  mnt_dev : zget devices dev_id = Some dev;
  mnt_desc : desc dev = Some 0;
  mnt_data : dev_data dev = Some (di, pi);
}.

(** The partition's own sectors, where the disk has sectors of [ss] bytes. *)
Definition part_sector (ss di pi : Z) (w : list disk_t) (a : Z) : option (list Z) :=
  d ← zget w di;
  p ← zget (parts d) pi;
  if (sector_size d =? ss) && bool_decide (part_disk p = Some di)
     && (0 <=? a + part_sector_start p) && (a + part_sector_start p <? 4294967296) then
    l ← sectors d !! (a + part_sector_start p);
    if zlen l =? ss then Some l else None
  else None.

Lemma part_sector_ready ss di pi w a n devices dev_id dev : 0 < ss -> 0 < n <= 65536 ->
  disk_mounted devices dev_id di pi dev ->
  (forall k, 0 <= k < n -> is_Some (part_sector ss di pi w (a + k))) ->
  exists part d, disk_ready w dev a n part di d /\ zget (parts d) pi = Some part /\ sector_size d = ss /\
    forall k, 0 <= k < n -> part_sector ss di pi w (a + k) = sectors d !! (a + part_sector_start part + k).
Proof.
  intros Hss Hn [_ _ _ Hdd] Hall. pose proof (Hall 0 ltac:(lia)) as [l0 H0].
  unfold part_sector in H0. apply bind_Some in H0 as (d & Hd & H0).
  apply bind_Some in H0 as (p & Hp & H0). cif_in H0; [|done]. mopen.
  repeat match goal with H : bool_decide _ = true |- _ => apply bool_decide_eq_true in H end.
  assert (forall k, 0 <= k < n -> exists l, sectors d !! (a + part_sector_start p + k) = Some l /\
            zlen l = ss /\ part_sector ss di pi w (a + k) = Some l) as Hsec.
  { intros k Hk. destruct (Hall k Hk) as [l Hl]. exists l. pose proof Hl as Hl'.
    unfold part_sector in Hl. rewrite Hd in Hl. cbn in Hl. rewrite Hp in Hl. cbn in Hl.
    cif_in Hl; [|done]. mopen. cif_in Hl; [|done]. simplify_eq.
    by replace (a + part_sector_start p + k) with (a + k + part_sector_start p) by lia. }
  exists p, d. split; [split|split; [done|split; [done|]]]; try done; try lia.
  - unfold part_of. rewrite Hdd, Hd. cbn. by rewrite Hp.
  - intros k Hk. destruct (Hsec k Hk) as (l & Hl & Hz & _). exists l. split; [done|lia].
  - intros k Hk. destruct (Hsec k Hk) as (l & Hl & Hz & ->). done.
Qed.

Lemma disk_dispatch devices dev_id di pi dev w : disk_mounted devices dev_id di pi dev ->
  (forall a buf n, device_read [dev_disk_desc] w devices dev_id a buf n = disk_read w dev a buf n) /\
  (forall a buf n, device_write [dev_disk_desc] w devices dev_id a buf n = disk_write w dev a buf n).
Proof.
  intros [Hid Hd Hdesc _]. unfold device_read, device_write, validate_device, DEVICES_SIZE in *.
  destruct (Z.ltb_spec dev_id 0); [lia|]. destruct (Z.leb_spec 128 dev_id); [lia|].
  cbn [orb]. rewrite Hd. mstep. rewrite Hdesc. unfold desc_of. rewrite Hdesc. done.
Qed.

Lemma part_sector_set ss di pi w w' d s p a : zget w di = Some d -> zget (parts d) pi = Some p ->
  sector_size d = ss -> part_disk p = Some di ->
  zset w di (set_sectors d s) = Some w' ->
  part_sector ss di pi w' a =
    if (0 <=? a + part_sector_start p) && (a + part_sector_start p <? 4294967296) then
      l ← s !! (a + part_sector_start p); if zlen l =? ss then Some l else None
    else None.
Proof.
  intros Hd Hp Hs Hdi Hset. unfold part_sector. rewrite (zget_zset _ _ _ _ _ Hset), Z.eqb_refl.
  cbn. rewrite Hp. cbn. rewrite Hs, Z.eqb_refl, bool_decide_true by done. done.
Qed.

Lemma block_read_ok devices dev_id di pi dev ss w a buf n : 0 < ss ->
  disk_mounted devices dev_id di pi dev -> 0 < n <= 2 ->
  (forall k, 0 <= k < n -> is_Some (part_sector ss di pi w (a + k))) -> ss * n <= zlen buf ->
  exists data, device_read [dev_disk_desc] w devices dev_id a buf n = Some (n, splice buf 0 data, w) /\
    zlen data = ss * n /\
    forall k, 0 <= k < n -> part_sector ss di pi w (a + k) = Some (sub data (ss * k) ss).
Proof.
  intros Hss Hm Hn Hall Hz.
  destruct (part_sector_ready ss di pi w a n devices dev_id dev) as (p & d & Hr & Hp & Es & Hsec);
    try done; try lia.
  destruct (disk_dispatch _ _ _ _ _ w Hm) as [-> _].
  destruct (disk_read_contiguous w dev a buf n p di d) as (data & HR & Hl & Hin);
    rewrite ?Es; try done; try lia.
  rewrite Es in Hl, Hin. exists data. split; [done|]. split; [done|].
  intros k Hk. rewrite Hsec by done. by apply Hin.
Qed.

Lemma block_write_ok devices dev_id di pi dev ss w a buf n : 0 < ss ->
  disk_mounted devices dev_id di pi dev -> 0 < n <= 2 ->
  (forall k, 0 <= k < n -> is_Some (part_sector ss di pi w (a + k))) -> ss * n <= zlen buf ->
  exists w', device_write [dev_disk_desc] w devices dev_id a buf n = Some (n, w') /\
    (forall k, 0 <= k < n -> part_sector ss di pi w' (a + k) = Some (sub buf (ss * k) ss)) /\
    (forall a', a' < a \/ a + n <= a' -> part_sector ss di pi w' a' = part_sector ss di pi w a').
Proof.
  intros Hss Hm Hn Hall Hz.
  destruct (part_sector_ready ss di pi w a n devices dev_id dev) as (p & d & Hr & Hp & Es & Hsec);
    try done; try lia.
  destruct (disk_dispatch _ _ _ _ _ w Hm) as [_ ->].
  assert (forall k, 0 <= k < n -> tri k = k) as Ht.
  { intros k Hk. assert (k = 0 \/ k = 1) as [->| ->] by lia; done. }
  destruct (disk_write_ok w dev a buf n p di d Hr) as (s' & w' & HW & Hset & Hin & Hout).
  { unfold buf_fits. rewrite Ht, Es by lia. lia. }
  rewrite Es in Hin. exists w'. split; [done|]. destruct Hr as [_ Hdi Hd _ Ha _ _].
  change (2 ^ 32) with 4294967296 in Ha.
  pose proof (fun b => part_sector_set ss di pi w w' d s' p b Hd Hp Es Hdi Hset) as Hps. split.
  - intros k Hk. rewrite Hps. specialize (Hin k Hk). rewrite (Ht k Hk) in Hin.
    destruct (Hall k Hk) as [l Hl]. pose proof Hl as Hl'. unfold part_sector in Hl'.
    rewrite Hd in Hl'. cbn in Hl'. rewrite Hp in Hl'. cbn in Hl'. cif_in Hl'; [|done].
    replace (a + k + part_sector_start p) with (a + part_sector_start p + k) in * by lia.
    rewrite Hin. cbn. destruct (Z.leb_spec 0 (a + part_sector_start p + k)); [|lia].
    destruct (Z.ltb_spec (a + part_sector_start p + k) 4294967296); [|lia]. cbn.
    rewrite zlen_sub, Z.eqb_refl by nia. done.
  - intros a' Ha'. rewrite Hps. unfold part_sector. rewrite Hd. cbn. rewrite Hp. cbn.
    rewrite Es, Z.eqb_refl, bool_decide_true by done. cbn. cif; [|done].
    rewrite Hout by lia. done.
Qed.

Lemma part_sector_len ss di pi w a l : part_sector ss di pi w a = Some l -> zlen l = ss.
Proof.
  intros Hl. unfold part_sector in Hl. mopen. cif_in Hl; [|done]. mopen. cif_in Hl; [|done]. by simplify_eq.
Qed.

(** The disk driver keeps the promise the file system relies on: transfers
    of one or two sectors, through an open device, read and write exactly the
    sectors of its partition. *)
Theorem disk_block_ok devices dev_id di pi dev ss : 0 < ss ->
  disk_mounted devices dev_id di pi dev ->
  @BlockDevOk (list disk_t) (disk_block devices dev_id) ss (part_sector ss di pi).
Proof.
  intros Hss Hm. split; [done|..].
  - intros w a l. apply part_sector_len.
  - intros w a buf n. by eapply block_read_ok.
  - intros w a buf n. by eapply block_write_ok.
Qed.

(** ** The cache is coherent *)

Section Fat16Ok.
Context {W : Type} `{HB : BlockDev W} {ss : Z} {sector : W -> Z -> option (list Z)}
  `{HOK : !BlockDevOk W ss sector}.
Implicit Types s : fat W.

(** The device has the sectors [a .. a + n - 1]. *)
Definition present (w : W) (a n : Z) : Prop := forall k, 0 <= k < n -> is_Some (sector w (a + k)).

(** The cache holds the [n] sectors from [a] on. *)
Definition holds (w : W) (buf : list Z) (a n : Z) : Prop :=
  forall k, 0 <= k < n -> sector w (a + k) = Some (sub buf (ss * k) ss).

(** The BPB agrees with the device, the cache has room for two sectors, and
    what its tags claim is true. *)
Record fat_ok s : Prop := {
  fat_bps : bytes_per_sector (bpb s) = ss;
  fat_room : ss * 2 <= zlen (cache_buf (bpb s));
  fat_coherent : holds (dev s) (cache_buf (bpb s)) (cache_sector_start (bpb s)) (cache_sector_size (bpb s));
}.

(** The geometry, all of the BPB but the cache, is the same. *)
Definition same_geometry (b b' : bpb_t) : Prop :=
  exists cs cz buf, b' = set_cache b cs cz buf /\ zlen buf = zlen (cache_buf b).

Lemma same_geometry_refl b : same_geometry b b.
Proof. exists (cache_sector_start b), (cache_sector_size b), (cache_buf b). by destruct b. Qed.

Lemma same_geometry_trans a b c : same_geometry a b -> same_geometry b c -> same_geometry a c.
Proof.
  intros (cs & cz & buf & -> & Hl) (cs' & cz' & buf' & -> & Hl'). exists cs', cz', buf'.
  split; [done|]. cbn in Hl'. by rewrite Hl'.
Qed.

(** [buf_read] succeeds on sectors the device has, with the cache tagged and
    filled with them; the device does not change. *)
Lemma buf_read_ok s a n : fat_ok s -> 0 < n <= 2 -> present (dev s) a n ->
  exists s', buf_read a n s = Some (0, s') /\ fat_ok s' /\ dev s' = dev s /\
    same_geometry (bpb s) (bpb s') /\
    cache_sector_start (bpb s') = a /\ cache_sector_size (bpb s') = n.
Proof.
  intros [Hb Hr Hc] Hn Hp. pose proof ss_pos as Hss. unfold buf_read. cif.
  - exists s. split; [done|]. split; [done|]. split; [done|]. split; [apply same_geometry_refl|done].
  - destruct (dev_read_ok (dev s) a (cache_buf (bpb s)) n Hn Hp) as (data & -> & Hz & Hin); [nia|].
    mstep. destruct (Z.ltb_spec 0 n); [|lia].
    assert (zlen (splice (cache_buf (bpb s)) 0 data) = zlen (cache_buf (bpb s))) as Hz'
      by (apply zlen_splice; nia).
    eexists. split; [done|]. split_and!; try done; [split; cbn; [done|lia|]|].
    + intros k Hk. rewrite Hin by done. f_equal. symmetry.
      change (splice (cache_buf (bpb s)) 0 data) with (data ++ drop (length data) (cache_buf (bpb s))).
      unfold sub. rewrite !take_drop_commute. f_equal. apply take_app_le. unfold zlen in *. nia.
    + eexists a, n, _. by split.
Qed.

(** A store into the cached sectors, written back. *)
Definition store_back (a n off : Z) (bytes : list Z) : M W Z :=
  b ← get_bpb;
  buf ← fault_if_none (mem_write (cache_buf b) off bytes);
  put_cache buf;;
  buf_write a n.

Lemma store_back_ok s a n off bytes : fat_ok s -> 0 < n <= 2 -> present (dev s) a n ->
  cache_sector_start (bpb s) = a -> cache_sector_size (bpb s) = n ->
  0 <= off -> off + zlen bytes <= ss * n ->
  exists s', store_back a n off bytes s = Some (0, s') /\ fat_ok s' /\
    bpb s' = set_cache_buf (bpb s) (splice (cache_buf (bpb s)) off bytes) /\
    (forall a', a' < a \/ a + n <= a' -> sector (dev s') a' = sector (dev s) a').
Proof.
  intros [Hb Hr Hc] Hn Hp Ha En Ho Hfit. pose proof ss_pos as Hss.
  assert (zlen (splice (cache_buf (bpb s)) off bytes) = zlen (cache_buf (bpb s))) as Hz
    by (apply zlen_splice; nia).
  unfold store_back. mrun. unfold mem_write.
  destruct (Z.leb_spec 0 off); [|lia].
  destruct (Z.leb_spec (off + zlen bytes) (zlen (cache_buf (bpb s)))); [|nia]. cbn [andb]. mstep. mrun.
  unfold buf_write. cbn [bpb dev cache_buf set_cache_buf set_cache].
  destruct (dev_write_ok (dev s) a (splice (cache_buf (bpb s)) off bytes) n Hn Hp) as (w' & -> & Hin & Hout).
  { nia. }
  mstep. destruct (Z.ltb_spec 0 n); [|lia].
  eexists. split; [done|]. split; [split; cbn; [done|lia|]|by split].
  rewrite Ha, En. done.
Qed.

(** ** Directory entries *)

(** Where entry [idx] of the directory at [start] lies. *)
Definition entry_sector (start idx : Z) : Z := u32 (start + 32 * idx / ss).
Definition entry_offset (idx : Z) : Z := 32 * idx mod ss.

Definition entry_at (w : W) (start idx : Z) : option (list Z) :=
  l ← sector w (entry_sector start idx); Some (sub l (entry_offset idx) 32).

Lemma entry_offset_fits idx : (32 | ss) -> 0 <= idx -> 0 <= entry_offset idx /\ entry_offset idx + 32 <= ss.
Proof.
  intros [q Hq] Hi. pose proof ss_pos as Hss. unfold entry_offset. rewrite Hq in *.
  replace (q * 32) with (32 * q) by lia. rewrite Z.mul_mod_distr_l by lia.
  pose proof (Z.mod_pos_bound idx q). lia.
Qed.

Lemma present_1 w a l : sector w a = Some l -> present w a 1.
Proof. intros Hl k Hk. replace (a + k) with a by lia. eauto. Qed.

Lemma holds_1 s l : fat_ok s -> cache_sector_size (bpb s) = 1 ->
  sector (dev s) (cache_sector_start (bpb s)) = Some l -> l = sub (cache_buf (bpb s)) 0 ss.
Proof.
  intros [_ _ Hc] E Hl. specialize (Hc 0). rewrite E, Z.add_0_r, Z.mul_0_r in Hc.
  rewrite Hl in Hc. by injection Hc; [|lia].
Qed.

Lemma sub_sub (l : list Z) m o n : 0 <= o -> 0 <= n -> o + n <= m -> sub (sub l 0 m) o n = sub l o n.
Proof.
  intros. unfold sub. rewrite drop_0, !take_drop_commute, take_take. do 2 f_equal. lia.
Qed.

(** [read_dir_entry] answers a pointer to the entry's bytes. *)
Lemma read_dir_entry_ok s start idx e : fat_ok s -> (32 | ss) ->
  0 <= idx < root_entry_count (bpb s) -> 32 * idx < 4294967296 ->
  entry_at (dev s) start idx = Some e ->
  exists s', read_dir_entry start idx s = Some (Some (entry_offset idx), s') /\
    fat_ok s' /\ dev s' = dev s /\ same_geometry (bpb s) (bpb s') /\
    cache_sector_start (bpb s') = entry_sector start idx /\ cache_sector_size (bpb s') = 1 /\
    load_entry (entry_offset idx) s' = Some (e, s').
Proof.
  intros Hok Hdiv Hi Hmax He. pose proof ss_pos as Hss.
  unfold entry_at in He. apply bind_Some in He as (l & Hl & [= <-]).
  destruct (buf_read_ok s (entry_sector start idx) 1 Hok) as (s' & HR & Hok' & Hd & Hg & Ea & En);
    [lia|by eapply present_1|].
  destruct (entry_offset_fits idx Hdiv) as [Ho Hf]; [lia|].
  exists s'. split_and!; try done.
  - unfold read_dir_entry, DIR_ENTRY_SIZE. mrun.
    destruct (Z.ltb_spec idx 0); [lia|]. destruct (Z.leb_spec (root_entry_count (bpb s)) idx); [lia|].
    cbn [orb]. rewrite u32_small by lia. mrun. unfold cdiv, cmod. rewrite (fat_bps _ Hok).
    destruct (Z.eqb_spec ss 0); [lia|]. mstep. mrun. fold (entry_sector start idx). rewrite HR. mstep. done.
  - unfold load_entry. mrun. unfold mem_read, DIR_ENTRY_SIZE.
    pose proof (fat_room _ Hok'). destruct (Z.leb_spec 0 (entry_offset idx)); [|lia].
    destruct (Z.leb_spec (entry_offset idx + 32) (zlen (cache_buf (bpb s')))); [|lia]. cbn.
    rewrite <- Hd in Hl. rewrite <- Ea in Hl. rewrite (holds_1 s' l Hok' En Hl).
    rewrite sub_sub by lia. done.
Qed.

Lemma same_geometry_fields b b' : same_geometry b b' ->
  bytes_per_sector b' = bytes_per_sector b /\ sectors_per_cluster b' = sectors_per_cluster b /\
  reserved_sector_count b' = reserved_sector_count b /\ fat_count b' = fat_count b /\
  root_entry_count b' = root_entry_count b /\ sectors_per_fat b' = sectors_per_fat b /\
  zlen (cache_buf b') = zlen (cache_buf b).
Proof. intros (cs & cz & buf & -> & Hl). cbn. by rewrite Hl. Qed.

Lemma same_geometry_store b buf : zlen buf = zlen (cache_buf b) -> same_geometry b (set_cache_buf b buf).
Proof. intros Hl. by eexists _, _, _. Qed.

(** Reading sectors into the cache, storing into them and writing them back:
    what [write_dir_entry], [set_cluster] and a file write do. *)
Lemma load_store_ok s a n off bytes : fat_ok s -> 0 < n <= 2 -> present (dev s) a n ->
  0 <= off -> off + zlen bytes <= ss * n ->
  exists s1 s2, buf_read a n s = Some (0, s1) /\ fat_ok s1 /\ dev s1 = dev s /\
    same_geometry (bpb s) (bpb s1) /\
    mem_write (cache_buf (bpb s1)) off bytes = Some (splice (cache_buf (bpb s1)) off bytes) /\
    buf_write a n (Fat (dev s1) (set_cache_buf (bpb s1) (splice (cache_buf (bpb s1)) off bytes)))
      = Some (0, s2) /\
    fat_ok s2 /\ same_geometry (bpb s) (bpb s2) /\
    cache_sector_start (bpb s2) = a /\ cache_sector_size (bpb s2) = n /\
    holds (dev s) (cache_buf (bpb s1)) a n /\
    cache_buf (bpb s2) = splice (cache_buf (bpb s1)) off bytes /\
    (forall a', a' < a \/ a + n <= a' -> sector (dev s2) a' = sector (dev s) a').
Proof.
  intros Hok Hn Hp Ho Hfit.
  destruct (buf_read_ok s a n Hok Hn Hp) as (s1 & HR & Hok1 & Hd & Hg & Ea & En).
  pose proof (fat_room _ Hok1) as Hroom. pose proof ss_pos as Hss.
  assert (mem_write (cache_buf (bpb s1)) off bytes = Some (splice (cache_buf (bpb s1)) off bytes)) as Hmw.
  { unfold mem_write. destruct (Z.leb_spec 0 off); [|lia].
    destruct (Z.leb_spec (off + zlen bytes) (zlen (cache_buf (bpb s1)))); [done|nia]. }
  rewrite <- Hd in Hp.
  destruct (store_back_ok s1 a n off bytes Hok1 Hn Hp Ea En Ho Hfit) as (s2 & HS & Hok2 & Hb2 & Hout).
  unfold store_back in HS. rewrite run_bind, run_get in HS. cbn [mbind option_bind] in HS.
  rewrite run_bind, run_fault, Hmw in HS. cbn [mbind option_bind] in HS.
  rewrite run_bind, run_put in HS. cbn [mbind option_bind] in HS.
  exists s1, s2. split_and!; try done; try (by rewrite Hb2).
  - rewrite Hb2. eapply same_geometry_trans; [done|]. apply same_geometry_store.
    apply zlen_splice; nia.
  - pose proof (fat_coherent _ Hok1) as Hc. by rewrite Ea, En, Hd in Hc.
  - rewrite <- Hd. done.
Qed.

Lemma nth_splice_other l off bs o : 0 <= off -> off + zlen bs <= zlen l -> 0 <= o -> o + 32 <= zlen l ->
  o + 32 <= off \/ off + zlen bs <= o -> sub (splice l off bs) o 32 = sub l o 32.
Proof.
  pose proof (zlen_nonneg bs). intros ? ? ? ? [?|?]; [apply sub_splice_before|apply sub_splice_after]; lia.
Qed.

Lemma sub_prefix_splice l off bs m : 0 <= off -> off + zlen bs <= m -> m <= zlen l ->
  sub (splice l off bs) 0 m = splice (sub l 0 m) off bs.
Proof.
  intros. pose proof (zlen_nonneg bs). rewrite sub_splice by lia. unfold splice.
  f_equal; [|f_equal].
  - unfold sub. rewrite !drop_0, take_take. f_equal. lia.
  - unfold sub, zlen in *. rewrite drop_0, take_drop_commute. f_equal; [lia|]. f_equal. lia.
Qed.

Lemma write_dir_entry_ok s start idx entry e : fat_ok s -> (32 | ss) -> zlen entry = 32 ->
  0 <= idx < root_entry_count (bpb s) -> 32 * idx < 4294967296 ->
  entry_at (dev s) start idx = Some e ->
  exists s2, write_dir_entry entry start idx s = Some (0, s2) /\ fat_ok s2 /\
    same_geometry (bpb s) (bpb s2) /\
    entry_at (dev s2) start idx = Some entry /\
    (forall j, 0 <= j -> 32 * j < 4294967296 -> j <> idx ->
       entry_at (dev s2) start j = entry_at (dev s) start j).
Proof.
  intros Hok Hdiv Hze Hi Hmax He. pose proof ss_pos as Hss.
  unfold entry_at in He. apply bind_Some in He as (l & Hl & _).
  destruct (entry_offset_fits idx Hdiv) as [Ho Hf]; [lia|].
  destruct (load_store_ok s (entry_sector start idx) 1 (entry_offset idx) entry Hok)
    as (s1 & s2 & HR & Hok1 & Hd1 & Hg1 & Hmw & HW & Hok2 & Hg2 & Ea & En & Hh & Hb2 & Hout);
    [lia|by eapply present_1|lia|lia|].
  pose proof (fat_room _ Hok1) as Hroom.
  assert (sector (dev s2) (entry_sector start idx) = Some (splice l (entry_offset idx) entry)) as Hnew.
  { pose proof (fat_coherent _ Hok2 0) as Hc. rewrite Ea, En, Z.add_0_r, Z.mul_0_r, Hb2 in Hc.
    rewrite Hc by lia. f_equal. rewrite sub_prefix_splice by lia. f_equal.
    specialize (Hh 0). rewrite Z.add_0_r, Z.mul_0_r, Hl in Hh. by injection Hh; [|lia]. }
  pose proof (sector_len _ _ _ Hl) as Hll.
  exists s2. split_and!; try done.
  - unfold write_dir_entry, DIR_ENTRY_SIZE. mrun.
    destruct (Z.ltb_spec idx 0); [lia|]. destruct (Z.leb_spec (root_entry_count (bpb s)) idx); [lia|].
    cbn [orb]. rewrite u32_small by lia. mrun. unfold cdiv, cmod. rewrite (fat_bps _ Hok).
    destruct (Z.eqb_spec ss 0); [lia|]. mstep. mrun.
    replace (32 * idx / ss + start) with (start + 32 * idx / ss) by lia.
    fold (entry_sector start idx). fold (entry_offset idx). rewrite HR. mstep. change (nz 0) with false. cbn iota.
    mrun. rewrite Hmw. mstep. mrun. done.
  - unfold entry_at. rewrite Hnew. cbn. f_equal. rewrite <- Hze. apply sub_splice_same; lia.
  - intros j Hj Hjm Hne. unfold entry_at. destruct (decide (entry_sector start j = entry_sector start idx)) as [E|E].
    + rewrite E, Hnew, Hl. cbn. f_equal. destruct (entry_offset_fits j Hdiv Hj) as [Ho' Hf'].
      apply nth_splice_other; try lia. unfold entry_sector, entry_offset, u32 in *. rewrite Hze.
      assert (32 * j / ss = 32 * idx / ss) as Eq.
      { assert (0 <= 32 * j / ss < 4294967296) by (split; [apply Z.div_pos|apply Z.div_lt_upper_bound]; nia).
        assert (0 <= 32 * idx / ss < 4294967296) by (split; [apply Z.div_pos|apply Z.div_lt_upper_bound]; nia).
        generalize dependent (32 * j / ss). generalize dependent (32 * idx / ss). intros. divmod. }
      pose proof (Z.div_mod (32 * j) ss). pose proof (Z.div_mod (32 * idx) ss). rewrite Eq in *.
      assert (32 * j - 32 * idx = 32 * j mod ss - 32 * idx mod ss) by lia. lia.
    + rewrite Hout; [done|lia].
Qed.

(** A directory entry written with [write_dir_entry] is the one
    [read_dir_entry] then points to, whatever the cache held before; the
    other entries of the directory are unchanged. *)
Theorem dir_entry_roundtrip s start idx entry e : fat_ok s -> (32 | ss) -> zlen entry = 32 ->
  0 <= idx < root_entry_count (bpb s) -> 32 * idx < 4294967296 ->
  entry_at (dev s) start idx = Some e ->
  exists s1 s2 p, write_dir_entry entry start idx s = Some (0, s1) /\
    read_dir_entry start idx s1 = Some (Some p, s2) /\
    load_entry p s2 = Some (entry, s2) /\ fat_ok s2 /\ dev s2 = dev s1 /\
    (forall j, 0 <= j -> 32 * j < 4294967296 -> j <> idx ->
       entry_at (dev s2) start j = entry_at (dev s) start j).
Proof.
  intros Hok Hdiv Hz Hi Hmax He.
  destruct (write_dir_entry_ok s start idx entry e) as (s1 & HW & Hok1 & Hg & He1 & Hother); try done.
  destruct (read_dir_entry_ok s1 start idx entry) as (s2 & HR & Hok2 & Hd & _ & _ & _ & HL); try done.
  { apply same_geometry_fields in Hg as (_ & _ & _ & _ & -> & _). lia. }
  exists s1, s2, (entry_offset idx). rewrite Hd. done.
Qed.

(** ** The allocation table *)

(** The copies of the table's sector [k], from the second on. *)
Definition in_fat (b : bpb_t) (a : Z) : Prop :=
  reserved_sector_count b <= a < reserved_sector_count b + fat_count b * sectors_per_fat b.

Lemma write_fats_ok n i a s : fat_ok s -> 0 <= i -> 0 < sectors_per_fat (bpb s) -> 0 <= a ->
  cache_sector_start (bpb s) = a -> cache_sector_size (bpb s) = 1 ->
  (0 < i \/ n = 0%nat) ->
  (forall j, i <= j < i + Z.of_nat n -> a + j * sectors_per_fat (bpb s) < 4294967296) ->
  (forall j, i <= j < i + Z.of_nat n -> present (dev s) (a + j * sectors_per_fat (bpb s)) 1) ->
  exists s', write_fats n i a s = Some (tt, s') /\ fat_ok s' /\ bpb s' = bpb s /\
    (forall j, i <= j < i + Z.of_nat n ->
       sector (dev s') (a + j * sectors_per_fat (bpb s)) = Some (sub (cache_buf (bpb s)) 0 ss)) /\
    (forall a', (forall j, i <= j < i + Z.of_nat n -> a' <> a + j * sectors_per_fat (bpb s)) ->
       sector (dev s') a' = sector (dev s) a').
Proof.
  revert i s. induction n as [|n IH]; intros i s Hok Hi Hspf Ha Ea En Hpos Hmax Hp.
  { exists s. split_and!; try done. lia. }
  destruct Hpos as [Hpos|?]; [|done]. pose proof ss_pos as Hss. pose proof (fat_room _ Hok) as Hroom.
  pose proof (Hmax i ltac:(lia)).
  cbn [write_fats]. mrun. unfold buf_write. rewrite u32_small by nia.
  set (spf := sectors_per_fat (bpb s)) in *.
  destruct (dev_write_ok (dev s) (a + i * spf) (cache_buf (bpb s)) 1) as (w' & -> & Hin & Hout);
    [lia|apply Hp; lia|lia|]. mstep.
  destruct (IH (i + 1) (Fat w' (bpb s))) as (s' & HR & Hok' & Hb & Hcp & Hoth); cbn [bpb dev];
    try done; try lia; try (intros j Hj; apply Hmax; lia).
  - destruct Hok as [Hb Hr Hc]. split; cbn; try done. intros k Hk. rewrite Hout; [by apply Hc|].
    rewrite Ea, En in *. nia.
  - intros j Hj k Hk. fold spf. destruct (decide (j = i)) as [->|]; [lia|].
    rewrite Hout; [apply Hp; lia|]. nia.
  - cbn [bpb dev] in Hb, Hcp, Hoth. exists s'. fold spf in Hcp, Hoth. split_and!; try done.
    + intros j Hj. destruct (decide (j = i)) as [->|]; [|apply Hcp; lia].
      rewrite Hoth; [|nia]. specialize (Hin 0). rewrite Z.add_0_r, Z.mul_0_r in Hin. apply Hin. lia.
    + intros a' Ha'. rewrite Hoth; [|intros j Hj; apply Ha'; lia].
      apply Hout. specialize (Ha' i). lia.
Qed.

(** Storing a link: every copy of the table gets the same new sector, and
    nothing outside the table changes. *)
Lemma set_cluster_ok s cur next : fat_ok s -> (2 | ss) -> 1 <= fat_count (bpb s) ->
  is_valid_cluster cur = true -> cur * 2 / ss < sectors_per_fat (bpb s) ->
  0 <= reserved_sector_count (bpb s) -> fat16_root_sector_idx (bpb s) < 4294967296 ->
  (forall a, in_fat (bpb s) a -> is_Some (sector (dev s) a)) ->
  exists s' l, set_cluster cur next s = Some (0, s') /\ fat_ok s' /\
    same_geometry (bpb s) (bpb s') /\
    sector (dev s) (reserved_sector_count (bpb s) + cur * 2 / ss) = Some l /\
    (forall i, 0 <= i < fat_count (bpb s) ->
       sector (dev s') (reserved_sector_count (bpb s) + cur * 2 / ss + i * sectors_per_fat (bpb s))
       = Some (splice l (cur * 2 mod ss) (le16 next))) /\
    (forall a, ~ in_fat (bpb s) a -> sector (dev s') a = sector (dev s) a).
Proof.
  intros Hok [q Hq] Hfc Hv Hk Hres Hmax Hall. pose proof ss_pos as Hss.
  assert (0 <= cur) by (unfold is_valid_cluster, CLUSTER_START in Hv; zbool; lia).
  assert (0 <= cur * 2 / ss) by (apply Z.div_pos; lia).
  set (a := reserved_sector_count (bpb s) + cur * 2 / ss).
  set (spf := sectors_per_fat (bpb s)) in *.
  assert (forall j, 0 <= j < fat_count (bpb s) -> in_fat (bpb s) (a + j * spf)) as Hin_fat.
  { intros j Hj. unfold in_fat, a. fold spf. nia. }
  destruct (Hall a) as [l Hl].
  { specialize (Hin_fat 0). rewrite Z.mul_0_l, Z.add_0_r in Hin_fat. apply Hin_fat. lia. }
  assert (0 <= cur * 2 mod ss /\ cur * 2 mod ss + 2 <= ss) as [Ho Hf].
  { rewrite Hq. rewrite Z.mul_mod_distr_r by lia. pose proof (Z.mod_pos_bound cur q). lia. }
  destruct (load_store_ok s a 1 (cur * 2 mod ss) (le16 next) Hok)
    as (s1 & s2 & HR & Hok1 & Hd1 & Hg1 & Hmw & HW & Hok2 & Hg2 & Ea & En & Hh & Hb2 & Hout);
    [lia|by eapply present_1|lia|change (zlen (le16 next)) with 2; lia|].
  pose proof (same_geometry_fields _ _ Hg1) as (_ & _ & _ & Ef1 & _ & Esp1 & _).
  pose proof (same_geometry_fields _ _ Hg2) as (_ & _ & _ & _ & _ & Esp2 & _).
  assert (forall a', sector (dev s2) a' = sector (dev s) a' \/ a' = a) as Hs2.
  { intros a'. destruct (decide (a' = a)); [by right|left]. apply Hout. lia. }
  destruct (write_fats_ok (Z.to_nat (fat_count (bpb s)) - 1) 1 a s2) as (s' & HF & Hok' & Hb' & Hcp & Hoth);
    rewrite ?Esp2; fold spf; try done; try lia.
  { unfold fat16_root_sector_idx, fat16_tabl1_sector_idx in Hmax. unfold a. fold spf in Hmax.
    intros j Hj. nia. }
  { intros j Hj k Hk'. destruct (Hs2 (a + j * spf + k)) as [->| E]; [|nia].
    replace (a + j * spf + k) with (a + j * spf) by lia. apply Hall, Hin_fat. lia. }
  rewrite Esp2 in Hcp, Hoth. fold spf in Hcp, Hoth.
  assert (sub (cache_buf (bpb s2)) 0 ss = splice l (cur * 2 mod ss) (le16 next)) as Hnew.
  { pose proof (fat_room _ Hok1). rewrite Hb2, sub_prefix_splice; [|lia|change (zlen (le16 next)) with 2; lia|lia].
    f_equal. specialize (Hh 0). rewrite Z.add_0_r, Z.mul_0_r, Hl in Hh. by injection Hh; [|lia]. }
  assert (sector (dev s2) a = Some (sub (cache_buf (bpb s2)) 0 ss)) as Ha2.
  { pose proof (fat_coherent _ Hok2 0) as Hc. rewrite Ea, En, Z.add_0_r, Z.mul_0_r in Hc. apply Hc. lia. }
  exists s', l. split_and!; try done.
  - unfold set_cluster. rewrite Hv. cbn [negb]. mrun. unfold cdiv, cmod. rewrite (fat_bps _ Hok).
    destruct (Z.eqb_spec ss 0); [lia|]. mstep. fold spf. destruct (Z.leb_spec spf (cur * 2 / ss)); [lia|].
    mrun. change (fat16_tabl1_sector_idx (bpb s)) with (reserved_sector_count (bpb s)). fold a.
    rewrite HR. mstep. change (nz 0) with false. cbn iota. mrun. rewrite Hmw. mstep. mrun. rewrite Ef1.
    replace (Z.to_nat (fat_count (bpb s))) with (S (Z.to_nat (fat_count (bpb s)) - 1)) by lia.
    cbn [write_fats]. mrun. cbn [sectors_per_fat set_cache_buf set_cache bpb].
    rewrite Z.mul_0_l, Z.add_0_r, u32_small.
    2: { unfold fat16_root_sector_idx, fat16_tabl1_sector_idx in Hmax. unfold a. fold spf in Hmax. nia. }
    rewrite HW. mstep. change (0 + 1) with 1. rewrite HF. mstep. mrun. done.
  - by rewrite Hb'.
  - intros i Hi. destruct (decide (i = 0)) as [->|].
    + rewrite Hoth; [|nia]. by rewrite Z.mul_0_l, Z.add_0_r, Ha2, Hnew.
    + rewrite Hcp by lia. by rewrite Hnew.
  - intros a' Ha'. rewrite Hoth.
    + destruct (Hs2 a') as [?| ->]; [done|]. exfalso. apply Ha'.
      specialize (Hin_fat 0). rewrite Z.mul_0_l, Z.add_0_r in Hin_fat. apply Hin_fat. lia.
    + intros j Hj ->. apply Ha', Hin_fat. lia.
Qed.

(** ** File contents *)

(** The bytes of the [n] sectors from [a] on. *)
Definition cluster_has (w : W) (a n : Z) (l : list Z) : Prop := zlen l = ss * n /\ holds w l a n.

Lemma holds_det w b1 b2 a n : 0 < n <= 2 -> holds w b1 a n -> holds w b2 a n ->
  ss * n <= zlen b1 -> ss * n <= zlen b2 -> sub b1 0 (ss * n) = sub b2 0 (ss * n).
Proof.
  intros Hn H1 H2 L1 L2. pose proof ss_pos as Hss.
  assert (forall k, 0 <= k < n -> sub b1 (ss * k) ss = sub b2 (ss * k) ss) as Hk.
  { intros k Hk. specialize (H1 k Hk). specialize (H2 k Hk). congruence. }
  assert (n = 1 \/ n = 2) as [->| ->] by lia.
  - rewrite Z.mul_1_r. specialize (Hk 0). rewrite Z.mul_0_r in Hk. apply Hk. lia.
  - replace (ss * 2) with (ss + ss) by lia. rewrite <- !sub_app by lia. f_equal.
    + specialize (Hk 0). rewrite Z.mul_0_r in Hk. apply Hk. lia.
    + specialize (Hk 1). rewrite Z.mul_1_r in Hk. rewrite Z.add_0_l. apply Hk. lia.
Qed.

Lemma cluster_cached s a n l : fat_ok s -> 0 < n <= 2 -> cluster_has (dev s) a n l ->
  cache_sector_start (bpb s) = a -> cache_sector_size (bpb s) = n ->
  sub (cache_buf (bpb s)) 0 (ss * n) = l.
Proof.
  intros Hok Hn [Hz Hh] Ea En. pose proof (fat_coherent _ Hok) as Hc. rewrite Ea, En in Hc.
  pose proof (fat_room _ Hok). pose proof ss_pos as Hss.
  rewrite (holds_det (dev s) (cache_buf (bpb s)) l a n) by (done || nia).
  rewrite <- Hz. apply sub_all.
Qed.

Lemma cluster_present w a n l : cluster_has w a n l -> present w a n.
Proof. intros [_ Hh] k Hk. rewrite Hh by done. eauto. Qed.

(** A position inside the current cluster, and a transfer that ends before
    the cluster does. *)
Record in_cluster (b : bpb_t) (file : file_t) (size a : Z) : Prop := {
  ic_spc : 0 < sectors_per_cluster b <= 2;
  ic_pos : 0 <= f_pos file;
  ic_size : 0 < size;
  ic_end : f_pos file mod (ss * sectors_per_cluster b) + size < ss * sectors_per_cluster b;
  ic_max : f_pos file + size < 4294967296;
  ic_sector : cluster_sector b (f_block_cur file) = Some a;
  ic_small : ss * sectors_per_cluster b < 4294967296;
}.

Lemma set_pos_cur file v : set_block_cur (set_pos file v) (f_block_cur file) = set_pos file v.
Proof. done. Qed.

Lemma mem_write_fits l off bs : 0 <= off -> off + zlen bs <= zlen l -> mem_write l off bs = Some (splice l off bs).
Proof.
  intros. unfold mem_write. destruct (Z.leb_spec 0 off); [|lia].
  by destruct (Z.leb_spec (off + zlen bs) (zlen l)); [|lia].
Qed.

Lemma mem_read_fits l off n : 0 <= off -> 0 <= n -> off + n <= zlen l -> mem_read l off n = Some (sub l off n).
Proof.
  intros. unfold mem_read. destruct (Z.leb_spec 0 off); [|lia]. destruct (Z.leb_spec 0 n); [|lia].
  by destruct (Z.leb_spec (off + n) (zlen l)); [|lia].
Qed.

Lemma fat16_read_cluster s file buf size a l : fat_ok s -> in_cluster (bpb s) file size a ->
  f_pos file + size <= f_size file -> size <= zlen buf ->
  cluster_has (dev s) a (sectors_per_cluster (bpb s)) l ->
  exists s', fat16_read file buf size s
    = Some (size, set_pos file (f_pos file + size),
            splice buf 0 (sub l (f_pos file mod (ss * sectors_per_cluster (bpb s))) size), s') /\
    fat_ok s' /\ dev s' = dev s /\ same_geometry (bpb s) (bpb s').
Proof.
  intros Hok [Hspc Hpos Hsz Hend Hmax Hsec Hsmall] Hfile Hbuf Hl. pose proof ss_pos as Hss.
  set (n := sectors_per_cluster (bpb s)) in *. set (off := f_pos file mod (ss * n)) in *.
  assert (0 <= off) by (apply Z.mod_pos_bound; nia).
  destruct (buf_read_ok s a n Hok Hspc) as (s1 & HR & Hok1 & Hd & Hg & Ea & En); [by eapply cluster_present|].
  rewrite <- Hd in Hl. pose proof (cluster_cached s1 a n l Hok1 Hspc Hl Ea En) as Hc.
  pose proof (fat_room _ Hok1) as Hroom.
  assert (zlen l = ss * n) as Hzl by apply Hl.
  assert (sub (cache_buf (bpb s1)) off size = sub l off size) as Hsub.
  { rewrite <- Hc. rewrite sub_sub by lia. done. }
  exists s1. split_and!; try done. unfold fat16_read.
  rewrite (u32_small (f_pos file + size)) by lia. destruct (Z.ltb_spec (f_size file) (f_pos file + size)); [lia|].
  replace (S (Z.to_nat size)) with (S (S (Z.to_nat (size - 1)))) by lia. set (fuel := Z.to_nat (size - 1)).
  cbn [read_file_loop]. destruct (Z.ltb_spec 0 size); [|lia]. mrun.
  unfold fat16_bytes_per_cluster. rewrite (fat_bps _ Hok). fold n. unfold cmod.
  destruct (Z.eqb_spec (ss * n) 0); [nia|]. fold off. mstep. mrun. rewrite Hsec. mstep. mrun. rewrite HR. mstep.
  change (nz 0) with false. cbn iota. mrun. rewrite (u32_small (size + off)) by lia.
  destruct (Z.ltb_spec (ss * n) (size + off)); [lia|].
  rewrite mem_read_fits by nia. mstep. mrun. rewrite Hsub.
  rewrite mem_write_fits by (rewrite ?zlen_sub by lia; lia). mstep. mrun.
  destruct (Z.leb_spec (ss * n) (size + off)); [lia|]. mrun.
  rewrite Z.sub_diag. cbn [Z.ltb Z.compare]. rewrite (u32_small (f_pos file + size)) by lia. done.
Qed.

Lemma fat16_write_cluster s file buf size a l : fat_ok s -> in_cluster (bpb s) file size a ->
  size <= zlen buf -> cluster_has (dev s) a (sectors_per_cluster (bpb s)) l ->
  exists s', fat16_file_operate file buf size fat16_file_operate_write s
    = Some (size, set_pos file (f_pos file + size), buf, s') /\
    fat_ok s' /\ same_geometry (bpb s) (bpb s') /\
    cluster_has (dev s') a (sectors_per_cluster (bpb s))
      (splice l (f_pos file mod (ss * sectors_per_cluster (bpb s))) (sub buf 0 size)) /\
    (forall a', a' < a \/ a + sectors_per_cluster (bpb s) <= a' ->
       sector (dev s') a' = sector (dev s) a').
Proof.
  intros Hok [Hspc Hpos Hsz Hend Hmax Hsec Hsmall] Hbuf Hl. pose proof ss_pos as Hss.
  set (n := sectors_per_cluster (bpb s)) in *. set (off := f_pos file mod (ss * n)) in *.
  assert (0 <= off) by (apply Z.mod_pos_bound; nia).
  assert (zlen (sub buf 0 size) = size) as Hzb by (apply zlen_sub; lia).
  destruct (load_store_ok s a n off (sub buf 0 size) Hok Hspc)
    as (s1 & s2 & HR & Hok1 & Hd1 & Hg1 & Hmw & HW & Hok2 & Hg2 & Ea & En & Hh & Hb2 & Hout);
    [by eapply cluster_present|lia|lia|].
  pose proof (fat_room _ Hok1) as Hroom. pose proof (fat_room _ Hok2) as Hroom2. destruct Hl as [Hzl Hhl].
  assert (sub (cache_buf (bpb s1)) 0 (ss * n) = l) as Hc.
  { rewrite (holds_det (dev s) (cache_buf (bpb s1)) l a n) by (done || nia). rewrite <- Hzl. apply sub_all. }
  exists s2. split_and!; try done.
  - unfold fat16_file_operate.
    replace (S (Z.to_nat size)) with (S (S (Z.to_nat (size - 1)))) by lia. set (fuel := Z.to_nat (size - 1)).
    cbn [operate_loop]. destruct (Z.ltb_spec 0 size); [|lia]. mrun.
    unfold fat16_bytes_per_cluster. rewrite (fat_bps _ Hok). fold n. unfold cmod.
    destruct (Z.eqb_spec (ss * n) 0); [nia|]. fold off. mstep. mrun. rewrite Hsec. mstep. mrun. rewrite HR. mstep.
    change (nz 0) with false. cbn iota. mrun. rewrite (u32_small (size + off)) by lia.
    destruct (Z.ltb_spec (ss * n) (size + off)); [lia|].
    rewrite mem_read_fits by lia. mstep. mrun. rewrite Hmw. mstep. mrun.
    replace (sectors_per_cluster (bpb s1)) with n
      by (pose proof (same_geometry_fields _ _ Hg1) as (_ & -> & _); done).
    rewrite HW. mstep. mrun. change (nz 0) with false. cbn iota. mrun.
    destruct (Z.leb_spec (ss * n) (size + off)); [lia|]. mrun.
    rewrite Z.sub_diag. cbn [Z.ltb Z.compare]. rewrite (u32_small (f_pos file + size)) by lia. done.
  - split; [rewrite zlen_splice by lia; done|].
    pose proof (fat_coherent _ Hok2) as Hc2. rewrite Ea, En in Hc2. intros k Hk.
    rewrite Hc2 by done. f_equal. rewrite Hb2, <- Hc.
    rewrite <- sub_prefix_splice by nia. rewrite sub_sub by nia. done.
Qed.

(** A volume whose tables and first data cluster lie on the device. *)
Record volume_ok s (a : Z) : Prop := {
  vol_ok : fat_ok s;
  vol_even : (2 | ss);
  vol_spc : 0 < sectors_per_cluster (bpb s) <= 2;
  vol_small : ss * sectors_per_cluster (bpb s) < 2147483648;
  vol_res : 0 <= reserved_sector_count (bpb s);
  vol_fats : 1 <= fat_count (bpb s);
  vol_spf : 4 / ss < sectors_per_fat (bpb s);
  vol_root : 0 <= root_entry_count (bpb s);
  vol_data : fat16_root_sector_idx (bpb s) + root_entry_count (bpb s) * 32 / ss = a;
  vol_max : a < 4294967296;
  vol_table : forall a, in_fat (bpb s) a -> is_Some (sector (dev s) a);
}.

Lemma up2_one size bound : 0 < size <= bound -> bound < 2147483648 -> up2 size bound / bound = 1.
Proof.
  intros. unfold up2, down2. destruct (decide (size = bound)) as [->|].
  - rewrite Z.mod_same by lia. apply Z.div_same. lia.
  - rewrite Z.mod_small, Z.sub_diag by lia. destruct (Z.eqb_spec size 0); [lia|].
    change (u32 0) with 0. rewrite Z.add_0_l, u32_small by lia. apply Z.div_same. lia.
Qed.

(** A new file gets cluster 2, whatever the table says. *)
Lemma expand_fresh fuel s file size a : volume_ok s a -> f_size file = 0 ->
  is_valid_cluster (f_block_start file) = false ->
  0 < size <= ss * sectors_per_cluster (bpb s) ->
  exists s', expand_file fuel file size s
    = Some (0, set_block_cur (set_block_start file CLUSTER_START) CLUSTER_START, s') /\
    fat_ok s' /\ same_geometry (bpb s) (bpb s') /\
    (forall a, ~ in_fat (bpb s) a -> sector (dev s') a = sector (dev s) a).
Proof.
  intros [Hok He Hspc Hsm Hres Hfc Hspf Hre Hd Hmax Htab] Hz Hinv Hsize. pose proof ss_pos as Hss.
  destruct (set_cluster_ok s CLUSTER_START INVALID_CLUSTER) as (s' & l & HS & Hok' & Hg & _ & _ & Hout);
    try done.
  { assert (0 <= root_entry_count (bpb s) * 32 / ss) by (apply Z.div_pos; lia). lia. }
  exists s'. split_and!; try done.
  unfold expand_file. mrun. unfold fat16_bytes_per_cluster. rewrite (fat_bps _ Hok), Hz.
  rewrite Z.eqb_refl. mrun. unfold cdiv. set (bpc := ss * sectors_per_cluster (bpb s)) in *.
  destruct (Z.eqb_spec bpc 0); [lia|]. mstep. rewrite Z.eqb_refl, up2_one by lia. mrun.
  change (i32 1) with 1. unfold malloc_free_cluster. change (Z.to_nat 1) with 1%nat. cbn [malloc_loop].
  change (is_valid_cluster INVALID_CLUSTER) with false. cbn [negb]. mrun. change (nz 0) with false. cbn iota.
  mrun. change (0 <=? 1) with true. cbn iota. rewrite HS. mstep. mrun.
  change (negb (is_valid_cluster CLUSTER_START)) with false. cbn iota. rewrite Hinv. cbn [negb]. done.
Qed.

Lemma sub_whole (l : list Z) : sub l 0 (zlen l) = l.
Proof. apply sub_all. Qed.

(** C35: what is written to a new file, less than a cluster of it, is what is
    read back after a seek to its start. *)
Theorem fat16_write_read fuel s file data buf a l : volume_ok s a ->
  f_size file = 0 -> f_pos file = 0 -> is_valid_cluster (f_block_start file) = false ->
  nz (Z.land (f_mode file) O_RDONLY) = false ->
  0 < zlen data < ss * sectors_per_cluster (bpb s) -> zlen data <= zlen buf ->
  cluster_has (dev s) a (sectors_per_cluster (bpb s)) l ->
  exists s1 s2 file1 file2,
    fat16_write fuel file data (zlen data) s = Some (zlen data, file1, s1) /\
    f_size file1 = zlen data /\
    fat16_read (fat16_seek file1 0 SEEK_SET).2 buf (zlen data) s1
    = Some (zlen data, file2, splice buf 0 data, s2) /\ fat_ok s2.
Proof.
  intros Hvol Hsz Hpos Hinv Hmode Hdata Hbuf Hl. pose proof ss_pos as Hss.
  destruct (expand_fresh fuel s file (zlen data) a Hvol Hsz Hinv) as (s0 & HE & Hok0 & Hg0 & Hout0); [lia|].
  destruct Hvol as [Hok He Hspc Hsm Hres Hfc Hspf Hre Hd Hmax Htab].
  pose proof (same_geometry_fields _ _ Hg0) as (_ & Espc & Eres & Efc & Erec & Espf & _).
  set (file0 := set_fsize (set_block_cur (set_block_start file CLUSTER_START) CLUSTER_START) 0).
  set (n := sectors_per_cluster (bpb s)) in *.
  assert (cluster_sector (bpb s0) CLUSTER_START = Some a) as Hsec.
  { unfold cluster_sector, fat16_data_sector_idx, fat16_root_sector_idx, fat16_tabl1_sector_idx, cdiv, DIR_ENTRY_SIZE.
    rewrite (fat_bps _ Hok0), Erec, Eres, Efc, Espf. destruct (Z.eqb_spec ss 0); [lia|]. cbn.
    unfold fat16_root_sector_idx, fat16_tabl1_sector_idx in Hd. rewrite Hd.
    assert (0 <= a). { assert (0 <= root_entry_count (bpb s) * 32 / ss) by (apply Z.div_pos; lia).
      assert (0 <= 4 / ss) by (apply Z.div_pos; lia). nia. }
    rewrite (u32_small a) by lia. change (CLUSTER_START - CLUSTER_START) with 0.
    by rewrite Z.mul_0_l, Z.add_0_r, u32_small by lia. }
  assert (cluster_has (dev s0) a n l) as Hl0.
  { destruct Hl as [Hzl Hh]. split; [done|]. intros k Hk. rewrite Hout0; [by apply Hh|].
    unfold in_fat. assert (0 <= root_entry_count (bpb s) * 32 / ss) by (apply Z.div_pos; lia).
    unfold fat16_root_sector_idx, fat16_tabl1_sector_idx in Hd. lia. }
  rewrite <- Espc in Hl0. fold n in Espc.
  assert (forall f, f_pos f = 0 -> f_block_cur f = CLUSTER_START ->
            in_cluster (bpb s0) f (zlen data) a) as Hic.
  { intros f Ef Ec. split; rewrite ?Ef, ?Ec, ?Espc; try done; try lia. rewrite Z.mod_0_l by nia. lia. }
  destruct (fat16_write_cluster s0 file0 data (zlen data) a l Hok0) as (s1 & HW & Hok1 & Hg1 & Hl1 & _);
    [by apply Hic|lia|done|].
  pose proof (same_geometry_fields _ _ Hg1) as (_ & Espc1 & _).
  assert (f_pos file0 = 0) as Hp0 by done. rewrite Hp0, Z.mod_0_l, sub_whole in Hl1 by nia.
  set (file1 := set_fsize (set_pos file0 (zlen data)) (zlen data)).
  destruct (fat16_read_cluster s1 (set_pos file1 0) buf (zlen data) a (splice l 0 data) Hok1)
    as (s2 & HR & Hok2 & _ & _).
  { destruct (Hic (set_pos file1 0)) as []; [done..|]. destruct Hg1 as (? & ? & ? & -> & _). by split. }
  { cbn. lia. }
  { lia. }
  { by rewrite Espc1. }
  exists s1, s2, file1. eexists. split_and!; [|done| |done].
  - unfold fat16_write. rewrite Hmode.
    assert ((if nz (Z.land (f_mode file) O_APPEND) then set_pos file (f_size file) else file) = file) as ->.
    { cif; [|done]. rewrite Hsz, <- Hpos. by destruct file. }
    rewrite Hsz, Hpos, Z.add_0_l, u32_small by lia. destruct (Z.ltb_spec 0 (zlen data)); [|lia].
    mrun. rewrite HE. mstep. change (nz 0) with false. cbn iota.
    change (f_pos (set_block_cur (set_block_start file CLUSTER_START) CLUSTER_START)) with (f_pos file).
    rewrite Hpos. fold file0. mrun. rewrite HW. mstep. destruct (Z.ltb_spec 0 (zlen data)); [|lia].
    rewrite Hp0. mrun. cbn [f_size set_pos file0 set_fsize]. rewrite !Z.add_0_l, u32_small by lia. done.
  - unfold fat16_seek. cbn [Z.eqb SEEK_SET]. cbn [snd]. change (u32 (Z.max 0 0)) with 0.
    rewrite HR. cbn [f_pos set_pos]. rewrite Z.mod_0_l by nia.
    do 4 f_equal. rewrite sub_splice_same; [done|lia|]. destruct Hl0 as [-> _]. lia.
Qed.

End Fat16Ok.

(** ** Equivalences *)

Section Fat16Eq.
Context {W : Type} `{HB : BlockDev W}.

Lemma read_loop_operate fuel file buf d size (s : fat W) :
  read_file_loop fuel file buf d size s = operate_loop fuel fat16_file_operate_read file buf d size s.
Proof.
  revert file buf d size s. induction fuel as [|fuel IH]; intros file buf d size s; [done|].
  cbn [read_file_loop operate_loop]. cif; [|done]. mrun.
  destruct (cmod _ _) as [off|]; [|done]. mstep. mrun.
  destruct (cluster_sector _ _) as [a|]; [|done]. mstep. mrun.
  destruct (buf_read _ _ s) as [[err s1]|]; [|done]. mstep. cif; [done|]. mrun.
  destruct (mem_read _ _ _) as [bytes|]; [|done]. mstep. mrun.
  destruct (mem_write _ _ _) as [buf'|]; [|done]. mstep. mrun.
  change (nz 0) with false. cbn iota. mrun.
  match goal with |- context [(if ?b then ?m else ?m') ?t] => destruct ((if b then m else m') t) as [[c s2]|] end;
    [|done]. mstep. apply IH.
Qed.

(** [fat16_read] and [fat16_file_operate] in read mode, which are two
    copies of one loop in the source, compute the same function. *)
Theorem fat16_read_operate file buf size (s : fat W) :
  fat16_read file buf size s = fat16_file_operate file buf size fat16_file_operate_read s.
Proof. apply read_loop_operate. Qed.

Lemma malloc_loop_start fuel n start pre cur (s s' : fat W) r :
  is_valid_cluster start = true -> malloc_loop fuel n start pre cur s = Some (r, s') ->
  r = None \/ exists pre', r = Some (start, pre').
Proof.
  intros Hv. revert pre cur s. induction n as [|n IH]; intros pre cur s; cbn [malloc_loop].
  - rewrite run_ret. intros [= <- _]. eauto.
  - rewrite Hv. cbn [negb]. rewrite run_bind. intros ([err s1] & _ & HR)%bind_Some.
    cif_in HR; [|by eapply IH]. rewrite run_bind in HR. apply bind_Some in HR as ([u s2] & _ & HR).
    rewrite run_ret in HR. left. congruence.
Qed.

(** [malloc_free_cluster] does not look for a free cluster: when it
    succeeds it answers cluster 2, whatever the allocation table holds. *)
Theorem malloc_free_cluster_first fuel count (s s' : fat W) r :
  malloc_free_cluster fuel count s = Some (r, s') -> r = CLUSTER_START \/ r = INVALID_CLUSTER.
Proof.
  unfold malloc_free_cluster. rewrite run_bind. intros ([o s1] & HL & HR)%bind_Some.
  assert (o = None \/ (exists p, o = Some (CLUSTER_START, p)) \/ o = Some (INVALID_CLUSTER, INVALID_CLUSTER)) as Ho.
  { destruct (Z.to_nat count) as [|n]; cbn [malloc_loop] in HL.
    - rewrite run_ret in HL. right. right. congruence.
    - change (is_valid_cluster INVALID_CLUSTER) with false in HL. cbn [negb] in HL.
      rewrite run_bind, run_ret in HL. cbn [mbind option_bind] in HL. change (nz 0) with false in HL. cbn iota in HL.
      apply malloc_loop_start in HL; [|done]. destruct HL as [->|(p & ->)]; eauto. }
  destruct Ho as [->|[(p & ->)| ->]].
  - rewrite run_ret in HR. right. congruence.
  - rewrite run_bind in HR. apply bind_Some in HR as ([err s2] & _ & HR). cif_in HR.
    + rewrite run_ret in HR. left. congruence.
    + rewrite run_bind in HR. apply bind_Some in HR as ([u s3] & _ & HR). rewrite run_ret in HR. right. congruence.
  - rewrite run_bind in HR. apply bind_Some in HR as ([err s2] & _ & HR). cif_in HR.
    + rewrite run_ret in HR. right. congruence.
    + rewrite run_bind in HR. apply bind_Some in HR as ([u s3] & _ & HR). rewrite run_ret in HR. right. congruence.
Qed.

End Fat16Eq.

(** The two checksums of a short name agree: the bytes enter one as unsigned
    and the other as signed numbers, which are the same modulo 256. *)
Lemma checksum_loops n i l sum :
  0 <= i -> i + Z.of_nat n <= zlen l ->
  for_ n i (fun i check_sum =>
    c ← zget l i;
    Some (u8 (Z.shiftl (Z.land check_sum 1) 7 + Z.shiftr check_sum 1 + schar c))) sum
  = lfn_checksum_loop n sum (drop (Z.to_nat i) l).
Proof.
  revert i sum. induction n as [|n IH]; intros i sum Hi Hl; [done|].
  destruct (zget_is_Some l i) as (c & Hc); [lia|]. pose proof Hc as Hd. unfold zget in Hd.
  destruct (Z.ltb_spec i 0); [lia|]. cbn [for_]. rewrite Hc. mstep.
  rewrite (drop_S _ _ _ Hd). cbn [lfn_checksum_loop]. rewrite IH by lia.
  replace (Z.to_nat (i + 1)) with (S (Z.to_nat i)) by lia. f_equal.
  unfold u8, schar. destruct (c <? 128); [done|].
  set (x := Z.shiftl _ _ + _). replace (x + (c - 256)) with (x + c + (-1) * 256) by lia.
  by rewrite Z.mod_add.
Qed.

(** [get_check_sum] is [lfn_checksum]. *)
Theorem get_check_sum_lfn (name : list Z) : 11 <= zlen name -> get_check_sum name = lfn_checksum name.
Proof. intros Hl. unfold get_check_sum, lfn_checksum. by rewrite checksum_loops. Qed.

Lemma get_check_sum_lfn_witness : get_check_sum (replicate 11 200) = lfn_checksum (replicate 11 200).
Proof. apply get_check_sum_lfn. by vm_compute. Defined.

(** ** A small volume

    Sixteen sectors from sector 2 of a disk on: boot sector, two tables of one
    sector, a root directory of sixteen entries, then clusters of one
    sector.  The root directory holds one file, [A], of 100 bytes in cluster 2,
    whose bytes are all 7. *)

Definition name_A : mem := [65] ++ replicate 10 32.
Definition entry_A : list Z :=
  name_A ++ [DIR_ENTRY_ATTR_ARCHIVE] ++ replicate 14 0 ++ le16 2 ++ le32 100.
Definition root_A : list Z := entry_A ++ replicate 480 0.
Definition vol_sectors : gmap Z (list Z) :=
  <[5 := root_A]> (<[6 := replicate 512 7]>
    (list_to_map ((fun k => (k, replicate 512 0)) <$> [0; 1; 2; 3; 4; 7; 8; 9; 10; 11]))).
Definition vol_disks : list disk_t :=
  [Disk 0 512 12 [Part 0 0 12 (Some 0); Part 6 2 10 (Some 0); no_part; no_part; no_part] None vol_sectors].
Definition vol_dev : device_t := Device (Some 0) 1 0 1 (Some (0, 1)).
Definition vol_devices : list device_t := [vol_dev].
Definition vol_bpb : bpb_t := Bpb 512 1 1 2 16 1 [70; 65; 84; 49; 54; 32; 32; 32] 0 0 (replicate 4010 0).

#[local] Instance vol_block : BlockDev (list disk_t) := disk_block vol_devices 0.
Definition vol : fat (list disk_t) := Fat vol_disks vol_bpb.

Lemma vol_mounted : disk_mounted vol_devices 0 0 1 vol_dev.
Proof. by split. Qed.

Lemma disk_block_ok_witness : @BlockDevOk (list disk_t) (disk_block vol_devices 0) 512 (part_sector 512 0 1).
Proof. apply (disk_block_ok vol_devices 0 0 1 vol_dev 512); [done|]. by split. Defined.

#[local] Instance vol_block_ok : BlockDevOk (list disk_t) 512 (part_sector 512 0 1).
Proof.
  split; [done|..].
  - intros w a l. apply part_sector_len.
  - intros w a buf n. by apply (block_read_ok vol_devices 0 0 1 vol_dev).
  - intros w a buf n. by apply (block_write_ok vol_devices 0 0 1 vol_dev).
Qed.

Lemma vol_fat_ok : fat_ok (ss := 512) (sector := part_sector 512 0 1) vol.
Proof. split; [done|by vm_compute|]. intros k Hk. cbn in Hk. lia. Qed.

Lemma vol_volume_ok : volume_ok (ss := 512) (sector := part_sector 512 0 1) vol 4.
Proof.
  split; try done; try lia.
  - apply vol_fat_ok.
  - by exists 256.
  - intros a Ha. unfold in_fat in Ha. cbn in Ha. assert (a = 1 \/ a = 2) as [->| ->] by lia; by eexists.
Qed.

Definition file_new : file_t := set_block_start (set_node zero_file 3) INVALID_CLUSTER.

Lemma dir_entry_roundtrip_witness : exists s1 s2 p,
  write_dir_entry entry_A 3 5 vol = Some (0, s1) /\ read_dir_entry 3 5 s1 = Some (Some p, s2) /\
  load_entry p s2 = Some (entry_A, s2) /\
  fat_ok (ss := 512) (sector := part_sector 512 0 1) s2 /\ dev s2 = dev s1 /\
  (forall j, 0 <= j -> 32 * j < 4294967296 -> j <> 5 ->
     entry_at (ss := 512) (sector := part_sector 512 0 1) (dev s2) 3 j
     = entry_at (ss := 512) (sector := part_sector 512 0 1) (dev vol) 3 j).
Proof.
  apply (dir_entry_roundtrip (ss := 512) (sector := part_sector 512 0 1) vol 3 5 entry_A (replicate 32 0)).
  - apply vol_fat_ok.
  - by exists 16.
  - by vm_compute.
  - by vm_compute.
  - by vm_compute.
  - by vm_compute.
Defined.

Lemma fat16_write_read_witness : exists s1 s2 file1 file2,
  fat16_write 9 file_new (replicate 200 1) 200 vol = Some (200, file1, s1) /\
  f_size file1 = 200 /\
  fat16_read (fat16_seek file1 0 SEEK_SET).2 (replicate 512 0) 200 s1
  = Some (200, file2, splice (replicate 512 0) 0 (replicate 200 1), s2) /\
  fat_ok (ss := 512) (sector := part_sector 512 0 1) s2.
Proof.
  apply (fat16_write_read (ss := 512) (sector := part_sector 512 0 1) 9 vol file_new (replicate 200 1)
           (replicate 512 0) 4 (replicate 512 7)); try done.
  - apply vol_volume_ok.
  - split; [done|]. intros k Hk. cbn in Hk. assert (k = 0) as -> by lia. by vm_compute.
Defined.

Lemma malloc_free_cluster_first_witness : exists s', malloc_free_cluster 9 1 vol = Some (2, s') /\
  (2 = CLUSTER_START \/ 2 = INVALID_CLUSTER).
Proof.
  destruct (malloc_free_cluster 9 1 vol) as [[r s']|] eqn:E; [|by vm_compute in E].
  assert (r = 2) as -> by (vm_compute in E; congruence).
  exists s'. split; [done|]. by apply (malloc_free_cluster_first 9 1 vol s').
Defined.

(** ** Where the code departs from the format *)

Definition now : rtc_time := RtcTime 1 2 3 4 5 2023.
Definition junk : open_junk := OpenJunk (replicate 32 170) (replicate 256 170) 0.
Definition path (l : list Z) : mem := l ++ [0].

(** A file created with a short name gets attribute 0, which the search skips:
    opening it again fails. *)
Lemma created_file_lost :
  ( '(r1, _, s1) ← fat16_open 9 junk now (path [66]) (set_open zero_file (Some 0) O_CREAT) vol;
    '(r2, _, _) ← fat16_open 9 junk now (path [66]) zero_file s1;
    Some (r1, r2) ) = Some (0, -1).
Proof. by vm_compute. Qed.

(** The file [A] is found; the directory recorded for it is its own first
    cluster, so that closing it writes the directory entry into its data. *)
Lemma close_overwrites_data :
  ( '(r, file, s1) ← fat16_open 9 junk now (path [97]) zero_file vol;
    '(_, s2) ← fat16_close file now s1;
    data ← part_sector 512 0 1 (dev s2) 4;
    Some (r, f_node_sector_idx file, f_size file, bool_decide (data = replicate 512 7)) )
  = Some (0, 4, 100, false).
Proof. by vm_compute. Qed.

(** Writing to a new file takes cluster 2 away from [A]. *)
Lemma new_file_takes_cluster :
  ( '(_, file, s1) ← fat16_write 9 file_new (replicate 200 1) 200 vol;
    '(_, fileA, s2) ← fat16_open 9 junk now (path [65]) zero_file s1;
    '(_, _, data, _) ← fat16_read fileA (replicate 512 0) 100 s2;
    Some (f_block_start file, f_block_start fileA, take 3 data) )
  = Some (2, 2, [1; 1; 1]).
Proof. by vm_compute. Qed.

(** The link [set_cluster] stores is not the one [get_next_cluster] reads. *)
Lemma next_cluster_wrong :
  ( '(r, s1) ← set_cluster 3 5 vol; '(n, _) ← get_next_cluster 3 s1; Some (r, n) ) = Some (0, 6).
Proof. by vm_compute. Qed.

(** Seeking past position 15 from the current one is refused, and seeking from
    the end moves but reports an error. *)
Lemma seek_limits file : f_pos file = 0 -> f_size file = 100 ->
  fat16_seek file 16 SEEK_CUR = (EOVERFLOW, file) /\
  fat16_seek file 0 SEEK_END = (EINVAL, set_pos file 100).
Proof. intros Hp Hs. unfold fat16_seek. cbn. rewrite Hp, Hs. done. Qed.
