(* ===== verification/Fs.v ===== *)
(** * The file system calls: kernel/fs/fs.c, kernel/fs/devfs.c, and the
    descriptors of a task (kernel/thread/thread.c)

    A file system is a record of operations, [fs_ops_t], as in the source; the
    calls find the mounted file system by the path, and the open file by the
    descriptor.  [W] is what the file systems keep: devices, disks, caches.  An
    operation that a file system leaves NULL faults, and so does the use of a
    variable before it is set. *)

From S2P Require Import Prelude CString Pktbuf Ip Sock Disk File.
From S2P Require Import Prelude.

(** ** Descriptors of the current task *)

Definition TASK_FILE_SIZE : Z := 128.

Fixpoint fd_scan (t : list (option Z)) (i : Z) : option Z :=
  match t with
  | [] => None
  | None :: _ => Some i
  | Some _ :: t' => fd_scan t' (i + 1)
  end.

Definition task_alloc_fd (t : list (option Z)) (file : Z) : option (Z * list (option Z)) :=
  match fd_scan t 0 with
  | None => Some (-1, t)
  | Some i => t ← zset t i (Some file); Some (i, t)
  end.

Definition task_file (t : list (option Z)) (fd : Z) : option (option Z) :=
  if (fd <? 0) || (TASK_FILE_SIZE <=? fd) then Some None else zget t fd.

Definition task_set_file (t : list (option Z)) (fd file : Z) (override : bool)
    : option (Z * list (option Z)) :=
  old ← task_file t fd;
  if (match old with Some _ => true | None => false end) && negb override then Some (-1, t)
  else t ← zset t fd (Some file); Some (0, t).

Definition task_free_fd (t : list (option Z)) (fd : Z) : option (list (option Z)) :=
  if (fd <? 0) || (TASK_FILE_SIZE <=? fd) then Some t else zset t fd None.

(** ** File systems *)

Definition FS_DEV : Z := 0.
Definition FS_FAT16 : Z := 1.
Definition FS_EXT2 : Z := 2.
Definition FS_MOUNTP_SIZE : Z := 512.
Definition FS_TABLE_SIZE : Z := 10.
Definition FILENO_UNKNOWN : Z := -1.
Definition EBADF : Z := -2.

(** The operations [fs.c] calls.  The file system is named by its index in
    [fs_table]; paths are the memory from the path on. *)
Record fs_ops_t (W : Type) := Ops
  { o_mount : W -> Z -> Z -> Z -> option (Z * W);
    o_open : W -> Z -> mem -> file_t -> option (Z * file_t * W);
    o_read : W -> file_t -> list Z -> Z -> option (Z * file_t * list Z * W);
    o_write : W -> file_t -> list Z -> Z -> option (Z * file_t * W);
    o_close : W -> file_t -> option (file_t * W);
    o_seek : W -> file_t -> Z -> Z -> option (Z * file_t);
    o_stat : W -> file_t -> option (Z * W);
    o_remove : W -> file_t -> option (Z * file_t * W);
    o_readdir : W -> file_t -> option (Z * file_t * W);
    o_mkdir : W -> Z -> mem -> file_t -> option (Z * file_t * W);
    o_link : W -> file_t -> mem -> Z -> option (Z * W);
    o_unlink : W -> file_t -> option (Z * file_t * W) }.
Arguments Ops {W} _ _ _ _ _ _ _ _ _ _ _ _.
Arguments o_mount {W} _ _ _ _ _.
Arguments o_open {W} _ _ _ _ _.
Arguments o_read {W} _ _ _ _ _.
Arguments o_write {W} _ _ _ _ _.
Arguments o_close {W} _ _ _.
Arguments o_seek {W} _ _ _ _ _.
Arguments o_stat {W} _ _ _.
Arguments o_remove {W} _ _ _.
Arguments o_readdir {W} _ _ _.
Arguments o_mkdir {W} _ _ _ _ _.
Arguments o_link {W} _ _ _ _ _.
Arguments o_unlink {W} _ _ _.

Record fs_desc_t := FsDesc { mount_point : mem; fs_type : Z }.

Record fs_state (W : Type) := FsState
  { fs_table : list fs_desc_t; free_fs : list Z; mounted_fs : list Z;
    files : list file_t; fds : list (option Z); world : W;
    socks_st : sock_state; ip_st : ip_state }.
Arguments FsState {W} _ _ _ _ _ _ _ _.
Arguments fs_table {W} _.
Arguments free_fs {W} _.
Arguments mounted_fs {W} _.
Arguments files {W} _.
Arguments fds {W} _.
Arguments world {W} _.
Arguments socks_st {W} _.
Arguments ip_st {W} _.

Definition set_files {W} (s : fs_state W) (t : list file_t) : fs_state W :=
  FsState (fs_table s) (free_fs s) (mounted_fs s) t (fds s) (world s) (socks_st s) (ip_st s).
Definition set_fds {W} (s : fs_state W) (t : list (option Z)) : fs_state W :=
  FsState (fs_table s) (free_fs s) (mounted_fs s) (files s) t (world s) (socks_st s) (ip_st s).
Definition set_world {W} (s : fs_state W) (w : W) : fs_state W :=
  FsState (fs_table s) (free_fs s) (mounted_fs s) (files s) (fds s) w (socks_st s) (ip_st s).
Definition set_fs {W} (s : fs_state W) t f m : fs_state W :=
  FsState t f m (files s) (fds s) (world s) (socks_st s) (ip_st s).
Definition set_net {W} (s : fs_state W) u i : fs_state W :=
  FsState (fs_table s) (free_fs s) (mounted_fs s) (files s) (fds s) (world s) u i.

Section Fs.
Context {W : Type}.
(** [fs_ops_table]; NULL for other types. *)
Context (fs_ops_table : Z -> option (fs_ops_t W)).

Definition init_fs_table (s : fs_state W) : fs_state W :=
  set_fs s (fs_table s) (Z.of_nat <$> seq 0 (Z.to_nat FS_TABLE_SIZE)) [].

(** The first mounted file system whose mount point is a prefix of [path]. *)
Fixpoint find_mounted (t : list fs_desc_t) (l : list Z) (path : mem) : option (option Z) :=
  match l with
  | [] => Some None
  | i :: l' =>
      fs ← zget t i;
      n ← strlen (mount_point fs);
      r ← memcmp (mount_point fs) path n;
      if r =? 0 then Some (Some i) else find_mounted t l' path
  end.

Definition ops_of (s : fs_state W) (i : Z) : option (fs_ops_t W) :=
  fs ← zget (fs_table s) i; fs_ops_table (fs_type fs).

(** The file system mounted, or nothing for NULL.  When none is free, or the
    path is mounted already, [fs] is used before it is set. *)
Definition mount (s : fs_state W) (type : Z) (mp : mem) (dev_major dev_minor : Z)
    : option (option Z * fs_state W) :=
  found ← find_mounted (fs_table s) (mounted_fs s) mp;
  match found, free_fs s with
  | None, i :: free' =>
      bytes ← mem_read mp 0 FS_MOUNTP_SIZE;
      t ← zset (fs_table s) i (FsDesc bytes type);
      let s := set_fs s t free' (mounted_fs s) in
      match fs_ops_table type with
      | None => Some (None, set_fs s t (free' ++ [i]) (mounted_fs s))
      | Some ops =>
          '(err, w) ← o_mount ops (world s) i dev_major dev_minor;
          let s := set_world s w in
          if nz err then Some (None, set_fs s t (free' ++ [i]) (mounted_fs s))
          else Some (Some i, set_fs s t free' (mounted_fs s ++ [i]))
      end
  | _, _ => None
  end.

(** ** Calls on descriptors *)

(** The file behind a descriptor and its file system's operations. *)
Definition with_file {A} (s : fs_state W) (fd : Z) (ebadf : A)
    (k : Z -> file_t -> fs_ops_t W -> option A) : option A :=
  p ← task_file (fds s) fd;
  match p with
  | None => Some ebadf
  | Some i =>
      f ← zget (files s) i;
      d ← f_desc f;
      ops ← ops_of s d;
      k i f ops
  end.

(** [path_next_child(name)]. *)
Definition child_path (name : mem) : option mem :=
  n ← path_next_child name; Some (at_ptr name n).

(** When no file system is mounted there, [file] is used before it is set.
    After a failed [open] the descriptor stays. *)
Definition sys_open (s : fs_state W) (name : mem) (flag : Z) : option (Z * fs_state W) :=
  found ← find_mounted (fs_table s) (mounted_fs s) name;
  fs ← found;
  '(p, t) ← alloc_file (files s);
  let s := set_files s t in
  match p with
  | None => Some (FILENO_UNKNOWN, s)
  | Some i =>
      '(fd, ft) ← task_alloc_fd (fds s) i;
      let s := set_fds s ft in
      if fd <? 0 then t ← free_file (files s) i; Some (FILENO_UNKNOWN, set_files s t)
      else
        f ← zget (files s) i;
        let f := set_open f (Some fs) flag in
        path ← child_path name;
        ops ← ops_of s fs;
        '(err, f, w) ← o_open ops (world s) fs path f;
        t ← zset (files s) i f;
        let s := set_world (set_files s t) w in
        if nz err then t ← free_file (files s) i; Some (FILENO_UNKNOWN, set_files s t)
        else Some (fd, s)
  end.

Definition sys_dup (s : fs_state W) (fd : Z) : option (Z * fs_state W) :=
  p ← task_file (fds s) fd;
  match p with
  | None => Some (EBADF, s)
  | Some i =>
      '(new_fd, ft) ← task_alloc_fd (fds s) i;
      let s := set_fds s ft in
      if 0 <=? new_fd then t ← ref_file (files s) i; Some (new_fd, set_files s t)
      else Some (-1, s)
  end.

(** It is the source file's reference that is dropped. *)
Definition sys_dup2 (s : fs_state W) (dst source : Z) : option (Z * fs_state W) :=
  if dst =? source then Some (dst, s)
  else
    p ← task_file (fds s) source;
    match p with
    | None => Some (EBADF, s)
    | Some i =>
        old ← task_file (fds s) dst;
        s ← match old with
            | None => Some s
            | Some _ =>
                t ← free_file (files s) i;
                ft ← task_free_fd (fds s) dst;
                Some (set_fds (set_files s t) ft)
            end;
        '(r, ft) ← task_set_file (fds s) dst i true;
        let s := set_fds s ft in
        if r =? 0 then t ← ref_file (files s) i; Some (dst, set_files s t) else None
    end.

Definition sys_write (s : fs_state W) (fd : Z) (buf : list Z) (size : Z) : option (Z * fs_state W) :=
  with_file s fd (EBADF, s) (fun i f ops =>
    '(r, f, w) ← o_write ops (world s) f buf size;
    t ← zset (files s) i f;
    Some (r, set_world (set_files s t) w)).

Definition sys_read (s : fs_state W) (fd : Z) (buf : list Z) (size : Z)
    : option (Z * list Z * fs_state W) :=
  with_file s fd (EBADF, buf, s) (fun i f ops =>
    '(r, f, buf, w) ← o_read ops (world s) f buf size;
    t ← zset (files s) i f;
    Some (r, buf, set_world (set_files s t) w)).

Definition sys_lseek (s : fs_state W) (fd offset whence : Z) : option (Z * fs_state W) :=
  with_file s fd (EBADF, s) (fun i f ops =>
    '(r, f) ← o_seek ops (world s) f offset whence;
    t ← zset (files s) i f;
    Some (r, set_files s t)).

(** The last reference of a file that is being closed. *)
Definition drop_file (s : fs_state W) (i : Z) : option (fs_state W) :=
  f ← zget (files s) i;
  if f_ref f =? 0 then
    d ← f_desc f;
    ops ← ops_of s d;
    '(f, w) ← o_close ops (world s) f;
    t ← zset (files s) i f;
    Some (set_world (set_files s t) w)
  else Some s.

(** A descriptor that is also the number of a socket closes the socket. *)
Definition sys_close (s : fs_state W) (fd : Z) : option (Z * fs_state W) :=
  so ← get_socket (socks_st s) fd;
  match so with
  | Some _ =>
      '(err, u, i) ← handle_sock_close (socks_st s) (ip_st s) fd;
      Some (if is_err err then -1 else 0, set_net s u i)
  | None =>
      p ← task_file (fds s) fd;
      match p with
      | None => Some (EBADF, s)
      | Some i =>
          f ← zget (files s) i;
          if f_ref f <=? 0 then None
          else
            t ← free_file (files s) i;
            s ← drop_file (set_files s t) i;
            ft ← task_free_fd (fds s) fd;
            Some (0, set_fds s ft)
      end
  end.

Definition sys_fstat (s : fs_state W) (fd : Z) : option (Z * fs_state W) :=
  with_file s fd (EBADF, s) (fun i f ops =>
    '(r, w) ← o_stat ops (world s) f; Some (r, set_world s w)).

Definition O_RDONLY : Z := 2.
Definition sys_stat (s : fs_state W) (name : mem) : option (Z * fs_state W) :=
  '(fd, s) ← sys_open s name O_RDONLY;
  '(ret, s) ← sys_fstat s fd;
  '(_, s) ← sys_close s fd;
  Some (ret, s).

(** [has_dirent]: the caller's pointer is not NULL. *)
Definition sys_readdir (s : fs_state W) (fd : Z) (has_dirent : bool) : option (Z * fs_state W) :=
  with_file s fd (EBADF, s) (fun i f ops =>
    if negb has_dirent then Some (-1, s)
    else
      '(r, f, w) ← o_readdir ops (world s) f;
      t ← zset (files s) i f;
      Some (r, set_world (set_files s t) w)).

(** On failure the file is not freed: the test of [file] is reversed. *)
Definition sys_mkdir (s : fs_state W) (path : mem) : option (Z * fs_state W) :=
  found ← find_mounted (fs_table s) (mounted_fs s) path;
  fs ← found;
  '(p, t) ← alloc_file (files s);
  let s := set_files s t in
  i ← p;
  '(fd, ft) ← task_alloc_fd (fds s) i;
  let s := set_fds s ft in
  if fd <? 0 then Some (FILENO_UNKNOWN, s)
  else
    f ← zget (files s) i;
    let f := set_open f (Some fs) (f_mode f) in
    child ← child_path path;
    ops ← ops_of s fs;
    '(err, f, w) ← o_mkdir ops (world s) fs child f;
    t ← zset (files s) i f;
    let s := set_world (set_files s t) w in
    Some (if nz err then FILENO_UNKNOWN else fd, s).

Definition sys_rmdir (s : fs_state W) (path : mem) : option (Z * fs_state W) :=
  '(fd, s) ← sys_open s path 0;
  if fd <? 0 then Some (fd, s)
  else with_file s fd (EBADF, s) (fun i f ops =>
    '(r, f, w) ← o_remove ops (world s) f;
    t ← zset (files s) i f;
    Some (r, set_world (set_files s t) w)).

Definition _sys_link (s : fs_state W) (new_path old_path : mem) (link_type : Z) : option (Z * fs_state W) :=
  '(fd, s) ← sys_open s old_path 0;
  if fd <? 0 then Some (fd, s)
  else with_file s fd (EBADF, s) (fun i f ops =>
    '(r, w) ← o_link ops (world s) f new_path link_type; Some (r, set_world s w)).
Definition sys_link (s : fs_state W) (new_path old_path : mem) := _sys_link s new_path old_path 0.
Definition sys_symlink (s : fs_state W) (new_path old_path : mem) := _sys_link s new_path old_path 1.

Definition sys_unlink (s : fs_state W) (path : mem) : option (Z * fs_state W) :=
  '(fd, s) ← sys_open s path 0;
  if fd <? 0 then Some (fd, s)
  else with_file s fd (EBADF, s) (fun i f ops =>
    '(r, f, w) ← o_unlink ops (world s) f;
    t ← zset (files s) i f;
    Some (r, set_world (set_files s t) w)).

End Fs.

(** ** devfs *)

Definition DEVFS_TYPES : list (mem * Z * Z) :=
  [([116; 116; 121; 0], FILE_TTY, DEV_TTY); ([100; 105; 115; 107; 0], FILE_FILE, DEV_DISK)].

Section Devfs.
Context {D : Type}.
Context (device_desc_table : list (device_desc_t D)).

(** The device table and what the drivers keep. *)
Notation W := (list device_t * D)%type.

Definition devfs_mount (w : W) (fs major mnr : Z) : option (Z * W) := Some (0, w).

(** [&file->mode] is the argument of [device_open]. *)
Fixpoint devfs_open_loop (l : list (mem * Z * Z)) (w : W) (path : mem) (file : file_t)
    : option (Z * file_t * W) :=
  match l with
  | [] => Some (-1, file, w)
  | (nm, fty, dty) :: l' =>
      len ← strlen nm;
      r ← memcmp nm path len;
      if nz r then devfs_open_loop l' w path file
      else
        n ← strlen path;
        mnr ← (if n <=? len then Some 0
               else
                 '(err, v) ← str2num (at_ptr path len);
                 if nz err then Some 0 else v);
        '(dev_id, devs) ← device_open device_desc_table w.2 w.1 dty mnr 0;
        if dev_id <? 0 then Some (-1, file, (devs, w.2))
        else Some (0, set_dev file dev_id fty, (devs, w.2))
  end.
Definition devfs_open (w : W) (fs : Z) (path : mem) (file : file_t) : option (Z * file_t * W) :=
  devfs_open_loop DEVFS_TYPES w path file.

Definition devfs_read (w : W) (file : file_t) (buf : list Z) (size : Z)
    : option (Z * file_t * list Z * W) :=
  '(r, buf, d) ← device_read device_desc_table w.2 w.1 (f_dev_id file) (f_pos file) buf size;
  Some (r, file, buf, (w.1, d)).

Definition devfs_write (w : W) (file : file_t) (buf : list Z) (size : Z) : option (Z * file_t * W) :=
  '(r, d) ← device_write device_desc_table w.2 w.1 (f_dev_id file) (f_pos file) buf size;
  Some (r, file, (w.1, d)).

Definition devfs_close (w : W) (file : file_t) : option (file_t * W) :=
  '(devs, d) ← device_close device_desc_table w.2 w.1 (f_dev_id file);
  Some (file, (devs, d)).

Definition devfs_seek (w : W) (file : file_t) (offset whence : Z) : option (Z * file_t) :=
  Some (-1, file).

Definition devfs_ioctl (w : W) (file : file_t) (cmd arg0 arg1 : Z) : option (Z * W) :=
  '(r, d) ← device_control device_desc_table w.2 w.1 (f_dev_id file) cmd arg0 arg1;
  Some (r, (w.1, d)).

(** [stat], [remove], [readdir], [mkdir], [link] and [unlink] are NULL. *)
Definition devfs_ops : fs_ops_t W :=
  Ops devfs_mount devfs_open devfs_read devfs_write devfs_close devfs_seek
    (fun _ _ => None) (fun _ _ => None) (fun _ _ => None) (fun _ _ _ _ => None)
    (fun _ _ _ _ => None) (fun _ _ => None).

End Devfs.
