(* ===== verification/FsSpec.v ===== *)
(** * The reference counts of open files

    [refs_ok]: the count of every file of the table is the number of the
    task's descriptors that point to it.  The calls keep it, on the runs the
    step relation [fs_step] describes; the lemmas at the end are the runs it
    leaves out, where the code breaks it. *)

From S2P Require Import Prelude CString Pktbuf Link Ip Sock Disk File Fs.
From S2P Require Import Prelude.

(** ** Counting descriptors *)

Definition fd_refs (ft : list (option Z)) (i : Z) : Z :=
  Z.of_nat (length (filter (fun p => p = Some i) ft)).

Lemma fd_refs_set ft k old v ft' i : zget ft k = Some old -> zset ft k v = Some ft' ->
  fd_refs ft' i = fd_refs ft i - b2z (bool_decide (old = Some i)) + b2z (bool_decide (v = Some i)).
Proof.
  intros Hg [Hk ->]%zset_Some. unfold zget in Hg. destruct (Z.ltb_spec k 0); [done|].
  unfold fd_refs. rewrite <- (take_drop_middle ft _ old Hg) at 2.
  rewrite insert_take_drop by (unfold zlen in Hk; lia).
  rewrite !filter_app, !filter_cons, !length_app.
  repeat case_decide; repeat case_bool_decide; cbn [length b2z]; try done; lia.
Qed.

Lemma fd_refs_bound ft i : 0 <= fd_refs ft i <= zlen ft.
Proof. unfold fd_refs, zlen. pose proof (length_filter (fun p => p = Some i) ft). lia. Qed.

Lemma fd_refs_pos ft fd i : zget ft fd = Some (Some i) -> 1 <= fd_refs ft i.
Proof.
  intros Hg. destruct (fd_refs_bound (<[Z.to_nat fd := None]> ft) i) as [H0 _].
  pose proof (zset_is_Some ft fd None (zget_Some _ _ _ Hg)) as Hs.
  rewrite (fd_refs_set _ _ _ _ _ i Hg Hs) in H0.
  rewrite bool_decide_true, bool_decide_false in H0 by done. cbn in H0. lia.
Qed.

(** ** The invariant *)

Record counts_ok (t : list file_t) (ft : list (option Z)) : Prop := {
  cnt_len : zlen ft = TASK_FILE_SIZE;
  cnt_ref : forall i f, zget t i = Some f -> f_ref f = fd_refs ft i;
  cnt_file : forall fd i, zget ft fd = Some (Some i) -> is_Some (zget t i);
}.

(** A file changes but not its count. *)
Lemma counts_keep t ft i f f' t' : counts_ok t ft -> zget t i = Some f -> zset t i f' = Some t' ->
  f_ref f' = f_ref f -> counts_ok t' ft.
Proof.
  intros [Hl Hr Hf] Hg Hs He. split; [done|..].
  - intros j x. rewrite (zget_zset _ _ _ _ _ Hs). destruct (Z.eqb_spec j i) as [->|]; [|apply Hr].
    intros [= <-]. rewrite He. by apply Hr.
  - intros fd j Hj. rewrite (zget_zset _ _ _ _ _ Hs). destruct (Z.eqb_spec j i); [done|by eapply Hf].
Qed.

(** A descriptor and the count of its file change together; [old] and [new]
    are what the descriptor held and holds. *)
Lemma counts_move t ft k old new i f f' t' ft' : counts_ok t ft -> zget t i = Some f ->
  zget ft k = Some old -> zset t i f' = Some t' -> zset ft k new = Some ft' ->
  f_ref f' = f_ref f - b2z (bool_decide (old = Some i)) + b2z (bool_decide (new = Some i)) ->
  (old = None \/ old = Some i) -> (new = None \/ new = Some i) -> counts_ok t' ft'.
Proof.
  intros [Hl Hr Hf] Hg Hk Hs Hks He Hold Hnew. split.
  - by rewrite (zlen_zset _ _ _ _ Hks).
  - intros j x. rewrite (zget_zset _ _ _ _ _ Hs), (fd_refs_set _ _ _ _ _ j Hk Hks).
    destruct (Z.eqb_spec j i) as [->|Hne].
    + intros [= <-]. rewrite He, (Hr _ _ Hg). done.
    + intros Hx. rewrite (Hr _ _ Hx), !bool_decide_false; [cbn; lia|..].
      * intros E. destruct Hnew; congruence.
      * intros E. destruct Hold; congruence.
  - intros fd j. rewrite (zget_zset _ _ _ _ _ Hks), (zget_zset _ _ _ _ _ Hs).
    destruct (Z.eqb_spec j i) as [->|Hne]; [done|]. destruct (Z.eqb_spec fd k) as [->|].
    + intros [= E]. destruct Hnew; congruence.
    + apply Hf.
Qed.

Lemma counts_range t ft i f : counts_ok t ft -> zget t i = Some f -> 0 <= f_ref f <= 128.
Proof.
  intros [Hl Hr _] Hg. rewrite (Hr _ _ Hg). pose proof (fd_refs_bound ft i).
  unfold TASK_FILE_SIZE in Hl. lia.
Qed.

Lemma fd_scan_Some ft i k : fd_scan ft i = Some k -> zget ft (k - i) = Some None /\ i <= k.
Proof.
  revert i. induction ft as [|[x|] ft IH]; intros i; cbn [fd_scan]; [done|..].
  - intros [Hk Hle]%IH. split; [|lia]. apply (zget_cons_tail (Some x)) in Hk.
    by replace (k - (i + 1) + 1) with (k - i) in Hk by lia.
  - intros [= <-]. by rewrite Z.sub_diag.
Qed.

Lemma task_alloc_fd_Some ft i fd ft' : task_alloc_fd ft i = Some (fd, ft') ->
  (fd = -1 /\ ft' = ft) \/ (0 <= fd /\ zget ft fd = Some None /\ zset ft fd (Some i) = Some ft').
Proof.
  unfold task_alloc_fd. destruct (fd_scan ft 0) as [k|] eqn:E; [|intros [= <- <-]; by left].
  apply fd_scan_Some in E as [Hg Hk]. rewrite Z.sub_0_r in Hg.
  intros (t & Ht & [= <- <-])%bind_Some. by right.
Qed.

Lemma alloc_scan_Some t i k : alloc_scan t i = Some k ->
  exists f, zget t (k - i) = Some f /\ f_ref f = 0.
Proof.
  revert i. induction t as [|f t IH]; intros i; cbn [alloc_scan]; [done|]. cif.
  - intros [= <-]. exists f. by rewrite Z.sub_diag.
  - intros (g & Hg & Hz)%IH. exists g. split; [|done]. apply (zget_cons_tail f) in Hg.
    by replace (k - (i + 1) + 1) with (k - i) in Hg by lia.
Qed.

Lemma task_file_Some ft fd i : task_file ft fd = Some (Some i) -> zget ft fd = Some (Some i).
Proof. unfold task_file. by cif. Qed.

(** ** The calls *)

Section FsOk.
Context {W : Type}.
Context (fs_ops_table : Z -> option (fs_ops_t W)).

(** What the calls rely on of a file system: its operations work on a file
    without touching its reference count. *)
Record keeps_ref (ops : fs_ops_t W) : Prop := {
  kr_open : forall w i p f r f' w', o_open ops w i p f = Some (r, f', w') -> f_ref f' = f_ref f;
  kr_read : forall w f b n r f' b' w', o_read ops w f b n = Some (r, f', b', w') -> f_ref f' = f_ref f;
  kr_write : forall w f b n r f' w', o_write ops w f b n = Some (r, f', w') -> f_ref f' = f_ref f;
  kr_close : forall w f f' w', o_close ops w f = Some (f', w') -> f_ref f' = f_ref f;
  kr_seek : forall w f o n r f', o_seek ops w f o n = Some (r, f') -> f_ref f' = f_ref f;
}.
Context (Hops : forall ty ops, fs_ops_table ty = Some ops -> keeps_ref ops).

Definition refs_ok (s : fs_state W) : Prop := counts_ok (files s) (fds s).

Lemma ops_of_keeps s i ops : ops_of fs_ops_table s i = Some ops -> keeps_ref ops.
Proof. unfold ops_of. intros (fs & _ & Ho)%bind_Some. by eapply Hops. Qed.

(** A call that only lets the file system work on the file. *)
Lemma with_file_refs {A} s fd (e : A) k r : refs_ok s ->
  with_file fs_ops_table s fd e k = Some r ->
  r = e \/ exists i f ops, zget (files s) i = Some f /\ keeps_ref ops /\ k i f ops = Some r.
Proof.
  intros Hok. unfold with_file. intros (p & Hp & H)%bind_Some. destruct p as [i|]; [right|left; congruence].
  apply bind_Some in H as (f & Hf & H). apply bind_Some in H as (d & Hd & H).
  apply bind_Some in H as (ops & Ho & H). exists i, f, ops. eauto using ops_of_keeps.
Qed.

Lemma sys_read_refs s fd buf n r buf' s' : refs_ok s ->
  sys_read fs_ops_table s fd buf n = Some (r, buf', s') -> refs_ok s'.
Proof.
  intros Hok H. apply with_file_refs in H as [E|(i & f & ops & Hf & Hk & H)]; [by injection E as -> -> ->| |done].
  apply bind_Some in H as ([[[r1 f1] b1] w1] & Ho & H). apply bind_Some in H as (t & Ht & [= <- <- <-]).
  eapply counts_keep; [done|done|exact Ht|]. by eapply kr_read.
Qed.

Lemma sys_write_refs s fd buf n r s' : refs_ok s ->
  sys_write fs_ops_table s fd buf n = Some (r, s') -> refs_ok s'.
Proof.
  intros Hok H. apply with_file_refs in H as [E|(i & f & ops & Hf & Hk & H)]; [by injection E as -> ->| |done].
  apply bind_Some in H as ([[r1 f1] w1] & Ho & H). apply bind_Some in H as (t & Ht & [= <- <-]).
  eapply counts_keep; [done|done|exact Ht|]. by eapply kr_write.
Qed.

Lemma sys_lseek_refs s fd o n r s' : refs_ok s ->
  sys_lseek fs_ops_table s fd o n = Some (r, s') -> refs_ok s'.
Proof.
  intros Hok H. apply with_file_refs in H as [E|(i & f & ops & Hf & Hk & H)]; [by injection E as -> ->| |done].
  apply bind_Some in H as ([r1 f1] & Ho & H). apply bind_Some in H as (t & Ht & [= <- <-]).
  eapply counts_keep; [done|done|exact Ht|]. by eapply kr_seek.
Qed.

(** One more descriptor for a file. *)
Lemma add_fd_refs s i fd ft t : refs_ok s -> zget (fds s) fd = Some None ->
  zset (fds s) fd (Some i) = Some ft -> ref_file (files s) i = Some t -> counts_ok t ft.
Proof.
  intros Hok Hg Hs. unfold ref_file. intros (f & Hf & Ht)%bind_Some.
  pose proof (counts_range _ _ _ _ Hok Hf).
  eapply counts_move; [done|exact Hf|exact Hg|exact Ht|exact Hs| |by left|by right].
  rewrite bool_decide_false, bool_decide_true by done. cbn. rewrite i32_small; lia.
Qed.

Lemma sys_dup_refs s fd r s' : refs_ok s -> sys_dup s fd = Some (r, s') -> refs_ok s'.
Proof.
  intros Hok. unfold sys_dup. intros (p & Hp & H)%bind_Some.
  destruct p as [i|]; [|by injection H as <- <-].
  apply bind_Some in H as ([nfd ft] & Ha & H).
  apply task_alloc_fd_Some in Ha as [[-> ->]|(Hnfd & Hg & Hs)].
  - cbn in H. injection H as <- <-. by destruct s.
  - destruct (Z.leb_spec 0 nfd); [|lia]. apply bind_Some in H as (t & Ht & [= <- <-]).
    by eapply add_fd_refs.
Qed.

(** [dup2] onto a free descriptor. *)
Lemma sys_dup2_refs s dst src r s' : refs_ok s -> task_file (fds s) dst = Some None ->
  sys_dup2 s dst src = Some (r, s') -> refs_ok s'.
Proof.
  intros Hok Hdst. unfold sys_dup2. cif; [by intros [= <- <-]|]. intros (p & Hp & H)%bind_Some.
  destruct p as [i|]; [|by injection H as <- <-]. rewrite Hdst in H. cbn [mbind option_bind] in H.
  apply bind_Some in H as ([r1 ft] & Hs & H). unfold task_set_file in Hs. rewrite Hdst in Hs.
  cbn [mbind option_bind andb] in Hs. apply bind_Some in Hs as (t & Ht & [= <- <-]).
  cbn [Z.eqb] in H. apply bind_Some in H as (t' & Ht' & [= <- <-]).
  eapply add_fd_refs; [done| |done|done]. unfold task_file in Hdst. cif_in Hdst; [|done].
  apply zset_Some in Ht as [Hr _]. pose proof (cnt_len _ _ Hok).
  unfold TASK_FILE_SIZE in *. destruct (Z.ltb_spec dst 0); [lia|]. destruct (Z.leb_spec 128 dst); [lia|done].
Qed.

Lemma drop_file_refs s ft i s' : counts_ok (files s) ft -> drop_file fs_ops_table s i = Some s' ->
  counts_ok (files s') ft /\ fds s' = fds s.
Proof.
  intros Hok. unfold drop_file. intros (f & Hf & H)%bind_Some. cif_in H; [|by injection H as <-].
  apply bind_Some in H as (d & Hd & H). apply bind_Some in H as (ops & Ho & H).
  apply bind_Some in H as ([f1 w1] & Hc & H). apply bind_Some in H as (t & Ht & [= <-]).
  split; [|done]. eapply counts_keep; [done|exact Hf|exact Ht|].
  eapply kr_close; [by eapply ops_of_keeps|done].
Qed.

(** Closing keeps the counts: the file loses the descriptor and a
    reference; a socket's number leaves them alone. *)
Lemma sys_close_refs s fd r s' : refs_ok s -> sys_close fs_ops_table s fd = Some (r, s') -> refs_ok s'.
Proof.
  intros Hok. unfold sys_close. intros (so & _ & H)%bind_Some. destruct so as [so|].
  { apply bind_Some in H as ([[e u] x] & _ & [= <- <-]). done. }
  apply bind_Some in H as (p & Hp & H). destruct p as [i|]; [|by injection H as <- <-].
  apply task_file_Some in Hp. apply bind_Some in H as (f & Hf & H). cif_in H; [done|].
  apply bind_Some in H as (t & Ht & H). apply bind_Some in H as (s1 & Hd & H).
  apply bind_Some in H as (ft & Hft & [= <- <-]).
  unfold free_file in Ht. rewrite Hf in Ht. cbn in Ht. pose proof (counts_range _ _ _ _ Hok Hf).
  pose proof (zset_is_Some (fds s) fd None (zget_Some _ _ _ Hp)) as Hz.
  assert (counts_ok t (<[Z.to_nat fd := None]> (fds s))) as Hc.
  { eapply counts_move; [done|exact Hf|exact Hp|exact Ht|exact Hz| |by right|by left].
    rewrite bool_decide_true, bool_decide_false by done. cbn. rewrite i32_small; lia. }
  destruct (drop_file_refs (set_files s t) _ i s1 Hc Hd) as [Hc1 Hfds]. cbn in Hfds.
  unfold task_free_fd in Hft. rewrite Hfds in Hft. pose proof (zget_Some _ _ _ Hp) as Hr.
  rewrite (cnt_len _ _ Hok) in Hr.
  destruct (Z.ltb_spec fd 0); [lia|]. destruct (Z.leb_spec TASK_FILE_SIZE fd); [lia|]. cbn in Hft.
  unfold refs_ok. cbn. congruence.
Qed.

(** A call of [open] that succeeds. *)
Lemma sys_open_refs s name flag fd s' : refs_ok s -> 0 <= fd ->
  sys_open fs_ops_table s name flag = Some (fd, s') -> refs_ok s'.
Proof.
  intros Hok Hfd. unfold sys_open. intros (found & _ & H)%bind_Some. apply bind_Some in H as (fs & _ & H).
  apply bind_Some in H as ([p t] & Ha & H). destruct p as [i|]; [|injection H as <- <-; unfold FILENO_UNKNOWN in Hfd; lia].
  unfold alloc_file in Ha. destruct (alloc_scan (files s) 0) as [k|] eqn:Es; [|done].
  apply alloc_scan_Some in Es as (f0 & Hf0 & Hz). rewrite Z.sub_0_r in Hf0. rewrite Hf0 in Ha. cbn in Ha.
  apply bind_Some in Ha as (t1 & Ht1 & [= <- <-]).
  apply bind_Some in H as ([fd1 ft] & Hfd1 & H). cbn [fds set_files] in Hfd1.
  apply task_alloc_fd_Some in Hfd1 as [[-> ->]|(Hge & Hg & Hs)].
  { cbn in H. apply bind_Some in H as (t2 & _ & [= <- <-]). unfold FILENO_UNKNOWN in Hfd. lia. }
  destruct (Z.ltb_spec fd1 0); [lia|]. cbn [files set_files set_fds] in H.
  rewrite (zget_zset _ _ _ _ _ Ht1), Z.eqb_refl in H. cbn [mbind option_bind] in H.
  apply bind_Some in H as (pth & _ & H). apply bind_Some in H as (ops & Ho & H).
  apply bind_Some in H as ([[err f1] w] & Hop & H). apply bind_Some in H as (t2 & Ht2 & H).
  cif_in H.
  { apply bind_Some in H as (t3 & _ & [= <- <-]). unfold FILENO_UNKNOWN in Hfd. lia. }
  injection H as <- <-. apply ops_of_keeps in Ho. apply (kr_open _ Ho) in Hop. cbn in Hop.
  unfold refs_ok. cbn.
  assert (zset (files s) k f1 = Some t2) as Ht2'.
  { apply zset_Some in Ht1 as [Hr ->]. apply zset_Some in Ht2 as [_ ->].
    rewrite (zset_is_Some (files s) k f1 Hr). f_equal. symmetry. apply list_insert_insert_eq. }
  eapply counts_move; [done|exact Hf0|exact Hg|exact Ht2'|exact Hs| |by left|by right].
  rewrite bool_decide_false, bool_decide_true by done. cbn. lia.
Qed.

(** ** Runs *)

Inductive fs_step : fs_state W -> fs_state W -> Prop :=
  | step_open s name flag fd s' :
      sys_open fs_ops_table s name flag = Some (fd, s') -> 0 <= fd -> fs_step s s'
  | step_read s fd buf n r buf' s' : sys_read fs_ops_table s fd buf n = Some (r, buf', s') -> fs_step s s'
  | step_write s fd buf n r s' : sys_write fs_ops_table s fd buf n = Some (r, s') -> fs_step s s'
  | step_lseek s fd o n r s' : sys_lseek fs_ops_table s fd o n = Some (r, s') -> fs_step s s'
  | step_dup s fd r s' : sys_dup s fd = Some (r, s') -> fs_step s s'
  | step_dup2 s dst src r s' : task_file (fds s) dst = Some None ->
      sys_dup2 s dst src = Some (r, s') -> fs_step s s'
  | step_close s fd r s' : sys_close fs_ops_table s fd = Some (r, s') -> fs_step s s'.

(** C36: the reference counts stay right: along every run of successful
    opens, reads, writes, seeks, duplications onto free descriptors and
    closes, each file's count is the number of descriptors of the task that
    point to it; a file is free exactly when no descriptor reaches it. *)
Theorem refs_invariant s s' : refs_ok s -> rtc fs_step s s' ->
  forall i f, zget (files s') i = Some f -> f_ref f = fd_refs (fds s') i.
Proof.
  intros Hok Hrun. assert (refs_ok s') as [_ Hr _]; [|done].
  induction Hrun as [|s s1 s2 Hstep _ IH]; [done|]. apply IH. destruct Hstep.
  - by eapply sys_open_refs.
  - by eapply sys_read_refs.
  - by eapply sys_write_refs.
  - by eapply sys_lseek_refs.
  - by eapply sys_dup_refs.
  - by eapply sys_dup2_refs.
  - by eapply sys_close_refs.
Qed.

End FsOk.

(** ** devfs *)

Lemma devfs_open_loop_ref {D} (table : list (device_desc_t D)) l w path f r f' w' :
  devfs_open_loop table l w path f = Some (r, f', w') -> f_ref f' = f_ref f.
Proof.
  induction l as [|[[nm fty] dty] l IH]; cbn [devfs_open_loop]; intros H; [by simplify_eq|].
  apply bind_Some in H as (len & _ & H). apply bind_Some in H as (c & _ & H). cif_in H; [by apply IH|].
  apply bind_Some in H as (n & _ & H). apply bind_Some in H as (mnr & _ & H).
  apply bind_Some in H as ([dev devs] & _ & H). by cif_in H; simplify_eq.
Qed.

Lemma devfs_keeps_ref {D} (table : list (device_desc_t D)) : keeps_ref (devfs_ops table).
Proof.
  split.
  - intros w i p f r f' w'. apply devfs_open_loop_ref.
  - intros w f b n r f' b' w'. unfold devfs_read. intros ([[? ?] ?] & _ & E)%bind_Some. by simplify_eq.
  - intros w f b n r f' w'. unfold devfs_write. intros ([? ?] & _ & E)%bind_Some. by simplify_eq.
  - intros w f f' w'. unfold devfs_close. intros ([? ?] & _ & E)%bind_Some. by simplify_eq.
  - intros w f o n r f' E. unfold devfs_ops, devfs_seek in E. cbn in E. by simplify_eq.
Qed.

(** A kernel with [/dev] mounted and one disk behind it. *)
Definition run_ops (ty : Z) : option (fs_ops_t (list device_t * list disk_t)) :=
  if ty =? FS_DEV then Some (devfs_ops [dev_disk_desc]) else None.
Definition dev_point : mem := [47; 100; 101; 118; 0].
Definition no_link : link_state := Link (PMem ∅ [] []) ∅ [] 0 [] [] [] ∅ [] [].
Definition no_ip : ip_state := IpState no_link [] ∅ [] [] 0.
Definition no_socks : sock_state :=
  SockState ∅ (replicate 128 (Socket SOCKET_STATE_FREE 0)) [] [] [] [].
Definition fs0 (u : sock_state) : fs_state (list device_t * list disk_t) :=
  FsState [FsDesc dev_point FS_DEV] [] [0] (replicate 4 zero_file) (replicate 128 None)
    (demo_devices, demo_disks) u no_ip.
(** ["/dev/disk17"] *)
Definition disk17 : mem := [47; 100; 101; 118; 47; 100; 105; 115; 107; 49; 55; 0].
(** ["/dev/none"] *)
Definition none_path : mem := [47; 100; 101; 118; 47; 110; 111; 110; 101; 0].

Lemma run_ops_keep ty ops : run_ops ty = Some ops -> keeps_ref ops.
Proof. unfold run_ops. cif; [|done]. intros [= <-]. apply devfs_keeps_ref. Qed.

Lemma fd_refs_none n i : fd_refs (replicate n None) i = 0.
Proof. unfold fd_refs. induction n as [|n IH]; [done|]. cbn [replicate]. by rewrite filter_cons_False. Qed.

Lemma fs0_ok u : refs_ok (fs0 u).
Proof.
  split.
  - cbn [fds fs0]. unfold zlen. by rewrite length_replicate.
  - cbn [files fds fs0]. intros i f. rewrite fd_refs_none. unfold zget. cif; [done|].
    by intros [-> _]%lookup_replicate.
  - cbn [fds fs0]. intros fd i. unfold zget. cif; [done|]. by intros [? _]%lookup_replicate.
Qed.

(** The kernel after [/dev/disk17] is opened and its descriptor duplicated. *)
Definition run_dup : option (fs_state (list device_t * list disk_t)) :=
  '(fd, s) ← sys_open run_ops (fs0 no_socks) disk17 0; '(_, s) ← sys_dup s fd; Some s.

Lemma refs_invariant_witness : exists s, run_dup = Some s /\
  forall i f, zget (files s) i = Some f -> f_ref f = fd_refs (fds s) i.
Proof.
  destruct (sys_open run_ops (fs0 no_socks) disk17 0) as [[fd s1]|] eqn:E1; [|by vm_compute in E1].
  destruct (sys_dup s1 fd) as [[fd2 s2]|] eqn:E2.
  2: { assert (run_dup = None) as E by (unfold run_dup; rewrite E1; cbn; by rewrite E2). by vm_compute in E. }
  exists s2. split; [unfold run_dup; rewrite E1; cbn; by rewrite E2|].
  apply (refs_invariant run_ops run_ops_keep (fs0 no_socks)); [apply fs0_ok|].
  apply (rtc_l _ _ s1); [|apply (rtc_l _ _ s2); [by eapply step_dup|apply rtc_refl]].
  eapply step_open; [exact E1|]. assert (fd = 0) as ->; [|done].
  assert (fst <$> sys_open run_ops (fs0 no_socks) disk17 0 = Some 0) as E by (by vm_compute).
  rewrite E1 in E. by injection E.
Defined.

(** ** Runs that break the counts *)

(** A failed open frees the file but not the descriptor, which then points to
    a free entry of the table. *)
Lemma failed_open_keeps_fd :
  ( '(fd, s) ← sys_open run_ops (fs0 no_socks) none_path 0;
    Some (fd, f_ref <$> take 1 (files s), take 1 (fds s)) ) = Some (-1, [0], [Some 0]).
Proof. by vm_compute. Qed.

(** [dup2] onto an open descriptor drops a reference of the source file and
    not of the file it replaces, which is never closed. *)
Lemma dup2_leaks_old :
  ( '(_, s) ← sys_open run_ops (fs0 no_socks) disk17 0;
    '(_, s) ← sys_open run_ops s disk17 0;
    '(r, s) ← sys_dup2 s 0 1;
    Some (r, f_ref <$> take 2 (files s), take 2 (fds s)) ) = Some (0, [1; 1], [Some 1; Some 1]).
Proof. by vm_compute. Qed.

(** File descriptors and sockets share their numbers: with socket 0 in use,
    closing file descriptor 0 closes the socket, and the file stays open. *)
Definition socket_0 : sock_state :=
  SockState {[500 := Sock 0 0 0 0 udp_ops 0 0 NET_ERR_OK 0 0 (SockWait 0 NET_ERR_OK 0) []]}
    (Socket SOCKET_STATE_USED 500 :: replicate 127 (Socket SOCKET_STATE_FREE 0)) [500] [] [] [].
Lemma close_takes_socket :
  ( '(fd, s) ← sys_open run_ops (fs0 socket_0) disk17 0;
    '(r, s) ← sys_close run_ops s fd;
    Some (fd, r, f_ref <$> take 1 (files s), take 1 (fds s), udp_list (socks_st s)) )
  = Some (0, 0, [1], [Some 0], []).
Proof. by vm_compute. Qed.

(** [stat] of a device calls a NULL operation. *)
Lemma stat_device_faults : sys_stat run_ops (fs0 no_socks) disk17 = None.
Proof. by vm_compute. Qed.
