(* ===== verification/Fat16Fs.v ===== *)
(** * FAT16 as a mounted file system: [fat16_ops] of kernel/fs/fat16fs.c

    The record of operations the file system calls use, over a mounted
    volume.  Its operations leave a file's reference count alone, so the
    invariant of the calls holds with it; and a file of the small volume is
    opened, read and closed through the calls. *)

From S2P Require Import Prelude CString Pktbuf Layout Link Ip Sock Disk File Fat16 Fat16Spec Fs FsSpec.
From S2P Require Import Prelude.

Section FatOps.
Context {W : Type} `{BlockDev W}.
(** The fuel of the loops along a chain, what the stack and the clock hold. *)
Context (fuel : nat) (jk : open_junk) (t : rtc_time).

(** [mkdir], [remove], [link] and [unlink] have empty bodies: their result is
    undefined. *)
Definition fat16_ops : fs_ops_t (fat W) :=
  Ops
    (fun w _ _ _ => Some (0, w))
    (fun w _ path f => '(r, f, w) ← fat16_open fuel jk t path f w; Some (r, f, w))
    (fun w f buf n => '(r, f, buf, w) ← fat16_read f buf n w; Some (r, f, buf, w))
    (fun w f buf n => '(r, f, w) ← fat16_write fuel f buf n w; Some (r, f, w))
    (fun w f => '(_, w) ← fat16_close f t w; Some (f, w))
    (fun w f o n => let '(r, f) := fat16_seek f o n in Some (r, f))
    (fun w f => '(_, w) ← fat16_stat fuel f w; Some (0, w))
    (fun _ _ => None)
    (fun w f => '(r, f, _, w) ← fat16_readdir f w; Some (r, f, w))
    (fun _ _ _ _ => None) (fun _ _ _ _ => None) (fun _ _ => None).

(** Opens a run of the monad in a hypothesis. *)
Ltac minv H :=
  repeat (rewrite run_bind in H; let x := fresh "x" in apply bind_Some in H as ([x ?] & ? & H)).

Lemma read_file_info_ref f e i p (s s' : fat W) f' :
  read_file_info f e i p s = Some (f', s') -> f_ref f' = f_ref f.
Proof.
  unfold read_file_info. intros E. minv E. cif_in E; minv E; rewrite run_ret in E; by simplify_eq.
Qed.

Lemma fat16_open_ref p f (s s' : fat W) r f' :
  fat16_open fuel jk t p f s = Some (r, f', s') -> f_ref f' = f_ref f.
Proof.
  unfold fat16_open. intros E. rewrite run_bind in E. apply bind_Some in E as ([b s0] & _ & E).
  rewrite run_bind in E. apply bind_Some in E as ([[[pa sa] na] s1] & _ & E).
  rewrite run_bind in E. apply bind_Some in E as ([w s2] & _ & E).
  destruct (w_item w) as [e|].
  - rewrite run_bind in E. apply bind_Some in E as ([f1 s3] & Hi%read_file_info_ref & E).
    cif_in E; [minv E|]; rewrite run_ret in E; simplify_eq; exact Hi.
  - cif_in E; [|rewrite run_ret in E; by simplify_eq].
    rewrite run_bind in E. apply bind_Some in E as ([e s3] & _ & E).
    rewrite run_bind in E. apply bind_Some in E as ([n s4] & _ & E).
    rewrite run_bind in E. apply bind_Some in E as ([[[er en] idx] s5] & _ & E).
    cif_in E; [rewrite run_ret in E; by simplify_eq|].
    rewrite run_bind in E. apply bind_Some in E as ([er2 s6] & _ & E).
    cif_in E; [rewrite run_ret in E; by simplify_eq|].
    rewrite run_bind in E. apply bind_Some in E as ([f1 s7] & Hi%read_file_info_ref & E).
    rewrite run_ret in E. by simplify_eq.
Qed.

Lemma operate_loop_ref n op f buf d size (s s' : fat W) r f' buf' :
  operate_loop n op f buf d size s = Some (r, f', buf', s') -> f_ref f' = f_ref f.
Proof.
  revert f buf d size s. induction n as [|n IH]; intros f buf d size s; cbn [operate_loop]; [done|].
  cif; [|rewrite run_ret; intros E; by simplify_eq]. intros E.
  do 4 (rewrite run_bind in E; apply bind_Some in E as ([? ?] & _ & E)).
  cif_in E; [rewrite run_ret in E; by simplify_eq|].
  rewrite run_bind in E. apply bind_Some in E as ([b1 s1] & _ & E).
  rewrite run_bind in E. apply bind_Some in E as ([[er b2] s2] & _ & E).
  cif_in E; [rewrite run_ret in E; by simplify_eq|].
  rewrite run_bind in E. apply bind_Some in E as ([c s3] & _ & E). by apply IH in E.
Qed.

Lemma expand_file_ref f size (s s' : fat W) r f' :
  expand_file fuel f size s = Some (r, f', s') -> f_ref f' = f_ref f.
Proof.
  unfold expand_file. intros E.
  do 3 (rewrite run_bind in E; apply bind_Some in E as ([? ?] & _ & E)).
  match type of E with context [match ?x with _ => _ end] => destruct x end;
    [|rewrite run_ret in E; by simplify_eq].
  rewrite run_bind in E. apply bind_Some in E as ([start s1] & _ & E).
  cif_in E; [rewrite run_ret in E; by simplify_eq|].
  cif_in E; [rewrite run_ret in E; by simplify_eq|].
  rewrite run_bind in E. apply bind_Some in E as ([? ?] & _ & E). rewrite run_ret in E. by simplify_eq.
Qed.

Lemma fat16_write_ref f buf n (s s' : fat W) r f' :
  fat16_write fuel f buf n s = Some (r, f', s') -> f_ref f' = f_ref f.
Proof.
  unfold fat16_write. intros E. cif_in E; [rewrite run_ret in E; by simplify_eq|].
  set (f0 := if nz _ then set_pos f (f_size f) else f) in E.
  assert (f_ref f0 = f_ref f) as E0 by (unfold f0; by cif).
  rewrite run_bind in E. apply bind_Some in E as ([[er f1] s1] & H1 & E).
  assert (f_ref f1 = f_ref f0) as E1.
  { cif_in H1; [by eapply expand_file_ref|]. rewrite run_ret in H1. by simplify_eq. }
  cif_in E; [rewrite run_ret in E; simplify_eq; congruence|].
  rewrite run_bind in E. apply bind_Some in E as ([[[tot f2] b2] s2] & H2 & E).
  unfold fat16_file_operate in H2. apply operate_loop_ref in H2. cbn in H2.
  rewrite run_ret in E. simplify_eq. cif; cbn; congruence.
Qed.

Lemma fat16_keeps_ref : keeps_ref fat16_ops.
Proof.
  split; cbn [o_open o_read o_write o_close o_seek fat16_ops].
  - intros w i p f r f' w' ([[r1 f1] w1] & E & [= <- <- <-])%bind_Some. by eapply fat16_open_ref.
  - intros w f b n r f' b' w' ([[[r1 f1] b1] w1] & E & E')%bind_Some. injection E' as <- <- <- <-.
    unfold fat16_read in E. rewrite read_loop_operate in E. by eapply operate_loop_ref.
  - intros w f b n r f' w' ([[r1 f1] w1] & E & [= <- <- <-])%bind_Some. by eapply fat16_write_ref.
  - intros w f f' w' ([u w1] & E & [= <- <-])%bind_Some. done.
  - intros w f o n r f'. unfold fat16_seek. intros E. repeat (cif_in E; try by simplify_eq).
Qed.

End FatOps.

(** ** The small volume under [/home] *)

Definition home_point : mem := [47; 104; 111; 109; 101; 0].
(** ["/home/a"] *)
Definition home_a : mem := [47; 104; 111; 109; 101; 47; 97; 0].
#[local] Instance home_block : BlockDev (list disk_t) := disk_block vol_devices 0.
Definition home_ops (ty : Z) : option (fs_ops_t (fat (list disk_t))) :=
  if ty =? FS_FAT16 then Some (fat16_ops 9 junk now) else None.
Definition home0 : fs_state (fat (list disk_t)) :=
  FsState [FsDesc home_point FS_FAT16] [] [0] (replicate 4 zero_file) (replicate 128 None)
    vol no_socks no_ip.

(** [open], [read], [lseek], [read] and [close] of a file: the first read of
    200 bytes answers the file's 100, the second, after a seek to 10, what is
    left. *)
Lemma home_run :
  ( '(fd, s) ← sys_open home_ops home0 home_a Fs.O_RDONLY;
    '(n1, b1, s) ← sys_read home_ops s fd (replicate 200 0) 200;
    '(o, s) ← sys_lseek home_ops s fd 10 SEEK_SET;
    '(n2, b2, s) ← sys_read home_ops s fd (replicate 200 0) 200;
    '(r, s) ← sys_close home_ops s fd;
    Some (fd, n1, bool_decide (b1 = replicate 100 7 ++ replicate 100 0), o, n2,
          bool_decide (b2 = replicate 90 7 ++ replicate 110 0), r, f_ref <$> files s) )
  = Some (0, 100, true, -90, 90, true, 0, [0; 0; 0; 0]).
Proof. by vm_compute. Qed.
