(* ===== verification/Process.v ===== *)
(** * Processes: kernel/thread/process.c, kernel/thread/thread.c,
    kernel/thread/schedule/completion.c

    Process identifiers, the list of all tasks, waiting for and ending a
    process, completions.  The state joins the scheduler's with the memory
    manager's; [exit_code] and [vfork_done] are the fields of [task_struct]
    the scheduler does not look at.  A call that blocks its caller is split
    there: [process_wait] is one turn of its loop, [wait_for_completion] the
    part before and the part after the caller is woken. *)

From S2P Require Import Bitmap Links DList Sched Threads Paging Prelude.

(** ** Process identifiers *)

Definition PID_BYTES : Z := 128.
Definition INIT_PID : Z := 1.

(** [readable] is the memory from [pid_bitmap_bits] on; [start] is 0. *)
Definition init_pid_alloc (readable : list Z) : option bitmap_t :=
  bitmap_init (Bitmap PID_BYTES readable).

Definition alloc_pid (b : bitmap_t) : option (Z * bitmap_t) :=
  bit_idx ← bitmap_scan b 1;
  if bit_idx <? 0 then Some (-1, b)
  else b ← bitmap_set b bit_idx 1; Some (bit_idx, b).

Definition unalloc_pid (b : bitmap_t) (p : Z) : option bitmap_t := bitmap_set b p 0.

(** ** State *)

Record completion := Completion { done : Z; cwait : list_t }.

(** [swait] gives the task of a [swait_node], by the address of its tag;
    [vir_of] the bits of a task's [vir_addr_alloc]. *)
Record pstate := PState {
  ks : kstate; mm_ : mm; pids : bitmap_t; exit_code : gmap Z Z; vfork_done : gmap Z Z;
  comps : gmap Z completion; swait : gmap Z Z; main_thread : Z; vir_of : gmap Z Z }.

Definition with_ks (s : pstate) k :=
  PState k (mm_ s) (pids s) (exit_code s) (vfork_done s) (comps s) (swait s) (main_thread s) (vir_of s).
Definition with_mm (s : pstate) m :=
  PState (ks s) m (pids s) (exit_code s) (vfork_done s) (comps s) (swait s) (main_thread s) (vir_of s).
Definition with_pids (s : pstate) b :=
  PState (ks s) (mm_ s) b (exit_code s) (vfork_done s) (comps s) (swait s) (main_thread s) (vir_of s).
Definition with_exit (s : pstate) e :=
  PState (ks s) (mm_ s) (pids s) e (vfork_done s) (comps s) (swait s) (main_thread s) (vir_of s).
Definition with_comp (s : pstate) k c :=
  PState (ks s) (mm_ s) (pids s) (exit_code s) (vfork_done s) (<[k := c]> (comps s)) (swait s)
    (main_thread s) (vir_of s).
Definition with_swait (s : pstate) w :=
  PState (ks s) (mm_ s) (pids s) (exit_code s) (vfork_done s) (comps s) w (main_thread s) (vir_of s).
Definition with_vfork (s : pstate) v :=
  PState (ks s) (mm_ s) (pids s) (exit_code s) v (comps s) (swait s) (main_thread s) (vir_of s).
Definition with_vir (s : pstate) v :=
  PState (ks s) (mm_ s) (pids s) (exit_code s) (vfork_done s) (comps s) (swait s) (main_thread s) v.

(** ** Memory of the current task *)

(** The directory and allocator an address belongs to. *)
Definition space_of (s : pstate) (vaddr : Z) : option (Z * vir_ref) :=
  c ← tasks (ks s) !! cur (ks s);
  v ← vir_of s !! cur (ks s);
  a ← task_vir (mm_ s) !! v;
  Some (if start a <=? vaddr then (page_dir c, TaskVir v)
        else (kernel_page_dir (mm_ s), KernelVir)).

(** [kernel]: the flag is PF_KERNEL. *)
Definition malloc_thread_mem (s : pstate) (kernel : bool) (page_count : Z) : option (pstate * Z) :=
  c ← tasks (ks s) !! cur (ks s);
  '(m, r) ← (if kernel then malloc_mem (mm_ s) (kernel_page_dir (mm_ s)) KernelVir page_count
             else v ← vir_of s !! cur (ks s); malloc_mem (mm_ s) (page_dir c) (TaskVir v) page_count);
  Some (with_mm s m, r).

Definition malloc_thread_mem_vaddr (s : pstate) (vaddr page_count : Z) : option (pstate * Z) :=
  '(pd, v) ← space_of s vaddr;
  '(m, r) ← malloc_mem_vaddr (mm_ s) pd v vaddr page_count;
  Some (with_mm s m, r).

Definition unmalloc_thread_mem (s : pstate) (vaddr page_count : Z) : option pstate :=
  '(pd, v) ← space_of s vaddr;
  '(m, _) ← unmalloc_mem (mm_ s) pd v vaddr page_count;
  Some (with_mm s m).

(** ** Looking tasks up *)

(** The visitors of this file stop at the first task that fits; the flag is
    lowered if a node is not a task's. *)
Definition task_visitor (P : Z -> task_struct -> bool) (ts : gmap Z task_struct) (node : Z)
    (arg : bool * Z) : (bool * Z) * bool :=
  match ts !! all_entry node with
  | Some t => if P (all_entry node) t then ((arg.1, all_entry node), false) else (arg, true)
  | None => ((false, arg.2), false)
  end.

Definition find_task (s : kstate) (P : Z -> task_struct -> bool) : option Z :=
  '(ok, found) ← foreach (task_visitor P (tasks s)) (mem s) (all_tasks s) (true, NULL);
  if (ok : bool) then Some found else None.

Definition pid_find_in_all_tasks (task : Z) (x : task_struct) (t : Z) (y : task_struct) : bool :=
  negb (task =? t) && negb (bool_decide (status y = TASK_HANGING))
  && negb (bool_decide (status y = TASK_DIED)) && (page_dir x =? page_dir y).

Definition has_other_thread (s : kstate) (task : Z) : option bool :=
  x ← tasks s !! task;
  r ← find_task s (pid_find_in_all_tasks task x);
  Some (nz r).

Definition pid2task (s : kstate) (p : Z) : option Z := find_task s (fun _ t => pid t =? p).

(** [status] is nothing for TASK_UNKNOWN. *)
Definition child_of (p : Z) (st : option task_status) (_ : Z) (t : task_struct) : bool :=
  (parent_pid t =? p) &&
  match st with None => true | Some st => bool_decide (status t = st) end.

Definition thread_child (s : kstate) (parent : Z) (st : option task_status) : option Z :=
  x ← tasks s !! parent; find_task s (child_of (pid x) st).

(** ** Ending a thread *)

(** With [need_schedule] false, as it is called. *)
Definition thread_exit (s : pstate) (task : Z) : option pstate :=
  k ← set_thread_status (ks s) task TASK_DIED false;
  '(h, l) ← DList.remove (mem k) (ready_tasks k) (general_tag task);
  let k := with_ready k h l in
  '(h, l) ← DList.remove (mem k) (all_tasks k) (all_tag task);
  let k := with_all k h l in
  let s := with_ks s k in
  x ← tasks k !! task;
  s ← (if negb (task =? main_thread s) then
         other ← has_other_thread k task;
         s ← (if negb other then unmalloc_thread_mem s (page_dir x) 1 else Some s);
         unmalloc_thread_mem s task 1
       else Some s);
  b ← unalloc_pid (pids s) (pid x);
  Some (with_pids s b).

(** ** wait *)

(** What one turn of the loop ends with: the pid and the exit code of the
    child, -1, or the caller blocked until its next turn.  The code reads the
    child's fields after its memory is released. *)
Inductive wait_out := WaitChild (p code : Z) | WaitNone | WaitBlocked.

Definition process_wait (s : pstate) : option (wait_out * pstate) :=
  child ← thread_child (ks s) (cur (ks s)) (Some TASK_HANGING);
  if nz child then
    s ← thread_exit s child;
    x ← tasks (ks s) !! child;
    Some (WaitChild (pid x) (default 0 (exit_code s !! child)), s)
  else
    child ← thread_child (ks s) (cur (ks s)) None;
    if negb (nz child) then Some (WaitNone, s)
    else k ← thread_block (ks s) (cur (ks s)) TASK_WAITING; Some (WaitBlocked, with_ks s k).

(** ** Completions *)

Definition DONE_ALL : Z := 4294967295.

Definition init_completion (s : pstate) (k : Z) (l : list_t) : option pstate :=
  '(h, l) ← init_list (mem (ks s)) l;
  Some (with_comp (with_ks s (with_ready (ks s) h (ready_tasks (ks s)))) k (Completion 0 l)).

(** [schedule_timeout(SCHEDULE_TIMEOUT_MAX)] is 0, so the loop runs once: the
    caller, whose node is [tag], is queued and blocked, or goes on at once. *)
Definition wait_begin (s : pstate) (k tag : Z) : option (bool * pstate) :=
  x ← comps s !! k;
  if nz (done x) then Some (false, s)
  else
    let c := cur (ks s) in
    '(h, l) ← pushr (mem (ks s)) (cwait x) tag;
    let s := with_swait (with_comp s k (Completion (done x) l)) (<[tag := c]> (swait s)) in
    kk ← thread_block (with_ready (ks s) h (ready_tasks (ks s))) c TASK_WAITING;
    Some (true, with_ks s kk).

(** After the wake-up; [timeout] is 0 then, and -1 when the caller did not
    block.  The result is the return value. *)
Definition wait_end (s : pstate) (k timeout : Z) : option (Z * pstate) :=
  x ← comps s !! k;
  if negb (nz (done x)) then Some (timeout, s)
  else
    let d := if negb (done x =? DONE_ALL) then u32 (done x - 1) else done x in
    Some (if timeout =? 0 then 1 else timeout, with_comp s k (Completion d (cwait x))).

Definition wake_first (s : pstate) (k : Z) (x : completion) : option (Z * pstate) :=
  '(tag, h, l) ← popl (mem (ks s)) (cwait x);
  let s := with_comp (with_ks s (with_ready (ks s) h (ready_tasks (ks s)))) k (Completion (done x) l) in
  if nz tag then
    t ← swait s !! tag;
    kk ← set_thread_status (ks s) t TASK_READY false;
    Some (tag, with_ks s kk)
  else Some (tag, s).

Definition complete (s : pstate) (k : Z) : option pstate :=
  x ← comps s !! k;
  let x := Completion (if negb (done x =? DONE_ALL) then u32 (done x + 1) else done x) (cwait x) in
  let s := with_comp s k x in
  if DList.size (cwait x) =? 0 then Some s
  else '(tag, s) ← wake_first s k x; if nz tag then Some s else None.

(** One turn of the loop per waiter. *)
Fixpoint complete_all_loop (fuel : nat) (s : pstate) (k : Z) : option pstate :=
  match fuel with
  | O => None
  | S fuel' =>
      x ← comps s !! k;
      '(tag, s) ← wake_first s k x;
      if nz tag then complete_all_loop fuel' s k else Some s
  end.
Definition complete_all (s : pstate) (k : Z) : option pstate :=
  x ← comps s !! k;
  let s := with_comp s k (Completion DONE_ALL (cwait x)) in
  if DList.size (cwait x) =? 0 then Some s
  else complete_all_loop (S (Z.to_nat (DList.size (cwait x)))) s k.

(** ** exit *)

Definition vaddr_by_index (i j : Z) : Z := u32 (i * MB 4 + j * KB 4).

(** The pages of the user part that are present, then their table. *)
Definition release_table (i : Z) (s : pstate) : option pstate :=
  c ← tasks (ks s) !! cur (ks s);
  pde ← words (mm_ s) !! (page_dir c + 4 * i);
  if present pde then
    s ← for_ (Z.to_nat PTE_CNT) 0 (fun j s =>
          pde ← words (mm_ s) !! (page_dir c + 4 * i);
          pte ← words (mm_ s) !! (pe_phy_addr (phy_page_addr pde) + 4 * j);
          if present pte then unmalloc_thread_mem s (vaddr_by_index i j) 1 else Some s) s;
    pde ← words (mm_ s) !! (page_dir c + 4 * i);
    unmalloc_thread_mem s (pe_phy_addr (phy_page_addr pde)) 1
  else Some s.

Definition release_process_memeory (s : pstate) : option pstate :=
  let i0 := pde_index (u32 (kernel_all_memory (mm_ s))) in
  s ← for_ (Z.to_nat (PDE_CNT - i0)) i0 release_table s;
  v ← vir_of s !! cur (ks s);
  a ← task_vir (mm_ s) !! v;
  let bitmap_pg_cnt := CMath.up2 (bytes_len (bitmap a)) MEM_PAGE_SIZE / MEM_PAGE_SIZE in
  unmalloc_thread_mem s (bits_addr a) bitmap_pg_cnt.

Definition set_parent (t : task_struct) (p : Z) : task_struct :=
  Task (pid t) p (status t) (priority t) (ticks t) (elapset_ticks t) (sleep_ticks t)
    (page_dir t) (file_table t).

(** [rechild2init] on the way through the list of all tasks; nothing if a node
    is not a task's. *)
Definition rechild2init (p : Z) (node : Z) (arg : option (gmap Z task_struct))
    : option (gmap Z task_struct) * bool :=
  (ts ← arg; t ← ts !! all_entry node;
   Some (if parent_pid t =? p then <[all_entry node := set_parent t INIT_PID]> ts else ts), true).

(** The end of [process_exit], when the memory is released. *)
Definition exit_tail (s : pstate) : option pstate :=
  let c := cur (ks s) in
  x ← tasks (ks s) !! c;
  ts ← foreach (rechild2init (pid x)) (mem (ks s)) (all_tasks (ks s)) (Some (tasks (ks s)));
  ts ← ts;
  let s := with_ks s (with_tasks (ks s) ts) in
  x ← tasks (ks s) !! c;
  parent ← pid2task (ks s) (parent_pid x);
  y ← tasks (ks s) !! parent;
  s ← (if bool_decide (status y = TASK_WAITING) then
         k ← set_thread_status (ks s) parent TASK_READY false; Some (with_ks s k)
       else Some s);
  s ← match vfork_done s !! c with
      | None => Some s
      | Some k => complete s k
      end;
  k ← set_thread_status (ks s) c TASK_HANGING true;
  Some (with_ks s k).

Definition process_exit (s : pstate) (st : Z) : option pstate :=
  let c := cur (ks s) in
  if c =? NULL then Some s
  else
    let s := with_exit s (<[c := st]> (exit_code s)) in
    other ← has_other_thread (ks s) c;
    s ← (if negb other then release_process_memeory s else Some s);
    exit_tail s.

(** ** The rest of process.c that needs no stack of its own *)

Definition user_mode_stack_addr (m : mm) : Z :=
  u32 (kernel_all_memory m + user_all_memory m - MEM_PAGE_SIZE).

Definition process_get_pid (s : kstate) : option Z :=
  if cur s =? NULL then Some (-1) else pid <$> tasks s !! cur s.
Definition process_get_ppid (s : kstate) : option Z :=
  if cur s =? NULL then Some (-1) else parent_pid <$> tasks s !! cur s.

(** [prot], [flags], [fd] and [offset] are not used; [length] is a 32-bit
    unsigned. *)
Definition process_mmap (s : pstate) (addr length : Z) : option (pstate * Z) :=
  let page_count := CMath.up2 length MEM_PAGE_SIZE / MEM_PAGE_SIZE in
  '(s, r) ← (if 0 <? addr then malloc_thread_mem_vaddr s addr page_count
             else malloc_thread_mem s false page_count);
  Some (s, if r =? 4294967295 then NULL else r).

Definition init_process_mem (s : pstate) (thread : Z) : option pstate :=
  '(m, pd) ← create_uvm (mm_ s);
  ts ← upd_task (tasks (ks s)) thread (fun t =>
         Task (pid t) (parent_pid t) (status t) (priority t) (ticks t) (elapset_ticks t)
           (sleep_ticks t) pd (file_table t));
  '(m, v) ← init_user_vir_addr_alloc m;
  Some (with_vir (with_mm (with_ks s (with_tasks (ks s) ts)) m) (<[thread := v]> (vir_of s))).
