(* ===== verification/ProcessSpec.v ===== *)
(** * Process identifiers, lookups, wait and exit

    The pid bitmap implements a set of identifiers of which the least free one
    is handed out; the lookups answer the first task of the list of all tasks
    that fits; ending a process hands its children to init, wakes the parent
    that waits for it and leaves a hanging task that holds the exit code. *)

From S2P Require Import Bitmap Links DList Sched Threads Segment Paging Process Prelude.

(** ** Process identifiers *)

(** The identifiers in use. *)
Definition pid_used (b : bitmap_t) (p : Z) : Prop := 0 <= p < 8 * bytes_len b /\ bit b p = true.

(** [alloc_pid] hands out the least identifier that is not in use and
    marks it used, and answers -1 exactly when all are; [unalloc_pid] of it
    restores the set. *)
Theorem alloc_pid_spec b : bitmap_wf b -> slack b ->
  exists p b', alloc_pid b = Some (p, b') /\ bitmap_wf b' /\ slack b' /\
    ((p = -1 /\ b' = b /\ forall q, 0 <= q < 8 * bytes_len b -> pid_used b q) \/
     (~ pid_used b p /\ (forall q, 0 <= q < p -> pid_used b q) /\
      (forall q, pid_used b' q <-> q = p \/ pid_used b q) /\
      exists b'', unalloc_pid b' p = Some b'' /\ forall q, pid_used b'' q <-> pid_used b q)).
Proof.
  intros Hwf Hsl. destruct (scan_one_ok b Hwf Hsl) as (r & Hr & Hres). unfold alloc_pid. rewrite Hr. mstep.
  destruct Hres as [[-> Hall]|(Hrange & Hfree & Hlow)].
  - exists (-1), b. split_and!; try done. left. split_and!; try done. intros q Hq. split; auto.
  - destruct (Z.ltb_spec r 0); [lia|]. pose proof (wf_len _ Hwf).
    destruct (bitmap_set_total b r 1) as (b' & Hb'); [lia|]. rewrite Hb'. mstep.
    destruct (bitmap_set_wf _ _ _ _ Hwf Hb') as (Hwf' & El & Ez).
    destruct (bitmap_set_total b' r 0) as (b'' & Hb''); [lia|].
    destruct (bitmap_set_wf _ _ _ _ Hwf' Hb'') as (_ & El' & Ez').
    exists r, b'. split; [done|]. split; [done|]. split; [unfold slack in *; lia|]. right.
    assert (forall q, bit b' q = if q =? r then true else bit b q) as Hbit
      by (intros q; by rewrite (bit_set_gen _ _ _ _ q Hwf Hb')).
    split_and!.
    + intros [_ Hu]. congruence.
    + intros q Hq. split; [lia|auto].
    + intros q. unfold pid_used. rewrite El, Hbit. destruct (Z.eqb_spec q r) as [->|]; naive_solver lia.
    + exists b''. split; [done|]. intros q. unfold pid_used.
      rewrite (bit_set_gen _ _ _ _ q Hwf' Hb''), Hbit, El', El.
      destruct (Z.eqb_spec q r) as [->|]; [|done]. rewrite Hfree. done.
Qed.

Definition pids0 : bitmap_t := Bitmap 128 (7 :: replicate 131 0).

Lemma pids0_ok : bitmap_wf pids0 /\ slack pids0.
Proof.
  split; [|by vm_compute]. split; [|by vm_compute|by vm_compute].
  constructor; [lia|]. apply Forall_replicate. lia.
Qed.

Lemma alloc_pid_spec_witness : exists p b', alloc_pid pids0 = Some (p, b') /\ bitmap_wf b' /\ slack b' /\
  ((p = -1 /\ b' = pids0 /\ forall q, 0 <= q < 8 * bytes_len pids0 -> pid_used pids0 q) \/
   (~ pid_used pids0 p /\ (forall q, 0 <= q < p -> pid_used pids0 q) /\
    (forall q, pid_used b' q <-> q = p \/ pid_used pids0 q) /\
    exists b'', unalloc_pid b' p = Some b'' /\ forall q, pid_used b'' q <-> pid_used pids0 q)).
Proof. apply (alloc_pid_spec pids0); apply pids0_ok. Defined.

(** ** Lookups *)

(** The list of all tasks holds the tasks [l], in this order. *)
Record all_rep (s : kstate) (l : list Z) : Prop := {
  ar_list : dlist (mem s) (all_tasks s) (all_tag <$> l);
  ar_known : forall t, t ∈ l -> t ∈ dom (tasks s);
  ar_addr : forall t, t ∈ l -> 0 < t < 2 ^ 32 - 64;
}.

Lemma all_entry_tag t : 0 < t < 2 ^ 32 - 64 -> all_entry (all_tag t) = t.
Proof. intros. unfold all_entry, all_tag. replace (t + 52 - 52) with t by lia. apply u32_small. lia. Qed.

(** The first task of [l] that fits, or NULL. *)
Fixpoint first_task (P : Z -> task_struct -> bool) (ts : gmap Z task_struct) (l : list Z) : Z :=
  match l with
  | [] => NULL
  | t :: l' =>
      match ts !! t with
      | Some x => if P t x then t else first_task P ts l'
      | None => first_task P ts l'
      end
  end.

Lemma find_task_ok s l P : all_rep s l -> find_task s P = Some (first_task P (tasks s) l).
Proof.
  intros [Hl Hk Ha]. unfold find_task. rewrite (foreach_ok _ _ _ _ _ Hl). mstep.
  assert (forall l', (forall t, t ∈ l' -> t ∈ l) -> forall arg,
    visit_seq (task_visitor P (tasks s)) (all_tag <$> l') (true, NULL) = arg ->
    arg.2 = (true, first_task P (tasks s) l')) as Hgen.
  { intros l'. induction l' as [|t l' IH]; intros Hin arg <-; [done|]. cbn [fmap list_fmap visit_seq first_task].
    unfold task_visitor at 1. rewrite all_entry_tag by (apply Ha, Hin; set_solver).
    assert (t ∈ dom (tasks s)) as [x Hx]%elem_of_dom by (apply Hk, Hin; set_solver). rewrite Hx.
    destruct (P t x); [done|]. apply (IH ltac:(set_solver)). done. }
  by rewrite (Hgen l ltac:(done) _ eq_refl).
Qed.

Lemma first_task_spec P ts l : first_task P ts l <> NULL ->
  exists pre post x, l = pre ++ first_task P ts l :: post /\ ts !! first_task P ts l = Some x /\
    P (first_task P ts l) x = true /\
    forall t y, t ∈ pre -> ts !! t = Some y -> P t y = false.
Proof.
  induction l as [|t l IH]; intros Hn; [done|]. cbn [first_task] in *.
  destruct (ts !! t) as [x|] eqn:Hx; [destruct (P t x) eqn:HP|].
  - exists [], l, x. split_and!; try done. set_solver.
  - destruct (IH Hn) as (pre & post & y & E & Hy & HPy & Hpre). exists (t :: pre), post, y.
    split_and!; try done; [by rewrite E at 1|]. intros u z [->|Hu]%elem_of_cons Hz; [congruence|by eapply Hpre].
  - destruct (IH Hn) as (pre & post & y & E & Hy & HPy & Hpre). exists (t :: pre), post, y.
    split_and!; try done; [by rewrite E at 1|]. intros u z [->|Hu]%elem_of_cons Hz; [congruence|by eapply Hpre].
Qed.

Lemma first_task_none P ts l : NULL ∉ l -> first_task P ts l = NULL ->
  forall t x, t ∈ l -> ts !! t = Some x -> P t x = false.
Proof.
  intros Hn. revert Hn. induction l as [|t l IH]; intros Hn E u x Hu Hx; [set_solver|]. cbn [first_task] in E.
  apply elem_of_cons in Hu as [->|Hu].
  - rewrite Hx in E. destruct (P t x) eqn:HP; [|done]. set_solver.
  - refine (IH _ _ u x Hu Hx); [set_solver|]. destruct (ts !! t) as [y|]; [|done].
    destruct (P t y); [|done]. set_solver.
Qed.

(** ** exit *)

(** A child of [p] is handed to init. *)
Definition adopt (p : Z) (x : task_struct) : task_struct :=
  if parent_pid x =? p then set_parent x INIT_PID else x.
Definition reparent (p : Z) (l : list Z) (ts : gmap Z task_struct) : gmap Z task_struct :=
  foldl (fun ts t => alter (adopt p) t ts) ts l.

Lemma adopt_twice p x : adopt p (adopt p x) = adopt p x.
Proof.
  unfold adopt. destruct (Z.eqb_spec (parent_pid x) p) as [E|E].
  - change (parent_pid (set_parent x INIT_PID)) with INIT_PID. by destruct (INIT_PID =? p).
  - apply Z.eqb_neq in E. by rewrite E.
Qed.

Lemma reparent_dom p l ts : dom (reparent p l ts) = dom ts.
Proof.
  revert ts. induction l as [|t l IH]; intros ts; [done|]. cbn. fold (reparent p l (alter (adopt p) t ts)).
  by rewrite IH, dom_alter_L.
Qed.

Lemma reparent_lookup p l ts t : reparent p l ts !! t =
  if decide (t ∈ l) then adopt p <$> ts !! t else ts !! t.
Proof.
  revert ts. induction l as [|u l IH]; intros ts; [done|]. cbn. fold (reparent p l (alter (adopt p) u ts)).
  rewrite IH, lookup_alter. destruct (decide (u = t)) as [->|Hne].
  - rewrite (decide_True (P := t ∈ t :: l)) by set_solver.
    destruct (decide (t ∈ l)); [|done]. destruct (ts !! t); [|done]. cbn. by rewrite adopt_twice.
  - destruct (decide (t ∈ l)), (decide (t ∈ u :: l)); set_solver.
Qed.

Lemma rechild_ok s l p : all_rep s l ->
  foreach (rechild2init p) (mem s) (all_tasks s) (Some (tasks s)) = Some (Some (reparent p l (tasks s))).
Proof.
  intros [Hl Hk Ha]. rewrite (foreach_ok _ _ _ _ _ Hl). f_equal.
  assert (forall l', (forall t, t ∈ l' -> t ∈ l) -> forall ts, dom ts = dom (tasks s) ->
    (visit_seq (rechild2init p) (all_tag <$> l') (Some ts)).2 = Some (reparent p l' ts)) as Hgen.
  { intros l'. induction l' as [|t l' IH]; intros Hin ts Hd; [done|]. cbn [fmap list_fmap visit_seq].
    unfold rechild2init at 1. rewrite all_entry_tag by (apply Ha, Hin; set_solver). mstep.
    assert (t ∈ dom ts) as [x Hx]%elem_of_dom by (rewrite Hd; apply Hk, Hin; set_solver). rewrite Hx. mstep.
    assert ((if parent_pid x =? p then <[t:=set_parent x INIT_PID]> ts else ts) = alter (adopt p) t ts) as ->.
    { apply map_eq. intros u. rewrite lookup_alter. unfold adopt.
      destruct (parent_pid x =? p) eqn:E; [rewrite lookup_insert|];
        destruct (decide (t = u)) as [<-|]; rewrite ?Hx; cbn; by rewrite ?E. }
    cbn [reparent foldl]. fold (reparent p l' (alter (adopt p) t ts)).
    apply (IH ltac:(set_solver)). by rewrite dom_alter_L. }
  by apply Hgen.
Qed.

(** What a call of [schedule] by a task that no longer runs leaves alone. *)
Lemma spec_tick_parent ts sq t : parent_pid <$> spec_tick ts sq !! t = parent_pid <$> ts !! t.
Proof.
  revert ts. induction sq as [|u sq IH]; intros ts; [done|]. cbn.
  change (foldl tick (tick ts u) sq) with (spec_tick (tick ts u) sq). rewrite IH.
  unfold tick. rewrite lookup_alter. case_decide as E; [|done]. subst u. by destruct (ts !! t).
Qed.

Lemma spec_wake_parent ts ws t : parent_pid <$> spec_wake ts ws !! t = parent_pid <$> ts !! t.
Proof.
  revert ts. induction ws as [|u ws IH]; intros ts; [done|]. cbn.
  change (foldl wake (wake ts u) ws) with (spec_wake (wake ts u) ws). rewrite IH.
  unfold wake. rewrite lookup_alter. case_decide as E; [|done]. subst u. by destruct (ts !! t).
Qed.

Lemma schedule_leave cu rq sq ts c next rq' sq' ts' : ts !! cu = Some c ->
  runs_on (status c) = false -> cu ∉ sq -> rq <> [] -> cu ∉ rq ->
  spec_schedule (Sched cu rq sq ts) = Some (Sched next rq' sq' ts') ->
  (forall t, t ∈ rq -> t ∈ next :: rq') /\
  (forall t, parent_pid <$> ts' !! t = parent_pid <$> ts !! t).
Proof.
  intros Hc Hst Hsq Hrq Hcr. unfold spec_schedule, spec_dispatch. cbn [s_cur s_ready s_sleep s_tasks].
  assert (spec_wake (spec_tick ts sq) (woken ts sq) !! cu = Some c) as ->.
  { rewrite spec_wake_out, spec_tick_other; [done|done|].
    intros Hin. by apply list_elem_of_filter in Hin as [_ ?]. }
  mstep. rewrite bool_decide_eq_false_2 by (intros E; by rewrite E in Hst). cbn [andb].
  destruct (reverse (woken ts sq) ++ rq) as [|n q] eqn:Eq; [by apply app_nil in Eq as [_ ->]|].
  assert (cu <> n) as Hne.
  { intros ->. assert (n ∈ reverse (woken ts sq) ++ rq) as Hin by (rewrite Eq; set_solver).
    apply elem_of_app in Hin as [Hin|]; [|done].
    rewrite elem_of_reverse in Hin. by apply list_elem_of_filter in Hin as [_ ?]. }
  apply Z.eqb_neq in Hne. rewrite Hne, Hst. intros [= <- <- <- <-]. split.
  - intros t Ht. rewrite <- Eq. set_solver.
  - intros t. rewrite !lookup_alter. rewrite <- (spec_tick_parent ts sq t), <- (spec_wake_parent _ (woken ts sq)).
    destruct (decide (n = t)) as [<-|]; [|done]. rewrite decide_True by done. by destruct (spec_wake _ _ !! n).
Qed.

(** Readying the parent if it waits. *)
Lemma wake_parent_ok (s : pstate) rq sq t y : sched_rep (ks s) rq sq -> tasks (ks s) !! t = Some y ->
  (status y = TASK_WAITING -> t ∉ rq ++ sq /\ t <> cur (ks s)) ->
  exists k, (if bool_decide (status y = TASK_WAITING) then
      k ← set_thread_status (ks s) t TASK_READY false; Some (with_ks s k)
    else Some s) = Some (with_ks s k) /\
    sched_rep k (if bool_decide (status y = TASK_WAITING) then rq ++ [t] else rq) sq /\
    cur k = cur (ks s) /\ kframe (ks s) k /\
    tasks k = if bool_decide (status y = TASK_WAITING) then wake (tasks (ks s)) t else tasks (ks s).
Proof.
  intros R Hy Hw. destruct (bool_decide_reflect (status y = TASK_WAITING)) as [E|E].
  - destruct (Hw E) as [H1 H2].
    destruct (ready_ok (ks s) rq sq t y false R Hy H1 H2) as (k & Ek & R' & Ec & Et & F);
      [by rewrite E..|].
    unfold thread_ready in Ek. unfold set_thread_status. rewrite Ek. mstep. by exists k.
  - exists (ks s). split; [by destruct s|]. by split_and!.
Qed.

Lemma all_rep_tasks k l ts : all_rep k l -> dom ts = dom (tasks k) -> all_rep (with_tasks k ts) l.
Proof. intros [H1 H2 H3] E. split; cbn; [done| |done]. by rewrite E. Qed.

(** The current task hangs and another one goes on. *)
Lemma hang_ok k rq sq c : sched_rep k rq sq -> tasks k !! cur k = Some c -> cur k ∉ sq -> rq <> [] ->
  zlen (woken (tasks k) sq) <= 10 ->
  exists k' rq' sq', set_thread_status k (cur k) TASK_HANGING true = Some k' /\
    sched_rep k' rq' sq' /\ cur k' <> cur k /\
    tasks k' !! cur k = Some (set_status c TASK_HANGING) /\
    (forall t, t ∈ rq -> t ∈ cur k' :: rq') /\
    (forall t, parent_pid <$> tasks k' !! t = parent_pid <$> tasks k !! t).
Proof.
  intros R Hc Hsq Hrq Hw. pose proof (sr_cur_ready _ _ _ R) as Hcr.
  destruct (block_cur_ok k rq sq TASK_HANGING R Hsq) as (_ & R1 & ->); [done..|].
  set (k1 := with_tasks k _) in *.
  assert (tasks k1 !! cur k = Some (set_status c TASK_HANGING)) as Hc1
    by (cbn; by rewrite lookup_alter_eq, Hc).
  destruct (schedule_ok k1 rq sq R1) as (k' & rq' & sq' & E & Es & R' & _).
  { rewrite (woken_ext (tasks k)); [done|]. intros t Ht. cbn. apply lookup_alter_ne. by intros <-. }
  pose proof (lr_nodup _ _ _ _ _ _ (sr_lists _ _ _ R)) as Hnd.
  destruct (spec_schedule_blocked (cur k) rq sq (tasks k1) _ Hc1 eq_refl Hsq Hrq Hcr)
    as (nx & rq2 & sq2 & ts2 & Es' & Hin & Hout); [by apply NoDup_app in Hnd as (_ & _ & ?)|].
  destruct (schedule_leave _ _ _ _ _ _ _ _ _ Hc1 eq_refl Hsq Hrq Hcr Es) as [Hq Hp].
  change (cur k1) with (cur k) in Es. rewrite Es' in Es. injection Es as -> -> -> ->.
  exists k', rq', sq'. split_and!; try done.
  - intros E'. assert (cur k' ∈ rq ++ sq) as Hn by (apply Hin; left).
    rewrite E', elem_of_app in Hn. tauto.
  - rewrite Hout; [done|]. rewrite elem_of_app. tauto.
  - intros t. rewrite Hp. cbn. rewrite lookup_alter. case_decide; [subst|done]. by rewrite Hc.
Qed.

(** The end of [process_exit]. *)
Lemma exit_tail_ok s l rq sq x y :
  sched_rep (ks s) rq sq -> all_rep (ks s) l -> vfork_done s !! cur (ks s) = None ->
  tasks (ks s) !! cur (ks s) = Some x -> cur (ks s) ∈ l ->
  let ts := reparent (pid x) l (tasks (ks s)) in
  let p := first_task (fun _ t => pid t =? parent_pid (adopt (pid x) x)) ts l in
  ts !! p = Some y -> (status y = TASK_WAITING -> p ∉ rq ++ sq /\ p <> cur (ks s)) ->
  cur (ks s) ∉ sq -> rq <> [] -> zlen (woken ts sq) <= 10 ->
  exists s' rq' sq', exit_tail s = Some s' /\ sched_rep (ks s') rq' sq' /\
    exit_code s' = exit_code s /\ cur (ks s') <> cur (ks s) /\
    tasks (ks s') !! cur (ks s) = Some (set_status (adopt (pid x) x) TASK_HANGING) /\
    (forall t z, t ∈ l -> tasks (ks s) !! t = Some z ->
       parent_pid <$> tasks (ks s') !! t = Some (parent_pid (adopt (pid x) z))) /\
    (status y = TASK_WAITING -> p ∈ cur (ks s') :: rq').
Proof.
  intros R A Hv Hx Hl ts p Hy Hw Hsq Hrq Hwk. unfold exit_tail. rewrite Hx. mstep.
  rewrite (rechild_ok _ _ (pid x) A). mstep. fold ts.
  assert (dom ts = dom (tasks (ks s))) as Ed by apply reparent_dom.
  set (s1 := with_ks s (with_tasks (ks s) ts)).
  assert (tasks (ks s1) !! cur (ks s) = Some (adopt (pid x) x)) as Hx1.
  { cbn. unfold ts. by rewrite reparent_lookup, decide_True, Hx. }
  change (cur (ks s1)) with (cur (ks s)). rewrite Hx1. mstep.
  assert (all_rep (ks s1) l) as A1 by by apply all_rep_tasks.
  assert (sched_rep (ks s1) rq sq) as R1.
  { destruct R as [L H1 H2 H3]. split; cbn; [by apply krep_tasks|by rewrite Ed|done|done]. }
  unfold pid2task. rewrite (find_task_ok _ _ _ A1). mstep. change (tasks (ks s1)) with ts in *. fold p.
  rewrite Hy. mstep.
  destruct (wake_parent_ok s1 rq sq p y R1 Hy Hw) as (k & -> & R2 & Ec & F & Et). mstep.
  change (vfork_done (with_ks s1 k)) with (vfork_done s). rewrite Hv. mstep.
  change (cur (ks s1)) with (cur (ks s)) in Ec. change (ks (with_ks s1 k)) with k. rewrite <- Ec.
  assert (forall t, parent_pid <$> tasks k !! t = parent_pid <$> ts !! t) as Hp.
  { intros t. rewrite Et. destruct (bool_decide _); [|done]. apply (spec_wake_parent ts [p]). }
  destruct (hang_ok k (if bool_decide (status y = TASK_WAITING) then rq ++ [p] else rq) sq (adopt (pid x) x))
    as (k' & rq' & sq' & -> & R3 & Hc & Hh & Hq & Hpp).
  - done.
  - rewrite Ec, Et. destruct (bool_decide_reflect (status y = TASK_WAITING)) as [Ew|]; [|done].
    unfold wake. rewrite lookup_alter_ne; [done|]. by apply Hw.
  - by rewrite Ec.
  - destruct (bool_decide _); [by intros [_ ?]%app_nil|done].
  - rewrite (woken_ext ts); [done|]. intros t Ht. rewrite Et.
    destruct (bool_decide_reflect (status y = TASK_WAITING)) as [Ew|]; [|done].
    unfold wake. apply lookup_alter_ne. intros <-. destruct (Hw Ew) as [Hn _]. apply Hn, elem_of_app. by right.
  - mstep. eexists _, rq', sq'. split; [done|]. cbn. split_and!; try done.
    + intros t z Ht Hz. rewrite Hpp, Hp. unfold ts. by rewrite reparent_lookup, decide_True, Hz.
    + intros Ew. apply Hq. rewrite bool_decide_eq_true_2 by done. apply elem_of_app. right. by left.
Qed.

(** Releasing memory touches nothing but the memory manager. *)
Lemma unmalloc_frame s v n s' : unmalloc_thread_mem s v n = Some s' -> s' = with_mm s (mm_ s').
Proof.
  unfold unmalloc_thread_mem. intros ([pd a] & _ & H)%bind_Some.
  by apply bind_Some in H as ([m r] & _ & [= <-]).
Qed.

Lemma unmalloc_frame_trans s0 s v n s' : s = with_mm s0 (mm_ s) -> unmalloc_thread_mem s v n = Some s' ->
  s' = with_mm s0 (mm_ s').
Proof. intros E H%unmalloc_frame. rewrite H. by rewrite E at 1. Qed.

Lemma release_table_frame s0 i s s' : s = with_mm s0 (mm_ s) -> release_table i s = Some s' ->
  s' = with_mm s0 (mm_ s').
Proof.
  intros E (c & _ & H)%bind_Some. apply bind_Some in H as (pde & _ & H).
  destruct (present pde); [|by injection H as <-]. apply bind_Some in H as (s1 & H1 & H).
  apply bind_Some in H as (pde' & _ & H). refine (unmalloc_frame_trans _ s1 _ _ _ _ H).
  refine (for_inv_partial (fun _ t => t = with_mm s0 (mm_ t)) _ _ _ _ _ E _ H1).
  intros j t t' _ Ht Hb. apply bind_Some in Hb as (? & _ & Hb). apply bind_Some in Hb as (pte & _ & Hb).
  destruct (present pte); [by eapply unmalloc_frame_trans|by injection Hb as <-].
Qed.

Lemma release_frame s s' : release_process_memeory s = Some s' -> s' = with_mm s (mm_ s').
Proof.
  unfold release_process_memeory. intros (s1 & H1 & H)%bind_Some. apply bind_Some in H as (v & _ & H).
  apply bind_Some in H as (a & _ & H).
  refine (unmalloc_frame_trans _ s1 _ _ _ _ H).
  refine (for_inv_partial (fun _ t => t = with_mm s (mm_ t)) _ _ _ _ _ _ _ H1); [by destruct s|].
  intros j t t' _. apply release_table_frame.
Qed.

(** C34: ending a process, its memory released or kept for the threads that
    share it and with no vfork parent: the exit code is recorded, the task
    hangs and another one runs; every child of it in the list of all tasks
    becomes init's, everybody else keeps the parent; the parent, if it waits,
    is among the tasks that run or are ready. *)
Theorem process_exit_spec s st l rq sq x y :
  sched_rep (ks s) rq sq -> all_rep (ks s) l -> vfork_done s !! cur (ks s) = None ->
  tasks (ks s) !! cur (ks s) = Some x -> cur (ks s) ∈ l ->
  (has_other_thread (ks s) (cur (ks s)) = Some false ->
   is_Some (release_process_memeory (with_exit s (<[cur (ks s) := st]> (exit_code s))))) ->
  let ts := reparent (pid x) l (tasks (ks s)) in
  let p := first_task (fun _ t => pid t =? parent_pid (adopt (pid x) x)) ts l in
  ts !! p = Some y -> (status y = TASK_WAITING -> p ∉ rq ++ sq /\ p <> cur (ks s)) ->
  cur (ks s) ∉ sq -> rq <> [] -> zlen (woken ts sq) <= 10 ->
  exists s' rq' sq', process_exit s st = Some s' /\ sched_rep (ks s') rq' sq' /\
    exit_code s' = <[cur (ks s) := st]> (exit_code s) /\ cur (ks s') <> cur (ks s) /\
    tasks (ks s') !! cur (ks s) = Some (set_status (adopt (pid x) x) TASK_HANGING) /\
    (forall t z, t ∈ l -> tasks (ks s) !! t = Some z ->
       parent_pid <$> tasks (ks s') !! t = Some (parent_pid (adopt (pid x) z))) /\
    (status y = TASK_WAITING -> p ∈ cur (ks s') :: rq').
Proof.
  intros R A Hv Hx Hl Hm ts p Hy Hw Hsq Hrq Hwk. unfold process_exit.
  pose proof (ar_addr _ _ A _ Hl). destruct (Z.eqb_spec (cur (ks s)) NULL) as [E|_]; [unfold NULL in E; lia|].
  change (ks (with_exit s _)) with (ks s).
  destruct (has_other_thread (ks s) (cur (ks s))) as [o|] eqn:Ho.
  2: { exfalso. revert Ho. unfold has_other_thread. rewrite Hx. mstep. by rewrite (find_task_ok _ _ _ A). }
  mstep. set (s0 := with_exit s _) in *.
  assert (exists m, (if negb o then release_process_memeory s0 else Some s0) = Some (with_mm s0 m)) as (m & ->).
  { destruct o; [exists (mm_ s0); by destruct s0|]. destruct (Hm eq_refl) as [s1 Hs1]. exists (mm_ s1).
    rewrite <- (release_frame _ _ Hs1). done. }
  mstep. apply (exit_tail_ok (with_mm s0 m) l rq sq x y R A Hv Hx Hl Hy Hw Hsq Hrq Hwk).
Qed.

(** A concrete system: 4096 runs, 8192, its child and a thread of the same
    process, is ready, 12288, its parent, waits; a completion at 160 has the
    parent's node 200 in its list. *)
Definition ex_tasks : gmap Z task_struct :=
  <[4096 := Task 3 2 TASK_RUNNING 2 2 0 0 61440 []]>
  (<[8192 := Task 4 3 TASK_READY 3 3 0 0 61440 []]>
  (<[12288 := Task 2 1 TASK_WAITING 1 1 0 0 57344 []]> ∅)).
Definition ex_mem : heap :=
  <[100 := Node NULL 8228]> (<[8228 := Node 100 108]> (<[108 := Node 8228 NULL]>
  (<[120 := Node NULL 128]> (<[128 := Node 120 NULL]>
  (<[4132 := Node NULL NULL]> (<[12324 := Node NULL NULL]>
  (<[140 := Node NULL 12340]> (<[12340 := Node 140 4148]> (<[4148 := Node 12340 8244]>
  (<[8244 := Node 4148 148]> (<[148 := Node 8244 NULL]>
  (<[160 := Node NULL 200]> (<[200 := Node 160 168]> (<[168 := Node 200 NULL]> ∅)))))))))))))).
Definition ex_area : addr_alloc_t := AddrAlloc 0 4096 0 (Bitmap 1 [0; 0]).
Definition ex_state : pstate :=
  PState (KState ex_mem (List 100 108 1) (List 120 128 0) (List 140 148 3) ex_tasks 4096)
    (MM ex_area ex_area ex_area ∅ ∅ [] 0 0 0 0 0) pids0 ∅ ∅
    {[160 := Completion 0 (List 160 168 1)]} {[200 := 12288]} 4096 ∅.

Lemma dom_ex_tasks : dom ex_tasks = {[4096; 8192; 12288]}.
Proof. unfold ex_tasks. rewrite !dom_insert_L. set_solver. Qed.

Lemma ex_known t : t ∈ dom ex_tasks -> t = 4096 \/ t = 8192 \/ t = 12288.
Proof. rewrite dom_ex_tasks. set_solver. Qed.

Ltac dlist_compute :=
  split; try reflexivity; [repeat split; intros; reflexivity|
    apply (bool_decide_unpack _); vm_compute; exact I..].

Lemma ex_sched : sched_rep (ks ex_state) [8192] [].
Proof.
  split; [split| | |by intros ?%not_elem_of_nil].
  - dlist_compute.
  - dlist_compute.
  - apply (bool_decide_unpack _); vm_compute; exact I.
  - cbn. rewrite dom_ex_tasks. set_solver.
  - apply (bool_decide_unpack _); vm_compute; exact I.
  - intros t [->|[->| ->]]%ex_known; apply (bool_decide_unpack _); vm_compute; exact I.
  - intros t H%ex_known. lia.
  - intros t [->|[->| ->]]%ex_known Hn; [reflexivity| |reflexivity]. set_solver.
  - vm_compute. reflexivity.
  - cbn [cur tasks ks ex_state]. rewrite dom_ex_tasks. set_solver.
  - apply (bool_decide_unpack _); vm_compute; exact I.
Qed.

Lemma ex_all : all_rep (ks ex_state) [12288; 4096; 8192].
Proof.
  split; [dlist_compute| |].
  - cbn [tasks ks ex_state]. rewrite dom_ex_tasks. set_solver.
  - intros t Ht. assert (t = 4096 \/ t = 8192 \/ t = 12288) by set_solver. lia.
Qed.

Lemma process_exit_spec_witness : exists s' rq' sq', process_exit ex_state 7 = Some s' /\
  sched_rep (ks s') rq' sq' /\ exit_code s' = <[4096 := 7]> ∅ /\ cur (ks s') <> 4096 /\
  tasks (ks s') !! 4096 = Some (Task 3 2 TASK_HANGING 2 2 0 0 61440 []) /\
  parent_pid <$> tasks (ks s') !! 8192 = Some INIT_PID /\ 12288 ∈ cur (ks s') :: rq'.
Proof.
  destruct (process_exit_spec ex_state 7 [12288; 4096; 8192] [8192] []
    (Task 3 2 TASK_RUNNING 2 2 0 0 61440 []) (Task 2 1 TASK_WAITING 1 1 0 0 57344 [])
    ex_sched ex_all) as (s' & rq' & sq' & H1 & H2 & H3 & H4 & H5 & H6 & H7);
    [by vm_compute|by vm_compute|by right; left|intros H; by vm_compute in H|by vm_compute| |
     by intros ?%not_elem_of_nil|done|by vm_compute|].
  - intros _. split; apply (bool_decide_unpack _); vm_compute; exact I.
  - exists s', rq', sq'. split_and!; [exact H1|exact H2|exact H3|exact H4| | |by apply H7].
    { change 4096 with (cur (ks ex_state)). rewrite H5. by vm_compute. }
    apply (H6 8192 (Task 4 3 TASK_READY 3 3 0 0 61440 [])); [by do 2 right; left|by vm_compute].
Defined.

(** ** Completions *)

(** The completion at [k] holds the count [d] and the nodes [tags] of its
    waiters, which belong to no task and to none of the scheduler's lists. *)
Record comp_rep (s : pstate) (k d : Z) (tags : list Z) : Prop := {
  cr_comp : exists l, comps s !! k = Some (Completion d l) /\ dlist (mem (ks s)) l tags /\
    forall x, x ∈ footprint l tags -> foreign (ks s) x;
  cr_wait : forall tag, tag ∈ tags -> exists t x, swait s !! tag = Some t /\
    tasks (ks s) !! t = Some x /\ status x = TASK_WAITING;
}.

(** [complete] with waiters: the one that has waited longest leaves the
    list and is queued behind the ready tasks, the count goes up by one, and
    the waiter, when it runs again, takes the count back and returns 1. *)
Theorem complete_spec s rq sq k d tag tags t :
  sched_rep (ks s) rq sq -> comp_rep s k d (tag :: tags) -> 0 <= d < 2 ^ 32 - 2 ->
  swait s !! tag = Some t -> t ∉ rq ++ sq -> t <> cur (ks s) ->
  (forall tag', tag' ∈ tags -> swait s !! tag' <> Some t) ->
  exists s', complete s k = Some s' /\ sched_rep (ks s') (rq ++ [t]) sq /\
    comp_rep s' k (d + 1) tags /\ cur (ks s') = cur (ks s) /\
    tasks (ks s') = wake (tasks (ks s)) t /\
    exists s'', wait_end s' k 0 = Some (1, s'') /\ comp_rep s'' k d tags /\ ks s'' = ks s'.
Proof.
  intros R [(l & Hk & Dl & Fo) Hwt] Hd Ht Hq Hc Hu.
  destruct (Hwt tag ltac:(set_solver)) as (t' & x & Ht' & Hx & Hst).
  rewrite Ht in Ht'. injection Ht' as <-.
  unfold complete. rewrite Hk. mstep. cbn [done cwait]. unfold DONE_ALL.
  destruct (Z.eqb_spec d 4294967295); [lia|]. cbn [negb]. rewrite (u32_small (d + 1)) by lia.
  pose proof (dl_size _ _ _ Dl) as Hsz. unfold zlen in Hsz. cbn [length] in Hsz.
  destruct (Z.eqb_spec (DList.size l) 0); [lia|].
  pose proof (popl_ok _ _ _ Dl) as P. simpl in P. destruct P as (h & l' & E & Dl' & K & _ & _).
  unfold wake_first. cbn [cwait done]. change (ks (with_comp s k _)) with (ks s). rewrite E. mstep.
  assert (tag <> NULL) as Hn by (destruct (dlist_node _ _ _ Dl tag); [set_solver|done]).
  assert (nz tag = true) as Hz by (unfold nz; by destruct (Z.eqb_spec tag 0)). rewrite Hz.
  change (swait (with_comp _ _ _)) with (swait s). rewrite Ht. mstep.
  change (ks (with_comp (with_ks ?a ?b) _ _)) with b. fold (with_mem (ks s) h).
  assert (sched_rep (with_mem (ks s) h) rq sq) as R1
    by (apply (sched_rep_mem _ _ _ _ (footprint l (tag :: tags))); [done|apply K|done]).
  destruct (ready_ok (with_mem (ks s) h) rq sq t x false R1) as (k' & Ek & R' & Ec & Et & F);
    try done; [by rewrite Hst..|].
  unfold thread_ready in Ek. unfold set_thread_status. rewrite Ek. mstep. rewrite Hz.
  assert (forall y, y ∈ footprint l' tags -> y ∈ footprint l (tag :: tags)) as Hfp.
  { destruct K as (E1 & E2 & _). unfold footprint. rewrite E1, E2. intros y Hy.
    apply elem_of_cons in Hy as [->|Hy]; [left|do 2 right; done]. }
  assert (dlist (mem k') l' tags) as Dk.
  { apply (dlist_frame h); [done|]. intros y Hy. apply (kframe_foreign _ _ _ F). by apply Fo, Hfp. }
  assert (forall y, y ∈ footprint l' tags -> foreign k' y) as Fk.
  { intros y Hy. destruct (Fo y (Hfp y Hy)) as [F1 F2]. pose proof (kframe_sentinels _ _ F) as Es.
    destruct F as (_ & Ed & _). split; [by rewrite Es|]. intros u Hd'. apply F2. by rewrite Ed in Hd'. }
  assert (forall tag', tag' ∈ tags -> exists u z, swait s !! tag' = Some u /\
    tasks k' !! u = Some z /\ status z = TASK_WAITING) as Hw'.
  { intros tag' Hin. destruct (Hwt tag' ltac:(by right)) as (u & z & Hu1 & Hu2 & Hu3). exists u, z.
    split_and!; try done. rewrite Et. unfold wake. rewrite lookup_alter_ne; [done|].
    intros <-. by apply (Hu tag'). }
  eexists. split; [done|]. cbn [ks with_ks with_comp comps]. split_and!; try done.
  - split; [|exact Hw']. exists l'. cbn. rewrite lookup_insert_eq. by split_and!.
  - unfold wait_end. cbn [comps with_ks with_comp]. rewrite lookup_insert_eq. mstep. cbn [done cwait]. unfold nz, DONE_ALL.
    destruct (Z.eqb_spec (d + 1) 0); [lia|]. destruct (Z.eqb_spec (d + 1) 4294967295); [lia|].
    cbn [negb]. rewrite u32_small by lia. replace (d + 1 - 1) with d by lia.
    eexists. split; [done|]. split; [|done]. split; [|exact Hw']. exists l'. cbn. rewrite lookup_insert_eq. by split_and!.
Qed.

Lemma ex_comp : comp_rep ex_state 160 0 [200].
Proof.
  split.
  - exists (List 160 168 1). split; [by vm_compute|]. split; [dlist_compute|].
    intros x Hx. assert (x = 160 \/ x = 200 \/ x = 168) as H
      by (unfold footprint in Hx; cbn in Hx; set_solver).
    split; [unfold sentinels; cbn; set_solver by lia|].
    intros t [->|[->| ->]]%ex_known; unfold general_tag; lia.
  - intros tag ->%list_elem_of_singleton. exists 12288, (Task 2 1 TASK_WAITING 1 1 0 0 57344 []).
    by vm_compute.
Qed.

Lemma complete_spec_witness : exists s', complete ex_state 160 = Some s' /\
  sched_rep (ks s') ([8192] ++ [12288]) [] /\ comp_rep s' 160 1 [] /\ cur (ks s') = 4096 /\
  tasks (ks s') = wake ex_tasks 12288 /\
  exists s'', wait_end s' 160 0 = Some (1, s'') /\ comp_rep s'' 160 0 [] /\ ks s'' = ks s'.
Proof.
  apply (complete_spec ex_state [8192] [] 160 0 200 [] 12288 ex_sched ex_comp).
  - lia.
  - by vm_compute.
  - apply (bool_decide_unpack _); vm_compute; exact I.
  - done.
  - by intros ? ?%not_elem_of_nil.
Defined.
