(* ===== verification/Console.v ===== *)
(** * The text console: kernel/device/tty/console.c, console.h

    Eight consoles write to the text memory of the graphics card, from
    [CONSOLE_DISPLAY_ADDR] on.  [vga] is that memory as a list of its 16-bit
    cells, [cursor_reg] the position register of the card; a pointer into the
    display is the index of a cell, [None] an access outside the memory or
    outside the array of escape parameters. *)

From S2P Require Import Prelude.

Definition CONSOLE_CNT : Z := 8.
Definition CONSOLE_COL_MAX : Z := 80.
Definition CONSOLE_ROW_MAX : Z := 25.
Definition ESC_PARAMS_MAX : Z := 10.

(** [console_color], of which the first eight have room in [bg]. *)
Definition Black : Z := 0.
Definition Blue : Z := 1.
Definition Green : Z := 2.
Definition Cyan : Z := 3.
Definition Red : Z := 4.
Definition Purple : Z := 5.
Definition Gray : Z := 7.
Definition Yellow : Z := 14.
Definition White : Z := 15.
Definition DEFAULT_FG : Z := Gray.
Definition DEFAULT_BG : Z := Black.

(** keyboard_code.h *)
Definition esc : Z := 27.
Definition backspace : Z := 8.
Definition tab : Z := 9.
Definition enter : Z := 13.
Definition newline : Z := 10.
Definition delete : Z := 127.

(** A cell: the character, the two colours and the bit between no field. *)
Record display_char_t := Cell { ch : Z; fg : Z; bg : Z; top_bit : Z }.
Definition set_ch (d : display_char_t) (c : Z) : display_char_t :=
  Cell c (fg d) (bg d) (top_bit d).

Inductive write_state_t := WRITE_STATE_NORMAL | WRITE_STATE_ESC | WRITE_STATE_SQUARE.
#[export] Instance write_state_eq_dec : EqDecision write_state_t.
Proof. solve_decision. Defined.

Record console_t := Console
  { display_cols : Z; display_rows : Z; cursor_col : Z; cursor_row : Z;
    display_fg : Z; display_bg : Z; display_base : Z;
    write_state : write_state_t; esc_params : list Z; cur_esc_param : Z }.

(** A console as the static array holds it before [init_console]. *)
Definition zero_console : console_t :=
  Console 0 0 0 0 0 0 0 WRITE_STATE_NORMAL (replicate 10 0) 0.

Definition set_cursor (c : console_t) (row col : Z) : console_t :=
  Console (display_cols c) (display_rows c) col row (display_fg c) (display_bg c)
    (display_base c) (write_state c) (esc_params c) (cur_esc_param c).
Definition set_color (c : console_t) (f b : Z) : console_t :=
  Console (display_cols c) (display_rows c) (cursor_col c) (cursor_row c) f b
    (display_base c) (write_state c) (esc_params c) (cur_esc_param c).
Definition set_write_state (c : console_t) (st : write_state_t) : console_t :=
  Console (display_cols c) (display_rows c) (cursor_col c) (cursor_row c) (display_fg c)
    (display_bg c) (display_base c) st (esc_params c) (cur_esc_param c).
Definition set_params (c : console_t) (ps : list Z) (n : Z) : console_t :=
  Console (display_cols c) (display_rows c) (cursor_col c) (cursor_row c) (display_fg c)
    (display_bg c) (display_base c) (write_state c) ps n.

Notation vga_mem := (list display_char_t).

(** ** Clearing and scrolling *)

Definition clear (m : vga_mem) (c : console_t) (row_start row_end col_start col_end : Z)
    : option vga_mem :=
  let display_start := display_base c + display_cols c * row_start + col_start in
  let display_end := display_base c + display_cols c * row_end + col_end in
  for_ (Z.to_nat (display_end - display_start)) display_start
    (fun p m => d ← zget m p; zset m p (set_ch d 32)) m.

Definition clear_row (m : vga_mem) (c : console_t) (row_start row_end : Z) : option vga_mem :=
  clear m c row_start row_end 0 (display_cols c).

(** [memcpy] goes forward; [size] is a number of whole cells, and so is the
    distance of source and destination. *)
Definition copy_cells (m : vga_mem) (dst src n : Z) : option vga_mem :=
  for_ (Z.to_nat n) 0 (fun i m => d ← zget m (src + i); zset m (dst + i) d) m.

Definition scroll_up (m : vga_mem) (c : console_t) (lines : Z) : option (vga_mem * console_t) :=
  let size := u32 ((display_rows c - lines) * display_cols c * 2) in
  m ← copy_cells m (display_base c) (display_base c + display_cols c * lines) (size / 2);
  m ← clear_row m c (display_rows c - lines) (display_rows c - 1);
  Some (m, set_cursor c (cursor_row c - lines) (cursor_col c)).

(** ** The cursor *)

Notation "'loop' n 'do' f 'from' s" := (for_ (Z.to_nat n) 0 (fun _ => f) s)
  (at level 200, n at level 9, f at level 9, s at level 9, only parsing).

Definition forward_one (s : vga_mem * console_t) : option (vga_mem * console_t) :=
  let '(m, c) := s in
  let c := set_cursor c (cursor_row c) (cursor_col c + 1) in
  if display_cols c <=? cursor_col c then
    let c := set_cursor c (cursor_row c + 1) 0 in
    if display_rows c <=? cursor_row c then scroll_up m c 1 else Some (m, c)
  else Some (m, c).
Definition cursor_forward (m : vga_mem) (c : console_t) (n : Z) : option (vga_mem * console_t) :=
  loop n do forward_one from (m, c).

Definition backward_one (c : console_t) : option console_t :=
  Some (if 0 <? cursor_col c then set_cursor c (cursor_row c) (cursor_col c - 1)
        else if 0 <? cursor_row c then set_cursor c (cursor_row c - 1) (display_cols c - 1)
        else c).
Definition cursor_backward (c : console_t) (n : Z) : option console_t := loop n do backward_one from c.

Definition up_one (c : console_t) : option console_t :=
  Some (if 0 <? cursor_row c then set_cursor c (cursor_row c - 1) (cursor_col c) else c).
Definition cursor_up (c : console_t) (n : Z) : option console_t := loop n do up_one from c.

Definition down_one (s : vga_mem * console_t) : option (vga_mem * console_t) :=
  let '(m, c) := s in
  let c := if cursor_row c <=? display_rows c then set_cursor c (cursor_row c + 1) (cursor_col c)
           else c in
  if display_rows c <=? cursor_row c then scroll_up m c 1 else Some (m, c).
Definition cursor_down (m : vga_mem) (c : console_t) (n : Z) : option (vga_mem * console_t) :=
  loop n do down_one from (m, c).

Definition cursor_line_head (c : console_t) : console_t := set_cursor c (cursor_row c) 0.

(** ** Characters *)

Definition putchar_color (m : vga_mem) (c : console_t) (x f b : Z) : option (vga_mem * console_t) :=
  let offset := cursor_col c + cursor_row c * display_cols c in
  d ← zget m (display_base c + offset);
  m ← zset m (display_base c + offset) (Cell x (Z.land f 15) (Z.land b 7) (top_bit d));
  cursor_forward m c 1.

Definition putchar (m : vga_mem) (c : console_t) (x : Z) : option (vga_mem * console_t) :=
  putchar_color m c x (display_fg c) (display_bg c).

Definition putchar_normal (m : vga_mem) (c : console_t) (x : Z) : option (vga_mem * console_t) :=
  if x =? newline then cursor_down m c 1
  else if x =? enter then Some (m, cursor_line_head c)
  else if x =? backspace then
    c ← cursor_backward c 1;
    '(m, c) ← putchar m c 32;
    c ← cursor_backward c 1; Some (m, c)
  else if x =? delete then
    '(m, c) ← putchar m c 32;
    c ← cursor_backward c 1; Some (m, c)
  else if x =? tab then cursor_forward m c 4
  else if x =? esc then Some (m, set_write_state c WRITE_STATE_ESC)
  else if (32 <=? x) && (x <=? 126) then putchar m c x
  else Some (m, c).

Definition putchar_esc (c : console_t) (x : Z) : console_t :=
  if x =? 91 then
    set_write_state (set_params c (replicate (Z.to_nat ESC_PARAMS_MAX) 0) 0) WRITE_STATE_SQUARE
  else set_write_state c WRITE_STATE_NORMAL.

Definition color_table : list Z := [Black; Red; Green; Yellow; Blue; Purple; Cyan; White].

Definition esc_set_color (c : console_t) (param : Z) : option console_t :=
  if (30 <=? param) && (param <=? 37) then
    f ← zget color_table (param - 30); Some (set_color c f (display_bg c))
  else if param =? 39 then Some (set_color c DEFAULT_FG (display_bg c))
  else if (40 <=? param) && (param <=? 47) then
    b ← zget color_table (param - 40); Some (set_color c (display_fg c) b)
  else if param =? 49 then Some (set_color c (display_fg c) DEFAULT_BG)
  else Some c.

Definition putchar_esc_square (m : vga_mem) (c : console_t) (x : Z) : option (vga_mem * console_t) :=
  if (48 <=? x) && (x <=? 57) then
    num ← zget (esc_params c) (cur_esc_param c);
    ps ← zset (esc_params c) (cur_esc_param c) (i32 (num * 10 + x - 48));
    Some (m, set_params c ps (cur_esc_param c))
  else if (x =? 59) && (cur_esc_param c <? ESC_PARAMS_MAX) then
    Some (m, set_params c (esc_params c) (cur_esc_param c + 1))
  else
    let c := set_params c (esc_params c) (cur_esc_param c + 1) in
    '(m, c) ← (if x =? 109 then
        c ← for_ (Z.to_nat (cur_esc_param c)) 0 (fun i c =>
              p ← zget (esc_params c) i; esc_set_color c p) c;
        Some (m, c)
      else if x =? 74 then
        p ← zget (esc_params c) (cur_esc_param c - 1);
        if p =? 0 then
          m ← clear m c (cursor_row c) (display_rows c) (cursor_col c) (display_cols c); Some (m, c)
        else if p =? 1 then m ← clear m c 0 (cursor_row c) 0 (cursor_col c); Some (m, c)
        else if p =? 2 then m ← clear_row m c 0 (display_rows c); Some (m, set_cursor c 0 0)
        else if p =? 3 then m ← clear_row m c 0 (display_rows c); Some (m, c)
        else Some (m, c)
      else Some (m, c));
    Some (m, set_write_state c WRITE_STATE_NORMAL).

(** ** The consoles *)

Record consoles := Consoles { console_buf : list console_t; vga : vga_mem; cursor_reg : Z }.

Definition update_cursor_pos (s : consoles) (idx : Z) (c : console_t) : consoles :=
  let pos := u16 (idx * (display_cols c * display_rows c)) in
  Consoles (console_buf s) (vga s) (u16 (pos + (cursor_row c * display_cols c + cursor_col c))).

Definition init_console (s : consoles) (idx : Z) : option consoles :=
  c ← zget (console_buf s) idx;
  let c := Console CONSOLE_COL_MAX CONSOLE_ROW_MAX (cursor_col c) (cursor_row c) DEFAULT_FG DEFAULT_BG
             (idx * (CONSOLE_ROW_MAX * CONSOLE_COL_MAX) / 2)
             (write_state c) (esc_params c) (cur_esc_param c) in
  if idx =? 0 then
    let cur_pos := cursor_reg s in
    t ← zset (console_buf s) idx (set_cursor c (cur_pos / display_cols c) (cur_pos mod display_cols c));
    Some (Consoles t (vga s) (cursor_reg s))
  else
    let c := set_cursor c 0 0 in
    m ← clear_row (vga s) c 0 (display_rows c);
    t ← zset (console_buf s) idx c;
    Some (Consoles t m (cursor_reg s)).

(** A call on a console given by its index; none if the index is out of
    range. *)
Definition on_console (s : consoles) (idx : Z)
    (f : vga_mem -> console_t -> option (vga_mem * console_t)) : option consoles :=
  if (idx <? 0) || (CONSOLE_CNT <=? idx) then Some s
  else
    c ← zget (console_buf s) idx;
    '(m, c) ← f (vga s) c;
    t ← zset (console_buf s) idx c;
    Some (Consoles t m (cursor_reg s)).

Definition console_step (m : vga_mem) (c : console_t) (x : Z) : option (vga_mem * console_t) :=
  match write_state c with
  | WRITE_STATE_NORMAL => putchar_normal m c x
  | WRITE_STATE_ESC => Some (m, putchar_esc c x)
  | WRITE_STATE_SQUARE => putchar_esc_square m c x
  end.

(** The result is 1 for a character in the normal state. *)
Definition console_putchar (s : consoles) (idx x : Z) : option (Z * consoles) :=
  if (idx <? 0) || (CONSOLE_CNT <=? idx) then Some (0, s)
  else
    c ← zget (console_buf s) idx;
    s ← on_console s idx (fun m c => console_step m c x);
    Some (match write_state c with WRITE_STATE_NORMAL => 1 | _ => 0 end, s).

Definition console_update_cursor_pos (s : consoles) (idx : Z) : option consoles :=
  if (idx <? 0) || (CONSOLE_CNT <=? idx) then Some s
  else c ← zget (console_buf s) idx; Some (update_cursor_pos s idx c).

Fixpoint console_putstr (s : consoles) (idx : Z) (str : list Z) : option consoles :=
  match str with
  | [] => Some s
  | x :: str' => '(_, s) ← console_putchar s idx x; console_putstr s idx str'
  end.

Definition console_cursor_forward (s : consoles) (idx n : Z) : option consoles :=
  on_console s idx (fun m c => cursor_forward m c n).
Definition console_cursor_backward (s : consoles) (idx n : Z) : option consoles :=
  on_console s idx (fun m c => c ← cursor_backward c n; Some (m, c)).
