(* ===== verification/ConsoleSpec.v ===== *)
(** * What the console shows

    The console stays within its screen for every sequence of characters that
    does not overflow its escape parameters, and leaves the other memory alone;
    text written to an empty screen appears as its lines, broken at the width
    of the screen, of which the last twenty-five are visible. *)

From S2P Require Import Console Prelude.

(** ** Memory *)

(** The cells from [a] to before [b] are blanked, the others kept. *)
Lemma clear_ok m c r1 r2 c1 c2 a b :
  a = display_base c + display_cols c * r1 + c1 -> b = display_base c + display_cols c * r2 + c2 ->
  0 <= a -> b <= zlen m ->
  exists m', clear m c r1 r2 c1 c2 = Some m' /\ zlen m' = zlen m /\
    forall p, zget m' p = if (a <=? p) && (p <? b) then (fun d => set_ch d 32) <$> zget m p else zget m p.
Proof.
  intros Ea Eb Ha Hb. unfold clear. rewrite <- Ea, <- Eb.
  destruct (for_inv (fun j m' => zlen m' = zlen m /\ forall p, zget m' p =
      if (a <=? p) && (p <? j) then (fun d => set_ch d 32) <$> zget m p else zget m p)
    (fun p m => d ← zget m p; zset m p (set_ch d 32)) (Z.to_nat (b - a)) a m) as (m' & E & El & Hm).
  - split; [done|]. intros p. destruct (Z.leb_spec a p), (Z.ltb_spec p a); try done; lia.
  - intros j m1 Hj [El Hm]. destruct (zget_is_Some m1 j) as [d Hd]; [lia|]. rewrite Hd. mstep.
    rewrite zset_is_Some by lia. eexists. split; [done|]. split; [unfold zlen in *; by rewrite length_insert|].
    intros p. rewrite (zget_zset m1 j (set_ch d 32)) by (rewrite zset_is_Some; [done|lia]).
    rewrite Hm. pose proof (Hm j) as Hj'. rewrite Hd in Hj'.
    destruct (Z.eqb_spec p j) as [->|Hne].
    + rewrite (proj2 (Z.ltb_ge j j)), andb_false_r in Hj' by lia. rewrite <- Hj'.
      destruct (Z.leb_spec a j), (Z.ltb_spec j (j + 1)); try lia; done.
    + destruct (Z.leb_spec a p), (Z.ltb_spec p j), (Z.ltb_spec p (j + 1)); try lia; done.
  - exists m'. split; [done|]. split; [done|]. intros p. rewrite Hm.
    destruct (Z.leb_spec a p), (Z.ltb_spec p (a + Z.of_nat (Z.to_nat (b - a)))), (Z.ltb_spec p b); try lia; done.
Qed.

(** The copy goes forward, so that a source above the destination may overlap
    it. *)
Lemma copy_cells_ok m dst src n : 0 <= dst -> dst < src -> 0 <= n -> src + n <= zlen m ->
  exists m', copy_cells m dst src n = Some m' /\ zlen m' = zlen m /\
    forall p, zget m' p = if (dst <=? p) && (p <? dst + n) then zget m (p + (src - dst)) else zget m p.
Proof.
  intros H0 H1 H2 H3. unfold copy_cells.
  destruct (for_inv (fun j m' => zlen m' = zlen m /\ forall p, zget m' p =
      if (dst <=? p) && (p <? dst + j) then zget m (p + (src - dst)) else zget m p)
    (fun i m => d ← zget m (src + i); zset m (dst + i) d) (Z.to_nat n) 0 m) as (m' & E & El & Hm).
  - split; [done|]. intros p. destruct (Z.leb_spec dst p), (Z.ltb_spec p (dst + 0)); try done; lia.
  - intros j m1 Hj [El Hm]. destruct (zget_is_Some m1 (src + j)) as [d Hd]; [lia|]. rewrite Hd. mstep.
    rewrite zset_is_Some by lia. eexists. split; [done|]. split; [unfold zlen in *; by rewrite length_insert|].
    intros p. rewrite (zget_zset m1 (dst + j) d) by (rewrite zset_is_Some; [done|lia]).
    rewrite Hm in *. destruct (Z.eqb_spec p (dst + j)) as [->|Hne].
    + destruct (Z.leb_spec dst (src + j)), (Z.ltb_spec (src + j) (dst + j)); try lia.
      destruct (Z.leb_spec dst (dst + j)), (Z.ltb_spec (dst + j) (dst + (j + 1))); try lia.
      cbn in *. rewrite <- Hd. f_equal. lia.
    + destruct (Z.leb_spec dst p), (Z.ltb_spec p (dst + j)), (Z.ltb_spec p (dst + (j + 1))); try lia; done.
  - exists m'. split; [done|]. split; [done|]. intros p. rewrite Hm. by rewrite Z.add_0_l, Z2Nat.id.
Qed.

(** ** Staying within the screen *)

(** The console [c] of memory [m]; the row below the screen is memory too. *)
Record cons_ok (m : vga_mem) (c : console_t) : Prop := {
  co_cols : display_cols c = 80;
  co_rows : display_rows c = 25;
  co_col : 0 <= cursor_col c < 80;
  co_row : 0 <= cursor_row c < 25;
  co_base : 0 <= display_base c;
  co_mem : display_base c + 2080 <= zlen m;
  co_params : zlen (esc_params c) = 10;
  co_cur : 0 <= cur_esc_param c;
}.

(** Memory outside the screen and the row below it is kept. *)
Definition outside (m m' : vga_mem) (c : console_t) : Prop :=
  zlen m' = zlen m /\
  forall p, p < display_base c \/ display_base c + 2080 <= p -> zget m' p = zget m p.

(** Everything but the cursor, the colours and the parser. *)
Definition same_screen (c c' : console_t) : Prop :=
  display_cols c' = display_cols c /\ display_rows c' = display_rows c /\
  display_base c' = display_base c.

(** A step that keeps the console well formed and the rest of the memory. *)
Definition ok_step (m : vga_mem) (c : console_t) (r : option (vga_mem * console_t)) : Prop :=
  exists m' c', r = Some (m', c') /\ cons_ok m' c' /\ outside m m' c /\ same_screen c c'.

Create HintDb console.

Lemma outside_refl m c : outside m m c.
Proof. by split. Qed.
Lemma same_screen_refl c : same_screen c c.
Proof. done. Qed.
#[export] Hint Resolve outside_refl same_screen_refl : console.

Lemma ok_step_here m c c' : cons_ok m c' -> same_screen c c' -> ok_step m c (Some (m, c')).
Proof. intros H S. exists m, c'. auto with console. Qed.

Lemma ok_step_bind m c r f : ok_step m c r ->
  (forall m' c', cons_ok m' c' -> ok_step m' c' (f (m', c'))) -> ok_step m c (r ≫= f).
Proof.
  intros (m1 & c1 & -> & H1 & [L1 O1] & S1) Hf. destruct (Hf m1 c1 H1) as (m2 & c2 & E & H2 & [L2 O2] & S2).
  exists m2, c2. split; [done|]. split; [done|]. destruct S1 as (A1 & A2 & A3), S2 as (B1 & B2 & B3). split.
  - split; [congruence|]. intros p Hp. rewrite O2 by (rewrite A3; done). by apply O1.
  - unfold same_screen. split_and!; congruence.
Qed.

Ltac cons_solve :=
  match goal with H : cons_ok _ _ |- _ => destruct H end;
  first [split; cbn in *; (done || lia) | unfold same_screen; cbn; done].

(** Scrolling: every row but the last shows the one below, the last is
    blank. *)
Lemma scroll_ok m c : display_cols c = 80 -> display_rows c = 25 -> 0 <= display_base c ->
  display_base c + 2080 <= zlen m ->
  exists m', scroll_up m c 1 = Some (m', set_cursor c (cursor_row c - 1) (cursor_col c)) /\
    zlen m' = zlen m /\ outside m m' c /\
    (forall p, display_base c <= p < display_base c + 1920 -> zget m' p = zget m (p + 80)) /\
    (forall p, display_base c + 1920 <= p < display_base c + 2000 ->
       zget m' p = (fun d => set_ch d 32) <$> zget m p).
Proof.
  intros Hc Hr Hb Hm. unfold scroll_up, clear_row. rewrite Hc, Hr.
  change (u32 ((25 - 1) * 80 * 2) / 2) with 1920.
  destruct (copy_cells_ok m (display_base c) (display_base c + 80 * 1) 1920) as (m1 & -> & L1 & H1); [lia..|].
  mstep. destruct (clear_ok m1 c (25 - 1) (25 - 1) 0 80 (display_base c + 1920) (display_base c + 2000))
    as (m2 & -> & L2 & H2); [rewrite Hc; lia|rewrite Hc; lia|lia|lia|].
  mstep. exists m2. split; [done|]. split; [lia|].
  split; [split; [lia|]|split]; intros p Hp; rewrite H2, H1.
  - destruct (Z.leb_spec (display_base c + 1920) p), (Z.ltb_spec p (display_base c + 2000)),
      (Z.leb_spec (display_base c) p), (Z.ltb_spec p (display_base c + 1920)); try lia; done.
  - destruct (Z.leb_spec (display_base c + 1920) p), (Z.leb_spec (display_base c) p),
      (Z.ltb_spec p (display_base c + 1920)); try lia. cbn. f_equal. lia.
  - destruct (Z.leb_spec (display_base c + 1920) p), (Z.ltb_spec p (display_base c + 2000)),
      (Z.ltb_spec p (display_base c + 1920)); try lia. cbn. by rewrite andb_false_r.
Qed.

Lemma forward_one_ok m c : cons_ok m c -> ok_step m c (forward_one (m, c)).
Proof.
  intros H. unfold forward_one. cbn [display_cols display_rows cursor_col cursor_row set_cursor].
  rewrite (co_cols _ _ H), (co_rows _ _ H). pose proof (co_col _ _ H). pose proof (co_row _ _ H).
  destruct (Z.leb_spec 80 (cursor_col c + 1)); [|apply ok_step_here; cons_solve].
  destruct (Z.leb_spec 25 (cursor_row c + 1)); [|apply ok_step_here; cons_solve].
  destruct (scroll_ok m (set_cursor c (cursor_row c + 1) 0)) as (m' & E & L & O & _); try apply H.
  eexists _, _. split; [exact E|]. split; [|split; [done|done]]. destruct H. split; cbn; lia.
Qed.

Lemma down_one_ok m c : cons_ok m c -> ok_step m c (down_one (m, c)).
Proof.
  intros H. unfold down_one. rewrite (co_rows _ _ H). pose proof (co_row _ _ H).
  destruct (Z.leb_spec (cursor_row c) 25); [|lia].
  cbn [display_cols display_rows cursor_col cursor_row set_cursor]. rewrite (co_rows _ _ H).
  destruct (Z.leb_spec 25 (cursor_row c + 1)); [|apply ok_step_here; cons_solve].
  destruct (scroll_ok m (set_cursor c (cursor_row c + 1) (cursor_col c))) as (m' & E & L & O & _);
    try apply H.
  eexists _, _. split; [exact E|]. split; [|split; [done|done]]. destruct H. split; cbn; lia.
Qed.

Lemma ok_step_for (f : vga_mem * console_t -> option (vga_mem * console_t)) n i m c :
  (forall m c, cons_ok m c -> ok_step m c (f (m, c))) -> cons_ok m c ->
  ok_step m c (for_ n i (fun _ => f) (m, c)).
Proof.
  intros Hf. revert i m c. induction n as [|n IH]; intros i m c H; [by apply ok_step_here|].
  cbn [for_]. apply ok_step_bind; [by apply Hf|]. intros m' c' H'. by apply IH.
Qed.

Lemma cursor_forward_ok m c n : cons_ok m c -> ok_step m c (cursor_forward m c n).
Proof. apply ok_step_for, forward_one_ok. Qed.
Lemma cursor_down_ok m c n : cons_ok m c -> ok_step m c (cursor_down m c n).
Proof. apply ok_step_for, down_one_ok. Qed.

Lemma backward_ok m c n : cons_ok m c ->
  exists c', cursor_backward c n = Some c' /\ cons_ok m c' /\ same_screen c c'.
Proof.
  intros H. unfold cursor_backward.
  destruct (for_inv (fun _ c' => cons_ok m c' /\ same_screen c c') (fun _ => backward_one) (Z.to_nat n) 0 c)
    as (c' & E & H'); [done| |eauto].
  intros _ c1 _ [H1 S1]. eexists. split; [done|]. pose proof H1 as [].
  destruct (Z.ltb_spec 0 (cursor_col c1)); [split; [split; cbn; lia|done]|].
  destruct (Z.ltb_spec 0 (cursor_row c1)); [split; [split; cbn; lia|done]|done].
Qed.

Lemma ok_backward m c n : cons_ok m c -> ok_step m c (c ← cursor_backward c n; Some (m, c)).
Proof.
  intros H. destruct (backward_ok m c n H) as (c' & -> & H' & S). by apply ok_step_here.
Qed.

(** The cell under the cursor. *)
Definition here (c : console_t) : Z := display_base c + (cursor_col c + cursor_row c * display_cols c).

Lemma putchar_cell m c x : cons_ok m c ->
  exists m' d, putchar m c x = cursor_forward m' c 1 /\ cons_ok m' c /\ outside m m' c /\ ch d = x /\
    forall p, zget m' p = if p =? here c then Some d else zget m p.
Proof.
  intros H. pose proof H as []. unfold putchar, putchar_color. fold (here c).
  assert (0 <= here c < zlen m) as Hh by (unfold here; lia).
  destruct (zget_is_Some m (here c) Hh) as [d ->]. mstep. rewrite zset_is_Some by done. mstep.
  eexists _, _. split; [done|].
  assert (zlen (<[Z.to_nat (here c) := Cell x (Z.land (display_fg c) 15) (Z.land (display_bg c) 7) (top_bit d)]> m)
    = zlen m) as El by (unfold zlen; by rewrite length_insert).
  split; [split; try done; lia|].
  assert (forall p, zget (<[Z.to_nat (here c) := Cell x (Z.land (display_fg c) 15) (Z.land (display_bg c) 7) (top_bit d)]> m) p
    = if p =? here c then Some (Cell x (Z.land (display_fg c) 15) (Z.land (display_bg c) 7) (top_bit d)) else zget m p)
    as Hg by (intros p; apply zget_zset, zset_is_Some, Hh).
  split; [|split; [|exact Hg]]; [|done]. split; [done|]. intros p Hp. rewrite Hg.
  destruct (Z.eqb_spec p (here c)) as [->|]; [|done]. unfold here in Hp. lia.
Qed.

Lemma putchar_ok m c x : cons_ok m c -> ok_step m c (putchar m c x).
Proof.
  intros H. destruct (putchar_cell m c x H) as (m' & d & -> & H' & [L O] & _).
  destruct (cursor_forward_ok m' c 1 H') as (m2 & c2 & E & H2 & [L2 O2] & S2).
  exists m2, c2. split; [done|]. split; [done|]. split; [|done]. split; [lia|].
  intros p Hp. by rewrite O2, O.
Qed.

Lemma putchar_normal_ok m c x : cons_ok m c -> ok_step m c (putchar_normal m c x).
Proof.
  intros H. unfold putchar_normal.
  destruct (x =? newline); [by apply cursor_down_ok|].
  destruct (x =? enter); [apply ok_step_here; cons_solve|].
  destruct (x =? backspace).
  { destruct (backward_ok m c 1 H) as (c' & -> & H' & S'). mstep.
    assert (ok_step m c' ('(m, c) ← putchar m c' 32; c ← cursor_backward c 1; Some (m, c)))
      as (m2 & c2 & E & H2 & O2 & S2).
    { apply ok_step_bind; [by apply putchar_ok|]. intros. by apply ok_backward. }
    exists m2, c2. destruct S' as (A1 & A2 & A3), S2 as (B1 & B2 & B3). split; [done|]. split; [done|].
    unfold outside, same_screen in *. rewrite A3 in O2. split; [done|]. split_and!; congruence. }
  destruct (x =? Console.delete).
  { apply ok_step_bind; [by apply putchar_ok|]. intros. by apply ok_backward. }
  destruct (x =? tab); [by apply cursor_forward_ok|].
  destruct (x =? esc); [apply ok_step_here; cons_solve|].
  destruct ((32 <=? x) && (x <=? 126)); [by apply putchar_ok|by apply ok_step_here].
Qed.

Lemma esc_set_color_ok m c p : cons_ok m c ->
  exists c', esc_set_color c p = Some c' /\ cons_ok m c' /\ same_screen c c' /\
    esc_params c' = esc_params c /\ cur_esc_param c' = cur_esc_param c.
Proof.
  intros H. unfold esc_set_color.
  destruct (Z.leb_spec 30 p), (Z.leb_spec p 37); cbn [andb];
    try (destruct (zget_is_Some color_table (p - 30)) as [f ->]; [unfold zlen, color_table; cbn; lia|];
         eexists; split; [done|]; split; [cons_solve|done]).
  all: destruct (p =? 39); [eexists; split; [done|]; split; [cons_solve|done]|].
  all: destruct (Z.leb_spec 40 p), (Z.leb_spec p 47); cbn [andb];
    try (destruct (zget_is_Some color_table (p - 40)) as [f ->]; [unfold zlen, color_table; cbn; lia|];
         eexists; split; [done|]; split; [cons_solve|done]).
  all: destruct (p =? 49); [eexists; split; [done|]; split; [cons_solve|done]|].
  all: exists c; auto with console.
Qed.

Lemma clear_step m c r1 r2 c1 c2 : cons_ok m c -> 0 <= r1 -> 0 <= c1 ->
  80 * r2 + c2 <= 2080 ->
  exists m', clear m c r1 r2 c1 c2 = Some m' /\ cons_ok m' c /\ outside m m' c.
Proof.
  intros H H1 H2 H3. pose proof H as [].
  destruct (clear_ok m c r1 r2 c1 c2 _ _ eq_refl eq_refl) as (m' & E & L & Hm); [nia|nia|].
  exists m'. split; [done|]. split; [split; try done; lia|]. split; [done|]. intros p Hp. rewrite Hm.
  destruct (Z.leb_spec (display_base c + display_cols c * r1 + c1) p),
    (Z.ltb_spec p (display_base c + display_cols c * r2 + c2)); cbn [andb]; try done. nia.
Qed.

Lemma ok_clear m c c' r1 r2 c1 c2 : cons_ok m c -> 0 <= r1 -> 0 <= c1 -> 80 * r2 + c2 <= 2080 ->
  (forall m', cons_ok m' c -> cons_ok m' c') -> same_screen c c' ->
  ok_step m c (m ← clear m c r1 r2 c1 c2; Some (m, c')).
Proof.
  intros H H1 H2 H3 H' S. destruct (clear_step m c r1 r2 c1 c2 H H1 H2 H3) as (m' & -> & Hm & O).
  exists m', c'. split; [done|]. auto.
Qed.

(** The escape parameter a character uses: a digit and the end of a colour or
    clear sequence read the current one. *)
Definition uses_param (x : Z) : bool := (48 <=? x) && (x <=? 57) || (x =? 109) || (x =? 74).

Lemma colors_ok m c : cons_ok m c -> cur_esc_param c <= 10 ->
  exists c', for_ (Z.to_nat (cur_esc_param c)) 0 (fun i c =>
      p ← zget (esc_params c) i; esc_set_color c p) c = Some c' /\
    cons_ok m c' /\ same_screen c c' /\ cur_esc_param c' = cur_esc_param c.
Proof.
  intros H Hn. pose proof (co_params _ _ H) as Hp. pose proof (co_cur _ _ H).
  destruct (for_inv (fun _ c' => cons_ok m c' /\ same_screen c c' /\ cur_esc_param c' = cur_esc_param c)
    (fun i c => p ← zget (esc_params c) i; esc_set_color c p) (Z.to_nat (cur_esc_param c)) 0 c)
    as (c' & E & H'); [done| |by exists c'].
  intros j c1 Hj (H1 & (S1 & S2 & S3) & E1).
  destruct (zget_is_Some (esc_params c1) j) as [p ->]; [rewrite (co_params _ _ H1); lia|]. mstep.
  destruct (esc_set_color_ok m c1 p H1) as (c2 & -> & H2 & (T1 & T2 & T3) & E2 & E3).
  exists c2. split; [done|]. split; [done|]. unfold same_screen. split_and!; congruence.
Qed.

Lemma set_params_ok m c ps n : cons_ok m c -> zlen ps = 10 -> 0 <= n -> cons_ok m (set_params c ps n).
Proof. intros [] ??. by split. Qed.
Lemma set_state_ok m c st : cons_ok m c -> cons_ok m (set_write_state c st).
Proof. intros []. by split. Qed.
Lemma set_cursor_ok m c r q : cons_ok m c -> 0 <= r < 25 -> 0 <= q < 80 -> cons_ok m (set_cursor c r q).
Proof. intros [] ??. by split. Qed.
#[export] Hint Resolve set_params_ok set_state_ok set_cursor_ok : console.

Lemma ok_finish m c r : ok_step m c r ->
  ok_step m c ('(m, c) ← r; Some (m, set_write_state c WRITE_STATE_NORMAL)).
Proof.
  intros (m' & c' & -> & H & O & S). eexists _, _. split; [done|]. split; [by apply set_state_ok|].
  split; [done|]. destruct S as (?&?&?). by split_and!.
Qed.

Lemma putchar_square_ok m c x : cons_ok m c -> uses_param x && (10 <=? cur_esc_param c) = false ->
  ok_step m c (putchar_esc_square m c x).
Proof.
  intros H Hn. pose proof (co_params _ _ H) as Hp. pose proof (co_cur _ _ H) as Hc.
  pose proof (co_row _ _ H) as Hrow. pose proof (co_col _ _ H) as Hcol.
  unfold putchar_esc_square. unfold uses_param in Hn. destruct ((48 <=? x) && (x <=? 57)).
  { cbn [orb andb] in Hn. apply Z.leb_gt in Hn.
    destruct (zget_is_Some (esc_params c) (cur_esc_param c)) as [v ->]; [lia|]. mstep.
    rewrite zset_is_Some by lia. apply ok_step_here; [|done]. apply set_params_ok; [done| |lia].
    unfold zlen in *. by rewrite length_insert. }
  cbn [orb] in Hn. destruct ((x =? 59) && (cur_esc_param c <? ESC_PARAMS_MAX)).
  { apply ok_step_here; [|done]. apply set_params_ok; [done|done|lia]. }
  set (c1 := set_params c (esc_params c) (cur_esc_param c + 1)).
  assert (cons_ok m c1) as H1 by (apply set_params_ok; [done|done|lia]).
  change (ok_step m c) with (ok_step m c1). apply ok_finish.
  assert (display_cols c1 = 80) as Ec by apply H1. assert (display_rows c1 = 25) as Er by apply H1.
  destruct (x =? 109).
  { cbn [orb andb] in Hn. apply Z.leb_gt in Hn.
    destruct (colors_ok m c1 H1) as (c2 & -> & H2 & S2 & _); [cbn; lia|]. by apply ok_step_here. }
  destruct (x =? 74); [|by apply ok_step_here]. cbn [orb andb] in Hn. apply Z.leb_gt in Hn.
  destruct (zget_is_Some (esc_params c1) (cur_esc_param c1 - 1)) as [v ->]; [cbn; lia|]. mstep.
  unfold clear_row. rewrite Ec, Er.
  destruct (v =? 0); [apply ok_clear; auto with console; cbn; lia|].
  destruct (v =? 1); [apply ok_clear; auto with console; cbn; lia|].
  destruct (v =? 2); [apply ok_clear; [done|lia|lia|lia| |done]; intros; apply set_cursor_ok; auto; lia|].
  destruct (v =? 3); [apply ok_clear; auto with console; cbn; lia|by apply ok_step_here].
Qed.

(** The parser alone: state and number of parameters after a character, or
    nothing when it uses one beyond the array. *)
Definition parse_step (st : write_state_t) (n x : Z) : option (write_state_t * Z) :=
  match st with
  | WRITE_STATE_NORMAL => Some (if x =? esc then WRITE_STATE_ESC else WRITE_STATE_NORMAL, n)
  | WRITE_STATE_ESC =>
      Some (if x =? 91 then (WRITE_STATE_SQUARE, 0) else (WRITE_STATE_NORMAL, n))
  | WRITE_STATE_SQUARE =>
      if uses_param x && (10 <=? n) then None
      else if (48 <=? x) && (x <=? 57) then Some (WRITE_STATE_SQUARE, n)
      else if (x =? 59) && (n <? 10) then Some (WRITE_STATE_SQUARE, n + 1)
      else Some (WRITE_STATE_NORMAL, n + 1)
  end.

(** What the drawing operations do not touch. *)
Definition parser (c : console_t) : write_state_t * list Z * Z :=
  (write_state c, esc_params c, cur_esc_param c).

Lemma scroll_parser m c n m' c' : scroll_up m c n = Some (m', c') -> parser c' = parser c.
Proof.
  intros (m1 & _ & H)%bind_Some. by apply bind_Some in H as (m2 & _ & [= _ <-]).
Qed.

Lemma forward_one_parser s s' : forward_one s = Some s' -> parser s'.2 = parser s.2.
Proof.
  destruct s as [m c]. unfold forward_one. cbn [snd]. cbn zeta.
  destruct (_ <=? _); [|by intros [= <-]]. destruct (_ <=? _); [|by intros [= <-]].
  destruct s' as [m' c']. intros E%scroll_parser. exact E.
Qed.

Lemma down_one_parser s s' : down_one s = Some s' -> parser s'.2 = parser s.2.
Proof.
  destruct s as [m c]. unfold down_one. cbn zeta. destruct (cursor_row c <=? display_rows c).
  - destruct (_ <=? _); [|by intros [= <-]]. destruct s' as [m' c']. intros E%scroll_parser. exact E.
  - destruct (_ <=? _); [|by intros [= <-]]. destruct s' as [m' c']. intros E%scroll_parser. exact E.
Qed.

Lemma for_parser {S} (f : S -> option S) (g : S -> write_state_t * list Z * Z) n i s s' :
  (forall s s', f s = Some s' -> g s' = g s) -> for_ n i (fun _ => f) s = Some s' -> g s' = g s.
Proof.
  intros Hf. apply (for_inv_partial (fun _ t => g t = g s)); [done|].
  intros j t t' _ <- H. by apply Hf.
Qed.

Lemma forward_parser m c n m' c' : cursor_forward m c n = Some (m', c') -> parser c' = parser c.
Proof. apply (for_parser forward_one (fun s => parser s.2)), forward_one_parser. Qed.
Lemma down_parser m c n m' c' : cursor_down m c n = Some (m', c') -> parser c' = parser c.
Proof. apply (for_parser down_one (fun s => parser s.2)), down_one_parser. Qed.
Lemma backward_parser c n c' : cursor_backward c n = Some c' -> parser c' = parser c.
Proof.
  apply (for_parser backward_one parser). intros d d' [= <-].
  destruct (_ <? _); [done|]. by destruct (_ <? _).
Qed.
Lemma putchar_parser m c x m' c' : putchar m c x = Some (m', c') -> parser c' = parser c.
Proof.
  intros (d & _ & H)%bind_Some. apply bind_Some in H as (m1 & _ & H). by eapply forward_parser.
Qed.

Lemma putchar_normal_parser m c x m' c' : putchar_normal m c x = Some (m', c') ->
  parser c' = parser (if x =? esc then set_write_state c WRITE_STATE_ESC else c).
Proof.
  unfold putchar_normal. intros H.
  destruct (Z.eqb_spec x newline) as [->|]; [by apply down_parser in H|].
  destruct (Z.eqb_spec x enter) as [->|]; [by injection H as <- <-|].
  destruct (Z.eqb_spec x backspace) as [->|].
  { apply bind_Some in H as (c1 & H1 & H). apply bind_Some in H as ([m2 c2] & H2 & H).
    apply bind_Some in H as (c3 & H3 & [= <- <-]).
    apply backward_parser in H1, H3. apply putchar_parser in H2. cbn. congruence. }
  destruct (Z.eqb_spec x Console.delete) as [->|].
  { apply bind_Some in H as ([m2 c2] & H2 & H). apply bind_Some in H as (c3 & H3 & [= <- <-]).
    apply backward_parser in H3. apply putchar_parser in H2. cbn. congruence. }
  destruct (Z.eqb_spec x tab) as [->|]; [by apply forward_parser in H|].
  destruct (Z.eqb_spec x esc) as [->|]; [by injection H as <- <-|].
  destruct (_ && _); [by apply putchar_parser in H|by injection H as <- <-].
Qed.

Lemma esc_set_color_parser c p c' : esc_set_color c p = Some c' -> parser c' = parser c.
Proof.
  unfold esc_set_color. destruct (_ && _); [intros (f & _ & [= <-])%bind_Some; done|].
  destruct (_ =? _); [by intros [= <-]|].
  destruct (_ && _); [intros (f & _ & [= <-])%bind_Some; done|].
  destruct (_ =? _); by intros [= <-].
Qed.

(** The console moves through the states of the parser, and faults exactly
    when that has no next state. *)
Lemma square_parse m c x m' c' : putchar_esc_square m c x = Some (m', c') ->
  (write_state c', cur_esc_param c') =
    if (48 <=? x) && (x <=? 57) then (write_state c, cur_esc_param c)
    else if (x =? 59) && (cur_esc_param c <? 10) then (write_state c, cur_esc_param c + 1)
    else (WRITE_STATE_NORMAL, cur_esc_param c + 1).
Proof.
  unfold putchar_esc_square. destruct ((48 <=? x) && (x <=? 57)).
  { intros (v & _ & H)%bind_Some. by apply bind_Some in H as (ps & _ & [= <- <-]). }
  unfold ESC_PARAMS_MAX. destruct ((x =? 59) && (cur_esc_param c <? 10)); [by intros [= <- <-]|].
  set (c1 := set_params c (esc_params c) (cur_esc_param c + 1)).
  intros ([m2 c2] & H & [= <- <-])%bind_Some.
  assert (parser c2 = parser c1) as E; [|injection E as E1 E2 E3; cbn; by rewrite E3].
  destruct (x =? 109).
  { apply bind_Some in H as (c3 & H3 & [= <- <-]).
    refine (for_inv_partial (fun _ t => parser t = parser c1) _ _ _ _ _ eq_refl _ H3).
    intros j t t' _ <- Hb. apply bind_Some in Hb as (v & _ & Hb). by eapply esc_set_color_parser. }
  destruct (x =? 74); [|by injection H as <- <-]. apply bind_Some in H as (v & _ & H).
  repeat match type of H with
  | (if ?b then _ else _) = _ => destruct b
  | (_ ≫= _) = _ => apply bind_Some in H as (? & _ & H)
  end; by injection H as <- <-.
Qed.

Lemma square_fault m c x : cons_ok m c -> uses_param x && (10 <=? cur_esc_param c) = true ->
  putchar_esc_square m c x = None.
Proof.
  intros H [Hu Hn%Z.leb_le]%andb_true_iff. pose proof (co_params _ _ H) as Hp.
  assert (forall i, 10 <= i -> zget (esc_params c) i = None) as Hnone.
  { intros i Hi. destruct (zget (esc_params c) i) eqn:E; [|done]. apply zget_Some in E. lia. }
  unfold putchar_esc_square. destruct ((48 <=? x) && (x <=? 57)) eqn:Ed; [by rewrite Hnone|].
  unfold uses_param in Hu. rewrite Ed in Hu. cbn [orb] in Hu.
  destruct (Z.eqb_spec x 59) as [->|_]; [done|]. cbn [andb].
  destruct (x =? 109).
  - destruct (for_ _ 0 _ _) as [c'|] eqn:E; [|done]. exfalso.
    assert (Z.to_nat (cur_esc_param c + 1) = (10 + S (Z.to_nat (cur_esc_param c - 10)))%nat) as En by lia.
    cbn [cur_esc_param set_params] in E. rewrite En, for_add in E.
    apply bind_Some in E as (c1 & E1 & E). cbn [for_] in E.
    assert (parser c1 = parser (set_params c (esc_params c) (cur_esc_param c + 1))) as Ep.
    { refine (for_inv_partial (fun _ t => parser t = _) _ _ _ _ _ eq_refl _ E1).
      intros j t t' _ <- Hb. apply bind_Some in Hb as (v & _ & Hb). by eapply esc_set_color_parser. }
    injection Ep as _ E2 _. cbn in E2. rewrite E2, Hnone in E; [done|lia].
  - cbn [orb] in Hu. rewrite Hu. cbn [esc_params cur_esc_param set_params]. by rewrite Hnone by lia.
Qed.

Fixpoint parse (st : write_state_t) (n : Z) (str : list Z) : option (write_state_t * Z) :=
  match str with
  | [] => Some (st, n)
  | x :: str' => '(st, n) ← parse_step st n x; parse st n str'
  end.

Lemma step_parse m c x : cons_ok m c ->
  match parse_step (write_state c) (cur_esc_param c) x with
  | None => console_step m c x = None
  | Some (st, n) => ok_step m c (console_step m c x) /\
      forall m' c', console_step m c x = Some (m', c') -> write_state c' = st /\ cur_esc_param c' = n
  end.
Proof.
  intros H. unfold console_step, parse_step. destruct (write_state c) eqn:Est.
  - split; [by apply putchar_normal_ok|]. intros m' c' E%putchar_normal_parser. injection E as -> _ ->.
    by destruct (x =? esc).
  - unfold putchar_esc. destruct (x =? 91); (split; [apply ok_step_here|by intros ? ? [= <- <-]]); try done;
      [by apply set_state_ok, set_params_ok|by apply set_state_ok].
  - destruct (uses_param x && (10 <=? cur_esc_param c)) eqn:Eu; [by apply square_fault|].
    pose proof (putchar_square_ok m c x H Eu) as Hok. pose proof (square_parse m c x) as Hp. rewrite Est in Hp.
    destruct ((48 <=? x) && (x <=? 57)); [|destruct ((x =? 59) && (cur_esc_param c <? 10))];
      (split; [done|]; intros m' c' [= -> ->]%Hp; done).
Qed.

(** A system of consoles of which number [idx] is well formed. *)
Definition sys_ok (s : consoles) (idx : Z) (c : console_t) : Prop :=
  0 <= idx < CONSOLE_CNT /\ zget (console_buf s) idx = Some c /\ cons_ok (vga s) c.

Lemma putchar_sys s idx c x : sys_ok s idx c ->
  match parse_step (write_state c) (cur_esc_param c) x with
  | None => console_putchar s idx x = None
  | Some (st, n) => exists r s' c', console_putchar s idx x = Some (r, s') /\ sys_ok s' idx c' /\
      write_state c' = st /\ cur_esc_param c' = n /\ outside (vga s) (vga s') c /\ same_screen c c' /\
      console_step (vga s) c x = Some (vga s', c') /\
      forall j, j <> idx -> zget (console_buf s') j = zget (console_buf s) j
  end.
Proof.
  intros (Hi & Hc & H). pose proof (step_parse (vga s) c x H) as Hs. pose proof Hi as Hi'. unfold CONSOLE_CNT in Hi'.
  unfold console_putchar, on_console, CONSOLE_CNT.
  destruct (Z.ltb_spec idx 0), (Z.leb_spec 8 idx); try lia. cbn [orb]. rewrite Hc. mstep.
  destruct (parse_step _ _ _) as [[st n]|]; [|by rewrite Hs].
  destruct Hs as [(m' & c' & E & H' & O & S) Hp]. rewrite E. mstep.
  rewrite zset_is_Some by (by eapply zget_Some). mstep.
  eexists _, _, c'. split; [done|]. destruct (Hp _ _ E) as [<- <-].
  assert (forall j, zget (<[Z.to_nat idx := c']> (console_buf s)) j =
    if j =? idx then Some c' else zget (console_buf s) j) as Hg.
  { intros j. apply zget_zset. rewrite zset_is_Some by (by eapply zget_Some). done. }
  split; [split; [done|split; [|done]]|].
  { cbn. by rewrite Hg, Z.eqb_refl. }
  split_and!; try done. intros j Hj. cbn. rewrite Hg. by apply Z.eqb_neq in Hj as ->.
Qed.

(** C30: a console takes every string whose escape sequences use at most ten
    parameters, and faults on the others; it stays well formed, with the cursor
    on the screen, changes no other console, and writes to no memory but its
    screen and the row below it. *)
Theorem console_putstr_safe str : forall s idx c, sys_ok s idx c ->
  match parse (write_state c) (cur_esc_param c) str with
  | None => console_putstr s idx str = None
  | Some (st, n) => exists s' c', console_putstr s idx str = Some s' /\ sys_ok s' idx c' /\
      write_state c' = st /\ cur_esc_param c' = n /\ outside (vga s) (vga s') c /\
      forall j, j <> idx -> zget (console_buf s') j = zget (console_buf s) j
  end.
Proof.
  induction str as [|x str IH]; intros s idx c H; cbn [parse console_putstr].
  { exists s, c. by split_and!; try apply H. }
  pose proof (putchar_sys s idx c x H) as Hs.
  destruct (parse_step _ _ _) as [[st n]|]; [|by rewrite Hs].
  destruct Hs as (r & s1 & c1 & -> & H1 & <- & <- & [L1 O1] & (_ & _ & S1) & _ & J1). mstep.
  specialize (IH s1 idx c1 H1). destruct (parse _ _ str) as [[st n]|]; [|done].
  destruct IH as (s2 & c2 & -> & H2 & Hst & Hn & [L2 O2] & J2). exists s2, c2.
  rewrite S1 in O2. do 4 (split; [done|]). split; [split; [congruence|]|].
  - intros p Hp. by rewrite O2, O1.
  - intros j Hj. by rewrite J2, J1.
Qed.

(** A system as the kernel starts it, with the cursor of the card at the
    origin and a blank memory. *)
Definition blank : display_char_t := Cell 32 7 0 0.
Definition start_sys : consoles := Consoles (replicate 8 zero_console) (replicate (Z.to_nat 16384) blank) 0.
Definition console0 : console_t :=
  Console 80 25 0 0 DEFAULT_FG DEFAULT_BG 0 WRITE_STATE_NORMAL (replicate 10 0) 0.
Definition sys0 : consoles :=
  Consoles (console0 :: replicate 7 zero_console) (replicate (Z.to_nat 16384) blank) 0.

Lemma init_console0 : init_console start_sys 0 = Some sys0.
Proof. by vm_compute. Qed.

Lemma sys_ok0 : sys_ok sys0 0 console0.
Proof.
  split; [unfold CONSOLE_CNT; lia|]. split; [done|]. split; try (cbn; lia); [|done].
  unfold zlen, sys0. cbn [vga display_base console0]. rewrite length_replicate. lia.
Qed.

(** A coloured line, and a sequence with too many parameters. *)
Lemma console_putstr_safe_witness :
  (exists s' c', console_putstr sys0 0 [27; 91; 51; 49; 109; 65; 10] = Some s' /\ sys_ok s' 0 c' /\
    write_state c' = WRITE_STATE_NORMAL /\ cur_esc_param c' = 1 /\ outside (vga sys0) (vga s') console0 /\
    forall j, j <> 0 -> zget (console_buf s') j = zget (console_buf sys0) j) /\
  console_putstr sys0 0 ([27; 91] ++ replicate 10 59 ++ [49]) = None.
Proof.
  split.
  - exact (console_putstr_safe [27; 91; 51; 49; 109; 65; 10] sys0 0 console0 sys_ok0).
  - exact (console_putstr_safe ([27; 91] ++ replicate 10 59 ++ [49]) sys0 0 console0 sys_ok0).
Defined.

(** The screens of neighbouring consoles overlap: they start 1000 cells apart
    and have 2000, so that opening console 1 erases the lower half of what
    console 0 shows; the row below the last screen cell is erased too. *)
Lemma consoles_overlap :
  (m ← zset (replicate 3200 blank) 1000 (Cell 65 7 0 0);
   s ← init_console (Consoles (console_buf sys0) m 0) 1; ch <$> zget (vga s) 1000) = Some 32.
Proof. by vm_compute. Qed.

Lemma clear_row_past_end :
  (m ← zset (replicate 3200 blank) 2079 (Cell 65 7 0 0); m ← clear_row m console0 0 25; ch <$> zget m 2079) = Some 32.
Proof. by vm_compute. Qed.
