(* ===== verification/BlockQueue.v ===== *)
(** * The blocking queue: common/lib/block_queue.c

    A ring of [queue_buf_size] pointers.  [wait] and [wakeup] are callbacks of
    the creator of the queue; [blocking] says whether they are there.  A call
    is modelled up to its first wait: [GetWait] and [PutWait] are a turn of the
    loop that calls [wait], after which the call starts over. *)

From S2P Require Import Prelude.

Definition queue_buf_size : Z := 1024.

Record block_queue := Queue
  { producer : Z; consumer : Z; blocking : bool; buf : list Z; head : Z; tail : Z }.

(** [storage] is what the array holds before. *)
Definition init_queue (storage : list Z) (wait_fun : bool) : block_queue :=
  Queue 0 0 wait_fun storage 0 0.

Definition next_pos (pos : Z) : Z := (pos + 1) mod queue_buf_size.

Definition queue_full (q : block_queue) : bool := next_pos (head q) =? tail q.
Definition queue_empty (q : block_queue) : bool := head q =? tail q.
Definition queue_len (q : block_queue) : Z :=
  if tail q <=? head q then head q - tail q else queue_buf_size - (tail q - head q).

(** A value or NULL, and the waiter passed to [wakeup]. *)
Inductive get_out := GetWait | GetNull | GetValue (v : Z) (woken : option Z) (q : block_queue).
Definition queue_get (q : block_queue) : option get_out :=
  if queue_empty q && blocking q then Some GetWait
  else if queue_empty q then Some GetNull
  else
    value ← zget (buf q) (tail q);
    let wake := nz (producer q) && blocking q in
    Some (GetValue value (if wake then Some (producer q) else None)
      (Queue (if wake then 0 else producer q) (consumer q) (blocking q) (buf q) (head q)
         (next_pos (tail q)))).

Inductive put_out := PutWait | PutDone (woken : option Z) (q : block_queue).
Definition queue_put (q : block_queue) (value : Z) : option put_out :=
  if queue_full q && blocking q then Some PutWait
  else
    b ← zset (buf q) (head q) value;
    let wake := nz (consumer q) && blocking q in
    Some (PutDone (if wake then Some (consumer q) else None)
      (Queue (producer q) (if wake then 0 else consumer q) (blocking q) b (next_pos (head q)) (tail q))).

(** ** The queue holds a sequence *)

Record queue_rep (q : block_queue) (xs : list Z) : Prop := {
  qr_buf : zlen (buf q) = 1024;
  qr_tail : 0 <= tail q < 1024;
  qr_len : zlen xs < 1024;
  qr_head : head q = (tail q + zlen xs) mod 1024;
  qr_items : forall k x, zget xs k = Some x -> zget (buf q) ((tail q + k) mod 1024) = Some x;
}.

Section Rep.
Context (q : block_queue) (xs : list Z) (R : queue_rep q xs).

Lemma queue_len_ok : queue_len q = zlen xs.
Proof.
  destruct R as [? Ht Hl Hh _]. unfold queue_len, queue_buf_size. rewrite Hh.
  pose proof (zlen_nonneg xs). destruct (Z.leb_spec (tail q) ((tail q + zlen xs) mod 1024)); divmod.
Qed.

Lemma queue_empty_ok : queue_empty q = bool_decide (xs = []).
Proof.
  destruct R as [? Ht Hl Hh _]. unfold queue_empty. rewrite Hh. pose proof (zlen_nonneg xs).
  case_bool_decide as E; [subst; apply Z.eqb_eq; unfold zlen; cbn; divmod|].
  apply Z.eqb_neq. assert (zlen xs <> 0) by (unfold zlen; destruct xs; [done|cbn; lia]). divmod.
Qed.

Lemma queue_full_ok : queue_full q = (zlen xs =? 1023).
Proof.
  destruct R as [? Ht Hl Hh _]. unfold queue_full, next_pos, queue_buf_size. rewrite Hh.
  pose proof (zlen_nonneg xs). destruct (Z.eqb_spec (zlen xs) 1023) as [->|Hne].
  - apply Z.eqb_eq. divmod.
  - apply Z.eqb_neq. divmod.
Qed.
End Rep.

Lemma init_queue_ok storage w : zlen storage = 1024 -> queue_rep (init_queue storage w) [].
Proof. intros H. split; try done. intros k x E%zget_Some. unfold zlen in E. cbn in E. lia. Qed.

Lemma queue_put_ok q xs v : queue_rep q xs -> zlen xs < 1023 ->
  exists q', queue_put q v = Some (PutDone (if nz (consumer q) && blocking q then Some (consumer q) else None) q') /\
    queue_rep q' (xs ++ [v]) /\ blocking q' = blocking q /\ producer q' = producer q /\
    consumer q' = if nz (consumer q) && blocking q then 0 else consumer q.
Proof.
  intros R Hl. unfold queue_put. rewrite (queue_full_ok q xs R).
  destruct (Z.eqb_spec (zlen xs) 1023); [lia|]. cbn [andb]. pose proof R as [Hb Ht _ Hh Hi].
  pose proof (zlen_nonneg xs). assert (0 <= head q < 1024) by (rewrite Hh; divmod).
  rewrite zset_is_Some by lia. mstep. eexists. split; [done|]. split; [|done].
  assert (zlen (xs ++ [v]) = zlen xs + 1) as El by (rewrite zlen_app; unfold zlen; cbn; lia).
  split; cbn [buf head tail].
  - unfold zlen in *. by rewrite length_insert.
  - done.
  - lia.
  - unfold next_pos, queue_buf_size. rewrite El, Hh. divmod.
  - intros k x Hk. rewrite (zget_zset (buf q) (head q) v) by (rewrite zset_is_Some; [done|lia]).
    pose proof (zget_Some _ _ _ Hk) as Hr. rewrite El in Hr. rewrite Hh.
    destruct (Z.eqb_spec ((tail q + k) mod 1024) ((tail q + zlen xs) mod 1024)) as [E|E].
    + assert (k = zlen xs) as -> by divmod. unfold zlen in Hk. rewrite zget_nat in Hk.
      by rewrite list_lookup_middle in Hk.
    + assert (k < zlen xs) as Hlt by (destruct (Z.eq_dec k (zlen xs)); [by subst|lia]).
      apply Hi. unfold zget in *. destruct (k <? 0); [done|]. rewrite lookup_app_l in Hk; [done|].
      unfold zlen in *. lia.
Qed.

Lemma queue_get_ok q x xs : queue_rep q (x :: xs) ->
  exists q', queue_get q = Some (GetValue x (if nz (producer q) && blocking q then Some (producer q) else None) q') /\
    queue_rep q' xs /\ blocking q' = blocking q /\ consumer q' = consumer q /\
    producer q' = if nz (producer q) && blocking q then 0 else producer q.
Proof.
  intros R. unfold queue_get. rewrite (queue_empty_ok q _ R), bool_decide_eq_false_2 by done. cbn [andb].
  pose proof R as [Hb Ht Hl Hh Hi]. pose proof (Hi 0 x eq_refl) as H0.
  rewrite Z.add_0_r, Z.mod_small in H0 by lia. rewrite H0. mstep.
  eexists. split; [done|]. split; [|done]. assert (zlen (x :: xs) = zlen xs + 1) as El by (unfold zlen; cbn; lia).
  rewrite El in *. pose proof (zlen_nonneg xs). split; cbn [buf head tail]; unfold next_pos, queue_buf_size.
  - done.
  - divmod.
  - lia.
  - rewrite Hh. divmod.
  - intros k y Hk. pose proof (zget_Some _ _ _ Hk).
    replace (((tail q + 1) mod 1024 + k) mod 1024) with ((tail q + (k + 1)) mod 1024) by divmod.
    apply Hi. unfold zget in *. destruct (Z.ltb_spec k 0), (Z.ltb_spec (k + 1) 0); try lia.
    by replace (Z.to_nat (k + 1)) with (S (Z.to_nat k)) by lia.
Qed.

(** Operations of a run. *)
Inductive queue_op := OpPut (v : Z) | OpGet.
(** A call that does not wait, and the value it hands out. *)
Definition run_op (q : block_queue) (o : queue_op) : option (option Z * block_queue) :=
  match o with
  | OpPut v => r ← queue_put q v; match r with PutDone _ q' => Some (None, q') | PutWait => None end
  | OpGet => r ← queue_get q; match r with GetValue v _ q' => Some (Some v, q') | _ => None end
  end.
Fixpoint run_ops (q : block_queue) (os : list queue_op) : option (list Z * block_queue) :=
  match os with
  | [] => Some ([], q)
  | o :: os' =>
      '(r, q) ← run_op q o;
      '(out, q) ← run_ops q os';
      Some (match r with Some v => v :: out | None => out end, q)
  end.
Definition puts (os : list queue_op) : list Z :=
  omap (fun o => match o with OpPut v => Some v | OpGet => None end) os.

(** The ring is first-in first-out: in every run of puts and gets that did
    not have to wait, what was taken out followed by what is still inside is
    what was there at first followed by what was put in. *)
Theorem queue_fifo os : forall q xs out q', queue_rep q xs -> blocking q = true ->
  run_ops q os = Some (out, q') ->
  exists ys, queue_rep q' ys /\ out ++ ys = xs ++ puts os /\ queue_len q' = zlen ys.
Proof.
  induction os as [|o os IH]; intros q xs out q' R Hb H.
  { injection H as <- <-. exists xs. rewrite app_nil_r. auto using queue_len_ok. }
  cbn [run_ops] in H. apply bind_Some in H as ([r q1] & H1 & H).
  apply bind_Some in H as ([out1 q2] & H2 & [= <- <-]). destruct o as [v|]; cbn [run_op] in H1.
  - assert (zlen xs < 1023) as Hl.
    { pose proof (qr_len _ _ R). unfold queue_put in H1. rewrite (queue_full_ok q xs R), Hb, andb_true_r in H1.
      destruct (Z.eqb_spec (zlen xs) 1023); [done|lia]. }
    destruct (queue_put_ok q xs v R Hl) as (q3 & E & R3 & B3 & _). rewrite E in H1. injection H1 as <- <-.
    destruct (IH _ _ _ _ R3 ltac:(congruence) H2) as (ys & Ry & Ey & El). exists ys.
    split; [done|]. split; [|done]. rewrite Ey. by rewrite <- app_assoc.
  - destruct xs as [|x xs].
    { unfold queue_get in H1. rewrite (queue_empty_ok q [] R), Hb in H1. done. }
    destruct (queue_get_ok q x xs R) as (q3 & E & R3 & B3 & _). rewrite E in H1. injection H1 as <- <-.
    destruct (IH _ _ _ _ R3 ltac:(congruence) H2) as (ys & Ry & Ey & El). exists ys.
    split; [done|]. split; [|done]. cbn. by rewrite Ey.
Qed.

Definition queue0 : block_queue := init_queue (replicate 1024 0) true.
Lemma queue_fifo_witness : exists ys,
  queue_rep (Queue 0 0 true ([5; 6; 7] ++ replicate 1021 0) 3 2) ys /\ [5; 6] ++ ys = [] ++ [5; 6; 7] /\
  queue_len (Queue 0 0 true ([5; 6; 7] ++ replicate 1021 0) 3 2) = zlen ys.
Proof.
  apply (queue_fifo [OpPut 5; OpPut 6; OpGet; OpPut 7; OpGet] queue0 [] [5; 6]).
  - by apply init_queue_ok.
  - done.
  - by vm_compute.
Defined.
