(* ===== verification/Tty.v ===== *)
(** * Keyboard and terminal: kernel/device/tty/keyboard.c, tty.c

    The keyboard interrupt turns scan codes into characters of [kbuf] and
    queues their addresses, which are indices here; a terminal reads them,
    edits and echoes them, and writes to a console. *)

From S2P Require Import BlockQueue Console Prelude.

(** ** Keyboard *)

(** keyboard_code.h: the character of a key, plain and with shift. *)
Definition keymap : list (Z * Z) :=
  [(0, 0); (esc, esc); (49, 33); (50, 64); (51, 35); (52, 36); (53, 37); (54, 94); (55, 38); (56, 42);
   (57, 40); (48, 41); (45, 95); (61, 43); (backspace, backspace); (tab, tab); (113, 81); (119, 87);
   (101, 69); (114, 82); (116, 84); (121, 89); (117, 85); (105, 73); (111, 79); (112, 80); (91, 123);
   (93, 125); (enter, enter); (0, 0); (97, 65); (115, 83); (100, 68); (102, 70); (103, 71); (104, 72);
   (106, 74); (107, 75); (108, 76); (59, 58); (39, 34); (96, 126); (0, 0); (92, 124); (122, 90);
   (120, 88); (99, 67); (118, 86); (98, 66); (110, 78); (109, 77); (44, 60); (46, 62); (47, 63); (0, 0);
   (42, 42); (0, 0); (32, 32); (0, 0)].

Definition ctrl_l_make : Z := 29.
Definition ctrl_r_make : Z := 57373.
Definition shift_l_make : Z := 42.
Definition shift_r_make : Z := 54.
Definition alt_l_make : Z := 56.
Definition alt_r_make : Z := 57400.
Definition caps_lock_make : Z := 58.

Record keyboard := Keyboard
  { ext_scancode : bool; ctrl_down : bool; shift_down : bool; alt_down : bool; caps_lock_down : bool;
    kbd_buf : block_queue; kbuf : list Z }.

Definition set_ext (k : keyboard) (b : bool) : keyboard :=
  Keyboard b (ctrl_down k) (shift_down k) (alt_down k) (caps_lock_down k) (kbd_buf k) (kbuf k).
Definition set_mods (k : keyboard) (c s a l : bool) : keyboard :=
  Keyboard (ext_scancode k) c s a l (kbd_buf k) (kbuf k).
Definition set_queue (k : keyboard) (q : block_queue) (b : list Z) : keyboard :=
  Keyboard (ext_scancode k) (ctrl_down k) (shift_down k) (alt_down k) (caps_lock_down k) q b.

(** The interrupt with the byte [code] of the port; [KeyWait] is a handler
    that waits for room in the queue. *)
Inductive key_out := KeyWait (k : keyboard) | KeyDone (woken : option Z) (k : keyboard).

Definition modifier (k : keyboard) (make : Z) (down : bool) : keyboard :=
  if (make =? ctrl_l_make) || (make =? ctrl_r_make) then
    set_mods k down (shift_down k) (alt_down k) (caps_lock_down k)
  else if (make =? shift_l_make) || (make =? shift_r_make) then
    set_mods k (ctrl_down k) down (alt_down k) (caps_lock_down k)
  else if (make =? alt_l_make) || (make =? alt_r_make) then
    set_mods k (ctrl_down k) (shift_down k) down (caps_lock_down k)
  else k.

Definition keyboard_hander (k : keyboard) (code : Z) : option key_out :=
  if code =? 224 then Some (KeyDone None (set_ext k true))
  else
    let scan_code := if ext_scancode k then Z.lor 57344 code else code in
    let k := if ext_scancode k then set_ext k false else k in
    if negb (Z.land scan_code 128 =? 0) then
      Some (KeyDone None (modifier k (Z.land scan_code 65407) false))
    else if (0 <? scan_code) && (scan_code <? 59) || (scan_code =? alt_r_make)
         || (scan_code =? ctrl_r_make) then
      let idx := Z.land scan_code 255 in
      '(plain, shifted) ← zget keymap idx;
      let c : Z := if shift_down k then shifted else plain in
      if nz c then
        b ← zset (kbuf k) idx c;
        r ← queue_put (kbd_buf k) idx;
        match r with
        | PutWait => Some (KeyWait (set_queue k (kbd_buf k) b))
        | PutDone w q => Some (KeyDone w (set_queue k q b))
        end
      else if idx =? caps_lock_make then
        Some (KeyDone None (set_mods k (ctrl_down k) (shift_down k) (alt_down k) (negb (caps_lock_down k))))
      else Some (KeyDone None (modifier k idx true))
    else Some (KeyDone None k).

Definition init_keyboard (k : keyboard) (inited : bool) : keyboard :=
  if inited then k else set_queue k (init_queue (buf (kbd_buf k)) true) (kbuf k).

(** ** Terminals *)

(** include/device_model.h *)
Definition TTY_IN_N_RN : Z := 1.
Definition TTY_IN_BACKSPACE : Z := 4.
Definition TTY_OUT_R_N : Z := 1024.
Definition TTY_OUT_ECHO : Z := 2048.
Definition TTY_OUT_LINE : Z := 4096.
Definition TTY_SIZE : Z := 8.

Record tty_t := Tty { console_idx : Z; in_flags : Z; out_flags : Z }.

Record ttys_t := Ttys { ttys : list tty_t; tcons : consoles; kbd : keyboard; kbd_inited : bool }.
Definition with_cons (w : ttys_t) (c : consoles) : ttys_t := Ttys (ttys w) c (kbd w) (kbd_inited w).
Definition with_kbd (w : ttys_t) (k : keyboard) : ttys_t := Ttys (ttys w) (tcons w) k (kbd_inited w).

(** [arg] is what [dev->arg] points to, if it is not NULL. *)
Definition tty_open (w : ttys_t) (minor : Z) (arg : option Z) : option (Z * ttys_t) :=
  if (minor <? 0) || (TTY_SIZE <=? minor) then Some (-1, w)
  else
    let flags := match arg with
                 | Some f => f
                 | None => Z.lor (Z.lor TTY_IN_N_RN TTY_OUT_ECHO) TTY_OUT_R_N
                 end in
    t ← zset (ttys w) minor (Tty minor flags flags);
    c ← init_console (tcons w) minor;
    Some (0, Ttys t c (init_keyboard (kbd w) (kbd_inited w)) true).

(** [minor] and [open_count] are the device's. *)
Definition get_tty (w : ttys_t) (minor open_count : Z) : option (option tty_t) :=
  if (minor <? 0) || (TTY_SIZE <=? minor) || (open_count <=? 0) then Some None
  else t ← zget (ttys w) minor; Some (Some t).

(** A byte as a [char]. *)
Definition as_char (b : Z) : Z := if b <? 128 then b else b - 256.

(** One byte of [tty_write]; the test of the flag is [in_flags | TTY_IN_N_RN]. *)
Definition write_byte (t : tty_t) (b : Z) (w : ttys_t) : option ttys_t :=
  '(_, c) ← (if b =? newline then
               if nz (Z.lor (in_flags t) TTY_IN_N_RN) then console_putchar (tcons w) (console_idx t) enter
               else Some (0, tcons w)
             else Some (0, tcons w));
  '(_, c) ← console_putchar c (console_idx t) (as_char b);
  c ← console_update_cursor_pos c (console_idx t);
  Some (with_cons w c).

Definition tty_write (w : ttys_t) (minor open_count : Z) (buf : list Z) (size : Z)
    : option (Z * ttys_t) :=
  t ← get_tty w minor open_count;
  match t with
  | None => Some (-1, w)
  | Some t =>
      w ← for_ (Z.to_nat size) 0 (fun i w => b ← zget buf i; write_byte t b w) w;
      Some (i32 size, w)
  end.

(** ** Reading *)

(** The rest of a turn of the loop of [tty_read], with the address [p] that
    the queue gave; [None] inside stands for the end of the loop. *)
Definition read_char (w : ttys_t) (t : tty_t) (minor open_count : Z) (p : Z) (buf : list Z) (len : Z)
    : option (ttys_t * list Z * Z * bool) :=
  c ← zget (kbuf (kbd w)) p;
  k ← (if (c =? enter) && nz (Z.land (out_flags t) TTY_OUT_R_N) then
         b ← zset (kbuf (kbd w)) p newline; Some (set_queue (kbd w) (kbd_buf (kbd w)) b)
       else Some (kbd w));
  let w := with_kbd w k in
  c ← zget (kbuf (kbd w)) p;
  w ← (if nz (Z.land (out_flags t) TTY_OUT_ECHO) then
         '(_, w) ← tty_write w minor open_count [u8 c] 1; Some w
       else Some w);
  if (c =? backspace) && (0 <? len) && (Z.land (in_flags t) TTY_IN_BACKSPACE =? 0) then
    Some (w, buf, len - 1, false)
  else
    buf ← zset buf len (u8 c);
    Some (w, buf, len + 1, (c =? newline) && nz (Z.land (out_flags t) TTY_OUT_LINE)).

(** [ReadBlocked] is a call that waits for a key, with what it has read; the
    queue of the keyboard is a blocking one. *)
Inductive read_out := ReadDone (n : Z) (buf : list Z) | ReadBlocked (len : Z) (buf : list Z).

(** Every turn takes a value off the queue: [fuel] above its length is
    enough. *)
Fixpoint read_loop (fuel : nat) (w : ttys_t) (t : tty_t) (minor open_count size len : Z) (buf : list Z)
    : option (read_out * ttys_t) :=
  match fuel with
  | O => None
  | S fuel' =>
      if len <? size then
        r ← queue_get (kbd_buf (kbd w));
        match r with
        | GetValue p _ q =>
            let w := with_kbd w (set_queue (kbd w) q (kbuf (kbd w))) in
            '(w, buf, len, stop) ← read_char w t minor open_count p buf len;
            if (stop : bool) then Some (ReadDone len buf, w)
            else read_loop fuel' w t minor open_count size len buf
        | _ => Some (ReadBlocked len buf, w)
        end
      else Some (ReadDone len buf, w)
  end.

Definition tty_read (w : ttys_t) (minor open_count : Z) (buf : list Z) (size : Z)
    : option (read_out * ttys_t) :=
  t ← get_tty w minor open_count;
  match t with
  | None => Some (ReadDone (-1) buf, w)
  | Some t => read_loop (S (Z.to_nat (queue_len (kbd_buf (kbd w))))) w t minor open_count size 0 buf
  end.
