(* ===== verification/TtySpec.v ===== *)
(** * What a terminal shows and reads

    Text written to a terminal appears on its console as its lines, broken at
    the width of the screen; typed lines are read as they were edited. *)

From S2P Require Import BlockQueue Console ConsoleSpec Tty Prelude.

(** ** Text *)

(** The finished lines and the current one. *)
Record text := Text { finished : list (list Z); current : list Z }.
Definition empty_text : text := Text [] [].
Definition lines (t : text) : list (list Z) := finished t ++ [current t].

(** A character of text is printable or ends the line. *)
Definition textual (x : Z) : bool := (x =? newline) || (32 <=? x) && (x <=? 126).

Definition type_char (t : text) (x : Z) : text :=
  if x =? newline then Text (lines t) []
  else if zlen (current t) =? 79 then Text (finished t ++ [current t ++ [x]]) []
  else Text (finished t) (current t ++ [x]).

(** The character at column [q] of line [i], blank where there is none. *)
Definition char_at (t : text) (i q : Z) : Z :=
  default 32 (zget (default [] (zget (lines t) i)) q).

(** The first visible line. *)
Definition top_line (t : text) : Z := Z.max 0 (zlen (lines t) - 25).

(** ** The screen *)

Definition screen (m : vga_mem) (c : console_t) (r q : Z) : option Z :=
  ch <$> zget m (display_base c + 80 * r + q).

Record shows (m : vga_mem) (c : console_t) (t : text) : Prop := {
  sh_ok : cons_ok m c;
  sh_row : cursor_row c = zlen (lines t) - 1 - top_line t;
  sh_col : cursor_col c = zlen (current t);
  sh_cells : forall r q, 0 <= r < 25 -> 0 <= q < 80 -> screen m c r q = Some (char_at t (top_line t + r) q);
}.

(** ** Facts on the text *)

Lemma zget_snoc {A} (l : list A) x i :
  zget (l ++ [x]) i = if i =? zlen l then Some x else zget l i.
Proof.
  unfold zget, zlen. destruct (Z.ltb_spec i 0) as [|Hi]; [destruct (Z.eqb_spec i (Z.of_nat (length l))); [lia|done]|].
  destruct (Z.eqb_spec i (Z.of_nat (length l))) as [->|Hne].
  - rewrite Nat2Z.id. by rewrite list_lookup_middle.
  - destruct (decide (Z.to_nat i < length l)%nat) as [Hlt|Hge]; [by rewrite lookup_app_l|].
    rewrite !lookup_ge_None_2; [done|lia|rewrite length_app; cbn; lia].
Qed.

Lemma zlen_lines t : zlen (lines t) = zlen (finished t) + 1.
Proof. unfold lines. rewrite zlen_app. done. Qed.

(** A new empty line shows as blanks, as no line does. *)
Lemma char_at_newline fs l i q : char_at (Text (fs ++ [l]) []) i q = char_at (Text fs l) i q.
Proof.
  unfold char_at, lines. cbn [finished current]. rewrite (zget_snoc (fs ++ [l])).
  destruct (Z.eqb_spec i (zlen (fs ++ [l]))) as [->|]; [|done]. cbn.
  rewrite (zget_snoc fs), zlen_app. change (zlen [l]) with 1.
  destruct (Z.eqb_spec (zlen fs + 1) (zlen fs)); [lia|].
  destruct (zget fs (zlen fs + 1)) eqn:E; [apply zget_Some in E; lia|done].
Qed.

Lemma char_at_append fs l x i q : char_at (Text fs (l ++ [x])) i q =
  if (i =? zlen fs) && (q =? zlen l) then x else char_at (Text fs l) i q.
Proof.
  unfold char_at, lines. cbn [finished current]. rewrite !zget_snoc.
  destruct (i =? zlen fs); [|done]. cbn. rewrite zget_snoc. by destruct (q =? zlen l).
Qed.

Lemma char_at_end t i q : zlen (lines t) <= i -> char_at t i q = 32.
Proof.
  intros Hi. unfold char_at. destruct (zget (lines t) i) eqn:E; [apply zget_Some in E; lia|].
  cbn. unfold zget. destruct (q <? 0); [done|]. by rewrite lookup_nil.
Qed.

Lemma zget_past (l : list Z) i : zlen l <= i -> zget l i = None.
Proof. intros Hi. destruct (zget l i) eqn:E; [apply zget_Some in E; lia|done]. Qed.

(** ** The cursor moves down a line *)

(** What [forward_one] at the end of a row and [down_one] share: from a screen
    that shows [fs ++ [l]] with the cursor still on the last line to one where
    it is on a new line. *)
Lemma next_line_ok m c fs l :
  cons_ok m c -> cursor_row c = zlen (lines (Text fs l)) - 1 - top_line (Text fs l) ->
  (forall r q, 0 <= r < 25 -> 0 <= q < 80 ->
     screen m c r q = Some (char_at (Text fs l) (top_line (Text fs l) + r) q)) ->
  let c1 := set_cursor c (cursor_row c + 1) 0 in
  exists m' c', (if 25 <=? cursor_row c1 then scroll_up m c1 1 else Some (m, c1)) = Some (m', c') /\
    shows m' c' (Text (fs ++ [l]) []) /\ outside m m' c /\ same_screen c c' /\ parser c' = parser c.
Proof.
  intros H Hrow Hs c1. pose proof H as [Ecol Erow Hcol Hr Hb Hm Hp Hn].
  pose proof (zlen_nonneg fs) as Hf. unfold top_line in *. rewrite zlen_lines in *. cbn [finished] in *.
  assert (zlen (fs ++ [l]) = zlen fs + 1) as El by (rewrite zlen_app; done).
  cbn [cursor_row set_cursor c1].
  destruct (Z.leb_spec 25 (cursor_row c + 1)).
  - destruct (scroll_ok m c1) as (m' & E & L & O & H1 & H2); [done..|]. rewrite E.
    eexists _, _. split; [done|]. split; [|by split_and!]. split.
    + split; cbn; try done; lia.
    + unfold top_line. rewrite zlen_lines. cbn. lia.
    + done.
    + intros r q Hr' Hq. unfold top_line. rewrite zlen_lines. cbn [finished].
      unfold screen. cbn [display_base set_cursor c1]. cbn [display_base set_cursor c1] in H1, H2.
      rewrite char_at_newline. destruct (Z.eq_dec r 24) as [->|Hne].
      * rewrite H2 by lia. rewrite char_at_end by (rewrite zlen_lines; cbn; lia).
        destruct (zget_is_Some m (display_base c + 80 * 24 + q)) as [d ->]; [lia|]. done.
      * rewrite H1 by lia. specialize (Hs (r + 1) q ltac:(lia) Hq). unfold screen in Hs.
        replace (display_base c + 80 * r + q + 80) with (display_base c + 80 * (r + 1) + q) by lia.
        rewrite Hs. f_equal. f_equal. lia.
  - eexists m, _. split; [done|]. split; [|by split_and!]. split.
    + split; cbn; try done; lia.
    + unfold top_line. rewrite zlen_lines. cbn. lia.
    + done.
    + intros r q Hr' Hq. unfold top_line. rewrite zlen_lines. cbn [finished]. rewrite char_at_newline.
      unfold screen in *. cbn [display_base set_cursor c1]. rewrite Hs by done. f_equal. f_equal. lia.
Qed.

(** ** Writing *)

(** A step of the console that turns one text into the next. *)
Definition shows_step (m : vga_mem) (c : console_t) (r : option (vga_mem * console_t)) (t' : text) : Prop :=
  exists m' c', r = Some (m', c') /\ shows m' c' t' /\ outside m m' c /\ same_screen c c' /\
    parser c' = parser c.

Lemma print_ok m c t x : shows m c t -> write_state c = WRITE_STATE_NORMAL -> 32 <= x <= 126 ->
  shows_step m c (console_step m c x) (type_char t x).
Proof.
  intros [H Hrow Hcol Hs] Hst Hx. pose proof H as [Ecol Erow Hc Hr Hb Hm Hp Hn].
  unfold console_step, putchar_normal. rewrite Hst. unfold newline, enter, backspace, Console.delete, tab, esc.
  repeat (match goal with |- context [x =? ?k] => destruct (Z.eqb_spec x k); [lia|] end).
  destruct (Z.leb_spec 32 x), (Z.leb_spec x 126); try lia. cbn [andb].
  destruct (putchar_cell m c x H) as (m1 & d & -> & K1 & [L1 O1] & Ed & Hg).
  unfold cursor_forward. change (Z.to_nat 1) with 1%nat. cbn [for_].
  destruct t as [fs l]. unfold type_char. destruct (Z.eqb_spec x newline) as [E|_]; [unfold newline in E; lia|].
  assert (forall r q, 0 <= r < 25 -> 0 <= q < 80 -> screen m1 c r q =
    Some (char_at (Text fs (l ++ [x])) (top_line (Text fs l) + r) q)) as Hs1.
  { intros r q Hr' Hq. unfold screen. rewrite Hg, char_at_append. cbn [current] in Hcol.
    unfold here. rewrite Ecol. unfold screen in Hs. pose proof (zlen_lines (Text fs l)) as El. cbn [finished] in El.
    destruct (Z.eqb_spec (display_base c + 80 * r + q) (display_base c + (cursor_col c + cursor_row c * 80))).
    - assert (r = cursor_row c) as -> by lia. assert (q = cursor_col c) as -> by lia.
      rewrite (proj2 (Z.eqb_eq _ _)) by lia. rewrite (proj2 (Z.eqb_eq (cursor_col c) _)) by done. by rewrite <- Ed.
    - rewrite Hs by done. f_equal. destruct (Z.eqb_spec (top_line (Text fs l) + r) (zlen fs)); [|done].
      destruct (Z.eqb_spec q (zlen l)); [|done]. lia. }
  assert (top_line (Text fs (l ++ [x])) = top_line (Text fs l)) as Et by (unfold top_line; by rewrite !zlen_lines).
  unfold forward_one. cbn [display_cols display_rows cursor_col cursor_row set_cursor]. rewrite Ecol, Erow.
  cbn [current finished] in *. rewrite Hcol. destruct (Z.eqb_spec (zlen l) 79) as [E79|N79].
  - rewrite E79. change (80 <=? 79 + 1) with true. cbv iota.
    rewrite <- Et in Hs1. destruct (next_line_ok m1 c fs (l ++ [x]) K1) as (m2 & c2 & E2 & S2 & [L2 O2] & SS & P2);
      [rewrite Et, zlen_lines; rewrite zlen_lines in Hrow; done|done|].
    cbn [cursor_row set_cursor] in E2. exists m2, c2. split.
    { change ((s ← (if 25 <=? cursor_row c + 1 then scroll_up m1 (set_cursor c (cursor_row c + 1) 0) 1
        else Some (m1, set_cursor c (cursor_row c + 1) 0)); Some s) = Some (m2, c2)). by rewrite E2. }
    split; [done|]. split; [|done]. split; [congruence|]. intros p Hp'. by rewrite O2, O1.
  - destruct (Z.leb_spec 80 (zlen l + 1)); [lia|]. eexists m1, _. split; [done|]. split; [|split; [by split|done]].
    split; cbn [cursor_row cursor_col set_cursor].
    + destruct K1. split; cbn; try done; lia.
    + rewrite Et, zlen_lines. rewrite zlen_lines in Hrow. done.
    + cbn [current]. rewrite zlen_app. unfold zlen at 3. cbn. lia.
    + intros r q Hr' Hq. rewrite Et. unfold screen. cbn [display_base set_cursor]. by apply Hs1.
Qed.

Lemma newline_ok m c t : shows m c t -> write_state c = WRITE_STATE_NORMAL ->
  shows_step m c ('(m, c) ← console_step m c enter; console_step m c newline) (type_char t newline).
Proof.
  intros [H Hrow Hcol Hs] Hst.
  assert (console_step m c enter = Some (m, cursor_line_head c)) as -> by (unfold console_step; by rewrite Hst).
  mstep. cbv beta iota.
  unfold console_step. change (write_state (cursor_line_head c)) with (write_state c). rewrite Hst.
  unfold putchar_normal.
  change (newline =? newline) with true. cbv iota. unfold cursor_down. change (Z.to_nat 1) with 1%nat. cbn [for_].
  destruct t as [fs l]. change (type_char (Text fs l) newline) with (Text (fs ++ [l]) []).
  destruct (next_line_ok m c fs l H Hrow Hs) as (m' & c' & E & S' & O & SS & P).
  exists m', c'. split; [|done]. unfold down_one, cursor_line_head. cbn [cursor_row display_rows set_cursor].
  rewrite (co_rows _ _ H). pose proof (co_row _ _ H). destruct (Z.leb_spec (cursor_row c) 25); [|lia].
  cbn [cursor_row display_rows set_cursor] in *. rewrite (co_rows _ _ H).
  change ((s ← (if 25 <=? cursor_row c + 1 then scroll_up m (set_cursor c (cursor_row c + 1) 0) 1
    else Some (m, set_cursor c (cursor_row c + 1) 0)); Some s) = Some (m', c')). by rewrite E.
Qed.

(** The console [idx] of the system shows [t]. *)
Definition displays (s : consoles) (idx : Z) (t : text) : Prop :=
  0 <= idx < CONSOLE_CNT /\ exists c, zget (console_buf s) idx = Some c /\ shows (vga s) c t /\
    write_state c = WRITE_STATE_NORMAL.

Lemma on_console_run s idx c f m' c' : 0 <= idx < CONSOLE_CNT -> zget (console_buf s) idx = Some c ->
  f (vga s) c = Some (m', c') ->
  on_console s idx f = Some (Consoles (<[Z.to_nat idx := c']> (console_buf s)) m' (cursor_reg s)).
Proof.
  intros Hi Hc Hf. unfold on_console, CONSOLE_CNT in *.
  destruct (Z.ltb_spec idx 0), (Z.leb_spec 8 idx); try lia. cbn [orb]. rewrite Hc. mstep. rewrite Hf. mstep.
  cbv beta iota. rewrite zset_is_Some by (by eapply zget_Some). done.
Qed.

Lemma putchar_run s idx c x m' c' : 0 <= idx < CONSOLE_CNT -> zget (console_buf s) idx = Some c ->
  console_step (vga s) c x = Some (m', c') ->
  exists r, console_putchar s idx x =
    Some (r, Consoles (<[Z.to_nat idx := c']> (console_buf s)) m' (cursor_reg s)).
Proof.
  intros Hi Hc Hx. unfold console_putchar. pose proof Hi as Hi'. unfold CONSOLE_CNT in Hi'. unfold CONSOLE_CNT at 1.
  destruct (Z.ltb_spec idx 0), (Z.leb_spec 8 idx); try lia. cbn [orb]. rewrite Hc. mstep.
  rewrite (on_console_run s idx c _ m' c') by done. mstep. eauto.
Qed.

Lemma zget_insert {A} (l : list A) i (x : A) : 0 <= i < zlen l -> zget (<[Z.to_nat i := x]> l) i = Some x.
Proof.
  intros Hi. rewrite (zget_zset l i x) by (by apply zset_is_Some). by rewrite Z.eqb_refl.
Qed.

Lemma cursor_displays s idx t : displays s idx t ->
  exists s', console_update_cursor_pos s idx = Some s' /\ displays s' idx t.
Proof.
  intros (Hi & c & Hc & Hs & Hst). unfold console_update_cursor_pos. pose proof Hi as Hi'. unfold CONSOLE_CNT in *.
  destruct (Z.ltb_spec idx 0), (Z.leb_spec 8 idx); try lia. cbn [orb]. rewrite Hc. mstep.
  eexists. split; [done|]. split; [done|]. by exists c.
Qed.

Lemma as_char_text b : textual b = true -> as_char b = b.
Proof.
  unfold textual, as_char, newline. intros H. destruct (Z.ltb_spec b 128); [done|].
  apply orb_true_iff in H as [H%Z.eqb_eq|[H1%Z.leb_le H2%Z.leb_le]%andb_true_iff]; lia.
Qed.

Lemma write_byte_ok (w : ttys_t) (y : tty_t) t b : displays (tcons w) (console_idx y) t -> textual b = true ->
  exists w', write_byte y b w = Some w' /\ displays (tcons w') (console_idx y) (type_char t b) /\
    ttys w' = ttys w /\ kbd w' = kbd w /\ kbd_inited w' = kbd_inited w.
Proof.
  intros (Hi & c & Hc & Hs & Hst) Hb. unfold write_byte. rewrite (as_char_text b Hb).
  pose proof (zget_Some _ _ _ Hc) as Hlen. destruct (Z.eqb_spec b newline) as [->|Hne].
  - assert (nz (Z.lor (in_flags y) TTY_IN_N_RN) = true) as ->.
    { unfold nz, TTY_IN_N_RN. destruct (Z.eqb_spec (Z.lor (in_flags y) 1) 0) as [E|]; [|done].
      apply Z.lor_eq_0_iff in E as [_ E]. done. }
    destruct (newline_ok (vga (tcons w)) c t Hs Hst) as (m2 & c2 & E & S2 & _ & _ & P2).
    apply bind_Some in E as ([m1 c1] & E1 & E2). injection P2 as P2 _ _.
    destruct (putchar_run (tcons w) _ c enter m1 c1 Hi Hc E1) as (r1 & ->). mstep. cbv beta iota.
    destruct (putchar_run (Consoles (<[Z.to_nat (console_idx y) := c1]> (console_buf (tcons w))) m1 (cursor_reg (tcons w)))
      (console_idx y) c1 newline m2 c2 Hi) as (r2 & ->); [cbn; by apply zget_insert|done|].
    mstep. cbv beta iota. match goal with |- context [console_update_cursor_pos ?s _] =>
      destruct (cursor_displays s (console_idx y) (type_char t newline)) as (s' & -> & D) end.
    { split; [done|]. exists c2. split; [cbn; apply zget_insert|split; [done|congruence]].
      unfold zlen in *. by rewrite length_insert. }
    mstep. eexists. split; [done|]. by split.
  - mstep. cbv beta iota. assert (32 <= b <= 126) as Hr.
    { unfold textual in Hb. apply Z.eqb_neq in Hne. rewrite Hne in Hb. cbn in Hb.
      apply andb_true_iff in Hb as [?%Z.leb_le ?%Z.leb_le]. lia. }
    destruct (print_ok (vga (tcons w)) c t b Hs Hst Hr) as (m2 & c2 & E & S2 & _ & _ & P2). injection P2 as P2 _ _.
    destruct (putchar_run (tcons w) _ c b m2 c2 Hi Hc E) as (r2 & ->). mstep. cbv beta iota.
    match goal with |- context [console_update_cursor_pos ?s _] =>
      destruct (cursor_displays s (console_idx y) (type_char t b)) as (s' & -> & D) end.
    { split; [done|]. exists c2. split; [cbn; by apply zget_insert|split; [done|congruence]]. }
    mstep. eexists. split; [done|]. by split.
Qed.

Lemma tty_write_loop_ok (y : tty_t) buf : forall (w : ttys_t) t pre, displays (tcons w) (console_idx y) t ->
  forallb textual buf = true ->
  exists w', for_ (length buf) (zlen pre) (fun i w => b ← zget (pre ++ buf) i; write_byte y b w) w = Some w' /\
    displays (tcons w') (console_idx y) (foldl type_char t buf) /\ ttys w' = ttys w /\ kbd w' = kbd w.
Proof.
  induction buf as [|b buf IH]; intros w t pre D Hb; [by exists w|].
  cbn [length for_ foldl]. cbn [forallb] in Hb. apply andb_true_iff in Hb as [Hb Hbs].
  assert (zget (pre ++ b :: buf) (zlen pre) = Some b) as ->
    by (unfold zlen; rewrite zget_nat; by rewrite list_lookup_middle).
  mstep. destruct (write_byte_ok w y t b D Hb) as (w1 & -> & D1 & T1 & K1 & _). mstep.
  destruct (IH w1 (type_char t b) (pre ++ [b]) D1 Hbs) as (w2 & E & D2 & T2 & K2).
  rewrite zlen_app in E. change (zlen [b]) with 1 in E. rewrite <- app_assoc in E. cbn [app] in E.
  exists w2. split; [done|]. split; [done|]. split; congruence.
Qed.

(** C31: text written to an open terminal whose console shows the text [t]
    makes it show [t] followed by what was written: each line on a row of its
    own, lines longer than the screen broken at its width, the last
    twenty-five lines visible and the cursor at the end. *)
Theorem tty_write_shows w minor oc y t buf :
  zget (ttys w) minor = Some y -> 0 <= minor < TTY_SIZE -> 0 < oc ->
  displays (tcons w) (console_idx y) t -> forallb textual buf = true -> zlen buf < 2 ^ 31 ->
  exists w', tty_write w minor oc buf (zlen buf) = Some (zlen buf, w') /\
    displays (tcons w') (console_idx y) (foldl type_char t buf).
Proof.
  intros Hy Hm Hoc D Hb Hlen. unfold tty_write, get_tty, TTY_SIZE in *.
  destruct (Z.ltb_spec minor 0), (Z.leb_spec 8 minor), (Z.leb_spec oc 0); try lia. cbn [orb].
  rewrite Hy. mstep. replace (Z.to_nat (zlen buf)) with (length buf) by (unfold zlen; lia).
  destruct (tty_write_loop_ok y buf w t [] D Hb) as (w' & E & D' & _). change (zlen []) with 0 in E.
  cbn [app] in E. rewrite E. mstep. exists w'. split; [|done]. rewrite i32_small; [done|].
  pose proof (zlen_nonneg buf). lia.
Qed.

(** The terminal 0 after [tty_open], with the flags given by the caller. *)
Definition keyboard0 : keyboard :=
  Keyboard false false false false false (init_queue (replicate 1024 0) true) (replicate 1024 0).
Definition ttys0 (flags : Z) : ttys_t :=
  Ttys (Tty 0 flags flags :: replicate 7 (Tty 0 0 0)) sys0 keyboard0 true.

Lemma tty_open0 flags : tty_open (Ttys (replicate 8 (Tty 0 0 0)) start_sys keyboard0 false) 0 (Some flags)
  = Some (0, ttys0 flags).
Proof. unfold tty_open. cbn [tcons]. rewrite init_console0. reflexivity. Qed.

Lemma displays0 flags : displays (tcons (ttys0 flags)) 0 empty_text.
Proof.
  split; [unfold CONSOLE_CNT; lia|]. exists console0. split; [done|]. split; [|done].
  split; [apply sys_ok0|done|done|]. intros r q Hr Hq. unfold screen. cbn [display_base console0].
  unfold ttys0, tcons, sys0, vga. assert (zget (replicate (Z.to_nat 16384) blank) (0 + 80 * r + q) = Some blank) as ->.
  { unfold zget. destruct (Z.ltb_spec (0 + 80 * r + q) 0); [lia|]. apply lookup_replicate_2. lia. }
  cbn [fmap option_fmap option_map ch blank]. f_equal. unfold char_at. destruct (zget (lines empty_text) _) as [l|] eqn:E.
  - unfold lines, empty_text in E. cbn [finished current app] in E.
    assert (l = []) as -> by (apply list_elem_of_singleton; unfold zget in E; destruct (_ <? _); [done|];
      by eapply list_elem_of_lookup_2).
    cbn. unfold zget. destruct (_ <? _); [done|]. by rewrite lookup_nil.
  - cbn. unfold zget. destruct (_ <? _); [done|]. by rewrite lookup_nil.
Qed.

Lemma tty_write_shows_witness : exists w',
  tty_write (ttys0 1) 0 1 [104; 105; 10; 33] 4 = Some (4, w') /\
  displays (tcons w') 0 (Text [[104; 105]] [33]).
Proof.
  apply (tty_write_shows (ttys0 1) 0 1 (Tty 0 1 1) empty_text [104; 105; 10; 33]); try done.
  apply displays0.
Defined.

(** ** Reading a line *)

(** What has been typed after one more character: backspace takes the last one
    back. *)
Definition edit (acc : list Z) (c : Z) : list Z :=
  if (c =? backspace) && (0 <? zlen acc) then removelast acc else acc ++ [c].

(** The console can take any character but the start of an escape sequence. *)
Definition plain_console (s : consoles) (idx : Z) : Prop :=
  exists c, sys_ok s idx c /\ write_state c = WRITE_STATE_NORMAL.

Lemma putchar_plain s idx x : plain_console s idx -> x <> esc ->
  exists r s', console_putchar s idx x = Some (r, s') /\ plain_console s' idx.
Proof.
  intros (c & H & Hst) Hx. pose proof (putchar_sys s idx c x H) as Hs. rewrite Hst in Hs. cbn in Hs.
  apply Z.eqb_neq in Hx. rewrite Hx in Hs.
  destruct Hs as (r & s' & c' & E & H' & Hst' & _). exists r, s'. split; [done|]. by exists c'.
Qed.

Lemma write_plain w y b : plain_console (tcons w) (console_idx y) -> as_char b <> esc ->
  exists w', write_byte y b w = Some w' /\ plain_console (tcons w') (console_idx y) /\
    ttys w' = ttys w /\ kbd w' = kbd w.
Proof.
  intros H Hb. unfold write_byte.
  assert (exists r s, (if b =? newline then
    if nz (Z.lor (in_flags y) TTY_IN_N_RN) then console_putchar (tcons w) (console_idx y) enter
    else Some (0, tcons w) else Some (0, tcons w)) = Some (r, s) /\ plain_console s (console_idx y))
    as (r & s & -> & H1).
  { destruct (b =? newline); [destruct (nz _)|]; [|by eexists _, _..]. by apply putchar_plain. }
  mstep. cbv beta iota. destruct (putchar_plain s (console_idx y) (as_char b) H1 Hb) as (r2 & s2 & -> & H2).
  mstep. cbv beta iota. destruct H2 as (c & (Hi & Hc & Ho) & Hst). unfold console_update_cursor_pos.
  pose proof Hi as Hi'. unfold CONSOLE_CNT in *. destruct (Z.ltb_spec (console_idx y) 0), (Z.leb_spec 8 (console_idx y)); try lia.
  cbn [orb]. rewrite Hc. mstep. eexists. split; [done|]. split; [|done]. exists c. by split.
Qed.

Section Reading.
Context (y : tty_t) (minor oc : Z).
Context (Hminor : 0 <= minor < TTY_SIZE) (Hoc : 0 < oc).
Context (Hline : nz (Z.land (out_flags y) TTY_OUT_LINE) = true).
Context (Hrn : nz (Z.land (out_flags y) TTY_OUT_R_N) = true).
Context (Hbs : Z.land (in_flags y) TTY_IN_BACKSPACE = 0).

(** The state of the reader: the terminal, its console, the queue of keys and
    what is in the buffer. *)
Record reading (w : ttys_t) (ps : list Z) (buf acc : list Z) : Prop := {
  rd_tty : zget (ttys w) minor = Some y;
  rd_cons : plain_console (tcons w) (console_idx y);
  rd_queue : queue_rep (kbd_buf (kbd w)) ps;
  rd_acc : take (length acc) buf = acc;
}.

Lemma echo_ok w c : zget (ttys w) minor = Some y -> plain_console (tcons w) (console_idx y) ->
  0 <= c < 128 -> c <> esc ->
  exists w', (if nz (Z.land (out_flags y) TTY_OUT_ECHO) then
      '(_, w) ← tty_write w minor oc [u8 c] 1; Some w else Some w) = Some w' /\
    plain_console (tcons w') (console_idx y) /\ ttys w' = ttys w /\ kbd w' = kbd w.
Proof.
  intros Hy H Hc Hne. destruct (nz (Z.land (out_flags y) TTY_OUT_ECHO)); [|by exists w]. unfold tty_write, get_tty, TTY_SIZE in *.
  destruct (Z.ltb_spec minor 0), (Z.leb_spec 8 minor), (Z.leb_spec oc 0); try lia. cbn [orb].
  rewrite Hy. mstep. change (Z.to_nat 1) with 1%nat. cbn [for_]. change (zget [u8 c] 0) with (Some (u8 c)). mstep.
  rewrite u8_small by lia. destruct (write_plain w y c H) as (w' & -> & H').
  { unfold as_char. destruct (Z.ltb_spec c 128); [done|lia]. }
  mstep. cbv beta iota. by exists w'.
Qed.

Lemma edit_buf buf acc c : take (length acc) buf = acc -> zlen acc < zlen buf ->
  (c =? backspace) && (0 <? zlen acc) = false ->
  exists buf', zset buf (zlen acc) c = Some buf' /\ take (length (acc ++ [c])) buf' = acc ++ [c] /\
    zlen buf' = zlen buf.
Proof.
  intros Ha Hl _. rewrite zset_is_Some by (pose proof (zlen_nonneg acc); lia). eexists. split; [done|].
  unfold zlen in *. rewrite Nat2Z.id. split; [|by rewrite length_insert].
  rewrite length_app. cbn [length]. replace (length acc + 1)%nat with (S (length acc)) by lia.
  rewrite (take_S_r _ _ c) by (apply list_lookup_insert_eq; lia). by rewrite take_insert_ge, Ha by lia.
Qed.

Lemma read_char_ok w ps buf acc p c : reading w ps buf acc -> zget (kbuf (kbd w)) p = Some c ->
  0 <= c < 128 -> c <> esc -> c <> enter -> c <> newline -> zlen acc < zlen buf ->
  exists w' buf', read_char w y minor oc p buf (zlen acc) = Some (w', buf', zlen (edit acc c), false) /\
    reading w' ps buf' (edit acc c) /\ kbd w' = kbd w /\ zlen buf' = zlen buf.
Proof.
  intros [Hy Hcons Hq Ha] Hp Hc He Hent Hnl Hl. unfold read_char. rewrite Hp. mstep.
  apply Z.eqb_neq in Hent, Hnl. rewrite Hent. cbn [andb]. mstep.
  replace (with_kbd w (kbd w)) with w by (by destruct w). rewrite Hp. mstep.
  destruct (echo_ok w c Hy Hcons Hc He) as (w1 & -> & H1 & T1 & K1). mstep. rewrite Hbs. change (0 =? 0) with true.
  rewrite andb_true_r. unfold edit. destruct ((c =? backspace) && (0 <? zlen acc)) eqn:Eb.
  - exists w1, buf. apply andb_true_iff in Eb as [_ Hpos%Z.ltb_lt].
    destruct acc as [|a acc _] using rev_ind; [done|]. rewrite removelast_last.
    assert (zlen (acc ++ [a]) - 1 = zlen acc) as -> by (rewrite zlen_app; change (zlen [a]) with 1; lia).
    split; [done|]. split; [|done]. split; [congruence|done|congruence|].
    apply (f_equal (take (length acc))) in Ha. rewrite take_take, take_app_length in Ha.
    by rewrite Nat.min_l in Ha by (rewrite length_app; cbn; lia).
  - rewrite u8_small by lia. destruct (edit_buf buf acc c Ha Hl Eb) as (buf' & -> & Ht & Hz). mstep.
    rewrite Hnl. cbn [andb]. exists w1, buf'.
    assert (zlen acc + 1 = zlen (acc ++ [c])) as -> by (rewrite zlen_app; done).
    split; [done|]. split; [|done]. split; [congruence|done|congruence|done].
Qed.

Lemma tty_read_loop_ok cs : forall w ps buf acc fuel size, reading w ps buf acc ->
  Forall2 (fun p c => zget (kbuf (kbd w)) p = Some c) ps (cs ++ [enter]) ->
  Forall (fun c => 0 <= c < 128 /\ c <> esc /\ c <> enter /\ c <> newline) cs ->
  zlen acc + zlen cs < size -> size <= zlen buf -> (length ps <= fuel)%nat ->
  exists w' buf', read_loop (S fuel) w y minor oc size (zlen acc) buf
      = Some (ReadDone (zlen (foldl edit acc cs) + 1) buf', w') /\
    take (S (length (foldl edit acc cs))) buf' = foldl edit acc cs ++ [newline] /\
    queue_rep (kbd_buf (kbd w')) [].
Proof.
  induction cs as [|c cs IH]; intros w ps buf acc fuel size R Hps Hcs Hsz Hbuf Hfuel.
  - cbn [foldl app]. apply Forall2_cons_inv_r in Hps as (p & ps' & Hp & Hps' & ->).
    apply Forall2_nil_inv_r in Hps' as ->. change (zlen []) with 0 in Hsz.
    destruct fuel as [|fuel]; [cbn in Hfuel; lia|].
    cbn [read_loop]. destruct (Z.ltb_spec (zlen acc) size); [|lia].
    pose proof R as [Hy Hcons Hq Ha]. destruct (queue_get_ok _ _ _ Hq) as (q' & -> & Rq & _). mstep.
    set (w0 := with_kbd w (set_queue (kbd w) q' (kbuf (kbd w)))).
    unfold read_char. change (kbuf (kbd w0)) with (kbuf (kbd w)). rewrite Hp. mstep.
    change (enter =? enter) with true. rewrite Hrn. cbn [andb].
    pose proof (zget_Some _ _ _ Hp) as Hpl. rewrite zset_is_Some by done. mstep.
    set (w1 := with_kbd w0 _). assert (zget (kbuf (kbd w1)) p = Some newline) as -> by (by apply zget_insert).
    mstep. destruct (echo_ok w1 newline Hy Hcons) as (w2 & -> & _ & _ & K2); [unfold newline; lia|done|]. mstep.
    change (newline =? backspace) with false. cbn [andb]. change (u8 newline) with newline.
    destruct (edit_buf buf acc newline Ha) as (buf' & -> & Ht & Hz); [lia|done|]. mstep.
    change (newline =? newline) with true. rewrite Hline. cbn [andb].
    exists w2, buf'. split; [done|]. split; [by rewrite length_app, Nat.add_1_r in Ht|]. by rewrite K2.
  - apply Forall_cons_1 in Hcs as [(Hc & He & Hent & Hnl) Hcs]. cbn [foldl app] in *.
    apply Forall2_cons_inv_r in Hps as (p & ps' & Hp & Hps' & ->).
    destruct fuel as [|fuel]; [cbn in Hfuel; lia|].
    assert (zlen (c :: cs) = zlen cs + 1) as El by (unfold zlen; cbn; lia). pose proof (zlen_nonneg cs).
    cbn [read_loop]. destruct (Z.ltb_spec (zlen acc) size); [|lia].
    pose proof R as [Hy Hcons Hq Ha]. destruct (queue_get_ok _ _ _ Hq) as (q' & -> & Rq & _). mstep.
    set (w0 := with_kbd w (set_queue (kbd w) q' (kbuf (kbd w)))).
    destruct (read_char_ok w0 ps' buf acc p c) as (w1 & buf1 & -> & R1 & K1 & Hz1); try done; [lia|].
    mstep. cbv beta iota. assert (zlen (edit acc c) <= zlen acc + 1) as Hed.
    { unfold edit. destruct (_ && _); [|rewrite zlen_app; change (zlen [c]) with 1; lia].
      destruct acc as [|a acc' _] using rev_ind; [done|]. rewrite removelast_last, zlen_app.
      change (zlen [a]) with 1. lia. }
    apply (IH w1 ps' buf1 (edit acc c) fuel size R1); [by rewrite K1|done|lia|lia|cbn in Hfuel; lia].
Qed.

(** C32: a terminal in line mode answers a typed line: the keys in the queue,
    the last of them the first Enter, are read as the line after its backspaces
    have taken effect, followed by a newline, and the queue is empty after. *)
Theorem tty_read_line w ps buf cs size : reading w ps buf [] ->
  Forall2 (fun p c => zget (kbuf (kbd w)) p = Some c) ps (cs ++ [enter]) ->
  Forall (fun c => 0 <= c < 128 /\ c <> esc /\ c <> enter /\ c <> newline) cs ->
  zlen cs < size -> size <= zlen buf ->
  exists w' buf', tty_read w minor oc buf size
      = Some (ReadDone (zlen (foldl edit [] cs) + 1) buf', w') /\
    take (S (length (foldl edit [] cs))) buf' = foldl edit [] cs ++ [newline] /\
    queue_rep (kbd_buf (kbd w')) [].
Proof.
  intros R Hps Hcs Hsz Hbuf. unfold tty_read, get_tty, TTY_SIZE in *.
  destruct (Z.ltb_spec minor 0), (Z.leb_spec 8 minor), (Z.leb_spec oc 0); try lia. cbn [orb].
  rewrite (rd_tty _ _ _ _ R). mstep. rewrite (queue_len_ok _ _ (rd_queue _ _ _ _ R)).
  apply (tty_read_loop_ok cs w ps buf [] _ size R Hps Hcs); [change (zlen []) with 0; lia|done|].
  unfold zlen. lia.
Qed.

End Reading.

(** ** Keys *)

(** A key that has a character: its address is queued, and the character
    stored there. *)
Lemma key_press k ps code pl sh : queue_rep (kbd_buf k) ps -> zlen ps < 1023 -> zlen (kbuf k) = 1024 ->
  ext_scancode k = false -> zget keymap code = Some (pl, sh) ->
  let c := if shift_down k then sh else pl in c <> 0 ->
  exists w k', keyboard_hander k code = Some (KeyDone w k') /\ queue_rep (kbd_buf k') (ps ++ [code]) /\
    (forall p, zget (kbuf k') p = if p =? code then Some c else zget (kbuf k) p) /\
    zlen (kbuf k') = 1024 /\ ext_scancode k' = false /\ shift_down k' = shift_down k.
Proof.
  intros Hq Hl Hk He Hm c Hc. pose proof (zget_Some _ _ _ Hm) as Hr. change (zlen keymap) with 59 in Hr.
  unfold keyboard_hander. destruct (Z.eqb_spec code 224); [lia|]. rewrite He.
  assert (Z.land code 128 = 0) as ->.
  { apply Z.bits_inj'. intros i Hi. rewrite Z.land_spec, Z.bits_0. destruct (Z.eq_dec i 7) as [->|].
    - rewrite (bits_lt_pow2 6); [done|lia..].
    - change 128 with (2 ^ 7). rewrite Z.pow2_bits_false by lia. by rewrite andb_false_r. }
  change (negb (0 =? 0)) with false. cbv iota.
  assert (0 < code) as H0.
  { destruct (Z.eq_dec code 0) as [->|]; [|lia]. exfalso. apply Hc. unfold c. cbn in Hm. injection Hm as <- <-.
    by destruct (shift_down k). }
  destruct (Z.ltb_spec 0 code), (Z.ltb_spec code 59); try lia. cbn [andb orb].
  assert (Z.land code 255 = code) as -> by (change 255 with (Z.ones 8); rewrite Z.land_ones by lia; apply Z.mod_small; lia).
  rewrite Hm. mstep. cbv beta iota. fold c. assert (nz c = true) as -> by (unfold nz; by destruct (Z.eqb_spec c 0)).
  rewrite zset_is_Some by lia. mstep. destruct (queue_put_ok _ _ code Hq Hl) as (q' & -> & Rq & _). mstep.
  eexists _, _. split; [done|]. split; [done|]. split.
  - intros p. cbn [kbuf set_queue]. apply zget_zset, zset_is_Some. lia.
  - cbn [kbuf set_queue ext_scancode shift_down]. split; [|done]. unfold zlen in *. by rewrite length_insert.
Qed.

(** A sequence of scan codes none of which had to wait. *)
Fixpoint type_keys (k : keyboard) (codes : list Z) : option keyboard :=
  match codes with
  | [] => Some k
  | c :: codes' =>
      r ← keyboard_hander k c;
      match r with KeyDone _ k => type_keys k codes' | KeyWait _ => None end
  end.

(** The characters the queued addresses hold. *)
Definition pending (k : keyboard) (ps : list Z) : list (option Z) := zget (kbuf k) <$> ps.

(** Characters are stored by key, not by position: an "a" that waits in the
    queue turns into an "A" when the key is pressed again with shift. *)
Lemma key_alias : exists k, type_keys keyboard0 [30; 42; 30] = Some k /\
  queue_rep (kbd_buf k) [30; 30] /\ pending k [30; 30] = [Some 65; Some 65].
Proof.
  eexists. split; [vm_compute; reflexivity|]. split; [|reflexivity]. split; try done.
  intros i x Hx. pose proof (zget_Some _ _ _ Hx) as Hr. change (zlen [30; 30]) with 2 in Hr.
  assert (i = 0 \/ i = 1) as [-> | ->] by lia; injection Hx as <-; reflexivity.
Qed.

(** The keys h, Backspace, i, Enter. *)
Definition typed : keyboard := default keyboard0 (type_keys keyboard0 [35; 14; 23; 28]).
Definition line_ttys : ttys_t := with_kbd (ttys0 7168) typed.

Lemma reading0 : reading (Tty 0 7168 7168) 0 line_ttys [35; 14; 23; 28] (replicate 8 0) [].
Proof.
  split; [done| |split; try done|done].
  - exists console0. split; [apply sys_ok0|done].
  - intros i x Hx. pose proof (zget_Some _ _ _ Hx) as Hr. change (zlen [35; 14; 23; 28]) with 4 in Hr.
    assert (i = 0 \/ i = 1 \/ i = 2 \/ i = 3) as [->|[->|[->| ->]]] by lia; injection Hx as <-; reflexivity.
Qed.

Lemma tty_read_line_witness : exists w' buf',
  tty_read line_ttys 0 1 (replicate 8 0) 8 = Some (ReadDone 2 buf', w') /\
  take 2 buf' = [105; 10] /\ queue_rep (kbd_buf (kbd w')) [].
Proof.
  apply (tty_read_line (Tty 0 7168 7168) 0 1 ltac:(done) ltac:(done) eq_refl eq_refl eq_refl
    line_ttys [35; 14; 23; 28] (replicate 8 0) [104; 8; 105] 8 reading0); try done.
  - repeat constructor; reflexivity.
  - unfold esc, enter, newline. repeat constructor; lia.
Defined.
