(* ===== verification/Stdio.v ===== *)
(** * Formatted printing: common/lib/stdio.c

    [vsprintf] writes to a buffer, a list of bytes; the variable arguments are
    the words on the stack after the format, and [str_at] gives the memory a
    word points to when it is read as a string.  The theorem relates the
    output to the positional numerals of the arguments. *)

From S2P Require Import CMath CString Prelude.

(** ** Definitions *)

Definition digit_char (m : Z) : Z := if m <? 10 then m + 48 else m - 10 + 65.

(** The buffer and the pointer into it; the value shrinks by the base in each
    call, so that 64 calls are enough from base 2 on. *)
Fixpoint itoa (fuel : nat) (s : mem) (p value base : Z) : option (mem * Z) :=
  match fuel with
  | O => None
  | S fuel' =>
      '(i, m) ← div_u64_rem value base;
      '(s, p) ← (if nz i then itoa fuel' s p i base else Some (s, p));
      s ← zset s p (u8 (digit_char m)); Some (s, p + 1)
  end.

Definition print_num (s : mem) (p value base : Z) : option (mem * Z) := itoa 65 s p (u64 value) base.

Definition copy_str (s : mem) (p : Z) (str : mem) : option (mem * Z) :=
  n ← strlen str;
  s ← for_ (Z.to_nat n) 0 (fun k s => v ← zget str k; zset s (p + k) v) s;
  Some (s, p + n).

(** [va_arg] moves to the next word first. *)
Definition va_arg (ap : list Z) : option (Z * list Z) :=
  match ap with [] => None | w :: ap' => Some (w, ap') end.

Section Format.
Context (str_at : Z -> mem).

(** The sign of [%d] and [%l]; [neg] is the negation of the type. *)
Definition print_signed (neg : Z -> Z) (s : mem) (p arg : Z) : option (mem * Z) :=
  '(s, p, arg) ← (if arg <? 0 then s ← zset s p 45; Some (s, p + 1, neg arg) else Some (s, p, arg));
  print_num s p arg 10.

(** [fmt] starts at [index_ptr].  After a percent sign and a letter that is no
    conversion the loop goes on with the letter. *)
Fixpoint format_loop (fmt : mem) (s : mem) (p : Z) (ap : list Z) {struct fmt} : option mem :=
  match fmt with
  | [] => None
  | c :: fmt' =>
      if c =? 0 then Some s
      else if negb (c =? 37) then s ← zset s p c; format_loop fmt' s (p + 1) ap
      else
        match fmt' with
        | [] => None
        | d :: fmt'' =>
            if d =? 115 then
              '(w, ap) ← va_arg ap;
              '(s, p) ← copy_str s p (str_at w);
              format_loop fmt'' s p ap
            else if d =? 99 then
              '(w, ap) ← va_arg ap;
              s ← zset s p (u8 w);
              format_loop fmt'' s (p + 1) ap
            else if d =? 100 then
              '(w, ap) ← va_arg ap;
              '(s, p) ← print_signed (fun x => i32 (0 - x)) s p (i32 w);
              format_loop fmt'' s p ap
            else if d =? 120 then
              '(w, ap) ← va_arg ap;
              '(s, p) ← print_num s p (i32 w) 16;
              format_loop fmt'' s p ap
            else if d =? 108 then
              '(lo, ap) ← va_arg ap;
              '(hi, ap) ← va_arg ap;
              '(s, p) ← print_signed (fun x => i64 (0 - x)) s p (i64 (lo + hi * 2 ^ 32));
              format_loop fmt'' s p ap
            else format_loop fmt' s p ap
        end
  end.

Definition vsprintf (s fmt : mem) (ap : list Z) : option (mem * Z) :=
  s ← format_loop fmt s 0 ap;
  n ← strlen s;
  Some (s, n).

End Format.

(** ** Numerals *)

(** The digits of [n] in base [b], the most significant first, without leading
    zeros. *)
Record numeral (b n : Z) (ds : list Z) : Prop := {
  nu_len : 1 <= zlen ds;
  nu_high : n < b ^ zlen ds;
  nu_low : 1 < zlen ds -> b ^ (zlen ds - 1) <= n;
  nu_digit : forall k, 0 <= k < zlen ds ->
    zget ds k = Some (digit_char (n / b ^ (zlen ds - 1 - k) mod b));
}.

Lemma numeral_digit b n : 2 <= b -> 0 <= n < b -> numeral b n [digit_char n].
Proof.
  intros Hb Hn. split; change (zlen [digit_char n]) with 1; [lia|rewrite Z.pow_1_r; lia|lia|].
  intros k Hk. assert (k = 0) as -> by lia. rewrite Z.sub_diag, Z.pow_0_r, Z.div_1_r, Z.mod_small by lia. done.
Qed.

Lemma zget_snoc_last {A} (l : list A) x k : 0 <= k <= zlen l ->
  zget (l ++ [x]) k = if k =? zlen l then Some x else zget l k.
Proof.
  intros Hk. unfold zget, zlen in *. destruct (Z.ltb_spec k 0); [lia|].
  destruct (Z.eqb_spec k (Z.of_nat (length l))) as [->|].
  - rewrite Nat2Z.id. by rewrite list_lookup_middle.
  - by rewrite lookup_app_l by lia.
Qed.

Lemma numeral_step b n ds : 2 <= b -> b <= n -> numeral b (n / b) ds ->
  numeral b n (ds ++ [digit_char (n mod b)]).
Proof.
  intros Hb Hn [Hl Hh Hlo Hd]. set (L := zlen ds) in *.
  assert (zlen (ds ++ [digit_char (n mod b)]) = L + 1) as El by (rewrite zlen_app; done).
  assert (0 < b ^ (L - 1)) as Hp by (apply Z.pow_pos_nonneg; lia).
  assert (b ^ L = b * b ^ (L - 1)) as EL by (rewrite <- Z.pow_succ_r by lia; f_equal; lia).
  assert (b ^ (L + 1) = b * b ^ L) as EL1 by (rewrite <- Z.pow_succ_r by lia; f_equal; lia).
  assert (n = b * (n / b) + n mod b /\ 0 <= n mod b < b) as [En Hm] by (split; [apply Z.div_mod|apply Z.mod_pos_bound]; lia).
  split; rewrite El.
  - lia.
  - rewrite EL1. nia.
  - intros _. replace (L + 1 - 1) with L by lia. rewrite EL.
    destruct (Z.eq_dec L 1) as [E1|]; [|specialize (Hlo ltac:(lia)); nia].
    rewrite E1. change (b ^ (1 - 1)) with 1. lia.
  - intros k Hk. rewrite zget_snoc_last by lia. fold L. destruct (Z.eqb_spec k L) as [->|].
    + replace (L + 1 - 1 - L) with 0 by lia. by rewrite Z.pow_0_r, Z.div_1_r.
    + rewrite Hd by lia. do 3 f_equal. replace (L + 1 - 1 - k) with (Z.succ (L - 1 - k)) by lia.
      rewrite Z.pow_succ_r by lia. rewrite Z.div_div; [done|lia|apply Z.pow_pos_nonneg; lia].
Qed.

(** ** Writing to the buffer *)

Lemma digit_char_byte m : 0 <= m < 36 -> u8 (digit_char m) = digit_char m.
Proof. intros. unfold digit_char. apply u8_small. destruct (Z.ltb_spec m 10); lia. Qed.

(** The buffer is what has been written and the room after it. *)
Lemma emit_ok (d room : mem) c : (0 < length room)%nat ->
  zset (d ++ room) (zlen d) c = Some ((d ++ [c]) ++ drop 1 room).
Proof.
  destruct room as [|x room]; [cbn; lia|]. intros _. rewrite zset_app_at. cbn [drop].
  by rewrite <- app_assoc.
Qed.

(** [itoa] appends the numeral of the value. *)
Lemma itoa_ok fuel : forall (d room : mem) value base, 2 <= base <= 36 -> 0 <= value < 2 ^ 64 ->
  value < 2 ^ Z.of_nat fuel -> (fuel < length room)%nat ->
  exists ds, itoa (S fuel) (d ++ room) (zlen d) value base
      = Some ((d ++ ds) ++ drop (length ds) room, zlen (d ++ ds)) /\
    numeral base value ds /\ zlen ds <= Z.of_nat fuel + 1.
Proof.
  assert (forall (d room : mem) value base fuel, 2 <= base <= 36 -> 0 <= value < 2 ^ 64 -> value < base ->
    (0 < length room)%nat ->
    itoa (S fuel) (d ++ room) (zlen d) value base = Some ((d ++ [digit_char value]) ++ drop 1 room, zlen (d ++ [digit_char value])))
    as Hbase.
  { intros d room value base fuel0 Hb Hv Hlt Hr. cbn [itoa]. rewrite div_u64_rem_correct by lia. mstep. cbv beta iota.
    rewrite Z.div_small, Z.mod_small by lia. change (nz 0) with false. cbv iota. mstep. cbv beta iota.
    rewrite digit_char_byte by lia. rewrite emit_ok by lia. mstep. by rewrite zlen_app. }
  induction fuel as [|fuel IH]; intros d room value base Hb Hv Hf Hr.
  - exists [digit_char value]. assert (value = 0) as -> by (cbn in Hf; lia).
    rewrite Hbase by lia. split; [done|]. split; [apply numeral_digit; lia|done].
  - destruct (Z.lt_ge_cases value base) as [Hlt|Hge].
    { exists [digit_char value]. rewrite Hbase by lia. split; [done|]. split; [apply numeral_digit; lia|].
      change (zlen [digit_char value]) with 1. lia. }
    cbn [itoa]. fold (itoa (S fuel)). rewrite div_u64_rem_correct by lia. mstep. cbv beta iota.
    assert (1 <= value / base) by (apply Z.div_le_lower_bound; lia).
    assert (value / base < 2 ^ Z.of_nat fuel /\ value / base <= value) as [Hq Hqv].
    { rewrite Nat2Z.inj_succ, Z.pow_succ_r in Hf by lia. split; [apply Z.div_lt_upper_bound; nia|].
      apply Z.div_le_upper_bound; nia. }
    assert (nz (value / base) = true) as -> by (unfold nz; destruct (Z.eqb_spec (value / base) 0); [lia|done]).
    destruct (IH d room (value / base) base) as (ds & E & Hn & Hl); [lia..|]. cbn [itoa] in E. rewrite E.
    mstep. cbv beta iota. pose proof (Z.mod_pos_bound value base). rewrite digit_char_byte by lia.
    rewrite emit_ok by (rewrite length_drop; unfold zlen in Hl; lia). mstep.
    exists (ds ++ [digit_char (value mod base)]). split.
    { rewrite drop_drop, length_app, <- !app_assoc, !zlen_app. cbn [length]. change (zlen [_]) with 1.
      do 2 f_equal. lia. }
    split; [by apply numeral_step; [lia|lia|]|]. rewrite zlen_app. change (zlen [_]) with 1. lia.
Qed.

Lemma print_num_ok (d room : mem) value base : 2 <= base <= 36 -> 0 <= value < 2 ^ 64 ->
  (64 < length room)%nat ->
  exists ds, print_num (d ++ room) (zlen d) value base
      = Some ((d ++ ds) ++ drop (length ds) room, zlen (d ++ ds)) /\
    numeral base value ds /\ (length ds <= 65)%nat.
Proof.
  intros Hb Hv Hr. unfold print_num. rewrite u64_small by lia.
  destruct (itoa_ok 64 d room value base Hb Hv) as (ds & E & Hn & Hl); [change (Z.of_nat 64) with 64; lia|done|].
  exists ds. split; [done|]. split; [done|]. unfold zlen in Hl. lia.
Qed.

Definition sign (n : Z) : list Z := if n <? 0 then [45] else [].

Lemma print_signed_ok neg (d room : mem) n : - 2 ^ 63 < n < 2 ^ 63 -> (n < 0 -> neg n = - n) ->
  (65 < length room)%nat ->
  exists ds, print_signed neg (d ++ room) (zlen d) n
      = Some ((d ++ sign n ++ ds) ++ drop (length (sign n ++ ds)) room, zlen (d ++ sign n ++ ds)) /\
    numeral 10 (Z.abs n) ds /\ (length (sign n ++ ds) <= 66)%nat.
Proof.
  intros Hn Hneg Hr. unfold print_signed, sign. destruct (Z.ltb_spec n 0).
  - rewrite emit_ok by lia. mstep. cbv beta iota. rewrite Hneg by done.
    destruct (print_num_ok (d ++ [45]) (drop 1 room) (- n) 10) as (ds & E & Hd & Hl); [lia|lia|rewrite length_drop; lia|].
    replace (zlen d + 1) with (zlen (d ++ [45])) by (by rewrite zlen_app). rewrite E.
    exists ds. replace (Z.abs n) with (- n) by lia. rewrite <- !app_assoc, drop_drop. cbn [app length].
    split; [done|]. split; [done|lia].
  - mstep. cbv beta iota. destruct (print_num_ok d room n 10) as (ds & -> & Hd & Hl); [lia..|].
    exists ds. replace (Z.abs n) with n by lia. cbn [app]. split; [done|]. split; [done|lia].
Qed.

Lemma copy_str_ok (d room str : mem) rest : 0 ∉ str -> (length str <= length room)%nat ->
  copy_str (d ++ room) (zlen d) (str ++ 0 :: rest) = Some ((d ++ str) ++ drop (length str) room, zlen (d ++ str)).
Proof.
  intros H0 Hl. unfold copy_str. rewrite strlen_app by done. mstep.
  replace (Z.to_nat (zlen str)) with (length str) by (unfold zlen; lia). clear H0.
  enough (forall pre post d room, (length post <= length room)%nat ->
    for_ (length post) (zlen pre) (fun k s => v ← zget (pre ++ post ++ 0 :: rest) k; zset s (zlen d - zlen pre + k) v) (d ++ room)
    = Some ((d ++ post) ++ drop (length post) room)) as Hgen.
  { specialize (Hgen [] str d room Hl). change (zlen []) with 0 in Hgen. rewrite Z.sub_0_r in Hgen. cbn [app] in Hgen.
    rewrite Hgen. mstep. by rewrite zlen_app. }
  intros pre post. revert pre. induction post as [|c post IH]; intros pre d' room' Hr.
  - cbn. by rewrite app_nil_r.
  - cbn [length for_]. rewrite <- app_comm_cons. assert (zget (pre ++ c :: post ++ 0 :: rest) (zlen pre) = Some c) as ->
      by (unfold zlen; rewrite zget_nat; by rewrite list_lookup_middle).
    mstep. replace (zlen d' - zlen pre + zlen pre) with (zlen d') by lia. cbn [length] in Hr. rewrite emit_ok by lia. mstep.
    specialize (IH (pre ++ [c]) (d' ++ [c]) (drop 1 room')). rewrite length_drop in IH. specialize (IH ltac:(lia)).
    rewrite !zlen_app in IH. change (zlen [c]) with 1 in IH.
    replace (zlen d' + 1 - (zlen pre + 1)) with (zlen d' - zlen pre) in IH by lia.
    rewrite <- !app_assoc in IH. cbn [app] in IH. rewrite <- !app_assoc. cbn [app]. rewrite IH.
    by rewrite drop_drop.
Qed.

(** ** Formats *)

(** A part of a format with its argument: a character, or a conversion. *)
Inductive piece := Lit (c : Z) | Str (a : Z) (str : list Z) | Chr (c : Z) | Dec (n : Z) | Hex (n : Z) | Long (n : Z).

Definition fmt_of (x : piece) : list Z :=
  match x with
  | Lit c => [c] | Str _ _ => [37; 115] | Chr _ => [37; 99] | Dec _ => [37; 100]
  | Hex _ => [37; 120] | Long _ => [37; 108]
  end.
Definition args_of (x : piece) : list Z :=
  match x with
  | Lit _ => [] | Str a _ => [a] | Chr c => [c] | Dec n => [u32 n] | Hex n => [n]
  | Long n => [u32 n; u32 (n / 2 ^ 32)]
  end.

(** What it prints as. *)
Inductive renders : piece -> list Z -> Prop :=
  | r_lit c : renders (Lit c) [c]
  | r_str a str : renders (Str a str) str
  | r_chr c : renders (Chr c) [c]
  | r_dec n ds : numeral 10 (Z.abs n) ds -> renders (Dec n) (sign n ++ ds)
  | r_hex n ds : numeral 16 n ds -> renders (Hex n) ds
  | r_long n ds : numeral 10 (Z.abs n) ds -> renders (Long n) (sign n ++ ds).

(** The arguments that print as they should, and the room they may take. *)
Definition piece_ok (str_at : Z -> mem) (x : piece) : Prop :=
  match x with
  | Lit c => c <> 0 /\ c <> 37
  | Str a str => 0 ∉ str /\ exists rest, str_at a = str ++ 0 :: rest
  | Chr c => 0 < c < 256
  | Dec n => - 2 ^ 31 < n < 2 ^ 31
  | Hex n => 0 <= n < 2 ^ 31
  | Long n => - 2 ^ 63 < n < 2 ^ 63
  end.
Definition width (x : piece) : nat :=
  match x with Lit _ | Chr _ => 1 | Str _ str => length str | _ => 66 end.

Lemma i32_u32 n : - 2 ^ 31 <= n < 2 ^ 31 -> i32 (u32 n) = n.
Proof. intros. unfold i32, u32. divmod. Qed.
Lemma i64_words n : - 2 ^ 63 <= n < 2 ^ 63 -> i64 (u32 n + u32 (n / 2 ^ 32) * 2 ^ 32) = n.
Proof. intros. unfold i64, u32. divmod. Qed.

(** One piece of the format. *)
Lemma piece_step str_at x (d room fmt : mem) ap : piece_ok str_at x -> (width x <= length room)%nat ->
  exists t, renders x t /\ (length t <= width x)%nat /\
    format_loop str_at (fmt_of x ++ fmt) (d ++ room) (zlen d) (args_of x ++ ap)
    = format_loop str_at fmt ((d ++ t) ++ drop (length t) room) (zlen (d ++ t)) ap.
Proof.
  destruct x as [c|a str|c|n|n|n]; cbn [piece_ok width fmt_of args_of app]; intros Hok Hw.
  - exists [c]. split; [constructor|]. split; [done|]. destruct Hok as [H0 H1]. cbn [format_loop].
    apply Z.eqb_neq in H0, H1. rewrite H0, H1. cbn [negb]. rewrite emit_ok by lia. mstep. by rewrite zlen_app.
  - destruct Hok as (H0 & rest & Hr). exists str. split; [constructor|]. split; [done|].
    cbn [format_loop Z.eqb Pos.eqb negb va_arg]. mstep. cbv beta iota. rewrite Hr, copy_str_ok by done. done.
  - exists [c]. split; [constructor|]. split; [done|]. cbn [format_loop Z.eqb Pos.eqb negb va_arg]. mstep. cbv beta iota.
    rewrite u8_small by lia. rewrite emit_ok by lia. mstep. by rewrite zlen_app.
  - cbn [format_loop Z.eqb Pos.eqb negb va_arg]. mstep. cbv beta iota. rewrite i32_u32 by lia.
    destruct (print_signed_ok (fun x => i32 (0 - x)) d room n) as (ds & -> & Hd & Hl); [lia| |lia|].
    { intros. rewrite i32_small by lia. lia. }
    exists (sign n ++ ds). split; [by constructor|]. split; [done|]. done.
  - cbn [format_loop Z.eqb Pos.eqb negb va_arg]. mstep. cbv beta iota. rewrite i32_small by lia.
    destruct (print_num_ok d room n 16) as (ds & -> & Hd & Hl); [lia..|].
    exists ds. split; [by constructor|]. split; [lia|]. done.
  - cbn [format_loop Z.eqb Pos.eqb negb va_arg]. mstep. cbv beta iota. cbn [va_arg].
    mstep. cbv beta iota. rewrite i64_words by lia.
    destruct (print_signed_ok (fun x => i64 (0 - x)) d room n) as (ds & -> & Hd & Hl); [lia| |lia|].
    { intros. unfold i64. rewrite Z.mod_small by lia. lia. }
    exists (sign n ++ ds). split; [by constructor|]. split; [done|]. done.
Qed.

Lemma format_ok str_at ps : forall (d room rest : mem) ap, Forall (piece_ok str_at) ps ->
  (sum_list (width <$> ps) <= length room)%nat ->
  exists ts, Forall2 renders ps ts /\ (length (mjoin ts) <= sum_list (width <$> ps))%nat /\
    format_loop str_at (mjoin (fmt_of <$> ps) ++ 0 :: rest) (d ++ room) (zlen d) (mjoin (args_of <$> ps) ++ ap)
    = Some ((d ++ mjoin ts) ++ drop (length (mjoin ts)) room).
Proof.
  induction ps as [|x ps IH]; intros d room rest ap Hok Hw.
  - exists []. split; [constructor|]. split; [done|]. cbn. by rewrite app_nil_r.
  - apply Forall_cons in Hok as [Hx Hok].
    change (sum_list (width <$> x :: ps)) with (width x + sum_list (width <$> ps))%nat in *.
    destruct (piece_step str_at x d room (mjoin (fmt_of <$> ps) ++ 0 :: rest) (mjoin (args_of <$> ps) ++ ap) Hx)
      as (t & Ht & Hl & E); [lia|].
    destruct (IH (d ++ t) (drop (length t) room) rest ap Hok) as (ts & Hts & Hlen & E2); [rewrite length_drop; lia|].
    exists (t :: ts). split; [by constructor|].
    change (mjoin (t :: ts)) with (t ++ mjoin ts).
    change (mjoin (fmt_of <$> x :: ps)) with (fmt_of x ++ mjoin (fmt_of <$> ps)).
    change (mjoin (args_of <$> x :: ps)) with (args_of x ++ mjoin (args_of <$> ps)). rewrite length_app.
    split; [lia|]. rewrite <- !app_assoc. rewrite E, E2. rewrite drop_drop, <- !app_assoc. done.
Qed.

(** No piece prints a NUL. *)
Lemma digit_nonzero m : 0 <= m -> digit_char m <> 0.
Proof. unfold digit_char. destruct (Z.ltb_spec m 10); lia. Qed.

Lemma numeral_no_nul b n ds : 2 <= b -> 0 <= n -> numeral b n ds -> 0 ∉ ds.
Proof.
  intros Hb Hn [_ _ _ Hd] (i & Hi)%list_elem_of_lookup_1. rewrite <- zget_nat in Hi.
  pose proof (zget_Some _ _ _ Hi) as Hr. rewrite Hd in Hi by done. injection Hi as Hi.
  revert Hi. apply digit_nonzero. apply Z.mod_pos_bound. lia.
Qed.

Lemma renders_no_nul str_at x t : piece_ok str_at x -> renders x t -> 0 ∉ t.
Proof.
  intros Hok Hr. destruct Hr as [c|a str|c|n ds Hn|n ds Hn|n ds Hn]; cbn in Hok.
  - set_solver.
  - tauto.
  - intros E%list_elem_of_singleton. lia.
  - apply not_elem_of_app. split; [unfold sign; destruct (_ <? _); set_solver|by apply numeral_no_nul in Hn; [|lia..]].
  - by apply numeral_no_nul in Hn; [|lia..].
  - apply not_elem_of_app. split; [unfold sign; destruct (_ <? _); set_solver|by apply numeral_no_nul in Hn; [|lia..]].
Qed.

Lemma vsprintf_ok str_at ps (room rest : mem) ap N : Forall (piece_ok str_at) ps ->
  (sum_list (width <$> ps) < N)%nat -> room = replicate N 0 ->
  exists ts, Forall2 renders ps ts /\ 0 ∉ mjoin ts /\ (length (mjoin ts) < N)%nat /\
    vsprintf str_at room (mjoin (fmt_of <$> ps) ++ 0 :: rest) (mjoin (args_of <$> ps) ++ ap)
    = Some (mjoin ts ++ replicate (N - length (mjoin ts)) 0, zlen (mjoin ts)).
Proof.
  intros Hok Hw ->. destruct (format_ok str_at ps [] (replicate N 0) rest ap Hok) as (ts & Hts & Hl & E).
  { rewrite length_replicate. lia. }
  exists ts. split; [done|]. unfold vsprintf. change (zlen []) with 0 in E. cbn [app] in E. rewrite E. mstep.
  rewrite drop_replicate. assert (0 ∉ mjoin ts) as H0.
  { rewrite list_elem_of_join. intros (t & H0 & Hin). apply list_elem_of_lookup_1 in Hin as (i & Hi).
    destruct (Forall2_lookup_r _ _ _ _ _ Hts Hi) as (x & Hx & Hr).
    apply (renders_no_nul str_at x t); [|done|done]. by eapply Forall_lookup_1. }
  split; [done|]. split; [lia|].
  destruct (N - length (mjoin ts))%nat as [|k] eqn:Ek; [lia|]. cbn [replicate]. rewrite strlen_app by done. done.
Qed.

(** C33: [vsprintf] into a cleared buffer with room for the output: every
    character of the format is copied, and every conversion replaced by its
    argument, numbers as their shortest numeral in base 10 or 16; the result
    is the length of the output. *)
Theorem vsprintf_spec str_at ps (room rest : mem) ap N : Forall (piece_ok str_at) ps ->
  (sum_list (width <$> ps) < N)%nat -> room = replicate N 0 ->
  exists ts, Forall2 renders ps ts /\
    vsprintf str_at room (mjoin (fmt_of <$> ps) ++ 0 :: rest) (mjoin (args_of <$> ps) ++ ap)
    = Some (mjoin ts ++ replicate (N - length (mjoin ts)) 0, zlen (mjoin ts)).
Proof.
  intros Hok Hw Hr. destruct (vsprintf_ok str_at ps room rest ap N Hok Hw Hr) as (ts & Hts & _ & _ & E). eauto.
Qed.

(** "n=%d, %x" with -7 and 255. *)
Lemma vsprintf_spec_witness : exists ts,
  Forall2 renders [Lit 110; Lit 61; Dec (-7); Lit 44; Hex 255] ts /\
  vsprintf (fun _ => []) (replicate 140 0) [110; 61; 37; 100; 44; 37; 120; 0] [4294967289; 255]
  = Some (mjoin ts ++ replicate (140 - length (mjoin ts)) 0, zlen (mjoin ts)).
Proof.
  apply (vsprintf_spec (fun _ => []) [Lit 110; Lit 61; Dec (-7); Lit 44; Hex 255] (replicate 140 0) [] [] 140).
  - repeat constructor; cbn; lia.
  - cbn. lia.
  - done.
Defined.

(** A number printed with [%d] is read back by [str2num]. *)
Lemma sprintf_str2num n : 0 < Z.abs n < 2 ^ 31 ->
  exists s k, vsprintf (fun _ => []) (replicate 80 0) [37; 100; 0] [u32 n] = Some (s, k) /\
    str2num s = Some (0, Some n).
Proof.
  intros Hn. destruct (format_ok (fun _ => []) [Dec n] [] (replicate 80 0) [] []) as (ts & Hts & Hl & E).
  { repeat constructor; cbn; lia. }
  { cbn. lia. }
  apply Forall2_cons_inv_l in Hts as (t & ts' & Ht & Hts' & ->). apply Forall2_nil_inv_l in Hts' as ->.
  inversion Ht as [| | |? ds Hd| |]; subst. cbn [mjoin list_join] in E. rewrite app_nil_r in E.
  change (zlen []) with 0 in E. cbn [app fmap list_fmap mjoin list_join fmt_of args_of] in E.
  rewrite drop_replicate in E. cbn [mjoin list_join fmap list_fmap width] in Hl. rewrite app_nil_r in Hl. cbn in Hl.
  unfold vsprintf. rewrite E. mstep. rewrite app_nil_r.
  assert (0 ∉ sign n ++ ds) as H0 by (apply (renders_no_nul (fun _ => []) (Dec n)); [cbn; lia|done]).
  destruct (80 - length (sign n ++ ds))%nat as [|k] eqn:Ek; [lia|]. cbn [replicate]. rewrite strlen_app by done. mstep.
  eexists _, _. split; [done|]. destruct Hd as [H1 H2 H3 H4].
  pose proof (str2num_digits (Z.abs n) ((sign n ++ ds) ++ 0 :: replicate k 0) 0 (zlen ds) (n <? 0)) as Hs.
  change (at_ptr ?m 0) with m in Hs. rewrite Hs; clear Hs.
  - do 3 f_equal. destruct (Z.ltb_spec n 0); lia.
  - lia.
  - lia.
  - split; [lia|]. destruct (Z.le_gt_cases (zlen ds) 10); [done|]. exfalso.
    specialize (H3 ltac:(lia)). assert (10 ^ 10 <= 10 ^ (zlen ds - 1)) by (apply Z.pow_le_mono_r; lia). lia.
  - done.
  - unfold sign. intros ->. done.
  - intros i Hi. assert (b2z (n <? 0) = zlen (sign n)) as -> by (unfold sign; by destruct (n <? 0)).
    rewrite Z.add_0_l, <- app_assoc. unfold zlen in *.
    assert (zget (sign n ++ ds ++ 0 :: replicate k 0) (Z.of_nat (length (sign n)) + i) = zget ds i) as ->.
    { unfold zget. destruct (Z.ltb_spec (Z.of_nat (length (sign n)) + i) 0), (Z.ltb_spec i 0); try lia.
      rewrite lookup_app_r by lia. rewrite lookup_app_l by lia. f_equal. lia. }
    rewrite H4 by done. unfold dig, digit_char. pose proof (dig_range (Z.abs n) (Z.of_nat (length ds) - 1 - i)) as Hd.
    unfold dig in Hd. destruct (Z.ltb_spec (Z.abs n / 10 ^ (Z.of_nat (length ds) - 1 - i) mod 10) 10); [done|lia].
  - assert (b2z (n <? 0) = zlen (sign n)) as -> by (unfold sign; by destruct (n <? 0)).
    rewrite Z.add_0_l, <- zlen_app. unfold zlen. rewrite zget_nat. by rewrite list_lookup_middle.
Qed.

(** The least [int] and negative hexadecimals are printed as 64-bit values,
    and a doubled percent sign does not stand for one. *)
Lemma sprintf_int_min : vsprintf (fun _ => []) (replicate 30 0) [37; 100; 0] [2147483648]
  = Some ([45; 49; 56; 52; 52; 54; 55; 52; 52; 48; 55; 49; 53; 54; 50; 48; 54; 55; 57; 54; 56] ++ replicate 9 0, 21).
Proof. by vm_compute. Qed.
Lemma sprintf_hex_neg : vsprintf (fun _ => []) (replicate 20 0) [37; 120; 0] [4294967295]
  = Some (replicate 16 70 ++ replicate 4 0, 16).
Proof. by vm_compute. Qed.
Lemma sprintf_percent : vsprintf (fun _ => []) (replicate 3 0) [37; 37; 0] [] = Some ([0; 0; 0], 0).
Proof. by vm_compute. Qed.
(** Nothing ends the string: what the buffer held stays behind the output. *)
Lemma sprintf_no_nul : vsprintf (fun _ => []) [66; 66; 66; 0] [65; 0] [] = Some ([65; 66; 66; 0], 3).
Proof. by vm_compute. Qed.
