(* ===== verification/Malloc.v ===== *)
(** * The heap: glibc/memory/malloc/malloc.c

    Requests up to 1024 bytes are served from pages cut into blocks of one
    size, which are kept in a list per size; larger ones get pages of their
    own.  A page starts with a [mem_arena].  [nodes] is the memory of the list
    nodes: the sentinels of the lists and the first two words of every block;
    [arenas] the headers, by their address.  The pages come from callbacks,
    the operations of [PageAlloc] over the state [W] of their provider: the
    kernel's allocator for [vmalloc], system calls for [malloc]. *)

From S2P Require Import CMath Links DList Prelude.

Class PageAlloc (W : Type) := {
  allocator : W -> Z -> option (W * Z);
  unallocator : W -> Z -> Z -> option W;
  munmap : W -> Z -> Z -> option W;
}.

Definition MEM_BLOCK_CNT : Z := 8.
Definition mem_page_size : Z := 4096.
Definition ARENA_SIZE : Z := 12.

Record mem_block_desc := BlockDesc
  { block_size : Z; free_blocks : list_t; blocks_per_arena : Z }.

(** [a_desc] is the index of the descriptor, nothing for NULL. *)
Record mem_arena := Arena { a_desc : option Z; free_cnt : Z; large : bool }.

Record malloc_state (W : Type) := MState
  { world : W; nodes : heap; descs : list mem_block_desc; arenas : gmap Z mem_arena }.
Arguments MState {W} _ _ _ _.
Arguments world {W} _.
Arguments nodes {W} _.
Arguments descs {W} _.
Arguments arenas {W} _.

Definition arena2block (arena block_idx bsize : Z) : Z := u32 (arena + ARENA_SIZE + block_idx * bsize).
Definition block2arena (block : Z) : Z := Z.land block 4294963200.

(** [lists] are the sentinels of the descriptors' lists. *)
Fixpoint init_descs (h : heap) (lists : list list_t) (bsize : Z) : option (heap * list mem_block_desc) :=
  match lists with
  | [] => Some (h, [])
  | l :: lists' =>
      '(h, l) ← init_list h l;
      '(h, ds) ← init_descs h lists' (bsize * 2);
      Some (h, BlockDesc bsize l ((mem_page_size - ARENA_SIZE) / bsize) :: ds)
  end.
Definition init_malloc_desc (h : heap) (lists : list list_t) : option (heap * list mem_block_desc) :=
  init_descs h lists (Z.shiftl 1 3).

(** The struct [malloc_state] in memory: 8 descriptors of 28 bytes, each with
    its list at offset 4, a flag and two pointers. *)
Definition STATE_SIZE : Z := 236.
Definition state_list (p i : Z) : list_t := List (p + 28 * i + 4) (p + 28 * i + 12) 0.

Section Malloc.
Context {W : Type} `{PageAlloc W}.

(** [init_malloc] with [_init_malloc]: a state that exists is initialised. *)
Definition init_malloc (st : W + malloc_state W) : option (malloc_state W) :=
  match st with
  | inr s => Some s
  | inl w =>
      '(w, p) ← allocator w STATE_SIZE;
      if p =? NULL then None
      else
        let lists := state_list p <$> seqZ 0 MEM_BLOCK_CNT in
        let h := list_to_map ((fun a => (a, Node NULL NULL)) <$> ((DList.head <$> lists) ++ (DList.tail <$> lists))) in
        '(h, ds) ← init_malloc_desc h lists;
        Some (MState w h ds ∅)
  end.

Definition set_desc (s : malloc_state W) (h : heap) (idx : Z) (l : list_t) : option (malloc_state W) :=
  d ← zget (descs s) idx;
  ds ← zset (descs s) idx (BlockDesc (block_size d) l (blocks_per_arena d));
  Some (MState (world s) h ds (arenas s)).

Definition set_arena (s : malloc_state W) (a : Z) (r : mem_arena) : malloc_state W :=
  MState (world s) (nodes s) (descs s) (<[a := r]> (arenas s)).

(** The memory of a new block. *)
Definition with_node (s : malloc_state W) (b : Z) : malloc_state W :=
  MState (world s) (<[b := Node NULL NULL]> (nodes s)) (descs s) (arenas s).

Definition push_block (idx a : Z) (i : Z) (s : malloc_state W) : option (malloc_state W) :=
  d ← zget (descs s) idx;
  let b := arena2block a i (block_size d) in
  let s := with_node s b in
  '(h, l) ← pushr (nodes s) (free_blocks d) b;
  set_desc s h idx l.

(** A page for the blocks of descriptor [idx]; what comes from the allocator
    is not checked for NULL before it is written to. *)
Definition new_arena (s : malloc_state W) (idx : Z) : option (malloc_state W) :=
  d ← zget (descs s) idx;
  '(w, a) ← allocator (world s) mem_page_size;
  if a =? NULL then None
  else
    let s := MState w (nodes s) (descs s) (<[a := Arena (Some idx) (blocks_per_arena d) false]> (arenas s)) in
    for_ (Z.to_nat (blocks_per_arena d)) 0 (push_block idx a) s.

Definition malloc_large (s : malloc_state W) (size : Z) : option (malloc_state W * Z) :=
  let size := up2 (u32 (size + ARENA_SIZE)) mem_page_size in
  '(w, a) ← allocator (world s) size;
  if a =? NULL then None
  else
    Some (MState w (nodes s) (descs s) (<[a := Arena None (size / mem_page_size) true]> (arenas s)),
          a + ARENA_SIZE).

(** The first descriptor whose blocks are large enough. *)
Fixpoint find_desc (ds : list mem_block_desc) (idx size : Z) : Z :=
  match ds with
  | [] => idx
  | d :: ds' => if size <=? block_size d then idx else find_desc ds' (idx + 1) size
  end.

(** [_malloc] after [init_malloc]; [memset] clears the node of the block. *)
Definition malloc_from (s : malloc_state W) (size : Z) : option (malloc_state W * Z) :=
  last ← zget (descs s) (MEM_BLOCK_CNT - 1);
  if block_size last <? size then malloc_large s size
  else
    let idx := find_desc (descs s) 0 size in
    d ← zget (descs s) idx;
    s ← (if DList.size (free_blocks d) =? 0 then new_arena s idx else Some s);
    d ← zget (descs s) idx;
    '(b, h, l) ← popl (nodes s) (free_blocks d);
    if b =? NULL then None
    else
      s ← set_desc s (<[b := Node NULL NULL]> h) idx l;
      r ← arenas s !! block2arena b;
      Some (set_arena s (block2arena b) (Arena (a_desc r) (u32 (free_cnt r - 1)) (large r)), b).

(** [_malloc]: before the first call there is no state, only the provider of
    pages. *)
Definition _malloc (st : W + malloc_state W) (size : Z) : option (malloc_state W * Z) :=
  s ← init_malloc st; malloc_from s size.

(** [release] is the [unallocator] argument. *)
Definition _free (release : W -> Z -> Z -> option W) (s : malloc_state W) (ptr : Z)
    : option (malloc_state W) :=
  if ptr =? NULL then Some s
  else
    let a := block2arena ptr in
    r ← arenas s !! a;
    if (large r : bool) then
      w ← munmap (world s) a (u32 (free_cnt r * mem_page_size));
      Some (MState w (nodes s) (descs s) (delete a (arenas s)))
    else
      idx ← a_desc r;
      d ← zget (descs s) idx;
      '(h, l) ← pushr (nodes s) (free_blocks d) ptr;
      s ← set_desc s h idx l;
      let r := Arena (a_desc r) (u32 (free_cnt r + 1)) (large r) in
      let s := set_arena s a r in
      if (blocks_per_arena d * 2 <=? DList.size l) && (free_cnt r =? blocks_per_arena d) then
        s ← for_ (Z.to_nat (free_cnt r)) 0 (fun i s =>
              d ← zget (descs s) idx;
              '(h, l) ← DList.remove (nodes s) (free_blocks d) (arena2block a i (block_size d));
              set_desc s h idx l) s;
        w ← release (world s) a mem_page_size;
        Some (MState w (nodes s) (descs s) (delete a (arenas s)))
      else Some s.

Definition free (s : malloc_state W) (ptr : Z) : option (malloc_state W) := _free munmap s ptr.
Definition vfree (s : malloc_state W) (ptr : Z) : option (malloc_state W) := _free unallocator s ptr.

End Malloc.
