(* ===== verification/MallocSpec.v ===== *)
(** * The heap hands out disjoint blocks

    The state of the heap is described by the sequence [F i] of the free blocks
    of each of the eight sizes.  A block is in use ([live]) when it lies in a
    page cut for its size and is not free, or when it is a large block.
    [malloc_spec] and [free_spec] describe the two operations on that set of
    blocks; [live_disjoint] says that its members do not overlap. *)

From S2P Require Import Prelude CMath Links DList Malloc.

(** What the heap relies on: pages that are handed out are not in use, start
    at a page boundary and fit the address space; giving them back affects no
    other page. *)
Class PageAllocOk (W : Type) `{PageAlloc W} := {
  used : W -> Z -> Prop;
  alloc_ok : forall w n w' a, 0 < n -> allocator w n = Some (w', a) -> a <> NULL ->
    0 < a /\ a mod 4096 = 0 /\ a + n <= 4294967296 /\
    (forall x, a <= x < a + n -> ~ used w x) /\
    (forall x, used w x \/ a <= x < a + n -> used w' x);
  release_ok : forall f w a n, f = unallocator \/ f = munmap ->
    (forall x, a <= x < a + n -> used w x) ->
    exists w', f w a n = Some w' /\ forall x, used w x -> ~ a <= x < a + n -> used w' x;
}.

(** ** Sizes and addresses *)

Definition bs (i : Z) : Z := 8 * 2 ^ i.
Definition cnt (i : Z) : Z := 4084 / bs i.
Definition block (a i k : Z) : Z := a + 12 + k * bs i.
Definition blocks (a i : Z) : list Z := block a i <$> seqZ 0 (cnt i).
Definition is_class (i : Z) : Prop := 0 <= i < 8.
Definition is_page (a : Z) : Prop := 0 < a /\ a mod 4096 = 0 /\ a + 4096 <= 4294967296.

Lemma class_cases (P : Z -> Prop) : P 0 -> P 1 -> P 2 -> P 3 -> P 4 -> P 5 -> P 6 -> P 7 ->
  forall i, is_class i -> P i.
Proof.
  intros. assert (i = 0 \/ i = 1 \/ i = 2 \/ i = 3 \/ i = 4 \/ i = 5 \/ i = 6 \/ i = 7)
    as Hi by (unfold is_class in *; lia). by destruct_or! Hi; subst.
Qed.

Lemma class_facts i : is_class i -> 8 <= bs i <= 1024 /\ bs i mod 8 = 0 /\
  3 <= cnt i <= 510 /\ cnt i * bs i <= 4084.
Proof. revert i. apply class_cases; vm_compute; repeat split; discriminate. Qed.

Lemma block_range a i k : is_class i -> 0 <= k < cnt i ->
  a + 12 <= block a i k /\ block a i k + bs i <= a + 4096.
Proof. intros Hi Hk. pose proof (class_facts i Hi). unfold block. nia. Qed.

Lemma block_inj a i k k' : is_class i -> block a i k = block a i k' -> k = k'.
Proof. intros Hi. pose proof (class_facts i Hi). unfold block. nia. Qed.

Lemma block2arena_spec b : 0 <= b < 4294967296 -> block2arena b = b - b mod 4096.
Proof.
  intros Hb. unfold block2arena. replace (b - b mod 4096) with (Z.shiftl (Z.shiftr b 12) 12).
  2:{ rewrite Z.shiftl_mul_pow2, Z.shiftr_div_pow2 by lia. change (2 ^ 12) with 4096.
      pose proof (Z.div_mod b 4096). lia. }
  apply Z.bits_inj'. intros n Hn. rewrite Z.land_spec, Z.shiftl_spec by lia.
  change 4294963200 with (Z.shiftl (Z.ones 20) 12). rewrite Z.shiftl_spec by lia.
  destruct (Z.ltb_spec n 12).
  { rewrite !(Z.testbit_neg_r _ (n - 12)) by lia. apply andb_false_r. }
  rewrite Z.shiftr_spec by lia. replace (n - 12 + 12) with n by lia.
  destruct (Z.ltb_spec n 32).
  - rewrite Z.ones_spec_low by lia. apply andb_true_r.
  - rewrite (bits_lt_pow2 32 b n) by lia. done.
Qed.

Lemma page_of a b : is_page a -> a <= b < a + 4096 -> block2arena b = a.
Proof.
  intros (H0 & Hm & Hl) Hb. rewrite block2arena_spec by lia.
  pose proof (Z.div_mod a 4096). pose proof (Z.div_mod b 4096).
  pose proof (Z.mod_pos_bound b 4096). lia.
Qed.

Lemma page_of_block a i k : is_page a -> is_class i -> 0 <= k < cnt i -> block2arena (block a i k) = a.
Proof. intros Ha Hi Hk. apply page_of; [done|]. pose proof (block_range a i k Hi Hk). pose proof (class_facts i Hi). lia. Qed.

Lemma elem_of_blocks a i x : x ∈ blocks a i <-> exists k, 0 <= k < cnt i /\ x = block a i k.
Proof.
  unfold blocks. rewrite list_elem_of_fmap. split.
  - intros (k & -> & Hk%elem_of_seqZ). exists k. split; [lia|done].
  - intros (k & Hk & ->). exists k. split; [done|]. apply elem_of_seqZ. lia.
Qed.

Lemma blocks_nodup a i : is_class i -> NoDup (blocks a i).
Proof.
  intros Hi. apply NoDup_fmap_2_strong; [|apply NoDup_seqZ].
  intros k k' _ _. by apply block_inj.
Qed.

Lemma blocks_length a i : is_class i -> zlen (blocks a i) = cnt i.
Proof.
  intros Hi. pose proof (class_facts i Hi). unfold zlen, blocks.
  rewrite length_fmap, length_seqZ. lia.
Qed.

(** ** The eight lists *)

Definition upd (F : Z -> list Z) (i : Z) (xs : list Z) : Z -> list Z := fun j => if j =? i then xs else F j.

Lemma upd_same F i xs : upd F i xs i = xs.
Proof. unfold upd. by rewrite Z.eqb_refl. Qed.
Lemma upd_other F i xs j : j <> i -> upd F i xs j = F j.
Proof. unfold upd. by intros ->%Z.eqb_neq. Qed.

Section Spec.
Context {W : Type} `{PageAllocOk W}.

(** The sentinels of the lists. *)
Context (hd tl : Z -> Z).

Definition the_list (F : Z -> list Z) (i : Z) : list_t := List (hd i) (tl i) (zlen (F i)).
Definition the_desc (F : Z -> list Z) (i : Z) : mem_block_desc := BlockDesc (bs i) (the_list F i) (cnt i).
Definition fp (F : Z -> list Z) (i : Z) : list Z := footprint (the_list F i) (F i).

Record lists_ok (h : heap) (ds : list mem_block_desc) (F : Z -> list Z) : Prop := {
  lo_len : zlen ds = 8;
  lo_desc : forall i, is_class i -> zget ds i = Some (the_desc F i);
  lo_list : forall i, is_class i -> dlist h (the_list F i) (F i);
  lo_apart : forall i j x, is_class i -> is_class j -> x ∈ fp F i -> x ∈ fp F j -> i = j;
}.

(** In no list. *)
Definition outside (F : Z -> list Z) (x : Z) : Prop := forall j, is_class j -> x ∉ fp F j.

Lemma list_is l F i xs h : DList.head l = hd i -> DList.tail l = tl i -> dlist h l xs ->
  l = the_list (upd F i xs) i.
Proof.
  intros Hh Ht D. unfold the_list. rewrite upd_same, <- (dl_size _ _ _ D), <- Hh, <- Ht.
  by destruct l.
Qed.

(** One list gets new contents; what it gains was in no list. *)
Lemma lists_step (s : malloc_state W) F i h' l' xs owned : lists_ok (nodes s) (descs s) F -> is_class i ->
  keeps (nodes s) h' (the_list F i) l' owned -> dlist h' l' xs ->
  (forall x, x ∈ owned -> x ∈ fp F i \/ outside F x) ->
  (forall x, x ∈ xs -> x ∈ F i \/ outside F x) ->
  exists ds, set_desc s h' i l' = Some (MState (world s) h' ds (arenas s)) /\ lists_ok h' ds (upd F i xs).
Proof.
  intros L Hi (Kh & Kt & K) D Ho Hx. unfold set_desc.
  rewrite (lo_desc _ _ _ L i Hi). mstep.
  assert (l' = the_list (upd F i xs) i) as El by (by eapply list_is).
  rewrite zset_is_Some by (rewrite (lo_len _ _ _ L); apply Hi). mstep. eexists. split; [done|].
  assert (forall j, zget (<[Z.to_nat i := BlockDesc (block_size (the_desc F i)) l'
    (blocks_per_arena (the_desc F i))]> (descs s)) j =
    if j =? i then Some (BlockDesc (bs i) l' (cnt i)) else zget (descs s) j) as Hg.
  { intros j. apply zget_zset. apply zset_is_Some. rewrite (lo_len _ _ _ L). apply Hi. }
  assert (forall x j, is_class j -> j <> i -> x ∈ fp (upd F i xs) j -> x ∈ fp F j) as Hj.
  { intros x j Hjc Hne. unfold fp, the_list. by rewrite upd_other. }
  assert (forall x, x ∈ fp (upd F i xs) i -> x ∈ fp F i \/ outside F x) as Hii.
  { intros x. unfold fp at 1, footprint, the_list. cbn. rewrite upd_same. intros Hin.
    assert (x = hd i \/ x = tl i \/ x ∈ xs) as [->|[->|Hin']] by set_solver.
    - left. unfold fp, footprint. cbn. set_solver.
    - left. unfold fp, footprint. cbn. set_solver.
    - destruct (Hx x Hin') as [?|?]; [left|by right]. unfold fp, footprint. set_solver. }
  split.
  - rewrite <- (lo_len _ _ _ L). unfold zlen. by rewrite length_insert.
  - intros j Hjc. rewrite Hg. destruct (Z.eqb_spec j i) as [->|Hne].
    + unfold the_desc. by rewrite <- El.
    + rewrite (lo_desc _ _ _ L j Hjc). unfold the_desc, the_list. by rewrite upd_other.
  - intros j Hjc. destruct (Z.eqb_spec j i) as [->|Hne].
    + by rewrite upd_same, <- El.
    + unfold the_list. rewrite upd_other by done. apply (dlist_frame (nodes s)); [by apply L|].
      intros x Hin. apply K. intros [Hc|Hc]%Ho; [|by apply (Hc j Hjc)].
      apply Hne. by apply (lo_apart _ _ _ L j i x).
  - intros j k x Hjc Hkc Hxj Hxk.
    destruct (Z.eqb_spec j i) as [->|Hne1], (Z.eqb_spec k i) as [->|Hne2]; [done|..].
    + apply Hj in Hxk; [|done..]. destruct (Hii x Hxj) as [Hc|Hc]; [|by destruct (Hc k Hkc)].
      by apply (lo_apart _ _ _ L i k x).
    + apply Hj in Hxj; [|done..]. destruct (Hii x Hxk) as [Hc|Hc]; [|by destruct (Hc j Hjc)].
      by apply (lo_apart _ _ _ L j i x).
    + apply Hj in Hxj, Hxk; [|done..]. by apply (lo_apart _ _ _ L j k x).
Qed.

(** Every block in the lists is a word-aligned address, so they are short. *)
Lemma short_list (xs : list Z) : NoDup xs -> (forall x, x ∈ xs -> 0 <= x < 4294967296 /\ x mod 8 = 4) ->
  zlen xs <= 536870912.
Proof.
  intros Hd Hx. assert (NoDup ((fun x => x / 8) <$> xs)) as Hd'.
  { apply NoDup_fmap_2_strong; [|done]. intros x y Hx1 Hy1 He.
    pose proof (Hx x Hx1). pose proof (Hx y Hy1).
    pose proof (Z.div_mod x 8). pose proof (Z.div_mod y 8). lia. }
  assert ((fun x => x / 8) <$> xs ⊆+ seqZ 0 536870912) as Hs.
  { apply NoDup_submseteq; [done|]. intros y (x & -> & Hin)%list_elem_of_fmap.
    apply elem_of_seqZ. pose proof (Hx x Hin). pose proof (Z.div_mod x 8). lia. }
  apply submseteq_length in Hs. rewrite length_fmap, length_seqZ in Hs. unfold zlen. lia.
Qed.

Lemma lists_ok_ext h ds F G : (forall j, G j = F j) -> lists_ok h ds F -> lists_ok h ds G.
Proof.
  intros E [L1 L2 L3 L4]. split; [done|..].
  - intros j Hj. rewrite L2 by done. unfold the_desc, the_list. by rewrite E.
  - intros j Hj. specialize (L3 j Hj). unfold the_list in *. by rewrite E.
  - intros j k x. unfold fp, the_list. rewrite !E. apply L4.
Qed.

Lemma lists_ok_fresh h ds F x v : outside F x -> lists_ok h ds F -> lists_ok (<[x := v]> h) ds F.
Proof.
  intros Ho [L1 L2 L3 L4]. split; [done..| |done]. intros j Hj. apply (dlist_frame h); [by apply L3|].
  intros y Hy. apply same_at_lookup, lookup_insert_ne. intros <-. by apply (Ho j).
Qed.

Lemma nodes_kept h h' l l' ys owned : keeps h h' l l' owned -> dlist h' l' ys ->
  (forall y, y ∈ owned -> y ∈ footprint l' ys \/ is_Some (h' !! y)) ->
  forall y, is_Some (h !! y) -> is_Some (h' !! y).
Proof.
  intros (_ & _ & K) D Ho y Hy. destruct (decide (y ∈ owned)) as [Hin|Hout].
  - destruct (Ho y Hin) as [Hf|Hs]; [|done]. destruct (dlist_node _ _ _ D y Hf) as [_ Hs].
    unfold nxt in Hs. by apply fmap_is_Some in Hs.
  - pose proof (K y Hout) as Hs. apply same_at_lookup in Hs. by rewrite Hs.
Qed.

(** A node outside the lists is queued in one of them. *)
Lemma push_list (s : malloc_state W) F i x : lists_ok (nodes s) (descs s) F -> is_class i -> outside F x ->
  x <> NULL -> is_Some (nodes s !! x) -> zlen (F i) + 1 < 2 ^ 31 ->
  exists h l ds, pushr (nodes s) (the_list F i) x = Some (h, l) /\ DList.size l = zlen (F i) + 1 /\
    set_desc s h i l = Some (MState (world s) h ds (arenas s)) /\
    lists_ok h ds (upd F i (F i ++ [x])) /\ (forall y, is_Some (nodes s !! y) -> is_Some (h !! y)).
Proof.
  intros L Hi Ho Hx0 Hn Hs.
  destruct (pushr_ok (nodes s) (the_list F i) (F i) x) as (h & l & Hp & D & K); [by apply L| |done|].
  { split; [by apply Ho|]. split; [done|]. unfold nxt. by rewrite fmap_is_Some. }
  destruct (lists_step s F i h l (F i ++ [x]) (x :: fp F i)) as (ds & Hds & L'); [done..| | |].
  { intros y Hy. apply elem_of_cons in Hy as [->|Hy]; [by right|by left]. }
  { intros y Hy. apply elem_of_app in Hy as [Hy|Hy]; [by left|right]. by apply list_elem_of_singleton in Hy as ->. }
  exists h, l, ds. split_and!; try done.
  - rewrite (dl_size _ _ _ D), zlen_app. done.
  - apply (nodes_kept _ _ _ _ _ _ K D). intros y Hy. left. destruct K as (Kh & Kt & _).
    unfold footprint in *. rewrite Kh, Kt. set_solver.
Qed.

(** ** The pages *)

Definition asize (r : mem_arena) : Z := if (large r : bool) then free_cnt r * 4096 else 4096.
Definition in_arena (a : Z) (r : mem_arena) (x : Z) : Prop := a <= x < a + asize r.
Definition small (i : Z) (r : mem_arena) : Prop := is_class i /\ large r = false /\ a_desc r = Some i.
Definition in_page (a : Z) (xs : list Z) : list Z := filter (fun x => block2arena x = a) xs.

(** A page cut for class [i] counts its free blocks. *)
Record arena_ok (w : W) (h : heap) (F : Z -> list Z) (a : Z) (r : mem_arena) : Prop := {
  ao_addr : 0 < a /\ a mod 4096 = 0 /\ a + asize r <= 4294967296;
  ao_used : forall x, in_arena a r x -> used w x;
  ao_large : large r = true -> 0 < free_cnt r;
  ao_small : large r = false -> exists i, small i r /\ free_cnt r = zlen (in_page a (F i)) /\
    forall x, x ∈ blocks a i -> is_Some (h !! x);
}.

Record heap_ok (s : malloc_state W) (F : Z -> list Z) : Prop := {
  ho_lists : lists_ok (nodes s) (descs s) F;
  ho_sent : forall i, is_class i -> used (world s) (hd i) /\ used (world s) (tl i) /\
    forall a r, arenas s !! a = Some r -> ~ in_arena a r (hd i) /\ ~ in_arena a r (tl i);
  ho_arena : forall a r, arenas s !! a = Some r -> arena_ok (world s) (nodes s) F a r;
  ho_disj : forall a b r r' x, arenas s !! a = Some r -> arenas s !! b = Some r' ->
    in_arena a r x -> in_arena b r' x -> a = b;
  ho_free : forall i x, is_class i -> x ∈ F i ->
    exists a r, arenas s !! a = Some r /\ small i r /\ x ∈ blocks a i;
}.

(** [n] bytes at [p] are in use. *)
Definition live (A : gmap Z mem_arena) (F : Z -> list Z) (p n : Z) : Prop :=
  exists a r, A !! a = Some r /\
    ((large r = true /\ p = a + 12 /\ n = free_cnt r * 4096 - 12) \/
     exists i, small i r /\ p ∈ blocks a i /\ p ∉ F i /\ n = bs i).

Lemma small_class i j r : small i r -> small j r -> i = j.
Proof. unfold small. intros (_ & _ & E) (_ & _ & E'). congruence. Qed.

Lemma small_page w h F a r i : arena_ok w h F a r -> small i r -> is_page a.
Proof. intros A (_ & Hl & _). destruct (ao_addr _ _ _ _ _ A) as (? & ? & Ha). unfold asize in Ha. by rewrite Hl in Ha. Qed.

Lemma small_in_arena i a r x : small i r -> x ∈ blocks a i -> in_arena a r x /\ x + bs i <= a + 4096 /\ a + 12 <= x.
Proof.
  intros (Hi & Hl & _) (k & Hk & ->)%elem_of_blocks. unfold in_arena, asize. rewrite Hl.
  pose proof (block_range a i k Hi Hk). pose proof (class_facts i Hi). lia.
Qed.

Section Ok.
Context {s : malloc_state W} {F : Z -> list Z} (O : heap_ok s F).

Lemma used_fp i x : is_class i -> x ∈ fp F i -> used (world s) x.
Proof.
  intros Hi. unfold fp, footprint, the_list. cbn. intros Hx.
  assert (x = hd i \/ x = tl i \/ x ∈ F i) as [->|[->|Hx']] by set_solver.
  - apply (ho_sent _ _ O i Hi).
  - apply (ho_sent _ _ O i Hi).
  - destruct (ho_free _ _ O i x Hi Hx') as (a & r & Ha & Hr & Hb).
    apply (ao_used _ _ _ _ _ (ho_arena _ _ O a r Ha)). by apply (small_in_arena i).
Qed.

Lemma free_page i x : is_class i -> x ∈ F i -> exists a r, arenas s !! a = Some r /\ small i r /\
  x ∈ blocks a i /\ is_page a /\ block2arena x = a.
Proof.
  intros Hi Hx. destruct (ho_free _ _ O i x Hi Hx) as (a & r & Ha & Hr & Hb).
  exists a, r. pose proof (small_page _ _ _ _ _ _ (ho_arena _ _ O a r Ha) Hr) as Hp.
  split_and!; [done..|]. apply elem_of_blocks in Hb as (k & Hk & ->). by apply page_of_block.
Qed.

(** A block of a small page is in the list of its class or in none. *)
Lemma block_outside a r i x : arenas s !! a = Some r -> small i r -> x ∈ blocks a i -> x ∉ F i ->
  outside F x.
Proof.
  intros Ha Hr Hb Hx j Hj. destruct (small_in_arena i a r x Hr Hb) as (Hin & _).
  unfold fp, footprint, the_list. cbn. intros Hf.
  assert (x = hd j \/ x = tl j \/ x ∈ F j) as [->|[->|Hf']] by set_solver.
  - by destruct (ho_sent _ _ O j Hj) as (_ & _ & Hs), (Hs a r Ha).
  - by destruct (ho_sent _ _ O j Hj) as (_ & _ & Hs), (Hs a r Ha).
  - destruct (ho_free _ _ O j x Hj Hf') as (b & r' & Hb' & Hr' & Hxb).
    assert (a = b) as <- by (eapply (ho_disj _ _ O); [done..|]; by apply (small_in_arena j)).
    assert (r' = r) as -> by congruence. by assert (i = j) as <- by (by eapply small_class).
Qed.

Lemma free_short i : is_class i -> zlen (F i) <= 536870912.
Proof.
  intros Hi. apply short_list; [apply (dlist_nodup _ _ _ (lo_list _ _ _ (ho_lists _ _ O) i Hi))|].
  intros x Hx. destruct (free_page i x Hi Hx) as (a & r & Ha & Hr & Hb & (Hp1 & Hp2 & Hp3) & _).
  destruct (small_in_arena i a r x Hr Hb) as (_ & Hx1 & Hx2). pose proof (class_facts i Hi) as (? & Hm & _).
  split; [lia|]. apply elem_of_blocks in Hb as (k & Hk & ->). unfold block.
  pose proof (Z.div_mod a 4096). pose proof (Z.div_mod (bs i) 8).
  replace (a + 12 + k * bs i) with (4 + (512 * (a / 4096) + 1 + k * (bs i / 8)) * 8) by nia.
  by rewrite Z.mod_add.
Qed.

(** The list of one class and the count of one page change together. *)
Lemma recount s' i xs a r c : lists_ok (nodes s') (descs s') (upd F i xs) -> world s' = world s ->
  arenas s !! a = Some r -> small i r -> arenas s' = <[a := Arena (a_desc r) c (large r)]> (arenas s) ->
  (forall x, is_Some (nodes s !! x) -> is_Some (nodes s' !! x)) ->
  (forall b, b <> a -> zlen (in_page b xs) = zlen (in_page b (F i))) -> c = zlen (in_page a xs) ->
  (forall x, x ∈ xs -> x ∈ F i \/ x ∈ blocks a i) -> heap_ok s' (upd F i xs).
Proof.
  intros L Hw Ha Hr HA Hn Hc -> Hx. destruct (Hr) as (Hi & Hl & Hd).
  assert (forall b r', arenas s' !! b = Some r' -> exists r0, arenas s !! b = Some r0 /\
    large r' = large r0 /\ a_desc r' = a_desc r0 /\ asize r' = asize r0 /\
    (b <> a -> r' = r0) /\ (b = a -> free_cnt r' = zlen (in_page a xs))) as Hold.
  { intros b r'. rewrite HA, lookup_insert_Some. intros [[<- <-]|[Hne Hb]].
    - exists r. unfold asize. by rewrite Hl.
    - exists r'. by split_and!. }
  split; [done|..].
  - intros j Hj. rewrite Hw. destruct (ho_sent _ _ O j Hj) as (? & ? & Hs). split_and!; [done..|].
    intros b r' (r0 & Hb & _ & _ & Hsz & _)%Hold. unfold in_arena. rewrite Hsz. by apply (Hs b).
  - intros b r' Hb'. destruct (Hold b r' Hb') as (r0 & Hb & El & Ed & Hsz & Hne & Heq).
    destruct (ho_arena _ _ O b r0 Hb) as [A1 A2 A3 A4]. split.
    + by rewrite Hsz.
    + rewrite Hw. unfold in_arena. by rewrite Hsz.
    + destruct (decide (b = a)) as [->|Hn']; [|by rewrite Hne].
      assert (r0 = r) as -> by congruence. rewrite El. congruence.
    + rewrite El. intros Hl0. destruct (A4 Hl0) as (j & Hs & Hf & Hno). exists j.
      split; [unfold small in *; by rewrite El, Ed|]. split; [|by intros; apply Hn, Hno].
      destruct (decide (b = a)) as [->|Hn'].
      * assert (r0 = r) as -> by congruence. assert (j = i) as -> by (by eapply small_class).
        by rewrite Heq, upd_same.
      * rewrite Hne by done. rewrite Hf. destruct (decide (j = i)) as [->|Hji].
        -- by rewrite upd_same, Hc.
        -- by rewrite upd_other.
  - intros b b' r1 r2 x (r0 & Hb & _ & _ & Hsz & _)%Hold (r0' & Hb' & _ & _ & Hsz' & _)%Hold.
    unfold in_arena. rewrite Hsz, Hsz'. by apply (ho_disj _ _ O).
  - intros j x Hj Hxj. assert (forall b r0, arenas s !! b = Some r0 -> small j r0 ->
      exists r', arenas s' !! b = Some r' /\ small j r') as Hnew.
    { intros b r0 Hb Hs. rewrite HA. destruct (decide (b = a)) as [->|].
      - rewrite lookup_insert_eq. eexists. split; [done|]. by assert (r0 = r) as -> by congruence.
      - rewrite lookup_insert_ne by done. by exists r0. }
    destruct (decide (j = i)) as [->|Hji].
    + rewrite upd_same in Hxj. destruct (Hx x Hxj) as [Hf|Hb].
      * destruct (ho_free _ _ O i x Hj Hf) as (b & r0 & Hb & Hs & Hxb).
        destruct (Hnew b r0 Hb Hs) as (r' & ? & ?). by exists b, r'.
      * destruct (Hnew a r Ha Hr) as (r' & ? & ?). by exists a, r'.
    + rewrite upd_other in Hxj by done. destruct (ho_free _ _ O j x Hj Hxj) as (b & r0 & Hb & Hs & Hxb).
      destruct (Hnew b r0 Hb Hs) as (r' & ? & ?). by exists b, r'.
Qed.

(** Which blocks are in use does not depend on the counts of small pages. *)
Lemma live_recount A G a r c i q m : A !! a = Some r -> small i r ->
  live (<[a := Arena (a_desc r) c (large r)]> A) G q m <-> live A G q m.
Proof.
  intros Ha (Hi & Hl & Hd). unfold live, small. split.
  - intros (b & r' & [[<- <-]|[Hne Hb]]%lookup_insert_Some & Hv).
    + exists a, r. split; [done|]. cbn in Hv. rewrite Hl in Hv. destruct Hv as [[? _]|(j & Hj)]; [done|].
      right. exists j. by rewrite Hl.
    + by exists b, r'.
  - intros (b & r' & Hb & Hv). destruct (decide (b = a)) as [->|Hne].
    + assert (r' = r) as -> by congruence. eexists a, _. rewrite lookup_insert_eq. split; [done|]. cbn.
      destruct Hv as [[? _]|(j & Hj)]; [congruence|]. right. by exists j.
    + exists b, r'. by rewrite lookup_insert_ne.
Qed.

Lemma in_page_cons b x xs : in_page b (x :: xs) = (if decide (block2arena x = b) then [x] else []) ++ in_page b xs.
Proof. unfold in_page. rewrite filter_cons. by case_decide. Qed.

Lemma live_upd i x xs a r q m : arenas s !! a = Some r -> small i r -> x ∈ blocks a i ->
  (forall y, y <> x -> y ∈ xs <-> y ∈ F i) ->
  live (arenas s) (upd F i xs) q m <-> (q = x /\ x ∉ xs /\ m = bs i) \/ (q <> x /\ live (arenas s) F q m).
Proof.
  intros Ha Hr Hb Hxs. destruct (small_in_arena i a r x Hr Hb) as (Hin & Hx1 & Hx2). split.
  - intros (b & r' & Hb' & [(Hl & -> & ->)|(j & Hs & Hq & Hn & ->)]).
    + right. split; [|by exists b, r'; split; [done|]; left]. intros E.
      assert (a = b) as <-.
      { apply (ho_disj _ _ O a b r r' x); [done..|]. rewrite <- E. unfold in_arena, asize. rewrite Hl.
        pose proof (ao_large _ _ _ _ _ (ho_arena _ _ O b r' Hb') Hl). lia. }
      destruct Hr as (_ & Hl' & _). congruence.
    + destruct (decide (q = x)) as [->|Hne].
      * assert (a = b) as <- by (eapply (ho_disj _ _ O); [done..|]; by apply (small_in_arena j)).
        assert (r' = r) as -> by congruence. assert (j = i) as -> by (by eapply small_class).
        left. by rewrite upd_same in Hn.
      * right. split; [done|]. exists b, r'. split; [done|]. right. exists j. split_and!; try done.
        destruct (decide (j = i)) as [->|]; [|by rewrite upd_other in Hn].
        rewrite upd_same in Hn. by rewrite <- Hxs.
  - intros [(-> & Hn & ->)|(Hne & b & r' & Hb' & [Hl|(j & Hs & Hq & Hn & ->)])].
    + exists a, r. split; [done|]. right. exists i. by rewrite upd_same.
    + exists b, r'. by split; [|left].
    + exists b, r'. split; [done|]. right. exists j. split_and!; try done.
      destruct (decide (j = i)) as [->|]; [|by rewrite upd_other]. rewrite upd_same. by rewrite Hxs.
Qed.

Lemma free_not_live i x m : is_class i -> x ∈ F i -> ~ live (arenas s) F x m.
Proof.
  intros Hi Hx (b & r' & Hb & Hv). destruct (free_page i x Hi Hx) as (a & r & Ha & Hr & Hxb & _).
  assert (live (arenas s) (upd F i (F i)) x m) as Hl.
  { exists b, r'. split; [done|]. destruct Hv as [?|(j & ? & ? & ? & ?)]; [by left|right].
    exists j. unfold upd. split_and!; try done. by destruct (Z.eqb_spec j i) as [<-|]. }
  apply (live_upd i x (F i) a r) in Hl; [|done..]. naive_solver.
Qed.

(** [_malloc] after its list is filled. *)
Lemma pop_block i x xs : is_class i -> F i = x :: xs -> exists h l s1 r,
  popl (nodes s) (the_list F i) = Some (x, h, l) /\ x <> NULL /\
  set_desc s (<[x := Node NULL NULL]> h) i l = Some s1 /\ arenas s1 !! block2arena x = Some r /\
  let s' := set_arena s1 (block2arena x) (Arena (a_desc r) (u32 (free_cnt r - 1)) (large r)) in
  heap_ok s' (upd F i xs) /\
  forall q m, live (arenas s') (upd F i xs) q m <-> (q = x /\ m = bs i) \/ (q <> x /\ live (arenas s) F q m).
Proof.
  intros Hi E. pose proof (lo_list _ _ _ (ho_lists _ _ O) i Hi) as D. rewrite E in D.
  destruct (popl_ok _ _ _ D) as (h & l & Hp & D' & (Kh & Kt & K) & N1 & _).
  destruct (free_page i x Hi ltac:(rewrite E; left)) as (a & r & Ha & Hr & Hb & Hpg & Hxa).
  assert (x ∉ xs) as Hx by (pose proof (dlist_nodup _ _ _ D) as Hd; by apply NoDup_cons in Hd as [? _]).
  destruct (dlist_node _ _ _ D x) as [Hx0 _]; [unfold footprint; set_solver|].
  pose proof (dl_nodup _ _ _ D) as Hnd.
  assert (x <> hd i /\ x <> tl i) as [Hxh Hxt].
  { apply NoDup_cons in Hnd as [Hn1 Hn2]. apply NoDup_cons in Hn2 as [Hn2 _]. cbn in *. set_solver. }
  assert (dlist (<[x := Node NULL NULL]> h) l xs) as D2.
  { apply (dlist_frame h); [done|]. intros y Hy. apply same_at_lookup, lookup_insert_ne.
    unfold footprint in Hy. rewrite Kh, Kt in Hy. cbn in Hy. set_solver. }
  destruct (lists_step s F i (<[x := Node NULL NULL]> h) l xs (footprint (the_list F i) (x :: xs))
    (ho_lists _ _ O) Hi) as (ds & Hds & L); [|done|..].
  { split; [done|]. split; [done|]. intros y Hy. destruct (K y Hy) as [K1 K2].
    apply same_at_lookup. rewrite lookup_insert_ne by (intros ->; apply Hy; unfold footprint; set_solver).
    by apply same_at_lookup. }
  { intros y Hy. left. unfold fp. by rewrite E. }
  { intros y Hy. left. rewrite E. by right. }
  exists h, l, (MState (world s) (<[x := Node NULL NULL]> h) ds (arenas s)), r.
  split_and!; [done|done|done|by rewrite Hxa|]. rewrite Hxa. cbn [arenas set_arena world nodes descs].
  destruct (ao_small _ _ _ _ _ (ho_arena _ _ O a r Ha)) as (j & Hj & Hf & Hno); [apply Hr|].
  assert (j = i) as -> by (by eapply small_class).
  rewrite E, in_page_cons, decide_True in Hf by done. cbn in Hf.
  pose proof (free_short i Hi) as Hs. rewrite E in Hs.
  assert (zlen (in_page a xs) <= zlen xs) as Hle
    by (unfold zlen; pose proof (length_filter (fun x => block2arena x = a) xs); unfold in_page; lia).
  assert (free_cnt r - 1 = zlen (in_page a xs)) as Hc by (unfold zlen in *; cbn in Hf; lia).
  split.
  - apply (recount _ i xs a r (u32 (free_cnt r - 1))); try done.
    + intros y Hy. cbn. destruct (decide (y = x)) as [->|]; [rewrite lookup_insert_eq; by eexists|].
      rewrite lookup_insert_ne by done.
      refine (nodes_kept _ _ _ _ _ _ (conj Kh (conj Kt K)) D' _ y Hy).
      intros z Hz. destruct (decide (z = x)) as [->|].
      * right. unfold nxt in N1. destruct (h !! x); [by eexists|done].
      * left. unfold footprint in *. rewrite Kh, Kt. cbn in *. set_solver.
    + intros b Hbne. rewrite E, in_page_cons, decide_False by congruence. done.
    + rewrite u32_small by (unfold zlen in *; cbn in *; lia). done.
    + intros y Hy. left. rewrite E. by right.
  - intros q m. rewrite (live_recount _ _ a r _ i) by done.
    rewrite (live_upd i x xs a r) by (try done; intros y Hy; rewrite E; set_solver). naive_solver.
Qed.

(** ** New pages *)

Section NewPage.
Context (n a : Z) (w' : W) (r0 : mem_arena) (Hn0 : 0 < n) (Hsz : asize r0 = n).
Context (Hal : allocator (world s) n = Some (w', a)) (Ha0 : a <> NULL).

Lemma new_range : 0 < a /\ a mod 4096 = 0 /\ a + n <= 4294967296.
Proof. by destruct (alloc_ok (world s) n w' a Hn0 Hal Ha0) as (H1 & H2 & H3 & _). Qed.
Lemma new_fresh x : a <= x < a + n -> ~ used (world s) x.
Proof. destruct (alloc_ok (world s) n w' a Hn0 Hal Ha0) as (_ & _ & _ & H4 & _). apply H4. Qed.
Lemma new_used x : used (world s) x \/ a <= x < a + n -> used w' x.
Proof. destruct (alloc_ok (world s) n w' a Hn0 Hal Ha0) as (_ & _ & _ & _ & H5). apply H5. Qed.

Lemma new_apart b r x : arenas s !! b = Some r -> in_arena b r x -> ~ a <= x < a + n.
Proof.
  intros Hb Hx Hr. apply (new_fresh x Hr). by apply (ao_used _ _ _ _ _ (ho_arena _ _ O b r Hb)).
Qed.

Lemma new_absent : arenas s !! a = None.
Proof.
  destruct (arenas s !! a) as [r|] eqn:E; [|done]. destruct (new_apart a r a E); [|lia].
  pose proof (ho_arena _ _ O a r E) as Ok. unfold in_arena, asize. destruct (large r) eqn:El; [|lia].
  pose proof (ao_large _ _ _ _ _ Ok El). lia.
Qed.

(** The new pages become an arena; the lists gain at most its own blocks. *)
Lemma add_arena s' F' : lists_ok (nodes s') (descs s') F' -> world s' = w' ->
  arenas s' = <[a := r0]> (arenas s) -> (forall x, is_Some (nodes s !! x) -> is_Some (nodes s' !! x)) ->
  arena_ok w' (nodes s') F' a r0 ->
  (forall j b, is_class j -> b <> a -> in_page b (F' j) = in_page b (F j)) ->
  (forall j x, is_class j -> x ∈ F' j -> x ∈ F j \/ (small j r0 /\ x ∈ blocks a j)) -> heap_ok s' F'.
Proof.
  intros L Hw HA Hn Ok Hp Hf. split; [done|..]; rewrite ?Hw, ?HA.
  - intros j Hj. destruct (ho_sent _ _ O j Hj) as (U1 & U2 & Us). split_and!; [by apply new_used; left..|].
    intros b r [[<- <-]|[_ Hb]]%lookup_insert_Some; [|by apply Us].
    unfold in_arena. rewrite Hsz. split; intros Hc; by apply (new_fresh _ Hc).
  - intros b r [[<- <-]|[Hne Hb]]%lookup_insert_Some; [done|].
    destruct (ho_arena _ _ O b r Hb) as [A1 A2 A3 A4]. split; [done| |done|].
    + intros x Hx. apply new_used. left. by apply A2.
    + intros Hl. destruct (A4 Hl) as (j & Hs & Hc & Hno). exists j. split; [done|]. split; [|by auto].
      rewrite Hp; [done|apply Hs|done].
  - intros b b' r r' x [[<- <-]|[_ Hb]]%lookup_insert_Some [[<- <-]|[_ Hb']]%lookup_insert_Some H1 H2.
    + done.
    + unfold in_arena in H1. rewrite Hsz in H1. by destruct (new_apart b' r' x Hb' H2).
    + unfold in_arena in H2. rewrite Hsz in H2. by destruct (new_apart b r x Hb H1).
    + by apply (ho_disj _ _ O b b' r r' x).
  - intros j x Hj [Hx|[Hs Hx]]%Hf; [|exists a, r0; by rewrite lookup_insert_eq|done].
    destruct (ho_free _ _ O j x Hj Hx) as (b & r & Hb & Hr). exists b, r.
    rewrite lookup_insert_ne by (intros <-; by rewrite new_absent in Hb). by split.
Qed.
End NewPage.

(** ** A page of small blocks *)

Section NewSmall.
Context (i a : Z) (w' : W) (Hi : is_class i) (HF : F i = []).
Context (Hal : allocator (world s) 4096 = Some (w', a)) (Ha0 : a <> NULL).

Let r0 := Arena (Some i) (cnt i) false.
Let A := <[a := r0]> (arenas s).

Lemma blocks_in_page x : x ∈ blocks a i -> a <= x < a + 4096 /\ x <> NULL.
Proof.
  intros (k & Hk & ->)%elem_of_blocks. pose proof (block_range a i k Hi Hk).
  pose proof (class_facts i Hi). pose proof (new_range 4096 a w' ltac:(lia) Hal Ha0). unfold NULL. lia.
Qed.

(** The state while the blocks are queued. *)
Record filling (k : Z) (s' : malloc_state W) : Prop := {
  fi_lists : lists_ok (nodes s') (descs s') (upd F i (take (Z.to_nat k) (blocks a i)));
  fi_world : world s' = w';
  fi_arenas : arenas s' = A;
  fi_nodes : forall x, is_Some (nodes s !! x) -> is_Some (nodes s' !! x);
  fi_new : forall x, x ∈ take (Z.to_nat k) (blocks a i) -> is_Some (nodes s' !! x);
}.

Lemma fill_fresh k : 0 <= k < cnt i -> let G := upd F i (take (Z.to_nat k) (blocks a i)) in
  outside G (block a i k) /\ take (Z.to_nat (k + 1)) (blocks a i) = G i ++ [block a i k] /\ zlen (G i) <= 510.
Proof.
  intros Hk G. pose proof (new_range 4096 a w' ltac:(lia) Hal Ha0) as (P1 & _).
  pose proof (new_fresh 4096 a w' ltac:(lia) Hal Ha0) as Pu. unfold G. rewrite upd_same.
  pose proof (block_range a i k Hi Hk) as Hr. pose proof (class_facts i Hi) as (Cb & _ & Cc & _).
  assert (blocks a i !! Z.to_nat k = Some (block a i k)) as Hbk.
  { unfold blocks. rewrite list_lookup_fmap, lookup_seqZ_lt by lia. cbn. f_equal. f_equal. lia. }
  split_and!.
  - intros j Hj. destruct (decide (j = i)) as [->|Hne]; intros Hin.
    + unfold fp, footprint, the_list, G in Hin. cbn in Hin. rewrite upd_same in Hin.
      assert (block a i k = hd i \/ block a i k = tl i \/ block a i k ∈ take (Z.to_nat k) (blocks a i))
        as [E|[E|(m & Hm & Hlt)%elem_of_take]] by set_solver.
      * apply (Pu (hd i)); [lia|]. by apply (ho_sent _ _ O i Hi).
      * apply (Pu (tl i)); [lia|]. by apply (ho_sent _ _ O i Hi).
      * pose proof (blocks_nodup a i Hi) as Hd. rewrite NoDup_alt in Hd.
        pose proof (Hd _ _ _ Hm Hbk). lia.
    + unfold fp, G, the_list in Hin. rewrite upd_other in Hin by done.
      apply (Pu (block a i k)); [lia|]. by apply (used_fp j).
  - rewrite Z2Nat.inj_add, Nat.add_1_r by lia. by apply take_S_r.
  - unfold zlen. rewrite length_take. lia.
Qed.

Lemma fill_step k s' : 0 <= k < cnt i -> filling k s' ->
  exists s'', push_block i a k s' = Some s'' /\ filling (k + 1) s''.
Proof.
  intros Hk [L Hw HA Hn Hnew]. unfold push_block. rewrite (lo_desc _ _ _ L i Hi). mstep.
  cbn [block_size free_blocks the_desc]. pose proof (new_range 4096 a w' ltac:(lia) Hal Ha0) as (P1 & P2 & P3).
  pose proof (block_range a i k Hi Hk) as Hr. pose proof (class_facts i Hi) as (Cb & _).
  assert (arena2block a k (bs i) = block a i k) as ->.
  { unfold arena2block, ARENA_SIZE. fold (block a i k). apply u32_small. lia. }
  destruct (fill_fresh k Hk) as (Hout & Et & Hlen).
  set (G := upd F i (take (Z.to_nat k) (blocks a i))) in *. set (x := block a i k) in *.
  destruct (push_list (with_node s' x) G i x) as (h & l & ds & Hp & _ & Hds & L' & Hkept); [..|lia|].
  { by apply lists_ok_fresh. } { done. } { done. } { unfold NULL. lia. }
  { cbn. rewrite lookup_insert_eq. by eexists. }
  cbn [nodes with_node] in *. rewrite Hp. mstep. rewrite Hds. eexists. split; [done|].
  split; cbn; try done; rewrite ?Et.
  - apply (lists_ok_ext _ _ (upd G i (G i ++ [x]))); [|done]. intros j. unfold G, upd. by case (j =? i).
  - intros y Hy. apply Hkept. destruct (decide (y = x)) as [->|]; [rewrite lookup_insert_eq; by eexists|].
    rewrite lookup_insert_ne by done. by apply Hn.
  - intros y Hy. apply Hkept. destruct (decide (y = x)) as [->|]; [rewrite lookup_insert_eq; by eexists|].
    rewrite lookup_insert_ne by done. apply Hnew. unfold G in Hy. rewrite upd_same in Hy.
    apply elem_of_app in Hy as [Hy|Hy]; [done|]. by apply list_elem_of_singleton in Hy.
Qed.

Lemma in_page_blocks : in_page a (blocks a i) = blocks a i /\ forall b, b <> a -> in_page b (blocks a i) = [].
Proof.
  assert (forall x, x ∈ blocks a i -> block2arena x = a) as Hb.
  { intros x Hx. apply page_of; [|by apply blocks_in_page]. exact (new_range 4096 a w' ltac:(lia) Hal Ha0). }
  split; [by apply filter_all|]. intros b Hne. apply elem_of_nil_inv. unfold in_page.
  intros x [E Hx]%list_elem_of_filter. apply Hne. by rewrite <- E, Hb.
Qed.

(** Cutting a page into free blocks changes nothing for the blocks in use. *)
Lemma live_new_small q m : live A (upd F i (blocks a i)) q m <-> live (arenas s) F q m.
Proof.
  split.
  - intros (b & r & [[<- <-]|[_ Hb]]%lookup_insert_Some & Hv).
    + destruct Hv as [[? _]|(j & Hs & Hq & Hq' & _)]; [done|]. exfalso.
      assert (j = i) as -> by (destruct Hs as (_ & _ & Hs); cbn in Hs; congruence).
      by rewrite upd_same in Hq'.
    + exists b, r. split; [done|]. destruct Hv as [?|(j & Hs & Hq & Hq' & ->)]; [by left|right].
      exists j. split_and!; try done. destruct (decide (j = i)) as [->|]; [rewrite HF; set_solver|].
      by rewrite upd_other in Hq'.
  - pose proof (new_absent 4096 a w' ltac:(lia) Hal Ha0) as Hnew. intros (b & r & Hb & Hv).
    assert (b <> a) as Hne by (intros ->; by rewrite Hnew in Hb).
    exists b, r. unfold A. rewrite lookup_insert_ne by done. split; [done|].
    destruct Hv as [?|(j & Hs & Hq & Hq' & ->)]; [by left|right]. exists j. split_and!; try done.
    destruct (decide (j = i)) as [->|]; [|by rewrite upd_other]. rewrite upd_same. intros Hc.
    destruct (blocks_in_page q Hc) as [Hr _]. apply (new_apart 4096 a w' ltac:(lia) Hal Ha0 b r q Hb); [|done].
    by apply (small_in_arena i).
Qed.

Lemma new_arena_ok : exists s', new_arena s i = Some s' /\ heap_ok s' (upd F i (blocks a i)) /\
  forall q m, live (arenas s') (upd F i (blocks a i)) q m <-> live (arenas s) F q m.
Proof.
  unfold new_arena. rewrite (lo_desc _ _ _ (ho_lists _ _ O) i Hi). mstep. unfold mem_page_size.
  rewrite Hal. mstep. cbn [blocks_per_arena the_desc]. apply Z.eqb_neq in Ha0 as E0. rewrite E0.
  pose proof (class_facts i Hi) as (_ & _ & Cc & _). fold r0 A.
  destruct (for_inv filling (push_block i a) (Z.to_nat (cnt i)) 0 (MState w' (nodes s) (descs s) A))
    as (s' & -> & Ok).
  { split; cbn; try done; [|by intros x ?%elem_of_nil]. apply (lists_ok_ext _ _ F); [|apply O].
    intros j. unfold upd. destruct (Z.eqb_spec j i) as [->|]; [by rewrite HF|done]. }
  { intros j s1 Hj. apply fill_step. lia. }
  exists s'. split; [done|]. destruct Ok as [L Hw HA Hn Hnew].
  assert (take (Z.to_nat (0 + Z.of_nat (Z.to_nat (cnt i)))) (blocks a i) = blocks a i) as Et.
  { apply take_ge. pose proof (blocks_length a i Hi). unfold zlen in *. lia. }
  rewrite Et in L, Hnew. split; [|intros q m; rewrite HA; apply live_new_small].
  apply (add_arena 4096 a w' r0 ltac:(lia) eq_refl Hal Ha0 s'); try done.
  - split; cbn.
    + exact (new_range 4096 a w' ltac:(lia) Hal Ha0).
    + intros x Hx. apply (new_used 4096 a w' ltac:(lia) Hal Ha0). by right.
    + done.
    + intros _. exists i. split; [done|]. rewrite upd_same, (proj1 in_page_blocks), blocks_length by done. by split.
  - intros j b Hj Hne. destruct (decide (j = i)) as [->|]; [|by rewrite upd_other].
    by rewrite upd_same, HF, (proj2 in_page_blocks).
  - intros j x Hj. destruct (decide (j = i)) as [->|]; [|rewrite upd_other by done; by left].
    rewrite upd_same. by right.
Qed.
End NewSmall.

(** ** Blocks in use do not overlap *)

Lemma live_bounds a r p n : arenas s !! a = Some r ->
  ((large r = true /\ p = a + 12 /\ n = free_cnt r * 4096 - 12) \/
   exists i, small i r /\ p ∈ blocks a i /\ p ∉ F i /\ n = bs i) ->
  a + 12 <= p /\ 0 < n /\ p + n <= a + asize r.
Proof.
  intros Ha [(Hl & -> & ->)|(i & Hs & Hp & _ & ->)].
  - pose proof (ao_large _ _ _ _ _ (ho_arena _ _ O a r Ha) Hl). unfold asize. rewrite Hl. lia.
  - destruct (small_in_arena i a r p Hs Hp) as (_ & ? & ?). destruct Hs as (Hi & Hl & _).
    pose proof (class_facts i Hi). unfold asize. rewrite Hl. lia.
Qed.

Lemma arenas_apart a b r r' : arenas s !! a = Some r -> arenas s !! b = Some r' -> a < b -> a + asize r <= b.
Proof.
  intros Ha Hb Hlt. destruct (Z.leb_spec (a + asize r) b) as [?|Hgt]; [done|].
  assert (0 < asize r') as Hpos.
  { unfold asize. destruct (large r') eqn:El; [|lia].
    pose proof (ao_large _ _ _ _ _ (ho_arena _ _ O b r' Hb) El). lia. }
  pose proof (ho_disj _ _ O a b r r' b Ha Hb). unfold in_arena in *. lia.
Qed.

Lemma live_disjoint p n q m : live (arenas s) F p n -> live (arenas s) F q m -> p <> q ->
  p + n <= q \/ q + m <= p.
Proof.
  intros (a & r & Ha & Hv) (b & r' & Hb & Hv') Hne.
  pose proof (live_bounds a r p n Ha Hv). pose proof (live_bounds b r' q m Hb Hv').
  destruct (Z.lt_trichotomy a b) as [Hlt|[<-|Hlt]].
  - pose proof (arenas_apart a b r r' Ha Hb Hlt). lia.
  - assert (r' = r) as -> by congruence.
    destruct Hv as [(Hl & -> & ->)|(i & Hs & (k & Hk & ->)%elem_of_blocks & _ & ->)],
      Hv' as [(Hl' & -> & ->)|(j & Hs' & (k' & Hk' & ->)%elem_of_blocks & _ & ->)].
    + lia.
    + destruct Hs' as (_ & ? & _). congruence.
    + destruct Hs as (_ & ? & _). congruence.
    + assert (j = i) as -> by (by eapply small_class).
      assert (k <> k') by congruence. destruct Hs as (Hi & _). pose proof (class_facts i Hi).
      unfold block. nia.
  - pose proof (arenas_apart b a r' r Hb Ha Hlt). lia.
Qed.

Lemma live_range p n : live (arenas s) F p n -> 0 < p /\ 0 < n /\ p + n <= 4294967296 /\
  forall x, p <= x < p + n -> used (world s) x.
Proof.
  intros (a & r & Ha & Hv). pose proof (live_bounds a r p n Ha Hv) as (B1 & B2 & B3).
  destruct (ho_arena _ _ O a r Ha) as [(A1 & A2 & A3) Au _ _]. split_and!; [lia..|].
  intros x Hx. apply Au. unfold in_arena. lia.
Qed.

(** ** malloc *)

Lemma descs_are : descs s = the_desc F <$> seqZ 0 8.
Proof.
  destruct (ho_lists _ _ O) as [L1 L2 _ _]. apply list_eq. intros k.
  rewrite list_lookup_fmap. destruct (decide (k < 8)%nat) as [Hk|Hk].
  - rewrite lookup_seqZ_lt by lia. rewrite <- zget_nat. by rewrite L2 by (unfold is_class; lia).
  - rewrite lookup_seqZ_ge by lia. apply lookup_ge_None_2. unfold zlen in L1. lia.
Qed.

(** The least class whose blocks have at least [size] bytes. *)
Definition cls (size : Z) : Z := Z.log2_up (Z.max size 8) - 3.

Lemma find_desc_ok size : 0 <= size <= 1024 -> find_desc (descs s) 0 size = cls size /\
  is_class (cls size) /\ size <= bs (cls size).
Proof.
  intros Hs. rewrite descs_are. change (seqZ 0 8) with [0; 1; 2; 3; 4; 5; 6; 7].
  cbn [fmap list_fmap find_desc the_desc block_size].
  change (bs 0) with 8. change (bs 1) with 16. change (bs 2) with 32. change (bs 3) with 64.
  change (bs 4) with 128. change (bs 5) with 256. change (bs 6) with 512. change (bs 7) with 1024.
  unfold cls, is_class, bs.
  assert (forall k, 0 < k -> 2 ^ (k - 1) < Z.max size 8 <= 2 ^ k -> Z.log2_up (Z.max size 8) = k) as Hl.
  { intros k Hk Hb. apply Z.log2_up_unique; [done|]. by rewrite <- Z.sub_1_r. }
  repeat cif.
  1:{ rewrite (Z.max_r size 8) by lia. done. }
  1:{ rewrite (Hl 4) by lia. lia. }
  1:{ rewrite (Hl 5) by lia. lia. }
  1:{ rewrite (Hl 6) by lia. lia. }
  1:{ rewrite (Hl 7) by lia. lia. }
  1:{ rewrite (Hl 8) by lia. lia. }
  1:{ rewrite (Hl 9) by lia. lia. }
  1:{ rewrite (Hl 10) by lia. lia. }
  lia.
Qed.

Definition pages (size : Z) : Z := up2 (size + 12) 4096.

Lemma pages_ok size : 0 <= size -> size + 12 + 4096 <= 4294967296 ->
  size + 12 <= pages size /\ pages size / 4096 * 4096 = pages size /\ 0 < pages size.
Proof.
  intros H1 H2. destruct (up2_correct (size + 12) 4096) as (Hm & Hr & _); [lia..|].
  unfold pages. pose proof (Z.div_mod (up2 (size + 12) 4096) 4096). lia.
Qed.

Lemma malloc_large_ok size w' a : 0 <= size -> size + 12 + 4096 <= 4294967296 ->
  allocator (world s) (pages size) = Some (w', a) -> a <> NULL ->
  exists s', malloc_large s size = Some (s', a + 12) /\ heap_ok s' F /\
  (forall m, ~ live (arenas s) F (a + 12) m) /\ forall q m, live (arenas s') F q m <->
    (q = a + 12 /\ m = pages size - 12) \/ (q <> a + 12 /\ live (arenas s) F q m).
Proof.
  intros Hs Hlim Hal Ha0. destruct (pages_ok size Hs Hlim) as (P1 & P2 & P3).
  unfold malloc_large. unfold ARENA_SIZE, mem_page_size. rewrite u32_small by lia. fold (pages size).
  rewrite Hal. mstep. apply Z.eqb_neq in Ha0 as E0. rewrite E0. set (r0 := Arena None (pages size / 4096) true).
  assert (asize r0 = pages size) as Hsz by done.
  pose proof (new_range (pages size) a w' P3 Hal Ha0) as Hr.
  pose proof (new_absent (pages size) a w' P3 Hal Ha0) as Hno.
  assert (forall b r m, arenas s !! b = Some r -> ((large r = true /\ a + 12 = b + 12 /\ m = free_cnt r * 4096 - 12) \/
    exists i, small i r /\ a + 12 ∈ blocks b i /\ a + 12 ∉ F i /\ m = bs i) -> False) as Hnl.
  { intros b r m Hb Hv. pose proof (live_bounds b r _ _ Hb Hv).
    apply (new_apart (pages size) a w' P3 Hal Ha0 b r (a + 12) Hb); [unfold in_arena|]; lia. }
  eexists. split; [done|]. split_and!.
  - apply (add_arena (pages size) a w' r0 P3 Hsz Hal Ha0); try done; cbn.
    + apply O.
    + split; try done; cbn [free_cnt r0]; [by rewrite Hsz| |lia].
      intros x. unfold in_arena. rewrite Hsz. intros Hx. apply (new_used (pages size) a w' P3 Hal Ha0). by right.
    + by left.
  - intros m (b & r & Hb & Hv). by apply (Hnl b r m).
  - cbn. intros q m. split.
    + intros (b & r & [[<- <-]|[Hne Hb]]%lookup_insert_Some & Hv).
      * left. destruct Hv as [(_ & -> & ->)|(j & (_ & ? & _) & _)]; [|done]. cbn. lia.
      * right. split; [|by exists b, r]. intros ->. by apply (Hnl b r m).
    + intros [(-> & ->)|(Hne & b & r & Hb & Hv)].
      * exists a, r0. rewrite lookup_insert_eq. split; [done|]. left. cbn. split_and!; [done..|lia].
      * exists b, r. rewrite lookup_insert_ne by (intros <-; by rewrite Hno in Hb). done.
Qed.

Definition can_alloc (w : W) (n : Z) : Prop := exists w' a, allocator w n = Some (w', a) /\ a <> NULL.

(** The pages the request needs can be had. *)
Definition provided (w : W) (G : Z -> list Z) (size : Z) : Prop :=
  if 1024 <? size then can_alloc w (pages size) else G (cls size) = [] -> can_alloc w 4096.
End Ok.

Lemma malloc_small_ok s F size : heap_ok s F -> 0 <= size <= 1024 ->
  (F (cls size) = [] -> can_alloc (world s) 4096) ->
  exists s' p F', malloc_from s size = Some (s', p) /\ heap_ok s' F' /\
  (forall m, ~ live (arenas s) F p m) /\ forall q m, live (arenas s') F' q m <->
    (q = p /\ m = bs (cls size)) \/ (q <> p /\ live (arenas s) F q m).
Proof.
  intros O Hs Hp. destruct (find_desc_ok O size Hs) as (Ef & Hi & _).
  unfold malloc_from. change (MEM_BLOCK_CNT - 1) with 7.
  rewrite (lo_desc _ _ _ (ho_lists _ _ O) 7) by (unfold is_class; lia). mstep.
  cbn [the_desc block_size]. change (bs 7 <? size) with (1024 <? size).
  destruct (Z.ltb_spec 1024 size); [lia|]. rewrite Ef. set (i := cls size) in *.
  rewrite (lo_desc _ _ _ (ho_lists _ _ O) i Hi). mstep. cbn [free_blocks the_desc the_list DList.size].
  assert (exists s1 F1 x xs, (if zlen (F i) =? 0 then new_arena s i else Some s) = Some s1 /\
    heap_ok s1 F1 /\ F1 i = x :: xs /\
    forall q m, live (arenas s1) F1 q m <-> live (arenas s) F q m) as (s1 & F1 & x & xs & -> & O1 & E1 & V1).
  { destruct (F i) as [|x xs] eqn:E; [|by exists s, F, x, xs].
    destruct (Hp eq_refl) as (w' & a & Hal & Ha0).
    destruct (new_arena_ok O i a w' Hi E Hal Ha0) as (s1 & Hn & O1 & V1).
    pose proof (blocks_length a i Hi) as Hb. pose proof (class_facts i Hi).
    destruct (blocks a i) as [|x xs] eqn:Eb; [unfold zlen in Hb; cbn in Hb; lia|].
    exists s1, (upd F i (x :: xs)), x, xs. by rewrite upd_same. }
  mstep. rewrite (lo_desc _ _ _ (ho_lists _ _ O1) i Hi). mstep. cbn [free_blocks the_desc].
  destruct (pop_block O1 i x xs Hi E1) as (h & l & s2 & r & -> & Hx0 & Hset & Har & Ok & V).
  mstep. apply Z.eqb_neq in Hx0 as ->. rewrite Hset. mstep. rewrite Har. mstep.
  eexists _, x, (upd F1 i xs). split; [done|]. split; [done|]. split.
  { intros m Hl%V1. apply (free_not_live O1 i x m Hi); [by rewrite E1; left|done]. }
  intros q m. rewrite V. split; intros [?|[? ?]]; auto; right; (split; [done|]); by apply V1.
Qed.

(** C28: from a well-formed heap, and when the pages it may need can be had,
    [_malloc] returns the address of a block of at least the requested size
    that was not in use; it is in allocated memory, overlaps no block in use,
    and all blocks in use stay so.  The heap is well formed again. *)
Theorem malloc_spec s F size : heap_ok s F -> 0 <= size -> size + 12 + 4096 <= 4294967296 ->
  provided (world s) F size ->
  exists s' p n F', _malloc (inr s) size = Some (s', p) /\ heap_ok s' F' /\ size <= n /\
    (forall x, p <= x < p + n -> used (world s') x) /\
    (forall q m, live (arenas s) F q m -> q <> p /\ (p + n <= q \/ q + m <= p)) /\
    (forall q m, live (arenas s') F' q m <-> (q = p /\ m = n) \/ live (arenas s) F q m).
Proof.
  intros O Hs Hlim Hp.
  assert (exists s' p n F', malloc_from s size = Some (s', p) /\ heap_ok s' F' /\ size <= n /\
    (forall m, ~ live (arenas s) F p m) /\
    forall q m, live (arenas s') F' q m <-> (q = p /\ m = n) \/ (q <> p /\ live (arenas s) F q m))
    as (s' & p & n & F' & E & O' & Hn & Hnew & V).
  { unfold provided in Hp. destruct (Z.ltb_spec 1024 size) as [Hl|Hl].
    - destruct Hp as (w' & a & Hal & Ha0).
      destruct (malloc_large_ok O size w' a Hs Hlim Hal Ha0) as (s' & E & O' & Hnew & V).
      exists s', (a + 12), (pages size - 12), F. split_and!; [|done| |done..].
      + unfold malloc_from. change (MEM_BLOCK_CNT - 1) with 7.
        rewrite (lo_desc _ _ _ (ho_lists _ _ O) 7) by (unfold is_class; lia). mstep.
        cbn [the_desc block_size]. change (bs 7 <? size) with (1024 <? size).
        apply Z.ltb_lt in Hl as ->. done.
      + pose proof (pages_ok size Hs Hlim). lia.
    - destruct (malloc_small_ok s F size O) as (s' & p & F' & E & O' & Hnew & V); [lia|done|].
      exists s', p, (bs (cls size)), F'. split_and!; [done|done| |done..].
      apply (find_desc_ok O size). lia. }
  assert (live (arenas s') F' p n) as Hlive by (apply V; by left).
  assert (forall q m, live (arenas s) F q m -> q <> p /\ (p + n <= q \/ q + m <= p)) as Hd.
  { intros q m Hq. destruct (decide (q = p)) as [->|Hne].
    - by destruct (Hnew m).
    - split; [done|]. apply (live_disjoint O'); [done| |done]. apply V. by right. }
  exists s', p, n, F'. split_and!; try done.
  - apply (live_range O' p n Hlive).
  - intros q m. rewrite V. split; [naive_solver|]. intros [?|Hq]; [by left|right].
    split; [|done]. by apply (Hd q m).
Qed.

(** ** free *)

(** A block leaves its list. *)
Lemma drop_list (s : malloc_state W) F i x : lists_ok (nodes s) (descs s) F -> is_class i -> x ∈ F i ->
  exists h l ds, DList.remove (nodes s) (the_list F i) x = Some (h, l) /\
    set_desc s h i l = Some (MState (world s) h ds (arenas s)) /\
    lists_ok h ds (upd F i (filter (fun y => y <> x) (F i))) /\
    (forall y, is_Some (nodes s !! y) -> is_Some (h !! y)).
Proof.
  intros L Hi Hx. pose proof (lo_list _ _ _ L i Hi) as D.
  apply list_elem_of_split in Hx as (xs1 & xs2 & E). pose proof (dlist_nodup _ _ _ D) as Hd.
  rewrite E in Hd. rewrite E, filter_ne_split by done. rewrite E in D.
  destruct (remove_in_ok _ _ _ _ _ D) as (h & l & Hr & D' & K & Hsx).
  destruct (lists_step s F i h l (xs1 ++ xs2) (fp F i)) as (ds & Hds & L'); try done.
  { unfold fp. by rewrite E. }
  { by left. }
  { intros y Hy. left. rewrite E. set_solver. }
  exists h, l, ds. split_and!; try done. intros y Hy.
  refine (nodes_kept _ _ _ _ _ _ K D' _ y Hy). intros z Hz. destruct (decide (z = x)) as [->|].
  - right. apply same_at_lookup in Hsx. rewrite Hsx.
    destruct (dlist_node _ _ _ D x) as [_ Hs]; [unfold footprint; set_solver|].
    unfold nxt in Hs. by apply fmap_is_Some in Hs.
  - left. destruct K as (Kh & Kt & _). unfold footprint in *. rewrite Kh, Kt. set_solver.
Qed.

(** The pages of an arena go back; its blocks are in no list. *)
Lemma drop_arena s F a r w' h ds F' : heap_ok s F -> arenas s !! a = Some r -> lists_ok h ds F' ->
  (forall x, used (world s) x -> ~ in_arena a r x -> used w' x) ->
  (forall x, is_Some (nodes s !! x) -> is_Some (h !! x)) ->
  (forall j b, is_class j -> b <> a -> in_page b (F' j) = in_page b (F j)) ->
  (forall j x, is_class j -> x ∈ F' j -> x ∈ F j /\ ~ (small j r /\ x ∈ blocks a j)) ->
  heap_ok (MState w' h ds (delete a (arenas s))) F'.
Proof.
  intros O Ha L Hu Hn Hp Hf. split; [done|..]; cbn.
  - intros j Hj. destruct (ho_sent _ _ O j Hj) as (U1 & U2 & Us).
    destruct (Us a r Ha). split_and!; [by apply Hu..|]. intros b r' [_ Hb]%lookup_delete_Some. by apply Us.
  - intros b r' [Hne Hb]%lookup_delete_Some. destruct (ho_arena _ _ O b r' Hb) as [A1 A2 A3 A4].
    split; [done| |done|].
    + intros x Hx. apply Hu; [by apply A2|]. intros Hc. apply Hne.
      by apply (ho_disj _ _ O a b r r' x).
    + intros Hl. destruct (A4 Hl) as (j & Hs & Hc & Hno). exists j. split; [done|]. split; [|by auto].
      rewrite Hp; [done|apply Hs|done].
  - intros b b' r1 r2 x [_ Hb]%lookup_delete_Some [_ Hb']%lookup_delete_Some. by apply (ho_disj _ _ O).
  - intros j x Hj Hx. destruct (Hf j x Hj Hx) as (Hx' & Hns).
    destruct (ho_free _ _ O j x Hj Hx') as (b & r' & Hb & Hs & Hxb). exists b, r'.
    rewrite lookup_delete_ne; [done|]. intros <-. apply Hns. by assert (r' = r) as <- by congruence.
Qed.

(** A page all of whose blocks are free. *)
Section Release.
Context (s : malloc_state W) (F : Z -> list Z) (O : heap_ok s F).
Context (a i : Z) (r : mem_arena) (Ha : arenas s !! a = Some r) (Hr : small i r).
Context (Hfull : free_cnt r = cnt i).

Lemma all_free x : x ∈ blocks a i -> x ∈ F i.
Proof.
  destruct (Hr) as (Hi & Hl & _). destruct (ao_small _ _ _ _ _ (ho_arena _ _ O a r Ha) Hl) as (j & Hj & Hc & _).
  assert (j = i) as -> by (by eapply small_class).
  assert (in_page a (F i) ⊆+ blocks a i) as Hsub.
  { apply NoDup_submseteq.
    - apply NoDup_filter, (dlist_nodup _ _ _ (lo_list _ _ _ (ho_lists _ _ O) i Hi)).
    - intros y [Hy Hin]%list_elem_of_filter. destruct (free_page O i y Hi Hin) as (b & r' & Hb & Hs & Hyb & _ & E).
      by replace a with b by congruence. }
  apply submseteq_length_Permutation in Hsub as Hperm.
  - rewrite <- Hperm. intros [_ Hin]%list_elem_of_filter. done.
  - pose proof (blocks_length a i Hi). unfold zlen in *. lia.
Qed.

Definition left_over (k : Z) : list Z := filter (fun x => x ∉ take (Z.to_nat k) (blocks a i)) (F i).

Record emptying (k : Z) (s' : malloc_state W) : Prop := {
  em_lists : lists_ok (nodes s') (descs s') (upd F i (left_over k));
  em_world : world s' = world s;
  em_arenas : arenas s' = arenas s;
  em_nodes : forall x, is_Some (nodes s !! x) -> is_Some (nodes s' !! x);
}.

Lemma left_over_step k : 0 <= k < cnt i -> block a i k ∈ left_over k /\
  left_over (k + 1) = filter (fun y => y <> block a i k) (left_over k).
Proof.
  intros Hk. destruct (Hr) as (Hi & _). pose proof (class_facts i Hi) as (_ & _ & Cc & _).
  assert (blocks a i !! Z.to_nat k = Some (block a i k)) as Hbk.
  { unfold blocks. rewrite list_lookup_fmap, lookup_seqZ_lt by lia. cbn. f_equal. f_equal. lia. }
  unfold left_over. split.
  - apply list_elem_of_filter. split.
    + intros (m & Hm & Hlt)%elem_of_take. pose proof (blocks_nodup a i Hi) as Hd.
      rewrite NoDup_alt in Hd. pose proof (Hd _ _ _ Hm Hbk). lia.
    + apply all_free. by apply list_elem_of_lookup_2 in Hbk.
  - rewrite list_filter_filter. apply list_filter_iff. intros y.
    rewrite Z2Nat.inj_add, Nat.add_1_r by lia. rewrite (take_S_r _ _ _ Hbk). set_solver.
Qed.

Lemma release_loop : exists s', for_ (Z.to_nat (cnt i)) 0 (fun k s =>
    d ← zget (descs s) i;
    '(h, l) ← DList.remove (nodes s) (free_blocks d) (arena2block a k (block_size d));
    set_desc s h i l) s = Some s' /\ emptying (cnt i) s'.
Proof.
  destruct (Hr) as (Hi & _). pose proof (class_facts i Hi) as (Cb & _ & Cc & _).
  edestruct (for_inv emptying) as (s' & E & Ok); [| |exists s'; split; [exact E|]].
  - split; try done. apply (lists_ok_ext _ _ F); [|apply O]. intros j. unfold upd, left_over.
    destruct (Z.eqb_spec j i) as [->|]; [|done]. apply filter_all. intros x _. apply not_elem_of_nil.
  - intros k s1 Hk [L Hw HA Hn]. destruct (left_over_step k) as [Hin Hst]; [lia|].
    rewrite (lo_desc _ _ _ L i Hi). mstep. cbn [free_blocks the_desc block_size].
    assert (arena2block a k (bs i) = block a i k) as ->.
    { unfold arena2block, ARENA_SIZE. fold (block a i k). apply u32_small.
      pose proof (block_range a i k Hi ltac:(lia)).
      pose proof (small_page _ _ _ _ _ _ (ho_arena _ _ O a r Ha) Hr) as (? & _ & ?). lia. }
    destruct (drop_list s1 _ i (block a i k) L Hi) as (h & l & ds & -> & Hds & L' & Hkept); [by rewrite upd_same|].
    mstep. rewrite Hds. eexists. split; [done|]. split; cbn; auto.
    apply (lists_ok_ext _ _ _ _) with (2 := L'). intros j. rewrite Hst. unfold upd.
    destruct (Z.eqb_spec j i) as [->|]; [|done]. by rewrite Z.eqb_refl.
  - by replace (0 + Z.of_nat (Z.to_nat (cnt i))) with (cnt i) in Ok by lia.
Qed.

(** The page leaves the heap, and nothing in use was on it. *)
Lemma release_ok_page s' w' : emptying (cnt i) s' ->
  (forall x, used (world s) x -> ~ a <= x < a + 4096 -> used w' x) ->
  let F' := upd F i (left_over (cnt i)) in
  heap_ok (MState w' (nodes s') (descs s') (delete a (arenas s'))) F' /\
  forall q m, live (delete a (arenas s')) F' q m <-> live (arenas s) F q m.
Proof.
  intros [L Hw HA Hn] Hu F'. destruct (Hr) as (Hi & Hl & Hd).
  assert (take (Z.to_nat (cnt i)) (blocks a i) = blocks a i) as Et.
  { apply take_ge. pose proof (blocks_length a i Hi). unfold zlen in *. lia. }
  assert (F' i = filter (fun x => x ∉ blocks a i) (F i)) as EF by (unfold F', left_over; by rewrite upd_same, Et).
  pose proof (small_page _ _ _ _ _ _ (ho_arena _ _ O a r Ha) Hr) as Hpg.
  rewrite HA. split.
  - apply (drop_arena s F a r w' (nodes s') (descs s') F'); try done.
    + intros x. unfold in_arena, asize. rewrite Hl. apply Hu.
    + intros j b Hj Hne. destruct (decide (j = i)) as [->|]; [|unfold F'; by rewrite upd_other].
      rewrite EF. unfold in_page. rewrite list_filter_filter. apply list_filter_iff. intros x.
      split; [by intros [? _]|]. intros Hx. split; [done|]. intros (k & Hk & ->)%elem_of_blocks.
      rewrite page_of_block in Hx by done. congruence.
    + intros j x Hj Hx. destruct (decide (j = i)) as [->|Hne].
      * rewrite EF in Hx. apply list_elem_of_filter in Hx as [Hx Hin]. naive_solver.
      * unfold F' in Hx. rewrite upd_other in Hx by done. split; [done|]. intros [Hs _].
        apply Hne. by eapply small_class.
  - intros q m. split.
    + intros (b & r' & [Hne Hb]%lookup_delete_Some & Hv). exists b, r'. split; [done|].
      destruct Hv as [?|(j & Hs & Hq & Hq' & ->)]; [by left|right]. exists j. split_and!; try done.
      destruct (decide (j = i)) as [->|]; [|unfold F' in Hq'; by rewrite upd_other in Hq'].
      intros Hc. apply Hq'. rewrite EF. apply list_elem_of_filter. split; [|done]. intros Hqa.
      apply Hne. apply (ho_disj _ _ O a b r r' q Ha Hb); by apply (small_in_arena i).
    + intros (b & r' & Hb & Hv). destruct (decide (b = a)) as [->|Hne].
      { assert (r' = r) as -> by congruence. destruct Hv as [[? _]|(j & Hs & Hq & Hq' & _)]; [congruence|].
        assert (j = i) as -> by (by eapply small_class). by destruct Hq'; apply all_free. }
      exists b, r'. rewrite lookup_delete_ne by done. split; [done|].
      destruct Hv as [?|(j & Hs & Hq & Hq' & ->)]; [by left|right]. exists j. split_and!; try done.
      destruct (decide (j = i)) as [->|]; [|unfold F'; by rewrite upd_other].
      rewrite EF. intros [_ ?]%list_elem_of_filter. done.
Qed.
End Release.

Lemma in_page_snoc b x xs : in_page b (xs ++ [x]) = in_page b xs ++ (if decide (block2arena x = b) then [x] else []).
Proof. unfold in_page. rewrite filter_app. done. Qed.

(** The block is queued and counted. *)
Lemma push_free s F a i r p : heap_ok s F -> arenas s !! a = Some r -> small i r -> p ∈ blocks a i -> p ∉ F i ->
  exists h l s1, pushr (nodes s) (the_list F i) p = Some (h, l) /\ set_desc s h i l = Some s1 /\
  let r' := Arena (a_desc r) (u32 (free_cnt r + 1)) (large r) in
  let s' := set_arena s1 a r' in let F' := upd F i (F i ++ [p]) in
  heap_ok s' F' /\ small i r' /\ world s' = world s /\
  forall q m, live (arenas s') F' q m <-> q <> p /\ live (arenas s) F q m.
Proof.
  intros O Ha Hr Hp Hnp. destruct (Hr) as (Hi & Hl & Hd). pose proof (ho_arena _ _ O a r Ha) as Ok.
  destruct (ao_small _ _ _ _ _ Ok Hl) as (j & Hj & Hc & Hno). assert (j = i) as -> by (by eapply small_class).
  pose proof (small_page _ _ _ _ _ _ Ok Hr) as Hpg. pose proof (free_short O i Hi) as Hs.
  assert (block2arena p = a) as Hpa.
  { pose proof Hp as (k & Hk & ->)%elem_of_blocks. by apply page_of_block. }
  destruct (push_list s F i p) as (h & l & ds & Hpush & _ & Hds & L & Hkept); try done.
  { apply O. } { by apply (block_outside O a r i). }
  { pose proof (small_in_arena i a r p Hr Hp) as (_ & _ & ?). destruct Hpg. unfold NULL. lia. }
  { by apply Hno. } { lia. }
  exists h, l, (MState (world s) h ds (arenas s)). split; [done|]. split; [done|].
  cbn [set_arena arenas world nodes descs]. split_and!; try done.
  - apply (recount O _ i _ a r (u32 (free_cnt r + 1))); try done; cbn.
    + intros b Hb. rewrite in_page_snoc, decide_False by congruence. by rewrite app_nil_r.
    + assert (zlen (in_page a (F i)) <= zlen (F i)).
      { unfold zlen, in_page. pose proof (length_filter (fun x => block2arena x = a) (F i)). lia. }
      rewrite in_page_snoc, decide_True, zlen_app by done. rewrite u32_small by (unfold zlen in *; lia). by rewrite Hc.
    + intros x Hx. apply elem_of_app in Hx as [?|Hx]; [by left|right]. by apply list_elem_of_singleton in Hx as ->.
  - intros q m. rewrite (live_recount _ _ a r _ i) by done.
    rewrite (live_upd O i p (F i ++ [p]) a r) by (try done; intros y Hy; set_solver). set_solver.
Qed.

Lemma free_large_ok rel s F a r : heap_ok s F -> arenas s !! a = Some r -> large r = true ->
  exists s', _free rel s (a + 12) = Some s' /\ heap_ok s' F /\
  forall q m, live (arenas s') F q m <-> q <> a + 12 /\ live (arenas s) F q m.
Proof.
  intros O Ha Hl. pose proof (ho_arena _ _ O a r Ha) as [(A1 & A2 & A3) Au Al _]. specialize (Al Hl).
  unfold asize in A3. rewrite Hl in A3.
  assert (block2arena (a + 12) = a) as Hp by (apply page_of; unfold is_page; lia).
  unfold _free. destruct (Z.eqb_spec (a + 12) NULL) as [E|_]; [unfold NULL in E; lia|].
  rewrite Hp, Ha. mstep. rewrite Hl. unfold mem_page_size. rewrite u32_small by lia.
  destruct (release_ok munmap (world s) a (free_cnt r * 4096)) as (w' & -> & Hu); [by right|..].
  { intros x Hx. apply Au. unfold in_arena, asize. by rewrite Hl. }
  mstep. eexists. split; [done|]. split.
  - apply (drop_arena s F a r); try done; [apply O| |].
    + intros x. unfold in_arena, asize. rewrite Hl. apply Hu.
    + intros j x Hj Hx. split; [done|]. intros [(_ & ? & _) _]. congruence.
  - cbn. intros q m. split.
    + intros (b & r' & [Hne Hb]%lookup_delete_Some & Hv). split; [|by exists b, r'].
      intros ->. apply Hne. pose proof (live_bounds O b r' _ _ Hb Hv).
      apply (ho_disj _ _ O a b r r' (a + 12)); [done..| |]; unfold in_arena; [unfold asize; rewrite Hl|]; lia.
    + intros [Hne (b & r' & Hb & Hv)]. exists b, r'. rewrite lookup_delete_ne; [done|].
      intros <-. assert (r' = r) as -> by congruence.
      destruct Hv as [(_ & ? & _)|(j & (_ & ? & _) & _)]; congruence.
Qed.

(** C29: freeing a block in use makes exactly that block unused and keeps the
    heap well formed, whether the block only joins its list, its page has
    become free and goes back, or it has pages of its own. *)
Theorem free_spec rel s F p n : heap_ok s F -> rel = unallocator \/ rel = munmap -> live (arenas s) F p n ->
  exists s' F', _free rel s p = Some s' /\ heap_ok s' F' /\
    forall q m, live (arenas s') F' q m <-> q <> p /\ live (arenas s) F q m.
Proof.
  intros O Hrel (a & r & Ha & [(Hl & -> & ->)|(i & Hr & Hp & Hnp & ->)]).
  { destruct (free_large_ok rel s F a r O Ha Hl) as (s' & ? & ? & ?). by exists s', F. }
  pose proof (small_page _ _ _ _ _ _ (ho_arena _ _ O a r Ha) Hr) as Hpg.
  assert (block2arena p = a /\ p <> NULL) as [Hpa Hp0].
  { pose proof (small_in_arena i a r p Hr Hp) as (_ & _ & ?).
    pose proof Hp as (k & Hk & ->)%elem_of_blocks. destruct Hr as (Hi & _).
    split; [by apply page_of_block|]. destruct Hpg. unfold NULL. lia. }
  destruct (Hr) as (Hi & Hl & Hd). unfold _free. apply Z.eqb_neq in Hp0 as ->.
  rewrite Hpa, Ha. mstep. rewrite Hl, Hd. mstep. rewrite (lo_desc _ _ _ (ho_lists _ _ O) i Hi). mstep.
  cbn [free_blocks the_desc blocks_per_arena].
  destruct (push_free s F a i r p O Ha Hr Hp Hnp) as (h & l & s1 & -> & Hset & O1 & Hr1 & Hw & V).
  mstep. rewrite Hset. mstep. rewrite Hd, Hl in *. cbn [free_cnt].
  set (r1 := Arena (Some i) (u32 (free_cnt r + 1)) false) in *. set (s2 := set_arena s1 a r1) in *.
  set (F1 := upd F i (F i ++ [p])) in *.
  destruct (_ && _) eqn:Ec; [|by exists s2, F1].
  apply andb_prop in Ec as [_ Ec]. apply Z.eqb_eq in Ec. rewrite Ec.
  assert (arenas s2 !! a = Some r1) as Ha2 by (apply lookup_insert_eq).
  destruct (release_loop s2 F1 O1 a i r1 Ha2 Hr1 Ec) as (s3 & -> & Em). mstep.
  rewrite (em_world _ _ _ _ _ _ Em).
  destruct (release_ok rel (world s2) a 4096 Hrel) as (w' & Hrun & Hu).
  { intros x Hx. by apply (ao_used _ _ _ _ _ (ho_arena _ _ O1 a r1 Ha2)). }
  unfold mem_page_size. rewrite Hrun. mstep.
  destruct (release_ok_page s2 F1 O1 a i r1 Ha2 Hr1 Ec s3 w' Em Hu) as [O3 V3].
  eexists _, _. split; [done|]. split; [exact O3|]. intros q m. by rewrite V3, V.
Qed.

End Spec.

(** ** Initialisation *)

Definition hd_of (p i : Z) : Z := p + 28 * i + 4.
Definition tl_of (p i : Z) : Z := p + 28 * i + 12.

Lemma init_descs_ok p n : forall k h, 0 < p -> 0 <= k -> k + Z.of_nat n <= 8 ->
  (forall i, k <= i < 8 -> is_Some (h !! hd_of p i) /\ is_Some (h !! tl_of p i)) ->
  exists h' ds, init_descs h (state_list p <$> seqZ k (Z.of_nat n)) (bs k) = Some (h', ds) /\
    ds = (fun i => BlockDesc (bs i) (state_list p i) (cnt i)) <$> seqZ k (Z.of_nat n) /\
    (forall i, k <= i < k + Z.of_nat n -> dlist h' (state_list p i) []) /\
    (forall x, (forall i, k <= i < k + Z.of_nat n -> x <> hd_of p i /\ x <> tl_of p i) -> same_at h h' x).
Proof.
  induction n as [|n IH]; intros k h Hp Hk Hn Hh.
  { exists h, []. split_and!; try done. lia. }
  rewrite seqZ_cons by lia. replace (Z.pred (Z.of_nat (S n))) with (Z.of_nat n) by lia.
  replace (Z.succ k) with (k + 1) by lia. cbn [fmap list_fmap init_descs].
  destruct (Hh k) as [Nh Nt]; [lia|].
  destruct (init_list_ok h (state_list p k)) as (h1 & l1 & -> & D1 & K1).
  1-3: unfold NULL; cbn; lia. 1-2: unfold nxt; by apply fmap_is_Some.
  mstep. replace (bs k * 2) with (bs (k + 1)) by (unfold bs; rewrite Z.pow_add_r by lia; lia).
  assert (l1 = state_list p k) as ->.
  { destruct K1 as (K1 & K2 & _). pose proof (dl_size _ _ _ D1). destruct l1. cbn in *. by subst. }
  destruct (IH (k + 1) h1) as (h2 & ds & E & Eds & D2 & S2); [lia..| |].
  { intros i Hi. destruct (Hh i) as [? ?]; [lia|]. split; apply (nodes_kept _ _ _ _ _ _ K1 D1); auto. }
  unfold fmap in E |- *. cbn in E |- *. rewrite E. mstep. eexists _, _. split; [done|]. split; [by rewrite Eds|]. split.
  - intros i Hi. destruct (decide (i = k)) as [->|]; [|apply D2; lia].
    apply (dlist_frame h1); [done|]. intros x Hx. apply S2. intros j Hj.
    unfold footprint in Hx. cbn in Hx. unfold hd_of, tl_of. set_solver by lia.
  - intros x Hx. destruct K1 as (_ & _ & K1).
    assert (same_at h h1 x) as [E1 E2].
    { apply K1. destruct (Hx k) as [? ?]; [lia|]. unfold footprint, hd_of, tl_of in *. cbn. set_solver. }
    destruct (S2 x) as [E3 E4]; [|split; congruence]. intros i Hi. apply Hx. lia.
Qed.

(** The first call sets up an empty heap: nothing is free and nothing in use. *)
Lemma init_malloc_ok {W : Type} `{PageAllocOk W} (w w' : W) p : allocator w STATE_SIZE = Some (w', p) -> p <> NULL ->
  exists s, init_malloc (inl w) = Some s /\ world s = w' /\ heap_ok (hd_of p) (tl_of p) s (fun _ => []) /\
    forall q m, ~ live (arenas s) (fun _ => []) q m.
Proof.
  intros Hal Hp0. destruct (alloc_ok w STATE_SIZE w' p eq_refl Hal Hp0) as (P1 & _ & P3 & _ & Pu).
  unfold init_malloc. rewrite Hal. mstep. apply Z.eqb_neq in Hp0 as ->. unfold STATE_SIZE in *.
  set (h := list_to_map _ : heap).
  destruct (init_descs_ok p 8 0 h) as (h' & ds & E & Eds & D & _); [done..| |].
  { intros i Hi. subst h. split; apply elem_of_dom; rewrite dom_list_to_map_L; apply elem_of_list_to_set;
      rewrite <- list_fmap_compose, list_fmap_id, elem_of_app; [left|right];
      apply list_elem_of_fmap; exists (state_list p i); (split; [done|]);
      apply list_elem_of_fmap; exists i; (split; [done|]); apply elem_of_seqZ; unfold MEM_BLOCK_CNT; lia. }
  unfold init_malloc_desc. change (Z.shiftl 1 3) with (bs 0). change MEM_BLOCK_CNT with (Z.of_nat 8).
  rewrite E. mstep. eexists. split; [done|]. split; [done|]. split.
  2:{ intros q m (a & r & Ha & _). cbn in Ha. by rewrite lookup_empty in Ha. }
  split; cbn; [|..].
  - split.
    + by rewrite Eds.
    + intros i Hi. rewrite Eds. unfold zget. destruct (Z.ltb_spec i 0); [unfold is_class in Hi; lia|].
      rewrite list_lookup_fmap, lookup_seqZ_lt by (unfold is_class in Hi; lia). cbn.
      by replace (0 + Z.of_nat (Z.to_nat i)) with i by lia.
    + intros i Hi. apply D. unfold is_class in Hi. lia.
    + assert (forall i x, x ∈ fp (hd_of p) (tl_of p) (fun _ => []) i -> x = hd_of p i \/ x = tl_of p i) as Hfp.
      { intros i x [->|Hx%list_elem_of_singleton]%elem_of_cons; [by left|by right]. }
      intros i j x Hi Hj Hx1%Hfp Hx2%Hfp. unfold hd_of, tl_of in *. lia.
  - intros i Hi. unfold is_class, hd_of, tl_of in *. split_and!; [apply Pu; right; lia..|].
    intros a r Ha. by rewrite lookup_empty in Ha.
  - intros a r Ha. by rewrite lookup_empty in Ha.
  - intros a b r r' x Ha. by rewrite lookup_empty in Ha.
  - intros i x _ Hx. by apply elem_of_nil in Hx.
Qed.

(** ** An example: pages are handed out one after the other *)

#[export] Instance bump_alloc : PageAlloc Z := {
  allocator w n :=
    let n' := (n + 4095) / 4096 * 4096 in
    if (0 <? w) && (w mod 4096 =? 0) && (w + n' <=? 4294967296) then Some (w + n', w) else Some (w, NULL);
  unallocator w a n := Some w;
  munmap w a n := Some w;
}.

#[export, program] Instance bump_alloc_ok : PageAllocOk Z := { used := fun w x => x < w }.
Next Obligation.
  cbn. intros w n w' a Hn E Ha. cif_in E; [|by injection E as <- <-].
  injection E as <- <-. pose proof (Z.div_mod (n + 4095) 4096). pose proof (Z.mod_pos_bound (n + 4095) 4096).
  split_and!; try lia. 
Qed.
Next Obligation. cbn. intros f w a n [-> | ->] _; by exists w. Qed.

Definition heap1 : malloc_state Z := default (MState 0 ∅ [] ∅) (init_malloc (inl 4096)).

Lemma heap1_ok : heap_ok (hd_of 4096) (tl_of 4096) heap1 (fun _ => []) /\ world heap1 = 8192.
Proof.
  destruct (init_malloc_ok (4096 : Z) 8192 4096) as (s & E & Hw & O & _); [done..|].
  unfold heap1. by rewrite E.
Qed.

Lemma provided1 size : 0 <= size <= 1024 -> provided (world heap1) (fun _ => []) size.
Proof.
  intros Hs. unfold provided. destruct (Z.ltb_spec 1024 size); [lia|]. intros _. unfold can_alloc.
  rewrite (proj2 heap1_ok). exists 12288, 8192. done.
Qed.

Lemma malloc_spec_witness : exists s' p n F', _malloc (inr heap1) 100 = Some (s', p) /\
  heap_ok (hd_of 4096) (tl_of 4096) s' F' /\ 100 <= n /\ (forall x, p <= x < p + n -> used (world s') x) /\
  (forall q m, live (arenas heap1) (fun _ => []) q m -> q <> p /\ (p + n <= q \/ q + m <= p)) /\
  (forall q m, live (arenas s') F' q m <-> (q = p /\ m = n) \/ live (arenas heap1) (fun _ => []) q m).
Proof.
  exact (malloc_spec (hd_of 4096) (tl_of 4096) heap1 (fun _ => []) 100 (proj1 heap1_ok)
    ltac:(lia) ltac:(lia) (provided1 100 ltac:(lia))).
Defined.

(** A block is obtained and given back. *)
Lemma free_spec_witness : exists s p F s' F', malloc_from heap1 100 = Some (s, p) /\ free s p = Some s' /\
  heap_ok (hd_of 4096) (tl_of 4096) s' F' /\
  forall q m, live (arenas s') F' q m <-> q <> p /\ live (arenas s) F q m.
Proof.
  destruct (malloc_small_ok (hd_of 4096) (tl_of 4096) heap1 (fun _ => []) 100 (proj1 heap1_ok) ltac:(lia)
    (provided1 100 ltac:(lia))) as (s & p & F & E & O & _ & V).
  destruct (free_spec (hd_of 4096) (tl_of 4096) munmap s F p (bs (cls 100)) O (or_intror eq_refl)
    (proj2 (V p (bs (cls 100))) (or_introl (conj eq_refl eq_refl)))) as (s' & F' & E' & O' & V').
  exists s, p, F, s', F'. exact (conj E (conj E' (conj O' V'))).
Defined.

(** A run, computed: the first two blocks of 128 bytes of a page are handed
    out, the first one is given back, and a large block gets its own pages. *)
Lemma malloc_run :
  ('(s, p) ← _malloc (inl 4096 : Z + malloc_state Z) 100;
   '(s, q) ← _malloc (inr s) 100;
   s ← free s p;
   '(s, big) ← _malloc (inr s) 5000;
   Some (p, q, big, free_cnt <$> arenas s !! 8192)) = Some (8204, 8332, 12300, Some 30).
Proof. by vm_compute. Qed.

(** The header is added to the request without a check: a request near the top
    of the address space is answered with one page. *)
Lemma malloc_wraps :
  ('(s, p) ← _malloc (inl 4096 : Z + malloc_state Z) 4294967290;
   Some (p, free_cnt <$> arenas s !! 8192, world s)) = Some (8204, Some 1, 12288).
Proof. by vm_compute. Qed.
