(* ===== verification/Ext2.v ===== *)
(** * The ext2 file system: kernel/fs/ext2.c

    Operations pass the device ([BlockDev]) and the descriptor read at mount
    time along; [None] is a fault: an access outside an object, a division by
    zero, or a loop that does not end.  An inode is its 128 bytes, so that an
    index behind [direct_blocks] meets the fields that follow it, as in the
    struct.  Buffers come zeroed from the heap, which does not answer NULL.
    [file->data] is a [file_data_t] passed beside the file. *)

From S2P Require Import Prelude CMath CString Bitmap Datetime Pktbuf Layout File Fat16.
From S2P Require Import Prelude.

(** ** Data on disk *)

Definition kb_size (s : Z) : Z := u32 (u32 (s + 1) * 1024).

Definition SECTOR_SIZE : Z := 512.
Definition DIRECT_BLOCK_COUNT : Z := 12.
Definition ROOT_INODE : Z := 2.
Definition INODE_SIZE : Z := 128.
Definition EXT2_SIGNATURE : Z := 61267.

(** The fields of the super block and its extension that the operations use. *)
Record super_block_t := SuperBlock
  { inode_total : Z; sb_unallocated_block_count : Z; block_size_kb : Z; inodes_per_group : Z;
    ext2_sig : Z; inode_size : Z }.

Record block_group_desc_t := Group
  { block_bitmap : Z; inode_bitmap : Z; inode_table : Z; unallocated_block_count : Z }.

Record ext2_desc := Desc { super_block : super_block_t; block_groups : list block_group_desc_t }.

Definition super_of_bytes (l : list Z) : option super_block_t :=
  it ← le32_of l 0; ub ← le32_of l 12; bk ← le32_of l 24; ig ← le32_of l 40; sg ← le16_at l 56;
  sz ← le16_at l 88;
  Some (SuperBlock it ub bk ig sg sz).

Definition GROUP_SIZE : Z := 32.
Definition group_of_bytes (l : list Z) (i : Z) : option block_group_desc_t :=
  bb ← le32_of l (GROUP_SIZE * i); ib ← le32_of l (GROUP_SIZE * i + 4);
  t ← le32_of l (GROUP_SIZE * i + 8); ub ← le16_at l (GROUP_SIZE * i + 12);
  Some (Group bb ib t ub).

(** Fields of an inode. *)
Definition inode_t : Type := list Z.
Definition type_permission (n : inode_t) : option Z := le16_at n 0.
Definition size0_31 (n : inode_t) : option Z := le32_of n 4.
Definition create_time (n : inode_t) : option Z := le32_of n 12.
Definition last_write_time (n : inode_t) : option Z := le32_of n 16.
Definition direct_blocks (n : inode_t) (i : Z) : option Z := le32_of n (40 + 4 * i).
Definition indirect_blocks (n : inode_t) (i : Z) : option Z := le32_of n (88 + 4 * i).
Definition set_size0_31 (n : inode_t) (v : Z) : option inode_t := mem_write n 4 (le32 v).
Definition set_direct_block (n : inode_t) (i v : Z) : option inode_t := mem_write n (40 + 4 * i) (le32 v).

(** What an open file remembers: its inode and the indirect blocks it has
    read.  The third level only ever reads its first block. *)
Record file_data_t := FileData
  { fd_inode : inode_t; fd_inode_idx : Z; first_indirect_blocks : option (list Z);
    second_indirect_idx : option (list Z); second_indirect_blocks : option (list (option (list Z)));
    third_indirect_idx1 : option (list Z) }.
Definition set_fd_inode (d : file_data_t) (n : inode_t) : file_data_t :=
  FileData n (fd_inode_idx d) (first_indirect_blocks d) (second_indirect_idx d) (second_indirect_blocks d)
    (third_indirect_idx1 d).

(** Kinds of directory entries. *)
Definition RegularFile : Z := 1.
Definition Directory : Z := 2.
Definition get_file_type (ty : Z) : Z :=
  if ty =? RegularFile then FILE_FILE else if ty =? Directory then FILE_DIR else FILE_UNKNOWN.

Section Ext2.
Context {W : Type} `{BlockDev W}.

(** ** Blocks *)

Definition block_read (w : W) (block_size : Z) (buf : list Z) (block_start block_count : Z)
    : option (Z * list Z * W) :=
  dev_read w (u32 (block_start * block_size) / SECTOR_SIZE) buf (u32 (block_count * block_size) / SECTOR_SIZE).
Definition block_write (w : W) (block_size : Z) (buf : list Z) (block_start block_count : Z)
    : option (Z * W) :=
  dev_write w (u32 (block_start * block_size) / SECTOR_SIZE) buf (u32 (block_count * block_size) / SECTOR_SIZE).

Definition zeroes (n : Z) : list Z := replicate (Z.to_nat n) 0.

(** The device is open.  Every failure leads to a cleanup that frees pointers
    which were not set yet, so that it has no defined outcome. *)
Definition ext2_mount (w : W) : option (ext2_desc * W) :=
  '(r, buf, w) ← dev_read w (1024 / SECTOR_SIZE) (zeroes 1024) (up2 1024 SECTOR_SIZE / SECTOR_SIZE);
  if r <? 1 then None
  else
    sb ← super_of_bytes buf;
    if negb (ext2_sig sb =? EXT2_SIGNATURE) then None
    else
      group_count ← cdiv (inode_total sb) (inodes_per_group sb);
      let bs := kb_size (block_size_kb sb) in
      let size := up2 (u32 (GROUP_SIZE * group_count)) bs in
      count ← cdiv size bs;
      '(r, buf, w) ← block_read w bs (zeroes size) 2 count;
      if r <? 0 then None
      else
        gs ← for_ (Z.to_nat group_count) 0 (fun i gs => g ← group_of_bytes buf i; Some (gs ++ [g])) [];
        Some (Desc sb gs, w).

(** ** Inodes *)

(** The group, the block and the offset in the block of an inode. *)
Definition inode_pos (d : ext2_desc) (inode_idx : Z) : option (Z * Z) :=
  let sb := super_block d in
  let idx := u32 (inode_idx - 1) in
  group_idx ← cdiv idx (inodes_per_group sb);
  idx ← cmod idx (inodes_per_group sb);
  let bs := kb_size (block_size_kb sb) in
  k ← cdiv (u32 (idx * inode_size sb)) bs;
  g ← zget (block_groups d) group_idx;
  off ← cmod (u32 (idx * inode_size sb)) bs;
  Some (u32 (k + inode_table g), off).

(** The error and the inode. *)
Definition rw_inode (w : W) (d : ext2_desc) (inode_idx : Z) (inode : inode_t) (write : bool)
    : option (Z * inode_t * W) :=
  let sb := super_block d in
  let bs := kb_size (block_size_kb sb) in
  '(blk, off) ← inode_pos d inode_idx;
  let buf_size := Z.max (inode_size sb) bs in
  '(r, buf, w) ← block_read w bs (zeroes buf_size) blk 1;
  if r <=? 0 then Some (-1, inode, w)
  else if write then
    data ← mem_read inode 0 (Z.min buf_size INODE_SIZE);
    buf ← mem_write buf off data;
    '(r, w) ← block_write w bs buf blk 1;
    Some (if r <=? 0 then -1 else 0, inode, w)
  else
    data ← mem_read buf off (Z.min buf_size INODE_SIZE);
    inode ← mem_write inode 0 data;
    Some (0, inode, w).

(** ** Directories *)

(** The entry at [off]: inode, size, length of the name, type; the name
    follows. *)
Definition DIR_ENTRY : Z := 8.
Definition e_inode (buf : list Z) (off : Z) : option Z := le32_of buf off.
Definition e_size (buf : list Z) (off : Z) : option Z := le16_at buf (off + 4).
Definition e_name_length (buf : list Z) (off : Z) : option Z := zget buf (off + 6).
Definition e_type (buf : list Z) (off : Z) : option Z := zget buf (off + 7).
Definition e_name (buf : list Z) (off : Z) : list Z := at_ptr buf (off + DIR_ENTRY).

(** The inode of the first entry called [name].  Behind the last entry the
    source reads [entry->inode] before it compares the offset; the value makes
    no difference.  An entry of size 0 is met again and again: otherwise
    [block_size] turns are enough. *)
Fixpoint scan_entries (fuel : nat) (block_size : Z) (buf : list Z) (off : Z) (name : mem)
    : option (option Z) :=
  match fuel with
  | O => None
  | S fuel' =>
      if off <? block_size then
        ino ← e_inode buf off;
        if ino =? 0 then Some None
        else
          name_len ← strlen name;
          len ← e_name_length buf off;
          same ← (if name_len =? len then r ← memcmp name (e_name buf off) (Z.min name_len len); Some (r =? 0)
                  else Some false);
          if (same : bool) then Some (Some ino)
          else sz ← e_size buf off; scan_entries fuel' block_size buf (off + sz) name
      else Some None
  end.

Fixpoint sub_loop (n : nat) (i : Z) (w : W) (d : ext2_desc) (parent : inode_t) (name : mem)
    (entries : list Z) (inode : inode_t) : option (Z * inode_t * W) :=
  match n with
  | O => Some (-1, inode, w)
  | S n' =>
      b ← direct_blocks parent i;
      if b =? 0 then Some (-1, inode, w)
      else
        let bs := kb_size (block_size_kb (super_block d)) in
        '(r, entries, w) ← block_read w bs entries b 1;
        if r <=? 0 then Some (-1, inode, w)
        else
          found ← scan_entries (S (Z.to_nat bs)) bs entries 0 name;
          match found with
          | None => sub_loop n' (i + 1) w d parent name entries inode
          | Some ino =>
              '(err, inode, w) ← rw_inode w d ino inode false;
              Some (if err =? 0 then i32 ino else err, inode, w)
          end
  end.

(** The number of the inode, or -1, and the inode. *)
Definition get_sub_inode (w : W) (d : ext2_desc) (parent : inode_t) (name : mem) (inode : inode_t)
    : option (Z * inode_t * W) :=
  sub_loop (Z.to_nat DIRECT_BLOCK_COUNT) 0 w d parent name
    (zeroes (kb_size (block_size_kb (super_block d)))) inode.

(** ** Opening *)

Definition extract_file (file : file_t) (inode : inode_t) : option file_t :=
  perm ← type_permission inode;
  let ty := if nz (Z.land perm 16384) then FILE_DIR
            else if nz (Z.land perm 32768) then FILE_FILE else FILE_UNKNOWN in
  sz ← size0_31 inode;
  Some (set_fsize (set_dev file (f_dev_id file) ty) sz).

Definition set_name (f : file_t) (v : list Z) : file_t :=
  File (f_desc f) (f_dev_id f) v (f_type f) (f_mode f) (f_ref f) (f_file_idx f) (f_size f)
    (f_pos f) (f_block_start f) (f_block_cur f) (f_node_sector_idx f).

(** [memcpy(file->name, str, strlen(str))]. *)
Definition copy_name (file : file_t) (str : mem) : option file_t :=
  n ← strlen str;
  bytes ← mem_read str 0 n;
  name ← mem_write (f_name file) 0 bytes;
  Some (set_name file name).

(** The walk along the words of the path; each turn consumes one.  [junk] is
    what the stack holds where [tmp] is. *)
Fixpoint open_loop (fuel : nat) (w : W) (d : ext2_desc) (path : mem) (str : option Z) (save : Z)
    (inode : inode_t) (inode_idx : Z) (file : file_t) (junk : inode_t)
    : option (Z * inode_t * Z * file_t * W) :=
  match fuel with
  | O => None
  | S fuel' =>
      match str with
      | None => Some (0, inode, inode_idx, file, w)
      | Some p =>
          file ← copy_name file (at_ptr path p);
          '(idx, tmp, w) ← get_sub_inode w d inode (at_ptr path p) junk;
          if idx <? 0 then Some (idx, inode, idx, file, w)
          else
            data ← mem_read tmp 0 INODE_SIZE;
            inode ← mem_write inode 0 data;
            '(path, save, str) ← strtok_r path None [47; 0] save;
            open_loop fuel' w d path str save inode idx file tmp
      end
  end.

(** [strcmp] answers 0 also when one string is a prefix of the other. *)
Definition is_root (path : mem) : option bool :=
  n ← strlen path;
  if n =? 0 then Some true
  else
    a ← strcmp path [47; 0]; if a =? 0 then Some true
    else b ← strcmp path [47; 46; 0]; if b =? 0 then Some true
    else c ← strcmp path [47; 46; 46; 0]; Some (c =? 0).

(** The error, the file, its data, and the device. *)
Definition ext2_open (w : W) (d : ext2_desc) (path : mem) (file : file_t) (junk : inode_t)
    : option (Z * file_t * option file_data_t * W) :=
  '(err, inode, w) ← rw_inode w d ROOT_INODE (zeroes (inode_size (super_block d))) false;
  if nz err then Some (err, file, None, w)
  else
    root ← is_root path;
    '(err, inode, idx, file, w) ←
      (if (root : bool) then
         name ← mem_write (f_name file) 0 [47];
         Some (0, inode, ROOT_INODE, set_name file name, w)
       else
         '(path, save, str) ← strtok_r path (Some 0) [47; 0] 0;
         open_loop (S (length path)) w d path str save inode ROOT_INODE file junk);
    if nz err then Some (err, file, None, w)
    else
      file ← extract_file file inode;
      let data := FileData inode (u32 idx) None None None None in
      let file := if nz (Z.land (f_mode file) O_APPEND) then set_pos file (f_size file) else file in
      Some (0, file, Some data, w).

(** ** Reading *)

(** Entry [i] of a block of addresses. *)
Definition addr_at (l : list Z) (i : Z) : option Z := le32_of l (4 * i).

(** An indirect block, read when it is needed for the first time; the result
    of the read is not looked at. *)
Definition cached_block (w : W) (bs : Z) (cache : option (list Z)) (addr : Z) : option (list Z * W) :=
  match cache with
  | Some l => Some (l, w)
  | None => '(_, l, w) ← block_read w bs (zeroes bs) addr 1; Some (l, w)
  end.

(** The address of block [i] of the file; -1, as an unsigned number, when
    there is none; nothing when the read stops with -1.  In the second level
    the index within a block is not reduced, and the third level is only
    begun. *)
Definition block_addr (w : W) (bs : Z) (fd : file_data_t) (i : Z) : option (option Z * file_data_t * W) :=
  let inode := fd_inode fd in
  if i <? DIRECT_BLOCK_COUNT then a ← direct_blocks inode i; Some (Some a, fd, w)
  else
    let n := bs / 4 in
    let idx := i - DIRECT_BLOCK_COUNT in
    i0 ← indirect_blocks inode 0; i1 ← indirect_blocks inode 1; i2 ← indirect_blocks inode 2;
    '(a, fd, w) ← (if (idx <? n) && (0 <? i0) then
                     '(l, w) ← cached_block w bs (first_indirect_blocks fd) i0;
                     a ← addr_at l idx;
                     Some (a, FileData inode (fd_inode_idx fd) (Some l) (second_indirect_idx fd)
                                (second_indirect_blocks fd) (third_indirect_idx1 fd), w)
                   else Some (4294967295, fd, w));
    let n2 := u32 (n * n) in
    let idx := i32 (idx - n) in
    '(a, fd, w) ← (if (0 <=? idx) && (idx <? n2) && (0 <? i1) then
                     let second_idx := idx / n in
                     '(l, w) ← cached_block w bs (second_indirect_idx fd) i1;
                     let blocks := default (replicate (Z.to_nat (bs / 4)) None) (second_indirect_blocks fd) in
                     e ← zget blocks second_idx;
                     addr ← addr_at l second_idx;
                     '(l2, w) ← cached_block w bs e addr;
                     blocks ← zset blocks second_idx (Some l2);
                     a ← addr_at l2 (idx mod n2);
                     Some (a, FileData inode (fd_inode_idx fd) (first_indirect_blocks fd) (Some l)
                                (Some blocks) (third_indirect_idx1 fd), w)
                   else Some (a, fd, w));
    let n3 := u32 (n2 * n) in
    let idx := i32 (idx - n2) in
    '(fd, w) ← (if (0 <=? idx) && (idx <? n3) then
                  '(l, w) ← cached_block w bs (third_indirect_idx1 fd) i2;
                  Some (FileData inode (fd_inode_idx fd) (first_indirect_blocks fd) (second_indirect_idx fd)
                          (second_indirect_blocks fd) (Some l), w)
                else Some (fd, w));
    if 0 <=? i32 (idx - n3) then Some (None, fd, w) else Some (Some a, fd, w).

(** A block with address 0 is skipped without moving on in the file.  The
    unsigned address is never below 0.  The result is that of the read that
    failed, or the number of bytes; the last component is the buffer. *)
Fixpoint read_blocks (fuel : nat) (w : W) (bs : Z) (i : Z) (file : file_t) (fd : file_data_t)
    (read_buf buf : list Z) (total size : Z) : option (Z * file_t * file_data_t * list Z * W) :=
  match fuel with
  | O => None
  | S fuel' =>
      if size =? 0 then Some (total, file, fd, buf, w)
      else
        '(a, fd, w) ← block_addr w bs fd i;
        match a with
        | None => Some (-1, file, fd, buf, w)
        | Some a =>
            if a =? 0 then read_blocks fuel' w bs (i + 1) file fd read_buf buf total size
            else
              let offset := f_pos file mod bs in
              '(r, read_buf, w) ← block_read w bs read_buf a 1;
              if r <=? 0 then Some (r, file, fd, buf, w)
              else
                let read_size := Z.min size (bs - offset) in
                bytes ← mem_read read_buf offset read_size;
                buf ← mem_write buf total bytes;
                read_blocks fuel' w bs (i + 1) (set_pos file (u32 (f_pos file + read_size))) fd read_buf buf
                  (total + read_size) (size - read_size)
        end
  end.

(** Each turn moves on by a block, and there are less than [n + n^2 + n^3 + 12]
    of them; [fuel] bounds the turns. *)
Definition ext2_read (fuel : nat) (w : W) (d : ext2_desc) (file : file_t) (fd : option file_data_t)
    (buf : list Z) (size : Z) : option (Z * file_t * option file_data_t * list Z * W) :=
  match fd, f_desc file with
  | Some fd, Some _ =>
      if negb (f_type file =? FILE_FILE) then Some (-1, file, Some fd, buf, w)
      else
        let bs := kb_size (block_size_kb (super_block d)) in
        let size := Z.min size (u32 (f_size file - f_pos file)) in
        if size =? 0 then Some (0, file, Some fd, buf, w)
        else
          i ← cdiv (f_pos file) bs;
          '(r, file, fd, buf, w) ← read_blocks fuel w bs i file fd (zeroes bs) buf 0 size;
          Some (r, file, Some fd, buf, w)
  | _, _ => Some (-1, file, fd, buf, w)
  end.

(** ** Writing *)

(** Search one by one; the blocks so far are in [blocks].  A block that could
    not be had ends the search when [must] is set. *)
Fixpoint alloc_loop (n : nat) (bm : bitmap_t) (must : bool) (start : Z) (blocks : list (option Z))
    : option (option (list (option Z))) :=
  match n with
  | O => Some (Some blocks)
  | S n' =>
      idx ← bitmap_scan bm 1;
      if 0 <=? idx then
        bm ← bitmap_set bm idx 1;
        alloc_loop n' bm must start (blocks ++ [Some (u32 (idx + start))])
      else if must then Some None
      else alloc_loop n' bm must start (blocks ++ [None])
  end.

(** The number of blocks, the blocks and the descriptor.  The bitmap is not
    written back. *)
Definition alloc_block (w : W) (d : ext2_desc) (count : Z) (must : bool)
    : option (Z * list (option Z) * ext2_desc * W) :=
  let sb := super_block d in
  g ← zget (block_groups d) 0;
  if unallocated_block_count g <? count then Some (0, [], d, w)
  else
    let bs := kb_size (block_size_kb sb) in
    '(_, bits, w) ← block_read w bs (zeroes bs) (block_bitmap g) 1;
    per_group ← cdiv (u32 (inodes_per_group sb * inode_size sb)) bs;
    let data_block_start := u32 (inode_table g + per_group + 1) in
    r ← alloc_loop (Z.to_nat count) (Bitmap bs bits) must data_block_start [];
    match r with
    | None => Some (0, [], d, w)
    | Some blocks =>
        let success := zlen (filter is_Some blocks) in
        gs ← zset (block_groups d) 0
               (Group (block_bitmap g) (inode_bitmap g) (inode_table g)
                  (u16 (unallocated_block_count g - success)));
        let sb := SuperBlock (inode_total sb) (u32 (sb_unallocated_block_count sb - success))
                    (block_size_kb sb) (inodes_per_group sb) (ext2_sig sb) (inode_size sb) in
        Some (success, blocks, Desc sb gs, w)
    end.

(** [inode->direct_blocks[block_start + i] = blocks[i]]. *)
Fixpoint store_blocks (blocks : list (option Z)) (i : Z) (inode : inode_t) : option inode_t :=
  match blocks with
  | [] => Some inode
  | b :: blocks' => a ← b; inode ← set_direct_block inode i a; store_blocks blocks' (i + 1) inode
  end.

(** Room for [size] bytes at the position of the file. *)
Definition expand (w : W) (d : ext2_desc) (file : file_t) (inode : inode_t) (size : Z)
    : option (inode_t * ext2_desc * W) :=
  let bs := kb_size (block_size_kb (super_block d)) in
  let alloc_size := i32 (f_pos file + size - up2 (f_size file) bs) in
  if 0 <? alloc_size then
    count ← cdiv (up2 alloc_size bs) bs;
    '(n, blocks, d, w) ← alloc_block w d count true;
    k ← cdiv (up2 (f_size file) bs) bs;
    inode ← (if n =? count then store_blocks blocks (k + 1) inode else Some inode);
    Some (inode, d, w)
  else Some (inode, d, w).

(** One block: it is read, changed and written back; the results of the
    transfers are not looked at.  [buf] is at its bytes from [all] on. *)
Definition write_block (w : W) (bs : Z) (file : file_t) (inode : inode_t) (buffer buf : list Z) (all size : Z)
    : option (file_t * inode_t * list Z * Z * W) :=
  let block_idx := f_pos file / bs in
  let block_offset := f_pos file mod bs in
  let write_size := Z.min (bs - block_offset) size in
  b ← direct_blocks inode block_idx;
  '(_, buffer, w) ← block_read w bs buffer b 1;
  bytes ← mem_read buf all write_size;
  buffer ← mem_write buffer block_offset bytes;
  b ← direct_blocks inode block_idx;
  '(_, w) ← block_write w bs buffer b 1;
  let file := set_pos file (u32 (f_pos file + write_size)) in
  let file := set_fsize file (Z.max (f_size file) (f_pos file)) in
  inode ← set_size0_31 inode (f_size file);
  Some (file, inode, buffer, write_size, w).

Fixpoint write_loop (fuel : nat) (w : W) (bs : Z) (file : file_t) (inode : inode_t) (buffer buf : list Z)
    (all size : Z) : option (file_t * inode_t * Z * W) :=
  match fuel with
  | O => None
  | S fuel' =>
      if size =? 0 then Some (file, inode, all, w)
      else
        '(file, inode, buffer, k, w) ← write_block w bs file inode buffer buf all size;
        write_loop fuel' w bs file inode buffer buf (all + k) (size - k)
  end.

(** The part before the loop, for a position inside a block, is one turn of
    the loop.  Every turn writes at least a byte. *)
Definition ext2_write (w : W) (d : ext2_desc) (file : file_t) (fd : option file_data_t) (buf : list Z) (size : Z)
    : option (Z * file_t * option file_data_t * ext2_desc * W) :=
  if nz (Z.land (f_mode file) O_RDONLY) then Some (-1, file, fd, d, w)
  else
    match fd with
    | None => Some (-1, file, fd, d, w)
    | Some fd =>
        let bs := kb_size (block_size_kb (super_block d)) in
        '(inode, d, w) ← expand w d file (fd_inode fd) size;
        block_offset ← cmod (f_pos file) bs;
        '(file, inode, buffer, all, w) ←
          (if nz block_offset then write_block w bs file inode (zeroes bs) buf 0 size
           else Some (file, inode, zeroes bs, 0, w));
        '(file, inode, all, w) ← write_loop (S (Z.to_nat size)) w bs file inode buffer buf all (size - all);
        let fd := set_fd_inode fd inode in
        '(err, _, w) ← rw_inode w d (fd_inode_idx fd) inode true;
        Some (if nz err then err else all, file, Some fd, d, w)
    end.

(** ** The other operations *)

(** [pos + offset] is computed in 32 bits; [sizeof] is taken for a number of
    bits, and [SEEK_END] has no [break]. *)
Definition ext2_seek (file : file_t) (offset whence : Z) : Z * file_t :=
  if whence =? SEEK_SET then
    let offset := Z.max offset 0 in
    (i32 (u32 offset - f_pos file), set_pos file (u32 offset))
  else if whence =? SEEK_CUR then
    let pos := u32 (f_pos file + offset) in
    if Z.shiftl 1 4 <=? pos then (EOVERFLOW, file)
    else (i32 (pos - f_pos file), set_pos file pos)
  else if whence =? SEEK_END then (EINVAL, set_pos file (u32 (f_size file + offset)))
  else (EINVAL, file).

Definition ext2_stat (d : ext2_desc) (file : file_t) (fd : option file_data_t) : option (Z * option stat_t) :=
  match fd, f_desc file with
  | Some fd, Some _ =>
      n ← for_ (Z.to_nat DIRECT_BLOCK_COUNT) 0 (fun i n =>
            b ← direct_blocks (fd_inode fd) i; Some (if 0 <? b then n + 1 else n)) 0;
      c ← create_time (fd_inode fd);
      u ← last_write_time (fd_inode fd);
      Some (0, Some (Stat (f_size file) (kb_size (block_size_kb (super_block d))) n
                       (Some (Timespec c 0, u))))
  | _, _ => Some (-1, None)
  end.

(** The entry with number [target] of a block, counting from 0, or the last
    one: its number and offset. *)
Fixpoint nth_entry (n : nat) (bs : Z) (buf : list Z) (file_idx target off : Z) : option (Z * Z) :=
  match n with
  | O => Some (file_idx, off)
  | S n' =>
      if file_idx <? target then
        sz ← e_size buf off;
        if off + sz <? bs then nth_entry n' bs buf (file_idx + 1) target (off + sz)
        else Some (file_idx, off)
      else Some (file_idx, off)
  end.

Fixpoint readdir_blocks (n : nat) (i : Z) (w : W) (d : ext2_desc) (inode : inode_t) (entries : list Z)
    (dirent : dirent_t) : option (Z * dirent_t * W) :=
  match n with
  | O => Some (-1, dirent, w)
  | S n' =>
      b ← direct_blocks inode i;
      if b =? 0 then Some (-1, dirent, w)
      else
        let bs := kb_size (block_size_kb (super_block d)) in
        '(r, entries, w) ← block_read w bs entries b 1;
        if r <=? 0 then Some (-1, dirent, w)
        else
          let offset := de_offset dirent in
          '(file_idx, off) ← nth_entry (Z.to_nat offset) bs entries 0 offset 0;
          if file_idx =? offset then
            ty ← e_type entries off;
            len ← e_name_length entries off;
            bytes ← mem_read (e_name entries off) 0 (Z.min 64 len);
            name ← mem_write (zeroes 64) 0 bytes;
            ino ← e_inode entries off;
            '(_, child, w) ← rw_inode w d ino (zeroes INODE_SIZE) false;
            sz ← size0_31 child;
            Some (0, Dirent (i32 (offset + 1)) name (get_file_type ty) sz (de_child_count dirent), w)
          else readdir_blocks n' (i + 1) w d inode entries dirent
  end.

(** The error and the entry, whose [offset] says which one is asked for. *)
Definition ext2_readdir (w : W) (d : ext2_desc) (dir : file_t) (fd : option file_data_t) (data : option dirent_t)
    : option (Z * option dirent_t * W) :=
  match fd, f_desc dir, data with
  | Some fd, Some _, Some dirent =>
      if negb (f_type dir =? FILE_DIR) then Some (-1, data, w)
      else
        '(r, dirent, w) ← readdir_blocks (Z.to_nat DIRECT_BLOCK_COUNT) 0 w d (fd_inode fd)
                            (zeroes (kb_size (block_size_kb (super_block d)))) dirent;
        Some (r, Some dirent, w)
  | _, _, _ => Some (-1, data, w)
  end.

End Ext2.
