(* ===== verification/Ext2Spec.v ===== *)
(** * Properties of ext2: inodes, file contents, directories

    For volumes with blocks of 1 KiB, the only size whose transfers the disk
    driver gets right, over any device that keeps the promise [BlockDevOk]. *)

From S2P Require Import Prelude CMath CString Bitmap Datetime Pktbuf PktbufSpec PktbufAccess Layout LinkSpec.
From S2P Require Import Disk File Fat16 Fat16Spec Ext2.
From S2P Require Import Prelude.

(** ** Numbers in memory *)

Lemma zget_splice_after l off bs j : 0 <= off -> off + zlen bs <= zlen l -> off + zlen bs <= j ->
  zget (splice l off bs) j = zget l j.
Proof.
  intros Ho Hl Hj. pose proof (zlen_nonneg bs). unfold zget. destruct (Z.ltb_spec j 0); [done|].
  unfold splice, zlen in *. rewrite lookup_app_r by (rewrite length_take; lia).
  rewrite lookup_app_r by (rewrite length_take; lia). rewrite lookup_drop, length_take. f_equal. lia.
Qed.

Lemma zget_splice_in l off bs k : 0 <= off -> off + zlen bs <= zlen l -> 0 <= k < zlen bs ->
  zget (splice l off bs) (off + k) = zget bs k.
Proof.
  intros Ho Hl Hk. unfold zget. destruct (Z.ltb_spec (off + k) 0), (Z.ltb_spec k 0); try lia.
  unfold splice, zlen in *. rewrite lookup_app_r by (rewrite length_take; lia).
  rewrite lookup_app_l by (rewrite length_take; lia). rewrite length_take. f_equal. lia.
Qed.

Lemma le32_of_after l off bs j : 0 <= off -> off + zlen bs <= zlen l -> off + zlen bs <= j ->
  le32_of (splice l off bs) j = le32_of l j.
Proof. intros. unfold le32_of, le16_at. by rewrite !zget_splice_after by lia. Qed.

Lemma zlen_le32 v : zlen (le32 v) = 4.
Proof. done. Qed.

Lemma le32_of_in l off v : 0 <= off -> off + 4 <= zlen l -> 0 <= v < 4294967296 ->
  le32_of (splice l off (le32 v)) off = Some v.
Proof.
  intros Ho Hl Hv. unfold le32_of, le16_at. rewrite <- (Z.add_0_r off) at 2.
  replace (off + 2 + 1) with (off + 3) by lia. rewrite !zget_splice_in by (rewrite ?zlen_le32; lia).
  change (zget (le32 v) 0) with (Some (u8 v)). change (zget (le32 v) 1) with (Some (u8 (Z.shiftr v 8))).
  change (zget (le32 v) 2) with (Some (u8 (Z.shiftr v 16))).
  change (zget (le32 v) 3) with (Some (u8 (Z.shiftr (Z.shiftr v 16) 8))). mstep. f_equal.
  unfold of_le16, u8. rewrite !Z.shiftr_div_pow2 by lia. change (2 ^ 8) with 256. change (2 ^ 16) with 65536.
  divmod.
Qed.

Section Ext2Ok.
Context {W : Type} `{BlockDev W} (sector : W -> Z -> option (list Z)) `{!BlockDevOk W 512 sector}.

(** ** Blocks *)

Definition blk (w : W) (b : Z) : option (list Z) :=
  s1 ← sector w (2 * b); s2 ← sector w (2 * b + 1); Some (s1 ++ s2).

Definition valid (b : Z) : Prop := 0 <= b < 4194304.

Lemma blk_len w b data : blk w b = Some data -> zlen data = 1024.
Proof.
  unfold blk. intros (s1 & E1 & E)%bind_Some. apply bind_Some in E as (s2 & E2 & [= <-]).
  apply sector_len in E1, E2. rewrite zlen_app. lia.
Qed.

Lemma blk_sectors w b data : blk w b = Some data -> forall k, 0 <= k < 2 ->
  sector w (2 * b + k) = Some (sub data (512 * k) 512).
Proof.
  unfold blk. intros (s1 & E1 & E)%bind_Some. apply bind_Some in E as (s2 & E2 & [= <-]).
  pose proof (sector_len _ _ _ E1). pose proof (sector_len _ _ _ E2). intros k Hk.
  assert (k = 0 \/ k = 1) as [->| ->] by lia.
  - rewrite Z.add_0_r, E1. f_equal. unfold sub. change (Z.to_nat (512 * 0)) with 0%nat.
    rewrite drop_0, take_app_le by (unfold zlen in *; lia). symmetry. apply take_ge. unfold zlen in *; lia.
  - rewrite E2. f_equal. unfold sub. rewrite drop_app_ge by (unfold zlen in *; lia).
    replace (Z.to_nat (512 * 1) - length s1)%nat with 0%nat by (unfold zlen in *; lia).
    rewrite drop_0. symmetry. apply take_ge. unfold zlen in *. lia.
Qed.

Lemma blk_of_sectors w b data : zlen data = 1024 ->
  (forall k, 0 <= k < 2 -> sector w (2 * b + k) = Some (sub data (512 * k) 512)) -> blk w b = Some data.
Proof.
  intros Hl Hs. unfold blk. rewrite <- (Z.add_0_r (2 * b)) at 1.
  rewrite (Hs 0), (Hs 1) by lia. mstep. f_equal. unfold sub. change (Z.to_nat (512 * 0)) with 0%nat.
  change (512 * 1) with 512. rewrite drop_0. rewrite <- (take_drop (Z.to_nat 512) data) at 3. f_equal. apply take_ge. rewrite length_drop. unfold zlen in *. lia.
Qed.

Lemma blk_addr b : valid b -> u32 (b * 1024) / SECTOR_SIZE = 2 * b /\ u32 (1 * 1024) / SECTOR_SIZE = 2.
Proof.
  intros Hb. unfold valid in Hb. rewrite u32_small by lia. split; [|done]. unfold SECTOR_SIZE.
  replace (b * 1024) with (2 * b * 512) by lia. by rewrite Z.div_mul.
Qed.

Lemma block_read_blk w b data buf : valid b -> blk w b = Some data -> zlen buf = 1024 ->
  block_read w 1024 buf b 1 = Some (2, data, w).
Proof.
  intros Hb Hd Hl. unfold block_read. destruct (blk_addr b Hb) as [-> ->].
  pose proof (blk_sectors _ _ _ Hd) as Hs.
  destruct (dev_read_ok w (2 * b) buf 2) as (l & -> & Hll & Hsec); [lia| |lia|].
  { intros k Hk. rewrite Hs by done. by eexists. }
  rewrite splice_all by (unfold zlen in *; lia). do 3 f_equal.
  assert (blk w b = Some l) as E by (apply blk_of_sectors; [lia|done]). congruence.
Qed.

Lemma block_write_blk w b buf : valid b -> is_Some (blk w b) -> zlen buf = 1024 ->
  exists w', block_write w 1024 buf b 1 = Some (2, w') /\ blk w' b = Some buf /\
    forall b', b' <> b -> blk w' b' = blk w b'.
Proof.
  intros Hb [data Hd] Hl. unfold block_write. destruct (blk_addr b Hb) as [-> ->].
  pose proof (blk_sectors _ _ _ Hd) as Hs.
  destruct (dev_write_ok w (2 * b) buf 2) as (w' & -> & Hsec & Ho); [lia| |lia|].
  { intros k Hk. rewrite Hs by done. by eexists. }
  exists w'. split; [done|]. split; [by apply blk_of_sectors|]. intros b' Hne. unfold blk.
  by rewrite !Ho by lia.
Qed.

(** ** Inodes *)

Context (d : ext2_desc) (Hbs : kb_size (block_size_kb (super_block d)) = 1024)
  (His : 0 <= inode_size (super_block d) <= 1024).

(** The slot of an inode, in a block of the device. *)
Record slot (w : W) (idx b off : Z) (data : list Z) : Prop := {
  sl_pos : inode_pos d idx = Some (b, off);
  sl_valid : valid b;
  sl_off : 0 <= off /\ off + 128 <= 1024;
  sl_blk : blk w b = Some data;
}.

Lemma zlen_zeroes n : 0 <= n -> zlen (zeroes n) = n.
Proof. intros Hn. unfold zlen, zeroes. rewrite length_replicate. lia. Qed.

Lemma inode_buf : Z.max (inode_size (super_block d)) 1024 = 1024 /\ Z.min 1024 INODE_SIZE = 128.
Proof. unfold INODE_SIZE. lia. Qed.

Lemma rw_inode_read w idx b off data inode : slot w idx b off data -> zlen inode = 128 ->
  rw_inode w d idx inode false = Some (0, sub data off 128, w).
Proof.
  intros [P V [O1 O2] B] Hl. unfold rw_inode. rewrite P, Hbs, (proj1 inode_buf). mstep.
  pose proof (blk_len _ _ _ B) as Hd. rewrite (block_read_blk w b data) by (done || by apply zlen_zeroes). mstep.
  change (2 <=? 0) with false. rewrite (proj2 inode_buf).
  rewrite mem_read_fits by lia. mstep.
  assert (zlen (sub data off 128) = 128) as Hs by (apply zlen_sub; lia).
  rewrite mem_write_fits by lia. mstep. by rewrite splice_all by (unfold zlen in *; lia).
Qed.

Lemma rw_inode_write w idx b off data inode : slot w idx b off data -> zlen inode = 128 ->
  exists w', rw_inode w d idx inode true = Some (0, inode, w') /\
    blk w' b = Some (splice data off inode) /\ forall b', b' <> b -> blk w' b' = blk w b'.
Proof.
  intros [P V [O1 O2] B] Hl. unfold rw_inode. rewrite P, Hbs, (proj1 inode_buf). mstep.
  pose proof (blk_len _ _ _ B) as Hd. rewrite (block_read_blk w b data) by (done || by apply zlen_zeroes). mstep.
  change (2 <=? 0) with false. rewrite (proj2 inode_buf).
  rewrite (mem_read_all inode 128 Hl). mstep. rewrite mem_write_fits by lia. mstep.
  destruct (block_write_blk w b (splice data off inode)) as (w' & -> & E & Ho);
    [done|by rewrite B|rewrite zlen_splice; lia|].
  mstep. by exists w'.
Qed.

(** An inode written with [rw_inode] is the one read back, and every other
    inode, in the same block or another one, reads as before. *)
Theorem rw_inode_roundtrip w idx b off data inode : slot w idx b off data -> zlen inode = 128 ->
  exists w', rw_inode w d idx inode true = Some (0, inode, w') /\
    (forall x, zlen x = 128 -> rw_inode w' d idx x false = Some (0, inode, w')) /\
    (forall idx' b' off' data' x, slot w idx' b' off' data' -> zlen x = 128 ->
       b' <> b \/ off' + 128 <= off \/ off + 128 <= off' ->
       rw_inode w' d idx' x false = Some (0, sub data' off' 128, w')).
Proof.
  intros S Hl. destruct (rw_inode_write w idx b off data inode S Hl) as (w' & E & Eb & Eo).
  pose proof S as [P V [O1 O2] B]. pose proof (blk_len _ _ _ B) as Hd.
  exists w'. split; [done|]. split.
  - intros x Hx. rewrite (rw_inode_read w' idx b off (splice data off inode) x) by done.
    rewrite <- Hl at 1. by rewrite sub_splice_same by lia.
  - intros idx' b' off' data' x [P' V' [O1' O2'] B'] Hx Hne. destruct (decide (b' = b)) as [->|Hb].
    + assert (data' = data) as -> by congruence.
      rewrite (rw_inode_read w' idx' b off' (splice data off inode) x) by done. do 3 f_equal.
      destruct Hne as [?|[?|?]]; [done|apply sub_splice_before; lia|apply sub_splice_after; lia].
    + rewrite (rw_inode_read w' idx' b' off' data' x); [done| |done]. split; try done. by rewrite Eo.
Qed.

(** ** Contents of a file *)

(** The direct blocks of the inode hold [xs], a whole number [k] of blocks. *)
Record holds (w : W) (inode : inode_t) (k : Z) (xs : list Z) : Prop := {
  ho_count : 0 <= k <= 12;
  ho_len : zlen xs = 1024 * k;
  ho_blk : forall i, 0 <= i < k -> exists b, direct_blocks inode i = Some b /\ 0 < b /\ valid b /\
    blk w b = Some (sub xs (1024 * i) 1024);
}.

Lemma block_addr_direct w fd i b : i < 12 -> direct_blocks (fd_inode fd) i = Some b ->
  block_addr w 1024 fd i = Some (Some b, fd, w).
Proof. intros Hi E. unfold block_addr, DIRECT_BLOCK_COUNT. apply Z.ltb_lt in Hi as ->. by rewrite E. Qed.

Lemma set_pos_again f a b : set_pos (set_pos f a) b = set_pos f b.
Proof. done. Qed.
Lemma set_pos_same f : set_pos f (f_pos f) = f.
Proof. by destruct f. Qed.

(** What one block contributes, and where the next one starts. *)
Lemma block_step pos size : 0 <= pos -> 0 < size -> let n := Z.min size (1024 - pos mod 1024) in
  0 < n <= size /\ 0 <= pos mod 1024 /\ pos mod 1024 + n <= 1024 /\ pos = 1024 * (pos / 1024) + pos mod 1024 /\
  (n < size -> (pos + n) / 1024 = pos / 1024 + 1).
Proof.
  intros Hp Hs n. pose proof (Z.div_mod pos 1024). pose proof (Z.mod_pos_bound pos 1024).
  split_and!; try lia. intros Hn. replace (pos + n) with ((pos / 1024 + 1) * 1024) by lia. by rewrite Z.div_mul.
Qed.

Lemma read_blocks_ok w inode k xs : holds w inode k xs -> forall fuel i file fd rb buf total size,
  fd_inode fd = inode -> 0 <= f_pos file -> 0 <= size -> f_pos file + size <= zlen xs -> zlen rb = 1024 ->
  0 <= total -> total + size <= zlen buf -> (0 < size -> i = f_pos file / 1024) -> i <= k ->
  k - i < Z.of_nat fuel ->
  read_blocks fuel w 1024 i file fd rb buf total size
  = Some (total + size, set_pos file (f_pos file + size), fd, splice buf total (sub xs (f_pos file) size), w).
Proof.
  intros [Hk Hlen Hblk]. induction fuel as [|fuel IH]; [lia|].
  intros i file fd rb buf total size Hfd Hp Hs Hps Hrb Ht Hts Hi Hik Hf. cbn [read_blocks].
  destruct (Z.eqb_spec size 0) as [->|Hs0].
  { rewrite !Z.add_0_r, set_pos_same. do 3 f_equal. unfold sub. rewrite take_0, splice_nil by lia. done. }
  destruct (block_step (f_pos file) size) as (N1 & N0 & N2 & N3 & N4); [lia..|].
  specialize (Hi ltac:(lia)). rewrite <- Hi in N3, N4. set (n := Z.min size (1024 - f_pos file mod 1024)) in *.
  destruct (Hblk i) as (b & Eb & Hb0 & Hv & EB); [lia|].
  rewrite (block_addr_direct w fd i b) by (rewrite ?Hfd; done || lia). mstep.
  destruct (Z.eqb_spec b 0); [lia|]. rewrite (block_read_blk w b (sub xs (1024 * i) 1024)) by done. mstep.
  change (2 <=? 0) with false. cbn [negb]. fold n.
  assert (zlen (sub xs (1024 * i) 1024) = 1024) as Hsl by (apply zlen_sub; lia).
  rewrite mem_read_fits by lia. mstep.
  assert (sub (sub xs (1024 * i) 1024) (f_pos file mod 1024) n = sub xs (f_pos file) n) as Esub.
  { rewrite N3 at 2. unfold sub. rewrite skipn_firstn_comm, drop_drop, take_take. f_equal; [lia|f_equal; lia]. }
  rewrite Esub. assert (zlen (sub xs (f_pos file) n) = n) as Hn by (apply zlen_sub; lia).
  rewrite mem_write_fits by lia. mstep.
  rewrite (IH (i + 1) _ fd _ _ (total + n) (size - n)); try done; cbn [f_pos set_pos].
  - rewrite u32_small by lia. rewrite set_pos_again.
    replace (total + n + (size - n)) with (total + size) by lia.
    replace (f_pos file + n + (size - n)) with (f_pos file + size) by lia. do 3 f_equal.
    replace (sub xs (f_pos file) size) with (sub xs (f_pos file) n ++ sub xs (f_pos file + n) (size - n))
      by (rewrite sub_app by lia; f_equal; lia).
    rewrite <- (splice_splice buf total) by (rewrite ?Hn, ?zlen_sub; lia). by rewrite Hn.
  - rewrite u32_small; lia.
  - lia.
  - rewrite u32_small; lia.
  - lia.
  - rewrite zlen_splice; lia.
  - intros Hr. rewrite u32_small by lia. symmetry. rewrite N4; lia.
  - destruct (Z.ltb_spec n size); [|nia]. specialize (N4 ltac:(lia)).
    assert ((f_pos file + n) / 1024 < k); [apply Z.div_lt_upper_bound; lia|lia].
  - lia.
Qed.

Lemma ext2_read_ok w inode k xs fuel file fd buf size ds : holds w inode k xs -> fd_inode fd = inode ->
  f_type file = FILE_FILE -> f_desc file = Some ds -> 0 <= f_pos file <= f_size file -> f_size file <= zlen xs ->
  let n := Z.min size (f_size file - f_pos file) in
  0 <= size -> n <= zlen buf -> (13 < fuel)%nat ->
  ext2_read fuel w d file (Some fd) buf size
  = Some (n, set_pos file (f_pos file + n), Some fd, splice buf 0 (sub xs (f_pos file) n), w).
Proof.
  intros Hh Hfd Hty Hds Hp Hsz n Hs Hb Hf. pose proof Hh as [Hk Hlen _].
  unfold ext2_read. rewrite Hds, Hty, Hbs, Z.eqb_refl. cbn [negb].
  rewrite u32_small by lia. fold n. destruct (Z.eqb_spec n 0) as [->|Hn].
  { rewrite Z.add_0_r, set_pos_same. unfold sub. rewrite take_0, splice_nil; [done|].
    pose proof (zlen_nonneg buf). lia. }
  unfold cdiv. cbn [Z.eqb]. mstep.
  assert (f_pos file / 1024 < k) by (apply Z.div_lt_upper_bound; lia).
  pose proof (Z.div_pos (f_pos file) 1024).
  rewrite (read_blocks_ok w inode k xs Hh); try done; try lia.
Qed.

(** ** Writing inside a file *)

Definition distinct (inode : inode_t) (k : Z) : Prop := forall i j b, 0 <= i < k -> 0 <= j < k ->
  direct_blocks inode i = Some b -> direct_blocks inode j = Some b -> i = j.
(** No data block of the file. *)
Definition foreign (inode : inode_t) (k b : Z) : Prop := forall i, 0 <= i < k -> direct_blocks inode i <> Some b.

Lemma set_size_ok inode v : zlen inode = 128 -> 0 <= v < 4294967296 -> exists inode',
  set_size0_31 inode v = Some inode' /\ zlen inode' = 128 /\ size0_31 inode' = Some v /\
  forall i, 0 <= i -> direct_blocks inode' i = direct_blocks inode i.
Proof.
  intros Hl Hv. unfold set_size0_31. rewrite mem_write_fits by (rewrite ?zlen_le32; lia). eexists. split; [done|]. split_and!.
  - by rewrite zlen_splice by (rewrite ?zlen_le32; lia).
  - apply le32_of_in; lia.
  - intros i Hi. apply le32_of_after; rewrite ?zlen_le32; lia.
Qed.

Lemma splice_sub l off bs o n : 0 <= o <= off -> off + zlen bs <= o + n -> o + n <= zlen l ->
  splice (sub l o n) (off - o) bs = sub (splice l off bs) o n.
Proof.
  intros Ho Hn Hl. pose proof (zlen_nonneg bs). rewrite sub_splice by lia. unfold splice.
  f_equal; [|f_equal].
  - unfold sub. rewrite take_take. f_equal. lia.
  - unfold sub. rewrite skipn_firstn_comm, drop_drop. f_equal; [unfold zlen; lia|f_equal; unfold zlen in *; lia].
Qed.

(** The state after [n] bytes were written: [inode'], [w'] and the contents. *)
Record wrote (w : W) (inode : inode_t) (k : Z) (w' : W) (inode' : inode_t) (size : Z) (xs : list Z) : Prop := {
  wr_holds : holds w' inode' k xs;
  wr_blocks : forall i, 0 <= i -> direct_blocks inode' i = direct_blocks inode i;
  wr_len : zlen inode' = 128;
  wr_size : size0_31 inode' = Some size;
  wr_other : forall b, foreign inode k b -> blk w' b = blk w b;
}.

Lemma write_block_ok w inode k xs file buffer buf all size : holds w inode k xs -> distinct inode k ->
  zlen inode = 128 -> 0 <= f_pos file -> 0 < size -> f_pos file + size <= zlen xs -> zlen buffer = 1024 ->
  0 <= all -> all + size <= zlen buf -> 0 <= f_size file <= zlen xs ->
  let n := Z.min size (1024 - f_pos file mod 1024) in
  let sz := Z.max (f_size file) (f_pos file + n) in
  exists inode' buffer' w',
    write_block w 1024 file inode buffer buf all size
    = Some (set_fsize (set_pos file (f_pos file + n)) sz, inode', buffer', n, w') /\
    zlen buffer' = 1024 /\ wrote w inode k w' inode' sz (splice xs (f_pos file) (sub buf all n)).
Proof.
  intros [Hk Hlen Hblk] Hd Hil Hp Hs Hps Hb Ha Hab Hfs n sz.
  destruct (block_step (f_pos file) size) as (N1 & N0 & N2 & N3 & N4); [lia..|]. fold n in N1, N2, N4.
  set (i := f_pos file / 1024) in *. assert (0 <= i < k) as Hi by lia.
  destruct (Hblk i Hi) as (b & Eb & Hb0 & Hv & EB).
  unfold write_block. fold i. rewrite (Z.min_comm (1024 - _)). fold n. rewrite Eb. mstep.
  rewrite (block_read_blk w b (sub xs (1024 * i) 1024)) by done. mstep.
  assert (zlen (sub xs (1024 * i) 1024) = 1024) as Hsl by (apply zlen_sub; lia).
  rewrite mem_read_fits by lia. mstep. assert (zlen (sub buf all n) = n) as Hn by (apply zlen_sub; lia).
  rewrite mem_write_fits by lia. mstep.
  destruct (block_write_blk w b (splice (sub xs (1024 * i) 1024) (f_pos file mod 1024) (sub buf all n)))
    as (w' & -> & Ew & Eo); [done|by rewrite EB|rewrite zlen_splice; lia|].
  mstep. cbn [f_pos f_size set_pos]. rewrite u32_small by lia. fold sz.
  destruct (set_size_ok inode sz) as (inode' & Einode & Hl' & Esz & Edir); [done|cbn; lia|].
  cbn. rewrite Einode. mstep. eexists inode', _, w'. split; [done|]. split; [rewrite zlen_splice; lia|].
  split; try done.
  - split; [done|rewrite zlen_splice; lia|]. intros j Hj. destruct (Hblk j Hj) as (bj & Ej & Hj0 & Hjv & EBj).
    exists bj. rewrite Edir by lia. split_and!; try done; [apply Hjv..|]. destruct (decide (j = i)) as [->|Hne].
    + assert (bj = b) as -> by congruence. rewrite Ew. f_equal.
      replace (f_pos file mod 1024) with (f_pos file - 1024 * i) by lia. apply splice_sub; lia.
    + rewrite Eo by (intros ->; apply Hne; by eapply Hd). rewrite EBj. f_equal. symmetry.
      destruct (Z.ltb_spec j i); [apply sub_splice_before; lia|apply sub_splice_after; lia].
  - intros b' Hf. apply Eo. intros ->. by apply (Hf i Hi).
Qed.

(** Writing goes on where it stopped. *)
Lemma wrote_trans w inode k w1 inode1 w2 inode2 s1 s2 xs1 xs2 : wrote w inode k w1 inode1 s1 xs1 ->
  wrote w1 inode1 k w2 inode2 s2 xs2 -> wrote w inode k w2 inode2 s2 xs2.
Proof.
  intros [H1 B1 L1 S1 O1] [H2 B2 L2 S2 O2]. split; try done.
  - intros i Hi. by rewrite B2, B1.
  - intros b Hf. rewrite O2, O1; [done..|]. intros i Hi. rewrite B1 by lia. by apply Hf.
Qed.

Lemma distinct_wrote w inode k w' inode' sz xs : wrote w inode k w' inode' sz xs -> distinct inode k ->
  distinct inode' k.
Proof. intros [_ B _ _ _] Hd i j b Hi Hj. rewrite !B by lia. by apply Hd. Qed.

Lemma ext2_write_loop_ok fuel : forall w inode k xs file buffer buf all size, holds w inode k xs ->
  distinct inode k -> zlen inode = 128 -> size0_31 inode = Some (f_size file) ->
  0 <= f_pos file -> 0 <= size -> f_pos file + size <= zlen xs ->
  zlen buffer = 1024 -> 0 <= all -> all + size <= zlen buf -> f_pos file <= f_size file <= zlen xs ->
  size < Z.of_nat fuel -> let sz := Z.max (f_size file) (f_pos file + size) in
  exists inode' w', write_loop fuel w 1024 file inode buffer buf all size
    = Some (set_fsize (set_pos file (f_pos file + size)) sz, inode', all + size, w') /\
    wrote w inode k w' inode' sz (splice xs (f_pos file) (sub buf all size)).
Proof.
  induction fuel as [|fuel IH]; [lia|]. intros w inode k xs file buffer buf all size Hh Hd Hl Hz Hp Hs Hps Hb Ha
    Hab Hfs Hf sz. cbn [write_loop]. destruct (Z.eqb_spec size 0) as [->|Hne].
  { exists inode, w. unfold sz. rewrite !Z.add_0_r, Z.max_l by lia.
    replace (sub buf all 0) with (@nil Z) by (unfold sub; by rewrite take_0). rewrite splice_nil by lia.
    split; [by destruct file|by split]. }
  destruct (write_block_ok w inode k xs file buffer buf all size) as (inode1 & buffer1 & w1 & -> & Hb1 & R1);
    [try done; lia..|]. mstep.
  destruct (block_step (f_pos file) size) as (N1 & N0 & N2 & _); [lia..|].
  set (n := Z.min size (1024 - f_pos file mod 1024)) in *.
  pose proof (zlen_sub buf all n ltac:(lia) ltac:(lia) ltac:(lia)) as Hn.
  assert (zlen (splice xs (f_pos file) (sub buf all n)) = zlen xs) as Hx by (apply zlen_splice; lia).
  edestruct (IH w1 inode1 k (splice xs (f_pos file) (sub buf all n))) as (inode2 & w2 & E2 & R2);
    [| | | | | | | | | | | |rewrite E2]; cbn [f_pos f_size set_fsize set_pos] in *.
  - apply R1.
  - by eapply distinct_wrote.
  - apply R1.
  - apply R1.
  - lia.
  - lia.
  - lia.
  - done.
  - lia.
  - lia.
  - lia.
  - lia.
  - exists inode2, w2.
    replace (f_pos file + n + (size - n)) with (f_pos file + size) in * by lia.
    replace (all + n + (size - n)) with (all + size) by lia.
    replace (Z.max (Z.max (f_size file) (f_pos file + n)) (f_pos file + size)) with sz in * by lia.
    split; [done|]. refine (eq_rect _ (wrote w inode k w2 inode2 sz) (wrote_trans _ _ _ _ _ _ _ _ _ _ _ R1 R2) _ _).
    replace (f_pos file + n) with (f_pos file + zlen (sub buf all n)) by lia.
    rewrite splice_splice by (rewrite ?Hn, ?zlen_sub; lia). f_equal. rewrite sub_app by lia. f_equal. lia.
Qed.

(** The data of [size] bytes, whatever the offset of the first. *)
Lemma write_data_ok w inode k xs file buf size : holds w inode k xs ->
  distinct inode k -> zlen inode = 128 -> size0_31 inode = Some (f_size file) ->
  0 < size -> f_pos file + size <= zlen xs -> size <= zlen buf -> 0 <= f_pos file <= f_size file -> f_size file <= zlen xs ->
  let sz := Z.max (f_size file) (f_pos file + size) in
  exists inode' w', (
    '(file, inode, buffer, all, w) ←
       (if nz (f_pos file mod 1024) then write_block w 1024 file inode (zeroes 1024) buf 0 size
        else Some (file, inode, zeroes 1024, 0, w));
    write_loop (S (Z.to_nat size)) w 1024 file inode buffer buf all (size - all))
  = Some (set_fsize (set_pos file (f_pos file + size)) sz, inode', size, w') /\
  wrote w inode k w' inode' sz (splice xs (f_pos file) (sub buf 0 size)).
Proof.
  intros Hh Hd Hl Hz Hs Hps Hb Hp Hfs sz. destruct (nz _) eqn:E.
  - destruct (write_block_ok w inode k xs file (zeroes 1024) buf 0 size) as (inode1 & buffer1 & w1 & -> & Hb1 & R1);
      [try done; lia..|]. mstep.
    destruct (block_step (f_pos file) size) as (N1 & N0 & N2 & _); [lia..|].
    set (n := Z.min size (1024 - f_pos file mod 1024)) in *.
    pose proof (zlen_sub buf 0 n ltac:(lia) ltac:(lia) ltac:(lia)) as Hn.
    assert (zlen (splice xs (f_pos file) (sub buf 0 n)) = zlen xs) as Hx by (apply zlen_splice; lia).
    edestruct (ext2_write_loop_ok (S (Z.to_nat size)) w1 inode1 k (splice xs (f_pos file) (sub buf 0 n)))
      as (inode2 & w2 & -> & R2); cbn [f_pos f_size set_fsize set_pos] in *;
      [apply R1|by eapply distinct_wrote|apply R1|apply R1|try done; lia..|].
    exists inode2, w2. replace (f_pos file + n + (size - n)) with (f_pos file + size) in * by lia.
    replace (n + (size - n)) with size by lia.
    replace (Z.max (Z.max (f_size file) (f_pos file + n)) (f_pos file + size)) with sz in * by lia.
    split; [done|]. refine (eq_rect _ (wrote w inode k w2 inode2 sz) (wrote_trans _ _ _ _ _ _ _ _ _ _ _ R1 R2) _ _).
    replace (f_pos file + n) with (f_pos file + zlen (sub buf 0 n)) by lia.
    rewrite splice_splice by (rewrite ?Hn, ?zlen_sub; lia). f_equal.
    rewrite <- (Z.add_0_l n) at 2. rewrite sub_app by lia. f_equal. lia.
  - mstep. rewrite Z.sub_0_r.
    destruct (ext2_write_loop_ok (S (Z.to_nat size)) w inode k xs file (zeroes 1024) buf 0 size)
      as (inode2 & w2 & -> & R2); [try done; try lia..|]. by exists inode2, w2.
Qed.

(** No room is needed. *)
Lemma expand_none w file inode size k : f_pos file + size <= 1024 * k -> up2 (f_size file) 1024 = 1024 * k ->
  0 <= k <= 12 -> 0 <= f_pos file -> 0 <= size -> expand w d file inode size = Some (inode, d, w).
Proof.
  intros H1 H2 H3 H4 H5. unfold expand. rewrite Hbs, H2. rewrite i32_small by lia.
  destruct (Z.ltb_spec 0 (f_pos file + size - 1024 * k)); [lia|done].
Qed.

Lemma ext2_write_ok w inode k xs file fd buf size bi off data : holds w inode k xs -> distinct inode k ->
  zlen inode = 128 -> size0_31 inode = Some (f_size file) -> fd_inode fd = inode ->
  slot w (fd_inode_idx fd) bi off data -> foreign inode k bi ->
  Z.land (f_mode file) O_RDONLY = 0 -> up2 (f_size file) 1024 = 1024 * k ->
  0 < size -> f_pos file + size <= zlen xs -> size <= zlen buf -> 0 <= f_pos file <= f_size file ->
  f_size file <= zlen xs ->
  let sz := Z.max (f_size file) (f_pos file + size) in
  exists inode' w', ext2_write w d file (Some fd) buf size
    = Some (size, set_fsize (set_pos file (f_pos file + size)) sz, Some (set_fd_inode fd inode'), d, w') /\
  holds w' inode' k (splice xs (f_pos file) (sub buf 0 size)) /\ size0_31 inode' = Some sz /\
  (forall x, zlen x = 128 -> rw_inode w' d (fd_inode_idx fd) x false = Some (0, inode', w')).
Proof.
  intros Hh Hd Hl Hz Hfd Hslot Hfor Hmode Hup Hs Hps Hb Hp Hfs sz. pose proof Hh as [Hk Hlen _].
  unfold ext2_write. unfold nz at 1. rewrite Hmode, Hbs, Hfd. cbn [negb Z.eqb].
  rewrite (expand_none w file inode size k) by lia. mstep. unfold cmod. cbn [Z.eqb]. mstep.
  destruct (write_data_ok w inode k xs file buf size) as (inode' & w1 & E & R); [done..|].
  destruct (if nz (f_pos file mod 1024) then _ else _) as [[[[[f1 n1] b1] a1] w0]|]; [|done].
  mstep. cbn [mbind option_bind] in E. rewrite E. mstep. pose proof R as [R1 R2 R3 R4 R5].
  assert (slot w1 (fd_inode_idx fd) bi off data) as Hslot1.
  { destruct Hslot. split; try done. by rewrite R5. }
  destruct (rw_inode_write w1 (fd_inode_idx fd) bi off data inode' Hslot1 R3) as (w2 & E2 & Eb & Eo).
  cbn [fd_inode_idx set_fd_inode]. rewrite E2. mstep. unfold nz. cbn [negb Z.eqb].
  exists inode', w2. split; [done|]. destruct R1 as [_ Hlen' Hblk']. split_and!; [|done|].
  - split; [done..|]. intros i Hi. destruct (Hblk' i Hi) as (b & Hb1 & Hb2 & Hb3 & Hb4). exists b.
    split_and!; try done; [apply Hb3..|]. rewrite Eo; [done|]. intros ->. apply (Hfor i Hi). by rewrite <- R2 by lia.
  - intros x Hx. pose proof Hslot1 as [S1 S2 [S3 S4] S5]. pose proof (blk_len _ _ _ S5).
    rewrite (rw_inode_read w2 (fd_inode_idx fd) bi off (splice data off inode') x) by done.
    rewrite <- R3 at 1. by rewrite sub_splice_same by lia.
Qed.

Lemma ext2_seek_set file p : 0 <= p < 4294967296 -> (ext2_seek file p SEEK_SET).2 = set_pos file p.
Proof. intros Hp. unfold ext2_seek. cbn. by rewrite Z.max_l, u32_small by lia. Qed.


(** ** Directories *)

(** An entry: the inode, the name and the bytes up to the next entry. *)
Record dentry := Dent { d_ino : Z; d_name : list Z; d_type : Z; d_pad : list Z }.
Definition dsize (e : dentry) : Z := 8 + zlen (d_name e) + zlen (d_pad e).
Definition dencode (e : dentry) : list Z :=
  le32 (d_ino e) ++ le16 (dsize e) ++ [zlen (d_name e); d_type e] ++ d_name e ++ d_pad e.
Definition dentry_ok (e : dentry) : Prop :=
  0 < d_ino e < 2147483648 /\ zlen (d_name e) < 256 /\ dsize e < 65536.

Lemma zlen_dencode e : zlen (dencode e) = dsize e.
Proof. unfold dencode. rewrite !zlen_app. unfold dsize, zlen. cbn. lia. Qed.

Lemma zget_shift (a b : list Z) k : 0 <= k -> zget (a ++ b) (zlen a + k) = zget b k.
Proof.
  intros Hk. pose proof (zlen_nonneg a). unfold zget. destruct (Z.ltb_spec (zlen a + k) 0), (Z.ltb_spec k 0); try lia.
  rewrite lookup_app_r by (unfold zlen in *; lia). f_equal. unfold zlen in *. lia.
Qed.

(** The fields of an entry that starts behind [pre]. *)
Lemma entry_fields pre e post : dentry_ok e -> let buf := pre ++ dencode e ++ post in
  e_inode buf (zlen pre) = Some (d_ino e) /\ e_size buf (zlen pre) = Some (dsize e) /\
  e_name_length buf (zlen pre) = Some (zlen (d_name e)) /\
  e_name buf (zlen pre) = d_name e ++ d_pad e ++ post.
Proof.
  intros (Hi & Hn & Hs) buf. pose proof (zlen_nonneg (d_name e)). pose proof (zlen_nonneg (d_pad e)).
  assert (forall k, 0 <= k -> zget buf (zlen pre + k) = zget (dencode e ++ post) k) as Hz.
  { intros k Hk. by apply zget_shift. }
  split_and!.
  - unfold e_inode. rewrite <- (le32_of_in (replicate 4 0) 0 (d_ino e)) by (done || lia).
    unfold le32_of, le16_at. rewrite <- (Z.add_0_r (zlen pre)) at 1. replace (zlen pre + 2 + 1) with (zlen pre + 3) by lia.
    rewrite !Hz by lia. done.
  - unfold e_size, le16_at. replace (zlen pre + 4 + 1) with (zlen pre + 5) by lia. rewrite !Hz by lia.
    change (Some (of_le16 (u8 (dsize e)) (u8 (Z.shiftr (dsize e) 8))) = Some (dsize e)).
    rewrite of_le16_le16; [done|]. unfold dsize in *. lia.
  - unfold e_name_length. by rewrite Hz by lia.
  - unfold e_name, at_ptr, DIR_ENTRY. pose proof (zlen_nonneg pre). destruct (Z.ltb_spec (zlen pre + 8) 0); [lia|].
    unfold buf. rewrite drop_app_ge by (unfold zlen; lia).
    replace (Z.to_nat (zlen pre + 8) - length pre)%nat with 8%nat by (unfold zlen; lia).
    cbn [dencode le32 le16 app drop]. by rewrite <- app_assoc.
Qed.

(** The first entry of that name. *)
Fixpoint dfind (key : list Z) (es : list dentry) : option Z :=
  match es with
  | [] => None
  | e :: es' => if decide (d_name e = key) then Some (d_ino e) else dfind key es'
  end.

Lemma scan_ok key rest : 0 ∉ key -> forall es pre fuel, Forall dentry_ok es ->
  zlen (pre ++ concat (dencode <$> es)) = 1024 -> (length es < fuel)%nat ->
  scan_entries fuel 1024 (pre ++ concat (dencode <$> es)) (zlen pre) (key ++ 0 :: rest) = Some (dfind key es).
Proof.
  intros Hkey. induction es as [|e es IH]; intros pre fuel Hok Hlen Hf; (destruct fuel as [|fuel]; [cbn in Hf; lia|]).
  { cbn [fmap list_fmap concat] in *. rewrite app_nil_r in *. cbn [scan_entries]. rewrite Hlen. done. }
  apply Forall_cons in Hok as [He Hok]. cbn [fmap list_fmap concat] in Hlen |- *.
  destruct (entry_fields pre e (concat (dencode <$> es)) He) as (F1 & F2 & F3 & F4).
  pose proof He as (Hi & Hn & Hs). cbn [scan_entries].
  pose proof (zlen_dencode e) as Hde.
  assert (zlen pre < 1024) as Hpre.
  { rewrite !zlen_app in Hlen. unfold dsize in Hde. pose proof (zlen_nonneg (d_name e)).
    pose proof (zlen_nonneg (d_pad e)). pose proof (zlen_nonneg (concat (dencode <$> es))). lia. }
  apply Z.ltb_lt in Hpre as ->. unfold fmap in F1, F2, F3, F4 |- *. rewrite F1. mstep.
  destruct (Z.eqb_spec (d_ino e) 0); [lia|]. rewrite strlen_app by done. mstep. rewrite F3. mstep. rewrite F4, F2. mstep.
  assert ((if zlen key =? zlen (d_name e) then
             r ← memcmp (key ++ 0 :: rest) (d_name e ++ d_pad e ++ concat (list_fmap _ _ dencode es)) (Z.min (zlen key) (zlen (d_name e)));
             Some (r =? 0) else Some false) = Some (bool_decide (d_name e = key))) as ->.
  { destruct (Z.eqb_spec (zlen key) (zlen (d_name e))) as [Hl|Hl].
    - rewrite Hl, Z.min_id. unfold memcmp.
      destruct (memcmp_loop_ok (Z.to_nat (zlen (d_name e))) (key ++ 0 :: rest)
        (d_name e ++ d_pad e ++ concat (list_fmap _ _ dencode es))) as (r & -> & _ & H0);
        [rewrite length_app; unfold zlen in *; lia..|]. mstep. f_equal.
      rewrite !take_app_le, !take_ge in H0 by (unfold zlen in *; lia).
      apply Bool.eq_iff_eq_true. rewrite Z.eqb_eq, H0, bool_decide_eq_true. by split.
    - rewrite bool_decide_eq_false_2; [done|]. congruence. }
  mstep. cbn [dfind]. case_bool_decide as Hd; [by rewrite decide_True|]. rewrite decide_False by done.
  rewrite <- Hde, <- zlen_app. rewrite app_assoc. apply IH; [done| |cbn in Hf; lia].
  by rewrite <- app_assoc.
Qed.

(** The blocks of a directory hold the entries of [dirs], one list each. *)
Record dir_holds (w : W) (parent : inode_t) (dirs : list (list dentry)) : Prop := {
  dh_count : (length dirs <= 12)%nat;
  dh_blk : forall (i : nat) es, dirs !! i = Some es -> Forall dentry_ok es /\
    exists b, direct_blocks parent (Z.of_nat i) = Some b /\ 0 < b /\ valid b /\ blk w b = Some (concat (dencode <$> es));
  dh_end : (length dirs < 12)%nat -> direct_blocks parent (Z.of_nat (length dirs)) = Some 0;
}.

Lemma dfind_app key es fs : dfind key (es ++ fs) = match dfind key es with None => dfind key fs | r => r end.
Proof. induction es as [|e es IH]; [done|]. cbn. by case_decide. Qed.

Lemma dencode_many es : 8 * zlen es <= zlen (concat (dencode <$> es)).
Proof.
  induction es as [|e es IH]; [done|]. rewrite fmap_cons. cbn [concat].
  rewrite zlen_app, zlen_dencode. unfold dsize. pose proof (zlen_nonneg (d_name e)).
  pose proof (zlen_nonneg (d_pad e)). replace (zlen (e :: es)) with (zlen es + 1) by (unfold zlen; cbn; lia). lia.
Qed.

Lemma sub_loop_ok w parent dirs key rest tmp : dir_holds w parent dirs -> 0 ∉ key -> zlen tmp = 128 ->
  forall n i entries, (n + i = 12)%nat -> (i <= length dirs)%nat -> zlen entries = 1024 ->
  let found := dfind key (concat (drop i dirs)) in
  (found = None -> sub_loop n (Z.of_nat i) w d parent (key ++ 0 :: rest) entries tmp = Some (-1, tmp, w)) /\
  (forall ino b off data, found = Some ino -> slot w ino b off data -> 0 < ino < 2147483648 ->
     sub_loop n (Z.of_nat i) w d parent (key ++ 0 :: rest) entries tmp = Some (ino, sub data off 128, w)).
Proof.
  intros [Hc Hblk Hend] Hkey Htmp. induction n as [|n IH]; intros i entries Hn Hi He found.
  { assert (drop i dirs = []) as E by (apply drop_ge; lia). unfold found. by rewrite E. }
  cbn [sub_loop]. destruct (decide (i < length dirs)%nat) as [Hlt|Hge].
  2:{ assert (drop i dirs = []) as E by (apply drop_ge; lia). unfold found. rewrite E.
      replace i with (length dirs) by lia. rewrite Hend by lia. by mstep. }
  destruct (lookup_lt_is_Some_2 dirs i Hlt) as [es Es].
  destruct (Hblk i es Es) as (Hok & b & -> & Hb0 & Hv & EB). mstep.
  destruct (Z.eqb_spec b 0); [lia|]. rewrite Hbs, (block_read_blk w b _ entries Hv EB He). mstep.
  change (2 <=? 0) with false. cbn [negb].
  pose proof (blk_len _ _ _ EB) as Hl. pose proof (dencode_many es).
  assert (scan_entries (S (Z.to_nat 1024)) 1024 (concat (dencode <$> es)) 0 (key ++ 0 :: rest) = Some (dfind key es)) as ->.
  { apply (scan_ok key rest Hkey es [] (S (Z.to_nat 1024))); [done..|unfold zlen in *; lia]. }
  mstep. unfold found. rewrite (drop_S _ _ _ Es). cbn [concat]. rewrite dfind_app.
  destruct (dfind key es) as [ino|] eqn:Ef.
  - split; [done|]. intros ino' b' off data [= <-] Hslot Hino.
    rewrite (rw_inode_read w ino b' off data tmp) by done. mstep. cbn. by rewrite i32_small by lia.
  - replace (Z.of_nat i + 1) with (Z.of_nat (S i)) by lia. apply IH; [lia..|done].
Qed.

(** Looking a name up in a directory answers the inode number of the first
    entry of that name over all its blocks, together with the inode, and -1
    when there is none. *)
Theorem get_sub_inode_spec w parent dirs key rest tmp : dir_holds w parent dirs -> 0 ∉ key -> zlen tmp = 128 ->
  let found := dfind key (concat dirs) in
  (found = None -> get_sub_inode w d parent (key ++ 0 :: rest) tmp = Some (-1, tmp, w)) /\
  (forall ino b off data, found = Some ino -> slot w ino b off data -> 0 < ino < 2147483648 ->
     get_sub_inode w d parent (key ++ 0 :: rest) tmp = Some (ino, sub data off 128, w)).
Proof.
  intros Hd Hkey Htmp. unfold get_sub_inode. rewrite Hbs.
  apply (sub_loop_ok w parent dirs key rest tmp Hd Hkey Htmp 12 0); [done|lia|by apply zlen_zeroes].
Qed.
End Ext2Ok.

(** ** A small volume

    Eight blocks on the first partition of a disk: the root directory (block
    5) has a file [a] of 1500 bytes (blocks 6 and 7) and an empty file [b]. *)

Definition put (off : Z) (bs l : list Z) : list Z := splice l off bs.
Definition zblock : list Z := replicate 1024 0.
Definition e2_super : list Z :=
  put 0 (le32 8) (put 12 (le32 1) (put 40 (le32 8) (put 56 (le16 EXT2_SIGNATURE) (put 88 (le16 128) zblock)))).
Definition e2_groups : list Z := put 0 (le32 3) (put 8 (le32 4) (put 12 (le16 1) zblock)).
Definition inode_root : inode_t := put 0 (le16 16384) (put 4 (le32 1024) (put 40 (le32 5) (replicate 128 0))).
Definition inode_a : inode_t :=
  put 0 (le16 32768) (put 4 (le32 1500) (put 40 (le32 6) (put 44 (le32 7) (replicate 128 0)))).
Definition inode_b : inode_t := put 0 (le16 32768) (replicate 128 0).
Definition e2_inodes : list Z := put 128 inode_root (put 256 inode_a (put 384 inode_b zblock)).
Definition root_dir : list dentry := [Dent 3 [97] 1 (replicate 3 0); Dent 4 [98] 1 (replicate 1003 0)].
Definition e2_root : list Z := concat (dencode <$> root_dir).
Definition e2_data1 : list Z := replicate 1024 1.
Definition e2_data2 : list Z := replicate 1024 2.
Definition e2_blocks : list (list Z) :=
  [zblock; e2_super; e2_groups; put 0 [255] zblock; e2_inodes; e2_root; e2_data1; e2_data2].

Definition e2_sectors : gmap Z (list Z) :=
  list_to_map (zip (seqZ 0 18)
    (replicate 512 0 :: replicate 512 0 :: concat ((fun b => [sub b 0 512; sub b 512 512]) <$> e2_blocks))).
Definition e2_disks : list disk_t :=
  [Disk 0 512 18 [Part 0 0 18 (Some 0); Part 131 2 16 (Some 0); no_part; no_part; no_part] None e2_sectors].
Definition e2_dev : device_t := Device (Some 0) 1 0 1 (Some (0, 1)).
Definition e2_devices : list device_t := [e2_dev].
#[local] Instance e2_block : BlockDev (list disk_t) := disk_block e2_devices 0.
Definition e2_desc : ext2_desc := Desc (SuperBlock 8 1 0 8 EXT2_SIGNATURE 128) [Group 3 0 4 1].

Lemma e2_mount : (fst <$> ext2_mount e2_disks) = Some e2_desc.
Proof. by vm_compute. Qed.

Lemma e2_mounted : disk_mounted e2_devices 0 0 1 e2_dev.
Proof. by split. Qed.

#[local] Instance e2_block_ok : BlockDevOk (list disk_t) 512 (part_sector 512 0 1).
Proof.
  split; [done|..].
  - intros w a l. apply part_sector_len.
  - intros w a buf n. by apply (block_read_ok e2_devices 0 0 1 e2_dev).
  - intros w a buf n. by apply (block_write_ok e2_devices 0 0 1 e2_dev).
Qed.

Lemma e2_slot idx off : (idx = 2 /\ off = 128) \/ (idx = 3 /\ off = 256) \/ (idx = 4 /\ off = 384) ->
  slot (part_sector 512 0 1) e2_desc e2_disks idx 4 off e2_inodes.
Proof.
  intros Hi. destruct_or! Hi; destruct Hi as [-> ->]; split; try done; try lia; by vm_compute.
Qed.

Lemma rw_inode_roundtrip_witness : exists w',
  rw_inode e2_disks e2_desc 4 inode_a true = Some (0, inode_a, w') /\
  (forall x, zlen x = 128 -> rw_inode w' e2_desc 4 x false = Some (0, inode_a, w')) /\
  (forall idx' b' off' data' x, slot (part_sector 512 0 1) e2_desc e2_disks idx' b' off' data' -> zlen x = 128 ->
     b' <> 4 \/ off' + 128 <= 384 \/ 384 + 128 <= off' ->
     rw_inode w' e2_desc idx' x false = Some (0, sub data' off' 128, w')).
Proof.
  apply (rw_inode_roundtrip (part_sector 512 0 1) e2_desc eq_refl ltac:(cbn; lia) e2_disks 4 4 384 e2_inodes inode_a);
    [apply e2_slot; auto|done].
Defined.

Lemma e2_dir : dir_holds (part_sector 512 0 1) e2_disks inode_root [root_dir].
Proof.
  split; [cbn; lia| |by intros _].
  intros i es Hi. destruct i as [|i]; [|done]. injection Hi as <-. split.
  - repeat constructor; done.
  - exists 5. by split_and!.
Qed.

(** The file [b] is found, [c] is not. *)
Lemma get_sub_inode_spec_witness :
  get_sub_inode e2_disks e2_desc inode_root ([98] ++ [0]) (replicate 128 0)
  = Some (4, sub e2_inodes 384 128, e2_disks) /\
  get_sub_inode e2_disks e2_desc inode_root ([99] ++ [0]) (replicate 128 0)
  = Some (-1, replicate 128 0, e2_disks).
Proof.
  split.
  - destruct (get_sub_inode_spec (part_sector 512 0 1) e2_desc eq_refl ltac:(cbn; lia) e2_disks inode_root [root_dir]
      [98] [] (replicate 128 0) e2_dir ltac:(set_solver) eq_refl) as [_ Hs].
    apply (Hs 4 4 384 e2_inodes); [done|apply e2_slot; auto|lia].
  - destruct (get_sub_inode_spec (part_sector 512 0 1) e2_desc eq_refl ltac:(cbn; lia) e2_disks inode_root [root_dir]
      [99] [] (replicate 128 0) e2_dir ltac:(set_solver) eq_refl) as [Hn _].
    by apply Hn.
Defined.

Definition fd_a : file_data_t := FileData inode_a 3 None None None None.
Definition file_a : file_t := set_pos (set_fsize (set_dev (set_open zero_file (Some 0) 8) 0 FILE_FILE) 1500) 1000.

Lemma e2_holds : holds (part_sector 512 0 1) e2_disks inode_a 2 (e2_data1 ++ e2_data2).
Proof.
  split; [lia|done|]. intros i Hi. assert (i = 0 \/ i = 1) as [->| ->] by lia.
  - exists 6. by split_and!.
  - exists 7. by split_and!.
Qed.


(** ** Runs of the volume *)

(** The path [a] is opened, 600 bytes are written at 1000 and read back. *)
Lemma e2_run :
  ('(_, f, fd, w) ← ext2_open e2_disks e2_desc [97; 0] (set_open zero_file (Some 0) 8) (replicate 128 0);
   '(n, f, fd, d, w) ← ext2_write w e2_desc (ext2_seek f 1000 SEEK_SET).2 fd (replicate 600 9) 600;
   '(m, f, fd, buf, w) ← ext2_read 20 w d (ext2_seek f 998 SEEK_SET).2 fd (zeroes 4) 4;
   Some (n, m, buf, f_size f)) = Some (600, 4, [1; 1; 9; 9], 1600).
Proof. by vm_compute. Qed.

(** The block size is a power of two given by its logarithm, which [kb_size]
    takes for a number of KiB: it is right for 1 and 2 KiB only. *)
Lemma kb_size_linear : (kb_size 0, kb_size 1, kb_size 2) = (1024, 2048, 3072).
Proof. done. Qed.

(** The first block of a new file is stored as its second one, so that the
    data goes to block 0 of the volume. *)
Lemma new_file_writes_block_0 :
  ('(_, f, fd, w) ← ext2_open e2_disks e2_desc [98; 0] (set_open zero_file (Some 0) 8) (replicate 128 0);
   '(n, f, fd, d, w) ← ext2_write w e2_desc f fd [7; 7; 7] 3;
   b0 ← blk (part_sector 512 0 1) w 0;
   data ← fd;
   Some (n, sub b0 0 3, direct_blocks (fd_inode data) 0, direct_blocks (fd_inode data) 1))
  = Some (3, [7; 7; 7], Some 0, Some 14).
Proof. by vm_compute. Qed.

(** Allocated blocks are not recorded on the device: the next allocation
    hands out the same block. *)
Lemma alloc_block_again :
  (let d := Desc (super_block e2_desc) [Group 3 0 4 9] in
   '(_, b1, d, w) ← alloc_block e2_disks d 1 true;
   '(_, b2, d, w) ← alloc_block w d 1 true; Some (b1, b2)) = Some ([Some 14], [Some 14]).
Proof. by vm_compute. Qed.

(** Relative seeks are refused from position 16 on, and [SEEK_END] answers an
    error after moving. *)
Lemma ext2_seek_limits :
  ext2_seek (set_pos file_a 20) 1 SEEK_CUR = (EOVERFLOW, set_pos file_a 20) /\
  ext2_seek file_a 0 SEEK_END = (EINVAL, set_pos file_a 1500).
Proof. done. Qed.

(** A hole is skipped instead of read as zeroes: block 1 of the file is
    answered in place of block 0. *)
Lemma hole_skipped :
  (let n := put 40 (le32 0) inode_a in
   '(m, f, fd, buf, w) ← ext2_read 20 e2_disks e2_desc (set_pos file_a 0) (Some (FileData n 3 None None None None)) (zeroes 2) 2;
   Some (m, buf)) = Some (2, [2; 2]).
Proof. by vm_compute. Qed.

(** Entries of a directory's second block are numbered from 0 again: the third
    entry is looked for as the third one of the second block. *)
Lemma readdir_second_block :
  (let n := put 44 (le32 5) inode_root in
   let dir := set_dev (set_open zero_file (Some 0) 8) 0 FILE_DIR in
   '(r, _, _) ← ext2_readdir e2_disks e2_desc dir (Some (FileData n 2 None None None None))
                  (Some (Dirent 2 (zeroes 64) 0 0 0)); Some r) = Some (-1).
Proof. by vm_compute. Qed.
