(* ===== verification/Elf.v ===== *)
(** * Loading programs: kernel/thread/execve.c [load_elf],
    common/elf/parse.c [reload_elf_file]

    Both loaders copy the loadable segments of a file to memory; the one of
    the boot loader uses physical addresses, the one of [execve] has the pages
    mapped first.  The memory is reached through [UserMem]: [store] writes a
    byte, [mmap] is [process_mmap] with an address.  The file is its bytes;
    reading outside of them is a fault. *)

From S2P Require Import Prelude Pktbuf Layout Fat16.
From S2P Require Import Prelude.

Class UserMem (S : Type) := {
  mmap : S -> Z -> Z -> option (S * Z);
  store : S -> Z -> Z -> option S;
}.

Definition ELF_MAGIC : Z := 127.
Definition PT_LOAD : Z := 1.
Definition EHDR_SIZE : Z := 52.
Definition PHDR_SIZE : Z := 32.

(** The fields the loaders use. *)
Record Elf32_Ehdr := Ehdr { e_ident : list Z; e_entry : Z; e_phoff : Z; e_phnum : Z }.
Record Elf32_Phdr := Phdr
  { p_type : Z; p_offset : Z; p_vaddr : Z; p_paddr : Z; p_filesz : Z; p_memsz : Z }.

Definition read_ehdr (file : list Z) : option Elf32_Ehdr :=
  ident ← mem_read file 0 16;
  entry ← le32_of file 24; phoff ← le32_of file 28; phnum ← le16_at file 44;
  Some (Ehdr ident entry phoff phnum).

(** Fields are read when they are used; all of them lie in the header. *)
Definition read_phdr (file : list Z) (at_ : Z) : option Elf32_Phdr :=
  ty ← le32_of file at_; off ← le32_of file (at_ + 4); va ← le32_of file (at_ + 8);
  pa ← le32_of file (at_ + 12); fsz ← le32_of file (at_ + 16); msz ← le32_of file (at_ + 20);
  Some (Phdr ty off va pa fsz msz).

Definition is_elf (h : Elf32_Ehdr) : bool := bool_decide (take 4 (e_ident h) = [ELF_MAGIC; 69; 76; 70]).

Section Loaders.
Context {S : Type} `{UserMem S}.

(** [dest[j] = src[j]] for [j < n], from [file + off]. *)
Definition copy_bytes (file : list Z) (off dest n : Z) (s : S) : option S :=
  for_ (Z.to_nat n) 0 (fun j s => v ← zget file (off + j); store s (u32 (dest + j)) v) s.
Definition zero_bytes (dest n : Z) (s : S) : option S :=
  for_ (Z.to_nat n) 0 (fun j s => store s (u32 (dest + j)) 0) s.

(** ** The boot loader *)

Definition reload_segment (file : list Z) (ph : Elf32_Phdr) (s : S) : option S :=
  if negb (p_type ph =? PT_LOAD) then Some s
  else
    s ← copy_bytes file (p_offset ph) (p_paddr ph) (p_filesz ph) s;
    zero_bytes (p_paddr ph + p_filesz ph) (u32 (p_memsz ph - p_filesz ph)) s.

(** The result is the entry point, 0 for a file that is no program. *)
Definition reload_elf_file (file : list Z) (s : S) : option (Z * S) :=
  h ← read_ehdr file;
  if negb (is_elf h) then Some (0, s)
  else
    s ← for_ (Z.to_nat (e_phnum h)) 0 (fun i s =>
          ph ← read_phdr file (e_phoff h + PHDR_SIZE * i); reload_segment file ph s) s;
    Some (e_entry h, s).

(** ** execve *)

(** [true] when the segment could not be mapped.  The bytes behind the file's
    part are cleared at the physical address. *)
Definition load_segment (file : list Z) (ph : Elf32_Phdr) (s : S) : option (S * bool) :=
  if negb (p_type ph =? PT_LOAD) then Some (s, false)
  else
    '(s, r) ← mmap s (p_vaddr ph) (p_memsz ph);
    if r =? 0 then Some (s, true)
    else
      s ← copy_bytes file (p_offset ph) (p_vaddr ph) (p_filesz ph) s;
      s ← zero_bytes (p_paddr ph + p_filesz ph) (u32 (p_memsz ph - p_filesz ph)) s;
      Some (s, false).

Fixpoint load_loop (n : nat) (i : Z) (file : list Z) (h : Elf32_Ehdr) (s : S) : option (Z * S) :=
  match n with
  | O => Some (e_entry h, s)
  | Datatypes.S n' =>
      ph ← read_phdr file (e_phoff h + PHDR_SIZE * i);
      '(s, failed) ← load_segment file ph s;
      if (failed : bool) then Some (0, s) else load_loop n' (i + 1) file h s
  end.

Definition load_elf (file : list Z) (s : S) : option (Z * S) :=
  h ← read_ehdr file;
  if negb (is_elf h) then Some (0, s) else load_loop (Z.to_nat (e_phnum h)) 0 file h s.
End Loaders.

(** ** What the loaders rely on *)

(** [load s x] is the byte at [x]; it can be written when it is [writable]. *)
Class UserMemOk (S : Type) `{UserMem S} := {
  load : S -> Z -> Z;
  writable : S -> Z -> Prop;
  mmap_ok : forall s a n s' r, mmap s a n = Some (s', r) ->
    (forall x, writable s x -> writable s' x /\ load s' x = load s x) /\
    (r <> 0 -> forall x, a <= x < a + n -> writable s' x);
  store_ok : forall s x v, writable s x -> exists s', store s x v = Some s' /\
    (forall y, writable s y -> writable s' y) /\
    (forall y, load s' y = if y =? x then v else load s y);
}.

Section LoadersOk.
Context {S : Type} `{UserMemOk S}.

Lemma store_loop f a n s : 0 <= a -> 0 <= n -> a + n <= 4294967296 ->
  (forall j, 0 <= j < n -> exists v, f j = Some v) -> (forall x, a <= x < a + n -> writable s x) ->
  exists s', for_ (Z.to_nat n) 0 (fun j s => v ← f j; store s (u32 (a + j)) v) s = Some s' /\
    (forall y, writable s y -> writable s' y) /\
    (forall y, load s' y = if (a <=? y) && (y <? a + n) then default 0 (f (y - a)) else load s y).
Proof.
  intros Ha Hn Hlim Hf Hw.
  destruct (for_inv (fun k s' => (forall y, writable s y -> writable s' y) /\
    (forall y, load s' y = if (a <=? y) && (y <? a + k) then default 0 (f (y - a)) else load s y))
    (fun j s => v ← f j; store s (u32 (a + j)) v) (Z.to_nat n) 0 s) as (s' & -> & Hw' & Hl').
  - split; [done|]. intros y. destruct (Z.leb_spec a y), (Z.ltb_spec y (a + 0)); try done; lia.
  - intros j s1 Hj [W1 L1]. destruct (Hf j) as [v Hv]; [lia|]. rewrite Hv. mstep. rewrite u32_small by lia.
    destruct (store_ok s1 (a + j) v) as (s2 & -> & W2 & L2); [apply W1, Hw; lia|].
    exists s2. split; [done|]. split; [by auto|]. intros y. rewrite L2, L1.
    destruct (Z.eqb_spec y (a + j)) as [->|Hne].
    + replace (a + j - a) with j by lia. rewrite Hv. destruct (Z.leb_spec a (a + j)), (Z.ltb_spec (a + j) (a + (j + 1))); done || lia.
    + destruct (Z.leb_spec a y), (Z.ltb_spec y (a + j)), (Z.ltb_spec y (a + (j + 1))); done || lia.
  - exists s'. split; [done|]. split; [done|]. intros y. rewrite Hl'. by replace (0 + Z.of_nat (Z.to_nat n)) with n by lia.
Qed.

(** ** The image of a program *)

Definition loadable (ph : Elf32_Phdr) : Prop := p_type ph = PT_LOAD.
Definition inside (ph : Elf32_Phdr) (x : Z) : Prop := loadable ph /\ p_vaddr ph <= x < p_vaddr ph + p_memsz ph.
#[global] Instance inside_dec ph x : Decision (inside ph x).
Proof. unfold inside, loadable. apply _. Defined.

(** Memory with the segment put over it. *)
Definition paint (file : list Z) (m : Z -> Z) (ph : Elf32_Phdr) : Z -> Z := fun x =>
  if decide (inside ph x) then
    if x <? p_vaddr ph + p_filesz ph then default 0 (zget file (p_offset ph + (x - p_vaddr ph))) else 0
  else m x.

(** The file's part is in the file and not longer than the segment; physical
    and virtual address agree. *)
Record seg_ok (file : list Z) (ph : Elf32_Phdr) : Prop := {
  so_file : 0 <= p_offset ph /\ p_offset ph + p_filesz ph <= zlen file;
  so_size : 0 <= p_filesz ph <= p_memsz ph;
  so_addr : 0 <= p_vaddr ph /\ p_vaddr ph + p_memsz ph <= 4294967296 /\ p_memsz ph < 4294967296;
  so_same : p_paddr ph = p_vaddr ph;
}.

Lemma paint_ext file phs : forall m m' x, m x = m' x \/ Exists (fun ph => inside ph x) phs ->
  foldl (paint file) m phs x = foldl (paint file) m' phs x.
Proof.
  induction phs as [|ph phs IH]; intros m m' x Hx; cbn.
  - destruct Hx as [?|Hx]; [done|]. by apply Exists_nil in Hx.
  - apply IH. unfold paint. case_decide; [by left|]. destruct Hx as [?|Hx]; [by left|].
    apply Exists_cons in Hx as [?|?]; [done|by right].
Qed.

(** One segment, once its memory can be written. *)
Lemma segment_bytes file ph s : loadable ph -> seg_ok file ph ->
  (forall x, inside ph x -> writable s x) ->
  exists s', (s ← copy_bytes file (p_offset ph) (p_vaddr ph) (p_filesz ph) s;
              zero_bytes (p_paddr ph + p_filesz ph) (u32 (p_memsz ph - p_filesz ph)) s) = Some s' /\
    (forall y, writable s y -> writable s' y) /\ forall y, load s' y = paint file (load s) ph y.
Proof.
  intros Hl [[F1 F2] F3 (F4 & F5 & F5') F6] Hw. unfold copy_bytes, zero_bytes. rewrite F6.
  rewrite u32_small by lia.
  destruct (store_loop (fun j => zget file (p_offset ph + j)) (p_vaddr ph) (p_filesz ph) s) as (s1 & -> & W1 & L1);
    [lia..| |intros x Hx; apply Hw; split; [done|lia]|].
  { intros j Hj. apply zget_is_Some. lia. }
  mstep.
  destruct (store_loop (fun _ => Some 0) (p_vaddr ph + p_filesz ph) (p_memsz ph - p_filesz ph) s1) as (s2 & E2 & W2 & L2);
    [lia..|intros; by eexists|intros x Hx; apply W1, Hw; split; [done|lia]|].
  cbn [mbind option_bind] in E2. rewrite E2. exists s2. split; [done|]. split; [by auto|].
  intros y. rewrite L2, L1. unfold paint. destruct (decide (inside ph y)) as [[_ Hy]|Hy].
  - destruct (Z.leb_spec (p_vaddr ph) y), (Z.leb_spec (p_vaddr ph + p_filesz ph) y),
      (Z.ltb_spec y (p_vaddr ph + p_filesz ph)),
      (Z.ltb_spec y (p_vaddr ph + p_filesz ph + (p_memsz ph - p_filesz ph))); done || lia.
  - assert (~ p_vaddr ph <= y < p_vaddr ph + p_memsz ph) by (intros ?; by apply Hy).
    destruct (Z.leb_spec (p_vaddr ph) y), (Z.leb_spec (p_vaddr ph + p_filesz ph) y),
      (Z.ltb_spec y (p_vaddr ph + p_filesz ph)),
      (Z.ltb_spec y (p_vaddr ph + p_filesz ph + (p_memsz ph - p_filesz ph))); done || lia.
Qed.

(** The program headers of a file. *)
Record program (file : list Z) (h : Elf32_Ehdr) (phs : list Elf32_Phdr) : Prop := {
  pr_hdr : read_ehdr file = Some h;
  pr_elf : is_elf h = true;
  pr_num : e_phnum h = zlen phs;
  pr_phdr : forall i ph, phs !! i = Some ph -> read_phdr file (e_phoff h + PHDR_SIZE * Z.of_nat i) = Some ph;
  pr_ok : Forall (fun ph => loadable ph -> seg_ok file ph) phs;
}.

Lemma load_segments file h all : program file h all ->
  (forall s a n, exists s' r, mmap s a n = Some (s', r) /\ r <> 0) ->
  forall phs pre s, all = pre ++ phs -> exists s',
  load_loop (length phs) (zlen pre) file h s = Some (e_entry h, s') /\
  forall x, writable s x \/ Exists (fun ph => inside ph x) phs ->
    writable s' x /\ load s' x = foldl (paint file) (load s) phs x.
Proof.
  intros P Hm. induction phs as [|ph phs IH]; intros pre s E; cbn [length load_loop].
  { exists s. split; [done|]. intros x [?|Hx]; [done|]. by apply Exists_nil in Hx. }
  assert (all !! length pre = Some ph) as Hph by (rewrite E; by apply list_lookup_middle).
  unfold zlen. rewrite (pr_phdr _ _ _ P _ _ Hph). mstep.
  assert (exists s1, load_segment file ph s = Some (s1, false) /\
    forall x, writable s x \/ inside ph x -> writable s1 x /\ load s1 x = paint file (load s) ph x) as (s1 & -> & S1).
  { unfold load_segment. destruct (Z.eqb_spec (p_type ph) PT_LOAD) as [Ht|Ht]; cbn [negb].
    - destruct (Hm s (p_vaddr ph) (p_memsz ph)) as (s0 & r & Em & Hr). rewrite Em. mstep.
      apply Z.eqb_neq in Hr as Hr'. rewrite Hr'. destruct (mmap_ok _ _ _ _ _ Em) as [Hold Hnew].
      pose proof (pr_ok _ _ _ P) as Hok. rewrite Forall_lookup in Hok.
      destruct (segment_bytes file ph s0 Ht (Hok _ _ Hph Ht)) as (s1 & E1 & W1 & L1).
      { intros x [_ Hx]. by apply Hnew. }
      apply bind_Some in E1 as (s2 & -> & E2). mstep. rewrite E2. mstep. exists s1. split; [done|].
      intros x Hx. rewrite L1. unfold paint. case_decide as Hin.
      + split; [|done]. apply W1, Hnew; [done|]. apply Hin.
      + destruct Hx as [Hx|]; [|done]. destruct (Hold x Hx) as [? ?]. by split; [apply W1|].
    - exists s. split; [done|]. intros x Hx. unfold paint. rewrite decide_False by (by intros [? _]).
      destruct Hx as [?|[? _]]; done. }
  mstep. destruct (IH (pre ++ [ph]) s1) as (s' & E' & S'); [by rewrite <- app_assoc|].
  replace (Z.of_nat (length pre) + 1) with (zlen (pre ++ [ph])) by (rewrite zlen_app; unfold zlen; cbn; lia).
  exists s'. split; [done|]. intros x Hx. cbn [foldl].
  assert (writable s x \/ inside ph x \/ Exists (fun ph => inside ph x) phs) as [Hc|[Hc|Hc]].
  { destruct Hx as [?|Hx]; [by left|]. apply Exists_cons in Hx. tauto. }
  - destruct (S1 x) as [W1 L1]; [by left|]. destruct (S' x) as [W' ->]; [by left|].
    split; [done|]. apply paint_ext. by left.
  - destruct (S1 x) as [W1 L1]; [by right|]. destruct (S' x) as [W' ->]; [by left|].
    split; [done|]. apply paint_ext. by left.
  - destruct (S' x) as [W' ->]; [by right|]. split; [done|]. apply paint_ext. by right.
Qed.


(** The loader of the boot code writes the same image to memory that is there. *)
Lemma reload_elf_file_spec file h phs s : program file h phs ->
  (forall x, Exists (fun ph => inside ph x) phs -> writable s x) ->
  exists s', reload_elf_file file s = Some (e_entry h, s') /\ (forall x, writable s x -> writable s' x) /\
  forall x, load s' x = foldl (paint file) (load s) phs x.
Proof.
  intros P Hw. unfold reload_elf_file. rewrite (pr_hdr _ _ _ P). mstep. rewrite (pr_elf _ _ _ P). cbn [negb].
  rewrite (pr_num _ _ _ P).
  destruct (for_inv (fun k s' => (forall x, writable s x -> writable s' x) /\
    forall x, load s' x = foldl (paint file) (load s) (take (Z.to_nat k) phs) x)
    (fun i s => ph ← read_phdr file (e_phoff h + PHDR_SIZE * i); reload_segment file ph s)
    (Z.to_nat (zlen phs)) 0 s) as (s' & -> & W' & L').
  - by split.
  - intros i s1 Hi [W1 L1]. unfold zlen in Hi.
    destruct (lookup_lt_is_Some_2 phs (Z.to_nat i)) as [ph Hph]; [lia|].
    assert (read_phdr file (e_phoff h + PHDR_SIZE * i) = Some ph) as ->.
    { pose proof (pr_phdr _ _ _ P _ _ Hph) as Hr. by rewrite Z2Nat.id in Hr by lia. }
    mstep.
    replace (Z.to_nat (i + 1)) with (Datatypes.S (Z.to_nat i)) by lia. rewrite (take_S_r _ _ _ Hph).
    unfold reload_segment. destruct (Z.eqb_spec (p_type ph) PT_LOAD) as [Ht|Ht]; cbn [negb].
    + pose proof (pr_ok _ _ _ P) as Hok. rewrite Forall_lookup in Hok. pose proof (Hok _ _ Hph Ht) as Hseg.
      destruct (segment_bytes file ph s1 Ht Hseg) as (s2 & E2 & W2 & L2).
      { intros x Hx. apply W1, Hw. apply Exists_exists. exists ph. by apply list_elem_of_lookup_2 in Hph. }
      rewrite (so_same _ _ Hseg) in E2 |- *. rewrite E2. exists s2. split; [done|]. split; [by auto|].
      intros x. rewrite L2, foldl_app. cbn. unfold paint at 1 2. case_decide; [done|]. by rewrite L1.
    + exists s1. split; [done|]. split; [done|]. intros x. rewrite foldl_app. cbn. unfold paint at 1.
      rewrite decide_False by (by intros [? _]). by rewrite L1.
  - mstep. exists s'. split; [done|]. split; [done|]. intros x. rewrite L', take_ge; [done|]. unfold zlen. lia.
Qed.
End LoadersOk.

(** ** An example: memory of which everything can be written *)

Record flat := Flat { bytes : gmap Z Z }.
#[export] Instance flat_mem : UserMem flat := {
  mmap s a n := Some (s, if a =? 0 then 4096 else a);
  store s x v := Some (Flat (<[x := v]> (bytes s)));
}.
#[export, program] Instance flat_mem_ok : UserMemOk flat :=
  { load s x := default 0 (bytes s !! x); writable s x := True }.
Next Obligation. cbn. intros s a n s' r [= <- <-]. by split. Qed.
Next Obligation.
  cbn. intros s x v _. eexists. split; [done|]. split; [done|]. intros y. cbn.
  rewrite lookup_insert. destruct (Z.eqb_spec y x), (decide (x = y)); congruence || done.
Qed.

(** Two segments: four bytes of code at 4096, and data at 8192 of which two
    bytes are in the file and two are zero. *)
Definition put_at (off : Z) (bs l : list Z) : list Z := splice l off bs.
Definition phdr_bytes (off va fsz msz : Z) : list Z :=
  le32 PT_LOAD ++ le32 off ++ le32 va ++ le32 va ++ le32 fsz ++ le32 msz ++ le32 0 ++ le32 0.
Definition prog : list Z :=
  put_at 0 [127; 69; 76; 70] (put_at 24 (le32 4097) (put_at 28 (le32 52) (put_at 44 (le16 2) (replicate 52 0))))
  ++ phdr_bytes 116 4096 4 4 ++ phdr_bytes 120 8192 2 4 ++ [11; 22; 33; 44; 55; 66].
Definition prog_ehdr : Elf32_Ehdr := Ehdr ([127; 69; 76; 70] ++ replicate 12 0) 4097 52 2.
Definition prog_phdrs : list Elf32_Phdr := [Phdr 1 116 4096 4096 4 4; Phdr 1 120 8192 8192 2 4].

Lemma prog_ok : program prog prog_ehdr prog_phdrs.
Proof.
  split; try done.
  - intros i ph Hi. destruct i as [|[|i]]; cbn in Hi; [injection Hi as <-..|done]; by vm_compute.
  - repeat constructor; done.
Qed.


Lemma load_prog :
  ('(e, s) ← load_elf prog (Flat {[8195 := 9]}); Some (e, (load s <$> [4096; 4099; 8192; 8193; 8194; 8195])))
  = Some (4097, [11; 44; 55; 66; 0; 0]).
Proof. by vm_compute. Qed.

(** The bytes behind the file's part are cleared at the physical address: with
    another virtual address they keep what the memory held. *)
Lemma bss_not_cleared :
  (let ph := Phdr 1 120 8192 4096 2 4 in
   '(s, _) ← load_segment prog ph (Flat {[8195 := 9]}); Some (load s 8195, load s 4098)) = Some (9, 0).
Proof. by vm_compute. Qed.
