(* ===== verification/Clock.v ===== *)
(** * The clock: kernel/device/rtc/cmos.c, kernel/time/time.c, pit.c

    The real-time clock is read through ports until two readings agree.  A
    reading is one pass over its six registers, once the update flag is clear;
    the readings the hardware would give are a list.  [century_register] is 0,
    so the century is never read. *)

From S2P Require Import Prelude CMath Datetime Fat16.
From S2P Require Import Prelude.

Definition CURRENT_YEAR : Z := 2023.
Definition HZ : Z := 100.

(** ** Reading the registers *)

Record rtc_raw := RtcRaw { r_second : Z; r_minute : Z; r_hour : Z; r_day : Z; r_month : Z; r_year : Z }.
#[export] Instance rtc_raw_eq_dec : EqDecision rtc_raw.
Proof. solve_decision. Defined.

(** The loop of [read_rtc]; nothing while the readings go on changing. *)
Fixpoint settle (last : rtc_raw) (readings : list rtc_raw) : option rtc_raw :=
  match readings with
  | [] => None
  | r :: readings' => if decide (last = r) then Some r else settle r readings'
  end.

(** ** Decoding *)

Definition bcd (x : Z) : Z := u8 (Z.land x 15 + x / 16 * 10).
Definition bcd_hour (x : Z) : Z :=
  u8 (Z.lor (Z.land x 15 + Z.land x 112 / 16 * 10) (Z.land x 128)).

Definition decode (registerB : Z) (r : rtc_raw) : rtc_time :=
  let r := if nz (Z.land registerB 4) then r
           else RtcRaw (bcd (r_second r)) (bcd (r_minute r)) (bcd_hour (r_hour r)) (bcd (r_day r))
                  (bcd (r_month r)) (Z.land (r_year r) 15 + r_year r / 16 * 10) in
  let hour := if negb (nz (Z.land registerB 2)) && nz (Z.land (r_hour r) 128)
              then (Z.land (r_hour r) 127 + 12) mod 24 else r_hour r in
  let year := r_year r + CURRENT_YEAR / 100 * 100 in
  let year := if year <? CURRENT_YEAR then year + 100 else year in
  RtcTime (r_second r) (r_minute r) hour (r_day r) (r_month r) year.

(** [get_rtc_time] with a place for the result. *)
Definition get_rtc_time (registerB : Z) (readings : list rtc_raw) : option rtc_time :=
  match readings with
  | [] => None
  | r :: readings' => r ← settle r readings'; Some (decode registerB r)
  end.

(** ** Ticks *)

Definition pit_tick (jiffies : Z) : Z := u64 (jiffies + 1).

Definition jiffies2time (jiffies : Z) : option timespec_t :=
  '(sec, remain) ← div_u64_rem jiffies HZ;
  Some (Timespec sec (mul_u32_u32 remain (1000 * 1000 * 1000 / HZ))).

Definition sys_timestamp (registerB : Z) (readings : list rtc_raw) (jiffies : Z) : option timespec_t :=
  t ← get_rtc_time registerB readings;
  spec ← jiffies2time jiffies;
  Some (Timespec (mktime64 (t_year t) (t_mon t) (t_day t) (t_hour t) (t_min t) (t_sec t)) (tv_nsec spec)).

(** ** Properties *)

(** What the registers hold at a time, in BCD and with 24 hours. *)
Definition bcd_of (v : Z) : Z := v / 10 * 16 + v mod 10.
Definition registers (t : rtc_time) : rtc_raw :=
  RtcRaw (bcd_of (t_sec t)) (bcd_of (t_min t)) (bcd_of (t_hour t)) (bcd_of (t_day t)) (bcd_of (t_mon t))
    (bcd_of (t_year t mod 100)).

Record time_ok (t : rtc_time) : Prop := {
  to_sec : 0 <= t_sec t < 60;
  to_min : 0 <= t_min t < 60;
  to_hour : 0 <= t_hour t < 24;
  to_day : 1 <= t_day t <= 31;
  to_mon : 1 <= t_mon t <= 12;
  to_year : 2023 <= t_year t < 2123;
}.

(** The numbers below 100, one by one. *)
Lemma below_100 (P : Z -> bool) : forallb P (seqZ 0 100) = true -> forall v, 0 <= v < 100 -> P v = true.
Proof.
  intros HP v Hv. rewrite forallb_forall in HP. apply HP. apply list_elem_of_In, elem_of_seqZ. lia.
Qed.

Lemma bcd_ok v : 0 <= v < 100 -> bcd (bcd_of v) = v.
Proof.
  intros Hv. apply Z.eqb_eq. revert v Hv. apply (below_100 (fun v => bcd (bcd_of v) =? v)). by vm_compute.
Qed.

Lemma bcd_year_ok v : 0 <= v < 100 -> Z.land (bcd_of v) 15 + bcd_of v / 16 * 10 = v.
Proof.
  intros Hv. apply Z.eqb_eq. revert v Hv.
  apply (below_100 (fun v => Z.land (bcd_of v) 15 + bcd_of v / 16 * 10 =? v)). by vm_compute.
Qed.

Lemma bcd_hour_ok v : 0 <= v < 24 -> bcd_hour (bcd_of v) = v.
Proof.
  intros Hv. assert ((24 <=? v) || (bcd_hour (bcd_of v) =? v) = true) as E.
  { apply (below_100 (fun v => (24 <=? v) || (bcd_hour (bcd_of v) =? v))); [by vm_compute|lia]. }
  apply orb_prop in E as [?|?%Z.eqb_eq]; [lia|done].
Qed.

Lemma decode_ok registerB t : Z.land registerB 4 = 0 -> Z.land registerB 2 <> 0 -> time_ok t ->
  decode registerB (registers t) = t.
Proof.
  intros B4 B2 [S M Ho D Mo Y]. unfold decode, nz. rewrite B4. cbn [Z.eqb negb].
  apply Z.eqb_neq in B2 as ->. cbn [negb andb registers r_second r_minute r_hour r_day r_month r_year].
  rewrite !bcd_ok, bcd_hour_ok by lia. rewrite bcd_year_ok by (apply Z.mod_pos_bound; lia).
  change (CURRENT_YEAR / 100 * 100) with 2000. unfold CURRENT_YEAR.
  assert ((if t_year t mod 100 + 2000 <? 2023 then t_year t mod 100 + 2000 + 100 else t_year t mod 100 + 2000) = t_year t) as ->.
  { pose proof (Z.div_mod (t_year t) 100). pose proof (Z.mod_pos_bound (t_year t) 100).
    destruct (Z.ltb_spec (t_year t mod 100 + 2000) 2023); divmod. }
  by destruct t.
Qed.

(** A clock that shows the time [t] in BCD and counts 24 hours, and whose
    registers change at most while they are first read, gives as time stamp the
    seconds from the epoch to [t], and the part of a second the ticks add. *)
Theorem sys_timestamp_spec registerB t first jiffies : Z.land registerB 4 = 0 -> Z.land registerB 2 <> 0 ->
  time_ok t -> 0 <= jiffies < 2 ^ 64 ->
  sys_timestamp registerB [first; registers t; registers t] jiffies
  = Some (Timespec (seconds_to (t_year t) (t_mon t) (t_day t) (t_hour t) (t_min t) (t_sec t))
            (jiffies mod 100 * 10000000)).
Proof.
  intros B4 B2 T Hj. unfold sys_timestamp, get_rtc_time.
  assert (settle first [registers t; registers t] = Some (registers t)) as ->.
  { cbn. case_decide as E; [done|]. by rewrite decide_True. }
  mstep. rewrite decode_ok by done. unfold jiffies2time, HZ. rewrite div_u64_rem_correct by lia. mstep. cbn [tv_nsec].
  destruct T. rewrite mktime64_seconds by lia.
  rewrite mul_u32_u32_correct; [done| |done]. pose proof (Z.mod_pos_bound jiffies 100). lia.
Qed.

Definition noon : rtc_time := RtcTime 30 15 12 4 7 2024.

Lemma sys_timestamp_spec_witness :
  sys_timestamp 2 [RtcRaw 0 0 0 0 0 0; registers noon; registers noon] 250
  = Some (Timespec (seconds_to 2024 7 4 12 15 30) 500000000).
Proof. apply (sys_timestamp_spec 2 noon (RtcRaw 0 0 0 0 0 0) 250); [done|done|split; cbn; lia|lia]. Defined.

(** With a 12-hour clock noon, 12 with the afternoon bit, becomes midnight, and
    midnight, 12 without it, becomes noon. *)
Lemma twelve_hours_wrong : t_hour (decode 0 (RtcRaw 0 0 146 1 1 36)) = 0 /\ t_hour (decode 0 (RtcRaw 0 0 18 1 1 36)) = 12.
Proof. done. Qed.
