(* ===== verification/Hlist.v ===== *)
(** * Lists with a single pointer as head: common/lib/hlist.h

    A node has a pointer to the next one and a pointer to the cell that points
    to itself, which is the [first] of the head or the [next] of the node
    before.  [next] is the first member of a node and [first] the only one of
    a head, so that the address of a node or a head is the address of that
    cell: [cell] holds these pointers, [pprevs] the other ones.  Storing where
    nothing is allocated is a fault. *)

From S2P Require Import Prelude Links.

Record hmem := HMem { cell : gmap Z Z; pprevs : gmap Z Z }.

Definition set_cell (m : hmem) (p v : Z) : option hmem :=
  _ ← cell m !! p; Some (HMem (<[p := v]> (cell m)) (pprevs m)).
Definition set_pprev (m : hmem) (n v : Z) : option hmem :=
  _ ← pprevs m !! n; Some (HMem (cell m) (<[n := v]> (pprevs m))).

(** ** Operations *)

Definition INIT_HLIST_HEAD (m : hmem) (h : Z) : option hmem := set_cell m h NULL.
Definition INIT_HLIST_NODE (m : hmem) (n : Z) : option hmem :=
  m ← set_cell m n NULL; set_pprev m n NULL.
Definition hlist_unhashed (m : hmem) (n : Z) : option bool := p ← pprevs m !! n; Some (p =? NULL).
Definition hlist_empty (m : hmem) (h : Z) : option bool := f ← cell m !! h; Some (f =? NULL).

Definition __hlist_del (m : hmem) (n : Z) : option hmem :=
  next ← cell m !! n;
  pprev ← pprevs m !! n;
  m ← set_cell m pprev next;
  if negb (next =? NULL) then set_pprev m next pprev else Some m.

Definition hlist_del (m : hmem) (n : Z) : option hmem :=
  m ← __hlist_del m n; m ← set_cell m n NULL; set_pprev m n NULL.

Definition hlist_del_init (m : hmem) (n : Z) : option hmem :=
  un ← hlist_unhashed m n;
  if negb un then m ← __hlist_del m n; INIT_HLIST_NODE m n else Some m.

Definition hlist_add_head (m : hmem) (n h : Z) : option hmem :=
  first ← cell m !! h;
  m ← set_cell m n first;
  m ← (if negb (first =? NULL) then set_pprev m first n else Some m);
  m ← set_cell m h n;
  set_pprev m n h.

Definition hlist_add_before (m : hmem) (n next : Z) : option hmem :=
  p ← pprevs m !! next;
  m ← set_pprev m n p;
  m ← set_cell m n next;
  m ← set_pprev m next n;
  p ← pprevs m !! n;
  set_cell m p n.

Definition hlist_add_after (m : hmem) (n next : Z) : option hmem :=
  v ← cell m !! n;
  m ← set_cell m next v;
  m ← set_cell m n next;
  m ← set_pprev m next n;
  v ← cell m !! next;
  if negb (v =? NULL) then set_pprev m v next else Some m.

Definition hlist_add_fake (m : hmem) (n : Z) : option hmem := set_pprev m n n.

Definition hlist_move_list (m : hmem) (old new_node : Z) : option hmem :=
  f ← cell m !! old;
  m ← set_cell m new_node f;
  m ← (if negb (f =? NULL) then set_pprev m f new_node else Some m);
  set_cell m old NULL.

(** The nodes [hlist_for_each] visits; [fuel] bounds the turns. *)
Fixpoint for_each (fuel : nat) (m : hmem) (pos : Z) : option (list Z) :=
  match fuel with
  | O => None
  | S fuel' =>
      if pos =? NULL then Some []
      else next ← cell m !! pos; xs ← for_each fuel' m next; Some (pos :: xs)
  end.
Definition hlist_for_each (fuel : nat) (m : hmem) (h : Z) : option (list Z) :=
  first ← cell m !! h; for_each fuel m first.

(** ** The abstraction *)

(** From the cell [p] through the nodes [xs] to a cell that holds [e]. *)
Fixpoint seg (m : hmem) (p : Z) (xs : list Z) (e : Z) : Prop :=
  match xs with
  | [] => cell m !! p = Some e
  | x :: xs' => cell m !! p = Some x /\ x <> NULL /\ pprevs m !! x = Some p /\ seg m x xs' e
  end.

Record hrep (m : hmem) (h : Z) (xs : list Z) : Prop := {
  hr_head : h <> NULL;
  hr_seg : seg m h xs NULL;
  hr_nodup : NoDup (h :: xs);
}.

(** A node that can be put into the list. *)
Definition fresh (m : hmem) (h : Z) (xs : list Z) (n : Z) : Prop :=
  n ∉ h :: xs /\ n <> NULL /\ is_Some (cell m !! n) /\ is_Some (pprevs m !! n).

(** The last cell, and the pointer a list starts with. *)
Fixpoint lastp (p : Z) (xs : list Z) : Z := match xs with [] => p | x :: xs' => lastp x xs' end.
Definition first (xs : list Z) (e : Z) : Z := match xs with [] => e | x :: _ => x end.

Lemma lastp_in xs : forall p, lastp p xs ∈ p :: xs.
Proof. induction xs as [|x xs IH]; intros p; cbn; [set_solver|]. specialize (IH x). set_solver. Qed.

Lemma seg_first m p xs e : seg m p xs e -> cell m !! p = Some (first xs e).
Proof. destruct xs; [done|]. by intros (? & _). Qed.

Lemma seg_split m xs ys e : forall p, seg m p (xs ++ ys) e <-> seg m p xs (first ys e) /\ seg m (lastp p xs) ys e.
Proof.
  induction xs as [|x xs IH]; intros p; cbn [app seg lastp]; [|rewrite IH; tauto].
  split; [|tauto]. intros Hs. split; [by apply seg_first|done].
Qed.

Lemma seg_frame m m' xs e : forall p, (forall q, q ∈ p :: xs -> cell m' !! q = cell m !! q) ->
  (forall q, q ∈ xs -> pprevs m' !! q = pprevs m !! q) -> seg m p xs e -> seg m' p xs e.
Proof.
  induction xs as [|x xs IH]; intros p Hc Hp; cbn [seg].
  - by rewrite Hc by set_solver.
  - intros (E & Hx & Ep & Hs). rewrite Hc, Hp by set_solver. split_and!; [done..|].
    apply IH; [..|done]; intros q Hq; [apply Hc|apply Hp]; set_solver.
Qed.

(** The last cell is set to another pointer. *)
Lemma seg_set_last m m' xs e e' : forall p, seg m p xs e -> NoDup (p :: xs) ->
  cell m' !! lastp p xs = Some e' ->
  (forall q, q ∈ p :: xs -> q <> lastp p xs -> cell m' !! q = cell m !! q) ->
  (forall q, q ∈ xs -> pprevs m' !! q = pprevs m !! q) -> seg m' p xs e'.
Proof.
  induction xs as [|x xs IH]; intros p; cbn [seg lastp]; [by intros|].
  intros (E & Hx & Ep & Hs) Hd Hl Hc Hp. apply NoDup_cons in Hd as [Hpx Hd]. pose proof (lastp_in xs x).
  rewrite Hc, Hp by set_solver. split_and!; [done..|]. apply IH; try done; intros q Hq; [apply Hc|apply Hp]; set_solver.
Qed.

Lemma seg_alloc m xs e : forall p, seg m p xs e -> (forall q, q ∈ p :: xs -> is_Some (cell m !! q)) /\
  forall q, q ∈ xs -> q <> NULL /\ is_Some (pprevs m !! q).
Proof.
  induction xs as [|x xs IH]; intros p; cbn [seg].
  - intros E. split; [|set_solver]. intros q Hq. assert (q = p) as -> by set_solver. by eexists.
  - intros (E & Hx & Ep & Hs). destruct (IH x Hs) as [I1 I2]. split; intros q Hq; apply elem_of_cons in Hq as [->|Hq];
      eauto.
Qed.

Lemma lastp_snoc xs : forall h x, lastp h (xs ++ [x]) = x.
Proof. induction xs; cbn; auto. Qed.

Lemma lastp_not_in h xs ys q : NoDup (h :: xs ++ ys) -> q ∈ ys -> q <> lastp h xs.
Proof.
  rewrite (app_comm_cons xs ys h). intros (_ & D & _)%NoDup_app Hq ->. by apply (D (lastp h xs)); [apply lastp_in|].
Qed.

Lemma Permutation_middle_cons (h n : Z) xs ys : h :: xs ++ n :: ys ≡ₚ n :: h :: xs ++ ys.
Proof. by rewrite <- Permutation_middle, Permutation_swap. Qed.

(** A list with the node [n] between [xs] and [ys] differs from one without it
    in the pointers of [n] and of its neighbours only. *)
Lemma seg_change m m' h xs ys e v : seg m h xs e -> NoDup (h :: xs ++ ys) -> cell m' !! lastp h xs = Some v ->
  (forall q, q ∈ h :: xs -> q <> lastp h xs -> cell m' !! q = cell m !! q) ->
  (forall q, q ∈ xs -> q <> first ys NULL -> pprevs m' !! q = pprevs m !! q) -> seg m' h xs v.
Proof.
  intros S D C1 Co Po. rewrite (app_comm_cons xs ys h) in D. apply NoDup_app in D as (D & Dxy & _).
  apply (seg_set_last m _ _ e); try done. intros q Hq. apply Po; [done|]. intros ->.
  destruct ys as [|y ys]; cbn [first] in Hq.
  - destruct (seg_alloc _ _ _ _ S) as [_ Ha]. by destruct (Ha _ Hq).
  - apply (Dxy y); [by right|by left].
Qed.

Lemma seg_rest m m' p p' ys : seg m p ys NULL -> NoDup ys -> cell m' !! p' = Some (first ys NULL) ->
  (forall y ys', ys = y :: ys' -> pprevs m' !! y = Some p') ->
  (forall q, q ∈ ys -> cell m' !! q = cell m !! q) ->
  (forall q, q ∈ ys -> q <> first ys NULL -> pprevs m' !! q = pprevs m !! q) -> seg m' p' ys NULL.
Proof.
  intros S D C1 P1 Co Po. destruct ys as [|y ys]; [done|]. destruct S as (Ey & Hy & Epy & S).
  apply NoDup_cons in D as [D _]. cbn [seg first] in *. split_and!; [done|done|by eapply P1|].
  apply (seg_frame m); [done| |done]. intros q Hq. apply Po; [by right|]. by intros ->.
Qed.

Lemma hrep_insert m m' h xs ys n : hrep m h (xs ++ ys) -> n ∉ h :: xs ++ ys -> n <> NULL ->
  cell m' !! lastp h xs = Some n -> cell m' !! n = Some (first ys NULL) -> pprevs m' !! n = Some (lastp h xs) ->
  (forall y ys', ys = y :: ys' -> pprevs m' !! y = Some n) ->
  (forall q, q <> n -> q <> lastp h xs -> cell m' !! q = cell m !! q) ->
  (forall q, q <> n -> q <> first ys NULL -> pprevs m' !! q = pprevs m !! q) -> hrep m' h (xs ++ n :: ys).
Proof.
  intros [Hh S D] Hn Hn0 C1 C2 P1 P2 Co Po. apply seg_split in S as [S1 S2].
  assert (Hne : forall q, q ∈ h :: xs ++ ys -> q <> n) by (intros q Hq ->; done).
  pose proof D as Dys. rewrite (app_comm_cons xs ys h) in Dys. apply NoDup_app in Dys as (_ & _ & Dys).
  split; [done|apply seg_split; split|].
  - apply (seg_change m _ _ _ ys (first ys NULL)); try done; intros q Hq; [intros; apply Co|apply Po]; try done;
      apply Hne; [apply elem_of_cons in Hq as [->|Hq]; [by left|]|]; right; apply elem_of_app; by left.
  - cbn [seg]. split_and!; [done..|]. apply (seg_rest m _ (lastp h xs)); try done; intros q Hq;
      [apply Co; [|by eapply lastp_not_in]|intros; apply Po; [|done]]; apply Hne; right; apply elem_of_app; by right.
  - rewrite Permutation_middle_cons. apply NoDup_cons. done.
Qed.

Lemma hrep_delete m m' h xs ys n : hrep m h (xs ++ n :: ys) -> cell m' !! lastp h xs = Some (first ys NULL) ->
  (forall y ys', ys = y :: ys' -> pprevs m' !! y = Some (lastp h xs)) ->
  (forall q, q <> n -> q <> lastp h xs -> cell m' !! q = cell m !! q) ->
  (forall q, q <> n -> q <> first ys NULL -> pprevs m' !! q = pprevs m !! q) -> hrep m' h (xs ++ ys).
Proof.
  intros [Hh S D] C1 P1 Co Po. apply seg_split in S as [S1 (E & Hn & Ep & S2)].
  rewrite Permutation_middle_cons in D. apply NoDup_cons in D as [Dn D].
  assert (Hne : forall q, q ∈ h :: xs ++ ys -> q <> n) by (intros q Hq ->; done).
  pose proof D as Dys. rewrite (app_comm_cons xs ys h) in Dys. apply NoDup_app in Dys as (_ & _ & Dys).
  split; [done|apply seg_split; split|done].
  - apply (seg_change m _ _ _ ys n); try done; intros q Hq; [intros; apply Co|apply Po]; try done;
      apply Hne; [apply elem_of_cons in Hq as [->|Hq]; [by left|]|]; right; apply elem_of_app; by left.
  - apply (seg_rest m _ n); try done; intros q Hq;
      [apply Co; [|by eapply lastp_not_in]|intros; apply Po; [|done]]; apply Hne; right; apply elem_of_app; by right.
Qed.

(** ** The operations on the sequence of nodes *)

Lemma set_cell_eq m p v : is_Some (cell m !! p) -> set_cell m p v = Some (HMem (<[p := v]> (cell m)) (pprevs m)).
Proof. unfold set_cell. by intros [? ->]. Qed.
Lemma set_pprev_eq m p v : is_Some (pprevs m !! p) -> set_pprev m p v = Some (HMem (cell m) (<[p := v]> (pprevs m))).
Proof. unfold set_pprev. by intros [? ->]. Qed.

(** Reads and writes of what is allocated, one after the other. *)
Ltac hstep :=
  match goal with
  | |- context [set_cell ?m ?p ?v] => rewrite (set_cell_eq m p v) by (cbn; rewrite ?lookup_insert_is_Some'; eauto)
  | |- context [set_pprev ?m ?p ?v] => rewrite (set_pprev_eq m p v) by (cbn; rewrite ?lookup_insert_is_Some'; eauto)
  end; cbn [mbind option_bind cell pprevs].

(** What the operations leave alone. *)
Definition same_but (m m' : hmem) (qs : list Z) : Prop :=
  forall q, q ∉ qs -> cell m' !! q = cell m !! q /\ pprevs m' !! q = pprevs m !! q.

Lemma hrep_at m h xs ys : hrep m h (xs ++ ys) ->
  cell m !! lastp h xs = Some (first ys NULL) /\ lastp h xs <> NULL /\ is_Some (cell m !! lastp h xs) /\
  (ys <> [] -> first ys NULL <> NULL /\ pprevs m !! first ys NULL = Some (lastp h xs)).
Proof.
  intros [Hh S D]. destruct (seg_alloc _ _ _ _ S) as [A1 A2]. apply seg_split in S as [S1 S2].
  pose proof (seg_first _ _ _ _ S2) as E. split_and!; [done| |by eexists|].
  - pose proof (lastp_in xs h) as [->|Hin]%elem_of_cons; [done|]. apply A2, elem_of_app. by left.
  - destruct ys as [|y ys]; [done|]. by destruct S2 as (_ & ? & ? & _).
Qed.

(** The memory [m'] after putting [n] behind the cell [p] and before [f]. *)
Record linked (m m' : hmem) (p f n : Z) : Prop := {
  lk_p : cell m' !! p = Some n;
  lk_n : cell m' !! n = Some f;
  lk_pp : pprevs m' !! n = Some p;
  lk_f : f <> NULL -> pprevs m' !! f = Some n;
  lk_cell : forall q, q <> n -> q <> p -> cell m' !! q = cell m !! q;
  lk_pprevs : forall q, q <> n -> q <> f -> pprevs m' !! q = pprevs m !! q;
}.

(** The same after taking [n] out. *)
Record unlinked (m m' : hmem) (p f n : Z) : Prop := {
  ul_p : cell m' !! p = Some f;
  ul_f : f <> NULL -> pprevs m' !! f = Some p;
  ul_cell : forall q, q <> n -> q <> p -> cell m' !! q = cell m !! q;
  ul_pprevs : forall q, q <> n -> q <> f -> pprevs m' !! q = pprevs m !! q;
}.

Lemma linked_hrep m m' h xs ys n : hrep m h (xs ++ ys) -> n ∉ h :: xs ++ ys -> n <> NULL ->
  linked m m' (lastp h xs) (first ys NULL) n -> hrep m' h (xs ++ n :: ys).
Proof.
  intros Hr Hn H0 []. apply (hrep_insert m); try done. intros y ys' ->. cbn [first] in *.
  destruct (hrep_at _ _ _ _ Hr) as (_ & _ & _ & Hf). by apply lk_f0, Hf.
Qed.

Lemma unlinked_hrep m m' h xs ys n : hrep m h (xs ++ n :: ys) ->
  unlinked m m' (lastp h xs) (first ys NULL) n -> hrep m' h (xs ++ ys).
Proof.
  intros Hr []. apply (hrep_delete m m' h xs ys n); try done. intros y ys' ->. cbn [first] in *. apply ul_f0.
  rewrite (cons_middle n xs (y :: ys')), (app_assoc xs [n]) in Hr. by destruct (hrep_at _ _ _ _ Hr) as (_ & _ & _ & Hf); apply Hf.
Qed.

Ltac hsolve := constructor; cbn [cell pprevs]; intros; repeat (rewrite lookup_insert_eq || rewrite lookup_insert_ne by done); done.

Lemma add_head_linked m h n f : cell m !! h = Some f -> is_Some (cell m !! n) -> is_Some (pprevs m !! n) ->
  (f <> NULL -> is_Some (pprevs m !! f)) -> n <> h -> n <> f ->
  exists m', hlist_add_head m n h = Some m' /\ linked m m' h f n.
Proof.
  intros E A1 A2 A3 Hnh Hnf. unfold hlist_add_head. rewrite E. cbn [mbind option_bind]. hstep.
  destruct (Z.eqb_spec f NULL) as [->|Hf]; cbn [negb mbind option_bind]; [|specialize (A3 Hf)]; repeat hstep;
    (eexists; split; [done|]); hsolve.
Qed.

Lemma add_before_linked m p f n : pprevs m !! f = Some p -> f <> NULL -> is_Some (cell m !! p) ->
  is_Some (cell m !! n) -> is_Some (pprevs m !! n) -> n <> p -> n <> f ->
  exists m', hlist_add_before m n f = Some m' /\ linked m m' p f n.
Proof.
  intros E H0 A1 A2 A3 Hnp Hnf. unfold hlist_add_before. rewrite E. cbn [mbind option_bind]. repeat hstep.
  rewrite lookup_insert_ne, lookup_insert_eq by done. cbn [mbind option_bind]. hstep. eexists. split; [done|]. hsolve.
Qed.

Lemma add_after_linked m p f n : cell m !! p = Some f -> is_Some (cell m !! n) -> is_Some (pprevs m !! n) ->
  (f <> NULL -> is_Some (pprevs m !! f)) -> n <> p -> n <> f ->
  exists m', hlist_add_after m p n = Some m' /\ linked m m' p f n.
Proof.
  intros E A1 A2 A3 Hnp Hnf. unfold hlist_add_after. rewrite E. cbn [mbind option_bind]. repeat hstep.
  rewrite lookup_insert_ne, lookup_insert_eq by done. cbn [mbind option_bind].
  destruct (Z.eqb_spec f NULL) as [->|Hf]; cbn [negb]; [|specialize (A3 Hf); hstep]; (eexists; split; [done|]); hsolve.
Qed.

Lemma del_unlinked m p f n : cell m !! n = Some f -> pprevs m !! n = Some p -> is_Some (cell m !! p) ->
  (f <> NULL -> is_Some (pprevs m !! f)) -> n <> p -> n <> f ->
  exists m', hlist_del m n = Some m' /\ unlinked m m' p f n /\ pprevs m' !! n = Some NULL.
Proof.
  intros E1 E2 A1 A3 Hnp Hnf. unfold hlist_del, __hlist_del. rewrite E1, E2. cbn [mbind option_bind]. hstep.
  destruct (Z.eqb_spec f NULL) as [->|Hf]; cbn [negb mbind option_bind]; [|specialize (A3 Hf)];
    repeat hstep; (eexists; split_and!; [done| |]); [hsolve|by cbn; rewrite lookup_insert_eq|hsolve|by cbn; rewrite lookup_insert_eq].
Qed.

Lemma del_init_eq m p n : pprevs m !! n = Some p ->
  hlist_del_init m n = if p =? NULL then Some m else hlist_del m n.
Proof.
  intros E. unfold hlist_del_init, hlist_unhashed. rewrite E. cbn [mbind option_bind]. by destruct (p =? NULL).
Qed.

(** *** One operation, and what it does to the sequence *)

Inductive hop := AddHead (n : Z) | AddBefore (n next : Z) | AddAfter (n next : Z) | Del (n : Z) | DelInit (n : Z).

Definition run_hop (m : hmem) (h : Z) (o : hop) : option hmem :=
  match o with
  | AddHead n => hlist_add_head m n h
  | AddBefore n next => hlist_add_before m n next
  | AddAfter n next => hlist_add_after m n next
  | Del n => hlist_del m n
  | DelInit n => hlist_del_init m n
  end.

Fixpoint insert_before (n x : Z) (xs : list Z) : list Z :=
  match xs with [] => [] | y :: ys => if y =? x then n :: y :: ys else y :: insert_before n x ys end.
Fixpoint insert_after (x n : Z) (xs : list Z) : list Z :=
  match xs with [] => [] | y :: ys => if y =? x then y :: n :: ys else y :: insert_after x n ys end.
Definition remove (n : Z) (xs : list Z) : list Z := filter (fun y => y <> n) xs.

Definition abs_hop (xs : list Z) (o : hop) : list Z :=
  match o with
  | AddHead n => n :: xs
  | AddBefore n next => insert_before n next xs
  | AddAfter n next => insert_after n next xs
  | Del n | DelInit n => remove n xs
  end.

(** What is added is allocated and not in the list; what is named is in it.
    [hlist_del_init] also takes a node that is in no list. *)
Definition hop_ok (m : hmem) (h : Z) (xs : list Z) (o : hop) : Prop :=
  match o with
  | AddHead n => fresh m h xs n
  | AddBefore n next => next ∈ xs /\ fresh m h xs n
  | AddAfter n next => n ∈ xs /\ fresh m h xs next
  | Del n => n ∈ xs
  | DelInit n => n ∈ xs \/ n ∉ xs /\ pprevs m !! n = Some NULL
  end.

Definition hop_node (o : hop) : Z :=
  match o with AddHead n | AddBefore n _ | AddAfter _ n | Del n | DelInit n => n end.

Lemma insert_before_mid n x xs ys : x ∉ xs -> insert_before n x (xs ++ x :: ys) = xs ++ n :: x :: ys.
Proof.
  induction xs as [|y xs IH]; cbn; intros Hx; [by rewrite Z.eqb_refl|].
  apply not_elem_of_cons in Hx as [Hy Hx]. rewrite (proj2 (Z.eqb_neq y x)) by done. by rewrite IH.
Qed.

Lemma insert_after_mid n x xs ys : x ∉ xs -> insert_after x n (xs ++ x :: ys) = xs ++ x :: n :: ys.
Proof.
  induction xs as [|y xs IH]; cbn; intros Hx; [by rewrite Z.eqb_refl|].
  apply not_elem_of_cons in Hx as [Hy Hx]. rewrite (proj2 (Z.eqb_neq y x)) by done. by rewrite IH.
Qed.

Lemma remove_notin n xs : n ∉ xs -> remove n xs = xs.
Proof.
  unfold remove. induction xs as [|y xs IH]; [done|]. intros [Hy Hx]%not_elem_of_cons.
  rewrite filter_cons_True by done. by rewrite IH.
Qed.

Lemma remove_mid n xs ys : n ∉ xs -> n ∉ ys -> remove n (xs ++ n :: ys) = xs ++ ys.
Proof.
  intros Hx Hy. unfold remove. rewrite filter_app, filter_cons_False by tauto.
  fold (remove n xs) (remove n ys). by rewrite !remove_notin.
Qed.

Lemma nodup_mid (h n : Z) xs ys : NoDup (h :: xs ++ n :: ys) -> n ∉ xs /\ n ∉ ys /\ n <> h /\ n <> lastp h xs.
Proof.
  intros D. pose proof (lastp_not_in h xs (n :: ys) n D ltac:(by left)) as Hl.
  rewrite Permutation_middle_cons in D. apply NoDup_cons in D as [D _]. apply not_elem_of_cons in D as [Hh D].
  by apply not_elem_of_app in D as [? ?].
Qed.

(** The first pointer of what follows is of a node of the list, if of any. *)
Lemma first_alloc m h xs ys : hrep m h (xs ++ ys) ->
  (first ys NULL <> NULL -> is_Some (pprevs m !! first ys NULL)) /\ (first ys NULL = NULL \/ first ys NULL ∈ ys).
Proof.
  intros Hr. destruct (hrep_at _ _ _ _ Hr) as (_ & _ & _ & Hf). destruct ys as [|y ys]; cbn in *; [by split; [|left]|].
  destruct Hf as [? ->]; [done|]. split; [by eexists|right; by left].
Qed.

(** A fresh node is none of the neighbours. *)
Lemma fresh_ne m h xs ys n : hrep m h (xs ++ ys) -> fresh m h (xs ++ ys) n ->
  n <> lastp h xs /\ n <> first ys NULL.
Proof.
  intros Hr (Hn & H0 & _). split.
  - intros ->. apply Hn. pose proof (lastp_in xs h) as [->|]%elem_of_cons; [by left|right; apply elem_of_app; by left].
  - intros ->. destruct (first_alloc _ _ _ _ Hr) as [_ [E|Hi]]; [done|]. apply Hn. right. apply elem_of_app. by right.
Qed.

Lemma linked_same m m' p f n qs : linked m m' p f n -> n ∈ qs -> p ∈ qs -> f ∈ qs -> same_but m m' qs.
Proof. intros [] Hn Hp Hf q Hq. split; [apply lk_cell0|apply lk_pprevs0]; by intros ->. Qed.

Lemma unlinked_same m m' p f n qs : unlinked m m' p f n -> n ∈ qs -> p ∈ qs -> f ∈ qs -> same_but m m' qs.
Proof. intros [] Hn Hp Hf q Hq. split; [apply ul_cell0|apply ul_pprevs0]; by intros ->. Qed.

(** The memory an operation may change: the node, the head, the nodes of the
    list, and no node at the null pointer. *)
Definition touched (h : Z) (xs : list Z) (n : Z) : list Z := NULL :: n :: h :: xs.

Lemma touched_nbrs m h xs ys n : hrep m h (xs ++ ys) ->
  lastp h xs ∈ touched h (xs ++ ys) n /\ first ys NULL ∈ touched h (xs ++ ys) n.
Proof.
  intros Hr. unfold touched. split.
  - pose proof (lastp_in xs h) as [->|]%elem_of_cons; [by do 2 right; left|]. do 3 right. apply elem_of_app. by left.
  - destruct (first_alloc _ _ _ _ Hr) as [_ [->|Hi]]; [by left|]. do 3 right. apply elem_of_app. by right.
Qed.

(** What an operation promises: its result, that it represents [xs'], and that
    nothing else changes. *)
Definition does (m : hmem) (h : Z) (xs : list Z) (n : Z) (r : option hmem) (xs' : list Z) : Prop :=
  exists m', r = Some m' /\ hrep m' h xs' /\ same_but m m' (touched h xs n).

(** The three ways to add are one: [n] comes behind [xs]. *)
Lemma adds m h xs ys n r : hrep m h (xs ++ ys) -> fresh m h (xs ++ ys) n ->
  (exists m', r = Some m' /\ linked m m' (lastp h xs) (first ys NULL) n) ->
  does m h (xs ++ ys) n r (xs ++ n :: ys).
Proof.
  intros Hr (Hn & H0 & _) (m' & -> & Hl). exists m'. split_and!; [done|by eapply linked_hrep|].
  destruct (touched_nbrs _ _ _ _ n Hr). eapply linked_same; try done. by right; left.
Qed.

Lemma add_head_does m h xs n : hrep m h xs -> fresh m h xs n -> does m h xs n (hlist_add_head m n h) (n :: xs).
Proof.
  intros Hr Hf. apply (adds m h [] xs n); try done. destruct (hrep_at m h [] xs Hr) as (E & _).
  destruct (first_alloc m h [] xs Hr) as [A _]. destruct (fresh_ne m h [] xs n Hr Hf). destruct Hf as (_ & _ & ? & ?).
  by apply add_head_linked.
Qed.

Lemma add_before_does m h xs n x : hrep m h xs -> x ∈ xs -> fresh m h xs n ->
  does m h xs n (hlist_add_before m n x) (insert_before n x xs).
Proof.
  intros Hr (xs1 & xs2 & ->)%list_elem_of_split Hf. destruct (nodup_mid _ _ _ _ (hr_nodup _ _ _ Hr)) as (Hx & _).
  rewrite insert_before_mid by done. apply (adds m h xs1 (x :: xs2) n); try done.
  destruct (hrep_at _ _ _ _ Hr) as (E & _ & A & Hp). destruct Hp as [H0 Hp]; [done|].
  destruct (fresh_ne _ _ _ _ n Hr Hf). destruct Hf as (_ & _ & ? & ?). by apply add_before_linked.
Qed.

Lemma add_after_does m h xs n x : hrep m h xs -> x ∈ xs -> fresh m h xs n ->
  does m h xs n (hlist_add_after m x n) (insert_after x n xs).
Proof.
  intros Hr (xs1 & xs2 & ->)%list_elem_of_split Hf. destruct (nodup_mid _ _ _ _ (hr_nodup _ _ _ Hr)) as (Hx & _).
  rewrite insert_after_mid by done. rewrite (cons_middle x xs1 xs2), (cons_middle x xs1 (n :: xs2)), !app_assoc in *.
  apply adds; try done. destruct (hrep_at _ _ _ _ Hr) as (E & _).
  destruct (first_alloc _ _ _ _ Hr) as [A _]. destruct (fresh_ne _ _ _ _ n Hr Hf) as [Hl ?]. destruct Hf as (_ & _ & ? & ?).
  rewrite lastp_snoc in *.
  by apply add_after_linked.
Qed.

Lemma del_does m h xs n : hrep m h xs -> n ∈ xs -> does m h xs n (hlist_del m n) (remove n xs).
Proof.
  intros Hr (xs1 & xs2 & ->)%list_elem_of_split.
  destruct (nodup_mid _ _ _ _ (hr_nodup _ _ _ Hr)) as (Hx & Hy & Hh & Hl). rewrite remove_mid by done.
  destruct (hrep_at _ _ _ _ Hr) as (E & _ & A & Hp). destruct Hp as [H0 Hp]; [done|]. cbn [first] in *.
  pose proof Hr as Hr'. rewrite (cons_middle n xs1 xs2), app_assoc in Hr'.
  destruct (hrep_at _ _ _ _ Hr') as (En & _). destruct (first_alloc _ _ _ _ Hr') as [Af Hf].
  destruct (touched_nbrs _ _ _ _ n Hr') as [_ T2]. destruct (touched_nbrs _ _ _ _ n Hr) as [T1 _].
  rewrite lastp_snoc in En. rewrite <- app_assoc in T2.
  destruct (del_unlinked m (lastp h xs1) (first xs2 NULL) n) as (m' & -> & Hu & _); try done.
  { intros Ef. destruct Hf as [Hf|Hf]; congruence. }
  exists m'. split_and!; [done|by eapply unlinked_hrep|]. eapply unlinked_same; try done. by right; left.
Qed.

Lemma in_hashed m h xs n : hrep m h xs -> n ∈ xs -> exists p, pprevs m !! n = Some p /\ p <> NULL.
Proof.
  intros Hr (xs1 & xs2 & ->)%list_elem_of_split. destruct (hrep_at _ _ _ _ Hr) as (_ & H0 & _ & Hp).
  destruct Hp as [_ Hp]; [done|]. by exists (lastp h xs1).
Qed.

Lemma run_hop_does m h xs o : hrep m h xs -> hop_ok m h xs o ->
  does m h xs (hop_node o) (run_hop m h o) (abs_hop xs o).
Proof.
  intros Hr. destruct o as [n|n x|x n|n|n]; cbn [hop_ok run_hop abs_hop hop_node].
  - by apply add_head_does.
  - intros [? ?]. by apply add_before_does.
  - intros [? ?]. by apply add_after_does.
  - by apply del_does.
  - intros [Hin|[Hn E]].
    + destruct (in_hashed _ _ _ _ Hr Hin) as (p & E & Hp). rewrite (del_init_eq _ _ _ E), (proj2 (Z.eqb_neq p NULL)) by done.
      by apply del_does.
    + rewrite (del_init_eq _ _ _ E), remove_notin by done. by exists m.
Qed.

Lemma hrep_frame m m' h xs qs : hrep m h xs -> same_but m m' qs -> (forall q, q ∈ h :: xs -> q ∉ qs) -> hrep m' h xs.
Proof.
  intros [Hh S D] Hs Hd. split; [done| |done]. apply (seg_frame m); [..|done]; intros q Hq; apply Hs, Hd; [done|by right].
Qed.

Lemma for_each_seg m xs : forall p, seg m p xs NULL ->
  exists f, cell m !! p = Some f /\ for_each (S (length xs)) m f = Some xs.
Proof.
  induction xs as [|x xs IH]; intros p; [intros E; by exists NULL|]. intros (E & Hx & _ & Hs). exists x. split; [done|].
  destruct (IH _ Hs) as (f & Ef & Hf). cbn [length]. remember (S (length xs)) as k. cbn [for_each].
  rewrite (proj2 (Z.eqb_neq x NULL)) by done. rewrite Ef. cbn [mbind option_bind]. by rewrite Hf.
Qed.

Lemma hlist_for_each_spec m h xs : hrep m h xs -> hlist_for_each (S (length xs)) m h = Some xs.
Proof. intros [_ Hs _]. unfold hlist_for_each. by destruct (for_each_seg _ _ _ Hs) as (f & -> & ?). Qed.

(** [hlist_move_list] gives the sequence to the new head, whatever that held. *)
Lemma move_list_spec m old new xs : hrep m old xs -> new ∉ old :: xs -> new <> NULL -> is_Some (cell m !! new) ->
  exists m', hlist_move_list m old new = Some m' /\ hrep m' new xs /\ hrep m' old [].
Proof.
  intros Hr Hn H0 A. destruct (hrep_at m old [] xs Hr) as (E & Ho & A' & _). cbn [lastp] in *.
  destruct (first_alloc m old [] xs Hr) as [Af Hf]. pose proof Hr as [_ Hs D].
  apply not_elem_of_cons in Hn as [Hno Hn]. apply NoDup_cons in D as [Dh D].
  assert (Hne : forall q, q ∈ xs -> q <> new /\ q <> old) by (intros q Hq; split; intros ->; done).
  unfold hlist_move_list. rewrite E. cbn [mbind option_bind]. hstep.
  destruct (Z.eqb_spec (first xs NULL) NULL) as [E0|Hf0]; cbn [negb mbind option_bind]; [|specialize (Af Hf0)];
    repeat hstep; (eexists; split; [done|]); (split; constructor; [done| |by apply NoDup_cons|done|cbn|apply NoDup_singleton]).
  2,4: by rewrite lookup_insert_eq.
  1,2: apply (seg_rest m _ old); try done; cbn [cell pprevs].
  all: try (intros q Hq; destruct (Hne q Hq); by rewrite !lookup_insert_ne by done).
  all: try (by rewrite lookup_insert_ne, lookup_insert_eq by done).
  - destruct xs as [|x xs]; [done|]. cbn in E0, Hs. tauto.
  - intros y ys ->. by rewrite lookup_insert_eq.
  - intros q Hq Hq'. by rewrite lookup_insert_ne by done.
Qed.

(** Every operation on a hash list succeeds on a list and nodes it is made
    for, performs the operation of its name on the sequence of nodes, which is
    also what [hlist_for_each] then visits, and leaves every list alone that
    does not share its nodes. *)
Theorem hlist_refines (m : hmem) (h : Z) (xs : list Z) (o : hop) : hrep m h xs -> hop_ok m h xs o ->
  exists m', run_hop m h o = Some m' /\ hrep m' h (abs_hop xs o) /\
    hlist_for_each (S (length (abs_hop xs o))) m' h = Some (abs_hop xs o) /\
    forall h' ys, hrep m h' ys -> (forall q, q ∈ h' :: ys -> q ∉ touched h xs (hop_node o)) -> hrep m' h' ys.
Proof.
  intros Hr Ho. destruct (run_hop_does _ _ _ _ Hr Ho) as (m' & E & Hr' & Hs). exists m'.
  split_and!; [done|done|by apply hlist_for_each_spec|]. intros h' ys Hy. by apply (hrep_frame m _ _ _ _ Hy Hs).
Qed.

Definition demo : hmem :=
  HMem (list_to_map [(100, 200); (200, 300); (300, NULL); (400, 0)])
       (list_to_map [(200, 100); (300, 200); (400, 0)]).

Lemma hlist_refines_witness : exists m', hlist_add_after demo 200 400 = Some m' /\
  hlist_for_each 4 m' 100 = Some [200; 400; 300].
Proof.
  destruct (hlist_refines demo 100 [200; 300] (AddAfter 200 400)) as (m' & E & _ & F & _).
  - split; [done|by cbn; split_and!|by apply (bool_decide_unpack _)].
  - split; [by left|]. split_and!; [by apply (bool_decide_unpack _)|done|by eexists|by eexists].
  - exists m'. split; [exact E|exact F].
Defined.
