(* ===== verification/Socket.v ===== *)
(** * The socket calls: kernel/net/socket.c

    A call hands a request to the network thread and sleeps until it is done
    ([exmsg_func_exec]); a function here is the call at the moment the network
    thread runs its request.  A receiver that finds no packet sleeps on the
    socket's semaphore until one arrives, so that [socket_receive] is split
    there: [receive_turn] is a turn of its loop up to the sleep, and
    [receive_woken] what follows the sleep.  [rstep] interleaves any number of
    receivers on one socket with arriving packets.

    Addresses: nothing stands for the null pointer. *)

From S2P Require Import Prelude Pktbuf PktbufSpec Layout IpAddr Link Ip Sock.
From S2P Require Import Prelude.

Definition SOCK_ADDR_SIZE : Z := 16.
Definition EOF_RESULT : Z := -15.

Section Calls.
(** See [Sock]. *)
Context (xmit : netif_t -> pmem -> option (net_err_t * netif_t * pmem)).
Context (at_null : list Z).
Context (udp_bind_local : Z).
(** What the caller of [handle_sock_set_opt], which has an empty body, finds
    as its result. *)
Context (set_opt_result : Z).

Definition create_socket (u : sock_state) (family type protocol : Z) : option (Z * sock_state) :=
  '(err, fd, u) ← handle_sock_create u family type protocol;
  Some (if is_err err then -1 else fd, u).

Definition close_socket (u : sock_state) (s : ip_state) (fd : Z) : option (Z * sock_state * ip_state) :=
  '(err, u, s) ← handle_sock_close u s fd;
  Some (if is_err err then -1 else 0, u, s).

Definition socket_bind (u : sock_state) (s : ip_state) (fd : Z) (addr : option sock_addr_in_t) (len : Z)
    : option (Z * sock_state) :=
  match addr with
  | None => Some (-1, u)
  | Some a =>
      if negb (len =? SOCK_ADDR_SIZE) then Some (-1, u)
      else if negb (sin_family a =? AF_INET) then Some (-1, u)
      else
        '(err, u) ← handle_sock_bind udp_bind_local u s fd a;
        Some (if is_err err then -1 else 0, u)
  end.

Definition socket_listen (fd backlog : Z) : Z := 0.
Definition socket_accept (fd : Z) : Z := 0.

(** Connecting never asks to wait. *)
Definition socket_connect (u : sock_state) (fd : Z) (addr : option sock_addr_in_t) (addr_len : Z)
    : option (Z * sock_state) :=
  if negb (addr_len =? SOCK_ADDR_SIZE) then Some (-1, u)
  else
    match addr with
    | None => Some (-1, u)
    | Some a =>
        if negb (sin_family a =? AF_INET) then Some (-1, u)
        else if q_addr (in_addr a) =? 0 then Some (-1, u)
        else
          '(err, u) ← handle_sock_connect u fd a;
          Some (if is_err err then -1 else 0, u)
    end.

Definition set_sock_opt (opt_value : bool) (opt_len : Z) : Z :=
  if negb opt_value || (opt_len =? 0) then -1
  else if set_opt_result <? 0 then set_opt_result else 0.

(** ** Sending *)

(** [data]: what is left from [start] on. *)
Fixpoint send_loop (fuel : nat) (u : sock_state) (s : ip_state) (fd : Z) (data : list Z) (send_size : Z)
    : option (Z * sock_state * ip_state) :=
  match fuel with
  | O => None
  | S fuel' =>
      if zlen data =? 0 then Some (send_size, u, s)
      else
        '(err, comp_len, u, s) ← handle_sock_send xmit at_null u s fd data;
        if is_err err then Some (-1, u, s)
        else send_loop fuel' u s fd (drop (Z.to_nat comp_len) data) (i32 (send_size + comp_len))
  end.

Definition socket_send (fuel : nat) (u : sock_state) (s : ip_state) (fd : Z) (buf : list Z)
    : option (Z * sock_state * ip_state) := send_loop fuel u s fd buf 0.

(** The destination is put into the request, but nothing reads it. *)
Definition socket_send_to (fuel : nat) (u : sock_state) (s : ip_state) (fd : Z) (buf : list Z)
    (dest : sock_addr_in_t) (dest_len : Z) : option (Z * sock_state * ip_state) :=
  if (zlen buf =? 0) || negb (dest_len =? SOCK_ADDR_SIZE) then Some (-1, u, s)
  else if negb (sin_family dest =? AF_INET) then Some (-1, u, s)
  else send_loop fuel u s fd buf 0.

(** ** Receiving *)

Inductive recv_out := Returned (r : Z) (bytes : list Z) | Asleep.

(** A packet without data leaves [comp_len] at 0 and [wait] at the null
    pointer, on which the caller then sleeps: a fault. *)
Definition receive_turn (u : sock_state) (s : ip_state) (fd len : Z)
    : option (recv_out * sock_state * ip_state) :=
  '(err, bytes, _, comp_len, u, s) ← handle_sock_receive u s fd len;
  if is_err err then Some (Returned (-1) [], u, s)
  else if nz comp_len then Some (Returned comp_len bytes, u, s)
  else match err with NET_ERR_NEED_WAIT => Some (Asleep, u, s) | _ => None end.

(** [socket_receive_from] runs the same loop; the request also has the place
    for the sender's address, which nothing stores to. *)
Definition receive_from_turn := receive_turn.

(** [segment_wait] on a semaphore that holds a unit. *)
Definition sem_take (w : sock_wait_t) : option sock_wait_t :=
  if 0 <? sem w then Some (SockWait (waiting w) (werr w) (sem w - 1)) else None.

(** After [sock_wait_enter]: return, or nothing for another turn. *)
Definition receive_woken (w : sock_wait_t) : option recv_out :=
  match werr w with
  | NET_ERR_CLOSE => Some (Returned EOF_RESULT [])
  | e => if is_err e then Some (Returned (-1) []) else None
  end.

(** The tests before the loops of [socket_receive] and
    [socket_receive_from]; [src] and [src_len] tell whether the pointers are
    not null.  What is stored through them is not the sender's address: the
    handler calls [receive], not [receive_from]. *)
Definition receive_refused (len : Z) : bool := len =? 0.
Definition receive_from_refused (len : Z) (src src_len : bool) : bool :=
  (len =? 0) || negb src_len || negb src.

End Calls.

(** ** What sending answers *)

Lemma handle_sock_send_all xmit at_null u s fd data e n u' s' :
  handle_sock_send xmit at_null u s fd data = Some (e, n, u', s') -> is_err e = false -> n = zlen data.
Proof.
  unfold handle_sock_send. intros H He. apply bind_Some in H as ([so|] & _ & H); [|by simplify_eq].
  apply bind_Some in H as (x & _ & H). unfold sock_send in H. apply bind_Some in H as (y & _ & H).
  destruct (remote_ip y =? 0); [by simplify_eq|]. apply bind_Some in H as (a & _ & H).
  unfold ops_send_to in H. apply bind_Some in H as (z & _ & H). destruct (ops z).
  - unfold udp_send_to in H. apply bind_Some in H as (z1 & _ & H). apply bind_Some in H as (ip & _ & H).
    case_match; [by simplify_eq|]. apply bind_Some in H as ([e1 u1] & _ & H). destruct (is_err e1); [by simplify_eq|].
    apply bind_Some in H as (z2 & _ & H). apply bind_Some in H as ([b m] & _ & H). apply bind_Some in H as (buf & _ & H).
    apply bind_Some in H as ([[e2 b2] m2] & _ & H). destruct (is_err e2) eqn:E2; [simplify_eq; congruence|].
    apply bind_Some in H as ([[e3 b3] s3] & _ & H). destruct (is_err e3) eqn:E3; simplify_eq; congruence.
  - unfold raw_send_to in H. apply bind_Some in H as (z1 & _ & H). case_match; [by simplify_eq|].
    apply bind_Some in H as ([b m] & _ & H). apply bind_Some in H as (buf & _ & H).
    apply bind_Some in H as ([[e2 b2] m2] & _ & H). apply bind_Some in H as ([[e3 b3] s3] & _ & H).
    destruct (is_err e3) eqn:E3; simplify_eq; congruence.
Qed.

(** Two turns of the loop are enough: all of the data goes into one request. *)
Lemma socket_send_eq xmit at_null u s fd buf e n u' s' : 0 < zlen buf < 2 ^ 31 ->
  handle_sock_send xmit at_null u s fd buf = Some (e, n, u', s') ->
  socket_send xmit at_null 2 u s fd buf = Some (if is_err e then -1 else zlen buf, u', s').
Proof.
  intros Hn H. unfold socket_send. cbn [send_loop]. rewrite (proj2 (Z.eqb_neq (zlen buf) 0)) by lia. rewrite H.
  cbn [mbind option_bind]. destruct (is_err e) eqn:He; [done|]. rewrite (handle_sock_send_all _ _ _ _ _ _ _ _ _ _ H He).
  rewrite drop_ge by (unfold zlen; lia). cbn. by rewrite i32_small by lia.
Qed.

(** ** Receivers on one socket *)

(** A thread that is about to ask, sleeps, or has its answer. *)
Inductive rthread := Calling (len : Z) | Sleeping (len : Z) | Finished (r : Z) (bytes : list Z).

Record rstate := RState { threads : list rthread; su : sock_state; si : ip_state }.

Definition after_turn (len : Z) (o : recv_out) : rthread :=
  match o with Returned r bytes => Finished r bytes | Asleep => Sleeping len end.
Definition after_wake (len : Z) (w : sock_wait_t) : rthread :=
  match receive_woken w with Some o => after_turn len o | None => Calling len end.

(** What a step of anything else keeps of the socket [k], entry [fd]. *)
Definition keeps (fd k : Z) (u u' : sock_state) : Prop :=
  get_socket u' fd = get_socket u fd /\
  (x ← socks u !! k; Some (recv_wait x, recv_list x)) = (x ← socks u' !! k; Some (recv_wait x, recv_list x)).

Inductive rstep (fd k max : Z) : rstate -> rstate -> Prop :=
  | r_turn ts u s i len o u' s' : ts !! i = Some (Calling len) -> receive_turn u s fd len = Some (o, u', s') ->
      rstep fd k max (RState ts u s) (RState (<[i := after_turn len o]> ts) u' s')
  | r_wake ts u s i len x w : ts !! i = Some (Sleeping len) -> socks u !! k = Some x ->
      sem_take (recv_wait x) = Some w ->
      rstep fd k max (RState ts u s) (RState (<[i := after_wake len w]> ts)
        (set_sock u k (with_recv x w (recv_list x))) s)
  | r_call ts u s i r bytes len : ts !! i = Some (Finished r bytes) -> receive_refused len = false ->
      rstep fd k max (RState ts u s) (RState (<[i := Calling len]> ts) u s)
  | r_deliver ts u s buf e buf' u' s' : deliver u s k max buf = Some (e, buf', u', s') ->
      rstep fd k max (RState ts u s) (RState ts u' s')
  | r_other ts u s u' s' : keeps fd k u u' -> rstep fd k max (RState ts u s) (RState ts u' s').

(** The number of threads that sleep, and that are about to ask. *)
Fixpoint asleep (ts : list rthread) : Z :=
  match ts with [] => 0 | Sleeping _ :: ts' => 1 + asleep ts' | _ :: ts' => asleep ts' end.
Fixpoint calling (ts : list rthread) : Z :=
  match ts with [] => 0 | Calling _ :: ts' => 1 + calling ts' | _ :: ts' => calling ts' end.
Definition one_asleep (t : rthread) : Z := match t with Sleeping _ => 1 | _ => 0 end.
Definition one_calling (t : rthread) : Z := match t with Calling _ => 1 | _ => 0 end.

Lemma asleep_set ts : forall i t t', ts !! i = Some t -> asleep (<[i := t']> ts) = asleep ts - one_asleep t + one_asleep t'.
Proof.
  induction ts as [|x ts IH]; intros [|i] t t' E; cbn in E; [done..| |].
  - simplify_eq. by destruct t, t'; cbn; lia.
  - specialize (IH _ _ t' E). change (<[S i := t']> (x :: ts)) with (x :: <[i := t']> ts).
    destruct x; cbn [asleep]; rewrite IH; lia.
Qed.

Lemma calling_set ts : forall i t t', ts !! i = Some t -> calling (<[i := t']> ts) = calling ts - one_calling t + one_calling t'.
Proof.
  induction ts as [|x ts IH]; intros [|i] t t' E; cbn in E; [done..| |].
  - simplify_eq. by destruct t, t'; cbn; lia.
  - specialize (IH _ _ t' E). change (<[S i := t']> (x :: ts)) with (x :: <[i := t']> ts).
    destruct x; cbn [calling]; rewrite IH; lia.
Qed.

Lemma counts_bound ts : 0 <= asleep ts <= zlen ts /\ 0 <= calling ts.
Proof. induction ts as [|[] ts IH]; cbn [asleep calling]; unfold zlen in *; cbn [length]; lia. Qed.

Lemma asleep_exists ts : 0 < asleep ts -> exists i len, ts !! i = Some (Sleeping len).
Proof.
  induction ts as [|t ts IH]; cbn [asleep]; [lia|]. destruct t as [len|len|r b].
  2: by exists 0%nat, len.
  all: intros H; destruct (IH H) as (i & len' & E); by exists (S i), len'.
Qed.

Lemma calling_exists ts : 0 < calling ts -> exists i len, ts !! i = Some (Calling len).
Proof.
  induction ts as [|t ts IH]; cbn [calling]; [lia|]. destruct t as [len|len|r b].
  1: by exists 0%nat, len.
  all: intros H; destruct (IH H) as (i & len' & E); by exists (S i), len'.
Qed.

(** A request takes the first packet, or changes nothing and asks to wait. *)
Lemma ops_receive_cases u s k len e bytes src n u' s' x : socks u !! k = Some x ->
  ops_receive_from u s k len = Some (e, bytes, src, n, u', s') ->
  (recv_list x = [] /\ e = NET_ERR_NEED_WAIT /\ n = 0 /\ u' = u) \/
  (exists b rest, recv_list x = b :: rest /\ e <> NET_ERR_NEED_WAIT /\ u' = set_sock u k (with_recv x (recv_wait x) rest)).
Proof.
  intros E. unfold ops_receive_from. rewrite E. cbn [mbind option_bind].
  destruct (ops x); [unfold udp_receive_from|unfold raw_receive_from]; rewrite E; cbn [mbind option_bind];
    (destruct (recv_list x) as [|b rest]; [intros; simplify_eq; by left|]); intros H; right; exists b, rest;
    (split; [done|]).
  - apply bind_Some in H as ([ip port] & _ & H). apply bind_Some in H as ([[? ?] ?] & _ & H).
    apply bind_Some in H as (? & _ & H). apply bind_Some in H as ([[err ?] ?] & _ & H).
    destruct (is_err err) eqn:Ee; simplify_eq; split; try done. by intros ->.
  - apply bind_Some in H as (? & _ & H). apply bind_Some in H as (? & _ & H). apply bind_Some in H as ([[err ?] ?] & _ & H).
    by destruct (is_err err); simplify_eq.
Qed.

Lemma turn_cases u s fd so len o u' s' x : get_socket u fd = Some (Some so) -> socks u !! sock so = Some x ->
  receive_turn u s fd len = Some (o, u', s') ->
  (recv_list x = [] /\ o = Asleep /\
   u' = set_sock u (sock so) (with_recv x (sock_wait_add (recv_wait x)) (recv_list x))) \/
  (exists b rest r bytes, recv_list x = b :: rest /\ o = Returned r bytes /\
   u' = set_sock u (sock so) (with_recv x (recv_wait x) rest)).
Proof.
  intros Eg E H. unfold receive_turn, handle_sock_receive, sock_receive in H. rewrite Eg in H. cbn [mbind option_bind] in H.
  apply bind_Some in H as ([[[[[e bytes] src] n] u1] s1] & H1 & H).
  apply bind_Some in H1 as ([[[[[e0 bytes0] src0] n0] u0] s0] & Ho & H1).
  apply (ops_receive_cases _ _ _ _ _ _ _ _ _ _ _ E) in Ho as [(El & -> & -> & ->)|(b & rest & El & Hne & ->)].
  - rewrite E in H1. cbn in H1. simplify_eq. cbn in H. simplify_eq. by left.
  - right. exists b, rest.
    assert (H1' : Some (e0, bytes0, src0, n0, set_sock u (sock so) (with_recv x (recv_wait x) rest), s0)
      = Some (e, bytes, src, n, u1, s1)) by (by destruct e0). simplify_eq. clear H1.
    destruct (is_err e) eqn:Ee; [simplify_eq; by do 2 eexists|].
    destruct (nz n); [simplify_eq; by do 2 eexists|]. by destruct e.
Qed.

Lemma waken_one len w : one_asleep (after_wake len w) = 0 /\ (is_err (werr w) = false -> one_calling (after_wake len w) = 1).
Proof. unfold after_wake, receive_woken. by destruct (werr w). Qed.


(** Every sleeper is counted as waiting or has a unit that wakes it; units
    come from packets that arrived; and while a sleeper is counted as waiting,
    each of the [n] packets in the queue has a receiver awake or a unit. *)
Definition counts_ok (ts : list rthread) (w : sock_wait_t) (n : Z) : Prop :=
  0 <= waiting w /\ 0 <= sem w /\ asleep ts = waiting w + sem w /\
  (0 < sem w -> werr w = NET_ERR_OK) /\ (0 < waiting w -> n <= sem w + calling ts).

Record rinv (fd k : Z) (n : nat) (st : rstate) : Prop := {
  ri_len : length (threads st) = n;
  ri_fd : exists so, get_socket (su st) fd = Some (Some so) /\ sock so = k;
  ri_sock : exists x, socks (su st) !! k = Some x /\ counts_ok (threads st) (recv_wait x) (zlen (recv_list x));
}.

Lemma counts_add ts w i len : counts_ok ts w 0 -> zlen ts < 2 ^ 31 -> ts !! i = Some (Calling len) ->
  counts_ok (<[i := Sleeping len]> ts) (sock_wait_add w) 0.
Proof.
  intros (H1 & H2 & H3 & H4 & H5) Hn E. pose proof (calling_set ts i _ (Sleeping len) E) as Ec.
  pose proof (asleep_set ts i _ (Sleeping len) E) as Ea. pose proof (counts_bound (<[i := Sleeping len]> ts)) as [Hb1 Hb2].
  unfold zlen in *. rewrite length_insert in Hb1. unfold sock_wait_add. cbn [one_asleep one_calling] in *.
  repeat split; cbn [waiting sem werr]; rewrite ?i32_small by lia; auto; lia.
Qed.

Lemma counts_taken ts w i len r bytes (b : pktbuf_t) rest : counts_ok ts w (zlen (b :: rest)) ->
  ts !! i = Some (Calling len) -> counts_ok (<[i := Finished r bytes]> ts) w (zlen rest).
Proof.
  intros (H1 & H2 & H3 & H4 & H5) E. unfold counts_ok. rewrite (asleep_set _ _ _ _ E), (calling_set _ _ _ _ E).
  unfold zlen in *. cbn [one_asleep one_calling length] in *. repeat split; auto; lia.
Qed.

Lemma counts_wake ts w w' i len n : counts_ok ts w n -> ts !! i = Some (Sleeping len) -> sem_take w = Some w' ->
  counts_ok (<[i := after_wake len w']> ts) w' n.
Proof.
  intros (H1 & H2 & H3 & H4 & H5) E. unfold sem_take. destruct (Z.ltb_spec 0 (sem w)) as [Hs|]; [|done]. intros ?; simplify_eq.
  unfold counts_ok. rewrite (asleep_set _ _ _ _ E), (calling_set _ _ _ _ E). cbn [waiting sem werr one_asleep one_calling].
  unfold after_wake, receive_woken. cbn [werr]. rewrite H4 by done. cbn. repeat split; auto; lia.
Qed.

Lemma counts_call ts w i len r bytes n : counts_ok ts w n -> ts !! i = Some (Finished r bytes) ->
  counts_ok (<[i := Calling len]> ts) w n.
Proof.
  intros (H1 & H2 & H3 & H4 & H5) E. unfold counts_ok. rewrite (asleep_set _ _ _ _ E), (calling_set _ _ _ _ E).
  cbn [one_asleep one_calling]. repeat split; auto; lia.
Qed.

Lemma counts_arrive ts w n : counts_ok ts w n -> zlen ts < 2 ^ 31 ->
  counts_ok ts (sock_wait_leave w NET_ERR_OK) (n + 1).
Proof.
  intros (H1 & H2 & H3 & H4 & H5) Hn. pose proof (counts_bound ts) as [Hb1 Hb2]. unfold sock_wait_leave.
  destruct (Z.ltb_spec 0 (waiting w)); [|repeat split; auto; lia].
  repeat split; cbn [waiting sem werr]; rewrite ?u32_small by lia; auto; lia.
Qed.

Lemma deliver_cases u s k max buf e buf' u' s' x : socks u !! k = Some x ->
  deliver u s k max buf = Some (e, buf', u', s') ->
  u' = u \/ exists y, u' = set_sock u k y /\ recv_wait y = sock_wait_leave (recv_wait x) NET_ERR_OK /\
    recv_list y = recv_list x ++ [buf].
Proof.
  intros E H. unfold deliver in H. rewrite E in H. cbn [mbind option_bind] in H. destruct (zlen (recv_list x) <? max).
  - unfold sock_wakeup_read in H. cbn [set_sock socks] in H. rewrite lookup_insert_eq in H. cbn in H. simplify_eq. right.
    eexists. split; [unfold set_sock; cbn; by rewrite insert_insert_eq|done].
  - left. by destruct (pktbuf_free _ _); simplify_eq.
Qed.

Lemma rinv_set fd k n ts u s ts' y s' : rinv fd k n (RState ts u s) -> length ts' = n ->
  counts_ok ts' (recv_wait y) (zlen (recv_list y)) -> rinv fd k n (RState ts' (set_sock u k y) s').
Proof. intros [_ Hfd _] Hl Hc. split; [done|done|]. exists y. split; [by cbn; rewrite lookup_insert_eq|done]. Qed.

Lemma rinv_step fd k max n st st' : Z.of_nat n < 2 ^ 31 -> rinv fd k n st -> rstep fd k max st st' -> rinv fd k n st'.
Proof.
  intros Hn Hi Hs. pose proof Hi as [Hl (so & Eg & Ek) (x & Ex & Hc)].
  destruct Hs as [ts u s i len o u' s' Et H|ts u s i len x' w Et Ex' H|ts u s i r bytes len Et H|ts u s buf e buf' u' s' H
    |ts u s u' s' [Hk1 Hk2]]; cbn [threads su] in *.
  - subst k. destruct (turn_cases _ _ _ _ _ _ _ _ _ Eg Ex H) as [(El & -> & ->)|(b & rest & r & bytes & El & -> & ->)].
    + eapply rinv_set; [done|by rewrite length_insert|]. cbn [recv_wait recv_list with_recv]. rewrite El in *.
      apply counts_add; [done|unfold zlen; lia|done].
    + eapply rinv_set; [done|by rewrite length_insert|]. rewrite El in Hc. by eapply counts_taken.
  - simplify_eq. eapply rinv_set; [done|by rewrite length_insert|]. by eapply counts_wake.
  - split; cbn [threads su]; [by rewrite length_insert|by exists so|]. exists x. split; [done|]. by eapply counts_call.
  - destruct (deliver_cases _ _ _ _ _ _ _ _ _ _ Ex H) as [->|(y & -> & Ew & El)]; [by split; eauto|].
    eapply rinv_set; [done|done|]. rewrite Ew, El, zlen_app. change (zlen [buf]) with 1. apply counts_arrive; [done|unfold zlen; lia].
  - rewrite Ex in Hk2. cbn in Hk2. destruct (socks u' !! k) as [y|] eqn:Ey; [|done]. cbn in Hk2. injection Hk2 as E1 E2.
    split; cbn [threads su]; [done|exists so; by rewrite Hk1|]. exists y. by rewrite <- E1, <- E2.
Qed.

(** A socket as [udp_create] and [raw_create] make it, and threads none of
    which sleeps. *)
Record rstart (fd k : Z) (st : rstate) : Prop := {
  rs_len : zlen (threads st) < 2 ^ 31;
  rs_awake : asleep (threads st) = 0;
  rs_fd : exists so, get_socket (su st) fd = Some (Some so) /\ sock so = k;
  rs_sock : exists x, socks (su st) !! k = Some x /\ waiting (recv_wait x) = 0 /\ sem (recv_wait x) = 0;
}.

Lemma rinv_reach fd k max st0 st : rstart fd k st0 -> rtc (rstep fd k max) st0 st ->
  rinv fd k (length (threads st0)) st.
Proof.
  intros [Hn Ha Hfd (x & Ex & E1 & E2)] Hr. unfold zlen in Hn.
  assert (H0 : rinv fd k (length (threads st0)) st0).
  { split; [done|done|]. exists x. split; [done|]. unfold counts_ok. rewrite E1, E2, Ha. repeat split; lia. }
  revert H0 Hn. generalize (length (threads st0)) as n. clear -Hr. intros n H0 Hn.
  induction Hr as [|a b c Hs _ IH]; [done|]. by eapply IH, rinv_step.
Qed.


(** ** A receiver and a packet *)

Definition quiet : ip_state := IpState (Link (PMem ∅ [] []) ∅ [] 0 [] [] [] ∅ [] []) [] ∅ [] [] 0.
Definition one_sock : sock_state :=
  SockState (<[10 := sock_init 0 17 raw_ops]> ∅) [Socket SOCKET_STATE_USED 10] [] [] [10] [].
Definition ping_pkt : pktbuf_t := Buf 900 4 [1] 1 0 1 0.
Definition recv0 : rstate := RState [Calling 4] one_sock quiet.

