(* ===== verification/Spawn.v ===== *)
(** * Creating processes and threads: kernel/thread/process.c, kernel/thread/thread.c,
    kernel/thread/execve.c [clear_user_mem], common/lib/stack.c

    A task is a page of the kernel: its [task_struct] at the bottom and its
    kernel stack at the top.  Of the stack the model keeps where the task goes
    on when it is switched to for the first time, and the registers it enters
    user mode with ([process_stack]).  [ram] holds the user's physical pages;
    user memory is reached through the directory in CR3.  Tasks that are
    threads of a process have the same [page_dir] and the same bits in
    [vir_of].  The names and working directories of tasks are not modelled.

    Using a page that could not be allocated is a fault, as is an access to a
    page that is not present. *)

From S2P Require Import Bitmap CMath Links DList Sched Threads Paging Process Prelude.
From S2P Require Import Prelude.

Definition TASK_DEFAULT_PRIORITY : Z := 31.
Definition TASK_FILE_SIZE : Z := 128.
Definition USER_STACK_SIZE : Z := KB 4.
Definition CLONE_VM : Z := Z.shiftl 1 0.
Definition CLONE_PARENT : Z := Z.shiftl 1 1.
Definition CLONE_VFORK : Z := Z.shiftl 1 2.
Definition USER_SELECTOR_CS : Z := Z.lor (Z.shiftl 3 3) 3.
Definition USER_SELECTOR_DS : Z := Z.lor (Z.shiftl 4 3) 3.
Definition USER_SELECTOR_SS : Z := USER_SELECTOR_DS.
Definition EFLAGS_IOPL_0 : Z := Z.shiftl 0 12.
Definition EFLAGS_MBS : Z := Z.shiftl 1 1.
Definition EFLAGS_IF_1 : Z := Z.shiftl 1 9.

(** ** State *)

(** [intr_no], which [intr_exit] skips, is not kept. *)
Record process_stack := PStack {
  edi : Z; esi : Z; ebp : Z; esp_dummy : Z; ebx : Z; edx : Z; ecx : Z; eax : Z;
  gs : Z; fs : Z; es : Z; ds : Z; err_code : Z; eip : Z; cs : Z; eflags : Z; esp : Z; ss : Z }.

Inductive kfunc := start_process | start_init_process | start_clone_process | thread_func (f : Z).
Inductive kentry := kernel_thread (func : kfunc) (func_arg : Z) | intr_exit.

Record kstack_t := KStack { k_entry : kentry; p_stack : option process_stack }.

(** [func] is a user address. *)
Record clone_process_args := CloneArgs { cfunc : Z; cfunc_arg : Z; child_stack : Z; cflags : Z }.

Record world := World {
  ps : pstate; kstacks : gmap Z kstack_t; ram : gmap Z (list Z); clone_args : gmap Z clone_process_args }.

Definition with_ps (w : world) s := World s (kstacks w) (ram w) (clone_args w).
Definition with_kstack (w : world) t k := World (ps w) (<[t := k]> (kstacks w)) (ram w) (clone_args w).
Definition with_ram (w : world) r := World (ps w) (kstacks w) r (clone_args w).
Definition with_args (w : world) a := World (ps w) (kstacks w) (ram w) a.

(** ** User memory *)

(** The physical page the processor finds at [va]. *)
Definition mmu (m : mm) (va : Z) : option Z :=
  pte ← get_pte m (cr3 m) va;
  if pte =? 0 then None
  else e ← words m !! pte; if present e then Some (pe_phy_addr (phy_page_addr e)) else None.

(** [memcpy] of the page at [va], from and to a buffer. *)
Definition read_page (m : mm) (r : gmap Z (list Z)) (va : Z) : option (list Z) :=
  if nz (va mod MEM_PAGE_SIZE) then None else p ← mmu m va; r !! p.
Definition write_page (m : mm) (r : gmap Z (list Z)) (va : Z) (bytes : list Z) : option (gmap Z (list Z)) :=
  if nz (va mod MEM_PAGE_SIZE) then None else p ← mmu m va; _ ← r !! p; Some (<[p := bytes]> r).

Definition store_user (m : mm) (r : gmap Z (list Z)) (va v : Z) : option (gmap Z (list Z)) :=
  p ← mmu m va; l ← r !! p; l ← zset l (va mod MEM_PAGE_SIZE) v; Some (<[p := l]> r).

Fixpoint store_bytes (m : mm) (r : gmap Z (list Z)) (va : Z) (l : list Z) : option (gmap Z (list Z)) :=
  match l with [] => Some r | b :: l' => r ← store_user m r va b; store_bytes m r (u32 (va + 1)) l' end.

Definition stack_push_value (w : world) (stack : Z) (value : list Z) : option (world * Z) :=
  let stack := u32 (stack - zlen value) in
  r ← store_bytes (mm_ (ps w)) (ram w) stack value; Some (with_ram w r, stack).
(** A 32-bit value, least significant byte first. *)
Definition word_bytes (v : Z) : list Z := [u8 v; u8 (Z.shiftr v 8); u8 (Z.shiftr v 16); u8 (Z.shiftr v 24)].
Definition stack_push (w : world) (stack value : Z) : option (world * Z) := stack_push_value w stack (word_bytes value).

(** ** Threads *)

Definition no_links : node := Node NULL NULL.
Definition init_thread (s : pstate) (t priority : Z) : pstate :=
  let k := ks s in
  let st := if t =? main_thread s then TASK_RUNNING else TASK_READY in
  let h := <[general_tag t := no_links]> (<[waiter_tag t := no_links]> (<[all_tag t := no_links]> (mem k))) in
  let x := Task 0 0 st priority priority 0 0 0 (replicate (Z.to_nat TASK_FILE_SIZE) NULL) in
  PState (KState h (ready_tasks k) (sleep_tasks k) (all_tasks k) (<[t := x]> (tasks k)) (cur k))
    (mm_ s) (pids s) (<[t := 0]> (exit_code s)) (delete t (vfork_done s)) (comps s) (swait s)
    (main_thread s) (delete t (vir_of s)).

Definition thread_create (w : world) (t : Z) (func : kfunc) (func_arg : Z) : world :=
  with_kstack w t (KStack (kernel_thread func func_arg) None).

(** [alloc_kernel_mem(1)] for a [task_struct]. *)
Definition alloc_task (s : pstate) : option (pstate * Z) :=
  '(m, t) ← alloc_kernel_mem (mm_ s) 1; if t =? ERR then None else Some (with_mm s m, t).

Definition set_ids (t : task_struct) (p pp : Z) : task_struct :=
  Task p pp (status t) (priority t) (ticks t) (elapset_ticks t) (sleep_ticks t) (page_dir t) (file_table t).
Definition set_dir (t : task_struct) (pd : Z) : task_struct :=
  Task (pid t) (parent_pid t) (status t) (priority t) (ticks t) (elapset_ticks t) (sleep_ticks t) pd (file_table t).

Definition upd (s : pstate) (t : Z) (f : task_struct -> task_struct) : option pstate :=
  ts ← upd_task (tasks (ks s)) t f; Some (with_ks s (with_tasks (ks s) ts)).

(** [thread->pid = alloc_pid(); thread->parent_pid = pp], in either order. *)
Definition new_ids (s : pstate) (t pp : Z) : option pstate :=
  '(p, b) ← alloc_pid (pids s);
  upd (with_pids s b) t (fun x => set_ids x (u32 p) pp).

(** The last lines of every creating function: the lists of ready and of all
    tasks. *)
Definition enlist (s : pstate) (t : Z) : option pstate :=
  '(h, l) ← pushr (mem (ks s)) (ready_tasks (ks s)) (general_tag t);
  let k := with_ready (ks s) h l in
  '(h, l) ← pushr (mem k) (all_tasks k) (all_tag t);
  Some (with_ks s (with_all k h l)).

(** The thread has the pid of its creator and shares its memory. *)
Definition thread_start (w : world) (priority : Z) (func func_arg : Z) : option (world * Z) :=
  '(s, t) ← alloc_task (ps w);
  let s := init_thread s t priority in
  c ← tasks (ks s) !! cur (ks s);
  v ← vir_of s !! cur (ks s);
  s ← upd s t (fun x => set_dir (set_ids x (pid c) (parent_pid c)) (page_dir c));
  s ← enlist (with_vir s (<[t := v]> (vir_of s))) t;
  Some (thread_create (with_ps w s) t (thread_func func) func_arg, t).

(** ** Processes *)

(** [process_execute] and [process_execute_init], which differ in [func]. *)
Definition execute (w : world) (func : kfunc) (p_func : Z) : option world :=
  if cur (ks (ps w)) =? NULL then Some w
  else
    c ← tasks (ks (ps w)) !! cur (ks (ps w));
    '(s, t) ← alloc_task (ps w);
    s ← new_ids (init_thread s t TASK_DEFAULT_PRIORITY) t (pid c);
    s ← init_process_mem s t;
    s ← enlist s t;
    Some (thread_create (with_ps w s) t func p_func).
Definition process_execute (w : world) (p_func : Z) : option world := execute w start_process p_func.
Definition process_execute_init (w : world) : option world := execute w start_init_process NULL.

(** *** fork *)

(** [memcpy(dest, src, MEM_PAGE_SIZE)]: also the links of the list nodes. *)
Definition copy_task (s : pstate) (dest src : Z) : option pstate :=
  let k := ks s in
  x ← tasks k !! src;
  g ← mem k !! general_tag src; w ← mem k !! waiter_tag src; a ← mem k !! all_tag src;
  let h := <[general_tag dest := g]> (<[waiter_tag dest := w]> (<[all_tag dest := a]> (mem k))) in
  Some (PState (KState h (ready_tasks k) (sleep_tasks k) (all_tasks k) (<[dest := x]> (tasks k)) (cur k))
    (mm_ s) (pids s) (<[dest := default 0 (exit_code s !! src)]> (exit_code s))
    (match vfork_done s !! src with Some c => <[dest := c]> (vfork_done s) | None => delete dest (vfork_done s) end)
    (comps s) (swait s) (main_thread s)
    (match vir_of s !! src with Some v => <[dest := v]> (vir_of s) | None => delete dest (vir_of s) end)).

Definition with_eax (p : process_stack) (v : Z) : process_stack :=
  PStack (edi p) (esi p) (ebp p) (esp_dummy p) (ebx p) (edx p) (ecx p) v (gs p) (fs p) (es p) (ds p)
    (err_code p) (eip p) (cs p) (eflags p) (esp p) (ss p).

(** One page: the bit in the child's bitmap, the page into the buffer, a page
    of the child at the same address, the buffer into it. *)
Definition copy_page (spd dpd sv dv : Z) (idx_bit : Z) (st : mm * gmap Z (list Z)) : option (mm * gmap Z (list Z)) :=
  let '(m, r) := st in
  a ← task_vir m !! sv;
  used ← bitmap_scan_test (bitmap a) idx_bit;
  if (used : bool) then
    let vaddr := u32 (start a + idx_bit * page_size a) in
    d ← task_vir m !! dv;
    b ← bitmap_set (bitmap d) idx_bit 1;
    let m := vir_put m (TaskVir dv) (AddrAlloc (start d) (page_size d) (bits_addr d) b) in
    buff ← read_page m r vaddr;
    '(m, vaddr) ← malloc_mem_vaddr (set_page_dir m dpd) dpd (TaskVir dv) vaddr 1;
    r ← write_page m r vaddr buff;
    Some (set_page_dir m spd, r)
  else Some (m, r).

Definition copy_byte (spd dpd sv dv : Z) (idx_byte : Z) (st : mm * gmap Z (list Z)) : option (mm * gmap Z (list Z)) :=
  a ← task_vir st.1 !! sv;
  b ← zget (bits (bitmap a)) idx_byte;
  if nz b then for_ 8 (idx_byte * 8) (copy_page spd dpd sv dv) st else Some st.

Definition copy_pages (spd dpd sv dv : Z) (st : mm * gmap Z (list Z)) : option (mm * gmap Z (list Z)) :=
  a ← task_vir st.1 !! sv;
  for_ (Z.to_nat (bytes_len (bitmap a))) 0 (copy_byte spd dpd sv dv) st.

(** All of [copy_process_mem] but the release of the buffer, whose address is
    the second result. *)
Definition copy_space (w : world) (dest src : Z) : option (world * Z) :=
  s ← copy_task (ps w) dest src;
  s ← init_process_mem s dest;
  k ← kstacks w !! src;
  p ← p_stack k;
  let w := with_kstack w dest (KStack intr_exit (Some (with_eax p 0))) in
  x ← tasks (ks s) !! src; y ← tasks (ks s) !! dest;
  sv ← vir_of s !! src; dv ← vir_of s !! dest;
  '(m, buff) ← alloc_kernel_mem (mm_ s) 1;
  if buff =? ERR then None
  else
    '(m, r) ← copy_pages (page_dir x) (page_dir y) sv dv (m, ram w);
    Some (with_ram (with_ps w (with_mm s m)) r, buff).

Definition copy_process_mem (w : world) (dest src : Z) : option world :=
  '(w, buff) ← copy_space w dest src;
  '(m, _) ← unalloc_kernel_mem (mm_ (ps w)) buff 1;
  Some (with_ps w (with_mm (ps w) m)).

(** [copy_process_mem] has no return statement: [err] is what the caller finds
    as its result. *)
Definition copy_process (err : Z) (w : world) : option (world * Z) :=
  let c := cur (ks (ps w)) in
  if c =? NULL then Some (w, NULL)
  else
    x ← tasks (ks (ps w)) !! c;
    '(s, t) ← alloc_task (ps w);
    w ← copy_process_mem (with_ps w (init_thread s t (priority x))) t c;
    if nz err then Some (w, NULL)
    else s ← new_ids (ps w) t (pid x); Some (with_ps w s, t).

Definition process_fork (err : Z) (w : world) : option (world * Z) :=
  '(w, t) ← copy_process err w;
  if t =? NULL then Some (w, ERR)
  else
    s ← enlist (ps w) t;
    x ← tasks (ks s) !! t;
    Some (with_ps w s, pid x).

(** *** clone *)

Definition set_child_stack (a : clone_process_args) (v : Z) : clone_process_args :=
  CloneArgs (cfunc a) (cfunc_arg a) v (cflags a).

(** A new stack is [malloc_thread_mem]'s page itself: the child gets its lowest
    address as stack pointer.  With CLONE_VFORK the caller waits on a
    completion in its own stack frame, whose address is [vf], with the list
    head and tail [vl] and the node [vtag]; the second result tells whether it
    is blocked there. *)
Definition process_clone (w : world) (func stack flags func_arg vf : Z) (vl : list_t) (vtag : Z)
    : option (world * bool * Z) :=
  let cu := cur (ks (ps w)) in
  if cu =? NULL then Some (w, false, ERR)
  else
    c ← tasks (ks (ps w)) !! cu;
    '(s, t) ← alloc_task (ps w);
    if t =? NULL then Some (with_ps w s, false, ERR) else
    s ← new_ids (init_thread s t (priority c)) t (if nz (Z.land flags CLONE_PARENT) then parent_pid c else pid c);
    '(s, args) ← malloc_thread_mem s true 1;
    if args =? ERR then None
    else
      '(s, sp) ← (if nz (Z.land flags CLONE_VM) then
                    v ← vir_of s !! cu;
                    s ← upd (with_vir s (<[t := v]> (vir_of s))) t (fun x => set_dir x (page_dir c));
                    if stack =? NULL then malloc_thread_mem s false 1 else Some (s, stack)
                  else s ← init_process_mem s t; Some (s, stack));
      let w := thread_create (with_args w (<[args := CloneArgs func func_arg sp flags]> (clone_args w)))
                 t start_clone_process args in
      s ← enlist s t;
      x ← tasks (ks s) !! t;
      if nz (Z.land flags CLONE_VFORK) then
        s ← init_completion s vf vl;
        '(blocked, s) ← wait_begin (with_vfork s (<[t := vf]> (vfork_done s))) vf vtag;
        Some (with_ps w s, blocked, pid x)
      else Some (with_ps w s, false, pid x).

(** *** Entering user mode *)

Definition process_kernel2user (w : world) (t p_func user_stack : Z) : world :=
  with_kstack w t (KStack intr_exit (Some
    (PStack 0 0 0 0 0 0 0 0 USER_SELECTOR_DS USER_SELECTOR_DS USER_SELECTOR_DS USER_SELECTOR_DS 0 p_func
       USER_SELECTOR_CS (Z.lor (Z.lor EFLAGS_IOPL_0 EFLAGS_MBS) EFLAGS_IF_1) user_stack USER_SELECTOR_SS))).

(** [argv] is 0 when it is NULL. *)
Definition _start_process (w : world) (p_func argc argv : Z) : option world :=
  let t := cur (ks (ps w)) in
  c ← tasks (ks (ps w)) !! t;
  let vaddr := user_mode_stack_addr (mm_ (ps w)) in
  '(_, have) ← vaddr2paddr (mm_ (ps w)) (page_dir c) vaddr;
  '(s, vaddr) ← (if negb have then malloc_thread_mem_vaddr (ps w) vaddr (USER_STACK_SIZE / MEM_PAGE_SIZE)
                 else Some (ps w, vaddr));
  let w := with_ps w s in
  let user_stack := u32 (vaddr + MEM_PAGE_SIZE) in
  '(w, user_stack) ← (if (0 <? argc) && nz argv then
                        '(w, user_stack) ← stack_push w user_stack argv;
                        stack_push_value w user_stack (word_bytes argc)
                      else Some (w, user_stack));
  Some (process_kernel2user w t p_func user_stack).

(** What a cloned task does first; [clone_thread_exit] is the user address it
    goes to. *)
Definition run_clone_process (w : world) (clone_thread_exit arg : Z) : option world :=
  let t := cur (ks (ps w)) in
  a ← clone_args w !! arg;
  s ← unmalloc_thread_mem (ps w) arg 1;
  '(s, sp) ← (if child_stack a =? NULL then
                '(s, vaddr) ← malloc_thread_mem_vaddr s (user_mode_stack_addr (mm_ s)) (USER_STACK_SIZE / MEM_PAGE_SIZE);
                Some (s, u32 (vaddr + MEM_PAGE_SIZE))
              else Some (s, child_stack a));
  '(w, sp) ← stack_push (with_ps w s) sp (cfunc_arg a);
  '(w, sp) ← stack_push w sp (cfunc a);
  '(w, sp) ← stack_push w sp NULL;
  Some (process_kernel2user w t clone_thread_exit sp).

(** ** execve: giving the old pages back *)

Definition clear_page_at (v : Z) (idx_bit : Z) (s : pstate) : option pstate :=
  a ← task_vir (mm_ s) !! v;
  used ← bitmap_scan_test (bitmap a) idx_bit;
  if (used : bool) then
    let vaddr := u32 (start a + idx_bit * page_size a) in
    b ← bitmap_set (bitmap a) idx_bit 1;
    unmalloc_thread_mem
      (with_mm s (vir_put (mm_ s) (TaskVir v) (AddrAlloc (start a) (page_size a) (bits_addr a) b))) vaddr 1
  else Some s.

Definition clear_byte (v : Z) (idx_byte : Z) (s : pstate) : option pstate :=
  a ← task_vir (mm_ s) !! v;
  b ← zget (bits (bitmap a)) idx_byte;
  if nz b then for_ 8 (idx_byte * 8) (clear_page_at v) s else Some s.

Definition clear_user_mem (s : pstate) : option pstate :=
  v ← vir_of s !! cur (ks s);
  a ← task_vir (mm_ s) !! v;
  for_ (Z.to_nat (bytes_len (bitmap a))) 0 (clear_byte v) s.
