(* ===== verification/SpawnSpec.v ===== *)
(** * What creating a process promises

    A child's memory after [fork] and the lists of tasks. *)

From S2P Require Import Bitmap CMath Links DList Sched Segment Threads Paging PagingSpec Process ProcessSpec Spawn Prelude.
From S2P Require Import Prelude.

(** ** Memory *)

Lemma get_pte_ok m lo pd va : pd_wf m lo pd -> 0 <= va < 2 ^ 32 -> lo <= pde_index va ->
  exists p, get_pte m pd va = Some p /\
    ((p = 0 /\ pte_at m pd va = 0) \/ (p <> 0 /\ words m !! p = Some (pte_at m pd va))).
Proof.
  intros Hw Hva Hlo. pose proof (pde_index_range va Hva). pose proof (pw_pos _ _ _ Hw).
  unfold get_pte, get_pde. destruct (Z.eqb_spec pd 0); [lia|].
  rewrite (pd_slot pd va (pw_pos _ _ _ Hw) (pw_align _ _ _ Hw) Hva).
  destruct (Z.eqb_spec (pd + 4 * pde_index va) 0); [lia|].
  destruct (pw_page _ _ _ Hw (pde_index va)) as (e & He & _); [lia|]. rewrite He. mstep.
  destruct (present e) eqn:Ep; cbn [negb].
  - assert (tbl m pd (pde_index va) = Some (pe_phy_addr (phy_page_addr e))) as Ht
      by (unfold tbl; by rewrite He; mstep; rewrite Ep).
    set (t := pe_phy_addr (phy_page_addr e)) in *.
    destruct (pw_tbl _ _ _ Hw (pde_index va) t) as (? & _); [lia|done|].
    destruct (pte_word _ _ _ _ _ Hw Hva Hlo Ht) as [Hwd Hnz]. destruct (Z.eqb_spec t 0); [lia|].
    rewrite pt_slot by (try done; by eapply tbl_aligned). eexists. split; [done|]. by right.
  - exists 0. split; [done|]. left. split; [done|]. unfold pte_at, tbl. rewrite He. mstep. by rewrite Ep.
Qed.

Lemma mmu_ok m lo va : pd_wf m lo (cr3 m) -> 0 <= va < 2 ^ 32 -> lo <= pde_index va ->
  mmu m va = if present (pte_at m (cr3 m) va) then Some (4096 * (pte_at m (cr3 m) va / 4096)) else None.
Proof.
  intros Hw Hva Hlo. unfold mmu. pose proof (pte_range _ _ _ _ Hw Hva Hlo) as Hr.
  destruct (get_pte_ok m lo (cr3 m) va Hw Hva Hlo) as (p & -> & [[-> E]|[Hp E]]); mstep.
  - by rewrite E.
  - rewrite (proj2 (Z.eqb_neq p 0)) by done. rewrite E. mstep. by rewrite pe_base by done.
Qed.

(** [malloc_mem_vaddr] of one page that is not mapped. *)
Record vaddr_post (s : mm) (lo t pd : Z) (a : addr_alloc_t) (k : Z) (s' : mm) (a' : addr_alloc_t) (kp : Z) : Prop := {
  vp_ok : mm_ok s';
  vp_wf : pd_wf s' lo pd;
  vp_task : task_vir s' = <[t := a']> (task_vir s);
  vp_alloc : alloc_wf a' /\ same_alloc a a' /\ forall j, taken a' j = if j =? k then true else taken a j;
  vp_kp : 0 <= kp < npages (user_phy_addr_alloc s) /\ taken (user_phy_addr_alloc s) kp = false;
  vp_phys : same_alloc (user_phy_addr_alloc s) (user_phy_addr_alloc s') /\
    (forall j, taken (user_phy_addr_alloc s') j = if j =? kp then true else taken (user_phy_addr_alloc s) j) /\
    avail (user_phy_addr_alloc s') = avail (user_phy_addr_alloc s) - 1;
  vp_kernel : avail (kernel_vir_addr_alloc s) - 1 <= avail (kernel_vir_addr_alloc s') /\
    bits_addr (kernel_vir_addr_alloc s') = bits_addr (kernel_vir_addr_alloc s);
  vp_dirs : kernel_page_dir s' = kernel_page_dir s /\ cr3 s' = cr3 s;
  vp_pte : forall va, 0 <= va < 2 ^ 32 -> lo <= pde_index va ->
    pte_at s' pd va = if va / 4096 =? page_addr a k / 4096
                      then entry (page_addr (user_phy_addr_alloc s) kp) USER_PERM else pte_at s pd va;
  vp_others : forall pd2, pd_wf s lo pd2 -> apart s lo pd pd2 ->
    pd_wf s' lo pd2 /\ apart s' lo pd pd2 /\
    forall va, 0 <= va < 2 ^ 32 -> lo <= pde_index va -> pte_at s' pd2 va = pte_at s pd2 va;
}.

Lemma page_range a k : alloc_wf a -> 0 <= k <= npages a ->
  0 < page_addr a k /\ page_addr a k + 4096 < 2 ^ 32 /\ page_addr a k mod 4096 = 0 /\ start a <= page_addr a k.
Proof.
  intros [_ _ _ Hs Hal He] Hk. unfold page_addr, npages in *. split_and!; [lia|lia|revert Hal; divmod|lia].
Qed.

Lemma steps_apart lo pd s s' pd2 : steps lo pd s s' -> pd_wf s lo pd2 -> apart s lo pd pd2 ->
  pd_wf s' lo pd2 /\ apart s' lo pd pd2 /\
  forall va, 0 <= va < 2 ^ 32 -> lo <= pde_index va -> pte_at s' pd2 va = pte_at s pd2 va.
Proof.
  intros Hst Hw Ha. destruct (isolated _ _ _ _ _ Hst Hw Ha). split_and!; [done|by eapply apart_steps|done].
Qed.

Lemma malloc_vaddr_ok s lo t pd a k :
  mm_ok s -> pd_wf s lo pd -> pd <> kernel_page_dir s -> task_vir s !! t = Some a -> alloc_wf a ->
  bits_addr a <> bits_addr (kernel_vir_addr_alloc s) -> lo <= pde_index (start a) -> 0 <= k < npages a ->
  present (pte_at s pd (page_addr a k)) = false ->
  0 < avail (user_phy_addr_alloc s) -> 0 < avail (kernel_vir_addr_alloc s) ->
  exists s' a' kp, malloc_mem_vaddr s pd (TaskVir t) (page_addr a k) 1 = Some (s', page_addr a k) /\
    vaddr_post s lo t pd a k s' a' kp.
Proof.
  intros Hok Hw Hk Ht Ha Hb Hlo Hkr Hnp Hup Hkv.
  destruct (page_range a k Ha) as (Hv0 & Hvl & Hva & Hvs); [lia|].
  assert (Hidx : lo <= pde_index (page_addr a k)) by (pose proof (pde_index_mono (start a) (page_addr a k)); lia).
  unfold malloc_mem_vaddr. rewrite down2_aligned by (try done; lia). cbn [vir_get]. rewrite Ht. mstep.
  unfold phy_for. rewrite (proj2 (Z.eqb_neq (bits_addr a) _)) by done.
  change (Z.to_nat 1) with 1%nat. cbn [for_ret]. rewrite Z.mul_0_l, Z.add_0_r, u32_small by lia.
  destruct (get_pte_ok s lo pd (page_addr a k) Hw) as (p & -> & Hp); [lia|done|]. mstep.
  set (tst := if p =? 0 then Some (tt, None) else _).
  assert (tst = Some (tt, None)) as ->.
  { unfold tst. destruct Hp as [[-> _]|[Hp E]]; [done|]. rewrite (proj2 (Z.eqb_neq p 0)) by done. rewrite E. mstep.
    by rewrite Hnp. }
  mstep. change (MALLOC_MAX_PAGE <? 1) with false. cbn iota. unfold alloc_phy_mem_page.
  change (MALLOC_MAX_PAGE <? 1) with false. cbn iota. change (Z.to_nat 1) with 1%nat. cbn [for_ret].
  destruct (alloc_step_ok UserPhy (fun i s => free_paddrs s i) 0 s) as (u' & kp & -> & Hkp & Hkf & Hu' & Hus & Hua & Hub);
    [apply Hok|apply Hok|lia|done|]. mstep. cbn [default nz Z.eqb negb phy_put phy_get].
  set (ps := <[Z.to_nat 0 := _]> (paddrs s)). cbn [vir_get with_paddrs with_uphy task_vir]. rewrite Ht. mstep.
  destruct (mem_use_ok a k 1 1) as (a' & -> & Ha' & Has & Hab); [done|lia..|]. mstep.
  change (vir_put (with_paddrs (with_uphy s u') ps) (TaskVir t) a') with (updated s t a' u' ps).
  cbn [phy_get] in *. assert (Hlen : length ps = 1024%nat) by (unfold ps; rewrite length_insert; apply Hok).
  destruct (page_range (user_phy_addr_alloc s) kp (ok_uphy _ Hok)) as (Hp0 & Hpl & Hpa & _); [lia|].
  unfold map_mem_page. change (MALLOC_MAX_PAGE <? 1) with false. cbn iota. rewrite down2_aligned by (try done; lia).
  assert (Hz : zget (paddrs (updated s t a' u' ps)) 0 = Some (page_addr (user_phy_addr_alloc s) kp)).
  { unfold zget, updated, ps. cbn. pose proof (ok_paddrs _ Hok). by destruct (paddrs s). }
  change (Z.to_nat 1) with 1%nat. cbn [for_ret]. unfold map_paddr_step. rewrite Hz. mstep.
  destruct (map_mem_one (updated s t a' u' ps) lo pd (page_addr a k) (page_addr (user_phy_addr_alloc s) kp))
    as (s' & Hm & Hst & Hav & Hpt); [by apply updated_mm_ok|by apply updated_pd_wf|done|lia|done|done|lia|lia|done|lia|done|done|].
  rewrite Hm. mstep.
  rewrite (proj2 (Z.ltb_ge (page_addr a k) 0)) by lia. mstep.
  exists s', a', kp. split; [done|]. pose proof (st_grows _ _ _ _ Hst) as Hg. pose proof (gr_uphy _ _ Hg) as Hu.
  cbn [updated with_paddrs with_uphy user_phy_addr_alloc] in Hu.
  split; rewrite ?Hu; try done; try apply Hst.
  - split_and!; [done|done|]. intros j. rewrite Hab.
    destruct (Z.eqb_spec j k), (Z.leb_spec k j), (Z.ltb_spec j (k + 1)); try done; lia.
  - split; [done|]. destruct (gr_same _ _ Hg) as (_ & _ & -> & _). done.
  - intros pd2 Hw2 Hap. by apply (steps_apart lo pd _ s' pd2 Hst); [apply updated_pd_wf|].
Qed.

(** ** Copying an address space *)

Lemma entry_frame a k : alloc_wf a -> 0 <= k < npages a ->
  present (entry (page_addr a k) USER_PERM) = true /\ 4096 * (entry (page_addr a k) USER_PERM / 4096) = page_addr a k.
Proof.
  intros Ha Hk. destruct (page_range a k Ha) as (H0 & Hl & Hal & _); [lia|].
  destruct (entry_ok (page_addr a k) USER_PERM) as (_ & H1 & H2); [lia|done|]. split; [done|].
  rewrite H2. revert Hal. divmod.
Qed.

Lemma page_addr_inj a j k : page_addr a j = page_addr a k -> j = k.
Proof. unfold page_addr. lia. Qed.

(** The pages from [i] on that are still to be copied. *)
Definition left_from (a : addr_alloc_t) (i : Z) : Z := popcount (bitmap a) (Z.to_nat (npages a - i)) i.

Lemma left_step a i : 0 <= i < npages a -> left_from a i = b2z (taken a i) + left_from a (i + 1).
Proof.
  intros Hi. unfold left_from. replace (Z.to_nat (npages a - i)) with (S (Z.to_nat (npages a - (i + 1)))) by lia.
  by cbn [popcount].
Qed.

Section Copy.
Context (lo spd dpd sv dv : Z) (a : addr_alloc_t) (m0 : mm) (r0 : gmap Z (list Z)).
Notation u0 := (user_phy_addr_alloc m0).

(** The parent: every page in use is mapped to a user page of its own. *)
Record parent_ok : Prop := {
  pa_alloc : alloc_wf a;
  pa_phys : alloc_wf u0;
  pa_lo : lo <= pde_index (start a);
  pa_keys : sv <> dv;
  pa_dirs : dpd <> kernel_page_dir m0;
  pa_pages : forall k, 0 <= k < npages a -> taken a k = true ->
    exists kq, 0 <= kq < npages u0 /\ taken u0 kq = true /\ pte_at m0 spd (page_addr a k) = entry (page_addr u0 kq) USER_PERM;
}.

(** The child's page [k] after it was copied. *)
Definition copied (m : mm) (r : gmap Z (list Z)) (k : Z) : Prop :=
  exists kp kq, 0 <= kp < npages u0 /\ 0 <= kq < npages u0 /\ taken u0 kp = false /\ taken (user_phy_addr_alloc m) kp = true /\
    pte_at m dpd (page_addr a k) = entry (page_addr u0 kp) USER_PERM /\
    pte_at m0 spd (page_addr a k) = entry (page_addr u0 kq) USER_PERM /\
    r !! page_addr u0 kp = r0 !! page_addr u0 kq.

Record copying (i : Z) (m : mm) (r : gmap Z (list Z)) : Prop := {
  cp_ok : mm_ok m;
  cp_src : pd_wf m lo spd;
  cp_dst : pd_wf m lo dpd;
  cp_apart : apart m lo dpd spd;
  cp_dirs : kernel_page_dir m = kernel_page_dir m0 /\ cr3 m = spd;
  cp_parent : task_vir m !! sv = Some a;
  cp_child : exists d, task_vir m !! dv = Some d /\ alloc_wf d /\ start d = start a /\ npages d = npages a /\
    bits_addr d <> bits_addr (kernel_vir_addr_alloc m) /\
    forall j, 0 <= j < npages a -> taken d j = (j <? i) && taken a j;
  cp_phys : same_alloc u0 (user_phy_addr_alloc m) /\
    forall j, taken u0 j = true -> taken (user_phy_addr_alloc m) j = true;
  cp_kept : forall va, 0 <= va < 2 ^ 32 -> lo <= pde_index va -> pte_at m spd va = pte_at m0 spd va;
  cp_done : forall k, 0 <= k < i -> taken a k = true -> copied m r k;
  cp_todo : forall k, 0 <= k < npages a -> (k <? i) && taken a k = false -> present (pte_at m dpd (page_addr a k)) = false;
  cp_ram : (forall kq, taken u0 kq = true -> r !! page_addr u0 kq = r0 !! page_addr u0 kq) /\
    forall kq, 0 <= kq < npages u0 -> is_Some (r !! page_addr u0 kq);
  cp_avail : left_from a i <= avail (user_phy_addr_alloc m) /\ left_from a i <= avail (kernel_vir_addr_alloc m);
}.

Context (P : parent_ok).

Lemma user_va k : 0 <= k < npages a -> 0 <= page_addr a k < 2 ^ 32 /\ lo <= pde_index (page_addr a k).
Proof using P.
  intros Hk. destruct (page_range a k (pa_alloc P)) as (? & ? & _ & Hs); [lia|].
  pose proof (pde_index_mono _ _ Hs). pose proof (pa_lo P). lia.
Qed.

Lemma u32_page k : 0 <= k < npages a -> u32 (start a + k * page_size a) = page_addr a k.
Proof using P.
  intros Hk. destruct (page_range a k (pa_alloc P)) as (? & ? & _); [lia|]. rewrite (aw_page _ (pa_alloc P)).
  unfold page_addr in *. rewrite u32_small; lia.
Qed.

Lemma read_page_ok m r k kq : pd_wf m lo spd -> cr3 m = spd -> 0 <= k < npages a -> 0 <= kq < npages u0 ->
  pte_at m spd (page_addr a k) = entry (page_addr u0 kq) USER_PERM -> read_page m r (page_addr a k) = r !! page_addr u0 kq.
Proof using P.
  intros Hw Hc Hk Hq Hp. destruct (user_va k Hk) as [Hv Hl]. destruct (page_range a k (pa_alloc P)) as (_ & _ & Hal & _); [lia|].
  unfold read_page. change MEM_PAGE_SIZE with 4096. rewrite Hal. cbn [nz Z.eqb negb].
  rewrite (mmu_ok m lo) by (rewrite ?Hc; done). rewrite Hc, Hp.
  destruct (entry_frame u0 kq (pa_phys P) Hq) as [-> ->]. done.
Qed.

Lemma copy_skip i m r : copying i m r -> 0 <= i < npages a -> taken a i = false -> copying (i + 1) m r.
Proof using P.
  intros C Hi Ht. pose proof (left_step a i Hi) as El. rewrite Ht in El. cbn [b2z] in El.
  assert (Hlt : forall j, (j <? i + 1) && taken a j = (j <? i) && taken a j).
  { intros j. destruct (Z.ltb_spec j (i + 1)), (Z.ltb_spec j i); try done; [|lia]. by replace j with i by lia; rewrite Ht. }
  destruct C as [? ? ? ? ? ? (d & ? & ? & ? & ? & ? & Hd) ? ? Hdone Htodo ? Hav]. split; try done.
  - exists d. split_and!; try done. intros j Hj. by rewrite Hlt, Hd.
  - intros k Hk Htk. apply Hdone; [|done]. destruct (decide (k = i)) as [->|]; [congruence|lia].
  - intros k Hk. rewrite Hlt. by apply Htodo.
  - lia.
Qed.

(** The bit of page [i] in an allocator. *)
Lemma set_bit_ok d i : alloc_wf d -> 0 <= i < npages d ->
  exists b, bitmap_set (bitmap d) i 1 = Some b /\
    let d1 := AddrAlloc (start d) (page_size d) (bits_addr d) b in
    alloc_wf d1 /\ same_alloc d d1 /\ forall j, taken d1 j = if j =? i then true else taken d j.
Proof using.
  intros [Hwf Hsl Hpg Hs Hal He] Hi. unfold npages in Hi.
  destruct (bitmap_set_total (bitmap d) i 1) as [b Hb]; [unfold slack in Hsl; lia|].
  destruct (bitmap_set_wf _ _ _ _ Hwf Hb) as (Hb1 & Hb2 & Hb3). exists b. split; [done|]. split_and!.
  - split; cbn; try done; [unfold slack in *; lia|by rewrite Hb2].
  - by repeat split.
  - intros j. unfold taken. cbn. by rewrite (bit_set_gen _ _ _ _ j Hwf Hb).
Qed.

(** The memory while page [i] is copied: the child's bit is set and its
    directory is in CR3. *)
Definition at_page (m : mm) (d1 : addr_alloc_t) : mm := set_page_dir (vir_put m (TaskVir dv) d1) dpd.

Lemma at_page_ok i m r d1 : copying i m r ->
  mm_ok (at_page m d1) /\ pd_wf (at_page m d1) lo spd /\ pd_wf (at_page m d1) lo dpd /\ apart (at_page m d1) lo dpd spd.
Proof using. intros C. destruct (cp_ok _ _ _ C), (cp_src _ _ _ C), (cp_dst _ _ _ C). split_and!; try by split. apply C. Qed.

Lemma copied_keep m r m' r' kp bytes k : copied m r k -> same_alloc u0 (user_phy_addr_alloc m) ->
  taken (user_phy_addr_alloc m) kp = false ->
  (forall j, taken (user_phy_addr_alloc m') j = if j =? kp then true else taken (user_phy_addr_alloc m) j) ->
  pte_at m' dpd (page_addr a k) = pte_at m dpd (page_addr a k) -> r' = <[page_addr u0 kp := bytes]> r -> copied m' r' k.
Proof using.
  intros (kp' & kq & H1 & H0 & H2 & H3 & H4 & H5 & H6) Hs Hkp Htk Hpt ->. exists kp', kq.
  do 3 (split; [done|]). split; [rewrite Htk, H3; by destruct (kp' =? kp)|].
  split; [by rewrite Hpt|]. split; [done|]. rewrite lookup_insert_ne; [done|]. intros E%page_addr_inj. subst. congruence.
Qed.

Lemma page_div k j : 0 <= k -> 0 <= j -> page_addr a k / 4096 = page_addr a j / 4096 -> k = j.
Proof using P.
  intros Hk Hj. unfold page_addr. pose proof (aw_align _ (pa_alloc P)) as Hal. revert Hal. divmod.
Qed.

(** The invariant after page [i] was taken as [kp] and filled. *)
Lemma copy_taken i m r d d1 m3 d3 kp kq bytes : copying i m r -> 0 <= i < npages a -> taken a i = true ->
  task_vir m !! dv = Some d -> start d = start a -> npages d = npages a ->
  bits_addr d <> bits_addr (kernel_vir_addr_alloc m) ->
  (forall j, 0 <= j < npages a -> taken d j = (j <? i) && taken a j) ->
  same_alloc d d1 -> (forall j, taken d1 j = if j =? i then true else taken d j) ->
  vaddr_post (at_page m d1) lo dv dpd d1 i m3 d3 kp ->
  0 <= kq < npages u0 -> taken u0 kq = true -> pte_at m0 spd (page_addr a i) = entry (page_addr u0 kq) USER_PERM ->
  r !! page_addr u0 kq = Some bytes ->
  copying (i + 1) (set_page_dir m3 spd) (<[page_addr u0 kp := bytes]> r).
Proof using P.
  intros C Hi Ht Ed Es En Eb Hd Sd Hd1 V Hqr Hkq Hpq Hbytes. pose proof (left_step a i Hi) as El. rewrite Ht in El. cbn [b2z] in El.
  destruct (at_page_ok i m r d1 C) as (Ok & Ws & Wd & Ap). destruct V as [V1 V2 V3 (V4 & V5 & V6) (V7 & V8) (V9 & V10 & V11) (V12 & V13) (V14 & V15) V16 V17].
  destruct (V17 spd Ws Ap) as (Ws3 & Ap3 & Hk3). pose proof (cp_phys _ _ _ C) as [Su Tu].
  cbn [at_page set_page_dir vir_put with_tvir user_phy_addr_alloc kernel_vir_addr_alloc kernel_page_dir task_vir] in *.
  assert (Hfree : taken u0 kp = false) by (destruct (taken u0 kp) eqn:E; [apply Tu in E; congruence|done]).
  rewrite (same_alloc_npages _ _ Su) in V7.
  assert (Epa : forall k, page_addr d1 k = page_addr a k) by (intros k; unfold page_addr; destruct Sd as (-> & _); by rewrite Es).
  rewrite Epa in V16. rewrite (same_alloc_addr _ _ _ Su) in V16.
  assert (Hpt : forall k, 0 <= k < npages a -> pte_at (set_page_dir m3 spd) dpd (page_addr a k)
    = if k =? i then entry (page_addr u0 kp) USER_PERM else pte_at m dpd (page_addr a k)).
  { intros k Hk. destruct (user_va k Hk). change (pte_at (set_page_dir m3 spd) dpd (page_addr a k)) with (pte_at m3 dpd (page_addr a k)).
    rewrite V16 by done. destruct (Z.eqb_spec k i) as [->|Hne]; [by rewrite Z.eqb_refl|].
    rewrite (proj2 (Z.eqb_neq _ _)); [done|]. intros E%page_div; [done|lia|lia]. }
  destruct C as [_ _ _ _ [Ck Cc] Cpar _ _ Ckept Cdone Ctodo [Cr1 Cr2] [Ca1 Ca2]].
  assert (Htk : forall j, taken (user_phy_addr_alloc m3) j = if j =? kp then true else taken (user_phy_addr_alloc m) j) by done.
  split; cbn [set_page_dir user_phy_addr_alloc kernel_vir_addr_alloc kernel_page_dir task_vir cr3].
  - destruct V1. by split.
  - destruct Ws3. by split.
  - destruct V2. by split.
  - exact Ap3.
  - split; [congruence|done].
  - rewrite V3, !lookup_insert_ne by (apply not_eq_sym, P). done.
  - exists d3. destruct V5 as (E1 & _ & E3 & E4). destruct Sd as (F1 & _ & F3 & F4). split_and!; [by rewrite V3, lookup_insert_eq|done|congruence| |congruence|].
    + unfold npages in *. congruence.
    + intros j Hj. rewrite V6, Hd1. destruct (Z.eqb_spec j i) as [->|Hne].
      * rewrite (proj2 (Z.ltb_lt i (i + 1))) by lia. by rewrite Ht.
      * rewrite Hd by done. destruct (Z.ltb_spec j i), (Z.ltb_spec j (i + 1)); try done; lia.
  - split; [by etrans|]. intros j Hj. rewrite Htk. destruct (j =? kp); [done|auto].
  - intros va Hva Hl. rewrite <- Ckept by done. exact (Hk3 va Hva Hl).
  - intros k Hk Htk'. destruct (decide (k = i)) as [->|Hne].
    + exists kp, kq. split_and!; [lia|lia|lia|lia|done|cbn; by rewrite Htk, Z.eqb_refl| | |].
      * by rewrite Hpt, Z.eqb_refl by lia.
      * done.
      * rewrite lookup_insert_eq, <- Cr1 by done. done.
    + apply (copied_keep m r _ _ kp bytes); [apply Cdone; [lia|done]|done|done|done| |done].
      rewrite Hpt by lia. by rewrite (proj2 (Z.eqb_neq k i)).
  - intros k Hk Hf. rewrite Hpt by done. destruct (Z.eqb_spec k i) as [->|Hne].
    + rewrite Ht, andb_true_r in Hf. apply Z.ltb_ge in Hf. lia.
    + apply Ctodo; [done|]. rewrite <- Hf. f_equal. destruct (Z.ltb_spec k i), (Z.ltb_spec k (i + 1)); try done; lia.
  - split.
    + intros j Hj. rewrite lookup_insert_ne; [by apply Cr1|]. intros E%page_addr_inj. subst. congruence.
    + intros j Hj. destruct (decide (j = kp)) as [->|Hne]; [rewrite lookup_insert_eq; by eexists|].
      rewrite lookup_insert_ne; [by apply Cr2|]. intros E%page_addr_inj. done.
  - lia.
Qed.

Definition copying_st (i : Z) (st : mm * gmap Z (list Z)) : Prop := copying i st.1 st.2.

Lemma scan_page i : 0 <= i < npages a -> bitmap_scan_test (bitmap a) i = Some (taken a i).
Proof using P.
  intros Hi. destruct (aw_bitmap _ (pa_alloc P)) as [_ Hl _]. unfold npages in Hi. apply scan_test_total. lia.
Qed.

Lemma copy_page_ok i st : copying_st i st -> 0 <= i < npages a ->
  exists st', copy_page spd dpd sv dv i st = Some st' /\ copying_st (i + 1) st'.
Proof using P.
  destruct st as [m r]. intros C Hi. unfold copying_st in C. cbn [fst snd] in C. unfold copy_page.
  rewrite (cp_parent _ _ _ C). mstep. rewrite scan_page by done. mstep.
  destruct (taken a i) eqn:Ht; [|exists (m, r); split; [done|by apply copy_skip]]. rewrite u32_page by done.
  destruct (cp_child _ _ _ C) as (d & Ed & Wd & Es & En & Eb & Hd). rewrite Ed. mstep.
  destruct (set_bit_ok d i Wd) as (b & -> & W1 & S1 & H1); [lia|]. mstep.
  set (d1 := AddrAlloc (start d) (page_size d) (bits_addr d) b) in *.
  destruct (pa_pages P i Hi Ht) as (kq & Hq & Hkq & Hpq). destruct (cp_dirs _ _ _ C) as [Ck Cc].
  destruct (cp_ram _ _ _ C) as [_ Cram]. destruct (Cram kq Hq) as [bytes Hb].
  destruct (at_page_ok i m r d1 C) as (Ok & Ws & Wdd & Ap). destruct (user_va i Hi) as [Hv Hl].
  assert (Epa : page_addr d1 i = page_addr a i) by (unfold page_addr; cbn; by rewrite Es).
  rewrite (read_page_ok (vir_put m (TaskVir dv) d1) r i kq), Hb by
    (first [done|destruct (cp_src _ _ _ C); by split|rewrite <- Hpq, <- (cp_kept _ _ _ C) by done; done]). mstep.
  fold (at_page m d1). rewrite <- Epa. pose proof (left_step a i Hi) as El. rewrite Ht in El. cbn [b2z] in El.
  pose proof (popcount_range (bitmap a) (Z.to_nat (npages a - (i + 1))) (i + 1)) as [Hp0 _]. fold (left_from a (i + 1)) in Hp0.
  destruct (cp_avail _ _ _ C) as [Ca1 Ca2].
  destruct (malloc_vaddr_ok (at_page m d1) lo dv dpd d1 i) as (m3 & d3 & kp & -> & V); try done.
  { cbn. rewrite Ck. apply P. }
  { cbn. apply lookup_insert_eq. }
  { cbn. rewrite Es. apply P. }
  { rewrite (same_alloc_npages _ _ S1), En. done. }
  { rewrite Epa. apply (cp_todo _ _ _ C); [done|]. by rewrite Z.ltb_irrefl. }
  1,2: cbn; lia.
  mstep. rewrite Epa. pose proof (copy_taken i m r d d1 m3 d3 kp kq bytes C Hi Ht Ed Es En Eb Hd S1 H1 V Hq Hkq Hpq Hb) as C'.
  destruct V as [_ V2 _ _ [V7 _] _ _ [_ V15] V16 _]. destruct (cp_phys _ _ _ C) as [Su _].
  cbn [at_page set_page_dir vir_put with_tvir user_phy_addr_alloc] in V7, V16. cbn [at_page set_page_dir cr3] in V15.
  rewrite (same_alloc_npages _ _ Su) in V7. unfold write_page. change MEM_PAGE_SIZE with 4096.
  destruct (page_range a i (pa_alloc P)) as (_ & _ & -> & _); [lia|]. cbn [nz Z.eqb negb].
  rewrite (mmu_ok m3 lo), V15, V16, Epa, Z.eqb_refl, (same_alloc_addr _ _ _ Su) by (try rewrite V15; done).
  destruct (entry_frame u0 kp (pa_phys P) V7) as [-> ->]. mstep. destruct (Cram kp V7) as [old ->]. mstep.
  eexists. split; [done|exact C'].
Qed.

Lemma copy_byte_ok k st : copying_st (8 * k) st -> 0 <= k < bytes_len (bitmap a) ->
  exists st', copy_byte spd dpd sv dv k st = Some st' /\ copying_st (8 * (k + 1)) st'.
Proof using P.
  intros C Hk. unfold copy_byte. rewrite (cp_parent _ _ _ C). mstep. pose proof (aw_bitmap _ (pa_alloc P)) as [_ Hlen _].
  destruct (zget_is_Some (bits (bitmap a)) k) as [v Hv]; [lia|]. rewrite Hv. mstep.
  assert (Hn : forall j, 8 * k <= j < 8 * k + 8 -> 0 <= j < npages a) by (unfold npages; intros; lia).
  destruct (nz v) eqn:Ez.
  - rewrite (Z.mul_comm k 8). destruct (for_inv copying_st (copy_page spd dpd sv dv) 8 (8 * k) st C) as (st' & E & C').
    { intros j s Hj Cj. apply copy_page_ok; [done|]. apply Hn. lia. }
    exists st'. split; [done|]. by replace (8 * (k + 1)) with (8 * k + Z.of_nat 8) by lia.
  - exists st. split; [done|]. apply negb_false_iff, Z.eqb_eq in Ez. subst v.
    assert (Hf : forall j, 8 * k <= j < 8 * k + 8 -> taken a j = false).
    { intros j Hj. unfold taken, bit. replace (j / 8) with k by divmod. rewrite Hv. apply Z.testbit_0_l. }
    assert (Hs : forall n, (n <= 8)%nat -> copying_st (8 * k + Z.of_nat n) st).
    { induction n as [|n IH]; intros Hle; [by rewrite Z.add_0_r|].
      replace (8 * k + Z.of_nat (S n)) with (8 * k + Z.of_nat n + 1) by lia.
      apply copy_skip; [apply IH; lia|apply Hn; lia|apply Hf; lia]. }
    replace (8 * (k + 1)) with (8 * k + Z.of_nat 8) by lia. by apply Hs.
Qed.

Lemma copy_pages_ok st : copying_st 0 st -> exists m r, copy_pages spd dpd sv dv st = Some (m, r) /\ copying (npages a) m r.
Proof using P.
  intros C. unfold copy_pages. rewrite (cp_parent _ _ _ C). mstep. pose proof (aw_bitmap _ (pa_alloc P)) as [_ Hlen _].
  destruct (for_inv (fun k => copying_st (8 * k)) (copy_byte spd dpd sv dv) (Z.to_nat (bytes_len (bitmap a))) 0 st) as ([m r] & E & C').
  - done.
  - intros k s Hk Ck. apply copy_byte_ok; [done|lia].
  - exists m, r. split; [done|]. rewrite Z.add_0_l, Z2Nat.id in C' by lia. exact C'.
Qed.
End Copy.

(** ** A new address space *)

Lemma load_bytes_ok w n : forall p, (forall i, 0 <= i < Z.of_nat n -> exists v, load_byte w (p + i) = Some v) ->
  exists l, load_bytes w p n = Some l /\ zlen l = Z.of_nat n /\ Forall (fun v => 0 <= v < 256) l.
Proof.
  induction n as [|n IH]; intros p Hp; [by exists []|]. cbn [load_bytes].
  destruct (Hp 0) as [v Hv]; [lia|]. rewrite Z.add_0_r in Hv. rewrite Hv. mstep.
  destruct (IH (p + 1)) as (l & -> & Hl & Hb).
  { intros i Hi. rewrite <- Z.add_assoc, (Z.add_comm 1 i). apply Hp. lia. }
  mstep. exists (v :: l). split; [done|]. unfold zlen in *. cbn [length]. split; [lia|]. constructor; [|done].
  unfold load_byte in Hv. apply bind_Some in Hv as (x & _ & [= <-]). apply u8_range.
Qed.

Lemma page_bytes w p : p mod 4096 = 0 -> page_ok w p ->
  exists l, load_bytes w p (Z.to_nat 4096) = Some l /\ zlen l = 4096 /\ Forall (fun v => 0 <= v < 256) l.
Proof.
  intros Hp Hw. pose proof (load_bytes_ok w (Z.to_nat 4096) p) as Hl. rewrite Z2Nat.id in Hl by lia. apply Hl. intros i Hi. unfold load_byte.
  destruct (Hw (i / 4)) as (v & E & _); [divmod|].
  replace (p + i - (p + i) mod 4) with (p + 4 * (i / 4)) by (revert Hp; divmod). rewrite E. mstep. by eexists.
Qed.

(** The number of bytes of a user bitmap: one page holds it, with a byte to
    spare. *)
Definition user_bytes (m : mm) : Z := (user_all_memory m / MEM_PAGE_SIZE + 7) / 8.
Record user_area (m : mm) : Prop := {
  ua_size : 0 <= user_all_memory m < 2 ^ 32;
  ua_bytes : 0 < user_bytes m < 4096;
  ua_start : 0 < kernel_all_memory m /\ kernel_all_memory m mod 4096 = 0;
  ua_end : kernel_all_memory m + 4096 * (8 * user_bytes m + 1) < 2 ^ 32;
}.

(** An allocator of user memory with nothing in use. *)
Record unused (m : mm) (bits : Z) (d : addr_alloc_t) : Prop := {
  un_wf : alloc_wf d;
  un_start : start d = kernel_all_memory m;
  un_len : bytes_len (bitmap d) = user_bytes m;
  un_bits : bits_addr d = bits;
  un_free : forall j, 0 <= j < npages d -> taken d j = false;
}.

Lemma init_addr_alloc_ok m bits l : user_area m -> zlen l = 4096 -> Forall (fun v => 0 <= v < 256) l ->
  exists d, init_addr_alloc bits l (u32 (kernel_all_memory m)) (u32 (user_all_memory m)) MEM_PAGE_SIZE = Some d /\ unused m bits d.
Proof.
  intros [Hs Hb [Hk Hka] He] Hl Hf. unfold user_bytes in *. change MEM_PAGE_SIZE with 4096 in *. unfold init_addr_alloc. cbn [Z.eqb].
  rewrite (u32_small (user_all_memory m)), (u32_small (kernel_all_memory m)) by lia.
  rewrite (u32_small (_ / 4096 + 7)) by (clear Hb He; divmod).
  set (nb := (user_all_memory m / 4096 + 7) / 8) in *.
  destruct (bitmap_init_spec (Bitmap nb l)) as (b & -> & E1 & E2 & E3 & E4 & _); [split; cbn; [done|lia|lia]|]. mstep.
  cbn [bytes_len Bitmap.bits] in *. eexists. split; [done|]. split; cbn [bitmap start bits_addr]; try done.
  - split; cbn; try done; try lia. unfold slack. lia.
  - intros j Hj. unfold npages, taken in *. cbn [bitmap] in *. apply E4. lia.
Qed.

Lemma one_page nb : 0 < nb <= 4096 -> up2 nb MEM_PAGE_SIZE / MEM_PAGE_SIZE = 1.
Proof.
  intros H. change MEM_PAGE_SIZE with 4096. destruct (up2_correct nb 4096) as (_ & _ & ->); [lia..|]. divmod.
Qed.

Lemma init_user_ok m : mm_ok m -> 0 < avail (kernel_vir_addr_alloc m) -> user_area m ->
  exists m1 q d, init_user_vir_addr_alloc m = Some (vir_put m1 (TaskVir q) d, q) /\ kfree m q /\ grows m m1 /\
    words m1 = words m /\ mm_ok m1 /\ avail (kernel_vir_addr_alloc m1) = avail (kernel_vir_addr_alloc m) - 1 /\ unused m q d.
Proof.
  intros Ok Hav U. destruct (alloc_kernel_ok m Ok Hav) as (m1 & k & Ea & Hk & Hf & _ & Hav1 & Ew & Hg & Ok1).
  set (q := page_addr (kernel_vir_addr_alloc m) k) in *. assert (Hq : kfree m q) by (by exists k).
  destruct (kfree_aligned m q Ok Hq) as [Hqa _]. destruct (page_bytes (words m) q Hqa) as (l & El & Hl & Hb); [by apply Ok|].
  destruct (init_addr_alloc_ok m q l U Hl Hb) as (d & Ed & Hd). exists m1, q, d. split_and!; try done.
  unfold init_user_vir_addr_alloc. pose proof (ua_bytes _ U) as Hn. unfold user_bytes in Hn. rewrite u32_small by lia.
  rewrite one_page by lia. rewrite Ea. mstep. rewrite Ew. change (1 * MEM_PAGE_SIZE) with 4096. rewrite El. mstep.
  destruct (gr_mem _ _ Hg) as [-> ->]. by rewrite Ed.
Qed.

(** ** fork: the child's memory *)

(** A system in which the parent, with directory [spd] and bits at [sv], can
    be copied. *)
Record can_copy (m : mm) (r : gmap Z (list Z)) (spd sv : Z) (a : addr_alloc_t) : Prop := {
  cc_ok : mm_ok m;
  cc_area : user_area m;
  cc_kdir : kernel_page_dir m mod 4096 = 0 /\ page_ok (words m) (kernel_page_dir m) /\ ~ kfree m (kernel_page_dir m);
  cc_dir : pd_wf m (pde_index (kernel_all_memory m)) spd /\ cr3 m = spd;
  cc_alloc : task_vir m !! sv = Some a /\ alloc_wf a /\ start a = kernel_all_memory m /\ bytes_len (bitmap a) = user_bytes m;
  cc_bits : ~ kfree m sv /\ ~ kfree m (bits_addr (kernel_vir_addr_alloc m));
  cc_pages : forall k, 0 <= k < npages a -> taken a k = true -> exists kq, 0 <= kq < npages (user_phy_addr_alloc m) /\
    taken (user_phy_addr_alloc m) kq = true /\ pte_at m spd (page_addr a k) = entry (page_addr (user_phy_addr_alloc m) kq) USER_PERM;
  cc_ram : forall kq, 0 <= kq < npages (user_phy_addr_alloc m) -> is_Some (r !! page_addr (user_phy_addr_alloc m) kq);
  cc_avail : left_from a 0 <= avail (user_phy_addr_alloc m) /\ left_from a 0 + 3 <= avail (kernel_vir_addr_alloc m);
}.

(** What grows while its words stay keeps its directories. *)
Lemma same_words_keep m m' lo pd : grows m m' -> words m' = words m -> pd_wf m lo pd -> pd_wf m' lo pd.
Proof. intros Hg Ew Hw. destruct (untouched m m' lo pd Hg Hw) as (? & _); [by rewrite Ew|done]. Qed.
Lemma same_words_view m m' : words m' = words m ->
  (forall pd va, pte_at m' pd va = pte_at m pd va) /\ forall lo pd pd2, apart m lo pd pd2 -> apart m' lo pd pd2.
Proof.
  intros Ew. assert (Et : forall pd i, tbl m' pd i = tbl m pd i) by (intros; unfold tbl; by rewrite Ew). split.
  - intros pd va. unfold pte_at. by rewrite Et, Ew.
  - intros lo pd pd2 H b H1 H2. apply (H b); unfold owns in *; setoid_rewrite Et in H1; setoid_rewrite Et in H2; done.
Qed.

(** The child's directory, its bits and the buffer are taken, one after the
    other; the loop can start. *)
Lemma new_space_ok m r spd sv a : can_copy m r spd sv a ->
  exists m1 dpd m2 dv m3 buff, create_uvm m = Some (m1, dpd) /\ init_user_vir_addr_alloc m1 = Some (m2, dv) /\
    alloc_kernel_mem m2 1 = Some (m3, buff) /\ buff <> ERR /\ dv <> sv /\
    let lo := pde_index (kernel_all_memory m) in
    parent_ok lo spd dpd sv dv a m /\ copying lo spd dpd sv dv a m r 0 m3 r.
Proof.
  intros [Ok U [Kd1 [Kd2 Kd3]] [Sd Hcr] (Ta & Wa & Sa & La) [Nb Nk] Hp Hram [Av1 Av2]].
  pose proof (popcount_range (bitmap a) (Z.to_nat (npages a - 0)) 0) as [Hl0 _]. fold (left_from a 0) in Hl0.
  pose proof U as [_ _ [Uk _] Ue]. pose proof (ua_bytes _ U).
  destruct (create_uvm_ok m Ok) as (m1 & dpd & E1 & Kf & G1 & A1 & Ok1 & W1 & Z1 & _ & O1); [lia|lia|done..|].
  set (lo := pde_index (kernel_all_memory m)) in *. destruct (O1 spd Sd) as (S1 & Ap1 & _ & P1).
  destruct (gr_mem _ _ G1) as [M1 M1']. destruct (gr_kpd _ _ G1) as [K1 C1].
  assert (U1 : user_area m1) by (destruct U; split; unfold user_bytes in *; rewrite ?M1, ?M1'; done).
  destruct (init_user_ok m1 Ok1) as (m2 & dv & d & E2 & Kf2 & G2 & Ew2 & Ok2 & A2 & Un); [lia|done|].
  set (m2' := vir_put m2 (TaskVir dv) d) in *.
  assert (Ok2' : mm_ok m2') by (destruct Ok2; by split).
  destruct (alloc_kernel_ok m2' Ok2') as (m3 & k & E3 & Hk3 & _ & _ & A3 & Ew3 & G3 & Ok3); [unfold m2'; cbn; lia|].
  assert (Hdv : kfree m dv) by (by eapply kfree_anti).
  exists m1, dpd, m2', dv, m3, (page_addr (kernel_vir_addr_alloc m2') k).
  split; [done|]. split; [done|]. split; [done|].
  assert (Hne : dv <> sv) by (by intros ->).
  destruct (gr_kpd _ _ G2) as [K2 C2]. destruct (gr_kpd _ _ G3) as [K3 C3]. cbn [m2' vir_put with_tvir kernel_page_dir cr3] in K3, C3.
  split; [|split; [done|]].
  { destruct (page_range (kernel_vir_addr_alloc m2') k) as (? & ? & _); [apply Ok2'|lia|]. unfold ERR. lia. }
  cbn zeta. assert (Ew : words m3 = words m1) by (rewrite Ew3; cbn; done).
  assert (G13 : grows m1 m2) by done.
  assert (pd_keep : forall pd, pd_wf m1 lo pd -> pd_wf m3 lo pd).
  { intros pd Hpd. apply (same_words_keep m2' m3); [done|done|]. destruct (same_words_keep m1 m2 lo pd G2 Ew2 Hpd). by split. }
  destruct (same_words_view m1 m3 Ew) as [Hview Hap].
  assert (Hu : user_phy_addr_alloc m3 = user_phy_addr_alloc m).
  { rewrite (gr_uphy _ _ G3). cbn. by rewrite (gr_uphy _ _ G2), (gr_uphy _ _ G1). }
  assert (Ht : task_vir m3 = <[dv := d]> (task_vir m)).
  { rewrite (gr_task _ _ G3). cbn. by rewrite (gr_task _ _ G2), (gr_task _ _ G1). }
  assert (Hd : start d = start a /\ npages d = npages a).
  { destruct Un as [_ Es El _ _]. unfold npages. rewrite Es, El, M1, Sa, La. unfold user_bytes. by rewrite M1'. }
  assert (P : parent_ok lo spd dpd sv dv a m).
  { split; try done; [apply Ok|by rewrite Sa|by intros ->]. }
  split; [done|]. split; try done.
  - by apply pd_keep.
  - by apply pd_keep.
  - by apply Hap.
  - split; congruence.
  - by rewrite Ht, lookup_insert_ne.
  - exists d. split_and!; [by rewrite Ht, lookup_insert_eq|apply Un|apply Hd|apply Hd| |].
    + rewrite (un_bits _ _ _ Un). destruct (gr_same _ _ G3) as (_ & _ & -> & _). cbn.
      destruct (gr_same _ _ G2) as (_ & _ & -> & _). destruct (gr_same _ _ G1) as (_ & _ & -> & _). by intros ->.
    + intros j Hj. rewrite (un_free _ _ _ Un) by (destruct Hd; lia). by destruct (Z.ltb_spec j 0); [lia|].
  - rewrite Hu. by split.
  - intros va Hva Hlo. rewrite Hview. by apply P1.
  - intros k' Hk'. lia.
  - intros k' Hk' _. destruct (user_va lo spd dpd sv dv a m P k' Hk'). by rewrite Hview, Z1.
  - rewrite Hu. split; [lia|]. rewrite A3. cbn. lia.
Qed.

(** The bytes a directory shows at an address. *)
Definition seen (m : mm) (r : gmap Z (list Z)) (pd va : Z) : option (list Z) :=
  if present (pte_at m pd va) then r !! (4096 * (pte_at m pd va / 4096)) else None.

Lemma seen_entry m r pd va u k : alloc_wf u -> 0 <= k < npages u -> pte_at m pd va = entry (page_addr u k) USER_PERM ->
  seen m r pd va = r !! page_addr u k.
Proof. intros Hu Hk E. unfold seen. rewrite E. by destruct (entry_frame u k Hu Hk) as [-> ->]. Qed.

(** The child's memory: the same pages in use with the same bytes, in frames
    that were free; the parent sees what it saw. *)
Record forked (m : mm) (r : gmap Z (list Z)) (spd : Z) (a : addr_alloc_t) (m' : mm) (r' : gmap Z (list Z)) (dpd dv : Z) : Prop := {
  fk_bits : exists d, task_vir m' !! dv = Some d /\ start d = start a /\ forall k, 0 <= k < npages a -> taken d k = taken a k;
  fk_same : forall k, 0 <= k < npages a -> taken a k = true -> seen m' r' dpd (page_addr a k) = seen m r spd (page_addr a k);
  fk_none : forall k, 0 <= k < npages a -> taken a k = false -> seen m' r' dpd (page_addr a k) = None;
  fk_new : forall k, 0 <= k < npages a -> taken a k = true -> exists kp, taken (user_phy_addr_alloc m) kp = false /\
    pte_at m' dpd (page_addr a k) = entry (page_addr (user_phy_addr_alloc m) kp) USER_PERM;
  fk_parent : forall k, 0 <= k < npages a -> taken a k = true -> seen m' r' spd (page_addr a k) = seen m r spd (page_addr a k);
  fk_others : forall kq, taken (user_phy_addr_alloc m) kq = true ->
    r' !! page_addr (user_phy_addr_alloc m) kq = r !! page_addr (user_phy_addr_alloc m) kq;
}.

Lemma copying_forked m r spd sv dv dpd a m' r' lo : parent_ok lo spd dpd sv dv a m ->
  copying lo spd dpd sv dv a m r (npages a) m' r' -> forked m r spd a m' r' dpd dv.
Proof.
  intros P C. pose proof (pa_phys _ _ _ _ _ _ _ P) as Wu. destruct (cp_ram _ _ _ _ _ _ _ _ _ _ _ C) as [Hr _]. split.
  - destruct (cp_child _ _ _ _ _ _ _ _ _ _ _ C) as (d & E & _ & Es & _ & _ & Hd). exists d. split_and!; [done|done|].
    intros k Hk. rewrite Hd by done. by rewrite (proj2 (Z.ltb_lt k (npages a))) by lia.
  - intros k Hk Ht. destruct (cp_done _ _ _ _ _ _ _ _ _ _ _ C k Hk Ht) as (kp & kq & H1 & H2 & _ & _ & H3 & H4 & H5).
    by rewrite (seen_entry m' r' dpd _ _ kp Wu H1 H3), (seen_entry m r spd _ _ kq Wu H2 H4).
  - intros k Hk Ht. unfold seen. rewrite (cp_todo _ _ _ _ _ _ _ _ _ _ _ C k Hk); [done|]. by rewrite Ht, andb_false_r.
  - intros k Hk Ht. destruct (cp_done _ _ _ _ _ _ _ _ _ _ _ C k Hk Ht) as (kp & kq & _ & _ & H2 & _ & H3 & _). by exists kp.
  - intros k Hk Ht. destruct (pa_pages _ _ _ _ _ _ _ P k Hk Ht) as (kq & H1 & H2 & H3).
    destruct (user_va _ _ _ _ _ _ _ P k Hk) as [Hv Hl].
    rewrite (seen_entry m r spd _ _ kq Wu H1 H3), <- Hr by done. apply seen_entry; [done|done|].
    by rewrite (cp_kept _ _ _ _ _ _ _ _ _ _ _ C).
  - done.
Qed.

