(* ===== verification/SpawnLists.v ===== *)
(** * The lists of tasks when a process is created

    [tables] joins what [Sched] and [Process] keep of the lists: a new task is
    added to the tasks, then to the ends of the lists of ready and of all
    tasks. *)

From S2P Require Import Bitmap Links DList Sched Segment Threads Paging Process ProcessSpec Spawn Prelude.
From S2P Require Import Prelude.

Record tables (k : kstate) (l rq sq : list Z) : Prop := {
  tb_sched : sched_rep k rq sq;
  tb_all : all_rep k l;
  tb_nodup : NoDup l;
  tb_foreign : forall x, x ∈ footprint (all_tasks k) (all_tag <$> l) -> foreign k x;
  tb_align : forall t, t ∈ dom (tasks k) -> t mod 4096 = 0;
}.

Definition all_sentinels (k : kstate) : list Z :=
  sentinels (ready_tasks k) (sleep_tasks k) ++ [DList.head (all_tasks k); DList.tail (all_tasks k)].

(** A page that can become a task: no task and no list head lies in it. *)
Record fresh_page (k : kstate) (t : Z) : Prop := {
  fp_new : t ∉ dom (tasks k);
  fp_addr : 0 < t < 2 ^ 32 - 64;
  fp_align : t mod 4096 = 0;
  fp_heads : forall x, x ∈ all_sentinels k -> ~ t <= x < t + 4096;
  fp_count : Z.of_nat (base.size (dom (tasks k))) + 1 < 2 ^ 31 - 1;
}.

(** The nodes of a task. *)
Definition tags (t : Z) : list Z := [general_tag t; waiter_tag t; all_tag t].

Lemma tags_page t x : x ∈ tags t -> t <= x < t + 4096.
Proof. unfold tags, general_tag, waiter_tag, all_tag. intros Hx. assert (x = t + 36 \/ x = t + 44 \/ x = t + 52) by set_solver. lia. Qed.

Lemma tags_apart t u x : t mod 4096 = 0 -> u mod 4096 = 0 -> t <> u -> x ∈ tags t -> x <> general_tag u /\ x <> all_tag u.
Proof. intros Ht Hu Hne Hx%tags_page. unfold general_tag, all_tag. split; intros ->; revert Ht Hu; divmod. Qed.

Lemma all_not_general t u : t mod 4096 = 0 -> u mod 4096 = 0 -> all_tag t <> general_tag u.
Proof. unfold all_tag, general_tag. intros H1 H2 E. divmod. Qed.

Section New.
Context (k : kstate) (l rq sq : list Z) (t : Z).
Context (T : tables k l rq sq) (F : fresh_page k t).

Lemma new_tag_out x : x ∈ tags t ->
  x ∉ all_sentinels k /\ (forall u, u ∈ dom (tasks k) -> x <> general_tag u /\ x <> all_tag u).
Proof using T F.
  intros Hx. split; [intros Hs; by apply (fp_heads _ _ F x Hs), tags_page|].
  intros u Hu. apply (tags_apart t); [apply F|by apply T| |done]. intros ->. by apply F.
Qed.

Lemma new_tag_all x : x ∈ tags t -> x ∉ footprint (all_tasks k) (all_tag <$> l).
Proof using T F.
  intros Hx. destruct (new_tag_out x Hx) as [Hs Hu]. unfold all_sentinels in Hs. unfold footprint.
  rewrite elem_of_cons, elem_of_app, list_elem_of_singleton, list_elem_of_fmap.
  intros [->|[(u & -> & Hin)| ->]]; [set_solver| |set_solver]. destruct (Hu u) as [_ H]; [by apply (tb_all _ _ _ _ T)|done].
Qed.

(** The heap and the tasks with the new one. *)
Definition add_task (g w a : node) (x : task_struct) : kstate :=
  KState (<[general_tag t := g]> (<[waiter_tag t := w]> (<[all_tag t := a]> (mem k))))
    (ready_tasks k) (sleep_tasks k) (all_tasks k) (<[t := x]> (tasks k)) (cur k).

Lemma add_same g w a x y : y ∉ tags t -> same_at (mem k) (mem (add_task g w a x)) y.
Proof using.
  intros Hy. clear -Hy. apply same_at_lookup. unfold tags in Hy. cbn. rewrite !lookup_insert_ne; [done|set_solver..].
Qed.

Lemma add_task_ok g w a x : n_pre g = NULL -> tables (add_task g w a x) l rq sq.
Proof using T F.
  intros Hg. destruct T as [[L Hc Hcr Hcs] [Al Ak Aa] Tn Tf Ta]. unfold krep in L.
  assert (Hold : forall u, u ∈ dom (tasks k) -> general_tag u ∉ tags t).
  { intros u Hu Hin. by destruct (new_tag_out _ Hin) as [_ H]; destruct (H u Hu). }
  assert (Hsen : forall y, y ∈ all_sentinels k -> y ∉ tags t) by (intros y Hy Hin; by destruct (new_tag_out _ Hin)).
  assert (Hne : t <> cur k) by (intros ->; by apply F).
  pose proof (lists_rep_frame _ (mem (add_task g w a x)) _ _ _ _ _ L) as L'.
  destruct L' as [L1 L2 L3 L4 L5 L6 L7 L8 L9].
  { intros y Hy. apply add_same, Hsen. unfold all_sentinels. set_solver. }
  { intros u Hu. apply add_same, Hold, Hu. }
  split.
  - split; cbn [cur tasks add_task].
    + split; cbn [mem ready_tasks sleep_tasks tasks add_task]; rewrite ?dom_insert_L; try done.
      * intros u Hu. apply elem_of_union. right. by apply L4.
      * intros u [->%elem_of_singleton|Hu]%elem_of_union; [intros Hin|by apply L6].
        destruct (new_tag_out (general_tag t)) as [H _]; [by left|]. apply H. unfold all_sentinels. set_solver.
      * intros u [->%elem_of_singleton|Hu]%elem_of_union; [apply F|by apply L7].
      * intros u [->%elem_of_singleton|Hu]%elem_of_union Hn; [|by apply L8].
        unfold prv. rewrite lookup_insert_eq. cbn. by rewrite Hg.
      * rewrite size_union by (pose proof (fp_new _ _ F); set_solver). rewrite size_singleton. pose proof (fp_count _ _ F). lia.
    + rewrite dom_insert_L. set_solver.
    + done.
    + intros Hin. rewrite lookup_insert_ne by done. by apply Hcs.
  - split; cbn [mem all_tasks tasks add_task].
    + apply (dlist_frame (mem k)); [done|]. intros y Hy. apply (add_same g w a x). intros Hin. by apply (new_tag_all y).
    + intros u Hu. rewrite dom_insert_L. apply elem_of_union. right. by apply Ak.
    + done.
  - done.
  - intros y Hy. destruct (Tf y Hy) as [H1 H2]. split; [done|]. cbn [tasks add_task]. intros u. rewrite dom_insert_L.
    intros [->%elem_of_singleton|Hu]%elem_of_union; [|by apply H2]. intros ->. apply (new_tag_all (general_tag t)); [by left|done].
  - cbn [tasks add_task]. intros u. rewrite dom_insert_L. intros [->%elem_of_singleton|Hu]%elem_of_union; [apply F|by apply Ta].
Qed.
End New.

(** Fields of other tasks than the current one may change. *)
Lemma tables_tasks k l rq sq ts : tables k l rq sq -> dom ts = dom (tasks k) -> ts !! cur k = tasks k !! cur k ->
  tables (with_tasks k ts) l rq sq.
Proof.
  intros [[L Hc Hcr Hcs] A Tn Tf Ta] Hd He. split.
  - split; cbn [cur tasks with_tasks]; [by apply krep_tasks|by rewrite Hd|done|by rewrite He].
  - by apply all_rep_tasks.
  - done.
  - intros x Hx. destruct (Tf x Hx) as [H1 H2]. split; [done|]. cbn. by rewrite Hd.
  - cbn. by rewrite Hd.
Qed.

Lemma tables_len k l rq sq : tables k l rq sq -> zlen l < 2 ^ 31 - 1.
Proof.
  intros [[L _ _ _] [_ Ak _] Tn _ _]. pose proof (lr_count _ _ _ _ _ _ L) as Hn. unfold zlen.
  rewrite <- (size_list_to_set (C := gset Z)) by done.
  enough (base.size (list_to_set l : gset Z) <= base.size (dom (tasks k)))%nat by lia.
  apply subseteq_size. intros t Ht%elem_of_list_to_set. by apply Ak.
Qed.

(** A task that is in no list. *)
Record unlisted (k : kstate) (l rq sq : list Z) (t : Z) : Prop := {
  ul_dom : t ∈ dom (tasks k);
  ul_cur : t <> cur k;
  ul_queues : t ∉ rq ++ sq;
  ul_all : t ∉ l;
  ul_addr : 0 < t < 2 ^ 32 - 64;
  ul_heads : all_tag t ∉ all_sentinels k;
  ul_node : is_Some (nxt (mem k) (all_tag t));
}.

Section Enlist.
Context (s : pstate) (l rq sq : list Z) (t : Z).
Context (T : tables (ks s) l rq sq) (U : unlisted (ks s) l rq sq t).

Lemma all_tag_foreign : foreign (ks s) (all_tag t).
Proof using T U.
  split; [intros H; apply (ul_heads _ _ _ _ _ U); unfold all_sentinels; set_solver|].
  intros u Hu. apply all_not_general; [apply T, U|by apply T].
Qed.

Lemma all_tag_fresh h : same_at (mem (ks s)) h (all_tag t) -> fresh_node h (all_tasks (ks s)) (all_tag <$> l) (all_tag t).
Proof using T U.
  intros [Hn _]. pose proof (ul_heads _ _ _ _ _ U) as Hh. unfold all_sentinels in Hh. split_and!.
  - unfold footprint. rewrite elem_of_cons, elem_of_app, list_elem_of_singleton, list_elem_of_fmap.
    intros [E|[(u & E & Hu)|E]]; [set_solver| |set_solver]. apply (ul_all _ _ _ _ _ U).
    unfold all_tag in E. by replace t with u by lia.
  - pose proof (ul_addr _ _ _ _ _ U). unfold all_tag, NULL. lia.
  - rewrite Hn. apply U.
Qed.

Lemma enlist_ok : exists s', enlist s t = Some s' /\ s' = with_ks s (ks s') /\ tables (ks s') (l ++ [t]) (rq ++ [t]) sq /\
  tasks (ks s') = tasks (ks s) /\ cur (ks s') = cur (ks s).
Proof using T U.
  pose proof T as [[L Hc Hcr Hcs] [Al Ak Aa] Tn Tf Ta]. pose proof U as [Ud Uc Uq Ua Uad Uh Un].
  unfold enlist. destruct (pushr_ready_ok _ _ _ _ _ _ L t Ud Uq) as (h1 & rl & -> & L1 & Fr). mstep.
  pose proof Fr as (R1 & R2 & _ & _ & Fx).
  assert (Hkeep : forall x, foreign (ks s) x -> same_at (mem (ks s)) h1 x) by (intros x [H1 H2]; by apply Fx).
  set (k1 := with_ready (ks s) h1 rl). assert (Es : sentinels rl (sleep_tasks (ks s)) = sentinels (ready_tasks (ks s)) (sleep_tasks (ks s)))
    by (unfold sentinels; congruence).
  assert (Hfor : forall x, foreign (ks s) x -> foreign k1 x) by (intros x [H1 H2]; split; [cbn; by rewrite Es|done]).
  destruct (pushr_ok h1 (all_tasks (ks s)) (all_tag <$> l) (all_tag t)) as (h2 & al & E2 & D2 & (K1 & K2 & K3)).
  { apply (dlist_frame (mem (ks s))); [done|]. intros x Hx. apply Hkeep, Tf, Hx. }
  { apply all_tag_fresh, Hkeep, all_tag_foreign. }
  { pose proof (tables_len _ _ _ _ T). unfold zlen in *. rewrite length_fmap. lia. }
  cbn [mem all_tasks k1 with_ready]. rewrite E2. mstep. eexists. split; [done|]. split; [done|]. cbn [ks with_ks].
  split; [|done].
  assert (S1 : sched_rep k1 (rq ++ [t]) sq) by (split; [done|done|set_solver|done]).
  assert (Hf : forall x, x ∈ all_tag t :: footprint (all_tasks (ks s)) (all_tag <$> l) -> foreign k1 x).
  { intros x [->|Hx]%elem_of_cons; apply Hfor; [apply all_tag_foreign|by apply Tf]. }
  assert (Hfoot : forall x, x ∈ footprint al (all_tag <$> (l ++ [t])) -> foreign k1 x).
  { intros x Hx. apply Hf. unfold footprint in *. rewrite K1, K2, fmap_app in Hx. cbn in Hx. set_solver. }
  split.
  - destruct (sched_rep_mem k1 _ _ h2 _ S1 K3 Hf). by split.
  - split; cbn [mem all_tasks tasks with_all].
    + by rewrite fmap_app.
    + intros u [Hu| ->%list_elem_of_singleton]%elem_of_app; [by apply Ak|done].
    + intros u [Hu| ->%list_elem_of_singleton]%elem_of_app; [by apply Aa|done].
  - apply NoDup_app. split_and!; [done|set_solver|apply NoDup_singleton].
  - exact Hfoot.
  - exact Ta.
Qed.
End Enlist.

(** ** fork *)

Lemma add_task_twice k t g w a x g' w' a' x' : add_task (add_task k t g w a x) t g' w' a' x' = add_task k t g' w' a' x'.
Proof.
  unfold add_task. cbn. rewrite insert_insert_eq. f_equal. apply map_eq. intros i. rewrite !lookup_insert.
  repeat case_decide; done.
Qed.

Lemma init_process_mem_frame s t s' x : init_process_mem s t = Some s' -> tasks (ks s) !! t = Some x ->
  exists pd, ks s' = with_tasks (ks s) (<[t := set_dir x pd]> (tasks (ks s))) /\ pids s' = pids s.
Proof.
  intros H Hx. unfold init_process_mem in H. apply bind_Some in H as ([m pd] & _ & H).
  apply bind_Some in H as (ts & Ht & H). apply bind_Some in H as ([m' v] & _ & [= <-]). exists pd.
  unfold upd_task in Ht. rewrite Hx in Ht. cbn in Ht. injection Ht as <-. done.
Qed.

Lemma copy_process_mem_frame w dest src w' : copy_process_mem w dest src = Some w' -> dest <> src ->
  exists x g wt a pd, tasks (ks (ps w)) !! src = Some x /\ mem (ks (ps w)) !! general_tag src = Some g /\
    ks (ps w') = add_task (ks (ps w)) dest g wt a (set_dir x pd) /\ pids (ps w') = pids (ps w).
Proof.
  intros H Hne. apply bind_Some in H as ([w1 buff] & H1 & H). apply bind_Some in H as ([m r] & _ & [= <-]).
  unfold copy_space in H1. apply bind_Some in H1 as (s1 & Hc & H1). apply bind_Some in H1 as (s2 & Hi & H1).
  apply bind_Some in H1 as (k & _ & H1). apply bind_Some in H1 as (p & _ & H1). apply bind_Some in H1 as (y & _ & H1).
  apply bind_Some in H1 as (z & _ & H1). apply bind_Some in H1 as (sv & _ & H1). apply bind_Some in H1 as (dv & _ & H1).
  apply bind_Some in H1 as ([m1 b] & _ & H1). destruct (b =? ERR); [done|]. apply bind_Some in H1 as ([m2 r2] & _ & [= <- <-]).
  unfold copy_task in Hc. apply bind_Some in Hc as (x & Hx & Hc). apply bind_Some in Hc as (g & Hg & Hc).
  apply bind_Some in Hc as (wt & _ & Hc). apply bind_Some in Hc as (a & _ & [= <-]).
  destruct (init_process_mem_frame _ _ _ x Hi) as (pd & Ek & Ep); [cbn; apply lookup_insert_eq|].
  exists x, g, wt, a, pd. cbn [ps with_ram with_ps with_mm ks pids]. split_and!; [done|done| |by rewrite Ep].
  rewrite Ek. unfold add_task, with_tasks. cbn. by rewrite insert_insert_eq.
Qed.

(** The task [copy_process] makes, with its identifiers. *)
Lemma copy_process_ok w w' t l rq sq x : tables (ks (ps w)) l rq sq -> tasks (ks (ps w)) !! cur (ks (ps w)) = Some x ->
  cur (ks (ps w)) ∉ sq -> (forall s u, alloc_task (ps w) = Some (s, u) -> fresh_page (ks (ps w)) u) ->
  copy_process 0 w = Some (w', t) ->
  exists p pd, (exists q, alloc_pid (pids (ps w)) = Some (q, pids (ps w')) /\ p = u32 q) /\
    fresh_page (ks (ps w)) t /\ tables (ks (ps w')) l rq sq /\ unlisted (ks (ps w')) l rq sq t /\
    cur (ks (ps w')) = cur (ks (ps w)) /\
    tasks (ks (ps w')) = <[t := set_dir (set_ids x p (pid x)) pd]> (tasks (ks (ps w))).
Proof.
  intros T Hx Hsq Hf H. set (k := ks (ps w)) in *. pose proof T as [[L Hc Hcr _] [_ Ak _] _ _ _].
  assert (Hc0 : 0 < cur k) by (by apply (lr_addr _ _ _ _ _ _ L)).
  unfold copy_process in H. fold k in H. rewrite (proj2 (Z.eqb_neq (cur k) NULL)) in H by (unfold NULL; lia). rewrite Hx in H.
  cbn [mbind option_bind] in H. apply bind_Some in H as ([s1 u] & Ha & H). pose proof (Hf _ _ Ha) as F.
  unfold alloc_task in Ha. apply bind_Some in Ha as ([m b] & _ & Ha). destruct (b =? ERR); [done|]. injection Ha as <- <-.
  apply bind_Some in H as (w1 & H1 & H). change (nz 0) with false in H. cbn iota in H.
  apply bind_Some in H as (s2 & H2 & [= <- <-]).
  assert (Hne : b <> cur k) by (intros ->; by apply F).
  destruct (copy_process_mem_frame _ _ _ _ H1 Hne) as (y & g & wt & a & pd & Ey & Eg & Ek & Ep).
  cbn [ps with_ps init_thread ks with_mm tasks mem] in Ey, Eg, Ek. fold k in Ey, Eg, Ek.
  rewrite lookup_insert_ne in Ey by done. rewrite Hx in Ey. injection Ey as <-.
  assert (Hg : n_pre g = NULL).
  { assert (Hap : forall z, z ∈ tags b -> z <> general_tag (cur k))
      by (intros z Hz; by apply (new_tag_out k l rq sq b T F z Hz)).
    rewrite !lookup_insert_ne in Eg by (apply Hap; unfold tags; set_solver).
    pose proof (lr_idle _ _ _ _ _ _ L (cur k) Hc) as Hi. rewrite not_elem_of_app in Hi. specialize (Hi (conj Hcr Hsq)).
    unfold prv in Hi. rewrite Eg in Hi. cbn in Hi. by injection Hi. }
  assert (Ek' : ks (ps w1) = add_task k b g wt a (set_dir x pd)) by (rewrite Ek; apply add_task_twice). clear Ek.
  pose proof (add_task_ok k l rq sq b T F g wt a (set_dir x pd) Hg) as T1. rewrite <- Ek' in T1.
  unfold new_ids in H2. apply bind_Some in H2 as ([q bm] & Hq & H2). unfold upd, upd_task in H2. cbn [ks with_pids] in H2.
  apply bind_Some in H2 as (ts & Hts & [= <-]). rewrite Ek' in Hts at 1. cbn [tasks add_task] in Hts.
  rewrite lookup_insert_eq in Hts. cbn in Hts. injection Hts as <-. rewrite Ep in Hq. cbn [ps with_ps pids init_thread with_mm] in Hq.
  set (ts := <[b := _]> (tasks (ks (ps w1)))).
  assert (Ets : ts = <[b := set_dir (set_ids x (u32 q) (pid x)) pd]> (tasks k)).
  { unfold ts. rewrite Ek'. cbn [tasks add_task]. by rewrite insert_insert_eq. }
  exists (u32 q), pd. cbn [ps with_ps ks with_ks with_tasks with_pids tasks cur pids]. split_and!; [by exists q|done| | |by rewrite Ek'|done].
  - apply (tables_tasks (ks (ps w1))); [done| |].
    + rewrite Ets, Ek'. cbn. by rewrite !dom_insert_L.
    + rewrite Ets, Ek'. cbn. by rewrite !lookup_insert_ne by done.
  - destruct (new_tag_out k l rq sq b T F (all_tag b)) as [Ho _]; [by do 2 right; left|].
    assert (Hnew : forall v, v ∈ rq ++ sq -> v <> b) by (intros v Hv ->; by apply F, (lr_known _ _ _ _ _ _ L)).
    split; cbn [ks with_ks with_tasks tasks mem cur with_pids].
    + rewrite Ets, dom_insert_L. set_solver.
    + by rewrite Ek'.
    + intros Hin. by apply (Hnew b).
    + intros Hin. by apply F, Ak.
    + apply F.
    + unfold all_sentinels in *. by rewrite Ek'.
    + rewrite Ek'. cbn. unfold nxt. rewrite !lookup_insert. repeat case_decide; first [done|by eexists].
Qed.

