(* ===== verification/SpawnRuns.v ===== *)
(** * Creating processes on a concrete machine

    Eight pages of kernel memory (the kernel's directory, the parent's
    directory and page table, and five free ones), eight user pages, and a
    parent that uses one of them. *)

From S2P Require Import Bitmap CMath Links DList Sched Segment Threads Paging PagingSpec PagingRuns Process ProcessSpec.
From S2P Require Import Spawn SpawnSpec SpawnLists Prelude.
From S2P Require Import Prelude.

Definition PDIR : Z := K0 + 4096.
Definition PTAB : Z := K0 + 8192.
Definition f_words : gmap Z Z :=
  <[PDIR + 4 * 4 := Z.lor PTAB 7]> (<[PTAB := entry U0 USER_PERM]> (zero_words K0 8192)).
Definition f_parent : addr_alloc_t := uarea 400 1.
Definition f_mm : mm :=
  MM (karea 100 7) (karea 200 7) (uarea 300 1) {[400 := f_parent]} f_words (replicate 1024 0) U0 32768 K0 0 PDIR.
Definition f_ram : gmap Z (list Z) := <[U0 := [7; 8; 9]]> (list_to_map ((fun k => (U0 + 4096 * k, [0])) <$> [1; 2; 3; 4; 5; 6; 7])).

Lemma f_kfree p : kfree f_mm p -> exists k, 3 <= k < 8 /\ p = K0 + 4096 * k.
Proof.
  intros (k & Hk & -> & Ht). change (npages (kernel_vir_addr_alloc f_mm)) with 8 in Hk. exists k. split; [|done].
  change (taken (karea 200 7) k = false) in Ht.
  assert (k = 0 \/ k = 1 \/ k = 2 \/ 3 <= k) as [->|[->|[->|]]] by lia; [discriminate Ht..|lia].
Qed.

Lemma f_page k : 0 <= k < 8 -> page_ok f_words (K0 + 4096 * k).
Proof.
  intros Hk. apply page_ok_store; [apply page_ok_store|]; [|vm_compute; split; [discriminate|reflexivity]..].
  intros i Hi. exists 0. split; [|lia]. replace (K0 + 4096 * k + 4 * i) with (K0 + 4 * (1024 * k + i)) by lia.
  apply zero_words_get. lia.
Qed.

Lemma f_tbl i : 0 <= i < 1024 -> tbl f_mm PDIR i = if i =? 4 then Some PTAB else None.
Proof.
  intros Hi. unfold tbl. cbn [words f_mm]. unfold f_words. destruct (Z.eqb_spec i 4) as [->|Hne].
  - rewrite lookup_insert_eq. by vm_compute.
  - rewrite !lookup_insert_ne by (unfold PDIR, PTAB, K0; lia).
    replace (PDIR + 4 * i) with (K0 + 4 * (1024 + i)) by (unfold PDIR; lia). by rewrite zero_words_get by lia.
Qed.

Lemma f_pd_wf : pd_wf f_mm 4 PDIR.
Proof.
  assert (Hnf : forall k, 0 <= k < 3 -> ~ kfree f_mm (K0 + 4096 * k)) by (intros k Hk (j & Hj & E)%f_kfree; lia).
  split; [lia|done|unfold PDIR, K0; lia|apply (f_page 1); lia|apply (Hnf 1); lia| |].
  - intros i t Hi. rewrite f_tbl by lia. destruct (i =? 4); [|done]. intros [= <-].
    split_and!; [unfold PTAB, K0; lia|unfold PTAB, K0; lia|done|apply (f_page 2); lia|apply (Hnf 2); lia].
  - intros i j t Hi Hj. rewrite !f_tbl by lia. destruct (Z.eqb_spec i 4), (Z.eqb_spec j 4); try done. lia.
Qed.

Lemma f_taken k : 0 <= k < 8 -> taken f_parent k = true -> k = 0.
Proof.
  intros Hk Ht. assert (k = 0 \/ k = 1 \/ k = 2 \/ k = 3 \/ k = 4 \/ k = 5 \/ k = 6 \/ k = 7) as Hc by lia.
  repeat destruct Hc as [Hc|Hc]; subst k; (discriminate Ht || done).
Qed.

Lemma f_can_copy : can_copy f_mm f_ram PDIR 400 f_parent.
Proof.
  split.
  - split; [by apply area_wf..|done|]. intros p (k & Hk & ->)%f_kfree. apply f_page. lia.
  - split; vm_compute; split; congruence.
  - split_and!; [done|apply (f_page 0); lia|]. intros (j & Hj & E)%f_kfree. unfold f_mm in E. cbn in E. lia.
  - split; [exact f_pd_wf|done].
  - split_and!; [done|by apply area_wf|done|done].
  - split; intros (j & Hj & E)%f_kfree; unfold K0 in E; cbn in E; lia.
  - intros k Hk Ht. change (npages f_parent) with 8 in Hk. apply f_taken in Ht as ->; [|done]. exists 0.
    split_and!; [done|done|done|]. unfold pte_at. change (pde_index (page_addr f_parent 0)) with 4.
    rewrite f_tbl by lia. change (4 =? 4) with true. cbn iota. change (pte_index (page_addr f_parent 0)) with 0.
    cbn [words f_mm]. unfold f_words. rewrite lookup_insert_ne by done. by rewrite Z.mul_0_r, Z.add_0_r, lookup_insert_eq.
  - intros k Hk. change (npages (user_phy_addr_alloc f_mm)) with 8 in Hk.
    assert (k = 0 \/ k = 1 \/ k = 2 \/ k = 3 \/ k = 4 \/ k = 5 \/ k = 6 \/ k = 7) as Hc by lia.
    repeat destruct Hc as [Hc|Hc]; subst k; by eexists.
  - split; vm_compute; discriminate.
Qed.

(** The parent is the task at 4096. *)
Definition f_task : task_struct := Task 2 1 TASK_RUNNING 31 5 0 0 PDIR (replicate 128 0).
Definition f_regs : process_stack := PStack 1 2 3 0 4 5 6 2 35 35 35 35 0 16777316 27 514 16781000 35.
Definition f_world : world :=
  World (PState (KState (<[4132 := Node NULL NULL]> (<[4140 := Node NULL NULL]> (<[4148 := Node 140 148]>
                  (<[140 := Node NULL 4148]> (<[148 := Node 4148 NULL]>
                  (<[100 := Node NULL 108]> (<[108 := Node 100 NULL]> (<[120 := Node NULL 128]> (<[128 := Node 120 NULL]> ∅)))))))))
                (List 100 108 0) (List 120 128 0) (List 140 148 1) {[4096 := f_task]} 4096)
           f_mm pids0 ∅ ∅ ∅ ∅ 0 {[4096 := 400]})
    {[4096 := KStack intr_exit (Some f_regs)]} f_ram ∅.


Lemma f_tables : tables (ks (ps f_world)) [4096] [] [].
Proof.
  assert (Hd : dom (tasks (ks (ps f_world))) = {[4096]}) by (cbn; by rewrite dom_singleton_L).
  split.
  - split; [split| | |by intros ?%not_elem_of_nil]; unfold krep; rewrite ?Hd.
    + dlist_compute.
    + dlist_compute.
    + apply NoDup_nil_2.
    + by intros t ?%not_elem_of_nil.
    + apply (bool_decide_unpack _); vm_compute; exact I.
    + intros t ->%elem_of_singleton. apply (bool_decide_unpack _); vm_compute; exact I.
    + intros t ->%elem_of_singleton. lia.
    + intros t ->%elem_of_singleton _. reflexivity.
    + by rewrite size_singleton.
    + by apply elem_of_singleton.
    + by intros ?%not_elem_of_nil.
  - split; [dlist_compute| |].
    + intros t ->%list_elem_of_singleton. rewrite Hd. by apply elem_of_singleton.
    + intros t ->%list_elem_of_singleton. lia.
  - apply NoDup_singleton.
  - intros x Hx. assert (x = 140 \/ x = 4148 \/ x = 148) as Hc by (unfold footprint in Hx; cbn in Hx; set_solver).
    split; [intros Hs; unfold sentinels in Hs; cbn in Hs; assert (x = 100 \/ x = 108 \/ x = 120 \/ x = 128) by set_solver; lia|].
    rewrite Hd. intros t ->%elem_of_singleton. unfold general_tag. lia.
  - rewrite Hd. by intros t ->%elem_of_singleton.
Qed.

Lemma f_fresh : fresh_page (ks (ps f_world)) 3158016.
Proof.
  assert (Hd : dom (tasks (ks (ps f_world))) = {[4096]}) by (cbn; by rewrite dom_singleton_L).
  split; rewrite ?Hd.
  - intros ?%elem_of_singleton. lia.
  - lia.
  - reflexivity.
  - intros x Hx. unfold all_sentinels, sentinels in Hx. cbn in Hx.
    assert (x = 100 \/ x = 108 \/ x = 120 \/ x = 128 \/ x = 140 \/ x = 148) by set_solver. lia.
  - rewrite size_singleton. lia.
Qed.

