(* ===== verification/Ports.v ===== *)
(** * Port input and output: common/cpu/contrl.h

    The instructions reach hardware, whose behaviour is not part of the
    program: [Ports] is a machine with its port instructions, and the drivers
    are proved against laws of the registers they use ([PicLaws] in [Gates],
    [PciLaws] in [Pci]).  A read may change the machine. *)

From S2P Require Import Prelude.

Class Ports (hw : Type) := {
  in8 : Z -> hw -> Z * hw; out8 : Z -> Z -> hw -> hw;
  in16 : Z -> hw -> Z * hw; out16 : Z -> Z -> hw -> hw;
  in32 : Z -> hw -> Z * hw; out32 : Z -> Z -> hw -> hw;
}.

(** The port is a [uint16_t] and a value has the width of the instruction. *)
Section Instructions.
Context {hw : Type} `{Ports hw}.

Definition inb (port : Z) (h : hw) : Z * hw := let '(v, h) := in8 (u16 port) h in (u8 v, h).
Definition outb (port v : Z) (h : hw) : hw := out8 (u16 port) (u8 v) h.
Definition inw (port : Z) (h : hw) : Z * hw := let '(v, h) := in16 (u16 port) h in (u16 v, h).
Definition outw (port v : Z) (h : hw) : hw := out16 (u16 port) (u16 v) h.
Definition inl (port : Z) (h : hw) : Z * hw := let '(v, h) := in32 (u16 port) h in (u32 v, h).
Definition outl (port v : Z) (h : hw) : hw := out32 (u16 port) (u32 v) h.

Definition io_wait (h : hw) : hw := outb 128 0 h.
End Instructions.
