(* ===== verification/Gates.v ===== *)
(** * Segments, interrupt gates and interrupt masks:
      kernel/memory/segment.c, kernel/interrupt/idt.c, intr.c, err.c

    Descriptors are the packed structures of the source; the accessors
    [seg_base], [seg_limit], [gate_entry], ... read them the way the processor
    does.  The interrupt controllers are reached through [Ports]; [PicLaws]
    says that their two mask registers hold what is written to them. *)

From S2P Require Import Prelude Ports CMath.
From S2P Require Import Prelude.

(** ** Segment descriptors *)

Definition SEG_G : Z := 32768.
Definition SEG_D : Z := 16384.
Definition SEG_P_PRESENT : Z := 128.
Definition SEG_DPL0 : Z := 0.
Definition SEG_DPL3 : Z := 96.
Definition SEG_S_SYSTEM : Z := 0.
Definition SEG_S_NORMAL : Z := 16.
Definition SEG_TYPE_CODE : Z := 8.
Definition SEG_TYPE_DATA : Z := 0.
Definition SEG_TYPE_RW : Z := 2.

Definition GDT_TABLE_SIZE : Z := 256.
Definition KERNEL_SELECTOR_CS : Z := 8.
Definition KERNEL_SELECTOR_DS : Z := 16.
Definition KERNEL_SELECTOR_SS : Z := KERNEL_SELECTOR_DS.
Definition USER_SELECTOR_CS : Z := 27.
Definition USER_SELECTOR_DS : Z := 35.
Definition TSS_SELECTOR : Z := 40.

Record segment_desc := SegDesc {
  limit15_0 : Z; base15_0 : Z; base23_16 : Z; sattr : Z; base31_24 : Z }.

Definition make_desc (base limit attr : Z) : segment_desc :=
  let '(attr, limit) :=
    if 1048575 <? limit then (u16 (Z.lor attr SEG_G), limit / 4096) else (attr, limit) in
  SegDesc (Z.land limit 65535) (Z.land base 65535) (Z.land (Z.shiftr base 16) 255)
    (u16 (Z.lor attr (Z.shiftl (Z.land (Z.shiftr limit 16) 15) 8)))
    (Z.land (Z.shiftr base 24) 255).

Definition gdt_set (gdt : list segment_desc) (select base limit attr : Z)
    : option (list segment_desc) :=
  zset gdt (Z.shiftr select 3) (make_desc (u32 base) (u32 limit) (u16 attr)).

(** *** The task state segment *)

Record tss_t := Tss {
  link : Z; esp0 : Z; ss0 : Z; esp1 : Z; ss1 : Z; esp2 : Z; ssp2 : Z; tcr3 : Z; eip : Z;
  eflags : Z; eax : Z; ecx : Z; edx : Z; ebx : Z; esp : Z; ebp : Z; esi : Z; edi : Z;
  es : Z; cs : Z; ss : Z; ds : Z; fs : Z; gs : Z; ldtr : Z; trap : Z; iopb : Z }.

(** 27 words of 4 bytes. *)
Definition tss_size : Z := 27 * 4.

Definition init_tss : tss_t :=
  Tss 0 0 KERNEL_SELECTOR_SS 0 0 0 0 0 0 0 0 0 0 0 0 0 0 0 0 0 0 0 0 0 0 0 tss_size.

Definition update_tss_esp (t : tss_t) (sp : Z) : tss_t :=
  Tss (link t) sp (ss0 t) (esp1 t) (ss1 t) (esp2 t) (ssp2 t) (tcr3 t) (eip t) (eflags t) (eax t)
    (ecx t) (edx t) (ebx t) (esp t) (ebp t) (esi t) (edi t) (es t) (cs t) (ss t) (ds t) (fs t)
    (gs t) (ldtr t) (trap t) (iopb t).

(** The operand of [lgdt] and [lidt]: limit, low and high half of the address. *)
Definition table_reg (start size : Z) : Z * Z * Z :=
  (u16 (size - 1), u16 (Z.land start 65535), u16 (Z.shiftr start 16)).
Definition lgdt (start size : Z) : Z * Z * Z := table_reg start size.

Definition flat_attr (dpl type : Z) : Z :=
  Z.lor (Z.lor (Z.lor (Z.lor (Z.lor (Z.lor SEG_P_PRESENT dpl) SEG_S_NORMAL) type) SEG_TYPE_RW)
    SEG_D) SEG_G.

(** The table, the task state segment and the operands of [lgdt] and [ltr]. *)
Definition init_gdt (gdt : list segment_desc) (gdt_addr tss_addr : Z)
    : option (list segment_desc * tss_t * (Z * Z * Z) * Z) :=
  gdt ← for_ (Z.to_nat GDT_TABLE_SIZE) 0 (fun i g => gdt_set g (Z.shiftl i 3) 0 0 0) gdt;
  let tss := init_tss in
  gdt ← gdt_set gdt KERNEL_SELECTOR_DS 0 4294967295 (flat_attr SEG_DPL0 SEG_TYPE_DATA);
  gdt ← gdt_set gdt KERNEL_SELECTOR_CS 0 4294967295 (flat_attr SEG_DPL0 SEG_TYPE_CODE);
  gdt ← gdt_set gdt USER_SELECTOR_DS 0 4294967295 (flat_attr SEG_DPL3 SEG_TYPE_DATA);
  gdt ← gdt_set gdt USER_SELECTOR_CS 0 4294967295 (flat_attr SEG_DPL3 SEG_TYPE_CODE);
  gdt ← gdt_set gdt TSS_SELECTOR tss_addr (tss_size - 1)
          (Z.lor (Z.lor (Z.lor SEG_P_PRESENT SEG_DPL0) SEG_S_SYSTEM) 9);
  Some (gdt, tss, lgdt gdt_addr (GDT_TABLE_SIZE * 8), TSS_SELECTOR).

(** *** How the processor reads a descriptor *)

Definition seg_base (d : segment_desc) : Z :=
  base15_0 d + 65536 * base23_16 d + 16777216 * base31_24 d.
Definition raw_limit (d : segment_desc) : Z := limit15_0 d + 65536 * (sattr d / 256 mod 16).
Definition seg_g (d : segment_desc) : bool := Z.testbit (sattr d) 15.
Definition seg_limit (d : segment_desc) : Z :=
  if seg_g d then raw_limit d * 4096 + 4095 else raw_limit d.
Definition seg_dpl (d : segment_desc) : Z := sattr d / 32 mod 4.
Definition seg_present (d : segment_desc) : bool := Z.testbit (sattr d) 7.
Definition seg_code (d : segment_desc) : bool := Z.testbit (sattr d) 3.

(** ** Interrupt gates *)

Definition INT_DESC_CNT : Z := 129.
Definition IDT_DESC_ATTR_DPL0 : Z := 142.
Definition IDT_DESC_ATTR_DPL3 : Z := 238.
Definition SYSCALL_INTR_NO : Z := 128.

Record intr_desc := IntrDesc {
  entry_low15 : Z; selector : Z; zero : Z; gattr : Z; entry_high15_31 : Z }.

Definition make_intr_desc (attr entry : Z) : intr_desc :=
  IntrDesc (u16 (Z.land (u32 entry) 65535)) KERNEL_SELECTOR_CS 0 (u8 attr)
    (u16 (Z.land (Z.shiftr (u32 entry) 16) 65535)).

Definition make_intr (idt : list intr_desc) (intr_no attr entry : Z) : option (list intr_desc) :=
  zset idt intr_no (make_intr_desc attr entry).

Definition init_intr (idt : list intr_desc) (intr_entry_table : list Z) : option (list intr_desc) :=
  for_ (Z.to_nat INT_DESC_CNT) 0
    (fun i d => e ← zget intr_entry_table i; make_intr d i IDT_DESC_ATTR_DPL0 e) idt.

Definition lidt (start size : Z) : Z * Z * Z := table_reg start size.

Definition register_intr_handler (intr_handlers : list Z) (intr_no handler : Z) : option (list Z) :=
  zset intr_handlers intr_no handler.

Definition init_exception (intr_handlers : list Z) (default_handler : Z) : option (list Z) :=
  for_ (Z.to_nat INT_DESC_CNT) 0 (fun i t => register_intr_handler t i default_handler)
    intr_handlers.

Definition gate_entry (d : intr_desc) : Z := entry_low15 d + 65536 * entry_high15_31 d.
Definition gate_dpl (d : intr_desc) : Z := gattr d / 32 mod 4.
Definition gate_present (d : intr_desc) : bool := Z.testbit (gattr d) 7.

(** ** The interrupt controllers and the timer *)

Definition PIC1_COMMAND : Z := 32.
Definition PIC1_DATA : Z := 33.
Definition PIC2_COMMAND : Z := 160.
Definition PIC2_DATA : Z := 161.
Definition IRQ_PIC_START : Z := 32.
Definition PIC0_IMR : Z := 33.
Definition PIC1_IMR : Z := 161.
Definition PIC_OCW2_EOI : Z := 32.

(** [1 << n] of an [int]: without a value when the shift exceeds the width. *)
Definition bit (n : Z) : option Z := if (0 <=? n) && (n <? 32) then Some (Z.shiftl 1 n) else None.

Section Pic.
Context {hw : Type} `{Ports hw}.

Definition pic_init (h : hw) : hw :=
  let '(_, h) := inb PIC1_DATA h in
  let '(_, h) := inb PIC2_DATA h in
  let h := io_wait (outb PIC1_COMMAND 17 h) in
  let h := io_wait (outb PIC2_COMMAND 17 h) in
  let h := io_wait (outb PIC1_DATA 32 h) in
  let h := io_wait (outb PIC2_DATA 40 h) in
  let h := io_wait (outb PIC1_DATA 4 h) in
  let h := io_wait (outb PIC2_DATA 2 h) in
  let h := io_wait (outb PIC1_DATA 1 h) in
  let h := io_wait (outb PIC2_DATA 1 h) in
  outb PIC2_DATA 0 (outb PIC1_DATA 0 h).

(** [PIT_OSC_FREQ / HZ] in two bytes to channel 0. *)
Definition pit_init (h : hw) : hw :=
  let reload_count := 1193182 / 100 in
  let h := outb 67 (Z.lor (Z.lor 0 48) 6) h in
  let h := outb 64 (Z.land reload_count 255) h in
  outb 64 (Z.land (Z.shiftr reload_count 8) 255) h.

Definition intr_enable (intr_no : Z) (h : hw) : option hw :=
  if intr_no <? IRQ_PIC_START then Some h
  else
    let intr_no := intr_no - IRQ_PIC_START in
    if intr_no <? 8 then
      let '(v, h) := inb PIC0_IMR h in
      b ← bit intr_no; Some (outb PIC0_IMR (u8 (Z.land v (Z.lnot b))) h)
    else
      let intr_no := intr_no - 8 in
      let '(v, h) := inb PIC1_IMR h in
      b ← bit intr_no; Some (outb PIC1_IMR (u8 (Z.land v (Z.lnot b))) h).

Definition intr_disable (intr_no : Z) (h : hw) : option hw :=
  if intr_no <? IRQ_PIC_START then Some h
  else
    let intr_no := intr_no - IRQ_PIC_START in
    if intr_no <? 8 then
      let '(v, h) := inb PIC0_IMR h in
      b ← bit intr_no; Some (outb PIC0_IMR (u8 (Z.lor v b)) h)
    else
      let intr_no := intr_no - 8 in
      let '(v, h) := inb PIC1_IMR h in
      b ← bit intr_no; Some (outb PIC1_IMR (u8 (Z.lor v b)) h).

(** End of interrupt, to the second controller too for its lines. *)
Definition pic_send_eoi (irq_num : Z) (h : hw) : hw :=
  let irq_num := irq_num - IRQ_PIC_START in
  let h := if 8 <=? irq_num then outb PIC2_COMMAND PIC_OCW2_EOI h else h in
  outb PIC1_COMMAND PIC_OCW2_EOI h.
End Pic.

(** ** Properties of descriptors *)

(** The four bits of the limit fit in the hole of the attributes. *)
Lemma attr_bits a k : 0 <= a < 65536 -> Z.land a 3840 = 0 -> 0 <= k < 16 ->
  let v := u16 (Z.lor a (Z.shiftl k 8)) in
  v / 256 mod 16 = k /\ (forall j, 0 <= j < 8 \/ 12 <= j < 16 -> Z.testbit v j = Z.testbit a j).
Proof.
  intros Ha Hl Hk v.
  assert (forall j, 8 <= j < 12 -> Z.testbit a j = false) as H0.
  { intros j Hj. assert (Z.testbit (Z.land a 3840) j = false) as H by (rewrite Hl; apply Z.bits_0).
    rewrite Z.land_spec in H. assert (j = 8 \/ j = 9 \/ j = 10 \/ j = 11) as [->|[->|[->| ->]]] by lia;
      destruct (Z.testbit a _); done. }
  assert (forall j, 0 <= j < 16 -> Z.testbit v j = Z.testbit a j || Z.testbit k (j - 8)) as Hv.
  { intros j Hj. unfold v, u16. change 65536 with (2 ^ 16).
    rewrite Z.mod_pow2_bits_low, Z.lor_spec, Z.shiftl_spec by lia. done. }
  split.
  - apply Z.bits_inj'. intros i Hi. change 256 with (2 ^ 8). change 16 with (2 ^ 4).
    destruct (Z_lt_ge_dec i 4).
    + rewrite Z.mod_pow2_bits_low, Z.div_pow2_bits, Hv, H0 by lia. cbn. f_equal. lia.
    + rewrite Z.mod_pow2_bits_high by lia. symmetry. apply (bits_lt_pow2 4); lia.
  - intros j Hj. rewrite Hv by lia.
    destruct Hj; [rewrite (Z.testbit_neg_r k)|rewrite (bits_lt_pow2 4 k)]; try lia; apply orb_false_r.
Qed.

Lemma land_mask x n : 0 <= n -> Z.land x (2 ^ n - 1) = x mod 2 ^ n.
Proof. intros Hn. rewrite <- Z.land_ones by done. by rewrite Z.ones_equiv. Qed.

Lemma make_desc_fields base limit attr : 0 <= base < 2 ^ 32 -> 0 <= limit < 2 ^ 32 ->
  0 <= attr < 65536 -> Z.land attr 3840 = 0 ->
  let d := make_desc base limit attr in
  seg_base d = base /\
  raw_limit d = (if 1048575 <? limit then limit / 4096 else limit) /\
  seg_g d = (Z.testbit attr 15 || (1048575 <? limit)) /\
  (forall j, 0 <= j < 8 \/ 12 <= j < 15 -> Z.testbit (sattr d) j = Z.testbit attr j).
Proof.
  intros Hb Hl Ha H0 d. unfold d, make_desc, seg_base, raw_limit, seg_g.
  assert (exists a l, (if 1048575 <? limit then (u16 (Z.lor attr SEG_G), limit / 4096) else (attr, limit))
      = (a, l) /\ l = (if 1048575 <? limit then limit / 4096 else limit) /\ 0 <= l < 2 ^ 20 /\
      0 <= a < 65536 /\ Z.land a 3840 = 0 /\ Z.testbit a 15 = (Z.testbit attr 15 || (1048575 <? limit)) /\
      (forall j, 0 <= j < 15 -> Z.testbit a j = Z.testbit attr j)) as (a & l & -> & El & Hl' & Ha' & Hz & Hg & Hj).
  { destruct (Z.ltb_spec 1048575 limit); do 2 eexists; (split; [reflexivity|]).
    - assert (0 <= Z.lor attr SEG_G < 2 ^ 16) as Hr
        by (apply lor_bound; unfold SEG_G; lia).
      rewrite u16_small by (change 65536 with (2 ^ 16); lia).
      split_and!; try done; try (change 65536 with (2 ^ 16); lia).
      + divmod.
      + divmod.
      + rewrite Z.land_comm, Z.land_lor_distr_r, (Z.land_comm 3840 attr), H0. done.
      + rewrite Z.lor_spec. change (Z.testbit SEG_G 15) with true. by rewrite !orb_true_r.
      + intros j Hj. rewrite Z.lor_spec. unfold SEG_G. change 32768 with (2 ^ 15).
        rewrite Z.pow2_bits_false by lia. apply orb_false_r.
    - split_and!; try done; try lia. by rewrite orb_false_r. }
  cbn [base15_0 base23_16 base31_24 sattr limit15_0]. rewrite !Z.shiftr_div_pow2 by lia.
  change 65535 with (2 ^ 16 - 1). change 255 with (2 ^ 8 - 1). change (Z.land (l / 2 ^ 16) 15) with (Z.land (l / 2 ^ 16) (2 ^ 4 - 1)).
  rewrite !land_mask by lia.
  destruct (attr_bits a (l / 2 ^ 16 mod 2 ^ 4)) as [E1 E2]; [done|done|divmod|].
  rewrite E1. split_and!.
  - clear -Hb. divmod.
  - rewrite <- El. clear -Hl'. divmod.
  - rewrite E2 by lia. done.
  - intros j Hj'. rewrite E2 by lia. apply Hj. lia.
Qed.

(** [gdt_set] writes one descriptor, and the processor reads back the base, the
    limit (in units of 4096 bytes when it needs more than 20 bits) and the
    attributes that were given. *)
Theorem gdt_set_spec gdt select base limit attr :
  0 <= select < 8 * zlen gdt -> 0 <= base < 2 ^ 32 -> 0 <= limit < 2 ^ 32 ->
  0 <= attr < 65536 -> Z.land attr 3840 = 0 ->
  exists gdt' d, gdt_set gdt select base limit attr = Some gdt' /\
    zget gdt' (select / 8) = Some d /\ zlen gdt' = zlen gdt /\
    (forall i, i <> select / 8 -> zget gdt' i = zget gdt i) /\
    seg_base d = base /\
    seg_limit d = (if 1048575 <? limit then limit / 4096 * 4096 + 4095
                   else if Z.testbit attr 15 then limit * 4096 + 4095 else limit) /\
    (forall j, 0 <= j < 8 \/ 12 <= j < 15 -> Z.testbit (sattr d) j = Z.testbit attr j).
Proof.
  intros Hs Hb Hl Ha H0. unfold gdt_set. rewrite Z.shiftr_div_pow2 by lia. change (2 ^ 3) with 8.
  rewrite !u32_small, u16_small by lia. set (d := make_desc base limit attr).
  rewrite zset_is_Some by divmod. eexists _, d. split; [done|].
  assert (zset gdt (select / 8) d = Some (<[Z.to_nat (select / 8) := d]> gdt)) as Es
    by (apply zset_is_Some; divmod).
  destruct (make_desc_fields base limit attr Hb Hl Ha H0) as (E1 & E2 & E3 & E4). fold d in E1, E2, E3, E4.
  split_and!; try done.
  - rewrite (zget_zset _ _ _ _ _ Es). by rewrite Z.eqb_refl.
  - by apply (zlen_zset _ _ _ _ Es).
  - intros i Hi. rewrite (zget_zset _ _ _ _ _ Es). by destruct (Z.eqb_spec i (select / 8)).
  - unfold seg_limit. rewrite E3, E2.
    destruct (Z.ltb_spec 1048575 limit); [by rewrite orb_true_r|by rewrite orb_false_r].
Qed.

Definition zero_desc : segment_desc := SegDesc 0 0 0 0 0.

(** A loop that stores the same value in every entry of an array. *)
Lemma for_fill {A} (v : A) (body : Z -> list A -> option (list A)) (l : list A) :
  (forall i l, body i l = zset l i v) ->
  for_ (length l) 0 body l = Some (replicate (length l) v).
Proof.
  intros Hb.
  destruct (for_inv (fun i l' => length l' = length l /\ take (Z.to_nat i) l' = replicate (Z.to_nat i) v)
    body (length l) 0 l) as (l' & -> & Hlen & Ht); [done| |].
  - intros j l' Hj [Hlen Ht]. rewrite Hb, zset_is_Some by (unfold zlen; lia). eexists. split; [done|].
    split; [by rewrite length_insert|].
    replace (Z.to_nat (j + 1)) with (S (Z.to_nat j)) by lia.
    erewrite take_S_r by (apply list_lookup_insert_eq; lia).
    rewrite take_insert_ge by lia. rewrite Ht. symmetry. apply replicate_S_end.
  - rewrite Z.add_0_l, Nat2Z.id in Ht. rewrite <- Hlen in Ht at 1. by rewrite firstn_all in Ht; rewrite Ht.
Qed.

Lemma clear_gdt gdt : length gdt = Z.to_nat GDT_TABLE_SIZE ->
  for_ (Z.to_nat GDT_TABLE_SIZE) 0 (fun i g => gdt_set g (Z.shiftl i 3) 0 0 0) gdt
    = Some (replicate (Z.to_nat GDT_TABLE_SIZE) zero_desc).
Proof.
  intros Hl. rewrite <- Hl. apply for_fill. intros i g. unfold gdt_set.
  rewrite Z.shiftl_mul_pow2, Z.shiftr_div_pow2 by lia. by rewrite Z.div_mul.
Qed.

(** What a selector leads to: the whole address space, with the privilege the
    selector asks for. *)
Definition flat_segment (gdt : list segment_desc) (select : Z) (code : bool) : Prop :=
  exists d, zget gdt (select / 8) = Some d /\ seg_present d = true /\ seg_base d = 0 /\
    seg_limit d = 4294967295 /\ seg_dpl d = select mod 4 /\ seg_code d = code.

(** C20: After [init_gdt] the four code and data selectors of the kernel and of user
    programs lead to present segments over all 4 GiB whose privilege level is
    the one in the selector, and the task selector leads to the [tss_t], of
    exactly its size, which names the kernel's stack segment. *)
Theorem init_gdt_spec gdt gdt_addr tss_addr : length gdt = Z.to_nat GDT_TABLE_SIZE ->
  0 <= tss_addr < 2 ^ 32 -> 0 <= gdt_addr < 2 ^ 32 ->
  exists gdt' tss reg d, init_gdt gdt gdt_addr tss_addr = Some (gdt', tss, reg, TSS_SELECTOR) /\
    flat_segment gdt' KERNEL_SELECTOR_CS true /\ flat_segment gdt' KERNEL_SELECTOR_DS false /\
    flat_segment gdt' USER_SELECTOR_CS true /\ flat_segment gdt' USER_SELECTOR_DS false /\
    zget gdt' (TSS_SELECTOR / 8) = Some d /\ seg_present d = true /\ seg_base d = tss_addr /\
    seg_limit d = tss_size - 1 /\ ss0 tss = KERNEL_SELECTOR_DS /\
    (let '(limit, low, high) := reg in limit = zlen gdt' * 8 - 1 /\ low + 65536 * high = gdt_addr).
Proof.
  intros Hg Ht Ha. unfold init_gdt. rewrite clear_gdt by done. mstep.
  repeat (match goal with |- context [gdt_set ?g ?sel 0 ?l ?at'] =>
    let r := eval vm_compute in (gdt_set g sel 0 l at') in change (gdt_set g sel 0 l at') with r end; mstep).
  match goal with |- context [gdt_set ?g TSS_SELECTOR tss_addr ?l ?at'] =>
    set (g0 := g); destruct (gdt_set_spec g0 TSS_SELECTOR tss_addr l at')
      as (g' & d & -> & Hd & Hn & Ho & Eb & El & Eat); [by vm_compute|lia|done|done|done|] end.
  mstep. do 4 eexists. split; [done|].
  assert (forall sel code x, zget g0 (sel / 8) = Some x -> sel / 8 <> TSS_SELECTOR / 8 ->
    seg_present x = true /\ seg_base x = 0 /\ seg_limit x = 4294967295 /\ seg_dpl x = sel mod 4 /\
    seg_code x = code -> flat_segment g' sel code) as Hflat.
  { intros sel code x Hx Hs Hp. exists x. by rewrite Ho. }
  split_and!; [eapply Hflat; [reflexivity|done|split_and!; by vm_compute]..|exact Hd| |done|done|done|].
  - unfold seg_present. by rewrite Eat by lia.
  - split; [rewrite Hn; by vm_compute|].
    rewrite Z.shiftr_div_pow2 by lia. change 65535 with (2 ^ 16 - 1). rewrite land_mask by lia.
    rewrite !u16_small; [|divmod..]. divmod.
Qed.

(** ** Properties of gates *)

Lemma gate_fields attr entry : 0 <= entry < 2 ^ 32 -> 0 <= attr < 256 ->
  let d := make_intr_desc attr entry in
  gate_entry d = entry /\ gattr d = attr /\ selector d = KERNEL_SELECTOR_CS.
Proof.
  intros He Ha. unfold make_intr_desc, gate_entry. cbn. rewrite u8_small, u32_small by lia.
  rewrite Z.shiftr_div_pow2 by lia. change 65535 with (2 ^ 16 - 1). rewrite !land_mask by lia.
  rewrite !u16_small; [|divmod..]. split_and!; try done. divmod.
Qed.

(** The gates [init_intr] makes: one per vector, for the kernel only. *)
Lemma init_intr_ok idt table : zlen idt = INT_DESC_CNT -> zlen table = INT_DESC_CNT ->
  exists idt', init_intr idt table = Some idt' /\ zlen idt' = INT_DESC_CNT /\
    forall i e, zget table i = Some e -> zget idt' i = Some (make_intr_desc IDT_DESC_ATTR_DPL0 e).
Proof.
  intros Hi Ht. unfold init_intr.
  destruct (for_inv (fun k (d : list intr_desc) => zlen d = INT_DESC_CNT /\
    forall i e, i < k -> zget table i = Some e -> zget d i = Some (make_intr_desc IDT_DESC_ATTR_DPL0 e))
    (fun i d => e ← zget table i; make_intr d i IDT_DESC_ATTR_DPL0 e) (Z.to_nat INT_DESC_CNT) 0 idt)
    as (d & E & Hl & Hd).
  - split; [done|]. intros i e H0 [H _]%zget_Some. lia.
  - intros j d Hj [Hl Hd]. destruct (zget_is_Some table j) as [e Ee]; [lia|]. rewrite Ee. mstep.
    unfold make_intr. rewrite zset_is_Some by lia. eexists. split; [done|].
    assert (zset d j (make_intr_desc IDT_DESC_ATTR_DPL0 e)
      = Some (<[Z.to_nat j := make_intr_desc IDT_DESC_ATTR_DPL0 e]> d)) as Es by (apply zset_is_Some; lia).
    split; [by rewrite (zlen_zset _ _ _ _ Es)|]. intros i e' Hi' He'. rewrite (zget_zset _ _ _ _ _ Es).
    destruct (Z.eqb_spec i j); [congruence|]. apply Hd; [lia|done].
  - exists d. split; [done|]. split; [done|]. intros i e He. apply Hd; [|done].
    apply zget_Some in He. lia.
Qed.


(** ** Properties of the interrupt masks *)

(** What the drivers rely on: once initialised, the data ports of the two
    controllers are their mask registers. *)
Class PicLaws (hw : Type) `{Ports hw} := {
  ready : hw -> Prop;
  imr : Z -> hw -> Z;
  imr_range p h : 0 <= imr p h < 256;
  imr_read p h : ready h -> p = PIC0_IMR \/ p = PIC1_IMR ->
    (in8 p h).1 = imr p h /\ ready (in8 p h).2 /\ forall q, imr q (in8 p h).2 = imr q h;
  imr_write p v h : ready h -> p = PIC0_IMR \/ p = PIC1_IMR -> 0 <= v < 256 ->
    ready (out8 p v h) /\
    forall q, q = PIC0_IMR \/ q = PIC1_IMR -> imr q (out8 p v h) = if q =? p then v else imr q h;
}.

(** Line [n] of the sixteen. *)
Definition masked {hw} `{PicLaws hw} (n : Z) (h : hw) : bool :=
  if n <? 8 then Z.testbit (imr PIC0_IMR h) n else Z.testbit (imr PIC1_IMR h) (n - 8).

Lemma bit_set v n j : 0 <= n < 8 -> 0 <= j < 8 ->
  Z.testbit (u8 (Z.lor v (Z.shiftl 1 n))) j = (if j =? n then true else Z.testbit v j) /\
  Z.testbit (u8 (Z.land v (Z.lnot (Z.shiftl 1 n)))) j = (if j =? n then false else Z.testbit v j).
Proof.
  intros Hn Hj. unfold u8. change 256 with (2 ^ 8). rewrite !Z.mod_pow2_bits_low by lia.
  rewrite Z.lor_spec, Z.land_spec, Z.lnot_spec, Z.shiftl_1_l, Z.pow2_bits_eqb by lia.
  rewrite (Z.eqb_sym n j). destruct (j =? n); by rewrite ?orb_true_r, ?orb_false_r, ?andb_false_r, ?andb_true_r.
Qed.

Section Masks.
Context {hw : Type} `{PicLaws hw}.

(** One mask register updated at the bit of a line. *)
Lemma mask_update p n (f : Z -> Z -> Z) (b : bool) (h : hw) : ready h -> p = PIC0_IMR \/ p = PIC1_IMR ->
  0 <= n < 8 ->
  (forall v j, 0 <= j < 8 -> Z.testbit (u8 (f v (Z.shiftl 1 n))) j = if j =? n then b else Z.testbit v j) ->
  exists h', (let '(v, h) := inb p h in m ← bit n; Some (outb p (u8 (f v m)) h)) = Some h' /\ ready h' /\
    forall q j, q = PIC0_IMR \/ q = PIC1_IMR -> 0 <= j < 8 ->
      Z.testbit (imr q h') j = if (q =? p) && (j =? n) then b else Z.testbit (imr q h) j.
Proof.
  intros Hr Hp Hn Hf. destruct (imr_read p h Hr Hp) as (E1 & R1 & I1). unfold inb, outb, bit.
  assert (u16 p = p) as -> by (by destruct Hp as [->| ->]).
  destruct (in8 p h) as [v h1]. cbn [fst snd] in *. subst v.
  destruct (Z.leb_spec 0 n); [|lia]. destruct (Z.ltb_spec n 32); [|lia]. cbn [andb]. mstep.
  rewrite (u8_small (imr p h)) by apply imr_range.
  set (w := u8 (f (imr p h) (Z.shiftl 1 n))). pose proof (u8_range (f (imr p h) (Z.shiftl 1 n))) as Hw. fold w in Hw.
  rewrite (u8_small w) by done. destruct (imr_write p w h1 R1 Hp Hw) as [R2 I2].
  eexists. split; [done|]. split; [done|]. intros q j Hq Hj. rewrite I2, I1 by done.
  destruct (Z.eqb_spec q p) as [->|]; [|done]. cbn [andb]. unfold w. by rewrite Hf.
Qed.

(** The two controllers together. *)
Lemma line_update (f : Z -> Z -> Z) (b : bool) intr_no (h : hw) : ready h ->
  (forall n v j, 0 <= n < 8 -> 0 <= j < 8 ->
     Z.testbit (u8 (f v (Z.shiftl 1 n))) j = if j =? n then b else Z.testbit v j) ->
  0 <= intr_no - IRQ_PIC_START < 16 ->
  exists h', (let n := intr_no - IRQ_PIC_START in
    if n <? 8 then let '(v, h) := inb PIC0_IMR h in m ← bit n; Some (outb PIC0_IMR (u8 (f v m)) h)
    else let '(v, h) := inb PIC1_IMR h in m ← bit (n - 8); Some (outb PIC1_IMR (u8 (f v m)) h)) = Some h' /\
    ready h' /\ forall k, 0 <= k < 16 ->
      masked k h' = if k =? intr_no - IRQ_PIC_START then b else masked k h.
Proof.
  intros Hr Hf Hn. cbv zeta. set (n := intr_no - IRQ_PIC_START) in *. unfold masked.
  destruct (Z.ltb_spec n 8).
  - destruct (mask_update PIC0_IMR n f b h) as (h' & E & R & I); [done|by left|lia|intros; apply Hf; lia|].
    exists h'. split; [done|]. split; [done|]. intros k Hk. destruct (Z.ltb_spec k 8).
    + rewrite I by (by left || lia). by rewrite Z.eqb_refl.
    + rewrite I by (by right || lia). cbn. by destruct (Z.eqb_spec k n); [lia|].
  - destruct (mask_update PIC1_IMR (n - 8) f b h) as (h' & E & R & I); [done|by right|lia|intros; apply Hf; lia|].
    exists h'. split; [done|]. split; [done|]. intros k Hk. destruct (Z.ltb_spec k 8).
    + rewrite I by (by left || lia). cbn. by destruct (Z.eqb_spec k n); [lia|].
    + rewrite I by (by right || lia). rewrite Z.eqb_refl. cbn.
      destruct (Z.eqb_spec k n), (Z.eqb_spec (k - 8) (n - 8)); try done; lia.
Qed.

(** [intr_enable] unmasks exactly the line of the vector it is given and
    [intr_disable] masks exactly that line, on the first controller for the
    lines below 8 and on the second for the others; vectors below 0x20, the
    processor's own, change nothing. *)
Theorem intr_mask_spec intr_no (h : hw) : ready h -> intr_no < IRQ_PIC_START + 16 ->
  exists h1 h2, intr_enable intr_no h = Some h1 /\ intr_disable intr_no h = Some h2 /\
    ready h1 /\ ready h2 /\ forall k, 0 <= k < 16 ->
      masked k h1 = (if k =? intr_no - IRQ_PIC_START then false else masked k h) /\
      masked k h2 = (if k =? intr_no - IRQ_PIC_START then true else masked k h).
Proof.
  intros Hr Hn. unfold intr_enable, intr_disable. destruct (Z.ltb_spec intr_no IRQ_PIC_START) as [Hlt|Hge].
  - exists h, h. split_and!; try done. intros k Hk. by destruct (Z.eqb_spec k (intr_no - IRQ_PIC_START)); [lia|].
  - destruct (line_update (fun v m => Z.land v (Z.lnot m)) false intr_no h) as (h1 & E1 & R1 & I1);
      [done|intros; by apply bit_set|lia|].
    destruct (line_update Z.lor true intr_no h) as (h2 & E2 & R2 & I2); [done|intros; by apply bit_set|lia|].
    exists h1, h2. split_and!; try done. intros k Hk. by split; [apply I1|apply I2].
Qed.
End Masks.

(** ** A pair of controllers
    The 8259: a command with bit 4 starts the initialisation, the next three
    bytes on the data port are the vector offset, the wiring and the mode, and
    every later one is the mask. *)

Record i8259 := I8259 { icw : Z; offset : Z; mask : Z }.
Record pics := Pics { master : i8259; slave : i8259 }.

Definition pic_command (v : Z) (c : i8259) : i8259 :=
  if Z.testbit v 4 then I8259 2 (offset c) (mask c) else c.
Definition pic_data (v : Z) (c : i8259) : i8259 :=
  if icw c =? 2 then I8259 3 v (mask c)
  else if icw c =? 3 then I8259 4 (offset c) (mask c)
  else if icw c =? 4 then I8259 0 (offset c) (mask c)
  else I8259 (icw c) (offset c) (u8 v).

Definition pics_out (p v : Z) (h : pics) : pics :=
  if p =? PIC1_COMMAND then Pics (pic_command v (master h)) (slave h)
  else if p =? PIC1_DATA then Pics (pic_data v (master h)) (slave h)
  else if p =? PIC2_COMMAND then Pics (master h) (pic_command v (slave h))
  else if p =? PIC2_DATA then Pics (master h) (pic_data v (slave h))
  else h.
Definition pics_in (p : Z) (h : pics) : Z * pics :=
  (if p =? PIC1_DATA then u8 (mask (master h)) else if p =? PIC2_DATA then u8 (mask (slave h)) else 0, h).

#[export] Instance pics_ports : Ports pics := {|
  in8 := pics_in; out8 := pics_out; in16 _ h := (0, h); out16 _ _ h := h; in32 _ h := (0, h); out32 _ _ h := h |}.

#[export, refine] Instance pics_laws : PicLaws pics := {|
  ready h := icw (master h) = 0 /\ icw (slave h) = 0;
  imr p h := if p =? PIC1_DATA then u8 (mask (master h)) else u8 (mask (slave h)) |}.
Proof.
  - intros p h. destruct (p =? PIC1_DATA); apply u8_range.
  - intros p h Hr [->| ->]; done.
  - intros p v h [H1 H2] Hp Hv. destruct h as [[i o m] [i' o' m']]. cbn in *. subst.
    destruct Hp as [->| ->]; (split; [done|]); intros q [->| ->]; cbn; by rewrite ?(u8_small v Hv), ?(u8_small v Hv).
Defined.

(** [pic_init] brings a pair of 8259 controllers in any state into operation:
    the sixteen lines raise the vectors from 0x20 and from 0x28, and none of
    them is masked. *)
Theorem pic_init_spec (h : pics) : let h' := pic_init h in
  ready h' /\ offset (master h') = 32 /\ offset (slave h') = 40 /\
  forall n, 0 <= n < 16 -> masked n h' = false.
Proof.
  cbn. split_and!; try done. intros n Hn. unfold masked. cbn.
  destruct (n <? 8); apply Z.testbit_0_l.
Qed.

Definition pics0 : pics := pic_init (Pics (I8259 0 8 255) (I8259 0 112 255)).

Lemma intr_mask_spec_witness :
  exists h1 h2, intr_enable 43 pics0 = Some h1 /\ intr_disable 43 pics0 = Some h2 /\
    ready h1 /\ ready h2 /\ forall k, 0 <= k < 16 ->
      masked k h1 = (if k =? 43 - IRQ_PIC_START then false else masked k pics0) /\
      masked k h2 = (if k =? 43 - IRQ_PIC_START then true else masked k pics0).
Proof. apply (intr_mask_spec 43 pics0); [done|by vm_compute]. Defined.

Definition gdt0 : list segment_desc := replicate (Z.to_nat GDT_TABLE_SIZE) (SegDesc 1 2 3 4 5).

Lemma init_gdt_spec_witness :
  exists gdt' tss reg d, init_gdt gdt0 4096 8192 = Some (gdt', tss, reg, TSS_SELECTOR) /\
    flat_segment gdt' KERNEL_SELECTOR_CS true /\ flat_segment gdt' KERNEL_SELECTOR_DS false /\
    flat_segment gdt' USER_SELECTOR_CS true /\ flat_segment gdt' USER_SELECTOR_DS false /\
    zget gdt' (TSS_SELECTOR / 8) = Some d /\ seg_present d = true /\ seg_base d = 8192 /\
    seg_limit d = tss_size - 1 /\ ss0 tss = KERNEL_SELECTOR_DS /\
    (let '(limit, low, high) := reg in limit = zlen gdt' * 8 - 1 /\ low + 65536 * high = 4096).
Proof. apply (init_gdt_spec gdt0 4096 8192); [done|lia|lia]. Defined.

Definition idt0 : list intr_desc := replicate (Z.to_nat INT_DESC_CNT) (IntrDesc 0 0 0 0 0).
Definition table0 : list Z := seqZ 65536 INT_DESC_CNT.

