(* ===== verification/Pci.v ===== *)
(** * The PCI bus: kernel/device/pci/pci.c, pci.h

    A configuration register is reached by writing its address to one port and
    its value to, or reading it from, another.  [PciLaws] is what the hardware
    promises: the registers are [conf], and a base-address register keeps the
    bits below its size.  The list of devices is the sequence of its elements
    ([DList] relates the two); the heap is taken to have memory for them. *)

From S2P Require Import Prelude Ports Gates CMath.
From S2P Require Import Prelude.

Definition PCI_CONF_ADDR : Z := 3320.
Definition PCI_CONF_DATA : Z := 3324.
Definition PCI_BAR_NR : Z := 6.
Definition PCI_CONF_VENDOR : Z := 0.
Definition PCI_CONF_COMMAND : Z := 4.
Definition PCI_CONF_REVISION : Z := 8.
Definition PCI_COMMAND_MASTER : Z := 4.
Definition PCI_CONF_BASE_ADDR0 : Z := 16.
Definition PCI_CONF_INTERRUPT : Z := 60.
Definition IRQ0_BASE : Z := 32.
Definition PCI_BAR_TYPE_MEM : Z := 0.
Definition PCI_BAR_TYPE_IO : Z := 1.
(** [~0x3] and [~0xF] as 32-bit masks. *)
Definition PCI_BAR_IO_MASK : Z := 4294967292.
Definition PCI_BAR_MEM_MASK : Z := 4294967280.

Definition PCI_ADDR (bus dev func addr : Z) : Z :=
  Z.lor (Z.lor (Z.lor (Z.lor 2147483648 (Z.shiftl (Z.land bus 255) 16)) (Z.shiftl (Z.land dev 31) 11))
    (Z.shiftl (Z.land func 7) 8)) addr.

Record pci_device_t := PciDevice {
  bus : Z; dev : Z; func : Z; vendor_id : Z; device_id : Z; revision : Z; class_code : Z }.
Record pci_bar_t := PciBar { io_base : Z; size : Z }.

(** ** Operations *)

Section Operations.
Context {hw : Type} `{Ports hw}.

Definition pci_inl (bus dev func addr : Z) (h : hw) : Z * hw :=
  inl PCI_CONF_DATA (outl PCI_CONF_ADDR (PCI_ADDR (u8 bus) (u8 dev) (u8 func) (u8 addr)) h).

(** The address is built without the masks of [PCI_ADDR]. *)
Definition pci_outl (bus dev func addr value : Z) (h : hw) : hw :=
  outl PCI_CONF_DATA value
    (outl PCI_CONF_ADDR
       (Z.lor (Z.lor (Z.lor (Z.lor 2147483648 (Z.shiftl (u8 bus) 16)) (Z.shiftl (u8 dev) 11))
          (Z.shiftl (u8 func) 8)) (u8 addr)) h).

(** The loop over the functions of a device, [n] of them left. *)
Fixpoint check_funcs (n : nat) (bus dev func : Z) (l : list pci_device_t) (h : hw)
    : list pci_device_t * hw :=
  match n with
  | O => (l, h)
  | S n' =>
      let '(value, h) := pci_inl bus dev func PCI_CONF_VENDOR h in
      let vendor := Z.land value 65535 in
      if (vendor =? 0) || (vendor =? 65535) then (l, h)
      else
        let '(_, h) := pci_inl bus dev func PCI_CONF_COMMAND h in
        let '(rev, h) := pci_inl bus dev func PCI_CONF_REVISION h in
        let device := PciDevice (u8 bus) (u8 dev) func vendor (u16 (Z.shiftr value 16))
                        (Z.land rev 255) (Z.shiftr rev 8) in
        check_funcs n' bus dev (func + 1) (l ++ [device]) h
  end.

Definition pci_check_device (bus dev : Z) (l : list pci_device_t) (h : hw)
    : list pci_device_t * hw := check_funcs 8 bus dev 0 l h.

(** [n] devices of a bus left, then [n] buses left. *)
Fixpoint check_devices (n : nat) (bus dev : Z) (l : list pci_device_t) (h : hw)
    : list pci_device_t * hw :=
  match n with
  | O => (l, h)
  | S n' => let '(l, h) := pci_check_device bus dev l h in check_devices n' bus (dev + 1) l h
  end.
Fixpoint check_buses (n : nat) (bus : Z) (l : list pci_device_t) (h : hw)
    : list pci_device_t * hw :=
  match n with
  | O => (l, h)
  | S n' => let '(l, h) := check_devices 32 bus 0 l h in check_buses n' (bus + 1) l h
  end.

Definition pci_enum_device (l : list pci_device_t) (h : hw) : list pci_device_t * hw :=
  check_buses 256 0 l h.
Definition init_pci (h : hw) : list pci_device_t * hw := pci_enum_device [] h.

Definition pci_enable_bus (device : pci_device_t) (h : hw) : hw :=
  let '(data, h) := pci_inl (bus device) (dev device) (func device) PCI_CONF_COMMAND h in
  pci_outl (bus device) (dev device) (func device) PCI_CONF_COMMAND (Z.lor data PCI_COMMAND_MASTER) h.

Definition pci_size (base mask : Z) : Z :=
  let size := Z.land mask base in u32 (u32 (Z.lnot size) + 1).

(** One round of [pci_find_bar]: the register is read, filled with ones to read
    its size, and written back. *)
Definition probe_bar (device : pci_device_t) (i : Z) (h : hw) : Z * Z * hw :=
  let addr := u8 (PCI_CONF_BASE_ADDR0 + Z.shiftl i 2) in
  let '(value, h) := pci_inl (bus device) (dev device) (func device) addr h in
  let h := pci_outl (bus device) (dev device) (func device) addr 4294967295 h in
  let '(len, h) := pci_inl (bus device) (dev device) (func device) addr h in
  let h := pci_outl (bus device) (dev device) (func device) addr value h in
  (value, len, h).

(** What a register of value [value] and size bits [len] gives. *)
Definition bar_of (value len type : Z) : option pci_bar_t :=
  if value =? 0 then None
  else if len <=? 0 then None
  else if nz (Z.land value 1) && (type =? PCI_BAR_TYPE_IO) then
    Some (PciBar (Z.land value PCI_BAR_IO_MASK) (pci_size len PCI_BAR_IO_MASK))
  else if negb (nz (Z.land value 1)) && (type =? PCI_BAR_TYPE_MEM) then
    Some (PciBar (Z.land value PCI_BAR_MEM_MASK) (pci_size len PCI_BAR_MEM_MASK))
  else None.

Fixpoint find_bar (n : nat) (i : Z) (device : pci_device_t) (bar : pci_bar_t) (type : Z) (h : hw)
    : Z * pci_bar_t * hw :=
  match n with
  | O => (-1, bar, h)
  | S n' =>
      let '(value, len, h) := probe_bar device i h in
      match bar_of value len type with
      | Some bar => (0, bar, h)
      | None => find_bar n' (i + 1) device bar type h
      end
  end.
Definition pci_find_bar (device : pci_device_t) (bar : pci_bar_t) (type : Z) (h : hw)
    : Z * pci_bar_t * hw := find_bar (Z.to_nat PCI_BAR_NR) 0 device bar type h.

Definition pci_interrupt (device : pci_device_t) (h : hw) : Z * hw :=
  let '(data, h) := pci_inl (bus device) (dev device) (func device) PCI_CONF_INTERRUPT h in
  (u8 (Z.land data 255 + IRQ0_BASE), h).
End Operations.

(** The visitor of [list_find]: false at the device looked for. *)
Definition find_device_by_vendor_id_device_id (vendor device : Z) (d : pci_device_t) : bool :=
  if (vendor_id d =? vendor) && (device_id d =? device) then false else true.

Fixpoint pci_find_device (l : list pci_device_t) (vendor device : Z) : option pci_device_t :=
  match l with
  | [] => None
  | d :: l' =>
      if find_device_by_vendor_id_device_id vendor device d then pci_find_device l' vendor device
      else Some d
  end.

(** ** What the hardware promises *)

Class PciLaws (hw : Type) `{Ports hw} := {
  conf : Z -> hw -> Z;
  reg_write : Z -> Z -> Z -> Z;
  wmask : Z -> Z;
  conf_range a h : 0 <= conf a h < 2 ^ 32;
  wmask_range a : 0 <= wmask a < 2 ^ 32;
  conf_read a h : 0 <= a < 2 ^ 32 ->
    let '(v, h') := in32 PCI_CONF_DATA (out32 PCI_CONF_ADDR a h) in
    v = conf a h /\ forall b, conf b h' = conf b h;
  conf_write a v h : 0 <= a < 2 ^ 32 -> 0 <= v < 2 ^ 32 ->
    forall b, conf b (out32 PCI_CONF_DATA v (out32 PCI_CONF_ADDR a h))
      = if b =? a then reg_write a v (conf a h) else conf b h;
  (** The bits of a base-address register that can be written. *)
  bar_write a v old : 16 <= a mod 256 < 40 ->
    reg_write a v old = Z.lor (Z.land old (Z.lnot (wmask a))) (Z.land v (wmask a));
}.

(** The address of register [r] of a function. *)
Definition reg_addr (b d f r : Z) : Z := 2147483648 + b * 65536 + d * 2048 + f * 256 + r.

(** ** Addresses *)

Lemma lor_low a k x : 0 <= k -> 0 <= x < 2 ^ k -> Z.lor (a * 2 ^ k) x = a * 2 ^ k + x.
Proof.
  intros Hk Hx. symmetry. apply Z.add_nocarry_lor. apply Z.bits_inj'. intros i Hi.
  rewrite Z.land_spec, Z.bits_0. destruct (Z_lt_ge_dec i k).
  - by rewrite Z.mul_pow2_bits_low.
  - rewrite (bits_lt_pow2 k x) by lia. apply andb_false_r.
Qed.

Lemma addr_lor b d f r : 0 <= b < 256 -> 0 <= d < 32 -> 0 <= f < 8 -> 0 <= r < 256 ->
  Z.lor (Z.lor (Z.lor (Z.lor 2147483648 (Z.shiftl b 16)) (Z.shiftl d 11)) (Z.shiftl f 8)) r
  = reg_addr b d f r.
Proof.
  intros Hb Hd Hf Hr. rewrite !Z.shiftl_mul_pow2 by lia. unfold reg_addr.
  change 2147483648 with (1 * 2 ^ 31) at 1. rewrite lor_low by lia.
  replace (1 * 2 ^ 31 + b * 2 ^ 16) with ((2 ^ 15 + b) * 2 ^ 16) by lia. rewrite lor_low by lia.
  replace ((2 ^ 15 + b) * 2 ^ 16 + d * 2 ^ 11) with (((2 ^ 15 + b) * 2 ^ 5 + d) * 2 ^ 11) by lia.
  rewrite lor_low by lia.
  replace (((2 ^ 15 + b) * 2 ^ 5 + d) * 2 ^ 11 + f * 2 ^ 8)
    with ((((2 ^ 15 + b) * 2 ^ 5 + d) * 2 ^ 3 + f) * 2 ^ 8) by lia.
  rewrite lor_low by lia. lia.
Qed.

Lemma PCI_ADDR_eq b d f r : 0 <= b < 256 -> 0 <= d < 32 -> 0 <= f < 8 -> 0 <= r < 256 ->
  PCI_ADDR b d f r = reg_addr b d f r.
Proof.
  intros Hb Hd Hf Hr. unfold PCI_ADDR. change 255 with (2 ^ 8 - 1). change 31 with (2 ^ 5 - 1).
  change 7 with (2 ^ 3 - 1). rewrite !land_mask by lia. rewrite !Z.mod_small by lia. by apply addr_lor.
Qed.

Lemma reg_addr_range b d f r : 0 <= b < 256 -> 0 <= d < 32 -> 0 <= f < 8 -> 0 <= r < 256 ->
  0 <= reg_addr b d f r < 2 ^ 32 /\ reg_addr b d f r mod 256 = r.
Proof. intros. unfold reg_addr. split; [lia|]. divmod. Qed.

(** ** Enumeration *)

Section Laws.
Context {hw : Type} `{PciLaws hw}.

Definition conf_same (h h' : hw) : Prop := forall a, conf a h' = conf a h.

Lemma pci_inl_ok b d f r (h : hw) : 0 <= b < 256 -> 0 <= d < 32 -> 0 <= f < 8 -> 0 <= r < 256 ->
  exists h', pci_inl b d f r h = (conf (reg_addr b d f r) h, h') /\ conf_same h h'.
Proof.
  intros Hb Hd Hf Hr. unfold pci_inl, inl, outl. rewrite !u8_small, PCI_ADDR_eq by lia.
  destruct (reg_addr_range b d f r) as [Ha _]; [done..|]. rewrite (u32_small (reg_addr _ _ _ _)) by lia.
  change (u16 PCI_CONF_ADDR) with PCI_CONF_ADDR. change (u16 PCI_CONF_DATA) with PCI_CONF_DATA.
  pose proof (conf_read (reg_addr b d f r) h Ha) as Hr'. destruct (in32 _ _) as [v h'].
  destruct Hr' as [-> Hc]. exists h'. rewrite u32_small by (pose proof (conf_range (reg_addr b d f r) h); lia).
  done.
Qed.

Lemma pci_outl_ok b d f r v (h : hw) : 0 <= b < 256 -> 0 <= d < 32 -> 0 <= f < 8 -> 0 <= r < 256 ->
  0 <= v < 2 ^ 32 -> forall a, conf a (pci_outl b d f r v h)
    = if a =? reg_addr b d f r then reg_write (reg_addr b d f r) v (conf (reg_addr b d f r) h) else conf a h.
Proof.
  intros Hb Hd Hf Hr Hv a. unfold pci_outl, outl. rewrite !u8_small, addr_lor by lia.
  destruct (reg_addr_range b d f r) as [Ha _]; [done..|].
  rewrite (u32_small (reg_addr _ _ _ _)), (u32_small v) by lia. by apply conf_write.
Qed.

(** The vendor of a function, and whether [pci_check_device] takes it for present. *)
Definition vendor (b d f : Z) (h : hw) : Z := conf (reg_addr b d f 0) h mod 65536.
Definition present (b d f : Z) (h : hw) : bool :=
  negb ((vendor b d f h =? 0) || (vendor b d f h =? 65535)).

Definition device_at (b d f : Z) (h : hw) : pci_device_t :=
  PciDevice b d f (vendor b d f h) (conf (reg_addr b d f 0) h / 65536)
    (conf (reg_addr b d f 8) h mod 256) (conf (reg_addr b d f 8) h / 256).

(** The functions of a device up to the first that is absent. *)
Fixpoint funcs (n : nat) (b d f : Z) (h : hw) : list pci_device_t :=
  match n with
  | O => []
  | S n' => if present b d f h then device_at b d f h :: funcs n' b d (f + 1) h else []
  end.
Definition scan (h : hw) : list pci_device_t :=
  b ← seqZ 0 256; d ← seqZ 0 32; funcs 8 b d 0 h.

Lemma device_at_same b d f (h h' : hw) : conf_same h h' -> device_at b d f h' = device_at b d f h.
Proof. intros Hs. unfold device_at, vendor. by rewrite !Hs. Qed.
Lemma funcs_same n b d f (h h' : hw) : conf_same h h' -> funcs n b d f h' = funcs n b d f h.
Proof.
  intros Hs. revert f. induction n as [|n IH]; intros f; [done|]. cbn [funcs].
  rewrite (device_at_same _ _ _ _ _ Hs), IH. unfold present, vendor. by rewrite !Hs.
Qed.
Lemma conf_same_trans (h1 h2 h3 : hw) : conf_same h1 h2 -> conf_same h2 h3 -> conf_same h1 h3.
Proof. intros H12 H23 a. by rewrite H23, H12. Qed.

Lemma check_funcs_ok n : forall b d f l (h : hw), 0 <= b < 256 -> 0 <= d < 32 ->
  0 <= f -> f + Z.of_nat n <= 8 ->
  exists h', check_funcs n b d f l h = (l ++ funcs n b d f h, h') /\ conf_same h h'.
Proof.
  induction n as [|n IH]; intros b d f l h Hb Hd Hf Hn; cbn [check_funcs funcs].
  { exists h. by rewrite app_nil_r. }
  change PCI_CONF_VENDOR with 0. change PCI_CONF_COMMAND with 4. change PCI_CONF_REVISION with 8.
  destruct (pci_inl_ok b d f 0 h) as (h1 & E1 & S1); [lia..|]. rewrite E1.
  assert (Z.land (conf (reg_addr b d f 0) h) 65535 = vendor b d f h) as Ev by by apply (land_mask _ 16).
  rewrite Ev.
  unfold present.
  destruct ((vendor b d f h =? 0) || (vendor b d f h =? 65535)); cbn [negb].
  { exists h1. by rewrite app_nil_r. }
  destruct (pci_inl_ok b d f 4 h1) as (h2 & E2 & S2); [lia..|]. rewrite E2.
  destruct (pci_inl_ok b d f 8 h2) as (h3 & E3 & S3); [lia..|]. rewrite E3.
  pose proof (conf_same_trans _ _ _ (conf_same_trans _ _ _ S1 S2) S3) as S13.
  destruct (IH b d (f + 1) (l ++ [device_at b d f h]) h3) as (h4 & E4 & S4); [lia..|].
  exists h4. split; [|by eapply conf_same_trans]. rewrite (funcs_same _ _ _ _ _ _ S13) in E4.
  rewrite <- app_assoc in E4. cbn [app] in E4. rewrite <- E4. f_equal. f_equal. f_equal. unfold device_at.
  rewrite (S2 _), (S1 _), !u8_small, !Z.shiftr_div_pow2 by lia. change 255 with (2 ^ 8 - 1).
  rewrite land_mask by lia. f_equal. apply u16_small. pose proof (conf_range (reg_addr b d f 0) h). divmod.
Qed.

Lemma check_devices_ok n : forall b d l (h : hw), 0 <= b < 256 -> 0 <= d -> d + Z.of_nat n <= 32 ->
  exists h', check_devices n b d l h = (l ++ (d ← seqZ d (Z.of_nat n); funcs 8 b d 0 h), h') /\ conf_same h h'.
Proof.
  induction n as [|n IH]; intros b d l h Hb Hd Hn.
  { exists h. cbn. by rewrite app_nil_r. }
  cbn [check_devices]. unfold pci_check_device.
  destruct (check_funcs_ok 8 b d 0 l h) as (h1 & -> & S1); [lia..|].
  destruct (IH b (d + 1) (l ++ funcs 8 b d 0 h) h1) as (h2 & -> & S2); [lia..|].
  exists h2. split; [|by eapply conf_same_trans]. f_equal.
  rewrite (seqZ_cons d) by lia. cbn [mbind list_bind]. rewrite <- app_assoc. f_equal. f_equal.
  replace (Z.pred (Z.of_nat (S n))) with (Z.of_nat n) by lia. replace (Z.succ d) with (d + 1) by lia.
  apply list_bind_ext; [|done]. intros x. by apply funcs_same.
Qed.

Lemma check_buses_ok n : forall b l (h : hw), 0 <= b -> b + Z.of_nat n <= 256 ->
  exists h', check_buses n b l h
    = (l ++ (b ← seqZ b (Z.of_nat n); d ← seqZ 0 32; funcs 8 b d 0 h), h') /\ conf_same h h'.
Proof.
  induction n as [|n IH]; intros b l h Hb Hn.
  { exists h. cbn. by rewrite app_nil_r. }
  cbn [check_buses]. destruct (check_devices_ok 32 b 0 l h) as (h1 & -> & S1); [lia..|].
  destruct (IH (b + 1) (l ++ (d ← seqZ 0 32; funcs 8 b d 0 h)) h1) as (h2 & E2 & S2); [lia..|].
  change (Z.of_nat 32) with 32. rewrite E2. exists h2. split; [|by eapply conf_same_trans]. f_equal.
  rewrite (seqZ_cons b) by lia. cbn [mbind list_bind]. rewrite <- app_assoc. f_equal. f_equal.
  replace (Z.pred (Z.of_nat (S n))) with (Z.of_nat n) by lia. replace (Z.succ b) with (b + 1) by lia.
  apply list_bind_ext; [|done]. intros x. apply list_bind_ext; [|done]. intros y. by apply funcs_same.
Qed.

Lemma init_pci_ok (h : hw) : exists h', init_pci h = (scan h, h') /\ conf_same h h'.
Proof.
  unfold init_pci, pci_enum_device, scan. by destruct (check_buses_ok 256 0 [] h) as (h' & -> & Hs); [lia..|eauto].
Qed.

(** *** Looking for a device *)

Definition reachable (b d f : Z) (h : hw) : Prop :=
  0 <= b < 256 /\ 0 <= d < 32 /\ 0 <= f < 8 /\ forall g, 0 <= g <= f -> present b d g h = true.

Lemma elem_of_funcs n b d f x (h : hw) : x ∈ funcs n b d f h <->
  exists k, f <= k < f + Z.of_nat n /\ x = device_at b d k h /\ forall g, f <= g <= k -> present b d g h = true.
Proof.
  revert f. induction n as [|n IH]; intros f; cbn [funcs].
  { split; [by intros ?%not_elem_of_nil|]. intros (k & Hk & _). lia. }
  destruct (present b d f h) eqn:Ep.
  - rewrite elem_of_cons, IH. split.
    + intros [->|(k & Hk & -> & Hg)].
      * exists f. split; [lia|]. split; [done|]. intros g Hg. by replace g with f by lia.
      * exists k. split; [lia|]. split; [done|]. intros g Hg'.
        destruct (decide (g = f)) as [->|]; [done|]. apply Hg. lia.
    + intros (k & Hk & -> & Hg). destruct (decide (k = f)) as [->|]; [by left|right].
      exists k. split; [lia|]. split; [done|]. intros g Hg'. apply Hg. lia.
  - split; [by intros ?%not_elem_of_nil|]. intros (k & Hk & _ & Hg). rewrite Hg in Ep by lia. done.
Qed.

Lemma elem_of_scan x (h : hw) :
  x ∈ scan h <-> exists b d f, x = device_at b d f h /\ reachable b d f h.
Proof.
  unfold scan, reachable. rewrite list_elem_of_bind. split.
  - intros (b & (d & (f & Hf & -> & Hg)%elem_of_funcs & Hd)%list_elem_of_bind & Hb).
    apply elem_of_seqZ in Hb, Hd. exists b, d, f. split; [done|]. split_and!; try lia. intros g Hg'. by apply Hg.
  - intros (b & d & f & -> & Hb & Hd & Hf & Hg). exists b. split; [|apply elem_of_seqZ; lia].
    apply list_elem_of_bind. exists d. split; [|apply elem_of_seqZ; lia]. apply elem_of_funcs.
    exists f. split_and!; [lia|lia|done|]. intros g Hg'. by apply Hg.
Qed.
End Laws.

Lemma pci_find_device_ok l v i : match pci_find_device l v i with
  | Some d => d ∈ l /\ vendor_id d = v /\ device_id d = i
  | None => forall d, d ∈ l -> ~ (vendor_id d = v /\ device_id d = i)
  end.
Proof.
  induction l as [|d l IH]; cbn [pci_find_device]; [by intros d ?%not_elem_of_nil|].
  unfold find_device_by_vendor_id_device_id.
  destruct (Z.eqb_spec (vendor_id d) v), (Z.eqb_spec (device_id d) i); cbn [andb];
    [split_and!; [set_solver|done|done]|..];
    (destruct (pci_find_device l v i) as [x|]; [destruct IH; split; [set_solver|done]|]);
    intros x [->|Hx]%elem_of_cons; try tauto; by apply IH.
Qed.

(** C21: The bus is enumerated without a change to any configuration register,
    and a device found afterwards is the function whose vendor and device
    register holds the two numbers asked for; when none is found, no function
    that can be reached (all functions of its device below it being present)
    has them. *)
Theorem pci_find_device_spec {hw} `{PciLaws hw} (h : hw) v i : 0 < v < 65535 -> 0 <= i < 65536 ->
  let '(l, h') := init_pci h in
  conf_same h h' /\
  match pci_find_device l v i with
  | Some d => reachable (bus d) (dev d) (func d) h /\
      conf (reg_addr (bus d) (dev d) (func d) PCI_CONF_VENDOR) h = v + 65536 * i /\
      d = device_at (bus d) (dev d) (func d) h
  | None => forall b d f, reachable b d f h ->
      conf (reg_addr b d f PCI_CONF_VENDOR) h <> v + 65536 * i
  end.
Proof.
  intros Hv Hi. destruct (init_pci_ok h) as (h' & -> & Hs). split; [done|].
  pose proof (pci_find_device_ok (scan h) v i) as Hf. destruct (pci_find_device _ _ _) as [x|].
  - destruct Hf as (Hx & Ev & Ei). apply elem_of_scan in Hx as (b & d & f & -> & Hr).
    change (bus (device_at b d f h)) with b. change (dev (device_at b d f h)) with d.
    change (func (device_at b d f h)) with f.
    split; [done|]. split; [|done].
    unfold device_at, vendor in Ev, Ei. cbn [vendor_id device_id] in Ev, Ei. unfold PCI_CONF_VENDOR.
    rewrite <- Ev, <- Ei. pose proof (Z.div_mod (conf (reg_addr b d f 0) h) 65536). lia.
  - intros b d f Hr E. apply (Hf (device_at b d f h)).
    + apply elem_of_scan. by exists b, d, f.
    + cbn. unfold vendor. unfold PCI_CONF_VENDOR in E. rewrite E. split; divmod.
Qed.

(** ** Base addresses *)

(** The value a register answers after ones have been written to it. *)
Definition size_bits (old mask : Z) : Z := Z.lor (Z.land old (Z.lnot mask)) mask.

Lemma high_mask k i : 0 <= k <= 32 -> 0 <= i ->
  Z.testbit (2 ^ 32 - 2 ^ k) i = (k <=? i) && (i <? 32).
Proof.
  intros Hk Hi. replace (2 ^ 32 - 2 ^ k) with (Z.shiftl (Z.ones (32 - k)) k).
  - rewrite Z.shiftl_spec by done. destruct (Z.leb_spec k i); cbn [andb].
    + destruct (Z.ltb_spec i 32); [rewrite Z.ones_spec_low|rewrite Z.ones_spec_high]; lia || done.
    + by rewrite Z.testbit_neg_r by lia.
  - rewrite Z.shiftl_mul_pow2, Z.ones_equiv by lia. unfold Z.pred. rewrite Z.mul_add_distr_r.
    rewrite <- Z.pow_add_r by lia. replace (32 - k + k) with 32 by lia. lia.
Qed.

(** The size of a region of [2 ^ k] bytes, read through a mask that hides the
    [t] low bits the register uses as flags. *)
Lemma pci_size_pow2 old k t : 0 <= t <= k -> k < 32 -> 0 <= old < 2 ^ 32 -> old mod 2 ^ k < 2 ^ t ->
  pci_size (size_bits old (2 ^ 32 - 2 ^ k)) (2 ^ 32 - 2 ^ t) = 2 ^ k.
Proof.
  intros Ht Hk Ho Hm. unfold pci_size.
  replace (Z.land (2 ^ 32 - 2 ^ t) (size_bits old (2 ^ 32 - 2 ^ k))) with (2 ^ 32 - 2 ^ k).
  - assert (0 < 2 ^ k < 2 ^ 32) by (split; [lia|apply Z.pow_lt_mono_r; lia]).
    assert (u32 (Z.lnot (2 ^ 32 - 2 ^ k)) = 2 ^ k - 1) as ->.
    { unfold Z.lnot, u32, Z.pred. change 4294967296 with (2 ^ 32).
      replace (- (2 ^ 32 - 2 ^ k) + -1) with (2 ^ k - 1 + (-1) * 2 ^ 32) by lia.
      rewrite Z.mod_add by lia. apply Z.mod_small. lia. }
    rewrite u32_small; lia.
  - symmetry. apply Z.bits_inj'. intros i Hi. unfold size_bits.
    rewrite Z.land_spec, Z.lor_spec, Z.land_spec, Z.lnot_spec, !high_mask by lia.
    destruct (Z.leb_spec t i), (Z.leb_spec k i), (Z.ltb_spec i 32); try lia; cbn [andb negb orb];
      rewrite ?orb_true_r, ?orb_false_r, ?andb_true_r; try done.
    rewrite <- (Z.mod_pow2_bits_low old k) by lia. apply (bits_lt_pow2 t); [lia|split; [divmod|done]|done].
Qed.

Section Bars.
Context {hw : Type} `{PciLaws hw}.

Definition bar_addr (d : pci_device_t) (i : Z) : Z :=
  reg_addr (bus d) (dev d) (func d) (PCI_CONF_BASE_ADDR0 + 4 * i).
Definition located (d : pci_device_t) : Prop :=
  0 <= bus d < 256 /\ 0 <= dev d < 32 /\ 0 <= func d < 8.

(** A register is left as it was by reading its size. *)
Lemma lor_restore old m v : Z.lor (Z.land (Z.lor (Z.land old (Z.lnot m)) (Z.land v m)) (Z.lnot m)) (Z.land old m) = old.
Proof.
  apply Z.bits_inj'. intros i Hi.
  rewrite !Z.lor_spec, !Z.land_spec, !Z.lor_spec, !Z.land_spec, !Z.lnot_spec by done.
  by destruct (Z.testbit old i), (Z.testbit m i), (Z.testbit v i).
Qed.

Lemma probe_bar_ok d i (h : hw) : located d -> 0 <= i < 6 ->
  exists h', probe_bar d i h
    = (conf (bar_addr d i) h, size_bits (conf (bar_addr d i) h) (wmask (bar_addr d i)), h') /\ conf_same h h'.
Proof.
  intros (Hb & Hd & Hf) Hi. unfold probe_bar. rewrite Z.shiftl_mul_pow2 by lia. change (2 ^ 2) with 4.
  rewrite (Z.mul_comm i 4). set (r := PCI_CONF_BASE_ADDR0 + 4 * i).
  assert (0 <= r < 256 /\ 16 <= r < 40) as [Hr Hr'] by (unfold r, PCI_CONF_BASE_ADDR0; lia).
  rewrite (u8_small r) by done. fold (bar_addr d i). unfold bar_addr. fold r.
  set (a := reg_addr (bus d) (dev d) (func d) r).
  assert (16 <= a mod 256 < 40) as Ha by (unfold a; by rewrite (proj2 (reg_addr_range _ _ _ r Hb Hd Hf Hr))).
  destruct (pci_inl_ok (bus d) (dev d) (func d) r h) as (h1 & -> & S1); [done..|]. fold a.
  set (h2 := pci_outl _ _ _ r 4294967295 h1).
  assert (forall b, conf b h2 = if b =? a then size_bits (conf a h) (wmask a) else conf b h) as C2.
  { intros b. unfold h2. rewrite pci_outl_ok by (done || lia). fold a. rewrite !S1, bar_write by done.
    replace (Z.land 4294967295 (wmask a)) with (wmask a); [done|].
    rewrite Z.land_comm. change 4294967295 with (2 ^ 32 - 1). rewrite land_mask by lia.
    symmetry. apply Z.mod_small, wmask_range. }
  destruct (pci_inl_ok (bus d) (dev d) (func d) r h2) as (h3 & -> & S3); [done..|]. fold a.
  eexists. split; [by rewrite (C2 a), Z.eqb_refl|].
  intros b. rewrite pci_outl_ok by (done || apply conf_range). fold a. rewrite !S3, !C2, Z.eqb_refl.
  destruct (Z.eqb_spec b a) as [->|]; [|done]. rewrite bar_write by done. unfold size_bits.
  pose proof (lor_restore (conf a h) (wmask a) (-1)) as Hl. by rewrite Z.land_m1_l in Hl.
Qed.

(** The base-address register [pci_find_bar] settles on. *)
Definition bar_at (d : pci_device_t) (type i : Z) (h : hw) : option pci_bar_t :=
  bar_of (conf (bar_addr d i) h) (size_bits (conf (bar_addr d i) h) (wmask (bar_addr d i))) type.

Lemma find_bar_ok n : forall i d bar type (h : hw), located d -> 0 <= i -> i + Z.of_nat n <= 6 ->
  exists err bar' h', find_bar n i d bar type h = (err, bar', h') /\ conf_same h h' /\
    ((err = -1 /\ bar' = bar /\ forall j, i <= j < i + Z.of_nat n -> bar_at d type j h = None) \/
     (err = 0 /\ exists j, i <= j < i + Z.of_nat n /\ bar_at d type j h = Some bar' /\
        forall k, i <= k < j -> bar_at d type k h = None)).
Proof.
  induction n as [|n IH]; intros i d bar type h Hl Hi Hn; cbn [find_bar].
  { exists (-1), bar, h. split; [done|]. split; [done|]. left. split_and!; try done; intros; lia. }
  destruct (probe_bar_ok d i h Hl) as (h1 & -> & S1); [lia|]. fold (bar_at d type i h).
  destruct (bar_at d type i h) as [b|] eqn:Eb.
  { exists 0, b, h1. split; [done|]. split; [done|]. right. split; [done|]. exists i.
    split_and!; try done; intros; lia. }
  destruct (IH (i + 1) d bar type h1 Hl) as (err & bar' & h' & E & S2 & R); [lia..|].
  assert (forall j, bar_at d type j h1 = bar_at d type j h) as Hb by (intros j; unfold bar_at; by rewrite S1).
  exists err, bar', h'. split; [done|]. split; [by eapply conf_same_trans|].
  assert (forall j, i <= j < i + 1 -> bar_at d type j h = None) as Hi0 by (intros j Hj; by replace j with i by lia).
  destruct R as [(-> & -> & Hno)|(-> & j & Hj & Ej & Hk)].
  - left. split_and!; try done. intros j Hj. destruct (Z_lt_ge_dec j (i + 1)); [apply Hi0; lia|].
    rewrite <- Hb. apply Hno. lia.
  - right. split; [done|]. exists j. rewrite Hb in Ej. split_and!; try done; try lia.
    intros k Hk'. destruct (Z_lt_ge_dec k (i + 1)); [apply Hi0; lia|]. rewrite <- Hb. apply Hk. lia.
Qed.

(** [pci_find_bar] leaves every configuration register as it was and answers
    the first base-address register of the type asked for; the region of an
    I/O register that decodes [2 ^ k] ports has its base with the two flag
    bits off and the size [2 ^ k].  It fails, leaving the result alone, when
    there is no such register. *)
Theorem pci_find_bar_spec d bar (h : hw) : located d ->
  exists err bar' h', pci_find_bar d bar PCI_BAR_TYPE_IO h = (err, bar', h') /\ conf_same h h' /\
    ((err = -1 /\ bar' = bar /\ forall j, 0 <= j < 6 -> bar_at d PCI_BAR_TYPE_IO j h = None) \/
     (err = 0 /\ exists j, 0 <= j < 6 /\ (forall k, 0 <= k < j -> bar_at d PCI_BAR_TYPE_IO k h = None) /\
        let v := conf (bar_addr d j) h in
        v mod 2 = 1 /\ io_base bar' = v - v mod 4 /\
        forall k, 2 <= k < 32 -> wmask (bar_addr d j) = 2 ^ 32 - 2 ^ k -> v mod 2 ^ k < 4 -> size bar' = 2 ^ k)).
Proof.
  intros Hl. destruct (find_bar_ok 6 0 d bar PCI_BAR_TYPE_IO h Hl) as (err & bar' & h' & E & Hs & R); [lia..|].
  exists err, bar', h'. split; [done|]. split; [done|].
  destruct R as [?|(-> & j & Hj & Ej & Hk)]; [by left|right]. split; [done|]. exists j. split; [done|]. split; [done|].
  cbv zeta. unfold bar_at, bar_of in Ej. set (v := conf (bar_addr d j) h) in *.
  assert (0 <= v < 2 ^ 32) as Hv by apply conf_range.
  destruct (v =? 0); [done|]. destruct (size_bits _ _ <=? 0); [done|]. rewrite !andb_false_r, !andb_true_r in Ej.
  change 1 with (2 ^ 1 - 1) in Ej. rewrite land_mask in Ej by lia.
  destruct (nz (v mod 2 ^ 1)) eqn:Eo; [|done]. injection Ej as <-. cbn [io_base size].
  split_and!.
  - unfold nz in Eo. destruct (Z.eqb_spec (v mod 2 ^ 1) 0); [done|]. divmod.
  - apply Z.bits_inj'. intros i Hi. rewrite Z.land_spec. unfold PCI_BAR_IO_MASK.
    change 4294967292 with (2 ^ 32 - 2 ^ 2). rewrite high_mask by lia.
    replace (v - v mod 4) with (v / 2 ^ 2 * 2 ^ 2) by divmod.
    destruct (Z.leb_spec 2 i); cbn [andb].
    + rewrite Z.mul_pow2_bits by lia. rewrite Z.div_pow2_bits by lia. replace (i - 2 + 2) with i by lia.
      destruct (Z.ltb_spec i 32); [apply andb_true_r|]. rewrite (bits_lt_pow2 32) by lia. done.
    + rewrite Z.mul_pow2_bits_low by lia. apply andb_false_r.
  - intros k Hk' -> Hm. apply (pci_size_pow2 v k 2); lia.
Qed.
End Bars.

(** *** Switching on bus mastering *)

(** [pci_enable_bus] writes the command register with the bit for bus mastering
    on and touches no other register. *)
Lemma pci_enable_bus_ok {hw} `{PciLaws hw} d (h : hw) : located d ->
  let a := reg_addr (bus d) (dev d) (func d) PCI_CONF_COMMAND in
  forall b, conf b (pci_enable_bus d h)
    = if b =? a then reg_write a (Z.lor (conf a h) PCI_COMMAND_MASTER) (conf a h) else conf b h.
Proof.
  intros (Hb & Hd & Hf) a b. unfold pci_enable_bus.
  destruct (pci_inl_ok (bus d) (dev d) (func d) PCI_CONF_COMMAND h) as (h1 & -> & S1);
    [done|done|done|by vm_compute|]. fold a.
  rewrite pci_outl_ok; [fold a; by rewrite !S1|done|done|done|by vm_compute|].
  apply (lor_bound 32); [lia|apply conf_range|by vm_compute].
Qed.

(** ** A bus
    Registers in a map; the first base-address register of a function decodes
    256 ports. *)

Record pci_bus := PciBus { latched : Z; regs : gmap Z Z }.

Definition bus_conf (a : Z) (h : pci_bus) : Z := u32 (default 4294967295 (regs h !! a)).
Definition bus_mask (a : Z) : Z := if a mod 256 =? 16 then 2 ^ 32 - 2 ^ 8 else 0.
Definition bus_write (a v old : Z) : Z :=
  if (16 <=? a mod 256) && (a mod 256 <? 40)
  then Z.lor (Z.land old (Z.lnot (bus_mask a))) (Z.land v (bus_mask a)) else v.

#[export] Instance bus_ports : Ports pci_bus := {|
  in8 _ h := (0, h); out8 _ _ h := h; in16 _ h := (0, h); out16 _ _ h := h;
  in32 p h := (if p =? PCI_CONF_DATA then bus_conf (latched h) h else 0, h);
  out32 p v h :=
    if p =? PCI_CONF_ADDR then PciBus v (regs h)
    else if p =? PCI_CONF_DATA then
      PciBus (latched h) (<[latched h := bus_write (latched h) v (bus_conf (latched h) h)]> (regs h))
    else h |}.

Lemma bus_write_range a v old : 0 <= v < 2 ^ 32 -> 0 <= old < 2 ^ 32 -> 0 <= bus_write a v old < 2 ^ 32.
Proof.
  intros Hv Ho. unfold bus_write. destruct (_ && _); [|done].
  apply (lor_bound 32); [lia|by apply land_bound|by apply land_bound].
Qed.

#[export, refine] Instance bus_laws : PciLaws pci_bus := {|
  conf := bus_conf; reg_write := bus_write; wmask := bus_mask |}.
Proof.
  - intros a h. apply u32_range.
  - intros a. unfold bus_mask. destruct (_ =? 16); lia.
  - intros a h Ha. cbn. by split.
  - intros a v h Ha Hv b. cbn. unfold bus_conf at 1. cbn. rewrite lookup_insert.
    destruct (Z.eqb_spec b a) as [->|Hne].
    + rewrite decide_True by done. cbn. apply u32_small. change 4294967296 with (2 ^ 32).
      apply bus_write_range; [done|]. apply u32_range.
    + by rewrite decide_False by done.
  - intros a v old Ha. unfold bus_write. by destruct (Z.leb_spec 16 (a mod 256)), (Z.ltb_spec (a mod 256) 40); try lia.
Defined.

(** An Ethernet controller in slot 3 of bus 0. *)
Definition bus0 : pci_bus := PciBus 0
  (<[reg_addr 0 3 0 0 := 4332 + 65536 * 33081]>
  (<[reg_addr 0 3 0 8 := 131072 * 256 + 16]>
  (<[reg_addr 0 3 0 16 := 49152 + 1]>
  (<[reg_addr 0 3 0 60 := 11]> ∅)))).
Definition nic0 : pci_device_t := PciDevice 0 3 0 4332 33081 16 131072.

Example find_nic0 : pci_find_device (init_pci bus0).1 4332 33081 = Some nic0.
Proof. by vm_compute. Qed.
Example find_bar_nic0 : (pci_find_bar nic0 (PciBar 0 0) PCI_BAR_TYPE_IO bus0).1 = (0, PciBar 49152 256).
Proof. by vm_compute. Qed.

Lemma pci_find_device_spec_witness :
  let '(l, h') := init_pci bus0 in
  conf_same bus0 h' /\
  match pci_find_device l 4332 33081 with
  | Some d => reachable (bus d) (dev d) (func d) bus0 /\
      conf (reg_addr (bus d) (dev d) (func d) PCI_CONF_VENDOR) bus0 = 4332 + 65536 * 33081 /\
      d = device_at (bus d) (dev d) (func d) bus0
  | None => forall b d f, reachable b d f bus0 ->
      conf (reg_addr b d f PCI_CONF_VENDOR) bus0 <> 4332 + 65536 * 33081
  end.
Proof. apply (pci_find_device_spec bus0 4332 33081); lia. Defined.

Lemma pci_find_bar_spec_witness :
  exists err bar' h', pci_find_bar nic0 (PciBar 0 0) PCI_BAR_TYPE_IO bus0 = (err, bar', h') /\ conf_same bus0 h' /\
    ((err = -1 /\ bar' = PciBar 0 0 /\ forall j, 0 <= j < 6 -> bar_at nic0 PCI_BAR_TYPE_IO j bus0 = None) \/
     (err = 0 /\ exists j, 0 <= j < 6 /\ (forall k, 0 <= k < j -> bar_at nic0 PCI_BAR_TYPE_IO k bus0 = None) /\
        let v := conf (bar_addr nic0 j) bus0 in
        v mod 2 = 1 /\ io_base bar' = v - v mod 4 /\
        forall k, 2 <= k < 32 -> wmask (bar_addr nic0 j) = 2 ^ 32 - 2 ^ k -> v mod 2 ^ k < 4 -> size bar' = 2 ^ k)).
Proof. apply (pci_find_bar_spec nic0 (PciBar 0 0) bus0). by vm_compute. Defined.
