(* ===== verification/PciNames.v ===== *)
(** * Names of PCI device classes: kernel/device/pci/util.h

    The table and its lookup: the first entry whose code is the class code,
    with or without the byte of the programming interface. *)

From Stdlib Require Import String.
From S2P Require Import Prelude.

Definition pci_classnames : list (Z * string) :=
  [(0, "Non-VGA unclassified device"%string);
   (256, "VGA compatible unclassified device"%string);
   (65536, "SCSI storage controller"%string);
   (65792, "IDE interface"%string);
   (66048, "Floppy disk controller"%string);
   (66304, "IPI bus controller"%string);
   (66560, "RAID bus controller"%string);
   (98304, "Unknown mass storage controller"%string);
   (131072, "Ethernet controller"%string);
   (131328, "Token ring network controller"%string);
   (131584, "FDDI network controller"%string);
   (131840, "ATM network controller"%string);
   (132096, "ISDN controller"%string);
   (163840, "Network controller"%string);
   (196608, "VGA controller"%string);
   (196864, "XGA controller"%string);
   (197120, "3D controller"%string);
   (229376, "Display controller"%string);
   (262144, "Multimedia video controller"%string);
   (262400, "Multimedia audio controller"%string);
   (262656, "Computer telephony device"%string);
   (294912, "Multimedia controller"%string);
   (327680, "RAM memory"%string);
   (327936, "FLASH memory"%string);
   (360448, "Memory controller"%string);
   (393216, "Host bridge"%string);
   (393472, "ISA bridge"%string);
   (393728, "EISA bridge"%string);
   (393984, "MicroChannel bridge"%string);
   (394240, "PCI bridge"%string);
   (394496, "PCMCIA bridge"%string);
   (394752, "NuBus bridge"%string);
   (395008, "CardBus bridge"%string);
   (395264, "RACEway bridge"%string);
   (395520, "Semi-transparent PCI-to-PCI bridge"%string);
   (395776, "InfiniBand to PCI host bridge"%string);
   (425984, "Bridge"%string);
   (458752, "Serial controller"%string);
   (459008, "Parallel controller"%string);
   (459264, "Multiport serial controller"%string);
   (459520, "Modem"%string);
   (491520, "Communication controller"%string);
   (524288, "PIC"%string);
   (524544, "DMA controller"%string);
   (524800, "Timer"%string);
   (525056, "RTC"%string);
   (525312, "PCI Hot-plug controller"%string);
   (557056, "System peripheral"%string);
   (589824, "Keyboard controller"%string);
   (590080, "Digitizer Pen"%string);
   (590336, "Mouse controller"%string);
   (590592, "Scanner controller"%string);
   (590848, "Gameport controller"%string);
   (622592, "Input device controller"%string);
   (655360, "Generic Docking Station"%string);
   (688128, "Docking Station"%string);
   (720896, "386"%string);
   (721152, "486"%string);
   (721408, "Pentium"%string);
   (724992, "Alpha"%string);
   (729088, "Power PC"%string);
   (733184, "MIPS"%string);
   (737280, "Co-processor"%string);
   (786432, "FireWire (IEEE 1394)"%string);
   (786688, "ACCESS Bus"%string);
   (786944, "SSA"%string);
   (787200, "USB Controller"%string);
   (787456, "Fiber Channel"%string);
   (787712, "SMBus"%string);
   (787968, "InfiniBand"%string);
   (851968, "IRDA controller"%string);
   (852224, "Consumer IR controller"%string);
   (856064, "RF controller"%string);
   (884736, "Wireless controller"%string);
   (917504, "I2O"%string);
   (983040, "Satellite TV controller"%string);
   (983296, "Satellite audio communication controller"%string);
   (983808, "Satellite voice communication controller"%string);
   (984064, "Satellite data communication controller"%string);
   (1048576, "Network and computing encryption device"%string);
   (1052672, "Entertainment encryption device"%string);
   (1081344, "Encryption controller"%string);
   (1114112, "DPIO module"%string);
   (1114368, "Performance counters"%string);
   (1118208, "Communication synchronizer"%string);
   (1146880, "Signal processing controller"%string)].

Fixpoint classname_in (l : list (Z * string)) (classcode : Z) : string :=
  match l with
  | [] => "Unknown device"%string
  | (code, name) :: l' =>
      if code =? classcode then name
      else if code =? Z.land classcode 16776960 then name
      else classname_in l' classcode
  end.
Definition pci_classname (classcode : Z) : string := classname_in pci_classnames classcode.

(** No two entries have the same code, so that the order of the table does not
    matter for a code that is in it with a zero interface byte. *)
Lemma classnames_distinct : NoDup pci_classnames.*1.
Proof. apply (bool_decide_unpack _). by vm_compute. Qed.

Lemma classname_in_ok l code name : NoDup l.*1 -> (code, name) ∈ l -> Z.land code 16776960 = code ->
  classname_in l code = name.
Proof.
  induction l as [|[c n] l IH]; intros Hd Hin Hc; [by apply not_elem_of_nil in Hin|].
  cbn [fmap list_fmap fst] in Hd. apply NoDup_cons in Hd as [Hn Hd]. cbn [classname_in]. rewrite Hc.
  apply elem_of_cons in Hin as [[= <- <-]|Hin]; [by rewrite Z.eqb_refl|].
  destruct (Z.eqb_spec c code) as [->|]; [|by apply IH]. destruct Hn. apply list_elem_of_fmap.
  by exists (code, name).
Qed.

(** Every device class of the table is shown under its name, whatever the
    programming interface of the device is. *)
Theorem pci_classname_spec code name interface : (code, name) ∈ pci_classnames ->
  0 <= interface < 256 -> (forall n, (code + interface, n) ∈ pci_classnames -> interface = 0) ->
  pci_classname (code + interface) = name.
Proof.
  intros Hin Hi Hno. unfold pci_classname.
  assert (code mod 256 = 0 /\ 0 <= code < 2 ^ 24) as [Hm Hr].
  { assert (Forall (fun x => x.1 mod 256 = 0 /\ 0 <= x.1 < 2 ^ 24) pci_classnames) as Hall
      by (apply (bool_decide_unpack _); by vm_compute).
    rewrite Forall_forall in Hall. by apply (Hall _ Hin). }
  assert (forall c, 0 <= c < 2 ^ 24 -> Z.land c 16776960 = c - c mod 256) as Hl.
  { intros c Hc. change 16776960 with (Z.shiftl (Z.ones 16) 8). apply Z.bits_inj'. intros i Hi'.
    rewrite Z.land_spec, Z.shiftl_spec by done. replace (c - c mod 256) with (c / 2 ^ 8 * 2 ^ 8) by divmod.
    destruct (Z_lt_ge_dec i 8).
    - rewrite Z.mul_pow2_bits_low, (Z.testbit_neg_r (Z.ones 16)) by lia. apply andb_false_r.
    - rewrite Z.mul_pow2_bits, Z.div_pow2_bits by lia. replace (i - 8 + 8) with i by lia.
      destruct (Z_lt_ge_dec i 24); [rewrite Z.ones_spec_low by lia; apply andb_true_r|].
      by rewrite (bits_lt_pow2 24) by lia. }
  destruct (decide (interface = 0)) as [->|Hne].
  { rewrite Z.add_0_r. apply classname_in_ok; [apply classnames_distinct|done|]. rewrite Hl by lia. lia. }
  rewrite <- (classname_in_ok pci_classnames code name classnames_distinct Hin) by (rewrite Hl by lia; lia).
  assert (Z.land (code + interface) 16776960 = code) as El by (rewrite Hl by divmod; divmod).
  assert (Z.land code 16776960 = code) as El' by (rewrite Hl by lia; lia).
  assert (forall n, (code + interface, n) ∉ pci_classnames) as Hno' by (intros n Hn; by apply Hno in Hn).
  clear Hin Hno. induction pci_classnames as [|[c n] l IH]; [done|]. cbn [classname_in]. rewrite El, El'.
  destruct (Z.eqb_spec c (code + interface)) as [->|].
  - destruct (Hno' n). apply elem_of_cons. by left.
  - destruct (c =? code); [done|]. apply IH. intros m Hm'. apply (Hno' m). by apply elem_of_cons; right.
Qed.
