(* ===== verification/Rtl8139.v ===== *)
(** * The network card: kernel/net/driver/rtl8139.c, rtl8139.h

    The driver's side of the RTL8139: four transmit slots used as a ring, and
    the receive buffer the card fills.  The card is reached through [Ports];
    [rx_mem] is the receive buffer as the card has left it.  The packets and
    queues are those of [Pktbuf] and [Link].  The transmit buffer is a list of
    bytes and [tx_data] the offsets of its slots. *)

From S2P Require Import Prelude Ports Gates Pci Pktbuf PktbufSpec Link.
From S2P Require Import Prelude.

(** ** Registers *)

Definition TSD0 : Z := 16.
Definition TSAD0 : Z := 32.
Definition RBSTART : Z := 48.
Definition CR : Z := 55.
Definition CAPR : Z := 56.
Definition IMR : Z := 60.
Definition ISR : Z := 62.
Definition TCR : Z := 64.
Definition RCR : Z := 68.
Definition MULINT : Z := 92.
Definition TSD_GAP : Z := 4.
Definition TSAD_GAP : Z := 4.
Definition TSD_TABT : Z := 2 ^ 30.
Definition TSD_TOK : Z := 2 ^ 15.
Definition TSD_TUN : Z := 2 ^ 14.
Definition TSD_ERTXTH_SHIFT : Z := 16.
Definition CR_RST : Z := 16.
Definition CR_RE : Z := 8.
Definition CR_TE : Z := 4.
Definition CR_BUFE : Z := 1.
Definition INT_TER : Z := 8.
Definition INT_TOK : Z := 4.
Definition INT_ROK : Z := 1.
Definition TCR_IFG_96 : Z := 50331648.
Definition TCR_MXDMA_1024 : Z := 1536.
Definition RCR_RBLEN_16K : Z := 2048.
Definition RCR_MXDMA_1024 : Z := 1536.
Definition RCR_WRAP : Z := 128.
Definition RCR_AB : Z := 8.
Definition RCR_APM : Z := 2.
Definition R8139DN_MAX_ETH_SIZE : Z := 1792.
Definition R8139DN_TX_DESC_NB : Z := 4.
Definition R8139DN_TX_DESC_SIZE : Z := R8139DN_MAX_ETH_SIZE.
Definition R8139DN_TX_DMA_SIZE : Z := R8139DN_TX_DESC_SIZE * R8139DN_TX_DESC_NB.
Definition R8139DN_RX_PAD : Z := 16.
Definition R8139DN_RX_BUFLEN : Z := 16384.
Definition R8139DN_RX_DMA_SIZE : Z := R8139DN_RX_BUFLEN + R8139DN_RX_PAD + 2048.
Definition CRC_LEN : Z := 4.
Definition RPKTHDR_SIZE : Z := 4.
Definition rtl8139_mtu : Z := 1500.

Record rtl8139_priv_t := Priv {
  ioaddr : Z; tx_data : list Z; tx_buffer : list Z; tx_curr : Z; tx_dirty : Z; free_count : Z;
  rx_curr : Z }.

Definition with_tx (p : rtl8139_priv_t) (buf : list Z) (curr dirty free : Z) : rtl8139_priv_t :=
  Priv (ioaddr p) (tx_data p) buf curr dirty free (rx_curr p).
Definition with_rx (p : rtl8139_priv_t) (curr : Z) : rtl8139_priv_t :=
  Priv (ioaddr p) (tx_data p) (tx_buffer p) (tx_curr p) (tx_dirty p) (free_count p) curr.

(** The header in front of a received packet. *)
Record rtl8139_rpkthdr_t := Rpkthdr { rstatus : Z; rsize : Z }.
Definition rpkthdr_of (b : list Z) : option rtl8139_rpkthdr_t :=
  match b with
  | [s0; s1; z0; z1] => Some (Rpkthdr (s0 + 256 * s1) (z0 + 256 * z1))
  | _ => None
  end.
Definition FAE (r : rtl8139_rpkthdr_t) : bool := Z.testbit (rstatus r) 1.
Definition CRC (r : rtl8139_rpkthdr_t) : bool := Z.testbit (rstatus r) 2.
Definition LONG (r : rtl8139_rpkthdr_t) : bool := Z.testbit (rstatus r) 3.
Definition RUNT (r : rtl8139_rpkthdr_t) : bool := Z.testbit (rstatus r) 4.
Definition ISE (r : rtl8139_rpkthdr_t) : bool := Z.testbit (rstatus r) 5.

(** [if (++i >= R8139DN_TX_DESC_NB) i = 0]. *)
Definition next_desc (i : Z) : Z := if R8139DN_TX_DESC_NB <=? i + 1 then 0 else i + 1.

Section Driver.
Context {hw : Type} `{Ports hw} (rx_mem : hw -> list Z).

(** ** Setting up *)

Fixpoint reset_wait (n : nat) (io_base : Z) (h : hw) : hw :=
  match n with
  | O => h
  | S n' => let '(v, h) := inb (io_base + CR) h in
            if nz (Z.land v CR_RST) then reset_wait n' io_base h else h
  end.
Definition rtl8139_reset (p : rtl8139_priv_t) (h : hw) : hw :=
  reset_wait (Z.to_nat 100000) (ioaddr p) (outb (ioaddr p + CR) CR_RST h).

(** [base] is the address of the transmit buffer. *)
Definition rtl8139_setup_tx (base : Z) (p : rtl8139_priv_t) (h : hw)
    : option (rtl8139_priv_t * hw) :=
  let '(cr, h) := inb (ioaddr p + CR) h in
  let h := outb (ioaddr p + CR) (Z.lor cr CR_TE) h in
  let h := outl (ioaddr p + TCR) (Z.lor TCR_IFG_96 TCR_MXDMA_1024) h in
  '(d, h) ← for_ (Z.to_nat R8139DN_TX_DESC_NB) 0 (fun i '(d, h) =>
      d ← zset d i (i * R8139DN_TX_DESC_SIZE);
      Some (d, outl (ioaddr p + TSAD0 + i * TSAD_GAP) (base + i * R8139DN_TX_DESC_SIZE) h))
    (tx_data p, h);
  Some (Priv (ioaddr p) d (tx_buffer p) 0 0 R8139DN_TX_DESC_NB (rx_curr p), h).

Definition rtl8139_setup_rx (base : Z) (p : rtl8139_priv_t) (h : hw) : rtl8139_priv_t * hw :=
  let '(cr, h) := inb (ioaddr p + CR) h in
  let h := outb (ioaddr p + CR) (Z.land cr (Z.lnot CR_RE)) h in
  let p := with_rx p 0 in
  let h := outw (ioaddr p + MULINT) 0 h in
  let h := outl (ioaddr p + RBSTART) base h in
  let h := outl (ioaddr p + RCR)
             (Z.lor (Z.lor (Z.lor (Z.lor RCR_MXDMA_1024 RCR_APM) RCR_AB) RCR_RBLEN_16K) RCR_WRAP) h in
  let '(cr, h) := inb (ioaddr p + CR) h in
  (p, outb (ioaddr p + CR) (Z.lor cr CR_RE) h).

(** ** Sending *)

(** The packet goes into the current slot and the card is told its length. *)
Definition send_slot (m : pmem) (buf : pktbuf_t) (p : rtl8139_priv_t) (h : hw)
    : option (pmem * rtl8139_priv_t * hw) :=
  let len := total_size buf in
  '(_, buf, bytes) ← pktbuf_read m buf len;
  slot ← zget (tx_data p) (tx_curr p);
  b ← mem_write (tx_buffer p) slot bytes;
  let '(_, m) := pktbuf_free m buf in
  let h := outl (ioaddr p + TSD0 + tx_curr p * TSD_GAP) (Z.lor (Z.shiftl 1 TSD_ERTXTH_SHIFT) len) h in
  Some (m, with_tx p b (next_desc (tx_curr p)) (tx_dirty p) (free_count p), h).

(** [netif_get_out(netif, 0)] waits while the queue is empty: no result. *)
Definition rtl8139_xmit (x : netif_t) (m : pmem) (p : rtl8139_priv_t) (h : hw)
    : option (net_err_t * netif_t * pmem * rtl8139_priv_t * hw) :=
  match queue_recv (out_q x) with
  | (None, _) => None
  | (Some buf, q) =>
      buf ← pktbuf_reset_acc m buf;
      '(m, p, h) ← send_slot m buf p h;
      Some (NET_ERR_OK, with_out_q x q, m,
            with_tx p (tx_buffer p) (tx_curr p) (tx_dirty p) (free_count p - 1), h)
  end.

(** The loop of the interrupt handler over the slots the card is done with. *)
Fixpoint tx_loop (fuel : nat) (n : Z) (s : link_state) (p : rtl8139_priv_t) (h : hw)
    : option (link_state * rtl8139_priv_t * hw) :=
  match fuel with
  | O => None
  | S fuel' =>
      if free_count p <? 4 then
        let '(tsd, h) := inl (ioaddr p + TSD0 + tx_dirty p * TSD_GAP) h in
        if nz (Z.land tsd (Z.lor (Z.lor TSD_TOK TSD_TABT) TSD_TUN)) then
          let p := with_tx p (tx_buffer p) (tx_curr p) (next_desc (tx_dirty p)) (free_count p + 1) in
          '(b, s) ← netif_get_out s n;
          match b with
          | Some buf =>
              let p := with_tx p (tx_buffer p) (tx_curr p) (tx_dirty p) (free_count p - 1) in
              '(m, p, h) ← send_slot (lpm s) buf p h;
              tx_loop fuel' n (set_lpm s m) p h
          | None => tx_loop fuel' n s p h
          end
        else Some (s, p, h)
      else Some (s, p, h)
  end.

(** ** Receiving *)

Definition rx_advance (curr size : Z) : Z :=
  let curr := Z.land (curr + size + RPKTHDR_SIZE + 3) (Z.lnot 3) in
  if R8139DN_RX_BUFLEN <? curr then curr - R8139DN_RX_BUFLEN else curr.

(** A packet without errors, copied from the buffer in one or two pieces. *)
Definition rx_copy (ring : list Z) (curr size : Z) (m : pmem) (buf : pktbuf_t)
    : option (pktbuf_t * pmem) :=
  let pkt_size := size - CRC_LEN in
  if R8139DN_RX_DMA_SIZE <? curr + size then
    let count := R8139DN_RX_DMA_SIZE - curr - RPKTHDR_SIZE in
    src ← mem_read ring (curr + RPKTHDR_SIZE) count;
    '(_, buf, m) ← pktbuf_write m buf src count;
    src ← mem_read ring 0 (pkt_size - count);
    '(_, buf, m) ← pktbuf_write m buf src (pkt_size - count);
    Some (buf, m)
  else
    src ← mem_read ring (curr + RPKTHDR_SIZE) pkt_size;
    '(_, buf, m) ← pktbuf_write m buf src pkt_size;
    Some (buf, m).

(** One round of the receive loop. *)
Definition rx_round (base n : Z) (s : link_state) (p : rtl8139_priv_t) (h : hw)
    : option (link_state * rtl8139_priv_t * hw) :=
  b ← mem_read (rx_mem h) (rx_curr p) RPKTHDR_SIZE;
  hdr ← rpkthdr_of b;
  let pkt_size := rsize hdr - CRC_LEN in
  if FAE hdr || CRC hdr || LONG hdr || RUNT hdr || ISE hdr then
    let '(p, h) := rtl8139_setup_rx base p h in Some (s, p, h)
  else if (pkt_size <? 0) || (R8139DN_MAX_ETH_SIZE <=? pkt_size) then
    let '(p, h) := rtl8139_setup_rx base p h in Some (s, p, h)
  else
    '(r, m) ← pktbuf_alloc (lpm s) pkt_size;
    let s := set_lpm s m in
    s ← match r with
        | Some buf =>
            '(buf, m) ← rx_copy (rx_mem h) (rx_curr p) (rsize hdr) (lpm s) buf;
            '(_, s) ← netif_put_in (set_lpm s m) n buf;
            Some s
        | None => Some s
        end;
    let p := with_rx p (rx_advance (rx_curr p) (rsize hdr)) in
    Some (s, p, outw (ioaddr p + CAPR) (rx_curr p - 16) h).

(** The loop until the card reports an empty buffer; [fuel] bounds the rounds. *)
Fixpoint rx_loop (fuel : nat) (base n : Z) (s : link_state) (p : rtl8139_priv_t) (h : hw)
    : option (link_state * rtl8139_priv_t * hw) :=
  match fuel with
  | O => None
  | S fuel' =>
      let '(v, h) := inb (ioaddr p + CR) h in
      if Z.land v CR_BUFE =? 0 then
        '(s, p, h) ← rx_round base n s p h; rx_loop fuel' base n s p h
      else Some (s, p, h)
  end.

Definition handle_rtl8139 (fuel : nat) (base n intr_no : Z) (s : link_state) (p : rtl8139_priv_t)
    (h : hw) : option (link_state * rtl8139_priv_t * hw) :=
  let '(isr, h) := inw (ioaddr p + ISR) h in
  let h := outw (ioaddr p + ISR) 65535 h in
  '(s, p, h) ← (if nz (Z.land isr INT_TOK) || nz (Z.land isr INT_TER)
                then tx_loop fuel n s p h else Some (s, p, h));
  '(s, p, h) ← (if nz (Z.land isr INT_ROK) then rx_loop fuel base n s p h else Some (s, p, h));
  Some (s, p, pic_send_eoi intr_no h).

(** ** Opening *)

Fixpoint read_mac (n : nat) (port : Z) (h : hw) : list Z * hw :=
  match n with
  | O => ([], h)
  | S n' => let '(v, h) := inb port h in let '(l, h) := read_mac n' (port + 1) h in (v :: l, h)
  end.

(** The answer, the interface, the driver's state, the vector its handler is
    registered for and the machine.  [bar0] is the uninitialised [bar]. *)
Definition rtl8139_open (l : list pci_device_t) (tx_base rx_base : Z) (bar0 : pci_bar_t)
    (x : netif_t) (p : rtl8139_priv_t) (h : hw)
    : option (net_err_t * netif_t * rtl8139_priv_t * option Z * hw) :=
  match pci_find_device l 4332 33081 with
  | None => Some (NET_ERR_NONE, x, p, None, h)
  | Some device =>
      let h := pci_enable_bus device h in
      let '(_, bar, h) := pci_find_bar device bar0 PCI_BAR_TYPE_IO h in
      let p := Priv (io_base bar) (tx_data p) (tx_buffer p) (tx_curr p) (tx_dirty p) (free_count p)
                 (rx_curr p) in
      let '(intr_no, h) := pci_interrupt device h in
      let h := outb (io_base bar + 82) 0 h in
      let h := outb (io_base bar + 82) 0 h in
      let '(mc, h) := read_mac 6 (io_base bar) h in
      let x := Netif (name x) mc (ip_desc x) (state x) NETIF_TYPE_ETHER rtl8139_mtu (link_layer x)
                 (in_q x) (out_q x) in
      let h := rtl8139_reset p h in
      '(p, h) ← rtl8139_setup_tx tx_base p h;
      let '(p, h) := rtl8139_setup_rx rx_base p h in
      h ← intr_disable intr_no h;
      let h := outw (ioaddr p + IMR) 65535 h in
      h ← intr_enable intr_no h;
      Some (NET_ERR_OK, x, p, Some intr_no, h)
  end.
End Driver.
