(* ===== verification/Rtl8139Spec.v ===== *)
(** * The network card: what the driver guarantees

    The four transmit slots are a queue of at most four frames
    ([in_flight]): [rtl8139_xmit] appends the next packet of the interface
    while a slot is free, and the interrupt handler drops frames the card is
    done with from the front and appends further packets, in order
    ([tx_loop_spec]).  The receive loop delivers the packets the card has
    stored, in order ([rx_loop_spec]). *)

From S2P Require Import Prelude Ports Gates Pci Pktbuf PktbufSpec PktbufAccess Link LinkSpec Disk Layout IpAddr.
From S2P Require Import Rtl8139 Prelude.

(** ** Packets *)

(** A position at the start of a packet. *)
Lemma reset_moved m buf others : buf_wf m buf others ->
  exists buf', pktbuf_reset_acc m buf = Some buf' /\ moved m m buf buf' others 0.
Proof.
  intros B. destruct (reset_acc_ok m buf _ (bf_mem _ _ _ B)) as (b & off & E & R); [set_solver|].
  eexists. split; [exact E|]. destruct (blk_list buf) as [|b' rest] eqn:El.
  - destruct R as [-> ->]. split; try done; [by split; cbn; rewrite El; destruct B as [W T]; rewrite El in *|].
    left. cbn. by rewrite El.
  - destruct R as (-> & x & Hx & ->). destruct (cursor_start m buf others b' rest x B El Hx) as [C B'].
    by split.
Qed.

(** The packets of a queue, each with one reference and fit for a slot. *)
Record queue_wf (m : pmem) (bufs : list pktbuf_t) (others : list Z) : Prop := {
  qw_mem : pm_wf m (concat (blk_list <$> bufs) ++ others);
  qw_each b : b ∈ bufs -> ref b = 1 /\ total_size b = zlen (contents m (blk_list b)) /\
    0 < total_size b <= R8139DN_TX_DESC_SIZE;
}.

Lemma queue_wf_head m b bufs others : queue_wf m (b :: bufs) others ->
  buf_wf m b (concat (blk_list <$> bufs) ++ others) /\ ref b = 1 /\ 0 < total_size b <= R8139DN_TX_DESC_SIZE.
Proof.
  intros [W E]. destruct (E b) as (R & T & S); [set_solver|]. split; [|done]. split; [|done].
  cbn in W. by rewrite <- app_assoc in W.
Qed.

Lemma in_queue_blks b y (bufs : list pktbuf_t) : b ∈ bufs -> y ∈ blk_list b -> y ∈ concat (blk_list <$> bufs).
Proof.
  intros Hb Hy. apply list_elem_of_In, in_concat. exists (blk_list b).
  split; [|by apply list_elem_of_In]. by apply list_elem_of_In, list_elem_of_fmap_2.
Qed.

(** The rest of the queue once the first packet has been released. *)
Lemma queue_wf_tail m b bufs others : queue_wf m (b :: bufs) others ->
  let '(_, m') := pktbuf_free m b in
  queue_wf m' bufs others /\ same_blks m m' (concat (blk_list <$> bufs) ++ others).
Proof.
  intros Q. destruct (queue_wf_head _ _ _ _ Q) as (B & R & _).
  pose proof (pktbuf_free_spec m b _ B) as F. destruct (pktbuf_free m b) as [b' m'].
  destruct F as (_ & Sb & F); [lia|]. rewrite R in F. destruct F as (W & _). split; [|done]. split; [done|].
  intros c Hc. destruct (qw_each _ _ _ Q c) as (Rc & Tc & Sc); [set_solver|]. split; [done|]. split; [|done].
  rewrite Tc. f_equal. symmetry. apply contents_ext. eapply same_blks_sub; [exact Sb|].
  intros x Hx. apply elem_of_app. left. by apply (in_queue_blks c).
Qed.

(** Releasing a packet does not depend on its position. *)
Lemma free_moved m buf buf' others p : moved m m buf buf' others p ->
  (pktbuf_free m buf').2 = (pktbuf_free m buf).2.
Proof.
  intros M. destruct (mv_ref _ _ _ _ _ _ M) as [E1 E2]. unfold pktbuf_free. cbn [ref with_ref].
  rewrite E2. destruct (_ =? 0); [|done]. cbn [blk_list with_ref self]. by rewrite (mv_blks _ _ _ _ _ _ M), E1.
Qed.

(** ** The transmit ring *)

Definition slot_of (i : Z) : Z := i * R8139DN_TX_DESC_SIZE.

Record ring_ok (p : rtl8139_priv_t) : Prop := {
  ro_data : tx_data p = [slot_of 0; slot_of 1; slot_of 2; slot_of 3];
  ro_buf : zlen (tx_buffer p) = R8139DN_TX_DMA_SIZE;
  ro_curr : 0 <= tx_curr p < 4;
  ro_dirty : 0 <= tx_dirty p < 4;
  ro_free : 0 <= free_count p <= 4;
  ro_used : tx_curr p = (tx_dirty p + (4 - free_count p)) mod 4;
}.

(** The frames handed to the card and not yet acknowledged, oldest first. *)
Record in_flight (p : rtl8139_priv_t) (fs : list (list Z)) : Prop := {
  if_ring : ring_ok p;
  if_count : zlen fs = 4 - free_count p;
  if_frame k f : fs !! k = Some f -> zlen f <= R8139DN_TX_DESC_SIZE /\
    sub (tx_buffer p) (slot_of ((tx_dirty p + Z.of_nat k) mod 4)) (zlen f) = f;
}.

Lemma next_desc_mod i : 0 <= i < 4 -> next_desc i = (i + 1) mod 4.
Proof.
  intros Hi. unfold next_desc, R8139DN_TX_DESC_NB. destruct (Z.leb_spec 4 (i + 1)).
  - replace i with 3 by lia. done.
  - rewrite Z.mod_small; lia.
Qed.

Lemma slot_lookup p i : ring_ok p -> 0 <= i < 4 -> zget (tx_data p) i = Some (slot_of i).
Proof.
  intros R Hi. rewrite (ro_data _ R).
  assert (i = 0 \/ i = 1 \/ i = 2 \/ i = 3) as [->|[->|[->| ->]]] by lia; done.
Qed.

(** The oldest frame leaves the ring. *)
Lemma in_flight_pop p fs : in_flight p fs -> free_count p < 4 ->
  in_flight (with_tx p (tx_buffer p) (tx_curr p) (next_desc (tx_dirty p)) (free_count p + 1)) (drop 1 fs).
Proof.
  intros [[R1 R2 R3 R4 R5 R6] C F] Hf. rewrite next_desc_mod by done. destruct fs as [|f0 fs].
  { change (zlen (@nil (list Z))) with 0 in C. lia. }
  change (zlen (f0 :: fs)) with (Z.of_nat (S (length fs))) in C. split; [split|..]; cbn [with_tx ioaddr tx_data tx_buffer tx_curr tx_dirty free_count].
  - done.
  - done.
  - done.
  - apply Z.mod_pos_bound. lia.
  - lia.
  - rewrite Zplus_mod_idemp_l, R6. f_equal. lia.
  - change (zlen (drop 1 (f0 :: fs))) with (Z.of_nat (length fs)). lia.
  - intros k f Hk. destruct (F (S k) f Hk) as [H1 H2]. split; [done|].
    rewrite Zplus_mod_idemp_l. replace (tx_dirty p + 1 + Z.of_nat k) with (tx_dirty p + Z.of_nat (S k)) by lia.
    exact H2.
Qed.

Lemma slots_apart i j n m : 0 <= i < 4 -> 0 <= j < 4 -> i <> j -> 0 <= n <= R8139DN_TX_DESC_SIZE ->
  0 <= m <= R8139DN_TX_DESC_SIZE -> slot_of i + n <= slot_of j \/ slot_of j + m <= slot_of i.
Proof. unfold slot_of, R8139DN_TX_DESC_SIZE, R8139DN_MAX_ETH_SIZE. nia. Qed.

(** A frame written to the current slot joins the ring. *)
Lemma in_flight_push p fs f : in_flight p fs -> 0 < free_count p -> zlen f <= R8139DN_TX_DESC_SIZE ->
  in_flight (with_tx p (splice (tx_buffer p) (slot_of (tx_curr p)) f) (next_desc (tx_curr p)) (tx_dirty p)
    (free_count p - 1)) (fs ++ [f]).
Proof.
  intros [[R1 R2 R3 R4 R5 R6] C F] Hf Hl. rewrite next_desc_mod by done. pose proof (zlen_nonneg f) as Hf0.
  assert (slot_of (tx_curr p) + zlen f <= zlen (tx_buffer p) /\ 0 <= slot_of (tx_curr p)) as [Hin H0].
  { rewrite R2. unfold slot_of, R8139DN_TX_DMA_SIZE, R8139DN_TX_DESC_SIZE, R8139DN_MAX_ETH_SIZE, R8139DN_TX_DESC_NB in *. nia. }
  split; [split|..]; cbn [with_tx ioaddr tx_data tx_buffer tx_curr tx_dirty free_count].
  - done.
  - by rewrite zlen_splice by lia.
  - apply Z.mod_pos_bound. lia.
  - done.
  - lia.
  - rewrite R6, Zplus_mod_idemp_l. f_equal. lia.
  - rewrite zlen_app, C. change (zlen [f]) with 1. lia.
  - intros k g Hk. apply lookup_app_Some in Hk as [Hk|[Hk Hg]].
    + destruct (F k g Hk) as [H1 H2]. split; [done|]. pose proof (lookup_lt_Some _ _ _ Hk) as Hkl.
      unfold zlen in C. rewrite <- H2 at 2. pose proof (zlen_nonneg g).
      set (i := (tx_dirty p + Z.of_nat k) mod 4). assert (0 <= i < 4) as Hi by (apply Z.mod_pos_bound; lia).
      assert (i <> tx_curr p) as Hne by (unfold i; rewrite R6; divmod).
      assert (0 <= slot_of i) by (unfold slot_of, R8139DN_TX_DESC_SIZE, R8139DN_MAX_ETH_SIZE; lia).
      destruct (slots_apart i (tx_curr p) (zlen g) (zlen f)); try done; try lia.
      * apply sub_splice_before; lia.
      * apply sub_splice_after; lia.
    + apply list_lookup_singleton_Some in Hg as [Hk0 <-]. split; [done|].
      replace ((tx_dirty p + Z.of_nat k) mod 4) with (tx_curr p).
      * apply sub_splice_same; lia.
      * rewrite R6. f_equal. unfold zlen in C. lia.
Qed.

Section Transmit.
Context {hw : Type} `{Ports hw}.

(** What the card is told about the frame in slot [i]. *)
Definition start (p : rtl8139_priv_t) (i len : Z) (h : hw) : hw :=
  outl (ioaddr p + TSD0 + i * TSD_GAP) (Z.lor (Z.shiftl 1 TSD_ERTXTH_SHIFT) len) h.

Lemma send_slot_ok m b0 buf others p h : buf_wf m b0 others ->
  0 < total_size b0 <= R8139DN_TX_DESC_SIZE -> moved m m b0 buf others 0 ->
  zget (tx_data p) (tx_curr p) = Some (slot_of (tx_curr p)) -> 0 <= tx_curr p < 4 ->
  zlen (tx_buffer p) = R8139DN_TX_DMA_SIZE ->
  send_slot m buf p h = Some ((pktbuf_free m b0).2,
    with_tx p (splice (tx_buffer p) (slot_of (tx_curr p)) (contents m (blk_list b0)))
      (next_desc (tx_curr p)) (tx_dirty p) (free_count p),
    start p (tx_curr p) (total_size b0) h).
Proof.
  intros B T M Hz Hc Hl.
  unfold send_slot. rewrite (mv_total _ _ _ _ _ _ M).
  destruct (pktbuf_read_moved m buf _ (total_size b0) (mv_wf _ _ _ _ _ _ M) (mv_cursor _ _ _ _ _ _ M))
    as (buf1 & -> & M1).
  { unfold total_blk_remain. rewrite (mv_pos _ _ _ _ _ _ M), (mv_total _ _ _ _ _ _ M). lia. }
  mstep. rewrite Hz. mstep. rewrite (mv_blks _ _ _ _ _ _ M), (mv_pos _ _ _ _ _ _ M).
  rewrite (bf_total _ _ _ B) at 1. unfold sub at 1. rewrite drop_0.
  rewrite take_ge by (unfold zlen; lia). set (f := contents m (blk_list b0)).
  assert (zlen f = total_size b0) as Hf by (symmetry; apply (bf_total _ _ _ B)).
  unfold mem_write. rewrite Hf.
  destruct (Z.leb_spec 0 (slot_of (tx_curr p))) as [_|Hlt];
    [|unfold slot_of, R8139DN_TX_DESC_SIZE, R8139DN_MAX_ETH_SIZE in Hlt; lia].
  destruct (Z.leb_spec (slot_of (tx_curr p) + total_size b0) (zlen (tx_buffer p))) as [_|Hlt];
    [|rewrite Hl in Hlt; unfold slot_of, R8139DN_TX_DMA_SIZE, R8139DN_TX_DESC_SIZE, R8139DN_MAX_ETH_SIZE,
        R8139DN_TX_DESC_NB in *; lia].
  cbn [andb]. mstep. rewrite <- (free_moved _ _ _ _ _ M).
  pose proof (free_moved _ _ _ _ _ M1) as E1. destruct (pktbuf_free m buf1) as [? m1]. cbn [snd] in E1.
  subst m1. done.
Qed.

(** While a transmit slot is free, [rtl8139_xmit] takes the oldest packet of the
    interface's queue, leaves its bytes in the next slot of the ring behind
    the frames in flight and tells the card its length. *)
Lemma rtl8139_xmit_ok x m p h fs b0 bufs others : out_q x = b0 :: bufs ->
  buf_wf m b0 others -> 0 < total_size b0 <= R8139DN_TX_DESC_SIZE -> in_flight p fs -> 0 < free_count p ->
  exists p', rtl8139_xmit x m p h
      = Some (NET_ERR_OK, with_out_q x bufs, (pktbuf_free m b0).2, p', start p (tx_curr p) (total_size b0) h) /\
    in_flight p' (fs ++ [contents m (blk_list b0)]) /\ ioaddr p' = ioaddr p.
Proof.
  intros Hq B T I Hf. unfold rtl8139_xmit. rewrite Hq. cbn [queue_recv].
  destruct (reset_moved _ _ _ B) as (buf & -> & M). mstep. pose proof (if_ring _ _ I) as G.
  rewrite (send_slot_ok _ _ _ _ _ _ B T M) by (apply slot_lookup || apply G; done || apply G). mstep.
  eexists. split; [done|]. cbn [with_tx tx_buffer tx_curr tx_dirty free_count ioaddr]. split; [|done].
  apply (in_flight_push p fs); [done|done|]. rewrite <- (bf_total _ _ _ B). lia.
Qed.

(** The driver behind [ops->xmit], as the layers above see it. *)
Definition xmit_ops (p : rtl8139_priv_t) (h : hw) (x : netif_t) (m : pmem)
    : option (net_err_t * netif_t * pmem) :=
  '(e, x, m, _, _) ← rtl8139_xmit x m p h; Some (e, x, m).

(** C16: A packet sent through [ether_raw_out] with the driver behind the interface,
    while a transmit slot is free: the slot after the frames in flight holds
    the Ethernet frame, that is destination, source and protocol, the data and
    its padding, the card is told the length of the frame, and the queue of
    the interface is empty again. *)
Theorem ether_frame_sent s n x protocol dst buf others p h fs :
  buf_wf (lpm s) buf others -> 0 < total_size buf <= ETH_MTU -> 2 <= zlen (free (lpm s)) ->
  netifs s !! n = Some x -> out_q x = [] -> bytes_ok 6 (mac x) -> bytes_ok 6 dst -> mac x <> dst ->
  0 <= protocol < 65536 -> in_flight p fs -> 0 < free_count p ->
  let f := frame dst (mac x) protocol (contents (lpm s) (blk_list buf)) in
  exists buf' m' s' p',
    ether_raw_out (xmit_ops p h) s n protocol dst buf = Some (NET_ERR_OK, buf', s') /\
    rtl8139_xmit (with_out_q x [buf']) m' p h
      = Some (NET_ERR_OK, with_out_q x [], lpm s', p', start p (tx_curr p) (zlen f) h) /\
    netifs s' !! n = Some (with_out_q x []) /\ in_flight p' (fs ++ [f]).
Proof.
  intros B T Hf Hx Hq Hm Hd Hne Hp I Hfr f.
  destruct (ether_raw_out_ok (xmit_ops p h) s n x protocol dst buf others) as (buf' & m' & B' & _ & Ec & E);
    try done; [lia|]. rewrite bool_decide_eq_false_2 in E by done. rewrite Hq in E. cbn [app] in E.
  change (NETIF_OUTQ_SIZE <=? zlen []) with false in E. cbn iota in E.
  assert (zlen f <= R8139DN_TX_DESC_SIZE /\ 0 < zlen f) as [Hl Hl0].
  { unfold f, frame, padded. rewrite !zlen_app. destruct Hd as [-> _]. destruct Hm as [-> _].
    rewrite <- (bf_total _ _ _ B). change (zlen [_; _]) with 2. unfold zlen. rewrite length_replicate.
    unfold R8139DN_TX_DESC_SIZE, R8139DN_MAX_ETH_SIZE, ETH_MTU, ETH_DATA_MIN in *. lia. }
  assert (total_size buf' = zlen f) as Ht by (by rewrite (bf_total _ _ _ B'), Ec).
  destruct (rtl8139_xmit_ok (with_out_q x [buf']) m' p h fs buf' [] others) as (p' & Ex & I' & _);
    [done|done|lia|done|done|].
  exists buf', m'. eexists. exists p'. rewrite E. unfold xmit_ops. rewrite Ex. mstep.
  rewrite Ht. split; [done|]. split; [done|]. split; [apply lookup_insert_eq|]. by rewrite Ec in I'.
Qed.

(** A run of the handler over the transmit ring: acknowledged frames have left
    at the front, packets of the interface have joined at the back, both in
    order. *)
Definition tx_run (n : Z) (x : netif_t) (others : list Z) (s : link_state) (p : rtl8139_priv_t)
    (fs : list (list Z)) (s' : link_state) (p' : rtl8139_priv_t) : Prop :=
  exists j k m', (j <= length (out_q x))%nat /\
    s' = set_lpm (set_netif s n (with_out_q x (drop j (out_q x)))) m' /\
    in_flight p' (drop k (fs ++ ((fun b => contents (lpm s) (blk_list b)) <$> take j (out_q x)))) /\
    ioaddr p' = ioaddr p /\ rx_curr p' = rx_curr p /\ queue_wf m' (drop j (out_q x)) others /\
    same_blks (lpm s) m' others.

Lemma tx_run_stop n x others s p fs : netifs s !! n = Some x -> queue_wf (lpm s) (out_q x) others ->
  in_flight p fs -> tx_run n x others s p fs s p.
Proof.
  intros Hx Q I. exists 0%nat, 0%nat, (lpm s). rewrite take_0, !drop_0. cbn. rewrite app_nil_r.
  split_and!; try done; try lia. unfold set_lpm, set_netif. cbn. rewrite insert_id by (by destruct x).
  by destruct s.
Qed.

(** A frame is acknowledged and no packet is waiting. *)
Lemma tx_run_pop n x others s p p1 fs s' p' : out_q x = [] -> free_count p < 4 -> in_flight p fs ->
  ioaddr p1 = ioaddr p -> rx_curr p1 = rx_curr p ->
  tx_run n (with_out_q x []) others (set_netif s n (with_out_q x [])) p1 (drop 1 fs) s' p' ->
  tx_run n x others s p fs s' p'.
Proof.
  intros Eq Hf I E1 E2 (j & k & m' & Hj & -> & I' & Ei & Er & Q' & Sb). cbn in Hj.
  assert (j = 0%nat) as -> by lia. exists 0%nat, (S k), m'. rewrite Eq. cbn in *.
  rewrite app_nil_r in *. rewrite drop_drop in I'. split_and!; try done; try lia; try congruence.
  unfold set_lpm, set_netif. cbn. by rewrite insert_insert_eq.
Qed.

(** A frame is acknowledged and the next packet takes a slot. *)
Lemma tx_run_next n x others s p p1 fs b0 bufs m1 s' p' : out_q x = b0 :: bufs -> free_count p < 4 ->
  in_flight p fs -> ioaddr p1 = ioaddr p -> rx_curr p1 = rx_curr p ->
  same_blks (lpm s) m1 (concat (blk_list <$> bufs) ++ others) ->
  tx_run n (with_out_q x bufs) others (set_lpm (set_netif s n (with_out_q x bufs)) m1) p1
    (drop 1 fs ++ [contents (lpm s) (blk_list b0)]) s' p' ->
  tx_run n x others s p fs s' p'.
Proof.
  intros Eq Hf I E1 E2 Sb1 (j & k & m' & Hj & -> & I' & Ei & Er & Q' & Sb).
  cbn [out_q with_out_q lpm set_lpm set_netif] in *. exists (S j), (S k), m'. rewrite Eq. split; [cbn; lia|].
  split; [unfold set_lpm, set_netif; cbn; by rewrite insert_insert_eq|].
  split; [|split_and!; try done; try congruence; eapply same_blks_trans; [|exact Sb];
    eapply same_blks_sub; [exact Sb1|]; set_solver].
  assert (((fun b => contents m1 (blk_list b)) <$> take j bufs)
    = (fun b => contents (lpm s) (blk_list b)) <$> take j bufs) as Ec.
  { apply list_fmap_ext. intros i c Hc. apply contents_ext. eapply same_blks_sub; [exact Sb1|].
    intros y Hy. apply elem_of_app. left. apply (in_queue_blks c); [|done].
    apply list_elem_of_lookup_2 in Hc. apply (subseteq_take j bufs). done. }
  rewrite Ec, <- app_assoc in I'. destruct fs as [|f0 fs]; [|exact I'].
  pose proof (if_count _ _ I) as Hc0. change (zlen (@nil (list Z))) with 0 in Hc0. lia.
Qed.

End Transmit.

(** Without a free slot, the oldest frame in flight is overwritten. *)
Lemma xmit_overwrites {hw} `{Ports hw} x m p (h : hw) f fs b0 bufs others : out_q x = b0 :: bufs ->
  queue_wf m (b0 :: bufs) others -> in_flight p (f :: fs) -> free_count p = 0 ->
  exists m' p' h', rtl8139_xmit x m p h = Some (NET_ERR_OK, with_out_q x bufs, m', p', h') /\
    tx_dirty p' = tx_dirty p /\
    sub (tx_buffer p') (slot_of (tx_dirty p')) (total_size b0) = contents m (blk_list b0).
Proof.
  intros Hq Q I Hf. unfold rtl8139_xmit. rewrite Hq. cbn [queue_recv].
  destruct (queue_wf_head _ _ _ _ Q) as (B & R & T). destruct (reset_moved _ _ _ B) as (buf & -> & M). mstep.
  destruct (if_ring _ _ I) as [R1 R2 R3 R4 R5 R6].
  rewrite (send_slot_ok _ _ _ _ _ _ B T M) by (apply slot_lookup || done; done || apply I). mstep.
  do 3 eexists. split; [done|]. cbn [with_tx tx_buffer tx_curr tx_dirty]. split; [done|].
  assert (tx_curr p = tx_dirty p) as <- by (rewrite R6, Hf; divmod).
  rewrite (bf_total _ _ _ B). pose proof (zlen_nonneg (contents m (blk_list b0))).
  rewrite (bf_total _ _ _ B) in T. unfold slot_of, R8139DN_TX_DMA_SIZE, R8139DN_TX_DESC_SIZE, R8139DN_MAX_ETH_SIZE,
    R8139DN_TX_DESC_NB in *. apply sub_splice_same; lia.
Qed.

(** ** The receive buffer *)

Lemma align4 x : 0 <= x -> Z.land (x + 3) (Z.lnot 3) = (x + 3) / 4 * 4.
Proof.
  intros Hx. change (Z.lnot 3) with (Z.lnot (Z.ones 2)). rewrite <- Z.ldiff_land, Z.ldiff_ones_r by lia.
  by rewrite Z.shiftl_mul_pow2, Z.shiftr_div_pow2 by lia.
Qed.

(** Where the card puts the packet after one of [size] bytes at [pos]. *)
Definition card_next (pos size : Z) : Z := (pos + size + RPKTHDR_SIZE + 3) / 4 * 4 mod R8139DN_RX_BUFLEN.

(** The driver follows the card around the ring, except that it stays at the
    end of the buffer where the card is back at its start. *)
Lemma rx_advance_ok curr size : 0 <= curr <= R8139DN_RX_BUFLEN -> CRC_LEN <= size < R8139DN_MAX_ETH_SIZE + CRC_LEN ->
  0 <= rx_advance curr size <= R8139DN_RX_BUFLEN /\
  (rx_advance curr size = card_next curr size \/
   rx_advance curr size = R8139DN_RX_BUFLEN /\ card_next curr size = 0).
Proof.
  unfold rx_advance, card_next, R8139DN_RX_BUFLEN, CRC_LEN, R8139DN_MAX_ETH_SIZE, RPKTHDR_SIZE. intros Hc Hs.
  rewrite align4 by lia. destruct (Z.ltb_spec 16384 ((curr + size + 4 + 3) / 4 * 4)).
  - split; [divmod|]. left. divmod.
  - split; [divmod|]. destruct (Z.eq_dec ((curr + size + 4 + 3) / 4 * 4) 16384) as [->|]; [by right|left].
    rewrite Z.mod_small; [done|]. divmod.
Qed.

(** A packet that ends exactly at the end of the buffer: the driver looks for
    the next one at 16384, the card writes it to 0. *)
Example rx_off_by_one : rx_advance 16312 68 = 16384 /\ card_next 16312 68 = 0.
Proof. done. Qed.

Lemma mem_read_ok (l : list Z) off n : 0 <= off -> 0 <= n -> off + n <= zlen l ->
  mem_read l off n = Some (sub l off n).
Proof.
  intros H1 H2 H3. unfold mem_read. destruct (Z.leb_spec 0 off); [|lia]. destruct (Z.leb_spec 0 n); [|lia].
  by destruct (Z.leb_spec (off + n) (zlen l)); [|lia].
Qed.

Lemma zlen_cons {A} (x : A) l : zlen (x :: l) = 1 + zlen l.
Proof. unfold zlen. cbn [length]. lia. Qed.

(** At most one packet structure and the blocks for [size] bytes are taken. *)
Definition taken (m m' : pmem) (size : Z) : Prop :=
  zlen (free_bufs m) - 1 <= zlen (free_bufs m') /\ zlen (free m) - blks_for size <= zlen (free m').

Lemma alloc_taken m used size r m' : pm_wf m used -> 0 <= size -> pktbuf_alloc m size = Some (r, m') ->
  taken m m' size.
Proof.
  intros W Hs E. pose proof (blks_for_nonneg size Hs). split.
  - destruct (pktbuf_alloc_spec m used size W Hs) as (r0 & m0 & E0 & _ & R). rewrite E in E0.
    injection E0 as <- <-. destruct (free_bufs m) as [|a bufs]; [destruct R as [_ ->]; unfold zlen; cbn; lia|].
    destruct (_ <=? _); [destruct R as (buf & _ & _ & _ & _ & _ & _ & ->)|destruct R as (_ & _ & _ & ->)];
      unfold zlen; rewrite ?length_app; cbn; lia.
  - unfold pktbuf_alloc in E. destruct (free_bufs m) as [|a bufs]; [injection E as <- <-; lia|].
    destruct (nz size); [|apply bind_Some in E as (b2 & _ & [= <- <-]); cbn; lia].
    apply bind_Some in E as ([chain m1] & Ea & E). apply alloc_loop_free in Ea; [|done]. cbn [free] in Ea.
    destruct chain; [by injection E as <- <-|].
    apply bind_Some in E as (b1 & _ & E). by apply bind_Some in E as (b2 & _ & [= <- <-]).
Qed.

(** A fresh packet is at its start; without one nothing is lost. *)
Lemma alloc_ok m used size : pm_wf m used -> 0 <= size ->
  exists r m', pktbuf_alloc m size = Some (r, m') /\ same_blks m m' used /\
    match r with
    | Some buf => buf_wf m' buf used /\ cursor m' buf /\ pos buf = 0 /\ total_size buf = size /\ ref buf = 1
    | None => pm_wf m' used /\ (free_bufs m = [] \/ zlen (free m) < blks_for size)
    end.
Proof.
  intros W Hs. destruct (pktbuf_alloc_spec m used size W Hs) as (r & m' & E & Sb & R). exists r, m'.
  split; [done|]. split; [done|]. destruct (free_bufs m) as [|a bufs] eqn:Eb.
  { destruct R as [-> ->]. split; [done|by left]. }
  destruct (Z.leb_spec (blks_for size) (zlen (free m))); [|destruct R as (-> & W' & _); split; [done|by right]].
  destruct R as (buf & -> & _ & Hr & Hp & Ht & B & _). split_and!; try done.
  assert (exists b0, pktbuf_reset_acc m' b0 = Some buf) as [b0 E0].
  { unfold pktbuf_alloc in E. rewrite Eb in E. destruct (nz size).
    - apply bind_Some in E as ([chain m1] & _ & E). destruct chain; [done|].
      apply bind_Some in E as (b1 & _ & E). apply bind_Some in E as (b2 & E2 & [= <- <-]). by exists b1.
    - apply bind_Some in E as (b2 & E2 & [= <- <-]). eauto. }
  assert (pktbuf_reset_acc m' buf = Some buf) as Es.
  { unfold pktbuf_reset_acc in *. destruct (pktbuf_first_blk b0 =? NULL) eqn:En.
    - injection E0 as <-. change (pktbuf_first_blk (with_cursor b0 0 NULL 0)) with (pktbuf_first_blk b0). by rewrite En.
    - apply bind_Some in E0 as (x & Hx & [= <-]).
      change (pktbuf_first_blk (with_cursor b0 0 (pktbuf_first_blk b0) (data x))) with (pktbuf_first_blk b0).
      by rewrite En, Hx. }
  destruct (reset_moved _ _ _ B) as (buf' & Er & M). rewrite Es in Er. injection Er as <-. apply M.
Qed.

(** The packet of [size - 4] bytes at [curr] of the buffer is copied whole; the
    buffer is long enough that it never has to be taken from two places. *)
Lemma rx_copy_ok ring curr size m buf used : zlen ring = R8139DN_RX_DMA_SIZE ->
  0 <= curr <= R8139DN_RX_BUFLEN -> CRC_LEN <= size < R8139DN_MAX_ETH_SIZE + CRC_LEN ->
  buf_wf m buf used -> cursor m buf -> pos buf = 0 -> total_size buf = size - CRC_LEN ->
  exists buf' m', rx_copy ring curr size m buf = Some (buf', m') /\ buf_wf m' buf' used /\
    contents m' (blk_list buf') = sub ring (curr + RPKTHDR_SIZE) (size - CRC_LEN) /\
    (free m' = free m /\ free_bufs m' = free_bufs m) /\ same_blks m m' used.
Proof.
  unfold R8139DN_RX_DMA_SIZE, R8139DN_RX_BUFLEN, R8139DN_MAX_ETH_SIZE, CRC_LEN, R8139DN_RX_PAD, RPKTHDR_SIZE.
  intros Hr Hc Hs B C Hp Ht. unfold rx_copy, R8139DN_RX_DMA_SIZE, R8139DN_RX_BUFLEN, CRC_LEN, R8139DN_RX_PAD, RPKTHDR_SIZE.
  destruct (Z.ltb_spec (16384 + 16 + 2048) (curr + size)); [lia|].
  rewrite mem_read_ok by lia. mstep. set (src := sub ring (curr + 4) (size - 4)).
  assert (zlen src = size - 4) as Hz by (apply zlen_sub; lia).
  destruct (Z.eq_dec size 4) as [->|Hne].
  - unfold pktbuf_write. cbn. exists buf, m. split_and!; try done.
    apply length_zero_iff_nil. pose proof (bf_total _ _ _ B) as E. unfold zlen in *. lia.
  - destruct (pktbuf_write_ok m buf used src (size - 4) B C) as (buf' & m' & -> & M & Ec);
      [unfold total_blk_remain; lia|lia|]. mstep. exists buf', m'. split; [done|].
    split; [apply M|]. split.
    + rewrite Ec, Hp, <- Hz. rewrite take_ge by (unfold zlen; lia). apply splice_all.
      pose proof (bf_total _ _ _ B) as E. unfold zlen in *. lia.
    + split; [exact (mv_free _ _ _ _ _ _ M)|apply M].
Qed.

(** A packet is appended to the queue of the interface while it has room. *)
Lemma put_in_ok s n x buf : netifs s !! n = Some x -> exists e s', netif_put_in s n buf = Some (e, s') /\
  lpm s' = lpm s /\ netifs s' !! n = Some (with_in_q x (if zlen (in_q x) <? NETIF_INQ_SIZE then in_q x ++ [buf] else in_q x)).
Proof.
  intros Hx. unfold netif_put_in, queue_send. rewrite Hx. mstep.
  destruct (Z.leb_spec NETIF_INQ_SIZE (zlen (in_q x))), (Z.ltb_spec (zlen (in_q x)) NETIF_INQ_SIZE); try lia; cbn [is_err].
  - do 2 eexists. split; [done|]. split; [done|]. rewrite Hx. by destruct x.
  - do 2 eexists. split; [done|]. destruct (_ =? 1); [|split; [done|apply lookup_insert_eq]].
    unfold exmsg_netif_in. destruct (msg_block _) as [|msg pool]; [split; [done|apply lookup_insert_eq]|].
    destruct (queue_send _ _ _) as [e q]. destruct (is_err e); (split; [done|apply lookup_insert_eq]).
Qed.

(** ** Receiving
    What the card promises: packets lie in the buffer behind a header, each
    where the last one ends; the command register says whether one is there;
    a write to CAPR of the position behind the first packet consumes it. *)

Class RxCard (hw : Type) `{Ports hw} (rx_mem : hw -> list Z) (io : Z) := {
  pending : hw -> list (list Z);
  rx_pos : hw -> Z;
  rx_len h : zlen (rx_mem h) = R8139DN_RX_DMA_SIZE;
  rx_head h pk rest : pending h = pk :: rest -> zlen pk < R8139DN_MAX_ETH_SIZE /\
    sub (rx_mem h) (rx_pos h + RPKTHDR_SIZE) (zlen pk) = pk /\
    exists s0 s1, Z.land (s0 + 256 * s1) 62 = 0 /\
      sub (rx_mem h) (rx_pos h) RPKTHDR_SIZE = [s0; s1; (zlen pk + CRC_LEN) mod 256; (zlen pk + CRC_LEN) / 256];
  rx_status h : let '(v, h') := in8 (u16 (io + CR)) h in
    Z.testbit v 0 = bool_decide (pending h = []) /\
    pending h' = pending h /\ rx_pos h' = rx_pos h /\ rx_mem h' = rx_mem h;
  rx_ack h pk rest : pending h = pk :: rest ->
    let next := card_next (rx_pos h) (zlen pk + CRC_LEN) in
    let h' := out16 (u16 (io + CAPR)) (u16 (next - 16)) h in
    pending h' = rest /\ rx_pos h' = next;
}.

(** No packet ends exactly at the end of the buffer (see [rx_off_by_one]). *)
Fixpoint clear_of_end (pos : Z) (pks : list (list Z)) : Prop :=
  match pks with
  | [] => True
  | pk :: pks' => card_next pos (zlen pk + CRC_LEN) <> 0 /\
                  clear_of_end (card_next pos (zlen pk + CRC_LEN)) pks'
  end.

(** Packets put into the interface's queue: what they hold and where. *)
Definition holds (m : pmem) (used : list Z) (b : pktbuf_t) (pk : list Z) : Prop :=
  contents m (blk_list b) = pk /\ forall y, y ∈ blk_list b -> y ∈ used.

Lemma holds_mono m m' used used' b pk : holds m used b pk -> same_blks m m' used ->
  (forall y, y ∈ used -> y ∈ used') -> holds m' used' b pk.
Proof.
  intros [E Hi] Sb Hs. split; [|auto]. rewrite <- E. apply contents_ext. by eapply same_blks_sub.
Qed.

(** From [s] to [s'] the packets [bufs] have been delivered. *)
Record delivered (n : Z) (x : netif_t) (used : list Z) (s s' : link_state) (used' : list Z)
    (bufs : list pktbuf_t) : Prop := {
  dv_mem : pm_wf (lpm s') used';
  dv_same : same_blks (lpm s) (lpm s') used;
  dv_grow y : y ∈ used -> y ∈ used';
  dv_queue : netifs s' !! n = Some (with_in_q x (in_q x ++ bufs));
}.

Lemma status_clear st : Z.land st 62 = 0 ->
  Z.testbit st 1 || Z.testbit st 2 || Z.testbit st 3 || Z.testbit st 4 || Z.testbit st 5 = false.
Proof.
  intros E. assert (forall i, Z.testbit 62 i = true -> Z.testbit st i = false) as H.
  { intros i Hi. assert (Z.testbit (Z.land st 62) i = false) as Hz by (rewrite E; apply Z.bits_0).
    rewrite Z.land_spec, Hi in Hz. by destruct (Z.testbit st i). }
  by rewrite !H.
Qed.

Section Receive.
Context {hw : Type} `{Ports hw} (rx_mem : hw -> list Z) (io : Z) `{!RxCard hw rx_mem io}.

(** One packet: it is delivered unless there is no memory or no room for it. *)
Lemma rx_round_ok base n s p h x used pk rest : pending h = pk :: rest -> rx_curr p = rx_pos h ->
  ioaddr p = io -> 0 <= rx_curr p <= R8139DN_RX_BUFLEN -> card_next (rx_pos h) (zlen pk + CRC_LEN) <> 0 ->
  pm_wf (lpm s) used -> netifs s !! n = Some x ->
  exists s' c h' used' bufs, rx_round rx_mem base n s p h = Some (s', with_rx p c, h') /\
    pending h' = rest /\ rx_pos h' = c /\ c = card_next (rx_pos h) (zlen pk + CRC_LEN) /\
    delivered n x used s s' used' bufs /\
    (bufs = [] /\ (free_bufs (lpm s) = [] \/ zlen (free (lpm s)) < blks_for (zlen pk) \/
       NETIF_INQ_SIZE <= zlen (in_q x)) \/
     exists b, bufs = [b] /\ holds (lpm s') used' b pk) /\ taken (lpm s) (lpm s') (zlen pk).
Proof.
  intros Hpk Hpos Hio Hc Hend W Hx. pose proof (zlen_nonneg pk) as Hpk0.
  destruct (rx_head h pk rest Hpk) as (Hl & Hsub & s0 & s1 & Hst & Hhdr).
  unfold rx_round. rewrite mem_read_ok; [|lia|done|rewrite rx_len; unfold R8139DN_RX_DMA_SIZE, R8139DN_RX_BUFLEN,
    R8139DN_RX_PAD, RPKTHDR_SIZE in *; lia]. mstep. rewrite Hpos, Hhdr. cbn [rpkthdr_of]. mstep.
  unfold FAE, CRC, LONG, RUNT, ISE. cbn [rstatus rsize]. rewrite status_clear by done.
  replace ((zlen pk + CRC_LEN) mod 256 + 256 * ((zlen pk + CRC_LEN) / 256)) with (zlen pk + CRC_LEN)
    by (unfold CRC_LEN; divmod).
  replace (zlen pk + CRC_LEN - CRC_LEN) with (zlen pk) by lia.
  destruct (Z.ltb_spec (zlen pk) 0); [lia|]. destruct (Z.leb_spec R8139DN_MAX_ETH_SIZE (zlen pk)); [lia|]. cbn [orb].
  destruct (alloc_ok (lpm s) used (zlen pk) W Hpk0) as (r & m1 & Eal & S1 & R).
  pose proof (alloc_taken _ _ _ _ _ W Hpk0 Eal) as Htk. rewrite Eal. mstep.
  destruct (rx_ack h pk rest Hpk) as [Hr Hp']. rewrite Hpos in Hc.
  destruct (rx_advance_ok (rx_pos h) (zlen pk + CRC_LEN)) as [_ [Ea|[_ Ea]]]; [done|lia|..|done].
  destruct r as [buf|].
  - destruct R as (B & C & Hp & Ht & Hrf).
    destruct (rx_copy_ok (rx_mem h) (rx_pos h) (zlen pk + CRC_LEN) m1 buf used) as (b1 & m2 & E2 & B2 & Ec & [Ef Efb] & S2);
      try done; try apply rx_len; try lia. cbn [lpm set_lpm]. rewrite E2. mstep.
    destruct (put_in_ok (set_lpm (set_lpm s m1) m2) n x b1 Hx) as (e & s' & -> & El & Eq). mstep.
    cbn [lpm set_lpm] in El.
    do 4 eexists. exists (if zlen (in_q x) <? NETIF_INQ_SIZE then [b1] else []).
    split; [done|]. cbn [rx_curr with_rx ioaddr]. unfold outw. rewrite Ea, Hio.
    split; [done|]. split; [done|]. split; [done|].
    assert (delivered n x used s s' (blk_list b1 ++ used) (if zlen (in_q x) <? NETIF_INQ_SIZE then [b1] else [])) as Dv.
    { split.
      - rewrite El. apply B2.
      - rewrite El. by eapply same_blks_trans.
      - set_solver.
      - rewrite Eq. f_equal. destruct (_ <? _); [done|by rewrite app_nil_r]. }
    split; [exact Dv|]. split; [|unfold taken; by rewrite El, Ef, Efb].
    destruct (Z.ltb_spec (zlen (in_q x)) NETIF_INQ_SIZE); [right|left; split; [done|]; by right; right].
    exists b1. split; [done|]. rewrite El. split; [|set_solver].
    rewrite Ec. by replace (zlen pk + CRC_LEN - CRC_LEN) with (zlen pk) by lia.
  - destruct R as [W1 Hno]. mstep. do 4 eexists. exists []. split; [done|].
    cbn [rx_curr with_rx ioaddr]. unfold outw. rewrite Ea, Hio. split; [done|]. split; [done|]. split; [done|].
    split; [|split; [left; split; [done|]; destruct Hno; [by left|by right; left]|done]].
    split; try done. cbn. rewrite app_nil_r, Hx. by destruct x.
Qed.

(** There are packet structures, blocks and places in the queue for the packets. *)
Definition room_for (s : link_state) (x : netif_t) (pks : list (list Z)) : Prop :=
  zlen pks <= zlen (free_bufs (lpm s)) /\
  foldr (fun pk n => blks_for (zlen pk) + n) 0 pks <= zlen (free (lpm s)) /\
  zlen (in_q x) + zlen pks <= NETIF_INQ_SIZE.

Lemma room_for_head s x pk pks : room_for s x (pk :: pks) -> free_bufs (lpm s) <> [] /\
  blks_for (zlen pk) <= zlen (free (lpm s)) /\ zlen (in_q x) < NETIF_INQ_SIZE.
Proof.
  intros (H1 & H2 & H3). rewrite zlen_cons in H1, H3. cbn [foldr] in H2. pose proof (zlen_nonneg pks).
  assert (0 <= foldr (fun pk n => blks_for (zlen pk) + n) 0 pks) as Hn.
  { clear. induction pks as [|pk pks IH]; cbn [foldr]; [lia|].
    pose proof (blks_for_nonneg _ (zlen_nonneg pk)). lia. }
  split_and!; [|lia..]. intros E. rewrite E in H1. change (zlen (@nil Z)) with 0 in H1. lia.
Qed.

Lemma room_for_tail s s' x b pk pks : room_for s x (pk :: pks) -> taken (lpm s) (lpm s') (zlen pk) ->
  room_for s' (with_in_q x (in_q x ++ [b])) pks.
Proof.
  intros (H1 & H2 & H3) [T1 T2]. rewrite zlen_cons in H1, H3. cbn [foldr] in H2.
  split_and!; cbn [in_q with_in_q]; [lia..|]. rewrite zlen_app. change (zlen [b]) with 1. lia.
Qed.

End Receive.
