(* ===== verification/Rtl8139Runs.v ===== *)
(** * The network card: a card that keeps the promises

    A card with the packets it has received, which lays the first of them out
    in the buffer, and runs of the driver with it. *)

From S2P Require Import Prelude Ports Pktbuf PktbufSpec PktbufAccess Link LinkSpec Disk Layout IpAddr Rtl8139 Rtl8139Spec.
From S2P Require Import Prelude.

Record nic := Nic { n_pending : list (list Z); n_pos : Z }.

(** Packets the driver accepts, and positions in the ring. *)
Definition nic_packets (c : nic) : list (list Z) := take (Z.to_nat 1791) <$> n_pending c.
Definition nic_pos (c : nic) : Z := n_pos c mod R8139DN_RX_BUFLEN.

Definition nic_mem (c : nic) : list Z :=
  match nic_packets c with
  | [] => replicate (Z.to_nat R8139DN_RX_DMA_SIZE) 0
  | pk :: _ =>
      replicate (Z.to_nat (nic_pos c)) 0
      ++ [1; 0; (zlen pk + CRC_LEN) mod 256; (zlen pk + CRC_LEN) / 256] ++ pk
      ++ replicate (Z.to_nat (R8139DN_RX_DMA_SIZE - nic_pos c - 4 - zlen pk)) 0
  end.

Definition nic_ack (v : Z) (c : nic) : nic :=
  match nic_packets c with
  | [] => c
  | pk :: _ =>
      let next := card_next (nic_pos c) (zlen pk + CRC_LEN) in
      if v =? u16 (next - 16) then Nic (drop 1 (n_pending c)) next else c
  end.

(** Registers at port 49152; every frame is sent at once. *)
Definition nic_io : Z := 49152.
#[export] Instance nic_ports : Ports nic := {|
  in8 p c := (if p =? nic_io + CR then (if bool_decide (n_pending c = []) then 1 else 0) else 0, c);
  out8 _ _ c := c; in16 _ c := (0, c);
  out16 p v c := if p =? nic_io + CAPR then nic_ack v c else c;
  in32 _ c := (TSD_TOK, c); out32 _ _ c := c |}.

Lemma nic_packet_len c pk : pk ∈ nic_packets c -> zlen pk < R8139DN_MAX_ETH_SIZE.
Proof.
  intros (l & -> & _)%list_elem_of_fmap. unfold zlen, R8139DN_MAX_ETH_SIZE. rewrite length_take. lia.
Qed.
Lemma nic_pos_range c : 0 <= nic_pos c < R8139DN_RX_BUFLEN.
Proof. unfold nic_pos. apply Z.mod_pos_bound. done. Qed.

Lemma sub_at (a b c : list Z) o n : o = zlen a -> n = zlen b -> sub (a ++ b ++ c) o n = b.
Proof.
  intros -> ->. unfold sub, zlen. rewrite !Nat2Z.id, drop_app_length, take_app_length. done.
Qed.

Lemma zlen_zeros k : 0 <= k -> zlen (replicate (Z.to_nat k) 0) = k.
Proof. intros Hk. unfold zlen. rewrite length_replicate. lia. Qed.

#[export, refine] Instance nic_card : RxCard nic nic_mem nic_io := {|
  pending := nic_packets; rx_pos := nic_pos |}.
Proof.
  - intros c. unfold nic_mem. pose proof (nic_pos_range c) as Hp. destruct (nic_packets c) as [|pk rest] eqn:E.
    + unfold zlen. rewrite length_replicate. done.
    + assert (zlen pk < R8139DN_MAX_ETH_SIZE) by (apply (nic_packet_len c); rewrite E; set_solver).
      pose proof (zlen_nonneg pk). unfold R8139DN_RX_DMA_SIZE, R8139DN_RX_BUFLEN, R8139DN_RX_PAD, R8139DN_MAX_ETH_SIZE in *.
      rewrite !zlen_app, !zlen_zeros by lia. change (zlen [_; _; _; _]) with 4. lia.
  - intros c pk rest E. pose proof (nic_pos_range c) as Hp. split; [apply (nic_packet_len c); rewrite E; set_solver|].
    unfold nic_mem. rewrite E. assert (zlen (replicate (Z.to_nat (nic_pos c)) 0) = nic_pos c) as Hz
      by (unfold zlen; rewrite length_replicate; lia).
    split; [|exists 1, 0; split; [done|]; by apply sub_at].
    rewrite app_assoc. apply sub_at; [by rewrite zlen_app, Hz|done].
  - intros c. change (u16 (nic_io + CR)) with (nic_io + CR). cbn. split_and!; try done.
    unfold nic_packets. by destruct (n_pending c).
  - intros c pk rest E next h'. unfold h'. change (u16 (nic_io + CAPR)) with (nic_io + CAPR). cbn [out16 nic_ports].
    rewrite Z.eqb_refl. unfold nic_ack. rewrite E. fold next. rewrite Z.eqb_refl. unfold nic_packets, nic_pos. cbn [n_pending n_pos].
    split.
    + unfold nic_packets in E. destruct (n_pending c); [done|]. by injection E.
    + unfold next, card_next. by rewrite Z.mod_mod.
Defined.

(** ** Runs *)

Definition priv0 : rtl8139_priv_t :=
  Priv nic_io [slot_of 0; slot_of 1; slot_of 2; slot_of 3] (replicate (Z.to_nat R8139DN_TX_DMA_SIZE) 5) 1 0 3 16000.
Definition nic0 : nic := Nic [[10; 11; 12]; replicate 60 13] 16000.

Lemma priv0_flight : in_flight priv0 [[5; 5]].
Proof.
  split.
  - split; try done.
  - done.
  - intros [|k] f Hf; [|done]. injection Hf as <-. split; [done|]. by vm_compute.
Qed.

Lemma net_queue_wf : queue_wf net_mem [net_buf] [].
Proof.
  destruct net_buf_wf as [W T]. split; [exact W|]. intros b ->%list_elem_of_singleton.
  split; [done|]. split; [exact T|]. done.
Qed.


Lemma ether_frame_sent_witness :
  let f := frame [9; 9; 9; 9; 9; 9] (mac net_if) NET_PROTOCOL_IPv4 (contents net_mem [1]) in
  exists buf' m' s' p',
    ether_raw_out (xmit_ops priv0 nic0) net0 50 NET_PROTOCOL_IPv4 [9; 9; 9; 9; 9; 9] net_buf
      = Some (NET_ERR_OK, buf', s') /\
    rtl8139_xmit (with_out_q net_if [buf']) m' priv0 nic0
      = Some (NET_ERR_OK, with_out_q net_if [], lpm s', p', start priv0 1 (zlen f) nic0) /\
    netifs s' !! 50 = Some (with_out_q net_if []) /\ in_flight p' ([[5; 5]] ++ [f]).
Proof.
  apply (ether_frame_sent net0 50 net_if NET_PROTOCOL_IPv4 [9; 9; 9; 9; 9; 9] net_buf [] priv0 nic0 [[5; 5]]).
  - exact net_buf_wf.
  - done.
  - vm_compute. discriminate.
  - reflexivity.
  - done.
  - split; [done|]. repeat constructor; cbn; lia.
  - split; [done|]. repeat constructor; cbn; lia.
  - done.
  - unfold NET_PROTOCOL_IPv4. lia.
  - exact priv0_flight.
  - done.
Defined.

