(* ===== verification/Execve.v ===== *)
(** * Replacing a program: kernel/thread/execve.c

    [process_execve] reads the file through the file system calls ([Fs]) into
    a buffer of the kernel's heap, and [exec] saves the arguments, releases the
    old memory, loads the program ([Elf]) and enters user mode ([Spawn]).
    What the heap hands out is an argument: the initial bytes of a block, or
    nothing.  [elf_size] is what [sys_fstat] has put into [stat.size].  The
    name of a task is the result of [rename_process_name]. *)

From S2P Require Import Prelude Pktbuf PktbufAccess PktbufSpec Disk File Fs FsSpec Paging Process Sched Spawn Elf CString.
From S2P Require Import Prelude.

Definition TASK_NAME_LEN : Z := 16.
Definition buf_size : Z := 1024.

(** ** Reading the file *)

Section Read.
Context {W : Type} (fs_ops_table : Z -> option (fs_ops_t W)).

(** The loop: the buffers, [total] and [read_size] when it is left. *)
Fixpoint read_loop (fuel : nat) (s : fs_state W) (fd elf_size : Z) (elf_buf read_buf : list Z)
    (total read_size : Z) : option (list Z * list Z * Z * Z * fs_state W) :=
  match fuel with
  | O => None
  | S fuel' =>
      if total <? elf_size then
        '(read_size, read_buf, s) ← sys_read fs_ops_table s fd read_buf buf_size;
        if read_size =? buf_size then
          elf_buf ← mem_write elf_buf total (take (Z.to_nat read_size) read_buf);
          read_loop fuel' s fd elf_size elf_buf (replicate (Z.to_nat buf_size) 0) (total + read_size) read_size
        else Some (elf_buf, read_buf, total, read_size, s)
      else Some (elf_buf, read_buf, total, read_size, s)
  end.

(** [read_size0] is the uninitialised [read_size]. *)
Definition read_program (s : fs_state W) (fd elf_size : Z) (elf_buf read_buf : list Z) (read_size0 : Z)
    : option (list Z * fs_state W) :=
  '(elf_buf, read_buf, total, read_size, s) ←
    read_loop (S (Z.to_nat elf_size)) s fd elf_size elf_buf read_buf 0 read_size0;
  elf_buf ← (if 0 <? read_size then mem_write elf_buf total (take (Z.to_nat read_size) read_buf)
             else Some elf_buf);
  Some (elf_buf, s).
End Read.

(** [strrchr] must find a slash. *)
Definition rename_process_name (filename : mem) : option (list Z) :=
  r ← strrchr filename 47;
  i ← r;
  let name := drop (Z.to_nat (i + 1)) filename in
  n ← strlen name;
  bytes ← mem_read name 0 (Z.min n TASK_NAME_LEN);
  mem_write (replicate (Z.to_nat TASK_NAME_LEN) 0) 0 bytes.

(** ** Starting the program *)

#[export] Instance world_mem : UserMem world := {|
  mmap w a n := '(s, r) ← process_mmap (ps w) a n; Some (with_ps w s, r);
  store w x v := r ← store_user (mm_ (ps w)) (ram w) x v; Some (with_ram w r) |}.

Definition load_user (w : world) (va : Z) : option Z :=
  p ← mmu (mm_ (ps w)) va; l ← ram w !! p; zget l (va mod MEM_PAGE_SIZE).
Definition load_word (w : world) (va : Z) : option Z :=
  b0 ← load_user w va; b1 ← load_user w (u32 (va + 1)); b2 ← load_user w (u32 (va + 2));
  b3 ← load_user w (u32 (va + 3)); Some (b0 + 256 * b1 + 65536 * b2 + 16777216 * b3).

Fixpoint count_loop (fuel : nat) (w : world) (start count : Z) : option Z :=
  match fuel with
  | O => None
  | S fuel' => p ← load_word w start;
               if nz p then count_loop fuel' w (u32 (start + 4)) (count + 1) else Some count
  end.
Definition strings_count (fuel : nat) (w : world) (start : Z) : option Z :=
  if nz start then count_loop fuel w start 0 else Some 0.

(** [strlen] of a string in user memory. *)
Fixpoint user_strlen (fuel : nat) (w : world) (va : Z) : option Z :=
  match fuel with
  | O => None
  | S fuel' => c ← load_user w va;
               if nz c then n ← user_strlen fuel' w (u32 (va + 1)); Some (n + 1) else Some 0
  end.

Definition load_bytes (w : world) (va n : Z) : option (list Z) :=
  for_ (Z.to_nat n) 0 (fun i l => b ← load_user w (u32 (va + i)); Some (l ++ [b])) [].

(** [argc], the length of what is copied, and the bytes from [argv] on: the
    array of pointers, not the strings. *)
Definition save_argv (fuel : nat) (w : world) (argv : Z) : option (Z * Z * list Z) :=
  if nz argv then
    argc ← strings_count fuel w argv;
    all_len ← for_ (Z.to_nat argc) 0 (fun i len =>
                p ← load_word w (u32 (argv + 4 * i)); n ← user_strlen fuel w p; Some (len + n)) 0;
    cache ← load_bytes w argv (all_len + argc);
    Some (argc, all_len + argc, cache)
  else Some (0, 0, []).

(** [false] when the file is no program, or could not be mapped; the old memory
    is gone by then. *)
Definition exec (fuel : nat) (w : world) (elf_buf : list Z) (argv : Z) : option (world * bool) :=
  '(argc, len, cache) ← save_argv fuel w argv;
  s ← clear_user_mem (ps w);
  let w := with_ps w s in
  '(w, argv) ← (if nz argv then
                  '(s, user_argv) ← process_mmap (ps w) NULL len;
                  let w := with_ps w s in
                  r ← store_bytes (mm_ (ps w)) (ram w) user_argv cache;
                  Some (with_ram w r, user_argv)
                else Some (w, argv));
  '(entry, w) ← load_elf elf_buf w;
  if entry =? 0 then Some (w, false)
  else w ← _start_process w entry argc argv; Some (w, true).

(** -1 without the program; the descriptor stays open when the size cannot be
    had or there is no memory. *)
Definition process_execve {W} (fs_ops_table : Z -> option (fs_ops_t W)) (fuel : nat) (s : fs_state W)
    (w : world) (filename : mem) (argv elf_size : Z) (elf_mem : option (list Z)) (read_mem : list Z)
    (read_size0 : Z) : option (Z * fs_state W * world * option (list Z)) :=
  '(fd, s) ← sys_open fs_ops_table s filename O_RDONLY;
  if fd <? 0 then Some (-1, s, w, None)
  else
    '(r, s) ← sys_fstat fs_ops_table s fd;
    if nz r then Some (-1, s, w, None)
    else
      match elf_mem with
      | None => Some (-1, s, w, None)
      | Some elf_buf =>
          '(elf_buf, s) ← read_program fs_ops_table s fd elf_size elf_buf read_mem read_size0;
          '(_, s) ← sys_close fs_ops_table s fd;
          name ← rename_process_name filename;
          '(w, _) ← exec fuel w elf_buf argv;
          Some (0, s, w, Some name)
      end.

(** ** Properties *)

(** What [process_execve] relies on: the descriptor is a file of the bytes
    [content], read from the position [at_pos] on. *)
Class Readable {W} (fs_ops_table : Z -> option (fs_ops_t W)) (fd : Z) (content : list Z) := {
  at_pos : fs_state W -> Z -> Prop;
  read_ok s pos buf : at_pos s pos -> 0 <= pos <= zlen content -> zlen buf = buf_size ->
    let n := Z.min buf_size (zlen content - pos) in
    exists buf' s', sys_read fs_ops_table s fd buf buf_size = Some (n, buf', s') /\
      zlen buf' = buf_size /\ sub buf' 0 n = sub content pos n /\ at_pos s' (pos + n);
}.

Section ReadOk.
Context {W : Type} (ops : Z -> option (fs_ops_t W)) (fd : Z) (content : list Z) `{!Readable ops fd content}.
Notation size := (zlen content).

Lemma sub_0_take (l : list Z) n : sub l 0 n = take (Z.to_nat n) l.
Proof. unfold sub. by rewrite drop_0. Qed.

(** A block written behind what is already there. *)
Lemma append_block elf total n (bytes : list Z) : zlen elf = size -> 0 <= total -> 0 <= n -> total + n <= size ->
  sub elf 0 total = sub content 0 total -> bytes = sub content total n ->
  mem_write elf total bytes = Some (splice elf total bytes) /\ zlen (splice elf total bytes) = size /\
  sub (splice elf total bytes) 0 (total + n) = sub content 0 (total + n).
Proof.
  intros He Ht Hn Hr Hs ->. assert (zlen (sub content total n) = n) as Hz by (apply zlen_sub; lia).
  split; [|split].
  - unfold mem_write. destruct (Z.leb_spec 0 total); [|lia]. rewrite Hz.
    by destruct (Z.leb_spec (total + n) (zlen elf)); [|lia].
  - rewrite zlen_splice; lia.
  - rewrite <- (sub_app content 0 total n) by lia. rewrite <- (sub_app (splice elf total _) 0 total n) by lia.
    rewrite Z.add_0_l, sub_splice_before, Hs by lia. f_equal. rewrite <- Hz at 2. apply sub_splice_same; lia.
Qed.

(** The loop stops with all whole blocks of the file read; [read_size] is the
    size of the last piece, a whole block when nothing is left. *)
Lemma prog_loop_ok fuel : forall s elf rb total rs, at_pos s total -> 0 <= total <= size ->
  total mod buf_size = 0 -> zlen rb = buf_size -> zlen elf = size -> sub elf 0 total = sub content 0 total ->
  (0 < total -> rs = buf_size) -> (Z.to_nat (size - total) < fuel)%nat ->
  exists elf' rb' rs' s', let total' := size / buf_size * buf_size in
    read_loop ops fuel s fd size elf rb total rs = Some (elf', rb', total', rs', s') /\
    zlen elf' = size /\ sub elf' 0 total' = sub content 0 total' /\ zlen rb' = buf_size /\
    if size mod buf_size =? 0 then 0 < size -> rs' = buf_size
    else rs' = size mod buf_size /\ sub rb' 0 rs' = sub content total' rs' /\ at_pos s' size.
Proof.
  induction fuel as [|fuel IH]; intros s elf rb total rs Ha Ht Hm Hrb He Hs Hrs Hf; [lia|].
  cbn [read_loop]. destruct (Z.ltb_spec total size) as [Hlt|Hge].
  - destruct (read_ok s total rb Ha Ht Hrb) as (rb' & s' & -> & Hrb' & Hsub & Ha'). mstep.
    set (n := Z.min buf_size (size - total)) in *. destruct (Z.eqb_spec n buf_size) as [En|En].
    + rewrite <- sub_0_take, Hsub.
      destruct (append_block elf total n (sub content total n) He) as (-> & Hz & Hs'); try done; try lia; [unfold n, buf_size in *; lia|].
      mstep. apply IH; try done; try (unfold n, buf_size in *; lia).
      unfold buf_size in *. rewrite En. divmod.
    + assert (n = size - total) as En' by (unfold n in *; lia).
      assert (n = size mod buf_size /\ total = size / buf_size * buf_size) as [E1 E2]
        by (unfold n, buf_size in *; divmod).
      exists elf, rb', n, s'. rewrite <- E2. split_and!; try done.
      rewrite <- E1. destruct (Z.eqb_spec n 0); [lia|]. split_and!; try done.
      by replace size with (total + n) by lia.
  - assert (total = size) as -> by lia. exists elf, rb, rs, s. rewrite Hm. cbn.
    assert (size / buf_size * buf_size = size) as -> by (unfold buf_size in *; divmod). by split_and!.
Qed.


(** A file of whole blocks: the last block is copied once more, behind the end
    of the buffer. *)
Theorem read_program_overflows s elf_buf read_buf rs0 : at_pos s 0 -> 0 < size -> size mod buf_size = 0 ->
  zlen elf_buf = size -> zlen read_buf = buf_size ->
  read_program ops s fd size elf_buf read_buf rs0 = None.
Proof.
  intros Ha H0 Hm He Hr. unfold read_program.
  destruct (prog_loop_ok (S (Z.to_nat size)) s elf_buf read_buf 0 rs0) as (elf & rb & rs & s' & -> & Hz & Hs & Hrb & R);
    try done; try lia. mstep.
  rewrite Hm in R. rewrite R by done. cbn. unfold mem_write.
  assert (zlen (take (Z.to_nat buf_size) rb) = buf_size) as -> by (unfold zlen in *; rewrite length_take; lia).
  assert (size / buf_size * buf_size = size) as -> by (unfold buf_size in *; divmod).
  destruct (Z.leb_spec (size + buf_size) (zlen elf)); [unfold buf_size in *; lia|]. by rewrite andb_false_r.
Qed.
End ReadOk.

(** The last component of the path, cut to 16 characters. *)
Lemma strrchr_loop_ok dir base : forall i last, 0 ∉ dir -> 0 ∉ base -> 47 ∉ base ->
  strrchr_loop (dir ++ 47 :: base ++ [0]) 47 i last = Some (Some (i + zlen dir)).
Proof.
  intros i last Hd H0 Hs. revert i last. induction dir as [|c dir IH]; intros i last; cbn [app strrchr_loop].
  - change (zlen []) with 0. rewrite Z.add_0_r. change (47 =? 0) with false. rewrite Z.eqb_refl. cbn iota.
    assert (forall j l, strrchr_loop (base ++ [0]) 47 j l = Some l) as Hb; [|apply Hb].
    clear - H0 Hs. induction base as [|b base IH]; intros j l; [done|]. cbn [app strrchr_loop].
    destruct (Z.eqb_spec b 0) as [->|]; [set_solver|]. destruct (Z.eqb_spec b 47) as [->|]; [set_solver|].
    apply IH; set_solver.
  - destruct (Z.eqb_spec c 0) as [->|]; [set_solver|]. rewrite IH by set_solver. do 2 f_equal.
    unfold zlen. cbn [length]. lia.
Qed.

Lemma rename_ok dir base : 0 ∉ dir -> 0 ∉ base -> 47 ∉ base ->
  rename_process_name (dir ++ 47 :: base ++ [0])
    = Some (take 16 base ++ replicate (16 - length base) 0).
Proof.
  intros Hd H0 Hs. unfold rename_process_name, strrchr. rewrite strrchr_loop_ok by done. mstep.
  replace (Z.to_nat (0 + zlen dir + 1)) with (length dir + 1)%nat by (unfold zlen; lia).
  rewrite drop_app_add. change (drop 1 (47 :: base ++ [0])) with (base ++ [0]).
  rewrite (strlen_app base []) by done. mstep.
  pose proof (zlen_nonneg base). unfold TASK_NAME_LEN, mem_read.
  assert (zlen (base ++ [0]) = zlen base + 1) as Hz by (rewrite zlen_app; done).
  destruct (Z.leb_spec 0 (Z.min (zlen base) 16)); [|lia].
  destruct (Z.leb_spec (0 + Z.min (zlen base) 16) (zlen (base ++ [0]))); [|lia]. cbn [andb Z.leb Z.compare]. mstep.
  rewrite sub_0_take, take_app_le by (unfold zlen; lia).
  assert (take (Z.to_nat (Z.min (zlen base) 16)) base = take 16 base) as ->.
  { destruct (Z.min_spec (zlen base) 16) as [[? ->]|[? ->]]; [|done]. rewrite !take_ge; unfold zlen in *; [done|lia|lia]. }
  unfold mem_write. assert (zlen (take 16 base) <= 16) by (unfold zlen; rewrite length_take; lia).
  change (zlen (replicate (Z.to_nat 16) 0)) with 16.
  destruct (Z.leb_spec (0 + zlen (take 16 base)) 16); [|lia]. cbn [andb Z.leb Z.compare]. f_equal. unfold splice.
  change (Z.to_nat 0) with 0%nat. rewrite take_0, Nat.add_0_l, length_take, drop_replicate. cbn [app]. do 2 f_equal. lia.
Qed.

(** ** A file of 1500 bytes *)

Definition prog0 : list Z := replicate (Z.to_nat 1500) 3.

(** A file system with this file, which only reads. *)
Definition ops0 (ty : Z) : option (fs_ops_t unit) :=
  Some (Ops (fun w _ _ _ => Some (0, w)) (fun w _ _ f => Some (0, f, w))
    (fun w f buf n =>
       let k := Z.min n (zlen prog0 - f_pos f) in
       Some (k, set_pos f (f_pos f + k), splice buf 0 (sub prog0 (f_pos f) k), w))
    (fun w f _ _ => Some (0, f, w)) (fun w f => Some (f, w)) (fun w f _ _ => Some (0, f))
    (fun w f => Some (0, w)) (fun w f => Some (0, f, w)) (fun w f => Some (0, f, w))
    (fun w _ _ f => Some (0, f, w)) (fun w _ _ _ => Some (0, w)) (fun w f => Some (0, f, w))).

Definition fs0 (pos : Z) : fs_state unit :=
  FsState [FsDesc [] 0] [] [0] [set_pos (File (Some 0) 0 [] 0 0 1 0 1500 0 0 0 0) pos] [Some 0] tt no_socks no_ip.

#[export, refine] Instance prog0_readable : Readable ops0 0 prog0 := {| at_pos s pos := s = fs0 pos |}.
Proof.
  intros s pos buf -> Hp Hb n. pose proof (zlen_nonneg prog0). unfold buf_size in *.
  assert (0 <= n <= 1024 /\ pos + n <= zlen prog0) as [Hn Hn'] by (unfold n; lia).
  assert (zlen (sub prog0 pos n) = n) as Hz by (apply zlen_sub; lia).
  exists (splice buf 0 (sub prog0 pos n)), (fs0 (pos + n)). split; [done|]. split; [|split; [|done]].
  - rewrite zlen_splice; lia.
  - rewrite <- Hz at 2. apply sub_splice_same; lia.
Defined.

