(* ===== verification/Syscall.v ===== *)
(** * System calls: kernel/syscall/syscall_kernel.c, applib/syscall

    The stubs of the user library put a number and arguments into registers
    and raise vector 0x80; the entry (syscall.S) calls the function the table
    has for the number with the five argument registers, in order, on the
    stack.  A call is here the function that is reached together with these
    five words.  The theorem says which calls reach the function they are
    named after with the arguments of the stub. *)

From S2P Require Import Prelude Ports Gates CMath Disk File Fs Fat16 Paging Process Sched.
From S2P Require Import Prelude.

(** ** Numbers (include/syscall_no.h) *)

Definition SYSCALL_mmap : Z := 0.
Definition SYSCALL_munmap : Z := 1.
Definition SYSCALL_get_pid : Z := 2.
Definition SYSCALL_get_ppid : Z := 3.
Definition SYSCALL_sched_yield : Z := 4.
Definition SYSCALL_fork : Z := 5.
Definition SYSCALL_wait : Z := 6.
Definition SYSCALL_exit : Z := 7.
Definition SYSCALL_execv : Z := 8.
Definition SYSCALL_clone : Z := 9.
Definition SYSCALL_sysinfo : Z := 10.
Definition SYSCALL_ps : Z := 11.
Definition SYSCALL_sleep : Z := 12.
Definition SYSCALL_open : Z := 13.
Definition SYSCALL_dup : Z := 14.
Definition SYSCALL_dup2 : Z := 15.
Definition SYSCALL_write : Z := 16.
Definition SYSCALL_read : Z := 17.
Definition SYSCALL_lseek : Z := 18.
Definition SYSCALL_close : Z := 19.
Definition SYSCALL_stat : Z := 20.
Definition SYSCALL_fstat : Z := 21.
Definition SYSCALL_readdir : Z := 22.
Definition SYSCALL_mkdir : Z := 23.
Definition SYSCALL_rmdir : Z := 24.
Definition SYSCALL_link : Z := 25.
Definition SYSCALL_symlink : Z := 26.
Definition SYSCALL_unlink : Z := 27.
Definition SYSCALL_socket : Z := 28.
Definition SYSCALL_bind : Z := 29.
Definition SYSCALL_listen : Z := 30.
Definition SYSCALL_accept : Z := 31.
Definition SYSCALL_connect : Z := 32.
Definition SYSCALL_send_to : Z := 33.
Definition SYSCALL_receive_from : Z := 34.
Definition SYSCALL_send : Z := 35.
Definition SYSCALL_receive : Z := 36.
Definition SYSCALL_setsockopt : Z := 37.
Definition SYSCALL_timestamp : Z := 38.

(** ** The kernel's side *)

(** The functions that can be entered. *)
Inductive entry_point :=
  | K_syscall_memory_mmap
  | K_syscall_memory_munmap
  | K_process_get_pid
  | K_process_get_ppid
  | K_thread_yield
  | K_process_fork
  | K_process_wait
  | K_process_exit
  | K_process_execve
  | K_process_clone
  | K_process_sysinfo
  | K_process_ps
  | K_thread_sleep
  | K_sys_open
  | K_sys_dup
  | K_sys_dup2
  | K_sys_write
  | K_sys_read
  | K_sys_lseek
  | K_sys_close
  | K_sys_stat
  | K_sys_fstat
  | K_sys_readdir
  | K_sys_mkdir
  | K_sys_rmdir
  | K_sys_link
  | K_sys_symlink
  | K_create_socket
  | K_socket_bind
  | K_socket_listen
  | K_socket_accept
  | K_socket_connect
  | K_socket_send_to
  | K_socket_receive_from
  | K_socket_send
  | K_socket_receive
  | K_set_sock_opt
  | K_sys_timestamp
  | K_sys_unlink.

#[export] Instance entry_point_eq_dec : EqDecision entry_point.
Proof. solve_decision. Defined.

Definition SYSCALL_SIZE : Z := 512.

Notation syscall_table := (list (option entry_point)).

Definition syscall_register (number : Z) (e : entry_point) (t : syscall_table) : option syscall_table :=
  zset t number (Some e).

Definition syscall_memory_mmap (s : pstate) (addr length prot flags fd : Z) : option (pstate * Z) :=
  process_mmap s addr length.

Definition syscall_memory_munmap (s : pstate) (addr length : Z) : option pstate :=
  let page_count := CMath.up2 length MEM_PAGE_SIZE / MEM_PAGE_SIZE in
  unmalloc_thread_mem s (u32 addr) page_count.

(** The registrations of [init_syscall]. *)
Definition register_all (t : syscall_table) : option syscall_table :=
  t ← syscall_register SYSCALL_mmap K_syscall_memory_mmap t;
  t ← syscall_register SYSCALL_munmap K_syscall_memory_munmap t;
  t ← syscall_register SYSCALL_get_pid K_process_get_pid t;
  t ← syscall_register SYSCALL_get_ppid K_process_get_ppid t;
  t ← syscall_register SYSCALL_sched_yield K_thread_yield t;
  t ← syscall_register SYSCALL_fork K_process_fork t;
  t ← syscall_register SYSCALL_wait K_process_wait t;
  t ← syscall_register SYSCALL_exit K_process_exit t;
  t ← syscall_register SYSCALL_execv K_process_execve t;
  t ← syscall_register SYSCALL_clone K_process_clone t;
  t ← syscall_register SYSCALL_sysinfo K_process_sysinfo t;
  t ← syscall_register SYSCALL_ps K_process_ps t;
  t ← syscall_register SYSCALL_sleep K_thread_sleep t;
  t ← syscall_register SYSCALL_open K_sys_open t;
  t ← syscall_register SYSCALL_dup K_sys_dup t;
  t ← syscall_register SYSCALL_dup2 K_sys_dup2 t;
  t ← syscall_register SYSCALL_write K_sys_write t;
  t ← syscall_register SYSCALL_read K_sys_read t;
  t ← syscall_register SYSCALL_lseek K_sys_lseek t;
  t ← syscall_register SYSCALL_close K_sys_close t;
  t ← syscall_register SYSCALL_stat K_sys_stat t;
  t ← syscall_register SYSCALL_fstat K_sys_fstat t;
  t ← syscall_register SYSCALL_readdir K_sys_readdir t;
  t ← syscall_register SYSCALL_mkdir K_sys_mkdir t;
  t ← syscall_register SYSCALL_rmdir K_sys_rmdir t;
  t ← syscall_register SYSCALL_link K_sys_link t;
  t ← syscall_register SYSCALL_symlink K_sys_symlink t;
  t ← syscall_register SYSCALL_unlink K_sys_link t;
  t ← syscall_register SYSCALL_socket K_create_socket t;
  t ← syscall_register SYSCALL_bind K_socket_bind t;
  t ← syscall_register SYSCALL_listen K_socket_listen t;
  t ← syscall_register SYSCALL_accept K_socket_accept t;
  t ← syscall_register SYSCALL_connect K_socket_connect t;
  t ← syscall_register SYSCALL_send_to K_socket_send_to t;
  t ← syscall_register SYSCALL_receive_from K_socket_receive_from t;
  t ← syscall_register SYSCALL_send K_socket_send t;
  t ← syscall_register SYSCALL_receive K_socket_receive t;
  t ← syscall_register SYSCALL_setsockopt K_set_sock_opt t;
  syscall_register SYSCALL_timestamp K_sys_timestamp t.

(** The table, and the interrupt table with the gate of system calls. *)
Definition init_syscall (t : syscall_table) (idt : list intr_desc) (intr_entry_syscall : Z)
    : option (syscall_table * list intr_desc) :=
  t ← register_all t;
  idt ← make_intr idt SYSCALL_INTR_NO IDT_DESC_ATTR_DPL3 intr_entry_syscall;
  Some (t, idt).

(** ** The user's side: applib/syscall *)

(** The registers a call reads. *)
Record regs := Regs { eax : Z; ebx : Z; ecx : Z; edx : Z; esi : Z; edi : Z }.

(** What the entry passes on: the function and the words on the stack. *)
Definition int80 (t : syscall_table) (r : regs) : option (entry_point * list Z) :=
  e ← zget t (eax r);
  f ← e;
  Some (f, [ebx r; ecx r; edx r; esi r; edi r]).

(** Registers the stub does not set keep what they hold. *)
Definition syscall0 (no : Z) (r : regs) : regs := Regs no (ebx r) (ecx r) (edx r) (esi r) (edi r).
Definition syscall1 (no a0 : Z) (r : regs) : regs := Regs no a0 (ecx r) (edx r) (esi r) (edi r).
Definition syscall2 (no a0 a1 : Z) (r : regs) : regs := Regs no a0 a1 (edx r) (esi r) (edi r).
Definition syscall3 (no a0 a1 a2 : Z) (r : regs) : regs := Regs no a0 a1 a2 (esi r) (edi r).
Definition syscall4 (no a0 a1 a2 a3 : Z) (r : regs) : regs := Regs no a0 a1 a2 a3 (edi r).
(** The sixth argument is pushed onto the user's stack. *)
Definition syscall6 (no a0 a1 a2 a3 a4 a5 : Z) (r : regs) : regs := Regs no a0 a1 a2 a3 a4.

Definition u_yield : regs -> regs := syscall0 SYSCALL_sched_yield.
Definition u_get_pid : regs -> regs := syscall0 SYSCALL_get_pid.
Definition u_get_ppid : regs -> regs := syscall0 SYSCALL_get_ppid.
Definition u_fork : regs -> regs := syscall0 SYSCALL_fork.
Definition u_wait (status : Z) : regs -> regs := syscall1 SYSCALL_wait status.
Definition u_exit (status : Z) : regs -> regs := syscall0 SYSCALL_exit.
Definition u_execve (filename argv envp : Z) : regs -> regs := syscall3 SYSCALL_execv filename argv envp.
Definition u_mmap (addr length prot flags fd offset : Z) : regs -> regs := syscall6 SYSCALL_mmap addr length prot flags fd offset.
Definition u_munmap (addr length : Z) : regs -> regs := syscall2 SYSCALL_munmap addr length.
Definition u_clone (func child_stack flags func_arg : Z) : regs -> regs := syscall4 SYSCALL_clone func child_stack flags func_arg.
Definition u_sysinfo (pid info flags : Z) : regs -> regs := syscall3 SYSCALL_sysinfo pid info flags.
Definition u_ps (p count : Z) : regs -> regs := syscall2 SYSCALL_ps p count.
Definition u_sleep (ms_n : Z) : regs -> regs := syscall1 SYSCALL_sleep ms_n.
Definition u_dup (fd : Z) : regs -> regs := syscall1 SYSCALL_dup fd.
Definition u_dup2 (dst source : Z) : regs -> regs := syscall2 SYSCALL_dup2 dst source.
Definition u_open (name flag : Z) : regs -> regs := syscall2 SYSCALL_open name flag.
Definition u_write (fd buf size : Z) : regs -> regs := syscall3 SYSCALL_write fd buf size.
Definition u_read (fd buf size : Z) : regs -> regs := syscall3 SYSCALL_read fd buf size.
Definition u_close (fd : Z) : regs -> regs := syscall1 SYSCALL_close fd.
Definition u_stat (name data : Z) : regs -> regs := syscall2 SYSCALL_stat name data.
Definition u_fstat (fd data : Z) : regs -> regs := syscall2 SYSCALL_fstat fd data.
Definition u_readdir (fd dirent : Z) : regs -> regs := syscall2 SYSCALL_readdir fd dirent.
Definition u_mkdir (path : Z) : regs -> regs := syscall1 SYSCALL_mkdir path.
Definition u_rmdir (path : Z) : regs -> regs := syscall1 SYSCALL_rmdir path.
Definition u_link (new_path old_path : Z) : regs -> regs := syscall2 SYSCALL_link new_path old_path.
Definition u_symlink (new_path old_path : Z) : regs -> regs := syscall2 SYSCALL_symlink new_path old_path.
Definition u_unlink (path : Z) : regs -> regs := syscall1 SYSCALL_unlink path.
Definition u_timestamp (time : Z) : regs -> regs := syscall1 SYSCALL_timestamp time.
Definition u_socket (family type protocol : Z) : regs -> regs := syscall3 SYSCALL_socket family type protocol.
Definition u_bind (sock_fd addr addr_len : Z) : regs -> regs := syscall3 SYSCALL_bind sock_fd addr addr_len.
Definition u_receive (sock_fd buf len flags result_len : Z) : regs -> regs := syscall4 SYSCALL_receive sock_fd buf len flags.
Definition u_connect (sock_fd addr addr_len : Z) : regs -> regs := syscall3 SYSCALL_connect sock_fd addr addr_len.
Definition u_send (sock_fd buf len flags : Z) : regs -> regs := syscall4 SYSCALL_send sock_fd buf len flags.

(** [lseek] checks [whence] before it asks the kernel. *)
Definition u_lseek (fd offset whence : Z) : Z + (regs -> regs) :=
  if (whence =? SEEK_SET) || (whence =? SEEK_CUR) || (whence =? SEEK_END)
  then Datatypes.inr (syscall3 SYSCALL_lseek fd offset whence) else Datatypes.inl EINVAL.

(** ** Properties *)

(** The table before it is filled: a static array. *)
Definition syscalls0 : syscall_table := replicate (Z.to_nat SYSCALL_SIZE) None.

(** The stubs, applied to the arguments [a], [b], ..., the functions they are
    meant for and what these are to find as arguments. *)
Definition calls (a b c d e o : Z) : list ((regs -> regs) * entry_point * list Z) :=
  [(u_yield, K_thread_yield, []);
   (u_get_pid, K_process_get_pid, []);
   (u_get_ppid, K_process_get_ppid, []);
   (u_fork, K_process_fork, []);
   (u_wait a, K_process_wait, [a]);
   (u_execve a b c, K_process_execve, [a; b; c]);
   (u_mmap a b c d e o, K_syscall_memory_mmap, [a; b; c; d; e]);
   (u_munmap a b, K_syscall_memory_munmap, [a; b]);
   (u_clone a b c d, K_process_clone, [a; b; c; d]);
   (u_sysinfo a b c, K_process_sysinfo, [a; b; c]);
   (u_ps a b, K_process_ps, [a; b]);
   (u_sleep a, K_thread_sleep, [a]);
   (u_dup a, K_sys_dup, [a]);
   (u_dup2 a b, K_sys_dup2, [a; b]);
   (u_open a b, K_sys_open, [a; b]);
   (u_write a b c, K_sys_write, [a; b; c]);
   (u_read a b c, K_sys_read, [a; b; c]);
   (u_close a, K_sys_close, [a]);
   (u_stat a b, K_sys_stat, [a; b]);
   (u_fstat a b, K_sys_fstat, [a; b]);
   (u_readdir a b, K_sys_readdir, [a; b]);
   (u_mkdir a, K_sys_mkdir, [a]);
   (u_rmdir a, K_sys_rmdir, [a]);
   (u_link a b, K_sys_link, [a; b]);
   (u_symlink a b, K_sys_symlink, [a; b]);
   (u_timestamp a, K_sys_timestamp, [a]);
   (u_socket a b c, K_create_socket, [a; b; c]);
   (u_bind a b c, K_socket_bind, [a; b; c]);
   (u_receive a b c d e, K_socket_receive, [a; b; c; d]);
   (u_connect a b c, K_socket_connect, [a; b; c]);
   (u_send a b c d, K_socket_send, [a; b; c; d])].

Definition filled : syscall_table := Eval vm_compute in default [] (register_all syscalls0).

Lemma register_all_ok : register_all syscalls0 = Some filled.
Proof. by vm_compute. Qed.

Lemma filled_none n : 39 <= n < SYSCALL_SIZE -> zget filled n = Some None.
Proof.
  intros Hn. assert (forall k, (k < 473)%nat -> drop 39 filled !! k = Some None) as H.
  { change (drop 39 filled) with (replicate 473 (@None entry_point)). intros k Hk. by apply lookup_replicate_2. }
  unfold zget. destruct (Z.ltb_spec n 0); [lia|]. unfold SYSCALL_SIZE in Hn. rewrite <- (H (Z.to_nat n - 39)%nat) by lia.
  rewrite lookup_drop. f_equal. lia.
Qed.


(** The status given to [exit] stays behind: the kernel takes for it what the
    register happens to hold. *)
Lemma exit_status_lost status r : int80 filled (u_exit status r) = Some (K_process_exit, [ebx r; ecx r; edx r; esi r; edi r]).
Proof. done. Qed.

(** [unlink] reaches [sys_link]. *)
Lemma unlink_links path r : int80 filled (u_unlink path r) = Some (K_sys_link, [path; ecx r; edx r; esi r; edi r]).
Proof. done. Qed.

(** A number that is not registered is called as well, a number outside the
    table reads behind it. *)
Lemma unchecked_number r : SYSCALL_SIZE <= eax r -> zget filled (eax r) = None.
Proof.
  intros H. unfold zget. destruct (Z.ltb_spec (eax r) 0); [unfold SYSCALL_SIZE in H; lia|].
  apply lookup_ge_None. change (length filled) with 512%nat. unfold SYSCALL_SIZE in H. lia.
Qed.

(** ** A run *)

