(* ===== verification/MemMap.v ===== *)
(** * The memory map: common/interrupt/memory_info.c, kernel/memory/mem.c

    The loader asks the BIOS for the memory map and leaves it in [boot_params];
    the kernel takes the size of the memory from it.  The BIOS is reached
    through [Bios], a call of interrupt 0x15 with registers and the buffer
    [buf]; [E820] says how it hands out its map, one entry per call. *)

From S2P Require Import Prelude Ports Gates Paging.
From S2P Require Import Prelude.

(** ** Definitions *)

Definition E820_MEM_TYPE_USABLE : Z := 1.
Definition E820_MEM_TYPE_RESERVED : Z := 2.

Record boot_e820_entry := E820Entry {
  low_addr : Z; high_addr : Z; low_size : Z; high_size : Z; mtype : Z }.

Record boot_params := BootParams {
  e820_table : list boot_e820_entry; e820_entry_count : Z; e801_k : Z; ext_88_k : Z }.

(** The registers the calls use. *)
Record biosregs := BiosRegs { r_eax : Z; r_ebx : Z; r_ecx : Z; r_edx : Z; r_edi : Z; r_eflags : Z }.

Definition X86_EFLAGS_CF : Z := 1.
Definition initregs : biosregs := BiosRegs 0 0 0 0 0 X86_EFLAGS_CF.

Definition SMAP : Z := 1397571920.
Definition E820_SIZE : Z := 20.

(** Interrupt 0x15: the registers and the buffer before and after. *)
Class Bios (hw : Type) := int15 : biosregs -> boot_e820_entry -> hw -> biosregs * boot_e820_entry * hw.

Section Detect.
Context {hw : Type} `{Bios hw}.

(** [count] entries have been stored; [ireg] keeps its registers but [ebx].
    The loop ends after 128 entries at the latest. *)
Fixpoint e820_loop (n : nat) (ireg : biosregs) (buf : boot_e820_entry) (p : boot_params) (count : Z)
    (h : hw) : option (boot_params * Z * hw) :=
  match n with
  | O => Some (p, count, h)
  | S n' =>
      let '(oreg, buf, h) := int15 ireg buf h in
      let ireg := BiosRegs (r_eax ireg) (r_ebx oreg) (r_ecx ireg) (r_edx ireg) (r_edi ireg) (r_eflags ireg) in
      if nz (Z.land (r_eflags oreg) X86_EFLAGS_CF) then Some (p, count, h)
      else if negb (r_eax oreg =? SMAP) then Some (p, 0, h)
      else
        t ← zset (e820_table p) count buf;
        let p := BootParams t (e820_entry_count p) (e801_k p) (ext_88_k p) in
        if nz (r_ebx ireg) then e820_loop n' ireg buf p (count + 1) h else Some (p, count + 1, h)
  end.

(** [di] is the address of the buffer. *)
Definition detect_memory_15_e820 (di : Z) (buf : boot_e820_entry) (p : boot_params) (h : hw)
    : option (boot_params * hw) :=
  let ireg := BiosRegs 59424 0 E820_SIZE SMAP di (r_eflags initregs) in
  '(p, count, h) ← e820_loop (Z.to_nat (zlen (e820_table p))) ireg buf p 0 h;
  Some (BootParams (e820_table p) count (e801_k p) (ext_88_k p), h).

(** [cx] and [dx] are the low halves; 15360 is 15 MiB in KiB. *)
Definition detect_memory_15_e801 (buf : boot_e820_entry) (p : boot_params) (h : hw) : boot_params * hw :=
  let '(oreg, _, h) := int15 (BiosRegs 59393 0 0 0 0 (r_eflags initregs)) buf h in
  let cx := u16 (r_ecx oreg) in let dx := u16 (r_edx oreg) in
  if nz (Z.land (r_eflags oreg) X86_EFLAGS_CF) then (p, h)
  else if 15360 <? cx then (p, h)
  else if cx =? 15360 then
    (BootParams (e820_table p) (e820_entry_count p) (u32 (Z.shiftl dx 6 + cx)) (ext_88_k p), h)
  else (BootParams (e820_table p) (e820_entry_count p) cx (ext_88_k p), h).

Definition detect_memory_15_88 (buf : boot_e820_entry) (p : boot_params) (h : hw) : boot_params * hw :=
  let '(oreg, _, h) := int15 (BiosRegs 34816 0 0 0 0 (r_eflags initregs)) buf h in
  (BootParams (e820_table p) (e820_entry_count p) (e801_k p) (u16 (r_eax oreg)), h).

Definition detect_memory (di : Z) (buf : boot_e820_entry) (p : boot_params) (h : hw)
    : option (boot_params * hw) :=
  '(p, h) ← detect_memory_15_e820 di buf p h;
  let '(p, h) := detect_memory_15_e801 buf p h in
  Some (detect_memory_15_88 buf p h).
End Detect.

(** The loop of [init_mem] over the entries. *)
Definition all_mem_step (p : boot_params) (i all_mem : Z) : option Z :=
  entity ← zget (e820_table p) i;
  if (mtype entity =? E820_MEM_TYPE_USABLE) || (mtype entity =? E820_MEM_TYPE_RESERVED) then
    let size := u64 (low_addr entity + low_size entity) in
    Some (if all_mem <? size then size else all_mem)
  else Some all_mem.
Definition all_mem_of (p : boot_params) : option Z :=
  for_ (Z.to_nat (e820_entry_count p)) 0 (all_mem_step p) 0.

Definition init_mem (gdt : list segment_desc) (gdt_addr tss_addr : Z) (s : mm) (l : symbols)
    (mem_free : list Z) (params : option boot_params)
    : option (list segment_desc * tss_t * (Z * Z * Z) * Z * mm) :=
  g ← init_gdt gdt gdt_addr tss_addr;
  match params with
  | None => Some (g, s)
  | Some p => all_mem ← all_mem_of p; s ← init_paging s l mem_free all_mem; Some (g, s)
  end.

(** ** Properties *)

(** How the BIOS hands out its map: a call with the continuation value of
    entry [k] answers that entry and the value of the next one, which is 0
    after the last. *)
Class E820 (hw : Type) `{Bios hw} (entries : list boot_e820_entry) := {
  cont : nat -> Z;
  bios_ok : hw -> Prop;
  cont_0 : cont 0 = 0;
  cont_next k : (0 < k < length entries)%nat -> cont k <> 0;
  cont_end : cont (length entries) = 0;
  e820_call k e cx di fl buf h : bios_ok h -> entries !! k = Some e ->
    let '(oreg, buf', h') := int15 (BiosRegs 59424 (cont k) cx SMAP di fl) buf h in
    Z.land (r_eflags oreg) X86_EFLAGS_CF = 0 /\ r_eax oreg = SMAP /\ r_ebx oreg = cont (S k) /\
    buf' = e /\ bios_ok h';
}.

Section E820.
Context {hw : Type} (entries : list boot_e820_entry) `{E820 hw entries}.

Lemma e820_loop_ok n : forall k cx di fl buf p h, bios_ok h -> (k < length entries)%nat ->
  (k + n = length (e820_table p))%nat -> (0 < n)%nat ->
  exists p' h', e820_loop n (BiosRegs 59424 (cont k) cx SMAP di fl) buf p (Z.of_nat k) h
    = Some (p', Z.of_nat (length entries `min` length (e820_table p)), h') /\ bios_ok h' /\
    e801_k p' = e801_k p /\ ext_88_k p' = ext_88_k p /\ length (e820_table p') = length (e820_table p) /\
    forall i, (i < length entries `min` length (e820_table p))%nat ->
      e820_table p' !! i = if decide (i < k)%nat then e820_table p !! i else entries !! i.
Proof.
  induction n as [|n IH]; intros k cx di fl buf p h Hh Hk Hn Hpos; [lia|]. cbn [e820_loop].
  destruct (lookup_lt_is_Some_2 entries k Hk) as [e He].
  pose proof (e820_call k e cx di fl buf h Hh He) as Hc.
  destruct (int15 _ _ _) as [[oreg buf'] h1]. destruct Hc as (Hf & Ha & Hb & -> & Hh1).
  rewrite Hf, Ha. cbn [nz negb Z.eqb]. change (nz 0) with false. cbn iota.
  change (negb (SMAP =? SMAP)) with false. cbn iota. cbn [r_ebx r_eax r_ecx r_edx r_edi r_eflags].
  rewrite zset_is_Some by (unfold zlen; lia). mstep. rewrite Nat2Z.id, Hb.
  set (p1 := BootParams (<[k:=e]> (e820_table p)) (e820_entry_count p) (e801_k p) (ext_88_k p)).
  assert (length (e820_table p1) = length (e820_table p)) as Hl1 by (cbn; apply length_insert).
  assert (forall i, (i <= k)%nat -> e820_table p1 !! i = if decide (i < k)%nat then e820_table p !! i else entries !! i) as Ht.
  { intros i Hi. cbn. destruct (decide (i < k)%nat); [apply list_lookup_insert_ne; lia|].
    assert (i = k) as -> by lia. rewrite list_lookup_insert_eq by lia. done. }
  destruct (decide (S k < length entries)%nat) as [Hs|Hs].
  - assert (nz (cont (S k)) = true) as -> by (unfold nz; destruct (Z.eqb_spec (cont (S k)) 0); [|done];
      exfalso; by apply (cont_next (S k)); [lia|]).
    destruct n as [|n].
    + cbn [e820_loop]. exists p1, h1. replace (length entries `min` _)%nat with (S k) by lia.
      rewrite Nat2Z.inj_succ. split_and!; try done. intros i Hi. apply Ht. lia.
    + destruct (IH (S k) cx di fl e p1 h1 Hh1 Hs) as (p' & h' & E & Hh' & E1 & E2 & E3 & Ht'); [lia..|].
      rewrite Nat2Z.inj_succ in E. exists p', h'. rewrite Hl1 in *. split_and!; try done.
      intros i Hi. rewrite Ht' by done. destruct (decide (i < S k)%nat); [apply Ht; lia|].
      by destruct (decide (i < k)%nat); [lia|].
  - replace (S k) with (length entries) by lia. rewrite cont_end. cbn.
    exists p1, h1. replace (length entries `min` _)%nat with (S k) by lia.
    rewrite Nat2Z.inj_succ. split_and!; try done. intros i Hi. apply Ht. lia.
Qed.

(** The entries and their number are in [boot_params]. *)
Lemma detect_e820_ok di buf p h : bios_ok h -> entries <> [] -> e820_table p <> [] ->
  exists p' h', detect_memory_15_e820 di buf p h = Some (p', h') /\
    e820_entry_count p' = Z.of_nat (length entries `min` length (e820_table p)) /\
    take (length entries `min` length (e820_table p)) (e820_table p') = take (length (e820_table p)) entries.
Proof.
  intros Hh He Hp. unfold detect_memory_15_e820.
  destruct (e820_loop_ok (length (e820_table p)) 0 E820_SIZE di (r_eflags initregs) buf p h)
    as (p' & h' & E & _ & _ & _ & Hl & Ht); try done.
  { destruct entries; [done|cbn; lia]. }
  { destruct (e820_table p); [done|cbn; lia]. }
  unfold zlen. rewrite Nat2Z.id. rewrite cont_0 in E. change (Z.of_nat 0) with 0 in E. rewrite E. mstep. do 2 eexists. split; [done|]. split; [done|].
  cbn [e820_table]. apply list_eq. intros i. destruct (decide (i < length entries `min` length (e820_table p))%nat) as [Hi|Hi].
  - rewrite !lookup_take, !decide_True by lia. by rewrite Ht.
  - rewrite lookup_take_ge by lia. symmetry. apply lookup_ge_None. rewrite length_take. lia.
Qed.
End E820.

(** The entries that [init_mem] looks at, and where they end. *)
Definition counted (e : boot_e820_entry) : bool :=
  (mtype e =? E820_MEM_TYPE_USABLE) || (mtype e =? E820_MEM_TYPE_RESERVED).
Definition top (e : boot_e820_entry) : Z := low_addr e + low_size e.
Definition entry_ok (e : boot_e820_entry) : Prop := 0 <= low_addr e < 2 ^ 32 /\ 0 <= low_size e < 2 ^ 32.

(** The end of the highest entry that counts, or 0. *)
Definition highest (es : list boot_e820_entry) (n : Z) : Prop :=
  (forall e, e ∈ es -> counted e = true -> top e <= n) /\
  (n = 0 \/ exists e, e ∈ es /\ counted e = true /\ top e = n).

Lemma highest_snoc es e n : highest es n -> 0 <= n ->
  highest (es ++ [e]) (if counted e then if n <? top e then top e else n else n).
Proof.
  intros [H1 H2] Hn. split.
  - intros x [Hx|Hx%list_elem_of_singleton]%elem_of_app Hc.
    + specialize (H1 x Hx Hc). destruct (counted e); [destruct (Z.ltb_spec n (top e)); lia|done].
    + subst x. rewrite Hc. destruct (Z.ltb_spec n (top e)); lia.
  - assert (n = 0 \/ exists x, x ∈ es ++ [e] /\ counted x = true /\ top x = n) as Hl.
    { destruct H2 as [?|(x & Hx & Hr)]; [by left|right]. exists x. split; [set_solver|done]. }
    destruct (counted e) eqn:Ec; [|done]. destruct (n <? top e); [|done]. right. exists e. split; [set_solver|done].
Qed.

Lemma all_mem_ok p es : e820_entry_count p = zlen es -> take (length es) (e820_table p) = es ->
  Forall entry_ok es -> exists n, all_mem_of p = Some n /\ highest es n.
Proof.
  intros Hc Ht Hf. unfold all_mem_of. rewrite Hc. unfold zlen. rewrite Nat2Z.id.
  destruct (for_inv (fun i n => 0 <= n /\ highest (take (Z.to_nat i) es) n) (all_mem_step p) (length es) 0 0)
    as (n & E & _ & Hh).
  - split; [lia|]. split; [set_solver|by left].
  - intros j n Hj [Hn Hh]. destruct (lookup_lt_is_Some_2 es (Z.to_nat j)) as [e He]; [lia|].
    assert (zget (e820_table p) j = Some e) as Ez.
    { unfold zget. destruct (Z.ltb_spec j 0); [lia|]. rewrite <- He, <- Ht. rewrite lookup_take, decide_True by lia. done. }
    assert (entry_ok e) as [Ha Hz] by (rewrite Forall_forall in Hf; apply Hf; by eapply list_elem_of_lookup_2).
    unfold all_mem_step. rewrite Ez. mstep. pose proof (highest_snoc _ e n Hh Hn) as Hs.
    replace (Z.to_nat (j + 1)) with (S (Z.to_nat j)) by lia. rewrite (take_S_r _ _ _ He).
    unfold counted in Hs. unfold top in Hs.
    assert (u64 (low_addr e + low_size e) = low_addr e + low_size e) as -> by (apply u64_small; lia).
    destruct (_ || _); eexists; (split; [reflexivity|]); (split; [|exact Hs]); [destruct (Z.ltb_spec n (low_addr e + low_size e)); lia|done].
  - exists n. split; [done|]. by rewrite Z.add_0_l, Nat2Z.id, firstn_all in Hh.
Qed.

(** The size of the memory: with a map of at most 128 entries from the BIOS,
    [detect_memory_15_e820] succeeds and [init_mem] then takes for the size of
    the memory the end of the highest entry that is usable or reserved. *)
Theorem memory_size_spec {hw} (entries : list boot_e820_entry) `{E820 hw entries} di buf p (h : hw) :
  bios_ok h -> entries <> [] -> (length entries <= length (e820_table p))%nat -> Forall entry_ok entries ->
  exists p' h' n, detect_memory_15_e820 di buf p h = Some (p', h') /\
    all_mem_of p' = Some n /\ highest entries n.
Proof.
  intros Hh He Hl Hf.
  destruct (detect_e820_ok entries di buf p h Hh He) as (p' & h' & E & Hc & Ht).
  { intros Hp. rewrite Hp in Hl. destruct entries; [done|cbn in Hl; lia]. }
  destruct (all_mem_ok p' entries) as (n & En & Hn); [..|exists p', h', n; done].
  - rewrite Hc. unfold zlen. lia.
  - replace (_ `min` _)%nat with (length entries) in Ht by lia. rewrite Ht. by apply take_ge.
  - done.
Qed.

(** ** A machine *)

(** 128 MiB of memory and the firmware below 4 GiB. *)
Definition map0 : list boot_e820_entry :=
  [E820Entry 0 0 654336 0 1; E820Entry 1048576 0 133169152 0 1; E820Entry 4294705152 0 262144 0 2].

Definition no_params : boot_params := BootParams (replicate 128 (E820Entry 0 0 0 0 0)) 0 0 0.

(** A BIOS that numbers the entries. *)
#[export] Instance bios0 : Bios unit := fun r buf _ =>
  match map0 !! Z.to_nat (r_ebx r) with
  | Some e => (BiosRegs SMAP (if r_ebx r =? 2 then 0 else r_ebx r + 1) 20 SMAP (r_edi r) 0, e, tt)
  | None => (BiosRegs 0 0 0 0 0 1, buf, tt)
  end.
#[export, refine] Instance e820_0 : E820 unit map0 := {|
  cont k := if (k <? 3)%nat then Z.of_nat k else 0; bios_ok _ := True |}.
Proof.
  - done.
  - intros k Hk. cbn in Hk. destruct (Nat.ltb_spec k 3); lia.
  - done.
  - intros k e cx di fl buf h _ He. destruct k as [|[|[|k]]]; [injection He as <-..|done]; by split_and!.
Defined.

Lemma memory_size_spec_witness : exists p' h' n,
  detect_memory_15_e820 512 (E820Entry 0 0 0 0 0) no_params tt = Some (p', h') /\
  all_mem_of p' = Some n /\ highest map0 n.
Proof.
  apply (memory_size_spec map0 512 (E820Entry 0 0 0 0 0) no_params tt); [done|done|cbn; lia|].
  repeat constructor; cbn; lia.
Defined.

(** A reserved region counts as memory: with 128 MiB the kernel takes itself to
    have 4 GiB. *)
Lemma reserved_counts :
  ('(p, _) ← detect_memory_15_e820 512 (E820Entry 0 0 0 0 0) no_params tt; all_mem_of p) = Some (2 ^ 32).
Proof. by vm_compute. Qed.
