(* ===== verification/Userlib.v ===== *)
(** * What user programs are written against: glibc/io/std.c

    [Kernel] lists the calls of a program: system calls (include/syscall.h,
    whose stubs are in Syscall.v) and the heap of the process.  A program is a
    function of the state behind these calls ([proc]); no result means that it
    accesses memory it does not have.  Strings of a program are bytes in a
    memory [mem] and a pointer is an offset.  [Terminal] says what a program
    may expect of its input, its output and its heap. *)

From Stdlib Require Import String Ascii.
From S2P Require Import Prelude CMath CString Datetime Stdio.
From S2P Require Import Prelude.

(** ** Programs *)

Definition proc (W A : Type) : Type := W -> option (A * W).
#[export] Instance proc_ret W : MRet (proc W) := fun A a w => Some (a, w).
#[export] Instance proc_bind W : MBind (proc W) := fun A B f m w => '(a, w) ← m w; f a w.

(** A step that may be undefined, and a call of the kernel. *)
Definition ub {W A} (o : option A) : proc W A := fun w => a ← o; Some (a, w).
Definition call {W A} (f : W -> A * W) : proc W A := fun w => Some (f w).

Lemma proc_step {W A B} (m : proc W A) (f : A -> proc W B) w a w' : m w = Some (a, w') ->
  (m ≫= f : proc W B) w = f a w'.
Proof. intros E. unfold mbind at 1, proc_bind. by rewrite E. Qed.

Lemma ub_step {W A B} (a : A) (f : A -> proc W B) w : (ub (Some a) ≫= f : proc W B) w = f a w.
Proof. done. Qed.
Lemma call_step {W A B} (g : W -> A * W) (f : A -> proc W B) w a w' : g w = (a, w') ->
  (call g ≫= f : proc W B) w = f a w'.
Proof. intros E. apply proc_step. unfold call. by rewrite E. Qed.

(** A string literal, with its NUL. *)
Fixpoint chars (s : string) : list Z :=
  match s with
  | EmptyString => []
  | String c s' => Z.of_nat (nat_of_ascii c) :: chars s'
  end.
Definition cstr (s : string) : mem := chars s ++ [0].

(** ** The calls *)

Record mem_info := MemInfo {
  kernel_total : Z; user_total : Z; kernel_mem_used : Z; user_mem_used : Z;
  kernel_phy_mem_used : Z; user_phy_mem_used : Z; mem_page_size : Z }.
Record sys_info := SysInfo { minfo : mem_info; pwd : mem; rdtscp : Z }.
Record dirent_t := Dirent { d_name : mem; d_size : Z; d_child_count : Z }.

Definition STDIN_FILENO : Z := 0.
Definition STDOUT_FILENO : Z := 1.
Definition STDERR_FILENO : Z := 2.

Class Kernel (W : Type) := {
  k_read : Z -> Z -> W -> Z * list Z * W;
  k_write : Z -> list Z -> W -> Z * W;
  k_open : mem -> Z -> W -> Z * W;
  k_close : Z -> W -> W;
  k_dup2 : Z -> Z -> W -> Z * W;
  k_readdir : Z -> W -> Z * dirent_t * W;
  k_get_pid : W -> Z * W;
  k_sysinfo : Z -> Z -> W -> Z * sys_info * W;
  k_timestamp : W -> timespec_t * W;
  k_fork : W -> Z * W;
  k_execve : mem -> list (option Z) -> W -> Z * W;
  k_wait : W -> Z * W;
  k_sleep : Z -> W -> W;
  k_socket : Z -> Z -> Z -> W -> Z * W;
  k_connect : Z -> Z -> W -> Z * W;
  k_send : Z -> list Z -> W -> Z * W;
  k_receive : Z -> Z -> W -> Z * list Z * W;
  k_malloc : Z -> W -> option (Z * mem) * W;
  k_free : Z -> W -> W;
}.

Section Std.
Context {W : Type} `{Kernel W}.

Definition read (fd size : Z) : proc W (Z * list Z) := call (k_read fd size).
Definition write (fd : Z) (bs : list Z) : proc W Z := call (k_write fd bs).
Definition open (path : mem) (flag : Z) : proc W Z := call (k_open path flag).
Definition close (fd : Z) : proc W unit := call (fun w => (tt, k_close fd w)).
Definition dup2 (dst source : Z) : proc W Z := call (k_dup2 dst source).
Definition malloc (size : Z) : proc W (option (Z * mem)) := call (k_malloc size).
Definition free (p : Z) : proc W unit := call (fun w => (tt, k_free p w)).

(** The standard descriptors.  [init_std] keeps the descriptor it opens in a
    local variable; [release_std] looks at the global one, [gfd], which stays
    -1. *)
Definition init_std : proc W unit :=
  fd ← open (cstr "/dev/tty0") 0;
  _ ← dup2 STDIN_FILENO fd;
  _ ← dup2 STDOUT_FILENO fd;
  _ ← dup2 STDERR_FILENO fd;
  mret tt.
Definition release_std (gfd : Z) : proc W unit :=
  if 0 <=? gfd then
    _ ← close gfd;
    _ ← close STDIN_FILENO;
    _ ← close STDOUT_FILENO;
    close STDERR_FILENO
  else mret tt.

(** ** Printing *)

(** The buffer of [sizeof(fmt) + 512] bytes; only the characters up to the NUL
    are written. *)
Definition printf (str_at : Z -> mem) (fmt : mem) (ap : list Z) : proc W Z :=
  b ← malloc (4 + 512);
  '(p, buf) ← ub b;
  '(buf, _) ← ub (vsprintf str_at buf fmt ap);
  n ← ub (strlen buf);
  write_size ← write STDOUT_FILENO (take (Z.to_nat n) buf);
  _ ← free p;
  mret write_size.

(** The whole buffer of [sizeof(fmt) + 128] bytes is written. *)
Definition fprintf (fd : Z) (str_at : Z -> mem) (fmt : mem) (ap : list Z) : proc W Z :=
  b ← malloc (4 + 128);
  '(p, buf) ← ub b;
  '(buf, _) ← ub (vsprintf str_at buf fmt ap);
  write_size ← write fd buf;
  _ ← free p;
  mret write_size.

(** A constant string. *)
Definition print (s : string) : proc W Z := printf (fun _ => []) (cstr s) [].

(** ** Reading *)

(** The character is undefined when none arrives. *)
Definition getchar : proc W Z :=
  '(_, bs) ← read STDIN_FILENO 1;
  ub (zget bs 0).

(** The bytes of [buf], and whether its address is returned; [fuel] bounds the
    characters that are read. *)
Fixpoint gets (fuel : nat) (buf : mem) (idx : Z) : proc W (mem * bool) :=
  match fuel with
  | O => ub None
  | S fuel' =>
      '(read_size, bs) ← read STDIN_FILENO 1;
      if read_size <=? 0 then mret (buf, false)
      else
        ch ← ub (zget bs 0);
        if (ch =? 8) && (0 <? idx) then
          buf ← ub (zset buf idx 0);
          gets fuel' buf (idx - 1)
        else
          buf ← ub (zset buf idx ch);
          let idx := idx + 1 in
          if (ch =? 10) || (ch =? 13) then
            buf ← ub (zset buf (idx - 1) 0);
            mret (buf, true)
          else gets fuel' buf idx
  end.
End Std.

(** ** What a program may expect *)

Class Terminal (W : Type) `{Kernel W} := {
  tm_ok : W -> Prop;
  input : W -> list Z;
  output : W -> list Z;
  tm_read w c l : tm_ok w -> input w = c :: l ->
    let '(n, bs, w') := k_read STDIN_FILENO 1 w in
    n = 1 /\ bs = [c] /\ tm_ok w' /\ input w' = l /\ output w' = output w;
  tm_write w bs : tm_ok w ->
    let w' := (k_write STDOUT_FILENO bs w).2 in
    tm_ok w' /\ input w' = input w /\ output w' = output w ++ bs;
  tm_malloc w n : tm_ok w -> 0 < n <= 1024 ->
    let '(r, w') := k_malloc n w in
    (exists p, r = Some (p, replicate (Z.to_nat n) 0)) /\
    tm_ok w' /\ input w' = input w /\ output w' = output w;
  tm_free w p : tm_ok w ->
    tm_ok (k_free p w) /\ input (k_free p w) = input w /\ output (k_free p w) = output w;
}.

Section Ok.
Context {W : Type} `{Terminal W}.

(** From [w] to [w'] the program has written [out]. *)
Record wrote (out : list Z) (w w' : W) : Prop := {
  wr_ok : tm_ok w';
  wr_in : input w' = input w;
  wr_out : output w' = output w ++ out;
}.

Lemma wrote_app a b w1 w2 w3 : wrote a w1 w2 -> wrote b w2 w3 -> wrote (a ++ b) w1 w3.
Proof.
  intros [O1 I1 U1] [O2 I2 U2]. split; [done|congruence|]. by rewrite U2, U1, app_assoc.
Qed.

(** A format whose output fits into the buffer is printed. *)
Lemma printf_ok str_at ps fmt ap w : tm_ok w -> Forall (piece_ok str_at) ps ->
  (sum_list (width <$> ps) < 516)%nat -> fmt = mjoin (fmt_of <$> ps) ++ [0] ->
  ap = mjoin (args_of <$> ps) ++ [] ->
  exists ts r w', printf str_at fmt ap w = Some (r, w') /\ Forall2 renders ps ts /\ wrote (mjoin ts) w w'.
Proof.
  intros Hw Hp Hl -> ->. unfold printf, malloc, write, free. pose proof (tm_malloc w (4 + 512) Hw ltac:(lia)) as Hm.
  destruct (k_malloc _ w) as [r w1] eqn:Em. destruct Hm as ((p & ->) & Hw1 & I1 & U1).
  change (Z.to_nat (4 + 512)) with 516%nat in Em. rewrite (call_step _ _ _ _ _ Em), ub_step. cbv beta iota.
  destruct (vsprintf_ok str_at ps (replicate 516 0) [] [] 516 Hp Hl eq_refl) as (ts & Hts & Hnul & Hlen & E).
  rewrite E, ub_step. cbv beta iota. destruct (516 - length (mjoin ts))%nat as [|k] eqn:Ek; [lia|]. cbn [replicate].
  rewrite strlen_app by done. rewrite ub_step. unfold zlen. rewrite Nat2Z.id, take_app_length.
  pose proof (tm_write w1 (mjoin ts) Hw1) as Hwr. cbv zeta in Hwr. destruct (k_write _ _ w1) as [ws w2] eqn:Ew.
  cbn [snd] in Hwr. destruct Hwr as (Hw2 & I2 & U2). destruct (tm_free w2 p Hw2) as (Hw3 & I3 & U3).
  rewrite (call_step _ _ _ _ _ Ew). rewrite (call_step _ _ _ tt (k_free p w2)) by done.
  exists ts, ws, (k_free p w2). split; [done|]. split; [done|]. split; [done|congruence|congruence].
Qed.

(** A line as it is edited: a backspace takes the last character back. *)
Definition edit (line : list Z) (c : Z) : list Z :=
  if (c =? 8) && (0 <? zlen line) then removelast line else line ++ [c].

Lemma list_last_case {A} (l : list A) : l = [] \/ exists l0 x, l = l0 ++ [x].
Proof. induction l as [|x l _] using rev_ind; [by left|right; eauto]. Qed.

Lemma gets_ok cs : forall fuel line (buf : mem) w rest, tm_ok w -> input w = cs ++ 10 :: rest ->
  10 ∉ cs -> 13 ∉ cs -> take (length line) buf = line ->
  (length line + length cs < length buf)%nat -> (length cs < fuel)%nat ->
  exists w' tl, gets fuel buf (zlen line) w = Some ((foldl edit line cs ++ 0 :: tl, true), w') /\
    tm_ok w' /\ input w' = rest /\ output w' = output w /\ length (foldl edit line cs ++ 0 :: tl) = length buf.
Proof.
  induction cs as [|c cs IH]; intros fuel line buf w rest Hw Hin Hn Hr Hl Hb Hf;
    (destruct fuel as [|fuel]; [cbn in Hf; lia|]); cbn [gets foldl app length] in *;
    (match type of Hin with _ = ?x :: ?l => pose proof (tm_read w x l Hw Hin) as Hrd end);
    destruct (k_read _ _ w) as [[n bs] w1] eqn:Er; destruct Hrd as (-> & -> & Hw1 & Hi & Ho);
    unfold read; rewrite (call_step _ _ _ _ _ Er); cbv beta iota; change (1 <=? 0) with false; cbv iota.
  - change (zget [10] 0) with (Some 10). rewrite ub_step. change (10 =? 8) with false. cbn [andb].
    rewrite zset_is_Some by (unfold zlen; lia). rewrite ub_step. change ((10 =? 10) || (10 =? 13)) with true. cbv zeta.
    rewrite Z.add_simpl_r. rewrite zset_is_Some by (unfold zlen; rewrite length_insert; lia). rewrite ub_step.
    unfold zlen. rewrite Nat2Z.id, list_insert_insert_eq.
    assert (<[length line:=0]> buf = line ++ 0 :: drop (S (length line)) buf) as ->.
    { rewrite insert_take_drop by lia. by rewrite Hl. }
    exists w1, (drop (S (length line)) buf). split_and!; try done; try congruence.
    rewrite length_app. cbn [length]. rewrite length_drop. lia.
  - apply not_elem_of_cons in Hn as [Hc10 Hn], Hr as [Hc13 Hr].
    change (zget [c] 0) with (Some c). rewrite ub_step.
    unfold edit at 2 4. destruct ((c =? 8) && (0 <? zlen line)) eqn:Eb.
    + apply andb_true_iff in Eb as [_ Hpos]. apply Z.ltb_lt in Hpos. unfold zlen in Hpos.
      destruct (list_last_case line) as [->|(l0 & x & ->)]; [cbn in Hpos; lia|].
      rewrite removelast_last. rewrite length_app in Hb, Hl. cbn [length] in Hb, Hl.
      rewrite zset_is_Some by (unfold zlen; rewrite length_app; cbn; lia). rewrite ub_step.
      replace (zlen (l0 ++ [x]) - 1) with (zlen l0) by (unfold zlen; rewrite length_app; cbn; lia).
      set (buf1 := <[_:=0]> buf). assert (length buf1 = length buf) as Hl1 by apply length_insert.
      destruct (IH fuel l0 buf1 w1 rest) as (w' & tl & E & Hw' & Hi' & Ho' & Hlen); try done; try lia.
      { unfold buf1. rewrite take_insert_ge by (unfold zlen; rewrite Nat2Z.id, length_app; cbn; lia).
        replace (length l0) with (length l0 `min` (length l0 + 1))%nat at 1 by lia. rewrite <- take_take, Hl.
        by rewrite take_app_length. }
      exists w', tl. rewrite <- Hl1. split_and!; try done. congruence.
    + rewrite zset_is_Some by (unfold zlen; lia). rewrite ub_step. cbv zeta.
      destruct (Z.eqb_spec c 10); [congruence|]. destruct (Z.eqb_spec c 13); [congruence|]. cbn [orb].
      set (buf1 := <[_:=c]> buf). assert (length buf1 = length buf) as Hl1 by apply length_insert.
      replace (zlen line + 1) with (zlen (line ++ [c])) by (unfold zlen; rewrite length_app; cbn; lia).
      destruct (IH fuel (line ++ [c]) buf1 w1 rest) as (w' & tl & E & Hw' & Hi' & Ho' & Hlen); try done; try lia.
      { unfold buf1, zlen. rewrite Nat2Z.id, length_app. cbn [length]. rewrite insert_take_drop by lia. rewrite Hl.
        rewrite take_app_ge by lia. by replace (length line + 1 - length line)%nat with 1%nat by lia. }
      { rewrite length_app. cbn. lia. }
      exists w', tl. rewrite <- Hl1. split_and!; try done. congruence.
Qed.
End Ok.
