(* ===== verification/Shell.v ===== *)
(** * The shell: app/shell/main.c, common/tool/flag.h

    A line is read into the buffer [m] of 1024 bytes and cut into commands and
    words by two nested loops over [strtok_r]; an argument is the offset of its
    first character in [m], and [argv] ends with NULL.  The commands are
    programs over the calls of [Kernel]. *)

From Stdlib Require Import String.
From S2P Require Import Tty.
From S2P Require Import Prelude CMath CString Datetime Stdio Pktbuf Userlib.
From S2P Require Import Prelude.

Definition ARG_COUNT_MAX : Z := 10.
Definition O_RDONLY : Z := 2.
Definition O_RDWR : Z := 8.
Definition SYS_INFO_MEM : Z := 1.
Definition SYS_INFO_CPU_INFO : Z := 2.

(** ** Commands *)

Inductive cmd_func := do_man_f | do_clear_f | do_list_f | do_pwd_f | do_free_f | do_echo_f | do_cat_f
  | do_date_f | do_exec_f | do_ping_f.

Record cmd_t := Cmd { cname : string; usage : string; func : cmd_func }.

Definition free_usage : string := "show memory usage infoUsage:
free [options]

Options:
 -b                  show output in bytes
 -k                  show output in kibibytes
 -m                  show output in mebibytes
 -g                  show output in gibibytes
 -h                  show human-readable output

"%string.

Definition cmd_list : list cmd_t :=
  [Cmd "man" "show help for command" do_man_f;
   Cmd "clear" "clear the screen" do_clear_f;
   Cmd "ls" "list children for dir" do_list_f;
   Cmd "pwd" "show process working dir" do_pwd_f;
   Cmd "free" free_usage do_free_f;
   Cmd "echo" "show message into screen" do_echo_f;
   Cmd "cat" "print file content" do_cat_f;
   Cmd "date" "display or set date and time" do_date_f;
   Cmd "exec" "execute a program" do_exec_f;
   Cmd "ping" "send ICMP ECHO_REQUEST packets to network hosts" do_ping_f].

(** One turn of the search compares as many characters as the shorter string
    has. *)
Definition cmd_matches (c : cmd_t) (cmd_str : mem) : option bool :=
  la ← strlen (cstr (cname c));
  lb ← strlen cmd_str;
  r ← memcmp (cstr (cname c)) cmd_str (if la <? lb then la else lb);
  Some (r =? 0).

(** The loop goes on while [cmd <= cmd_list + cmd_count]. *)
Fixpoint find_cmd_loop (n : nat) (i : Z) (cmd_str : mem) : option (option cmd_t) :=
  match n with
  | O => Some None
  | S n' =>
      c ← zget cmd_list i;
      b ← cmd_matches c cmd_str;
      if (b : bool) then Some (Some c) else find_cmd_loop n' (i + 1) cmd_str
  end.
Definition find_cmd (cmd_str : mem) : option (option cmd_t) :=
  find_cmd_loop (S (length cmd_list)) 0 cmd_str.

(** ** Arguments *)

(** [argv[i]] where it is followed. *)
Definition arg (argv : list (option Z)) (i : Z) : option Z := p ← zget argv i; p.

(** common/tool/flag.h: names (behind the dash) and values. *)
Fixpoint parse_flag (fuel : nat) (m : mem) (argc : Z) (argv : list (option Z)) (i : Z)
    : option (list (Z * Z)) :=
  match fuel with
  | O => None
  | S fuel' =>
      if i <? argc - 1 then
        p ← arg argv i;
        c ← zget m p;
        if c =? 45 then
          v ← arg argv (i + 1);
          l ← parse_flag fuel' m argc argv (i + 2);
          Some ((p + 1, v) :: l)
        else parse_flag fuel' m argc argv (i + 1)
      else Some []
  end.

Definition byte_scale : Z := 1024.

(** The value and what is written to [unit]. *)
Definition readable_unit (value : Z) : Z * string :=
  if value <? byte_scale then (value, "byte"%string)
  else if value <? byte_scale * byte_scale then (value / byte_scale, "kb"%string)
  else if value <? byte_scale * byte_scale * byte_scale then (value / byte_scale / byte_scale, "mb"%string)
  else (value / byte_scale / byte_scale / byte_scale, "gb"%string).

Section Shell.
Context {W : Type} `{Kernel W}.

(** The descriptor of the terminal, [stdio_fd]. *)
Definition init_shell_std : proc W Z :=
  stdio_fd ← open (cstr "/dev/tty0") (Z.lor (Z.lor TTY_OUT_LINE TTY_OUT_R_N) TTY_OUT_ECHO);
  _ ← dup2 STDIN_FILENO stdio_fd;
  _ ← dup2 STDOUT_FILENO stdio_fd;
  _ ← dup2 STDERR_FILENO stdio_fd;
  mret stdio_fd.

Definition show_prompt : proc W Z := print "shell >>".

(** The answer and the path; [path] is the cleared block of the caller. *)
Definition get_input_file_path (m : mem) (argc : Z) (argv : list (option Z)) (path : mem)
    : proc W (Z * mem) :=
  relative ← (if argc =? 1 then mret true
              else if 1 <? argc then p ← ub (arg argv 1); c ← ub (zget m p); mret (negb (c =? 47))
              else mret false);
  if (relative : bool) then
    pid ← call k_get_pid;
    if u32 pid <? 0 then mret (-1, path)
    else
      '(r, info) ← call (k_sysinfo (u32 pid) 0);
      if nz r then mret (-1, path)
      else if argc =? 1 then
        n ← ub (strlen (pwd info));
        path ← ub (mem_write path 0 (take (Z.to_nat n) (pwd info)));
        mret (0, path)
      else
        p ← ub (arg argv 1);
        '(path, _) ← ub (vsprintf (fun a => if a =? 0 then pwd info else at_ptr m p) path (cstr "%s/%s") [0; 1]);
        mret (0, path)
  else
    p ← ub (arg argv 1);
    n ← ub (strlen (at_ptr m p));
    path ← ub (mem_write path 0 (take (Z.to_nat n) (at_ptr m p)));
    mret (0, path).

(** *** man, clear, pwd, echo *)

Fixpoint man_loop (l : list cmd_t) (command : mem) : option (option cmd_t) :=
  match l with
  | [] => Some None
  | c :: l' =>
      n ← strlen (cstr (cname c));
      r ← memcmp (cstr (cname c)) command n;
      if r =? 0 then Some (Some c) else man_loop l' command
  end.

Definition do_man (m : mem) (argc : Z) (argv : list (option Z)) : proc W (Z * mem) :=
  if argc <=? 1 then
    _ ← print "please input the command you want to know
";
    mret (-1, m)
  else
    p ← ub (arg argv 1);
    '(m, _) ← ub (trim m p);
    c ← ub (man_loop cmd_list (at_ptr m p));
    match c with
    | None => _ ← printf (at_ptr m) (cstr "command %s not found
") [p]; mret (-1, m)
    | Some c => _ ← printf (fun _ => cstr (usage c)) (cstr "%s
") [0]; mret (0, m)
    end.

Definition do_clear : proc W Z := _ ← printf (fun _ => []) (cstr "%c[2J") [27]; mret 0.

Definition do_pwd : proc W Z :=
  pid ← call k_get_pid;
  if u32 pid <? 0 then mret (-1)
  else
    '(r, info) ← call (k_sysinfo (u32 pid) 0);
    if r =? 0 then _ ← printf (fun _ => pwd info) (cstr "%s
") [0]; mret 0 else mret 0.

(** [for (i = 1; i < argc - 1; i++) printf("%s ", argv[i]);] *)
Fixpoint echo_loop (n : nat) (i : Z) (m : mem) (argv : list (option Z)) : proc W unit :=
  match n with
  | O => mret tt
  | S n' =>
      p ← ub (arg argv i);
      _ ← printf (at_ptr m) (cstr "%s ") [p];
      echo_loop n' (i + 1) m argv
  end.
Definition do_echo (m : mem) (argc : Z) (argv : list (option Z)) : proc W Z :=
  _ ← echo_loop (Z.to_nat (argc - 2)) 1 m argv;
  _ ← (if 1 <? argc then p ← ub (arg argv (argc - 1)); printf (at_ptr m) (cstr "%s") [p] else mret 0);
  _ ← print "
";
  mret 0.

(** *** ls, cat *)

Fixpoint list_loop (fuel : nat) (fd : Z) : proc W unit :=
  match fuel with
  | O => ub None
  | S fuel' =>
      '(r, d) ← call (k_readdir fd);
      if r =? 0 then
        _ ← printf (fun _ => d_name d) (cstr "%d %d %s
") [d_child_count d; d_size d; 0];
        list_loop fuel' fd
      else mret tt
  end.

(** The jumps to the end before [fd] and [dirent] are set use them all the
    same: no result. *)
Definition do_list (fuel : nat) (m : mem) (argc : Z) (argv : list (option Z)) : proc W Z :=
  b ← malloc 256;
  '(p, path) ← ub b;
  '(err, path) ← get_input_file_path m argc argv path;
  if nz err then ub None
  else
    fd ← open path O_RDONLY;
    if fd <? 0 then
      _ ← printf (fun _ => path) (cstr "ls: %s: No such file or directory
") [0];
      ub None
    else
      d ← malloc 80;
      match d with
      | None => _ ← close fd; _ ← free p; mret (-1)
      | Some (dp, _) => _ ← list_loop fuel fd; _ ← close fd; _ ← free dp; _ ← free p; mret err
      end.

(** The bytes that arrive replace the start of the buffer. *)
Fixpoint cat_loop (fuel : nat) (fd : Z) (buf : mem) : proc W (Z * mem) :=
  match fuel with
  | O => ub None
  | S fuel' =>
      '(read_size, bs) ← read fd 512;
      let buf := bs ++ drop (length bs) buf in
      if read_size =? 512 then
        _ ← printf (fun _ => buf) (cstr "%s") [0];
        cat_loop fuel' fd (replicate 512 0)
      else mret (read_size, buf)
  end.

(** When the path is not found, [fd] is used before it is set: no result. *)
Definition do_cat (fuel : nat) (m : mem) (argc : Z) (argv : list (option Z)) : proc W Z :=
  b ← malloc 256;
  match b with
  | None => mret (-1)
  | Some (p, path) =>
      '(err, path) ← get_input_file_path m argc argv path;
      if nz err then ub None
      else
        fd ← open path O_RDONLY;
        if fd <? 0 then _ ← free p; mret (-1)
        else
          b ← malloc 512;
          '(rp, buf) ← ub b;
          '(read_size, buf) ← cat_loop fuel fd buf;
          _ ← (if 0 <? read_size then printf (fun _ => buf) (cstr "%s") [0] else mret 0);
          _ ← print "
";
          _ ← free rp;
          _ ← free p;
          _ ← close fd;
          mret err
  end.

(** *** free, date *)

(** [-h] lets [readable_unit] write to a string literal: no result. *)
Definition do_free (m : mem) (argc : Z) (argv : list (option Z)) : proc W Z :=
  pid ← call k_get_pid;
  if u32 pid <? 0 then mret (-1)
  else
    '(r, info) ← call (k_sysinfo (u32 pid) SYS_INFO_MEM);
    if nz r then mret (-1)
    else
      let i := minfo info in
      let show (scale : Z) (unit : string) : proc W Z :=
        _ ← print "               total        used
";
        _ ← printf (fun _ => cstr unit) (cstr "kernel_phy     %d%s         %d%s
") [kernel_total i / scale; 0; kernel_phy_mem_used i / scale; 0];
        _ ← printf (fun _ => cstr unit) (cstr "kernel_vir     %d%s         %d%s
") [kernel_total i / scale; 0; kernel_mem_used i / scale; 0];
        mret 0 in
      if 1 <? argc then
        p ← ub (arg argv 1);
        strl ← ub (strlen (at_ptr m p));
        b ← malloc (strl + 1);
        '(_, option) ← ub b;
        option ← ub (mem_write option 0 (take (Z.to_nat (strl + 1)) (at_ptr m p)));
        '(option, _) ← ub (trim option 0);
        n ← ub (strlen option);
        if n <? 2 then
          _ ← printf (fun _ => option) (cstr "free: invalid option %s
") [0];
          c ← ub (find_cmd (cstr "free"));
          match c with
          | None => mret (-1)
          | Some c => _ ← printf (fun _ => cstr (usage c)) (cstr "%s
") [0]; mret (-1)
          end
        else
          o ← ub (zget option 1);
          if o =? 104 then ub None
          else if o =? 107 then show byte_scale "kb"%string
          else if o =? 109 then show (byte_scale * byte_scale) "mb"%string
          else if o =? 103 then show (byte_scale * byte_scale * byte_scale) "gb"%string
          else show 1 "byte"%string
      else show 1 "byte"%string.

(** A 64-bit argument is two words. *)
Definition long (n : Z) : list Z := [u32 n; u32 (n / 2 ^ 32)].

Definition do_date : proc W Z :=
  t ← call k_timestamp;
  _ ← printf (fun _ => []) (cstr "unix:%l %l
") (long (tv_sec t) ++ long (tv_nsec t));
  d ← ub (mkdatetime (tv_sec t));
  _ ← printf (fun _ => []) (cstr "%d year %d month %d day %d hour %d minute %d second
") [year d; month d; day d; hour d; minute d; second d];
  pid ← call k_get_pid;
  if 0 <=? u32 pid then
    '(r, info) ← call (k_sysinfo (u32 pid) SYS_INFO_CPU_INFO);
    if r =? 0 then _ ← printf (fun _ => []) (cstr "cpu:%l
") (long (rdtscp info)); mret 0 else mret 0
  else mret 0.

(** *** exec *)

(** The copies of the arguments are their pointers, up to [argv[argc]]; the
    block of [heap_argv] is never released. *)
Definition do_exec (m : mem) (argc : Z) (argv : list (option Z)) : proc W Z :=
  b ← malloc 256;
  match b with
  | None => mret (-1)
  | Some (p, path) =>
      '(err, path) ← get_input_file_path m argc argv path;
      if nz err then _ ← free p; mret err
      else
        pid ← call k_fork;
        b ← malloc ((argc + 1) * 4);
        _ ← ub b;
        let heap_argv := take (Z.to_nat (argc + 1)) argv in
        if pid =? 0 then
          err ← call (k_execve path heap_argv);
          if nz err then
            _ ← printf (fun _ => path) (cstr "not found program file %s
") [0];
            _ ← free p; mret err
          else _ ← call k_wait; _ ← free p; mret err
        else _ ← call k_wait; _ ← free p; mret err
  end.

(** *** ping *)

(** The values of the two flags; [size] and [count] keep theirs where the text
    is no number. *)
Fixpoint ping_flags (m : mem) (l : list (Z * Z)) (size count : Z) : option (Z * Z) :=
  match l with
  | [] => Some (size, count)
  | (name, value) :: l' =>
      a ← memcmp (at_ptr m name) (cstr "size") 4;
      size ← (if a =? 0 then '(_, n) ← str2num (at_ptr m value); Some (default size n) else Some size);
      b ← memcmp (at_ptr m name) (cstr "count") 4;
      count ← (if b =? 0 then '(_, n) ← str2num (at_ptr m value); Some (default count n) else Some count);
      ping_flags m l' size count
  end.

(** [ping] is the function of func/ping.c. *)
Definition do_ping (ping : mem -> Z -> Z -> proc W unit) (m : mem) (argc : Z) (argv : list (option Z))
    : proc W Z :=
  if argc <? 2 then
    _ ← print "require target ip
";
    mret (-1)
  else
    l ← ub (parse_flag (S (Z.to_nat argc)) m argc argv 1);
    '(size, count) ← ub (ping_flags m l 64 10);
    p ← ub (arg argv 1);
    _ ← ping (at_ptr m p) (u32 count) (u32 size);
    mret 0.

(** ** A line *)

Context (fuel : nat) (ping : mem -> Z -> Z -> proc W unit).

Definition run_func (f : cmd_func) (m : mem) (argc : Z) (argv : list (option Z)) : proc W (Z * mem) :=
  match f with
  | do_man_f => do_man m argc argv
  | do_clear_f => r ← do_clear; mret (r, m)
  | do_list_f => r ← do_list fuel m argc argv; mret (r, m)
  | do_pwd_f => r ← do_pwd; mret (r, m)
  | do_free_f => r ← do_free m argc argv; mret (r, m)
  | do_echo_f => r ← do_echo m argc argv; mret (r, m)
  | do_cat_f => r ← do_cat fuel m argc argv; mret (r, m)
  | do_date_f => r ← do_date; mret (r, m)
  | do_exec_f => r ← do_exec m argc argv; mret (r, m)
  | do_ping_f => r ← do_ping ping m argc argv; mret (r, m)
  end.

(** A redirection: the descriptor where the output now goes. *)
Definition redirect (m : mem) (argc : Z) (argv : list (option Z)) : proc W (option Z) :=
  b ← malloc 256;
  match b with
  | None => mret None
  | Some (p, path) =>
      '(err, path) ← get_input_file_path m 2 (take 2 (drop (Z.to_nat (argc - 2)) argv)) path;
      if err =? 0 then
        fd ← open path O_RDWR;
        if 0 <? fd then _ ← dup2 STDOUT_FILENO fd; _ ← free p; mret (Some fd)
        else _ ← free p; mret None
      else _ ← free p; mret None
  end.

(** [argv] is the array of [argc] arguments and NULL; [stdio_fd] the terminal. *)
Definition run_command (stdio_fd : Z) (m : mem) (args : list Z) : proc W mem :=
  let argc := zlen args in
  let argv := (Some <$> args) ++ [None] in
  p ← ub (arg argv 0);
  c ← ub (find_cmd (at_ptr m p));
  match c with
  | None => _ ← printf (at_ptr m) (cstr "%s not found
") [p]; mret m
  | Some cmd =>
      redirected ← (if 3 <=? argc then
                      q ← ub (arg argv (argc - 2));
                      r ← ub (strcmp (at_ptr m q) (cstr ">>"));
                      mret (r =? 0)
                    else mret false);
      '(fd, argc) ← (if (redirected : bool) then fd ← redirect m argc argv; mret (fd, argc - 2)
                     else mret (None, argc));
      '(return_code, m) ← run_func (func cmd) m argc argv;
      _ ← (if nz return_code then
             fprintf STDERR_FILENO (at_ptr m) (cstr "call %s err, code=%d
") [p; u32 return_code]
           else mret 0);
      _ ← match fd with
          | Some fd => _ ← close fd; dup2 STDOUT_FILENO stdio_fd
          | None => mret 0
          end;
      mret m
  end.

(** The loop over the words of a command, after the first has been found. *)
Fixpoint parse_args (n : nat) (m : mem) (str : option Z) (save : Z) : option (mem * list Z) :=
  match n, str with
  | S n', Some p =>
      '(m, save, str) ← strtok_r m None (cstr " ") save;
      '(m, l) ← parse_args n' m str save;
      Some (m, p :: l)
  | _, _ => Some (m, [])
  end.

(** The arguments of the command at [cmd_str]; without a word [trim_left] gets
    NULL. *)
Definition parse_command (m : mem) (cmd_str : Z) : option (mem * list Z) :=
  '(m, save, str) ← strtok_r m (Some cmd_str) (cstr " ") 0;
  p ← str;
  '(m, _) ← trim_left m p;
  parse_args (Z.to_nat ARG_COUNT_MAX) m (Some p) save.

(** The loop over the commands of a line. *)
Fixpoint run_cmds (n : nat) (stdio_fd : Z) (m : mem) (cmd_str : option Z) (save : Z) : proc W mem :=
  match n, cmd_str with
  | O, _ => ub None
  | S _, None => mret m
  | S n', Some c =>
      '(m, args) ← ub (parse_command m c);
      m ← run_command stdio_fd m args;
      '(m, save, cmd_str) ← ub (strtok_r m None (cstr ";") save);
      run_cmds n' stdio_fd m cmd_str save
  end.

(** One turn of the loop of [shell_main]; [buf] is the address of the buffer
    [m], which the caller takes for a [ssize_t]. *)
Definition shell_turn (stdio_fd buf : Z) (m : mem) : proc W mem :=
  _ ← show_prompt;
  '(m, ok) ← gets fuel m 0;
  if i32 (if (ok : bool) then buf else 0) <=? 0 then _ ← print "gets error"; mret m
  else
    '(m, save, cmd_str) ← ub (strtok_r m (Some 0) (cstr ";") 0);
    run_cmds (S (List.length m)) stdio_fd m cmd_str save.
End Shell.
