(* ===== verification/Ping.v ===== *)
(** * ping: app/shell/func/ping.c

    The function behind the shell's command, over the socket calls of
    [Kernel].  The request and the answer are the bytes of the packed
    structures; [junk] is what the uninitialised data of the request holds.
    [checksum16] of this file is the text of the kernel's (kernel/net/util.h),
    modelled in Checksum.v. *)

From Stdlib Require Import String.
From S2P Require Import Prelude CMath CString Datetime Stdio Pktbuf PktbufSpec PktbufAccess Checksum Userlib.
From S2P Require Import Prelude.

(** ** Definitions *)

Definition AF_INET : Z := 0.
Definition SOCK_RAW : Z := 1.
Definition IPPROTO_ICMP : Z := 1.

(** [sizeof(icmp_hdr_t)], [sizeof(ping_req_t)] and [sizeof(ping_resp_t)]. *)
Definition ICMP_HDR_SIZE : Z := 8.
Definition PING_REQ_SIZE : Z := 264.
Definition PING_RESP_SIZE : Z := 284.

(** The header as it lies in memory; [echo_id] is 0. *)
Definition icmp_hdr_t (checksum seq : Z) : list Z :=
  [8; 0; u8 checksum; u8 (Z.shiftr checksum 8); 0; 0; u8 seq; u8 (Z.shiftr seq 8)].

(** What is sent for the packet number [seq]: the checksum is that of the
    request with 0 in its place. *)
Definition ping_req (seq size : Z) (junk : list Z) : option (list Z) :=
  ck ← checksum16 0 (icmp_hdr_t 0 seq ++ junk) (u16 (ICMP_HDR_SIZE + size)) 0 true;
  mem_read (icmp_hdr_t ck seq ++ junk) 0 (ICMP_HDR_SIZE + size).

(** Fields of the answer, behind the IP header of 20 bytes. *)
Definition field16 (l : list Z) (i : Z) : option Z :=
  a ← zget l i; b ← zget l (i + 1); Some (a + 256 * b).
Definition resp_echo_id (l : list Z) : option Z := field16 l 24.
Definition resp_echo_seq (l : list Z) : option Z := field16 l 26.
Definition resp_ttl (l : list Z) : option Z := zget l 8.

Section Ping.
Context {W : Type} `{Kernel W}.

(** [n] packets are left, the next has number [i]. *)
Fixpoint ping_loop (n : nat) (i fd : Z) (ip : mem) (size : Z) (junk resp : list Z) : proc W unit :=
  match n with
  | O => mret tt
  | S n' =>
      req ← ub (ping_req (u16 i) size junk);
      start_time ← call k_timestamp;
      send_size ← call (k_send fd req);
      if send_size <=? 0 then
        _ ← printf (fun _ => []) (cstr "send_size=%d
") [u32 send_size];
        mret tt
      else
        '(ret, bs) ← call (k_receive fd PING_RESP_SIZE);
        let resp := bs ++ drop (List.length bs) resp in
        id ← ub (resp_echo_id resp);
        seq ← ub (resp_echo_seq resp);
        if negb (id =? 0) then
          _ ← printf (fun _ => []) (cstr "id err, req_id=%d, resp_id=%d
") [0; id];
          ping_loop n' (i + 1) fd ip size junk resp
        else if negb (seq =? u16 i) then
          _ ← printf (fun _ => []) (cstr "seq err, req_seq=%d, resp_seq=%d
") [u16 i; seq];
          ping_loop n' (i + 1) fd ip size junk resp
        else
          end_time ← call k_timestamp;
          start_ms ← ub (timespec2ms start_time);
          end_ms ← ub (timespec2ms end_time);
          ttl ← ub (resp_ttl resp);
          _ ← printf (fun _ => ip) (cstr "%d bytes from %s: icmp_seq=%d ttl=%d time=%d ms
") [u32 ret; 0; seq; ttl; u32 (end_ms - start_ms)];
          _ ← call (fun w => (tt, k_sleep 1000 w));
          ping_loop n' (i + 1) fd ip size junk resp
  end.

(** [a0] and [save] are the uninitialised address of [inet_addr] and the
    global of [strtok]; [resp] is the uninitialised answer. *)
Definition ping (junk resp a0 : list Z) (save : Z) (ip : mem) (count size : Z) : proc W unit :=
  sock_fd ← call (k_socket AF_INET SOCK_RAW IPPROTO_ICMP);
  if sock_fd <? 0 then
    _ ← printf (fun _ => []) (cstr "create_socket fail %d
") [u32 sock_fd];
    mret tt
  else
    a ← ub (str2ip ip a0 save);
    r ← call (k_connect sock_fd (foldr (fun b n => b + 256 * n) 0 a));
    if nz r then
      _ ← print "connect_sock fail
";
      mret tt
    else
      _ ← printf (fun _ => ip) (cstr "PING %s(%s): %d data bytes
") [0; 0; u32 size];
      _ ← ping_loop (Z.to_nat count) 0 sock_fd ip size junk resp;
      call (fun w => (tt, k_close sock_fd w)).
End Ping.

(** ** Properties *)

(** What lies behind the bytes that are summed does not matter. *)
Lemma checksum16_app (l r : list Z) : Forall is_byte l -> zlen l < 32768 ->
  checksum16 0 (l ++ r) (zlen l) 0 true = checksum16 0 l (zlen l) 0 true.
Proof.
  intros Hb Hl. pose proof (zlen_nonneg l). unfold checksum16. change (nz (Z.land 0 1)) with false. mstep.
  assert (take (Z.to_nat (zlen l)) (l ++ r) = l) as E1 by (unfold zlen; by rewrite Nat2Z.id, take_app_length).
  assert (take (Z.to_nat (zlen l)) l = l) as E2 by (apply take_ge; unfold zlen; lia).
  rewrite !sum_words_ok; rewrite ?E1, ?E2, ?zlen_app; pose proof (zlen_nonneg r); try done; lia.
Qed.

(** Every request is a valid echo request: up to 256 bytes of data it can be
    built, has the type 8, the code 0 and the number of the packet, carries
    the data of the buffer, and its checksum verifies. *)
Theorem ping_req_spec seq size junk : zlen junk = 256 -> Forall is_byte junk -> 0 <= size <= 256 ->
  0 <= seq < 65536 ->
  exists r c0 c1, ping_req seq size junk = Some r /\
    r = [8; 0; c0; c1; 0; 0; seq mod 256; seq / 256] ++ sub junk 0 size /\
    checksum16 0 r (zlen r) 0 true = Some 0.
Proof.
  intros Hj Hb Hs Hq. set (d := sub junk 0 size).
  assert (zlen d = size) as Hd by (apply zlen_sub; lia).
  assert (Forall is_byte d) as Hbd by (unfold d, sub; by apply Forall_take, Forall_drop).
  assert (u8 seq = seq mod 256 /\ u8 (Z.shiftr seq 8) = seq / 256) as [E1 E2].
  { split; [done|]. rewrite Z.shiftr_div_pow2 by lia. apply u8_small. change (2 ^ 8) with 256. divmod. }
  destruct (checksum16_seal_check [8; 0] ([0; 0; seq mod 256; seq / 256] ++ d) (8 + size)) as (ck & Ec & Hck & Ez).
  - cbn [app]. repeat apply Forall_cons_2; try done; unfold is_byte; divmod.
  - done.
  - rewrite zlen_app, Hd. unfold zlen at 1 2. cbn [List.length]. lia.
  - lia.
  - assert (forall x, icmp_hdr_t x seq ++ junk = ([8; 0] ++ [u8 x; u8 (Z.shiftr x 8)] ++ [0; 0; seq mod 256; seq / 256] ++ d) ++ drop (Z.to_nat size) junk) as El.
    { intros x. unfold icmp_hdr_t. rewrite E1, E2. cbn [app]. do 8 f_equal. unfold d, sub. rewrite drop_0, take_drop. done. }
    exists ([8; 0; u8 ck; u8 (Z.shiftr ck 8); 0; 0; seq mod 256; seq / 256] ++ d), (u8 ck), (u8 (Z.shiftr ck 8)).
    split; [|split; [done|]].
    + unfold ping_req, ICMP_HDR_SIZE. rewrite u16_small by lia. rewrite El.
      assert (forall x, zlen ([8; 0] ++ [u8 x; u8 (Z.shiftr x 8)] ++ [0; 0; seq mod 256; seq / 256] ++ d) = 8 + size) as Hz
        by (intros x; rewrite !zlen_app, Hd; unfold zlen; cbn [List.length]; lia).
      rewrite <- (Hz 0) at 1. rewrite checksum16_app; [|cbn [app]; repeat apply Forall_cons_2; try done; unfold is_byte, u8; divmod|rewrite Hz; lia].
      rewrite Hz. change (u8 (Z.shiftr 0 8)) with 0. change (u8 0) with 0. rewrite Ec. mstep. rewrite El.
      unfold mem_read. rewrite zlen_app, Hz. destruct (Z.leb_spec 0 0); [|lia]. destruct (Z.leb_spec 0 (8 + size)); [|lia].
      pose proof (zlen_nonneg (drop (Z.to_nat size) junk)).
      destruct (Z.leb_spec (0 + (8 + size)) (8 + size + zlen (drop (Z.to_nat size) junk))); [|lia]. cbn [andb]. f_equal.
      unfold sub. rewrite drop_0. rewrite <- (Hz ck). unfold zlen. rewrite Nat2Z.id, take_app_length. done.
    + rewrite zlen_app, Hd. change (zlen [8; 0; _; _; _; _; _; _]) with 8. exact Ez.
Qed.

(** More data than the buffer has is read from behind it. *)
Lemma ping_req_overrun seq size junk : zlen junk = 256 -> 256 < size -> ping_req seq size junk = None.
Proof.
  intros Hj Hs. unfold ping_req. destruct (checksum16 _ _ _ _ _) as [ck|]; [|done]. mstep. unfold mem_read.
  rewrite zlen_app, Hj. change (zlen (icmp_hdr_t ck seq)) with 8. unfold ICMP_HDR_SIZE.
  destruct (Z.leb_spec (0 + (8 + size)) (8 + 256)); [lia|]. by rewrite andb_false_r.
Qed.

Lemma ping_req_spec_witness : exists r c0 c1, ping_req 3 64 (replicate 256 7) = Some r /\
  r = [8; 0; c0; c1; 0; 0; 3; 0] ++ sub (replicate 256 7) 0 64 /\ checksum16 0 r (zlen r) 0 true = Some 0.
Proof.
  apply (ping_req_spec 3 64 (replicate 256 7)); [done|apply Forall_replicate; unfold is_byte; lia|lia|lia].
Defined.
