(* ===== verification/ShellSpec.v ===== *)
(** * The shell: what a line does

    The two loops over [strtok_r] cut a line into its commands and words;
    [find_cmd] takes the first command whose name and the word begin alike; and
    a line of [echo] commands typed at the terminal prints what it says. *)

From Stdlib Require Import String.
From S2P Require Import Prelude CMath CString Stdio Userlib Shell.
From S2P Require Import Prelude.

(** ** Words in memory *)

(** The string [w] is at [p]. *)
Definition str_at (m : mem) (p : Z) (w : list Z) : Prop :=
  0 ∉ w /\ exists r, at_ptr m p = w ++ 0 :: r.

Lemma words_clean d s : forall cur, Forall (fun c => c ∉ d) cur ->
  Forall (fun w => w <> [] /\ Forall (fun c => c ∉ d) w) (words d s cur).
Proof.
  induction s as [|c s IH]; intros cur Hc; cbn [words].
  - destruct (decide (cur = [])); [by rewrite bool_decide_true|]. rewrite bool_decide_false by done. by repeat constructor.
  - destruct (decide (c ∈ d)).
    + rewrite (bool_decide_true (c ∈ d)) by done. destruct (decide (cur = [])).
      * rewrite bool_decide_true by done. by apply IH.
      * rewrite bool_decide_false by done. constructor; [done|]. by apply IH.
    + rewrite (bool_decide_false (c ∈ d)) by done. apply IH. apply Forall_app. by repeat constructor.
Qed.

(** The piece cut off by [strtok_r], in a memory whose later bytes may change. *)
Lemma str_at_piece (pre w mid rest after s' : mem) : 0 ∉ w -> mid = [0] \/ mid = [] /\ s' = [] ->
  List.length rest = List.length s' -> str_at (pre ++ w ++ mid ++ rest ++ 0 :: after) (zlen pre) w.
Proof.
  intros Hw Hm Hl. split; [done|]. rewrite at_ptr_app. destruct Hm as [->|[-> ->]].
  - by exists (rest ++ 0 :: after).
  - destruct rest; [|done]. by exists after.
Qed.

Lemma no_nul_32 : 0 ∉ [32].
Proof. set_solver. Qed.
Lemma no_nul_59 : 0 ∉ [59].
Proof. set_solver. Qed.

(** The words of a command, up to the limit. *)
Lemma parse_args_ok n : forall before s after str save, 0 ∉ s -> default save str = zlen before ->
  exists m1 save1 tok, strtok_r (before ++ s ++ 0 :: after) str (cstr " ") save = Some (m1, save1, tok) /\
    (words [32] s [] <> [] -> exists p w, tok = Some p /\ str_at m1 p w /\ w <> [] /\ Forall (fun c => c ∉ [32]) w) /\
    exists t args, parse_args n m1 tok save1 = Some (before ++ t ++ 0 :: after, args) /\
      List.length t = List.length s /\
      Forall2 (str_at (before ++ t ++ 0 :: after)) args (take n (words [32] s [])).
Proof.
  change (cstr " ") with ([32] ++ [0]).
  induction n as [|n IH]; intros before s after str save Hs Hp;
    destruct (strtok_r_ok [32] no_nul_32 before s after str save Hs Hp)
      as [(Hw & sv & E)|(sk & w & mid & s' & Hw & H0 & Hs' & Hlt & Hmid & Hlen & E)]; rewrite E;
    do 3 eexists; (split; [done|]).
  - split; [by rewrite Hw|]. exists s, []. split; [done|]. split; [done|constructor].
  - assert (before ++ sk ++ w ++ mid ++ s' ++ 0 :: after = (before ++ sk) ++ w ++ mid ++ s' ++ 0 :: after) as Ea
      by (by rewrite <- app_assoc).
    split.
    { intros _. exists (zlen (before ++ sk)), w. split; [done|]. rewrite Ea.
      split; [by apply (str_at_piece _ _ _ _ _ s')|].
      pose proof (words_clean [32] s [] (Forall_nil_2 _)) as Hc. rewrite Hw in Hc. by apply Forall_inv in Hc. }
    exists (sk ++ w ++ mid ++ s'), []. cbn [parse_args]. split; [by rewrite <- !app_assoc|]. split; [done|constructor].
  - split; [by rewrite Hw|]. exists s, []. split; [done|]. split; [done|]. rewrite Hw. constructor.
  - assert (forall x, before ++ sk ++ w ++ mid ++ x ++ 0 :: after = (before ++ sk) ++ w ++ mid ++ x ++ 0 :: after) as Ea
      by (intros; by rewrite <- app_assoc).
    split.
    { intros _. exists (zlen (before ++ sk)), w. split; [done|]. rewrite Ea.
      split; [by apply (str_at_piece _ _ _ _ _ s')|].
      pose proof (words_clean [32] s [] (Forall_nil_2 _)) as Hc. rewrite Hw in Hc. by apply Forall_inv in Hc. }
    cbn [parse_args]. change (cstr " ") with ([32] ++ [0]).
    destruct (IH (before ++ sk ++ w ++ mid) s' after None (zlen (before ++ sk ++ w ++ mid)) Hs' eq_refl)
      as (m1 & save1 & tok & E1 & _ & t & args & E2 & Ht & HF).
    assert (before ++ sk ++ w ++ mid ++ s' ++ 0 :: after = (before ++ sk ++ w ++ mid) ++ s' ++ 0 :: after) as ->
      by (by rewrite <- !app_assoc).
    rewrite E1. mstep. rewrite E2. mstep.
    assert ((before ++ sk ++ w ++ mid) ++ t ++ 0 :: after = before ++ (sk ++ w ++ mid ++ t) ++ 0 :: after) as Eb
      by (by rewrite <- !app_assoc).
    exists (sk ++ w ++ mid ++ t), (zlen (before ++ sk) :: args). rewrite Eb in *. split; [done|].
    split; [rewrite Hlen, !length_app; lia|]. rewrite Hw. cbn [take]. constructor; [|done].
    rewrite <- Eb, <- !app_assoc. rewrite Ea. by apply (str_at_piece _ _ _ _ _ s').
Qed.

(** A word has no spaces in front. *)
Lemma trim_left_word m p w : 0 <= p -> str_at m p w -> w <> [] -> Forall (fun c => c ∉ [32]) w ->
  trim_left m p = Some (m, 0).
Proof.
  intros Hp [H0 [r Hr]] Hne Hc. destruct w as [|c w]; [done|]. unfold trim_left. cbn [trim_left_loop].
  rewrite Hr, strlen_app by done. mstep.
  destruct (Z.ltb_spec 0 (zlen (c :: w))) as [_|Hz]; [|unfold zlen in Hz; cbn in Hz; lia].
  rewrite <- zget_at_ptr by lia. rewrite Hr. change (zget ((c :: w) ++ 0 :: r) 0) with (Some c). mstep. apply Forall_inv in Hc.
  destruct (Z.eqb_spec c 32) as [->|]; [exfalso; set_solver|]. by mstep.
Qed.

Lemma parse_command_ok before c after : 0 ∉ c -> words [32] c [] <> [] ->
  exists t args, parse_command (before ++ c ++ 0 :: after) (zlen before) = Some (before ++ t ++ 0 :: after, args) /\
    List.length t = List.length c /\ Forall2 (str_at (before ++ t ++ 0 :: after)) args (take 10 (words [32] c [])).
Proof.
  intros Hc Hw. destruct (parse_args_ok 10 before c after (Some (zlen before)) 0 Hc eq_refl)
    as (m1 & save1 & tok & E1 & Htok & t & args & E2 & Ht & HF).
  destruct (Htok Hw) as (p & w & -> & Hs & Hne & Hcl). unfold parse_command. rewrite E1. mstep.
  assert (0 <= p) as Hp.
  { destruct Hs as [_ [r Hr]]. unfold at_ptr in Hr. destruct (Z.ltb_spec p 0); [|lia]. by destruct w. }
  rewrite (trim_left_word m1 p w) by done. mstep. change (Z.to_nat ARG_COUNT_MAX) with 10%nat. rewrite E2. eauto.
Qed.

(** ** Finding a command *)

(** One of the two words begins with the other. *)
Definition alike (a b : list Z) : Prop := a `prefix_of` b \/ b `prefix_of` a.

Lemma cmd_matches_ok c s r : 0 ∉ s -> 0 ∉ chars (cname c) ->
  exists b, cmd_matches c (s ++ 0 :: r) = Some b /\ (b = true <-> alike (chars (cname c)) s).
Proof.
  intros Hs Hn. unfold cmd_matches, cstr. rewrite !strlen_app by done. mstep.
  destruct (memcmp_shorter (chars (cname c)) s [] r Hn Hs) as (x & -> & _ & H0). mstep.
  exists (x =? 0). split; [done|]. unfold alike. rewrite <- H0. apply Z.eqb_eq.
Qed.

Lemma names_clean c : c ∈ cmd_list -> 0 ∉ chars (cname c).
Proof.
  intros Hc. assert (Forall (fun c => forallb (fun x => negb (x =? 0)) (chars (cname c)) = true) cmd_list) as HF
    by (repeat constructor). rewrite Forall_forall in HF. specialize (HF c Hc). intros H0.
  rewrite forallb_forall in HF. apply list_elem_of_In, HF in H0. done.
Qed.

Lemma find_cmd_loop_ok n : forall i s r, 0 ∉ s -> (i + n = S (List.length cmd_list))%nat ->
  match find_cmd_loop n (Z.of_nat i) (s ++ 0 :: r) with
  | Some (Some c) => exists k, (i <= k)%nat /\ cmd_list !! k = Some c /\ alike (chars (cname c)) s /\
      forall j c', (i <= j < k)%nat -> cmd_list !! j = Some c' -> ~ alike (chars (cname c')) s
  | Some None => n = 0%nat
  | None => forall j c', (i <= j)%nat -> cmd_list !! j = Some c' -> ~ alike (chars (cname c')) s
  end.
Proof.
  induction n as [|n IH]; intros i s r Hs Hn; cbn [find_cmd_loop]; [done|].
  rewrite zget_nat. destruct (cmd_list !! i) as [c|] eqn:Hc; mstep.
  - destruct (cmd_matches_ok c s r Hs) as (b & -> & Hb); [apply names_clean; by eapply list_elem_of_lookup_2|]. mstep.
    destruct b.
    + exists i. split_and!; [done|done|by apply Hb|]. intros j c' Hj. lia.
    + assert (~ alike (chars (cname c)) s) as Hna by (intros Ha; by apply Hb in Ha).
      replace (Z.of_nat i + 1) with (Z.of_nat (S i)) by lia. specialize (IH (S i) s r Hs ltac:(lia)).
      destruct (find_cmd_loop n _ _) as [[x|]|].
      * destruct IH as (k & Hk & Hx & Ha & Hno). exists k. split_and!; [lia|done|done|].
        intros j c' Hj Hc'. destruct (decide (j = i)) as [->|]; [congruence|]. apply (Hno j); [lia|done].
      * subst n. apply lookup_lt_Some in Hc. lia.
      * intros j c' Hj Hc'. destruct (decide (j = i)) as [->|]; [congruence|]. apply (IH j); [lia|done].
  - intros j c' Hj Hc'. apply lookup_ge_None in Hc. apply lookup_lt_Some in Hc'. lia.
Qed.

(** [find_cmd] answers the first command that begins like the word, or whose
    name the word begins like; for a word like no command it reads behind the
    table: it never answers NULL. *)
Lemma find_cmd_ok s r : 0 ∉ s ->
  match find_cmd (s ++ 0 :: r) with
  | Some (Some c) => exists k, cmd_list !! k = Some c /\ alike (chars (cname c)) s /\
      forall j c', (j < k)%nat -> cmd_list !! j = Some c' -> ~ alike (chars (cname c')) s
  | Some None => False
  | None => forall c, c ∈ cmd_list -> ~ alike (chars (cname c)) s
  end.
Proof.
  intros Hs. unfold find_cmd. pose proof (find_cmd_loop_ok _ 0 s r Hs eq_refl) as HF. change (Z.of_nat 0) with 0 in HF.
  destruct (find_cmd_loop _ _ _) as [[c|]|].
  - destruct HF as (k & _ & Hc & Ha & Hno). exists k. split_and!; [done|done|]. intros j c' Hj. apply Hno. lia.
  - done.
  - intros c [k Hk]%list_elem_of_lookup_1. apply (HF k); [lia|done].
Qed.

(** ** echo *)

(** The words with a space between them. *)
Fixpoint joined (ws : list (list Z)) : list Z :=
  match ws with
  | [] => []
  | [w] => w
  | w :: ws' => w ++ 32 :: joined ws'
  end.

Lemma joined_snoc ws w : joined (ws ++ [w]) = mjoin ((fun v => v ++ [32]) <$> ws) ++ w.
Proof.
  induction ws as [|v ws IH]; [done|]. cbn [app fmap list_fmap mjoin list_join].
  assert (joined (v :: (ws ++ [w])) = v ++ 32 :: joined (ws ++ [w])) as -> by (by destruct ws).
  rewrite IH, <- !app_assoc. done.
Qed.

Section Echo.
Context {W : Type} `{Terminal W}.

(** A word fits into the buffer of [printf]. *)
Definition short (w : list Z) : Prop := (List.length w < 515)%nat.

(** [printf("%s" tail, p)] with a tail of at most one character. *)
Lemma print_word m p w tail fmt st : tm_ok st -> str_at m p w -> short w ->
  tail = [] \/ tail = [32] -> fmt = [37; 115] ++ tail ++ [0] ->
  exists r st', printf (at_ptr m) fmt [p] st = Some (r, st') /\ wrote (w ++ tail) st st'.
Proof.
  intros Hst [Hnul [r Hr]] Hl Ht ->. unfold short in Hl.
  assert (exists ts r' st', printf (at_ptr m) ([37; 115] ++ tail ++ [0]) [p] st = Some (r', st') /\
    Forall2 renders (Str p w :: (Lit <$> tail)) ts /\ wrote (mjoin ts) st st') as (ts & r' & st' & E & HF & Hw).
  { apply printf_ok; [done| | | |].
    - constructor; [cbn; eauto|]. destruct Ht as [->| ->]; repeat constructor; done.
    - destruct Ht as [->| ->]; cbn; lia.
    - destruct Ht as [->| ->]; done.
    - destruct Ht as [->| ->]; done. }
  exists r', st'. split; [done|]. inversion HF as [|? t1 ? ts1 R1 R2]; subst. inversion R1; subst.
  destruct Ht as [->| ->]; cbn in R2; inversion R2; subst.
  - cbn in Hw. done.
  - match goal with R : renders (Lit 32) _ |- _ => inversion R; subst end.
    match goal with R : Forall2 renders [] _ |- _ => inversion R; subst end. done.
Qed.

Lemma print_newline st : tm_ok st -> exists r st', print "
" st = Some (r, st') /\ wrote [10] st st'.
Proof.
  intros Hst. destruct (printf_ok (fun _ => []) [Lit 10] (cstr "
") [] st) as (ts & r & st' & E & HF & Hw); try done; [by repeat constructor|cbn; lia|].
  exists r, st'. split; [done|]. inversion HF as [|? ? ? ? R1 R2]; subst. inversion R1; subst. inversion R2; subst. done.
Qed.

Lemma echo_loop_ok ps ws : forall i m argv st, tm_ok st -> Forall2 (str_at m) ps ws -> Forall short ws ->
  (forall k p, ps !! k = Some p -> arg argv (i + Z.of_nat k) = Some p) ->
  exists st', echo_loop (List.length ps) i m argv st = Some (tt, st') /\
    wrote (mjoin ((fun v => v ++ [32]) <$> ws)) st st'.
Proof.
  revert ws. induction ps as [|p ps IH]; intros ws i m argv st Hst HF Hs Ha; inversion HF as [|? w ? ws' Hp HF']; subst;
    cbn [List.length echo_loop].
  - exists st. split; [done|]. split; [done|done|]. cbn. by rewrite app_nil_r.
  - pose proof (Ha 0%nat p eq_refl) as Hp0. rewrite Z.add_0_r in Hp0. rewrite Hp0, ub_step.
    apply Forall_cons in Hs as [Hs1 Hs2].
    destruct (print_word m p w [32] (cstr "%s ") st Hst Hp Hs1) as (r & st1 & E1 & W1); [by right|done|].
    rewrite (proc_step _ _ _ _ _ E1). destruct (IH ws' (i + 1) m argv st1) as (st2 & E2 & W2); try done.
    { apply W1. }
    { intros k q Hk. rewrite <- (Ha (S k) q Hk). f_equal. lia. }
    exists st2. split; [done|]. by apply (wrote_app _ _ _ _ _ W1 W2).
Qed.

(** echo prints its arguments, one space between two, and ends the line. *)
Lemma do_echo_ok m p0 ps w0 ws st : tm_ok st -> Forall2 (str_at m) (p0 :: ps) (w0 :: ws) -> Forall short ws ->
  exists st', do_echo m (zlen (p0 :: ps)) ((Some <$> p0 :: ps) ++ [None]) st = Some (0, st') /\
    wrote (joined ws ++ [10]) st st'.
Proof.
  intros Hst HF Hs. apply Forall2_cons in HF as [_ HF]. unfold do_echo.
  assert (forall k p, ps !! k = Some p -> arg ((Some <$> p0 :: ps) ++ [None]) (1 + Z.of_nat k) = Some p) as Ha.
  { intros k p Hk. unfold arg. replace (1 + Z.of_nat k) with (Z.of_nat (S k)) by lia. rewrite zget_nat.
    change (((Some <$> p0 :: ps) ++ [None]) !! S k) with (((Some <$> ps) ++ [None]) !! k).
    rewrite lookup_app_l by (rewrite length_fmap; by eapply lookup_lt_Some).
    by rewrite list_lookup_fmap, Hk. }
  unfold zlen. cbn [List.length]. destruct (list_last_case ps) as [->|(ps' & pl & ->)].
  - inversion HF; subst. cbn [List.length]. destruct (print_newline st Hst) as (r & st1 & E1 & W1).
    exists st1. change (Z.to_nat (Z.of_nat 1 - 2)) with 0%nat. cbn [echo_loop].
    rewrite (proc_step _ _ st tt st) by done. change (1 <? Z.of_nat 1) with false.
    rewrite (proc_step _ _ st 0 st) by done. rewrite (proc_step _ _ _ _ _ E1). done.
  - destruct (list_last_case ws) as [->|(ws' & wl & ->)]; [apply Forall2_length in HF; rewrite length_app in HF; cbn in HF; lia|].
    apply Forall2_app_inv in HF as [HF1 HF2]; [|apply Forall2_length in HF; rewrite !length_app in HF; cbn in HF; lia].
    inversion HF2 as [|? ? ? ? Hpl _]; subst. apply Forall_app in Hs as [Hs1 Hs2%Forall_inv].
    rewrite length_app. cbn [List.length].
    replace (Z.to_nat (Z.of_nat (S (List.length ps' + 1)) - 2)) with (List.length ps') by lia.
    destruct (echo_loop_ok ps' ws' 1 m ((Some <$> p0 :: ps' ++ [pl]) ++ [None]) st) as (st1 & E1 & W1); try done.
    { intros k p Hk. apply Ha. by apply lookup_app_l_Some. }
    rewrite (proc_step _ _ _ _ _ E1). destruct (Z.ltb_spec 1 (Z.of_nat (S (List.length ps' + 1)))); [|lia].
    replace (Z.of_nat (S (List.length ps' + 1)) - 1) with (1 + Z.of_nat (List.length ps')) by lia.
    rewrite (Ha _ pl) by (by rewrite list_lookup_middle).
    destruct (print_word m pl wl [] (cstr "%s") st1 (wr_ok _ _ _ W1) Hpl Hs2) as (r & st2 & E2 & W2); [by left|done|].
    rewrite (proc_step _ _ st1 r st2) by (by rewrite ub_step).
    destruct (print_newline st2 (wr_ok _ _ _ W2)) as (r3 & st3 & E3 & W3). rewrite (proc_step _ _ _ _ _ E3).
    exists st3. split; [done|]. rewrite joined_snoc, <- app_assoc.
    rewrite app_nil_r in W2. eapply wrote_app; [exact W1|]. eapply wrote_app; [exact W2|done].
Qed.
End Echo.

(** ** A line *)

Lemma strtok_r_length m str d save m' save' tok : strtok_r m str d save = Some (m', save', tok) ->
  List.length m' = List.length m.
Proof.
  unfold strtok_r. intros (c & _ & E)%bind_Some. destruct (c =? 0); [by injection E as <- _ _|].
  apply bind_Some in E as (n & _ & E). apply bind_Some in E as (c1 & _ & E).
  destruct (c1 =? 0); [by injection E as <- _ _|].
  apply bind_Some in E as (n1 & _ & E). apply bind_Some in E as (c2 & _ & E).
  destruct (c2 =? 0); [by injection E as <- _ _|].
  apply bind_Some in E as (m1 & [_ ->]%zset_Some & E). injection E as <- _ _. apply length_insert.
Qed.

Section Line.
Context {W : Type} `{Terminal W} (fuel : nat) (ping : mem -> Z -> Z -> proc W unit) (stdio_fd : Z).

(** What is known of the commands: with [good] words one leaves the memory
    alone and writes [out]. *)
Context (good : list (list Z) -> Prop) (out : list (list Z) -> list Z).
Hypothesis good_words : forall ws, good ws -> ws <> [].
Hypothesis good_run : forall m args ws st, tm_ok st -> Forall2 (str_at m) args ws -> good ws ->
  exists st', run_command fuel ping stdio_fd m args st = Some (m, st') /\ wrote (out ws) st st'.

(** The words of a command that are passed on. *)
Definition words_of (c : list Z) : list (list Z) := take 10 (words [32] c []).

(** The commands of a line run one after the other. *)
Lemma run_cmds_ok n : forall before s after str save st, 0 ∉ s -> default save str = zlen before ->
  (List.length s < n)%nat -> tm_ok st -> Forall (fun c => good (words_of c)) (words [59] s []) ->
  exists m1 save1 tok m' st', strtok_r (before ++ s ++ 0 :: after) str (cstr ";") save = Some (m1, save1, tok) /\
    run_cmds fuel ping n stdio_fd m1 tok save1 st = Some (m', st') /\
    wrote (mjoin ((fun c => out (words_of c)) <$> words [59] s [])) st st'.
Proof.
  change (cstr ";") with ([59] ++ [0]).
  induction n as [|n IH]; intros before s after str save st Hs Hp Hn Hst Hg; [lia|].
  destruct (strtok_r_ok [59] no_nul_59 before s after str save Hs Hp)
    as [(Hw & sv & E)|(sk & w & mid & s' & Hw & Hnul & Hs' & Hlt & Hmid & Hlen & E)]; rewrite E; rewrite Hw in *.
  - do 3 eexists. exists (before ++ s ++ 0 :: after), st. split; [done|]. split; [done|]. split; [done|done|].
    cbn. by rewrite app_nil_r.
  - apply Forall_cons in Hg as [Hg1 Hg2]. pose proof (good_words _ Hg1) as Hne.
    assert (words [32] w [] <> []) as Hww by (unfold words_of in Hne; by destruct (words [32] w [])).
    assert (exists after1, forall x, List.length x = List.length w ->
      before ++ sk ++ x ++ mid ++ s' ++ 0 :: after = (before ++ sk) ++ x ++ 0 :: after1) as [after1 Ha].
    { destruct Hmid as [->|[-> ->]]; [exists (s' ++ 0 :: after)|exists after]; intros x _; by rewrite <- !app_assoc. }
    destruct (parse_command_ok (before ++ sk) w after1 Hnul Hww) as (t & args & Ep & Ht & HF).
    destruct (good_run _ args (words_of w) st Hst HF Hg1) as (st1 & Er & W1).
    rewrite <- Ha in Er by done.
    destruct (IH (before ++ sk ++ t ++ mid) s' after None (zlen (before ++ sk ++ w ++ mid)) st1 Hs')
      as (m1 & save1 & tok & m' & st' & Et & Ec & W2); [|lia|apply W1|done|].
    { cbn. rewrite !zlen_app. unfold zlen. lia. }
    exists (before ++ sk ++ w ++ mid ++ s' ++ 0 :: after), (zlen (before ++ sk ++ w ++ mid)), (Some (zlen (before ++ sk))), m', st'.
    split; [done|]. cbn [run_cmds]. rewrite Ha, Ep, ub_step by done. cbv beta iota. rewrite <- Ha by done.
    rewrite (proc_step _ _ _ _ _ Er).
    replace (before ++ sk ++ t ++ mid ++ s' ++ 0 :: after) with ((before ++ sk ++ t ++ mid) ++ s' ++ 0 :: after)
      by (by rewrite <- !app_assoc).
    change (cstr ";") with ([59] ++ [0]). rewrite Et, ub_step. split; [done|].
    by apply (wrote_app _ _ _ _ _ W1 W2).
Qed.
End Line.

Section Turn.
Context {W : Type} `{Terminal W} (fuel : nat) (ping : mem -> Z -> Z -> proc W unit) (stdio_fd : Z).

(** The words end like a redirection: the last but one begins like [>>]. *)
Definition redirects (ws : list (list Z)) : Prop :=
  exists pre x y, ws = pre ++ [x; y] /\ pre <> [] /\ alike x (chars ">>").

(** An [echo] command, and what it writes. *)
Definition echo_words (ws : list (list Z)) : Prop :=
  exists args, ws = chars "echo" :: args /\ Forall short args /\ ~ redirects ws.
Definition echo_out (ws : list (list Z)) : list Z := joined (tail ws) ++ [10].

Lemma find_echo m p : str_at m p (chars "echo") ->
  find_cmd (at_ptr m p) = Some (Some (Cmd "echo" "show message into screen" do_echo_f)).
Proof. intros [_ [r ->]]. done. Qed.

Lemma echo_command_ok m args ws st : tm_ok st -> Forall2 (str_at m) args ws -> echo_words ws ->
  exists st', run_command fuel ping stdio_fd m args st = Some (m, st') /\ wrote (echo_out ws) st st'.
Proof.
  intros Hst HF (ws' & -> & Hs & Hr). pose proof HF as HF0. inversion HF as [|p0 ? ps ? Hp0 HF' E1 E2]; subst.
  unfold run_command. change (arg ((Some <$> p0 :: ps) ++ [None]) 0) with (Some p0). rewrite ub_step, find_echo by done.
  rewrite ub_step.
  rewrite (proc_step _ _ st false st).
  2:{ destruct (Z.leb_spec 3 (zlen (p0 :: ps))) as [H3|]; [|done].
      destruct (list_last_case ps) as [->|(ps1 & y & ->)]; [unfold zlen in H3; cbn in H3; lia|].
      destruct (list_last_case ps1) as [->|(ps2 & x & ->)]; [unfold zlen in H3; cbn in H3; lia|].
      assert (arg ((Some <$> p0 :: (ps2 ++ [x]) ++ [y]) ++ [None]) (zlen (p0 :: (ps2 ++ [x]) ++ [y]) - 2) = Some x) as ->.
      { unfold arg. replace (zlen _ - 2) with (Z.of_nat (S (List.length ps2))) by (unfold zlen; cbn; rewrite !length_app; cbn; lia).
        rewrite zget_nat.
        assert ((Some <$> p0 :: (ps2 ++ [x]) ++ [y]) ++ [None] = (Some <$> p0 :: ps2) ++ Some x :: [Some y; None]) as ->
          by (cbn; by rewrite !fmap_app, <- !app_assoc).
        rewrite list_lookup_middle; [done|]. cbn. by rewrite length_fmap. }
      rewrite ub_step. apply Forall2_app_inv_l in HF' as (wa & wy & HFa & HFy & ->).
      apply Forall2_app_inv_l in HFa as (wb & wx & HFb & HFx & ->). inversion HFx as [|? vx ? ? [Hx0 [rx Hx]] HFn]; subst.
      inversion HFn; subst. inversion HFy as [|? vy ? ? _ HFn2]; subst. inversion HFn2; subst. rewrite Hx.
      destruct (strcmp_prefix vx (chars ">>") rx [] Hx0) as (r & Er & H0r); [set_solver|].
      unfold cstr. rewrite Er, ub_step. destruct (Z.eqb_spec r 0) as [->|]; [|done]. exfalso. apply Hr.
      exists (chars "echo" :: wb), vx, vy. split; [cbn; by rewrite <- app_assoc|]. split; [done|]. by apply H0r. }
  cbv iota. rewrite (proc_step _ _ st (None, zlen (p0 :: ps)) st) by done. cbv beta iota. cbn [func run_func].
  destruct (do_echo_ok m p0 ps (chars "echo") ws' st Hst HF0 Hs) as (st' & E & Hw).
  rewrite (proc_step _ _ st (0, m) st') by (by rewrite (proc_step _ _ _ _ _ E)). cbv beta iota. change (nz 0) with false. cbv iota.
  rewrite (proc_step _ _ st' 0 st') by done. rewrite (proc_step _ _ st' 0 st') by done. by exists st'.
Qed.

End Turn.

(** ** A machine *)

(** What was typed and not yet read, and what was written to the screen. *)
Record console := Console { typed : list Z; shown : list Z }.

Definition info0 : sys_info := SysInfo (MemInfo 0 0 0 0 0 0 4096) (cstr "/ext2") 0.

#[export] Instance console_kernel : Kernel console := {|
  k_read fd n w :=
    if fd =? STDIN_FILENO then
      match typed w with
      | [] => (0, [], w)
      | c :: l => (1, [c], Console l (shown w))
      end
    else (0, [], w);
  k_write fd bs w := (zlen bs, if fd =? STDOUT_FILENO then Console (typed w) (shown w ++ bs) else w);
  k_open _ _ w := (-1, w); k_close _ w := w; k_dup2 _ _ w := (0, w);
  k_readdir _ w := (-1, Dirent [] 0 0, w); k_get_pid w := (1, w); k_sysinfo _ _ w := (0, info0, w);
  k_timestamp w := (Datetime.Timespec 0 0, w); k_fork w := (2, w); k_execve _ _ w := (-1, w);
  k_wait w := (2, w); k_sleep _ w := w; k_socket _ _ _ w := (-1, w); k_connect _ _ w := (-1, w);
  k_send _ _ w := (-1, w); k_receive _ _ w := (-1, [], w);
  k_malloc n w := (Some (4096, replicate (Z.to_nat n) 0), w); k_free _ w := w |}.

#[export, refine] Instance console_terminal : Terminal console := {|
  tm_ok _ := True; input := typed; output := shown |}.
Proof.
  - intros w c l _ E. cbn. by rewrite E.
  - done.
  - intros w n _ _. cbn. split; [by eexists|done].
  - done.
Defined.

Definition no_ping : mem -> Z -> Z -> proc console unit := fun _ _ _ => mret tt.

(** "echx", a backspace and "o a  b;echo c". *)
Definition keys0 : list Z := chars "echx" ++ [8] ++ chars "o a  b;echo c".

Definition console0 : console := Console (keys0 ++ 10 :: [120]) [].


(** The screen of this run. *)
Lemma shell_screen :
  ('(_, st) ← shell_turn 100 no_ping 3 8192 (replicate 1024 0) console0; Some (shown st))
  = Some (chars "shell >>a b
c
").
Proof. by vm_compute. Qed.

(** A word that is no command is looked up behind the end of the table. *)
Lemma unknown_command_overruns : find_cmd (cstr "xyz") = None.
Proof. by vm_compute. Qed.

(** Any beginning of a name, or a word that begins with it, is the command. *)
Lemma abbreviated_commands :
  (cname <$> (c ← find_cmd (cstr "c"); c)) = Some "clear"%string /\
  (cname <$> (c ← find_cmd (cstr "lsof"); c)) = Some "ls"%string.
Proof. split; by vm_compute. Qed.

(** A command without a word, as after a last semicolon and a space, follows
    a null pointer. *)
Lemma empty_command_faults : parse_command (chars " " ++ [0]) 0 = None.
Proof. by vm_compute. Qed.

(** 512 bytes from a file are printed as a string that has no end. *)
Lemma cat_block_faults st : printf (W := console) (fun _ => replicate 512 97) (cstr "%s") [0] st = None.
Proof. by vm_compute. Qed.

(** An argument [>], or an empty one, counts as a redirection. *)
Lemma redirect_prefix : strcmp (cstr ">") (cstr ">>") = Some 0.
Proof. by vm_compute. Qed.
