(* ===== verification/Exmsg.v ===== *)
(** * Calls into the network thread: kernel/net/exmsg.c

    [exmsg_func_exec] lets the network thread run a function for the caller:
    it sends a message that points to a [func_msg_t] on the caller's stack and
    sleeps on the semaphore in it.  A call is split where the thread can be
    suspended: [func_start] up to [fixq_send], [func_send] up to the sleep, and
    [func_return]; the network thread takes a message ([work_take]), works on
    it ([work_run]) and releases it ([work_free]).  [xstep] interleaves any
    number of callers, the interrupts of drivers and the network thread.  The
    queue is the sequence of its messages, as [Fixq] shows it to be, and the
    semaphore of a call is the number of its units.

    The state [S] of the network stack, the functions that are called and the
    work on an incoming packet are arguments: the theorem holds for all.  It
    says that calls take effect one at a time, in the order in which they were
    sent, which is what [Socket] takes for granted of its requests. *)

From S2P Require Import Prelude Pktbuf Layout Link.

Record func_msg_t := FuncMsg {
  thread_page_dir : Z; func : Z; param : Z; ferr : net_err_t; wait_sem : Z }.

(** Where a call is: it has a message to send, it sleeps, or it has returned. *)
Inductive cstat := Sending (msg : Z) | Waiting | Returned (e : net_err_t).

(** What the network thread has done. *)
Inductive event := Ran (c page_dir f p : Z) (e : net_err_t) | Received (n : Z).

Definition ev_msg (e : event) : exmsg_t :=
  match e with Ran c _ _ _ _ => NET_EXMSG_FUN c | Received n => NET_EXMSG_NETIF_IN n end.

Section Exmsg.
Context {S : Type}.
(** A function runs in the address space of a page directory. *)
Context (exec : Z -> Z -> Z -> S -> net_err_t * S) (netif_in : Z -> S -> S).
(** The page directory of the network thread. *)
Context (old_page_dir : Z).

(** [worker] is the message in work and whether the work on it is done;
    [sent] and [done] are the history. *)
Record xstate := XState {
  net : S; pool : list Z; queue : list Z; content : gmap Z exmsg_t;
  calls : gmap Z (func_msg_t * cstat); worker : option (Z * bool);
  sent : list exmsg_t; done : list event }.

(** ** The caller *)

(** [c] stands for the address of [func_msg]; every call has its own here,
    so that the history can name it, where the program reuses the stack.  The
    record is not touched after the caller has been woken.  Without a free message the null pointer
    is written to. *)
Definition func_start (s : xstate) (c page_dir f p : Z) : option xstate :=
  match pool s with
  | [] => None
  | msg :: pool' =>
      Some (XState (net s) pool' (queue s) (<[msg := NET_EXMSG_FUN c]> (content s))
        (<[c := (FuncMsg page_dir f p NET_ERR_OK 0, Sending msg)]> (calls s)) (worker s) (sent s) (done s))
  end.

(** No result while the queue is full: the caller is suspended.  [fixq_send]
    that may wait does not fail. *)
Definition func_send (s : xstate) (c : Z) : option xstate :=
  '(fm, st) ← calls s !! c;
  match st with
  | Sending msg =>
      if zlen (queue s) <? EXMSG_MSG_CNT then
        m ← content s !! msg;
        Some (XState (net s) (pool s) (queue s ++ [msg]) (content s) (<[c := (fm, Waiting)]> (calls s))
          (worker s) (sent s ++ [m]) (done s))
      else None
  | _ => None
  end.

(** No result while the semaphore has no unit. *)
Definition func_return (s : xstate) (c : Z) : option xstate :=
  '(fm, st) ← calls s !! c;
  match st with
  | Waiting =>
      if 0 <? wait_sem fm then
        let fm := FuncMsg (thread_page_dir fm) (func fm) (param fm) (ferr fm) (u32 (wait_sem fm - 1)) in
        Some (XState (net s) (pool s) (queue s) (content s) (<[c := (fm, Returned (ferr fm))]> (calls s))
          (worker s) (sent s) (done s))
      else None
  | _ => None
  end.

(** ** Drivers *)

(** [exmsg_netif_in] in the handler of an interrupt. *)
Definition netif_msg (s : xstate) (n : Z) : net_err_t * xstate :=
  match pool s with
  | [] => (NET_ERR_MEM, s)
  | msg :: pool' =>
      let content := <[msg := NET_EXMSG_NETIF_IN n]> (content s) in
      if EXMSG_MSG_CNT <=? zlen (queue s) then
        (NET_ERR_FULL, XState (net s) (pool' ++ [msg]) (queue s) content (calls s) (worker s) (sent s) (done s))
      else
        (NET_ERR_OK, XState (net s) pool' (queue s ++ [msg]) content (calls s) (worker s)
           (sent s ++ [NET_EXMSG_NETIF_IN n]) (done s))
  end.

(** ** The network thread *)

Definition work_take (s : xstate) : option xstate :=
  match worker s, queue s with
  | None, msg :: q =>
      Some (XState (net s) (pool s) q (content s) (calls s) (Some (msg, false)) (sent s) (done s))
  | _, _ => None
  end.

(** [do_func]: the function runs, its result is stored and the caller woken. *)
Definition do_func (s : xstate) (msg c page_dir : Z) : option xstate :=
  '(fm, st) ← calls s !! c;
  let '(e, net') := exec page_dir (func fm) (param fm) (net s) in
  let fm' := FuncMsg (thread_page_dir fm) (func fm) (param fm) e (u32 (wait_sem fm + 1)) in
  Some (XState net' (pool s) (queue s) (content s) (<[c := (fm', st)]> (calls s)) (Some (msg, true)) (sent s)
    (done s ++ [Ran c page_dir (func fm) (param fm) e])).

(** The page directory is switched for the function and switched back. *)
Definition work_run (s : xstate) : option xstate :=
  match worker s with
  | Some (msg, false) =>
      m ← content s !! msg;
      match m with
      | NET_EXMSG_NETIF_IN n =>
          Some (XState (netif_in n (net s)) (pool s) (queue s) (content s) (calls s) (Some (msg, true)) (sent s)
            (done s ++ [Received n]))
      | NET_EXMSG_FUN c =>
          '(fm, _) ← calls s !! c;
          do_func s msg c (if nz (thread_page_dir fm) then thread_page_dir fm else old_page_dir)
      end
  | _ => None
  end.

Definition work_free (s : xstate) : option xstate :=
  match worker s with
  | Some (msg, true) =>
      Some (XState (net s) (pool s ++ [msg]) (queue s) (content s) (calls s) None (sent s) (done s))
  | _ => None
  end.

(** One step of the loop. *)
Definition net_work_thread (s : xstate) : option xstate :=
  match worker s with
  | None => work_take s
  | Some (_, false) => work_run s
  | Some (_, true) => work_free s
  end.

(** [exmsg_init]: an empty queue and the blocks of the pool. *)
Definition exmsg_init (blocks : list Z) (n : S) : xstate := XState n blocks [] ∅ ∅ None [] [].

Inductive xstep : xstate -> xstate -> Prop :=
  | x_start s c pd f p s' : calls s !! c = None -> func_start s c pd f p = Some s' -> xstep s s'
  | x_send s c s' : func_send s c = Some s' -> xstep s s'
  | x_return s c s' : func_return s c = Some s' -> xstep s s'
  | x_netif s n : xstep s (netif_msg s n).2
  | x_work s s' : net_work_thread s = Some s' -> xstep s s'.

(** ** What the history says *)

(** The state after the events, each function having returned its error. *)
Fixpoint replay (n : S) (l : list event) : option S :=
  match l with
  | [] => Some n
  | Ran _ page_dir f p e :: l =>
      let '(e', n') := exec page_dir f p n in if decide (e = e') then replay n' l else None
  | Received i :: l => replay (netif_in i n) l
  end.

Definition fun_id (m : exmsg_t) : option Z :=
  match m with NET_EXMSG_FUN c => Some c | _ => None end.

(** The address space in which the function of a call runs. *)
Definition dir_of (fm : func_msg_t) : Z :=
  if nz (thread_page_dir fm) then thread_page_dir fm else old_page_dir.

Definition ran (c : Z) (fm : func_msg_t) (e : net_err_t) : event := Ran c (dir_of fm) (func fm) (param fm) e.

Definition held (s : xstate) : list Z := match worker s with Some (m, _) => [m] | None => [] end.
Definition todo (s : xstate) : list Z :=
  match worker s with Some (m, false) => [m] | _ => [] end ++ queue s.

(** What is known of a call. *)
Definition call_ok (blocks : list Z) (s : xstate) (c : Z) (fm : func_msg_t) (st : cstat) : Prop :=
  match st with
  | Sending m => m ∈ blocks /\ m ∉ pool s ++ queue s ++ held s /\ content s !! m = Some (NET_EXMSG_FUN c) /\
      wait_sem fm = 0 /\ NET_EXMSG_FUN c ∉ sent s
  | Waiting => NET_EXMSG_FUN c ∈ sent s /\
      ((wait_sem fm = 0 /\ NET_EXMSG_FUN c ∉ ev_msg <$> done s) \/
       (wait_sem fm = 1 /\ ran c fm (ferr fm) ∈ done s))
  | Returned e => ran c fm e ∈ done s
  end.

Record xinv (blocks : list Z) (n0 : S) (s : xstate) : Prop := {
  xi_nodup : NoDup (pool s ++ queue s ++ held s);
  xi_blocks : pool s ++ queue s ++ held s ⊆ blocks;
  xi_replay : replay n0 (done s) = Some (net s);
  xi_sent : exists p, sent s = (ev_msg <$> done s) ++ p /\ Forall2 (fun m x => content s !! m = Some x) (todo s) p;
  xi_once : NoDup (omap fun_id (sent s));
  xi_known : forall c, NET_EXMSG_FUN c ∈ sent s -> is_Some (calls s !! c);
  xi_calls : forall c fm st, calls s !! c = Some (fm, st) -> call_ok blocks s c fm st;
}.

Lemma replay_app n l1 l2 : replay n (l1 ++ l2) = n' ← replay n l1; replay n' l2.
Proof.
  revert n. induction l1 as [|[c d f p e|i] l1 IH]; intros n; cbn; [done| |apply IH].
  destruct (exec d f p n) as [e' n']. case_decide; [apply IH|done].
Qed.

Lemma fun_id_in c (l : list exmsg_t) : NET_EXMSG_FUN c ∈ l <-> c ∈ omap fun_id l.
Proof.
  rewrite list_elem_of_omap. split; [intros H; by exists (NET_EXMSG_FUN c)|].
  intros ([n|c'] & H & E); [done|]. by injection E as ->.
Qed.

Lemma ran_msg c fm e (l : list event) : ran c fm e ∈ l -> NET_EXMSG_FUN c ∈ ev_msg <$> l.
Proof. intros H. apply list_elem_of_fmap. by exists (ran c fm e). Qed.

Section Invariant.
Context (blocks : list Z) (n0 : S).

Lemma todo_in s m : m ∈ todo s -> m ∈ queue s ++ held s.
Proof. unfold todo, held. destruct (worker s) as [[m' []]|]; set_solver. Qed.

(** Writing a block that is not in use leaves the messages under way. *)
Lemma todo_insert s m x p : m ∉ todo s ->
  Forall2 (fun m x => content s !! m = Some x) (todo s) p ->
  Forall2 (fun m' y => <[m := x]> (content s) !! m' = Some y) (todo s) p.
Proof.
  intros H F. induction F as [|m' y l p E F IH]; constructor.
  - rewrite lookup_insert_ne; [done|set_solver].
  - apply IH. set_solver.
Qed.

Lemma xinv_init : NoDup blocks -> xinv blocks n0 (exmsg_init blocks n0).
Proof.
  intros H. split; cbn; rewrite ?app_nil_r; try done; [by exists []|constructor|set_solver].
Qed.

Lemma xinv_start s c pd f p s' : xinv blocks n0 s -> calls s !! c = None ->
  func_start s c pd f p = Some s' -> xinv blocks n0 s'.
Proof.
  intros [Hn Hb Hr (q & Hs & Hq) Ho Hk Hc] Hnew. unfold func_start.
  destruct (pool s) as [|m pool'] eqn:Ep; [done|]. intros [= <-].
  assert (Hm : m ∉ pool' ++ queue s ++ held s) by (by inversion Hn).
  split; cbn; try done.
  - by inversion Hn.
  - set_solver.
  - exists q. split; [done|]. apply todo_insert; [|done]. intros H%todo_in. set_solver.
  - intros c' H. rewrite lookup_insert_is_Some'. right. by apply Hk.
  - intros c' fm st [[<- [= <- <-]]|[Hne H]]%lookup_insert_Some.
    + repeat split; cbn; [set_solver|done|by rewrite lookup_insert_eq|].
      intros [x H]%Hk. congruence.
    + apply Hc in H. destruct st as [m'| |e]; cbn in *; [|done..].
      destruct H as (H1 & H2 & H3 & H4 & H5). rewrite Ep in H2.
      rewrite lookup_insert_ne by set_solver. set_solver.
Qed.

(** A message goes to the end of the queue: [m] held [x] and was in no list. *)
Lemma sent_snoc l p (x : exmsg_t) : sent l = (ev_msg <$> done l) ++ p ->
  sent l ++ [x] = (ev_msg <$> done l) ++ p ++ [x].
Proof. intros ->. by rewrite app_assoc. Qed.

Lemma todo_snoc s m (x : exmsg_t) p (ct : gmap Z exmsg_t) : Forall2 (fun m x => ct !! m = Some x) (todo s) p -> ct !! m = Some x ->
  Forall2 (fun m x => ct !! m = Some x)
    (match worker s with Some (m, false) => [m] | _ => [] end ++ queue s ++ [m]) (p ++ [x]).
Proof. intros H Hm. rewrite app_assoc. apply Forall2_app; [done|]. by repeat constructor. Qed.

Lemma call_ok_snoc s c fm st nt pl q m ct cs x :
  call_ok blocks s c fm st -> x <> NET_EXMSG_FUN c -> (forall m', st = Sending m' -> m' <> m) ->
  (forall m', m' ∉ pool s ++ queue s ++ held s -> m' <> m -> m' ∉ pl ++ q ++ held s) ->
  (forall m', m' <> m -> ct !! m' = content s !! m') ->
  call_ok blocks (XState nt pl q ct cs (worker s) (sent s ++ [x]) (done s)) c fm st.
Proof.
  intros H Hx Hm Hl Hct. destruct st as [m'| |e]; cbn in *; [|set_solver|done].
  destruct H as (H1 & H2 & H3 & H4 & H5). specialize (Hm m' eq_refl).
  split_and!; [done|by apply Hl|by rewrite Hct|done|set_solver].
Qed.

Lemma xinv_send s c s' : xinv blocks n0 s -> func_send s c = Some s' -> xinv blocks n0 s'.
Proof.
  intros [Hn Hb Hr (q & Hs & Hq) Ho Hk Hc]. unfold func_send.
  destruct (calls s !! c) as [[fm st]|] eqn:Ec; [cbn|done]. destruct st as [m| |]; [|done..].
  destruct (zlen (queue s) <? EXMSG_MSG_CNT); [|done].
  pose proof (Hc _ _ _ Ec) as (H1 & H2 & H3 & H4 & H5). rewrite H3. cbn. intros [= <-].
  assert (HP : pool s ++ (queue s ++ [m]) ++ held s ≡ₚ m :: pool s ++ queue s ++ held s) by solve_Permutation.
  split; cbn; try done.
  - change (NoDup (pool s ++ (queue s ++ [m]) ++ held s)). rewrite HP. by constructor.
  - change (pool s ++ (queue s ++ [m]) ++ held s ⊆ blocks). set_solver.
  - exists (q ++ [NET_EXMSG_FUN c]). split; [by apply sent_snoc|by apply todo_snoc].
  - rewrite omap_app. apply NoDup_app. split_and!; [done| |apply NoDup_singleton].
    intros x Hx ->%list_elem_of_singleton. by apply H5, fun_id_in.
  - intros c' H. rewrite lookup_insert_is_Some'. destruct (decide (c = c')); [by left|right].
    apply Hk. set_solver.
  - intros c' fm' st [[<- [= <- <-]]|[Hne H]]%lookup_insert_Some.
    + cbn. split; [set_solver|]. left. split; [done|]. intros Hd. apply H5. rewrite Hs. set_solver.
    + apply Hc in H as H'. apply call_ok_snoc with m; [done|congruence| |set_solver|done].
      intros m' -> ->. destruct H' as (_ & _ & H' & _). congruence.
Qed.

Lemma xinv_netif s n : xinv blocks n0 s -> xinv blocks n0 (netif_msg s n).2.
Proof.
  intros [Hn Hb Hr (q & Hs & Hq) Ho Hk Hc]. unfold netif_msg.
  destruct (pool s) as [|m pool'] eqn:Ep; [cbn; split; rewrite ?Ep; eauto|].
  assert (Hm : m ∉ pool' ++ queue s ++ held s) by (by inversion Hn).
  assert (Hq' := todo_insert s m (NET_EXMSG_NETIF_IN n) q ltac:(intros H%todo_in; set_solver) Hq).
  assert (Hs' : forall c fm m', calls s !! c = Some (fm, Sending m') -> m' <> m).
  { intros c fm m' H. apply Hc in H as (_ & H & _). rewrite Ep in H. set_solver. }
  destruct (EXMSG_MSG_CNT <=? zlen (queue s)); cbn.
  - assert (HP : (pool' ++ [m]) ++ queue s ++ held s ≡ₚ m :: pool' ++ queue s ++ held s) by solve_Permutation.
    split; cbn; try done.
    + change (NoDup ((pool' ++ [m]) ++ queue s ++ held s)). by rewrite HP.
    + change ((pool' ++ [m]) ++ queue s ++ held s ⊆ blocks). set_solver.
    + eauto.
    + intros c fm st H. specialize (Hs' c fm). apply Hc in H as H'. destruct st as [m'| |]; [|done..].
      destruct H' as (H1 & H2 & H3 & H4 & H5). rewrite Ep in H2. specialize (Hs' m' H).
      cbn. rewrite lookup_insert_ne by done. set_solver.
  - assert (HP : pool' ++ (queue s ++ [m]) ++ held s ≡ₚ m :: pool' ++ queue s ++ held s) by solve_Permutation.
    split; cbn; try done.
    + change (NoDup (pool' ++ (queue s ++ [m]) ++ held s)). by rewrite HP.
    + change (pool' ++ (queue s ++ [m]) ++ held s ⊆ blocks). set_solver.
    + exists (q ++ [NET_EXMSG_NETIF_IN n]). split; [by apply sent_snoc|].
      apply todo_snoc; [done|by rewrite lookup_insert_eq].
    + rewrite omap_app. cbn. by rewrite app_nil_r.
    + set_solver.
    + intros c fm st H. apply call_ok_snoc with m; [by apply Hc|done| | |].
      * intros m' ->. by apply Hs' in H.
      * rewrite Ep. set_solver.
      * intros m' H'. by rewrite lookup_insert_ne.
Qed.

Lemma xinv_return s c s' : xinv blocks n0 s -> func_return s c = Some s' -> xinv blocks n0 s'.
Proof.
  intros [Hn Hb Hr (q & Hs & Hq) Ho Hk Hc]. unfold func_return.
  destruct (calls s !! c) as [[fm st]|] eqn:Ec; [cbn|done]. destruct st as [m| |e]; [done| |done].
  destruct (Z.ltb_spec 0 (wait_sem fm)) as [Hw|]; [|done]. intros [= <-].
  split; cbn; try done; [eauto| |].
  - intros c' H. rewrite lookup_insert_is_Some'. auto.
  - intros c' fm' st [[<- [= <- <-]]|[Hne H]]%lookup_insert_Some; [|by apply Hc in H; destruct st].
    apply Hc in Ec as (_ & [[H _]|[_ H]]); [lia|done].
Qed.

(** The call whose message is in work waits and has not been run. *)
Lemma work_waits s c p : xinv blocks n0 s -> sent s = (ev_msg <$> done s) ++ NET_EXMSG_FUN c :: p ->
  exists fm, calls s !! c = Some (fm, Waiting) /\ wait_sem fm = 0.
Proof.
  intros H Hs. assert (Hi : NET_EXMSG_FUN c ∈ sent s) by (rewrite Hs; set_solver).
  destruct (xi_known _ _ _ H c Hi) as [[fm st] Ec].
  assert (Hnd : NET_EXMSG_FUN c ∉ ev_msg <$> done s).
  { pose proof (xi_once _ _ _ H) as Ho. rewrite Hs, omap_app in Ho. apply NoDup_app in Ho as (_ & Hd & _).
    intros Hx%fun_id_in. apply (Hd _ Hx). cbn. constructor. }
  pose proof (xi_calls _ _ _ H _ _ _ Ec) as Hc. destruct st as [m| |e]; cbn in Hc.
  - tauto.
  - destruct Hc as (_ & [[Hw _]|[_ Hr%ran_msg]]); [by exists fm|done].
  - by apply ran_msg in Hc.
Qed.

Lemma call_ok_done s c fm st nt cs w ev : call_ok blocks s c fm st -> held s = held (XState nt (pool s) (queue s)
    (content s) cs w (sent s) (done s ++ [ev])) -> ev_msg ev <> NET_EXMSG_FUN c ->
  call_ok blocks (XState nt (pool s) (queue s) (content s) cs w (sent s) (done s ++ [ev])) c fm st.
Proof.
  intros H Hh He. destruct st as [m| |e]; cbn in *; [by rewrite <- Hh| |set_solver].
  destruct H as (H1 & [[H2 H3]|[H2 H3]]); split; [done|left|done|right]; (split; [done|]); [|set_solver].
  rewrite fmap_app. set_solver.
Qed.

Lemma xinv_run s s' : xinv blocks n0 s -> work_run s = Some s' -> xinv blocks n0 s'.
Proof.
  intros I. pose proof I as [Hn Hb Hr (q & Hs & Hq) Ho Hk Hc]. unfold work_run.
  destruct (worker s) as [[m []]|] eqn:Ew; [done| |done].
  assert (Et : todo s = m :: queue s) by (unfold todo; by rewrite Ew).
  assert (Eh : held s = [m]) by (unfold held; by rewrite Ew).
  rewrite Et in Hq. apply Forall2_cons_inv_l in Hq as (x & p & Hx & Hp & ->). rewrite Hx. cbn.
  rewrite Eh in Hn, Hb. destruct x as [n|c].
  - intros [= <-]. split; cbn; try done.
    + by rewrite replay_app, Hr.
    + exists p. by rewrite fmap_app, <- app_assoc.
    + intros c fm st H. apply call_ok_done; [by apply Hc|by rewrite Eh|done].
  - destruct (work_waits s c p I Hs) as (fm & Ec & Hw). rewrite Ec. cbn. unfold do_func. rewrite Ec. cbn.
    change (if nz _ then _ else _) with (dir_of fm).
    destruct (exec (dir_of fm) (func fm) (param fm) (net s)) as [e n'] eqn:Ee. intros [= <-].
    split; cbn; try done.
    + rewrite replay_app, Hr. cbn. rewrite Ee. by case_decide.
    + exists p. by rewrite fmap_app, <- app_assoc.
    + intros c' H. rewrite lookup_insert_is_Some'. auto.
    + intros c' fm' st [[<- [= <- <-]]|[Hne H]]%lookup_insert_Some.
      * cbn. split; [rewrite Hs; set_solver|]. right. rewrite Hw. split; [done|]. set_solver.
      * apply call_ok_done; [by apply Hc|by rewrite Eh|]. cbn. congruence.
Qed.

Lemma xinv_work s s' : xinv blocks n0 s -> net_work_thread s = Some s' -> xinv blocks n0 s'.
Proof.
  intros I. unfold net_work_thread, work_take, work_free. destruct (worker s) as [[m []]|] eqn:Ew.
  3: destruct (queue s) as [|m q] eqn:Eq; [done|]. 2: by apply xinv_run.
  all: intros [= <-]; destruct I as [Hn Hb Hr (p & Hs & Hq) Ho Hk Hc].
  all: unfold todo, held in *; rewrite Ew in *; rewrite ?Eq in *.
  - assert (HP : (pool s ++ [m]) ++ queue s ++ [] ≡ₚ pool s ++ queue s ++ [m]) by solve_Permutation.
    split; cbn; try done.
    + by rewrite HP.
    + set_solver.
    + eauto.
    + intros c fm st H. apply Hc in H. destruct st; cbn in *; [|done..]. unfold held in *. rewrite Ew in H.
      cbn. set_solver.
  - assert (HP : pool s ++ q ++ [m] ≡ₚ pool s ++ (m :: q) ++ []) by solve_Permutation.
    split; cbn; try done.
    + by rewrite HP.
    + set_solver.
    + eauto.
    + intros c fm st H. apply Hc in H. destruct st; cbn in *; [|done..]. unfold held in *. rewrite Ew, Eq in H.
      cbn. set_solver.
Qed.

Lemma xinv_step s s' : xinv blocks n0 s -> xstep s s' -> xinv blocks n0 s'.
Proof.
  intros I H. destruct H; eauto using xinv_start, xinv_send, xinv_return, xinv_netif, xinv_work.
Qed.

Lemma xinv_steps s s' : rtc xstep s s' -> xinv blocks n0 s -> xinv blocks n0 s'.
Proof. induction 1; eauto using xinv_step. Qed.

Lemma xinv_reach s : NoDup blocks -> rtc xstep (exmsg_init blocks n0) s -> xinv blocks n0 s.
Proof. intros Hb H. eapply xinv_steps; [done|by apply xinv_init]. Qed.

(** ** Nobody waits for ever *)

(** A message in hand leaves room in a queue as long as the pool. *)
Lemma queue_room s m : xinv blocks n0 s -> zlen blocks <= EXMSG_MSG_CNT -> m ∈ blocks -> m ∉ queue s ->
  zlen (queue s) < EXMSG_MSG_CNT.
Proof.
  intros I Hb Hm Hq. pose proof (xi_nodup _ _ _ I) as Hn. pose proof (xi_blocks _ _ _ I) as Hs.
  apply NoDup_app in Hn as (_ & _ & (Hn & _)%NoDup_app).
  assert (length (m :: queue s) <= length blocks)%nat; [|unfold zlen in *; cbn in *; lia].
  apply submseteq_length, NoDup_submseteq; [by constructor|]. set_solver.
Qed.

Definition work_left (s : xstate) : nat :=
  3 * length (queue s) + match worker s with None => 0 | Some (_, false) => 2 | Some (_, true) => 1 end.

(** A call keeps what it asks for. *)
Definition same_call (fm fm' : func_msg_t) : Prop :=
  thread_page_dir fm' = thread_page_dir fm /\ func fm' = func fm /\ param fm' = param fm.

Lemma work_progress s c fm : xinv blocks n0 s -> calls s !! c = Some (fm, Waiting) -> wait_sem fm = 0 ->
  exists s' fm', net_work_thread s = Some s' /\ (work_left s' < work_left s)%nat /\
    calls s' !! c = Some (fm', Waiting) /\ same_call fm fm'.
Proof.
  intros I Ec Hw. pose proof (xi_sent _ _ _ I) as (p & Hs & Hp).
  unfold net_work_thread, work_take, work_run, work_free, work_left.
  destruct (worker s) as [[m []]|] eqn:Ew.
  - eexists _, fm. split; [done|]. cbn. split; [lia|done].
  - unfold todo in Hp. rewrite Ew in Hp. apply Forall2_cons_inv_l in Hp as (x & p' & Hx & _ & ->).
    rewrite Hx. cbn. destruct x as [n|c']; [eexists _, fm; split; [done|]; cbn; split; [lia|done]|].
    destruct (work_waits s c' p' I Hs) as (fm' & Ec' & _). unfold do_func. rewrite Ec'. cbn.
    destruct (exec _ _ _ _) as [e n']. destruct (decide (c' = c)) as [->|Hne].
    + replace fm' with fm by congruence. eexists _, _. split; [done|]. cbn. split; [lia|].
      by rewrite lookup_insert_eq.
    + eexists _, fm. split; [done|]. cbn. split; [lia|]. by rewrite lookup_insert_ne.
  - destruct (queue s) as [|m q] eqn:Eq; [|eexists _, fm; split; [done|]; cbn; split; [lia|done]].
    exfalso. unfold todo in Hp. rewrite Ew, Eq in Hp. apply Forall2_nil_inv_l in Hp as ->.
    destruct (xi_calls _ _ _ I _ _ _ Ec) as (Hin & [[_ Hnd]|[H1 _]]); [|lia].
    rewrite Hs, app_nil_r in Hin. done.
Qed.

Lemma call_returns s c fm : xinv blocks n0 s -> calls s !! c = Some (fm, Waiting) ->
  exists s' s'' fm' e, rtc (fun a b => net_work_thread a = Some b) s s' /\ func_return s' c = Some s'' /\
    calls s'' !! c = Some (fm', Returned e) /\ same_call fm fm'.
Proof.
  remember (work_left s) as k eqn:Ek. revert s fm Ek.
  induction k as [k IH] using lt_wf_ind. intros s fm -> I Ec.
  destruct (xi_calls _ _ _ I _ _ _ Ec) as (_ & [[Hw _]|[Hw _]]).
  - destruct (work_progress s c fm I Ec Hw) as (s1 & fm1 & Hst & Hlt & Ec1 & E1 & E2 & E3).
    destruct (IH _ Hlt s1 fm1 eq_refl (xinv_work _ _ I Hst) Ec1)
      as (s' & s'' & fm' & e & Hrun & Hret & Hfin & E4 & E5 & E6).
    exists s', s'', fm', e. split; [by eapply rtc_l|]. unfold same_call. rewrite E4, E5, E6. done.
  - exists s. unfold func_return. rewrite Ec. cbn. rewrite Hw. cbn.
    eexists _, _, _. split; [done|]. split; [done|]. cbn. by rewrite lookup_insert_eq.
Qed.
End Invariant.
End Exmsg.


(** Two callers, the second sent first, and a driver: the network thread has
    run one call and has taken the next message. *)
Definition demo_exec (page_dir f p n : Z) : net_err_t * Z := (if f =? 1 then NET_ERR_OK else NET_ERR_MEM, n + p).

