(* ===== verification/Ata.v ===== *)
(** * The disk driver at its ports: kernel/device/disk/disk.c

    [Disk] takes a transfer for an access to a store of sectors.  Here the same
    functions are what they are in the source, bytes and words through ports
    and waits for interrupts, and [ata_refines_disk] shows that they do what
    [Disk] says.

    The controllers are an interface.  [AtaLaws] is what the driver relies on:
    registers that keep what is written to them, a status register that says
    busy for a while, the sectors of a command coming or going word by word
    through the data port, and an interrupt for every sector.  The driver sends
    the first sector of a write without waiting for the controller, so the laws
    say that it is ready then.  The interrupt handler raises a semaphore:
    whether an interrupt comes before or during the wait, the wait ends with it
    ([Segment]), so that the semaphore is the number of interrupts not yet
    waited for. *)

From S2P Require Import Prelude Pktbuf PktbufSpec PktbufAccess Links Layout Disk Ports.
From S2P Require Import Prelude.

Definition PRIMARY_PORT_BASE : Z := 496.
Definition SECONDARY_PORT_BASE : Z := 368.
Definition PORT_DATA : Z := 0.
Definition STATUS_ERR : Z := 0.
Definition STATUS_DRQ : Z := 3.
Definition STATUS_BSY : Z := 7.
Definition disk_status (status : Z) : Z := Z.shiftl 1 status.

(** The ports [init_disk] gives to a disk. *)
Definition port_base (disk_idx : Z) : Z :=
  if 2 <=? disk_idx then SECONDARY_PORT_BASE else PRIMARY_PORT_BASE.

(** Interrupts count once the first transfer has begun. *)
Definition disk_hander (has_read : bool) (segment : Z) : Z := if has_read then u32 (segment + 1) else segment.

(** The disks before: what the hardware has, and a cleared table. *)
Definition init_disk (disks : list disk_t) : option (list disk_t) :=
  for_ (Z.to_nat DISK_COUNT) 0 (fun i disks =>
    d ← zget disks i;
    '(_, d) ← detect_disk i (Disk (i mod 2) (sector_size d) (disk_sector_count d) (parts d) (identify d) (sectors d));
    zset disks i d) disks.

(** ** Controllers *)

(** What a controller is doing: nothing, reporting an error, sending the bytes
    left of a sector, or taking the bytes of one. *)
Inductive mode :=
  | Idle | Failed
  | Reading (drv lba left : Z) (rest : list Z)
  | Writing (drv lba left : Z) (got : list Z).

(** The writes to its registers, what it is doing, and the sectors of its two
    drives. *)
Notation view := (list (Z * Z) * mode * (Z -> store))%type.

Definition failed (m : mode) : bool := match m with Failed => true | _ => false end.
Definition upd (s : Z -> store) (drv : Z) (t : store) : Z -> store := fun k => if k =? drv then t else s k.

(** The next sector of a read, with the interrupts raised for it. *)
Definition next_read (s : Z -> store) (drv lba left : Z) : mode * Z :=
  if left <=? 0 then (Idle, 0)
  else match s drv !! lba with Some data => (Reading drv lba left data, 1) | None => (Failed, 1) end.
Definition next_write (drv lba left : Z) : mode := if left <=? 0 then Idle else Writing drv lba left [].
Definition selected (r : list (Z * Z)) : Z := b2z (Z.testbit (cur r PORT_DRIVE) 4).

Definition base_ok (b : Z) : Prop := b = PRIMARY_PORT_BASE \/ b = SECONDARY_PORT_BASE.

Class AtaPorts (hw : Type) := {
  ata_view : Z -> hw -> view; ata_busy : Z -> hw -> nat; irqs : hw -> Z; irq_take : hw -> hw }.

(** One controller changes, and interrupts are raised. *)
Definition becomes {hw} `{AtaPorts hw} (h h' : hw) (b : Z) (v : view) (n : Z) : Prop :=
  ata_view b h' = v /\ (forall b', base_ok b' -> b' <> b -> ata_view b' h' = ata_view b' h) /\
  irqs h' = irqs h + n.

Class AtaLaws (hw : Type) `{Ports hw, AtaPorts hw} := {
  ata_reg h b p v : base_ok b -> 2 <= p <= 6 ->
    let '(r, m, s) := ata_view b h in becomes h (out8 (b + p) v h) b (r ++ [(p, v)], m, s) 0;
  ata_read_cmd h b : base_ok b ->
    let '(r, m, s) := ata_view b h in
    let '(m', n) := next_read s (selected r) (lba_start r) (lba_count r) in
    becomes h (out8 (b + PORT_STATUS_COMMAND) COMMAND_READ h) b (r, m', s) n;
  ata_write_cmd h b : base_ok b ->
    let '(r, m, s) := ata_view b h in
    let h' := out8 (b + PORT_STATUS_COMMAND) COMMAND_WRITE h in
    becomes h h' b (r, next_write (selected r) (lba_start r) (lba_count r), s) 0 /\ ata_busy b h' = 0%nat;
  ata_stat h b : base_ok b ->
    let '(v, h') := in8 (b + PORT_STATUS_COMMAND) h in
    0 <= v < 256 /\ becomes h h' b (ata_view b h) 0 /\
    match ata_busy b h with
    | O => Z.land v 137 <> 128 /\ Z.testbit v 0 = failed (ata_view b h).1.2 /\ ata_busy b h' = 0%nat
    | S _ => Z.land v 137 = 128 /\ (ata_busy b h' < ata_busy b h)%nat
    end;
  ata_in h b r drv lba left b0 b1 rest s : base_ok b -> ata_busy b h = 0%nat ->
    ata_view b h = (r, Reading drv lba left (b0 :: b1 :: rest), s) ->
    let '(v, h') := in16 (b + PORT_DATA) h in
    v = of_le16 b0 b1 /\
    if decide (rest = []) then
      let '(m, n) := next_read s drv (lba + 1) (left - 1) in becomes h h' b (r, m, s) n
    else becomes h h' b (r, Reading drv lba left rest, s) 0 /\ ata_busy b h' = 0%nat;
  ata_out h b r drv lba left got s v : base_ok b -> ata_busy b h = 0%nat ->
    ata_view b h = (r, Writing drv lba left got, s) ->
    let h' := out16 (b + PORT_DATA) v h in
    let got' := got ++ [u8 v; u8 (Z.shiftr v 8)] in
    if zlen got' <? SECTOR_SIZE then
      becomes h h' b (r, Writing drv lba left got', s) 0 /\ ata_busy b h' = 0%nat
    else match s drv !! lba with
         | None => becomes h h' b (r, Failed, s) 1
         | Some _ => becomes h h' b
             (r, next_write drv (lba + 1) (left - 1), upd s drv (<[lba := got']> (s drv))) 1
         end;
  ata_irq h : 0 < irqs h -> irqs (irq_take h) = irqs h - 1 /\
    forall b, base_ok b -> ata_view b (irq_take h) = ata_view b h;
}.

(** ** The driver *)

Section Driver.
Context {hw : Type} `{Ports hw, AtaPorts hw}.

Definition ata_command (b drv sector_start sector_count cmd : Z) (h : hw) : hw :=
  foldl (fun h w => outb (b + w.1) w.2 h) h (ata_cmd drv sector_start sector_count cmd).

(** The loop ends when the controller lets it.  The comparison binds stronger
    than the conjunction. *)
Fixpoint ata_wait (fuel : nat) (b : Z) (h : hw) : option (Z * hw) :=
  match fuel with
  | O => None
  | S fuel =>
      let '(status, h) := inb (b + PORT_STATUS_COMMAND) h in
      if negb (Z.land status (Z.lor (Z.lor (disk_status STATUS_ERR) (disk_status STATUS_DRQ))
                               (disk_status STATUS_BSY)) =? disk_status STATUS_BSY)
      then Some (Z.land status (b2z (disk_status STATUS_ERR =? disk_status STATUS_ERR)), h)
      else ata_wait fuel b h
  end.

(** [n] words from [off] on. *)
Fixpoint ata_read (n : nat) (b : Z) (buf : list Z) (off : Z) (h : hw) : option (list Z * hw) :=
  match n with
  | O => Some (buf, h)
  | S n =>
      let '(w, h) := inw (b + PORT_DATA) h in
      buf ← mem_write buf off [u8 w; u8 (Z.shiftr w 8)];
      ata_read n b buf (off + 2) h
  end.

Fixpoint ata_write (n : nat) (b : Z) (buf : list Z) (off : Z) (h : hw) : option hw :=
  match n with
  | O => Some h
  | S n =>
      b0 ← zget buf off; b1 ← zget buf (off + 1);
      ata_write n b buf (off + 2) (outw (b + PORT_DATA) (of_le16 b0 b1) h)
  end.

(** [segment_wait(&segment, NULL)]; no result when no interrupt comes. *)
Definition wait_irq (h : hw) : option hw := if 0 <? irqs h then Some (irq_take h) else None.

(** The loops as in [Disk]: [off] is where [buf] points. *)
Fixpoint port_read_loop (fuel n : nat) (b ssize i off : Z) (buf : list Z) (h : hw)
    : option (option Z * list Z * hw) :=
  match n with
  | O => Some (None, buf, h)
  | S n =>
      h ← wait_irq h;
      '(err, h) ← ata_wait fuel b h;
      if nz err then Some (Some err, buf, h)
      else
        '(buf, h) ← ata_read (Z.to_nat (ssize / 2)) b buf off h;
        if ssize <=? 0 then Some (Some ssize, buf, h)
        else port_read_loop fuel n b ssize (i + 1) (off + ssize * (i + 1)) buf h
  end.

Fixpoint port_write_loop (fuel n : nat) (b ssize i off : Z) (buf : list Z) (h : hw)
    : option (option Z * hw) :=
  match n with
  | O => Some (None, h)
  | S n =>
      h ← ata_write (Z.to_nat (ssize / 2)) b buf off h;
      if ssize <=? 0 then Some (Some ssize, h)
      else
        h ← wait_irq h;
        '(err, h) ← ata_wait fuel b h;
        if nz err then Some (Some err, h)
        else port_write_loop fuel n b ssize (i + 1) (off + ssize * (i + 1)) buf h
  end.

(** [disks] is the driver's table; its sectors are not looked at. *)
Definition port_disk_read (fuel : nat) (disks : list disk_t) (dev : device_t) (addr : Z) (buf : list Z)
    (size : Z) (h : hw) : option (Z * list Z * hw) :=
  part ← part_of disks dev;
  match part with
  | None => Some (-1, buf, h)
  | Some part =>
      match part_disk part with
      | None => Some (-2, buf, h)
      | Some di =>
          d ← zget disks di;
          let h := ata_command (port_base di) (drive d) (u32 (addr + part_sector_start part)) size
                     COMMAND_READ h in
          '(err, buf, h) ← port_read_loop fuel (Z.to_nat size) (port_base di) (sector_size d) 0 0 buf h;
          Some (default size err, buf, h)
      end
  end.

Definition port_disk_write (fuel : nat) (disks : list disk_t) (dev : device_t) (addr : Z) (buf : list Z)
    (size : Z) (h : hw) : option (Z * hw) :=
  part ← part_of disks dev;
  match part with
  | None => Some (-1, h)
  | Some part =>
      match part_disk part with
      | None => Some (-2, h)
      | Some di =>
          d ← zget disks di;
          let h := ata_command (port_base di) (drive d) (u32 (addr + part_sector_start part)) size
                     COMMAND_WRITE h in
          '(err, h) ← port_write_loop fuel (Z.to_nat size) (port_base di) (sector_size d) 0 0 buf h;
          Some (default size err, h)
      end
  end.
End Driver.

(** ** The command *)

Lemma port_writes_app r ws p : port_writes (r ++ ws) p = port_writes ws p ++ port_writes r p.
Proof. unfold port_writes. by rewrite filter_app, fmap_app, rev_app_distr. Qed.

(** The registers hold the command whatever was written before it. *)
Lemma command_regs r drv start n cmd :
  let ws := r ++ take 9 (ata_cmd drv start n cmd) in
  lba_start ws = lba_start (ata_cmd drv start n cmd) /\ lba_count ws = lba_count (ata_cmd drv start n cmd) /\
  cur ws PORT_DRIVE = u8 (Z.lor (Z.lor (Z.shiftl drv 4) 224) (Z.land (Z.shiftr start 24) 15)).
Proof. unfold lba_start, lba_count, cur, hob. by rewrite !port_writes_app. Qed.

Lemma drive_bit drv start : drv = 0 \/ drv = 1 ->
  b2z (Z.testbit (u8 (Z.lor (Z.lor (Z.shiftl drv 4) 224) (Z.land (Z.shiftr start 24) 15))) 4) = drv.
Proof.
  intros Hd. unfold u8. change 256 with (2 ^ 8). rewrite Z.mod_pow2_bits_low by lia.
  rewrite !Z.lor_spec, Z.land_spec. change (Z.testbit 15 4) with false. rewrite andb_false_r, orb_false_r.
  by destruct Hd as [-> | ->].
Qed.

Lemma lba_count_le drv start n cmd : 0 < n -> 0 < lba_count (ata_cmd drv start n cmd) <= n.
Proof.
  intros Hn. change (lba_count (ata_cmd drv start n cmd)) with
    (let m := u8 n + 2 ^ 8 * u8 (Z.shiftr n 8) in if m =? 0 then 65536 else m).
  rewrite u8_shift by lia. unfold u8. change (2 ^ 8) with 256. cbn zeta.
  destruct (Z.eqb_spec (n mod 256 + 256 * (n / 256 mod 256)) 0); divmod.
Qed.

Lemma port_base_ok di : base_ok (port_base di).
Proof. unfold port_base. destruct (2 <=? di); [by right|by left]. Qed.

Lemma port_u16 b p : base_ok b -> 0 <= p <= 7 -> u16 (b + p) = b + p.
Proof. intros [-> | ->] Hp; apply u16_small; unfold PRIMARY_PORT_BASE, SECONDARY_PORT_BASE; lia. Qed.

Section Laws.
Context {hw : Type} `{AtaLaws hw}.
Implicit Types h : hw.

Lemma becomes_trans h h1 h2 b v v' n n' : becomes h h1 b v n -> becomes h1 h2 b v' n' ->
  becomes h h2 b v' (n + n').
Proof.
  intros (_ & Ho & E1) (E & Ho' & E2). split; [done|]. split; [|lia].
  intros b' Hb Hne. by rewrite Ho', Ho.
Qed.

Lemma regs_written ws : forall h b r m s, base_ok b -> ata_view b h = (r, m, s) ->
  Forall (fun w => 2 <= w.1 <= 6 /\ 0 <= w.2 < 256) ws ->
  becomes h (foldl (fun h w => outb (b + w.1) w.2 h) h ws) b (r ++ ws, m, s) 0.
Proof.
  induction ws as [|[p v] ws IH]; intros h b r m s Hb Hv Hws; cbn.
  { rewrite app_nil_r. split; [done|]. split; [done|lia]. }
  apply Forall_cons in Hws as [[Hp Hr] Hws]. cbn in Hp, Hr.
  pose proof (ata_reg h b p v Hb Hp) as Hreg. rewrite Hv in Hreg.
  unfold outb at 2. rewrite port_u16, u8_small by (done || lia).
  replace (r ++ (p, v) :: ws) with ((r ++ [(p, v)]) ++ ws) by (by rewrite <- app_assoc).
  eapply (becomes_trans _ _ _ _ _ _ 0 0 Hreg). apply IH; [done|by destruct Hreg|done].
Qed.

Lemma ata_cmd_regs drv start n cmd :
  Forall (fun w => 2 <= w.1 <= 6 /\ 0 <= w.2 < 256) (take 9 (ata_cmd drv start n cmd)).
Proof.
  unfold ata_cmd. cbn [take]. rewrite !Forall_cons, Forall_nil. cbn [fst snd].
  split_and!; try done; apply u8_range.
Qed.

Lemma ata_command_regs h b drv start n cmd r m s : base_ok b -> ata_view b h = (r, m, s) ->
  exists h1 r', ata_command b drv start n cmd h = outb (b + PORT_STATUS_COMMAND) cmd h1 /\
    becomes h h1 b (r', m, s) 0 /\ lba_start r' = lba_start (ata_cmd drv start n cmd) /\
    lba_count r' = lba_count (ata_cmd drv start n cmd) /\ (drv = 0 \/ drv = 1 -> selected r' = drv).
Proof.
  intros Hb Hv. exists (foldl (fun h w => outb (b + w.1) w.2 h) h (take 9 (ata_cmd drv start n cmd))).
  exists (r ++ take 9 (ata_cmd drv start n cmd)). split; [done|].
  split; [apply regs_written; [done..|apply ata_cmd_regs]|].
  destruct (command_regs r drv start n cmd) as (E1 & E2 & E3). split; [done|]. split; [done|].
  intros Hd. unfold selected. rewrite E3. by apply drive_bit.
Qed.

Lemma read_command_ok h b drv start n r m s : base_ok b -> ata_view b h = (r, m, s) -> drv = 0 \/ drv = 1 ->
  let ws := ata_cmd drv start n COMMAND_READ in
  let '(m', k) := next_read s drv (lba_start ws) (lba_count ws) in
  exists r', becomes h (ata_command b drv start n COMMAND_READ h) b (r', m', s) k.
Proof.
  intros Hb Hv Hd. destruct (ata_command_regs h b drv start n COMMAND_READ r m s Hb Hv)
    as (h1 & r' & -> & B & E1 & E2 & E3).
  pose proof (ata_read_cmd h1 b Hb) as L. rewrite (proj1 B), E1, E2, (E3 Hd) in L.
  unfold outb. rewrite port_u16 by done. cbn zeta.
  destruct (next_read _ _ _ _) as [m' k]. exists r'. exact (becomes_trans _ _ _ _ _ _ 0 k B L).
Qed.

Lemma write_command_ok h b drv start n r m s : base_ok b -> ata_view b h = (r, m, s) -> drv = 0 \/ drv = 1 ->
  let ws := ata_cmd drv start n COMMAND_WRITE in
  let h' := ata_command b drv start n COMMAND_WRITE h in
  ata_busy b h' = 0%nat /\
  exists r', becomes h h' b (r', next_write drv (lba_start ws) (lba_count ws), s) 0.
Proof.
  intros Hb Hv Hd. destruct (ata_command_regs h b drv start n COMMAND_WRITE r m s Hb Hv)
    as (h1 & r' & E & B & E1 & E2 & E3). cbn zeta. rewrite E.
  pose proof (ata_write_cmd h1 b Hb) as L. rewrite (proj1 B), E1, E2, (E3 Hd) in L.
  unfold outb. rewrite port_u16 by done. destruct L as [L Lb]. split; [done|].
  exists r'. exact (becomes_trans _ _ _ _ _ _ 0 0 B L).
Qed.

(** ** Waiting *)

Lemma land_1 v : Z.land v 1 = b2z (Z.testbit v 0).
Proof.
  change (Z.land v 1) with (Z.land v (Z.ones 1)). rewrite Z.land_ones by lia. change (2 ^ 1) with 2. by rewrite Zmod_odd, Z.bit0_odd.
Qed.

(** With enough turns the wait ends and tells whether there was an error. *)
Lemma ata_wait_ends h b : base_ok b -> exists f0 h', ata_busy b h' = 0%nat /\
  becomes h h' b (ata_view b h) 0 /\
  forall fuel, (f0 <= fuel)%nat -> ata_wait fuel b h = Some (b2z (failed (ata_view b h).1.2), h').
Proof.
  intros Hb. remember (ata_busy b h) as k eqn:Ek. revert h Ek.
  induction k as [k IH] using lt_wf_ind. intros h Ek.
  pose proof (ata_stat h b Hb) as L. destruct (in8 (b + PORT_STATUS_COMMAND) h) as [v h1] eqn:Ei.
  destruct L as (Hv & B & L).
  assert (step : forall fuel, ata_wait (S fuel) b h =
    if negb (Z.land v 137 =? 128) then Some (Z.land v 1, h1) else ata_wait fuel b h1).
  { intros fuel. cbn [ata_wait]. unfold inb. rewrite port_u16 by done. by rewrite Ei, u8_small. }
  rewrite <- Ek in L. destruct k as [|k].
  - destruct L as (Hn & Ht & Hz). exists 1%nat, h1. split; [done|]. split; [done|].
    intros [|fuel] Hf; [lia|]. rewrite step. apply Z.eqb_neq in Hn. by rewrite Hn, land_1, Ht.
  - destruct L as (He & Hlt). destruct (IH (ata_busy b h1) ltac:(lia) h1 eq_refl) as (f0 & h' & Hz & B' & Hw).
    rewrite (proj1 B) in B', Hw. exists (S f0), h'. split; [done|].
    split; [exact (becomes_trans _ _ _ _ _ _ 0 0 B B')|].
    intros [|fuel] Hf; [lia|]. rewrite step, He. cbn. apply Hw. lia.
Qed.

(** ** Words and bytes *)

Lemma mem_write_split buf off x y buf' : mem_write buf off (x ++ y) = Some buf' ->
  exists b1, mem_write buf off x = Some b1 /\ mem_write b1 (off + zlen x) y = Some buf'.
Proof.
  unfold mem_write. intros E. assert (zlen (x ++ y) = zlen x + zlen y) as Hz by (unfold zlen; rewrite length_app; lia).
  pose proof (Nat2Z.is_nonneg (length y)) as Hy. fold (zlen y) in Hy.
  destruct (Z.leb_spec 0 off) as [Ho|]; [cbn [andb] in E|done]. rewrite Hz in E.
  destruct (Z.leb_spec (off + (zlen x + zlen y)) (zlen buf)) as [Hb|]; [|done]. injection E as <-.
  exists (splice buf off x). pose proof (Nat2Z.is_nonneg (length x)) as Hx. fold (zlen x) in Hx. split.
  - by destruct (Z.leb_spec (off + zlen x) (zlen buf)); [|lia].
  - rewrite zlen_splice, splice_splice by lia. cbn [andb].
    destruct (Z.leb_spec 0 (off + zlen x)), (Z.leb_spec (off + zlen x + zlen y) (zlen buf)); (done || lia).
Qed.

Lemma mem_read_cons buf off n data : 0 <= n -> mem_read buf off (1 + n) = Some data ->
  exists x rest, data = x :: rest /\ zget buf off = Some x /\ mem_read buf (off + 1) n = Some rest.
Proof.
  unfold mem_read. intros Hn E. destruct (Z.leb_spec 0 off) as [Ho|]; [|done].
  destruct (Z.leb_spec 0 (1 + n)); [cbn [andb] in E|lia].
  destruct (Z.leb_spec (off + (1 + n)) (zlen buf)) as [Hb|]; [|done]. injection E as <-.
  destruct (lookup_lt_is_Some_2 buf (Z.to_nat off)) as [x Hx]; [unfold zlen in Hb; lia|].
  exists x, (sub buf (off + 1) n). split; [|split].
  - unfold sub. rewrite (drop_S _ _ _ Hx). replace (Z.to_nat (1 + n)) with (S (Z.to_nat n)) by lia.
    replace (Z.to_nat (off + 1)) with (S (Z.to_nat off)) by lia. done.
  - unfold zget. by destruct (Z.ltb_spec off 0); [lia|].
  - destruct (Z.leb_spec 0 (off + 1)), (Z.leb_spec 0 n), (Z.leb_spec (off + 1 + n) (zlen buf)); (done || lia).
Qed.

Lemma word_bytes x y : 0 <= x < 256 -> 0 <= y < 256 ->
  0 <= of_le16 x y < 65536 /\ u8 (of_le16 x y) = x /\ u8 (Z.shiftr (of_le16 x y) 8) = y.
Proof.
  intros Hx Hy. rewrite u8_shift by lia. unfold of_le16, u8. change (2 ^ 8) with 256. divmod.
Qed.

Definition bytes (l : list Z) : Prop := Forall (fun x => 0 <= x < 256) l.

(** ** A sector *)

Lemma ata_read_ok k : forall h b r drv lba left data s buf off buf', base_ok b -> ata_busy b h = 0%nat ->
  ata_view b h = (r, Reading drv lba left data, s) -> length data = (2 * S k)%nat -> bytes data ->
  mem_write buf off data = Some buf' ->
  exists h', ata_read (S k) b buf off h = Some (buf', h') /\
    let '(m, n) := next_read s drv (lba + 1) (left - 1) in becomes h h' b (r, m, s) n.
Proof.
  induction k as [|k IH]; intros h b r drv lba left data s buf off buf' Hb Hz Hv Hl HB HW.
  all: destruct data as [|x [|y data]]; [cbn in Hl; lia..|].
  all: apply Forall_cons in HB as [Hx HB]; apply Forall_cons in HB as [Hy HB].
  all: pose proof (ata_in h b r drv lba left x y data s Hb Hz Hv) as L.
  all: destruct (in16 (b + PORT_DATA) h) as [v h1] eqn:Ei; destruct L as [-> L].
  all: destruct (word_bytes x y Hx Hy) as (Hr & E0 & E1).
  all: apply (mem_write_split buf off [x; y] data) in HW as (b1 & HW1 & HW2).
  - destruct data; [|cbn in Hl; lia]. exists h1. rewrite decide_True in L by done. split; [|done].
    unfold mem_write in HW2. cif_in HW2; [|done]. change (zlen []) with 0 in *.
    rewrite splice_nil in HW2 by lia.
    injection HW2 as <-. cbn. unfold inw. rewrite port_u16 by done. rewrite Ei, u16_small, E0, E1 by done.
    by rewrite HW1.
  - assert (data <> []) as Hd by (intros ->; cbn in Hl; lia). rewrite decide_False in L by done.
    destruct L as [B Hz1]. destruct (IH h1 b r drv lba left data s b1 (off + 2) buf') as (h' & Hrun & Hn);
      [done|done|by destruct B|cbn in Hl; lia|done|done|].
    exists h'. split.
    + cbn [ata_read] in *. unfold inw at 1. rewrite port_u16 by done. rewrite Ei, u16_small, E0, E1 by done.
      rewrite HW1. exact Hrun.
    + destruct (next_read _ _ _ _) as [m n]. exact (becomes_trans _ _ _ _ _ _ 0 n B Hn).
Qed.

(** What the controller has become when it has taken a sector. *)
Definition taken h h' b r (drv lba left : Z) (data : list Z) s : Prop :=
  match s drv !! lba with
  | None => becomes h h' b (r, Failed, s) 1
  | Some _ => becomes h h' b (r, next_write drv (lba + 1) (left - 1), upd s drv (<[lba := data]> (s drv))) 1
  end.

Lemma ata_write_word k b buf off h x y : base_ok b -> zget buf off = Some x -> zget buf (off + 1) = Some y ->
  0 <= of_le16 x y < 65536 ->
  ata_write (S k) b buf off h = ata_write k b buf (off + 1 + 1) (out16 (b + PORT_DATA) (of_le16 x y) h).
Proof.
  intros Hb Hx Hy Hr. replace (off + 1 + 1) with (off + 2) by lia. cbn [ata_write]. rewrite Hx. mstep.
  rewrite Hy. mstep. unfold outw. by rewrite port_u16, u16_small.
Qed.

Lemma ata_write_ok k : forall h b r drv lba left got s buf off data, base_ok b -> ata_busy b h = 0%nat ->
  ata_view b h = (r, Writing drv lba left got, s) -> zlen got + 2 * Z.of_nat (S k) = SECTOR_SIZE -> bytes buf ->
  mem_read buf off (2 * Z.of_nat (S k)) = Some data ->
  exists h', ata_write (S k) b buf off h = Some h' /\ taken h h' b r drv lba left (got ++ data) s.
Proof.
  induction k as [|k IH]; intros h b r drv lba left got s buf off data Hb Hz Hv Hl HB HR.
  all: match type of HR with mem_read _ _ (2 * Z.of_nat (S ?j)) = _ =>
         replace (2 * Z.of_nat (S j)) with (1 + (1 + 2 * Z.of_nat j)) in HR by lia end.
  all: apply mem_read_cons in HR as (x & d1 & -> & Hx & HR); [|lia].
  all: apply mem_read_cons in HR as (y & d2 & -> & Hy & HR); [|lia].
  all: pose proof (zget_Forall _ _ _ _ HB Hx) as Rx; pose proof (zget_Forall _ _ _ _ HB Hy) as Ry.
  all: destruct (word_bytes x y Rx Ry) as (Hr & E0 & E1).
  all: pose proof (ata_out h b r drv lba left got s (of_le16 x y) Hb Hz Hv) as L; cbn zeta in L; rewrite E0, E1 in L.
  all: assert (zlen (got ++ [x; y]) = zlen got + 2) as Hg by (unfold zlen; rewrite length_app; cbn; lia).
  all: rewrite Hg in L; destruct (Z.ltb_spec (zlen got + 2) SECTOR_SIZE); [|lia || idtac]; try lia.
  - unfold mem_read in HR. cif_in HR; [|done]. injection HR as <-.
    eexists. split; [|exact L]. by rewrite (ata_write_word 0 b buf off h x y).
  - destruct L as [B Hz1]. eapply (IH _ b r drv lba left _ s buf (off + 1 + 1) d2) in Hz1 as (h' & Hrun & Ht);
      [|done|by destruct B|lia|done|done].
    exists h'. split.
    + by rewrite (ata_write_word (S k) b buf off h x y).
    + unfold taken in *. rewrite <- app_assoc in Ht. cbn [app] in Ht.
      destruct (s drv !! lba); exact (becomes_trans _ _ _ _ _ _ 0 1 B Ht).
Qed.

(** ** Transfers *)

Definition sectors_ok (t : store) : Prop := forall lba data, t !! lba = Some data -> bytes_ok SECTOR_SIZE data.

(** An interrupt has come: the thread runs again and finds out how it went. *)
Lemma wait_sector h b v : base_ok b -> ata_view b h = v -> irqs h = 1 -> exists f0 h',
  ata_busy b h' = 0%nat /\ becomes h h' b v (-1) /\
  forall fuel, (f0 <= fuel)%nat ->
    (h1 ← wait_irq h; ata_wait fuel b h1) = Some (b2z (failed v.1.2), h').
Proof.
  intros Hb Hv Hi. destruct (ata_irq h) as [Hi1 Hs]; [lia|].
  destruct (ata_wait_ends (irq_take h) b Hb) as (f0 & h' & Hz & (E & Ho & Hi2) & Hw).
  exists f0, h'. rewrite Hs, Hv in * by done. split; [done|]. split.
  - split; [done|]. split; [|lia]. intros b' Hb' Hne. by rewrite Ho, Hs.
  - intros fuel Hf. unfold wait_irq. rewrite Hi. cbn. by apply Hw.
Qed.

Lemma read_loop_refines n b r drv s : base_ok b -> sectors_ok (s drv) ->
  forall h left lba i off buf err buf', left <= Z.of_nat n ->
  ata_view b h = (r, (next_read s drv lba left).1, s) -> irqs h = (next_read s drv lba left).2 ->
  read_loop n (s drv) SECTOR_SIZE left lba i off buf = Some (err, buf') ->
  exists f0 h' m, becomes h h' b (r, m, s) (- irqs h) /\ forall fuel, (f0 <= fuel)%nat ->
    port_read_loop fuel n b SECTOR_SIZE i off buf h = Some (err, buf', h').
Proof.
  intros Hb Hok. induction n as [|n IH]; intros h left lba i off buf err buf' Hn Hv Hi HR.
  { injection HR as <- <-. unfold next_read in *. destruct (Z.leb_spec left 0); [|lia].
    exists 0%nat, h, Idle. split; [split; [done|]; split; [done|]; cbn in Hi; lia|done]. }
  cbn [read_loop] in HR. unfold next_read in Hv, Hi.
  destruct (Z.leb_spec left 0) as [|Hleft]; [done|].
  destruct (s drv !! lba) as [data|] eqn:Ed; cbn [fst snd] in Hv, Hi.
  2: { injection HR as <- <-. destruct (wait_sector h b _ Hb Hv Hi) as (f0 & h' & _ & B & Hw).
       exists f0, h', Failed. rewrite Hi. split; [done|]. intros fuel Hf. cbn [port_read_loop].
       specialize (Hw fuel Hf). apply bind_Some in Hw as (h1 & -> & Hw). cbn. by rewrite Hw. }
  destruct (Hok _ _ Ed) as [Hl HB].
  rewrite take_ge in HR by (unfold zlen in Hl; lia). apply bind_Some in HR as (b1 & HW & HR).
  change (SECTOR_SIZE =? 0) with false in HR. cbn iota in HR.
  destruct (wait_sector h b _ Hb Hv Hi) as (f0 & h1 & Hz & B & Hw).
  destruct (ata_read_ok 255 h1 b r drv lba left data s buf off b1 Hb Hz) as (h2 & Hrd & B2);
    [by destruct B|unfold zlen, SECTOR_SIZE in Hl; lia|done|done|].
  destruct (next_read s drv (lba + 1) (left - 1)) as [m k] eqn:En.
  pose proof (becomes_trans _ _ _ _ _ _ _ _ B B2) as B12.
  destruct (IH h2 (left - 1) (lba + 1) (i + 1) (off + SECTOR_SIZE * (i + 1)) b1 err buf')
    as (f1 & h' & m' & B3 & Hrun); [lia|rewrite En; by destruct B2|rewrite En; cbn; destruct B12 as (_ & _ & ->); lia|done|].
  exists (f0 + f1)%nat, h', m'. split.
  - replace (- irqs h) with (-1 + k + - irqs h2) by (destruct B12 as (_ & _ & ->); lia).
    exact (becomes_trans _ _ _ _ _ _ _ _ B12 B3).
  - intros fuel Hf. cbn [port_read_loop]. specialize (Hw fuel ltac:(lia)).
    apply bind_Some in Hw as (h0 & -> & Hw). cbn [mbind option_bind]. rewrite Hw. mstep.
    change (nz (b2z (failed (r, Reading drv lba left data, s).1.2))) with false. cbn iota.
    change (Z.to_nat (SECTOR_SIZE / 2)) with 256%nat. rewrite Hrd. mstep. apply Hrun. lia.
Qed.

Lemma write_loop_refines n b r drv : base_ok b -> forall s h left lba i off buf err t, bytes buf ->
  0 <= left <= Z.of_nat n -> (0 < left -> ata_busy b h = 0%nat) ->
  ata_view b h = (r, next_write drv lba left, s) -> irqs h = 0 ->
  write_loop n (s drv) SECTOR_SIZE left lba i off buf = Some (err, t) ->
  exists f0 h' m s', becomes h h' b (r, m, s') 0 /\ s' drv = t /\ (forall k, k <> drv -> s' k = s k) /\
    forall fuel, (f0 <= fuel)%nat -> port_write_loop fuel n b SECTOR_SIZE i off buf h = Some (err, h').
Proof.
  intros Hb. induction n as [|n IH]; intros s h left lba i off buf err t HB Hn Hz Hv Hi HW.
  { injection HW as <- <-. exists 0%nat, h, (next_write drv lba left), s.
    split; [split; [done|]; split; [done|]; lia|done]. }
  cbn [write_loop] in HW. unfold next_write in Hv. destruct (Z.leb_spec left 0) as [|Hleft]; [done|].
  specialize (Hz Hleft). apply bind_Some in HW as (data & HR & HW).
  change (SECTOR_SIZE =? 0) with false in HW. cbn iota in HW.
  destruct (ata_write_ok 255 h b r drv lba left [] s buf off data Hb Hz Hv) as (h1 & Hwr & B); [done..|].
  unfold taken in B. cbn [app] in B. destruct (s drv !! lba) as [old|] eqn:Ed.
  2: { injection HW as <- <-. destruct (wait_sector h1 b _ Hb (proj1 B)) as (f0 & h' & _ & B2 & Hw);
         [destruct B as (_ & _ & ->); lia|].
       exists f0, h', Failed, s. split; [exact (becomes_trans _ _ _ _ _ _ _ _ B B2)|]. split; [done|]. split; [done|].
       intros fuel Hf. cbn [port_write_loop]. change (Z.to_nat (SECTOR_SIZE / 2)) with 256%nat. rewrite Hwr. mstep.
       change (SECTOR_SIZE <=? 0) with false. cbn iota.
       specialize (Hw fuel Hf). apply bind_Some in Hw as (h2 & -> & Hw). cbn. by rewrite Hw. }
  destruct (wait_sector h1 b _ Hb (proj1 B)) as (f0 & h2 & Hz2 & B2 & Hw); [destruct B as (_ & _ & ->); lia|].
  set (s1 := upd s drv (<[lba:=data]> (s drv))) in *.
  assert (s1 drv = <[lba:=data]> (s drv)) as E1 by (unfold s1, upd; by rewrite Z.eqb_refl).
  pose proof (becomes_trans _ _ _ _ _ _ _ _ B B2) as B12.
  destruct (IH s1 h2 (left - 1) (lba + 1) (i + 1) (off + SECTOR_SIZE * (i + 1)) buf err t)
    as (f1 & h' & m & s' & B3 & Et & Eo & Hrun);
    [done|lia|done|by destruct B2|destruct B12 as (_ & _ & ->); lia|by rewrite E1|].
  exists (f0 + f1)%nat, h', m, s'. split; [exact (becomes_trans _ _ _ _ _ _ _ _ B12 B3)|]. split; [done|]. split.
  - intros k Hk. rewrite Eo by done. unfold s1, upd. by destruct (Z.eqb_spec k drv).
  - intros fuel Hf. cbn [port_write_loop]. change (Z.to_nat (SECTOR_SIZE / 2)) with 256%nat. rewrite Hwr. mstep.
    change (SECTOR_SIZE <=? 0) with false. cbn iota. specialize (Hw fuel ltac:(lia)).
    apply bind_Some in Hw as (h0 & -> & Hw). cbn [mbind option_bind]. rewrite Hw. mstep.
    replace (nz _) with false by (unfold next_write; by destruct (left - 1 <=? 0)). apply Hrun. lia.
Qed.

Lemma mem_read_bytes buf off n data : bytes buf -> mem_read buf off n = Some data -> bytes_ok n data.
Proof.
  intros HB HR. unfold mem_read in HR. cif_in HR; [|done]. injection HR as <-.
  split; [apply zlen_sub; lia|]. unfold sub. by apply Forall_take, Forall_drop.
Qed.

Lemma write_loop_sectors n : forall t left lba i off buf err t', bytes buf -> sectors_ok t ->
  write_loop n t SECTOR_SIZE left lba i off buf = Some (err, t') -> sectors_ok t'.
Proof.
  induction n as [|n IH]; intros t left lba i off buf err t' HB Hok HW; cbn [write_loop] in HW;
    [by injection HW as _ <-|].
  destruct (left <=? 0); [done|]. apply bind_Some in HW as (data & HR & HW).
  change (SECTOR_SIZE =? 0) with false in HW. cbn iota in HW.
  destruct (t !! lba); [|by injection HW as _ <-]. eapply IH; [done| |exact HW].
  intros k x [[<- <-]|[_ Hx]]%lookup_insert_Some; [by eapply mem_read_bytes|by eapply Hok].
Qed.

Lemma mod2_cases x : x mod 2 = 0 \/ x mod 2 = 1.
Proof. pose proof (Z.mod_pos_bound x 2). lia. Qed.

Lemma zget_bound {A} (l : list A) i x : zget l i = Some x -> 0 <= i < zlen l.
Proof.
  unfold zget, zlen. destruct (Z.ltb_spec i 0); [done|]. intros Hx%lookup_lt_Some. lia.
Qed.

(** ** The relation between the two models *)

(** The controllers hold the sectors of the disks, and no interrupt is left
    over. *)
Record drives_ok (disks : list disk_t) (h : hw) : Prop := {
  do_irqs : irqs h = 0;
  do_count : zlen disks <= DISK_COUNT;
  do_disk di d : zget disks di = Some d -> drive d = di mod 2 /\ sectors_ok (sectors d) /\
    (ata_view (port_base di) h).2 (drive d) = sectors d;
}.

Lemma detect_parts_keeps i d e d' : detect_parts i d = Some (e, d') -> drive d' = drive d /\ sectors d' = sectors d.
Proof.
  unfold detect_parts. destruct (sectors d !! _) as [mbr|]; intros E; mopen; by simplify_eq.
Qed.

Lemma detect_disk_keeps i d e d' : detect_disk i d = Some (e, d') -> drive d' = drive d /\ sectors d' = sectors d.
Proof.
  unfold detect_disk. destruct (identify d) as [buf|]; [|by intros [= _ <-]].
  intros (n & _ & E)%bind_Some. apply bind_Some in E as (p0 & _ & E). apply bind_Some in E as (ps & _ & E).
  apply bind_Some in E as ([e1 d1] & [E1 E2]%detect_parts_keeps & E). by injection E as _ <-.
Qed.

(** [init_disk] sets the table up the way the relation asks for. *)
Lemma init_disk_ready disks disks' h : init_disk disks = Some disks' -> irqs h = 0 -> zlen disks = DISK_COUNT ->
  (forall di d, zget disks di = Some d -> sectors_ok (sectors d) /\
     (ata_view (port_base di) h).2 (di mod 2) = sectors d) -> drives_ok disks' h.
Proof.
  intros E Hi Hl Hs.
  eapply (for_inv_partial (fun i l => zlen l = DISK_COUNT /\ forall di d, zget l di = Some d ->
    (di < i -> drive d = di mod 2) /\ sectors_ok (sectors d) /\
    (ata_view (port_base di) h).2 (di mod 2) = sectors d)) in E.
  - destruct E as [Hz E]. split; [done|lia|]. intros di d Hd. destruct (E di d Hd) as (Hdr & Hok & Hv).
    pose proof (zget_bound _ _ _ Hd). rewrite Hdr by (unfold DISK_COUNT in *; lia). done.
  - split; [done|]. intros di d Hd. split; [|by apply Hs]. pose proof (zget_bound _ _ _ Hd). lia.
  - intros i l l' _ [Hz HI] Hb. apply bind_Some in Hb as (d & Hd & Hb). apply bind_Some in Hb as ([e d'] & Hdet & Hb).
    apply detect_disk_keeps in Hdet as [E1 E2]. cbn in E1, E2. split; [by rewrite (zlen_zset _ _ _ _ Hb)|].
    intros dj dd Hdj. rewrite (zget_zset _ _ _ _ _ Hb) in Hdj. destruct (Z.eqb_spec dj i) as [->|].
    + injection Hdj as <-. rewrite E1, E2. destruct (HI i d Hd) as (_ & Hok & Hv). done.
    + destruct (HI dj dd Hdj) as (Hdr & Hok & Hv). split; [|done]. intros Hlt. apply Hdr. lia.
Qed.

(** The disk of the device's partition was found by [detect_disk]. *)
Definition detected (disks : list disk_t) (dev : device_t) : Prop :=
  forall part di d, part_of disks dev = Some (Some part) -> part_disk part = Some di ->
    zget disks di = Some d -> sector_size d = SECTOR_SIZE.

(** Two disks have different ports or are different drives. *)
Lemma disks_apart di dj : 0 <= di < 3 -> 0 <= dj < 3 -> di <> dj -> port_base dj = port_base di ->
  dj mod 2 <> di mod 2.
Proof.
  intros Hi Hj Hne. assert (di = 0 \/ di = 1 \/ di = 2) as [->|[->| ->]] by lia;
  assert (dj = 0 \/ dj = 1 \/ dj = 2) as [->|[->| ->]] by lia; done.
Qed.

Lemma disk_read_refines disks dev addr size h buf r buf' disks' : drives_ok disks h -> detected disks dev ->
  0 < size -> disk_read disks dev addr buf size = Some (r, buf', disks') ->
  exists f0 h', drives_ok disks' h' /\ forall fuel, (f0 <= fuel)%nat ->
    port_disk_read fuel disks dev addr buf size h = Some (r, buf', h').
Proof.
  intros R Hdet Hn. unfold disk_read, port_disk_read. intros HR. apply bind_Some in HR as (part & Hp & HR).
  rewrite Hp. mstep. destruct part as [part|]; [|injection HR as <- <- <-; by exists 0%nat, h].
  destruct (part_disk part) as [di|] eqn:Epd; [|injection HR as <- <- <-; by exists 0%nat, h].
  apply bind_Some in HR as (d & Hd & HR). rewrite Hd. mstep. rewrite (Hdet _ _ _ Hp Epd Hd) in *. cbn zeta in HR.
  apply bind_Some in HR as ([err b1] & HL & HR). injection HR as <- <- <-.
  destruct (do_disk _ _ R di d Hd) as (Edrv & Hok & Esec).
  destruct (ata_view (port_base di) h) as [[r0 m0] s0] eqn:Ev. cbn [snd] in Esec.
  assert (drive d = 0 \/ drive d = 1) as Hdr by (rewrite Edrv; apply mod2_cases).
  pose proof (read_command_ok h (port_base di) (drive d) (u32 (addr + part_sector_start part)) size r0 m0 s0
    (port_base_ok di) Ev Hdr) as C. cbn zeta in C.
  set (ws := ata_cmd _ _ _ _) in *. set (h1 := ata_command _ _ _ _ _ _) in *.
  destruct (next_read s0 (drive d) (lba_start ws) (lba_count ws)) as [m1 k1] eqn:En. destruct C as (r1 & B1).
  destruct (read_loop_refines (Z.to_nat size) (port_base di) r1 (drive d) s0 (port_base_ok di)
    ltac:(by rewrite Esec) h1 (lba_count ws) (lba_start ws) 0 0 buf err b1) as (f0 & h' & m & B2 & Hrun).
  - pose proof (lba_count_le (drive d) (u32 (addr + part_sector_start part)) size COMMAND_READ Hn) as Hc.
    fold ws in Hc. lia.
  - rewrite En. by destruct B1.
  - rewrite En. destruct B1 as (_ & _ & ->). rewrite (do_irqs _ _ R). done.
  - by rewrite Esec.
  - exists f0, h'. split; [|intros fuel Hf; by rewrite Hrun].
    pose proof (becomes_trans _ _ _ _ _ _ _ _ B1 B2) as (Ev' & Eo & Ei).
    split; [|apply R|].
    + destruct B1 as (_ & _ & E1), B2 as (_ & _ & E2). rewrite E2. lia.
    + intros dj dd Hdj. destruct (do_disk _ _ R dj dd Hdj) as (? & ? & Es). split; [done|]. split; [done|].
      destruct (decide (port_base dj = port_base di)) as [E|E]; [|by rewrite Eo by (apply port_base_ok || done)].
      rewrite E in *. rewrite Ev'. by rewrite Ev in Es.
Qed.

Lemma disk_write_refines disks dev addr size h buf r disks' : drives_ok disks h -> detected disks dev ->
  0 < size -> bytes buf -> disk_write disks dev addr buf size = Some (r, disks') ->
  exists f0 h', drives_ok disks' h' /\ forall fuel, (f0 <= fuel)%nat ->
    port_disk_write fuel disks dev addr buf size h = Some (r, h').
Proof.
  intros R Hdet Hn HB. unfold disk_write, port_disk_write. intros HW. apply bind_Some in HW as (part & Hp & HW).
  rewrite Hp. mstep. destruct part as [part|]; [|injection HW as <- <-; by exists 0%nat, h].
  destruct (part_disk part) as [di|] eqn:Epd; [|injection HW as <- <-; by exists 0%nat, h].
  apply bind_Some in HW as (d & Hd & HW). rewrite Hd. mstep. rewrite (Hdet _ _ _ Hp Epd Hd) in *. cbn zeta in HW.
  apply bind_Some in HW as ([err t] & HL & HW). apply bind_Some in HW as (disks1 & Hset & HW). injection HW as <- <-.
  destruct (do_disk _ _ R di d Hd) as (Edrv & Hok & Esec).
  destruct (ata_view (port_base di) h) as [[r0 m0] s0] eqn:Ev. cbn [snd] in Esec.
  assert (drive d = 0 \/ drive d = 1) as Hdr by (rewrite Edrv; apply mod2_cases).
  pose proof (write_command_ok h (port_base di) (drive d) (u32 (addr + part_sector_start part)) size r0 m0 s0
    (port_base_ok di) Ev Hdr) as C. cbn zeta in C.
  set (ws := ata_cmd _ _ _ _) in *. set (h1 := ata_command _ _ _ _ _ _) in *. destruct C as (Hz & r1 & B1).
  destruct (write_loop_refines (Z.to_nat size) (port_base di) r1 (drive d) (port_base_ok di) s0 h1
    (lba_count ws) (lba_start ws) 0 0 buf err t) as (f0 & h' & m & s' & B2 & Et & Ek & Hrun); try done.
  - pose proof (lba_count_le (drive d) (u32 (addr + part_sector_start part)) size COMMAND_WRITE Hn) as Hc.
    fold ws in Hc. lia.
  - by destruct B1.
  - destruct B1 as (_ & _ & ->). rewrite (do_irqs _ _ R). done.
  - by rewrite Esec.
  - exists f0, h'. split; [|intros fuel Hf; by rewrite Hrun].
    pose proof (becomes_trans _ _ _ _ _ _ _ _ B1 B2) as (Ev' & Eo & Ei).
    split; [rewrite Ei, (do_irqs _ _ R); lia|rewrite (zlen_zset _ _ _ _ Hset); apply R|].
    intros dj dd Hdj. rewrite (zget_zset _ _ _ _ _ Hset) in Hdj. destruct (Z.eqb_spec dj di) as [->|Hne].
    + injection Hdj as <-. cbn [drive sectors set_sectors]. rewrite Ev'. split; [done|].
      split; [by eapply write_loop_sectors|done].
    + destruct (do_disk _ _ R dj dd Hdj) as (Ed & ? & Es). split; [done|]. split; [done|].
      destruct (decide (port_base dj = port_base di)) as [E|E]; [|by rewrite Eo by (apply port_base_ok || done)].
      pose proof (zget_bound _ _ _ Hdj). pose proof (zget_bound _ _ _ Hd). pose proof (do_count _ _ R) as Hc.
      unfold DISK_COUNT in Hc. rewrite E in *. rewrite Ev'. cbn [snd]. rewrite Ek; [by rewrite Ev in Es|].
      rewrite Ed, Edrv. apply disks_apart; (done || lia).
Qed.
End Laws.


(** ** A simulated pair of controllers *)

(** A controller is busy for two readings of its status after a command that
    reads and after every sector. *)
Record sim := Sim { sv : Z -> view; sb : Z -> nat; si : Z }.

Definition setv (h : sim) (b : Z) (v : view) (k : nat) (n : Z) : sim :=
  Sim (fun x => if x =? b then v else sv h x) (fun x => if x =? b then k else sb h x) (si h + n).

Definition sim_out8 (port v : Z) (h : sim) : sim :=
  let b := port / 8 * 8 in
  let '(r, m, s) := sv h b in
  if port mod 8 =? PORT_STATUS_COMMAND then
    if v =? COMMAND_READ then
      let '(m', n) := next_read s (selected r) (lba_start r) (lba_count r) in setv h b (r, m', s) 2 n
    else if v =? COMMAND_WRITE then
      setv h b (r, next_write (selected r) (lba_start r) (lba_count r), s) 0 0
    else h
  else setv h b (r ++ [(port mod 8, v)], m, s) (sb h b) 0.

Definition sim_in8 (port : Z) (h : sim) : Z * sim :=
  let b := port / 8 * 8 in
  match sb h b with
  | O => (if failed (sv h b).1.2 then 1 else 8, setv h b (sv h b) 0 0)
  | S k => (128, setv h b (sv h b) k 0)
  end.

Definition sim_in16 (port : Z) (h : sim) : Z * sim :=
  let b := port / 8 * 8 in
  match sv h b with
  | (r, Reading drv lba n0 (b0 :: b1 :: rest), s) =>
      (of_le16 b0 b1,
       if decide (rest = []) then let '(m, n) := next_read s drv (lba + 1) (n0 - 1) in setv h b (r, m, s) 2 n
       else setv h b (r, Reading drv lba n0 rest, s) 0 0)
  | _ => (0, h)
  end.

Definition sim_out16 (port v : Z) (h : sim) : sim :=
  let b := port / 8 * 8 in
  match sv h b with
  | (r, Writing drv lba n0 got, s) =>
      let got' := got ++ [u8 v; u8 (Z.shiftr v 8)] in
      if zlen got' <? SECTOR_SIZE then setv h b (r, Writing drv lba n0 got', s) 0 0
      else match s drv !! lba with
           | None => setv h b (r, Failed, s) 2 1
           | Some _ => setv h b (r, next_write drv (lba + 1) (n0 - 1), upd s drv (<[lba := got']> (s drv))) 2 1
           end
  | _ => h
  end.

#[export] Instance sim_ports : Ports sim :=
  {| in8 := sim_in8; out8 := sim_out8; in16 := sim_in16; out16 := sim_out16;
     in32 := fun _ h => (0, h); out32 := fun _ _ h => h |}.
#[export] Instance sim_ata : AtaPorts sim :=
  {| ata_view := fun b h => sv h b; ata_busy := fun b h => sb h b; irqs := si;
     irq_take := fun h => Sim (sv h) (sb h) (si h - 1) |}.

Lemma sim_becomes (h : sim) b v k n : becomes h (setv h b v k n) b v n.
Proof.
  split; [cbn; by rewrite Z.eqb_refl|]. split; [|done]. intros b' _ Hne. cbn. by destruct (Z.eqb_spec b' b).
Qed.

Ltac sim_busy := cbn; rewrite Z.eqb_refl; lia.

Lemma sim_port b p : base_ok b -> 0 <= p < 8 -> (b + p) / 8 * 8 = b /\ (b + p) mod 8 = p.
Proof. intros [-> | ->] Hp; unfold PRIMARY_PORT_BASE, SECONDARY_PORT_BASE; divmod. Qed.

#[export] Instance sim_laws : AtaLaws sim.
Proof.
  split.
  - intros h b p v Hb Hp. destruct (sim_port b p Hb ltac:(lia)) as [E1 E2]. cbn. unfold sim_out8. rewrite E1, E2.
    destruct (sv h b) as [[r m] s]. destruct (Z.eqb_spec p PORT_STATUS_COMMAND) as [->|]; [|apply sim_becomes].
    unfold PORT_STATUS_COMMAND in Hp. lia.
  - intros h b Hb. destruct (sim_port b PORT_STATUS_COMMAND Hb ltac:(done)) as [E1 E2]. cbn. unfold sim_out8.
    rewrite E1, E2. destruct (sv h b) as [[r m] s]. cbn. destruct (next_read _ _ _ _). apply sim_becomes.
  - intros h b Hb. destruct (sim_port b PORT_STATUS_COMMAND Hb ltac:(done)) as [E1 E2]. cbn. unfold sim_out8.
    rewrite E1, E2. destruct (sv h b) as [[r m] s]. cbn - [setv]. split; [apply sim_becomes|sim_busy].
  - intros h b Hb. destruct (sim_port b PORT_STATUS_COMMAND Hb ltac:(done)) as [E1 E2]. cbn. unfold sim_in8.
    rewrite E1. destruct (sb h b) as [|k].
    + split; [by destruct (failed _)|]. split; [apply sim_becomes|].
      split; [by destruct (failed _)|]. split; [by destruct (failed _)|sim_busy].
    + split; [done|]. split; [apply sim_becomes|]. split; [done|]. sim_busy.
  - intros h b r drv lba left b0 b1 rest s Hb _ Hv. destruct (sim_port b PORT_DATA Hb ltac:(done)) as [E1 _].
    cbn in *. unfold sim_in16. rewrite E1, Hv. split; [done|].
    case_decide; [destruct (next_read _ _ _ _); apply sim_becomes|split; [apply sim_becomes|sim_busy]].
  - intros h b r drv lba left got s v Hb _ Hv. destruct (sim_port b PORT_DATA Hb ltac:(done)) as [E1 _].
    cbn in *. unfold sim_out16. rewrite E1, Hv.
    destruct (_ <? SECTOR_SIZE); [split; [apply sim_becomes|sim_busy]|].
    destruct (s drv !! lba); apply sim_becomes.
  - intros h Hi. done.
Qed.

Definition demo_hw : sim := Sim (fun b => ([], Idle, fun k => if (b =? 496) && (k =? 0) then demo_store else ∅)) (fun _ => 0%nat) 0.

Lemma demo_drives : drives_ok [demo_disk] demo_hw.
Proof.
  split; [done|done|]. intros di d Hd. pose proof (zget_bound _ _ _ Hd) as Hb. change (zlen [demo_disk]) with 1 in Hb.
  assert (di = 0) as -> by lia. injection Hd as <-. split; [done|]. split; [|done].
  intros lba data Hl. unfold demo_disk, sectors, demo_store in Hl.
  apply elem_of_list_to_map_2 in Hl. apply list_elem_of_fmap in Hl as (k & [= -> ->] & Hk).
  split; [done|]. apply Forall_replicate. set_unfold in Hk. lia.
Qed.

(** Two sectors read through the ports. *)
Example port_read_run :
  (fun x => x.1) <$> port_disk_read 3 [demo_disk] demo_dev 1 (replicate 1024 0) 2 demo_hw
  = Some (2, replicate 512 3 ++ replicate 512 4).
Proof. vm_compute. reflexivity. Qed.

(** A transfer of no sectors asks the controller for 65536 and leaves the
    interrupt of the first one behind. *)
Lemma zero_sectors_interrupt :
  (fun x => irqs x.2) <$> port_disk_read 3 [demo_disk] demo_dev 1 [] 0 demo_hw = Some 1.
Proof. vm_compute. reflexivity. Qed.

